(* ===== verification/_CoqProject ===== *)
-Q . S2P
Prelude.v
GoString.v
Utf8.v
Lib.v
GoFloat.v
GoDecimal.v
Date.v
GoSlice.v
Color.v
StyleTables.v
NumFmt.v
Templates.v
XmlWorksheet.v
XmlWorkbook.v
XmlStyles.v
XmlDrawing.v
XmlChart.v
SheetData.v
File.v
Store.v
Workbook.v
Cell.v
Adjust.v
Rows.v
Cols.v
SheetOpts.v
DataValidation.v
Parts.v
Sheets.v
Table.v
Comment.v
Drawing.v
Picture.v
Chart.v
Shape.v
Archive.v
Styles.v
CondFormat.v
CellValue.v
CellTypes.v
ReadRows.v
GridSpec.v
Spreadsheet.v
WorkbookSpec.v
SavedWorkbook.v
