(* ===== verification/Prelude.v ===== *)
(** * A verification development for excelize

    excelize is a Go package that reads and writes XLSX workbooks. A workbook is
    a zip archive of XML parts; the package decodes a part on its first use,
    keeps the structure in memory, changes it through some two hundred methods
    of [File], and serialises what is in memory when the workbook is saved. This
    development models the package's own logic, which is all of its functions:
    cell references, dates, number formats, the dense grid of a worksheet in
    memory, reading, writing, merging and linking cells, rows and columns and
    their insertion and removal, styles and conditional formats, tables and
    filters, the settings of a sheet, comments, pictures, charts and shapes, the
    sheets of a workbook, the caches between structures and parts, and the
    archive.

    ** Conventions

    - An [int] is a [Z] with explicit 64-bit wrap-around ([iadd], [isub], [imul]);
      arithmetic that cannot leave the range (an index of a slice) is plain.
    - A [string] is a sequence of bytes; runes are decoded as Go does (Utf8).
    - A [float64] is a [spec_float] with IEEE rounding to nearest (GoFloat), its
      text conversions are exact (GoDecimal).
    - A function that can panic returns an [outcome]; a method of [File] is a
      computation of the state monad [GoM File]. A Go error is a value of
      [goerr] beside the other results, as in the source: the values returned
      with an error and the writes made before it are part of the model.
    - A struct is a record with the source's field names behind the name of the
      type; [gozero] is its zero value. A nil pointer to a struct is [None]; a
      slice is a list, and nil and the empty slice are the same list where the
      code does not tell them apart. A worksheet pointer is the path under which
      [File_Sheet] holds the worksheet, so that aliasing goes through the state.
    - Slices that are shortened while a loop runs over them keep their backing
      array (GoSlice), and the slice of pointers of the merged areas is a list
      of indices into a store (Adjust).
    - Code outside the repository is a parameter: the class [GoEnv] (File) holds
      the XML codec of each part, the row elements that the token stream of a
      text gives, the JSON decoder of each option text, regular expressions of
      the caller, the image decoder, the zip format, the Unicode case tables, the
      deep copy of a worksheet and the order in which [range] visits a map. [example_env] is a concrete
      environment, which the witnesses use with some fields replaced.

    What a theorem needs of a parameter is a hypothesis with a name:
    [range_map_ok] (File), [range] visits every entry once; [deepcopy_ok] (File), a
    deep copy has the fields of the original; [marshals_as] (File),
    an encoding is an element of the given name; [rows_read_back] (ReadRows), the
    rows of the sheet at hand are decoded from its own text; [codec_keeps],
    [zip_ok], [parts_apart] and [strings_read] (Archive), the parts at hand are
    read back from what was written, a zip writer over a buffer accepts entries
    that can be files of an archive ([entries_fit]) and they are read back, and no
    two structures are saved under one name; [decodes_default_style] (CellValue), the
    text of the default date style is decoded as JSON; [savable] (SavedWorkbook),
    the file can be saved and the structures at hand are read back; [media_named] (Picture)
    and [commentable] (Comment), the state of the parts that these operations
    number; [decodes_templates] (WorkbookSpec), the templates of a new workbook are
    decoded as they are written.

    ** The files

    - Prelude: integers, outcomes, the error type, the state monad, record update.
    - GoString, Utf8, GoFloat, GoDecimal, GoSlice: what the code uses of the
      packages strings, strconv, unicode/utf8 and math, and of slices.
    - Lib ([lib.go], [errors.go]): cell and column names, the password hash.
    - Date ([date.go]): serial dates, over a model of [time.Time].
    - Color ([hsl.go], [ThemeColor] of [styles.go]): colours and tints.
    - StyleTables, NumFmt ([styles.go]): number format tables and functions.
    - Templates ([templates.go]), XmlWorksheet, XmlWorkbook, XmlStyles,
      XmlDrawing, XmlChart ([xml*.go]): literals and data structures.
    - SheetData ([excelize.go], [rows.go], [sheet.go]): the grid. A worksheet in
      memory is dense ([wf_sheet]): row [i] of the slice is row [i + 1] of the
      sheet and cell [j] of a row is in column [j + 1]. [sparse_sheet] is what a
      part holds: rows and cells in ascending order, with gaps.
    - File: the record [File] and the readers and writers of the parts; Store:
      sheet names, loading and saving worksheets.
    - Workbook ([sheet.go], [file.go]): names, indices and relationships of the
      sheets, adding, deleting, renaming, copying, activating and hiding them.
    - Sheets: the abstract list of sheets that these operations refine.
    - Cell ([cell.go], [cellmerged.go]): values, formulas, hyperlinks, merging.
    - Adjust ([adjust.go]), Rows ([rows.go]), Cols ([col.go]): attributes of rows
      and columns, inserting, removing and duplicating them.
    - SheetOpts ([sheetview.go], [sheetpr.go], [sheet.go]): views, properties, page
      layout, panes, header, footer and protection; the three kinds of options
      are instances of one interface with its laws. DataValidation
      ([datavalidation.go]).
    - Parts ([picture.go], [comment.go], [chart.go]): the caches of the parts of
      sheets and drawings, their numbers, relationships and content types.
    - Table ([table.go]): tables, the auto filter and the parser of its
      expressions.
    - Comment ([comment.go]), Drawing ([col.go], [chart.go]), Picture
      ([picture.go]), Chart ([chart.go]), Shape ([shape.go]): objects on a sheet.
    - Archive ([file.go], [excelize.go], [lib.go]): saving and opening.
    - Styles, CondFormat ([styles.go]): cell formats and conditional formats.
    - CellValue ([cell.go], [excelize.go]): values of any type and whole rows;
      CellTypes: the types of the cells they make.
    - ReadRows ([rows.go], [sheet.go]): [GetRows], the row iterator, searching.
    - GridSpec: the abstract spreadsheet, cells at all positions with areas, rows,
      columns and links, and its steps; Spreadsheet: the operations on one worksheet
      refine it. WorkbookSpec: the abstract workbook, a list of names with such
      spreadsheets, that all operations on sheets and cells refine together.
      SavedWorkbook: saving and opening a file that represents one.

    A definition has the name of the function it translates. Where one function
    is split, the parts are named after what they do and the function composes
    them in the order of the source; where several functions have one course
    (the setters of a cell, of a row, of a column) the common course is one
    definition and each function an instance of it.

    ** What the theorems show

    - Refinement: traces of setters of values, rows of values, formulas, styles and
      links to locations, of merges, of attributes of rows and columns, and of
      insertions, duplications and removals behave like the steps of an abstract
      spreadsheet (GridSpec, Spreadsheet); traces of additions, deletions,
      renamings, activations and copies of sheets and of [UpdateLinkedValue]
      behave like operations on a list of names with contents (Sheets); traces of
      both kinds on the sheets of one workbook behave like their composition, also
      from a new workbook on (WorkbookSpec). No call of such a trace fails or
      panics, and the getters of values, styles, formulas, links, rows and
      columns return what the abstract state says. The same holds in the file that is
      opened after the workbook was saved (SavedWorkbook).
    - Names and coordinates: conversions are inverse to each other within the
      range of the integers, accepted names have one canonical form, invalid
      ones give the error of the source (Lib).
    - Dates: the Julian day algorithm agrees with the civil calendar, whole serial
      numbers count days and fractions are clock times (Date).
    - The grid: [checkSheet] and [checkRow] make the content of a part dense without
      moving or losing a cell, [prepareSheetXML] extends it, and the trimmed grid
      that is saved is rebuilt when it is read (SheetData, Store).
    - Cells: what a setter stores is what the getter returns, and no other cell
      changes (Cell, CellValue); what is stored has the type that the cell says
      (CellTypes). Hyperlinks are read back; merging redirects exactly the cells
      of the rectangle.
    - Rows and columns: inserting, removing and duplicating are the expected
      shifts of the grid, the areas, the links and the filter; removing an
      inserted row restores the sheet; attributes are read back (Rows, Cols).
    - Reading: [GetRows] returns the text of the cell at every position, which is
      what [GetCellValue] shows where no merged area covers it; a search finds
      exactly the cells that pass; the iterator meets every row and ends
      (ReadRows).
    - Styles: a new format has what was asked for and keeps the others, an area
      shows it and no other cell does; borders, number formats and conditional
      rules mean what the settings say (Styles, CondFormat).
    - Filters: the column that is written accepts what the expression means, for
      every documented form (Table).
    - Objects: comments and pictures are read back, the cells of an object are
      computed from its offset and size, the start column with the widths of the
      columns before, charts of each documented type are drawn with their series,
      and charts and shapes are anchored at their cell and leave everything else
      of the file ([only_drawing]) as it was (Comment, Picture, Drawing, Chart,
      Shape).
    - The archive: writing a workbook returns the first error of the archive
      writer; a workbook that is written and opened again has the same sheets,
      shows the same values and carries the other parts over (Archive,
      SavedWorkbook).
    - Colours: RGB and HSL are inverse on the greys and on a colour cube (Color).
    - Error paths: calls that return an error for their arguments change nothing,
      or change what the theorem says; the errors of the calls for one cell are
      exactly those of its sheet and of its name, whatever areas are merged
      (CellValue).
    - Behaviour that differs from the documentation or from what the operation
      means to do is stated by theorems as well: among others writes after a
      save, hiding a sheet, renaming a sheet to its own name, sheets whose number
      is not that of their part, areas and filters at the edge of a removal or an
      insertion, gaps after a duplication, widths over hidden columns, the links of
      a copied sheet, colliding numbers of relationships, images and comments, chart types that panic,
      conditional criteria without a formula.

    ** Bounds and fuel

    Loops over slices are structural recursions or maps. [ColumnNumberToName] and
    the number formatters divide, with the binary logarithm of the number as
    fuel, which is proved to be enough. The two loops of date.go count down a
    duration or days, with their quotient as fuel. The loops of
    [positionObjectPixels] walk over columns and rows as long as the rest of an
    offset or size exceeds their size; the columns and rows behind the last one
    with a size of its own take at least a pixel, and the fuel is the number of
    that one and of the pixels (Drawing). Theorems on positions assume coordinates
    from 1 to the largest 64-bit integer, and an insertion that the last position
    does not leave this range; rows and cells of a sheet are bounded by it too,
    as memory is.

    ** What is not modelled

    The XML, JSON and zip codecs, the file system, image decoding and the deep
    copy of a sheet are code outside the repository and parameters. [readFile]
    (lib.go), which copies an entry of the archive and ends the process when that
    fails, is part of the zip parameter. Pointers that a caller keeps into the structures
    of a [File] (the rule that [AddDataValidation] stores) are values; what is
    said of them is said of their content at the call. The formula of a cell is a
    value too, while [DuplicateRowTo] copies the pointer to it, and
    [SetCellFormula] writes through the pointer: a second formula on one of the
    two cells changes both, and the abstract step of [SetCellFormula] is for cells
    that have none. *)
From Stdlib Require Export Ascii.
From Stdlib Require String.
From stdpp Require Export base tactics list numbers strings gmap.
From Stdlib Require Export ZArith Lia.

#[global] Arguments String.append : simpl nomatch.

Declare Scope go_scope.
Delimit Scope go_scope with go.
#[global] Open Scope Z_scope.
#[global] Open Scope go_scope.

Create HintDb go_db discriminated.
Create Rewrite HintDb wrap.

(** ** Machine integers

    Go's [int] is 64 bits wide on the platforms the package supports; an
    operation whose operands come from a caller or from a file is written with
    its wrap-around. *)

Definition two64 : Z := 18446744073709551616.
Definition maxInt : Z := 9223372036854775807.
Definition minInt : Z := -9223372036854775808.

Definition wrap64 (z : Z) : Z := (z + 9223372036854775808) `mod` two64 - 9223372036854775808.

Abbreviation int64_range z := (minInt <= z <= maxInt).

Definition iadd (a b : Z) : Z := wrap64 (a + b).
Definition isub (a b : Z) : Z := wrap64 (a - b).
Definition imul (a b : Z) : Z := wrap64 (a * b).

Lemma wrap64_id z : int64_range z -> wrap64 z = z.
Proof.
  unfold wrap64, two64, minInt, maxInt. intros H. rewrite Z.mod_small; lia.
Qed.

Lemma wrap64_range z : int64_range (wrap64 z).
Proof.
  unfold wrap64, two64, minInt, maxInt.
  pose proof (Z.mod_pos_bound (z + 9223372036854775808) 18446744073709551616). lia.
Qed.

Lemma wrap64_mod a b : a `mod` two64 = b `mod` two64 -> wrap64 a = wrap64 b.
Proof.
  unfold wrap64. intros H. f_equal.
  rewrite <- (Zplus_mod_idemp_l a), H, Zplus_mod_idemp_l. done.
Qed.

Lemma wrap64_mod_two64 z : wrap64 z `mod` two64 = z `mod` two64.
Proof. unfold wrap64. rewrite Zminus_mod_idemp_l. f_equal. lia. Qed.

Lemma wrap64_add_l a b : wrap64 (wrap64 a + b) = wrap64 (a + b).
Proof.
  apply wrap64_mod. rewrite <- Zplus_mod_idemp_l, wrap64_mod_two64, Zplus_mod_idemp_l. done.
Qed.

Lemma wrap64_add_r a b : wrap64 (a + wrap64 b) = wrap64 (a + b).
Proof. rewrite Z.add_comm, wrap64_add_l. f_equal. lia. Qed.

Lemma wrap64_mul_l a b : wrap64 (wrap64 a * b) = wrap64 (a * b).
Proof.
  apply wrap64_mod. rewrite <- Zmult_mod_idemp_l, wrap64_mod_two64, Zmult_mod_idemp_l. done.
Qed.

Lemma wrap64_mul_r a b : wrap64 (a * wrap64 b) = wrap64 (a * b).
Proof. rewrite Z.mul_comm, wrap64_mul_l. f_equal. lia. Qed.

#[export] Hint Rewrite wrap64_add_l wrap64_add_r wrap64_mul_l wrap64_mul_r : wrap.

(** [int_lia] removes the wrap-arounds whose argument is in range. *)
Ltac int_lia :=
  unfold iadd, isub, imul in *;
  repeat (rewrite wrap64_id in * by (unfold minInt, maxInt in *; lia));
  unfold minInt, maxInt in *; try lia.

(** ** Outcomes, errors and the state monad

    A Go function returns its results or panics. A function whose results end
    in an [error] returns a pair of the other results and an [option goerr],
    exactly as in the source: the values returned beside an error are part of
    the model. *)

Inductive outcome (A : Type) : Type :=
| Ret (a : A)
| Panic.
Arguments Ret {A} _.
Arguments Panic {A}.

#[export] Instance outcome_ret : MRet outcome := @Ret.
#[export] Instance outcome_bind : MBind outcome := fun A B f m =>
  match m with Ret a => f a | Panic => Panic end.

#[export] Instance outcome_eq_dec `{EqDecision A} : EqDecision (outcome A).
Proof. solve_decision. Defined.

(** The errors the modelled code builds, one constructor per message with the
    values it is formatted from. *)
Inductive goerr : Type :=
| ErrInvalidColumnName (col : string)
| ErrInvalidRowNumber (row : Z)
| ErrInvalidCellName (cell : string)
| ErrIncorrectColumnNumber (num : Z)
| ErrCannotConvertCell (cell : string) (cause : goerr)
| ErrInvalidCoordinates (col row : Z)
| ErrInvalidCoordinatesCause (col row : Z) (cause : goerr)
| ErrSheetNotExist (sheet : string)
| ErrInvalidArea (ref : string)
| ErrInvalidLinkType (linkType : string)
| ErrText (msg : string)
| ErrTextArg (msg arg : string)
| ErrTextArgs (msg arg1 arg2 : string)
| ErrViewIndexOutOfRange (viewIndex : Z)
| ErrSyntax (s : string)
| ErrRange (s : string)
| ErrJSON (input : string).

#[export] Instance goerr_eq_dec : EqDecision goerr.
Proof. solve_decision. Defined.

(** State-passing computations that may panic. A Go panic unwinds the caller,
    so no state is returned with it; an error does not undo any write. *)
Definition GoM (S A : Type) : Type := S -> outcome (A * S).

Section gom.
Context {S : Type}.

#[export] Instance gom_ret : MRet (GoM S) := fun A a s => Ret (a, s).
#[export] Instance gom_bind : MBind (GoM S) := fun A B f m s =>
  match m s with Ret (a, s') => f a s' | Panic => Panic end.

Definition get : GoM S S := fun s => Ret (s, s).
Definition gets {A} (f : S -> A) : GoM S A := fun s => Ret (f s, s).
Definition put (s : S) : GoM S unit := fun _ => Ret (tt, s).
Definition modify (f : S -> S) : GoM S unit := fun s => Ret (tt, f s).
Definition panic {A} : GoM S A := fun _ => Panic.
Definition lift {A} (o : outcome A) : GoM S A := fun s =>
  match o with Ret a => Ret (a, s) | Panic => Panic end.

(** [for _, x := range l { body }] without an early return. *)
Fixpoint forM {A} (l : list A) (body : A -> GoM S unit) : GoM S unit :=
  match l with
  | [] => mret tt
  | x :: l' => body x ≫= fun _ => forM l' body
  end.

(** The same loop whose body may return from the function: [Some r] is
    [return r], [None] goes on. *)
Fixpoint forRet {A R} (l : list A) (body : A -> GoM S (option R)) : GoM S (option R) :=
  match l with
  | [] => mret None
  | x :: l' => body x ≫= fun o =>
      match o with Some r => mret (Some r) | None => forRet l' body end
  end.
End gom.

(** [let! x := c orelse d in k]: run [c], a call returning a value and an error; return
    [d] with the error when there is one, go on with [x] otherwise. This is
    [x, err := c; if err != nil { return d, err }]. *)
Notation "'let!' x ':=' c 'orelse' d 'in' k" :=
  (mbind (fun r => match r with (_, Some e) => mret (d, Some e) | (x, None) => k end) c)
  (at level 10, x pattern, c at level 100, d at level 100, k at level 200,
   format "'let!'  x  ':='  c  'orelse'  d  'in' '//' k")
  : go_scope.

(** A result paired with the absence of an error. *)
Abbreviation ok x := (x, @None goerr) (only parsing).
Abbreviation err_with x e := (x, Some (e : goerr)) (only parsing).

(** ** Record update

    [r <| f := v |>] is the Go assignment [r.f = v] and [r <| f ::= g |>]
    applies [g] to the field. Both need only an [Eta] instance for the record
    type, which rebuilds a value from its fields; the new record is obtained by
    abstracting the updated field in that eta-expansion. *)
Class Eta (R : Type) := eta_of : R -> R.

Class FieldUpdate {R T : Type} (proj : R -> T) := field_update : (T -> T) -> R -> R.

Ltac solve_field_update :=
  lazymatch goal with
  | |- @FieldUpdate ?R ?T ?proj =>
      let inst := constr:(_ : Eta R) in
      let g := fresh "upd" in let r := fresh "rec" in
      intros g r;
      let body := eval hnf in (inst r) in
      lazymatch eval pattern (proj r) in body with
      | ?F _ => let t := eval cbv beta in (F (g (proj r))) in exact t
      end
  end.

#[export] Hint Extern 1 (FieldUpdate _) => solve_field_update : typeclass_instances.

Notation "r <| f ::= g |>" := (field_update (proj := f) g r)
  (at level 1, f at level 9, g at level 200, left associativity) : go_scope.
Notation "r <| f := v |>" := (field_update (proj := f) (fun _ => v) r)
  (at level 1, f at level 9, v at level 200, left associativity) : go_scope.

