(* ===== verification/GoString.v ===== *)
(** Go strings and the parts of [strings], [strconv] and [unicode/utf8] the
    package uses. A Go string (and a [[]byte]) is a [string]: a sequence of
    bytes, indexed and measured in bytes; runes appear only where the source
    ranges over a string or calls [unicode/utf8]. *)
From S2P Require Export Prelude.

(** ** Bytes *)

Definition byte_val (c : ascii) : Z := Z.of_N (N_of_ascii c).
Definition byte_of (z : Z) : ascii := ascii_of_N (Z.to_N (z `mod` 256)).

Definition len (s : string) : Z := Z.of_nat (String.length s).

(** [c1 <= c <= c2] on bytes. *)
Definition byte_in (lo hi : Z) (c : ascii) : bool := (lo <=? byte_val c) && (byte_val c <=? hi).

Definition is_upper : ascii -> bool := byte_in 65 90.
Definition is_lower : ascii -> bool := byte_in 97 122.
Definition is_alpha (c : ascii) : bool := is_upper c || is_lower c.
Definition is_digit : ascii -> bool := byte_in 48 57.
Definition is_ascii_byte (c : ascii) : bool := byte_val c <? 128.

Definition upper_byte (c : ascii) : ascii := if is_lower c then byte_of (byte_val c - 32) else c.
Definition lower_byte (c : ascii) : ascii := if is_upper c then byte_of (byte_val c + 32) else c.

Fixpoint str_map (f : ascii -> ascii) (s : string) : string :=
  match s with EmptyString => EmptyString | String c s' => String (f c) (str_map f s') end.

Fixpoint str_forallb (p : ascii -> bool) (s : string) : bool :=
  match s with EmptyString => true | String c s' => p c && str_forallb p s' end.

Fixpoint str_filter (p : ascii -> bool) (s : string) : string :=
  match s with
  | EmptyString => EmptyString
  | String c s' => if p c then String c (str_filter p s') else str_filter p s'
  end.

Fixpoint str_rev_go (s acc : string) : string :=
  match s with EmptyString => acc | String c s' => str_rev_go s' (String c acc) end.
Definition str_rev (s : string) : string := str_rev_go s EmptyString.

(** [s[:n]] and [s[n:]] for an index within the string. *)
Fixpoint str_take (n : nat) (s : string) : string :=
  match n, s with
  | O, _ => EmptyString
  | S n', String c s' => String c (str_take n' s')
  | S _, EmptyString => EmptyString
  end.

Fixpoint str_drop (n : nat) (s : string) : string :=
  match n, s with
  | O, _ => s
  | S n', String _ s' => str_drop n' s'
  | S _, EmptyString => EmptyString
  end.

(** ** Package strings *)

Fixpoint index_func_from (f : ascii -> bool) (s : string) (i : Z) : Z :=
  match s with
  | EmptyString => -1
  | String c s' => if f c then i else index_func_from f s' (i + 1)
  end.

(** [strings.IndexFunc] for a predicate that holds of ASCII runes only: the
    bytes of a longer encoding, or of an invalid one, never satisfy it. *)
Definition strings_IndexFunc (f : ascii -> bool) (s : string) : Z := index_func_from f s 0.

Fixpoint last_index_from (f : ascii -> bool) (s : string) (i found : Z) : Z :=
  match s with
  | EmptyString => found
  | String c s' => last_index_from f s' (i + 1) (if f c then i else found)
  end.

Definition strings_LastIndexFunc (f : ascii -> bool) (s : string) : Z := last_index_from f s 0 (-1).

Definition strings_HasPrefix (s pre : string) : bool := String.prefix pre s.

Definition strings_TrimPrefix (s pre : string) : string :=
  if String.prefix pre s then str_drop (String.length pre) s else s.

Definition strings_HasSuffix (s suf : string) : bool :=
  String.prefix (str_rev suf) (str_rev s).

Definition strings_TrimSuffix (s suf : string) : string :=
  if strings_HasSuffix s suf then str_take (String.length s - String.length suf) s else s.

Fixpoint strings_Contains (s sub : string) : bool :=
  String.prefix sub s || match s with EmptyString => false | String _ s' => strings_Contains s' sub end.

(** [strings.Split] with a separator of one byte. *)
Fixpoint strings_Split (s : string) (sep : ascii) : list string :=
  match s with
  | EmptyString => [EmptyString]
  | String c s' =>
      if Ascii.eqb c sep then EmptyString :: strings_Split s' sep
      else match strings_Split s' sep with
           | [] => [String c EmptyString]
           | p :: ps => String c p :: ps
           end
  end.

(** What precedes and what follows the first occurrence of [sub]. *)
Fixpoint str_cut (s sub : string) : option (string * string) :=
  if String.prefix sub s then Some (EmptyString, str_drop (String.length sub) s)
  else match s with
       | EmptyString => None
       | String c s' =>
           match str_cut s' sub with
           | Some (before, after) => Some (String c before, after)
           | None => None
           end
       end.

(** [strings.SplitN(s, sep, 2)]. *)
Definition strings_SplitN2 (s sep : string) : list string :=
  match str_cut s sep with Some (a, b) => [a; b] | None => [s] end.

(** [strings.Replace(s, old, new, 1)] for a non-empty [old]. *)
Definition strings_Replace1 (s old new : string) : string :=
  match str_cut s old with Some (a, b) => a +:+ new +:+ b | None => s end.

(** [strings.Replace(s, old, new, -1)] (and [bytes.Replace]) for a non-empty
    [old]: [skip] counts the bytes of the last match still to be dropped. *)
Fixpoint replace_go (s old new : string) (skip : nat) : string :=
  match s with
  | EmptyString => EmptyString
  | String c s' =>
      match skip with
      | S k => replace_go s' old new k
      | O => if String.prefix old s
             then new +:+ replace_go s' old new (String.length old - 1)
             else String c (replace_go s' old new O)
      end
  end.
Definition strings_Replace (s old new : string) : string := replace_go s old new 0.

Fixpoint strings_Join (l : list string) (sep : string) : string :=
  match l with
  | [] => EmptyString
  | [s] => s
  | s :: l' => s +:+ sep +:+ strings_Join l' sep
  end.

(** [strings.Count] for a substring of one byte. *)
Fixpoint strings_Count (s : string) (c : ascii) : Z :=
  match s with
  | EmptyString => 0
  | String c' s' => (if Ascii.eqb c' c then 1 else 0) + strings_Count s' c
  end.

(** Case mapping of a string with a byte outside ASCII goes through the Unicode
    tables, which are not part of the package: they are a parameter. *)
Class UnicodeTables := {
  unicode_upper : string -> string;
  unicode_lower : string -> string
}.

Definition strings_ToUpper `{UnicodeTables} (s : string) : string :=
  if str_forallb is_ascii_byte s then str_map upper_byte s else unicode_upper s.

Definition strings_ToLower `{UnicodeTables} (s : string) : string :=
  if str_forallb is_ascii_byte s then str_map lower_byte s else unicode_lower s.

(** ** Package strconv *)

Definition digit_val (c : ascii) : option Z :=
  if is_digit c then Some (byte_val c - 48) else None.

Definition maxUint64 : Z := 18446744073709551615.

(** The loop of [strconv.ParseUint] in base 10: a syntax error is found at the
    first byte that is not a digit, a range error at the first digit that
    overflows, whichever comes first. *)
Fixpoint parse_uint (s : string) (acc : Z) : Z * option bool :=
  match s with
  | EmptyString => (acc, None)
  | String c s' =>
      match digit_val c with
      | None => (0, Some false)
      | Some d =>
          let n := acc * 10 + d in
          if maxUint64 <? n then (maxUint64, Some true) else parse_uint s' n
      end
  end.

Definition strconv_ParseUint (s : string) : Z * option bool :=
  match s with EmptyString => (0, Some false) | _ => parse_uint s 0 end.

Definition split_sign (s : string) : bool * string :=
  match s with
  | String c s' =>
      if Ascii.eqb c "-" then (true, s') else if Ascii.eqb c "+" then (false, s') else (false, s)
  | EmptyString => (false, s)
  end.

(** [strconv.Atoi]: an optional sign and decimal digits; the value returned with
    a range error is the nearest bound. *)
Definition strconv_Atoi (s : string) : Z * option goerr :=
  let '(neg, body) := split_sign s in
  match strconv_ParseUint body with
  | (_, Some false) => (0, Some (ErrSyntax s))
  | (un, _) =>
      if negb neg && (maxInt <? un) then (maxInt, Some (ErrRange s))
      else if neg && (9223372036854775808 <? un) then (minInt, Some (ErrRange s))
      else ((if neg then - un else un), None)
  end.

Definition digit_char (d : Z) : ascii :=
  if d <? 10 then byte_of (48 + d) else byte_of (87 + d).

Fixpoint format_go (base : Z) (fuel : nat) (n : Z) (acc : string) : string :=
  match fuel with
  | O => acc
  | S f =>
      let acc' := String (digit_char (n `mod` base)) acc in
      if n `div` base =? 0 then acc' else format_go base f (n `div` base) acc'
  end.

(** The number of bits bounds the number of digits in any base. *)
Definition format_uint (base n : Z) : string := format_go base (S (Z.to_nat (Z.log2 n))) n EmptyString.

Definition strconv_FormatInt (n base : Z) : string :=
  if n <? 0 then String "-" (format_uint base (- n)) else format_uint base n.

(** [strconv.Itoa], and the verb [%d]. *)
Definition strconv_Itoa (n : Z) : string := strconv_FormatInt n 10.

(** [s[i:j]] of a string. *)
Definition str_slice (s : string) (i j : Z) : outcome string :=
  if (0 <=? i) && (i <=? j) && (j <=? len s)
  then Ret (str_take (Z.to_nat (j - i)) (str_drop (Z.to_nat i) s)) else Panic.

(** ** Lemmas on bytes *)

Lemma byte_val_range c : 0 <= byte_val c < 256.
Proof.
  unfold byte_val. pose proof (N_ascii_bounded c). lia.
Qed.

Lemma byte_of_val c : byte_of (byte_val c) = c.
Proof.
  unfold byte_of, byte_val. pose proof (N_ascii_bounded c).
  rewrite Z.mod_small by lia. rewrite N2Z.id. apply ascii_N_embedding.
Qed.

Lemma byte_val_of z : byte_val (byte_of z) = z `mod` 256.
Proof.
  unfold byte_of, byte_val. pose proof (Z.mod_pos_bound z 256).
  rewrite N_ascii_embedding by lia. lia.
Qed.

Lemma byte_val_of_small z : 0 <= z < 256 -> byte_val (byte_of z) = z.
Proof. intros. rewrite byte_val_of. apply Z.mod_small. lia. Qed.

Lemma byte_val_inj a b : byte_val a = byte_val b -> a = b.
Proof. intros H. rewrite <- (byte_of_val a), H. apply byte_of_val. Qed.

Lemma byte_in_spec lo hi c : byte_in lo hi c = true <-> lo <= byte_val c <= hi.
Proof. unfold byte_in. rewrite andb_true_iff, !Z.leb_le. lia. Qed.

(** [byte_lia] turns the byte predicates in the context and the goal into
    inequalities on [byte_val] and calls [lia]. *)
Ltac byte_cases :=
  repeat match goal with
  | H : is_upper _ = true |- _ => apply byte_in_spec in H
  | H : is_lower _ = true |- _ => apply byte_in_spec in H
  | H : is_digit _ = true |- _ => apply byte_in_spec in H
  | H : byte_in _ _ _ = true |- _ => apply byte_in_spec in H
  | H : is_alpha _ = true |- _ => unfold is_alpha in H; apply orb_true_iff in H; destruct H
  | |- context [is_alpha _] => unfold is_alpha
  | H : context [is_alpha _] |- _ => unfold is_alpha in H
  | |- context [is_upper _] => unfold is_upper
  | H : context [is_upper _] |- _ => unfold is_upper in H
  | |- context [is_lower _] => unfold is_lower
  | H : context [is_lower _] |- _ => unfold is_lower in H
  | |- context [is_digit _] => unfold is_digit
  | H : context [is_digit _] |- _ => unfold is_digit in H
  | |- context [byte_in _ _ _] => unfold byte_in
  | H : context [byte_in _ _ _] |- _ => unfold byte_in in H
  end.
Ltac byte_lia := byte_cases; try lia.

Lemma upper_byte_alpha c : is_alpha c = true -> is_upper (upper_byte c) = true.
Proof.
  unfold upper_byte, is_alpha. destruct (is_lower c) eqn:E; intros H.
  - byte_cases. rewrite byte_val_of_small by lia. lia.
  - rewrite orb_false_r in H. done.
Qed.

Lemma upper_byte_upper c : is_upper c = true -> upper_byte c = c.
Proof.
  unfold upper_byte. destruct (is_lower c) eqn:E; [|done]. intros. byte_cases. lia.
Qed.

Lemma upper_is_alpha c : is_upper c = true -> is_alpha c = true.
Proof. unfold is_alpha. by intros ->. Qed.

Lemma digit_not_alpha c : is_digit c = true -> is_alpha c = false.
Proof. intros. byte_lia. Qed.

#[export] Hint Resolve upper_byte_alpha upper_is_alpha digit_not_alpha byte_val_range : go_db.

(** ** Lemmas on strings *)

Lemma str_app_assoc a b c : (a +:+ b) +:+ c = a +:+ (b +:+ c).
Proof. induction a; cbn; [done|]. by f_equal. Qed.

Lemma str_app_nil_r s : s +:+ EmptyString = s.
Proof. induction s; cbn; [done|]. by f_equal. Qed.

Lemma str_app_nil_l s : EmptyString +:+ s = s.
Proof. done. Qed.

Lemma str_length_app a b : String.length (a +:+ b) = (String.length a + String.length b)%nat.
Proof. induction a; cbn; [done|]. by f_equal. Qed.

Lemma len_app a b : len (a +:+ b) = len a + len b.
Proof. unfold len. rewrite str_length_app. lia. Qed.

Lemma len_nonneg s : 0 <= len s.
Proof. unfold len. lia. Qed.

Lemma len_nil s : len s = 0 <-> s = EmptyString.
Proof. unfold len. destruct s; cbn; split; intros; try done; try lia. Qed.

Lemma str_take_app a b : str_take (String.length a) (a +:+ b) = a.
Proof. induction a; cbn; [by destruct b|]. by f_equal. Qed.

Lemma str_drop_app a b : str_drop (String.length a) (a +:+ b) = b.
Proof. induction a; cbn; [by destruct b|done]. Qed.

Lemma str_slice_inner a b c : str_slice (a +:+ b +:+ c) (len a) (len (a +:+ b +:+ c) - len c) = Ret b.
Proof.
  unfold str_slice. rewrite !len_app. pose proof (len_nonneg a). pose proof (len_nonneg b). pose proof (len_nonneg c).
  assert ((0 <=? len a) && (len a <=? len a + (len b + len c) - len c) &&
    (len a + (len b + len c) - len c <=? len a + (len b + len c)) = true) as -> by lia.
  f_equal. replace (Z.to_nat (len a)) with (String.length a) by (unfold len; lia). rewrite str_drop_app.
  replace (Z.to_nat (len a + (len b + len c) - len c - len a)) with (String.length b) by (unfold len; lia).
  apply str_take_app.
Qed.

Lemma str_take_drop n s : str_take n s +:+ str_drop n s = s.
Proof.
  revert s. induction n; intros [|c s]; cbn; try done. by rewrite IHn.
Qed.

Lemma str_length_take n s : (n <= String.length s)%nat -> String.length (str_take n s) = n.
Proof.
  revert s. induction n; intros [|c s]; cbn; intros; try lia. rewrite IHn; lia.
Qed.

Lemma str_forallb_app p a b : str_forallb p (a +:+ b) = str_forallb p a && str_forallb p b.
Proof. induction a as [|c a IH]; cbn; [done|]. rewrite IH. by rewrite andb_assoc. Qed.

Lemma str_forallb_impl (p q : ascii -> bool) s :
  (forall c, p c = true -> q c = true) -> str_forallb p s = true -> str_forallb q s = true.
Proof.
  intros Hpq. induction s as [|c s IH]; cbn; [done|]. rewrite !andb_true_iff. intros []; eauto.
Qed.

Lemma str_map_app f a b : str_map f (a +:+ b) = str_map f a +:+ str_map f b.
Proof. induction a; cbn; [done|]. by f_equal. Qed.

Lemma str_length_map f s : String.length (str_map f s) = String.length s.
Proof. induction s; cbn; [done|]. by f_equal. Qed.

Lemma str_map_id f s : (forall c, f c = c) -> str_map f s = s.
Proof. intros Hf. induction s; cbn; [done|]. by f_equal. Qed.

Lemma str_map_forallb_id (p : ascii -> bool) f s :
  (forall c, p c = true -> f c = c) -> str_forallb p s = true -> str_map f s = s.
Proof.
  intros Hf. induction s as [|c s IH]; cbn; [done|]. rewrite andb_true_iff.
  intros [??]. f_equal; auto.
Qed.

Lemma str_filter_all p s : str_forallb p s = true -> str_filter p s = s.
Proof. induction s as [|c s IH]; cbn; [done|]. destruct (p c); cbn; [|done]. intros. by rewrite IH. Qed.

Lemma str_filter_length p s : (String.length (str_filter p s) <= String.length s)%nat.
Proof. induction s as [|c s IH]; cbn; [done|]. destruct (p c); cbn; lia. Qed.

Lemma str_filter_length_eq p s :
  String.length (str_filter p s) = String.length s -> str_forallb p s = true.
Proof.
  induction s as [|c s IH]; cbn; [done|]. destruct (p c); cbn; intros H.
  - apply IH. lia.
  - pose proof (str_filter_length p s). lia.
Qed.

(** The index functions on a string that is a prefix followed by a tail with no
    byte satisfying the predicate. *)
Lemma last_index_from_none f s i acc :
  str_forallb (fun c => negb (f c)) s = true -> last_index_from f s i acc = acc.
Proof.
  revert i acc. induction s as [|c s IH]; cbn; intros i acc; [done|].
  rewrite andb_true_iff, negb_true_iff. intros [-> ?]. by apply IH.
Qed.

Lemma last_index_from_app f a c b i acc :
  f c = true -> str_forallb (fun c => negb (f c)) b = true ->
  last_index_from f (a +:+ String c b) i acc = i + len a.
Proof.
  intros Hc Hb. revert i acc. induction a as [|x a IH]; cbn; intros i acc.
  - rewrite Hc, last_index_from_none by done. unfold len; cbn. lia.
  - rewrite IH. unfold len. cbn. lia.
Qed.

Lemma index_func_from_ge f s k :
  0 <= k -> index_func_from f s k = -1 \/ k <= index_func_from f s k.
Proof.
  revert k. induction s as [|c s IH]; cbn; intros k Hk; [lia|].
  destruct (f c); [lia|]. specialize (IH (k + 1)). lia.
Qed.

Lemma strings_IndexFunc_zero f s :
  strings_IndexFunc f s = 0 <-> exists c s', s = String c s' /\ f c = true.
Proof.
  unfold strings_IndexFunc. destruct s as [|c s]; cbn.
  - split; [done|]. by intros (?&?&?&?).
  - destruct (f c) eqn:E.
    + split; [by eauto|done].
    + split.
      * intros H. destruct (index_func_from_ge f s (0 + 1) ltac:(lia)); lia.
      * intros (?&?&[= <- <-]&?). congruence.
Qed.

(** Every string with a byte satisfying [f] splits at its last such byte. *)
Lemma strings_LastIndexFunc_split f s :
  strings_LastIndexFunc f s = -1 /\ str_forallb (fun c => negb (f c)) s = true \/
  exists a c b, s = a +:+ String c b /\ f c = true /\
    str_forallb (fun c => negb (f c)) b = true /\ strings_LastIndexFunc f s = len a.
Proof.
  unfold strings_LastIndexFunc.
  induction s as [|c s IH]; [left; done|].
  destruct IH as [[_ Hs]|(a & c' & b & -> & Hc' & Hb & _)].
  - destruct (f c) eqn:E.
    + right. exists EmptyString, c, s. split; [done|]. split; [done|]. split; [done|].
      apply (last_index_from_app f EmptyString); done.
    + left. cbn. rewrite E. split; [|by rewrite Hs]. by apply last_index_from_none.
  - right. exists (String c a), c', b. split; [done|]. split; [done|]. split; [done|].
    change (String c (a +:+ String c' b)) with (String c a +:+ String c' b).
    rewrite last_index_from_app by done. lia.
Qed.

(** ** Decimal round trip *)

Lemma digit_val_char d : 0 <= d < 10 -> digit_val (digit_char d) = Some d.
Proof.
  intros. unfold digit_val, digit_char. replace (d <? 10) with true by lia.
  assert (byte_val (byte_of (48 + d)) = 48 + d) as E by (apply byte_val_of_small; lia).
  assert (is_digit (byte_of (48 + d)) = true) as -> by (apply byte_in_spec; lia).
  f_equal. lia.
Qed.

Lemma digit_char_is_digit d : 0 <= d < 10 -> is_digit (digit_char d) = true.
Proof.
  intros Hd. apply digit_val_char in Hd. unfold digit_val in Hd. by destruct (is_digit _).
Qed.

Lemma parse_uint_format_go fuel n acc :
  0 <= n <= maxUint64 -> n < 10 ^ Z.of_nat fuel ->
  parse_uint (format_go 10 fuel n acc) 0 = parse_uint acc n.
Proof.
  revert n acc. induction fuel as [|f IH]; intros n acc Hn Hf; cbn [format_go].
  { cbn in Hf. replace n with 0 by lia. done. }
  pose proof (Z.mod_pos_bound n 10). pose proof (Z_div_mod_eq_full n 10).
  assert (n `div` 10 < 10 ^ Z.of_nat f) as Hdiv.
  { apply Z.div_lt_upper_bound; [lia|].
    replace (Z.of_nat (S f)) with (Z.of_nat f + 1) in Hf by lia.
    rewrite Z.pow_add_r in Hf by lia. lia. }
  assert (0 <= n `div` 10) by (apply Z.div_pos; lia).
  assert (forall m, 0 <= m -> m * 10 + n `mod` 10 = n ->
    parse_uint (String (digit_char (n `mod` 10)) acc) m = parse_uint acc n) as Hstep.
  { intros m Hm Hmn. cbn. rewrite digit_val_char by lia. rewrite Hmn.
    replace (maxUint64 <? n) with false by lia. done. }
  case_match.
  - apply Hstep; lia.
  - rewrite IH by lia. apply Hstep; lia.
Qed.

Lemma log2_pow10 n : 0 <= n -> n < 10 ^ Z.of_nat (S (Z.to_nat (Z.log2 n))).
Proof.
  intros Hn. destruct (decide (n = 0)) as [->|]; [cbn; lia|].
  pose proof (Z.log2_spec n ltac:(lia)) as [_ H]. pose proof (Z.log2_nonneg n).
  replace (Z.of_nat (S (Z.to_nat (Z.log2 n)))) with (Z.succ (Z.log2 n)) by lia.
  eapply Z.lt_le_trans; [exact H|]. apply Z.pow_le_mono_l. lia.
Qed.

Lemma format_go_nonempty base fuel n acc :
  acc <> EmptyString -> format_go base fuel n acc <> EmptyString.
Proof.
  revert n acc. induction fuel as [|f IH]; intros n acc Ha; cbn; [done|].
  case_match; [done|]. by apply IH.
Qed.

Lemma format_uint_nonempty base n : format_uint base n <> EmptyString.
Proof.
  unfold format_uint. cbn [format_go]. case_match; [done|]. by apply format_go_nonempty.
Qed.

Lemma format_go_digits fuel n acc :
  str_forallb is_digit acc = true -> str_forallb is_digit (format_go 10 fuel n acc) = true.
Proof.
  revert n acc. induction fuel as [|f IH]; intros n acc Ha; cbn; [done|].
  assert (is_digit (digit_char (n `mod` 10)) = true).
  { apply digit_char_is_digit. apply Z.mod_pos_bound. lia. }
  case_match; [|apply IH]; cbn; rewrite Ha; by rewrite andb_true_r.
Qed.

Lemma Itoa_digits n : 0 <= n -> str_forallb is_digit (strconv_Itoa n) = true.
Proof.
  intros. unfold strconv_Itoa, strconv_FormatInt. replace (n <? 0) with false by lia.
  by apply format_go_digits.
Qed.

Lemma Itoa_nonempty n : strconv_Itoa n <> EmptyString.
Proof.
  unfold strconv_Itoa, strconv_FormatInt. destruct (n <? 0); [done|]. apply format_uint_nonempty.
Qed.

Lemma ParseUint_format n : 0 <= n <= maxUint64 -> strconv_ParseUint (format_uint 10 n) = (n, None).
Proof.
  intros. unfold strconv_ParseUint. destruct (format_uint 10 n) eqn:E.
  { by apply format_uint_nonempty in E. }
  rewrite <- E. unfold format_uint. rewrite parse_uint_format_go; [done|lia|apply log2_pow10; lia].
Qed.

Lemma split_sign_digits s : str_forallb is_digit s = true -> split_sign s = (false, s).
Proof.
  destruct s as [|c s]; cbn; [done|]. rewrite andb_true_iff. intros [Hc _].
  destruct (Ascii.eqb_spec c "-"); [by subst|]. destruct (Ascii.eqb_spec c "+"); [by subst|]. done.
Qed.

Lemma Atoi_Itoa n : int64_range n -> strconv_Atoi (strconv_Itoa n) = (n, None).
Proof.
  unfold minInt, maxInt. intros Hn. unfold strconv_Atoi, strconv_Itoa, strconv_FormatInt.
  destruct (n <? 0) eqn:Hneg.
  - change (split_sign (String "-" (format_uint 10 (- n)))) with (true, format_uint 10 (- n)).
    cbv beta iota. rewrite ParseUint_format by (unfold maxUint64; lia). cbn -[Z.ltb].
    replace (9223372036854775808 <? - n) with false by lia. f_equal. lia.
  - rewrite split_sign_digits by (by apply format_go_digits).
    cbv beta iota. rewrite ParseUint_format by (unfold maxUint64; lia). cbn -[Z.ltb].
    replace (maxInt <? n) with false by (unfold maxInt; lia). done.
Qed.

#[export] Hint Resolve Itoa_digits Itoa_nonempty format_uint_nonempty : go_db.

(** *** Prefixes and suffixes *)

Lemma prefix_app p s : String.prefix p (p +:+ s) = true.
Proof. induction p as [|c p IH]; cbn; [by destruct s|]. by destruct (ascii_dec c c). Qed.

Lemma strings_TrimPrefix_app p s : strings_TrimPrefix (p +:+ s) p = s.
Proof. unfold strings_TrimPrefix. by rewrite prefix_app, str_drop_app. Qed.

Lemma str_rev_go_app s t : str_rev_go s t = str_rev s +:+ t.
Proof.
  unfold str_rev. revert t. induction s as [|c s IH]; intros t; cbn; [done|].
  rewrite IH, (IH (String c EmptyString)), str_app_assoc. done.
Qed.

Lemma str_rev_app a b : str_rev (a +:+ b) = str_rev b +:+ str_rev a.
Proof.
  unfold str_rev at 1.
  assert (forall t, str_rev_go (a +:+ b) t = str_rev_go b (str_rev_go a t)) as E.
  { induction a as [|c a IH]; intros t; cbn; [done|]. apply IH. }
  rewrite E, str_rev_go_app. done.
Qed.

Lemma strings_TrimSuffix_app s suf : strings_TrimSuffix (s +:+ suf) suf = s.
Proof.
  unfold strings_TrimSuffix, strings_HasSuffix. rewrite str_rev_app, prefix_app, str_length_app.
  replace (String.length s + String.length suf - String.length suf)%nat with (String.length s) by lia. apply str_take_app.
Qed.

Lemma str_cut_prefix sub s : str_cut (sub +:+ s) sub = Some (EmptyString, s).
Proof.
  destruct (sub +:+ s) as [|c t] eqn:E.
  - by destruct sub, s.
  - cbn [str_cut]. rewrite <- E, prefix_app, str_drop_app. done.
Qed.
