(* ===== verification/Utf8.v ===== *)
(** UTF-8 as Go's [range] over a string, [unicode/utf8] and the conversion
    [string([]rune)] implement it: an invalid byte decodes to U+FFFD and has
    width one. *)
From S2P Require Export GoString.

Definition runeError : Z := 65533.

(** The byte at an index, -1 past the end. *)
Definition nth_byte (n : nat) (s : string) : Z :=
  match String.get n s with Some c => byte_val c | None => -1 end.

Definition in_range (lo hi b : Z) : bool := (lo <=? b) && (b <=? hi).

(** [utf8.DecodeRuneInString] of a non-empty string: the rune and its width. *)
Definition decode_rune (s : string) : Z * nat :=
  let b0 := nth_byte 0 s in
  let b1 := nth_byte 1 s in
  let b2 := nth_byte 2 s in
  let b3 := nth_byte 3 s in
  if in_range 0 127 b0 then (b0, 1%nat)
  else if in_range 194 223 b0 && in_range 128 191 b1
  then ((b0 - 192) * 64 + (b1 - 128), 2%nat)
  else if in_range 224 239 b0
          && in_range (if b0 =? 224 then 160 else 128) (if b0 =? 237 then 159 else 191) b1
          && in_range 128 191 b2
  then ((b0 - 224) * 4096 + (b1 - 128) * 64 + (b2 - 128), 3%nat)
  else if in_range 240 244 b0
          && in_range (if b0 =? 240 then 144 else 128) (if b0 =? 244 then 143 else 191) b1
          && in_range 128 191 b2 && in_range 128 191 b3
  then ((b0 - 240) * 262144 + (b1 - 128) * 4096 + (b2 - 128) * 64 + (b3 - 128), 4%nat)
  else (runeError, 1%nat).

(** The runes a [for _, v := range s] visits; [skip] counts the bytes of the
    current rune still to be passed over. *)
Fixpoint runes_go (s : string) (skip : nat) : list Z :=
  match s with
  | EmptyString => []
  | String _ s' =>
      match skip with
      | S k => runes_go s' k
      | O => let '(r, w) := decode_rune s in r :: runes_go s' (w - 1)
      end
  end.
Definition runes (s : string) : list Z := runes_go s 0.

Definition utf8_RuneCountInString (s : string) : Z := Z.of_nat (length (runes s)).

Definition valid_rune (r : Z) : bool := in_range 0 55295 r || in_range 57344 1114111 r.

Definition bytes_of (l : list Z) : string := foldr (fun b s => String (byte_of b) s) EmptyString l.

Definition encode_rune (r0 : Z) : string :=
  let r := if valid_rune r0 then r0 else runeError in
  if r <? 128 then bytes_of [r]
  else if r <? 2048 then bytes_of [192 + r `div` 64; 128 + r `mod` 64]
  else if r <? 65536
  then bytes_of [224 + r `div` 4096; 128 + (r `div` 64) `mod` 64; 128 + r `mod` 64]
  else bytes_of [240 + r `div` 262144; 128 + (r `div` 4096) `mod` 64;
                 128 + (r `div` 64) `mod` 64; 128 + r `mod` 64].

(** [string(rs)] for a [[]rune]. *)
Fixpoint string_of_runes (rs : list Z) : string :=
  match rs with [] => EmptyString | r :: rs' => encode_rune r +:+ string_of_runes rs' end.

Lemma in_range_spec lo hi b : in_range lo hi b = true <-> lo <= b <= hi.
Proof. unfold in_range. rewrite andb_true_iff, !Z.leb_le. lia. Qed.

Lemma nth_byte_range n s : -1 <= nth_byte n s < 256.
Proof. unfold nth_byte. case_match; [|lia]. pose proof (byte_val_range a). lia. Qed.

Lemma decode_rune_valid s : s <> EmptyString -> valid_rune (decode_rune s).1 = true.
Proof.
  intros Hs. unfold valid_rune. rewrite orb_true_iff, !in_range_spec. unfold decode_rune.
  assert (0 <= nth_byte 0 s) by (destruct s as [|c s]; [done|]; unfold nth_byte; cbn; pose proof (byte_val_range c); lia).
  repeat case_match; repeat match goal with
    | H : _ && _ = true |- _ => apply andb_true_iff in H as [? ?]
    | H : in_range _ _ _ = true |- _ => apply in_range_spec in H
    end; cbn; try lia.
  all: unfold runeError; lia.
Qed.

Lemma decode_rune_width s : s <> EmptyString -> (1 <= (decode_rune s).2)%nat.
Proof. intros Hs. unfold decode_rune. repeat case_match; cbn; lia. Qed.

Lemma runes_valid s : Forall (fun r => valid_rune r = true) (runes s).
Proof.
  unfold runes. generalize 0%nat. induction s as [|c s IH]; intros k; cbn; [by constructor|].
  destruct k; [|by apply IH].
  pose proof (decode_rune_valid (String c s) ltac:(done)) as Hv.
  destruct (decode_rune (String c s)) as [r w]. constructor; [done|]. apply IH.
Qed.

(** A valid rune's encoding decodes to it, whatever follows. *)
Lemma decode_encode_rune r s :
  valid_rune r = true ->
  decode_rune (encode_rune r +:+ s) = (r, String.length (encode_rune r)).
Proof.
  intros Hv. unfold encode_rune. rewrite Hv.
  unfold valid_rune in Hv. rewrite orb_true_iff, !in_range_spec in Hv.
  pose proof (Z.mod_pos_bound r 64 ltac:(lia)). pose proof (Z_div_mod_eq_full r 64).
  pose proof (Z.mod_pos_bound (r `div` 64) 64 ltac:(lia)). pose proof (Z_div_mod_eq_full (r `div` 64) 64).
  pose proof (Z.mod_pos_bound ((r `div` 64) `div` 64) 64 ltac:(lia)).
  pose proof (Z_div_mod_eq_full ((r `div` 64) `div` 64) 64).
  assert (r `div` 4096 = (r `div` 64) `div` 64) as E1 by (rewrite Z.div_div by lia; done).
  assert (r `div` 262144 = ((r `div` 64) `div` 64) `div` 64) as E2 by (rewrite !Z.div_div by lia; done).
  rewrite E1, E2.
  repeat case_match; unfold decode_rune, nth_byte, bytes_of; cbn [foldr String.append String.get String.length];
    rewrite !byte_val_of_small by lia; unfold in_range; repeat case_match; try lia; f_equal; lia.
Qed.

Lemma runes_go_skip a s k : String.length a = k -> runes_go (a +:+ s) k = runes_go s 0.
Proof. revert k. induction a as [|c a IH]; intros k; cbn; [by intros <-|]. destruct k; [done|]. intros [= H]. by apply IH. Qed.

Lemma encode_rune_nonempty r : encode_rune r <> EmptyString.
Proof. unfold encode_rune. repeat case_match; done. Qed.

Lemma runes_string_of_runes rs :
  Forall (fun r => valid_rune r = true) rs -> runes (string_of_runes rs) = rs.
Proof.
  unfold runes. induction 1 as [|r rs Hr Hrs IH]; cbn [string_of_runes]; [done|].
  pose proof (decode_encode_rune r (string_of_runes rs) Hr) as E.
  pose proof (encode_rune_nonempty r) as Hne.
  destruct (encode_rune r) as [|c e]; [done|]. cbn [String.append runes_go] in *.
  rewrite E. f_equal. cbn [String.length]. etrans; [apply runes_go_skip; lia|exact IH].
Qed.

(** On a string of ASCII bytes the runes are the bytes. *)
Lemma runes_ascii s :
  str_forallb is_ascii_byte s = true -> runes s = byte_val <$> String.list_ascii_of_string s.
Proof.
  unfold runes. induction s as [|c s IH]; cbn -[decode_rune]; [done|]. rewrite andb_true_iff.
  unfold is_ascii_byte at 1. intros [Hc Hs].
  unfold decode_rune, nth_byte. cbn [String.get]. pose proof (byte_val_range c).
  replace (in_range 0 127 (byte_val c)) with true; [cbn; by rewrite IH|].
  symmetry. apply in_range_spec. lia.
Qed.
