(* ===== verification/Lib.v ===== *)
(** [lib.go] and [errors.go]: cell references and coordinates, the sheet
    password hash, and the small helpers of the package. *)
From S2P Require Export Utf8.

(** ** Cell names *)

Definition newInvalidColumnNameError (col : string) : goerr := ErrInvalidColumnName col.
Definition newInvalidRowNumberError (row : Z) : goerr := ErrInvalidRowNumber row.
Definition newInvalidCellNameError (cell : string) : goerr := ErrInvalidCellName cell.

(** [SplitCellName] returns the column name, the row number and an error. *)
Definition SplitCellName (cell : string) : (string * Z) * option goerr :=
  let invalid := err_with ("", -1) (newInvalidCellNameError cell) in
  if strings_IndexFunc is_alpha cell =? 0 then
    let i := strings_LastIndexFunc is_alpha cell in
    if (0 <=? i) && (i <? len cell - 1) then
      let col := str_take (Z.to_nat (i + 1)) cell in
      let rowstr := str_drop (Z.to_nat (i + 1)) cell in
      match strconv_Atoi rowstr with
      | (row, None) => if 0 <? row then ok (col, row) else invalid
      | (_, Some _) => invalid
      end
    else invalid
  else invalid.

Definition JoinCellName (col : string) (row : Z) : string * option goerr :=
  let normCol := str_map upper_byte (str_filter is_alpha col) in
  if (len col =? 0) || negb (len col =? len normCol)
  then err_with "" (newInvalidColumnNameError col)
  else if row <? 1 then err_with "" (newInvalidRowNumberError row)
  else ok (normCol +:+ strconv_Itoa row).

(** The loop of [ColumnNameToNumber] runs from the last byte of the name to the
    first; the bytes are given here in that order. [None] is the early return
    with an error. *)
Fixpoint column_number_loop (rev_name : list ascii) (col multi : Z) : option Z :=
  match rev_name with
  | [] => Some col
  | r :: rest =>
      if is_upper r then
        column_number_loop rest (iadd col (imul (byte_val r - 65 + 1) multi)) (imul multi 26)
      else if is_lower r then
        column_number_loop rest (iadd col (imul (byte_val r - 97 + 1) multi)) (imul multi 26)
      else None
  end.

Definition ColumnNameToNumber (name : string) : Z * option goerr :=
  if len name =? 0 then err_with (-1) (newInvalidColumnNameError name)
  else match column_number_loop (rev (String.list_ascii_of_string name)) 0 1 with
       | Some col => ok col
       | None => err_with (-1) (newInvalidColumnNameError name)
       end.

(** The loop [for num > 0] of [ColumnNumberToName]: each round divides [num] by
    26, so the number of bits of [num] is enough fuel. *)
Fixpoint column_name_loop (fuel : nat) (num : Z) (col : string) : string :=
  match fuel with
  | O => col
  | S f =>
      if 0 <? num
      then column_name_loop f (Z.quot (num - 1) 26) (String (byte_of (Z.rem (num - 1) 26 + 65)) col)
      else col
  end.

Definition ColumnNumberToName (num : Z) : string * option goerr :=
  if num <? 1 then err_with "" (ErrIncorrectColumnNumber num)
  else ok (column_name_loop (S (Z.to_nat (Z.log2 num))) num "").

Definition CellNameToCoordinates (cell : string) : (Z * Z) * option goerr :=
  match SplitCellName cell with
  | (_, Some err) => err_with (-1, -1) (ErrCannotConvertCell cell err)
  | ((colname, row), None) =>
      match ColumnNameToNumber colname with
      | (_, Some err) => err_with (-1, -1) (ErrCannotConvertCell cell err)
      | (col, None) => ok (col, row)
      end
  end.

Definition CoordinatesToCellName (col row : Z) : string * option goerr :=
  if (col <? 1) || (row <? 1) then err_with "" (ErrInvalidCoordinates col row)
  else match ColumnNumberToName col with
       | (_, Some err) => err_with "" (ErrInvalidCoordinatesCause col row err)
       | (colname, None) => ok (colname +:+ strconv_Itoa row)
       end.

(** ** Small helpers *)

Definition boolPtr (b : bool) : option bool := Some b.

Definition defaultTrue (b : option bool) : bool := match b with None => true | Some v => v end.

Definition parseFormatSet (formatSet : string) : string :=
  if decide (formatSet = "") then "{}" else formatSet.

(** ** Sheet passwords *)

Fixpoint passwd_loop (plaintext : list Z) (charPos password : Z) : Z :=
  match plaintext with
  | [] => password
  | v :: rest =>
      let value := wrap64 (Z.shiftl v charPos) in
      let rotatedBits := Z.shiftr value 15 in
      let value := Z.land value 32767 in
      passwd_loop rest (charPos + 1) (Z.lxor password (Z.lor value rotatedBits))
  end.

(** The 64-bit value whose hexadecimal digits [genSheetPasswd] returns. *)
Definition sheet_passwd_hash (plaintext : string) : Z :=
  Z.lxor (Z.lxor (passwd_loop (runes plaintext) 1 0) (len plaintext)) 52811.

(** [FormatInt] yields ASCII, so [strings.ToUpper] maps its bytes. *)
Definition genSheetPasswd (plaintext : string) : string :=
  str_map upper_byte (strconv_FormatInt (sheet_passwd_hash plaintext) 16).

(** *** The published algorithm

    The 16-bit hash of the file format, one character at a time from the last
    to the first, rotating 15 bits left by one at each step. *)

Definition rot15 (h : Z) : Z :=
  Z.lor (Z.land (Z.shiftr h 14) 1) (Z.land (Z.shiftl h 1) 32767).

Definition legacy_hash (chars : list Z) : Z :=
  Z.lxor (Z.lxor (foldr (fun c h => rot15 (Z.lxor h c)) 0 chars) (Z.of_nat (length chars))) 52811.

(** ** Column names as bijective base-26 numerals *)

Definition letter_val (c : ascii) : Z := byte_val (upper_byte c) - 64.

(** The value of a name whose last letter comes first. *)
Fixpoint rev_value (l : list ascii) : Z :=
  match l with [] => 0 | c :: l' => letter_val c + 26 * rev_value l' end.

Definition name_value (s : string) : Z := rev_value (rev (String.list_ascii_of_string s)).

Lemma letter_val_range c : is_alpha c = true -> 1 <= letter_val c <= 26.
Proof. intros H%upper_byte_alpha. unfold letter_val. byte_lia. Qed.

Lemma letter_val_upper c : is_upper c = true -> letter_val c = byte_val c - 64.
Proof. intros. unfold letter_val. by rewrite upper_byte_upper. Qed.

Lemma letter_val_lower c : is_lower c = true -> letter_val c = byte_val c - 96.
Proof.
  intros H. unfold letter_val, upper_byte. rewrite H. byte_cases. rewrite byte_val_of_small by lia. lia.
Qed.

Lemma letter_val_upper_byte c : is_alpha c = true -> letter_val (upper_byte c) = letter_val c.
Proof. intros H. unfold letter_val. by rewrite (upper_byte_upper (upper_byte c)) by auto with go_db. Qed.

Lemma list_ascii_app a b :
  String.list_ascii_of_string (a +:+ b) = String.list_ascii_of_string a ++ String.list_ascii_of_string b.
Proof. induction a; cbn; [done|]. by f_equal. Qed.

Lemma list_ascii_length s : length (String.list_ascii_of_string s) = String.length s.
Proof. induction s; cbn; auto. Qed.

Lemma list_ascii_forall p s :
  str_forallb p s = true <-> Forall (fun c => p c = true) (String.list_ascii_of_string s).
Proof.
  induction s as [|c s IH]; cbn; [by split; constructor|]. by rewrite andb_true_iff, Forall_cons, IH.
Qed.

Lemma list_ascii_inj a b :
  String.list_ascii_of_string a = String.list_ascii_of_string b -> a = b.
Proof.
  intros H. rewrite <- (String.string_of_list_ascii_of_string a), H.
  apply String.string_of_list_ascii_of_string.
Qed.

Lemma rev_value_snoc l c : rev_value (l ++ [c]) = rev_value l + 26 ^ Z.of_nat (length l) * letter_val c.
Proof.
  induction l as [|x l IH]; cbn [rev_value app length]; [lia|].
  rewrite IH, Nat2Z.inj_succ, Z.pow_succ_r by lia. lia.
Qed.

Lemma rev_value_bounds l :
  Forall (fun c => is_alpha c = true) l -> 0 <= rev_value l /\ 25 * rev_value l <= 26 * (26 ^ Z.of_nat (length l) - 1).
Proof.
  induction 1 as [|c l Hc Hl IH]; cbn [rev_value length]; [cbn; lia|].
  apply letter_val_range in Hc. rewrite Nat2Z.inj_succ, Z.pow_succ_r by lia. lia.
Qed.

Lemma rev_value_inj l1 l2 :
  Forall (fun c => is_upper c = true) l1 -> Forall (fun c => is_upper c = true) l2 ->
  rev_value l1 = rev_value l2 -> l1 = l2.
Proof.
  intros H1. revert l2. induction H1 as [|c l1 Hc Hl1 IH]; intros l2 H2 E.
  - destruct H2 as [|d l2 Hd Hl2]; [done|]. cbn in E.
    pose proof (letter_val_range d ltac:(auto with go_db)).
    pose proof (rev_value_bounds l2 (Forall_impl _ _ _ Hl2 upper_is_alpha)). lia.
  - pose proof (letter_val_range c ltac:(auto with go_db)).
    destruct H2 as [|d l2 Hd Hl2]; cbn in E.
    + pose proof (rev_value_bounds l1 (Forall_impl _ _ _ Hl1 upper_is_alpha)). lia.
    + pose proof (letter_val_range d ltac:(auto with go_db)).
      assert (letter_val c = letter_val d) as Ecd by lia.
      rewrite !letter_val_upper in Ecd by done.
      f_equal; [apply byte_val_inj; lia|]. apply IH; [done|]. lia.
Qed.

(** ** ColumnNameToNumber *)

Lemma column_number_loop_alpha l c m :
  Forall (fun c => is_alpha c = true) l ->
  column_number_loop l (wrap64 c) (wrap64 m) = Some (wrap64 (c + m * rev_value l)).
Proof.
  intros Hl. revert c m. induction Hl as [|x l Hx Hl IH]; intros c m; cbn [column_number_loop rev_value].
  { f_equal. f_equal. lia. }
  assert (forall d, d = letter_val x ->
    column_number_loop l (iadd (wrap64 c) (imul d (wrap64 m))) (imul (wrap64 m) 26)
    = Some (wrap64 (c + m * (letter_val x + 26 * rev_value l)))) as Hstep.
  { intros d ->. unfold iadd, imul. autorewrite with wrap. rewrite IH. f_equal. f_equal. lia. }
  unfold is_alpha in Hx. destruct (is_upper x) eqn:Hu.
  - apply Hstep. rewrite letter_val_upper by done. lia.
  - cbn in Hx. rewrite Hx. apply Hstep. rewrite letter_val_lower by done. lia.
Qed.

Lemma ColumnNameToNumber_alpha name :
  name <> "" -> str_forallb is_alpha name = true ->
  ColumnNameToNumber name = ok (wrap64 (name_value name)).
Proof.
  intros Hne Ha%list_ascii_forall. unfold ColumnNameToNumber.
  destruct (len name =? 0) eqn:E; [apply Z.eqb_eq, len_nil in E; done|].
  change 0 with (wrap64 0) at 1. change 1 with (wrap64 1) at 1.
  rewrite column_number_loop_alpha by (by apply Forall_rev). unfold name_value. do 2 f_equal. lia.
Qed.

Lemma column_number_loop_none l c m :
  Exists (fun c => is_alpha c = false) l -> column_number_loop l c m = None.
Proof.
  intros Hl. revert c m. induction Hl as [x l Hx|x l Hl IH]; intros c m; cbn.
  - unfold is_alpha in Hx. apply orb_false_iff in Hx as [-> ->]. done.
  - repeat case_match; auto.
Qed.

Lemma str_forallb_false p s :
  str_forallb p s = false -> Exists (fun c => p c = false) (String.list_ascii_of_string s).
Proof.
  induction s as [|c s IH]; cbn; [done|]. rewrite andb_false_iff. intros [?|?]; [by left|by right; auto].
Qed.

Lemma ColumnNameToNumber_invalid name :
  name = "" \/ str_forallb is_alpha name = false ->
  ColumnNameToNumber name = err_with (-1) (ErrInvalidColumnName name).
Proof.
  intros [->|H]; [done|]. unfold ColumnNameToNumber. case_match; [done|].
  rewrite column_number_loop_none; [done|]. apply Exists_exists.
  apply str_forallb_false, Exists_exists in H as (x & Hx & ?). exists x.
  split; [|done]. rewrite list_elem_of_In, <- in_rev, <- list_elem_of_In. done.
Qed.

(** ** ColumnNumberToName *)

Lemma column_name_loop_spec fuel num acc :
  0 <= num < 2 ^ Z.of_nat fuel ->
  exists name, column_name_loop fuel num acc = name +:+ acc /\
    str_forallb is_upper name = true /\ name_value name = num.
Proof.
  revert num acc. induction fuel as [|f IH]; intros num acc Hn; cbn [column_name_loop].
  { exists "". cbn in *. repeat split. unfold name_value. cbn. lia. }
  case_match eqn:Hpos; [|exists ""; repeat split; unfold name_value; cbn; lia].
  apply Z.ltb_lt in Hpos.
  rewrite Z.quot_div_nonneg, Z.rem_mod_nonneg by lia.
  pose proof (Z.mod_pos_bound (num - 1) 26 ltac:(lia)). pose proof (Z_div_mod_eq_full (num - 1) 26).
  assert (0 <= (num - 1) `div` 26 < 2 ^ Z.of_nat f) as Hd.
  { rewrite Nat2Z.inj_succ, Z.pow_succ_r in Hn by lia. lia. }
  set (c := byte_of ((num - 1) `mod` 26 + 65)).
  assert (byte_val c = (num - 1) `mod` 26 + 65) as Hc by (apply byte_val_of_small; lia).
  destruct (IH _ (String c acc) Hd) as (name & -> & Hup & Hval).
  assert (is_upper c = true) as Hcu by (apply byte_in_spec; lia).
  exists (name +:+ String c ""). split; [by rewrite str_app_assoc|].
  split; [rewrite str_forallb_app, Hup; cbn; by rewrite Hcu|].
  unfold name_value in *. rewrite list_ascii_app, rev_app_distr. cbn.
  rewrite Hval, letter_val_upper by done. lia.
Qed.

Lemma log2_fuel n : 1 <= n -> 0 <= n < 2 ^ Z.of_nat (S (Z.to_nat (Z.log2 n))).
Proof.
  intros. pose proof (Z.log2_spec n ltac:(lia)). pose proof (Z.log2_nonneg n).
  replace (Z.of_nat (S (Z.to_nat (Z.log2 n)))) with (Z.succ (Z.log2 n)) by lia. lia.
Qed.

Lemma ColumnNumberToName_spec n :
  1 <= n -> exists name, ColumnNumberToName n = ok name /\
    name <> "" /\ str_forallb is_upper name = true /\ name_value name = n.
Proof.
  intros Hn. unfold ColumnNumberToName. replace (n <? 1) with false by lia.
  destruct (column_name_loop_spec _ n "" (log2_fuel n Hn)) as (name & -> & Hup & Hval).
  exists name. rewrite str_app_nil_r. repeat split; try done.
  intros ->. unfold name_value in Hval. cbn in Hval. lia.
Qed.

(** A column name is determined by its letters up to case and by its value. *)
Lemma name_value_inj a b :
  str_forallb is_upper a = true -> str_forallb is_upper b = true ->
  name_value a = name_value b -> a = b.
Proof.
  intros Ha%list_ascii_forall Hb%list_ascii_forall E.
  apply list_ascii_inj, rev_inj, rev_value_inj; [by apply Forall_rev..|done].
Qed.

Lemma name_value_upper s :
  str_forallb is_alpha s = true -> name_value (str_map upper_byte s) = name_value s.
Proof.
  intros Hs. unfold name_value.
  assert (String.list_ascii_of_string (str_map upper_byte s) = map upper_byte (String.list_ascii_of_string s)) as ->.
  { clear. induction s; cbn; [done|]. by f_equal. }
  rewrite <- map_rev. apply list_ascii_forall, Forall_rev in Hs. revert Hs.
  generalize (rev (String.list_ascii_of_string s)).
  induction 1 as [|c l Hc Hl IH]; cbn; [done|]. by rewrite IH, letter_val_upper_byte.
Qed.

Lemma str_upper_alpha s :
  str_forallb is_alpha s = true -> str_forallb is_upper (str_map upper_byte s) = true.
Proof.
  induction s as [|c s IH]; cbn; [done|]. rewrite !andb_true_iff. intros [??]. split; auto with go_db.
Qed.

Lemma name_value_bounds s :
  str_forallb is_alpha s = true -> 0 <= name_value s /\ 25 * name_value s <= 26 * (26 ^ len s - 1).
Proof.
  intros Hs%list_ascii_forall%Forall_rev%rev_value_bounds.
  rewrite length_rev, list_ascii_length in Hs. done.
Qed.


Lemma name_value_pos s : s <> "" -> str_forallb is_alpha s = true -> 1 <= name_value s.
Proof.
  intros Hne Hs%list_ascii_forall%Forall_rev. unfold name_value.
  destruct (rev (String.list_ascii_of_string s)) as [|c l] eqn:E.
  - apply (f_equal (@length ascii)) in E. rewrite length_rev, list_ascii_length in E.
    by destruct s.
  - apply Forall_cons in Hs as [Hc Hl]. apply letter_val_range in Hc.
    apply rev_value_bounds in Hl. cbn. lia.
Qed.

(** ** SplitCellName *)

(** What a cell name is: a column part that begins and ends with a letter, then
    a non-empty part without letters that [Atoi] reads as a positive number. *)
Inductive cell_split (cell col : string) (row : Z) : Prop :=
| Cell_split (rowstr : string) :
    cell = col +:+ rowstr ->
    (exists c s, col = String c s /\ is_alpha c = true) ->
    (exists s c, col = s +:+ String c "" /\ is_alpha c = true) ->
    str_forallb (fun c => negb (is_alpha c)) rowstr = true ->
    strconv_Atoi rowstr = ok row ->
    0 < row ->
    cell_split cell col row.

Lemma LastIndexFunc_app a c b :
  is_alpha c = true -> str_forallb (fun c => negb (is_alpha c)) b = true ->
  strings_LastIndexFunc is_alpha ((a +:+ String c "") +:+ b) = len a.
Proof.
  intros. unfold strings_LastIndexFunc. rewrite str_app_assoc. cbn.
  by rewrite last_index_from_app.
Qed.

Lemma len_snoc a c : Z.to_nat (len a + 1) = String.length (a +:+ String c "").
Proof. unfold len. rewrite str_length_app. cbn. lia. Qed.

Lemma SplitCellName_complete cell col row :
  cell_split cell col row -> SplitCellName cell = ok (col, row).
Proof.
  intros [rowstr -> (c1 & s1 & E1 & Hc1) (s & c & E & Hc) Htail Hnum Hpos].
  unfold SplitCellName.
  replace (strings_IndexFunc is_alpha (col +:+ rowstr)) with 0.
  2:{ symmetry. apply strings_IndexFunc_zero. rewrite E1. eexists _, _. split; [done|]. done. }
  cbn [Z.eqb]. rewrite E, LastIndexFunc_app by done. rewrite (len_snoc s c), <- E.
  assert (rowstr <> "") as Hne by (by intros ->).
  pose proof (len_nonneg s). pose proof (len_nonneg rowstr).
  assert (len rowstr <> 0) by (by rewrite len_nil).
  assert (len col = len s + 1) as Hlc by (rewrite E, len_app; done).
  rewrite len_app. replace (_ && _) with true by lia.
  rewrite str_take_app, str_drop_app, Hnum. by replace (0 <? row) with true by lia.
Qed.

Lemma SplitCellName_cases cell :
  (exists col row, cell_split cell col row /\ SplitCellName cell = ok (col, row)) \/
  SplitCellName cell = err_with ("", -1) (ErrInvalidCellName cell).
Proof.
  destruct (SplitCellName cell) as [[col row] o] eqn:E.
  assert (o = None \/ ((col, row), o) = err_with ("", -1) (ErrInvalidCellName cell)) as [->|H].
  { revert E. unfold SplitCellName. repeat case_match; intros [= <- <- <-]; auto. }
  2:{ by right. }
  left. exists col, row. split; [|done]. revert E. unfold SplitCellName.
  destruct (strings_IndexFunc is_alpha cell =? 0) eqn:Hfirst; [|done].
  apply Z.eqb_eq, strings_IndexFunc_zero in Hfirst as (c1 & s1 & Ecell & Hc1).
  destruct (strings_LastIndexFunc_split is_alpha cell) as [[-> _]|(a & c & b & Ec & Hc & Hb & ->)]; [done|].
  case_match eqn:Hi; [|done].
  assert (cell = (a +:+ String c "") +:+ b) as Ec' by (by rewrite str_app_assoc).
  rewrite (len_snoc a c), Ec', str_take_app, str_drop_app.
  destruct (strconv_Atoi b) as [n [e|]] eqn:Hnum; [done|]. case_match eqn:Hn; [|done].
  intros [= <- <-].
  econstructor; [done|..|done|exact Hnum|lia]; [|by eauto].
  destruct a as [|x a]; cbn; [by eauto|]. subst cell. injection Ec' as -> _. eauto.
Qed.

Lemma SplitCellName_split cell col row :
  SplitCellName cell = ok (col, row) -> cell_split cell col row.
Proof. destruct (SplitCellName_cases cell) as [(c & r & ? & ->)| ->]; [by intros [= <- <-]|done]. Qed.

Lemma SplitCellName_row_pos cell col row e :
  SplitCellName cell = ((col, row), e) -> row = -1 \/ 1 <= row.
Proof.
  destruct (SplitCellName_cases cell) as [(c & r & [] & ->)| ->]; intros [= <- <- <-]; lia.
Qed.

Lemma str_forallb_weaken_negb s :
  str_forallb is_digit s = true -> str_forallb (fun c => negb (is_alpha c)) s = true.
Proof. apply str_forallb_impl. intros c H. by rewrite digit_not_alpha. Qed.

Lemma alpha_ends s :
  s <> "" -> str_forallb is_alpha s = true ->
  (exists c t, s = String c t /\ is_alpha c = true) /\
  (exists t c, s = t +:+ String c "" /\ is_alpha c = true).
Proof.
  induction s as [|c s IH]; [done|]. intros _. cbn. rewrite andb_true_iff. intros [Hc Hs].
  split; [by eauto|]. destruct (decide (s = "")) as [->|Hne].
  - by exists "", c.
  - destruct (IH Hne Hs) as [_ (t & d & -> & Hd)]. by exists (String c t), d.
Qed.

(** A name made of letters followed by the decimal digits of a row number. *)
Lemma SplitCellName_join col row :
  col <> "" -> str_forallb is_alpha col = true -> 1 <= row <= maxInt ->
  SplitCellName (col +:+ strconv_Itoa row) = ok (col, row).
Proof.
  intros Hne Ha Hrow. destruct (alpha_ends col Hne Ha) as [H1 H2].
  apply SplitCellName_complete. econstructor; [done|done|done|..|lia].
  - apply str_forallb_weaken_negb, Itoa_digits. lia.
  - apply Atoi_Itoa. unfold minInt, maxInt in *. lia.
Qed.

Lemma CellNameToCoordinates_join col row :
  col <> "" -> str_forallb is_alpha col = true -> 1 <= row <= maxInt ->
  CellNameToCoordinates (col +:+ strconv_Itoa row) = ok (wrap64 (name_value col), row).
Proof.
  intros. unfold CellNameToCoordinates. rewrite SplitCellName_join by done.
  by rewrite ColumnNameToNumber_alpha.
Qed.

Lemma CoordinatesToCellName_spec col row :
  1 <= col -> 1 <= row ->
  exists name, CoordinatesToCellName col row = ok (name +:+ strconv_Itoa row) /\
    ColumnNumberToName col = ok name /\
    name <> "" /\ str_forallb is_upper name = true /\ name_value name = col.
Proof.
  intros Hc Hr. unfold CoordinatesToCellName.
  replace (_ || _) with false by lia.
  destruct (ColumnNumberToName_spec col Hc) as (name & -> & ?). by exists name.
Qed.

Lemma upper_all_alpha s : str_forallb is_upper s = true -> str_forallb is_alpha s = true.
Proof. apply str_forallb_impl. auto with go_db. Qed.
#[export] Hint Resolve upper_all_alpha str_upper_alpha : go_db.

Lemma CellName_roundtrip col row :
  1 <= col <= maxInt -> 1 <= row <= maxInt ->
  exists cell, CoordinatesToCellName col row = ok cell /\
    CellNameToCoordinates cell = ok (col, row).
Proof.
  intros Hc Hr. destruct (CoordinatesToCellName_spec col row) as (name & -> & _ & Hne & Hup & Hv); [lia..|].
  eexists. split; [done|]. rewrite CellNameToCoordinates_join by auto with go_db.
  rewrite Hv, wrap64_id by (unfold minInt, maxInt in *; lia). done.
Qed.

Lemma name_value_13 s :
  s <> "" -> str_forallb is_alpha s = true -> len s <= 13 -> 1 <= name_value s <= maxInt.
Proof.
  intros Hne Ha Hlen. split; [by apply name_value_pos|].
  pose proof (name_value_bounds s Ha) as [_ Hb].
  assert (26 ^ len s <= 26 ^ 13) by (apply Z.pow_le_mono_r; lia).
  change (26 ^ 13) with 2481152873203736576 in *. unfold maxInt. lia.
Qed.

(** ** The password hash *)

Lemma rot15_bits h i :
  0 <= i -> Z.testbit (rot15 h) i =
    if i =? 0 then Z.testbit h 14 else (i <? 15) && Z.testbit h (i - 1).
Proof.
  intros Hi. unfold rot15.
  change 1 with (Z.ones 1) at 1. change 32767 with (Z.ones 15).
  rewrite Z.lor_spec, !Z.land_spec, Z.shiftr_spec, Z.shiftl_spec by lia.
  rewrite !Z.testbit_ones by lia.
  destruct (Z.eqb_spec i 0) as [->|Hne].
  - change (0 - 1) with (-1). rewrite (Z.testbit_neg_r h (-1)) by lia. cbn.
    by rewrite andb_true_r, orb_false_r.
  - replace (i <? 1) with false by lia. replace (0 <=? i) with true by lia.
    rewrite !andb_false_r. cbn. by rewrite andb_comm.
Qed.

Lemma rot15_lxor a b : rot15 (Z.lxor a b) = Z.lxor (rot15 a) (rot15 b).
Proof.
  apply Z.bits_inj'. intros i Hi. rewrite Z.lxor_spec, !rot15_bits by lia.
  repeat case_match; rewrite ?Z.lxor_spec; try done. by destruct (i <? 15).
Qed.

Fixpoint rot15_iter (n : nat) (h : Z) : Z :=
  match n with O => h | S n' => rot15 (rot15_iter n' h) end.

Lemma rot15_iter_lxor n a b : rot15_iter n (Z.lxor a b) = Z.lxor (rot15_iter n a) (rot15_iter n b).
Proof. induction n; cbn; [done|]. by rewrite IHn, rot15_lxor. Qed.

Lemma rot15_iter_0 n : rot15_iter n 0 = 0.
Proof. induction n as [|n IH]; cbn; [done|]. by rewrite IH. Qed.

Lemma rot15_iter_succ n h : rot15_iter (S n) h = rot15_iter n (rot15 h).
Proof. induction n as [|n IH]; [done|]. cbn in *. by rewrite IH. Qed.

(** What one round of the loop adds to the hash. *)
Definition passwd_term (v charPos : Z) : Z :=
  Z.lor (Z.land (wrap64 (Z.shiftl v charPos)) 32767) (Z.shiftr (wrap64 (Z.shiftl v charPos)) 15).

(** For a 7-bit character shifted by at most 23 the round is a rotation. *)
Lemma passwd_term_rotation v k :
  0 <= v < 128 -> (1 <= k <= 23)%nat -> passwd_term v (Z.of_nat k) = rot15_iter k v.
Proof.
  intros Hv Hk.
  assert (forallb (fun v => forallb (fun k => passwd_term v (Z.of_nat k) =? rot15_iter k v) (seq 1 23)) (seqZ 0 128) = true) as H.
  { vm_compute. reflexivity. }
  rewrite forallb_forall in H. specialize (H v). rewrite <- list_elem_of_In, elem_of_seqZ in H.
  specialize (H Hv). rewrite forallb_forall in H. specialize (H k). rewrite in_seq in H.
  specialize (H ltac:(lia)). lia.
Qed.

Lemma passwd_loop_acc l pos acc :
  passwd_loop l pos acc = Z.lxor acc (passwd_loop l pos 0).
Proof.
  revert pos acc. induction l as [|v l IH]; intros pos acc; cbn [passwd_loop]; [by rewrite Z.lxor_0_r|].
  rewrite IH, (IH _ (Z.lxor 0 _)). by rewrite Z.lxor_0_l, Z.lxor_assoc.
Qed.

Lemma passwd_loop_rotations l k :
  Forall (fun v => 0 <= v < 128) l -> (1 <= k)%nat -> (k + length l <= 24)%nat ->
  passwd_loop l (Z.of_nat k) 0 = rot15_iter (k - 1) (foldr (fun c h => rot15 (Z.lxor h c)) 0 l).
Proof.
  intros Hl. revert k. induction Hl as [|v l Hv Hl IH]; intros k Hk Hlen; cbn [passwd_loop foldr length] in *.
  { by rewrite rot15_iter_0. }
  rewrite passwd_loop_acc, Z.lxor_0_l. fold (passwd_term v (Z.of_nat k)).
  rewrite passwd_term_rotation by lia.
  replace (Z.of_nat k + 1) with (Z.of_nat (S k)) by lia. rewrite IH by lia.
  destruct k as [|k]; [lia|]. replace (S (S k) - 1)%nat with (S k) by lia. replace (S k - 1)%nat with k by lia.
  by rewrite <- !rot15_iter_succ, rot15_iter_lxor, Z.lxor_comm.
Qed.

Lemma rot15_range h : 0 <= rot15 h < 32768.
Proof.
  assert (rot15 h = rot15 h `mod` 2 ^ 15) as ->.
  { rewrite <- Z.land_ones by lia. symmetry. apply Z.bits_inj'. intros i Hi.
    rewrite Z.land_spec, Z.testbit_ones, rot15_bits by lia.
    replace (0 <=? i) with true by lia. cbn.
    destruct (Z.eqb_spec i 0) as [->|]; [by rewrite andb_true_r|].
    destruct (i <? 15); [by rewrite andb_true_r|done]. }
  apply Z.mod_pos_bound. lia.
Qed.

Lemma lxor_bound a b n : 0 <= n -> 0 <= a < 2 ^ n -> 0 <= b < 2 ^ n -> 0 <= Z.lxor a b < 2 ^ n.
Proof.
  intros Hn Ha Hb.
  assert (Z.lxor a b = Z.lxor a b `mod` 2 ^ n) as ->; [|apply Z.mod_pos_bound; lia].
  rewrite <- Z.land_ones by lia. symmetry. apply Z.bits_inj'. intros i Hi.
  rewrite Z.land_spec, Z.testbit_ones by lia. replace (0 <=? i) with true by lia. cbn.
  destruct (Z.ltb_spec i n); [by rewrite andb_true_r|]. rewrite andb_false_r, Z.lxor_spec.
  assert (2 ^ n <= 2 ^ i) by (apply Z.pow_le_mono_r; lia).
  assert (forall x, 0 <= x < 2 ^ n -> Z.testbit x i = false) as Hx.
  { intros x Hx. rewrite <- (Z.mod_small x (2 ^ i)) by lia. by rewrite Z.mod_pow2_bits_high by lia. }
  by rewrite !Hx.
Qed.

Lemma runes_ascii_range s :
  str_forallb is_ascii_byte s = true -> Forall (fun v => 0 <= v < 128) (runes s).
Proof.
  intros Hs. rewrite runes_ascii by done. apply list_ascii_forall in Hs.
  apply Forall_fmap. eapply Forall_impl; [exact Hs|]. intros c Hc. cbn.
  unfold is_ascii_byte in Hc. pose proof (byte_val_range c). lia.
Qed.

Lemma runes_ascii_length s :
  str_forallb is_ascii_byte s = true -> length (runes s) = String.length s.
Proof. intros. rewrite runes_ascii by done. by rewrite length_fmap, list_ascii_length. Qed.

Lemma sheet_passwd_hash_legacy s :
  str_forallb is_ascii_byte s = true -> len s <= 23 ->
  sheet_passwd_hash s = legacy_hash (runes s).
Proof.
  intros Hs Hlen. unfold sheet_passwd_hash, legacy_hash.
  pose proof (runes_ascii_length s Hs) as Hl. unfold len in *.
  pose proof (passwd_loop_rotations (runes s) 1 ltac:(by apply runes_ascii_range) ltac:(lia) ltac:(lia)) as E.
  change (Z.of_nat 1) with 1 in E. rewrite E. by rewrite Hl.
Qed.

Lemma legacy_hash_range l : Z.of_nat (length l) < 65536 -> 0 <= legacy_hash l < 65536.
Proof.
  intros. unfold legacy_hash. change 65536 with (2 ^ 16).
  assert (0 <= foldr (fun c h => rot15 (Z.lxor h c)) 0 l < 2 ^ 16).
  { destruct l as [|v l]; cbn [foldr]; [lia|]. pose proof (rot15_range (Z.lxor (foldr (fun c h => rot15 (Z.lxor h c)) 0 l) v)). lia. }
  repeat apply lxor_bound; lia.
Qed.

(** ** Properties *)

(** Column numbers and column names are inverse for every positive [int]: the
    name of a column number exists, and converting it back, through the 64-bit
    arithmetic of the code, gives the number. *)
Theorem ColumnNumberToName_roundtrip n :
  1 <= n <= maxInt ->
  exists name, ColumnNumberToName n = ok name /\ ColumnNameToNumber name = ok n.
Proof.
  intros Hn. destruct (ColumnNumberToName_spec n) as (name & -> & Hne & Hup & Hv); [lia|].
  exists name. rewrite ColumnNameToNumber_alpha by auto with go_db.
  rewrite Hv, wrap64_id by (unfold minInt, maxInt in *; lia). done.
Qed.

Lemma ColumnNumberToName_roundtrip_witness :
  (1 <= 18278 <= maxInt) /\
  exists name, ColumnNumberToName 18278 = ok name /\ ColumnNameToNumber name = ok 18278.
Proof.
  assert (1 <= 18278 <= maxInt) as H by (unfold maxInt; lia).
  split; [exact H|]. exact (ColumnNumberToName_roundtrip 18278 H).
Defined.

(** A name of at most thirteen letters, in any case, is read without overflow
    and its number names the upper-case column. *)
Theorem ColumnNameToNumber_roundtrip name :
  name <> "" -> str_forallb is_alpha name = true -> len name <= 13 ->
  exists n, ColumnNameToNumber name = ok n /\ 1 <= n <= maxInt /\
    ColumnNumberToName n = ok (str_map upper_byte name).
Proof.
  intros Hne Ha Hlen. pose proof (name_value_13 name Hne Ha Hlen).
  exists (name_value name). rewrite ColumnNameToNumber_alpha by done.
  rewrite wrap64_id by (unfold minInt, maxInt in *; lia). split; [done|]. split; [done|].
  destruct (ColumnNumberToName_spec (name_value name)) as (s & -> & _ & Hup & Hv); [lia|].
  do 2 f_equal. apply name_value_inj; auto with go_db. by rewrite name_value_upper.
Qed.

Lemma ColumnNameToNumber_roundtrip_witness :
  exists n, ColumnNameToNumber "zzaK" = ok n /\ 1 <= n <= maxInt /\
    ColumnNumberToName n = ok (str_map upper_byte "zzaK").
Proof. apply (ColumnNameToNumber_roundtrip "zzaK"); [discriminate|reflexivity|vm_compute; discriminate]. Defined.

(** [SplitCellName] accepts exactly the strings that are a column part beginning
    and ending with a letter followed by a part without letters that reads as a
    positive number, and answers every other string with the one error. *)
Theorem SplitCellName_correct cell :
  (forall col row, SplitCellName cell = ok (col, row) <-> cell_split cell col row) /\
  ((forall col row, ~ cell_split cell col row) ->
     SplitCellName cell = err_with ("", -1) (ErrInvalidCellName cell)).
Proof.
  split.
  - split; [apply SplitCellName_split|apply SplitCellName_complete].
  - intros Hno. destruct (SplitCellName_cases cell) as [(c & r & H & _)|]; [by apply Hno in H|done].
Qed.

(** C30. Coordinates and cell names are inverse on every pair of positive [int]s. *)
Theorem CellNameToCoordinates_roundtrip col row :
  1 <= col <= maxInt -> 1 <= row <= maxInt ->
  exists cell, CoordinatesToCellName col row = ok cell /\
    CellNameToCoordinates cell = ok (col, row).
Proof. apply CellName_roundtrip. Qed.

Lemma CellNameToCoordinates_roundtrip_witness :
  exists cell, CoordinatesToCellName 37 74 = ok cell /\ CellNameToCoordinates cell = ok (37, 74).
Proof. apply (CellNameToCoordinates_roundtrip 37 74); unfold maxInt; lia. Defined.

(** Reading a cell name whose column part has at most thirteen letters and
    writing its coordinates back gives the canonical name that [JoinCellName]
    builds from the two parts: upper-case letters, then the row in decimal. *)
Theorem CellNameToCoordinates_canonical cell col row :
  SplitCellName cell = ok (col, row) -> str_forallb is_alpha col = true -> len col <= 13 ->
  exists c name, CellNameToCoordinates cell = ok (c, row) /\
    CoordinatesToCellName c row = ok name /\ JoinCellName col row = ok name /\
    name = str_map upper_byte col +:+ strconv_Itoa row.
Proof.
  intros Hs Ha Hlen. pose proof (SplitCellName_split _ _ _ Hs) as [rs _ (x & s & Ecol & _) _ _ _ Hpos].
  assert (col <> "") as Hne by (by rewrite Ecol).
  pose proof (name_value_13 col Hne Ha Hlen).
  exists (name_value col), (str_map upper_byte col +:+ strconv_Itoa row).
  unfold CellNameToCoordinates. rewrite Hs, ColumnNameToNumber_alpha by done.
  rewrite wrap64_id by (unfold minInt, maxInt in *; lia). split; [done|]. split; [|split; [|done]].
  - destruct (CoordinatesToCellName_spec (name_value col) row) as (nm & -> & _ & _ & Hup & Hv); [lia..|].
    do 3 f_equal. apply name_value_inj; auto with go_db. by rewrite name_value_upper.
  - unfold JoinCellName. rewrite str_filter_all by done.
    replace (_ || _) with false; [by replace (row <? 1) with false by lia|].
    assert (len col <> 0) by (by rewrite len_nil).
    unfold len in *. rewrite str_length_map. lia.
Qed.

Lemma CellNameToCoordinates_canonical_witness :
  exists c name, CellNameToCoordinates "aK007" = ok (c, 7) /\
    CoordinatesToCellName c 7 = ok name /\ JoinCellName "aK" 7 = ok name /\
    name = str_map upper_byte "aK" +:+ strconv_Itoa 7.
Proof.
  apply (CellNameToCoordinates_canonical "aK007" "aK" 7); [reflexivity|reflexivity|vm_compute; discriminate].
Defined.

(** For an ASCII password of at most 23 bytes the position-dependent shifts of
    [genSheetPasswd] compute the published rotating hash, a 16-bit number whose
    upper-case hexadecimal digits are returned. *)
Theorem genSheetPasswd_legacy plaintext :
  str_forallb is_ascii_byte plaintext = true -> len plaintext <= 23 ->
  genSheetPasswd plaintext = str_map upper_byte (strconv_FormatInt (legacy_hash (runes plaintext)) 16) /\
  0 <= legacy_hash (runes plaintext) < 65536.
Proof.
  intros Hs Hlen. unfold genSheetPasswd. rewrite sheet_passwd_hash_legacy by done. split; [done|].
  apply legacy_hash_range. rewrite runes_ascii_length by done. unfold len in Hlen. lia.
Qed.

Lemma genSheetPasswd_legacy_witness :
  genSheetPasswd "password" = str_map upper_byte (strconv_FormatInt (legacy_hash (runes "password")) 16) /\
  0 <= legacy_hash (runes "password") < 65536.
Proof. apply (genSheetPasswd_legacy "password"); [reflexivity|vm_compute; discriminate]. Defined.

(** From the 25th character on the bits shifted out are no longer rotated back
    into 15 bits: a 25-character password has a hash of more than 16 bits. *)
Theorem genSheetPasswd_overflows :
  exists plaintext, str_forallb is_ascii_byte plaintext = true /\ len plaintext = 25 /\
    65536 <= sheet_passwd_hash plaintext.
Proof. exists "aaaaaaaaaaaaaaaaaaaaaaaaa". repeat split; vm_compute; discriminate || reflexivity. Qed.
