(* ===== verification/GoFloat.v ===== *)
(** [float64] as IEEE 754 binary64: the Standard Library's [spec_float] with 53
    bits of precision and exponent bound 1024, rounding to nearest even. *)
From Stdlib Require Export SpecFloat.
From S2P Require Export Prelude.

Abbreviation float64 := spec_float.

#[export] Instance spec_float_eq_dec : EqDecision spec_float.
Proof. solve_decision. Defined.

Definition f64_prec : Z := 53.
Definition f64_emax : Z := 1024.

Definition f64_add : float64 -> float64 -> float64 := SFadd f64_prec f64_emax.
Definition f64_sub : float64 -> float64 -> float64 := SFsub f64_prec f64_emax.
Definition f64_mul : float64 -> float64 -> float64 := SFmul f64_prec f64_emax.
Definition f64_div : float64 -> float64 -> float64 := SFdiv f64_prec f64_emax.
Definition f64_opp : float64 -> float64 := SFopp.

Definition f64_eqb : float64 -> float64 -> bool := SFeqb.
Definition f64_ltb : float64 -> float64 -> bool := SFltb.
Definition f64_leb : float64 -> float64 -> bool := SFleb.

Definition f64_zero : float64 := S754_zero false.

(** [float64(n)], and a constant [m * 2^e], rounded to nearest even. *)
Definition f64_scale (m e : Z) : float64 := binary_normalize f64_prec f64_emax m e false.
Definition f64_of_int (n : Z) : float64 := f64_scale n 0.

(** The quotient of two integer constants, rounded once. *)
Definition f64_const (n d : Z) : float64 := f64_div (f64_of_int n) (f64_of_int d).

Definition signed (s : bool) (z : Z) : Z := if s then - z else z.

(** The integer part, towards zero, of a finite value. *)
Definition f64_trunc (f : float64) : option Z :=
  match f with
  | S754_zero _ => Some 0
  | S754_finite s m e =>
      Some (signed s (if 0 <=? e then Zpos m * 2 ^ e else Zpos m `div` 2 ^ (- e)))
  | _ => None
  end.

(** [int(f)] and [int64(f)]: truncation; a value that does not fit is left to the
    implementation by the language, and is the least integer on amd64. *)
Definition f64_to_int (f : float64) : Z :=
  match f64_trunc f with
  | Some z => if (minInt <=? z) && (z <=? maxInt) then z else minInt
  | None => minInt
  end.

(** [uint8(f)], through the same instruction. *)
Definition f64_to_uint8 (f : float64) : Z := f64_to_int f `mod` 256.

Definition f64_is_neg (f : float64) : bool :=
  match f with S754_zero s | S754_infinity s | S754_finite s _ _ => s | S754_nan => false end.

Definition f64_with_sign (s : bool) (z : Z) : float64 :=
  if z =? 0 then S754_zero s else f64_of_int z.

(** [math.Ceil]. *)
Definition math_Ceil (f : float64) : float64 :=
  match f with
  | S754_finite s m e =>
      if 0 <=? e then f
      else f64_with_sign s (- ((- signed s (Zpos m)) `div` 2 ^ (- e)))
  | _ => f
  end.

(** [math.Abs]. *)
Definition math_Abs (f : float64) : float64 := SFabs f.

(** [math.Modf]: integer part and fraction, both with the sign of the argument. *)
Definition math_Modf (f : float64) : float64 * float64 :=
  match f with
  | S754_finite s _ _ =>
      match f64_trunc f with
      | Some z =>
          let i := f64_with_sign s z in
          let r := f64_sub f i in
          (i, if f64_eqb r f64_zero then S754_zero s else r)
      | None => (f, f)
      end
  | S754_zero s => (f, f)
  | S754_infinity s => (f, S754_nan)
  | S754_nan => (f, f)
  end.

(** [math.Max] and [math.Min] on values that are neither NaN nor zeroes of both
    signs. *)
Definition math_Max (a b : float64) : float64 := if f64_ltb a b then b else a.
Definition math_Min (a b : float64) : float64 := if f64_ltb b a then b else a.
