(* ===== verification/GoDecimal.v ===== *)
(** Decimal text of floating-point numbers, as [strconv] and [fmt] produce and
    read it: correct rounding of exact rationals, the shortest decimal that
    reads back, and fixed precision. *)
From S2P Require Export GoFloat GoString.

(** ** Correct rounding *)

(** The value nearest to [num / den] (both positive) in a binary format: the
    quotient is taken with more bits than the format has, the last one sticky. *)
Definition f_of_ratio (prec emax : Z) (neg : bool) (num den : Z) : spec_float :=
  if num =? 0 then S754_zero neg
  else
    let k := Z.max 0 (Z.log2 den - Z.log2 num + prec + 3) in
    let q := (num * 2 ^ k) `div` den in
    let sticky := if (num * 2 ^ k) `mod` den =? 0 then 0 else 1 in
    binary_normalize prec emax (signed neg (2 * q + sticky)) (- k - 1) neg.

(** [num * 10 ^ e10] in the format. *)
Definition f_of_decimal (prec emax : Z) (neg : bool) (num e10 : Z) : spec_float :=
  if 0 <=? e10 then f_of_ratio prec emax neg (num * 10 ^ e10) 1
  else f_of_ratio prec emax neg num (10 ^ (- e10)).

(** [float32(f)], in the parameters of binary32. *)
Definition f32_prec : Z := 24.
Definition f32_emax : Z := 128.
Definition f32_round (f : float64) : spec_float :=
  match f with
  | S754_finite s m e => binary_normalize f32_prec f32_emax (signed s (Zpos m)) e s
  | _ => f
  end.

(** ** [strconv.ParseFloat(s, 64)] *)

(** Digits before and after the point: the number they spell, how many follow
    the point, and the rest; [saw] tells whether there is a digit at all. *)
Fixpoint read_digits (s : string) (dot saw : bool) (acc scale : Z) : Z * Z * bool * string :=
  match s with
  | EmptyString => (acc, scale, saw, s)
  | String c rest =>
      match digit_val c with
      | Some d => read_digits rest dot true (acc * 10 + d) (if dot then scale + 1 else scale)
      | None => if (byte_val c =? 46) && negb dot then read_digits rest true saw acc scale
                else (acc, scale, saw, s)
      end
  end.

(** The digits of an exponent; values beyond 10000 are all the same to it. *)
Fixpoint read_exponent (s : string) (saw : bool) (acc : Z) : option Z :=
  match s with
  | EmptyString => if saw then Some acc else None
  | String c rest =>
      match digit_val c with
      | Some d => read_exponent rest true (if acc <? 10000 then acc * 10 + d else acc)
      | None => None
      end
  end.

Definition parse_exponent (s : string) : option Z :=
  match s with
  | EmptyString => Some 0
  | String c rest =>
      if (byte_val c =? 101) || (byte_val c =? 69) then
        let '(neg, digits) := split_sign rest in
        option_map (fun e => signed neg e) (read_exponent digits false 0)
      else None
  end.

Definition parse_special (neg signed_ : bool) (s : string) : option float64 :=
  let l := str_map lower_byte s in
  if bool_decide (l = "inf") || bool_decide (l = "infinity") then Some (S754_infinity neg)
  else if bool_decide (l = "nan") && negb signed_ then Some S754_nan
  else None.

Definition starts_with_sign (s : string) : bool :=
  match s with String c _ => (byte_val c =? 43) || (byte_val c =? 45) | _ => false end.

(** The exponents at which any mantissa of the given number of digits is out of
    range keep the powers of ten small. *)
Definition decimal_value (neg : bool) (mant e10 : Z) (digits : Z) : float64 :=
  if mant =? 0 then S754_zero neg
  else if 400 <? e10 + digits then S754_infinity neg
  else if e10 + digits <? -400 then S754_zero neg
  else f_of_decimal f64_prec f64_emax neg mant e10.

Definition strconv_ParseFloat (s : string) : float64 * option goerr :=
  let '(neg, body) := split_sign s in
  match parse_special neg (starts_with_sign s) body with
  | Some f => ok f
  | None =>
      let '(mant, scale, saw, rest) := read_digits body false false 0 0 in
      match (if saw then parse_exponent rest else None) with
      | None => err_with f64_zero (ErrSyntax s)
      | Some e =>
          match decimal_value neg mant (e - scale) (len body) with
          | S754_infinity n => err_with (S754_infinity n) (ErrRange s)
          | f => ok f
          end
      end
  end.

(** ** [strconv.FormatFloat] *)

(** A positive finite value as a quotient of integers. *)
Definition f_ratio (m : positive) (e : Z) : Z * Z :=
  if 0 <=? e then (Zpos m * 2 ^ e, 1) else (Zpos m, 2 ^ (- e)).

(** The position of the decimal point: the [dp] with
    [10 ^ (dp - 1) <= num / den < 10 ^ dp]. The least positive double is above
    [10 ^ -324]. *)
Fixpoint dp_small (fuel : nat) (num den k : Z) : Z :=
  match fuel with
  | O => - k
  | S f => if den <=? num then - k + 1 else dp_small f (num * 10) den (k + 1)
  end.
Definition decimal_point (num den : Z) : Z :=
  if den <=? num then len (format_uint 10 (num `div` den)) else dp_small 400 num den 0.

(** The quotient [num * 10 ^ k / den], rounded down, and the remainder with its
    divisor. *)
Definition scaled_div (num den k : Z) : Z * Z * Z :=
  if 0 <=? k then ((num * 10 ^ k) `div` den, (num * 10 ^ k) `mod` den, den)
  else (num `div` (den * 10 ^ (- k)), num `mod` (den * 10 ^ (- k)), den * 10 ^ (- k)).

(** Half to even. *)
Definition round_half_even (q r d : Z) : Z :=
  if 2 * r <? d then q else if d <? 2 * r then q + 1 else if Z.even q then q else q + 1.

(** The shortest decimal [digits * 10 ^ exp] that reads back as [f]; seventeen
    digits are enough for a double. *)
Fixpoint shortest_go (fuel : nat) (prec emax n num den dp : Z) (f : spec_float) : Z * Z :=
  let '(down, r, d) := scaled_div num den (n - dp) in
  let near := round_half_even down r d in
  let okdown := bool_decide (f_of_decimal prec emax false down (dp - n) = f) in
  let okup := bool_decide (f_of_decimal prec emax false (down + 1) (dp - n) = f) in
  if okdown && okup then (near, dp - n)
  else if okdown then (down, dp - n)
  else if okup then (down + 1, dp - n)
  else match fuel with
       | O => (near, dp - n)
       | S fuel' => shortest_go fuel' prec emax (n + 1) num den dp f
       end.

Fixpoint zeros (n : nat) : string := match n with O => "" | S k => String "0" (zeros k) end.

Definition pad_left (width : Z) (s : string) : string := zeros (Z.to_nat (width - len s)) +:+ s.

(** [digits * 10 ^ (- places)] in positional notation. *)
Definition fixed_text (digits places : Z) : string :=
  if places <=? 0 then format_uint 10 (digits * 10 ^ (- places))
  else
    let s := pad_left (places + 1) (format_uint 10 digits) in
    let i := Z.to_nat (len s - places) in
    str_take i s +:+ "." +:+ str_drop i s.

Definition sign_text (neg : bool) : string := if neg then "-" else "".

Definition special_text (f : spec_float) (finite : bool -> positive -> Z -> string) (zero_ : bool -> string) : string :=
  match f with
  | S754_nan => "NaN"
  | S754_infinity neg => if neg then "-Inf" else "+Inf"
  | S754_zero neg => zero_ neg
  | S754_finite neg m e => finite neg m e
  end.

(** The [f] format with [places >= 0] decimals, half to even on the exact value. *)
Definition format_fixed (f : spec_float) (places : Z) : string :=
  special_text f
    (fun neg m e => let '(num, den) := f_ratio m e in
       let '(q, r, d) := scaled_div num den places in
       sign_text neg +:+ fixed_text (round_half_even q r d) places)
    (fun neg => sign_text neg +:+ fixed_text 0 places).

Definition format_shortest (prec emax : Z) (f : spec_float) : string :=
  special_text f
    (fun neg m e => let '(num, den) := f_ratio m e in
       let '(digits, e10) := shortest_go 16 prec emax 1 num den (decimal_point num den) (SFabs f) in
       sign_text neg +:+ fixed_text digits (- e10))
    (fun neg => sign_text neg +:+ "0").

(** [strconv.FormatFloat(value, 'f', prec, bitSize)]; another bit size panics. *)
Definition strconv_FormatFloat_f (value : float64) (prec bitSize : Z) : outcome string :=
  if bitSize =? 64 then
    Ret (if prec <? 0 then format_shortest f64_prec f64_emax value else format_fixed value prec)
  else if bitSize =? 32 then
    let v := f32_round value in
    Ret (if prec <? 0 then format_shortest f32_prec f32_emax v else format_fixed v prec)
  else Panic.

(** [fmt.Sprintf("%.2f", f)] and [fmt.Sprintf("%.e", f)]. *)
Definition sprintf_2f (f : float64) : string := format_fixed f 2.

Definition exponent_text (e : Z) : string :=
  (if e <? 0 then "-" else "+") +:+ pad_left 2 (format_uint 10 (Z.abs e)).

Definition sprintf_e0 (f : float64) : string :=
  special_text f
    (fun neg m e => let '(num, den) := f_ratio m e in
       let dp := decimal_point num den in
       let '(q, r, d) := scaled_div num den (1 - dp) in
       let digit := round_half_even q r d in
       let '(digit, dp) := if digit =? 10 then (1, dp + 1) else (digit, dp) in
       sign_text neg +:+ format_uint 10 digit +:+ "e" +:+ exponent_text (dp - 1))
    (fun neg => sign_text neg +:+ "0e+00").

(** Samples, evaluated. *)
Example parse_format_samples :
  map (fun s => (strconv_FormatFloat_f (strconv_ParseFloat s).1 (-1) 64, sprintf_2f (strconv_ParseFloat s).1))
    ["0.1"; "1e23"; "37947.7500001"; "-0.000123"; "9007199254740993"; "5e-1"; "2.675"] =
  [(Ret "0.1", "0.10"); (Ret "100000000000000000000000", "99999999999999991611392.00");
   (Ret "37947.7500001", "37947.75"); (Ret "-0.000123", "-0.00"); (Ret "9007199254740992", "9007199254740992.00");
   (Ret "0.5", "0.50"); (Ret "2.675", "2.67")].
Proof. vm_compute. reflexivity. Qed.

Example float32_samples :
  (strconv_FormatFloat_f (f64_const 1325 1000) (-1) 32, strconv_FormatFloat_f (f64_const 1325 1000) 2 32,
   sprintf_e0 (f64_of_int 95), sprintf_e0 (f64_const 1 800)) = (Ret "1.325", Ret "1.33", "1e+02", "1e-03").
Proof. vm_compute. reflexivity. Qed.
