(* ===== verification/Date.v ===== *)
(** [date.go]: the conversions between [time.Time] and the serial numbers of the
    file format, over the calendar part of Go's [time] package. *)
From Stdlib Require Export ZifyBool.
From S2P Require Export GoFloat GoString.

(** ** [time.Time]

    An instant as nanoseconds since 1970-01-01 00:00:00 UTC, and whether its
    location is [time.UTC]. The calendar is the proleptic Gregorian one. *)
Record go_time := mk_time { time_ns : Z; time_utc : bool }.

Definition nanos_per_sec : Z := 1000000000.
Definition dayNanoseconds : Z := 86400 * nanos_per_sec.

(** Days since 1970-01-01 of a date; the month may be any number, as in
    [time.Date]. *)
Definition days_from_civil (year month day : Z) : Z :=
  let y0 := year + (month - 1) `div` 12 in
  let m := (month - 1) `mod` 12 + 1 in
  let y := if m <=? 2 then y0 - 1 else y0 in
  let era := y `div` 400 in
  let yoe := y `mod` 400 in
  let doy := (153 * (if 2 <? m then m - 3 else m + 9) + 2) `div` 5 + day - 1 in
  era * 146097 + (yoe * 365 + yoe `div` 4 - yoe `div` 100 + doy) - 719468.

Definition civil_from_days (days : Z) : Z * Z * Z :=
  let z := days + 719468 in
  let era := z `div` 146097 in
  let doe := z `mod` 146097 in
  let yoe := (doe - doe `div` 1460 + doe `div` 36524 - doe `div` 146096) `div` 365 in
  let doy := doe - (365 * yoe + yoe `div` 4 - yoe `div` 100) in
  let mp := (5 * doy + 2) `div` 153 in
  let d := doy - (153 * mp + 2) `div` 5 + 1 in
  let m := if mp <? 10 then mp + 3 else mp - 9 in
  let y := yoe + era * 400 in
  (if m <=? 2 then y + 1 else y, m, d).

Definition time_Date (year month day hour minute sec nsec : Z) : go_time :=
  mk_time (((days_from_civil year month day * 24 + hour) * 60 + minute) * 60 * nanos_per_sec
           + sec * nanos_per_sec + nsec) true.

Definition time_Add (t : go_time) (d : Z) : go_time := mk_time (time_ns t + d) (time_utc t).

(** The difference of two instants is a [Duration], saturated at 64 bits. *)
Definition time_Sub (t u : go_time) : Z := Z.max minInt (Z.min maxInt (time_ns t - time_ns u)).

Definition time_Before (t u : go_time) : bool := time_ns t <? time_ns u.
Definition time_After (t u : go_time) : bool := time_ns u <? time_ns t.

Definition time_days (t : go_time) : Z := time_ns t `div` dayNanoseconds.
Definition time_of_day (t : go_time) : Z := time_ns t `mod` dayNanoseconds.
Definition time_Hour (t : go_time) : Z := time_of_day t `div` (3600 * nanos_per_sec).
Definition time_Minute (t : go_time) : Z := (time_of_day t `div` (60 * nanos_per_sec)) `mod` 60.
Definition time_Second (t : go_time) : Z := (time_of_day t `div` nanos_per_sec) `mod` 60.
Definition time_Nanosecond (t : go_time) : Z := time_of_day t `mod` nanos_per_sec.

(** ** [date.go] *)

Definition maxDuration : Z := 290 * 364 * dayNanoseconds.

Definition excelMinTime1900 : go_time := time_Date 1899 12 31 0 0 0 0.
Definition excelBuggyPeriodStart : go_time := time_Add (time_Date 1900 3 1 0 0 0 0) (-1).

(** The loop that steps back by [maxDuration]: the result so far and the
    remaining difference. *)
Fixpoint excel_time_loop (fuel : nat) (tt : go_time) (diff : Z) (result : float64) : Z * float64 :=
  match fuel with
  | O => (diff, result)
  | S f =>
      if maxDuration <=? diff then
        let tt' := time_Add tt (- maxDuration) in
        excel_time_loop f tt' (time_Sub tt' excelMinTime1900)
          (f64_add result (f64_of_int (Z.quot maxDuration dayNanoseconds)))
      else (diff, result)
  end.

Definition timeToExcelTime (t : go_time) : float64 * option goerr :=
  if negb (time_utc t) then err_with f64_zero (ErrText "only UTC time expected")
  else if time_Before t excelMinTime1900 then ok f64_zero
  else
    let fuel := S (Z.to_nat ((time_ns t - time_ns excelMinTime1900) `div` maxDuration)) in
    let '(diff, result) := excel_time_loop fuel t (time_Sub t excelMinTime1900) f64_zero in
    let rem_ := Z.rem diff dayNanoseconds in
    let result := f64_add result
      (f64_add (f64_div (f64_of_int (diff - rem_)) (f64_of_int dayNanoseconds))
               (f64_div (f64_of_int rem_) (f64_of_int dayNanoseconds))) in
    ok (if time_After t excelBuggyPeriodStart then f64_add result (f64_of_int 1) else result).

Definition f64_half : float64 := f64_scale 1 (-1).

Definition shiftJulianToNoon (julianDays julianFraction : float64) : float64 * float64 :=
  if f64_ltb (f64_opp f64_half) julianFraction && f64_ltb julianFraction f64_half then
    (julianDays, f64_add julianFraction f64_half)
  else if f64_leb f64_half julianFraction then
    (f64_add julianDays (f64_of_int 1), f64_sub julianFraction f64_half)
  else if f64_leb julianFraction (f64_opp f64_half) then
    (f64_sub julianDays (f64_of_int 1), f64_add julianFraction (f64_scale 3 (-1)))
  else (julianDays, julianFraction).

(** Hours, minutes, seconds and nanoseconds; [/] and [%] truncate. *)
Definition fractionOfADay (fraction : float64) : Z * Z * Z * Z :=
  let c1us := 1000 in
  let c1s := 1000000000 in
  let c1day := 24 * 60 * 60 * c1s in
  let frac := f64_to_int (f64_add (f64_mul (f64_of_int c1day) fraction) (f64_of_int 500)) in
  let nanoseconds := imul (Z.quot (Z.rem frac c1s) c1us) c1us in
  let frac := Z.quot frac c1s in
  let seconds := Z.rem frac 60 in
  let frac := Z.quot frac 60 in
  (Z.quot frac 60, Z.rem frac 60, seconds, nanoseconds).

(** Day, month and year. *)
Definition doTheFliegelAndVanFlandernAlgorithm (jd : Z) : Z * Z * Z :=
  let l := iadd jd 68569 in
  let n := Z.quot (imul 4 l) 146097 in
  let l := isub l (Z.quot (iadd (imul 146097 n) 3) 4) in
  let i := Z.quot (imul 4000 (iadd l 1)) 1461001 in
  let l := iadd (isub l (Z.quot (imul 1461 i) 4)) 31 in
  let j := Z.quot (imul 80 l) 2447 in
  let d := isub l (Z.quot (imul 2447 j) 80) in
  let l := Z.quot j 11 in
  let m := isub (iadd j 2) (imul 12 l) in
  let y := iadd (iadd (imul 100 (isub n 49)) i) l in
  (d, m, y).

Definition julianDateToGregorianTime (part1 part2 : float64) : go_time :=
  let '(part1I, part1F) := math_Modf part1 in
  let '(part2I, part2F) := math_Modf part2 in
  let julianDays := f64_add part1I part2I in
  let julianFraction := f64_add part1F part2F in
  let '(julianDays, julianFraction) := shiftJulianToNoon julianDays julianFraction in
  let '(day, month, year) := doTheFliegelAndVanFlandernAlgorithm (f64_to_int julianDays) in
  let '(hours, minutes, seconds, nanoseconds) := fractionOfADay julianFraction in
  time_Date year month day hours minutes seconds nanoseconds.

Definition MDD : Z := 106750.

Fixpoint add_days_loop (fuel : nat) (date : go_time) (intPart : Z) : go_time * Z :=
  match fuel with
  | O => (date, intPart)
  | S f => if MDD <? intPart then add_days_loop f (time_Add date (MDD * dayNanoseconds)) (intPart - MDD)
           else (date, intPart)
  end.

Definition timeFromExcelTime (excelTime : float64) (date1904 : bool) : go_time :=
  let intPart := f64_to_int excelTime in
  if intPart <=? 61 then
    let MJD0 := f64_const 24000005 10 in
    julianDateToGregorianTime MJD0
      (f64_add excelTime (f64_of_int (if date1904 then 16480 else 15018)))
  else
    let floatPart := f64_sub excelTime (f64_of_int intPart) in
    let date := if date1904 then time_Date 1904 1 1 0 0 0 0 else time_Date 1899 12 30 0 0 0 0 in
    let '(date, intPart) := add_days_loop (S (Z.to_nat (intPart `div` MDD))) date intPart in
    let durationPart := f64_to_int (f64_mul (f64_of_int dayNanoseconds) floatPart) in
    time_Add (time_Add date (imul intPart dayNanoseconds)) durationPart.

(** ** The Julian day algorithm *)

Definition is_leap (y : Z) : bool := (y `mod` 4 =? 0) && (negb (y `mod` 100 =? 0) || (y `mod` 400 =? 0)).

Definition days_in_month (y m : Z) : Z :=
  match m with
  | 2 => if is_leap y then 29 else 28
  | 4 | 6 | 9 | 11 => 30
  | _ => 31
  end.

Definition valid_date (y m d : Z) : Prop := 1 <= m <= 12 /\ 1 <= d <= days_in_month y m.

(** The Julian day number of 1970-01-01. *)
Definition unix_jd : Z := 2440588.

(** The algorithm without wrap-around, the divisions rounding down. *)
Definition fvf (jd : Z) : Z * Z * Z :=
  let l := jd + 68569 in
  let n := (4 * l) `div` 146097 in
  let l := l - (146097 * n + 3) `div` 4 in
  let i := (4000 * (l + 1)) `div` 1461001 in
  let l := l - (1461 * i) `div` 4 + 31 in
  let j := (80 * l) `div` 2447 in
  let d := l - (2447 * j) `div` 80 in
  let l := j `div` 11 in
  (d, j + 2 - 12 * l, 100 * (n - 49) + i + l).

(** Divisions by constants, as inequalities. *)
Ltac div_lia := Z.to_euclidean_division_equations; lia.

(** The stages: the century, the year of the century, the month. *)
Lemma fvf_century l0 :
  0 <= l0 -> let n := (4 * l0) `div` 146097 in
  0 <= n /\ 0 <= l0 - (146097 * n + 3) `div` 4 <= 36524.
Proof. intros H n. subst n. div_lia. Qed.

Lemma fvf_year l :
  0 <= l <= 36524 -> let i := (4000 * (l + 1)) `div` 1461001 in
  0 <= i <= 99 /\ 31 <= l - (1461 * i) `div` 4 + 31 <= 396.
Proof. intros H i. subst i. div_lia. Qed.

Lemma fvf_month l :
  31 <= l <= 396 -> let j := (80 * l) `div` 2447 in
  1 <= j <= 12 /\ 1 <= l - (2447 * j) `div` 80 <= 31.
Proof. intros H j. subst j. div_lia. Qed.

Lemma doTheFliegel_fvf jd :
  0 <= jd <= 1000000000000000 -> doTheFliegelAndVanFlandernAlgorithm jd = fvf jd.
Proof.
  intros Hjd. unfold doTheFliegelAndVanFlandernAlgorithm, fvf.
  assert (iadd jd 68569 = jd + 68569) as -> by int_lia.
  set (l0 := jd + 68569). assert (0 <= l0 <= 1000000000068569) as Hl0 by (subst l0; lia). clearbody l0.
  pose proof (fvf_century l0 (proj1 Hl0)) as [Hn Hl].
  assert (Z.quot (imul 4 l0) 146097 = (4 * l0) `div` 146097) as ->.
  { replace (imul 4 l0) with (4 * l0) by (unfold imul; rewrite wrap64_id; [lia|unfold minInt, maxInt; lia]).
    apply Z.quot_div_nonneg; lia. }
  set (n := (4 * l0) `div` 146097) in *.
  assert (146097 * n <= 4 * l0) as Hnl by (subst n; div_lia).
  assert (isub l0 (Z.quot (iadd (imul 146097 n) 3) 4) = l0 - (146097 * n + 3) `div` 4) as ->.
  { unfold isub, iadd, imul. rewrite (wrap64_id (146097 * n)) by (unfold minInt, maxInt; lia).
    rewrite (wrap64_id (_ + 3)) by (unfold minInt, maxInt; lia).
    rewrite Z.quot_div_nonneg by lia. apply wrap64_id. unfold minInt, maxInt. lia. }
  set (l1 := l0 - _) in *. pose proof (fvf_year l1 Hl) as [Hi Hl2].
  assert (Z.quot (imul 4000 (iadd l1 1)) 1461001 = (4000 * (l1 + 1)) `div` 1461001) as ->.
  { unfold iadd, imul. rewrite !wrap64_id by (unfold minInt, maxInt; try rewrite !wrap64_id; unfold minInt, maxInt; lia).
    apply Z.quot_div_nonneg; lia. }
  set (i := (4000 * (l1 + 1)) `div` 1461001) in *.
  assert (iadd (isub l1 (Z.quot (imul 1461 i) 4)) 31 = l1 - (1461 * i) `div` 4 + 31) as ->.
  { unfold iadd, isub, imul. rewrite (wrap64_id (1461 * i)) by (unfold minInt, maxInt; lia).
    rewrite Z.quot_div_nonneg by lia. rewrite wrap64_add_l. apply wrap64_id. unfold minInt, maxInt. lia. }
  set (l2 := l1 - _ + 31) in *. pose proof (fvf_month l2 Hl2) as [Hj Hd].
  assert (Z.quot (imul 80 l2) 2447 = (80 * l2) `div` 2447) as ->.
  { unfold imul. rewrite wrap64_id by (unfold minInt, maxInt; lia). apply Z.quot_div_nonneg; lia. }
  set (j := (80 * l2) `div` 2447) in *.
  rewrite (Z.quot_div_nonneg j 11) by lia.
  assert (0 <= j `div` 11 <= 1) by div_lia.
  unfold iadd, isub, imul.
  rewrite (wrap64_id (2447 * j)) by (unfold minInt, maxInt; lia). rewrite Z.quot_div_nonneg by lia.
  autorewrite with wrap.
  rewrite (wrap64_id (j + 2)), (wrap64_id (12 * _)), (wrap64_id (100 * _)) by (unfold minInt, maxInt; lia).
  by rewrite !wrap64_id by (unfold minInt, maxInt; lia).
Qed.

(** The months of the year that begins in March: [l] is the day of that year
    plus 31, [j] the month, and 29 February is the last day. *)
Definition month_check (l : Z) : bool :=
  let j := (80 * l) `div` 2447 in
  let d := l - (2447 * j) `div` 80 in
  let m := j + 2 - 12 * (j `div` 11) in
  ((2447 * j) `div` 80 =? 30 + (153 * (j - 1) + 2) `div` 5) && (1 <=? j) && (j <=? 12) && (1 <=? d)
  && (d <=? days_in_month 1 m + (if l =? 396 then 1 else 0)).

Lemma month_checked l : 31 <= l <= 396 -> month_check l = true.
Proof.
  intros Hl. assert (forallb month_check (seqZ 31 366) = true) as H by (vm_compute; reflexivity).
  rewrite forallb_forall in H. apply H, list_elem_of_In, elem_of_seqZ. lia.
Qed.

(** 29 February is reached in the leap years of a century only. *)
Lemma leap_checked i :
  0 <= i <= 99 -> (4000 * (365 + (1461 * i) `div` 4 + 1)) `div` 1461001 = i -> i `mod` 4 = 3.
Proof.
  intros Hi. assert (forallb (fun i => negb ((4000 * (365 + (1461 * i) `div` 4 + 1)) `div` 1461001 =? i)
    || (i `mod` 4 =? 3)) (seqZ 0 100) = true) as H by (vm_compute; reflexivity).
  rewrite forallb_forall in H. specialize (H i). rewrite <- list_elem_of_In, elem_of_seqZ in H.
  specialize (H ltac:(lia)). lia.
Qed.

(** The day number in terms of the year that begins in March, the century and
    the year of the century. *)
Lemma days_from_march a i mp d :
  0 <= i <= 99 -> 0 <= mp <= 11 ->
  let l := (mp + 1) `div` 11 in
  days_from_civil (100 * a + i + l) (mp + 3 - 12 * l) d =
    36524 * a + a `div` 4 + 365 * i + i `div` 4 + (153 * mp + 2) `div` 5 + d - 1 - 719468.
Proof.
  intros Hi Hmp l. assert (0 <= l <= 1 /\ (l = 1 <-> 10 <= mp)) as [Hl Hl'] by (subst l; div_lia).
  unfold days_from_civil. cbv zeta. set (m := mp + 3 - 12 * l).
  assert (1 <= m <= 12) by lia.
  replace ((m - 1) `mod` 12 + 1) with m by div_lia. replace ((m - 1) `div` 12) with 0 by div_lia.
  rewrite Z.add_0_r.
  replace (if m <=? 2 then 100 * a + i + l - 1 else 100 * a + i + l) with (100 * a + i) by (case_match; lia).
  replace (if 2 <? m then m - 3 else m + 9) with mp by (case_match; lia).
  set (y := 100 * a + i). assert (y `div` 100 = a) as Ha by (subst y; div_lia).
  assert (y `div` 4 = 25 * a + i `div` 4) as H4 by (subst y; div_lia).
  assert (y `div` 400 = a `div` 4) as H400 by (subst y; div_lia).
  assert (y `div` 400 * 146097 + (y `mod` 400 * 365 + (y `mod` 400) `div` 4 - (y `mod` 400) `div` 100) =
    365 * y + y `div` 4 - y `div` 100 + y `div` 400) as Hera by (clear; div_lia).
  lia.
Qed.

Lemma leap_century n : n `mod` 4 = 0 -> is_leap (100 * n) = true.
Proof. intros H. unfold is_leap. div_lia. Qed.

Lemma leap_year n i : 0 < i < 100 -> i `mod` 4 = 0 -> is_leap (100 * n + i) = true.
Proof. intros Hi H. unfold is_leap. div_lia. Qed.

Lemma days_in_month_leap y m :
  days_in_month 1 m <= days_in_month y m /\ (m = 2 -> is_leap y = true -> days_in_month y m = 29).
Proof.
  split; [|intros -> E; cbn; by rewrite E].
  unfold days_in_month. repeat case_match; try discriminate; lia.
Qed.

Lemma fvf_leap_day n i l0 :
  let l1 := l0 - (146097 * n + 3) `div` 4 in
  l1 - (1461 * i) `div` 4 + 31 = 396 -> 0 <= i <= 99 -> 146097 * n <= 4 * l0 < 146097 * (n + 1) ->
  i = (4000 * (l1 + 1)) `div` 1461001 -> is_leap (100 * (n - 49) + i + 1) = true.
Proof.
  intros l1 E Hi Hn Hidx.
  assert (i `mod` 4 = 3) as Hmod.
  { apply leap_checked; [done|]. rewrite Hidx at 2. do 2 f_equal. lia. }
  destruct (decide (i = 99)) as [->|Hne].
  - replace (100 * (n - 49) + 99 + 1) with (100 * (n - 48)) by lia. apply leap_century.
    subst l1. clear Hidx. div_lia.
  - rewrite <- Z.add_assoc. apply leap_year; [lia|]. div_lia.
Qed.

(** The algorithm returns the calendar date with the given day number. *)
Lemma fvf_correct jd : 0 <= jd ->
  let '(d, m, y) := fvf jd in valid_date y m d /\ days_from_civil y m d = jd - unix_jd.
Proof.
  intros Hjd. unfold fvf. cbv zeta. set (l0 := jd + 68569).
  destruct (fvf_century l0 ltac:(subst l0; lia)) as [Hn Hl1].
  set (n := (4 * l0) `div` 146097) in *. set (l1 := l0 - (146097 * n + 3) `div` 4) in *.
  destruct (fvf_year l1 Hl1) as [Hi Hl2].
  set (i := (4000 * (l1 + 1)) `div` 1461001) in *. set (l2 := l1 - (1461 * i) `div` 4 + 31) in *.
  pose proof (month_checked l2 Hl2) as Hm. unfold month_check in Hm.
  set (j := (80 * l2) `div` 2447) in *. rewrite !andb_true_iff in Hm.
  destruct Hm as [[[[Hm Hj1] Hj2] Hd1] Hd2].
  split.
  - split; [div_lia|]. split; [lia|].
    destruct (days_in_month_leap (100 * (n - 49) + i + j `div` 11) (j + 2 - 12 * (j `div` 11))) as [Hle Hfeb].
    destruct (decide (l2 = 396)) as [E|Hne]; [|destruct (l2 =? 396) eqn:?; lia].
    assert (146097 * n <= 4 * l0 < 146097 * (n + 1)) as Hnl by (clearbody l0; subst n; div_lia).
    pose proof (fvf_leap_day n i l0 E ltac:(lia) Hnl eq_refl) as Hleap.
    assert (j = 12) as Ej by (subst j; rewrite E; reflexivity).
    rewrite Hfeb; [|by rewrite Ej..]. clear -Ej E.
    clearbody l2 j. subst. vm_compute. discriminate.
  - replace (100 * (n - 49) + i + j `div` 11) with (100 * (n - 49) + i + ((j - 1) + 1) `div` 11)
      by (do 2 f_equal; lia).
    replace (j + 2 - 12 * (j `div` 11)) with ((j - 1) + 3 - 12 * (((j - 1) + 1) `div` 11))
      by (replace (j - 1 + 1) with j by lia; lia).
    rewrite days_from_march by lia. unfold unix_jd. subst l2 l1 l0. clearbody i j. clear -Hm Hn. div_lia.
Qed.

Lemma add_days_loop_spec fuel date k :
  k <= MDD * (Z.of_nat fuel) ->
  exists date' r, add_days_loop fuel date k = (date', r) /\ r <= MDD /\ (0 <= k -> 0 <= r) /\
    time_ns date' + r * dayNanoseconds = time_ns date + k * dayNanoseconds /\ time_utc date' = time_utc date.
Proof.
  revert date k. induction fuel as [|f IH]; intros date k Hk; cbn [add_days_loop].
  - exists date, k. unfold MDD in *. split_and!; try done; lia.
  - case_match.
    + destruct (IH (time_Add date (MDD * dayNanoseconds)) (k - MDD)) as (d & r & E & H1 & H2 & H3 & H4);
        [unfold MDD in *; lia|].
      exists d, r. rewrite E. cbn in H3, H4. split_and!; [done|done|unfold MDD in *; lia|lia|done].
    + exists date, k. split_and!; try done; lia.
Qed.

Lemma excel_time_loop_spec fuel tt result :
  0 <= time_ns tt - time_ns excelMinTime1900 < maxDuration * Z.of_nat fuel ->
  exists k diff result', excel_time_loop fuel tt (time_Sub tt excelMinTime1900) result = (diff, result') /\
    0 <= k /\ 0 <= diff < maxDuration /\
    time_ns tt - time_ns excelMinTime1900 = diff + k * maxDuration.
Proof.
  revert tt result. induction fuel as [|f IH]; intros tt result Hr; [unfold maxDuration, dayNanoseconds in *; cbn in *; lia|].
  cbn [excel_time_loop]. unfold time_Sub at 1.
  assert (maxDuration < maxInt) as Hmax by (vm_compute; reflexivity).
  set (d := time_ns tt - time_ns excelMinTime1900) in *.
  assert ((maxDuration <=? Z.max minInt (Z.min maxInt d)) = (maxDuration <=? d)) as ->.
  { unfold minInt. clearbody d. assert (0 < maxDuration) by (vm_compute; reflexivity). lia. }
  case_match eqn:Hle.
  - destruct (IH (time_Add tt (- maxDuration)) (f64_add result (f64_of_int (Z.quot maxDuration dayNanoseconds))))
      as (k & diff & r & E & Hk & Hd & Hs).
    { cbn [time_ns time_Add]. subst d. rewrite Nat2Z.inj_succ in Hr. lia. }
    exists (k + 1), diff, r. rewrite E. cbn [time_ns time_Add] in Hs. split_and!; [done|lia..|]. subst d. lia.
  - exists 0, d, result. split_and!; [|lia..]. f_equal. unfold time_Sub. fold d.
    unfold minInt. clearbody d. lia.
Qed.

(** ** Properties *)

(** C37. The published Julian day algorithm, in Go's truncating 64-bit arithmetic,
    returns for every day number from 0 (4713 BC) on the day, month and year of
    the proleptic Gregorian calendar with that number: the month and the day are
    valid, leap years included, and the date is exactly that many days from the
    epoch. *)
Theorem doTheFliegelAndVanFlandernAlgorithm_correct jd :
  0 <= jd <= 1000000000000000 ->
  let '(day, month, year) := doTheFliegelAndVanFlandernAlgorithm jd in
  valid_date year month day /\ days_from_civil year month day = jd - unix_jd.
Proof. intros Hjd. rewrite doTheFliegel_fvf by done. apply fvf_correct. lia. Qed.

Lemma doTheFliegelAndVanFlandernAlgorithm_correct_witness :
  let '(day, month, year) := doTheFliegelAndVanFlandernAlgorithm 2458561 in
  (day, month, year) = (18, 3, 2019) /\ valid_date year month day /\
  days_from_civil year month day = 2458561 - unix_jd.
Proof.
  pose proof (doTheFliegelAndVanFlandernAlgorithm_correct 2458561 ltac:(lia)) as H.
  change (doTheFliegelAndVanFlandernAlgorithm 2458561) with (18, 3, 2019) in *. split; [reflexivity|exact H].
Defined.

(** From serial number 62 on, the loop that keeps each [time.Duration] below its
    64-bit bound adds up to the instant that many days after the base date, the
    fraction of the day being added in nanoseconds; no step overflows. *)
Theorem timeFromExcelTime_days (excelTime : float64) (date1904 : bool) :
  61 < f64_to_int excelTime ->
  let base := if date1904 then time_Date 1904 1 1 0 0 0 0 else time_Date 1899 12 30 0 0 0 0 in
  let intPart := f64_to_int excelTime in
  timeFromExcelTime excelTime date1904 =
    mk_time (time_ns base + intPart * dayNanoseconds
             + f64_to_int (f64_mul (f64_of_int dayNanoseconds) (f64_sub excelTime (f64_of_int intPart)))) true.
Proof.
  intros Hint base intPart. unfold timeFromExcelTime. fold intPart. fold base.
  replace (intPart <=? 61) with false by lia.
  destruct (add_days_loop_spec (S (Z.to_nat (intPart `div` MDD))) base intPart)
    as (date & r & -> & Hr & Hr0 & Hsum & Hutc).
  { unfold MDD. div_lia. }
  assert (time_utc base = true) as Hb by (by subst base; destruct date1904).
  unfold time_Add. cbn [time_ns time_utc]. rewrite Hutc, Hb. f_equal.
  unfold imul. rewrite wrap64_id; [lia|].
  assert (0 <= r) by (apply Hr0; lia).
  unfold minInt, maxInt, dayNanoseconds, nanos_per_sec, MDD in *. lia.
Qed.

Lemma timeFromExcelTime_days_witness :
  61 < f64_to_int (f64_const 434065 10) /\
  timeFromExcelTime (f64_const 434065 10) false = time_Date 2018 11 2 12 0 0 0.
Proof.
  assert (61 < f64_to_int (f64_const 434065 10)) as H by (vm_compute; reflexivity).
  split; [exact H|]. rewrite (timeFromExcelTime_days _ false H). vm_compute. reflexivity.
Defined.

(** The clock that [fractionOfADay] reads off a fraction is the nanosecond count
    it computes, rounded down to the microsecond and split into hours, minutes,
    seconds and nanoseconds in their ranges. *)
Theorem fractionOfADay_clock fraction :
  let frac := f64_to_int (f64_add (f64_mul (f64_of_int dayNanoseconds) fraction) (f64_of_int 500)) in
  0 <= frac ->
  let '(hours, minutes, seconds, nanoseconds) := fractionOfADay fraction in
  0 <= hours /\ 0 <= minutes < 60 /\ 0 <= seconds < 60 /\ 0 <= nanoseconds < nanos_per_sec /\
  ((hours * 60 + minutes) * 60 + seconds) * nanos_per_sec + nanoseconds = frac - frac `mod` 1000.
Proof.
  intros frac Hfrac. unfold fractionOfADay.
  change (24 * 60 * 60 * 1000000000) with dayNanoseconds. fold frac.
  assert (frac <= maxInt) as Hmax.
  { subst frac. unfold f64_to_int. repeat case_match; unfold minInt, maxInt in *; lia. }
  rewrite !Z.rem_mod_nonneg, !Z.quot_div_nonneg by div_lia. unfold imul, nanos_per_sec, maxInt in *.
  clearbody frac. rewrite wrap64_id by (unfold minInt, maxInt; div_lia).
  split_and!; div_lia.
Qed.

Lemma fractionOfADay_clock_witness :
  let '(hours, minutes, seconds, nanoseconds) := fractionOfADay (f64_const 5 8) in
  (hours, minutes, seconds) = (15, 0, 0) /\ 0 <= hours /\ 0 <= nanoseconds < nanos_per_sec.
Proof.
  pose proof (fractionOfADay_clock (f64_const 5 8)) as H. cbv zeta in H.
  assert (0 <= f64_to_int (f64_add (f64_mul (f64_of_int dayNanoseconds) (f64_const 5 8)) (f64_of_int 500))) as H0
    by (vm_compute; discriminate).
  specialize (H H0).
  change (fractionOfADay (f64_const 5 8)) with (15, 0, 0, 0) in *.
  destruct H as (H1 & _ & _ & H2 & _). split; [reflexivity|]. split; [exact H1|exact H2].
Defined.

(** Before March 1900 the two conversions disagree by a day: 1 January 1900 has
    the serial number 1, which is read back as 31 December 1899; from 1 March
    1900 on they agree. *)
Theorem excel_time_1900_mismatch :
  (exists n, timeToExcelTime (time_Date 1900 1 1 0 0 0 0) = ok n /\
     timeFromExcelTime n false = time_Date 1899 12 31 0 0 0 0) /\
  (exists n, timeToExcelTime (time_Date 1900 3 1 0 0 0 0) = ok n /\
     timeFromExcelTime n false = time_Date 1900 3 1 0 0 0 0).
Proof.
  split.
  - exists (f64_of_int 1). split; vm_compute; reflexivity.
  - exists (f64_of_int 61). split; vm_compute; reflexivity.
Qed.
