(* ===== verification/GoSlice.v ===== *)
(** Slices: indexing with Go's bounds checks, and deletion from a slice while a
    [range] loop walks over its backing array. *)
From Stdlib Require Export ZifyBool.
From S2P Require Export Prelude.

Create Rewrite HintDb zlen.

(** [l[i]] and [l[i] = x]; an index out of range panics. *)
Definition list_get {A} (l : list A) (i : Z) : outcome A :=
  if (0 <=? i) then match l !! Z.to_nat i with Some x => Ret x | None => Panic end else Panic.

Definition list_set {A} (l : list A) (i : Z) (x : A) : outcome (list A) :=
  if (0 <=? i) && (i <? Z.of_nat (length l)) then Ret (<[Z.to_nat i := x]> l) else Panic.

Definition zlen {A} (l : list A) : Z := Z.of_nat (length l).

(** A loop that changes one value, with a panic in its body. *)
Fixpoint foldM {A B} (g : B -> A -> outcome B) (b : B) (l : list A) : outcome B :=
  match l with
  | [] => Ret b
  | x :: l' => b' ← g b x; foldM g b' l'
  end.

(** A slice that is shortened in place: the array behind it and its length. *)
Record slice (A : Type) := mk_slice { backing : list A; slen : nat }.
Arguments mk_slice {A} _ _.
Arguments backing {A} _.
Arguments slen {A} _.

Definition slice_of {A} (l : list A) : slice A := mk_slice l (length l).
Definition elems {A} (s : slice A) : list A := take (slen s) (backing s).

(** [s = append(s[:i], s[i+1:]...)]. The elements after [i] move down in the
    array; what lies beyond the new length stays. Slicing past the length
    panics. *)
Definition delete_at {A} (i : nat) (s : slice A) : outcome (slice A) :=
  if decide (i < slen s)%nat
  then Ret (mk_slice (take i (elems s) ++ drop (S i) (elems s) ++ drop (slen s - 1) (backing s)) (slen s - 1))
  else Panic.

(** [for k, v := range s { if p(v) { s = append(s[:k], s[k+1:]...) } }]. The loop
    runs over the indices of the original slice and reads the array as it is
    when the index is reached. *)
Fixpoint range_delete_from {A} (p : A -> bool) (ks : list nat) (s : slice A) : outcome (slice A) :=
  match ks with
  | [] => Ret s
  | k :: ks' =>
      match backing s !! k with
      | Some v => if p v then s' ← delete_at k s; range_delete_from p ks' s'
                  else range_delete_from p ks' s
      | None => Panic
      end
  end.

Definition range_delete {A} (p : A -> bool) (l : list A) : outcome (list A) :=
  s ← range_delete_from p (seq 0 (length l)) (slice_of l); Ret (elems s).

(** The loop that deletes the first match and leaves by [return] or [break]. *)
Definition delete_first {A} (p : A -> bool) (l : list A) : option (A * list A) :=
  match list_find (fun x => p x = true) l with
  | Some (i, x) => Some (x, take i l ++ drop (S i) l)
  | None => None
  end.

(** ** Lemmas *)

Lemma zlen_nil {A} : zlen (@nil A) = 0.
Proof. done. Qed.
Lemma zlen_cons {A} (x : A) l : zlen (x :: l) = 1 + zlen l.
Proof. unfold zlen. rewrite length_cons. lia. Qed.
Lemma zlen_app {A} (l k : list A) : zlen (l ++ k) = zlen l + zlen k.
Proof. unfold zlen. rewrite length_app. lia. Qed.
Lemma zlen_fmap {A B} (f : A -> B) l : zlen (f <$> l) = zlen l.
Proof. unfold zlen. by rewrite length_fmap. Qed.
Lemma zlen_nonneg {A} (l : list A) : 0 <= zlen l.
Proof. unfold zlen. lia. Qed.
Lemma zlen_insert {A} (l : list A) i x : zlen (<[i:=x]> l) = zlen l.
Proof. unfold zlen. by rewrite length_insert. Qed.
#[export] Hint Rewrite @zlen_nil @zlen_cons @zlen_app @zlen_fmap @zlen_insert : zlen.

Lemma list_get_lookup {A} (l : list A) (i : nat) :
  list_get l (Z.of_nat i) = match l !! i with Some x => Ret x | None => Panic end.
Proof. unfold list_get. replace (0 <=? Z.of_nat i) with true by lia. by rewrite Nat2Z.id. Qed.

Lemma list_get_in {A} (l : list A) i x :
  0 <= i -> l !! Z.to_nat i = Some x -> list_get l i = Ret x.
Proof. intros Hi E. unfold list_get. replace (0 <=? i) with true by lia. by rewrite E. Qed.

Lemma list_set_in {A} (l : list A) i x :
  0 <= i < zlen l -> list_set l i x = Ret (<[Z.to_nat i := x]> l).
Proof. unfold zlen, list_set. intros. by replace (_ && _) with true by lia. Qed.

Lemma list_set_nat {A} (l : list A) (i : nat) x :
  (i < length l)%nat -> list_set l (Z.of_nat i) x = Ret (<[i := x]> l).
Proof. intros. rewrite list_set_in by (unfold zlen; lia). by rewrite Nat2Z.id. Qed.

Lemma list_get_last {A} (l : list A) x : list_get (l ++ [x]) (zlen l) = Ret x.
Proof. apply list_get_in; [apply zlen_nonneg|]. unfold zlen. by rewrite Nat2Z.id, list_lookup_middle. Qed.

Lemma list_set_last {A} (l : list A) x y : list_set (l ++ [x]) (zlen l) y = Ret (l ++ [y]).
Proof.
  rewrite list_set_in by (autorewrite with zlen; pose proof (zlen_nonneg l); lia). f_equal.
  unfold zlen. by rewrite Nat2Z.id, <- (Nat.add_0_r (length l)), insert_app_r.
Qed.

Lemma elems_slice_of {A} (l : list A) : elems (slice_of l) = l.
Proof. apply firstn_all. Qed.

Lemma range_delete_from_none {A} (p : A -> bool) ks s :
  Forall (fun k => exists v, backing s !! k = Some v /\ p v = false) ks ->
  range_delete_from p ks s = Ret s.
Proof.
  induction 1 as [|k ks (v & Hv & Hp) Hks IH]; cbn; [done|]. by rewrite Hv, Hp.
Qed.

Lemma range_delete_from_app {A} (p : A -> bool) ks1 ks2 s :
  range_delete_from p (ks1 ++ ks2) s =
    (s' ← range_delete_from p ks1 s; range_delete_from p ks2 s').
Proof.
  revert s. induction ks1 as [|k ks1 IH]; intros s; cbn; [done|].
  destruct (backing s !! k); [|done]. destruct (p a); [|by apply IH].
  unfold mbind, outcome_bind in *. destruct (delete_at k s); [apply IH|done].
Qed.

(** Nothing to delete: the loop changes nothing. *)
Lemma range_delete_nomatch {A} (p : A -> bool) l :
  Forall (fun x => p x = false) l -> range_delete p l = Ret l.
Proof.
  intros Hl. unfold range_delete. rewrite range_delete_from_none.
  - unfold mbind, outcome_bind. by rewrite elems_slice_of.
  - apply Forall_forall. intros k [_ Hk]%elem_of_seq.
    destruct (lookup_lt_is_Some_2 l k) as [v Hv]; [lia|]. exists v. split; [done|].
    rewrite Forall_lookup in Hl. eauto.
Qed.

Lemma drop_S_app {A} (l1 : list A) x l2 : drop (S (length l1)) (l1 ++ x :: l2) = l2.
Proof. rewrite cons_middle, app_assoc. apply drop_app_length'. rewrite length_app. cbn. lia. Qed.

(** An element in the middle is deleted; the last element of the array stays. *)
Lemma delete_at_middle {A} l1 (x : A) l2 :
  delete_at (length l1) (slice_of (l1 ++ x :: l2)) =
    Ret (mk_slice (l1 ++ l2 ++ drop (length l1 + length l2) (l1 ++ x :: l2)) (length l1 + length l2)).
Proof.
  unfold delete_at. rewrite elems_slice_of. cbn [slen slice_of backing]. rewrite length_app. cbn [length].
  rewrite decide_True by lia. rewrite take_app_length, drop_S_app.
  by replace (length l1 + S (length l2) - 1)%nat with (length l1 + length l2)%nat by lia.
Qed.

(** The state after the first match, at index [length l1], has been deleted. *)
Lemma range_delete_first {A} (p : A -> bool) l1 x l2 :
  Forall (fun x => p x = false) l1 -> p x = true ->
  range_delete_from p (seq 0 (length (l1 ++ x :: l2))) (slice_of (l1 ++ x :: l2)) =
  range_delete_from p (seq (S (length l1)) (length l2))
    (mk_slice (l1 ++ l2 ++ drop (length l1 + length l2) (l1 ++ x :: l2)) (length l1 + length l2)).
Proof.
  intros Hl1 Hx. rewrite length_app, seq_app, range_delete_from_app. cbn [length seq Nat.add].
  rewrite range_delete_from_none.
  2:{ apply Forall_forall. intros k [_ Hk]%elem_of_seq. cbn.
      destruct (lookup_lt_is_Some_2 l1 k) as [v Hv]; [lia|]. exists v.
      rewrite lookup_app_l by lia. split; [done|]. rewrite Forall_lookup in Hl1. eauto. }
  unfold mbind, outcome_bind. cbn [range_delete_from backing slice_of].
  rewrite list_lookup_middle by done. by rewrite Hx, delete_at_middle.
Qed.

(** What the loop still reads after its one deletion does not match. *)
Lemma range_delete_rest {A} (p : A -> bool) l1 x l2 :
  Forall (fun x => p x = false) l1 -> Forall (fun x => p x = false) l2 ->
  Forall (fun k => exists v, (l1 ++ l2 ++ drop (length l1 + length l2) (l1 ++ x :: l2)) !! k = Some v /\ p v = false)
    (seq (S (length l1)) (length l2)).
Proof.
  intros Hl1 Hl2. apply Forall_forall. intros k Hk%elem_of_seq. set (tail := drop _ _).
  assert (Forall (fun x => p x = false) tail \/ l2 = []) as [Ht| ->].
  { destruct l2 as [|y l2 _] using rev_ind; [by right|left].
    subst tail. rewrite length_app. cbn [length].
    replace (length l1 + (length l2 + 1))%nat with (length (l1 ++ x :: l2)) by (rewrite length_app; cbn; lia).
    rewrite app_comm_cons, app_assoc, drop_app_length. apply Forall_app in Hl2. tauto. }
  2:{ cbn in Hk. lia. }
  assert (length tail = 1%nat) as Hlt by (subst tail; rewrite length_drop, length_app; cbn; lia).
  destruct (lookup_lt_is_Some_2 (l1 ++ l2 ++ tail) k) as [v Hv]; [rewrite !length_app; lia|].
  exists v. split; [done|].
  assert (Forall (fun x => p x = false) (l1 ++ l2 ++ tail)) as Hall by (rewrite !Forall_app; done).
  rewrite Forall_lookup in Hall. eauto.
Qed.

Lemma elems_deleted {A} (l1 : list A) x l2 :
  elems (mk_slice (l1 ++ l2 ++ drop (length l1 + length l2) (l1 ++ x :: l2)) (length l1 + length l2)) = l1 ++ l2.
Proof. unfold elems. cbn. by rewrite app_assoc, take_app_length' by (rewrite length_app; lia). Qed.

(** One match: the loop deletes exactly that element. *)
Lemma range_delete_single {A} (p : A -> bool) l1 x l2 :
  Forall (fun x => p x = false) l1 -> p x = true -> Forall (fun x => p x = false) l2 ->
  range_delete p (l1 ++ x :: l2) = Ret (l1 ++ l2).
Proof.
  intros Hl1 Hx Hl2. unfold range_delete. rewrite range_delete_first by done.
  rewrite range_delete_from_none by (by apply range_delete_rest).
  unfold mbind, outcome_bind. by rewrite elems_deleted.
Qed.

(** A key that occurs at most once: the loop deletes its element, if there is one. *)
Lemma range_delete_key {A K} `{EqDecision K} (g : A -> K) k l :
  NoDup (g <$> l) ->
  exists l', range_delete (fun x => bool_decide (g x = k)) l = Ret l' /\ NoDup (g <$> l') /\
    forall b, b ∈ g <$> l' <-> b ∈ g <$> l /\ b <> k.
Proof.
  intros Hnd. assert (forall l, k ∉ g <$> l -> Forall (fun x => bool_decide (g x = k) = false) l) as Hno.
  { intros l0 Hk. apply Forall_forall. intros x Hx. apply bool_decide_eq_false_2. intros <-. by apply Hk, list_elem_of_fmap_2. }
  destruct (decide (k ∈ g <$> l)) as [Hk|Hk].
  - apply list_elem_of_fmap in Hk as (x & -> & (l1 & l2 & ->)%list_elem_of_split).
    rewrite fmap_app, fmap_cons in Hnd. apply NoDup_app in Hnd as (H1 & H12 & [Hx H2]%NoDup_cons).
    exists (l1 ++ l2). split; [|split].
    + apply range_delete_single; [apply Hno|by apply bool_decide_eq_true_2|by apply Hno]. intros Hin. apply (H12 _ Hin). by left.
    + rewrite fmap_app. apply NoDup_app. split; [done|]. split; [|done]. intros y Hy Hy2. apply (H12 y Hy). by right.
    + intros b. rewrite !fmap_app, fmap_cons, !elem_of_app, elem_of_cons. split; [|tauto].
      intros Hb. split; [tauto|]. intros ->. destruct Hb as [Hb|Hb]; [apply (H12 _ Hb); by left|done].
  - exists l. split; [by apply range_delete_nomatch, Hno|]. split; [done|]. intros b. split; [|tauto]. intros Hb. split; [done|].
    by intros ->.
Qed.

(** Two matches, one of them the last element: when the loop reaches the last
    index the slice is already shorter, and slicing it panics. *)
Lemma range_delete_last_panics {A} (p : A -> bool) l1 x l2 y :
  Forall (fun x => p x = false) l1 -> p x = true -> p y = true ->
  range_delete p (l1 ++ x :: l2 ++ [y]) = Panic.
Proof.
  intros Hl1 Hx Hy. unfold range_delete.
  rewrite (range_delete_first p l1 x (l2 ++ [y])) by done.
  rewrite length_app. cbn [length]. rewrite Nat.add_1_r, seq_S, range_delete_from_app.
  set (s0 := mk_slice _ _).
  assert (forall ks s, (forall k, k ∈ ks -> (k < S (length l1) + length l2)%nat) ->
    backing s !! (S (length l1) + length l2)%nat = Some y ->
    (slen s <= S (length l1) + length l2)%nat ->
    range_delete_from p ks s = Panic \/
    exists s', range_delete_from p ks s = Ret s' /\
      backing s' !! (S (length l1) + length l2)%nat = Some y /\
      (slen s' <= S (length l1) + length l2)%nat) as Hinv.
  { clear s0. induction ks as [|k ks IH]; intros s Hks Hb Hs; cbn; [by eauto|].
    destruct (backing s !! k) as [v|] eqn:Ev; [|by left].
    destruct (p v); [|apply IH; [set_solver|done..]].
    unfold delete_at. case_decide; [|by left]. cbn. apply IH; [set_solver|..|cbn; lia].
    cbn. rewrite app_assoc, lookup_app_r.
    - rewrite lookup_drop, <- Hb. f_equal. rewrite length_app, length_take, length_drop.
      unfold elems. rewrite length_take. assert (k < S (length l1) + length l2)%nat by (apply Hks; set_solver).
      apply lookup_lt_Some in Hb. lia.
    - rewrite length_app, length_take, length_drop. unfold elems. rewrite length_take.
      apply lookup_lt_Some in Hb. lia. }
  destruct (Hinv (seq (S (length l1)) (length l2)) s0) as [->|(s' & -> & Hb & Hs)]; [|..|done|].
  - intros k [_ Hk]%elem_of_seq. lia.
  - subst s0. cbn [backing]. rewrite app_assoc.
    rewrite lookup_app_r by (rewrite !length_app; cbn; lia).
    rewrite lookup_drop, !length_app. cbn [length].
    rewrite app_comm_cons, app_assoc, lookup_app_r by (rewrite length_app; cbn; lia).
    rewrite length_app. cbn [length].
    replace (_ - _)%nat with 0%nat by lia. done.
  - subst s0. cbn [slen]. lia.
  - cbn. cbn in Hb. rewrite Hb, Hy. unfold delete_at. rewrite decide_False by lia. done.
Qed.
