(* ===== verification/Color.v ===== *)
(** Colours ([hsl.go], [styles.go]): the conversions between RGB and HSL and the
    tints of theme colours. *)
From S2P Require Export GoFloat GoString.

Declare Scope f64_scope.
Delimit Scope f64_scope with f64.
#[local] Infix "+" := f64_add : f64_scope.
#[local] Infix "-" := f64_sub : f64_scope.
#[local] Infix "*" := f64_mul : f64_scope.
#[local] Infix "/" := f64_div : f64_scope.
#[local] Infix "<?" := f64_ltb : f64_scope.
#[local] Infix "=?" := f64_eqb : f64_scope.

(** An integer constant. *)
#[local] Notation "# n" := (f64_of_int n%Z) (at level 1, n at level 0, format "# n") : f64_scope.

(** Go's [uint8] arguments are integers from 0 to 255. *)
Definition RGBToHSL (r g b : Z) : float64 * float64 * float64 :=
  (let fR := f64_of_int r / #255 in
   let fG := f64_of_int g / #255 in
   let fB := f64_of_int b / #255 in
   let max := math_Max (math_Max fR fG) fB in
   let min := math_Min (math_Min fR fG) fB in
   let l := (max + min) / #2 in
   if max =? min then (f64_zero, f64_zero, l)
   else
     let d := max - min in
     let s := if f64_const 1 2 <? l then d / (#2 - max - min) else d / (max + min) in
     let h := if max =? fR then let h := (fG - fB) / d in if fG <? fB then h + #6 else h
              else if max =? fG then (fB - fR) / d + #2
              else if max =? fB then (fR - fG) / d + #4
              else f64_zero in
     (h / #6, s, l))%f64.

Definition hueToRGB (p q t : float64) : float64 :=
  (let t := if t <? f64_zero then t + #1 else t in
   let t := if #1 <? t then t - #1 else t in
   if t <? f64_const 1 6 then p + (q - p) * #6 * t
   else if t <? f64_const 1 2 then q
   else if t <? f64_const 2 3 then p + (q - p) * (f64_const 2 3 - t) * #6
   else p)%f64.

Definition HSLToRGB (h s l : float64) : Z * Z * Z :=
  (let '(fR, fG, fB) :=
     if s =? f64_zero then (l, l, l)
     else
       let q := if l <? f64_const 1 2 then l * (#1 + s) else l + s - s * l in
       let p := #2 * l - q in
       (hueToRGB p q (h + f64_const 1 3), hueToRGB p q h, hueToRGB p q (h - f64_const 1 3)) in
   (f64_to_uint8 (fR * #255 + f64_const 1 2), f64_to_uint8 (fG * #255 + f64_const 1 2),
    f64_to_uint8 (fB * #255 + f64_const 1 2)))%f64.

(** *** The colour model *)

Record HSL := mk_HSL { HSL_H : float64; HSL_S : float64; HSL_L : float64 }.

(** [c.RGBA()] of an [HSL] value: components of 16 bits. *)
Definition HSL_RGBA (c : HSL) : Z * Z * Z * Z :=
  let '(r, g, b) := HSLToRGB (HSL_H c) (HSL_S c) (HSL_L c) in
  (r * 257, g * 257, b * 257, 65535).

(** A value of the interface [color.Color]: an [HSL], or a value of another type of
    which only what its [RGBA] returns is used. *)
Inductive color : Type :=
| HSLColor (c : HSL)
| OtherColor (r g b a : Z).

Definition color_RGBA (c : color) : Z * Z * Z * Z :=
  match c with HSLColor c => HSL_RGBA c | OtherColor r g b a => (r, g, b, a) end.

Definition hslModel (c : color) : color :=
  match c with
  | HSLColor _ => c
  | OtherColor _ _ _ _ =>
      let '(r, g, b, _) := color_RGBA c in
      let '(h, s, l) := RGBToHSL (Z.shiftr r 8 `mod` 256) (Z.shiftr g 8 `mod` 256) (Z.shiftr b 8 `mod` 256) in
      HSLColor (mk_HSL h s l)
  end.

(** ** Theme colours *)

Definition hex_digit (c : ascii) : option Z :=
  let b := byte_val c in
  if (48 <=? b) && (b <=? 57) then Some (b - 48)
  else if (97 <=? b) && (b <=? 102) then Some (b - 87)
  else if (65 <=? b) && (b <=? 70) then Some (b - 55)
  else None.

Fixpoint hex_digits (s : string) (n : Z) : option Z :=
  match s with
  | EmptyString => Some n
  | String c s' => match hex_digit c with Some d => hex_digits s' (16 * n + d) | None => None end
  end.

(** [v, _ := strconv.ParseInt(s, 16, 64)] on a text of two bytes, which is in
    range: the value is 0 after a syntax error. *)
Definition parse_hex (s : string) : Z :=
  match s with
  | EmptyString => 0
  | String c s' =>
      let '(neg, body) := if Ascii.eqb c "-"%char then (true, s') else if Ascii.eqb c "+"%char then (false, s') else (false, s) in
      match body with
      | EmptyString => 0
      | _ => match hex_digits body 0 with Some n => if neg : bool then - n else n | None => 0 end
      end
  end.

Definition upper_hex_digit (n : Z) : ascii := byte_of (if n <? 10 then 48 + n else 55 + n).

(** [%02X] of a byte. *)
Definition hex_byte (n : Z) : string := String (upper_hex_digit (n / 16)) (String (upper_hex_digit (n mod 16)) EmptyString).

Definition ThemeColor (baseColor : string) (tint : float64) : outcome string :=
  if f64_eqb tint f64_zero then Ret ("FF" +:+ baseColor)
  else
    r ← str_slice baseColor 0 2;
    g ← str_slice baseColor 2 4;
    b ← str_slice baseColor 4 6;
    let '(h, s, l) := RGBToHSL (parse_hex r `mod` 256) (parse_hex g `mod` 256) (parse_hex b `mod` 256) in
    let l := (if tint <? f64_zero then l * (#1 + tint) else l * (#1 - tint) + (#1 - (#1 - tint)))%f64 in
    let '(br, bg, bb) := HSLToRGB h s l in
    Ret ("FF" +:+ hex_byte br +:+ hex_byte bg +:+ hex_byte bb).

(** ** Properties *)

(** The shades of a colour cube with six values for each component. *)
Definition cube_values : list Z := [0; 51; 102; 153; 204; 255].

Definition rgb_hsl_rgb (r g b : Z) : Z * Z * Z := let '(h, s, l) := RGBToHSL r g b in HSLToRGB h s l.

Lemma rgb_hsl_rgb_grey v : 0 <= v < 256 -> rgb_hsl_rgb v v v = (v, v, v).
Proof.
  intros Hv. assert (forallb (fun v => bool_decide (rgb_hsl_rgb v v v = (v, v, v))) (seqZ 0 256) = true) as Hall
    by (vm_compute; reflexivity).
  rewrite forallb_forall in Hall. apply (bool_decide_unpack _), Is_true_true_2, Hall, list_elem_of_In, elem_of_seqZ. lia.
Qed.

Lemma rgb_hsl_rgb_cube r g b : r ∈ cube_values -> g ∈ cube_values -> b ∈ cube_values -> rgb_hsl_rgb r g b = (r, g, b).
Proof.
  intros Hr Hg Hb.
  assert (forallb (fun r => forallb (fun g => forallb (fun b => bool_decide (rgb_hsl_rgb r g b = (r, g, b))) cube_values)
    cube_values) cube_values = true) as Hall by (vm_compute; reflexivity).
  rewrite forallb_forall in Hall. specialize (Hall r ltac:(by apply list_elem_of_In)).
  rewrite forallb_forall in Hall. specialize (Hall g ltac:(by apply list_elem_of_In)).
  rewrite forallb_forall in Hall. by apply (bool_decide_unpack _), Is_true_true_2, Hall, list_elem_of_In.
Qed.

(** The colours on which the conversions are inverse to each other. *)
Definition exact_color (r g b : Z) : Prop :=
  (0 <= r < 256 /\ g = r /\ b = r) \/ (r ∈ cube_values /\ g ∈ cube_values /\ b ∈ cube_values).

Lemma exact_color_roundtrip r g b : exact_color r g b -> rgb_hsl_rgb r g b = (r, g, b).
Proof. intros [(? & -> & ->)|(? & ? & ?)]; [by apply rgb_hsl_rgb_grey|by apply rgb_hsl_rgb_cube]. Qed.

Lemma exact_color_range r g b : exact_color r g b -> 0 <= r < 256 /\ 0 <= g < 256 /\ 0 <= b < 256.
Proof.
  assert (forall v, v ∈ cube_values -> 0 <= v < 256) as Hv.
  { intros v Hv. unfold cube_values in Hv. repeat (apply elem_of_cons in Hv as [->|Hv]; [lia|]). by apply elem_of_nil in Hv. }
  intros [(? & -> & ->)|(?%Hv & ?%Hv & ?%Hv)]; lia.
Qed.

(** RGB to HSL and back is the identity on all shades of grey and on the colours
    of the cube: the rounding errors of the divisions by 3, 6 and 255 are
    absorbed by the last rounding. The colour model maps a colour of another type
    with these components to an [HSL] whose [RGBA] gives the same components, and
    leaves an [HSL] as it is. *)
Theorem RGBToHSL_HSLToRGB r g b a :
  exact_color r g b ->
  (let '(h, s, l) := RGBToHSL r g b in HSLToRGB h s l) = (r, g, b) /\
  color_RGBA (hslModel (OtherColor (r * 257) (g * 257) (b * 257) a)) = (r * 257, g * 257, b * 257, 65535) /\
  (forall c, hslModel (hslModel c) = hslModel c).
Proof.
  intros Hc. pose proof (exact_color_roundtrip _ _ _ Hc) as E. apply exact_color_range in Hc as (Hr & Hg & Hb). split; [exact E|]. split.
  - assert (forall v, 0 <= v < 256 -> Z.shiftr (v * 257) 8 `mod` 256 = v) as Hs.
    { intros v Hv. rewrite Z.shiftr_div_pow2 by lia. change (2 ^ 8) with 256.
      replace (v * 257) with (v * 256 + v) by lia. rewrite Z.div_add_l by lia. rewrite (Z.div_small v 256) by lia.
      rewrite Z.add_0_r. by apply Z.mod_small. }
    unfold hslModel. cbn [color_RGBA]. rewrite !Hs by done. unfold rgb_hsl_rgb in E. destruct (RGBToHSL r g b) as [[h s] l].
    cbn [color_RGBA HSL_RGBA HSL_H HSL_S HSL_L]. unfold HSL_RGBA. cbn [HSL_H HSL_S HSL_L]. by rewrite E.
  - intros c. destruct c as [c|r' g' b' a']; [done|]. unfold hslModel. cbn [color_RGBA].
    by destruct (RGBToHSL _ _ _) as [[? ?] ?].
Qed.

Lemma RGBToHSL_HSLToRGB_witness :
  exact_color 51 204 255 /\ color_RGBA (hslModel (OtherColor 13107 52428 65535 65535)) = (13107, 52428, 65535, 65535).
Proof.
  assert (exact_color 51 204 255) as Hc.
  { right. repeat split; apply (bool_decide_unpack _); reflexivity. }
  split; [exact Hc|]. exact (proj1 (proj2 (RGBToHSL_HSLToRGB 51 204 255 65535 Hc))).
Defined.

(** A base colour with less than six bytes makes a tint panic. *)
Theorem ThemeColor_short baseColor tint :
  f64_eqb tint f64_zero = false -> len baseColor < 6 -> ThemeColor baseColor tint = Panic.
Proof.
  intros Ht Hlen. unfold ThemeColor. rewrite Ht. unfold str_slice, mbind, outcome_bind.
  destruct (_ && _ && (2 <=? len baseColor)); [|done]. destruct (_ && _ && (4 <=? len baseColor)); [|done].
  by replace ((0 <=? 4) && (4 <=? 6) && (6 <=? len baseColor)) with false by lia.
Qed.

Lemma ThemeColor_short_witness : ThemeColor "FFF" (f64_const 1 2) = Panic.
Proof. apply ThemeColor_short; [vm_compute; reflexivity|unfold len; cbn; lia]. Defined.

(** Tints of a grey and of a colour: half way to white and to black. *)
Example ThemeColor_tints :
  ThemeColor "000000" (f64_of_int 1) = Ret "FFFFFFFF" /\ ThemeColor "4F81BD" (f64_const 1 2) = Ret "FFA7C0DE" /\
  ThemeColor "4F81BD" (f64_const (-1) 2) = Ret "FF254061".
Proof. vm_compute. repeat split. Qed.
