(* ===== verification/StyleTables.v ===== *)
(** The tables of [styles.go]: number formats by number and by language, and
    the names of the types and criteria of conditional formats. A map literal
    is an association list; its keys are distinct. *)
From S2P Require Export GoString.

(** The double quote, which the formats contain. *)
Definition dq : string := String "034" "".

(** [m[k]] on a map literal. *)
Fixpoint table_get {K V} `{EqDecision K} (k : K) (m : list (K * V)) : option V :=
  match m with
  | [] => None
  | (k', v) :: m' => if decide (k = k') then Some v else table_get k m'
  end.

Lemma table_get_elem {K V} `{EqDecision K} (k : K) (m : list (K * V)) v : table_get k m = Some v -> (k, v) ∈ m.
Proof.
  induction m as [|[k' v'] m IH]; [done|]. cbn. case_decide as E.
  - intros [= ->]. rewrite E. apply list_elem_of_here.
  - intros Hv. by apply list_elem_of_further, IH.
Qed.

(** [m[k]] of a map to strings: the empty string when the key is missing. *)
Definition table_str {K} `{EqDecision K} (k : K) (m : list (K * string)) : string :=
  match table_get k m with Some v => v | None => "" end.

(** Built-in number formats. *)
Definition builtInNumFmt : list (Z * string) := [
  (0, "general");
  (1, "0");
  (2, "0.00");
  (3, "#,##0");
  (4, "#,##0.00");
  (9, "0%");
  (10, "0.00%");
  (11, "0.00e+00");
  (12, "# ?/?");
  (13, "# ??/??");
  (14, "mm-dd-yy");
  (15, "d-mmm-yy");
  (16, "d-mmm");
  (17, "mmm-yy");
  (18, "h:mm am/pm");
  (19, "h:mm:ss am/pm");
  (20, "h:mm");
  (21, "h:mm:ss");
  (22, "m/d/yy h:mm");
  (37, "#,##0 ;(#,##0)");
  (38, "#,##0 ;[red](#,##0)");
  (39, "#,##0.00;(#,##0.00)");
  (40, "#,##0.00;[red](#,##0.00)");
  (41, "_(" +:+ "* #,##0_);_(" +:+ "* \(#,##0\);_(" +:+ "* " +:+ dq +:+ "-" +:+ dq +:+ "_);_(@_)");
  (42, "_(" +:+ dq +:+ "$" +:+ dq +:+ "* #,##0_);_(" +:+ dq +:+ "$* \(#,##0\);_(" +:+ dq +:+ "$" +:+ dq +:+ "* " +:+ dq +:+ "-" +:+ dq +:+ "_);_(@_)");
  (43, "_(" +:+ "* #,##0.00_);_(" +:+ "* \(#,##0.00\);_(" +:+ "* " +:+ dq +:+ "-" +:+ dq +:+ "??_);_(@_)");
  (44, "_(" +:+ dq +:+ "$" +:+ dq +:+ "* #,##0.00_);_(" +:+ dq +:+ "$" +:+ dq +:+ "* \(#,##0.00\);_(" +:+ dq +:+ "$" +:+ dq +:+ "* " +:+ dq +:+ "-" +:+ dq +:+ "??_);_(@_)");
  (45, "mm:ss");
  (46, "[h]:mm:ss");
  (47, "mmss.0");
  (48, "##0.0e+0");
  (49, "@")].

(** Formats of the language [zh-tw]. *)
Definition langNumFmt_zh_tw : list (Z * string) := [
  (27, "[$-404]e/m/d");
  (28, "[$-404]e" +:+ dq +:+ "年" +:+ dq +:+ "m" +:+ dq +:+ "月" +:+ dq +:+ "d" +:+ dq +:+ "日" +:+ dq);
  (29, "[$-404]e" +:+ dq +:+ "年" +:+ dq +:+ "m" +:+ dq +:+ "月" +:+ dq +:+ "d" +:+ dq +:+ "日" +:+ dq);
  (30, "m/d/yy");
  (31, "yyyy" +:+ dq +:+ "年" +:+ dq +:+ "m" +:+ dq +:+ "月" +:+ dq +:+ "d" +:+ dq +:+ "日" +:+ dq);
  (32, "hh" +:+ dq +:+ "時" +:+ dq +:+ "mm" +:+ dq +:+ "分" +:+ dq);
  (33, "hh" +:+ dq +:+ "時" +:+ dq +:+ "mm" +:+ dq +:+ "分" +:+ dq +:+ "ss" +:+ dq +:+ "秒" +:+ dq);
  (34, "上午/下午 hh" +:+ dq +:+ "時" +:+ dq +:+ "mm" +:+ dq +:+ "分" +:+ dq);
  (35, "上午/下午 hh" +:+ dq +:+ "時" +:+ dq +:+ "mm" +:+ dq +:+ "分" +:+ dq +:+ "ss" +:+ dq +:+ "秒" +:+ dq);
  (36, "[$-404]e/m/d");
  (50, "[$-404]e/m/d");
  (51, "[$-404]e" +:+ dq +:+ "年" +:+ dq +:+ "m" +:+ dq +:+ "月" +:+ dq +:+ "d" +:+ dq +:+ "日" +:+ dq);
  (52, "上午/下午 hh" +:+ dq +:+ "時" +:+ dq +:+ "mm" +:+ dq +:+ "分" +:+ dq);
  (53, "上午/下午 hh" +:+ dq +:+ "時" +:+ dq +:+ "mm" +:+ dq +:+ "分" +:+ dq +:+ "ss" +:+ dq +:+ "秒" +:+ dq);
  (54, "[$-404]e" +:+ dq +:+ "年" +:+ dq +:+ "m" +:+ dq +:+ "月" +:+ dq +:+ "d" +:+ dq +:+ "日" +:+ dq);
  (55, "上午/下午 hh" +:+ dq +:+ "時" +:+ dq +:+ "mm" +:+ dq +:+ "分" +:+ dq);
  (56, "上午/下午 hh" +:+ dq +:+ "時" +:+ dq +:+ "mm" +:+ dq +:+ "分" +:+ dq +:+ "ss" +:+ dq +:+ "秒" +:+ dq);
  (57, "[$-404]e/m/d");
  (58, "[$-404]e" +:+ dq +:+ "年" +:+ dq +:+ "m" +:+ dq +:+ "月" +:+ dq +:+ "d" +:+ dq +:+ "日" +:+ dq)].

(** Formats of the language [zh-cn]. *)
Definition langNumFmt_zh_cn : list (Z * string) := [
  (27, "yyyy" +:+ dq +:+ "年" +:+ dq +:+ "m" +:+ dq +:+ "月" +:+ dq);
  (28, "m" +:+ dq +:+ "月" +:+ dq +:+ "d" +:+ dq +:+ "日" +:+ dq);
  (29, "m" +:+ dq +:+ "月" +:+ dq +:+ "d" +:+ dq +:+ "日" +:+ dq);
  (30, "m-d-yy");
  (31, "yyyy" +:+ dq +:+ "年" +:+ dq +:+ "m" +:+ dq +:+ "月" +:+ dq +:+ "d" +:+ dq +:+ "日" +:+ dq);
  (32, "h" +:+ dq +:+ "时" +:+ dq +:+ "mm" +:+ dq +:+ "分" +:+ dq);
  (33, "h" +:+ dq +:+ "时" +:+ dq +:+ "mm" +:+ dq +:+ "分" +:+ dq +:+ "ss" +:+ dq +:+ "秒" +:+ dq);
  (34, "上午/下午 h" +:+ dq +:+ "时" +:+ dq +:+ "mm" +:+ dq +:+ "分" +:+ dq);
  (35, "上午/下午 h" +:+ dq +:+ "时" +:+ dq +:+ "mm" +:+ dq +:+ "分" +:+ dq +:+ "ss" +:+ dq +:+ "秒" +:+ dq);
  (36, "yyyy" +:+ dq +:+ "年" +:+ dq +:+ "m" +:+ dq +:+ "月" +:+ dq);
  (50, "yyyy" +:+ dq +:+ "年" +:+ dq +:+ "m" +:+ dq +:+ "月" +:+ dq);
  (51, "m" +:+ dq +:+ "月" +:+ dq +:+ "d" +:+ dq +:+ "日" +:+ dq);
  (52, "yyyy" +:+ dq +:+ "年" +:+ dq +:+ "m" +:+ dq +:+ "月" +:+ dq);
  (53, "m" +:+ dq +:+ "月" +:+ dq +:+ "d" +:+ dq +:+ "日" +:+ dq);
  (54, "m" +:+ dq +:+ "月" +:+ dq +:+ "d" +:+ dq +:+ "日" +:+ dq);
  (55, "上午/下午 h" +:+ dq +:+ "时" +:+ dq +:+ "mm" +:+ dq +:+ "分" +:+ dq);
  (56, "上午/下午 h" +:+ dq +:+ "时" +:+ dq +:+ "mm" +:+ dq +:+ "分" +:+ dq +:+ "ss" +:+ dq +:+ "秒" +:+ dq);
  (57, "yyyy" +:+ dq +:+ "年" +:+ dq +:+ "m" +:+ dq +:+ "月" +:+ dq);
  (58, "m" +:+ dq +:+ "月" +:+ dq +:+ "d" +:+ dq +:+ "日" +:+ dq)].

(** Formats of the language [zh-tw_unicode]. *)
Definition langNumFmt_zh_tw_unicode : list (Z * string) := [
  (27, "[$-404]e/m/d");
  (28, "[$-404]e" +:+ dq +:+ "5E74" +:+ dq +:+ "m" +:+ dq +:+ "6708" +:+ dq +:+ "d" +:+ dq +:+ "65E5" +:+ dq);
  (29, "[$-404]e" +:+ dq +:+ "5E74" +:+ dq +:+ "m" +:+ dq +:+ "6708" +:+ dq +:+ "d" +:+ dq +:+ "65E5" +:+ dq);
  (30, "m/d/yy");
  (31, "yyyy" +:+ dq +:+ "5E74" +:+ dq +:+ "m" +:+ dq +:+ "6708" +:+ dq +:+ "d" +:+ dq +:+ "65E5" +:+ dq);
  (32, "hh" +:+ dq +:+ "6642" +:+ dq +:+ "mm" +:+ dq +:+ "5206" +:+ dq);
  (33, "hh" +:+ dq +:+ "6642" +:+ dq +:+ "mm" +:+ dq +:+ "5206" +:+ dq +:+ "ss" +:+ dq +:+ "79D2" +:+ dq);
  (34, "4E0A5348/4E0B5348hh" +:+ dq +:+ "6642" +:+ dq +:+ "mm" +:+ dq +:+ "5206" +:+ dq);
  (35, "4E0A5348/4E0B5348hh" +:+ dq +:+ "6642" +:+ dq +:+ "mm" +:+ dq +:+ "5206" +:+ dq +:+ "ss" +:+ dq +:+ "79D2" +:+ dq);
  (36, "[$-404]e/m/d");
  (50, "[$-404]e/m/d");
  (51, "[$-404]e" +:+ dq +:+ "5E74" +:+ dq +:+ "m" +:+ dq +:+ "6708" +:+ dq +:+ "d" +:+ dq +:+ "65E5" +:+ dq);
  (52, "4E0A5348/4E0B5348hh" +:+ dq +:+ "6642" +:+ dq +:+ "mm" +:+ dq +:+ "5206" +:+ dq);
  (53, "4E0A5348/4E0B5348hh" +:+ dq +:+ "6642" +:+ dq +:+ "mm" +:+ dq +:+ "5206" +:+ dq +:+ "ss" +:+ dq +:+ "79D2" +:+ dq);
  (54, "[$-404]e" +:+ dq +:+ "5E74" +:+ dq +:+ "m" +:+ dq +:+ "6708" +:+ dq +:+ "d" +:+ dq +:+ "65E5" +:+ dq);
  (55, "4E0A5348/4E0B5348hh" +:+ dq +:+ "6642" +:+ dq +:+ "mm" +:+ dq +:+ "5206" +:+ dq);
  (56, "4E0A5348/4E0B5348hh" +:+ dq +:+ "6642" +:+ dq +:+ "mm" +:+ dq +:+ "5206" +:+ dq +:+ "ss" +:+ dq +:+ "79D2" +:+ dq);
  (57, "[$-404]e/m/d");
  (58, "[$-404]e" +:+ dq +:+ "5E74" +:+ dq +:+ "m" +:+ dq +:+ "6708" +:+ dq +:+ "d" +:+ dq +:+ "65E5" +:+ dq)].

(** Formats of the language [zh-cn_unicode]. *)
Definition langNumFmt_zh_cn_unicode : list (Z * string) := [
  (27, "yyyy" +:+ dq +:+ "5E74" +:+ dq +:+ "m" +:+ dq +:+ "6708" +:+ dq);
  (28, "m" +:+ dq +:+ "6708" +:+ dq +:+ "d" +:+ dq +:+ "65E5" +:+ dq);
  (29, "m" +:+ dq +:+ "6708" +:+ dq +:+ "d" +:+ dq +:+ "65E5" +:+ dq);
  (30, "m-d-yy");
  (31, "yyyy" +:+ dq +:+ "5E74" +:+ dq +:+ "m" +:+ dq +:+ "6708" +:+ dq +:+ "d" +:+ dq +:+ "65E5" +:+ dq);
  (32, "h" +:+ dq +:+ "65F6" +:+ dq +:+ "mm" +:+ dq +:+ "5206" +:+ dq);
  (33, "h" +:+ dq +:+ "65F6" +:+ dq +:+ "mm" +:+ dq +:+ "5206" +:+ dq +:+ "ss" +:+ dq +:+ "79D2" +:+ dq);
  (34, "4E0A5348/4E0B5348h" +:+ dq +:+ "65F6" +:+ dq +:+ "mm" +:+ dq +:+ "5206" +:+ dq);
  (35, "4E0A5348/4E0B5348h" +:+ dq +:+ "65F6" +:+ dq +:+ "mm" +:+ dq +:+ "5206" +:+ dq +:+ "ss" +:+ dq +:+ "79D2" +:+ dq);
  (36, "yyyy" +:+ dq +:+ "5E74" +:+ dq +:+ "m" +:+ dq +:+ "6708" +:+ dq);
  (50, "yyyy" +:+ dq +:+ "5E74" +:+ dq +:+ "m" +:+ dq +:+ "6708" +:+ dq);
  (51, "m" +:+ dq +:+ "6708" +:+ dq +:+ "d" +:+ dq +:+ "65E5" +:+ dq);
  (52, "yyyy" +:+ dq +:+ "5E74" +:+ dq +:+ "m" +:+ dq +:+ "6708" +:+ dq);
  (53, "m" +:+ dq +:+ "6708" +:+ dq +:+ "d" +:+ dq +:+ "65E5" +:+ dq);
  (54, "m" +:+ dq +:+ "6708" +:+ dq +:+ "d" +:+ dq +:+ "65E5" +:+ dq);
  (55, "4E0A5348/4E0B5348h" +:+ dq +:+ "65F6" +:+ dq +:+ "mm" +:+ dq +:+ "5206" +:+ dq);
  (56, "4E0A5348/4E0B5348h" +:+ dq +:+ "65F6" +:+ dq +:+ "mm" +:+ dq +:+ "5206" +:+ dq +:+ "ss" +:+ dq +:+ "79D2" +:+ dq);
  (57, "yyyy" +:+ dq +:+ "5E74" +:+ dq +:+ "m" +:+ dq +:+ "6708" +:+ dq);
  (58, "m" +:+ dq +:+ "6708" +:+ dq +:+ "d" +:+ dq +:+ "65E5" +:+ dq)].

(** Formats of the language [ja-jp]. *)
Definition langNumFmt_ja_jp : list (Z * string) := [
  (27, "[$-411]ge.m.d");
  (28, "[$-411]ggge" +:+ dq +:+ "年" +:+ dq +:+ "m" +:+ dq +:+ "月" +:+ dq +:+ "d" +:+ dq +:+ "日" +:+ dq);
  (29, "[$-411]ggge" +:+ dq +:+ "年" +:+ dq +:+ "m" +:+ dq +:+ "月" +:+ dq +:+ "d" +:+ dq +:+ "日" +:+ dq);
  (30, "m/d/yy");
  (31, "yyyy" +:+ dq +:+ "年" +:+ dq +:+ "m" +:+ dq +:+ "月" +:+ dq +:+ "d" +:+ dq +:+ "日" +:+ dq);
  (32, "h" +:+ dq +:+ "時" +:+ dq +:+ "mm" +:+ dq +:+ "分" +:+ dq);
  (33, "h" +:+ dq +:+ "時" +:+ dq +:+ "mm" +:+ dq +:+ "分" +:+ dq +:+ "ss" +:+ dq +:+ "秒" +:+ dq);
  (34, "yyyy" +:+ dq +:+ "年" +:+ dq +:+ "m" +:+ dq +:+ "月" +:+ dq);
  (35, "m" +:+ dq +:+ "月" +:+ dq +:+ "d" +:+ dq +:+ "日" +:+ dq);
  (36, "[$-411]ge.m.d");
  (50, "[$-411]ge.m.d");
  (51, "[$-411]ggge" +:+ dq +:+ "年" +:+ dq +:+ "m" +:+ dq +:+ "月" +:+ dq +:+ "d" +:+ dq +:+ "日" +:+ dq);
  (52, "yyyy" +:+ dq +:+ "年" +:+ dq +:+ "m" +:+ dq +:+ "月" +:+ dq);
  (53, "m" +:+ dq +:+ "月" +:+ dq +:+ "d" +:+ dq +:+ "日" +:+ dq);
  (54, "[$-411]ggge" +:+ dq +:+ "年" +:+ dq +:+ "m" +:+ dq +:+ "月" +:+ dq +:+ "d" +:+ dq +:+ "日" +:+ dq);
  (55, "yyyy" +:+ dq +:+ "年" +:+ dq +:+ "m" +:+ dq +:+ "月" +:+ dq);
  (56, "m" +:+ dq +:+ "月" +:+ dq +:+ "d" +:+ dq +:+ "日" +:+ dq);
  (57, "[$-411]ge.m.d");
  (58, "[$-411]ggge" +:+ dq +:+ "年" +:+ dq +:+ "m" +:+ dq +:+ "月" +:+ dq +:+ "d" +:+ dq +:+ "日" +:+ dq)].

(** Formats of the language [ko-kr]. *)
Definition langNumFmt_ko_kr : list (Z * string) := [
  (27, "yyyy" +:+ dq +:+ "年" +:+ dq +:+ " mm" +:+ dq +:+ "月" +:+ dq +:+ " dd" +:+ dq +:+ "日" +:+ dq);
  (28, "mm-dd");
  (29, "mm-dd");
  (30, "mm-dd-yy");
  (31, "yyyy" +:+ dq +:+ "년" +:+ dq +:+ " mm" +:+ dq +:+ "월" +:+ dq +:+ " dd" +:+ dq +:+ "일" +:+ dq);
  (32, "h" +:+ dq +:+ "시" +:+ dq +:+ " mm" +:+ dq +:+ "분" +:+ dq);
  (33, "h" +:+ dq +:+ "시" +:+ dq +:+ " mm" +:+ dq +:+ "분" +:+ dq +:+ " ss" +:+ dq +:+ "초" +:+ dq);
  (34, "yyyy-mm-dd");
  (35, "yyyy-mm-dd");
  (36, "yyyy" +:+ dq +:+ "年" +:+ dq +:+ " mm" +:+ dq +:+ "月" +:+ dq +:+ " dd" +:+ dq +:+ "日" +:+ dq);
  (50, "yyyy" +:+ dq +:+ "年" +:+ dq +:+ " mm" +:+ dq +:+ "月" +:+ dq +:+ " dd" +:+ dq +:+ "日" +:+ dq);
  (51, "mm-dd");
  (52, "yyyy-mm-dd");
  (53, "yyyy-mm-dd");
  (54, "mm-dd");
  (55, "yyyy-mm-dd");
  (56, "yyyy-mm-dd");
  (57, "yyyy" +:+ dq +:+ "年" +:+ dq +:+ " mm" +:+ dq +:+ "月" +:+ dq +:+ " dd" +:+ dq +:+ "日" +:+ dq);
  (58, "mm-dd")].

(** Formats of the language [ja-jp_unicode]. *)
Definition langNumFmt_ja_jp_unicode : list (Z * string) := [
  (27, "[$-411]ge.m.d");
  (28, "[$-411]ggge" +:+ dq +:+ "5E74" +:+ dq +:+ "m" +:+ dq +:+ "6708" +:+ dq +:+ "d" +:+ dq +:+ "65E5" +:+ dq);
  (29, "[$-411]ggge" +:+ dq +:+ "5E74" +:+ dq +:+ "m" +:+ dq +:+ "6708" +:+ dq +:+ "d" +:+ dq +:+ "65E5" +:+ dq);
  (30, "m/d/yy");
  (31, "yyyy" +:+ dq +:+ "5E74" +:+ dq +:+ "m" +:+ dq +:+ "6708" +:+ dq +:+ "d" +:+ dq +:+ "65E5" +:+ dq);
  (32, "h" +:+ dq +:+ "6642" +:+ dq +:+ "mm" +:+ dq +:+ "5206" +:+ dq);
  (33, "h" +:+ dq +:+ "6642" +:+ dq +:+ "mm" +:+ dq +:+ "5206" +:+ dq +:+ "ss" +:+ dq +:+ "79D2" +:+ dq);
  (34, "yyyy" +:+ dq +:+ "5E74" +:+ dq +:+ "m" +:+ dq +:+ "6708" +:+ dq);
  (35, "m" +:+ dq +:+ "6708" +:+ dq +:+ "d" +:+ dq +:+ "65E5" +:+ dq);
  (36, "[$-411]ge.m.d");
  (50, "[$-411]ge.m.d");
  (51, "[$-411]ggge" +:+ dq +:+ "5E74" +:+ dq +:+ "m" +:+ dq +:+ "6708" +:+ dq +:+ "d" +:+ dq +:+ "65E5" +:+ dq);
  (52, "yyyy" +:+ dq +:+ "5E74" +:+ dq +:+ "m" +:+ dq +:+ "6708" +:+ dq);
  (53, "m" +:+ dq +:+ "6708" +:+ dq +:+ "d" +:+ dq +:+ "65E5" +:+ dq);
  (54, "[$-411]ggge" +:+ dq +:+ "5E74" +:+ dq +:+ "m" +:+ dq +:+ "6708" +:+ dq +:+ "d" +:+ dq +:+ "65E5" +:+ dq);
  (55, "yyyy" +:+ dq +:+ "5E74" +:+ dq +:+ "m" +:+ dq +:+ "6708" +:+ dq);
  (56, "m" +:+ dq +:+ "6708" +:+ dq +:+ "d" +:+ dq +:+ "65E5" +:+ dq);
  (57, "[$-411]ge.m.d");
  (58, "[$-411]ggge" +:+ dq +:+ "5E74" +:+ dq +:+ "m" +:+ dq +:+ "6708" +:+ dq +:+ "d" +:+ dq +:+ "65E5" +:+ dq)].

(** Formats of the language [ko-kr_unicode]. *)
Definition langNumFmt_ko_kr_unicode : list (Z * string) := [
  (27, "yyyy" +:+ dq +:+ "5E74" +:+ dq +:+ " mm" +:+ dq +:+ "6708" +:+ dq +:+ " dd" +:+ dq +:+ "65E5" +:+ dq);
  (28, "mm-dd");
  (29, "mm-dd");
  (30, "mm-dd-yy");
  (31, "yyyy" +:+ dq +:+ "B144" +:+ dq +:+ " mm" +:+ dq +:+ "C6D4" +:+ dq +:+ " dd" +:+ dq +:+ "C77C" +:+ dq);
  (32, "h" +:+ dq +:+ "C2DC" +:+ dq +:+ " mm" +:+ dq +:+ "BD84" +:+ dq);
  (33, "h" +:+ dq +:+ "C2DC" +:+ dq +:+ " mm" +:+ dq +:+ "BD84" +:+ dq +:+ " ss" +:+ dq +:+ "CD08" +:+ dq);
  (34, "yyyy-mm-dd");
  (35, "yyyy-mm-dd");
  (36, "yyyy" +:+ dq +:+ "5E74" +:+ dq +:+ " mm" +:+ dq +:+ "6708" +:+ dq +:+ " dd" +:+ dq +:+ "65E5" +:+ dq);
  (50, "yyyy" +:+ dq +:+ "5E74" +:+ dq +:+ " mm" +:+ dq +:+ "6708" +:+ dq +:+ " dd" +:+ dq +:+ "65E5" +:+ dq);
  (51, "mm-dd");
  (52, "yyyy-mm-dd");
  (53, "yyyy-mm-dd");
  (54, "mm-dd");
  (55, "yyyy-mm-dd");
  (56, "yyyy-mm-dd");
  (57, "yyyy" +:+ dq +:+ "5E74" +:+ dq +:+ " mm" +:+ dq +:+ "6708" +:+ dq +:+ " dd" +:+ dq +:+ "65E5" +:+ dq);
  (58, "mm-dd")].

(** Formats of the language [th-th]. *)
Definition langNumFmt_th_th : list (Z * string) := [
  (59, "t0");
  (60, "t0.00");
  (61, "t#,##0");
  (62, "t#,##0.00");
  (67, "t0%");
  (68, "t0.00%");
  (69, "t# ?/?");
  (70, "t# ??/??");
  (71, "ว/ด/ปปปป");
  (72, "ว-ดดด-ปป");
  (73, "ว-ดดด");
  (74, "ดดด-ปป");
  (75, "ช:นน");
  (76, "ช:นน:ทท");
  (77, "ว/ด/ปปปป ช:นน");
  (78, "นน:ทท");
  (79, "[ช]:นน:ทท");
  (80, "นน:ทท.0");
  (81, "d/m/bb")].

(** Formats of the language [th-th_unicode]. *)
Definition langNumFmt_th_th_unicode : list (Z * string) := [
  (59, "t0");
  (60, "t0.00");
  (61, "t#,##0");
  (62, "t#,##0.00");
  (67, "t0%");
  (68, "t0.00%");
  (69, "t# ?/?");
  (70, "t# ??/??");
  (71, "0E27/0E14/0E1B0E1B0E1B0E1B");
  (72, "0E27-0E140E140E14-0E1B0E1B");
  (73, "0E27-0E140E140E14");
  (74, "0E140E140E14-0E1B0E1B");
  (75, "0E0A:0E190E19");
  (76, "0E0A:0E190E19:0E170E17");
  (77, "0E27/0E14/0E1B0E1B0E1B0E1B 0E0A:0E190E19");
  (78, "0E190E19:0E170E17");
  (79, "[0E0A]:0E190E19:0E170E17");
  (80, "0E190E19:0E170E17.0");
  (81, "d/m/bb")].

(** Formats by language. *)
Definition langNumFmt : list (string * list (Z * string)) := [
  ("zh-tw", langNumFmt_zh_tw);
  ("zh-cn", langNumFmt_zh_cn);
  ("zh-tw_unicode", langNumFmt_zh_tw_unicode);
  ("zh-cn_unicode", langNumFmt_zh_cn_unicode);
  ("ja-jp", langNumFmt_ja_jp);
  ("ko-kr", langNumFmt_ko_kr);
  ("ja-jp_unicode", langNumFmt_ja_jp_unicode);
  ("ko-kr_unicode", langNumFmt_ko_kr_unicode);
  ("th-th", langNumFmt_th_th);
  ("th-th_unicode", langNumFmt_th_th_unicode)].

(** Currency formats, part 1. *)
Definition currencyNumFmt_1 : list (Z * string) := [
  (164, dq +:+ "CN¥" +:+ dq +:+ ",##0.00");
  (165, "[$$-409]#,##0.00");
  (166, "[$$-45C]#,##0.00");
  (167, "[$$-1004]#,##0.00");
  (168, "[$$-404]#,##0.00");
  (169, "[$$-C09]#,##0.00");
  (170, "[$$-2809]#,##0.00");
  (171, "[$$-1009]#,##0.00");
  (172, "[$$-2009]#,##0.00");
  (173, "[$$-1409]#,##0.00");
  (174, "[$$-4809]#,##0.00");
  (175, "[$$-2C09]#,##0.00");
  (176, "[$$-2409]#,##0.00");
  (177, "[$$-1000]#,##0.00");
  (178, "#,##0.00\ [$$-C0C]");
  (179, "[$$-475]#,##0.00");
  (180, "[$$-83E]#,##0.00");
  (181, "[$$-86B]\ #,##0.00");
  (182, "[$$-340A]\ #,##0.00");
  (183, "[$$-240A]#,##0.00");
  (184, "[$$-300A]\ #,##0.00");
  (185, "[$$-440A]#,##0.00");
  (186, "[$$-80A]#,##0.00");
  (187, "[$$-500A]#,##0.00");
  (188, "[$$-540A]#,##0.00");
  (189, "[$$-380A]\ #,##0.00");
  (190, "[$£-809]#,##0.00");
  (191, "[$£-491]#,##0.00");
  (192, "[$£-452]#,##0.00");
  (193, "[$¥-804]#,##0.00");
  (194, "[$¥-411]#,##0.00");
  (195, "[$¥-478]#,##0.00");
  (196, "[$¥-451]#,##0.00");
  (197, "[$¥-480]#,##0.00");
  (198, "#,##0.00\ [$֏-42B]");
  (199, "[$؋-463]#,##0.00");
  (200, "[$؋-48C]#,##0.00");
  (201, "[$৳-845]\ #,##0.00");
  (202, "#,##0.00[$៛-453]");
  (203, "[$₡-140A]#,##0.00");
  (204, "[$₦-468]\ #,##0.00");
  (205, "[$₦-470]\ #,##0.00");
  (206, "[$₩-412]#,##0.00");
  (207, "[$₪-40D]\ #,##0.00");
  (208, "#,##0.00\ [$₫-42A]");
  (209, "#,##0.00\ [$€-42D]");
  (210, "#,##0.00\ [$€-47E]");
  (211, "#,##0.00\ [$€-403]");
  (212, "#,##0.00\ [$€-483]");
  (213, "[$€-813]\ #,##0.00");
  (214, "[$€-413]\ #,##0.00");
  (215, "[$€-1809]#,##0.00");
  (216, "#,##0.00\ [$€-425]");
  (217, "[$€-2]\ #,##0.00");
  (218, "#,##0.00\ [$€-1]");
  (219, "#,##0.00\ [$€-40B]");
  (220, "#,##0.00\ [$€-80C]");
  (221, "#,##0.00\ [$€-40C]");
  (222, "#,##0.00\ [$€-140C]");
  (223, "#,##0.00\ [$€-180C]");
  (224, "[$€-200C]#,##0.00");
  (225, "#,##0.00\ [$€-456]");
  (226, "#,##0.00\ [$€-C07]");
  (227, "#,##0.00\ [$€-407]");
  (228, "#,##0.00\ [$€-1007]");
  (229, "#,##0.00\ [$€-408]");
  (230, "#,##0.00\ [$€-243B]");
  (231, "[$€-83C]#,##0.00");
  (232, "[$€-410]\ #,##0.00");
  (233, "[$€-476]#,##0.00");
  (234, "#,##0.00\ [$€-2C1A]");
  (235, "[$€-426]\ #,##0.00");
  (236, "#,##0.00\ [$€-427]");
  (237, "#,##0.00\ [$€-82E]");
  (238, "#,##0.00\ [$€-46E]");
  (239, "[$€-43A]#,##0.00");
  (240, "#,##0.00\ [$€-C3B]");
  (241, "#,##0.00\ [$€-482]");
  (242, "#,##0.00\ [$€-816]");
  (243, "#,##0.00\ [$€-301A]");
  (244, "#,##0.00\ [$€-203B]");
  (245, "#,##0.00\ [$€-41B]");
  (246, "#,##0.00\ [$€-424]");
  (247, "#,##0.00\ [$€-C0A]");
  (248, "#,##0.00\ [$€-81D]");
  (249, "#,##0.00\ [$€-484]");
  (250, "#,##0.00\ [$€-42E]");
  (251, "[$€-462]\ #,##0.00");
  (252, "#,##0.00\ [$₭-454]");
  (253, "#,##0.00\ [$₮-450]");
  (254, "[$₮-C50]#,##0.00");
  (255, "[$₱-3409]#,##0.00");
  (256, "[$₱-464]#,##0.00");
  (257, "#,##0.00[$₴-422]");
  (258, "[$₸-43F]#,##0.00");
  (259, "[$₹-460]#,##0.00");
  (260, "[$₹-4009]\ #,##0.00");
  (261, "[$₹-447]\ #,##0.00");
  (262, "[$₹-439]\ #,##0.00");
  (263, "[$₹-44B]\ #,##0.00");
  (264, "[$₹-860]#,##0.00");
  (265, "[$₹-457]\ #,##0.00");
  (266, "[$₹-458]#,##0.00");
  (267, "[$₹-44E]\ #,##0.00");
  (268, "[$₹-861]#,##0.00");
  (269, "[$₹-448]\ #,##0.00");
  (270, "[$₹-446]\ #,##0.00");
  (271, "[$₹-44F]\ #,##0.00");
  (272, "[$₹-459]#,##0.00");
  (273, "[$₹-449]\ #,##0.00");
  (274, "[$₹-820]#,##0.00");
  (275, "#,##0.00\ [$₺-41F]");
  (276, "#,##0.00\ [$₼-42C]");
  (277, "#,##0.00\ [$₼-82C]");
  (278, "#,##0.00\ [$₽-419]");
  (279, "#,##0.00[$₽-485]");
  (280, "#,##0.00\ [$₾-437]");
  (281, "[$B/.-180A]\ #,##0.00")].

(** Currency formats, part 2. *)
Definition currencyNumFmt_2 : list (Z * string) := [
  (282, "[$Br-472]#,##0.00");
  (283, "[$Br-477]#,##0.00");
  (284, "#,##0.00[$Br-473]");
  (285, "[$Bs-46B]\ #,##0.00");
  (286, "[$Bs-400A]\ #,##0.00");
  (287, "[$Bs.-200A]\ #,##0.00");
  (288, "[$BWP-832]\ #,##0.00");
  (289, "[$C$-4C0A]#,##0.00");
  (290, "[$CA$-85D]#,##0.00");
  (291, "[$CA$-47C]#,##0.00");
  (292, "[$CA$-45D]#,##0.00");
  (293, "[$CFA-340C]#,##0.00");
  (294, "[$CFA-280C]#,##0.00");
  (295, "#,##0.00\ [$CFA-867]");
  (296, "#,##0.00\ [$CFA-488]");
  (297, "#,##0.00\ [$CHF-100C]");
  (298, "[$CHF-1407]\ #,##0.00");
  (299, "[$CHF-807]\ #,##0.00");
  (300, "[$CHF-810]\ #,##0.00");
  (301, "[$CHF-417]\ #,##0.00");
  (302, "[$CLP-47A]\ #,##0.00");
  (303, "[$CN¥-850]#,##0.00");
  (304, "#,##0.00\ [$DZD-85F]");
  (305, "[$FCFA-2C0C]#,##0.00");
  (306, "#,##0.00\ [$Ft-40E]");
  (307, "[$G-3C0C]#,##0.00");
  (308, "[$Gs.-3C0A]\ #,##0.00");
  (309, "[$GTQ-486]#,##0.00");
  (310, "[$HK$-C04]#,##0.00");
  (311, "[$HK$-3C09]#,##0.00");
  (312, "#,##0.00\ [$HRK-41A]");
  (313, "[$IDR-3809]#,##0.00");
  (314, "[$IQD-492]#,##0.00");
  (315, "#,##0.00\ [$ISK-40F]");
  (316, "[$K-455]#,##0.00");
  (317, "#,##0.00\ [$Kč-405]");
  (318, "#,##0.00\ [$KM-141A]");
  (319, "#,##0.00\ [$KM-101A]");
  (320, "#,##0.00\ [$KM-181A]");
  (321, "[$kr-438]\ #,##0.00");
  (322, "[$kr-43B]\ #,##0.00");
  (323, "#,##0.00\ [$kr-83B]");
  (324, "[$kr-414]\ #,##0.00");
  (325, "[$kr-814]\ #,##0.00");
  (326, "#,##0.00\ [$kr-41D]");
  (327, "[$kr.-406]\ #,##0.00");
  (328, "[$kr.-46F]\ #,##0.00");
  (329, "[$Ksh-441]#,##0.00");
  (330, "[$L-818]#,##0.00");
  (331, "[$L-819]#,##0.00");
  (332, "[$L-480A]\ #,##0.00");
  (333, "#,##0.00\ [$Lekë-41C]");
  (334, "[$MAD-45F]#,##0.00");
  (335, "[$MAD-380C]#,##0.00");
  (336, "#,##0.00\ [$MAD-105F]");
  (337, "[$MOP$-1404]#,##0.00");
  (338, "#,##0.00\ [$MVR-465]_-");
  (339, "#,##0.00[$Nfk-873]");
  (340, "[$NGN-466]#,##0.00");
  (341, "[$NGN-467]#,##0.00");
  (342, "[$NGN-469]#,##0.00");
  (343, "[$NGN-471]#,##0.00");
  (344, "[$NOK-103B]\ #,##0.00");
  (345, "[$NOK-183B]\ #,##0.00");
  (346, "[$NZ$-481]#,##0.00");
  (347, "[$PKR-859]\ #,##0.00");
  (348, "[$PYG-474]#,##0.00");
  (349, "[$Q-100A]#,##0.00");
  (350, "[$R-436]\ #,##0.00");
  (351, "[$R-1C09]\ #,##0.00");
  (352, "[$R-435]\ #,##0.00");
  (353, "[$R$-416]\ #,##0.00");
  (354, "[$RD$-1C0A]#,##0.00");
  (355, "#,##0.00\ [$RF-487]");
  (356, "[$RM-4409]#,##0.00");
  (357, "[$RM-43E]#,##0.00");
  (358, "#,##0.00\ [$RON-418]");
  (359, "[$Rp-421]#,##0.00");
  (360, "[$Rs-420]#,##0.00_-");
  (361, "[$Rs.-849]\ #,##0.00");
  (362, "#,##0.00\ [$RSD-81A]");
  (363, "#,##0.00\ [$RSD-C1A]");
  (364, "#,##0.00\ [$RUB-46D]");
  (365, "#,##0.00\ [$RUB-444]");
  (366, "[$S/.-C6B]\ #,##0.00");
  (367, "[$S/.-280A]\ #,##0.00");
  (368, "#,##0.00\ [$SEK-143B]");
  (369, "#,##0.00\ [$SEK-1C3B]");
  (370, "#,##0.00\ [$soʻm-443]");
  (371, "#,##0.00\ [$soʻm-843]");
  (372, "#,##0.00\ [$SYP-45A]");
  (373, "[$THB-41E]#,##0.00");
  (374, "#,##0.00[$TMT-442]");
  (375, "[$US$-3009]#,##0.00");
  (376, "[$ZAR-46C]\ #,##0.00");
  (377, "[$ZAR-430]#,##0.00");
  (378, "[$ZAR-431]#,##0.00");
  (379, "[$ZAR-432]\ #,##0.00");
  (380, "[$ZAR-433]#,##0.00");
  (381, "[$ZAR-434]\ #,##0.00");
  (382, "#,##0.00\ [$zł-415]");
  (383, "#,##0.00\ [$ден-42F]");
  (384, "#,##0.00\ [$КМ-201A]");
  (385, "#,##0.00\ [$КМ-1C1A]");
  (386, "#,##0.00\ [$лв.-402]");
  (387, "#,##0.00\ [$р.-423]");
  (388, "#,##0.00\ [$сом-440]");
  (389, "#,##0.00\ [$сом-428]");
  (390, "[$ج.م.-C01]\ #,##0.00_-");
  (391, "[$د.أ.-2C01]\ #,##0.00_-");
  (392, "[$د.إ.-3801]\ #,##0.00_-");
  (393, "[$د.ب.-3C01]\ #,##0.00_-");
  (394, "[$د.ت.-1C01]\ #,##0.00_-");
  (395, "[$د.ج.-1401]\ #,##0.00_-");
  (396, "[$د.ع.-801]\ #,##0.00_-");
  (397, "[$د.ك.-3401]\ #,##0.00_-");
  (398, "[$د.ل.-1001]#,##0.00_-");
  (399, "[$د.م.-1801]\ #,##0.00_-");
  (400, "[$ر-846]\ #,##0.00")].

(** Currency formats, part 3. *)
Definition currencyNumFmt_3 : list (Z * string) := [
  (401, "[$ر.س.-401]\ #,##0.00_-");
  (402, "[$ر.ع.-2001]\ #,##0.00_-");
  (403, "[$ر.ق.-4001]\ #,##0.00_-");
  (404, "[$ر.ي.-2401]\ #,##0.00_-");
  (405, "[$ریال-429]#,##0.00_-");
  (406, "[$ل.س.-2801]\ #,##0.00_-");
  (407, "[$ل.ل.-3001]\ #,##0.00_-");
  (408, "[$ብር-45E]#,##0.00");
  (409, "[$रू-461]#,##0.00");
  (410, "[$රු.-45B]\ #,##0.00");
  (411, "[$ADP]\ #,##0.00");
  (412, "[$AED]\ #,##0.00");
  (413, "[$AFA]\ #,##0.00");
  (414, "[$AFN]\ #,##0.00");
  (415, "[$ALL]\ #,##0.00");
  (416, "[$AMD]\ #,##0.00");
  (417, "[$ANG]\ #,##0.00");
  (418, "[$AOA]\ #,##0.00");
  (419, "[$ARS]\ #,##0.00");
  (420, "[$ATS]\ #,##0.00");
  (421, "[$AUD]\ #,##0.00");
  (422, "[$AWG]\ #,##0.00");
  (423, "[$AZM]\ #,##0.00");
  (424, "[$AZN]\ #,##0.00");
  (425, "[$BAM]\ #,##0.00");
  (426, "[$BBD]\ #,##0.00");
  (427, "[$BDT]\ #,##0.00");
  (428, "[$BEF]\ #,##0.00");
  (429, "[$BGL]\ #,##0.00");
  (430, "[$BGN]\ #,##0.00");
  (431, "[$BHD]\ #,##0.00");
  (432, "[$BIF]\ #,##0.00");
  (433, "[$BMD]\ #,##0.00");
  (434, "[$BND]\ #,##0.00");
  (435, "[$BOB]\ #,##0.00");
  (436, "[$BOV]\ #,##0.00");
  (437, "[$BRL]\ #,##0.00");
  (438, "[$BSD]\ #,##0.00");
  (439, "[$BTN]\ #,##0.00");
  (440, "[$BWP]\ #,##0.00");
  (441, "[$BYR]\ #,##0.00");
  (442, "[$BZD]\ #,##0.00");
  (443, "[$CAD]\ #,##0.00");
  (444, "[$CDF]\ #,##0.00");
  (445, "[$CHE]\ #,##0.00");
  (446, "[$CHF]\ #,##0.00");
  (447, "[$CHW]\ #,##0.00");
  (448, "[$CLF]\ #,##0.00");
  (449, "[$CLP]\ #,##0.00");
  (450, "[$CNY]\ #,##0.00");
  (451, "[$COP]\ #,##0.00");
  (452, "[$COU]\ #,##0.00");
  (453, "[$CRC]\ #,##0.00");
  (454, "[$CSD]\ #,##0.00");
  (455, "[$CUC]\ #,##0.00");
  (456, "[$CVE]\ #,##0.00");
  (457, "[$CYP]\ #,##0.00");
  (458, "[$CZK]\ #,##0.00");
  (459, "[$DEM]\ #,##0.00");
  (460, "[$DJF]\ #,##0.00");
  (461, "[$DKK]\ #,##0.00");
  (462, "[$DOP]\ #,##0.00");
  (463, "[$DZD]\ #,##0.00");
  (464, "[$ECS]\ #,##0.00");
  (465, "[$ECV]\ #,##0.00");
  (466, "[$EEK]\ #,##0.00");
  (467, "[$EGP]\ #,##0.00");
  (468, "[$ERN]\ #,##0.00");
  (469, "[$ESP]\ #,##0.00");
  (470, "[$ETB]\ #,##0.00");
  (471, "[$EUR]\ #,##0.00");
  (472, "[$FIM]\ #,##0.00");
  (473, "[$FJD]\ #,##0.00");
  (474, "[$FKP]\ #,##0.00");
  (475, "[$FRF]\ #,##0.00");
  (476, "[$GBP]\ #,##0.00");
  (477, "[$GEL]\ #,##0.00");
  (478, "[$GHC]\ #,##0.00");
  (479, "[$GHS]\ #,##0.00");
  (480, "[$GIP]\ #,##0.00");
  (481, "[$GMD]\ #,##0.00");
  (482, "[$GNF]\ #,##0.00");
  (483, "[$GRD]\ #,##0.00");
  (484, "[$GTQ]\ #,##0.00");
  (485, "[$GYD]\ #,##0.00");
  (486, "[$HKD]\ #,##0.00");
  (487, "[$HNL]\ #,##0.00");
  (488, "[$HRK]\ #,##0.00");
  (489, "[$HTG]\ #,##0.00");
  (490, "[$HUF]\ #,##0.00");
  (491, "[$IDR]\ #,##0.00");
  (492, "[$IEP]\ #,##0.00");
  (493, "[$ILS]\ #,##0.00");
  (494, "[$INR]\ #,##0.00");
  (495, "[$IQD]\ #,##0.00");
  (496, "[$IRR]\ #,##0.00");
  (497, "[$ISK]\ #,##0.00");
  (498, "[$ITL]\ #,##0.00");
  (499, "[$JMD]\ #,##0.00");
  (500, "[$JOD]\ #,##0.00");
  (501, "[$JPY]\ #,##0.00");
  (502, "[$KAF]\ #,##0.00");
  (503, "[$KES]\ #,##0.00");
  (504, "[$KGS]\ #,##0.00");
  (505, "[$KHR]\ #,##0.00");
  (506, "[$KMF]\ #,##0.00");
  (507, "[$KPW]\ #,##0.00");
  (508, "[$KRW]\ #,##0.00");
  (509, "[$KWD]\ #,##0.00");
  (510, "[$KYD]\ #,##0.00");
  (511, "[$KZT]\ #,##0.00");
  (512, "[$LAK]\ #,##0.00");
  (513, "[$LBP]\ #,##0.00");
  (514, "[$LKR]\ #,##0.00");
  (515, "[$LRD]\ #,##0.00");
  (516, "[$LSL]\ #,##0.00");
  (517, "[$LTL]\ #,##0.00");
  (518, "[$LUF]\ #,##0.00");
  (519, "[$LVL]\ #,##0.00")].

(** Currency formats, part 4. *)
Definition currencyNumFmt_4 : list (Z * string) := [
  (520, "[$LYD]\ #,##0.00");
  (521, "[$MAD]\ #,##0.00");
  (522, "[$MDL]\ #,##0.00");
  (523, "[$MGA]\ #,##0.00");
  (524, "[$MGF]\ #,##0.00");
  (525, "[$MKD]\ #,##0.00");
  (526, "[$MMK]\ #,##0.00");
  (527, "[$MNT]\ #,##0.00");
  (528, "[$MOP]\ #,##0.00");
  (529, "[$MRO]\ #,##0.00");
  (530, "[$MTL]\ #,##0.00");
  (531, "[$MUR]\ #,##0.00");
  (532, "[$MVR]\ #,##0.00");
  (533, "[$MWK]\ #,##0.00");
  (534, "[$MXN]\ #,##0.00");
  (535, "[$MXV]\ #,##0.00");
  (536, "[$MYR]\ #,##0.00");
  (537, "[$MZM]\ #,##0.00");
  (538, "[$MZN]\ #,##0.00");
  (539, "[$NAD]\ #,##0.00");
  (540, "[$NGN]\ #,##0.00");
  (541, "[$NIO]\ #,##0.00");
  (542, "[$NLG]\ #,##0.00");
  (543, "[$NOK]\ #,##0.00");
  (544, "[$NPR]\ #,##0.00");
  (545, "[$NTD]\ #,##0.00");
  (546, "[$NZD]\ #,##0.00");
  (547, "[$OMR]\ #,##0.00");
  (548, "[$PAB]\ #,##0.00");
  (549, "[$PEN]\ #,##0.00");
  (550, "[$PGK]\ #,##0.00");
  (551, "[$PHP]\ #,##0.00");
  (552, "[$PKR]\ #,##0.00");
  (553, "[$PLN]\ #,##0.00");
  (554, "[$PTE]\ #,##0.00");
  (555, "[$PYG]\ #,##0.00");
  (556, "[$QAR]\ #,##0.00");
  (557, "[$ROL]\ #,##0.00");
  (558, "[$RON]\ #,##0.00");
  (559, "[$RSD]\ #,##0.00");
  (560, "[$RUB]\ #,##0.00");
  (561, "[$RUR]\ #,##0.00");
  (562, "[$RWF]\ #,##0.00");
  (563, "[$SAR]\ #,##0.00");
  (564, "[$SBD]\ #,##0.00");
  (565, "[$SCR]\ #,##0.00");
  (566, "[$SDD]\ #,##0.00");
  (567, "[$SDG]\ #,##0.00");
  (568, "[$SDP]\ #,##0.00");
  (569, "[$SEK]\ #,##0.00");
  (570, "[$SGD]\ #,##0.00");
  (571, "[$SHP]\ #,##0.00");
  (572, "[$SIT]\ #,##0.00");
  (573, "[$SKK]\ #,##0.00");
  (574, "[$SLL]\ #,##0.00");
  (575, "[$SOS]\ #,##0.00");
  (576, "[$SPL]\ #,##0.00");
  (577, "[$SRD]\ #,##0.00");
  (578, "[$SRG]\ #,##0.00");
  (579, "[$STD]\ #,##0.00");
  (580, "[$SVC]\ #,##0.00");
  (581, "[$SYP]\ #,##0.00");
  (582, "[$SZL]\ #,##0.00");
  (583, "[$THB]\ #,##0.00");
  (584, "[$TJR]\ #,##0.00");
  (585, "[$TJS]\ #,##0.00");
  (586, "[$TMM]\ #,##0.00");
  (587, "[$TMT]\ #,##0.00");
  (588, "[$TND]\ #,##0.00");
  (589, "[$TOP]\ #,##0.00");
  (590, "[$TRL]\ #,##0.00");
  (591, "[$TRY]\ #,##0.00");
  (592, "[$TTD]\ #,##0.00");
  (593, "[$TWD]\ #,##0.00");
  (594, "[$TZS]\ #,##0.00");
  (595, "[$UAH]\ #,##0.00");
  (596, "[$UGX]\ #,##0.00");
  (597, "[$USD]\ #,##0.00");
  (598, "[$USN]\ #,##0.00");
  (599, "[$USS]\ #,##0.00");
  (600, "[$UYI]\ #,##0.00");
  (601, "[$UYU]\ #,##0.00");
  (602, "[$UZS]\ #,##0.00");
  (603, "[$VEB]\ #,##0.00");
  (604, "[$VEF]\ #,##0.00");
  (605, "[$VND]\ #,##0.00");
  (606, "[$VUV]\ #,##0.00");
  (607, "[$WST]\ #,##0.00");
  (608, "[$XAF]\ #,##0.00");
  (609, "[$XAG]\ #,##0.00");
  (610, "[$XAU]\ #,##0.00");
  (611, "[$XB5]\ #,##0.00");
  (612, "[$XBA]\ #,##0.00");
  (613, "[$XBB]\ #,##0.00");
  (614, "[$XBC]\ #,##0.00");
  (615, "[$XBD]\ #,##0.00");
  (616, "[$XCD]\ #,##0.00");
  (617, "[$XDR]\ #,##0.00");
  (618, "[$XFO]\ #,##0.00");
  (619, "[$XFU]\ #,##0.00");
  (620, "[$XOF]\ #,##0.00");
  (621, "[$XPD]\ #,##0.00");
  (622, "[$XPF]\ #,##0.00");
  (623, "[$XPT]\ #,##0.00");
  (624, "[$XTS]\ #,##0.00");
  (625, "[$XXX]\ #,##0.00");
  (626, "[$YER]\ #,##0.00");
  (627, "[$YUM]\ #,##0.00");
  (628, "[$ZAR]\ #,##0.00");
  (629, "[$ZMK]\ #,##0.00");
  (630, "[$ZMW]\ #,##0.00");
  (631, "[$ZWD]\ #,##0.00");
  (632, "[$ZWL]\ #,##0.00");
  (633, "[$ZWN]\ #,##0.00");
  (634, "[$ZWR]\ #,##0.00")].

Definition currencyNumFmt : list (Z * string) :=
  currencyNumFmt_1 ++ currencyNumFmt_2 ++ currencyNumFmt_3 ++ currencyNumFmt_4.

(** The types of a conditional format. *)
Definition validType : list (string * string) := [
  ("cell", "cellIs");
  ("date", "date");
  ("time", "time");
  ("average", "aboveAverage");
  ("duplicate", "duplicateValues");
  ("unique", "uniqueValues");
  ("top", "top10");
  ("bottom", "top10");
  ("text", "text");
  ("time_period", "timePeriod");
  ("blanks", "containsBlanks");
  ("no_blanks", "notContainsBlanks");
  ("errors", "containsErrors");
  ("no_errors", "notContainsErrors");
  ("2_color_scale", "2_color_scale");
  ("3_color_scale", "3_color_scale");
  ("data_bar", "dataBar");
  ("formula", "expression")].

(** The criteria of a conditional format. *)
Definition criteriaType : list (string * string) := [
  ("between", "between");
  ("not between", "notBetween");
  ("equal to", "equal");
  ("=", "equal");
  ("==", "equal");
  ("not equal to", "notEqual");
  ("!=", "notEqual");
  ("<>", "notEqual");
  ("greater than", "greaterThan");
  (">", "greaterThan");
  ("less than", "lessThan");
  ("<", "lessThan");
  ("greater than or equal to", "greaterThanOrEqual");
  (">=", "greaterThanOrEqual");
  ("less than or equal to", "lessThanOrEqual");
  ("<=", "lessThanOrEqual");
  ("containing", "containsText");
  ("not containing", "notContains");
  ("begins with", "beginsWith");
  ("ends with", "endsWith");
  ("yesterday", "yesterday");
  ("today", "today");
  ("last 7 days", "last7Days");
  ("last week", "lastWeek");
  ("this week", "thisWeek");
  ("continue week", "continueWeek");
  ("last month", "lastMonth");
  ("this month", "thisMonth");
  ("continue month", "continueMonth")].
