(* ===== verification/NumFmt.v ===== *)
(** Cell text through number formats ([styles.go]): [formatToString] to
    [formatToE], [parseTime], [is12HourTime] and the table that selects one of
    them, over [time.Format] of Go's [time] package. *)
From Stdlib Require Export ZifyBool.
From S2P Require Export Date GoDecimal StyleTables.

(** ** [time.Format]

    The elements of a layout, in the order in which the package looks for them
    at each position, with their widths. The times formatted here are in UTC. *)

Definition month_names : list string :=
  ["January"; "February"; "March"; "April"; "May"; "June"; "July"; "August"; "September"; "October";
   "November"; "December"].
Definition day_names : list string :=
  ["Sunday"; "Monday"; "Tuesday"; "Wednesday"; "Thursday"; "Friday"; "Saturday"].

Definition nth_name (l : list string) (n : Z) : string := default "" (l !! Z.to_nat n).

Definition time_date (t : go_time) : Z * Z * Z := civil_from_days (time_days t).
Definition time_Year (t : go_time) : Z := (time_date t).1.1.
Definition time_Month (t : go_time) : Z := (time_date t).1.2.
Definition time_Day (t : go_time) : Z := (time_date t).2.

(** 1970-01-01 was a Thursday. *)
Definition time_Weekday (t : go_time) : Z := (time_days t + 4) `mod` 7.

Definition hour12 (t : go_time) : Z := let h := time_Hour t `mod` 12 in if h =? 0 then 12 else h.

Definition pad2 (n : Z) : string := pad_left 2 (strconv_Itoa n).

Definition year_text (y : Z) : string :=
  if y <? 0 then "-" +:+ pad_left 4 (strconv_Itoa (- y)) else pad_left 4 (strconv_Itoa y).

Fixpoint count_char (c : ascii) (s : string) : nat :=
  match s with
  | String d s' => if decide (c = d) then S (count_char c s') else O
  | EmptyString => O
  end.

Definition starts_digit (s : string) : bool := match s with String c _ => is_digit c | _ => false end.
Definition starts_lower (s : string) : bool := match s with String c _ => is_lower c | _ => false end.

(** [n] digits of the fraction of a second, and the same with trailing zeroes
    removed. *)
Definition frac_digits (n : nat) (t : go_time) : string :=
  "." +:+ str_take n (pad_left 9 (strconv_Itoa (time_Nanosecond t))).

Fixpoint trim_zeros_go (fuel : nat) (s : string) : string :=
  match fuel with
  | O => s
  | S f => if strings_HasSuffix s "0" then trim_zeros_go f (strings_TrimSuffix s "0") else s
  end.
Definition frac_trimmed (n : nat) (t : go_time) : string :=
  let s := trim_zeros_go n (frac_digits n t) in if bool_decide (s = ".") then "" else s.

(** The element at the head of a layout: its width and its text. *)
Definition std_chunk (layout : string) (t : go_time) : option (nat * string) :=
  let pre p := strings_HasPrefix layout p in
  let after n := str_drop n layout in
  if pre "January" then Some (7%nat, nth_name month_names (time_Month t - 1))
  else if pre "Jan" && negb (starts_lower (after 3%nat)) then
    Some (3%nat, str_take 3 (nth_name month_names (time_Month t - 1)))
  else if pre "Monday" then Some (6%nat, nth_name day_names (time_Weekday t))
  else if pre "Mon" && negb (starts_lower (after 3%nat)) then
    Some (3%nat, str_take 3 (nth_name day_names (time_Weekday t)))
  else if pre "MST" then Some (3%nat, "UTC")
  else if pre "01" then Some (2%nat, pad2 (time_Month t))
  else if pre "02" then Some (2%nat, pad2 (time_Day t))
  else if pre "03" then Some (2%nat, pad2 (hour12 t))
  else if pre "04" then Some (2%nat, pad2 (time_Minute t))
  else if pre "05" then Some (2%nat, pad2 (time_Second t))
  else if pre "06" then Some (2%nat, pad2 (Z.max 0 (time_Year t) `mod` 100))
  else if pre "15" then Some (2%nat, pad2 (time_Hour t))
  else if pre "1" then Some (1%nat, strconv_Itoa (time_Month t))
  else if pre "2006" then Some (4%nat, year_text (time_Year t))
  else if pre "2" then Some (1%nat, strconv_Itoa (time_Day t))
  else if pre "_2006" then Some (5%nat, "_" +:+ year_text (time_Year t))
  else if pre "_2" then
    Some (2%nat, if time_Day t <? 10 then " " +:+ strconv_Itoa (time_Day t) else strconv_Itoa (time_Day t))
  else if pre "3" then Some (1%nat, strconv_Itoa (hour12 t))
  else if pre "4" then Some (1%nat, strconv_Itoa (time_Minute t))
  else if pre "5" then Some (1%nat, strconv_Itoa (time_Second t))
  else if pre "PM" then Some (2%nat, if 12 <=? time_Hour t then "PM" else "AM")
  else if pre "pm" then Some (2%nat, if 12 <=? time_Hour t then "pm" else "am")
  else if pre "-070000" then Some (7%nat, "+000000")
  else if pre "-07:00:00" then Some (9%nat, "+00:00:00")
  else if pre "-0700" then Some (5%nat, "+0000")
  else if pre "-07:00" then Some (6%nat, "+00:00")
  else if pre "-07" then Some (3%nat, "+00")
  else if pre "Z070000" then Some (7%nat, "Z")
  else if pre "Z07:00:00" then Some (9%nat, "Z")
  else if pre "Z0700" then Some (5%nat, "Z")
  else if pre "Z07:00" then Some (6%nat, "Z")
  else if pre "Z07" then Some (3%nat, "Z")
  else if pre ".0" || pre ".9" then
    let c := if pre ".0" then "0"%char else "9"%char in
    let n := count_char c (after 1%nat) in
    if starts_digit (after (S n)) then None
    else Some (S n, if pre ".0" then frac_digits n t else frac_trimmed n t)
  else None.

Fixpoint format_layout (layout : string) (skip : nat) (t : go_time) : string :=
  match layout with
  | EmptyString => ""
  | String c rest =>
      match skip with
      | S k => format_layout rest k t
      | O => match std_chunk layout t with
             | Some (w, text) => text +:+ format_layout rest (w - 1) t
             | None => String c (format_layout rest 0 t)
             end
      end
  end.

Definition time_Format (t : go_time) (layout : string) : string := format_layout layout 0 t.

(** ** The format functions *)

Definition formatToString (i : Z) (v : string) : string := v.

Definition formatToInt (i : Z) (v : string) : string :=
  match strconv_ParseFloat v with
  | (_, Some _) => v
  | (f, None) => strconv_Itoa (f64_to_int f)
  end.

Definition formatToFloat (i : Z) (v : string) : string :=
  match strconv_ParseFloat v with
  | (_, Some _) => v
  | (f, None) => sprintf_2f f
  end.

Definition formatToA (i : Z) (v : string) : string :=
  match strconv_ParseFloat v with
  | (_, Some _) => v
  | (f, None) =>
      if f64_ltb f f64_zero then "(" +:+ strconv_Itoa (f64_to_int (math_Abs f)) +:+ ")"
      else strconv_Itoa (f64_to_int f)
  end.

Definition formatToB (i : Z) (v : string) : string :=
  match strconv_ParseFloat v with
  | (_, Some _) => v
  | (f, None) => if f64_ltb f f64_zero then "(" +:+ sprintf_2f f +:+ ")" else sprintf_2f f
  end.

Definition formatToC (i : Z) (v : string) : string :=
  match strconv_ParseFloat v with
  | (_, Some _) => v
  | (f, None) => strconv_Itoa (f64_to_int (f64_mul f (f64_of_int 100))) +:+ "%"
  end.

Definition formatToD (i : Z) (v : string) : string :=
  match strconv_ParseFloat v with
  | (_, Some _) => v
  | (f, None) => sprintf_2f (f64_mul f (f64_of_int 100)) +:+ "%"
  end.

Definition formatToE (i : Z) (v : string) : string :=
  match strconv_ParseFloat v with
  | (_, Some _) => v
  | (f, None) => sprintf_e0 f
  end.

Definition is12HourTime (format : string) : bool :=
  strings_Contains format "am/pm" || strings_Contains format "AM/PM"
  || strings_Contains format "a/p" || strings_Contains format "A/P".

Definition replacements : list (string * string) :=
  [("yyyy", "2006"); ("yy", "06"); ("mmmm", "%%%%"); ("dddd", "&&&&"); ("dd", "02"); ("d", "2");
   ("mmm", "Jan"); ("mmss", "0405"); ("ss", "05"); ("mm:", "04:"); (":mm", ":04"); ("mm", "01");
   ("am/pm", "pm"); ("m/", "1/"); ("%%%%", "January"); ("&&&&", "Monday")].

(** The Go layout of the built-in format [i], before the optional hour. *)
Definition excel_layout (format : string) : string :=
  let format :=
    if is12HourTime format
    then strings_Replace1 (strings_Replace1 format "hh" "03") "h" "3"
    else strings_Replace1 (strings_Replace1 format "hh" "15") "h" "15" in
  foldl (fun format p => strings_Replace1 format p.1 p.2) format replacements.

Definition parseTime (i : Z) (v : string) : string :=
  match strconv_ParseFloat v with
  | (_, Some _) => v
  | (f, None) =>
      let val := timeFromExcelTime f false in
      let format := excel_layout (table_str i builtInNumFmt) in
      let format :=
        if time_Hour val <? 1 then
          strings_Replace1 (strings_Replace1 (strings_Replace1 (strings_Replace1 format
            "]:" "]") "[03]" "") "[3]" "") "[15]" ""
        else strings_Replace1 (strings_Replace1 format "[3]" "3") "[15]" "15" in
      time_Format val format
  end.

(** [None] is a nil function: no entry in the table. *)
Definition builtInNumFmtFunc (i : Z) : option (Z -> string -> string) :=
  match i with
  | 0 | 12 | 13 | 41 | 42 | 43 | 44 | 49 => Some formatToString
  | 1 | 3 => Some formatToInt
  | 2 | 4 => Some formatToFloat
  | 9 => Some formatToC
  | 10 => Some formatToD
  | 11 | 48 => Some formatToE
  | 14 | 15 | 16 | 17 | 18 | 19 | 20 | 21 | 22 | 45 | 46 | 47 => Some parseTime
  | 37 | 38 => Some formatToA
  | 39 | 40 => Some formatToB
  | _ => None
  end.

(** The layouts of the built-in date formats, and a date rendered through them. *)
Example parseTime_layouts :
  map (fun i => (excel_layout (table_str i builtInNumFmt), parseTime i "43542.611111111109"))
    [14; 15; 16; 17; 18; 19; 20; 21; 22; 45; 46; 47] =
  [("01-02-06", "03-18-19"); ("2-Jan-06", "18-Mar-19"); ("2-Jan", "18-Mar"); ("Jan-06", "Mar-19");
   ("3:04 pm", "2:39 pm"); ("3:04:05 pm", "2:39:59 pm"); ("15:04", "14:39"); ("15:04:05", "14:39:59");
   ("1/2/06 15:04", "3/18/19 14:39"); ("04:05", "39:59"); ("[15]:04:05", "14:39:59"); ("0405.0", "3959.9")].
Proof. vm_compute. reflexivity. Qed.

(** ** Lemmas *)

Lemma builtInNumFmtFunc_range i f : builtInNumFmtFunc i = Some f -> 0 <= i <= 49.
Proof.
  intros H. destruct i as [|p|p]; [lia| |discriminate H].
  split; [lia|]. cbn in H. repeat (match goal with p : positive |- _ => destruct p end; try discriminate H); lia.
Qed.

(** A text that is not a number is shown as it is, whatever the format. *)
Lemma builtInNumFmtFunc_text i f v e :
  builtInNumFmtFunc i = Some f -> (strconv_ParseFloat v).2 = Some e -> f i v = v.
Proof.
  intros Hf He. destruct (strconv_ParseFloat v) as [x o] eqn:E. cbn in He. subst o.
  assert (f ∈ [formatToString; formatToInt; formatToFloat; formatToA; formatToB; formatToC; formatToD;
    formatToE; parseTime]) as Hin.
  { destruct i as [|p|p]; cbn in Hf; [|repeat (match goal with p : positive |- _ => destruct p end; try discriminate Hf)|discriminate Hf];
      injection Hf as <-; repeat ((by apply list_elem_of_here) || apply list_elem_of_further). }
  repeat (apply elem_of_cons in Hin as [->|Hin];
    [unfold formatToString, formatToInt, formatToFloat, formatToA, formatToB, formatToC, formatToD, formatToE, parseTime;
     by rewrite ?E|]).
  by apply elem_of_nil in Hin.
Qed.
