(* ===== verification/Templates.v ===== *)
(** The constant texts of the package: the parts of a new workbook
    ([templates.go]) and the relationship types and name spaces
    ([xmlDrawing.go]). *)
From S2P Require Export StyleTables.

Definition XMLHeader : string :=
  "<?xml version=" +:+ dq +:+ "1.0" +:+ dq +:+ " encoding=" +:+ dq +:+ "UTF-8" +:+ dq +:+ " standalone=" +:+ dq +:+ "yes" +:+ dq +:+ "?>" +:+ String "010" "".
#[global] Opaque XMLHeader.

Definition templateDocpropsApp : string :=
  "<Properties xmlns=" +:+ dq +:+ "http://schemas.openxmlformats.org/officeDocument/2006/extended-properties" +:+ dq +:+ " xmlns:vt=" +:+ dq +:+ "http://schemas.openxmlformats.org/officeDocument/2006/docPropsVTypes" +:+ dq +:+ "><TotalTime>0</TotalTime><Application>Go Excelize</Application></Properties>".
#[global] Opaque templateDocpropsApp.

Definition templateContentTypes : string :=
  "<Types xmlns=" +:+ dq +:+ "http://schemas.openxmlformats.org/package/2006/content-types" +:+ dq +:+ "><Override PartName=" +:+ dq +:+ "/xl/theme/theme1.xml" +:+ dq +:+ " ContentType=" +:+ dq +:+ "application/vnd.openxmlformats-officedocument.theme+xml" +:+ dq +:+ "/><Override PartName=" +:+ dq +:+ "/xl/styles.xml" +:+ dq +:+ " ContentType=" +:+ dq +:+ "application/vnd.openxmlformats-officedocument.spreadsheetml.styles+xml" +:+ dq +:+ "/><Default Extension=" +:+ dq +:+ "rels" +:+ dq +:+ " ContentType=" +:+ dq +:+ "application/vnd.openxmlformats-package.relationships+xml" +:+ dq +:+ "/><Default Extension=" +:+ dq +:+ "xml" +:+ dq +:+ " ContentType=" +:+ dq +:+ "application/xml" +:+ dq +:+ "/><Override PartName=" +:+ dq +:+ "/xl/workbook.xml" +:+ dq +:+ " ContentType=" +:+ dq +:+ "application/vnd.openxmlformats-officedocument.spreadsheetml.sheet.main+xml" +:+ dq +:+ "/><Override PartName=" +:+ dq +:+ "/docProps/app.xml" +:+ dq +:+ " ContentType=" +:+ dq +:+ "application/vnd.openxmlformats-officedocument.extended-properties+xml" +:+ dq +:+ "/><Override PartName=" +:+ dq +:+ "/xl/worksheets/sheet1.xml" +:+ dq +:+ " ContentType=" +:+ dq +:+ "application/vnd.openxmlformats-officedocument.spreadsheetml.worksheet+xml" +:+ dq +:+ "/><Override PartName=" +:+ dq +:+ "/docProps/core.xml" +:+ dq +:+ " ContentType=" +:+ dq +:+ "application/vnd.openxmlformats-package.core-properties+xml" +:+ dq +:+ "/></Types>".
#[global] Opaque templateContentTypes.

Definition templateWorkbook : string :=
  "<workbook xmlns=" +:+ dq +:+ "http://schemas.openxmlformats.org/spreadsheetml/2006/main" +:+ dq +:+ " xmlns:r=" +:+ dq +:+ "http://schemas.openxmlformats.org/officeDocument/2006/relationships" +:+ dq +:+ " xmlns:mc=" +:+ dq +:+ "http://schemas.openxmlformats.org/markup-compatibility/2006" +:+ dq +:+ " mc:Ignorable=" +:+ dq +:+ "x15" +:+ dq +:+ " xmlns:x15=" +:+ dq +:+ "http://schemas.microsoft.com/office/spreadsheetml/2010/11/main" +:+ dq +:+ "><fileVersion appName=" +:+ dq +:+ "xl" +:+ dq +:+ " lastEdited=" +:+ dq +:+ "6" +:+ dq +:+ " lowestEdited=" +:+ dq +:+ "6" +:+ dq +:+ " rupBuild=" +:+ dq +:+ "14420" +:+ dq +:+ " /><workbookPr filterPrivacy=" +:+ dq +:+ "1" +:+ dq +:+ " defaultThemeVersion=" +:+ dq +:+ "164011" +:+ dq +:+ " /><bookViews><workbookView xWindow=" +:+ dq +:+ "0" +:+ dq +:+ " yWindow=" +:+ dq +:+ "0" +:+ dq +:+ " windowWidth=" +:+ dq +:+ "14805" +:+ dq +:+ " windowHeight=" +:+ dq +:+ "8010" +:+ dq +:+ " /></bookViews><sheets><sheet name=" +:+ dq +:+ "Sheet1" +:+ dq +:+ " sheetId=" +:+ dq +:+ "1" +:+ dq +:+ " r:id=" +:+ dq +:+ "rId1" +:+ dq +:+ " /></sheets><calcPr calcId=" +:+ dq +:+ "122211" +:+ dq +:+ " /></workbook>".
#[global] Opaque templateWorkbook.

Definition templateStyles : string :=
  "<styleSheet xmlns=" +:+ dq +:+ "http://schemas.openxmlformats.org/spreadsheetml/2006/main" +:+ dq +:+ " xmlns:mc=" +:+ dq +:+ "http://schemas.openxmlformats.org/markup-compatibility/2006" +:+ dq +:+ " mc:Ignorable=" +:+ dq +:+ "x14ac x16r2" +:+ dq +:+ " xmlns:x14ac=" +:+ dq +:+ "http://schemas.microsoft.com/office/spreadsheetml/2009/9/ac" +:+ dq +:+ " xmlns:x16r2=" +:+ dq +:+ "http://schemas.microsoft.com/office/spreadsheetml/2015/02/main" +:+ dq +:+ "><fonts count=" +:+ dq +:+ "1" +:+ dq +:+ " x14ac:knownFonts=" +:+ dq +:+ "1" +:+ dq +:+ "><font><sz val=" +:+ dq +:+ "11" +:+ dq +:+ "/><color theme=" +:+ dq +:+ "1" +:+ dq +:+ "/><name val=" +:+ dq +:+ "Calibri" +:+ dq +:+ "/><family val=" +:+ dq +:+ "2" +:+ dq +:+ "/><scheme val=" +:+ dq +:+ "minor" +:+ dq +:+ "/></font></fonts><fills count=" +:+ dq +:+ "2" +:+ dq +:+ "><fill><patternFill patternType=" +:+ dq +:+ "none" +:+ dq +:+ "/></fill><fill><patternFill patternType=" +:+ dq +:+ "gray125" +:+ dq +:+ "/></fill></fills><borders count=" +:+ dq +:+ "1" +:+ dq +:+ "><border><left/><right/><top/><bottom/><diagonal/></border></borders><cellStyleXfs count=" +:+ dq +:+ "1" +:+ dq +:+ "><xf numFmtId=" +:+ dq +:+ "0" +:+ dq +:+ " fontId=" +:+ dq +:+ "0" +:+ dq +:+ " fillId=" +:+ dq +:+ "0" +:+ dq +:+ " borderId=" +:+ dq +:+ "0" +:+ dq +:+ "/></cellStyleXfs><cellXfs count=" +:+ dq +:+ "1" +:+ dq +:+ "><xf numFmtId=" +:+ dq +:+ "0" +:+ dq +:+ " fontId=" +:+ dq +:+ "0" +:+ dq +:+ " fillId=" +:+ dq +:+ "0" +:+ dq +:+ " borderId=" +:+ dq +:+ "0" +:+ dq +:+ " xfId=" +:+ dq +:+ "0" +:+ dq +:+ "/></cellXfs><cellStyles count=" +:+ dq +:+ "1" +:+ dq +:+ "><cellStyle name=" +:+ dq +:+ "常规" +:+ dq +:+ " xfId=" +:+ dq +:+ "0" +:+ dq +:+ " builtinId=" +:+ dq +:+ "0" +:+ dq +:+ "/></cellStyles><dxfs count=" +:+ dq +:+ "0" +:+ dq +:+ "/><tableStyles count=" +:+ dq +:+ "0" +:+ dq +:+ " defaultTableStyle=" +:+ dq +:+ "TableStyleMedium2" +:+ dq +:+ " defaultPivotStyle=" +:+ dq +:+ "PivotStyleLight16" +:+ dq +:+ "/></styleSheet>".
#[global] Opaque templateStyles.

Definition templateSheet : string :=
  "<worksheet xmlns=" +:+ dq +:+ "http://schemas.openxmlformats.org/spreadsheetml/2006/main" +:+ dq +:+ " xmlns:r=" +:+ dq +:+ "http://schemas.openxmlformats.org/officeDocument/2006/relationships" +:+ dq +:+ "><dimension ref=" +:+ dq +:+ "A1" +:+ dq +:+ "/><sheetViews><sheetView tabSelected=" +:+ dq +:+ "1" +:+ dq +:+ " workbookViewId=" +:+ dq +:+ "0" +:+ dq +:+ "/></sheetViews><sheetFormatPr defaultRowHeight=" +:+ dq +:+ "15" +:+ dq +:+ "/><sheetData/><pageMargins left=" +:+ dq +:+ "0.7" +:+ dq +:+ " right=" +:+ dq +:+ "0.7" +:+ dq +:+ " top=" +:+ dq +:+ "0.75" +:+ dq +:+ " bottom=" +:+ dq +:+ "0.75" +:+ dq +:+ " header=" +:+ dq +:+ "0.3" +:+ dq +:+ " footer=" +:+ dq +:+ "0.3" +:+ dq +:+ "/></worksheet>".
#[global] Opaque templateSheet.

Definition templateWorkbookRels : string :=
  "<Relationships xmlns=" +:+ dq +:+ "http://schemas.openxmlformats.org/package/2006/relationships" +:+ dq +:+ "><Relationship Id=" +:+ dq +:+ "rId1" +:+ dq +:+ " Type=" +:+ dq +:+ "http://schemas.openxmlformats.org/officeDocument/2006/relationships/worksheet" +:+ dq +:+ " Target=" +:+ dq +:+ "worksheets/sheet1.xml" +:+ dq +:+ "/><Relationship Id=" +:+ dq +:+ "rId2" +:+ dq +:+ " Type=" +:+ dq +:+ "http://schemas.openxmlformats.org/officeDocument/2006/relationships/styles" +:+ dq +:+ " Target=" +:+ dq +:+ "styles.xml" +:+ dq +:+ "/><Relationship Id=" +:+ dq +:+ "rId3" +:+ dq +:+ " Type=" +:+ dq +:+ "http://schemas.openxmlformats.org/officeDocument/2006/relationships/theme" +:+ dq +:+ " Target=" +:+ dq +:+ "theme/theme1.xml" +:+ dq +:+ "/></Relationships>".
#[global] Opaque templateWorkbookRels.

Definition templateDocpropsCore : string :=
  "<cp:coreProperties xmlns:cp=" +:+ dq +:+ "http://schemas.openxmlformats.org/package/2006/metadata/core-properties" +:+ dq +:+ " xmlns:dc=" +:+ dq +:+ "http://purl.org/dc/elements/1.1/" +:+ dq +:+ " xmlns:dcterms=" +:+ dq +:+ "http://purl.org/dc/terms/" +:+ dq +:+ " xmlns:dcmitype=" +:+ dq +:+ "http://purl.org/dc/dcmitype/" +:+ dq +:+ " xmlns:xsi=" +:+ dq +:+ "http://www.w3.org/2001/XMLSchema-instance" +:+ dq +:+ "><dc:creator>xuri</dc:creator><dcterms:created xsi:type=" +:+ dq +:+ "dcterms:W3CDTF" +:+ dq +:+ ">2006-09-16T00:00:00Z</dcterms:created><dcterms:modified xsi:type=" +:+ dq +:+ "dcterms:W3CDTF" +:+ dq +:+ ">2006-09-16T00:00:00Z</dcterms:modified></cp:coreProperties>".
#[global] Opaque templateDocpropsCore.

Definition templateRels : string :=
  "<Relationships xmlns=" +:+ dq +:+ "http://schemas.openxmlformats.org/package/2006/relationships" +:+ dq +:+ "><Relationship Id=" +:+ dq +:+ "rId3" +:+ dq +:+ " Type=" +:+ dq +:+ "http://schemas.openxmlformats.org/officeDocument/2006/relationships/extended-properties" +:+ dq +:+ " Target=" +:+ dq +:+ "docProps/app.xml" +:+ dq +:+ "/><Relationship Id=" +:+ dq +:+ "rId2" +:+ dq +:+ " Type=" +:+ dq +:+ "http://schemas.openxmlformats.org/package/2006/relationships/metadata/core-properties" +:+ dq +:+ " Target=" +:+ dq +:+ "docProps/core.xml" +:+ dq +:+ "/><Relationship Id=" +:+ dq +:+ "rId1" +:+ dq +:+ " Type=" +:+ dq +:+ "http://schemas.openxmlformats.org/officeDocument/2006/relationships/officeDocument" +:+ dq +:+ " Target=" +:+ dq +:+ "xl/workbook.xml" +:+ dq +:+ "/></Relationships>".
#[global] Opaque templateRels.

Definition templateTheme : string :=
  "<a:theme xmlns:a=" +:+ dq +:+ "http://schemas.openxmlformats.org/drawingml/2006/main" +:+ dq +:+ " name=" +:+ dq +:+ "Office Theme" +:+ dq +:+ "><a:themeElements><a:clrScheme name=" +:+ dq +:+ "Office" +:+ dq +:+ "><a:dk1><a:sysClr val=" +:+ dq +:+ "windowText" +:+ dq +:+ " lastClr=" +:+ dq +:+ "000000" +:+ dq +:+ "/></a:dk1><a:lt1><a:sysClr val=" +:+ dq +:+ "window" +:+ dq +:+ " lastClr=" +:+ dq +:+ "FFFFFF" +:+ dq +:+ "/></a:lt1><a:dk2><a:srgbClr val=" +:+ dq +:+ "44546A" +:+ dq +:+ "/></a:dk2><a:lt2><a:srgbClr val=" +:+ dq +:+ "E7E6E6" +:+ dq +:+ "/></a:lt2><a:accent1><a:srgbClr val=" +:+ dq +:+ "5B9BD5" +:+ dq +:+ "/></a:accent1><a:accent2><a:srgbClr val=" +:+ dq +:+ "ED7D31" +:+ dq +:+ "/></a:accent2><a:accent3><a:srgbClr val=" +:+ dq +:+ "A5A5A5" +:+ dq +:+ "/></a:accent3><a:accent4><a:srgbClr val=" +:+ dq +:+ "FFC000" +:+ dq +:+ "/></a:accent4><a:accent5><a:srgbClr val=" +:+ dq +:+ "4472C4" +:+ dq +:+ "/></a:accent5><a:accent6><a:srgbClr val=" +:+ dq +:+ "70AD47" +:+ dq +:+ "/></a:accent6><a:hlink><a:srgbClr val=" +:+ dq +:+ "0563C1" +:+ dq +:+ "/></a:hlink><a:folHlink><a:srgbClr val=" +:+ dq +:+ "954F72" +:+ dq +:+ "/></a:folHlink></a:clrScheme><a:fontScheme name=" +:+ dq +:+ "Office" +:+ dq +:+ "><a:majorFont><a:latin typeface=" +:+ dq +:+ "Calibri Light" +:+ dq +:+ " panose=" +:+ dq +:+ "020F0302020204030204" +:+ dq +:+ "/><a:ea typeface=" +:+ dq +:+ dq +:+ "/><a:cs typeface=" +:+ dq +:+ dq +:+ "/><a:font script=" +:+ dq +:+ "Jpan" +:+ dq +:+ " typeface=" +:+ dq +:+ "游ゴシック Light" +:+ dq +:+ "/><a:font script=" +:+ dq +:+ "Hang" +:+ dq +:+ " typeface=" +:+ dq +:+ "맑은 고딕" +:+ dq +:+ "/><a:font script=" +:+ dq +:+ "Hans" +:+ dq +:+ " typeface=" +:+ dq +:+ "等线 Light" +:+ dq +:+ "/><a:font script=" +:+ dq +:+ "Hant" +:+ dq +:+ " typeface=" +:+ dq +:+ "新細明體" +:+ dq +:+ "/><a:font script=" +:+ dq +:+ "Arab" +:+ dq +:+ " typeface=" +:+ dq +:+ "Times New Roman" +:+ dq +:+ "/><a:font script=" +:+ dq +:+ "Hebr" +:+ dq +:+ " typeface=" +:+ dq +:+ "Times New Roman" +:+ dq +:+ "/><a:font script=" +:+ dq +:+ "Thai" +:+ dq +:+ " typeface=" +:+ dq +:+ "Tahoma" +:+ dq +:+ "/><a:font script=" +:+ dq +:+ "Ethi" +:+ dq +:+ " typeface=" +:+ dq +:+ "Nyala" +:+ dq +:+ "/><a:font script=" +:+ dq +:+ "Beng" +:+ dq +:+ " typeface=" +:+ dq +:+ "Vrinda" +:+ dq +:+ "/><a:font script=" +:+ dq +:+ "Gujr" +:+ dq +:+ " typeface=" +:+ dq +:+ "Shruti" +:+ dq +:+ "/><a:font script=" +:+ dq +:+ "Khmr" +:+ dq +:+ " typeface=" +:+ dq +:+ "MoolBoran" +:+ dq +:+ "/><a:font script=" +:+ dq +:+ "Knda" +:+ dq +:+ " typeface=" +:+ dq +:+ "Tunga" +:+ dq +:+ "/><a:font script=" +:+ dq +:+ "Guru" +:+ dq +:+ " typeface=" +:+ dq +:+ "Raavi" +:+ dq +:+ "/><a:font script=" +:+ dq +:+ "Cans" +:+ dq +:+ " typeface=" +:+ dq +:+ "Euphemia" +:+ dq +:+ "/><a:font script=" +:+ dq +:+ "Cher" +:+ dq +:+ " typeface=" +:+ dq +:+ "Plantagenet Cherokee" +:+ dq +:+ "/><a:font script=" +:+ dq +:+ "Yiii" +:+ dq +:+ " typeface=" +:+ dq +:+ "Microsoft Yi Baiti" +:+ dq +:+ "/><a:font script=" +:+ dq +:+ "Tibt" +:+ dq +:+ " typeface=" +:+ dq +:+ "Microsoft Himalaya" +:+ dq +:+ "/><a:font script=" +:+ dq +:+ "Thaa" +:+ dq +:+ " typeface=" +:+ dq +:+ "MV Boli" +:+ dq +:+ "/><a:font script=" +:+ dq +:+ "Deva" +:+ dq +:+ " typeface=" +:+ dq +:+ "Mangal" +:+ dq +:+ "/><a:font script=" +:+ dq +:+ "Telu" +:+ dq +:+ " typeface=" +:+ dq +:+ "Gautami" +:+ dq +:+ "/><a:font script=" +:+ dq +:+ "Taml" +:+ dq +:+ " typeface=" +:+ dq +:+ "Latha" +:+ dq +:+ "/><a:font script=" +:+ dq +:+ "Syrc" +:+ dq +:+ " typeface=" +:+ dq +:+ "Estrangelo Edessa" +:+ dq +:+ "/><a:font script=" +:+ dq +:+ "Orya" +:+ dq +:+ " typeface=" +:+ dq +:+ "Kalinga" +:+ dq +:+ "/><a:font script=" +:+ dq +:+ "Mlym" +:+ dq +:+ " typeface=" +:+ dq +:+ "Kartika" +:+ dq +:+ "/><a:font script=" +:+ dq +:+ "Laoo" +:+ dq +:+ " typeface=" +:+ dq +:+ "DokChampa" +:+ dq +:+ "/><a:font script=" +:+ dq +:+ "Sinh" +:+ dq +:+ " typeface=" +:+ dq +:+ "Iskoola Pota" +:+ dq +:+ "/><a:font script=" +:+ dq +:+ "Mong" +:+ dq +:+ " typeface=" +:+ dq +:+ "Mongolian Baiti" +:+ dq +:+ "/><a:font script=" +:+ dq +:+ "Viet" +:+ dq +:+ " typeface=" +:+ dq +:+ "Times New Roman" +:+ dq +:+ "/><a:font script=" +:+ dq +:+ "Uigh" +:+ dq +:+ " typeface=" +:+ dq +:+ "Microsoft Uighur" +:+ dq +:+ "/><a:font script=" +:+ dq +:+ "Geor" +:+ dq +:+ " typeface=" +:+ dq +:+ "Sylfaen" +:+ dq +:+ "/></a:majorFont><a:minorFont><a:latin typeface=" +:+ dq +:+ "Calibri" +:+ dq +:+ " panose=" +:+ dq +:+ "020F0502020204030204" +:+ dq +:+ "/><a:ea typeface=" +:+ dq +:+ dq +:+ "/><a:cs typeface=" +:+ dq +:+ dq +:+ "/><a:font script=" +:+ dq +:+ "Jpan" +:+ dq +:+ " typeface=" +:+ dq +:+ "游ゴシック" +:+ dq +:+ "/><a:font script=" +:+ dq +:+ "Hang" +:+ dq +:+ " typeface=" +:+ dq +:+ "맑은 고딕" +:+ dq +:+ "/><a:font script=" +:+ dq +:+ "Hans" +:+ dq +:+ " typeface=" +:+ dq +:+ "等线" +:+ dq +:+ "/><a:font script=" +:+ dq +:+ "Hant" +:+ dq +:+ " typeface=" +:+ dq +:+ "新細明體" +:+ dq +:+ "/><a:font script=" +:+ dq +:+ "Arab" +:+ dq +:+ " typeface=" +:+ dq +:+ "Arial" +:+ dq +:+ "/><a:font script=" +:+ dq +:+ "Hebr" +:+ dq +:+ " typeface=" +:+ dq +:+ "Arial" +:+ dq +:+ "/><a:font script=" +:+ dq +:+ "Thai" +:+ dq +:+ " typeface=" +:+ dq +:+ "Tahoma" +:+ dq +:+ "/><a:font script=" +:+ dq +:+ "Ethi" +:+ dq +:+ " typeface=" +:+ dq +:+ "Nyala" +:+ dq +:+ "/><a:font script=" +:+ dq +:+ "Beng" +:+ dq +:+ " typeface=" +:+ dq +:+ "Vrinda" +:+ dq +:+ "/><a:font script=" +:+ dq +:+ "Gujr" +:+ dq +:+ " typeface=" +:+ dq +:+ "Shruti" +:+ dq +:+ "/><a:font script=" +:+ dq +:+ "Khmr" +:+ dq +:+ " typeface=" +:+ dq +:+ "DaunPenh" +:+ dq +:+ "/><a:font script=" +:+ dq +:+ "Knda" +:+ dq +:+ " typeface=" +:+ dq +:+ "Tunga" +:+ dq +:+ "/><a:font script=" +:+ dq +:+ "Guru" +:+ dq +:+ " typeface=" +:+ dq +:+ "Raavi" +:+ dq +:+ "/><a:font script=" +:+ dq +:+ "Cans" +:+ dq +:+ " typeface=" +:+ dq +:+ "Euphemia" +:+ dq +:+ "/><a:font script=" +:+ dq +:+ "Cher" +:+ dq +:+ " typeface=" +:+ dq +:+ "Plantagenet Cherokee" +:+ dq +:+ "/><a:font script=" +:+ dq +:+ "Yiii" +:+ dq +:+ " typeface=" +:+ dq +:+ "Microsoft Yi Baiti" +:+ dq +:+ "/><a:font script=" +:+ dq +:+ "Tibt" +:+ dq +:+ " typeface=" +:+ dq +:+ "Microsoft Himalaya" +:+ dq +:+ "/><a:font script=" +:+ dq +:+ "Thaa" +:+ dq +:+ " typeface=" +:+ dq +:+ "MV Boli" +:+ dq +:+ "/><a:font script=" +:+ dq +:+ "Deva" +:+ dq +:+ " typeface=" +:+ dq +:+ "Mangal" +:+ dq +:+ "/><a:font script=" +:+ dq +:+ "Telu" +:+ dq +:+ " typeface=" +:+ dq +:+ "Gautami" +:+ dq +:+ "/><a:font script=" +:+ dq +:+ "Taml" +:+ dq +:+ " typeface=" +:+ dq +:+ "Latha" +:+ dq +:+ "/><a:font script=" +:+ dq +:+ "Syrc" +:+ dq +:+ " typeface=" +:+ dq +:+ "Estrangelo Edessa" +:+ dq +:+ "/><a:font script=" +:+ dq +:+ "Orya" +:+ dq +:+ " typeface=" +:+ dq +:+ "Kalinga" +:+ dq +:+ "/><a:font script=" +:+ dq +:+ "Mlym" +:+ dq +:+ " typeface=" +:+ dq +:+ "Kartika" +:+ dq +:+ "/><a:font script=" +:+ dq +:+ "Laoo" +:+ dq +:+ " typeface=" +:+ dq +:+ "DokChampa" +:+ dq +:+ "/><a:font script=" +:+ dq +:+ "Sinh" +:+ dq +:+ " typeface=" +:+ dq +:+ "Iskoola Pota" +:+ dq +:+ "/><a:font script=" +:+ dq +:+ "Mong" +:+ dq +:+ " typeface=" +:+ dq +:+ "Mongolian Baiti" +:+ dq +:+ "/><a:font script=" +:+ dq +:+ "Viet" +:+ dq +:+ " typeface=" +:+ dq +:+ "Arial" +:+ dq +:+ "/><a:font script=" +:+ dq +:+ "Uigh" +:+ dq +:+ " typeface=" +:+ dq +:+ "Microsoft Uighur" +:+ dq +:+ "/><a:font script=" +:+ dq +:+ "Geor" +:+ dq +:+ " typeface=" +:+ dq +:+ "Sylfaen" +:+ dq +:+ "/></a:minorFont></a:fontScheme><a:fmtScheme name=" +:+ dq +:+ "Office" +:+ dq +:+ "><a:fillStyleLst><a:solidFill><a:schemeClr val=" +:+ dq +:+ "phClr" +:+ dq +:+ "/></a:solidFill><a:gradFill rotWithShape=" +:+ dq +:+ "1" +:+ dq +:+ "><a:gsLst><a:gs pos=" +:+ dq +:+ "0" +:+ dq +:+ "><a:schemeClr val=" +:+ dq +:+ "phClr" +:+ dq +:+ "><a:lumMod val=" +:+ dq +:+ "110000" +:+ dq +:+ "/><a:satMod val=" +:+ dq +:+ "105000" +:+ dq +:+ "/><a:tint val=" +:+ dq +:+ "67000" +:+ dq +:+ "/></a:schemeClr></a:gs><a:gs pos=" +:+ dq +:+ "50000" +:+ dq +:+ "><a:schemeClr val=" +:+ dq +:+ "phClr" +:+ dq +:+ "><a:lumMod val=" +:+ dq +:+ "105000" +:+ dq +:+ "/><a:satMod val=" +:+ dq +:+ "103000" +:+ dq +:+ "/><a:tint val=" +:+ dq +:+ "73000" +:+ dq +:+ "/></a:schemeClr></a:gs><a:gs pos=" +:+ dq +:+ "100000" +:+ dq +:+ "><a:schemeClr val=" +:+ dq +:+ "phClr" +:+ dq +:+ "><a:lumMod val=" +:+ dq +:+ "105000" +:+ dq +:+ "/><a:satMod val=" +:+ dq +:+ "109000" +:+ dq +:+ "/><a:tint val=" +:+ dq +:+ "81000" +:+ dq +:+ "/></a:schemeClr></a:gs></a:gsLst><a:lin ang=" +:+ dq +:+ "5400000" +:+ dq +:+ " scaled=" +:+ dq +:+ "0" +:+ dq +:+ "/></a:gradFill><a:gradFill rotWithShape=" +:+ dq +:+ "1" +:+ dq +:+ "><a:gsLst><a:gs pos=" +:+ dq +:+ "0" +:+ dq +:+ "><a:schemeClr val=" +:+ dq +:+ "phClr" +:+ dq +:+ "><a:satMod val=" +:+ dq +:+ "103000" +:+ dq +:+ "/><a:lumMod val=" +:+ dq +:+ "102000" +:+ dq +:+ "/><a:tint val=" +:+ dq +:+ "94000" +:+ dq +:+ "/></a:schemeClr></a:gs><a:gs pos=" +:+ dq +:+ "50000" +:+ dq +:+ "><a:schemeClr val=" +:+ dq +:+ "phClr" +:+ dq +:+ "><a:satMod val=" +:+ dq +:+ "110000" +:+ dq +:+ "/><a:lumMod val=" +:+ dq +:+ "100000" +:+ dq +:+ "/><a:shade val=" +:+ dq +:+ "100000" +:+ dq +:+ "/></a:schemeClr></a:gs><a:gs pos=" +:+ dq +:+ "100000" +:+ dq +:+ "><a:schemeClr val=" +:+ dq +:+ "phClr" +:+ dq +:+ "><a:lumMod val=" +:+ dq +:+ "99000" +:+ dq +:+ "/><a:satMod val=" +:+ dq +:+ "120000" +:+ dq +:+ "/><a:shade val=" +:+ dq +:+ "78000" +:+ dq +:+ "/></a:schemeClr></a:gs></a:gsLst><a:lin ang=" +:+ dq +:+ "5400000" +:+ dq +:+ " scaled=" +:+ dq +:+ "0" +:+ dq +:+ "/></a:gradFill></a:fillStyleLst><a:lnStyleLst><a:ln w=" +:+ dq +:+ "6350" +:+ dq +:+ " cap=" +:+ dq +:+ "flat" +:+ dq +:+ " cmpd=" +:+ dq +:+ "sng" +:+ dq +:+ " algn=" +:+ dq +:+ "ctr" +:+ dq +:+ "><a:solidFill><a:schemeClr val=" +:+ dq +:+ "phClr" +:+ dq +:+ "/></a:solidFill><a:prstDash val=" +:+ dq +:+ "solid" +:+ dq +:+ "/><a:miter lim=" +:+ dq +:+ "800000" +:+ dq +:+ "/></a:ln><a:ln w=" +:+ dq +:+ "12700" +:+ dq +:+ " cap=" +:+ dq +:+ "flat" +:+ dq +:+ " cmpd=" +:+ dq +:+ "sng" +:+ dq +:+ " algn=" +:+ dq +:+ "ctr" +:+ dq +:+ "><a:solidFill><a:schemeClr val=" +:+ dq +:+ "phClr" +:+ dq +:+ "/></a:solidFill><a:prstDash val=" +:+ dq +:+ "solid" +:+ dq +:+ "/><a:miter lim=" +:+ dq +:+ "800000" +:+ dq +:+ "/></a:ln><a:ln w=" +:+ dq +:+ "19050" +:+ dq +:+ " cap=" +:+ dq +:+ "flat" +:+ dq +:+ " cmpd=" +:+ dq +:+ "sng" +:+ dq +:+ " algn=" +:+ dq +:+ "ctr" +:+ dq +:+ "><a:solidFill><a:schemeClr val=" +:+ dq +:+ "phClr" +:+ dq +:+ "/></a:solidFill><a:prstDash val=" +:+ dq +:+ "solid" +:+ dq +:+ "/><a:miter lim=" +:+ dq +:+ "800000" +:+ dq +:+ "/></a:ln></a:lnStyleLst><a:effectStyleLst><a:effectStyle><a:effectLst/></a:effectStyle><a:effectStyle><a:effectLst/></a:effectStyle><a:effectStyle><a:effectLst><a:outerShdw blurRad=" +:+ dq +:+ "57150" +:+ dq +:+ " dist=" +:+ dq +:+ "19050" +:+ dq +:+ " dir=" +:+ dq +:+ "5400000" +:+ dq +:+ " algn=" +:+ dq +:+ "ctr" +:+ dq +:+ " rotWithShape=" +:+ dq +:+ "0" +:+ dq +:+ "><a:srgbClr val=" +:+ dq +:+ "000000" +:+ dq +:+ "><a:alpha val=" +:+ dq +:+ "63000" +:+ dq +:+ "/></a:srgbClr></a:outerShdw></a:effectLst></a:effectStyle></a:effectStyleLst><a:bgFillStyleLst><a:solidFill><a:schemeClr val=" +:+ dq +:+ "phClr" +:+ dq +:+ "/></a:solidFill><a:solidFill><a:schemeClr val=" +:+ dq +:+ "phClr" +:+ dq +:+ "><a:tint val=" +:+ dq +:+ "95000" +:+ dq +:+ "/><a:satMod val=" +:+ dq +:+ "170000" +:+ dq +:+ "/></a:schemeClr></a:solidFill><a:gradFill rotWithShape=" +:+ dq +:+ "1" +:+ dq +:+ "><a:gsLst><a:gs pos=" +:+ dq +:+ "0" +:+ dq +:+ "><a:schemeClr val=" +:+ dq +:+ "phClr" +:+ dq +:+ "><a:tint val=" +:+ dq +:+ "93000" +:+ dq +:+ "/><a:satMod val=" +:+ dq +:+ "150000" +:+ dq +:+ "/><a:shade val=" +:+ dq +:+ "98000" +:+ dq +:+ "/><a:lumMod val=" +:+ dq +:+ "102000" +:+ dq +:+ "/></a:schemeClr></a:gs><a:gs pos=" +:+ dq +:+ "50000" +:+ dq +:+ "><a:schemeClr val=" +:+ dq +:+ "phClr" +:+ dq +:+ "><a:tint val=" +:+ dq +:+ "98000" +:+ dq +:+ "/><a:satMod val=" +:+ dq +:+ "130000" +:+ dq +:+ "/><a:shade val=" +:+ dq +:+ "90000" +:+ dq +:+ "/><a:lumMod val=" +:+ dq +:+ "103000" +:+ dq +:+ "/></a:schemeClr></a:gs><a:gs pos=" +:+ dq +:+ "100000" +:+ dq +:+ "><a:schemeClr val=" +:+ dq +:+ "phClr" +:+ dq +:+ "><a:shade val=" +:+ dq +:+ "63000" +:+ dq +:+ "/><a:satMod val=" +:+ dq +:+ "120000" +:+ dq +:+ "/></a:schemeClr></a:gs></a:gsLst><a:lin ang=" +:+ dq +:+ "5400000" +:+ dq +:+ " scaled=" +:+ dq +:+ "0" +:+ dq +:+ "/></a:gradFill></a:bgFillStyleLst></a:fmtScheme></a:themeElements><a:objectDefaults/><a:extraClrSchemeLst/></a:theme>".
#[global] Opaque templateTheme.

Definition SourceRelationship : string := "http://schemas.openxmlformats.org/officeDocument/2006/relationships".
Definition SourceRelationshipChart : string := "http://schemas.openxmlformats.org/officeDocument/2006/relationships/chart".
Definition SourceRelationshipComments : string := "http://schemas.openxmlformats.org/officeDocument/2006/relationships/comments".
Definition SourceRelationshipImage : string := "http://schemas.openxmlformats.org/officeDocument/2006/relationships/image".
Definition SourceRelationshipTable : string := "http://schemas.openxmlformats.org/officeDocument/2006/relationships/table".
Definition SourceRelationshipDrawingML : string := "http://schemas.openxmlformats.org/officeDocument/2006/relationships/drawing".
Definition SourceRelationshipDrawingVML : string := "http://schemas.openxmlformats.org/officeDocument/2006/relationships/vmlDrawing".
Definition SourceRelationshipHyperLink : string := "http://schemas.openxmlformats.org/officeDocument/2006/relationships/hyperlink".
Definition SourceRelationshipWorkSheet : string := "http://schemas.openxmlformats.org/officeDocument/2006/relationships/worksheet".
Definition SourceRelationshipChart201506 : string := "http://schemas.microsoft.com/office/drawing/2015/06/chart".
Definition SourceRelationshipChart20070802 : string := "http://schemas.microsoft.com/office/drawing/2007/8/2/chart".
Definition SourceRelationshipChart2014 : string := "http://schemas.microsoft.com/office/drawing/2014/chart".
Definition SourceRelationshipCompatibility : string := "http://schemas.openxmlformats.org/markup-compatibility/2006".
Definition NameSpaceDrawingML : string := "http://schemas.openxmlformats.org/drawingml/2006/main".
Definition NameSpaceDrawingMLChart : string := "http://schemas.openxmlformats.org/drawingml/2006/chart".
Definition NameSpaceDrawingMLSpreadSheet : string := "http://schemas.openxmlformats.org/drawingml/2006/spreadsheetDrawing".
Definition NameSpaceSpreadSheet : string := "http://schemas.openxmlformats.org/spreadsheetml/2006/main".
Definition NameSpaceXML : string := "http://www.w3.org/XML/1998/namespace".
Definition StrictSourceRelationship : string := "http://purl.oclc.org/ooxml/officeDocument/relationships".
Definition StrictSourceRelationshipChart : string := "http://purl.oclc.org/ooxml/officeDocument/relationships/chart".
Definition StrictSourceRelationshipComments : string := "http://purl.oclc.org/ooxml/officeDocument/relationships/comments".
Definition StrictSourceRelationshipImage : string := "http://purl.oclc.org/ooxml/officeDocument/relationships/image".
Definition StrictNameSpaceSpreadSheet : string := "http://purl.oclc.org/ooxml/spreadsheetml/main".
