(* ===== verification/XmlWorksheet.v ===== *)
(** The structures of a worksheet part ([xmlWorksheet.go] and the structures of
    [xmlTable.go], [xmlStyles.go] and [xmlWorkbook.go] its fields use), field by
    field. A pointer is an option, a slice a list; a slice of pointers is the
    list of the values pointed to. *)
From S2P Require Export GoFloat GoString.

(** A Go zero value, which is also the value of the fields a composite literal
    leaves out. *)
Class GoZero (A : Type) := gozero : A.

#[export] Instance zero_string : GoZero string := "".
#[export] Instance zero_Z : GoZero Z := 0.
#[export] Instance zero_bool : GoZero bool := false.
#[export] Instance zero_float64 : GoZero float64 := f64_zero.
#[export] Instance zero_option {A} : GoZero (option A) := None.
#[export] Instance zero_list {A} : GoZero (list A) := [].

(** [encoding/xml]'s [Name] and [Attr]. *)
Record xml_Name := mk_xml_Name { xml_Name_Space : string; xml_Name_Local : string }.
#[export] Instance eta_xml_Name : Eta xml_Name := fun r => mk_xml_Name (xml_Name_Space r) (xml_Name_Local r).
#[export] Instance zero_xml_Name : GoZero xml_Name := mk_xml_Name gozero gozero.

Record xml_Attr := mk_xml_Attr { xml_Attr_Name : xml_Name; xml_Attr_Value : string }.
#[export] Instance eta_xml_Attr : Eta xml_Attr := fun r => mk_xml_Attr (xml_Attr_Name r) (xml_Attr_Value r).
#[export] Instance zero_xml_Attr : GoZero xml_Attr := mk_xml_Attr gozero gozero.

(** *** [xmlWorksheet.go] *)

Record xlsxTabColor := mk_xlsxTabColor {
  xlsxTabColor_Theme : Z;
  xlsxTabColor_Tint : float64
}.
#[export] Instance eta_xlsxTabColor : Eta xlsxTabColor := fun r =>
  mk_xlsxTabColor
    (xlsxTabColor_Theme r) (xlsxTabColor_Tint r).
#[export] Instance zero_xlsxTabColor : GoZero xlsxTabColor :=
  mk_xlsxTabColor gozero gozero.

Record xlsxPageSetUpPr := mk_xlsxPageSetUpPr {
  xlsxPageSetUpPr_AutoPageBreaks : bool;
  xlsxPageSetUpPr_FitToPage : bool
}.
#[export] Instance eta_xlsxPageSetUpPr : Eta xlsxPageSetUpPr := fun r =>
  mk_xlsxPageSetUpPr
    (xlsxPageSetUpPr_AutoPageBreaks r) (xlsxPageSetUpPr_FitToPage r).
#[export] Instance zero_xlsxPageSetUpPr : GoZero xlsxPageSetUpPr :=
  mk_xlsxPageSetUpPr gozero gozero.

Record xlsxOutlinePr := mk_xlsxOutlinePr {
  xlsxOutlinePr_SummaryBelow : bool
}.
#[export] Instance eta_xlsxOutlinePr : Eta xlsxOutlinePr := fun r =>
  mk_xlsxOutlinePr
    (xlsxOutlinePr_SummaryBelow r).
#[export] Instance zero_xlsxOutlinePr : GoZero xlsxOutlinePr :=
  mk_xlsxOutlinePr gozero.

Record xlsxSheetPr := mk_xlsxSheetPr {
  xlsxSheetPr_XMLName : xml_Name;
  xlsxSheetPr_CodeName : string;
  xlsxSheetPr_EnableFormatConditionsCalculation : option bool;
  xlsxSheetPr_FilterMode : bool;
  xlsxSheetPr_Published : option bool;
  xlsxSheetPr_SyncHorizontal : bool;
  xlsxSheetPr_SyncVertical : bool;
  xlsxSheetPr_TransitionEntry : bool;
  xlsxSheetPr_TabColor : option xlsxTabColor;
  xlsxSheetPr_PageSetUpPr : option xlsxPageSetUpPr;
  xlsxSheetPr_OutlinePr : option xlsxOutlinePr
}.
#[export] Instance eta_xlsxSheetPr : Eta xlsxSheetPr := fun r =>
  mk_xlsxSheetPr
    (xlsxSheetPr_XMLName r) (xlsxSheetPr_CodeName r)
    (xlsxSheetPr_EnableFormatConditionsCalculation r) (xlsxSheetPr_FilterMode r)
    (xlsxSheetPr_Published r) (xlsxSheetPr_SyncHorizontal r) (xlsxSheetPr_SyncVertical r)
    (xlsxSheetPr_TransitionEntry r) (xlsxSheetPr_TabColor r) (xlsxSheetPr_PageSetUpPr r)
    (xlsxSheetPr_OutlinePr r).
#[export] Instance zero_xlsxSheetPr : GoZero xlsxSheetPr :=
  mk_xlsxSheetPr gozero gozero gozero gozero gozero gozero gozero gozero gozero gozero gozero.

Record xlsxDimension := mk_xlsxDimension {
  xlsxDimension_Ref : string
}.
#[export] Instance eta_xlsxDimension : Eta xlsxDimension := fun r =>
  mk_xlsxDimension
    (xlsxDimension_Ref r).
#[export] Instance zero_xlsxDimension : GoZero xlsxDimension :=
  mk_xlsxDimension gozero.

Record xlsxPane := mk_xlsxPane {
  xlsxPane_ActivePane : string;
  xlsxPane_State : string;
  xlsxPane_TopLeftCell : string;
  xlsxPane_XSplit : float64;
  xlsxPane_YSplit : float64
}.
#[export] Instance eta_xlsxPane : Eta xlsxPane := fun r =>
  mk_xlsxPane
    (xlsxPane_ActivePane r) (xlsxPane_State r) (xlsxPane_TopLeftCell r) (xlsxPane_XSplit r)
    (xlsxPane_YSplit r).
#[export] Instance zero_xlsxPane : GoZero xlsxPane :=
  mk_xlsxPane gozero gozero gozero gozero gozero.

Record xlsxSelection := mk_xlsxSelection {
  xlsxSelection_ActiveCell : string;
  xlsxSelection_ActiveCellID : option Z;
  xlsxSelection_Pane : string;
  xlsxSelection_SQRef : string
}.
#[export] Instance eta_xlsxSelection : Eta xlsxSelection := fun r =>
  mk_xlsxSelection
    (xlsxSelection_ActiveCell r) (xlsxSelection_ActiveCellID r) (xlsxSelection_Pane r)
    (xlsxSelection_SQRef r).
#[export] Instance zero_xlsxSelection : GoZero xlsxSelection :=
  mk_xlsxSelection gozero gozero gozero gozero.

Record xlsxSheetView := mk_xlsxSheetView {
  xlsxSheetView_WindowProtection : bool;
  xlsxSheetView_ShowFormulas : bool;
  xlsxSheetView_ShowGridLines : option bool;
  xlsxSheetView_ShowRowColHeaders : option bool;
  xlsxSheetView_ShowZeros : bool;
  xlsxSheetView_RightToLeft : bool;
  xlsxSheetView_TabSelected : bool;
  xlsxSheetView_ShowWhiteSpace : option bool;
  xlsxSheetView_ShowOutlineSymbols : bool;
  xlsxSheetView_DefaultGridColor : option bool;
  xlsxSheetView_View : string;
  xlsxSheetView_TopLeftCell : string;
  xlsxSheetView_ColorID : Z;
  xlsxSheetView_ZoomScale : float64;
  xlsxSheetView_ZoomScaleNormal : float64;
  xlsxSheetView_ZoomScalePageLayoutView : float64;
  xlsxSheetView_ZoomScaleSheetLayoutView : float64;
  xlsxSheetView_WorkbookViewID : Z;
  xlsxSheetView_Pane : option xlsxPane;
  xlsxSheetView_Selection : list xlsxSelection
}.
#[export] Instance eta_xlsxSheetView : Eta xlsxSheetView := fun r =>
  mk_xlsxSheetView
    (xlsxSheetView_WindowProtection r) (xlsxSheetView_ShowFormulas r)
    (xlsxSheetView_ShowGridLines r) (xlsxSheetView_ShowRowColHeaders r) (xlsxSheetView_ShowZeros r)
    (xlsxSheetView_RightToLeft r) (xlsxSheetView_TabSelected r) (xlsxSheetView_ShowWhiteSpace r)
    (xlsxSheetView_ShowOutlineSymbols r) (xlsxSheetView_DefaultGridColor r) (xlsxSheetView_View r)
    (xlsxSheetView_TopLeftCell r) (xlsxSheetView_ColorID r) (xlsxSheetView_ZoomScale r)
    (xlsxSheetView_ZoomScaleNormal r) (xlsxSheetView_ZoomScalePageLayoutView r)
    (xlsxSheetView_ZoomScaleSheetLayoutView r) (xlsxSheetView_WorkbookViewID r)
    (xlsxSheetView_Pane r) (xlsxSheetView_Selection r).
#[export] Instance zero_xlsxSheetView : GoZero xlsxSheetView :=
  mk_xlsxSheetView gozero gozero gozero gozero gozero gozero gozero gozero gozero gozero gozero gozero gozero gozero gozero gozero gozero gozero gozero gozero.

Record xlsxSheetViews := mk_xlsxSheetViews {
  xlsxSheetViews_SheetView : list xlsxSheetView
}.
#[export] Instance eta_xlsxSheetViews : Eta xlsxSheetViews := fun r =>
  mk_xlsxSheetViews
    (xlsxSheetViews_SheetView r).
#[export] Instance zero_xlsxSheetViews : GoZero xlsxSheetViews :=
  mk_xlsxSheetViews gozero.

Record xlsxSheetFormatPr := mk_xlsxSheetFormatPr {
  xlsxSheetFormatPr_BaseColWidth : Z;
  xlsxSheetFormatPr_DefaultColWidth : float64;
  xlsxSheetFormatPr_DefaultRowHeight : float64;
  xlsxSheetFormatPr_CustomHeight : bool;
  xlsxSheetFormatPr_ZeroHeight : bool;
  xlsxSheetFormatPr_ThickTop : bool;
  xlsxSheetFormatPr_ThickBottom : bool;
  xlsxSheetFormatPr_OutlineLevelRow : Z;
  xlsxSheetFormatPr_OutlineLevelCol : Z
}.
#[export] Instance eta_xlsxSheetFormatPr : Eta xlsxSheetFormatPr := fun r =>
  mk_xlsxSheetFormatPr
    (xlsxSheetFormatPr_BaseColWidth r) (xlsxSheetFormatPr_DefaultColWidth r)
    (xlsxSheetFormatPr_DefaultRowHeight r) (xlsxSheetFormatPr_CustomHeight r)
    (xlsxSheetFormatPr_ZeroHeight r) (xlsxSheetFormatPr_ThickTop r)
    (xlsxSheetFormatPr_ThickBottom r) (xlsxSheetFormatPr_OutlineLevelRow r)
    (xlsxSheetFormatPr_OutlineLevelCol r).
#[export] Instance zero_xlsxSheetFormatPr : GoZero xlsxSheetFormatPr :=
  mk_xlsxSheetFormatPr gozero gozero gozero gozero gozero gozero gozero gozero gozero.

Record xlsxCol := mk_xlsxCol {
  xlsxCol_BestFit : bool;
  xlsxCol_Collapsed : bool;
  xlsxCol_CustomWidth : bool;
  xlsxCol_Hidden : bool;
  xlsxCol_Max : Z;
  xlsxCol_Min : Z;
  xlsxCol_OutlineLevel : Z;
  xlsxCol_Phonetic : bool;
  xlsxCol_Style : Z;
  xlsxCol_Width : float64
}.
#[export] Instance eta_xlsxCol : Eta xlsxCol := fun r =>
  mk_xlsxCol
    (xlsxCol_BestFit r) (xlsxCol_Collapsed r) (xlsxCol_CustomWidth r) (xlsxCol_Hidden r)
    (xlsxCol_Max r) (xlsxCol_Min r) (xlsxCol_OutlineLevel r) (xlsxCol_Phonetic r) (xlsxCol_Style r)
    (xlsxCol_Width r).
#[export] Instance zero_xlsxCol : GoZero xlsxCol :=
  mk_xlsxCol gozero gozero gozero gozero gozero gozero gozero gozero gozero gozero.

Record xlsxCols := mk_xlsxCols {
  xlsxCols_Col : list xlsxCol
}.
#[export] Instance eta_xlsxCols : Eta xlsxCols := fun r =>
  mk_xlsxCols
    (xlsxCols_Col r).
#[export] Instance zero_xlsxCols : GoZero xlsxCols :=
  mk_xlsxCols gozero.

Record xlsxF := mk_xlsxF {
  xlsxF_Content : string;
  xlsxF_T : string;
  xlsxF_Ref : string;
  xlsxF_Si : string
}.
#[export] Instance eta_xlsxF : Eta xlsxF := fun r =>
  mk_xlsxF
    (xlsxF_Content r) (xlsxF_T r) (xlsxF_Ref r) (xlsxF_Si r).
#[export] Instance zero_xlsxF : GoZero xlsxF :=
  mk_xlsxF gozero gozero gozero gozero.

Record xlsxIS := mk_xlsxIS {
  xlsxIS_T : string
}.
#[export] Instance eta_xlsxIS : Eta xlsxIS := fun r =>
  mk_xlsxIS
    (xlsxIS_T r).
#[export] Instance zero_xlsxIS : GoZero xlsxIS :=
  mk_xlsxIS gozero.

Record xlsxC := mk_xlsxC {
  xlsxC_R : string;
  xlsxC_S : Z;
  xlsxC_T : string;
  xlsxC_F : option xlsxF;
  xlsxC_V : string;
  xlsxC_IS : option xlsxIS;
  xlsxC_XMLSpace : xml_Attr
}.
#[export] Instance eta_xlsxC : Eta xlsxC := fun r =>
  mk_xlsxC
    (xlsxC_R r) (xlsxC_S r) (xlsxC_T r) (xlsxC_F r) (xlsxC_V r) (xlsxC_IS r) (xlsxC_XMLSpace r).
#[export] Instance zero_xlsxC : GoZero xlsxC :=
  mk_xlsxC gozero gozero gozero gozero gozero gozero gozero.

Record xlsxRow := mk_xlsxRow {
  xlsxRow_Collapsed : bool;
  xlsxRow_CustomFormat : bool;
  xlsxRow_CustomHeight : bool;
  xlsxRow_Hidden : bool;
  xlsxRow_Ht : float64;
  xlsxRow_OutlineLevel : Z;
  xlsxRow_Ph : bool;
  xlsxRow_R : Z;
  xlsxRow_S : Z;
  xlsxRow_Spans : string;
  xlsxRow_ThickBot : bool;
  xlsxRow_ThickTop : bool;
  xlsxRow_C : list xlsxC
}.
#[export] Instance eta_xlsxRow : Eta xlsxRow := fun r =>
  mk_xlsxRow
    (xlsxRow_Collapsed r) (xlsxRow_CustomFormat r) (xlsxRow_CustomHeight r) (xlsxRow_Hidden r)
    (xlsxRow_Ht r) (xlsxRow_OutlineLevel r) (xlsxRow_Ph r) (xlsxRow_R r) (xlsxRow_S r)
    (xlsxRow_Spans r) (xlsxRow_ThickBot r) (xlsxRow_ThickTop r) (xlsxRow_C r).
#[export] Instance zero_xlsxRow : GoZero xlsxRow :=
  mk_xlsxRow gozero gozero gozero gozero gozero gozero gozero gozero gozero gozero gozero gozero gozero.

Record xlsxSheetData := mk_xlsxSheetData {
  xlsxSheetData_XMLName : xml_Name;
  xlsxSheetData_Row : list xlsxRow
}.
#[export] Instance eta_xlsxSheetData : Eta xlsxSheetData := fun r =>
  mk_xlsxSheetData
    (xlsxSheetData_XMLName r) (xlsxSheetData_Row r).
#[export] Instance zero_xlsxSheetData : GoZero xlsxSheetData :=
  mk_xlsxSheetData gozero gozero.

Record xlsxSheetProtection := mk_xlsxSheetProtection {
  xlsxSheetProtection_AlgorithmName : string;
  xlsxSheetProtection_AutoFilter : bool;
  xlsxSheetProtection_DeleteColumns : bool;
  xlsxSheetProtection_DeleteRows : bool;
  xlsxSheetProtection_FormatCells : bool;
  xlsxSheetProtection_FormatColumns : bool;
  xlsxSheetProtection_FormatRows : bool;
  xlsxSheetProtection_HashValue : string;
  xlsxSheetProtection_InsertColumns : bool;
  xlsxSheetProtection_InsertHyperlinks : bool;
  xlsxSheetProtection_InsertRows : bool;
  xlsxSheetProtection_Objects : bool;
  xlsxSheetProtection_Password : string;
  xlsxSheetProtection_PivotTables : bool;
  xlsxSheetProtection_SaltValue : string;
  xlsxSheetProtection_Scenarios : bool;
  xlsxSheetProtection_SelectLockedCells : bool;
  xlsxSheetProtection_SelectUnlockedCells : bool;
  xlsxSheetProtection_Sheet : bool;
  xlsxSheetProtection_Sort : bool;
  xlsxSheetProtection_SpinCount : Z
}.
#[export] Instance eta_xlsxSheetProtection : Eta xlsxSheetProtection := fun r =>
  mk_xlsxSheetProtection
    (xlsxSheetProtection_AlgorithmName r) (xlsxSheetProtection_AutoFilter r)
    (xlsxSheetProtection_DeleteColumns r) (xlsxSheetProtection_DeleteRows r)
    (xlsxSheetProtection_FormatCells r) (xlsxSheetProtection_FormatColumns r)
    (xlsxSheetProtection_FormatRows r) (xlsxSheetProtection_HashValue r)
    (xlsxSheetProtection_InsertColumns r) (xlsxSheetProtection_InsertHyperlinks r)
    (xlsxSheetProtection_InsertRows r) (xlsxSheetProtection_Objects r)
    (xlsxSheetProtection_Password r) (xlsxSheetProtection_PivotTables r)
    (xlsxSheetProtection_SaltValue r) (xlsxSheetProtection_Scenarios r)
    (xlsxSheetProtection_SelectLockedCells r) (xlsxSheetProtection_SelectUnlockedCells r)
    (xlsxSheetProtection_Sheet r) (xlsxSheetProtection_Sort r) (xlsxSheetProtection_SpinCount r).
#[export] Instance zero_xlsxSheetProtection : GoZero xlsxSheetProtection :=
  mk_xlsxSheetProtection gozero gozero gozero gozero gozero gozero gozero gozero gozero gozero gozero gozero gozero gozero gozero gozero gozero gozero gozero gozero gozero.

(** *** [xmlTable.go] *)

Record xlsxCustomFilter := mk_xlsxCustomFilter {
  xlsxCustomFilter_Operator : string;
  xlsxCustomFilter_Val : string
}.
#[export] Instance eta_xlsxCustomFilter : Eta xlsxCustomFilter := fun r =>
  mk_xlsxCustomFilter
    (xlsxCustomFilter_Operator r) (xlsxCustomFilter_Val r).
#[export] Instance zero_xlsxCustomFilter : GoZero xlsxCustomFilter :=
  mk_xlsxCustomFilter gozero gozero.

Record xlsxCustomFilters := mk_xlsxCustomFilters {
  xlsxCustomFilters_And : bool;
  xlsxCustomFilters_CustomFilter : list xlsxCustomFilter
}.
#[export] Instance eta_xlsxCustomFilters : Eta xlsxCustomFilters := fun r =>
  mk_xlsxCustomFilters
    (xlsxCustomFilters_And r) (xlsxCustomFilters_CustomFilter r).
#[export] Instance zero_xlsxCustomFilters : GoZero xlsxCustomFilters :=
  mk_xlsxCustomFilters gozero gozero.

Record xlsxFilter := mk_xlsxFilter {
  xlsxFilter_Val : string
}.
#[export] Instance eta_xlsxFilter : Eta xlsxFilter := fun r =>
  mk_xlsxFilter
    (xlsxFilter_Val r).
#[export] Instance zero_xlsxFilter : GoZero xlsxFilter :=
  mk_xlsxFilter gozero.

Record xlsxDateGroupItem := mk_xlsxDateGroupItem {
  xlsxDateGroupItem_DateTimeGrouping : string;
  xlsxDateGroupItem_Day : Z;
  xlsxDateGroupItem_Hour : Z;
  xlsxDateGroupItem_Minute : Z;
  xlsxDateGroupItem_Month : Z;
  xlsxDateGroupItem_Second : Z;
  xlsxDateGroupItem_Year : Z
}.
#[export] Instance eta_xlsxDateGroupItem : Eta xlsxDateGroupItem := fun r =>
  mk_xlsxDateGroupItem
    (xlsxDateGroupItem_DateTimeGrouping r) (xlsxDateGroupItem_Day r) (xlsxDateGroupItem_Hour r)
    (xlsxDateGroupItem_Minute r) (xlsxDateGroupItem_Month r) (xlsxDateGroupItem_Second r)
    (xlsxDateGroupItem_Year r).
#[export] Instance zero_xlsxDateGroupItem : GoZero xlsxDateGroupItem :=
  mk_xlsxDateGroupItem gozero gozero gozero gozero gozero gozero gozero.

Record xlsxFilters := mk_xlsxFilters {
  xlsxFilters_Blank : bool;
  xlsxFilters_CalendarType : string;
  xlsxFilters_Filter : list xlsxFilter;
  xlsxFilters_DateGroupItem : list xlsxDateGroupItem
}.
#[export] Instance eta_xlsxFilters : Eta xlsxFilters := fun r =>
  mk_xlsxFilters
    (xlsxFilters_Blank r) (xlsxFilters_CalendarType r) (xlsxFilters_Filter r)
    (xlsxFilters_DateGroupItem r).
#[export] Instance zero_xlsxFilters : GoZero xlsxFilters :=
  mk_xlsxFilters gozero gozero gozero gozero.

Record xlsxColorFilter := mk_xlsxColorFilter {
  xlsxColorFilter_CellColor : bool;
  xlsxColorFilter_DxfID : Z
}.
#[export] Instance eta_xlsxColorFilter : Eta xlsxColorFilter := fun r =>
  mk_xlsxColorFilter
    (xlsxColorFilter_CellColor r) (xlsxColorFilter_DxfID r).
#[export] Instance zero_xlsxColorFilter : GoZero xlsxColorFilter :=
  mk_xlsxColorFilter gozero gozero.

Record xlsxDynamicFilter := mk_xlsxDynamicFilter {
  xlsxDynamicFilter_MaxValISO : string;
  xlsxDynamicFilter_Type : string;
  xlsxDynamicFilter_Val : float64;
  xlsxDynamicFilter_ValISO : string
}.
#[export] Instance eta_xlsxDynamicFilter : Eta xlsxDynamicFilter := fun r =>
  mk_xlsxDynamicFilter
    (xlsxDynamicFilter_MaxValISO r) (xlsxDynamicFilter_Type r) (xlsxDynamicFilter_Val r)
    (xlsxDynamicFilter_ValISO r).
#[export] Instance zero_xlsxDynamicFilter : GoZero xlsxDynamicFilter :=
  mk_xlsxDynamicFilter gozero gozero gozero gozero.

Record xlsxIconFilter := mk_xlsxIconFilter {
  xlsxIconFilter_IconID : Z;
  xlsxIconFilter_IconSet : string
}.
#[export] Instance eta_xlsxIconFilter : Eta xlsxIconFilter := fun r =>
  mk_xlsxIconFilter
    (xlsxIconFilter_IconID r) (xlsxIconFilter_IconSet r).
#[export] Instance zero_xlsxIconFilter : GoZero xlsxIconFilter :=
  mk_xlsxIconFilter gozero gozero.

Record xlsxTop10 := mk_xlsxTop10 {
  xlsxTop10_FilterVal : float64;
  xlsxTop10_Percent : bool;
  xlsxTop10_Top : bool;
  xlsxTop10_Val : float64
}.
#[export] Instance eta_xlsxTop10 : Eta xlsxTop10 := fun r =>
  mk_xlsxTop10
    (xlsxTop10_FilterVal r) (xlsxTop10_Percent r) (xlsxTop10_Top r) (xlsxTop10_Val r).
#[export] Instance zero_xlsxTop10 : GoZero xlsxTop10 :=
  mk_xlsxTop10 gozero gozero gozero gozero.

Record xlsxFilterColumn := mk_xlsxFilterColumn {
  xlsxFilterColumn_ColID : Z;
  xlsxFilterColumn_HiddenButton : bool;
  xlsxFilterColumn_ShowButton : bool;
  xlsxFilterColumn_CustomFilters : option xlsxCustomFilters;
  xlsxFilterColumn_Filters : option xlsxFilters;
  xlsxFilterColumn_ColorFilter : option xlsxColorFilter;
  xlsxFilterColumn_DynamicFilter : option xlsxDynamicFilter;
  xlsxFilterColumn_IconFilter : option xlsxIconFilter;
  xlsxFilterColumn_Top10 : option xlsxTop10
}.
#[export] Instance eta_xlsxFilterColumn : Eta xlsxFilterColumn := fun r =>
  mk_xlsxFilterColumn
    (xlsxFilterColumn_ColID r) (xlsxFilterColumn_HiddenButton r) (xlsxFilterColumn_ShowButton r)
    (xlsxFilterColumn_CustomFilters r) (xlsxFilterColumn_Filters r)
    (xlsxFilterColumn_ColorFilter r) (xlsxFilterColumn_DynamicFilter r)
    (xlsxFilterColumn_IconFilter r) (xlsxFilterColumn_Top10 r).
#[export] Instance zero_xlsxFilterColumn : GoZero xlsxFilterColumn :=
  mk_xlsxFilterColumn gozero gozero gozero gozero gozero gozero gozero gozero gozero.

Record xlsxAutoFilter := mk_xlsxAutoFilter {
  xlsxAutoFilter_Ref : string;
  xlsxAutoFilter_FilterColumn : option xlsxFilterColumn
}.
#[export] Instance eta_xlsxAutoFilter : Eta xlsxAutoFilter := fun r =>
  mk_xlsxAutoFilter
    (xlsxAutoFilter_Ref r) (xlsxAutoFilter_FilterColumn r).
#[export] Instance zero_xlsxAutoFilter : GoZero xlsxAutoFilter :=
  mk_xlsxAutoFilter gozero gozero.

(** *** [xmlWorksheet.go] *)

Record xlsxMergeCell := mk_xlsxMergeCell {
  xlsxMergeCell_Ref : string
}.
#[export] Instance eta_xlsxMergeCell : Eta xlsxMergeCell := fun r =>
  mk_xlsxMergeCell
    (xlsxMergeCell_Ref r).
#[export] Instance zero_xlsxMergeCell : GoZero xlsxMergeCell :=
  mk_xlsxMergeCell gozero.

Record xlsxMergeCells := mk_xlsxMergeCells {
  xlsxMergeCells_Count : Z;
  xlsxMergeCells_Cells : list xlsxMergeCell
}.
#[export] Instance eta_xlsxMergeCells : Eta xlsxMergeCells := fun r =>
  mk_xlsxMergeCells
    (xlsxMergeCells_Count r) (xlsxMergeCells_Cells r).
#[export] Instance zero_xlsxMergeCells : GoZero xlsxMergeCells :=
  mk_xlsxMergeCells gozero gozero.

Record xlsxPhoneticPr := mk_xlsxPhoneticPr {
  xlsxPhoneticPr_Alignment : string;
  xlsxPhoneticPr_FontID : option Z;
  xlsxPhoneticPr_Type : string
}.
#[export] Instance eta_xlsxPhoneticPr : Eta xlsxPhoneticPr := fun r =>
  mk_xlsxPhoneticPr
    (xlsxPhoneticPr_Alignment r) (xlsxPhoneticPr_FontID r) (xlsxPhoneticPr_Type r).
#[export] Instance zero_xlsxPhoneticPr : GoZero xlsxPhoneticPr :=
  mk_xlsxPhoneticPr gozero gozero gozero.

(** *** [xmlWorkbook.go] *)

Record xlsxExtLst := mk_xlsxExtLst {
  xlsxExtLst_Ext : string
}.
#[export] Instance eta_xlsxExtLst : Eta xlsxExtLst := fun r =>
  mk_xlsxExtLst
    (xlsxExtLst_Ext r).
#[export] Instance zero_xlsxExtLst : GoZero xlsxExtLst :=
  mk_xlsxExtLst gozero.

(** *** [xmlWorksheet.go] *)

Record xlsxCfvo := mk_xlsxCfvo {
  xlsxCfvo_Gte : bool;
  xlsxCfvo_Type : string;
  xlsxCfvo_Val : string;
  xlsxCfvo_ExtLst : option xlsxExtLst
}.
#[export] Instance eta_xlsxCfvo : Eta xlsxCfvo := fun r =>
  mk_xlsxCfvo
    (xlsxCfvo_Gte r) (xlsxCfvo_Type r) (xlsxCfvo_Val r) (xlsxCfvo_ExtLst r).
#[export] Instance zero_xlsxCfvo : GoZero xlsxCfvo :=
  mk_xlsxCfvo gozero gozero gozero gozero.

(** *** [xmlStyles.go] *)

Record xlsxColor := mk_xlsxColor {
  xlsxColor_Auto : bool;
  xlsxColor_RGB : string;
  xlsxColor_Indexed : Z;
  xlsxColor_Theme : option Z;
  xlsxColor_Tint : float64
}.
#[export] Instance eta_xlsxColor : Eta xlsxColor := fun r =>
  mk_xlsxColor
    (xlsxColor_Auto r) (xlsxColor_RGB r) (xlsxColor_Indexed r) (xlsxColor_Theme r)
    (xlsxColor_Tint r).
#[export] Instance zero_xlsxColor : GoZero xlsxColor :=
  mk_xlsxColor gozero gozero gozero gozero gozero.

(** *** [xmlWorksheet.go] *)

Record xlsxColorScale := mk_xlsxColorScale {
  xlsxColorScale_Cfvo : list xlsxCfvo;
  xlsxColorScale_Color : list xlsxColor
}.
#[export] Instance eta_xlsxColorScale : Eta xlsxColorScale := fun r =>
  mk_xlsxColorScale
    (xlsxColorScale_Cfvo r) (xlsxColorScale_Color r).
#[export] Instance zero_xlsxColorScale : GoZero xlsxColorScale :=
  mk_xlsxColorScale gozero gozero.

Record xlsxDataBar := mk_xlsxDataBar {
  xlsxDataBar_MaxLength : Z;
  xlsxDataBar_MinLength : Z;
  xlsxDataBar_ShowValue : bool;
  xlsxDataBar_Cfvo : list xlsxCfvo;
  xlsxDataBar_Color : list xlsxColor
}.
#[export] Instance eta_xlsxDataBar : Eta xlsxDataBar := fun r =>
  mk_xlsxDataBar
    (xlsxDataBar_MaxLength r) (xlsxDataBar_MinLength r) (xlsxDataBar_ShowValue r)
    (xlsxDataBar_Cfvo r) (xlsxDataBar_Color r).
#[export] Instance zero_xlsxDataBar : GoZero xlsxDataBar :=
  mk_xlsxDataBar gozero gozero gozero gozero gozero.

Record xlsxIconSet := mk_xlsxIconSet {
  xlsxIconSet_Cfvo : list xlsxCfvo;
  xlsxIconSet_IconSet : string;
  xlsxIconSet_ShowValue : bool;
  xlsxIconSet_Percent : bool;
  xlsxIconSet_Reverse : bool
}.
#[export] Instance eta_xlsxIconSet : Eta xlsxIconSet := fun r =>
  mk_xlsxIconSet
    (xlsxIconSet_Cfvo r) (xlsxIconSet_IconSet r) (xlsxIconSet_ShowValue r) (xlsxIconSet_Percent r)
    (xlsxIconSet_Reverse r).
#[export] Instance zero_xlsxIconSet : GoZero xlsxIconSet :=
  mk_xlsxIconSet gozero gozero gozero gozero gozero.

Record xlsxCfRule := mk_xlsxCfRule {
  xlsxCfRule_AboveAverage : option bool;
  xlsxCfRule_Bottom : bool;
  xlsxCfRule_DxfID : option Z;
  xlsxCfRule_EqualAverage : bool;
  xlsxCfRule_Operator : string;
  xlsxCfRule_Percent : bool;
  xlsxCfRule_Priority : Z;
  xlsxCfRule_Rank : Z;
  xlsxCfRule_StdDev : Z;
  xlsxCfRule_StopIfTrue : bool;
  xlsxCfRule_Text : string;
  xlsxCfRule_TimePeriod : string;
  xlsxCfRule_Type : string;
  xlsxCfRule_Formula : list string;
  xlsxCfRule_ColorScale : option xlsxColorScale;
  xlsxCfRule_DataBar : option xlsxDataBar;
  xlsxCfRule_IconSet : option xlsxIconSet;
  xlsxCfRule_ExtLst : option xlsxExtLst
}.
#[export] Instance eta_xlsxCfRule : Eta xlsxCfRule := fun r =>
  mk_xlsxCfRule
    (xlsxCfRule_AboveAverage r) (xlsxCfRule_Bottom r) (xlsxCfRule_DxfID r)
    (xlsxCfRule_EqualAverage r) (xlsxCfRule_Operator r) (xlsxCfRule_Percent r)
    (xlsxCfRule_Priority r) (xlsxCfRule_Rank r) (xlsxCfRule_StdDev r) (xlsxCfRule_StopIfTrue r)
    (xlsxCfRule_Text r) (xlsxCfRule_TimePeriod r) (xlsxCfRule_Type r) (xlsxCfRule_Formula r)
    (xlsxCfRule_ColorScale r) (xlsxCfRule_DataBar r) (xlsxCfRule_IconSet r) (xlsxCfRule_ExtLst r).
#[export] Instance zero_xlsxCfRule : GoZero xlsxCfRule :=
  mk_xlsxCfRule gozero gozero gozero gozero gozero gozero gozero gozero gozero gozero gozero gozero gozero gozero gozero gozero gozero gozero.

Record xlsxConditionalFormatting := mk_xlsxConditionalFormatting {
  xlsxConditionalFormatting_SQRef : string;
  xlsxConditionalFormatting_CfRule : list xlsxCfRule
}.
#[export] Instance eta_xlsxConditionalFormatting : Eta xlsxConditionalFormatting := fun r =>
  mk_xlsxConditionalFormatting
    (xlsxConditionalFormatting_SQRef r) (xlsxConditionalFormatting_CfRule r).
#[export] Instance zero_xlsxConditionalFormatting : GoZero xlsxConditionalFormatting :=
  mk_xlsxConditionalFormatting gozero gozero.

Record DataValidation := mk_DataValidation {
  DataValidation_AllowBlank : bool;
  DataValidation_Error : option string;
  DataValidation_ErrorStyle : option string;
  DataValidation_ErrorTitle : option string;
  DataValidation_Operator : string;
  DataValidation_Prompt : option string;
  DataValidation_PromptTitle : option string;
  DataValidation_ShowDropDown : bool;
  DataValidation_ShowErrorMessage : bool;
  DataValidation_ShowInputMessage : bool;
  DataValidation_Sqref : string;
  DataValidation_Type : string;
  DataValidation_Formula1 : string;
  DataValidation_Formula2 : string
}.
#[export] Instance eta_DataValidation : Eta DataValidation := fun r =>
  mk_DataValidation
    (DataValidation_AllowBlank r) (DataValidation_Error r) (DataValidation_ErrorStyle r)
    (DataValidation_ErrorTitle r) (DataValidation_Operator r) (DataValidation_Prompt r)
    (DataValidation_PromptTitle r) (DataValidation_ShowDropDown r)
    (DataValidation_ShowErrorMessage r) (DataValidation_ShowInputMessage r)
    (DataValidation_Sqref r) (DataValidation_Type r) (DataValidation_Formula1 r)
    (DataValidation_Formula2 r).
#[export] Instance zero_DataValidation : GoZero DataValidation :=
  mk_DataValidation gozero gozero gozero gozero gozero gozero gozero gozero gozero gozero gozero gozero gozero gozero.

Record xlsxDataValidations := mk_xlsxDataValidations {
  xlsxDataValidations_Count : Z;
  xlsxDataValidations_DisablePrompts : bool;
  xlsxDataValidations_XWindow : Z;
  xlsxDataValidations_YWindow : Z;
  xlsxDataValidations_DataValidation : list DataValidation
}.
#[export] Instance eta_xlsxDataValidations : Eta xlsxDataValidations := fun r =>
  mk_xlsxDataValidations
    (xlsxDataValidations_Count r) (xlsxDataValidations_DisablePrompts r)
    (xlsxDataValidations_XWindow r) (xlsxDataValidations_YWindow r)
    (xlsxDataValidations_DataValidation r).
#[export] Instance zero_xlsxDataValidations : GoZero xlsxDataValidations :=
  mk_xlsxDataValidations gozero gozero gozero gozero gozero.

Record xlsxHyperlink := mk_xlsxHyperlink {
  xlsxHyperlink_Ref : string;
  xlsxHyperlink_Location : string;
  xlsxHyperlink_Display : string;
  xlsxHyperlink_RID : string
}.
#[export] Instance eta_xlsxHyperlink : Eta xlsxHyperlink := fun r =>
  mk_xlsxHyperlink
    (xlsxHyperlink_Ref r) (xlsxHyperlink_Location r) (xlsxHyperlink_Display r)
    (xlsxHyperlink_RID r).
#[export] Instance zero_xlsxHyperlink : GoZero xlsxHyperlink :=
  mk_xlsxHyperlink gozero gozero gozero gozero.

Record xlsxHyperlinks := mk_xlsxHyperlinks {
  xlsxHyperlinks_Hyperlink : list xlsxHyperlink
}.
#[export] Instance eta_xlsxHyperlinks : Eta xlsxHyperlinks := fun r =>
  mk_xlsxHyperlinks
    (xlsxHyperlinks_Hyperlink r).
#[export] Instance zero_xlsxHyperlinks : GoZero xlsxHyperlinks :=
  mk_xlsxHyperlinks gozero.

Record xlsxPrintOptions := mk_xlsxPrintOptions {
  xlsxPrintOptions_GridLines : bool;
  xlsxPrintOptions_GridLinesSet : bool;
  xlsxPrintOptions_Headings : bool;
  xlsxPrintOptions_HorizontalCentered : bool;
  xlsxPrintOptions_VerticalCentered : bool
}.
#[export] Instance eta_xlsxPrintOptions : Eta xlsxPrintOptions := fun r =>
  mk_xlsxPrintOptions
    (xlsxPrintOptions_GridLines r) (xlsxPrintOptions_GridLinesSet r) (xlsxPrintOptions_Headings r)
    (xlsxPrintOptions_HorizontalCentered r) (xlsxPrintOptions_VerticalCentered r).
#[export] Instance zero_xlsxPrintOptions : GoZero xlsxPrintOptions :=
  mk_xlsxPrintOptions gozero gozero gozero gozero gozero.

Record xlsxPageMargins := mk_xlsxPageMargins {
  xlsxPageMargins_Bottom : float64;
  xlsxPageMargins_Footer : float64;
  xlsxPageMargins_Header : float64;
  xlsxPageMargins_Left : float64;
  xlsxPageMargins_Right : float64;
  xlsxPageMargins_Top : float64
}.
#[export] Instance eta_xlsxPageMargins : Eta xlsxPageMargins := fun r =>
  mk_xlsxPageMargins
    (xlsxPageMargins_Bottom r) (xlsxPageMargins_Footer r) (xlsxPageMargins_Header r)
    (xlsxPageMargins_Left r) (xlsxPageMargins_Right r) (xlsxPageMargins_Top r).
#[export] Instance zero_xlsxPageMargins : GoZero xlsxPageMargins :=
  mk_xlsxPageMargins gozero gozero gozero gozero gozero gozero.

Record xlsxPageSetUp := mk_xlsxPageSetUp {
  xlsxPageSetUp_BlackAndWhite : bool;
  xlsxPageSetUp_CellComments : string;
  xlsxPageSetUp_Copies : Z;
  xlsxPageSetUp_Draft : bool;
  xlsxPageSetUp_Errors : string;
  xlsxPageSetUp_FirstPageNumber : Z;
  xlsxPageSetUp_FitToHeight : option Z;
  xlsxPageSetUp_FitToWidth : Z;
  xlsxPageSetUp_HorizontalDPI : float64;
  xlsxPageSetUp_RID : string;
  xlsxPageSetUp_Orientation : string;
  xlsxPageSetUp_PageOrder : string;
  xlsxPageSetUp_PaperHeight : string;
  xlsxPageSetUp_PaperSize : Z;
  xlsxPageSetUp_PaperWidth : string;
  xlsxPageSetUp_Scale : Z;
  xlsxPageSetUp_UseFirstPageNumber : bool;
  xlsxPageSetUp_UsePrinterDefaults : bool;
  xlsxPageSetUp_VerticalDPI : float64
}.
#[export] Instance eta_xlsxPageSetUp : Eta xlsxPageSetUp := fun r =>
  mk_xlsxPageSetUp
    (xlsxPageSetUp_BlackAndWhite r) (xlsxPageSetUp_CellComments r) (xlsxPageSetUp_Copies r)
    (xlsxPageSetUp_Draft r) (xlsxPageSetUp_Errors r) (xlsxPageSetUp_FirstPageNumber r)
    (xlsxPageSetUp_FitToHeight r) (xlsxPageSetUp_FitToWidth r) (xlsxPageSetUp_HorizontalDPI r)
    (xlsxPageSetUp_RID r) (xlsxPageSetUp_Orientation r) (xlsxPageSetUp_PageOrder r)
    (xlsxPageSetUp_PaperHeight r) (xlsxPageSetUp_PaperSize r) (xlsxPageSetUp_PaperWidth r)
    (xlsxPageSetUp_Scale r) (xlsxPageSetUp_UseFirstPageNumber r)
    (xlsxPageSetUp_UsePrinterDefaults r) (xlsxPageSetUp_VerticalDPI r).
#[export] Instance zero_xlsxPageSetUp : GoZero xlsxPageSetUp :=
  mk_xlsxPageSetUp gozero gozero gozero gozero gozero gozero gozero gozero gozero gozero gozero gozero gozero gozero gozero gozero gozero gozero gozero.

Record xlsxDrawingHF := mk_xlsxDrawingHF {
  xlsxDrawingHF_Content : string
}.
#[export] Instance eta_xlsxDrawingHF : Eta xlsxDrawingHF := fun r =>
  mk_xlsxDrawingHF
    (xlsxDrawingHF_Content r).
#[export] Instance zero_xlsxDrawingHF : GoZero xlsxDrawingHF :=
  mk_xlsxDrawingHF gozero.

Record xlsxHeaderFooter := mk_xlsxHeaderFooter {
  xlsxHeaderFooter_AlignWithMargins : bool;
  xlsxHeaderFooter_DifferentFirst : bool;
  xlsxHeaderFooter_DifferentOddEven : bool;
  xlsxHeaderFooter_ScaleWithDoc : bool;
  xlsxHeaderFooter_OddHeader : string;
  xlsxHeaderFooter_OddFooter : string;
  xlsxHeaderFooter_EvenHeader : string;
  xlsxHeaderFooter_EvenFooter : string;
  xlsxHeaderFooter_FirstFooter : string;
  xlsxHeaderFooter_FirstHeader : string;
  xlsxHeaderFooter_DrawingHF : option xlsxDrawingHF
}.
#[export] Instance eta_xlsxHeaderFooter : Eta xlsxHeaderFooter := fun r =>
  mk_xlsxHeaderFooter
    (xlsxHeaderFooter_AlignWithMargins r) (xlsxHeaderFooter_DifferentFirst r)
    (xlsxHeaderFooter_DifferentOddEven r) (xlsxHeaderFooter_ScaleWithDoc r)
    (xlsxHeaderFooter_OddHeader r) (xlsxHeaderFooter_OddFooter r) (xlsxHeaderFooter_EvenHeader r)
    (xlsxHeaderFooter_EvenFooter r) (xlsxHeaderFooter_FirstFooter r)
    (xlsxHeaderFooter_FirstHeader r) (xlsxHeaderFooter_DrawingHF r).
#[export] Instance zero_xlsxHeaderFooter : GoZero xlsxHeaderFooter :=
  mk_xlsxHeaderFooter gozero gozero gozero gozero gozero gozero gozero gozero gozero gozero gozero.

Record xlsxDrawing := mk_xlsxDrawing {
  xlsxDrawing_RID : string
}.
#[export] Instance eta_xlsxDrawing : Eta xlsxDrawing := fun r =>
  mk_xlsxDrawing
    (xlsxDrawing_RID r).
#[export] Instance zero_xlsxDrawing : GoZero xlsxDrawing :=
  mk_xlsxDrawing gozero.

Record xlsxLegacyDrawing := mk_xlsxLegacyDrawing {
  xlsxLegacyDrawing_RID : string
}.
#[export] Instance eta_xlsxLegacyDrawing : Eta xlsxLegacyDrawing := fun r =>
  mk_xlsxLegacyDrawing
    (xlsxLegacyDrawing_RID r).
#[export] Instance zero_xlsxLegacyDrawing : GoZero xlsxLegacyDrawing :=
  mk_xlsxLegacyDrawing gozero.

Record xlsxPicture := mk_xlsxPicture {
  xlsxPicture_RID : string
}.
#[export] Instance eta_xlsxPicture : Eta xlsxPicture := fun r =>
  mk_xlsxPicture
    (xlsxPicture_RID r).
#[export] Instance zero_xlsxPicture : GoZero xlsxPicture :=
  mk_xlsxPicture gozero.

Record xlsxTablePart := mk_xlsxTablePart {
  xlsxTablePart_RID : string
}.
#[export] Instance eta_xlsxTablePart : Eta xlsxTablePart := fun r =>
  mk_xlsxTablePart
    (xlsxTablePart_RID r).
#[export] Instance zero_xlsxTablePart : GoZero xlsxTablePart :=
  mk_xlsxTablePart gozero.

Record xlsxTableParts := mk_xlsxTableParts {
  xlsxTableParts_Count : Z;
  xlsxTableParts_TableParts : list xlsxTablePart
}.
#[export] Instance eta_xlsxTableParts : Eta xlsxTableParts := fun r =>
  mk_xlsxTableParts
    (xlsxTableParts_Count r) (xlsxTableParts_TableParts r).
#[export] Instance zero_xlsxTableParts : GoZero xlsxTableParts :=
  mk_xlsxTableParts gozero gozero.

Record xlsxWorksheet := mk_xlsxWorksheet {
  xlsxWorksheet_XMLName : xml_Name;
  xlsxWorksheet_SheetPr : option xlsxSheetPr;
  xlsxWorksheet_Dimension : xlsxDimension;
  xlsxWorksheet_SheetViews : xlsxSheetViews;
  xlsxWorksheet_SheetFormatPr : option xlsxSheetFormatPr;
  xlsxWorksheet_Cols : option xlsxCols;
  xlsxWorksheet_SheetData : xlsxSheetData;
  xlsxWorksheet_SheetProtection : option xlsxSheetProtection;
  xlsxWorksheet_AutoFilter : option xlsxAutoFilter;
  xlsxWorksheet_MergeCells : option xlsxMergeCells;
  xlsxWorksheet_PhoneticPr : option xlsxPhoneticPr;
  xlsxWorksheet_ConditionalFormatting : list xlsxConditionalFormatting;
  xlsxWorksheet_DataValidations : option xlsxDataValidations;
  xlsxWorksheet_Hyperlinks : option xlsxHyperlinks;
  xlsxWorksheet_PrintOptions : option xlsxPrintOptions;
  xlsxWorksheet_PageMargins : option xlsxPageMargins;
  xlsxWorksheet_PageSetUp : option xlsxPageSetUp;
  xlsxWorksheet_HeaderFooter : option xlsxHeaderFooter;
  xlsxWorksheet_Drawing : option xlsxDrawing;
  xlsxWorksheet_LegacyDrawing : option xlsxLegacyDrawing;
  xlsxWorksheet_Picture : option xlsxPicture;
  xlsxWorksheet_TableParts : option xlsxTableParts;
  xlsxWorksheet_ExtLst : option xlsxExtLst
}.
#[export] Instance eta_xlsxWorksheet : Eta xlsxWorksheet := fun r =>
  mk_xlsxWorksheet
    (xlsxWorksheet_XMLName r) (xlsxWorksheet_SheetPr r) (xlsxWorksheet_Dimension r)
    (xlsxWorksheet_SheetViews r) (xlsxWorksheet_SheetFormatPr r) (xlsxWorksheet_Cols r)
    (xlsxWorksheet_SheetData r) (xlsxWorksheet_SheetProtection r) (xlsxWorksheet_AutoFilter r)
    (xlsxWorksheet_MergeCells r) (xlsxWorksheet_PhoneticPr r)
    (xlsxWorksheet_ConditionalFormatting r) (xlsxWorksheet_DataValidations r)
    (xlsxWorksheet_Hyperlinks r) (xlsxWorksheet_PrintOptions r) (xlsxWorksheet_PageMargins r)
    (xlsxWorksheet_PageSetUp r) (xlsxWorksheet_HeaderFooter r) (xlsxWorksheet_Drawing r)
    (xlsxWorksheet_LegacyDrawing r) (xlsxWorksheet_Picture r) (xlsxWorksheet_TableParts r)
    (xlsxWorksheet_ExtLst r).
#[export] Instance zero_xlsxWorksheet : GoZero xlsxWorksheet :=
  mk_xlsxWorksheet gozero gozero gozero gozero gozero gozero gozero gozero gozero gozero gozero gozero gozero gozero gozero gozero gozero gozero gozero gozero gozero gozero gozero.

Record FormatSheetProtection := mk_FormatSheetProtection {
  FormatSheetProtection_AutoFilter : bool;
  FormatSheetProtection_DeleteColumns : bool;
  FormatSheetProtection_DeleteRows : bool;
  FormatSheetProtection_EditObjects : bool;
  FormatSheetProtection_EditScenarios : bool;
  FormatSheetProtection_FormatCells : bool;
  FormatSheetProtection_FormatColumns : bool;
  FormatSheetProtection_FormatRows : bool;
  FormatSheetProtection_InsertColumns : bool;
  FormatSheetProtection_InsertHyperlinks : bool;
  FormatSheetProtection_InsertRows : bool;
  FormatSheetProtection_Password : string;
  FormatSheetProtection_PivotTables : bool;
  FormatSheetProtection_SelectLockedCells : bool;
  FormatSheetProtection_SelectUnlockedCells : bool;
  FormatSheetProtection_Sort : bool
}.
#[export] Instance eta_FormatSheetProtection : Eta FormatSheetProtection := fun r =>
  mk_FormatSheetProtection
    (FormatSheetProtection_AutoFilter r) (FormatSheetProtection_DeleteColumns r)
    (FormatSheetProtection_DeleteRows r) (FormatSheetProtection_EditObjects r)
    (FormatSheetProtection_EditScenarios r) (FormatSheetProtection_FormatCells r)
    (FormatSheetProtection_FormatColumns r) (FormatSheetProtection_FormatRows r)
    (FormatSheetProtection_InsertColumns r) (FormatSheetProtection_InsertHyperlinks r)
    (FormatSheetProtection_InsertRows r) (FormatSheetProtection_Password r)
    (FormatSheetProtection_PivotTables r) (FormatSheetProtection_SelectLockedCells r)
    (FormatSheetProtection_SelectUnlockedCells r) (FormatSheetProtection_Sort r).
#[export] Instance zero_FormatSheetProtection : GoZero FormatSheetProtection :=
  mk_FormatSheetProtection gozero gozero gozero gozero gozero gozero gozero gozero gozero gozero gozero gozero gozero gozero gozero gozero.

Record FormatHeaderFooter := mk_FormatHeaderFooter {
  FormatHeaderFooter_AlignWithMargins : bool;
  FormatHeaderFooter_DifferentFirst : bool;
  FormatHeaderFooter_DifferentOddEven : bool;
  FormatHeaderFooter_ScaleWithDoc : bool;
  FormatHeaderFooter_OddHeader : string;
  FormatHeaderFooter_OddFooter : string;
  FormatHeaderFooter_EvenHeader : string;
  FormatHeaderFooter_EvenFooter : string;
  FormatHeaderFooter_FirstFooter : string;
  FormatHeaderFooter_FirstHeader : string
}.
#[export] Instance eta_FormatHeaderFooter : Eta FormatHeaderFooter := fun r =>
  mk_FormatHeaderFooter
    (FormatHeaderFooter_AlignWithMargins r) (FormatHeaderFooter_DifferentFirst r)
    (FormatHeaderFooter_DifferentOddEven r) (FormatHeaderFooter_ScaleWithDoc r)
    (FormatHeaderFooter_OddHeader r) (FormatHeaderFooter_OddFooter r)
    (FormatHeaderFooter_EvenHeader r) (FormatHeaderFooter_EvenFooter r)
    (FormatHeaderFooter_FirstFooter r) (FormatHeaderFooter_FirstHeader r).
#[export] Instance zero_FormatHeaderFooter : GoZero FormatHeaderFooter :=
  mk_FormatHeaderFooter gozero gozero gozero gozero gozero gozero gozero gozero gozero gozero.

Record formatPanes_Panes_T := mk_formatPanes_Panes_T {
  formatPanes_Panes_T_SQRef : string;
  formatPanes_Panes_T_ActiveCell : string;
  formatPanes_Panes_T_Pane : string
}.
#[export] Instance eta_formatPanes_Panes_T : Eta formatPanes_Panes_T := fun r =>
  mk_formatPanes_Panes_T
    (formatPanes_Panes_T_SQRef r) (formatPanes_Panes_T_ActiveCell r) (formatPanes_Panes_T_Pane r).
#[export] Instance zero_formatPanes_Panes_T : GoZero formatPanes_Panes_T :=
  mk_formatPanes_Panes_T gozero gozero gozero.

Record formatPanes := mk_formatPanes {
  formatPanes_Freeze : bool;
  formatPanes_Split : bool;
  formatPanes_XSplit : Z;
  formatPanes_YSplit : Z;
  formatPanes_TopLeftCell : string;
  formatPanes_ActivePane : string;
  formatPanes_Panes : list formatPanes_Panes_T
}.
#[export] Instance eta_formatPanes : Eta formatPanes := fun r =>
  mk_formatPanes
    (formatPanes_Freeze r) (formatPanes_Split r) (formatPanes_XSplit r) (formatPanes_YSplit r)
    (formatPanes_TopLeftCell r) (formatPanes_ActivePane r) (formatPanes_Panes r).
#[export] Instance zero_formatPanes : GoZero formatPanes :=
  mk_formatPanes gozero gozero gozero gozero gozero gozero gozero.

Record formatConditional := mk_formatConditional {
  formatConditional_Type : string;
  formatConditional_AboveAverage : bool;
  formatConditional_Percent : bool;
  formatConditional_Format : Z;
  formatConditional_Criteria : string;
  formatConditional_Value : string;
  formatConditional_Minimum : string;
  formatConditional_Maximum : string;
  formatConditional_MinType : string;
  formatConditional_MidType : string;
  formatConditional_MaxType : string;
  formatConditional_MinValue : string;
  formatConditional_MidValue : string;
  formatConditional_MaxValue : string;
  formatConditional_MinColor : string;
  formatConditional_MidColor : string;
  formatConditional_MaxColor : string;
  formatConditional_MinLength : string;
  formatConditional_MaxLength : string;
  formatConditional_MultiRange : string;
  formatConditional_BarColor : string
}.
#[export] Instance eta_formatConditional : Eta formatConditional := fun r =>
  mk_formatConditional
    (formatConditional_Type r) (formatConditional_AboveAverage r) (formatConditional_Percent r)
    (formatConditional_Format r) (formatConditional_Criteria r) (formatConditional_Value r)
    (formatConditional_Minimum r) (formatConditional_Maximum r) (formatConditional_MinType r)
    (formatConditional_MidType r) (formatConditional_MaxType r) (formatConditional_MinValue r)
    (formatConditional_MidValue r) (formatConditional_MaxValue r) (formatConditional_MinColor r)
    (formatConditional_MidColor r) (formatConditional_MaxColor r) (formatConditional_MinLength r)
    (formatConditional_MaxLength r) (formatConditional_MultiRange r) (formatConditional_BarColor r).
#[export] Instance zero_formatConditional : GoZero formatConditional :=
  mk_formatConditional gozero gozero gozero gozero gozero gozero gozero gozero gozero gozero gozero gozero gozero gozero gozero gozero gozero gozero gozero gozero gozero.
