(* ===== verification/XmlWorkbook.v ===== *)
(** The structures of the workbook part and of the parts beside it: relationships,
    content types, shared strings, calculation chain, comments and tables. *)
From S2P Require Export XmlWorksheet.

(** *** [xmlWorkbook.go] *)

Record xlsxFileVersion := mk_xlsxFileVersion {
  xlsxFileVersion_AppName : string;
  xlsxFileVersion_CodeName : string;
  xlsxFileVersion_LastEdited : string;
  xlsxFileVersion_LowestEdited : string;
  xlsxFileVersion_RupBuild : string
}.
#[export] Instance eta_xlsxFileVersion : Eta xlsxFileVersion := fun r =>
  mk_xlsxFileVersion
    (xlsxFileVersion_AppName r) (xlsxFileVersion_CodeName r) (xlsxFileVersion_LastEdited r)
    (xlsxFileVersion_LowestEdited r) (xlsxFileVersion_RupBuild r).
#[export] Instance zero_xlsxFileVersion : GoZero xlsxFileVersion :=
  mk_xlsxFileVersion gozero gozero gozero gozero gozero.

Record xlsxWorkbookPr := mk_xlsxWorkbookPr {
  xlsxWorkbookPr_AllowRefreshQuery : bool;
  xlsxWorkbookPr_AutoCompressPictures : bool;
  xlsxWorkbookPr_BackupFile : bool;
  xlsxWorkbookPr_CheckCompatibility : bool;
  xlsxWorkbookPr_CodeName : string;
  xlsxWorkbookPr_Date1904 : bool;
  xlsxWorkbookPr_DefaultThemeVersion : string;
  xlsxWorkbookPr_FilterPrivacy : bool;
  xlsxWorkbookPr_HidePivotFieldList : bool;
  xlsxWorkbookPr_PromptedSolutions : bool;
  xlsxWorkbookPr_PublishItems : bool;
  xlsxWorkbookPr_RefreshAllConnections : bool;
  xlsxWorkbookPr_SaveExternalLinkValues : bool;
  xlsxWorkbookPr_ShowBorderUnselectedTables : bool;
  xlsxWorkbookPr_ShowInkAnnotation : bool;
  xlsxWorkbookPr_ShowObjects : string;
  xlsxWorkbookPr_ShowPivotChartFilter : bool;
  xlsxWorkbookPr_UpdateLinks : string
}.
#[export] Instance eta_xlsxWorkbookPr : Eta xlsxWorkbookPr := fun r =>
  mk_xlsxWorkbookPr
    (xlsxWorkbookPr_AllowRefreshQuery r) (xlsxWorkbookPr_AutoCompressPictures r)
    (xlsxWorkbookPr_BackupFile r) (xlsxWorkbookPr_CheckCompatibility r) (xlsxWorkbookPr_CodeName r)
    (xlsxWorkbookPr_Date1904 r) (xlsxWorkbookPr_DefaultThemeVersion r)
    (xlsxWorkbookPr_FilterPrivacy r) (xlsxWorkbookPr_HidePivotFieldList r)
    (xlsxWorkbookPr_PromptedSolutions r) (xlsxWorkbookPr_PublishItems r)
    (xlsxWorkbookPr_RefreshAllConnections r) (xlsxWorkbookPr_SaveExternalLinkValues r)
    (xlsxWorkbookPr_ShowBorderUnselectedTables r) (xlsxWorkbookPr_ShowInkAnnotation r)
    (xlsxWorkbookPr_ShowObjects r) (xlsxWorkbookPr_ShowPivotChartFilter r)
    (xlsxWorkbookPr_UpdateLinks r).
#[export] Instance zero_xlsxWorkbookPr : GoZero xlsxWorkbookPr :=
  mk_xlsxWorkbookPr gozero gozero gozero gozero gozero gozero gozero gozero gozero gozero gozero gozero gozero gozero gozero gozero gozero gozero.

Record xlsxWorkbookProtection := mk_xlsxWorkbookProtection {
  xlsxWorkbookProtection_LockRevision : bool;
  xlsxWorkbookProtection_LockStructure : bool;
  xlsxWorkbookProtection_LockWindows : bool;
  xlsxWorkbookProtection_RevisionsAlgorithmName : string;
  xlsxWorkbookProtection_RevisionsHashValue : string;
  xlsxWorkbookProtection_RevisionsSaltValue : string;
  xlsxWorkbookProtection_RevisionsSpinCount : Z;
  xlsxWorkbookProtection_WorkbookAlgorithmName : string;
  xlsxWorkbookProtection_WorkbookHashValue : string;
  xlsxWorkbookProtection_WorkbookSaltValue : string;
  xlsxWorkbookProtection_WorkbookSpinCount : Z
}.
#[export] Instance eta_xlsxWorkbookProtection : Eta xlsxWorkbookProtection := fun r =>
  mk_xlsxWorkbookProtection
    (xlsxWorkbookProtection_LockRevision r) (xlsxWorkbookProtection_LockStructure r)
    (xlsxWorkbookProtection_LockWindows r) (xlsxWorkbookProtection_RevisionsAlgorithmName r)
    (xlsxWorkbookProtection_RevisionsHashValue r) (xlsxWorkbookProtection_RevisionsSaltValue r)
    (xlsxWorkbookProtection_RevisionsSpinCount r) (xlsxWorkbookProtection_WorkbookAlgorithmName r)
    (xlsxWorkbookProtection_WorkbookHashValue r) (xlsxWorkbookProtection_WorkbookSaltValue r)
    (xlsxWorkbookProtection_WorkbookSpinCount r).
#[export] Instance zero_xlsxWorkbookProtection : GoZero xlsxWorkbookProtection :=
  mk_xlsxWorkbookProtection gozero gozero gozero gozero gozero gozero gozero gozero gozero gozero gozero.

Record xlsxWorkBookView := mk_xlsxWorkBookView {
  xlsxWorkBookView_ActiveTab : Z;
  xlsxWorkBookView_AutoFilterDateGrouping : bool;
  xlsxWorkBookView_FirstSheet : Z;
  xlsxWorkBookView_Minimized : bool;
  xlsxWorkBookView_ShowHorizontalScroll : bool;
  xlsxWorkBookView_ShowSheetTabs : bool;
  xlsxWorkBookView_ShowVerticalScroll : bool;
  xlsxWorkBookView_TabRatio : Z;
  xlsxWorkBookView_Visibility : string;
  xlsxWorkBookView_WindowHeight : Z;
  xlsxWorkBookView_WindowWidth : Z;
  xlsxWorkBookView_XWindow : string;
  xlsxWorkBookView_YWindow : string
}.
#[export] Instance eta_xlsxWorkBookView : Eta xlsxWorkBookView := fun r =>
  mk_xlsxWorkBookView
    (xlsxWorkBookView_ActiveTab r) (xlsxWorkBookView_AutoFilterDateGrouping r)
    (xlsxWorkBookView_FirstSheet r) (xlsxWorkBookView_Minimized r)
    (xlsxWorkBookView_ShowHorizontalScroll r) (xlsxWorkBookView_ShowSheetTabs r)
    (xlsxWorkBookView_ShowVerticalScroll r) (xlsxWorkBookView_TabRatio r)
    (xlsxWorkBookView_Visibility r) (xlsxWorkBookView_WindowHeight r)
    (xlsxWorkBookView_WindowWidth r) (xlsxWorkBookView_XWindow r) (xlsxWorkBookView_YWindow r).
#[export] Instance zero_xlsxWorkBookView : GoZero xlsxWorkBookView :=
  mk_xlsxWorkBookView gozero gozero gozero gozero gozero gozero gozero gozero gozero gozero gozero gozero gozero.

Record xlsxBookViews := mk_xlsxBookViews {
  xlsxBookViews_WorkBookView : list xlsxWorkBookView
}.
#[export] Instance eta_xlsxBookViews : Eta xlsxBookViews := fun r =>
  mk_xlsxBookViews
    (xlsxBookViews_WorkBookView r).
#[export] Instance zero_xlsxBookViews : GoZero xlsxBookViews :=
  mk_xlsxBookViews gozero.

Record xlsxSheet := mk_xlsxSheet {
  xlsxSheet_Name : string;
  xlsxSheet_SheetID : Z;
  xlsxSheet_ID : string;
  xlsxSheet_State : string
}.
#[export] Instance eta_xlsxSheet : Eta xlsxSheet := fun r =>
  mk_xlsxSheet
    (xlsxSheet_Name r) (xlsxSheet_SheetID r) (xlsxSheet_ID r) (xlsxSheet_State r).
#[export] Instance zero_xlsxSheet : GoZero xlsxSheet :=
  mk_xlsxSheet gozero gozero gozero gozero.

Record xlsxSheets := mk_xlsxSheets {
  xlsxSheets_Sheet : list xlsxSheet
}.
#[export] Instance eta_xlsxSheets : Eta xlsxSheets := fun r =>
  mk_xlsxSheets
    (xlsxSheets_Sheet r).
#[export] Instance zero_xlsxSheets : GoZero xlsxSheets :=
  mk_xlsxSheets gozero.

Record xlsxExternalReference := mk_xlsxExternalReference {
  xlsxExternalReference_RID : string
}.
#[export] Instance eta_xlsxExternalReference : Eta xlsxExternalReference := fun r =>
  mk_xlsxExternalReference
    (xlsxExternalReference_RID r).
#[export] Instance zero_xlsxExternalReference : GoZero xlsxExternalReference :=
  mk_xlsxExternalReference gozero.

Record xlsxExternalReferences := mk_xlsxExternalReferences {
  xlsxExternalReferences_ExternalReference : list xlsxExternalReference
}.
#[export] Instance eta_xlsxExternalReferences : Eta xlsxExternalReferences := fun r =>
  mk_xlsxExternalReferences
    (xlsxExternalReferences_ExternalReference r).
#[export] Instance zero_xlsxExternalReferences : GoZero xlsxExternalReferences :=
  mk_xlsxExternalReferences gozero.

Record xlsxDefinedName := mk_xlsxDefinedName {
  xlsxDefinedName_Comment : string;
  xlsxDefinedName_CustomMenu : string;
  xlsxDefinedName_Description : string;
  xlsxDefinedName_Function : bool;
  xlsxDefinedName_FunctionGroupID : Z;
  xlsxDefinedName_Help : string;
  xlsxDefinedName_Hidden : bool;
  xlsxDefinedName_LocalSheetID : option Z;
  xlsxDefinedName_Name : string;
  xlsxDefinedName_PublishToServer : bool;
  xlsxDefinedName_ShortcutKey : string;
  xlsxDefinedName_StatusBar : string;
  xlsxDefinedName_VbProcedure : bool;
  xlsxDefinedName_WorkbookParameter : bool;
  xlsxDefinedName_Xlm : bool;
  xlsxDefinedName_Data : string
}.
#[export] Instance eta_xlsxDefinedName : Eta xlsxDefinedName := fun r =>
  mk_xlsxDefinedName
    (xlsxDefinedName_Comment r) (xlsxDefinedName_CustomMenu r) (xlsxDefinedName_Description r)
    (xlsxDefinedName_Function r) (xlsxDefinedName_FunctionGroupID r) (xlsxDefinedName_Help r)
    (xlsxDefinedName_Hidden r) (xlsxDefinedName_LocalSheetID r) (xlsxDefinedName_Name r)
    (xlsxDefinedName_PublishToServer r) (xlsxDefinedName_ShortcutKey r)
    (xlsxDefinedName_StatusBar r) (xlsxDefinedName_VbProcedure r)
    (xlsxDefinedName_WorkbookParameter r) (xlsxDefinedName_Xlm r) (xlsxDefinedName_Data r).
#[export] Instance zero_xlsxDefinedName : GoZero xlsxDefinedName :=
  mk_xlsxDefinedName gozero gozero gozero gozero gozero gozero gozero gozero gozero gozero gozero gozero gozero gozero gozero gozero.

Record xlsxDefinedNames := mk_xlsxDefinedNames {
  xlsxDefinedNames_DefinedName : list xlsxDefinedName
}.
#[export] Instance eta_xlsxDefinedNames : Eta xlsxDefinedNames := fun r =>
  mk_xlsxDefinedNames
    (xlsxDefinedNames_DefinedName r).
#[export] Instance zero_xlsxDefinedNames : GoZero xlsxDefinedNames :=
  mk_xlsxDefinedNames gozero.

Record xlsxCalcPr := mk_xlsxCalcPr {
  xlsxCalcPr_CalcCompleted : bool;
  xlsxCalcPr_CalcID : string;
  xlsxCalcPr_CalcMode : string;
  xlsxCalcPr_CalcOnSave : bool;
  xlsxCalcPr_ConcurrentCalc : option bool;
  xlsxCalcPr_ConcurrentManualCount : Z;
  xlsxCalcPr_ForceFullCalc : bool;
  xlsxCalcPr_FullCalcOnLoad : bool;
  xlsxCalcPr_FullPrecision : bool;
  xlsxCalcPr_Iterate : bool;
  xlsxCalcPr_IterateCount : Z;
  xlsxCalcPr_IterateDelta : float64;
  xlsxCalcPr_RefMode : string
}.
#[export] Instance eta_xlsxCalcPr : Eta xlsxCalcPr := fun r =>
  mk_xlsxCalcPr
    (xlsxCalcPr_CalcCompleted r) (xlsxCalcPr_CalcID r) (xlsxCalcPr_CalcMode r)
    (xlsxCalcPr_CalcOnSave r) (xlsxCalcPr_ConcurrentCalc r) (xlsxCalcPr_ConcurrentManualCount r)
    (xlsxCalcPr_ForceFullCalc r) (xlsxCalcPr_FullCalcOnLoad r) (xlsxCalcPr_FullPrecision r)
    (xlsxCalcPr_Iterate r) (xlsxCalcPr_IterateCount r) (xlsxCalcPr_IterateDelta r)
    (xlsxCalcPr_RefMode r).
#[export] Instance zero_xlsxCalcPr : GoZero xlsxCalcPr :=
  mk_xlsxCalcPr gozero gozero gozero gozero gozero gozero gozero gozero gozero gozero gozero gozero gozero.

Record xlsxCustomWorkbookView := mk_xlsxCustomWorkbookView {
  xlsxCustomWorkbookView_ActiveSheetID : option Z;
  xlsxCustomWorkbookView_AutoUpdate : option bool;
  xlsxCustomWorkbookView_ChangesSavedWin : option bool;
  xlsxCustomWorkbookView_GUID : option string;
  xlsxCustomWorkbookView_IncludeHiddenRowCol : option bool;
  xlsxCustomWorkbookView_IncludePrintSettings : option bool;
  xlsxCustomWorkbookView_Maximized : option bool;
  xlsxCustomWorkbookView_MergeInterval : Z;
  xlsxCustomWorkbookView_Minimized : option bool;
  xlsxCustomWorkbookView_Name : option string;
  xlsxCustomWorkbookView_OnlySync : option bool;
  xlsxCustomWorkbookView_PersonalView : option bool;
  xlsxCustomWorkbookView_ShowComments : option string;
  xlsxCustomWorkbookView_ShowFormulaBar : option bool;
  xlsxCustomWorkbookView_ShowHorizontalScroll : option bool;
  xlsxCustomWorkbookView_ShowObjects : option string;
  xlsxCustomWorkbookView_ShowSheetTabs : option bool;
  xlsxCustomWorkbookView_ShowStatusbar : option bool;
  xlsxCustomWorkbookView_ShowVerticalScroll : option bool;
  xlsxCustomWorkbookView_TabRatio : option Z;
  xlsxCustomWorkbookView_WindowHeight : option Z;
  xlsxCustomWorkbookView_WindowWidth : option Z;
  xlsxCustomWorkbookView_XWindow : option Z;
  xlsxCustomWorkbookView_YWindow : option Z
}.
#[export] Instance eta_xlsxCustomWorkbookView : Eta xlsxCustomWorkbookView := fun r =>
  mk_xlsxCustomWorkbookView
    (xlsxCustomWorkbookView_ActiveSheetID r) (xlsxCustomWorkbookView_AutoUpdate r)
    (xlsxCustomWorkbookView_ChangesSavedWin r) (xlsxCustomWorkbookView_GUID r)
    (xlsxCustomWorkbookView_IncludeHiddenRowCol r) (xlsxCustomWorkbookView_IncludePrintSettings r)
    (xlsxCustomWorkbookView_Maximized r) (xlsxCustomWorkbookView_MergeInterval r)
    (xlsxCustomWorkbookView_Minimized r) (xlsxCustomWorkbookView_Name r)
    (xlsxCustomWorkbookView_OnlySync r) (xlsxCustomWorkbookView_PersonalView r)
    (xlsxCustomWorkbookView_ShowComments r) (xlsxCustomWorkbookView_ShowFormulaBar r)
    (xlsxCustomWorkbookView_ShowHorizontalScroll r) (xlsxCustomWorkbookView_ShowObjects r)
    (xlsxCustomWorkbookView_ShowSheetTabs r) (xlsxCustomWorkbookView_ShowStatusbar r)
    (xlsxCustomWorkbookView_ShowVerticalScroll r) (xlsxCustomWorkbookView_TabRatio r)
    (xlsxCustomWorkbookView_WindowHeight r) (xlsxCustomWorkbookView_WindowWidth r)
    (xlsxCustomWorkbookView_XWindow r) (xlsxCustomWorkbookView_YWindow r).
#[export] Instance zero_xlsxCustomWorkbookView : GoZero xlsxCustomWorkbookView :=
  mk_xlsxCustomWorkbookView gozero gozero gozero gozero gozero gozero gozero gozero gozero gozero gozero gozero gozero gozero gozero gozero gozero gozero gozero gozero gozero gozero gozero gozero.

Record xlsxCustomWorkbookViews := mk_xlsxCustomWorkbookViews {
  xlsxCustomWorkbookViews_CustomWorkbookView : list xlsxCustomWorkbookView
}.
#[export] Instance eta_xlsxCustomWorkbookViews : Eta xlsxCustomWorkbookViews := fun r =>
  mk_xlsxCustomWorkbookViews
    (xlsxCustomWorkbookViews_CustomWorkbookView r).
#[export] Instance zero_xlsxCustomWorkbookViews : GoZero xlsxCustomWorkbookViews :=
  mk_xlsxCustomWorkbookViews gozero.

Record xlsxPivotCache := mk_xlsxPivotCache {
  xlsxPivotCache_CacheID : Z;
  xlsxPivotCache_RID : string
}.
#[export] Instance eta_xlsxPivotCache : Eta xlsxPivotCache := fun r =>
  mk_xlsxPivotCache
    (xlsxPivotCache_CacheID r) (xlsxPivotCache_RID r).
#[export] Instance zero_xlsxPivotCache : GoZero xlsxPivotCache :=
  mk_xlsxPivotCache gozero gozero.

Record xlsxPivotCaches := mk_xlsxPivotCaches {
  xlsxPivotCaches_PivotCache : list xlsxPivotCache
}.
#[export] Instance eta_xlsxPivotCaches : Eta xlsxPivotCaches := fun r =>
  mk_xlsxPivotCaches
    (xlsxPivotCaches_PivotCache r).
#[export] Instance zero_xlsxPivotCaches : GoZero xlsxPivotCaches :=
  mk_xlsxPivotCaches gozero.

Record xlsxFileRecoveryPr := mk_xlsxFileRecoveryPr {
  xlsxFileRecoveryPr_AutoRecover : bool;
  xlsxFileRecoveryPr_CrashSave : bool;
  xlsxFileRecoveryPr_DataExtractLoad : bool;
  xlsxFileRecoveryPr_RepairLoad : bool
}.
#[export] Instance eta_xlsxFileRecoveryPr : Eta xlsxFileRecoveryPr := fun r =>
  mk_xlsxFileRecoveryPr
    (xlsxFileRecoveryPr_AutoRecover r) (xlsxFileRecoveryPr_CrashSave r)
    (xlsxFileRecoveryPr_DataExtractLoad r) (xlsxFileRecoveryPr_RepairLoad r).
#[export] Instance zero_xlsxFileRecoveryPr : GoZero xlsxFileRecoveryPr :=
  mk_xlsxFileRecoveryPr gozero gozero gozero gozero.

Record xlsxWorkbook := mk_xlsxWorkbook {
  xlsxWorkbook_XMLName : xml_Name;
  xlsxWorkbook_FileVersion : option xlsxFileVersion;
  xlsxWorkbook_WorkbookPr : option xlsxWorkbookPr;
  xlsxWorkbook_WorkbookProtection : option xlsxWorkbookProtection;
  xlsxWorkbook_BookViews : xlsxBookViews;
  xlsxWorkbook_Sheets : xlsxSheets;
  xlsxWorkbook_ExternalReferences : option xlsxExternalReferences;
  xlsxWorkbook_DefinedNames : option xlsxDefinedNames;
  xlsxWorkbook_CalcPr : option xlsxCalcPr;
  xlsxWorkbook_CustomWorkbookViews : option xlsxCustomWorkbookViews;
  xlsxWorkbook_PivotCaches : option xlsxPivotCaches;
  xlsxWorkbook_ExtLst : option xlsxExtLst;
  xlsxWorkbook_FileRecoveryPr : option xlsxFileRecoveryPr
}.
#[export] Instance eta_xlsxWorkbook : Eta xlsxWorkbook := fun r =>
  mk_xlsxWorkbook
    (xlsxWorkbook_XMLName r) (xlsxWorkbook_FileVersion r) (xlsxWorkbook_WorkbookPr r)
    (xlsxWorkbook_WorkbookProtection r) (xlsxWorkbook_BookViews r) (xlsxWorkbook_Sheets r)
    (xlsxWorkbook_ExternalReferences r) (xlsxWorkbook_DefinedNames r) (xlsxWorkbook_CalcPr r)
    (xlsxWorkbook_CustomWorkbookViews r) (xlsxWorkbook_PivotCaches r) (xlsxWorkbook_ExtLst r)
    (xlsxWorkbook_FileRecoveryPr r).
#[export] Instance zero_xlsxWorkbook : GoZero xlsxWorkbook :=
  mk_xlsxWorkbook gozero gozero gozero gozero gozero gozero gozero gozero gozero gozero gozero gozero gozero.

Record xlsxWorkbookRelation := mk_xlsxWorkbookRelation {
  xlsxWorkbookRelation_ID : string;
  xlsxWorkbookRelation_Target : string;
  xlsxWorkbookRelation_Type : string;
  xlsxWorkbookRelation_TargetMode : string
}.
#[export] Instance eta_xlsxWorkbookRelation : Eta xlsxWorkbookRelation := fun r =>
  mk_xlsxWorkbookRelation
    (xlsxWorkbookRelation_ID r) (xlsxWorkbookRelation_Target r) (xlsxWorkbookRelation_Type r)
    (xlsxWorkbookRelation_TargetMode r).
#[export] Instance zero_xlsxWorkbookRelation : GoZero xlsxWorkbookRelation :=
  mk_xlsxWorkbookRelation gozero gozero gozero gozero.

Record xlsxWorkbookRels := mk_xlsxWorkbookRels {
  xlsxWorkbookRels_XMLName : xml_Name;
  xlsxWorkbookRels_Relationships : list xlsxWorkbookRelation
}.
#[export] Instance eta_xlsxWorkbookRels : Eta xlsxWorkbookRels := fun r =>
  mk_xlsxWorkbookRels
    (xlsxWorkbookRels_XMLName r) (xlsxWorkbookRels_Relationships r).
#[export] Instance zero_xlsxWorkbookRels : GoZero xlsxWorkbookRels :=
  mk_xlsxWorkbookRels gozero gozero.

(** *** [xmlContentTypes.go] *)

Record xlsxOverride := mk_xlsxOverride {
  xlsxOverride_PartName : string;
  xlsxOverride_ContentType : string
}.
#[export] Instance eta_xlsxOverride : Eta xlsxOverride := fun r =>
  mk_xlsxOverride
    (xlsxOverride_PartName r) (xlsxOverride_ContentType r).
#[export] Instance zero_xlsxOverride : GoZero xlsxOverride :=
  mk_xlsxOverride gozero gozero.

Record xlsxDefault := mk_xlsxDefault {
  xlsxDefault_Extension : string;
  xlsxDefault_ContentType : string
}.
#[export] Instance eta_xlsxDefault : Eta xlsxDefault := fun r =>
  mk_xlsxDefault
    (xlsxDefault_Extension r) (xlsxDefault_ContentType r).
#[export] Instance zero_xlsxDefault : GoZero xlsxDefault :=
  mk_xlsxDefault gozero gozero.

Record xlsxTypes := mk_xlsxTypes {
  xlsxTypes_XMLName : xml_Name;
  xlsxTypes_Overrides : list xlsxOverride;
  xlsxTypes_Defaults : list xlsxDefault
}.
#[export] Instance eta_xlsxTypes : Eta xlsxTypes := fun r =>
  mk_xlsxTypes
    (xlsxTypes_XMLName r) (xlsxTypes_Overrides r) (xlsxTypes_Defaults r).
#[export] Instance zero_xlsxTypes : GoZero xlsxTypes :=
  mk_xlsxTypes gozero gozero gozero.

(** *** [xmlChart.go] *)

Record attrValFloat := mk_attrValFloat {
  attrValFloat_Val : float64
}.
#[export] Instance eta_attrValFloat : Eta attrValFloat := fun r =>
  mk_attrValFloat
    (attrValFloat_Val r).
#[export] Instance zero_attrValFloat : GoZero attrValFloat :=
  mk_attrValFloat gozero.

Record attrValString := mk_attrValString {
  attrValString_Val : string
}.
#[export] Instance eta_attrValString : Eta attrValString := fun r =>
  mk_attrValString
    (attrValString_Val r).
#[export] Instance zero_attrValString : GoZero attrValString :=
  mk_attrValString gozero.

Record attrValInt := mk_attrValInt {
  attrValInt_Val : Z
}.
#[export] Instance eta_attrValInt : Eta attrValInt := fun r =>
  mk_attrValInt
    (attrValInt_Val r).
#[export] Instance zero_attrValInt : GoZero attrValInt :=
  mk_attrValInt gozero.

(** *** [xmlSharedStrings.go] *)

Record xlsxRPr := mk_xlsxRPr {
  xlsxRPr_B : string;
  xlsxRPr_Sz : option attrValFloat;
  xlsxRPr_Color : option xlsxColor;
  xlsxRPr_RFont : option attrValString;
  xlsxRPr_Family : option attrValInt
}.
#[export] Instance eta_xlsxRPr : Eta xlsxRPr := fun r =>
  mk_xlsxRPr
    (xlsxRPr_B r) (xlsxRPr_Sz r) (xlsxRPr_Color r) (xlsxRPr_RFont r) (xlsxRPr_Family r).
#[export] Instance zero_xlsxRPr : GoZero xlsxRPr :=
  mk_xlsxRPr gozero gozero gozero gozero gozero.

Record xlsxR := mk_xlsxR {
  xlsxR_RPr : option xlsxRPr;
  xlsxR_T : string
}.
#[export] Instance eta_xlsxR : Eta xlsxR := fun r =>
  mk_xlsxR
    (xlsxR_RPr r) (xlsxR_T r).
#[export] Instance zero_xlsxR : GoZero xlsxR :=
  mk_xlsxR gozero gozero.

Record xlsxSI := mk_xlsxSI {
  xlsxSI_T : string;
  xlsxSI_R : list xlsxR
}.
#[export] Instance eta_xlsxSI : Eta xlsxSI := fun r =>
  mk_xlsxSI
    (xlsxSI_T r) (xlsxSI_R r).
#[export] Instance zero_xlsxSI : GoZero xlsxSI :=
  mk_xlsxSI gozero gozero.

Record xlsxSST := mk_xlsxSST {
  xlsxSST_XMLName : xml_Name;
  xlsxSST_Count : Z;
  xlsxSST_UniqueCount : Z;
  xlsxSST_SI : list xlsxSI
}.
#[export] Instance eta_xlsxSST : Eta xlsxSST := fun r =>
  mk_xlsxSST
    (xlsxSST_XMLName r) (xlsxSST_Count r) (xlsxSST_UniqueCount r) (xlsxSST_SI r).
#[export] Instance zero_xlsxSST : GoZero xlsxSST :=
  mk_xlsxSST gozero gozero gozero gozero.

(** *** [xmlCalcChain.go] *)

Record xlsxCalcChainC := mk_xlsxCalcChainC {
  xlsxCalcChainC_R : string;
  xlsxCalcChainC_I : Z;
  xlsxCalcChainC_L : bool;
  xlsxCalcChainC_S : bool;
  xlsxCalcChainC_T : bool;
  xlsxCalcChainC_A : bool
}.
#[export] Instance eta_xlsxCalcChainC : Eta xlsxCalcChainC := fun r =>
  mk_xlsxCalcChainC
    (xlsxCalcChainC_R r) (xlsxCalcChainC_I r) (xlsxCalcChainC_L r) (xlsxCalcChainC_S r)
    (xlsxCalcChainC_T r) (xlsxCalcChainC_A r).
#[export] Instance zero_xlsxCalcChainC : GoZero xlsxCalcChainC :=
  mk_xlsxCalcChainC gozero gozero gozero gozero gozero gozero.

Record xlsxCalcChain := mk_xlsxCalcChain {
  xlsxCalcChain_XMLName : xml_Name;
  xlsxCalcChain_C : list xlsxCalcChainC
}.
#[export] Instance eta_xlsxCalcChain : Eta xlsxCalcChain := fun r =>
  mk_xlsxCalcChain
    (xlsxCalcChain_XMLName r) (xlsxCalcChain_C r).
#[export] Instance zero_xlsxCalcChain : GoZero xlsxCalcChain :=
  mk_xlsxCalcChain gozero gozero.

(** *** [xmlComments.go] *)

Record xlsxAuthor := mk_xlsxAuthor {
  xlsxAuthor_Author : string
}.
#[export] Instance eta_xlsxAuthor : Eta xlsxAuthor := fun r =>
  mk_xlsxAuthor
    (xlsxAuthor_Author r).
#[export] Instance zero_xlsxAuthor : GoZero xlsxAuthor :=
  mk_xlsxAuthor gozero.

Record xlsxText := mk_xlsxText {
  xlsxText_R : list xlsxR
}.
#[export] Instance eta_xlsxText : Eta xlsxText := fun r =>
  mk_xlsxText
    (xlsxText_R r).
#[export] Instance zero_xlsxText : GoZero xlsxText :=
  mk_xlsxText gozero.

Record xlsxComment := mk_xlsxComment {
  xlsxComment_Ref : string;
  xlsxComment_AuthorID : Z;
  xlsxComment_Text : xlsxText
}.
#[export] Instance eta_xlsxComment : Eta xlsxComment := fun r =>
  mk_xlsxComment
    (xlsxComment_Ref r) (xlsxComment_AuthorID r) (xlsxComment_Text r).
#[export] Instance zero_xlsxComment : GoZero xlsxComment :=
  mk_xlsxComment gozero gozero gozero.

Record xlsxCommentList := mk_xlsxCommentList {
  xlsxCommentList_Comment : list xlsxComment
}.
#[export] Instance eta_xlsxCommentList : Eta xlsxCommentList := fun r =>
  mk_xlsxCommentList
    (xlsxCommentList_Comment r).
#[export] Instance zero_xlsxCommentList : GoZero xlsxCommentList :=
  mk_xlsxCommentList gozero.

Record xlsxComments := mk_xlsxComments {
  xlsxComments_XMLName : xml_Name;
  xlsxComments_Authors : list xlsxAuthor;
  xlsxComments_CommentList : xlsxCommentList
}.
#[export] Instance eta_xlsxComments : Eta xlsxComments := fun r =>
  mk_xlsxComments
    (xlsxComments_XMLName r) (xlsxComments_Authors r) (xlsxComments_CommentList r).
#[export] Instance zero_xlsxComments : GoZero xlsxComments :=
  mk_xlsxComments gozero gozero gozero.

Record Comment := mk_Comment {
  Comment_Author : string;
  Comment_AuthorID : Z;
  Comment_Ref : string;
  Comment_Text : string
}.
#[export] Instance eta_Comment : Eta Comment := fun r =>
  mk_Comment
    (Comment_Author r) (Comment_AuthorID r) (Comment_Ref r) (Comment_Text r).
#[export] Instance zero_Comment : GoZero Comment :=
  mk_Comment gozero gozero gozero gozero.

Record formatComment := mk_formatComment {
  formatComment_Author : string;
  formatComment_Text : string
}.
#[export] Instance eta_formatComment : Eta formatComment := fun r =>
  mk_formatComment
    (formatComment_Author r) (formatComment_Text r).
#[export] Instance zero_formatComment : GoZero formatComment :=
  mk_formatComment gozero gozero.

(** *** [xmlTable.go] *)

Record xlsxTableColumn := mk_xlsxTableColumn {
  xlsxTableColumn_DataCellStyle : string;
  xlsxTableColumn_DataDxfID : Z;
  xlsxTableColumn_HeaderRowCellStyle : string;
  xlsxTableColumn_HeaderRowDxfID : Z;
  xlsxTableColumn_ID : Z;
  xlsxTableColumn_Name : string;
  xlsxTableColumn_QueryTableFieldID : Z;
  xlsxTableColumn_TotalsRowCellStyle : string;
  xlsxTableColumn_TotalsRowDxfID : Z;
  xlsxTableColumn_TotalsRowFunction : string;
  xlsxTableColumn_TotalsRowLabel : string;
  xlsxTableColumn_UniqueName : string
}.
#[export] Instance eta_xlsxTableColumn : Eta xlsxTableColumn := fun r =>
  mk_xlsxTableColumn
    (xlsxTableColumn_DataCellStyle r) (xlsxTableColumn_DataDxfID r)
    (xlsxTableColumn_HeaderRowCellStyle r) (xlsxTableColumn_HeaderRowDxfID r)
    (xlsxTableColumn_ID r) (xlsxTableColumn_Name r) (xlsxTableColumn_QueryTableFieldID r)
    (xlsxTableColumn_TotalsRowCellStyle r) (xlsxTableColumn_TotalsRowDxfID r)
    (xlsxTableColumn_TotalsRowFunction r) (xlsxTableColumn_TotalsRowLabel r)
    (xlsxTableColumn_UniqueName r).
#[export] Instance zero_xlsxTableColumn : GoZero xlsxTableColumn :=
  mk_xlsxTableColumn gozero gozero gozero gozero gozero gozero gozero gozero gozero gozero gozero gozero.

Record xlsxTableColumns := mk_xlsxTableColumns {
  xlsxTableColumns_Count : Z;
  xlsxTableColumns_TableColumn : list xlsxTableColumn
}.
#[export] Instance eta_xlsxTableColumns : Eta xlsxTableColumns := fun r =>
  mk_xlsxTableColumns
    (xlsxTableColumns_Count r) (xlsxTableColumns_TableColumn r).
#[export] Instance zero_xlsxTableColumns : GoZero xlsxTableColumns :=
  mk_xlsxTableColumns gozero gozero.

Record xlsxTableStyleInfo := mk_xlsxTableStyleInfo {
  xlsxTableStyleInfo_Name : string;
  xlsxTableStyleInfo_ShowFirstColumn : bool;
  xlsxTableStyleInfo_ShowLastColumn : bool;
  xlsxTableStyleInfo_ShowRowStripes : bool;
  xlsxTableStyleInfo_ShowColumnStripes : bool
}.
#[export] Instance eta_xlsxTableStyleInfo : Eta xlsxTableStyleInfo := fun r =>
  mk_xlsxTableStyleInfo
    (xlsxTableStyleInfo_Name r) (xlsxTableStyleInfo_ShowFirstColumn r)
    (xlsxTableStyleInfo_ShowLastColumn r) (xlsxTableStyleInfo_ShowRowStripes r)
    (xlsxTableStyleInfo_ShowColumnStripes r).
#[export] Instance zero_xlsxTableStyleInfo : GoZero xlsxTableStyleInfo :=
  mk_xlsxTableStyleInfo gozero gozero gozero gozero gozero.

Record xlsxTable := mk_xlsxTable {
  xlsxTable_XMLName : xml_Name;
  xlsxTable_XMLNS : string;
  xlsxTable_DataCellStyle : string;
  xlsxTable_DataDxfID : Z;
  xlsxTable_DisplayName : string;
  xlsxTable_HeaderRowBorderDxfID : Z;
  xlsxTable_HeaderRowCellStyle : string;
  xlsxTable_HeaderRowCount : Z;
  xlsxTable_HeaderRowDxfID : Z;
  xlsxTable_ID : Z;
  xlsxTable_InsertRow : bool;
  xlsxTable_InsertRowShift : bool;
  xlsxTable_Name : string;
  xlsxTable_Published : bool;
  xlsxTable_Ref : string;
  xlsxTable_TotalsRowCount : Z;
  xlsxTable_TotalsRowDxfID : Z;
  xlsxTable_TotalsRowShown : bool;
  xlsxTable_AutoFilter : option xlsxAutoFilter;
  xlsxTable_TableColumns : option xlsxTableColumns;
  xlsxTable_TableStyleInfo : option xlsxTableStyleInfo
}.
#[export] Instance eta_xlsxTable : Eta xlsxTable := fun r =>
  mk_xlsxTable
    (xlsxTable_XMLName r) (xlsxTable_XMLNS r) (xlsxTable_DataCellStyle r) (xlsxTable_DataDxfID r)
    (xlsxTable_DisplayName r) (xlsxTable_HeaderRowBorderDxfID r) (xlsxTable_HeaderRowCellStyle r)
    (xlsxTable_HeaderRowCount r) (xlsxTable_HeaderRowDxfID r) (xlsxTable_ID r)
    (xlsxTable_InsertRow r) (xlsxTable_InsertRowShift r) (xlsxTable_Name r) (xlsxTable_Published r)
    (xlsxTable_Ref r) (xlsxTable_TotalsRowCount r) (xlsxTable_TotalsRowDxfID r)
    (xlsxTable_TotalsRowShown r) (xlsxTable_AutoFilter r) (xlsxTable_TableColumns r)
    (xlsxTable_TableStyleInfo r).
#[export] Instance zero_xlsxTable : GoZero xlsxTable :=
  mk_xlsxTable gozero gozero gozero gozero gozero gozero gozero gozero gozero gozero gozero gozero gozero gozero gozero gozero gozero gozero gozero gozero gozero.

Record formatTable := mk_formatTable {
  formatTable_TableName : string;
  formatTable_TableStyle : string;
  formatTable_ShowFirstColumn : bool;
  formatTable_ShowLastColumn : bool;
  formatTable_ShowRowStripes : bool;
  formatTable_ShowColumnStripes : bool
}.
#[export] Instance eta_formatTable : Eta formatTable := fun r =>
  mk_formatTable
    (formatTable_TableName r) (formatTable_TableStyle r) (formatTable_ShowFirstColumn r)
    (formatTable_ShowLastColumn r) (formatTable_ShowRowStripes r) (formatTable_ShowColumnStripes r).
#[export] Instance zero_formatTable : GoZero formatTable :=
  mk_formatTable gozero gozero gozero gozero gozero gozero.

Record formatAutoFilter_FilterList_T := mk_formatAutoFilter_FilterList_T {
  formatAutoFilter_FilterList_T_Column : string;
  formatAutoFilter_FilterList_T_Value : list Z
}.
#[export] Instance eta_formatAutoFilter_FilterList_T : Eta formatAutoFilter_FilterList_T := fun r =>
  mk_formatAutoFilter_FilterList_T
    (formatAutoFilter_FilterList_T_Column r) (formatAutoFilter_FilterList_T_Value r).
#[export] Instance zero_formatAutoFilter_FilterList_T : GoZero formatAutoFilter_FilterList_T :=
  mk_formatAutoFilter_FilterList_T gozero gozero.

Record formatAutoFilter := mk_formatAutoFilter {
  formatAutoFilter_Column : string;
  formatAutoFilter_Expression : string;
  formatAutoFilter_FilterList : list formatAutoFilter_FilterList_T
}.
#[export] Instance eta_formatAutoFilter : Eta formatAutoFilter := fun r =>
  mk_formatAutoFilter
    (formatAutoFilter_Column r) (formatAutoFilter_Expression r) (formatAutoFilter_FilterList r).
#[export] Instance zero_formatAutoFilter : GoZero formatAutoFilter :=
  mk_formatAutoFilter gozero gozero gozero.
