(* ===== verification/XmlStyles.v ===== *)
(** The structures of the style sheet part and the style settings a caller gives. *)
From S2P Require Export XmlWorksheet XmlWorkbook.

(** *** [xmlStyles.go] *)

Record xlsxNumFmt := mk_xlsxNumFmt {
  xlsxNumFmt_NumFmtID : Z;
  xlsxNumFmt_FormatCode : string
}.
#[export] Instance eta_xlsxNumFmt : Eta xlsxNumFmt := fun r =>
  mk_xlsxNumFmt
    (xlsxNumFmt_NumFmtID r) (xlsxNumFmt_FormatCode r).
#[export] Instance zero_xlsxNumFmt : GoZero xlsxNumFmt :=
  mk_xlsxNumFmt gozero gozero.

Record xlsxNumFmts := mk_xlsxNumFmts {
  xlsxNumFmts_Count : Z;
  xlsxNumFmts_NumFmt : list xlsxNumFmt
}.
#[export] Instance eta_xlsxNumFmts : Eta xlsxNumFmts := fun r =>
  mk_xlsxNumFmts
    (xlsxNumFmts_Count r) (xlsxNumFmts_NumFmt r).
#[export] Instance zero_xlsxNumFmts : GoZero xlsxNumFmts :=
  mk_xlsxNumFmts gozero gozero.

Record xlsxFont := mk_xlsxFont {
  xlsxFont_Font : string
}.
#[export] Instance eta_xlsxFont : Eta xlsxFont := fun r =>
  mk_xlsxFont
    (xlsxFont_Font r).
#[export] Instance zero_xlsxFont : GoZero xlsxFont :=
  mk_xlsxFont gozero.

Record xlsxFonts := mk_xlsxFonts {
  xlsxFonts_Count : Z;
  xlsxFonts_Font : list xlsxFont
}.
#[export] Instance eta_xlsxFonts : Eta xlsxFonts := fun r =>
  mk_xlsxFonts
    (xlsxFonts_Count r) (xlsxFonts_Font r).
#[export] Instance zero_xlsxFonts : GoZero xlsxFonts :=
  mk_xlsxFonts gozero gozero.

Record xlsxPatternFill := mk_xlsxPatternFill {
  xlsxPatternFill_PatternType : string;
  xlsxPatternFill_FgColor : xlsxColor;
  xlsxPatternFill_BgColor : xlsxColor
}.
#[export] Instance eta_xlsxPatternFill : Eta xlsxPatternFill := fun r =>
  mk_xlsxPatternFill
    (xlsxPatternFill_PatternType r) (xlsxPatternFill_FgColor r) (xlsxPatternFill_BgColor r).
#[export] Instance zero_xlsxPatternFill : GoZero xlsxPatternFill :=
  mk_xlsxPatternFill gozero gozero gozero.

Record xlsxGradientFillStop := mk_xlsxGradientFillStop {
  xlsxGradientFillStop_Position : float64;
  xlsxGradientFillStop_Color : xlsxColor
}.
#[export] Instance eta_xlsxGradientFillStop : Eta xlsxGradientFillStop := fun r =>
  mk_xlsxGradientFillStop
    (xlsxGradientFillStop_Position r) (xlsxGradientFillStop_Color r).
#[export] Instance zero_xlsxGradientFillStop : GoZero xlsxGradientFillStop :=
  mk_xlsxGradientFillStop gozero gozero.

Record xlsxGradientFill := mk_xlsxGradientFill {
  xlsxGradientFill_Bottom : float64;
  xlsxGradientFill_Degree : float64;
  xlsxGradientFill_Left : float64;
  xlsxGradientFill_Right : float64;
  xlsxGradientFill_Top : float64;
  xlsxGradientFill_Type : string;
  xlsxGradientFill_Stop : list xlsxGradientFillStop
}.
#[export] Instance eta_xlsxGradientFill : Eta xlsxGradientFill := fun r =>
  mk_xlsxGradientFill
    (xlsxGradientFill_Bottom r) (xlsxGradientFill_Degree r) (xlsxGradientFill_Left r)
    (xlsxGradientFill_Right r) (xlsxGradientFill_Top r) (xlsxGradientFill_Type r)
    (xlsxGradientFill_Stop r).
#[export] Instance zero_xlsxGradientFill : GoZero xlsxGradientFill :=
  mk_xlsxGradientFill gozero gozero gozero gozero gozero gozero gozero.

Record xlsxFill := mk_xlsxFill {
  xlsxFill_PatternFill : option xlsxPatternFill;
  xlsxFill_GradientFill : option xlsxGradientFill
}.
#[export] Instance eta_xlsxFill : Eta xlsxFill := fun r =>
  mk_xlsxFill
    (xlsxFill_PatternFill r) (xlsxFill_GradientFill r).
#[export] Instance zero_xlsxFill : GoZero xlsxFill :=
  mk_xlsxFill gozero gozero.

Record xlsxFills := mk_xlsxFills {
  xlsxFills_Count : Z;
  xlsxFills_Fill : list xlsxFill
}.
#[export] Instance eta_xlsxFills : Eta xlsxFills := fun r =>
  mk_xlsxFills
    (xlsxFills_Count r) (xlsxFills_Fill r).
#[export] Instance zero_xlsxFills : GoZero xlsxFills :=
  mk_xlsxFills gozero gozero.

Record xlsxLine := mk_xlsxLine {
  xlsxLine_Style : string;
  xlsxLine_Color : option xlsxColor
}.
#[export] Instance eta_xlsxLine : Eta xlsxLine := fun r =>
  mk_xlsxLine
    (xlsxLine_Style r) (xlsxLine_Color r).
#[export] Instance zero_xlsxLine : GoZero xlsxLine :=
  mk_xlsxLine gozero gozero.

Record xlsxBorder := mk_xlsxBorder {
  xlsxBorder_DiagonalDown : bool;
  xlsxBorder_DiagonalUp : bool;
  xlsxBorder_Outline : bool;
  xlsxBorder_Left : xlsxLine;
  xlsxBorder_Right : xlsxLine;
  xlsxBorder_Top : xlsxLine;
  xlsxBorder_Bottom : xlsxLine;
  xlsxBorder_Diagonal : xlsxLine
}.
#[export] Instance eta_xlsxBorder : Eta xlsxBorder := fun r =>
  mk_xlsxBorder
    (xlsxBorder_DiagonalDown r) (xlsxBorder_DiagonalUp r) (xlsxBorder_Outline r)
    (xlsxBorder_Left r) (xlsxBorder_Right r) (xlsxBorder_Top r) (xlsxBorder_Bottom r)
    (xlsxBorder_Diagonal r).
#[export] Instance zero_xlsxBorder : GoZero xlsxBorder :=
  mk_xlsxBorder gozero gozero gozero gozero gozero gozero gozero gozero.

Record xlsxBorders := mk_xlsxBorders {
  xlsxBorders_Count : Z;
  xlsxBorders_Border : list xlsxBorder
}.
#[export] Instance eta_xlsxBorders : Eta xlsxBorders := fun r =>
  mk_xlsxBorders
    (xlsxBorders_Count r) (xlsxBorders_Border r).
#[export] Instance zero_xlsxBorders : GoZero xlsxBorders :=
  mk_xlsxBorders gozero gozero.

Record xlsxAlignment := mk_xlsxAlignment {
  xlsxAlignment_Horizontal : string;
  xlsxAlignment_Indent : Z;
  xlsxAlignment_JustifyLastLine : bool;
  xlsxAlignment_ReadingOrder : Z;
  xlsxAlignment_RelativeIndent : Z;
  xlsxAlignment_ShrinkToFit : bool;
  xlsxAlignment_TextRotation : Z;
  xlsxAlignment_Vertical : string;
  xlsxAlignment_WrapText : bool
}.
#[export] Instance eta_xlsxAlignment : Eta xlsxAlignment := fun r =>
  mk_xlsxAlignment
    (xlsxAlignment_Horizontal r) (xlsxAlignment_Indent r) (xlsxAlignment_JustifyLastLine r)
    (xlsxAlignment_ReadingOrder r) (xlsxAlignment_RelativeIndent r) (xlsxAlignment_ShrinkToFit r)
    (xlsxAlignment_TextRotation r) (xlsxAlignment_Vertical r) (xlsxAlignment_WrapText r).
#[export] Instance zero_xlsxAlignment : GoZero xlsxAlignment :=
  mk_xlsxAlignment gozero gozero gozero gozero gozero gozero gozero gozero gozero.

Record xlsxProtection := mk_xlsxProtection {
  xlsxProtection_Hidden : bool;
  xlsxProtection_Locked : bool
}.
#[export] Instance eta_xlsxProtection : Eta xlsxProtection := fun r =>
  mk_xlsxProtection
    (xlsxProtection_Hidden r) (xlsxProtection_Locked r).
#[export] Instance zero_xlsxProtection : GoZero xlsxProtection :=
  mk_xlsxProtection gozero gozero.

Record xlsxXf := mk_xlsxXf {
  xlsxXf_ApplyAlignment : bool;
  xlsxXf_ApplyBorder : bool;
  xlsxXf_ApplyFill : bool;
  xlsxXf_ApplyFont : bool;
  xlsxXf_ApplyNumberFormat : bool;
  xlsxXf_ApplyProtection : bool;
  xlsxXf_BorderID : Z;
  xlsxXf_FillID : Z;
  xlsxXf_FontID : Z;
  xlsxXf_NumFmtID : Z;
  xlsxXf_PivotButton : bool;
  xlsxXf_QuotePrefix : bool;
  xlsxXf_XfID : option Z;
  xlsxXf_Alignment : option xlsxAlignment;
  xlsxXf_Protection : option xlsxProtection
}.
#[export] Instance eta_xlsxXf : Eta xlsxXf := fun r =>
  mk_xlsxXf
    (xlsxXf_ApplyAlignment r) (xlsxXf_ApplyBorder r) (xlsxXf_ApplyFill r) (xlsxXf_ApplyFont r)
    (xlsxXf_ApplyNumberFormat r) (xlsxXf_ApplyProtection r) (xlsxXf_BorderID r) (xlsxXf_FillID r)
    (xlsxXf_FontID r) (xlsxXf_NumFmtID r) (xlsxXf_PivotButton r) (xlsxXf_QuotePrefix r)
    (xlsxXf_XfID r) (xlsxXf_Alignment r) (xlsxXf_Protection r).
#[export] Instance zero_xlsxXf : GoZero xlsxXf :=
  mk_xlsxXf gozero gozero gozero gozero gozero gozero gozero gozero gozero gozero gozero gozero gozero gozero gozero.

Record xlsxCellStyleXfs := mk_xlsxCellStyleXfs {
  xlsxCellStyleXfs_Count : Z;
  xlsxCellStyleXfs_Xf : list xlsxXf
}.
#[export] Instance eta_xlsxCellStyleXfs : Eta xlsxCellStyleXfs := fun r =>
  mk_xlsxCellStyleXfs
    (xlsxCellStyleXfs_Count r) (xlsxCellStyleXfs_Xf r).
#[export] Instance zero_xlsxCellStyleXfs : GoZero xlsxCellStyleXfs :=
  mk_xlsxCellStyleXfs gozero gozero.

Record xlsxCellXfs := mk_xlsxCellXfs {
  xlsxCellXfs_Count : Z;
  xlsxCellXfs_Xf : list xlsxXf
}.
#[export] Instance eta_xlsxCellXfs : Eta xlsxCellXfs := fun r =>
  mk_xlsxCellXfs
    (xlsxCellXfs_Count r) (xlsxCellXfs_Xf r).
#[export] Instance zero_xlsxCellXfs : GoZero xlsxCellXfs :=
  mk_xlsxCellXfs gozero gozero.

Record xlsxCellStyle := mk_xlsxCellStyle {
  xlsxCellStyle_XMLName : xml_Name;
  xlsxCellStyle_BuiltInID : option Z;
  xlsxCellStyle_CustomBuiltIn : option bool;
  xlsxCellStyle_Hidden : option bool;
  xlsxCellStyle_ILevel : option bool;
  xlsxCellStyle_Name : string;
  xlsxCellStyle_XfID : Z
}.
#[export] Instance eta_xlsxCellStyle : Eta xlsxCellStyle := fun r =>
  mk_xlsxCellStyle
    (xlsxCellStyle_XMLName r) (xlsxCellStyle_BuiltInID r) (xlsxCellStyle_CustomBuiltIn r)
    (xlsxCellStyle_Hidden r) (xlsxCellStyle_ILevel r) (xlsxCellStyle_Name r) (xlsxCellStyle_XfID r).
#[export] Instance zero_xlsxCellStyle : GoZero xlsxCellStyle :=
  mk_xlsxCellStyle gozero gozero gozero gozero gozero gozero gozero.

Record xlsxCellStyles := mk_xlsxCellStyles {
  xlsxCellStyles_XMLName : xml_Name;
  xlsxCellStyles_Count : Z;
  xlsxCellStyles_CellStyle : list xlsxCellStyle
}.
#[export] Instance eta_xlsxCellStyles : Eta xlsxCellStyles := fun r =>
  mk_xlsxCellStyles
    (xlsxCellStyles_XMLName r) (xlsxCellStyles_Count r) (xlsxCellStyles_CellStyle r).
#[export] Instance zero_xlsxCellStyles : GoZero xlsxCellStyles :=
  mk_xlsxCellStyles gozero gozero gozero.

Record xlsxDxf := mk_xlsxDxf {
  xlsxDxf_Dxf : string
}.
#[export] Instance eta_xlsxDxf : Eta xlsxDxf := fun r =>
  mk_xlsxDxf
    (xlsxDxf_Dxf r).
#[export] Instance zero_xlsxDxf : GoZero xlsxDxf :=
  mk_xlsxDxf gozero.

Record xlsxDxfs := mk_xlsxDxfs {
  xlsxDxfs_Count : Z;
  xlsxDxfs_Dxfs : list xlsxDxf
}.
#[export] Instance eta_xlsxDxfs : Eta xlsxDxfs := fun r =>
  mk_xlsxDxfs
    (xlsxDxfs_Count r) (xlsxDxfs_Dxfs r).
#[export] Instance zero_xlsxDxfs : GoZero xlsxDxfs :=
  mk_xlsxDxfs gozero gozero.

Record xlsxTableStyle := mk_xlsxTableStyle {
  xlsxTableStyle_Name : string;
  xlsxTableStyle_Pivot : Z;
  xlsxTableStyle_Count : Z;
  xlsxTableStyle_Table : bool;
  xlsxTableStyle_TableStyleElement : string
}.
#[export] Instance eta_xlsxTableStyle : Eta xlsxTableStyle := fun r =>
  mk_xlsxTableStyle
    (xlsxTableStyle_Name r) (xlsxTableStyle_Pivot r) (xlsxTableStyle_Count r)
    (xlsxTableStyle_Table r) (xlsxTableStyle_TableStyleElement r).
#[export] Instance zero_xlsxTableStyle : GoZero xlsxTableStyle :=
  mk_xlsxTableStyle gozero gozero gozero gozero gozero.

Record xlsxTableStyles := mk_xlsxTableStyles {
  xlsxTableStyles_Count : Z;
  xlsxTableStyles_DefaultPivotStyle : string;
  xlsxTableStyles_DefaultTableStyle : string;
  xlsxTableStyles_TableStyles : list xlsxTableStyle
}.
#[export] Instance eta_xlsxTableStyles : Eta xlsxTableStyles := fun r =>
  mk_xlsxTableStyles
    (xlsxTableStyles_Count r) (xlsxTableStyles_DefaultPivotStyle r)
    (xlsxTableStyles_DefaultTableStyle r) (xlsxTableStyles_TableStyles r).
#[export] Instance zero_xlsxTableStyles : GoZero xlsxTableStyles :=
  mk_xlsxTableStyles gozero gozero gozero gozero.

Record xlsxStyleColors := mk_xlsxStyleColors {
  xlsxStyleColors_Color : string
}.
#[export] Instance eta_xlsxStyleColors : Eta xlsxStyleColors := fun r =>
  mk_xlsxStyleColors
    (xlsxStyleColors_Color r).
#[export] Instance zero_xlsxStyleColors : GoZero xlsxStyleColors :=
  mk_xlsxStyleColors gozero.

Record xlsxStyleSheet := mk_xlsxStyleSheet {
  xlsxStyleSheet_XMLName : xml_Name;
  xlsxStyleSheet_NumFmts : option xlsxNumFmts;
  xlsxStyleSheet_Fonts : option xlsxFonts;
  xlsxStyleSheet_Fills : option xlsxFills;
  xlsxStyleSheet_Borders : option xlsxBorders;
  xlsxStyleSheet_CellStyleXfs : option xlsxCellStyleXfs;
  xlsxStyleSheet_CellXfs : option xlsxCellXfs;
  xlsxStyleSheet_CellStyles : option xlsxCellStyles;
  xlsxStyleSheet_Dxfs : option xlsxDxfs;
  xlsxStyleSheet_TableStyles : option xlsxTableStyles;
  xlsxStyleSheet_Colors : option xlsxStyleColors;
  xlsxStyleSheet_ExtLst : option xlsxExtLst
}.
#[export] Instance eta_xlsxStyleSheet : Eta xlsxStyleSheet := fun r =>
  mk_xlsxStyleSheet
    (xlsxStyleSheet_XMLName r) (xlsxStyleSheet_NumFmts r) (xlsxStyleSheet_Fonts r)
    (xlsxStyleSheet_Fills r) (xlsxStyleSheet_Borders r) (xlsxStyleSheet_CellStyleXfs r)
    (xlsxStyleSheet_CellXfs r) (xlsxStyleSheet_CellStyles r) (xlsxStyleSheet_Dxfs r)
    (xlsxStyleSheet_TableStyles r) (xlsxStyleSheet_Colors r) (xlsxStyleSheet_ExtLst r).
#[export] Instance zero_xlsxStyleSheet : GoZero xlsxStyleSheet :=
  mk_xlsxStyleSheet gozero gozero gozero gozero gozero gozero gozero gozero gozero gozero gozero gozero.

Record formatStyle_Border_T := mk_formatStyle_Border_T {
  formatStyle_Border_T_Type : string;
  formatStyle_Border_T_Color : string;
  formatStyle_Border_T_Style : Z
}.
#[export] Instance eta_formatStyle_Border_T : Eta formatStyle_Border_T := fun r =>
  mk_formatStyle_Border_T
    (formatStyle_Border_T_Type r) (formatStyle_Border_T_Color r) (formatStyle_Border_T_Style r).
#[export] Instance zero_formatStyle_Border_T : GoZero formatStyle_Border_T :=
  mk_formatStyle_Border_T gozero gozero gozero.

Record formatStyle_Fill_T := mk_formatStyle_Fill_T {
  formatStyle_Fill_T_Type : string;
  formatStyle_Fill_T_Pattern : Z;
  formatStyle_Fill_T_Color : list string;
  formatStyle_Fill_T_Shading : Z
}.
#[export] Instance eta_formatStyle_Fill_T : Eta formatStyle_Fill_T := fun r =>
  mk_formatStyle_Fill_T
    (formatStyle_Fill_T_Type r) (formatStyle_Fill_T_Pattern r) (formatStyle_Fill_T_Color r)
    (formatStyle_Fill_T_Shading r).
#[export] Instance zero_formatStyle_Fill_T : GoZero formatStyle_Fill_T :=
  mk_formatStyle_Fill_T gozero gozero gozero gozero.

Record formatFont := mk_formatFont {
  formatFont_Bold : bool;
  formatFont_Italic : bool;
  formatFont_Underline : string;
  formatFont_Family : string;
  formatFont_Size : Z;
  formatFont_Color : string
}.
#[export] Instance eta_formatFont : Eta formatFont := fun r =>
  mk_formatFont
    (formatFont_Bold r) (formatFont_Italic r) (formatFont_Underline r) (formatFont_Family r)
    (formatFont_Size r) (formatFont_Color r).
#[export] Instance zero_formatFont : GoZero formatFont :=
  mk_formatFont gozero gozero gozero gozero gozero gozero.

Record formatStyle_Alignment_T := mk_formatStyle_Alignment_T {
  formatStyle_Alignment_T_Horizontal : string;
  formatStyle_Alignment_T_Indent : Z;
  formatStyle_Alignment_T_JustifyLastLine : bool;
  formatStyle_Alignment_T_ReadingOrder : Z;
  formatStyle_Alignment_T_RelativeIndent : Z;
  formatStyle_Alignment_T_ShrinkToFit : bool;
  formatStyle_Alignment_T_TextRotation : Z;
  formatStyle_Alignment_T_Vertical : string;
  formatStyle_Alignment_T_WrapText : bool
}.
#[export] Instance eta_formatStyle_Alignment_T : Eta formatStyle_Alignment_T := fun r =>
  mk_formatStyle_Alignment_T
    (formatStyle_Alignment_T_Horizontal r) (formatStyle_Alignment_T_Indent r)
    (formatStyle_Alignment_T_JustifyLastLine r) (formatStyle_Alignment_T_ReadingOrder r)
    (formatStyle_Alignment_T_RelativeIndent r) (formatStyle_Alignment_T_ShrinkToFit r)
    (formatStyle_Alignment_T_TextRotation r) (formatStyle_Alignment_T_Vertical r)
    (formatStyle_Alignment_T_WrapText r).
#[export] Instance zero_formatStyle_Alignment_T : GoZero formatStyle_Alignment_T :=
  mk_formatStyle_Alignment_T gozero gozero gozero gozero gozero gozero gozero gozero gozero.

Record formatStyle_Protection_T := mk_formatStyle_Protection_T {
  formatStyle_Protection_T_Hidden : bool;
  formatStyle_Protection_T_Locked : bool
}.
#[export] Instance eta_formatStyle_Protection_T : Eta formatStyle_Protection_T := fun r =>
  mk_formatStyle_Protection_T
    (formatStyle_Protection_T_Hidden r) (formatStyle_Protection_T_Locked r).
#[export] Instance zero_formatStyle_Protection_T : GoZero formatStyle_Protection_T :=
  mk_formatStyle_Protection_T gozero gozero.

Record formatStyle := mk_formatStyle {
  formatStyle_Border : list formatStyle_Border_T;
  formatStyle_Fill : formatStyle_Fill_T;
  formatStyle_Font : option formatFont;
  formatStyle_Alignment : option formatStyle_Alignment_T;
  formatStyle_Protection : option formatStyle_Protection_T;
  formatStyle_NumFmt : Z;
  formatStyle_DecimalPlaces : Z;
  formatStyle_CustomNumFmt : option string;
  formatStyle_Lang : string;
  formatStyle_NegRed : bool
}.
#[export] Instance eta_formatStyle : Eta formatStyle := fun r =>
  mk_formatStyle
    (formatStyle_Border r) (formatStyle_Fill r) (formatStyle_Font r) (formatStyle_Alignment r)
    (formatStyle_Protection r) (formatStyle_NumFmt r) (formatStyle_DecimalPlaces r)
    (formatStyle_CustomNumFmt r) (formatStyle_Lang r) (formatStyle_NegRed r).
#[export] Instance zero_formatStyle : GoZero formatStyle :=
  mk_formatStyle gozero gozero gozero gozero gozero gozero gozero gozero gozero gozero.

Record font := mk_font {
  font_Name : option attrValString;
  font_Charset : option attrValInt;
  font_Family : option attrValInt;
  font_B : bool;
  font_I : bool;
  font_Strike : bool;
  font_Outline : bool;
  font_Shadow : bool;
  font_Condense : bool;
  font_Extend : bool;
  font_Color : option xlsxColor;
  font_Sz : option attrValInt;
  font_U : option attrValString;
  font_Scheme : option attrValString
}.
#[export] Instance eta_font : Eta font := fun r =>
  mk_font
    (font_Name r) (font_Charset r) (font_Family r) (font_B r) (font_I r) (font_Strike r)
    (font_Outline r) (font_Shadow r) (font_Condense r) (font_Extend r) (font_Color r) (font_Sz r)
    (font_U r) (font_Scheme r).
#[export] Instance zero_font : GoZero font :=
  mk_font gozero gozero gozero gozero gozero gozero gozero gozero gozero gozero gozero gozero gozero gozero.

(** *** [xmlDrawing.go] *)

Record xlsxExt := mk_xlsxExt {
  xlsxExt_Cx : Z;
  xlsxExt_Cy : Z
}.
#[export] Instance eta_xlsxExt : Eta xlsxExt := fun r =>
  mk_xlsxExt
    (xlsxExt_Cx r) (xlsxExt_Cy r).
#[export] Instance zero_xlsxExt : GoZero xlsxExt :=
  mk_xlsxExt gozero gozero.

(** *** [xmlStyles.go] *)

Record dxf := mk_dxf {
  dxf_Font : option font;
  dxf_NumFmt : option xlsxNumFmt;
  dxf_Fill : option xlsxFill;
  dxf_Alignment : option xlsxAlignment;
  dxf_Border : option xlsxBorder;
  dxf_Protection : option xlsxProtection;
  dxf_ExtLst : option xlsxExt
}.
#[export] Instance eta_dxf : Eta dxf := fun r =>
  mk_dxf
    (dxf_Font r) (dxf_NumFmt r) (dxf_Fill r) (dxf_Alignment r) (dxf_Border r) (dxf_Protection r)
    (dxf_ExtLst r).
#[export] Instance zero_dxf : GoZero dxf :=
  mk_dxf gozero gozero gozero gozero gozero gozero gozero.
