(* ===== verification/XmlDrawing.v ===== *)
(** The structures of drawings: the drawing part with its pictures, shapes and
    graphic frames, the structures it is decoded into, the VML drawing of comments,
    the settings of pictures and shapes, and the theme. *)
From S2P Require Export XmlWorksheet XmlWorkbook XmlStyles.

(** *** [xmlDrawing.go] *)

Record xlsxFrom := mk_xlsxFrom {
  xlsxFrom_Col : Z;
  xlsxFrom_ColOff : Z;
  xlsxFrom_Row : Z;
  xlsxFrom_RowOff : Z
}.
#[export] Instance eta_xlsxFrom : Eta xlsxFrom := fun r =>
  mk_xlsxFrom
    (xlsxFrom_Col r) (xlsxFrom_ColOff r) (xlsxFrom_Row r) (xlsxFrom_RowOff r).
#[export] Instance zero_xlsxFrom : GoZero xlsxFrom :=
  mk_xlsxFrom gozero gozero gozero gozero.

Record xlsxTo := mk_xlsxTo {
  xlsxTo_Col : Z;
  xlsxTo_ColOff : Z;
  xlsxTo_Row : Z;
  xlsxTo_RowOff : Z
}.
#[export] Instance eta_xlsxTo : Eta xlsxTo := fun r =>
  mk_xlsxTo
    (xlsxTo_Col r) (xlsxTo_ColOff r) (xlsxTo_Row r) (xlsxTo_RowOff r).
#[export] Instance zero_xlsxTo : GoZero xlsxTo :=
  mk_xlsxTo gozero gozero gozero gozero.

Record xlsxHlinkClick := mk_xlsxHlinkClick {
  xlsxHlinkClick_R : string;
  xlsxHlinkClick_RID : string;
  xlsxHlinkClick_InvalidURL : string;
  xlsxHlinkClick_Action : string;
  xlsxHlinkClick_TgtFrame : string;
  xlsxHlinkClick_Tooltip : string;
  xlsxHlinkClick_History : bool;
  xlsxHlinkClick_HighlightClick : bool;
  xlsxHlinkClick_EndSnd : bool
}.
#[export] Instance eta_xlsxHlinkClick : Eta xlsxHlinkClick := fun r =>
  mk_xlsxHlinkClick
    (xlsxHlinkClick_R r) (xlsxHlinkClick_RID r) (xlsxHlinkClick_InvalidURL r)
    (xlsxHlinkClick_Action r) (xlsxHlinkClick_TgtFrame r) (xlsxHlinkClick_Tooltip r)
    (xlsxHlinkClick_History r) (xlsxHlinkClick_HighlightClick r) (xlsxHlinkClick_EndSnd r).
#[export] Instance zero_xlsxHlinkClick : GoZero xlsxHlinkClick :=
  mk_xlsxHlinkClick gozero gozero gozero gozero gozero gozero gozero gozero gozero.

Record xlsxCNvPr := mk_xlsxCNvPr {
  xlsxCNvPr_ID : Z;
  xlsxCNvPr_Name : string;
  xlsxCNvPr_Descr : string;
  xlsxCNvPr_Title : string;
  xlsxCNvPr_HlinkClick : option xlsxHlinkClick
}.
#[export] Instance eta_xlsxCNvPr : Eta xlsxCNvPr := fun r =>
  mk_xlsxCNvPr
    (xlsxCNvPr_ID r) (xlsxCNvPr_Name r) (xlsxCNvPr_Descr r) (xlsxCNvPr_Title r)
    (xlsxCNvPr_HlinkClick r).
#[export] Instance zero_xlsxCNvPr : GoZero xlsxCNvPr :=
  mk_xlsxCNvPr gozero gozero gozero gozero gozero.

Record xdrCNvSpPr := mk_xdrCNvSpPr {
  xdrCNvSpPr_TxBox : bool
}.
#[export] Instance eta_xdrCNvSpPr : Eta xdrCNvSpPr := fun r =>
  mk_xdrCNvSpPr
    (xdrCNvSpPr_TxBox r).
#[export] Instance zero_xdrCNvSpPr : GoZero xdrCNvSpPr :=
  mk_xdrCNvSpPr gozero.

Record xdrNvSpPr := mk_xdrNvSpPr {
  xdrNvSpPr_CNvPr : option xlsxCNvPr;
  xdrNvSpPr_CNvSpPr : option xdrCNvSpPr
}.
#[export] Instance eta_xdrNvSpPr : Eta xdrNvSpPr := fun r =>
  mk_xdrNvSpPr
    (xdrNvSpPr_CNvPr r) (xdrNvSpPr_CNvSpPr r).
#[export] Instance zero_xdrNvSpPr : GoZero xdrNvSpPr :=
  mk_xdrNvSpPr gozero gozero.

Record xlsxOff := mk_xlsxOff {
  xlsxOff_X : Z;
  xlsxOff_Y : Z
}.
#[export] Instance eta_xlsxOff : Eta xlsxOff := fun r =>
  mk_xlsxOff
    (xlsxOff_X r) (xlsxOff_Y r).
#[export] Instance zero_xlsxOff : GoZero xlsxOff :=
  mk_xlsxOff gozero gozero.

Record xlsxXfrm := mk_xlsxXfrm {
  xlsxXfrm_Off : xlsxOff;
  xlsxXfrm_Ext : xlsxExt
}.
#[export] Instance eta_xlsxXfrm : Eta xlsxXfrm := fun r =>
  mk_xlsxXfrm
    (xlsxXfrm_Off r) (xlsxXfrm_Ext r).
#[export] Instance zero_xlsxXfrm : GoZero xlsxXfrm :=
  mk_xlsxXfrm gozero gozero.

Record xlsxPrstGeom := mk_xlsxPrstGeom {
  xlsxPrstGeom_Prst : string
}.
#[export] Instance eta_xlsxPrstGeom : Eta xlsxPrstGeom := fun r =>
  mk_xlsxPrstGeom
    (xlsxPrstGeom_Prst r).
#[export] Instance zero_xlsxPrstGeom : GoZero xlsxPrstGeom :=
  mk_xlsxPrstGeom gozero.

Record xlsxSpPr := mk_xlsxSpPr {
  xlsxSpPr_Xfrm : xlsxXfrm;
  xlsxSpPr_PrstGeom : xlsxPrstGeom
}.
#[export] Instance eta_xlsxSpPr : Eta xlsxSpPr := fun r =>
  mk_xlsxSpPr
    (xlsxSpPr_Xfrm r) (xlsxSpPr_PrstGeom r).
#[export] Instance zero_xlsxSpPr : GoZero xlsxSpPr :=
  mk_xlsxSpPr gozero gozero.

Record aScrgbClr := mk_aScrgbClr {
  aScrgbClr_R : float64;
  aScrgbClr_G : float64;
  aScrgbClr_B : float64
}.
#[export] Instance eta_aScrgbClr : Eta aScrgbClr := fun r =>
  mk_aScrgbClr
    (aScrgbClr_R r) (aScrgbClr_G r) (aScrgbClr_B r).
#[export] Instance zero_aScrgbClr : GoZero aScrgbClr :=
  mk_aScrgbClr gozero gozero gozero.

Record aRef := mk_aRef {
  aRef_Idx : Z;
  aRef_ScrgbClr : option aScrgbClr;
  aRef_SchemeClr : option attrValString;
  aRef_SrgbClr : option attrValString
}.
#[export] Instance eta_aRef : Eta aRef := fun r =>
  mk_aRef
    (aRef_Idx r) (aRef_ScrgbClr r) (aRef_SchemeClr r) (aRef_SrgbClr r).
#[export] Instance zero_aRef : GoZero aRef :=
  mk_aRef gozero gozero gozero gozero.

Record aFontRef := mk_aFontRef {
  aFontRef_Idx : string;
  aFontRef_SchemeClr : option attrValString
}.
#[export] Instance eta_aFontRef : Eta aFontRef := fun r =>
  mk_aFontRef
    (aFontRef_Idx r) (aFontRef_SchemeClr r).
#[export] Instance zero_aFontRef : GoZero aFontRef :=
  mk_aFontRef gozero gozero.

Record xdrStyle := mk_xdrStyle {
  xdrStyle_LnRef : option aRef;
  xdrStyle_FillRef : option aRef;
  xdrStyle_EffectRef : option aRef;
  xdrStyle_FontRef : option aFontRef
}.
#[export] Instance eta_xdrStyle : Eta xdrStyle := fun r =>
  mk_xdrStyle
    (xdrStyle_LnRef r) (xdrStyle_FillRef r) (xdrStyle_EffectRef r) (xdrStyle_FontRef r).
#[export] Instance zero_xdrStyle : GoZero xdrStyle :=
  mk_xdrStyle gozero gozero gozero gozero.

(** *** [xmlChart.go] *)

Record aBodyPr := mk_aBodyPr {
  aBodyPr_Anchor : string;
  aBodyPr_AnchorCtr : bool;
  aBodyPr_Rot : Z;
  aBodyPr_BIns : float64;
  aBodyPr_CompatLnSpc : bool;
  aBodyPr_ForceAA : bool;
  aBodyPr_FromWordArt : bool;
  aBodyPr_HorzOverflow : string;
  aBodyPr_LIns : float64;
  aBodyPr_NumCol : Z;
  aBodyPr_RIns : float64;
  aBodyPr_RtlCol : bool;
  aBodyPr_SpcCol : Z;
  aBodyPr_SpcFirstLastPara : bool;
  aBodyPr_TIns : float64;
  aBodyPr_Upright : bool;
  aBodyPr_Vert : string;
  aBodyPr_VertOverflow : string;
  aBodyPr_Wrap : string
}.
#[export] Instance eta_aBodyPr : Eta aBodyPr := fun r =>
  mk_aBodyPr
    (aBodyPr_Anchor r) (aBodyPr_AnchorCtr r) (aBodyPr_Rot r) (aBodyPr_BIns r)
    (aBodyPr_CompatLnSpc r) (aBodyPr_ForceAA r) (aBodyPr_FromWordArt r) (aBodyPr_HorzOverflow r)
    (aBodyPr_LIns r) (aBodyPr_NumCol r) (aBodyPr_RIns r) (aBodyPr_RtlCol r) (aBodyPr_SpcCol r)
    (aBodyPr_SpcFirstLastPara r) (aBodyPr_TIns r) (aBodyPr_Upright r) (aBodyPr_Vert r)
    (aBodyPr_VertOverflow r) (aBodyPr_Wrap r).
#[export] Instance zero_aBodyPr : GoZero aBodyPr :=
  mk_aBodyPr gozero gozero gozero gozero gozero gozero gozero gozero gozero gozero gozero gozero gozero gozero gozero gozero gozero gozero gozero.

Record aSchemeClr := mk_aSchemeClr {
  aSchemeClr_Val : string;
  aSchemeClr_LumMod : option attrValInt;
  aSchemeClr_LumOff : option attrValInt
}.
#[export] Instance eta_aSchemeClr : Eta aSchemeClr := fun r =>
  mk_aSchemeClr
    (aSchemeClr_Val r) (aSchemeClr_LumMod r) (aSchemeClr_LumOff r).
#[export] Instance zero_aSchemeClr : GoZero aSchemeClr :=
  mk_aSchemeClr gozero gozero gozero.

Record aSolidFill := mk_aSolidFill {
  aSolidFill_SchemeClr : option aSchemeClr;
  aSolidFill_SrgbClr : option attrValString
}.
#[export] Instance eta_aSolidFill : Eta aSolidFill := fun r =>
  mk_aSolidFill
    (aSolidFill_SchemeClr r) (aSolidFill_SrgbClr r).
#[export] Instance zero_aSolidFill : GoZero aSolidFill :=
  mk_aSolidFill gozero gozero.

Record aLatin := mk_aLatin {
  aLatin_Typeface : string
}.
#[export] Instance eta_aLatin : Eta aLatin := fun r =>
  mk_aLatin
    (aLatin_Typeface r).
#[export] Instance zero_aLatin : GoZero aLatin :=
  mk_aLatin gozero.

Record aEa := mk_aEa {
  aEa_Typeface : string
}.
#[export] Instance eta_aEa : Eta aEa := fun r =>
  mk_aEa
    (aEa_Typeface r).
#[export] Instance zero_aEa : GoZero aEa :=
  mk_aEa gozero.

Record aCs := mk_aCs {
  aCs_Typeface : string
}.
#[export] Instance eta_aCs : Eta aCs := fun r =>
  mk_aCs
    (aCs_Typeface r).
#[export] Instance zero_aCs : GoZero aCs :=
  mk_aCs gozero.

Record aRPr := mk_aRPr {
  aRPr_AltLang : string;
  aRPr_B : bool;
  aRPr_Baseline : Z;
  aRPr_Bmk : string;
  aRPr_Cap : string;
  aRPr_Dirty : bool;
  aRPr_Err : bool;
  aRPr_I : bool;
  aRPr_Kern : Z;
  aRPr_Kumimoji : bool;
  aRPr_Lang : string;
  aRPr_NoProof : bool;
  aRPr_NormalizeH : bool;
  aRPr_SmtClean : bool;
  aRPr_SmtID : Z;
  aRPr_Spc : Z;
  aRPr_Strike : string;
  aRPr_Sz : Z;
  aRPr_U : string;
  aRPr_SolidFill : option aSolidFill;
  aRPr_Latin : option aLatin;
  aRPr_Ea : option aEa;
  aRPr_Cs : option aCs
}.
#[export] Instance eta_aRPr : Eta aRPr := fun r =>
  mk_aRPr
    (aRPr_AltLang r) (aRPr_B r) (aRPr_Baseline r) (aRPr_Bmk r) (aRPr_Cap r) (aRPr_Dirty r)
    (aRPr_Err r) (aRPr_I r) (aRPr_Kern r) (aRPr_Kumimoji r) (aRPr_Lang r) (aRPr_NoProof r)
    (aRPr_NormalizeH r) (aRPr_SmtClean r) (aRPr_SmtID r) (aRPr_Spc r) (aRPr_Strike r) (aRPr_Sz r)
    (aRPr_U r) (aRPr_SolidFill r) (aRPr_Latin r) (aRPr_Ea r) (aRPr_Cs r).
#[export] Instance zero_aRPr : GoZero aRPr :=
  mk_aRPr gozero gozero gozero gozero gozero gozero gozero gozero gozero gozero gozero gozero gozero gozero gozero gozero gozero gozero gozero gozero gozero gozero gozero.

Record aPPr := mk_aPPr {
  aPPr_DefRPr : aRPr
}.
#[export] Instance eta_aPPr : Eta aPPr := fun r =>
  mk_aPPr
    (aPPr_DefRPr r).
#[export] Instance zero_aPPr : GoZero aPPr :=
  mk_aPPr gozero.

Record aR := mk_aR {
  aR_RPr : aRPr;
  aR_T : string
}.
#[export] Instance eta_aR : Eta aR := fun r =>
  mk_aR
    (aR_RPr r) (aR_T r).
#[export] Instance zero_aR : GoZero aR :=
  mk_aR gozero gozero.

Record aEndParaRPr := mk_aEndParaRPr {
  aEndParaRPr_Lang : string;
  aEndParaRPr_AltLang : string;
  aEndParaRPr_Sz : Z
}.
#[export] Instance eta_aEndParaRPr : Eta aEndParaRPr := fun r =>
  mk_aEndParaRPr
    (aEndParaRPr_Lang r) (aEndParaRPr_AltLang r) (aEndParaRPr_Sz r).
#[export] Instance zero_aEndParaRPr : GoZero aEndParaRPr :=
  mk_aEndParaRPr gozero gozero gozero.

Record aP := mk_aP {
  aP_PPr : option aPPr;
  aP_R : option aR;
  aP_EndParaRPr : option aEndParaRPr
}.
#[export] Instance eta_aP : Eta aP := fun r =>
  mk_aP
    (aP_PPr r) (aP_R r) (aP_EndParaRPr r).
#[export] Instance zero_aP : GoZero aP :=
  mk_aP gozero gozero gozero.

(** *** [xmlDrawing.go] *)

Record xdrTxBody := mk_xdrTxBody {
  xdrTxBody_BodyPr : option aBodyPr;
  xdrTxBody_P : list aP
}.
#[export] Instance eta_xdrTxBody : Eta xdrTxBody := fun r =>
  mk_xdrTxBody
    (xdrTxBody_BodyPr r) (xdrTxBody_P r).
#[export] Instance zero_xdrTxBody : GoZero xdrTxBody :=
  mk_xdrTxBody gozero gozero.

Record xdrSp := mk_xdrSp {
  xdrSp_Macro : string;
  xdrSp_Textlink : string;
  xdrSp_NvSpPr : option xdrNvSpPr;
  xdrSp_SpPr : option xlsxSpPr;
  xdrSp_Style : option xdrStyle;
  xdrSp_TxBody : option xdrTxBody
}.
#[export] Instance eta_xdrSp : Eta xdrSp := fun r =>
  mk_xdrSp
    (xdrSp_Macro r) (xdrSp_Textlink r) (xdrSp_NvSpPr r) (xdrSp_SpPr r) (xdrSp_Style r)
    (xdrSp_TxBody r).
#[export] Instance zero_xdrSp : GoZero xdrSp :=
  mk_xdrSp gozero gozero gozero gozero gozero gozero.

Record xlsxPicLocks := mk_xlsxPicLocks {
  xlsxPicLocks_NoAdjustHandles : bool;
  xlsxPicLocks_NoChangeArrowheads : bool;
  xlsxPicLocks_NoChangeAspect : bool;
  xlsxPicLocks_NoChangeShapeType : bool;
  xlsxPicLocks_NoCrop : bool;
  xlsxPicLocks_NoEditPoints : bool;
  xlsxPicLocks_NoGrp : bool;
  xlsxPicLocks_NoMove : bool;
  xlsxPicLocks_NoResize : bool;
  xlsxPicLocks_NoRot : bool;
  xlsxPicLocks_NoSelect : bool
}.
#[export] Instance eta_xlsxPicLocks : Eta xlsxPicLocks := fun r =>
  mk_xlsxPicLocks
    (xlsxPicLocks_NoAdjustHandles r) (xlsxPicLocks_NoChangeArrowheads r)
    (xlsxPicLocks_NoChangeAspect r) (xlsxPicLocks_NoChangeShapeType r) (xlsxPicLocks_NoCrop r)
    (xlsxPicLocks_NoEditPoints r) (xlsxPicLocks_NoGrp r) (xlsxPicLocks_NoMove r)
    (xlsxPicLocks_NoResize r) (xlsxPicLocks_NoRot r) (xlsxPicLocks_NoSelect r).
#[export] Instance zero_xlsxPicLocks : GoZero xlsxPicLocks :=
  mk_xlsxPicLocks gozero gozero gozero gozero gozero gozero gozero gozero gozero gozero gozero.

Record xlsxCNvPicPr := mk_xlsxCNvPicPr {
  xlsxCNvPicPr_PicLocks : xlsxPicLocks
}.
#[export] Instance eta_xlsxCNvPicPr : Eta xlsxCNvPicPr := fun r =>
  mk_xlsxCNvPicPr
    (xlsxCNvPicPr_PicLocks r).
#[export] Instance zero_xlsxCNvPicPr : GoZero xlsxCNvPicPr :=
  mk_xlsxCNvPicPr gozero.

Record xlsxNvPicPr := mk_xlsxNvPicPr {
  xlsxNvPicPr_CNvPr : xlsxCNvPr;
  xlsxNvPicPr_CNvPicPr : xlsxCNvPicPr
}.
#[export] Instance eta_xlsxNvPicPr : Eta xlsxNvPicPr := fun r =>
  mk_xlsxNvPicPr
    (xlsxNvPicPr_CNvPr r) (xlsxNvPicPr_CNvPicPr r).
#[export] Instance zero_xlsxNvPicPr : GoZero xlsxNvPicPr :=
  mk_xlsxNvPicPr gozero gozero.

Record xlsxBlip := mk_xlsxBlip {
  xlsxBlip_Embed : string;
  xlsxBlip_Cstate : string;
  xlsxBlip_R : string
}.
#[export] Instance eta_xlsxBlip : Eta xlsxBlip := fun r =>
  mk_xlsxBlip
    (xlsxBlip_Embed r) (xlsxBlip_Cstate r) (xlsxBlip_R r).
#[export] Instance zero_xlsxBlip : GoZero xlsxBlip :=
  mk_xlsxBlip gozero gozero gozero.

Record xlsxStretch := mk_xlsxStretch {
  xlsxStretch_FillRect : string
}.
#[export] Instance eta_xlsxStretch : Eta xlsxStretch := fun r =>
  mk_xlsxStretch
    (xlsxStretch_FillRect r).
#[export] Instance zero_xlsxStretch : GoZero xlsxStretch :=
  mk_xlsxStretch gozero.

Record xlsxBlipFill := mk_xlsxBlipFill {
  xlsxBlipFill_Blip : xlsxBlip;
  xlsxBlipFill_Stretch : xlsxStretch
}.
#[export] Instance eta_xlsxBlipFill : Eta xlsxBlipFill := fun r =>
  mk_xlsxBlipFill
    (xlsxBlipFill_Blip r) (xlsxBlipFill_Stretch r).
#[export] Instance zero_xlsxBlipFill : GoZero xlsxBlipFill :=
  mk_xlsxBlipFill gozero gozero.

Record xlsxPic := mk_xlsxPic {
  xlsxPic_NvPicPr : xlsxNvPicPr;
  xlsxPic_BlipFill : xlsxBlipFill;
  xlsxPic_SpPr : xlsxSpPr
}.
#[export] Instance eta_xlsxPic : Eta xlsxPic := fun r =>
  mk_xlsxPic
    (xlsxPic_NvPicPr r) (xlsxPic_BlipFill r) (xlsxPic_SpPr r).
#[export] Instance zero_xlsxPic : GoZero xlsxPic :=
  mk_xlsxPic gozero gozero gozero.

Record xdrClientData := mk_xdrClientData {
  xdrClientData_FLocksWithSheet : bool;
  xdrClientData_FPrintsWithSheet : bool
}.
#[export] Instance eta_xdrClientData : Eta xdrClientData := fun r =>
  mk_xdrClientData
    (xdrClientData_FLocksWithSheet r) (xdrClientData_FPrintsWithSheet r).
#[export] Instance zero_xdrClientData : GoZero xdrClientData :=
  mk_xdrClientData gozero gozero.

Record xdrCellAnchor := mk_xdrCellAnchor {
  xdrCellAnchor_EditAs : string;
  xdrCellAnchor_From : option xlsxFrom;
  xdrCellAnchor_To : option xlsxTo;
  xdrCellAnchor_Ext : option xlsxExt;
  xdrCellAnchor_Sp : option xdrSp;
  xdrCellAnchor_Pic : option xlsxPic;
  xdrCellAnchor_GraphicFrame : string;
  xdrCellAnchor_ClientData : option xdrClientData
}.
#[export] Instance eta_xdrCellAnchor : Eta xdrCellAnchor := fun r =>
  mk_xdrCellAnchor
    (xdrCellAnchor_EditAs r) (xdrCellAnchor_From r) (xdrCellAnchor_To r) (xdrCellAnchor_Ext r)
    (xdrCellAnchor_Sp r) (xdrCellAnchor_Pic r) (xdrCellAnchor_GraphicFrame r)
    (xdrCellAnchor_ClientData r).
#[export] Instance zero_xdrCellAnchor : GoZero xdrCellAnchor :=
  mk_xdrCellAnchor gozero gozero gozero gozero gozero gozero gozero gozero.

Record xlsxWsDr := mk_xlsxWsDr {
  xlsxWsDr_XMLName : xml_Name;
  xlsxWsDr_OneCellAnchor : list xdrCellAnchor;
  xlsxWsDr_TwoCellAnchor : list xdrCellAnchor;
  xlsxWsDr_A : string;
  xlsxWsDr_Xdr : string;
  xlsxWsDr_R : string
}.
#[export] Instance eta_xlsxWsDr : Eta xlsxWsDr := fun r =>
  mk_xlsxWsDr
    (xlsxWsDr_XMLName r) (xlsxWsDr_OneCellAnchor r) (xlsxWsDr_TwoCellAnchor r) (xlsxWsDr_A r)
    (xlsxWsDr_Xdr r) (xlsxWsDr_R r).
#[export] Instance zero_xlsxWsDr : GoZero xlsxWsDr :=
  mk_xlsxWsDr gozero gozero gozero gozero gozero gozero.

Record xlsxNvGraphicFramePr := mk_xlsxNvGraphicFramePr {
  xlsxNvGraphicFramePr_CNvPr : option xlsxCNvPr;
  xlsxNvGraphicFramePr_ChicNvGraphicFramePr : string
}.
#[export] Instance eta_xlsxNvGraphicFramePr : Eta xlsxNvGraphicFramePr := fun r =>
  mk_xlsxNvGraphicFramePr
    (xlsxNvGraphicFramePr_CNvPr r) (xlsxNvGraphicFramePr_ChicNvGraphicFramePr r).
#[export] Instance zero_xlsxNvGraphicFramePr : GoZero xlsxNvGraphicFramePr :=
  mk_xlsxNvGraphicFramePr gozero gozero.

Record xlsxChart := mk_xlsxChart {
  xlsxChart_C : string;
  xlsxChart_RID : string;
  xlsxChart_R : string
}.
#[export] Instance eta_xlsxChart : Eta xlsxChart := fun r =>
  mk_xlsxChart
    (xlsxChart_C r) (xlsxChart_RID r) (xlsxChart_R r).
#[export] Instance zero_xlsxChart : GoZero xlsxChart :=
  mk_xlsxChart gozero gozero gozero.

Record xlsxGraphicData := mk_xlsxGraphicData {
  xlsxGraphicData_URI : string;
  xlsxGraphicData_Chart : option xlsxChart
}.
#[export] Instance eta_xlsxGraphicData : Eta xlsxGraphicData := fun r =>
  mk_xlsxGraphicData
    (xlsxGraphicData_URI r) (xlsxGraphicData_Chart r).
#[export] Instance zero_xlsxGraphicData : GoZero xlsxGraphicData :=
  mk_xlsxGraphicData gozero gozero.

Record xlsxGraphic := mk_xlsxGraphic {
  xlsxGraphic_GraphicData : option xlsxGraphicData
}.
#[export] Instance eta_xlsxGraphic : Eta xlsxGraphic := fun r =>
  mk_xlsxGraphic
    (xlsxGraphic_GraphicData r).
#[export] Instance zero_xlsxGraphic : GoZero xlsxGraphic :=
  mk_xlsxGraphic gozero.

Record xlsxGraphicFrame := mk_xlsxGraphicFrame {
  xlsxGraphicFrame_XMLName : xml_Name;
  xlsxGraphicFrame_Macro : string;
  xlsxGraphicFrame_NvGraphicFramePr : xlsxNvGraphicFramePr;
  xlsxGraphicFrame_Xfrm : xlsxXfrm;
  xlsxGraphicFrame_Graphic : option xlsxGraphic
}.
#[export] Instance eta_xlsxGraphicFrame : Eta xlsxGraphicFrame := fun r =>
  mk_xlsxGraphicFrame
    (xlsxGraphicFrame_XMLName r) (xlsxGraphicFrame_Macro r) (xlsxGraphicFrame_NvGraphicFramePr r)
    (xlsxGraphicFrame_Xfrm r) (xlsxGraphicFrame_Graphic r).
#[export] Instance zero_xlsxGraphicFrame : GoZero xlsxGraphicFrame :=
  mk_xlsxGraphicFrame gozero gozero gozero gozero gozero.

(** *** [xmlDecodeDrawing.go] *)

Record decodeCellAnchor := mk_decodeCellAnchor {
  decodeCellAnchor_EditAs : string;
  decodeCellAnchor_Content : string
}.
#[export] Instance eta_decodeCellAnchor : Eta decodeCellAnchor := fun r =>
  mk_decodeCellAnchor
    (decodeCellAnchor_EditAs r) (decodeCellAnchor_Content r).
#[export] Instance zero_decodeCellAnchor : GoZero decodeCellAnchor :=
  mk_decodeCellAnchor gozero gozero.

Record decodeWsDr := mk_decodeWsDr {
  decodeWsDr_A : string;
  decodeWsDr_Xdr : string;
  decodeWsDr_R : string;
  decodeWsDr_OneCellAnchor : list decodeCellAnchor;
  decodeWsDr_TwoCellAnchor : list decodeCellAnchor;
  decodeWsDr_XMLName : xml_Name
}.
#[export] Instance eta_decodeWsDr : Eta decodeWsDr := fun r =>
  mk_decodeWsDr
    (decodeWsDr_A r) (decodeWsDr_Xdr r) (decodeWsDr_R r) (decodeWsDr_OneCellAnchor r)
    (decodeWsDr_TwoCellAnchor r) (decodeWsDr_XMLName r).
#[export] Instance zero_decodeWsDr : GoZero decodeWsDr :=
  mk_decodeWsDr gozero gozero gozero gozero gozero gozero.

Record decodeFrom := mk_decodeFrom {
  decodeFrom_Col : Z;
  decodeFrom_ColOff : Z;
  decodeFrom_Row : Z;
  decodeFrom_RowOff : Z
}.
#[export] Instance eta_decodeFrom : Eta decodeFrom := fun r =>
  mk_decodeFrom
    (decodeFrom_Col r) (decodeFrom_ColOff r) (decodeFrom_Row r) (decodeFrom_RowOff r).
#[export] Instance zero_decodeFrom : GoZero decodeFrom :=
  mk_decodeFrom gozero gozero gozero gozero.

Record decodeTo := mk_decodeTo {
  decodeTo_Col : Z;
  decodeTo_ColOff : Z;
  decodeTo_Row : Z;
  decodeTo_RowOff : Z
}.
#[export] Instance eta_decodeTo : Eta decodeTo := fun r =>
  mk_decodeTo
    (decodeTo_Col r) (decodeTo_ColOff r) (decodeTo_Row r) (decodeTo_RowOff r).
#[export] Instance zero_decodeTo : GoZero decodeTo :=
  mk_decodeTo gozero gozero gozero gozero.

Record decodeCNvPr := mk_decodeCNvPr {
  decodeCNvPr_ID : Z;
  decodeCNvPr_Name : string;
  decodeCNvPr_Descr : string;
  decodeCNvPr_Title : string
}.
#[export] Instance eta_decodeCNvPr : Eta decodeCNvPr := fun r =>
  mk_decodeCNvPr
    (decodeCNvPr_ID r) (decodeCNvPr_Name r) (decodeCNvPr_Descr r) (decodeCNvPr_Title r).
#[export] Instance zero_decodeCNvPr : GoZero decodeCNvPr :=
  mk_decodeCNvPr gozero gozero gozero gozero.

Record decodePicLocks := mk_decodePicLocks {
  decodePicLocks_NoAdjustHandles : bool;
  decodePicLocks_NoChangeArrowheads : bool;
  decodePicLocks_NoChangeAspect : bool;
  decodePicLocks_NoChangeShapeType : bool;
  decodePicLocks_NoCrop : bool;
  decodePicLocks_NoEditPoints : bool;
  decodePicLocks_NoGrp : bool;
  decodePicLocks_NoMove : bool;
  decodePicLocks_NoResize : bool;
  decodePicLocks_NoRot : bool;
  decodePicLocks_NoSelect : bool
}.
#[export] Instance eta_decodePicLocks : Eta decodePicLocks := fun r =>
  mk_decodePicLocks
    (decodePicLocks_NoAdjustHandles r) (decodePicLocks_NoChangeArrowheads r)
    (decodePicLocks_NoChangeAspect r) (decodePicLocks_NoChangeShapeType r)
    (decodePicLocks_NoCrop r) (decodePicLocks_NoEditPoints r) (decodePicLocks_NoGrp r)
    (decodePicLocks_NoMove r) (decodePicLocks_NoResize r) (decodePicLocks_NoRot r)
    (decodePicLocks_NoSelect r).
#[export] Instance zero_decodePicLocks : GoZero decodePicLocks :=
  mk_decodePicLocks gozero gozero gozero gozero gozero gozero gozero gozero gozero gozero gozero.

Record decodeCNvPicPr := mk_decodeCNvPicPr {
  decodeCNvPicPr_PicLocks : decodePicLocks
}.
#[export] Instance eta_decodeCNvPicPr : Eta decodeCNvPicPr := fun r =>
  mk_decodeCNvPicPr
    (decodeCNvPicPr_PicLocks r).
#[export] Instance zero_decodeCNvPicPr : GoZero decodeCNvPicPr :=
  mk_decodeCNvPicPr gozero.

Record decodeNvPicPr := mk_decodeNvPicPr {
  decodeNvPicPr_CNvPr : decodeCNvPr;
  decodeNvPicPr_CNvPicPr : decodeCNvPicPr
}.
#[export] Instance eta_decodeNvPicPr : Eta decodeNvPicPr := fun r =>
  mk_decodeNvPicPr
    (decodeNvPicPr_CNvPr r) (decodeNvPicPr_CNvPicPr r).
#[export] Instance zero_decodeNvPicPr : GoZero decodeNvPicPr :=
  mk_decodeNvPicPr gozero gozero.

Record decodeBlip := mk_decodeBlip {
  decodeBlip_Embed : string;
  decodeBlip_Cstate : string;
  decodeBlip_R : string
}.
#[export] Instance eta_decodeBlip : Eta decodeBlip := fun r =>
  mk_decodeBlip
    (decodeBlip_Embed r) (decodeBlip_Cstate r) (decodeBlip_R r).
#[export] Instance zero_decodeBlip : GoZero decodeBlip :=
  mk_decodeBlip gozero gozero gozero.

Record decodeStretch := mk_decodeStretch {
  decodeStretch_FillRect : string
}.
#[export] Instance eta_decodeStretch : Eta decodeStretch := fun r =>
  mk_decodeStretch
    (decodeStretch_FillRect r).
#[export] Instance zero_decodeStretch : GoZero decodeStretch :=
  mk_decodeStretch gozero.

Record decodeBlipFill := mk_decodeBlipFill {
  decodeBlipFill_Blip : decodeBlip;
  decodeBlipFill_Stretch : decodeStretch
}.
#[export] Instance eta_decodeBlipFill : Eta decodeBlipFill := fun r =>
  mk_decodeBlipFill
    (decodeBlipFill_Blip r) (decodeBlipFill_Stretch r).
#[export] Instance zero_decodeBlipFill : GoZero decodeBlipFill :=
  mk_decodeBlipFill gozero gozero.

Record decodeOff := mk_decodeOff {
  decodeOff_X : Z;
  decodeOff_Y : Z
}.
#[export] Instance eta_decodeOff : Eta decodeOff := fun r =>
  mk_decodeOff
    (decodeOff_X r) (decodeOff_Y r).
#[export] Instance zero_decodeOff : GoZero decodeOff :=
  mk_decodeOff gozero gozero.

Record decodeExt := mk_decodeExt {
  decodeExt_Cx : Z;
  decodeExt_Cy : Z
}.
#[export] Instance eta_decodeExt : Eta decodeExt := fun r =>
  mk_decodeExt
    (decodeExt_Cx r) (decodeExt_Cy r).
#[export] Instance zero_decodeExt : GoZero decodeExt :=
  mk_decodeExt gozero gozero.

Record decodeXfrm := mk_decodeXfrm {
  decodeXfrm_Off : decodeOff;
  decodeXfrm_Ext : decodeExt
}.
#[export] Instance eta_decodeXfrm : Eta decodeXfrm := fun r =>
  mk_decodeXfrm
    (decodeXfrm_Off r) (decodeXfrm_Ext r).
#[export] Instance zero_decodeXfrm : GoZero decodeXfrm :=
  mk_decodeXfrm gozero gozero.

Record decodePrstGeom := mk_decodePrstGeom {
  decodePrstGeom_Prst : string
}.
#[export] Instance eta_decodePrstGeom : Eta decodePrstGeom := fun r =>
  mk_decodePrstGeom
    (decodePrstGeom_Prst r).
#[export] Instance zero_decodePrstGeom : GoZero decodePrstGeom :=
  mk_decodePrstGeom gozero.

Record decodeSpPr := mk_decodeSpPr {
  decodeSpPr_Xfrm : decodeXfrm;
  decodeSpPr_PrstGeom : decodePrstGeom
}.
#[export] Instance eta_decodeSpPr : Eta decodeSpPr := fun r =>
  mk_decodeSpPr
    (decodeSpPr_Xfrm r) (decodeSpPr_PrstGeom r).
#[export] Instance zero_decodeSpPr : GoZero decodeSpPr :=
  mk_decodeSpPr gozero gozero.

Record decodePic := mk_decodePic {
  decodePic_NvPicPr : decodeNvPicPr;
  decodePic_BlipFill : decodeBlipFill;
  decodePic_SpPr : decodeSpPr
}.
#[export] Instance eta_decodePic : Eta decodePic := fun r =>
  mk_decodePic
    (decodePic_NvPicPr r) (decodePic_BlipFill r) (decodePic_SpPr r).
#[export] Instance zero_decodePic : GoZero decodePic :=
  mk_decodePic gozero gozero gozero.

Record decodeClientData := mk_decodeClientData {
  decodeClientData_FLocksWithSheet : bool;
  decodeClientData_FPrintsWithSheet : bool
}.
#[export] Instance eta_decodeClientData : Eta decodeClientData := fun r =>
  mk_decodeClientData
    (decodeClientData_FLocksWithSheet r) (decodeClientData_FPrintsWithSheet r).
#[export] Instance zero_decodeClientData : GoZero decodeClientData :=
  mk_decodeClientData gozero gozero.

Record decodeTwoCellAnchor := mk_decodeTwoCellAnchor {
  decodeTwoCellAnchor_From : option decodeFrom;
  decodeTwoCellAnchor_To : option decodeTo;
  decodeTwoCellAnchor_Pic : option decodePic;
  decodeTwoCellAnchor_ClientData : option decodeClientData
}.
#[export] Instance eta_decodeTwoCellAnchor : Eta decodeTwoCellAnchor := fun r =>
  mk_decodeTwoCellAnchor
    (decodeTwoCellAnchor_From r) (decodeTwoCellAnchor_To r) (decodeTwoCellAnchor_Pic r)
    (decodeTwoCellAnchor_ClientData r).
#[export] Instance zero_decodeTwoCellAnchor : GoZero decodeTwoCellAnchor :=
  mk_decodeTwoCellAnchor gozero gozero gozero gozero.

(** *** [vmlDrawing.go] *)

Record xlsxIDmap := mk_xlsxIDmap {
  xlsxIDmap_Ext : string;
  xlsxIDmap_Data : Z
}.
#[export] Instance eta_xlsxIDmap : Eta xlsxIDmap := fun r =>
  mk_xlsxIDmap
    (xlsxIDmap_Ext r) (xlsxIDmap_Data r).
#[export] Instance zero_xlsxIDmap : GoZero xlsxIDmap :=
  mk_xlsxIDmap gozero gozero.

Record xlsxShapelayout := mk_xlsxShapelayout {
  xlsxShapelayout_Ext : string;
  xlsxShapelayout_IDmap : option xlsxIDmap
}.
#[export] Instance eta_xlsxShapelayout : Eta xlsxShapelayout := fun r =>
  mk_xlsxShapelayout
    (xlsxShapelayout_Ext r) (xlsxShapelayout_IDmap r).
#[export] Instance zero_xlsxShapelayout : GoZero xlsxShapelayout :=
  mk_xlsxShapelayout gozero gozero.

Record xlsxStroke := mk_xlsxStroke {
  xlsxStroke_Joinstyle : string
}.
#[export] Instance eta_xlsxStroke : Eta xlsxStroke := fun r =>
  mk_xlsxStroke
    (xlsxStroke_Joinstyle r).
#[export] Instance zero_xlsxStroke : GoZero xlsxStroke :=
  mk_xlsxStroke gozero.

Record vPath := mk_vPath {
  vPath_Gradientshapeok : string;
  vPath_Connecttype : string
}.
#[export] Instance eta_vPath : Eta vPath := fun r =>
  mk_vPath
    (vPath_Gradientshapeok r) (vPath_Connecttype r).
#[export] Instance zero_vPath : GoZero vPath :=
  mk_vPath gozero gozero.

Record xlsxShapetype := mk_xlsxShapetype {
  xlsxShapetype_ID : string;
  xlsxShapetype_Coordsize : string;
  xlsxShapetype_Spt : Z;
  xlsxShapetype_Path : string;
  xlsxShapetype_Stroke : option xlsxStroke;
  xlsxShapetype_VPath : option vPath
}.
#[export] Instance eta_xlsxShapetype : Eta xlsxShapetype := fun r =>
  mk_xlsxShapetype
    (xlsxShapetype_ID r) (xlsxShapetype_Coordsize r) (xlsxShapetype_Spt r) (xlsxShapetype_Path r)
    (xlsxShapetype_Stroke r) (xlsxShapetype_VPath r).
#[export] Instance zero_xlsxShapetype : GoZero xlsxShapetype :=
  mk_xlsxShapetype gozero gozero gozero gozero gozero gozero.

Record xlsxShape := mk_xlsxShape {
  xlsxShape_XMLName : xml_Name;
  xlsxShape_ID : string;
  xlsxShape_Type : string;
  xlsxShape_Style : string;
  xlsxShape_Fillcolor : string;
  xlsxShape_Insetmode : string;
  xlsxShape_Strokecolor : string;
  xlsxShape_Val : string
}.
#[export] Instance eta_xlsxShape : Eta xlsxShape := fun r =>
  mk_xlsxShape
    (xlsxShape_XMLName r) (xlsxShape_ID r) (xlsxShape_Type r) (xlsxShape_Style r)
    (xlsxShape_Fillcolor r) (xlsxShape_Insetmode r) (xlsxShape_Strokecolor r) (xlsxShape_Val r).
#[export] Instance zero_xlsxShape : GoZero xlsxShape :=
  mk_xlsxShape gozero gozero gozero gozero gozero gozero gozero gozero.

Record vmlDrawing := mk_vmlDrawing {
  vmlDrawing_XMLName : xml_Name;
  vmlDrawing_XMLNSv : string;
  vmlDrawing_XMLNSo : string;
  vmlDrawing_XMLNSx : string;
  vmlDrawing_XMLNSmv : string;
  vmlDrawing_Shapelayout : option xlsxShapelayout;
  vmlDrawing_Shapetype : option xlsxShapetype;
  vmlDrawing_Shape : list xlsxShape
}.
#[export] Instance eta_vmlDrawing : Eta vmlDrawing := fun r =>
  mk_vmlDrawing
    (vmlDrawing_XMLName r) (vmlDrawing_XMLNSv r) (vmlDrawing_XMLNSo r) (vmlDrawing_XMLNSx r)
    (vmlDrawing_XMLNSmv r) (vmlDrawing_Shapelayout r) (vmlDrawing_Shapetype r) (vmlDrawing_Shape r).
#[export] Instance zero_vmlDrawing : GoZero vmlDrawing :=
  mk_vmlDrawing gozero gozero gozero gozero gozero gozero gozero gozero.

Record decodeShape := mk_decodeShape {
  decodeShape_Val : string
}.
#[export] Instance eta_decodeShape : Eta decodeShape := fun r =>
  mk_decodeShape
    (decodeShape_Val r).
#[export] Instance zero_decodeShape : GoZero decodeShape :=
  mk_decodeShape gozero.

Record decodeVmlDrawing := mk_decodeVmlDrawing {
  decodeVmlDrawing_Shape : list decodeShape
}.
#[export] Instance eta_decodeVmlDrawing : Eta decodeVmlDrawing := fun r =>
  mk_decodeVmlDrawing
    (decodeVmlDrawing_Shape r).
#[export] Instance zero_decodeVmlDrawing : GoZero decodeVmlDrawing :=
  mk_decodeVmlDrawing gozero.

Record oFill := mk_oFill {
  oFill_Ext : string;
  oFill_Type : string
}.
#[export] Instance eta_oFill : Eta oFill := fun r =>
  mk_oFill
    (oFill_Ext r) (oFill_Type r).
#[export] Instance zero_oFill : GoZero oFill :=
  mk_oFill gozero gozero.

Record vFill := mk_vFill {
  vFill_Angle : Z;
  vFill_Color2 : string;
  vFill_Type : string;
  vFill_Fill : option oFill
}.
#[export] Instance eta_vFill : Eta vFill := fun r =>
  mk_vFill
    (vFill_Angle r) (vFill_Color2 r) (vFill_Type r) (vFill_Fill r).
#[export] Instance zero_vFill : GoZero vFill :=
  mk_vFill gozero gozero gozero gozero.

Record vShadow := mk_vShadow {
  vShadow_On : string;
  vShadow_Color : string;
  vShadow_Obscured : string
}.
#[export] Instance eta_vShadow : Eta vShadow := fun r =>
  mk_vShadow
    (vShadow_On r) (vShadow_Color r) (vShadow_Obscured r).
#[export] Instance zero_vShadow : GoZero vShadow :=
  mk_vShadow gozero gozero gozero.

Record xlsxDiv := mk_xlsxDiv {
  xlsxDiv_Style : string
}.
#[export] Instance eta_xlsxDiv : Eta xlsxDiv := fun r =>
  mk_xlsxDiv
    (xlsxDiv_Style r).
#[export] Instance zero_xlsxDiv : GoZero xlsxDiv :=
  mk_xlsxDiv gozero.

Record vTextbox := mk_vTextbox {
  vTextbox_Style : string;
  vTextbox_Div : option xlsxDiv
}.
#[export] Instance eta_vTextbox : Eta vTextbox := fun r =>
  mk_vTextbox
    (vTextbox_Style r) (vTextbox_Div r).
#[export] Instance zero_vTextbox : GoZero vTextbox :=
  mk_vTextbox gozero gozero.

Record xClientData := mk_xClientData {
  xClientData_ObjectType : string;
  xClientData_MoveWithCells : string;
  xClientData_SizeWithCells : string;
  xClientData_Anchor : string;
  xClientData_AutoFill : string;
  xClientData_Row : Z;
  xClientData_Column : Z
}.
#[export] Instance eta_xClientData : Eta xClientData := fun r =>
  mk_xClientData
    (xClientData_ObjectType r) (xClientData_MoveWithCells r) (xClientData_SizeWithCells r)
    (xClientData_Anchor r) (xClientData_AutoFill r) (xClientData_Row r) (xClientData_Column r).
#[export] Instance zero_xClientData : GoZero xClientData :=
  mk_xClientData gozero gozero gozero gozero gozero gozero gozero.

Record encodeShape := mk_encodeShape {
  encodeShape_Fill : option vFill;
  encodeShape_Shadow : option vShadow;
  encodeShape_Path : option vPath;
  encodeShape_Textbox : option vTextbox;
  encodeShape_ClientData : option xClientData
}.
#[export] Instance eta_encodeShape : Eta encodeShape := fun r =>
  mk_encodeShape
    (encodeShape_Fill r) (encodeShape_Shadow r) (encodeShape_Path r) (encodeShape_Textbox r)
    (encodeShape_ClientData r).
#[export] Instance zero_encodeShape : GoZero encodeShape :=
  mk_encodeShape gozero gozero gozero gozero gozero.

(** *** [xmlDrawing.go] *)

Record formatPicture := mk_formatPicture {
  formatPicture_FPrintsWithSheet : bool;
  formatPicture_FLocksWithSheet : bool;
  formatPicture_NoChangeAspect : bool;
  formatPicture_OffsetX : Z;
  formatPicture_OffsetY : Z;
  formatPicture_XScale : float64;
  formatPicture_YScale : float64;
  formatPicture_Hyperlink : string;
  formatPicture_HyperlinkType : string;
  formatPicture_Positioning : string
}.
#[export] Instance eta_formatPicture : Eta formatPicture := fun r =>
  mk_formatPicture
    (formatPicture_FPrintsWithSheet r) (formatPicture_FLocksWithSheet r)
    (formatPicture_NoChangeAspect r) (formatPicture_OffsetX r) (formatPicture_OffsetY r)
    (formatPicture_XScale r) (formatPicture_YScale r) (formatPicture_Hyperlink r)
    (formatPicture_HyperlinkType r) (formatPicture_Positioning r).
#[export] Instance zero_formatPicture : GoZero formatPicture :=
  mk_formatPicture gozero gozero gozero gozero gozero gozero gozero gozero gozero gozero.

Record formatShapeColor := mk_formatShapeColor {
  formatShapeColor_Line : string;
  formatShapeColor_Fill : string;
  formatShapeColor_Effect : string
}.
#[export] Instance eta_formatShapeColor : Eta formatShapeColor := fun r =>
  mk_formatShapeColor
    (formatShapeColor_Line r) (formatShapeColor_Fill r) (formatShapeColor_Effect r).
#[export] Instance zero_formatShapeColor : GoZero formatShapeColor :=
  mk_formatShapeColor gozero gozero gozero.

Record formatShapeParagraph := mk_formatShapeParagraph {
  formatShapeParagraph_Font : formatFont;
  formatShapeParagraph_Text : string
}.
#[export] Instance eta_formatShapeParagraph : Eta formatShapeParagraph := fun r =>
  mk_formatShapeParagraph
    (formatShapeParagraph_Font r) (formatShapeParagraph_Text r).
#[export] Instance zero_formatShapeParagraph : GoZero formatShapeParagraph :=
  mk_formatShapeParagraph gozero gozero.

Record formatShape := mk_formatShape {
  formatShape_Type : string;
  formatShape_Width : Z;
  formatShape_Height : Z;
  formatShape_Format : formatPicture;
  formatShape_Color : formatShapeColor;
  formatShape_Paragraph : list formatShapeParagraph
}.
#[export] Instance eta_formatShape : Eta formatShape := fun r =>
  mk_formatShape
    (formatShape_Type r) (formatShape_Width r) (formatShape_Height r) (formatShape_Format r)
    (formatShape_Color r) (formatShape_Paragraph r).
#[export] Instance zero_formatShape : GoZero formatShape :=
  mk_formatShape gozero gozero gozero gozero gozero gozero.

(** *** [xmlTheme.go] *)

Record xlsxSysClr := mk_xlsxSysClr {
  xlsxSysClr_Val : string;
  xlsxSysClr_LastClr : string
}.
#[export] Instance eta_xlsxSysClr : Eta xlsxSysClr := fun r =>
  mk_xlsxSysClr
    (xlsxSysClr_Val r) (xlsxSysClr_LastClr r).
#[export] Instance zero_xlsxSysClr : GoZero xlsxSysClr :=
  mk_xlsxSysClr gozero gozero.

Record xlsxClrSchemeEl := mk_xlsxClrSchemeEl {
  xlsxClrSchemeEl_XMLName : xml_Name;
  xlsxClrSchemeEl_SysClr : option xlsxSysClr;
  xlsxClrSchemeEl_SrgbClr : option attrValString
}.
#[export] Instance eta_xlsxClrSchemeEl : Eta xlsxClrSchemeEl := fun r =>
  mk_xlsxClrSchemeEl
    (xlsxClrSchemeEl_XMLName r) (xlsxClrSchemeEl_SysClr r) (xlsxClrSchemeEl_SrgbClr r).
#[export] Instance zero_xlsxClrSchemeEl : GoZero xlsxClrSchemeEl :=
  mk_xlsxClrSchemeEl gozero gozero gozero.

Record xlsxClrScheme := mk_xlsxClrScheme {
  xlsxClrScheme_Name : string;
  xlsxClrScheme_Children : list xlsxClrSchemeEl
}.
#[export] Instance eta_xlsxClrScheme : Eta xlsxClrScheme := fun r =>
  mk_xlsxClrScheme
    (xlsxClrScheme_Name r) (xlsxClrScheme_Children r).
#[export] Instance zero_xlsxClrScheme : GoZero xlsxClrScheme :=
  mk_xlsxClrScheme gozero gozero.

Record xlsxFontSchemeEl := mk_xlsxFontSchemeEl {
  xlsxFontSchemeEl_XMLName : xml_Name;
  xlsxFontSchemeEl_Script : string;
  xlsxFontSchemeEl_Typeface : string;
  xlsxFontSchemeEl_Panose : string;
  xlsxFontSchemeEl_PitchFamily : string;
  xlsxFontSchemeEl_Charset : string
}.
#[export] Instance eta_xlsxFontSchemeEl : Eta xlsxFontSchemeEl := fun r =>
  mk_xlsxFontSchemeEl
    (xlsxFontSchemeEl_XMLName r) (xlsxFontSchemeEl_Script r) (xlsxFontSchemeEl_Typeface r)
    (xlsxFontSchemeEl_Panose r) (xlsxFontSchemeEl_PitchFamily r) (xlsxFontSchemeEl_Charset r).
#[export] Instance zero_xlsxFontSchemeEl : GoZero xlsxFontSchemeEl :=
  mk_xlsxFontSchemeEl gozero gozero gozero gozero gozero gozero.

Record xlsxMajorFont := mk_xlsxMajorFont {
  xlsxMajorFont_Children : list xlsxFontSchemeEl
}.
#[export] Instance eta_xlsxMajorFont : Eta xlsxMajorFont := fun r =>
  mk_xlsxMajorFont
    (xlsxMajorFont_Children r).
#[export] Instance zero_xlsxMajorFont : GoZero xlsxMajorFont :=
  mk_xlsxMajorFont gozero.

Record xlsxMinorFont := mk_xlsxMinorFont {
  xlsxMinorFont_Children : list xlsxFontSchemeEl
}.
#[export] Instance eta_xlsxMinorFont : Eta xlsxMinorFont := fun r =>
  mk_xlsxMinorFont
    (xlsxMinorFont_Children r).
#[export] Instance zero_xlsxMinorFont : GoZero xlsxMinorFont :=
  mk_xlsxMinorFont gozero.

Record xlsxFontScheme := mk_xlsxFontScheme {
  xlsxFontScheme_Name : string;
  xlsxFontScheme_MajorFont : xlsxMajorFont;
  xlsxFontScheme_MinorFont : xlsxMinorFont;
  xlsxFontScheme_ExtLst : option xlsxExtLst
}.
#[export] Instance eta_xlsxFontScheme : Eta xlsxFontScheme := fun r =>
  mk_xlsxFontScheme
    (xlsxFontScheme_Name r) (xlsxFontScheme_MajorFont r) (xlsxFontScheme_MinorFont r)
    (xlsxFontScheme_ExtLst r).
#[export] Instance zero_xlsxFontScheme : GoZero xlsxFontScheme :=
  mk_xlsxFontScheme gozero gozero gozero gozero.

Record xlsxFillStyleLst := mk_xlsxFillStyleLst {
  xlsxFillStyleLst_FillStyleLst : string
}.
#[export] Instance eta_xlsxFillStyleLst : Eta xlsxFillStyleLst := fun r =>
  mk_xlsxFillStyleLst
    (xlsxFillStyleLst_FillStyleLst r).
#[export] Instance zero_xlsxFillStyleLst : GoZero xlsxFillStyleLst :=
  mk_xlsxFillStyleLst gozero.

Record xlsxLnStyleLst := mk_xlsxLnStyleLst {
  xlsxLnStyleLst_LnStyleLst : string
}.
#[export] Instance eta_xlsxLnStyleLst : Eta xlsxLnStyleLst := fun r =>
  mk_xlsxLnStyleLst
    (xlsxLnStyleLst_LnStyleLst r).
#[export] Instance zero_xlsxLnStyleLst : GoZero xlsxLnStyleLst :=
  mk_xlsxLnStyleLst gozero.

Record xlsxEffectStyleLst := mk_xlsxEffectStyleLst {
  xlsxEffectStyleLst_EffectStyleLst : string
}.
#[export] Instance eta_xlsxEffectStyleLst : Eta xlsxEffectStyleLst := fun r =>
  mk_xlsxEffectStyleLst
    (xlsxEffectStyleLst_EffectStyleLst r).
#[export] Instance zero_xlsxEffectStyleLst : GoZero xlsxEffectStyleLst :=
  mk_xlsxEffectStyleLst gozero.

Record xlsxBgFillStyleLst := mk_xlsxBgFillStyleLst {
  xlsxBgFillStyleLst_BgFillStyleLst : string
}.
#[export] Instance eta_xlsxBgFillStyleLst : Eta xlsxBgFillStyleLst := fun r =>
  mk_xlsxBgFillStyleLst
    (xlsxBgFillStyleLst_BgFillStyleLst r).
#[export] Instance zero_xlsxBgFillStyleLst : GoZero xlsxBgFillStyleLst :=
  mk_xlsxBgFillStyleLst gozero.

Record xlsxFmtScheme := mk_xlsxFmtScheme {
  xlsxFmtScheme_Name : string;
  xlsxFmtScheme_FillStyleLst : xlsxFillStyleLst;
  xlsxFmtScheme_LnStyleLst : xlsxLnStyleLst;
  xlsxFmtScheme_EffectStyleLst : xlsxEffectStyleLst;
  xlsxFmtScheme_BgFillStyleLst : xlsxBgFillStyleLst
}.
#[export] Instance eta_xlsxFmtScheme : Eta xlsxFmtScheme := fun r =>
  mk_xlsxFmtScheme
    (xlsxFmtScheme_Name r) (xlsxFmtScheme_FillStyleLst r) (xlsxFmtScheme_LnStyleLst r)
    (xlsxFmtScheme_EffectStyleLst r) (xlsxFmtScheme_BgFillStyleLst r).
#[export] Instance zero_xlsxFmtScheme : GoZero xlsxFmtScheme :=
  mk_xlsxFmtScheme gozero gozero gozero gozero gozero.

Record xlsxThemeElements := mk_xlsxThemeElements {
  xlsxThemeElements_ClrScheme : xlsxClrScheme;
  xlsxThemeElements_FontScheme : xlsxFontScheme;
  xlsxThemeElements_FmtScheme : xlsxFmtScheme
}.
#[export] Instance eta_xlsxThemeElements : Eta xlsxThemeElements := fun r =>
  mk_xlsxThemeElements
    (xlsxThemeElements_ClrScheme r) (xlsxThemeElements_FontScheme r)
    (xlsxThemeElements_FmtScheme r).
#[export] Instance zero_xlsxThemeElements : GoZero xlsxThemeElements :=
  mk_xlsxThemeElements gozero gozero gozero.

Record xlsxObjectDefaults := mk_xlsxObjectDefaults {
  xlsxObjectDefaults_ObjectDefaults : string
}.
#[export] Instance eta_xlsxObjectDefaults : Eta xlsxObjectDefaults := fun r =>
  mk_xlsxObjectDefaults
    (xlsxObjectDefaults_ObjectDefaults r).
#[export] Instance zero_xlsxObjectDefaults : GoZero xlsxObjectDefaults :=
  mk_xlsxObjectDefaults gozero.

Record xlsxExtraClrSchemeLst := mk_xlsxExtraClrSchemeLst {
  xlsxExtraClrSchemeLst_ExtraClrSchemeLst : string
}.
#[export] Instance eta_xlsxExtraClrSchemeLst : Eta xlsxExtraClrSchemeLst := fun r =>
  mk_xlsxExtraClrSchemeLst
    (xlsxExtraClrSchemeLst_ExtraClrSchemeLst r).
#[export] Instance zero_xlsxExtraClrSchemeLst : GoZero xlsxExtraClrSchemeLst :=
  mk_xlsxExtraClrSchemeLst gozero.

Record xlsxTheme := mk_xlsxTheme {
  xlsxTheme_ThemeElements : xlsxThemeElements;
  xlsxTheme_ObjectDefaults : xlsxObjectDefaults;
  xlsxTheme_ExtraClrSchemeLst : xlsxExtraClrSchemeLst;
  xlsxTheme_ExtLst : option xlsxExtLst
}.
#[export] Instance eta_xlsxTheme : Eta xlsxTheme := fun r =>
  mk_xlsxTheme
    (xlsxTheme_ThemeElements r) (xlsxTheme_ObjectDefaults r) (xlsxTheme_ExtraClrSchemeLst r)
    (xlsxTheme_ExtLst r).
#[export] Instance zero_xlsxTheme : GoZero xlsxTheme :=
  mk_xlsxTheme gozero gozero gozero gozero.
