(* ===== verification/XmlChart.v ===== *)
(** The structures of charts: the chart part and the settings of a chart. *)
From S2P Require Export XmlDrawing.

(** *** [xmlChart.go] *)

Record attrValBool := mk_attrValBool {
  attrValBool_Val : bool
}.
#[export] Instance eta_attrValBool : Eta attrValBool := fun r =>
  mk_attrValBool
    (attrValBool_Val r).
#[export] Instance zero_attrValBool : GoZero attrValBool :=
  mk_attrValBool gozero.

Record cPt := mk_cPt {
  cPt_IDx : Z;
  cPt_V : option string
}.
#[export] Instance eta_cPt : Eta cPt := fun r =>
  mk_cPt
    (cPt_IDx r) (cPt_V r).
#[export] Instance zero_cPt : GoZero cPt :=
  mk_cPt gozero gozero.

Record cStrCache := mk_cStrCache {
  cStrCache_Pt : list cPt;
  cStrCache_PtCount : option attrValInt
}.
#[export] Instance eta_cStrCache : Eta cStrCache := fun r =>
  mk_cStrCache
    (cStrCache_Pt r) (cStrCache_PtCount r).
#[export] Instance zero_cStrCache : GoZero cStrCache :=
  mk_cStrCache gozero gozero.

Record cStrRef := mk_cStrRef {
  cStrRef_F : string;
  cStrRef_StrCache : option cStrCache
}.
#[export] Instance eta_cStrRef : Eta cStrRef := fun r =>
  mk_cStrRef
    (cStrRef_F r) (cStrRef_StrCache r).
#[export] Instance zero_cStrRef : GoZero cStrRef :=
  mk_cStrRef gozero gozero.

Record cRich := mk_cRich {
  cRich_BodyPr : aBodyPr;
  cRich_LstStyle : string;
  cRich_P : aP
}.
#[export] Instance eta_cRich : Eta cRich := fun r =>
  mk_cRich
    (cRich_BodyPr r) (cRich_LstStyle r) (cRich_P r).
#[export] Instance zero_cRich : GoZero cRich :=
  mk_cRich gozero gozero gozero.

Record cTx := mk_cTx {
  cTx_StrRef : option cStrRef;
  cTx_Rich : option cRich
}.
#[export] Instance eta_cTx : Eta cTx := fun r =>
  mk_cTx
    (cTx_StrRef r) (cTx_Rich r).
#[export] Instance zero_cTx : GoZero cTx :=
  mk_cTx gozero gozero.

Record aLn := mk_aLn {
  aLn_Algn : string;
  aLn_Cap : string;
  aLn_Cmpd : string;
  aLn_W : Z;
  aLn_NoFill : string;
  aLn_Round : string;
  aLn_SolidFill : option aSolidFill
}.
#[export] Instance eta_aLn : Eta aLn := fun r =>
  mk_aLn
    (aLn_Algn r) (aLn_Cap r) (aLn_Cmpd r) (aLn_W r) (aLn_NoFill r) (aLn_Round r) (aLn_SolidFill r).
#[export] Instance zero_aLn : GoZero aLn :=
  mk_aLn gozero gozero gozero gozero gozero gozero gozero.

Record aContourClr := mk_aContourClr {
  aContourClr_SchemeClr : option aSchemeClr
}.
#[export] Instance eta_aContourClr : Eta aContourClr := fun r =>
  mk_aContourClr
    (aContourClr_SchemeClr r).
#[export] Instance zero_aContourClr : GoZero aContourClr :=
  mk_aContourClr gozero.

Record aSp3D := mk_aSp3D {
  aSp3D_ContourW : Z;
  aSp3D_ContourClr : option aContourClr
}.
#[export] Instance eta_aSp3D : Eta aSp3D := fun r =>
  mk_aSp3D
    (aSp3D_ContourW r) (aSp3D_ContourClr r).
#[export] Instance zero_aSp3D : GoZero aSp3D :=
  mk_aSp3D gozero gozero.

Record cSpPr := mk_cSpPr {
  cSpPr_NoFill : option string;
  cSpPr_SolidFill : option aSolidFill;
  cSpPr_Ln : option aLn;
  cSpPr_Sp3D : option aSp3D;
  cSpPr_EffectLst : option string
}.
#[export] Instance eta_cSpPr : Eta cSpPr := fun r =>
  mk_cSpPr
    (cSpPr_NoFill r) (cSpPr_SolidFill r) (cSpPr_Ln r) (cSpPr_Sp3D r) (cSpPr_EffectLst r).
#[export] Instance zero_cSpPr : GoZero cSpPr :=
  mk_cSpPr gozero gozero gozero gozero gozero.

Record cTxPr := mk_cTxPr {
  cTxPr_BodyPr : aBodyPr;
  cTxPr_LstStyle : string;
  cTxPr_P : aP
}.
#[export] Instance eta_cTxPr : Eta cTxPr := fun r =>
  mk_cTxPr
    (cTxPr_BodyPr r) (cTxPr_LstStyle r) (cTxPr_P r).
#[export] Instance zero_cTxPr : GoZero cTxPr :=
  mk_cTxPr gozero gozero gozero.

Record cTitle := mk_cTitle {
  cTitle_Tx : cTx;
  cTitle_Layout : string;
  cTitle_Overlay : attrValBool;
  cTitle_SpPr : cSpPr;
  cTitle_TxPr : cTxPr
}.
#[export] Instance eta_cTitle : Eta cTitle := fun r =>
  mk_cTitle
    (cTitle_Tx r) (cTitle_Layout r) (cTitle_Overlay r) (cTitle_SpPr r) (cTitle_TxPr r).
#[export] Instance zero_cTitle : GoZero cTitle :=
  mk_cTitle gozero gozero gozero gozero gozero.

Record cAutoTitleDeleted := mk_cAutoTitleDeleted {
  cAutoTitleDeleted_Val : bool
}.
#[export] Instance eta_cAutoTitleDeleted : Eta cAutoTitleDeleted := fun r =>
  mk_cAutoTitleDeleted
    (cAutoTitleDeleted_Val r).
#[export] Instance zero_cAutoTitleDeleted : GoZero cAutoTitleDeleted :=
  mk_cAutoTitleDeleted gozero.

Record cView3D := mk_cView3D {
  cView3D_RotX : option attrValInt;
  cView3D_RotY : option attrValInt;
  cView3D_DepthPercent : option attrValInt;
  cView3D_RAngAx : option attrValInt
}.
#[export] Instance eta_cView3D : Eta cView3D := fun r =>
  mk_cView3D
    (cView3D_RotX r) (cView3D_RotY r) (cView3D_DepthPercent r) (cView3D_RAngAx r).
#[export] Instance zero_cView3D : GoZero cView3D :=
  mk_cView3D gozero gozero gozero gozero.

Record cThicknessSpPr := mk_cThicknessSpPr {
  cThicknessSpPr_Thickness : option attrValInt;
  cThicknessSpPr_SpPr : option cSpPr
}.
#[export] Instance eta_cThicknessSpPr : Eta cThicknessSpPr := fun r =>
  mk_cThicknessSpPr
    (cThicknessSpPr_Thickness r) (cThicknessSpPr_SpPr r).
#[export] Instance zero_cThicknessSpPr : GoZero cThicknessSpPr :=
  mk_cThicknessSpPr gozero gozero.

Record cDPt := mk_cDPt {
  cDPt_IDx : option attrValInt;
  cDPt_Bubble3D : option attrValBool;
  cDPt_SpPr : option cSpPr
}.
#[export] Instance eta_cDPt : Eta cDPt := fun r =>
  mk_cDPt
    (cDPt_IDx r) (cDPt_Bubble3D r) (cDPt_SpPr r).
#[export] Instance zero_cDPt : GoZero cDPt :=
  mk_cDPt gozero gozero gozero.

Record cDLbls := mk_cDLbls {
  cDLbls_ShowLegendKey : option attrValBool;
  cDLbls_ShowVal : option attrValBool;
  cDLbls_ShowCatName : option attrValBool;
  cDLbls_ShowSerName : option attrValBool;
  cDLbls_ShowPercent : option attrValBool;
  cDLbls_ShowBubbleSize : option attrValBool;
  cDLbls_ShowLeaderLines : option attrValBool
}.
#[export] Instance eta_cDLbls : Eta cDLbls := fun r =>
  mk_cDLbls
    (cDLbls_ShowLegendKey r) (cDLbls_ShowVal r) (cDLbls_ShowCatName r) (cDLbls_ShowSerName r)
    (cDLbls_ShowPercent r) (cDLbls_ShowBubbleSize r) (cDLbls_ShowLeaderLines r).
#[export] Instance zero_cDLbls : GoZero cDLbls :=
  mk_cDLbls gozero gozero gozero gozero gozero gozero gozero.

Record cMarker := mk_cMarker {
  cMarker_Symbol : option attrValString;
  cMarker_Size : option attrValInt;
  cMarker_SpPr : option cSpPr
}.
#[export] Instance eta_cMarker : Eta cMarker := fun r =>
  mk_cMarker
    (cMarker_Symbol r) (cMarker_Size r) (cMarker_SpPr r).
#[export] Instance zero_cMarker : GoZero cMarker :=
  mk_cMarker gozero gozero gozero.

Record cCat := mk_cCat {
  cCat_StrRef : option cStrRef
}.
#[export] Instance eta_cCat : Eta cCat := fun r =>
  mk_cCat
    (cCat_StrRef r).
#[export] Instance zero_cCat : GoZero cCat :=
  mk_cCat gozero.

Record cNumCache := mk_cNumCache {
  cNumCache_FormatCode : string;
  cNumCache_Pt : list cPt;
  cNumCache_PtCount : option attrValInt
}.
#[export] Instance eta_cNumCache : Eta cNumCache := fun r =>
  mk_cNumCache
    (cNumCache_FormatCode r) (cNumCache_Pt r) (cNumCache_PtCount r).
#[export] Instance zero_cNumCache : GoZero cNumCache :=
  mk_cNumCache gozero gozero gozero.

Record cNumRef := mk_cNumRef {
  cNumRef_F : string;
  cNumRef_NumCache : option cNumCache
}.
#[export] Instance eta_cNumRef : Eta cNumRef := fun r =>
  mk_cNumRef
    (cNumRef_F r) (cNumRef_NumCache r).
#[export] Instance zero_cNumRef : GoZero cNumRef :=
  mk_cNumRef gozero gozero.

Record cVal := mk_cVal {
  cVal_NumRef : option cNumRef
}.
#[export] Instance eta_cVal : Eta cVal := fun r =>
  mk_cVal
    (cVal_NumRef r).
#[export] Instance zero_cVal : GoZero cVal :=
  mk_cVal gozero.

Record cSer := mk_cSer {
  cSer_IDx : option attrValInt;
  cSer_Order : option attrValInt;
  cSer_Tx : option cTx;
  cSer_SpPr : option cSpPr;
  cSer_DPt : list cDPt;
  cSer_DLbls : option cDLbls;
  cSer_Marker : option cMarker;
  cSer_InvertIfNegative : option attrValBool;
  cSer_Cat : option cCat;
  cSer_Val : option cVal;
  cSer_XVal : option cCat;
  cSer_YVal : option cVal;
  cSer_Smooth : option attrValBool
}.
#[export] Instance eta_cSer : Eta cSer := fun r =>
  mk_cSer
    (cSer_IDx r) (cSer_Order r) (cSer_Tx r) (cSer_SpPr r) (cSer_DPt r) (cSer_DLbls r)
    (cSer_Marker r) (cSer_InvertIfNegative r) (cSer_Cat r) (cSer_Val r) (cSer_XVal r) (cSer_YVal r)
    (cSer_Smooth r).
#[export] Instance zero_cSer : GoZero cSer :=
  mk_cSer gozero gozero gozero gozero gozero gozero gozero gozero gozero gozero gozero gozero gozero.

Record cCharts := mk_cCharts {
  cCharts_BarDir : option attrValString;
  cCharts_Grouping : option attrValString;
  cCharts_RadarStyle : option attrValString;
  cCharts_ScatterStyle : option attrValString;
  cCharts_VaryColors : option attrValBool;
  cCharts_Ser : option (list cSer);
  cCharts_DLbls : option cDLbls;
  cCharts_HoleSize : option attrValInt;
  cCharts_Smooth : option attrValBool;
  cCharts_Overlap : option attrValInt;
  cCharts_AxID : list attrValInt
}.
#[export] Instance eta_cCharts : Eta cCharts := fun r =>
  mk_cCharts
    (cCharts_BarDir r) (cCharts_Grouping r) (cCharts_RadarStyle r) (cCharts_ScatterStyle r)
    (cCharts_VaryColors r) (cCharts_Ser r) (cCharts_DLbls r) (cCharts_HoleSize r)
    (cCharts_Smooth r) (cCharts_Overlap r) (cCharts_AxID r).
#[export] Instance zero_cCharts : GoZero cCharts :=
  mk_cCharts gozero gozero gozero gozero gozero gozero gozero gozero gozero gozero gozero.

Record cScaling := mk_cScaling {
  cScaling_Orientation : option attrValString;
  cScaling_Max : option attrValFloat;
  cScaling_Min : option attrValFloat
}.
#[export] Instance eta_cScaling : Eta cScaling := fun r =>
  mk_cScaling
    (cScaling_Orientation r) (cScaling_Max r) (cScaling_Min r).
#[export] Instance zero_cScaling : GoZero cScaling :=
  mk_cScaling gozero gozero gozero.

Record cNumFmt := mk_cNumFmt {
  cNumFmt_FormatCode : string;
  cNumFmt_SourceLinked : bool
}.
#[export] Instance eta_cNumFmt : Eta cNumFmt := fun r =>
  mk_cNumFmt
    (cNumFmt_FormatCode r) (cNumFmt_SourceLinked r).
#[export] Instance zero_cNumFmt : GoZero cNumFmt :=
  mk_cNumFmt gozero gozero.

Record cAxs := mk_cAxs {
  cAxs_AxID : option attrValInt;
  cAxs_Scaling : option cScaling;
  cAxs_Delete : option attrValBool;
  cAxs_AxPos : option attrValString;
  cAxs_NumFmt : option cNumFmt;
  cAxs_MajorTickMark : option attrValString;
  cAxs_MinorTickMark : option attrValString;
  cAxs_TickLblPos : option attrValString;
  cAxs_SpPr : option cSpPr;
  cAxs_TxPr : option cTxPr;
  cAxs_CrossAx : option attrValInt;
  cAxs_Crosses : option attrValString;
  cAxs_CrossBetween : option attrValString;
  cAxs_Auto : option attrValBool;
  cAxs_LblAlgn : option attrValString;
  cAxs_LblOffset : option attrValInt;
  cAxs_NoMultiLvlLbl : option attrValBool
}.
#[export] Instance eta_cAxs : Eta cAxs := fun r =>
  mk_cAxs
    (cAxs_AxID r) (cAxs_Scaling r) (cAxs_Delete r) (cAxs_AxPos r) (cAxs_NumFmt r)
    (cAxs_MajorTickMark r) (cAxs_MinorTickMark r) (cAxs_TickLblPos r) (cAxs_SpPr r) (cAxs_TxPr r)
    (cAxs_CrossAx r) (cAxs_Crosses r) (cAxs_CrossBetween r) (cAxs_Auto r) (cAxs_LblAlgn r)
    (cAxs_LblOffset r) (cAxs_NoMultiLvlLbl r).
#[export] Instance zero_cAxs : GoZero cAxs :=
  mk_cAxs gozero gozero gozero gozero gozero gozero gozero gozero gozero gozero gozero gozero gozero gozero gozero gozero gozero.

Record cPlotArea := mk_cPlotArea {
  cPlotArea_Layout : option string;
  cPlotArea_AreaChart : option cCharts;
  cPlotArea_Area3DChart : option cCharts;
  cPlotArea_BarChart : option cCharts;
  cPlotArea_Bar3DChart : option cCharts;
  cPlotArea_DoughnutChart : option cCharts;
  cPlotArea_LineChart : option cCharts;
  cPlotArea_PieChart : option cCharts;
  cPlotArea_Pie3DChart : option cCharts;
  cPlotArea_RadarChart : option cCharts;
  cPlotArea_ScatterChart : option cCharts;
  cPlotArea_CatAx : list cAxs;
  cPlotArea_ValAx : list cAxs;
  cPlotArea_SpPr : option cSpPr
}.
#[export] Instance eta_cPlotArea : Eta cPlotArea := fun r =>
  mk_cPlotArea
    (cPlotArea_Layout r) (cPlotArea_AreaChart r) (cPlotArea_Area3DChart r) (cPlotArea_BarChart r)
    (cPlotArea_Bar3DChart r) (cPlotArea_DoughnutChart r) (cPlotArea_LineChart r)
    (cPlotArea_PieChart r) (cPlotArea_Pie3DChart r) (cPlotArea_RadarChart r)
    (cPlotArea_ScatterChart r) (cPlotArea_CatAx r) (cPlotArea_ValAx r) (cPlotArea_SpPr r).
#[export] Instance zero_cPlotArea : GoZero cPlotArea :=
  mk_cPlotArea gozero gozero gozero gozero gozero gozero gozero gozero gozero gozero gozero gozero gozero gozero.

Record cLegend := mk_cLegend {
  cLegend_Layout : option string;
  cLegend_LegendPos : option attrValString;
  cLegend_Overlay : option attrValBool;
  cLegend_SpPr : option cSpPr;
  cLegend_TxPr : option cTxPr
}.
#[export] Instance eta_cLegend : Eta cLegend := fun r =>
  mk_cLegend
    (cLegend_Layout r) (cLegend_LegendPos r) (cLegend_Overlay r) (cLegend_SpPr r) (cLegend_TxPr r).
#[export] Instance zero_cLegend : GoZero cLegend :=
  mk_cLegend gozero gozero gozero gozero gozero.

Record cChart := mk_cChart {
  cChart_Title : option cTitle;
  cChart_AutoTitleDeleted : option cAutoTitleDeleted;
  cChart_View3D : option cView3D;
  cChart_Floor : option cThicknessSpPr;
  cChart_SideWall : option cThicknessSpPr;
  cChart_BackWall : option cThicknessSpPr;
  cChart_PlotArea : option cPlotArea;
  cChart_Legend : option cLegend;
  cChart_PlotVisOnly : option attrValBool;
  cChart_DispBlanksAs : option attrValString;
  cChart_ShowDLblsOverMax : option attrValBool
}.
#[export] Instance eta_cChart : Eta cChart := fun r =>
  mk_cChart
    (cChart_Title r) (cChart_AutoTitleDeleted r) (cChart_View3D r) (cChart_Floor r)
    (cChart_SideWall r) (cChart_BackWall r) (cChart_PlotArea r) (cChart_Legend r)
    (cChart_PlotVisOnly r) (cChart_DispBlanksAs r) (cChart_ShowDLblsOverMax r).
#[export] Instance zero_cChart : GoZero cChart :=
  mk_cChart gozero gozero gozero gozero gozero gozero gozero gozero gozero gozero gozero.

Record cPageMargins := mk_cPageMargins {
  cPageMargins_B : float64;
  cPageMargins_Footer : float64;
  cPageMargins_Header : float64;
  cPageMargins_L : float64;
  cPageMargins_R : float64;
  cPageMargins_T : float64
}.
#[export] Instance eta_cPageMargins : Eta cPageMargins := fun r =>
  mk_cPageMargins
    (cPageMargins_B r) (cPageMargins_Footer r) (cPageMargins_Header r) (cPageMargins_L r)
    (cPageMargins_R r) (cPageMargins_T r).
#[export] Instance zero_cPageMargins : GoZero cPageMargins :=
  mk_cPageMargins gozero gozero gozero gozero gozero gozero.

Record cPrintSettings := mk_cPrintSettings {
  cPrintSettings_HeaderFooter : option string;
  cPrintSettings_PageMargins : option cPageMargins;
  cPrintSettings_PageSetup : option string
}.
#[export] Instance eta_cPrintSettings : Eta cPrintSettings := fun r =>
  mk_cPrintSettings
    (cPrintSettings_HeaderFooter r) (cPrintSettings_PageMargins r) (cPrintSettings_PageSetup r).
#[export] Instance zero_cPrintSettings : GoZero cPrintSettings :=
  mk_cPrintSettings gozero gozero gozero.

Record xlsxChartSpace := mk_xlsxChartSpace {
  xlsxChartSpace_XMLName : xml_Name;
  xlsxChartSpace_XMLNSc : string;
  xlsxChartSpace_XMLNSa : string;
  xlsxChartSpace_XMLNSr : string;
  xlsxChartSpace_XMLNSc16r2 : string;
  xlsxChartSpace_Date1904 : option attrValBool;
  xlsxChartSpace_Lang : option attrValString;
  xlsxChartSpace_RoundedCorners : option attrValBool;
  xlsxChartSpace_Chart : cChart;
  xlsxChartSpace_SpPr : option cSpPr;
  xlsxChartSpace_TxPr : option cTxPr;
  xlsxChartSpace_PrintSettings : option cPrintSettings
}.
#[export] Instance eta_xlsxChartSpace : Eta xlsxChartSpace := fun r =>
  mk_xlsxChartSpace
    (xlsxChartSpace_XMLName r) (xlsxChartSpace_XMLNSc r) (xlsxChartSpace_XMLNSa r)
    (xlsxChartSpace_XMLNSr r) (xlsxChartSpace_XMLNSc16r2 r) (xlsxChartSpace_Date1904 r)
    (xlsxChartSpace_Lang r) (xlsxChartSpace_RoundedCorners r) (xlsxChartSpace_Chart r)
    (xlsxChartSpace_SpPr r) (xlsxChartSpace_TxPr r) (xlsxChartSpace_PrintSettings r).
#[export] Instance zero_xlsxChartSpace : GoZero xlsxChartSpace :=
  mk_xlsxChartSpace gozero gozero gozero gozero gozero gozero gozero gozero gozero gozero gozero gozero.

Record formatChartSeries_Line_T := mk_formatChartSeries_Line_T {
  formatChartSeries_Line_T_None : bool;
  formatChartSeries_Line_T_Color : string
}.
#[export] Instance eta_formatChartSeries_Line_T : Eta formatChartSeries_Line_T := fun r =>
  mk_formatChartSeries_Line_T
    (formatChartSeries_Line_T_None r) (formatChartSeries_Line_T_Color r).
#[export] Instance zero_formatChartSeries_Line_T : GoZero formatChartSeries_Line_T :=
  mk_formatChartSeries_Line_T gozero gozero.

Record formatChartSeries_Marker_T_Border_T := mk_formatChartSeries_Marker_T_Border_T {
  formatChartSeries_Marker_T_Border_T_Color : string;
  formatChartSeries_Marker_T_Border_T_None : bool
}.
#[export] Instance eta_formatChartSeries_Marker_T_Border_T : Eta formatChartSeries_Marker_T_Border_T := fun r =>
  mk_formatChartSeries_Marker_T_Border_T
    (formatChartSeries_Marker_T_Border_T_Color r) (formatChartSeries_Marker_T_Border_T_None r).
#[export] Instance zero_formatChartSeries_Marker_T_Border_T : GoZero formatChartSeries_Marker_T_Border_T :=
  mk_formatChartSeries_Marker_T_Border_T gozero gozero.

Record formatChartSeries_Marker_T_Fill_T := mk_formatChartSeries_Marker_T_Fill_T {
  formatChartSeries_Marker_T_Fill_T_Color : string;
  formatChartSeries_Marker_T_Fill_T_None : bool
}.
#[export] Instance eta_formatChartSeries_Marker_T_Fill_T : Eta formatChartSeries_Marker_T_Fill_T := fun r =>
  mk_formatChartSeries_Marker_T_Fill_T
    (formatChartSeries_Marker_T_Fill_T_Color r) (formatChartSeries_Marker_T_Fill_T_None r).
#[export] Instance zero_formatChartSeries_Marker_T_Fill_T : GoZero formatChartSeries_Marker_T_Fill_T :=
  mk_formatChartSeries_Marker_T_Fill_T gozero gozero.

Record formatChartSeries_Marker_T := mk_formatChartSeries_Marker_T {
  formatChartSeries_Marker_T_Type : string;
  formatChartSeries_Marker_T_Size : Z;
  formatChartSeries_Marker_T_Width : float64;
  formatChartSeries_Marker_T_Border : formatChartSeries_Marker_T_Border_T;
  formatChartSeries_Marker_T_Fill : formatChartSeries_Marker_T_Fill_T
}.
#[export] Instance eta_formatChartSeries_Marker_T : Eta formatChartSeries_Marker_T := fun r =>
  mk_formatChartSeries_Marker_T
    (formatChartSeries_Marker_T_Type r) (formatChartSeries_Marker_T_Size r)
    (formatChartSeries_Marker_T_Width r) (formatChartSeries_Marker_T_Border r)
    (formatChartSeries_Marker_T_Fill r).
#[export] Instance zero_formatChartSeries_Marker_T : GoZero formatChartSeries_Marker_T :=
  mk_formatChartSeries_Marker_T gozero gozero gozero gozero gozero.

Record formatChartSeries := mk_formatChartSeries {
  formatChartSeries_Name : string;
  formatChartSeries_Categories : string;
  formatChartSeries_Values : string;
  formatChartSeries_Line : formatChartSeries_Line_T;
  formatChartSeries_Marker : formatChartSeries_Marker_T
}.
#[export] Instance eta_formatChartSeries : Eta formatChartSeries := fun r =>
  mk_formatChartSeries
    (formatChartSeries_Name r) (formatChartSeries_Categories r) (formatChartSeries_Values r)
    (formatChartSeries_Line r) (formatChartSeries_Marker r).
#[export] Instance zero_formatChartSeries : GoZero formatChartSeries :=
  mk_formatChartSeries gozero gozero gozero gozero gozero.

Record formatChartDimension := mk_formatChartDimension {
  formatChartDimension_Width : Z;
  formatChartDimension_Height : Z
}.
#[export] Instance eta_formatChartDimension : Eta formatChartDimension := fun r =>
  mk_formatChartDimension
    (formatChartDimension_Width r) (formatChartDimension_Height r).
#[export] Instance zero_formatChartDimension : GoZero formatChartDimension :=
  mk_formatChartDimension gozero gozero.

Record formatLayout := mk_formatLayout {
  formatLayout_X : float64;
  formatLayout_Y : float64;
  formatLayout_Width : float64;
  formatLayout_Height : float64
}.
#[export] Instance eta_formatLayout : Eta formatLayout := fun r =>
  mk_formatLayout
    (formatLayout_X r) (formatLayout_Y r) (formatLayout_Width r) (formatLayout_Height r).
#[export] Instance zero_formatLayout : GoZero formatLayout :=
  mk_formatLayout gozero gozero gozero gozero.

Record formatChartLegend := mk_formatChartLegend {
  formatChartLegend_None : bool;
  formatChartLegend_DeleteSeries : list Z;
  formatChartLegend_Font : formatFont;
  formatChartLegend_Layout : formatLayout;
  formatChartLegend_Position : string;
  formatChartLegend_ShowLegendEntry : bool;
  formatChartLegend_ShowLegendKey : bool
}.
#[export] Instance eta_formatChartLegend : Eta formatChartLegend := fun r =>
  mk_formatChartLegend
    (formatChartLegend_None r) (formatChartLegend_DeleteSeries r) (formatChartLegend_Font r)
    (formatChartLegend_Layout r) (formatChartLegend_Position r)
    (formatChartLegend_ShowLegendEntry r) (formatChartLegend_ShowLegendKey r).
#[export] Instance zero_formatChartLegend : GoZero formatChartLegend :=
  mk_formatChartLegend gozero gozero gozero gozero gozero gozero gozero.

Record formatChartTitle := mk_formatChartTitle {
  formatChartTitle_None : bool;
  formatChartTitle_Name : string;
  formatChartTitle_Overlay : bool;
  formatChartTitle_Layout : formatLayout
}.
#[export] Instance eta_formatChartTitle : Eta formatChartTitle := fun r =>
  mk_formatChartTitle
    (formatChartTitle_None r) (formatChartTitle_Name r) (formatChartTitle_Overlay r)
    (formatChartTitle_Layout r).
#[export] Instance zero_formatChartTitle : GoZero formatChartTitle :=
  mk_formatChartTitle gozero gozero gozero gozero.

Record formatChartAxis_NumFont_T := mk_formatChartAxis_NumFont_T {
  formatChartAxis_NumFont_T_Color : string;
  formatChartAxis_NumFont_T_Bold : bool;
  formatChartAxis_NumFont_T_Italic : bool;
  formatChartAxis_NumFont_T_Underline : bool
}.
#[export] Instance eta_formatChartAxis_NumFont_T : Eta formatChartAxis_NumFont_T := fun r =>
  mk_formatChartAxis_NumFont_T
    (formatChartAxis_NumFont_T_Color r) (formatChartAxis_NumFont_T_Bold r)
    (formatChartAxis_NumFont_T_Italic r) (formatChartAxis_NumFont_T_Underline r).
#[export] Instance zero_formatChartAxis_NumFont_T : GoZero formatChartAxis_NumFont_T :=
  mk_formatChartAxis_NumFont_T gozero gozero gozero gozero.

Record formatChartAxis := mk_formatChartAxis {
  formatChartAxis_Crossing : string;
  formatChartAxis_MajorTickMark : string;
  formatChartAxis_MinorTickMark : string;
  formatChartAxis_MinorUnitType : string;
  formatChartAxis_MajorUnit : Z;
  formatChartAxis_MajorUnitType : string;
  formatChartAxis_DisplayUnits : string;
  formatChartAxis_DisplayUnitsVisible : bool;
  formatChartAxis_DateAxis : bool;
  formatChartAxis_ReverseOrder : bool;
  formatChartAxis_Maximum : float64;
  formatChartAxis_Minimum : float64;
  formatChartAxis_NumFormat : string;
  formatChartAxis_NumFont : formatChartAxis_NumFont_T;
  formatChartAxis_NameLayout : formatLayout
}.
#[export] Instance eta_formatChartAxis : Eta formatChartAxis := fun r =>
  mk_formatChartAxis
    (formatChartAxis_Crossing r) (formatChartAxis_MajorTickMark r)
    (formatChartAxis_MinorTickMark r) (formatChartAxis_MinorUnitType r)
    (formatChartAxis_MajorUnit r) (formatChartAxis_MajorUnitType r)
    (formatChartAxis_DisplayUnits r) (formatChartAxis_DisplayUnitsVisible r)
    (formatChartAxis_DateAxis r) (formatChartAxis_ReverseOrder r) (formatChartAxis_Maximum r)
    (formatChartAxis_Minimum r) (formatChartAxis_NumFormat r) (formatChartAxis_NumFont r)
    (formatChartAxis_NameLayout r).
#[export] Instance zero_formatChartAxis : GoZero formatChartAxis :=
  mk_formatChartAxis gozero gozero gozero gozero gozero gozero gozero gozero gozero gozero gozero gozero gozero gozero gozero.

Record formatChart_Chartarea_T_Border_T := mk_formatChart_Chartarea_T_Border_T {
  formatChart_Chartarea_T_Border_T_None : bool
}.
#[export] Instance eta_formatChart_Chartarea_T_Border_T : Eta formatChart_Chartarea_T_Border_T := fun r =>
  mk_formatChart_Chartarea_T_Border_T
    (formatChart_Chartarea_T_Border_T_None r).
#[export] Instance zero_formatChart_Chartarea_T_Border_T : GoZero formatChart_Chartarea_T_Border_T :=
  mk_formatChart_Chartarea_T_Border_T gozero.

Record formatChart_Chartarea_T_Fill_T := mk_formatChart_Chartarea_T_Fill_T {
  formatChart_Chartarea_T_Fill_T_Color : string
}.
#[export] Instance eta_formatChart_Chartarea_T_Fill_T : Eta formatChart_Chartarea_T_Fill_T := fun r =>
  mk_formatChart_Chartarea_T_Fill_T
    (formatChart_Chartarea_T_Fill_T_Color r).
#[export] Instance zero_formatChart_Chartarea_T_Fill_T : GoZero formatChart_Chartarea_T_Fill_T :=
  mk_formatChart_Chartarea_T_Fill_T gozero.

Record formatChart_Chartarea_T_Pattern_T := mk_formatChart_Chartarea_T_Pattern_T {
  formatChart_Chartarea_T_Pattern_T_Pattern : string;
  formatChart_Chartarea_T_Pattern_T_FgColor : string;
  formatChart_Chartarea_T_Pattern_T_BgColor : string
}.
#[export] Instance eta_formatChart_Chartarea_T_Pattern_T : Eta formatChart_Chartarea_T_Pattern_T := fun r =>
  mk_formatChart_Chartarea_T_Pattern_T
    (formatChart_Chartarea_T_Pattern_T_Pattern r) (formatChart_Chartarea_T_Pattern_T_FgColor r)
    (formatChart_Chartarea_T_Pattern_T_BgColor r).
#[export] Instance zero_formatChart_Chartarea_T_Pattern_T : GoZero formatChart_Chartarea_T_Pattern_T :=
  mk_formatChart_Chartarea_T_Pattern_T gozero gozero gozero.

Record formatChart_Chartarea_T := mk_formatChart_Chartarea_T {
  formatChart_Chartarea_T_Border : formatChart_Chartarea_T_Border_T;
  formatChart_Chartarea_T_Fill : formatChart_Chartarea_T_Fill_T;
  formatChart_Chartarea_T_Pattern : formatChart_Chartarea_T_Pattern_T
}.
#[export] Instance eta_formatChart_Chartarea_T : Eta formatChart_Chartarea_T := fun r =>
  mk_formatChart_Chartarea_T
    (formatChart_Chartarea_T_Border r) (formatChart_Chartarea_T_Fill r)
    (formatChart_Chartarea_T_Pattern r).
#[export] Instance zero_formatChart_Chartarea_T : GoZero formatChart_Chartarea_T :=
  mk_formatChart_Chartarea_T gozero gozero gozero.

Record formatChart_Plotarea_T_Gradient_T := mk_formatChart_Plotarea_T_Gradient_T {
  formatChart_Plotarea_T_Gradient_T_Colors : list string
}.
#[export] Instance eta_formatChart_Plotarea_T_Gradient_T : Eta formatChart_Plotarea_T_Gradient_T := fun r =>
  mk_formatChart_Plotarea_T_Gradient_T
    (formatChart_Plotarea_T_Gradient_T_Colors r).
#[export] Instance zero_formatChart_Plotarea_T_Gradient_T : GoZero formatChart_Plotarea_T_Gradient_T :=
  mk_formatChart_Plotarea_T_Gradient_T gozero.

Record formatChart_Plotarea_T_Border_T := mk_formatChart_Plotarea_T_Border_T {
  formatChart_Plotarea_T_Border_T_Color : string;
  formatChart_Plotarea_T_Border_T_Width : Z;
  formatChart_Plotarea_T_Border_T_DashType : string
}.
#[export] Instance eta_formatChart_Plotarea_T_Border_T : Eta formatChart_Plotarea_T_Border_T := fun r =>
  mk_formatChart_Plotarea_T_Border_T
    (formatChart_Plotarea_T_Border_T_Color r) (formatChart_Plotarea_T_Border_T_Width r)
    (formatChart_Plotarea_T_Border_T_DashType r).
#[export] Instance zero_formatChart_Plotarea_T_Border_T : GoZero formatChart_Plotarea_T_Border_T :=
  mk_formatChart_Plotarea_T_Border_T gozero gozero gozero.

Record formatChart_Plotarea_T_Fill_T := mk_formatChart_Plotarea_T_Fill_T {
  formatChart_Plotarea_T_Fill_T_Color : string
}.
#[export] Instance eta_formatChart_Plotarea_T_Fill_T : Eta formatChart_Plotarea_T_Fill_T := fun r =>
  mk_formatChart_Plotarea_T_Fill_T
    (formatChart_Plotarea_T_Fill_T_Color r).
#[export] Instance zero_formatChart_Plotarea_T_Fill_T : GoZero formatChart_Plotarea_T_Fill_T :=
  mk_formatChart_Plotarea_T_Fill_T gozero.

Record formatChart_Plotarea_T := mk_formatChart_Plotarea_T {
  formatChart_Plotarea_T_ShowBubbleSize : bool;
  formatChart_Plotarea_T_ShowCatName : bool;
  formatChart_Plotarea_T_ShowLeaderLines : bool;
  formatChart_Plotarea_T_ShowPercent : bool;
  formatChart_Plotarea_T_ShowSerName : bool;
  formatChart_Plotarea_T_ShowVal : bool;
  formatChart_Plotarea_T_Gradient : formatChart_Plotarea_T_Gradient_T;
  formatChart_Plotarea_T_Border : formatChart_Plotarea_T_Border_T;
  formatChart_Plotarea_T_Fill : formatChart_Plotarea_T_Fill_T;
  formatChart_Plotarea_T_Layout : formatLayout
}.
#[export] Instance eta_formatChart_Plotarea_T : Eta formatChart_Plotarea_T := fun r =>
  mk_formatChart_Plotarea_T
    (formatChart_Plotarea_T_ShowBubbleSize r) (formatChart_Plotarea_T_ShowCatName r)
    (formatChart_Plotarea_T_ShowLeaderLines r) (formatChart_Plotarea_T_ShowPercent r)
    (formatChart_Plotarea_T_ShowSerName r) (formatChart_Plotarea_T_ShowVal r)
    (formatChart_Plotarea_T_Gradient r) (formatChart_Plotarea_T_Border r)
    (formatChart_Plotarea_T_Fill r) (formatChart_Plotarea_T_Layout r).
#[export] Instance zero_formatChart_Plotarea_T : GoZero formatChart_Plotarea_T :=
  mk_formatChart_Plotarea_T gozero gozero gozero gozero gozero gozero gozero gozero gozero gozero.

Record formatChart := mk_formatChart {
  formatChart_Type : string;
  formatChart_Series : list formatChartSeries;
  formatChart_Format : formatPicture;
  formatChart_Dimension : formatChartDimension;
  formatChart_Legend : formatChartLegend;
  formatChart_Title : formatChartTitle;
  formatChart_XAxis : formatChartAxis;
  formatChart_YAxis : formatChartAxis;
  formatChart_Chartarea : formatChart_Chartarea_T;
  formatChart_Plotarea : formatChart_Plotarea_T;
  formatChart_ShowBlanksAs : string;
  formatChart_ShowHiddenData : bool;
  formatChart_SetRotation : Z;
  formatChart_SetHoleSize : Z
}.
#[export] Instance eta_formatChart : Eta formatChart := fun r =>
  mk_formatChart
    (formatChart_Type r) (formatChart_Series r) (formatChart_Format r) (formatChart_Dimension r)
    (formatChart_Legend r) (formatChart_Title r) (formatChart_XAxis r) (formatChart_YAxis r)
    (formatChart_Chartarea r) (formatChart_Plotarea r) (formatChart_ShowBlanksAs r)
    (formatChart_ShowHiddenData r) (formatChart_SetRotation r) (formatChart_SetHoleSize r).
#[export] Instance zero_formatChart : GoZero formatChart :=
  mk_formatChart gozero gozero gozero gozero gozero gozero gozero gozero gozero gozero gozero gozero gozero gozero.
