(* ===== verification/SheetData.v ===== *)
(** The grid of a worksheet: [checkSheet] ([excelize.go]), [checkRow]
    ([rows.go]), [prepareSheetXML], [fillColumns], [makeContiguousColumns] and
    [trimCell] ([sheet.go]). A worksheet in memory is dense: row [i] of the slice
    is row [i + 1] of the sheet, and cell [j] of a row is in column [j + 1]. *)
From Stdlib Require Export ZifyBool Sorted.
From S2P Require Export Lib GoSlice XmlWorksheet.

(** ** Operations *)

Abbreviation cell_name col row := (CoordinatesToCellName col row).1 (only parsing).

(** [xlsxRow{R: r}] and [xlsxC{R: name}]. *)
Definition freshRow (r : Z) : xlsxRow := (gozero : xlsxRow) <| xlsxRow_R := r |>.
Definition freshCell (name : string) : xlsxC := (gozero : xlsxC) <| xlsxC_R := name |>.

Definition sheet_rows (xlsx : xlsxWorksheet) : list xlsxRow :=
  xlsxSheetData_Row (xlsxWorksheet_SheetData xlsx).
Definition set_rows (Row : list xlsxRow) (xlsx : xlsxWorksheet) : xlsxWorksheet :=
  xlsx <| xlsxWorksheet_SheetData ::= fun sd => sd <| xlsxSheetData_Row := Row |> |>.

(** The map of [checkSheet] from a row number to the index of the last row that
    has it. *)
Definition existsRows (Row : list xlsxRow) : gmap Z nat :=
  foldl (fun m p => <[xlsxRow_R p.2 := p.1]> m) ∅ (imap pair Row).

Definition checkSheet_count (Row : list xlsxRow) : Z :=
  match last Row with
  | Some lastRow => if zlen Row <=? xlsxRow_R lastRow then xlsxRow_R lastRow else zlen Row
  | None => 0
  end.

(** The indices in [existsRows] are indices of [Row]. *)
Definition checkSheet_row (Row : list xlsxRow) (i : Z) : xlsxRow :=
  match existsRows Row !! (i + 1) ≫= (Row !!.) with
  | Some r => r
  | None => freshRow (i + 1)
  end.

Definition checkSheet (xlsx : xlsxWorksheet) : xlsxWorksheet :=
  let Row := sheet_rows xlsx in
  xlsx <| xlsxWorksheet_SheetData :=
    (gozero : xlsxSheetData) <| xlsxSheetData_Row :=
      checkSheet_row Row <$> (seqZ 0 (checkSheet_count Row)) |> |>.

(** The new list of [checkRow]: blank cells named for the columns [cols] (zero
    based). *)
Fixpoint blank_cells (cols : list Z) (row : Z) : list xlsxC * option goerr :=
  match cols with
  | [] => ok []
  | colIdx :: rest =>
      match CoordinatesToCellName (colIdx + 1) row with
      | (_, Some err) => err_with [] err
      | (cellName, None) =>
          match blank_cells rest row with
          | (_, Some err) => err_with [] err
          | (newlist, None) => ok (freshCell cellName :: newlist)
          end
      end
  end.

(** The old cells are written into the new list at their own columns; an error
    leaves the list as it is at that point. *)
Fixpoint place_cells (oldList C : list xlsxC) : outcome (list xlsxC * option goerr) :=
  match oldList with
  | [] => Ret (ok C)
  | colData :: rest =>
      match CellNameToCoordinates (xlsxC_R colData) with
      | (_, Some err) => Ret (err_with C err)
      | ((colNum, _), None) => C' ← list_set C (isub colNum 1) colData; place_cells rest C'
      end
  end.

(** One round of [checkRow]: the cells of the row at index [rowIdx]. *)
Definition checkRow_cells (rowIdx : Z) (C : list xlsxC) : outcome (list xlsxC * option goerr) :=
  match last C with
  | None => Ret (ok C)
  | Some lastCell =>
      match CellNameToCoordinates (xlsxC_R lastCell) with
      | (_, Some err) => Ret (err_with C err)
      | ((lastCol, _), None) =>
          if zlen C <? lastCol then
            match blank_cells (seqZ 0 lastCol) (rowIdx + 1) with
            | (_, Some err) => Ret (err_with [] err)
            | (newlist, None) => place_cells C newlist
            end
          else Ret (ok C)
      end
  end.

Fixpoint checkRow_loop (rowIdx : Z) (Row : list xlsxRow) : outcome (list xlsxRow * option goerr) :=
  match Row with
  | [] => Ret (ok [])
  | rowData :: rest =>
      p ← checkRow_cells rowIdx (xlsxRow_C rowData);
      let rowData' := rowData <| xlsxRow_C := p.1 |> in
      match p.2 with
      | Some err => Ret (err_with (rowData' :: rest) err)
      | None => q ← checkRow_loop (rowIdx + 1) rest; Ret (rowData' :: q.1, q.2)
      end
  end.

Definition checkRow (xlsx : xlsxWorksheet) : outcome (xlsxWorksheet * option goerr) :=
  p ← checkRow_loop 0 (sheet_rows xlsx); Ret (set_rows p.1 xlsx, p.2).

Definition fillColumns (rowData : xlsxRow) (col row : Z) : xlsxRow :=
  let cellCount := zlen (xlsxRow_C rowData) in
  rowData <| xlsxRow_C ::= fun C =>
    C ++ ((fun colIdx => freshCell (cell_name (colIdx + 1) row)) <$> seqZ cellCount (col - cellCount)) |>.

(** The rows [rowCount <= rowIdx < row] are appended, then the columns of the
    row are filled; [Row[row-1]] panics for [row < 1]. *)
Definition prepareSheetXML (xlsx : xlsxWorksheet) (col row : Z) : outcome xlsxWorksheet :=
  let rowCount := zlen (sheet_rows xlsx) in
  let Row := sheet_rows xlsx ++ ((fun rowIdx => freshRow (rowIdx + 1)) <$> seqZ rowCount (row - rowCount)) in
  rowData ← list_get Row (row - 1);
  Row' ← list_set Row (row - 1) (fillColumns rowData col row);
  Ret (set_rows Row' xlsx).

Fixpoint makeContiguous_loop (fromRows : list Z) (colCount : Z) (Row : list xlsxRow) : outcome (list xlsxRow) :=
  match fromRows with
  | [] => Ret Row
  | fromRow :: rest =>
      rowData ← list_get Row (fromRow - 1);
      Row' ← list_set Row (fromRow - 1) (fillColumns rowData colCount fromRow);
      makeContiguous_loop rest colCount Row'
  end.

Definition makeContiguousColumns (xlsx : xlsxWorksheet) (fromRow toRow colCount : Z) : outcome xlsxWorksheet :=
  Row ← makeContiguous_loop (seqZ fromRow (toRow - fromRow)) colCount (sheet_rows xlsx);
  Ret (set_rows Row xlsx).

Definition cell_used (c : xlsxC) : bool :=
  negb (xlsxC_S c =? 0) || bool_decide (xlsxC_V c <> "") || bool_decide (is_Some (xlsxC_F c))
  || bool_decide (xlsxC_T c <> "").

Definition trimCell (column : list xlsxC) : list xlsxC := List.filter cell_used column.

(** ** The dense form *)

Definition wf_cells (row : Z) (C : list xlsxC) : Prop :=
  forall j c, C !! j = Some c -> xlsxC_R c = cell_name (Z.of_nat j + 1) row.

Definition wf_row (row : Z) (r : xlsxRow) : Prop :=
  xlsxRow_R r = row /\ wf_cells row (xlsxRow_C r) /\ zlen (xlsxRow_C r) <= maxInt.

Definition wf_rows (Row : list xlsxRow) : Prop :=
  forall i r, Row !! i = Some r -> wf_row (Z.of_nat i + 1) r.

Definition wf_sheet (xlsx : xlsxWorksheet) : Prop :=
  wf_rows (sheet_rows xlsx) /\ zlen (sheet_rows xlsx) <= maxInt.

(** Specification of the two passes: the row, or the cell of a row, that a list
    holds under a number or a name, and the dense lists built from them. *)
Definition find_row (n : Z) (Row : list xlsxRow) : option xlsxRow :=
  snd <$> list_find (fun r => xlsxRow_R r = n) Row.
Definition find_cell (name : string) (C : list xlsxC) : option xlsxC :=
  snd <$> list_find (fun c => xlsxC_R c = name) C.
#[global] Arguments find_row : simpl never.
#[global] Arguments find_cell : simpl never.

Definition dense_rows (Row : list xlsxRow) (count : Z) : list xlsxRow :=
  (fun n => default (freshRow n) (find_row n Row)) <$> seqZ 1 count.
Definition dense_cells (row : Z) (C : list xlsxC) (count : Z) : list xlsxC :=
  (fun n => default (freshCell (cell_name n row)) (find_cell (cell_name n row) C)) <$> seqZ 1 count.

(** What a part of a file holds: cells of one row in ascending column order,
    [cols] being their columns. *)
Definition sparse_cells (row : Z) (cols : list Z) (C : list xlsxC) : Prop :=
  StronglySorted Z.lt cols /\ Forall (fun n => 1 <= n <= maxInt) cols /\
  Forall2 (fun n c => xlsxC_R c = cell_name n row) cols C.

Definition ascending_rows (Row : list xlsxRow) : Prop :=
  StronglySorted Z.lt (xlsxRow_R <$> Row) /\ Forall (fun r => 1 <= xlsxRow_R r <= maxInt) Row.

Definition sparse_sheet (xlsx : xlsxWorksheet) : Prop :=
  ascending_rows (sheet_rows xlsx) /\
  Forall (fun r => exists cols, sparse_cells (xlsxRow_R r) cols (xlsxRow_C r)) (sheet_rows xlsx).

(** ** Lemmas *)

Lemma index_succ n : 1 <= n -> Z.of_nat (Z.to_nat (n - 1)) + 1 = n.
Proof. lia. Qed.

Lemma seqZ_lookup_nat m n (i : nat) : Z.of_nat i < n -> seqZ m n !! i = Some (m + Z.of_nat i).
Proof. intros. apply lookup_seqZ. lia. Qed.

Lemma map_seqZ_lookup {A} (f : Z -> A) m n (i : nat) :
  (f <$> seqZ m n) !! i = if decide (Z.of_nat i < n) then Some (f (m + Z.of_nat i)) else None.
Proof.
  rewrite list_lookup_fmap. case_decide.
  - by rewrite seqZ_lookup_nat.
  - rewrite lookup_ge_None_2; [done|]. rewrite length_seqZ. lia.
Qed.

Lemma zlen_map_seqZ {A} (f : Z -> A) m n : 0 <= n -> zlen (f <$> seqZ m n) = n.
Proof. intros. unfold zlen. rewrite length_fmap, length_seqZ. lia. Qed.

Lemma cell_name_inj n m row :
  1 <= n <= maxInt -> 1 <= m <= maxInt -> 1 <= row <= maxInt ->
  cell_name n row = cell_name m row -> n = m.
Proof.
  intros Hn Hm Hr E. destruct (CellName_roundtrip n row Hn Hr) as (a & E1 & E2).
  destruct (CellName_roundtrip m row Hm Hr) as (b & E3 & E4).
  rewrite E1, E3 in E. cbn in E. subst. rewrite E2 in E4. congruence.
Qed.

Lemma cell_name_coordinates n row :
  1 <= n <= maxInt -> 1 <= row <= maxInt ->
  CellNameToCoordinates (cell_name n row) = ok (n, row).
Proof. intros Hn Hr. by destruct (CellName_roundtrip n row Hn Hr) as (a & -> & H). Qed.

Lemma cell_name_ok n row : 1 <= n -> 1 <= row -> CoordinatesToCellName n row = ok (cell_name n row).
Proof. intros Hn Hr. by destruct (CoordinatesToCellName_spec n row Hn Hr) as (a & -> & _). Qed.

(** *** Lookups by number and by name *)

Lemma find_row_None n Row : find_row n Row = None <-> Forall (fun r => xlsxRow_R r <> n) Row.
Proof. unfold find_row. rewrite fmap_None. apply list_find_None. Qed.

Lemma find_row_app n l k :
  find_row n (l ++ k) = match find_row n l with Some r => Some r | None => find_row n k end.
Proof.
  unfold find_row. destruct (list_find _ l) as [[i r]|] eqn:E; cbn.
  - by rewrite (list_find_app_l _ _ _ _ _ E).
  - rewrite list_find_app_r by done. by destruct (list_find _ k) as [[]|].
Qed.

Lemma find_cell_None n C : find_cell n C = None <-> Forall (fun c => xlsxC_R c <> n) C.
Proof. unfold find_cell. rewrite fmap_None. apply list_find_None. Qed.

Lemma find_cell_cons n c C : find_cell n (c :: C) = if decide (xlsxC_R c = n) then Some c else find_cell n C.
Proof. unfold find_cell. cbn [list_find]. case_decide; [done|]. by destruct (list_find _ C) as [[]|]. Qed.

Lemma find_row_cons n r Row : find_row n (r :: Row) = if decide (xlsxRow_R r = n) then Some r else find_row n Row.
Proof. unfold find_row. cbn [list_find]. case_decide; [done|]. by destruct (list_find _ Row) as [[]|]. Qed.

Lemma find_row_Some n Row r : find_row n Row = Some r -> r ∈ Row /\ xlsxRow_R r = n.
Proof.
  unfold find_row. rewrite fmap_Some. intros ([i x] & (H1 & H2 & _)%list_find_Some & ->).
  split; [by eapply list_elem_of_lookup_2|done].
Qed.

Lemma find_cell_Some n C c : find_cell n C = Some c -> c ∈ C /\ xlsxC_R c = n.
Proof.
  unfold find_cell. rewrite fmap_Some. intros ([i x] & (H1 & H2 & _)%list_find_Some & ->).
  split; [by eapply list_elem_of_lookup_2|done].
Qed.

Lemma find_row_lookup Row i r :
  NoDup (xlsxRow_R <$> Row) -> Row !! i = Some r -> find_row (xlsxRow_R r) Row = Some r.
Proof.
  revert i. induction Row as [|x Row IH]; [done|]. intros i [Hx Hnd]%NoDup_cons Hi.
  rewrite find_row_cons. destruct i as [|i]; cbn in Hi.
  - injection Hi as ->. by rewrite decide_True.
  - rewrite decide_False; [by eapply IH|]. intros E. apply Hx. rewrite E.
    apply list_elem_of_fmap. exists r. split; [done|]. by eapply list_elem_of_lookup_2.
Qed.

(** *** [checkSheet] *)

Lemma existsRows_snoc l r : existsRows (l ++ [r]) = <[xlsxRow_R r := length l]> (existsRows l).
Proof. unfold existsRows. rewrite imap_app, foldl_app. cbn. by rewrite Nat.add_0_r. Qed.

Lemma existsRows_find Row n :
  NoDup (xlsxRow_R <$> Row) -> existsRows Row !! n ≫= (Row !!.) = find_row n Row.
Proof.
  induction Row as [|r l IH] using rev_ind; [done|]. rewrite fmap_app. intros Hnd.
  apply NoDup_app in Hnd as (Hl & Hr & _). rewrite existsRows_snoc, find_row_app.
  destruct (decide (xlsxRow_R r = n)) as [<-|Hne].
  - rewrite lookup_insert_eq. cbn. rewrite list_lookup_middle by done.
    assert (find_row (xlsxRow_R r) l = None) as ->.
    { apply find_row_None, Forall_forall. intros x Hx E. apply (Hr (xlsxRow_R x)).
      - by apply list_elem_of_fmap_2.
      - rewrite E. by apply list_elem_of_singleton. }
    by rewrite find_row_cons, decide_True.
  - rewrite lookup_insert_ne by done.
    destruct (existsRows l !! n) as [k|] eqn:Ek; cbn.
    + rewrite <- IH by done. cbn.
      destruct (l !! k) as [x|] eqn:Ex.
      * by rewrite (lookup_app_l_Some _ _ _ _ Ex).
      * exfalso. clear -Ek Ex. revert k Ek Ex. induction l as [|y l IH] using rev_ind; [done|].
        intros k. rewrite existsRows_snoc. intros [[_ <-]|[_ H]]%lookup_insert_Some.
        -- by rewrite list_lookup_middle.
        -- intros Ex. apply (IH k H). apply lookup_ge_None in Ex. rewrite length_app in Ex.
           apply lookup_ge_None. lia.
    + rewrite <- IH by done. cbn. rewrite find_row_cons, decide_False by done. done.
Qed.

Lemma map_seqZ_shift {A} (f g : Z -> A) a b n :
  (forall i, a <= i < a + n -> f i = g (i + (b - a))) -> f <$> (seqZ a n) = g <$> seqZ b n.
Proof.
  intros H. apply list_eq. intros i. rewrite !map_seqZ_lookup. case_decide; [|done].
  f_equal. rewrite H by lia. f_equal. lia.
Qed.

(** With distinct row numbers the rebuilt slice is the dense one. *)
Lemma checkSheet_dense xlsx :
  NoDup (xlsxRow_R <$> sheet_rows xlsx) ->
  sheet_rows (checkSheet xlsx) = dense_rows (sheet_rows xlsx) (checkSheet_count (sheet_rows xlsx)).
Proof.
  intros Hnd. unfold dense_rows. cbn. apply map_seqZ_shift. intros i Hi.
  unfold checkSheet_row. rewrite existsRows_find by done. replace (i + (1 - 0)) with (i + 1) by lia.
  by destruct (find_row _ _).
Qed.

Lemma ascending_NoDup l : StronglySorted Z.lt l -> NoDup l.
Proof.
  induction 1 as [|x l Hs IH Hx]; constructor; [|done].
  intros Hin. rewrite Forall_forall in Hx. apply Hx in Hin. lia.
Qed.

(** A strictly ascending list of positive numbers is not longer than its last
    element. *)
Lemma ascending_last_ge l x a :
  StronglySorted Z.lt l -> Forall (fun n => a < n) l -> last l = Some x -> a + zlen l <= x.
Proof.
  intros Hs. revert a x. induction Hs as [|y l Hs IH Hy]; [done|].
  intros a x Ha Hl. apply Forall_cons in Ha as [Hay Hal]. cbn in Hay.
  destruct l as [|z l'].
  - injection Hl as <-. rewrite zlen_cons, zlen_nil. lia.
  - assert (y + zlen (z :: l') <= x) by (apply IH; [done|by rewrite last_cons_cons in Hl]).
    rewrite !zlen_cons in *. lia.
Qed.

Lemma checkSheet_count_ascending Row :
  ascending_rows Row -> checkSheet_count Row = from_option xlsxRow_R 0 (last Row).
Proof.
  intros [Hs Hpos]. unfold checkSheet_count. destruct (last Row) as [r|] eqn:E; [|done]. cbn.
  assert (0 + zlen (xlsxRow_R <$> Row) <= xlsxRow_R r).
  { apply ascending_last_ge; [done|..].
    - apply Forall_fmap. eapply Forall_impl; [done|]. cbn. lia.
    - by rewrite fmap_last, E. }
  rewrite zlen_fmap in *. replace (_ <=? _) with true by lia. done.
Qed.

Lemma last_Some_elem {A} (l : list A) x : last l = Some x -> exists k, l = k ++ [x].
Proof. intros H. exists (take (pred (length l)) l). rewrite last_Some in H. destruct H as [k ->].
  rewrite length_app. cbn. replace (pred _) with (length k) by lia. by rewrite take_app_length. Qed.

Lemma ascending_le_last l x n : StronglySorted Z.lt l -> last l = Some x -> n ∈ l -> n <= x.
Proof.
  intros Hs. revert x n. induction Hs as [|y l Hs IH Hy]; [done|]. intros x n Hl.
  rewrite elem_of_cons. rewrite Forall_forall in Hy. destruct l as [|z l'].
  - injection Hl as <-. intros [->|?%elem_of_nil]; [lia|done].
  - rewrite last_cons_cons in Hl. intros [->|Hin]; [|by apply IH].
    specialize (IH _ z Hl). specialize (Hy z). set_unfold. lia.
Qed.

(** The row a number finds in the rebuilt slice. *)
Lemma dense_rows_lookup Row count (i : nat) :
  Z.of_nat i < count ->
  dense_rows Row count !! i = Some (default (freshRow (Z.of_nat i + 1)) (find_row (Z.of_nat i + 1) Row)).
Proof.
  intros. unfold dense_rows. rewrite map_seqZ_lookup, decide_True by done.
  by replace (1 + Z.of_nat i) with (Z.of_nat i + 1) by lia.
Qed.

Lemma dense_rows_R Row count i r :
  dense_rows Row count !! i = Some r -> xlsxRow_R r = Z.of_nat i + 1.
Proof.
  unfold dense_rows. rewrite map_seqZ_lookup. case_decide; [|done]. intros [= <-].
  destruct (find_row _ Row) as [r|] eqn:E; cbn; [|lia].
  apply find_row_Some in E as [_ ->]. lia.
Qed.

(** A dense slice has distinct numbers, and [checkSheet] does not change it. *)
Definition numbered (Row : list xlsxRow) : Prop :=
  forall i r, Row !! i = Some r -> xlsxRow_R r = Z.of_nat i + 1.

Lemma numbered_NoDup Row : numbered Row -> NoDup (xlsxRow_R <$> Row).
Proof.
  intros H. apply NoDup_alt. intros i j x. rewrite !list_lookup_fmap.
  intros (r & Hi & ->)%fmap_Some (r' & Hj & E)%fmap_Some.
  pose proof (H _ _ Hi). pose proof (H _ _ Hj). lia.
Qed.

Lemma numbered_count Row : numbered Row -> checkSheet_count Row = zlen Row.
Proof.
  intros H. unfold checkSheet_count. destruct (last Row) as [r|] eqn:E.
  - rewrite last_lookup in E. apply H in E as HR. apply lookup_lt_Some in E. unfold zlen.
    case_match; lia.
  - by apply last_None in E as ->.
Qed.

Lemma numbered_find Row i r : numbered Row -> Row !! i = Some r -> find_row (Z.of_nat i + 1) Row = Some r.
Proof.
  intros H Hi. rewrite <- (H _ _ Hi). eapply find_row_lookup; [by apply numbered_NoDup|done].
Qed.

Lemma dense_rows_numbered Row : numbered Row -> dense_rows Row (zlen Row) = Row.
Proof.
  intros H. apply list_eq. intros i. destruct (Row !! i) as [r|] eqn:E.
  - rewrite dense_rows_lookup by (apply lookup_lt_Some in E; unfold zlen; lia).
    by rewrite (numbered_find _ _ _ H E).
  - apply lookup_ge_None in E. apply lookup_ge_None. unfold dense_rows.
    rewrite length_fmap, length_seqZ. unfold zlen. lia.
Qed.

Lemma checkSheet_numbered xlsx : numbered (sheet_rows xlsx) -> sheet_rows (checkSheet xlsx) = sheet_rows xlsx.
Proof.
  intros H. rewrite checkSheet_dense by by apply numbered_NoDup.
  by rewrite numbered_count, dense_rows_numbered.
Qed.

Lemma wf_rows_numbered Row : wf_rows Row -> numbered Row.
Proof. intros H i r Hi. by destruct (H i r Hi). Qed.

(** *** [checkRow] *)

Lemma blank_cells_ok cols row :
  Forall (fun n => 0 <= n) cols -> 1 <= row ->
  blank_cells cols row = ok ((fun n => freshCell (cell_name (n + 1) row)) <$> cols).
Proof.
  intros Hc Hr. induction Hc as [|n cols Hn Hc IH]; cbn; [done|].
  rewrite cell_name_ok by lia. by rewrite IH.
Qed.

(** Placing cells whose columns are [cols]. *)
Definition put_cells (cols : list Z) (old C : list xlsxC) : list xlsxC :=
  foldl (fun C p => <[Z.to_nat (p.1 - 1) := p.2]> C) C (zip cols old).

Lemma place_cells_ok row cols old C :
  1 <= row <= maxInt -> zlen C <= maxInt ->
  Forall (fun n => 1 <= n <= zlen C) cols ->
  Forall2 (fun n c => xlsxC_R c = cell_name n row) cols old ->
  place_cells old C = Ret (ok (put_cells cols old C)).
Proof.
  intros Hrow Hlen Hcols Hold. revert C Hlen Hcols.
  induction Hold as [|n c cols old Hc Hold IH]; intros C Hlen Hcols; cbn; [done|].
  apply Forall_cons in Hcols as [Hn Hcols]. rewrite Hc, cell_name_coordinates by lia.
  unfold isub. rewrite wrap64_id by (unfold minInt; lia).
  rewrite list_set_in by lia. cbn. apply IH; rewrite zlen_insert; done.
Qed.

Lemma put_cells_lookup cols old C n :
  StronglySorted Z.lt cols -> Forall (fun n => 1 <= n <= zlen C) cols -> length cols = length old ->
  1 <= n <= zlen C ->
  put_cells cols old C !! Z.to_nat (n - 1) =
    match list_find (fun p => p.1 = n) (zip cols old) with
    | Some (_, p) => Some p.2
    | None => C !! Z.to_nat (n - 1)
    end.
Proof.
  intros Hs. revert old C. induction Hs as [|m cols Hs IH Hm]; intros [|c old] C Hcols Hl Hn; try done.
  apply Forall_cons in Hcols as [Hm' Hcols]. unfold put_cells. cbn [zip_with foldl fst snd].
  change (foldl _ ?b _) with (put_cells cols old b). injection Hl as Hl.
  rewrite IH; [|by rewrite zlen_insert|done|by rewrite zlen_insert].
  cbn [list_find]. case_decide as E; cbn in E.
  - subst m. assert (list_find (fun p : Z * xlsxC => p.1 = n) (zip cols old) = None) as ->.
    { apply list_find_None, Forall_forall. intros [m d] Hin%elem_of_zip_l. cbn. intros ->.
      rewrite Forall_forall in Hm. apply Hm in Hin. lia. }
    apply list_lookup_insert_eq. unfold zlen in *. lia.
  - destruct (list_find _ (zip cols old)) as [[]|]; cbn; [done|].
    apply list_lookup_insert_ne. lia.
Qed.

Lemma sparse_find row cols C n :
  1 <= row <= maxInt -> 1 <= n <= maxInt -> Forall (fun n => 1 <= n <= maxInt) cols ->
  Forall2 (fun n c => xlsxC_R c = cell_name n row) cols C ->
  find_cell (cell_name n row) C =
    match list_find (fun p => p.1 = n) (zip cols C) with Some (_, p) => Some p.2 | None => None end.
Proof.
  intros Hrow Hn Hcols. induction 1 as [|m c cols C Hc HC IH]; [done|].
  apply Forall_cons in Hcols as [Hm Hcols]. rewrite find_cell_cons. cbn [zip_with list_find].
  case_decide as E1; case_decide as E2; cbn in E2; [done|..].
  - exfalso. apply E2. eapply (cell_name_inj _ _ row); congruence.
  - congruence.
  - rewrite IH by done. by destruct (list_find _ (zip cols C)) as [[]|].
Qed.

Lemma sparse_last row cols C n :
  sparse_cells row cols C -> last cols = Some n ->
  exists c, last C = Some c /\ xlsxC_R c = cell_name n row.
Proof.
  intros (_ & _ & H2) Hl. apply last_Some in Hl as [k ->].
  apply Forall2_app_inv_l in H2 as (C1 & C2 & _ & H2 & ->).
  apply Forall2_cons_inv_l in H2 as (c & C3 & Hc & H3 & ->). apply Forall2_nil_inv_l in H3 as ->.
  exists c. by rewrite last_snoc.
Qed.

Lemma ascending_full cols n (j : nat) :
  StronglySorted Z.lt cols -> Forall (fun m => 1 <= m) cols ->
  last cols = Some n -> n <= zlen cols -> forall x, cols !! j = Some x -> x = Z.of_nat j + 1.
Proof.
  intros Hs Hp Hl Hn. assert (forall a k y, StronglySorted Z.lt k -> Forall (fun m => a < m) k ->
    last k = Some y -> y <= a + zlen k -> forall i x, k !! i = Some x -> x = a + Z.of_nat i + 1) as H.
  { clear. intros a k y Hs. revert a y. induction Hs as [|z k Hs IH Hz]; [done|].
    intros a y Ha Hl Hy i x Hi. apply Forall_cons in Ha as [Haz Hak]. cbn in Haz.
    rewrite zlen_cons in Hy. destruct k as [|w k'].
    - injection Hl as <-. destruct i; [|done]. injection Hi as <-. unfold zlen in Hy; cbn in Hy. lia.
    - rewrite last_cons_cons in Hl. pose proof (ascending_last_ge _ _ z Hs Hz Hl).
      assert (z = a + 1) as -> by lia. destruct i as [|i]; cbn in Hi.
      + injection Hi as <-. lia.
      + rewrite (IH (a + 1) y Hz Hl ltac:(lia) i x Hi). lia. }
  intros x Hx. rewrite (H 0 cols n Hs ltac:(eapply Forall_impl; [done|cbn; lia]) Hl ltac:(lia) j x Hx). lia.
Qed.

Lemma dense_cells_lookup row C count (j : nat) :
  Z.of_nat j < count -> dense_cells row C count !! j =
    Some (default (freshCell (cell_name (Z.of_nat j + 1) row)) (find_cell (cell_name (Z.of_nat j + 1) row) C)).
Proof.
  intros. unfold dense_cells. rewrite map_seqZ_lookup, decide_True by done.
  by replace (1 + Z.of_nat j) with (Z.of_nat j + 1) by lia.
Qed.

Lemma zlen_dense_cells row C count : 0 <= count -> zlen (dense_cells row C count) = count.
Proof. apply zlen_map_seqZ. Qed.

Lemma zlen_put_cells cols C blank : zlen (put_cells cols C blank) = zlen blank.
Proof.
  unfold put_cells. generalize (zip cols C) as l. intros l. revert blank.
  induction l as [|p l IH]; intros b; cbn; [done|]. rewrite IH. apply zlen_insert.
Qed.

Lemma sparse_find_at row cols C j m c :
  1 <= row <= maxInt -> sparse_cells row cols C ->
  cols !! j = Some m -> C !! j = Some c -> find_cell (cell_name m row) C = Some c.
Proof.
  intros Hrow (Hs & Hr & H2) Hm Hc.
  assert (1 <= m <= maxInt) as Hmr by (rewrite Forall_lookup in Hr; eauto).
  rewrite (sparse_find row cols) by done.
  assert (list_find (fun p : Z * xlsxC => p.1 = m) (zip cols C) = Some (j, (m, c))) as ->; [|done].
  apply list_find_Some. split_and!; [|done|].
  - apply lookup_zip_with_Some. by exists m, c.
  - intros i [m' c'] (x & y & [= -> ->] & Hx & Hy)%lookup_zip_with_Some Hlt. cbn. intros ->.
    apply ascending_NoDup in Hs. pose proof (NoDup_lookup _ _ _ _ Hs Hx Hm). lia.
Qed.

Lemma sparse_last_range row cols C n :
  sparse_cells row cols C -> last cols = Some n -> 1 <= n <= maxInt /\ zlen C <= n.
Proof.
  intros (Hs & Hr & H2) En. split.
  - rewrite Forall_forall in Hr. apply Hr. apply last_Some in En as [k ->].
    apply elem_of_app. right. by apply list_elem_of_singleton.
  - replace (zlen C) with (zlen cols) by (unfold zlen; by rewrite (Forall2_length _ _ _ H2)).
    apply (ascending_last_ge _ _ 0 Hs); [|done]. eapply Forall_impl; [exact Hr|cbn; lia].
Qed.

(** A row whose last column is beyond its length is rebuilt. *)
Lemma place_cells_dense row cols C n :
  1 <= row <= maxInt -> sparse_cells row cols C -> last cols = Some n ->
  place_cells C ((fun n => freshCell (cell_name (n + 1) row)) <$> seqZ 0 n) = Ret (ok (dense_cells row C n)).
Proof.
  intros Hrow HC En. pose proof HC as (Hs & Hr & H2).
  destruct (sparse_last_range _ _ _ _ HC En) as [Hn _].
  set (blank := _ <$> _). assert (zlen blank = n) as Hb by (subst blank; apply zlen_map_seqZ; lia).
  assert (Forall (fun m => 1 <= m <= zlen blank) cols) as Hcols.
  { rewrite Hb. apply Forall_forall. intros m Hm. rewrite Forall_forall in Hr.
    pose proof (ascending_le_last _ _ _ Hs En Hm). specialize (Hr _ Hm). lia. }
  rewrite (place_cells_ok row cols) by (done || lia). do 3 f_equal.
  apply list_eq. intros j. destruct (decide (Z.of_nat j < n)) as [Hj|Hj].
  - rewrite dense_cells_lookup by done.
    pose proof (put_cells_lookup cols C blank (Z.of_nat j + 1)) as Hput.
    replace (Z.to_nat (Z.of_nat j + 1 - 1)) with j in Hput by lia.
    rewrite Hput; [|done|done|by eapply Forall2_length|lia].
    rewrite (sparse_find row cols) by (done || lia).
    destruct (list_find _ _) as [[]|]; [done|]. subst blank.
    rewrite map_seqZ_lookup, decide_True by lia. done.
  - rewrite !lookup_ge_None_2; [done|..].
    + unfold dense_cells. rewrite length_fmap, length_seqZ. lia.
    + pose proof (zlen_put_cells cols C blank) as E. unfold zlen in *. lia.
Qed.

(** A row as long as its last column is dense already. *)
Lemma full_cells_dense row cols C n :
  1 <= row <= maxInt -> sparse_cells row cols C -> last cols = Some n -> n <= zlen C ->
  dense_cells row C n = C.
Proof.
  intros Hrow HC En Hle. pose proof HC as (Hs & Hr & H2).
  destruct (sparse_last_range _ _ _ _ HC En) as [Hn Hge].
  apply list_eq. intros j. destruct (C !! j) as [c|] eqn:Ec.
  - pose proof (lookup_lt_Some _ _ _ Ec). rewrite dense_cells_lookup by (unfold zlen in *; lia).
    destruct (Forall2_lookup_r _ _ _ _ _ H2 Ec) as (m & Hm & HR).
    assert (m = Z.of_nat j + 1) as ->.
    { apply (ascending_full cols n j); try done.
      - eapply Forall_impl; [exact Hr|cbn; lia].
      - unfold zlen in *. rewrite (Forall2_length _ _ _ H2). lia. }
    by rewrite (sparse_find_at row cols C j _ c).
  - apply lookup_ge_None in Ec. apply lookup_ge_None. unfold dense_cells.
    rewrite length_fmap, length_seqZ. unfold zlen in *. lia.
Qed.

(** Every list of named cells of one row is completed to the dense one. *)
Lemma checkRow_cells_dense row cols C :
  1 <= row <= maxInt -> sparse_cells row cols C ->
  checkRow_cells (row - 1) C = Ret (ok (dense_cells row C (from_option id 0 (last cols)))).
Proof.
  intros Hrow HC. unfold checkRow_cells. destruct (last cols) as [n|] eqn:En.
  - destruct (sparse_last _ _ _ _ HC En) as (c & -> & Hc). cbn [from_option id].
    destruct (sparse_last_range _ _ _ _ HC En) as [Hn _].
    rewrite Hc, cell_name_coordinates by done. case_match eqn:Hshort.
    + rewrite blank_cells_ok; [|apply Forall_seqZ; lia|lia].
      replace (row - 1 + 1) with row by lia. by apply (place_cells_dense row cols).
    + by rewrite (full_cells_dense row cols) by (done || lia).
  - destruct HC as (_ & _ & H2). apply last_None in En as ->. apply Forall2_nil_inv_l in H2 as ->. reflexivity.
Qed.

Lemma wf_cells_sparse row C :
  wf_cells row C -> zlen C <= maxInt -> sparse_cells row (seqZ 1 (zlen C)) C.
Proof.
  intros H Hlen. split_and!.
  - clear. unfold seqZ. generalize (Z.to_nat (zlen C)). intros n.
    cut (forall s, StronglySorted Z.lt ((fun i => Z.of_nat i + 1) <$> seq s n)); [intros Hc; apply Hc|].
    induction n as [|n IH]; intros s; cbn; constructor; [apply IH|].
    apply Forall_fmap, Forall_forall. intros k Hk%elem_of_seq. cbn. lia.
  - apply Forall_seqZ. lia.
  - apply Forall2_same_length_lookup_2.
    + rewrite length_seqZ. unfold zlen. lia.
    + intros j n c Hn Hc. apply lookup_seqZ in Hn as [-> _]. rewrite (H _ _ Hc). do 2 f_equal. lia.
Qed.

Lemma dense_cells_wf row C n : wf_cells row (dense_cells row C n).
Proof.
  intros j c. unfold dense_cells. rewrite map_seqZ_lookup. case_decide; [|done]. intros [= <-].
  replace (1 + Z.of_nat j) with (Z.of_nat j + 1) by lia.
  destruct (find_cell _ C) as [c|] eqn:E; cbn; [|done]. by apply find_cell_Some in E as [_ ->].
Qed.

(** On a dense row [checkRow] does nothing. *)
Lemma checkRow_cells_wf row C :
  1 <= row <= maxInt -> wf_cells row C -> zlen C <= maxInt -> checkRow_cells (row - 1) C = Ret (ok C).
Proof.
  intros Hrow HC Hlen. pose proof (wf_cells_sparse _ _ HC Hlen) as Hsp.
  rewrite (checkRow_cells_dense row _ _ Hrow Hsp).
  destruct (last (seqZ 1 (zlen C))) as [n|] eqn:En; cbn [from_option id].
  - rewrite (full_cells_dense row _ _ _ Hrow Hsp En); [done|].
    apply last_Some in En as [k Ek]. assert (n ∈ seqZ 1 (zlen C)) as Hin
      by (rewrite Ek; apply elem_of_app; right; by apply list_elem_of_singleton).
    apply elem_of_seqZ in Hin. lia.
  - apply last_None in En. assert (length (seqZ 1 (zlen C)) = 0%nat) as H by by rewrite En.
    rewrite length_seqZ in H. destruct C; [done|]. unfold zlen in H. cbn in H. lia.
Qed.

(** *** The whole sheet *)

Definition last_column (C : list xlsxC) : Z :=
  match last C with Some c => (CellNameToCoordinates (xlsxC_R c)).1.1 | None => 0 end.

Definition completed_row (r : xlsxRow) : xlsxRow :=
  r <| xlsxRow_C := dense_cells (xlsxRow_R r) (xlsxRow_C r) (last_column (xlsxRow_C r)) |>.

Definition sparse_row (r : xlsxRow) : Prop :=
  1 <= xlsxRow_R r <= maxInt /\ exists cols, sparse_cells (xlsxRow_R r) cols (xlsxRow_C r).

Lemma sparse_last_column row cols C :
  1 <= row <= maxInt -> sparse_cells row cols C -> last_column C = from_option id 0 (last cols).
Proof.
  intros Hrow HC. unfold last_column. destruct (last cols) as [n|] eqn:En.
  - destruct (sparse_last _ _ _ _ HC En) as (c & -> & Hc). destruct (sparse_last_range _ _ _ _ HC En).
    by rewrite Hc, cell_name_coordinates.
  - destruct HC as (_ & _ & H2). apply last_None in En as ->. by apply Forall2_nil_inv_l in H2 as ->.
Qed.

Lemma last_column_range row cols C :
  1 <= row <= maxInt -> sparse_cells row cols C -> 0 <= last_column C <= maxInt.
Proof.
  intros Hrow HC. rewrite (sparse_last_column row cols) by done.
  destruct (last cols) as [n|] eqn:En; cbn; [|unfold maxInt; lia].
  destruct (sparse_last_range _ _ _ _ HC En). lia.
Qed.

Lemma completed_row_wf r : sparse_row r -> wf_row (xlsxRow_R r) (completed_row r).
Proof.
  intros (Hr & cols & HC). pose proof (last_column_range _ _ _ Hr HC). split_and!; [done|apply dense_cells_wf|].
  change (zlen (dense_cells (xlsxRow_R r) (xlsxRow_C r) (last_column (xlsxRow_C r))) <= maxInt).
  rewrite zlen_dense_cells; lia.
Qed.

Lemma completed_freshRow n : completed_row (freshRow n) = freshRow n.
Proof. done. Qed.

Lemma freshRow_sparse n : 1 <= n <= maxInt -> sparse_row (freshRow n).
Proof. intros Hn. split; [done|]. exists []. split_and!; constructor. Qed.

Lemma checkRow_loop_sparse (k : nat) Row :
  (forall i r, Row !! i = Some r -> xlsxRow_R r = Z.of_nat k + Z.of_nat i + 1) ->
  Forall sparse_row Row ->
  checkRow_loop (Z.of_nat k) Row = Ret (ok (completed_row <$> Row)).
Proof.
  intros Hnum Hsp. revert k Hnum. induction Hsp as [|r Row (Hr & cols & HC) Hsp IH]; intros k Hnum; [done|].
  cbn [checkRow_loop]. pose proof (Hnum 0%nat r eq_refl) as HR.
  replace (Z.of_nat k) with (xlsxRow_R r - 1) at 1 by lia.
  rewrite (checkRow_cells_dense _ cols) by done. rewrite <- (sparse_last_column _ _ _ Hr HC).
  cbn [mbind outcome_bind fst snd].
  replace (Z.of_nat k + 1) with (Z.of_nat (S k)) by lia.
  rewrite IH; [done|]. intros i r' Hi. specialize (Hnum (S i) r' Hi). lia.
Qed.

Lemma checkRow_sparse xlsx :
  numbered (sheet_rows xlsx) -> Forall sparse_row (sheet_rows xlsx) ->
  checkRow xlsx = Ret (ok (set_rows (completed_row <$> sheet_rows xlsx) xlsx)).
Proof.
  intros Hn Hs. unfold checkRow. rewrite (checkRow_loop_sparse 0) by done. done.
Qed.

Lemma wf_row_sparse r row : wf_row row r -> 1 <= row <= maxInt -> sparse_row r.
Proof.
  intros (<- & HC & Hlen) Hr. split; [done|]. eexists. by apply wf_cells_sparse.
Qed.

Lemma wf_row_completed r row : wf_row row r -> 1 <= row <= maxInt -> completed_row r = r.
Proof.
  intros (<- & HC & Hlen) Hr. unfold completed_row.
  pose proof (checkRow_cells_wf _ _ Hr HC Hlen) as E.
  pose proof (wf_cells_sparse _ _ HC Hlen) as Hsp.
  rewrite (checkRow_cells_dense _ _ _ Hr Hsp), <- (sparse_last_column _ _ _ Hr Hsp) in E.
  injection E as E. rewrite E. by destruct r.
Qed.

Lemma completed_rows_wf Row :
  numbered Row -> Forall sparse_row Row -> wf_rows (completed_row <$> Row).
Proof.
  intros Hn Hs i r. rewrite list_lookup_fmap. intros (r' & Hi & ->)%fmap_Some.
  rewrite <- (Hn _ _ Hi). apply completed_row_wf. rewrite Forall_lookup in Hs. eauto.
Qed.

(** What the two passes make of a part whose rows and cells are in order. *)
Lemma load_sparse xlsx :
  sparse_sheet xlsx ->
  let Row := dense_rows (sheet_rows xlsx) (from_option xlsxRow_R 0 (last (sheet_rows xlsx))) in
  exists xlsx', checkRow (checkSheet xlsx) = Ret (ok xlsx') /\
    sheet_rows xlsx' = completed_row <$> Row /\ numbered Row /\ Forall sparse_row Row /\
    zlen Row <= maxInt.
Proof.
  intros [Hasc Hcells] Row. pose proof Hasc as [Hs Hpos].
  assert (sheet_rows (checkSheet xlsx) = Row) as E.
  { rewrite checkSheet_dense by by apply ascending_NoDup. by rewrite checkSheet_count_ascending. }
  assert (numbered Row) as Hnum by (intros i r; apply dense_rows_R).
  assert (0 <= from_option xlsxRow_R 0 (last (sheet_rows xlsx)) <= maxInt) as Hcount.
  { destruct (last _) as [r|] eqn:El; cbn; [|unfold maxInt; lia].
    apply last_Some in El as [k El]. rewrite El, Forall_app, Forall_cons in Hpos. lia. }
  assert (Forall sparse_row Row) as Hsp.
  { apply Forall_fmap, Forall_seqZ. intros n Hn. cbn.
    destruct (find_row n (sheet_rows xlsx)) as [r|] eqn:Er; cbn.
    - apply find_row_Some in Er as [Hin <-]. rewrite Forall_forall in Hpos, Hcells.
      split; [by apply Hpos|by apply Hcells].
    - apply freshRow_sparse. lia. }
  exists (set_rows (completed_row <$> Row) (checkSheet xlsx)).
  rewrite checkRow_sparse by (by rewrite E). rewrite E. split_and!; try done.
  unfold Row, dense_rows. rewrite zlen_map_seqZ; lia.
Qed.

(** *** Cells by coordinates *)

(** The cell a dense sheet has at a position, and the cell a part has under
    the name of that position. *)
Definition sheet_cell (xlsx : xlsxWorksheet) (col row : Z) : option xlsxC :=
  sheet_rows xlsx !! Z.to_nat (row - 1) ≫= fun r => xlsxRow_C r !! Z.to_nat (col - 1).

Definition part_cell (xlsx : xlsxWorksheet) (col row : Z) : option xlsxC :=
  find_row row (sheet_rows xlsx) ≫= fun r => find_cell (cell_name col row) (xlsxRow_C r).

(** Absent, or present without any content. *)
Definition cell_blank (xlsx : xlsxWorksheet) (col row : Z) : Prop :=
  forall c, sheet_cell xlsx col row = Some c -> c = freshCell (cell_name col row).

Lemma sparse_find_elem row cols C n c :
  1 <= row <= maxInt -> 1 <= n <= maxInt -> sparse_cells row cols C ->
  find_cell (cell_name n row) C = Some c -> n ∈ cols.
Proof.
  intros Hrow Hn (Hs & Hr & H2). rewrite (sparse_find row cols) by done.
  destruct (list_find _ _) as [[i [m d]]|] eqn:E; [|done]. intros _.
  apply list_find_Some in E as (Hi & Hm & _). cbn in Hm. subst m.
  apply lookup_zip_with_Some in Hi as (x & y & [= -> ->] & Hx & _). by eapply list_elem_of_lookup_2.
Qed.

Lemma completed_row_cell r n :
  sparse_row r -> 1 <= n <= maxInt ->
  xlsxRow_C (completed_row r) !! Z.to_nat (n - 1) =
    match find_cell (cell_name n (xlsxRow_R r)) (xlsxRow_C r) with
    | Some c => Some c
    | None => if decide (n <= last_column (xlsxRow_C r)) then Some (freshCell (cell_name n (xlsxRow_R r))) else None
    end.
Proof.
  intros (Hr & cols & HC) Hn.
  change (xlsxRow_C (completed_row r)) with
    (dense_cells (xlsxRow_R r) (xlsxRow_C r) (last_column (xlsxRow_C r))).
  destruct (decide (n <= last_column (xlsxRow_C r))) as [Hle|Hgt].
  - rewrite dense_cells_lookup by lia. replace (Z.of_nat (Z.to_nat (n - 1)) + 1) with n by lia.
    by destruct (find_cell _ _).
  - rewrite lookup_ge_None_2 by (unfold dense_cells; rewrite length_fmap, length_seqZ; lia).
    destruct (find_cell _ _) as [c|] eqn:E; [|done]. exfalso. apply Hgt.
    rewrite (sparse_last_column (xlsxRow_R r) cols) by done.
    pose proof (sparse_find_elem _ _ _ _ _ Hr Hn HC E) as Hin.
    destruct (last cols) as [m|] eqn:Em; [|apply last_None in Em as ->; by apply elem_of_nil in Hin].
    eapply ascending_le_last; [apply HC|exact Em|done].
Qed.

(** *** [prepareSheetXML] *)

Lemma fillColumns_cells rowData col row (j : nat) :
  xlsxRow_C (fillColumns rowData col row) !! j =
    match xlsxRow_C rowData !! j with
    | Some c => Some c
    | None => if decide (Z.of_nat j < col) then Some (freshCell (cell_name (Z.of_nat j + 1) row)) else None
    end.
Proof.
  change (xlsxRow_C (fillColumns rowData col row)) with (xlsxRow_C rowData ++
    ((fun colIdx => freshCell (cell_name (colIdx + 1) row)) <$> seqZ (zlen (xlsxRow_C rowData)) (col - zlen (xlsxRow_C rowData)))).
  rewrite lookup_app. destruct (xlsxRow_C rowData !! j) as [c|] eqn:E; [done|].
  apply lookup_ge_None in E. rewrite map_seqZ_lookup. unfold zlen.
  repeat case_decide; try (done || lia). do 4 f_equal. lia.
Qed.

Lemma fillColumns_wf rowData col row :
  wf_row row rowData -> col <= maxInt -> wf_row row (fillColumns rowData col row).
Proof.
  intros (HR & HC & Hlen) Hcol. split_and!; [done|..].
  - intros j c. rewrite fillColumns_cells. destruct (xlsxRow_C rowData !! j) eqn:E.
    + intros [= <-]. by apply HC.
    + case_decide; [|done]. by intros [= <-].
  - unfold fillColumns. cbn. autorewrite with zlen. unfold zlen at 2. rewrite length_seqZ. lia.
Qed.

Definition with_rows (xlsx : xlsxWorksheet) (row : Z) : list xlsxRow :=
  sheet_rows xlsx ++ ((fun rowIdx => freshRow (rowIdx + 1)) <$> seqZ (zlen (sheet_rows xlsx)) (row - zlen (sheet_rows xlsx))).

Lemma with_rows_lookup xlsx row (i : nat) :
  with_rows xlsx row !! i =
    match sheet_rows xlsx !! i with
    | Some r => Some r
    | None => if decide (Z.of_nat i < row) then Some (freshRow (Z.of_nat i + 1)) else None
    end.
Proof.
  unfold with_rows. rewrite lookup_app. destruct (sheet_rows xlsx !! i) as [c|] eqn:E; [done|].
  apply lookup_ge_None in E. rewrite map_seqZ_lookup. unfold zlen.
  repeat case_decide; try (done || lia). do 3 f_equal. lia.
Qed.

Lemma with_rows_len xlsx row : zlen (with_rows xlsx row) = Z.max (zlen (sheet_rows xlsx)) row.
Proof.
  unfold with_rows. rewrite zlen_app, zlen_fmap. unfold zlen at 2. rewrite length_seqZ. lia.
Qed.

Lemma freshRow_wf n : wf_row n (freshRow n).
Proof. split_and!; [done|by intros ? ?|done]. Qed.

Lemma with_rows_wf xlsx row : wf_rows (sheet_rows xlsx) -> wf_rows (with_rows xlsx row).
Proof.
  intros H i r. rewrite with_rows_lookup. destruct (sheet_rows xlsx !! i) eqn:E.
  - intros [= <-]. by apply H.
  - case_decide; [|done]. intros [= <-]. apply freshRow_wf.
Qed.

(** The call succeeds for every positive row: the rows are extended and the row
    is filled. *)
Lemma prepareSheetXML_ok xlsx col row :
  1 <= row ->
  exists rowData, with_rows xlsx row !! Z.to_nat (row - 1) = Some rowData /\
    prepareSheetXML xlsx col row =
      Ret (set_rows (<[Z.to_nat (row - 1) := fillColumns rowData col row]> (with_rows xlsx row)) xlsx).
Proof.
  intros Hrow. pose proof (with_rows_len xlsx row) as Hlen.
  destruct (lookup_lt_is_Some_2 (with_rows xlsx row) (Z.to_nat (row - 1))) as [rowData Hr].
  { unfold zlen in *. lia. }
  exists rowData. split; [done|]. unfold prepareSheetXML. fold (with_rows xlsx row).
  rewrite (list_get_in _ _ rowData) by (done || lia). cbn [mbind outcome_bind].
  rewrite list_set_in by lia. done.
Qed.

Lemma sheet_cell_set_rows Row xlsx col row :
  sheet_cell (set_rows Row xlsx) col row = Row !! Z.to_nat (row - 1) ≫= fun r => xlsxRow_C r !! Z.to_nat (col - 1).
Proof. done. Qed.

(** The positions of the sheet after [prepareSheetXML]. *)
Lemma prepareSheetXML_cells xlsx col row xlsx' c r :
  1 <= row -> 1 <= c -> 1 <= r ->
  prepareSheetXML xlsx col row = Ret xlsx' ->
  sheet_cell xlsx' c r =
    match sheet_cell xlsx c r with
    | Some x => Some x
    | None => if decide (r = row /\ c <= col) then Some (freshCell (cell_name c r)) else None
    end.
Proof.
  intros Hrow Hc Hr. destruct (prepareSheetXML_ok xlsx col row Hrow) as (rowData & Hd & ->).
  intros [= <-]. rewrite sheet_cell_set_rows. unfold sheet_cell.
  rewrite with_rows_lookup in Hd.
  destruct (decide (r = row)) as [->|Hne].
  - rewrite list_lookup_insert_eq by (pose proof (with_rows_len xlsx row); unfold zlen in *; lia).
    cbn [mbind option_bind]. rewrite fillColumns_cells.
    replace (Z.of_nat (Z.to_nat (c - 1)) + 1) with c by lia.
    assert (forall o : option xlsxC, match o with Some x => Some x | None =>
      if decide (Z.of_nat (Z.to_nat (c - 1)) < col) then Some (freshCell (cell_name c row)) else None end =
      match o with Some x => Some x | None =>
      if decide (row = row /\ c <= col) then Some (freshCell (cell_name c row)) else None end) as Hext.
    { intros [x|]; [done|]. repeat case_decide; try done; lia. }
    rewrite Hext. destruct (sheet_rows xlsx !! _) as [r'|]; cbn [mbind option_bind].
    + injection Hd as ->. done.
    + rewrite decide_True in Hd by lia. injection Hd as <-. done.
  - clear Hd. rewrite list_lookup_insert_ne by lia. rewrite with_rows_lookup.
    destruct (sheet_rows xlsx !! _) as [r'|]; cbn [mbind option_bind].
    + destruct (xlsxRow_C r' !! _); [done|]. case_decide; [lia|done].
    + repeat case_decide; try done; lia.
Qed.

Lemma wf_rows_insert Row i r :
  wf_rows Row -> wf_row (Z.of_nat i + 1) r -> wf_rows (<[i := r]> Row).
Proof.
  intros H Hr j x Hj. apply list_lookup_insert_Some in Hj as [(-> & <- & _)|[_ Hj]]; [done|by apply H].
Qed.

Lemma prepareSheetXML_wf xlsx col row xlsx' :
  wf_sheet xlsx -> 1 <= row <= maxInt -> col <= maxInt ->
  prepareSheetXML xlsx col row = Ret xlsx' -> wf_sheet xlsx'.
Proof.
  intros [Hwf Hlen] Hrow Hcol. destruct (prepareSheetXML_ok xlsx col row) as (rowData & Hd & ->); [lia|].
  intros [= <-]. pose proof (with_rows_wf _ row Hwf) as Hwf'. split.
  - apply wf_rows_insert; [done|]. replace (Z.of_nat (Z.to_nat (row - 1)) + 1) with row by lia.
    apply fillColumns_wf; [|done]. replace row with (Z.of_nat (Z.to_nat (row - 1)) + 1) at 1 by lia. by apply Hwf'.
  - change (zlen (<[Z.to_nat (row - 1):=fillColumns rowData col row]> (with_rows xlsx row)) <= maxInt).
    rewrite zlen_insert, with_rows_len. lia.
Qed.

(** *** Rows apart from their cells *)

Definition row_props (r : xlsxRow) : xlsxRow := r <| xlsxRow_R := 0 |> <| xlsxRow_C := [] |>.

(** Rows that do not exist have no attributes. *)
Definition props_at (xlsx : xlsxWorksheet) (row : Z) : xlsxRow :=
  from_option row_props gozero (sheet_rows xlsx !! Z.to_nat (row - 1)).

Definition same_props (x y : xlsxWorksheet) : Prop := forall row, 1 <= row -> props_at y row = props_at x row.

#[export] Instance same_props_preorder : PreOrder same_props.
Proof. split; [by intros x row|]. intros x y z Hxy Hyz row Hr. by rewrite Hyz, Hxy. Qed.

Lemma same_props_fmap x y : row_props <$> sheet_rows y = row_props <$> sheet_rows x -> same_props x y.
Proof.
  intros E row _. unfold props_at. apply (f_equal (.!! Z.to_nat (row - 1))) in E. rewrite !list_lookup_fmap in E.
  by destruct (sheet_rows y !! _), (sheet_rows x !! _); cbn in *; congruence.
Qed.

(** A row replaced by one with its attributes. *)
Lemma same_props_insert x y i r r' :
  sheet_rows x !! i = Some r -> row_props r' = row_props r -> sheet_rows y = <[i := r']> (sheet_rows x) -> same_props x y.
Proof.
  intros Hi Hr E. apply same_props_fmap. rewrite E, list_fmap_insert, Hr. apply list_insert_id.
  by rewrite list_lookup_fmap, Hi.
Qed.

Lemma with_rows_props xlsx row : same_props xlsx (set_rows (with_rows xlsx row) xlsx).
Proof.
  intros n Hn. unfold props_at. change (sheet_rows (set_rows ?R xlsx)) with R. rewrite with_rows_lookup.
  destruct (sheet_rows xlsx !! _); [done|]. by case_decide.
Qed.

Lemma prepareSheetXML_props xlsx col row xlsx' :
  1 <= row -> prepareSheetXML xlsx col row = Ret xlsx' -> same_props xlsx xlsx'.
Proof.
  intros Hr. destruct (prepareSheetXML_ok xlsx col row Hr) as (rowData & Hd & ->). intros [= <-].
  etrans; [apply (with_rows_props xlsx row)|]. by apply (same_props_insert _ _ (Z.to_nat (row - 1)) rowData (fillColumns rowData col row)).
Qed.

Lemma checkRow_loop_props k Row Row' o :
  checkRow_loop k Row = Ret (Row', o) -> row_props <$> Row' = row_props <$> Row.
Proof.
  revert k Row' o. induction Row as [|r Row IH]; intros k Row' o; cbn [checkRow_loop]; [by intros [= <- _]|].
  destruct (checkRow_cells k (xlsxRow_C r)) as [[C [e|]]|]; cbn; [by intros [= <- _]| |done].
  destruct (checkRow_loop (k + 1) Row) as [[Row1 o1]|] eqn:E; cbn; [|done]. intros [= <- _]. cbn. by rewrite (IH _ _ _ E).
Qed.

Lemma checkRow_props xlsx xlsx' o : checkRow xlsx = Ret (xlsx', o) -> row_props <$> sheet_rows xlsx' = row_props <$> sheet_rows xlsx.
Proof.
  unfold checkRow. destruct (checkRow_loop 0 _) as [[Row o1]|] eqn:E; cbn; [|done]. intros [= <- _].
  exact (checkRow_loop_props _ _ _ _ E).
Qed.

(** ** Properties *)

(** C10. Loading a worksheet part: when its rows, and the cells of each row, are in
    ascending order, the two passes that follow the XML decoding succeed and
    make the sheet dense. Every cell of the part is then at its own
    coordinates, every other position is absent or blank, each row keeps its
    attributes, and nothing outside the grid changes. The cells that are filled in
    have no style; the example in the comment of [checkRow], where they have the
    style of the cell before them, is not what the code does. *)
Theorem checkSheet_checkRow_load xlsx :
  sparse_sheet xlsx ->
  exists xlsx', checkRow (checkSheet xlsx) = Ret (ok xlsx') /\ wf_sheet xlsx' /\
    (forall col row, 1 <= col <= maxInt -> 1 <= row <= maxInt ->
       match part_cell xlsx col row with
       | Some c => sheet_cell xlsx' col row = Some c
       | None => cell_blank xlsx' col row
       end) /\
    (forall row r, find_row row (sheet_rows xlsx) = Some r -> exists r',
       sheet_rows xlsx' !! Z.to_nat (row - 1) = Some r' /\ r' <| xlsxRow_C := [] |> = r <| xlsxRow_C := [] |>) /\
    xlsx' <| xlsxWorksheet_SheetData := gozero |> = xlsx <| xlsxWorksheet_SheetData := gozero |>.
Proof.
  intros Hsp. destruct (load_sparse xlsx Hsp) as (xlsx' & E & ER & Hnum & Hrows & Hlen).
  set (Row := dense_rows _ _) in *.
  assert (forall row, 1 <= row -> sheet_rows xlsx' !! Z.to_nat (row - 1) =
    if decide (row <= zlen Row) then Some (completed_row (default (freshRow row) (find_row row (sheet_rows xlsx)))) else None) as Hlook.
  { intros row Hrow. rewrite ER, list_lookup_fmap. unfold Row, dense_rows. rewrite map_seqZ_lookup.
    replace (1 + Z.of_nat (Z.to_nat (row - 1))) with row by lia.
    rewrite zlen_fmap. unfold zlen. rewrite length_seqZ. by repeat case_decide; try lia. }
  assert (forall row r, find_row row (sheet_rows xlsx) = Some r -> 1 <= row <= zlen Row /\ xlsxRow_R r = row /\ sparse_row r) as Hfind.
  { intros row r Hr. apply find_row_Some in Hr as [Hin <-]. destruct Hsp as [[Hs Hpos] Hc].
    rewrite Forall_forall in Hpos, Hc. split_and!; [by apply Hpos|..|done|split; [by apply Hpos|by apply Hc]].
    destruct (last (sheet_rows xlsx)) as [l|] eqn:El.
    - assert (xlsxRow_R r <= xlsxRow_R l) as Hle.
      { eapply ascending_le_last; [exact Hs|by rewrite fmap_last, El|by apply list_elem_of_fmap_2]. }
      specialize (Hpos _ Hin). unfold Row, dense_rows. cbn [from_option]. rewrite zlen_map_seqZ; lia.
    - apply last_None in El. rewrite El in Hin. by apply elem_of_nil in Hin. }
  exists xlsx'. split_and!; [done|split|..].
  - rewrite ER. by apply completed_rows_wf.
  - by rewrite ER, zlen_fmap.
  - intros col row Hcol Hrow. unfold part_cell, cell_blank, sheet_cell. rewrite Hlook by lia.
    destruct (find_row row (sheet_rows xlsx)) as [r|] eqn:Er; cbn [mbind option_bind default from_option id].
    + destruct (Hfind _ _ Er) as (Hle & HR & Hsr). rewrite decide_True by lia. cbn [mbind option_bind].
      rewrite completed_row_cell, HR by done. destruct (find_cell _ _); [done|].
      intros c. case_decide; [|done]. by intros [= <-].
    + intros c. case_decide; [|done]. cbn [mbind option_bind].
      rewrite completed_row_cell by (done || by apply freshRow_sparse). cbn.
      intros Hx. case_decide; [|done]. by injection Hx as <-.
  - intros row r Hr. destruct (Hfind _ _ Hr) as (Hle & HR & _). rewrite Hlook, Hr, decide_True by lia.
    eexists. split; [done|]. done.
  - revert E. unfold checkRow. destruct (checkRow_loop 0 _) as [[Row' o]|]; cbn; [|done].
    intros [= <- _]. done.
Qed.

(** A sheet with the row 2, holding [B2] and [D2], and the row 4, holding [A4]. *)
Definition example_part : xlsxWorksheet :=
  set_rows [(freshRow 2) <| xlsxRow_C := [(freshCell "B2") <| xlsxC_V := "x" |>; (freshCell "D2") <| xlsxC_V := "y" |>] |>;
            (freshRow 4) <| xlsxRow_C := [(freshCell "A4") <| xlsxC_V := "z" |>] |>] gozero.

Lemma example_part_sparse : sparse_sheet example_part.
Proof.
  split; [split|].
  - cbn. repeat constructor.
  - repeat constructor; vm_compute; discriminate.
  - constructor; [|constructor; [|constructor]].
    + exists [2; 4]. split_and!; repeat constructor; vm_compute; discriminate.
    + exists [1]. split_and!; repeat constructor; vm_compute; discriminate.
Qed.

Lemma checkSheet_checkRow_load_witness :
  exists xlsx', checkRow (checkSheet example_part) = Ret (ok xlsx') /\ wf_sheet xlsx' /\
    sheet_cell xlsx' 4 2 = Some ((freshCell "D2") <| xlsxC_V := "y" |>).
Proof.
  destruct (checkSheet_checkRow_load example_part example_part_sparse) as (xlsx' & E & Hwf & Hcells & _).
  exists xlsx'. split; [exact E|]. split; [exact Hwf|].
  refine (Hcells 4 2 _ _); vm_compute; split; discriminate.
Defined.

(** C29. [prepareSheetXML] on a dense sheet: for every position it returns, keeps
    the sheet dense, makes the position exist, keeps every existing cell where
    it is, adds blank cells only, to the left of the position and in its row,
    and leaves the rest of the worksheet alone. *)
Theorem prepareSheetXML_correct xlsx col row :
  wf_sheet xlsx -> 1 <= row <= maxInt -> 0 <= col <= maxInt ->
  exists xlsx', prepareSheetXML xlsx col row = Ret xlsx' /\ wf_sheet xlsx' /\
    zlen (sheet_rows xlsx') = Z.max (zlen (sheet_rows xlsx)) row /\
    (1 <= col -> exists c, sheet_cell xlsx' col row = Some c /\ xlsxC_R c = cell_name col row) /\
    (forall c r, 1 <= c -> 1 <= r -> sheet_cell xlsx' c r =
       match sheet_cell xlsx c r with
       | Some x => Some x
       | None => if decide (r = row /\ c <= col) then Some (freshCell (cell_name c r)) else None
       end) /\
    xlsx' <| xlsxWorksheet_SheetData := gozero |> = xlsx <| xlsxWorksheet_SheetData := gozero |>.
Proof.
  intros Hwf Hrow Hcol. destruct (prepareSheetXML_ok xlsx col row) as (rowData & Hd & E); [lia|].
  eexists. split; [exact E|]. pose proof (prepareSheetXML_wf _ _ _ _ Hwf Hrow (proj2 Hcol) E) as Hwf'.
  split; [done|]. split; [|split; [|split]].
  - cbn. rewrite zlen_insert. apply with_rows_len.
  - intros Hc. pose proof (prepareSheetXML_cells _ _ _ _ col row (proj1 Hrow) Hc (proj1 Hrow) E) as Hcell.
    rewrite Hcell. destruct (sheet_cell xlsx col row) as [x|] eqn:Ex.
    + exists x. split; [done|]. revert Ex. unfold sheet_cell.
      destruct (sheet_rows xlsx !! _) as [r|] eqn:Er; [|done]. intros Ex.
      destruct (proj1 Hwf _ _ Er) as (_ & Hcs & _). rewrite (Hcs _ _ Ex).
      by rewrite !index_succ by lia.
    + rewrite decide_True by lia. by eexists.
  - intros c r Hc Hr. exact (prepareSheetXML_cells _ _ _ _ c r (proj1 Hrow) Hc Hr E).
  - done.
Qed.

Lemma prepareSheetXML_correct_witness :
  exists xlsx', prepareSheetXML gozero 3 5 = Ret xlsx' /\ wf_sheet xlsx' /\ zlen (sheet_rows xlsx') = 5.
Proof.
  assert (wf_sheet gozero) as Hwf by (split; [intros i r H; discriminate H|vm_compute; discriminate]).
  destruct (prepareSheetXML_correct gozero 3 5 Hwf) as (x & E & H & Hlen & _);
    [split; vm_compute; discriminate..|].
  exists x. split; [exact E|]. split; [exact H|]. rewrite Hlen. reflexivity.
Defined.

(** *** Saving and reloading *)

(** The grid [workSheetWriter] marshals: the cells of every row trimmed. *)
Definition trim_rows (Row : list xlsxRow) : list xlsxRow :=
  (fun v => v <| xlsxRow_C := trimCell (xlsxRow_C v) |>) <$> Row.

Lemma sparse_filter row cols C (p : xlsxC -> bool) :
  sparse_cells row cols C -> exists cols', sparse_cells row cols' (List.filter p C) /\ cols' ⊆ cols.
Proof.
  intros (Hs & Hr & H2). revert Hs Hr. induction H2 as [|n c cols C Hc H2 IH]; intros Hs Hr.
  - exists []. split; [|done]. split_and!; constructor.
  - apply StronglySorted_inv in Hs as [Hs Hn]. apply Forall_cons in Hr as [Hnr Hr].
    destruct (IH Hs Hr) as (cols' & (Hs' & Hr' & H2') & Hsub). cbn. destruct (p c).
    + exists (n :: cols'). split; [|intros m [->|Hm]%elem_of_cons; [by left|right; by apply Hsub]].
      split_and!.
      * constructor; [done|]. rewrite Forall_forall in Hn |- *. intros m Hm. apply Hn, Hsub, Hm.
      * by constructor.
      * by constructor.
    + exists cols'. split; [done|]. intros m Hm. right. by apply Hsub.
Qed.

Lemma find_cell_filter row cols C (p : xlsxC -> bool) n :
  1 <= row <= maxInt -> 1 <= n <= maxInt -> sparse_cells row cols C ->
  find_cell (cell_name n row) (List.filter p C) =
    match find_cell (cell_name n row) C with Some c => if p c then Some c else None | None => None end.
Proof.
  intros Hrow Hn (Hs & Hr & H2). revert Hs Hr. induction H2 as [|m c cols C Hc H2 IH]; intros Hs Hr; [done|].
  apply StronglySorted_inv in Hs as [Hs Hm]. apply Forall_cons in Hr as [Hmr Hr].
  cbn [List.filter]. rewrite find_cell_cons. case_decide as E.
  - destruct (p c).
    + by rewrite find_cell_cons, decide_True.
    + rewrite IH by done. rewrite (sparse_find row cols) by done.
      replace (list_find _ _) with (@None (nat * (Z * xlsxC))); [done|]. symmetry.
      apply list_find_None, Forall_forall. intros [k d] Hin%elem_of_zip_l. cbn. intros ->.
      rewrite Hc in E. apply cell_name_inj in E; [|done..]. subst m.
      rewrite Forall_forall in Hm. apply Hm in Hin. lia.
  - destruct (p c); [rewrite find_cell_cons, decide_False by done|]; by apply IH.
Qed.

Lemma sparse_row_trim v : sparse_row v -> sparse_row (v <| xlsxRow_C := trimCell (xlsxRow_C v) |>).
Proof.
  intros (Hr & cols & HC). split; [done|]. destruct (sparse_filter _ _ _ cell_used HC) as (cols' & ? & _).
  by exists cols'.
Qed.

Lemma trim_rows_numbered Row : numbered Row -> numbered (trim_rows Row).
Proof.
  intros H i r. unfold trim_rows. rewrite list_lookup_fmap. intros (v & Hv & ->)%fmap_Some. by apply (H i v).
Qed.

Lemma wf_sheet_sparse_rows xlsx : wf_sheet xlsx -> Forall sparse_row (sheet_rows xlsx).
Proof.
  intros [Hwf Hlen]. apply Forall_lookup. intros i r Hi. eapply wf_row_sparse; [by apply Hwf|].
  apply lookup_lt_Some in Hi. unfold zlen in Hlen. lia.
Qed.

(** A sheet that was saved, the blank cells of its rows being trimmed, is dense
    again after loading: no row is lost, every cell that has a style, a value,
    a formula or a type is at its coordinates, and nothing else appears. *)
Lemma trim_reload xlsx :
  wf_sheet xlsx ->
  exists xlsx', checkRow (checkSheet (set_rows (trim_rows (sheet_rows xlsx)) xlsx)) = Ret (ok xlsx') /\
    wf_sheet xlsx' /\ length (sheet_rows xlsx') = length (sheet_rows xlsx) /\
    forall col row, 1 <= col <= maxInt -> 1 <= row <= maxInt ->
      match sheet_cell xlsx col row with
      | Some c => if cell_used c then sheet_cell xlsx' col row = Some c else cell_blank xlsx' col row
      | None => cell_blank xlsx' col row
      end.
Proof.
  intros Hwf. pose proof Hwf as [Hrows Hlen]. pose proof (wf_sheet_sparse_rows _ Hwf) as Hsp.
  set (xlsx1 := set_rows _ _).
  assert (numbered (sheet_rows xlsx1)) as Hnum by (by apply trim_rows_numbered, wf_rows_numbered).
  assert (Forall sparse_row (sheet_rows xlsx1)) as Hsp1.
  { apply Forall_fmap. eapply Forall_impl; [exact Hsp|]. apply sparse_row_trim. }
  pose proof (checkSheet_numbered _ Hnum) as E1.
  exists (set_rows (completed_row <$> sheet_rows xlsx1) (checkSheet xlsx1)).
  rewrite checkRow_sparse by (by rewrite E1). rewrite E1. split; [done|]. split; [|split].
  - split; [by apply completed_rows_wf|]. cbn. unfold trim_rows. by rewrite !zlen_fmap.
  - cbn. unfold trim_rows. by rewrite !length_fmap.
  - intros col row Hcol Hrow. unfold cell_blank. rewrite sheet_cell_set_rows. unfold sheet_cell.
    change (sheet_rows xlsx1) with (trim_rows (sheet_rows xlsx)).
    unfold trim_rows. rewrite !list_lookup_fmap.
    destruct (sheet_rows xlsx !! Z.to_nat (row - 1)) as [v|] eqn:Ev; cbn [fmap option_fmap option_map mbind option_bind]; [|done].
    rewrite Forall_lookup in Hsp. pose proof (Hsp _ _ Ev) as Hv. pose proof (sparse_row_trim _ Hv) as Hv'.
    destruct (Hrows _ _ Ev) as (HR & HC & HCl).
    replace (Z.of_nat (Z.to_nat (row - 1)) + 1) with row in HR, HC by lia.
    set (v' := field_update _ v) in *.
    assert (xlsxRow_R v' = row) as HR' by done.
    assert (xlsxRow_C v' = List.filter cell_used (xlsxRow_C v)) as HC' by done.
    rewrite completed_row_cell by done. rewrite HR', HC'. clearbody v'.
    pose proof (wf_cells_sparse _ _ HC HCl) as Hs2.
    rewrite (find_cell_filter _ _ _ _ _ Hrow Hcol Hs2).
    destruct (xlsxRow_C v !! Z.to_nat (col - 1)) as [c|] eqn:Ec; cbn.
    + assert (find_cell (cell_name col row) (xlsxRow_C v) = Some c) as ->.
      { apply (sparse_find_at _ _ _ (Z.to_nat (col - 1)) _ _ Hrow Hs2); [|done].
        apply lookup_seqZ. apply lookup_lt_Some in Ec. unfold zlen. lia. }
      destruct (cell_used c); [done|]. intros c'. case_decide; [|done]. by intros [= <-].
    + assert (find_cell (cell_name col row) (xlsxRow_C v) = None) as ->.
      { destruct (find_cell _ _) as [c|] eqn:Ef; [|done].
        apply (sparse_find_elem _ _ _ _ _ Hrow Hcol Hs2), elem_of_seqZ in Ef.
        apply lookup_ge_None in Ec. unfold zlen in Ef. lia. }
      intros c'. case_decide; [|done]. by intros [= <-].
Qed.

(** The rows keep their attributes. *)
Lemma trim_reload_props xlsx xlsx' :
  wf_sheet xlsx -> checkRow (checkSheet (set_rows (trim_rows (sheet_rows xlsx)) xlsx)) = Ret (ok xlsx') -> same_props xlsx xlsx'.
Proof.
  intros [Hrows _] E. apply same_props_fmap. rewrite (checkRow_props _ _ _ E), checkSheet_numbered by by apply trim_rows_numbered, wf_rows_numbered.
  change (sheet_rows (set_rows ?R xlsx)) with R. unfold trim_rows. by rewrite <- list_fmap_compose.
Qed.

Definition example_sheet : xlsxWorksheet :=
  set_rows [freshRow 1; (freshRow 2) <| xlsxRow_C :=
    [freshCell "A2"; (freshCell "B2") <| xlsxC_V := "x" |>; freshCell "C2"] |>] gozero.

Lemma example_sheet_wf : wf_sheet example_sheet.
Proof.
  split; [|vm_compute; discriminate]. intros [|[|[|i]]] r [= <-].
  - apply freshRow_wf.
  - split; [reflexivity|]. split; [|vm_compute; discriminate].
    intros [|[|[|j]]] c [= <-]; reflexivity.
Qed.
