(* ===== verification/File.v ===== *)
(** The [File] state ([excelize.go]), its parts' readers and writers
    ([lib.go], [sheet.go], [calcchain.go], [rows.go], [styles.go]), the worksheet
    relationships ([picture.go]) and the calculation chain. *)
From S2P Require Export SheetData XmlWorkbook XmlStyles XmlDrawing XmlChart Templates.

(** ** What the package takes from outside

    The XML codecs of the parts (a decoding error is ignored by the callers,
    the value decoded so far being used), the JSON decoder of the option texts
    (decoding into a value that holds the defaults), the Unicode tables, the
    [row] elements that the token stream of a text yields with the error that
    ends it, the matches of a regular expression (a panic when it does not
    compile), the width and height of an image, the entries of a zip archive and
    the archive of a list of entries, and the order in which [range] visits a
    map. *)
Class XmlCodec (A : Type) := { xml_Unmarshal : string -> A; xml_Marshal : A -> string }.
Class JsonDecoder (A : Type) := json_Unmarshal : string -> A -> A * option goerr.

(** What is called of a [zip.Writer] over a buffer. A writer is described by what the
    buffer holds after a sequence of calls and by the error of the last one. *)
Inductive zip_call : Type :=
| ZipCreate (name : string)
| ZipWrite (content : string)
| ZipClose.

(** The encoder writes a structure as the element of its type. *)
Definition marshals_as (A : Type) `{XmlCodec A} (name : string) : Prop :=
  forall a : A, exists body, xml_Marshal a = "<" +:+ name +:+ ">" +:+ body +:+ "</" +:+ name +:+ ">".

Class GoEnv := {
  env_unicode :: UnicodeTables;
  env_worksheet :: XmlCodec xlsxWorksheet;
  env_workbook :: XmlCodec xlsxWorkbook;
  env_rels :: XmlCodec xlsxWorkbookRels;
  env_types :: XmlCodec xlsxTypes;
  env_calcChain :: XmlCodec xlsxCalcChain;
  env_sst :: XmlCodec xlsxSST;
  env_styles :: XmlCodec xlsxStyleSheet;
  env_font :: XmlCodec font;
  env_dxf :: XmlCodec dxf;
  env_comments :: XmlCodec xlsxComments;
  env_table :: XmlCodec xlsxTable;
  env_wsDr :: XmlCodec xlsxWsDr;
  env_decodeWsDr :: XmlCodec decodeWsDr;
  env_decodeTwoCellAnchor :: XmlCodec decodeTwoCellAnchor;
  env_graphicFrame :: XmlCodec xlsxGraphicFrame;
  env_vmlDrawing :: XmlCodec vmlDrawing;
  env_decodeVmlDrawing :: XmlCodec decodeVmlDrawing;
  env_encodeShape :: XmlCodec encodeShape;
  env_chartSpace :: XmlCodec xlsxChartSpace;
  env_theme :: XmlCodec xlsxTheme;
  env_json_style :: JsonDecoder formatStyle;
  env_json_panes :: JsonDecoder formatPanes;
  env_json_conditional :: JsonDecoder (list (option formatConditional));
  env_json_table :: JsonDecoder formatTable;
  env_json_autoFilter :: JsonDecoder formatAutoFilter;
  env_json_comment :: JsonDecoder formatComment;
  env_json_picture :: JsonDecoder formatPicture;
  env_json_shape :: JsonDecoder formatShape;
  env_json_chart :: JsonDecoder formatChart;
  xml_rows : string -> list xlsxRow * option goerr;
  regexp_MatchString : string -> string -> outcome bool;
  image_DecodeConfig : string -> (Z * Z) * option goerr;
  zip_NewReader : string -> list (string * string) * option goerr;
  zip_Writer : list zip_call -> string * option goerr;
  deepcopy_Copy : xlsxWorksheet -> xlsxWorksheet;
  range_map : forall {K V : Type} `{Countable K}, gmap K V -> list (K * V)
}.

(** The documented behaviour of [range] on a map: every entry once. *)
Definition range_map_ok `{GoEnv} : Prop :=
  forall (K V : Type) (D : EqDecision K) (C : Countable K) (m : gmap K V), range_map m ≡ₚ map_to_list m.

(** The documented behaviour of the third-party deep copy: an equal value, which
    shares nothing with the original. *)
Definition deepcopy_ok `{GoEnv} : Prop := forall xlsx, deepcopy_Copy xlsx = xlsx.

(** ** The state *)

(** An absent key of [Sheet], [Comments], [DrawingRels], [Drawings],
    [DecodeVMLDrawing], [VMLDrawing] and [WorkSheetRels] is a nil pointer. *)
Record File := mk_File {
  File_checked : gmap string bool;
  File_sheetMap : gmap string string;
  File_CalcChain : option xlsxCalcChain;
  File_Comments : gmap string xlsxComments;
  File_ContentTypes : option xlsxTypes;
  File_DrawingRels : gmap string xlsxWorkbookRels;
  File_Drawings : gmap string xlsxWsDr;
  File_Path : string;
  File_SharedStrings : option xlsxSST;
  File_Sheet : gmap string xlsxWorksheet;
  File_SheetCount : Z;
  File_Styles : option xlsxStyleSheet;
  File_Theme : option xlsxTheme;
  File_DecodeVMLDrawing : gmap string decodeVmlDrawing;
  File_VMLDrawing : gmap string vmlDrawing;
  File_WorkBook : option xlsxWorkbook;
  File_WorkBookRels : option xlsxWorkbookRels;
  File_WorkSheetRels : gmap string xlsxWorkbookRels;
  File_XLSX : gmap string string
}.
#[export] Instance eta_File : Eta File := fun r =>
  mk_File (File_checked r) (File_sheetMap r) (File_CalcChain r) (File_Comments r) (File_ContentTypes r)
    (File_DrawingRels r) (File_Drawings r) (File_Path r) (File_SharedStrings r) (File_Sheet r) (File_SheetCount r)
    (File_Styles r) (File_Theme r) (File_DecodeVMLDrawing r) (File_VMLDrawing r) (File_WorkBook r) (File_WorkBookRels r) (File_WorkSheetRels r) (File_XLSX r).

Abbreviation M := (GoM File).

(** A worksheet pointer is nil or the path under which [File_Sheet] holds the
    worksheet; a dereference of nil panics. *)
Abbreviation sheet_ptr := (option string).

Definition deref (p : sheet_ptr) : M xlsxWorksheet := fun f =>
  match p ≫= fun path => File_Sheet f !! path with
  | Some xlsx => Ret (xlsx, f)
  | None => Panic
  end.

Definition assign (p : sheet_ptr) (xlsx : xlsxWorksheet) : M unit :=
  match p with
  | Some path => modify (fun f => f <| File_Sheet ::= <[path := xlsx]> |>)
  | None => panic
  end.

Definition update (p : sheet_ptr) (g : xlsxWorksheet -> xlsxWorksheet) : M unit :=
  xlsx ← deref p; assign p (g xlsx).

Definition update_o (p : sheet_ptr) (g : xlsxWorksheet -> outcome xlsxWorksheet) : M unit :=
  xlsx ← deref p; xlsx' ← lift (g xlsx); assign p xlsx'.

(** Functions whose only result is an error: [let! x := c in k] and [try! c in k]
    return the error of [c] when there is one. *)
Notation "'let!' x ':=' c 'in' k" :=
  (mbind (fun r => match r with (_, Some e) => mret (Some e) | (x, None) => k end) c)
  (at level 10, x pattern, c at level 100, k at level 200, format "'let!'  x  ':='  c  'in' '//' k")
  : go_scope.
Notation "'try!' c 'in' k" :=
  (mbind (fun r => match r with Some e => mret (Some e) | None => k end) c)
  (at level 10, c at level 100, k at level 200, format "'try!'  c  'in' '//' k") : go_scope.

(** ** [lib.go] *)

Definition readXML (name : string) : M string :=
  gets (fun f => match File_XLSX f !! name with Some content => content | None => "" end).

Definition saveFileList (name content : string) : M unit :=
  modify (fun f => f <| File_XLSX ::= <[name := XMLHeader +:+ content]> |>).

Definition namespaceTranslationDic : gmap string string :=
  list_to_map [(StrictSourceRelationship, SourceRelationship);
    (StrictSourceRelationshipChart, SourceRelationshipChart);
    (StrictSourceRelationshipComments, SourceRelationshipComments);
    (StrictSourceRelationshipImage, SourceRelationshipImage);
    (StrictNameSpaceSpreadSheet, NameSpaceSpreadSheet)].

Section file.
Context `{GoEnv}.

Definition namespaceStrictToTransitional (content : string) : string :=
  foldl (fun content p => strings_Replace content p.1 p.2) content (range_map namespaceTranslationDic).

(** A part read through its cache: [get_cache] holds the decoded structure. *)
Definition cached_reader {A} `{XmlCodec A} (get_cache : File -> option A)
    (set_cache : A -> File -> File) (path : M string) : M A :=
  f ← get;
  match get_cache f with
  | Some c => mret c
  | None =>
      content ← path;
      let c := xml_Unmarshal (namespaceStrictToTransitional content) in
      modify (set_cache c);; mret c
  end.

(** ** Readers and writers of the parts *)

Definition contentTypesReader : M xlsxTypes :=
  cached_reader File_ContentTypes (fun c f => f <| File_ContentTypes := Some c |>) (readXML "[Content_Types].xml").

Definition set_contentTypes (c : xlsxTypes) : M unit := modify (fun f => f <| File_ContentTypes := Some c |>).

Definition contentTypesWriter : M unit :=
  f ← get;
  match File_ContentTypes f with
  | Some c => saveFileList "[Content_Types].xml" (xml_Marshal c)
  | None => mret tt
  end.

Definition workbookReader : M xlsxWorkbook :=
  cached_reader File_WorkBook (fun c f => f <| File_WorkBook := Some c |>) (readXML "xl/workbook.xml").

Definition set_workbook (c : xlsxWorkbook) : M unit := modify (fun f => f <| File_WorkBook := Some c |>).

Definition workbookRelsReader : M xlsxWorkbookRels :=
  cached_reader File_WorkBookRels (fun c f => f <| File_WorkBookRels := Some c |>)
    (readXML "xl/_rels/workbook.xml.rels").

Definition set_workbookRels (c : xlsxWorkbookRels) : M unit :=
  modify (fun f => f <| File_WorkBookRels := Some c |>).

Definition workBookRelsWriter : M unit :=
  f ← get;
  match File_WorkBookRels f with
  | Some c => saveFileList "xl/_rels/workbook.xml.rels" (xml_Marshal c)
  | None => mret tt
  end.

Definition sharedStringsReader : M xlsxSST :=
  cached_reader File_SharedStrings (fun c f => f <| File_SharedStrings := Some c |>)
    (ss ← readXML "xl/sharedStrings.xml";
     if len ss =? 0 then readXML "xl/SharedStrings.xml" else mret ss).

Definition stylesReader : M xlsxStyleSheet :=
  cached_reader File_Styles (fun c f => f <| File_Styles := Some c |>) (readXML "xl/styles.xml").

Definition set_styles (c : xlsxStyleSheet) : M unit := modify (fun f => f <| File_Styles := Some c |>).

Definition themeReader : M xlsxTheme :=
  content ← readXML "xl/theme/theme1.xml"; mret (xml_Unmarshal (namespaceStrictToTransitional content)).

Definition calcChainReader : M xlsxCalcChain :=
  cached_reader File_CalcChain (fun c f => f <| File_CalcChain := Some c |>) (readXML "xl/calcChain.xml").

(** A chain without elements ([C] is nil) is not written. *)
Definition calcChainWriter : M unit :=
  f ← get;
  match File_CalcChain f with
  | Some c => match xlsxCalcChain_C c with
              | [] => mret tt
              | _ => saveFileList "xl/calcChain.xml" (xml_Marshal c)
              end
  | None => mret tt
  end.

(** *** Name space replacements *)

Definition replaceRelationshipsBytes (content : string) : string :=
  strings_Replace content
    ("xmlns:relationships=" +:+ dq +:+ "http://schemas.openxmlformats.org/officeDocument/2006/relationships" +:+ dq
     +:+ " relationships") "r".

Definition attr (name value : string) : string := " " +:+ name +:+ "=" +:+ dq +:+ value +:+ dq.

Definition replaceRelationshipsNameSpaceBytes (workbookMarshal : string) : string :=
  let old := "<workbook" +:+ attr "xmlns" "http://schemas.openxmlformats.org/spreadsheetml/2006/main" in
  strings_Replace workbookMarshal (old +:+ ">")
    (old +:+ attr "xmlns:r" "http://schemas.openxmlformats.org/officeDocument/2006/relationships"
     +:+ attr "xmlns:mc" "http://schemas.openxmlformats.org/markup-compatibility/2006"
     +:+ attr "mc:Ignorable" "x15"
     +:+ attr "xmlns:x15" "http://schemas.microsoft.com/office/spreadsheetml/2010/11/main" +:+ ">").

Definition replaceWorkSheetsRelationshipsNameSpaceBytes (workbookMarshal : string) : string :=
  let main := attr "xmlns" "http://schemas.openxmlformats.org/spreadsheetml/2006/main" in
  strings_Replace workbookMarshal ("<worksheet" +:+ main +:+ ">")
    ("<worksheet" +:+ attr "xr:uid" "{00000000-0001-0000-0000-000000000000}"
     +:+ attr "xmlns:xr3" "http://schemas.microsoft.com/office/spreadsheetml/2016/revision3"
     +:+ attr "xmlns:xr2" "http://schemas.microsoft.com/office/spreadsheetml/2015/revision2"
     +:+ attr "xmlns:xr" "http://schemas.microsoft.com/office/spreadsheetml/2014/revision"
     +:+ attr "xmlns:x14" "http://schemas.microsoft.com/office/spreadsheetml/2009/9/main"
     +:+ attr "xmlns:x14ac" "http://schemas.microsoft.com/office/spreadsheetml/2009/9/ac"
     +:+ attr "mc:Ignorable" "x14ac xr xr2 xr3"
     +:+ attr "xmlns:mc" "http://schemas.openxmlformats.org/markup-compatibility/2006"
     +:+ attr "xmlns:mx" "http://schemas.microsoft.com/office/mac/excel/2008/main"
     +:+ attr "xmlns:mv" "urn:schemas-microsoft-com:mac:vml"
     +:+ attr "xmlns:r" "http://schemas.openxmlformats.org/officeDocument/2006/relationships"
     +:+ main +:+ ">").

Definition workBookWriter : M unit :=
  f ← get;
  match File_WorkBook f with
  | Some c => saveFileList "xl/workbook.xml"
                (replaceRelationshipsBytes (replaceRelationshipsNameSpaceBytes (xml_Marshal c)))
  | None => mret tt
  end.

Definition styleSheetWriter : M unit :=
  f ← get;
  match File_Styles f with
  | Some c => saveFileList "xl/styles.xml" (replaceWorkSheetsRelationshipsNameSpaceBytes (xml_Marshal c))
  | None => mret tt
  end.

(** ** Worksheets *)

(** The characters [:\/?*[]] are dropped and the name is cut at 31 runes; a
    name that needs neither is not decoded. *)
Definition bad_sheet_rune (v : Z) : bool :=
  (v =? 58) || (v =? 92) || (v =? 47) || (v =? 63) || (v =? 42) || (v =? 91) || (v =? 93).
Definition bad_sheet_byte (c : ascii) : bool := bad_sheet_rune (byte_val c).

Definition trimSheetName (name : string) : string :=
  if negb (str_forallb (fun c => negb (bad_sheet_byte c)) name) || (31 <? utf8_RuneCountInString name)
  then string_of_runes (take 31 (List.filter (fun v => negb (bad_sheet_rune v)) (runes name)))
  else name.

Definition sheet_not_exist (sheet : string) : goerr := ErrTextArg "sheet %s is not exist" sheet.

Definition workSheetReader (sheet : string) : M (sheet_ptr * option goerr) :=
  f ← get;
  match File_sheetMap f !! trimSheetName sheet with
  | None => mret (None, Some (sheet_not_exist sheet))
  | Some name =>
      match File_Sheet f !! name with
      | Some _ => mret (ok (Some name))
      | None =>
          content ← readXML name;
          let xlsx := xml_Unmarshal (namespaceStrictToTransitional content) in
          match File_checked f !! name with
          | Some true => assign (Some name) xlsx;; mret (ok (Some name))
          | _ =>
              p ← lift (checkRow (checkSheet xlsx));
              modify (fun f => f <| File_checked ::= <[name := true]> |>);;
              assign (Some name) p.1;; mret (ok (Some name))
          end
      end
  end.

(** One worksheet of [workSheetWriter]. *)
Definition write_sheet (e : string * xlsxWorksheet) : M unit :=
  let '(p, sheet) := e in
  let sheet := set_rows (trim_rows (sheet_rows sheet)) sheet in
  assign (Some p) sheet;;
  saveFileList p (replaceRelationshipsBytes (replaceWorkSheetsRelationshipsNameSpaceBytes (xml_Marshal sheet)));;
  f ← get;
  match File_checked f !! p with
  | Some true => modify (fun f => f <| File_checked ::= <[p := false]> |>)
  | _ => mret tt
  end.

Definition workSheetWriter : M unit :=
  f ← get; forM (range_map (File_Sheet f)) write_sheet.

(** ** Worksheet relationships *)

Definition workSheetRelsReader (path : string) : M (option xlsxWorkbookRels) :=
  f ← get;
  match File_WorkSheetRels f !! path with
  | Some c => mret (Some c)
  | None =>
      match File_XLSX f !! path with
      | Some _ =>
          content ← readXML path;
          let c := xml_Unmarshal (namespaceStrictToTransitional content) in
          modify (fun f => f <| File_WorkSheetRels ::= <[path := c]> |>);; mret (Some c)
      | None => mret None
      end
  end.

Definition workSheetRelsWriter : M unit :=
  f ← get; forM (range_map (File_WorkSheetRels f)) (fun e => saveFileList e.1 (xml_Marshal e.2)).

Definition sheet_rels_path (f : File) (sheet : string) : string :=
  let name := match File_sheetMap f !! trimSheetName sheet with
              | Some name => name
              | None => strings_ToLower sheet +:+ ".xml"
              end in
  "xl/worksheets/_rels/" +:+ strings_TrimPrefix name "xl/worksheets/" +:+ ".rels".

Definition addSheetRelationships (sheet relType target targetMode : string) : M Z :=
  rels ← gets (fun f => sheet_rels_path f sheet);
  o ← workSheetRelsReader rels;
  let sheetRels : xlsxWorkbookRels := match o with Some c => c | None => gozero end in
  let rID := zlen (xlsxWorkbookRels_Relationships sheetRels) + 1 in
  let rel := mk_xlsxWorkbookRelation ("rId" +:+ strconv_Itoa rID) target relType targetMode in
  let sheetRels := sheetRels <| xlsxWorkbookRels_Relationships ::= fun l => l ++ [rel] |> in
  modify (fun f => f <| File_WorkSheetRels ::= <[rels := sheetRels]> |>);;
  mret rID.

Definition deleteSheetRelationships (sheet rID : string) : M unit :=
  rels ← gets (fun f => sheet_rels_path f sheet);
  o ← workSheetRelsReader rels;
  let sheetRels : xlsxWorkbookRels := match o with Some c => c | None => gozero end in
  l ← lift (range_delete (fun v => bool_decide (xlsxWorkbookRelation_ID v = rID))
              (xlsxWorkbookRels_Relationships sheetRels));
  let sheetRels := sheetRels <| xlsxWorkbookRels_Relationships := l |> in
  modify (fun f => f <| File_WorkSheetRels ::= <[rels := sheetRels]> |>).

Definition find_relationship (rID : string) (l : list xlsxWorkbookRelation) : option xlsxWorkbookRelation :=
  snd <$> list_find (fun v => xlsxWorkbookRelation_ID v = rID) l.

Definition getSheetRelationshipsTargetByID (sheet rID : string) : M string :=
  rels ← gets (fun f => sheet_rels_path f sheet);
  o ← workSheetRelsReader rels;
  let sheetRels : xlsxWorkbookRels := match o with Some c => c | None => gozero end in
  mret (match find_relationship rID (xlsxWorkbookRels_Relationships sheetRels) with
        | Some v => xlsxWorkbookRelation_Target v
        | None => ""
        end).

(** ** The calculation chain *)

Definition calcChain_Filter (fn : xlsxCalcChainC -> bool) (c : list xlsxCalcChainC) : list xlsxCalcChainC :=
  List.filter fn c.

Definition calc_keeps (index : Z) (axis : string) (c : xlsxCalcChainC) : bool :=
  negb (((xlsxCalcChainC_I c =? index) && bool_decide (xlsxCalcChainC_R c = axis))
        || ((xlsxCalcChainC_I c =? index) && bool_decide (axis = ""))).

Definition deleteCalcChain (index : Z) (axis : string) : M unit :=
  calc ← calcChainReader;
  let calc := calc <| xlsxCalcChain_C ::= calcChain_Filter (calc_keeps index axis) |> in
  modify (fun f => f <| File_CalcChain := Some calc |>);;
  if zlen (xlsxCalcChain_C calc) =? 0 then
    modify (fun f => f <| File_CalcChain := None |>);;
    modify (fun f => f <| File_XLSX ::= delete "xl/calcChain.xml" |>);;
    content ← contentTypesReader;
    l ← lift (range_delete (fun v => bool_decide (xlsxOverride_PartName v = "/xl/calcChain.xml"))
                (xlsxTypes_Overrides content));
    set_contentTypes (content <| xlsxTypes_Overrides := l |>)
  else mret tt.

(** ** Lemmas *)

(** A sheet whose structure is in memory. *)
Definition loaded (f : File) (sheet path : string) (xlsx : xlsxWorksheet) : Prop :=
  File_sheetMap f !! trimSheetName sheet = Some path /\ File_Sheet f !! path = Some xlsx.

Lemma workSheetReader_loaded f sheet path xlsx :
  loaded f sheet path xlsx -> workSheetReader sheet f = Ret (ok (Some path), f).
Proof. intros [H1 H2]. unfold workSheetReader, mbind, gom_bind, get. by rewrite H1, H2. Qed.

Lemma workSheetReader_missing f sheet :
  File_sheetMap f !! trimSheetName sheet = None ->
  workSheetReader sheet f = Ret ((None, Some (sheet_not_exist sheet)), f).
Proof. intros H1. unfold workSheetReader, mbind, gom_bind, get. by rewrite H1. Qed.

Lemma deref_loaded f path xlsx : File_Sheet f !! path = Some xlsx -> deref (Some path) f = Ret (xlsx, f).
Proof. intros E. unfold deref. cbn. by rewrite E. Qed.

(** The state with another worksheet at a path. *)
Definition with_sheet (f : File) (path : string) (xlsx : xlsxWorksheet) : File :=
  f <| File_Sheet ::= <[path := xlsx]> |>.

Lemma assign_sheet f path xlsx : assign (Some path) xlsx f = Ret (tt, with_sheet f path xlsx).
Proof. done. Qed.

Lemma with_sheet_loaded f sheet path xlsx xlsx' :
  loaded f sheet path xlsx -> loaded (with_sheet f path xlsx') sheet path xlsx'.
Proof. intros [H1 H2]. split; [done|]. cbn. apply lookup_insert_eq. Qed.

Lemma with_sheet_twice f path x y : with_sheet (with_sheet f path x) path y = with_sheet f path y.
Proof. unfold with_sheet, field_update. destruct f. cbn. by rewrite insert_insert_eq. Qed.

Lemma with_sheet_same f path x : File_Sheet f !! path = Some x -> with_sheet f path x = f.
Proof. intros E. unfold with_sheet, field_update. destruct f. cbn in *. by rewrite insert_id. Qed.

Lemma bind_Ret {S A B} (m : GoM S A) (k : A -> GoM S B) s a s' :
  m s = Ret (a, s') -> (m ≫= k) s = k a s'.
Proof. intros E. unfold mbind, gom_bind. by rewrite E. Qed.

Lemma bind_lift {A B} (a : A) (k : A -> M B) f : (lift (Ret a) ≫= k) f = k a f.
Proof. done. Qed.

Lemma update_loaded f path xlsx g :
  File_Sheet f !! path = Some xlsx -> update (Some path) g f = Ret (tt, with_sheet f path (g xlsx)).
Proof. intros E. unfold update. by rewrite (bind_Ret _ _ _ _ _ (deref_loaded _ _ _ E)). Qed.

Lemma update_with_sheet f path xlsx g :
  update (Some path) g (with_sheet f path xlsx) = Ret (tt, with_sheet f path (g xlsx)).
Proof. by rewrite (update_loaded _ _ _ _ (lookup_insert_eq _ _ _)), with_sheet_twice. Qed.

Lemma update_o_loaded f path xlsx g :
  File_Sheet f !! path = Some xlsx ->
  update_o (Some path) g f = match g xlsx with Ret x => Ret (tt, with_sheet f path x) | Panic => Panic end.
Proof.
  intros E. unfold update_o. rewrite (bind_Ret _ _ _ _ _ (deref_loaded _ _ _ E)).
  unfold lift, mbind, gom_bind. by destruct (g xlsx).
Qed.

End file.

(** What a computation returns, without the state. *)
Definition returned {A} (r : outcome (A * File)) : option A :=
  match r with Ret (a, _) => Some a | Panic => None end.

(** ** A concrete environment

    For evaluating the definitions on concrete files whose parts are in memory:
    codecs that know the empty structures only (a font and a differential
    format are encoded as the element of their type), and maps visited in the
    order of their keys' codes. *)
Definition example_codec (A : Type) `{GoZero A} : XmlCodec A :=
  {| xml_Unmarshal _ := gozero; xml_Marshal _ := "" |}.
Definition example_json (A : Type) : JsonDecoder A := fun _ d => (d, None).

Definition example_env : GoEnv := {|
  env_unicode := {| unicode_upper s := s; unicode_lower s := s |};
  env_worksheet := example_codec xlsxWorksheet;
  env_workbook := example_codec xlsxWorkbook;
  env_rels := example_codec xlsxWorkbookRels;
  env_types := example_codec xlsxTypes;
  env_calcChain := example_codec xlsxCalcChain;
  env_sst := example_codec xlsxSST;
  env_styles := example_codec xlsxStyleSheet;
  env_font := {| xml_Unmarshal _ := gozero; xml_Marshal _ := "<font></font>" |};
  env_dxf := {| xml_Unmarshal _ := gozero; xml_Marshal _ := "<dxf></dxf>" |};
  env_comments := example_codec xlsxComments;
  env_table := example_codec xlsxTable;
  env_wsDr := example_codec xlsxWsDr;
  env_decodeWsDr := example_codec decodeWsDr;
  env_decodeTwoCellAnchor := example_codec decodeTwoCellAnchor;
  env_graphicFrame := example_codec xlsxGraphicFrame;
  env_vmlDrawing := example_codec vmlDrawing;
  env_decodeVmlDrawing := example_codec decodeVmlDrawing;
  env_encodeShape := {| xml_Unmarshal _ := gozero; xml_Marshal _ := "<encodeShape></encodeShape>" |};
  env_chartSpace := example_codec xlsxChartSpace;
  env_theme := example_codec xlsxTheme;
  env_json_style := example_json formatStyle;
  env_json_panes := example_json formatPanes;
  env_json_conditional := example_json (list (option formatConditional));
  env_json_table := example_json formatTable;
  env_json_autoFilter := example_json formatAutoFilter;
  env_json_comment := example_json formatComment;
  env_json_picture := example_json formatPicture;
  env_json_shape := example_json formatShape;
  env_json_chart := example_json formatChart;
  xml_rows := fun _ => ([], None);
  regexp_MatchString := fun _ _ => Panic;
  image_DecodeConfig := fun _ => ok (1, 1);
  zip_NewReader := fun _ => ([], None);
  zip_Writer := fun _ => ok "";
  deepcopy_Copy := fun xlsx => xlsx;
  range_map := fun K V _ _ m => map_to_list m
|}.

(** Other environments are this one with some parts replaced. *)
#[export] Instance eta_GoEnv : Eta GoEnv := fun r => {|
  env_unicode := @env_unicode r;
  env_worksheet := @env_worksheet r;
  env_workbook := @env_workbook r;
  env_rels := @env_rels r;
  env_types := @env_types r;
  env_calcChain := @env_calcChain r;
  env_sst := @env_sst r;
  env_styles := @env_styles r;
  env_font := @env_font r;
  env_dxf := @env_dxf r;
  env_comments := @env_comments r;
  env_table := @env_table r;
  env_wsDr := @env_wsDr r;
  env_decodeWsDr := @env_decodeWsDr r;
  env_decodeTwoCellAnchor := @env_decodeTwoCellAnchor r;
  env_graphicFrame := @env_graphicFrame r;
  env_vmlDrawing := @env_vmlDrawing r;
  env_decodeVmlDrawing := @env_decodeVmlDrawing r;
  env_encodeShape := @env_encodeShape r;
  env_chartSpace := @env_chartSpace r;
  env_theme := @env_theme r;
  env_json_style := @env_json_style r;
  env_json_panes := @env_json_panes r;
  env_json_conditional := @env_json_conditional r;
  env_json_table := @env_json_table r;
  env_json_autoFilter := @env_json_autoFilter r;
  env_json_comment := @env_json_comment r;
  env_json_picture := @env_json_picture r;
  env_json_shape := @env_json_shape r;
  env_json_chart := @env_json_chart r;
  xml_rows := @xml_rows r;
  regexp_MatchString := @regexp_MatchString r;
  image_DecodeConfig := @image_DecodeConfig r;
  zip_NewReader := @zip_NewReader r;
  zip_Writer := @zip_Writer r;
  deepcopy_Copy := @deepcopy_Copy r;
  range_map := @range_map r
|}.

Lemma example_env_range : @range_map_ok example_env.
Proof. intros K V D C m. done. Qed.

(** A workbook with the one sheet [Sheet1] in memory. *)
Definition example_file (xlsx : xlsxWorksheet) : File :=
  mk_File (<["xl/worksheets/sheet1.xml" := true]> ∅) (<["Sheet1" := "xl/worksheets/sheet1.xml"]> ∅)
    None ∅ None ∅ ∅ "" None (<["xl/worksheets/sheet1.xml" := xlsx]> ∅) 1 None None ∅ ∅
    (Some (gozero <| xlsxWorkbook_Sheets := mk_xlsxSheets [mk_xlsxSheet "Sheet1" 1 "rId1" ""] |>))
    (Some (gozero <| xlsxWorkbookRels_Relationships :=
       [mk_xlsxWorkbookRelation "rId1" "worksheets/sheet1.xml" SourceRelationshipWorkSheet ""] |>))
    ∅ ∅.

Lemma example_loaded xlsx : loaded (example_file xlsx) "Sheet1" "xl/worksheets/sheet1.xml" xlsx.
Proof. split; reflexivity. Defined.
