(* ===== verification/Store.v ===== *)
(** The worksheets of a file: names, loading through the cache
    ([workSheetReader]) and saving ([workSheetWriter]). *)
From S2P Require Export File.

(** ** Sheet names *)

Lemma bad_byte_rune c : is_ascii_byte c = true -> bad_sheet_rune (byte_val c) = bad_sheet_byte c.
Proof. done. Qed.

(** A string without forbidden bytes has no forbidden runes: a rune below 128 is
    decoded from its own byte. *)
Lemma decode_rune_bad c s : bad_sheet_byte c = false -> bad_sheet_rune (decode_rune (String c s)).1 = false.
Proof.
  intros Hc. unfold bad_sheet_byte in Hc. unfold decode_rune. change (nth_byte 0 (String c s)) with (byte_val c).
  destruct (in_range 0 127 (byte_val c)) eqn:E0; [exact Hc|].
  assert (forall r, 128 <= r -> bad_sheet_rune r = false) as Hhigh by (intros; unfold bad_sheet_rune; lia).
  assert (forall lo hi b, in_range lo hi b = true -> lo <= b <= hi) as Hin by (intros; by apply in_range_spec).
  set (b1 := nth_byte 1 _). set (b2 := nth_byte 2 _). set (b3 := nth_byte 3 _).
  match goal with |- context [if ?c then _ else _] => destruct c eqn:E1 end.
  { apply andb_true_iff in E1 as [Ea%Hin Eb%Hin]. apply Hhigh. cbn [fst]. lia. }
  match goal with |- context [if ?c && ?d && ?e then _ else _] => destruct (c && d && e) eqn:E2 end.
  { apply andb_true_iff in E2 as [[Ea%Hin Eb]%andb_true_iff Ec%Hin]. apply Hhigh. cbn [fst].
    destruct (byte_val c =? 224) eqn:E224; apply Hin in Eb; lia. }
  match goal with |- context [if ?c && ?d && ?e && ?g then _ else _] => destruct (c && d && e && g) eqn:E3 end.
  { apply andb_true_iff in E3 as [[[Ea%Hin Eb]%andb_true_iff Ec%Hin]%andb_true_iff Ed%Hin]. apply Hhigh. cbn [fst].
    destruct (byte_val c =? 240) eqn:E240; apply Hin in Eb; lia. }
  by apply Hhigh.
Qed.

Lemma runes_clean s :
  str_forallb (fun c => negb (bad_sheet_byte c)) s = true -> Forall (fun r => bad_sheet_rune r = false) (runes s).
Proof.
  unfold runes. generalize 0%nat. induction s as [|c s IH]; intros k; cbn; [by constructor|].
  rewrite andb_true_iff, negb_true_iff. intros [Hc Hs]. destruct k; [|by apply IH].
  pose proof (decode_rune_bad c s Hc). destruct (decode_rune (String c s)) as [r w]. constructor; [done|by apply IH].
Qed.

Lemma encode_rune_clean r :
  valid_rune r = true -> bad_sheet_rune r = false -> str_forallb (fun c => negb (bad_sheet_byte c)) (encode_rune r) = true.
Proof.
  intros Hv Hb. unfold encode_rune. rewrite Hv. unfold valid_rune in Hv. rewrite orb_true_iff, !in_range_spec in Hv.
  assert (forall b, 0 <= b < 256 -> negb (bad_sheet_rune b) = true -> negb (bad_sheet_byte (byte_of b)) = true) as Hbyte.
  { intros b Hb' Hn. unfold bad_sheet_byte. by rewrite byte_val_of_small. }
  assert (forall b, 128 <= b < 256 -> negb (bad_sheet_byte (byte_of b)) = true) as Hhigh.
  { intros b Hb'. apply Hbyte; [lia|]. unfold bad_sheet_rune. lia. }
  pose proof (Z.mod_pos_bound r 64 ltac:(lia)). pose proof (Z.mod_pos_bound (r `div` 64) 64 ltac:(lia)).
  pose proof (Z.mod_pos_bound (r `div` 4096) 64 ltac:(lia)).
  assert (forall d, 0 < d -> 0 <= r `div` d) as Hpos by (intros; apply Z.div_pos; lia).
  unfold bytes_of. destruct (r <? 128) eqn:E1; [|destruct (r <? 2048) eqn:E2; [|destruct (r <? 65536) eqn:E3]];
    cbn [foldr str_forallb].
  - rewrite andb_true_r. apply Hbyte; [lia|by rewrite Hb].
  - pose proof (Hpos 64 ltac:(lia)). pose proof (Z.div_lt_upper_bound r 64 32 ltac:(lia) ltac:(lia)).
    rewrite !Hhigh by lia. done.
  - pose proof (Hpos 4096 ltac:(lia)). pose proof (Z.div_lt_upper_bound r 4096 16 ltac:(lia) ltac:(lia)).
    rewrite !Hhigh by lia. done.
  - pose proof (Hpos 262144 ltac:(lia)). pose proof (Z.div_lt_upper_bound r 262144 16 ltac:(lia) ltac:(lia)).
    rewrite !Hhigh by lia. done.
Qed.

Lemma string_of_runes_clean rs :
  Forall (fun r => valid_rune r = true /\ bad_sheet_rune r = false) rs ->
  str_forallb (fun c => negb (bad_sheet_byte c)) (string_of_runes rs) = true.
Proof.
  induction 1 as [|r rs [Hv Hb] _ IH]; [done|]. cbn [string_of_runes]. rewrite str_forallb_app, IH.
  by rewrite encode_rune_clean.
Qed.

Lemma trimmed_runes name :
  Forall (fun r => valid_rune r = true /\ bad_sheet_rune r = false)
    (take 31 (List.filter (fun v => negb (bad_sheet_rune v)) (runes name))).
Proof.
  apply Forall_take, Forall_forall. intros r Hr.
  apply list_elem_of_In, filter_In in Hr as [Hin Hb%negb_true_iff]. apply list_elem_of_In in Hin.
  pose proof (runes_valid name) as Hv. rewrite Forall_forall in Hv. split; [by apply Hv|done].
Qed.

(** C32. [trimSheetName] yields a name that Excel accepts: at most 31 characters and
    none of the seven forbidden ones. A name that is acceptable already is
    returned as it is, byte for byte, and trimming twice is trimming once. *)
Theorem trimSheetName_correct name :
  utf8_RuneCountInString (trimSheetName name) <= 31 /\
  Forall (fun r => bad_sheet_rune r = false) (runes (trimSheetName name)) /\
  trimSheetName (trimSheetName name) = trimSheetName name /\
  (utf8_RuneCountInString name <= 31 -> str_forallb (fun c => negb (bad_sheet_byte c)) name = true ->
   trimSheetName name = name).
Proof.
  pose proof (trimmed_runes name) as Ht.
  set (rs := take 31 _) in Ht.
  assert (runes (string_of_runes rs) = rs) as Hrs.
  { apply runes_string_of_runes. eapply Forall_impl; [exact Ht|]. by intros r [? _]. }
  assert (forall n, str_forallb (fun c => negb (bad_sheet_byte c)) n = true -> utf8_RuneCountInString n <= 31 -> trimSheetName n = n) as Hfix.
  { intros n Hn Hl. unfold trimSheetName. rewrite Hn. by replace (31 <? utf8_RuneCountInString n) with false by lia. }
  assert (str_forallb (fun c => negb (bad_sheet_byte c)) (trimSheetName name) = true /\
    utf8_RuneCountInString (trimSheetName name) <= 31) as [H1 H2].
  { unfold trimSheetName. destruct (negb _ || _) eqn:E.
    - fold rs. split; [by apply string_of_runes_clean|]. unfold utf8_RuneCountInString. rewrite Hrs. subst rs.
      rewrite length_take. lia.
    - apply orb_false_iff in E as [E1%negb_false_iff E2]. split; [done|lia]. }
  split_and!; [done|by apply runes_clean|by apply Hfix|]. intros Hl Hn. by apply Hfix.
Qed.

Lemma trimSheetName_correct_witness :
  trimSheetName "Sales 2019" = "Sales 2019" /\ trimSheetName "a[b]:c" = "abc".
Proof.
  split; [|reflexivity]. apply (trimSheetName_correct "Sales 2019"); [vm_compute; discriminate|reflexivity].
Defined.

(** ** Loading *)

Section store.
Context `{GoEnv}.

(** The worksheet that the part at a path decodes to. *)
Definition decoded (f : File) (path : string) : xlsxWorksheet :=
  xml_Unmarshal (namespaceStrictToTransitional (default "" (File_XLSX f !! path))).

(** [workSheetReader]: a name that is not in the sheet map is an error and
    changes nothing; a sheet in memory is returned as it is; any other sheet is
    decoded from its part and, when its rows and cells are in order, comes out
    dense and is kept, so that the next call returns the same sheet without
    reading again. *)
Theorem workSheetReader_correct f sheet :
  match File_sheetMap f !! trimSheetName sheet with
  | None => workSheetReader sheet f = Ret ((None, Some (sheet_not_exist sheet)), f)
  | Some path =>
      match File_Sheet f !! path with
      | Some xlsx => workSheetReader sheet f = Ret (ok (Some path), f)
      | None =>
          File_checked f !! path <> Some true -> sparse_sheet (decoded f path) ->
          exists xlsx f', workSheetReader sheet f = Ret (ok (Some path), f') /\
            loaded f' sheet path xlsx /\ wf_sheet xlsx /\ File_checked f' !! path = Some true /\
            xlsx <| xlsxWorksheet_SheetData := gozero |> = (decoded f path) <| xlsxWorksheet_SheetData := gozero |> /\
            workSheetReader sheet f' = Ret (ok (Some path), f')
      end
  end.
Proof.
  destruct (File_sheetMap f !! trimSheetName sheet) as [path|] eqn:Em; [|by apply workSheetReader_missing].
  destruct (File_Sheet f !! path) as [xlsx|] eqn:Es; [by apply (workSheetReader_loaded f sheet path xlsx)|].
  intros Hchk Hsp. destruct (load_sparse _ Hsp) as (xlsx & E & ER & Hnum & Hrows & Hlen).
  set (f1 := f <| File_checked ::= <[path := true]> |>).
  assert (loaded (with_sheet f1 path xlsx) sheet path xlsx) as Hl by (split; [done|apply lookup_insert_eq]).
  exists xlsx, (with_sheet f1 path xlsx). split_and!.
  - unfold workSheetReader, mbind, gom_bind, get. rewrite Em, Es. unfold readXML, gets.
    assert (match File_XLSX f !! path with Some content => content | None => "" end = default "" (File_XLSX f !! path)) as -> by done.
    fold (decoded f path). assert (lift (checkRow (checkSheet (decoded f path))) f = Ret (ok xlsx, f)) as El by (unfold lift; by rewrite E).
    destruct (File_checked f !! path) as [[]|]; [done|..]; by rewrite El.
  - done.
  - split; [rewrite ER; by apply completed_rows_wf|]. by rewrite ER, zlen_fmap.
  - cbn. apply lookup_insert_eq.
  - revert E. unfold checkRow. destruct (checkRow_loop 0 _) as [[Row' o]|]; cbn; [|done]. by intros [= <- _].
  - by eapply workSheetReader_loaded.
Qed.

(** ** Saving *)

Definition trimmed_sheet (xlsx : xlsxWorksheet) : xlsxWorksheet := set_rows (trim_rows (sheet_rows xlsx)) xlsx.

(** The content of the part of a sheet. *)
Definition saved_content (xlsx : xlsxWorksheet) : string :=
  XMLHeader +:+ replaceRelationshipsBytes (replaceWorkSheetsRelationshipsNameSpaceBytes (xml_Marshal xlsx)).

Definition saved_one (f : File) (e : string * xlsxWorksheet) : File :=
  f <| File_Sheet ::= <[e.1 := trimmed_sheet e.2]> |>
    <| File_XLSX ::= <[e.1 := saved_content (trimmed_sheet e.2)]> |>
    <| File_checked ::= fun m => match m !! e.1 with Some true => <[e.1 := false]> m | _ => m end |>.

Lemma write_sheet_saved e f : write_sheet e f = Ret (tt, saved_one f e).
Proof.
  destruct e as [p s]. unfold write_sheet. rewrite (bind_Ret _ _ _ _ _ (assign_sheet _ _ _)).
  unfold saveFileList, modify, get, mbind, gom_bind, saved_one, with_sheet, field_update. cbn.
  by destruct (File_checked f !! p) as [[]|].
Qed.

Lemma forM_saved l f : forM l write_sheet f = Ret (tt, foldl saved_one f l).
Proof.
  revert f. induction l as [|e l IH]; intros f; [done|]. cbn [forM foldl].
  by rewrite (bind_Ret _ _ _ _ _ (write_sheet_saved e f)).
Qed.

Lemma saved_other l f p :
  p ∉ l.*1 ->
  File_Sheet (foldl saved_one f l) !! p = File_Sheet f !! p /\
  File_XLSX (foldl saved_one f l) !! p = File_XLSX f !! p /\
  File_checked (foldl saved_one f l) !! p = File_checked f !! p.
Proof.
  revert f. induction l as [|[q s] l IH]; intros f Hp; [done|]. cbn [foldl]. cbn in Hp. apply not_elem_of_cons in Hp as [Hq Hp].
  destruct (IH (saved_one f (q, s)) Hp) as (-> & -> & ->). unfold saved_one. cbn.
  rewrite !lookup_insert_ne by done. split_and!; [done..|].
  destruct (File_checked f !! q) as [[]|]; [by rewrite lookup_insert_ne|done..].
Qed.

Lemma saved_sheetMap l f : File_sheetMap (foldl saved_one f l) = File_sheetMap f.
Proof. revert f. induction l as [|e l IH]; intros f; [done|]. cbn [foldl]. by rewrite IH. Qed.

Lemma saved_entry l f p s :
  NoDup l.*1 -> (p, s) ∈ l ->
  File_Sheet (foldl saved_one f l) !! p = Some (trimmed_sheet s) /\
  File_XLSX (foldl saved_one f l) !! p = Some (saved_content (trimmed_sheet s)) /\
  File_checked (foldl saved_one f l) !! p <> Some true.
Proof.
  revert f. induction l as [|[q t] l IH]; intros f Hnd Hin; [by apply elem_of_nil in Hin|].
  cbn in Hnd. apply NoDup_cons in Hnd as [Hq Hnd]. cbn [foldl]. apply elem_of_cons in Hin as [[= <- <-]|Hin]; [|by apply IH].
  destruct (saved_other l (saved_one f (p, s)) p Hq) as (-> & -> & ->). unfold saved_one. cbn.
  rewrite !lookup_insert_eq. split_and!; [done..|].
  destruct (File_checked f !! p) as [[]|] eqn:E; [rewrite lookup_insert_eq|rewrite E..]; done.
Qed.

Lemma workSheetWriter_saved f :
  range_map_ok -> exists f', workSheetWriter f = Ret (tt, f') /\ File_sheetMap f' = File_sheetMap f /\
    forall path xlsx, File_Sheet f !! path = Some xlsx ->
      File_Sheet f' !! path = Some (trimmed_sheet xlsx) /\
      File_XLSX f' !! path = Some (saved_content (trimmed_sheet xlsx)) /\
      File_checked f' !! path <> Some true.
Proof.
  intros Hrange. exists (foldl saved_one f (range_map (File_Sheet f))). split; [|split].
  - unfold workSheetWriter, get, mbind, gom_bind. apply forM_saved.
  - apply saved_sheetMap.
  - intros path xlsx E. pose proof (Hrange _ _ _ _ (File_Sheet f)) as HP. apply saved_entry.
    + rewrite HP. apply NoDup_fst_map_to_list.
    + rewrite HP. by apply elem_of_map_to_list.
Qed.

(** Saving and reopening. [workSheetWriter] stores every worksheet in memory in
    its part, the blank cells being trimmed. When the XML codec returns the
    trimmed sheet that it was given, a workbook whose worksheets are read
    from these parts again has the same grid: no row is lost, every cell with a
    style, a value, a formula or a type is at its coordinates, and no other
    content appears. *)
Theorem workSheetWriter_reload f sheet path xlsx :
  range_map_ok ->
  loaded f sheet path xlsx -> wf_sheet xlsx ->
  xml_Unmarshal (namespaceStrictToTransitional (saved_content (trimmed_sheet xlsx))) = trimmed_sheet xlsx ->
  exists f1 f2 xlsx', workSheetWriter f = Ret (tt, f1) /\
    workSheetReader sheet (f1 <| File_Sheet := ∅ |> <| File_checked := ∅ |>) = Ret (ok (Some path), f2) /\
    loaded f2 sheet path xlsx' /\ wf_sheet xlsx' /\
    length (sheet_rows xlsx') = length (sheet_rows xlsx) /\
    forall col row, 1 <= col <= maxInt -> 1 <= row <= maxInt ->
      match sheet_cell xlsx col row with
      | Some c => if cell_used c then sheet_cell xlsx' col row = Some c else cell_blank xlsx' col row
      | None => cell_blank xlsx' col row
      end.
Proof.
  intros Hrange [Hm Hs] Hwf Hcodec. destruct (workSheetWriter_saved f Hrange) as (f1 & E & Em & Hsaved).
  destruct (Hsaved _ _ Hs) as (_ & Hx & _). destruct (trim_reload xlsx Hwf) as (xlsx' & Er & Hwf' & Hlen & Hcells).
  set (f1' := f1 <| File_Sheet := ∅ |> <| File_checked := ∅ |>).
  set (f2 := with_sheet (f1' <| File_checked ::= <[path := true]> |>) path xlsx').
  exists f1, f2, xlsx'. split; [done|]. split; [|split; [|done]].
  - unfold workSheetReader, mbind, gom_bind, get, readXML, gets.
    match goal with |- context [File_sheetMap ?g !! _] => change g with f1' end.
    change (File_sheetMap f1') with (File_sheetMap f1). rewrite Em, Hm.
    change (File_Sheet f1') with (∅ : gmap string xlsxWorksheet). rewrite lookup_empty.
    change (File_XLSX f1') with (File_XLSX f1). rewrite Hx, Hcodec.
    change (File_checked f1') with (∅ : gmap string bool). rewrite lookup_empty. unfold lift, trimmed_sheet. by rewrite Er.
  - split; [|apply lookup_insert_eq]. change (File_sheetMap f1 !! trimSheetName sheet = Some path). by rewrite Em.
Qed.

End store.

(** ** Witnesses *)

(** An environment whose worksheet codec knows one sheet. *)
Definition codec_env (xlsx : xlsxWorksheet) : GoEnv :=
  example_env <| (@env_worksheet) := {| xml_Unmarshal _ := xlsx; xml_Marshal _ := "" |} |>.

Lemma workSheetWriter_reload_witness :
  exists f1 f2 xlsx',
    workSheetWriter (H := codec_env (trimmed_sheet example_sheet)) (example_file example_sheet) = Ret (tt, f1) /\
    workSheetReader (H := codec_env (trimmed_sheet example_sheet)) "Sheet1" (f1 <| File_Sheet := ∅ |> <| File_checked := ∅ |>)
      = Ret (ok (Some "xl/worksheets/sheet1.xml"), f2) /\
    loaded f2 "Sheet1" "xl/worksheets/sheet1.xml" xlsx' /\
    sheet_cell xlsx' 2 2 = Some ((freshCell "B2") <| xlsxC_V := "x" |>).
Proof.
  destruct (@workSheetWriter_reload (codec_env (trimmed_sheet example_sheet)) (example_file example_sheet) "Sheet1"
    "xl/worksheets/sheet1.xml" example_sheet) as (f1 & f2 & x & E1 & E2 & Hl & _ & _ & Hc).
  - intros K V D C m. reflexivity.
  - apply example_loaded.
  - exact example_sheet_wf.
  - reflexivity.
  - exists f1, f2, x. split; [exact E1|]. split; [exact E2|]. split; [exact Hl|].
    refine (Hc 2 2 _ _); unfold maxInt; lia.
Defined.

Lemma workSheetReader_correct_witness :
  let f := (example_file gozero) <| File_Sheet := ∅ |> <| File_checked := ∅ |> in
  exists xlsx f', workSheetReader (H := codec_env example_part) "Sheet1" f = Ret (ok (Some "xl/worksheets/sheet1.xml"), f') /\
    loaded f' "Sheet1" "xl/worksheets/sheet1.xml" xlsx /\ wf_sheet xlsx.
Proof.
  intros f. pose proof (@workSheetReader_correct (codec_env example_part) f "Sheet1") as Hc.
  change (File_sheetMap f !! trimSheetName "Sheet1") with (Some "xl/worksheets/sheet1.xml") in Hc. cbn iota in Hc.
  destruct Hc as (x & f' & E & Hl & Hwf & _); [discriminate| |exists x, f'; split; [exact E|split; [exact Hl|exact Hwf]]].
  exact example_part_sparse.
Defined.
