(* ===== verification/Workbook.v ===== *)
(** The sheets of a workbook ([sheet.go]): names, indices and relationships,
    [NewSheet], [DeleteSheet], [SetSheetName], [CopySheet], the active sheet and
    the visibility, with the content types and workbook relationships they
    maintain; [NewFile] and [UpdateLinkedValue]. *)
From S2P Require Export Store.

Definition wb_sheets (content : xlsxWorkbook) : list xlsxSheet :=
  xlsxSheets_Sheet (xlsxWorkbook_Sheets content).
Definition set_wb_sheets (l : list xlsxSheet) (content : xlsxWorkbook) : xlsxWorkbook :=
  content <| xlsxWorkbook_Sheets ::= fun s => s <| xlsxSheets_Sheet := l |> |>.

(** [strconv.Atoi] with the error ignored. *)
Definition atoi_ignore (s : string) : Z := (strconv_Atoi s).1.

Definition sheet_path (index : Z) : string := "xl/worksheets/sheet" +:+ strconv_Itoa index +:+ ".xml".
Definition sheet_rels_file (index : Z) : string :=
  "xl/worksheets/_rels/sheet" +:+ strconv_Itoa index +:+ ".xml.rels".

(** The number in a relationship target. *)
Definition target_index (target : string) : Z :=
  atoi_ignore (strings_TrimSuffix (strings_TrimPrefix target "worksheets/sheet") ".xml").

(** ** Names and indices *)

Definition sheet_name_of (index : Z) (sheets : list xlsxSheet) (rels : list xlsxWorkbookRelation) : string :=
  let matches := rel ← List.filter (fun rel => target_index (xlsxWorkbookRelation_Target rel) =? index) rels;
                 List.filter (fun v => bool_decide (xlsxSheet_ID v = xlsxWorkbookRelation_ID rel)) sheets in
  match matches with v :: _ => xlsxSheet_Name v | [] => "" end.

Definition sheet_index_of (name : string) (sheets : list xlsxSheet) (rels : list xlsxWorkbookRelation) : Z :=
  let matches := v ← List.filter (fun v => bool_decide (xlsxSheet_Name v = name)) sheets;
                 List.filter (fun rel => bool_decide (xlsxSheet_ID v = xlsxWorkbookRelation_ID rel)) rels in
  match matches with rel :: _ => target_index (xlsxWorkbookRelation_Target rel) | [] => 0 end.

(** The entries that [GetSheetMap] writes, in order. *)
Definition sheet_map_entries (sheets : list xlsxSheet) (rels : list xlsxWorkbookRelation) : list (Z * string) :=
  v ← sheets;
  rel ← rels;
  match strings_SplitN2 (xlsxWorkbookRelation_Target rel) "worksheets/sheet" with
  | [_; rest] => if bool_decide (xlsxWorkbookRelation_ID rel = xlsxSheet_ID v)
                 then [(atoi_ignore (strings_TrimSuffix rest ".xml"), xlsxSheet_Name v)] else []
  | _ => []
  end.

Definition sheet_map_of (sheets : list xlsxSheet) (rels : list xlsxWorkbookRelation) : gmap Z string :=
  foldl (fun m p => <[p.1 := p.2]> m) ∅ (sheet_map_entries sheets rels).

Section workbook.
Context `{GoEnv}.

(** The workbook's sheets and relationships, both read through their caches. *)
Definition sheets_and_rels : M (list xlsxSheet * list xlsxWorkbookRelation) :=
  content ← workbookReader; rels ← workbookRelsReader;
  mret (wb_sheets content, xlsxWorkbookRels_Relationships rels).

Definition GetSheetName (index : Z) : M string :=
  p ← sheets_and_rels; mret (sheet_name_of index p.1 p.2).

Definition GetSheetIndex (name : string) : M Z :=
  p ← sheets_and_rels; mret (sheet_index_of name p.1 p.2).

Definition GetSheetMap : M (gmap Z string) :=
  p ← sheets_and_rels; mret (sheet_map_of p.1 p.2).

Definition getSheetMap : M (gmap string string) :=
  m ← GetSheetMap;
  mret (foldl (fun maps p => <[p.2 := sheet_path p.1]> maps) ∅ (range_map m)).

(** ** The active sheet *)

Definition activate_tab (index : Z) (wb : xlsxWorkbook) : xlsxWorkbook :=
  foldl (fun wb p =>
    if xlsxSheet_SheetID p.2 =? index then
      wb <| xlsxWorkbook_BookViews ::= fun bv => bv <| xlsxBookViews_WorkBookView ::= fun l =>
        match l with
        | w :: l' => (w <| xlsxWorkBookView_ActiveTab := Z.of_nat p.1 |>) :: l'
        | [] => [(gozero : xlsxWorkBookView) <| xlsxWorkBookView_ActiveTab := Z.of_nat p.1 |>]
        end |> |>
    else wb) wb (imap pair (wb_sheets wb)).

Definition sheet_views (xlsx : xlsxWorksheet) : list xlsxSheetView :=
  xlsxSheetViews_SheetView (xlsxWorksheet_SheetViews xlsx).
Definition set_views (l : list xlsxSheetView) (xlsx : xlsxWorksheet) : xlsxWorksheet :=
  xlsx <| xlsxWorksheet_SheetViews ::= fun v => v <| xlsxSheetViews_SheetView := l |> |>.

(** The first view is deselected, then selected or created in the sheet with
    the index. *)
Definition select_sheet (selected : bool) (xlsx : xlsxWorksheet) : xlsxWorksheet :=
  set_views
    (match sheet_views xlsx with
     | v :: l => (v <| xlsxSheetView_TabSelected := selected |>) :: l
     | [] => if selected then [(gozero : xlsxSheetView) <| xlsxSheetView_TabSelected := true |>] else []
     end) xlsx.

Definition SetActiveSheet (index : Z) : M unit :=
  let index := if index <? 1 then 1 else index in
  wb ← workbookReader;
  set_workbook (activate_tab index wb);;
  m ← GetSheetMap;
  forM (range_map m) (fun e =>
    p ← workSheetReader e.2;
    update p.1 (select_sheet (index =? e.1))).

Definition GetActiveSheetIndex : M Z :=
  m ← GetSheetMap;
  r ← forRet (range_map m) (fun e =>
        p ← workSheetReader e.2;
        xlsx ← deref p.1;
        mret (if existsb xlsxSheetView_TabSelected (sheet_views xlsx) then Some e.1 else None));
  mret (match r with Some idx => idx | None => 0 end).

(** ** Adding a sheet *)

Definition setAppXML : M unit := saveFileList "docProps/app.xml" templateDocpropsApp.

Definition setContentTypes (index : Z) : M unit :=
  content ← contentTypesReader;
  set_contentTypes (content <| xlsxTypes_Overrides ::= fun l => l ++
    [mk_xlsxOverride ("/xl/worksheets/sheet" +:+ strconv_Itoa index +:+ ".xml")
       "application/vnd.openxmlformats-officedocument.spreadsheetml.worksheet+xml"] |>).

Definition new_worksheet : xlsxWorksheet :=
  set_views [gozero : xlsxSheetView]
    ((gozero : xlsxWorksheet) <| xlsxWorksheet_Dimension := mk_xlsxDimension "A1" |>).

Definition setSheet (index : Z) (name : string) : M unit :=
  modify (fun f => f <| File_sheetMap ::= <[trimSheetName name := sheet_path index]> |>);;
  modify (fun f => f <| File_Sheet ::= <[sheet_path index := new_worksheet]> |>).

Definition setWorkbook (name : string) (sheetID rid : Z) : M unit :=
  content ← workbookReader;
  set_workbook (set_wb_sheets (wb_sheets content ++
    [mk_xlsxSheet (trimSheetName name) sheetID ("rId" +:+ strconv_Itoa rid) ""]) content).

Definition max_rID (rels : list xlsxWorkbookRelation) : Z :=
  foldl (fun rID v => let t := atoi_ignore (strings_TrimPrefix (xlsxWorkbookRelation_ID v) "rId") in
           if rID <? t then t else rID) 0 rels.

Definition addXlsxWorkbookRels (sheet : Z) : M Z :=
  content ← workbookRelsReader;
  let rID := iadd (max_rID (xlsxWorkbookRels_Relationships content)) 1 in
  set_workbookRels (content <| xlsxWorkbookRels_Relationships ::= fun l => l ++
    [mk_xlsxWorkbookRelation ("rId" +:+ strconv_Itoa rID)
       ("worksheets/sheet" +:+ strconv_Itoa sheet +:+ ".xml") SourceRelationshipWorkSheet ""] |>);;
  mret rID.

(** ** Deleting a sheet *)

(** The first relationship with the ID is removed; its target is returned. *)
Definition deleteSheetFromWorkbookRels (rID : string) : M string :=
  content ← workbookRelsReader;
  match delete_first (fun v => bool_decide (xlsxWorkbookRelation_ID v = rID))
          (xlsxWorkbookRels_Relationships content) with
  | Some (v, l) =>
      set_workbookRels (content <| xlsxWorkbookRels_Relationships := l |>);;
      mret (xlsxWorkbookRelation_Target v)
  | None => mret ""
  end.

Definition deleteSheetFromContentTypes (target : string) : M unit :=
  content ← contentTypesReader;
  l ← lift (range_delete (fun v => bool_decide (xlsxOverride_PartName v = "/xl/" +:+ target))
              (xlsxTypes_Overrides content));
  set_contentTypes (content <| xlsxTypes_Overrides := l |>).

(** The parts of a deleted sheet. *)
Definition delete_sheet_parts (name : string) (v : xlsxSheet) : M unit :=
  let sheet := sheet_path (xlsxSheet_SheetID v) in
  let rels := sheet_rels_file (xlsxSheet_SheetID v) in
  target ← deleteSheetFromWorkbookRels (xlsxSheet_ID v);
  deleteSheetFromContentTypes target;;
  deleteCalcChain (xlsxSheet_SheetID v) "";;
  modify (fun f => f <| File_sheetMap ::= delete name |>);;
  modify (fun f => f <| File_XLSX ::= delete sheet |>);;
  modify (fun f => f <| File_XLSX ::= delete rels |>);;
  modify (fun f => f <| File_Sheet ::= delete sheet |>);;
  modify (fun f => f <| File_SheetCount ::= fun n => isub n 1 |>).

(** The loop over the sheets, which shortens the slice it ranges over. *)
Fixpoint delete_sheet_loop (name : string) (ks : list nat) (s : slice xlsxSheet) : M unit :=
  match ks with
  | [] => mret tt
  | k :: ks' =>
      match backing s !! k with
      | None => panic
      | Some v =>
          if bool_decide (xlsxSheet_Name v = trimSheetName name) && (1 <? slen s)%nat then
            s' ← lift (delete_at k s);
            content ← workbookReader;
            set_workbook (set_wb_sheets (elems s') content);;
            delete_sheet_parts name v;;
            delete_sheet_loop name ks' s'
          else delete_sheet_loop name ks' s
      end
  end.

Definition DeleteSheet (name : string) : M unit :=
  content ← workbookReader;
  let l := wb_sheets content in
  delete_sheet_loop name (seq 0 (length l)) (slice_of l);;
  m ← GetSheetMap;
  SetActiveSheet (Z.of_nat (size m)).

Definition max_sheetID (sheets : list xlsxSheet) : Z :=
  foldl (fun sheetID v => if sheetID <? xlsxSheet_SheetID v then xlsxSheet_SheetID v else sheetID) 0 sheets.

Definition NewSheet (name : string) : M Z :=
  index ← GetSheetIndex name;
  if negb (index =? 0) then gets File_SheetCount
  else
    DeleteSheet name;;
    modify (fun f => f <| File_SheetCount ::= fun n => iadd n 1 |>);;
    wb ← workbookReader;
    let sheetID := iadd (max_sheetID (wb_sheets wb)) 1 in
    setAppXML;;
    setContentTypes sheetID;;
    setSheet sheetID name;;
    rID ← addXlsxWorkbookRels sheetID;
    setWorkbook name sheetID rID;;
    mret sheetID.

(** ** Renaming, copying and hiding *)

(** One round of the loop of [SetSheetName]: the missing key reads as the empty
    path. *)
Definition rename_in_map (oldName newName : string) (m : gmap string string) : gmap string string :=
  delete oldName (<[newName := match m !! oldName with Some p => p | None => "" end]> m).

Fixpoint rename_loop (oldName newName : string) (sheets : list xlsxSheet) (m : gmap string string)
    : list xlsxSheet * gmap string string :=
  match sheets with
  | [] => ([], m)
  | v :: rest =>
      if bool_decide (xlsxSheet_Name v = oldName) then
        let '(rest', m') := rename_loop oldName newName rest (rename_in_map oldName newName m) in
        ((v <| xlsxSheet_Name := newName |>) :: rest', m')
      else
        let '(rest', m') := rename_loop oldName newName rest m in (v :: rest', m')
  end.

Definition SetSheetName (oldName newName : string) : M unit :=
  let oldName := trimSheetName oldName in
  let newName := trimSheetName newName in
  content ← workbookReader;
  m ← gets File_sheetMap;
  let '(sheets', m') := rename_loop oldName newName (wb_sheets content) m in
  set_workbook (set_wb_sheets sheets' content);;
  modify (fun f => f <| File_sheetMap := m' |>).

Definition copied_sheet (sheet : xlsxWorksheet) : xlsxWorksheet :=
  let worksheet := deepcopy_Copy sheet in
  set_views (match sheet_views worksheet with
             | v :: l => (v <| xlsxSheetView_TabSelected := false |>) :: l
             | [] => []
             end) worksheet
    <| xlsxWorksheet_Drawing := None |> <| xlsxWorksheet_TableParts := None |> <| xlsxWorksheet_PageSetUp := None |>.

Definition copySheet (from to : Z) : M (option goerr) :=
  name ← GetSheetName from;
  let! p := workSheetReader name in
  sheet ← deref p;
  modify (fun f => f <| File_Sheet ::= <[sheet_path to := copied_sheet sheet]> |>);;
  f ← get;
  match File_XLSX f !! sheet_rels_file from with
  | Some content => modify (fun f => f <| File_XLSX ::= <[sheet_rels_file to := content]> |>);; mret None
  | None => mret None
  end.

(** The conditions of the guard are evaluated from left to right, the names only
    when the numbers pass. *)
Definition CopySheet (from to : Z) : M (option goerr) :=
  let invalid := mret (Some (ErrText "invalid worksheet index")) in
  if (from <? 1) || (to <? 1) || (from =? to) then invalid
  else
    n1 ← GetSheetName from;
    if bool_decide (n1 = "") then invalid
    else
      n2 ← GetSheetName to;
      if bool_decide (n2 = "") then invalid else copySheet from to.

Definition set_state (k : nat) (state : string) (content : xlsxWorkbook) : xlsxWorkbook :=
  set_wb_sheets (alter (fun v => v <| xlsxSheet_State := state |>) k (wb_sheets content)) content.

(** The second loop of [SetSheetVisible]; the sheet map is looked up under the
    position [k] of the sheet. *)
Fixpoint hide_loop (name : string) (count : Z) (ks : list (nat * xlsxSheet)) : M (option goerr) :=
  match ks with
  | [] => mret None
  | (k, v) :: rest =>
      m ← GetSheetMap;
      let! p := workSheetReader (match m !! Z.of_nat k with Some s => s | None => "" end) in
      xlsx ← deref p;
      let tabSelected := match sheet_views xlsx with w :: _ => xlsxSheetView_TabSelected w | [] => false end in
      (if bool_decide (xlsxSheet_Name v = name) && (1 <? count) && negb tabSelected
       then content ← workbookReader; set_workbook (set_state k "hidden" content)
       else mret tt);;
      hide_loop name count rest
  end.

Definition SetSheetVisible (name : string) (visible : bool) : M (option goerr) :=
  let name := trimSheetName name in
  content ← workbookReader;
  if visible then
    set_workbook (set_wb_sheets
      ((fun v => if bool_decide (xlsxSheet_Name v = name) then v <| xlsxSheet_State := "" |> else v)
         <$> wb_sheets content) content);;
    mret None
  else
    let count := zlen (List.filter (fun v => negb (bool_decide (xlsxSheet_State v = "hidden"))) (wb_sheets content)) in
    hide_loop name count (imap pair (wb_sheets content)).

(** A sheet of the name whose state does not hide it. *)
Definition sheet_visible (name : string) (v : xlsxSheet) : bool :=
  bool_decide (xlsxSheet_Name v = name) &&
  (bool_decide (xlsxSheet_State v = "") || bool_decide (xlsxSheet_State v = "visible")).

Definition GetSheetVisible (name : string) : M bool :=
  content ← workbookReader;
  mret (foldl (fun visible v =>
          if bool_decide (xlsxSheet_Name v = trimSheetName name) then
            if bool_decide (xlsxSheet_State v = "") || bool_decide (xlsxSheet_State v = "visible") then true else visible
          else visible) false (wb_sheets content)).

(** ** A new workbook *)

Definition new_parts : gmap string string :=
  list_to_map [("_rels/.rels", XMLHeader +:+ templateRels);
    ("docProps/app.xml", XMLHeader +:+ templateDocpropsApp);
    ("docProps/core.xml", XMLHeader +:+ templateDocpropsCore);
    ("xl/_rels/workbook.xml.rels", XMLHeader +:+ templateWorkbookRels);
    ("xl/theme/theme1.xml", XMLHeader +:+ templateTheme);
    ("xl/worksheets/sheet1.xml", XMLHeader +:+ templateSheet);
    ("xl/styles.xml", XMLHeader +:+ templateStyles);
    ("xl/workbook.xml", XMLHeader +:+ templateWorkbook);
    ("[Content_Types].xml", XMLHeader +:+ templateContentTypes)].

Definition empty_file (parts : gmap string string) (sheetCount : Z) : File :=
  mk_File ∅ ∅ None ∅ None ∅ ∅ "" None ∅ sheetCount None None ∅ ∅ None None ∅ parts.

(** The worksheet is looked up before its name is in the map, so its pointer
    is nil and the part is decoded on the first use. *)
Definition NewFile : outcome File :=
  r ← (calcChainReader;; contentTypesReader;; stylesReader;; workbookReader;; workbookRelsReader;;
       p ← workSheetReader "Sheet1";
       match p.1 with
       | Some path => xlsx ← deref (Some path);
                      modify (fun f => f <| File_Sheet ::= <["xl/worksheets/sheet1.xml" := xlsx]> |>)
       | None => modify (fun f => f <| File_Sheet ::= delete "xl/worksheets/sheet1.xml" |>)
       end;;
       modify (fun f => f <| File_sheetMap ::= <["Sheet1" := "xl/worksheets/sheet1.xml"]> |>);;
       theme ← themeReader;
       modify (fun f => f <| File_Theme := Some theme |>)
      ) (empty_file new_parts 1);
  Ret r.2.

(** [OpenReader] after the archive has been read into [parts]. *)
Definition open_parts (parts : gmap string string) (sheetCount : Z) : outcome File :=
  r ← (calcChainReader;;
       m ← getSheetMap;
       modify (fun f => f <| File_sheetMap := m |>);;
       stylesReader;;
       theme ← themeReader;
       modify (fun f => f <| File_Theme := Some theme |>)) (empty_file parts sheetCount);
  Ret r.2.

(** ** [UpdateLinkedValue] *)

Definition unlink_cell (col : xlsxC) : xlsxC :=
  match xlsxC_F col with
  | Some _ => if bool_decide (xlsxC_V col = "") then col else col <| xlsxC_V := "" |> <| xlsxC_T := "" |>
  | None => col
  end.

Definition unlink_sheet (xlsx : xlsxWorksheet) : xlsxWorksheet :=
  set_rows ((fun r => r <| xlsxRow_C ::= fmap unlink_cell |>) <$> sheet_rows xlsx) xlsx.

Definition UpdateLinkedValue : M (option goerr) :=
  m ← GetSheetMap;
  r ← forRet (range_map m) (fun e =>
        p ← workSheetReader e.2;
        match p with
        | (_, Some err) => mret (Some (Some err))
        | (p, None) => update p unlink_sheet;; mret None
        end);
  mret (match r with Some e => e | None => None end).

End workbook.

(** ** Lemmas *)

Lemma target_index_sheet n :
  1 <= n <= maxInt -> target_index ("worksheets/sheet" +:+ strconv_Itoa n +:+ ".xml") = n.
Proof.
  intros Hn. unfold target_index, atoi_ignore. rewrite strings_TrimPrefix_app, strings_TrimSuffix_app, Atoi_Itoa; [done|].
  unfold minInt, maxInt in *. lia.
Qed.

Lemma SplitN2_sheet n :
  strings_SplitN2 ("worksheets/sheet" +:+ strconv_Itoa n +:+ ".xml") "worksheets/sheet" = [""; strconv_Itoa n +:+ ".xml"].
Proof. unfold strings_SplitN2. by rewrite str_cut_prefix. Qed.

(** The sheets and relationships of a workbook agree: distinct names and
    relationship IDs, and every sheet has a relationship to the part of its own
    index. Relationships to other parts are not restricted. *)
Record wb_consistent (sheets : list xlsxSheet) (rels : list xlsxWorkbookRelation) (idx : xlsxSheet -> Z) : Prop := {
  wc_names : NoDup (xlsxSheet_Name <$> sheets);
  wc_ids : NoDup (xlsxSheet_ID <$> sheets);
  wc_rel_ids : NoDup (xlsxWorkbookRelation_ID <$> rels);
  wc_rel v : v ∈ sheets -> exists rel, rel ∈ rels /\ xlsxWorkbookRelation_ID rel = xlsxSheet_ID v /\
    xlsxWorkbookRelation_Target rel = "worksheets/sheet" +:+ strconv_Itoa (idx v) +:+ ".xml";
  wc_idx v : v ∈ sheets -> 1 <= idx v <= maxInt;
  wc_inj v w : v ∈ sheets -> w ∈ sheets -> idx v = idx w -> v = w
}.

Lemma NoDup_fmap_inj {A B} (f : A -> B) l x y : NoDup (f <$> l) -> x ∈ l -> y ∈ l -> f x = f y -> x = y.
Proof.
  intros Hnd [i Hi]%list_elem_of_lookup [j Hj]%list_elem_of_lookup E. rewrite NoDup_alt in Hnd.
  assert (i = j) as ->; [|congruence]. apply (Hnd i j (f x)); rewrite list_lookup_fmap; [by rewrite Hi|by rewrite Hj, E].
Qed.

(** A list of matches whose members all have one value. *)
Lemma match_list_value {A B} (l : list A) (g : A -> B) (d b : B) :
  (exists x, x ∈ l) -> (forall x, x ∈ l -> g x = b) -> match l with x :: _ => g x | [] => d end = b.
Proof.
  intros [x Hx] Hall. destruct l as [|y l]; [by apply elem_of_nil in Hx|]. apply Hall. by left.
Qed.

Lemma elem_of_filter_bool {A} (p : A -> bool) l x : x ∈ List.filter p l <-> x ∈ l /\ p x = true.
Proof. by rewrite !list_elem_of_In, filter_In. Qed.

Lemma foldl_insert_from {K V} `{Countable K} (l : list (K * V)) (m : gmap K V) k v :
  foldl (fun m p => <[p.1 := p.2]> m) m l !! k = Some v -> m !! k = Some v \/ (k, v) ∈ l.
Proof.
  revert m. induction l as [|[k' v'] l IH]; intros m; [by left|]. cbn. intros [Hm|Hin]%IH; [|right; by right].
  destruct (decide (k' = k)) as [->|Hne].
  - rewrite lookup_insert_eq in Hm. injection Hm as ->. right. by left.
  - rewrite lookup_insert_ne in Hm by done. by left.
Qed.

Lemma sheet_map_of_entries sheets rels n name :
  sheet_map_of sheets rels !! n = Some name -> (n, name) ∈ sheet_map_entries sheets rels.
Proof. unfold sheet_map_of. by intros [E|E]%foldl_insert_from. Qed.

Section consistent.
Variables (sheets : list xlsxSheet) (rels : list xlsxWorkbookRelation) (idx : xlsxSheet -> Z).
Hypothesis Hwb : wb_consistent sheets rels idx.

Lemma rel_of_sheet v rel :
  v ∈ sheets -> rel ∈ rels -> xlsxWorkbookRelation_ID rel = xlsxSheet_ID v ->
  xlsxWorkbookRelation_Target rel = "worksheets/sheet" +:+ strconv_Itoa (idx v) +:+ ".xml".
Proof using Hwb.
  intros Hv Hr E. destruct (wc_rel _ _ _ Hwb v Hv) as (rel' & Hr' & E' & <-).
  f_equal. apply (NoDup_fmap_inj xlsxWorkbookRelation_ID rels); [by apply (wc_rel_ids _ _ _ Hwb)|done|done|congruence].
Qed.

Lemma sheet_index_of_consistent v : v ∈ sheets -> sheet_index_of (xlsxSheet_Name v) sheets rels = idx v.
Proof using Hwb.
  intros Hv. pose proof (wc_idx _ _ _ Hwb v Hv) as Hi. unfold sheet_index_of. cbv zeta.
  apply (match_list_value _ (fun rel => target_index (xlsxWorkbookRelation_Target rel))).
  - destruct (wc_rel _ _ _ Hwb v Hv) as (rel & Hr & E & _). exists rel. apply list_elem_of_bind. exists v. split.
    + apply elem_of_filter_bool. split; [done|]. by apply bool_decide_eq_true.
    + apply elem_of_filter_bool. split; [done|]. by apply bool_decide_eq_true.
  - intros rel (w & [Hr E%bool_decide_eq_true]%elem_of_filter_bool & [Hw Ew%bool_decide_eq_true]%elem_of_filter_bool)%list_elem_of_bind.
    assert (w = v) as -> by (by apply (NoDup_fmap_inj xlsxSheet_Name sheets); [apply (wc_names _ _ _ Hwb)|..]).
    rewrite (rel_of_sheet v) by done. by apply target_index_sheet.
Qed.

Lemma sheet_name_of_consistent v : v ∈ sheets -> sheet_name_of (idx v) sheets rels = xlsxSheet_Name v.
Proof using Hwb.
  intros Hv. pose proof (wc_idx _ _ _ Hwb v Hv) as Hi. unfold sheet_name_of. cbv zeta.
  apply (match_list_value _ xlsxSheet_Name).
  - destruct (wc_rel _ _ _ Hwb v Hv) as (rel & Hr & E & Et). exists v. apply list_elem_of_bind. exists rel. split.
    + apply elem_of_filter_bool. split; [done|]. by apply bool_decide_eq_true.
    + apply elem_of_filter_bool. split; [done|]. rewrite Et, target_index_sheet by done. lia.
  - intros w (rel & [Hw E%bool_decide_eq_true]%elem_of_filter_bool & [Hr Et]%elem_of_filter_bool)%list_elem_of_bind.
    rewrite (rel_of_sheet w) in Et by done. pose proof (wc_idx _ _ _ Hwb w Hw). rewrite target_index_sheet in Et by done.
    f_equal. apply (wc_inj _ _ _ Hwb); [done|done|lia].
Qed.

(** The entries of the sheet map are the sheets under their indices. *)
Lemma sheet_map_entries_consistent p :
  p ∈ sheet_map_entries sheets rels <-> exists v, v ∈ sheets /\ p = (idx v, xlsxSheet_Name v).
Proof using Hwb.
  assert (forall v rel, v ∈ sheets -> rel ∈ rels -> xlsxWorkbookRelation_ID rel = xlsxSheet_ID v ->
    match strings_SplitN2 (xlsxWorkbookRelation_Target rel) "worksheets/sheet" with
    | [_; rest] => if bool_decide (xlsxWorkbookRelation_ID rel = xlsxSheet_ID v)
                   then [(atoi_ignore (strings_TrimSuffix rest ".xml"), xlsxSheet_Name v)] else []
    | _ => [] end = [(idx v, xlsxSheet_Name v)]) as Hone.
  { intros v rel Hv Hr E. rewrite (rel_of_sheet v) by done. rewrite SplitN2_sheet, bool_decide_eq_true_2 by done.
    rewrite strings_TrimSuffix_app. unfold atoi_ignore. rewrite Atoi_Itoa; [done|].
    pose proof (wc_idx _ _ _ Hwb v Hv). unfold minInt, maxInt in *. lia. }
  unfold sheet_map_entries. rewrite list_elem_of_bind. split.
  - intros (v & Hp & Hv). exists v. split; [done|]. apply list_elem_of_bind in Hp as (rel & Hp & Hr).
    destruct (decide (xlsxWorkbookRelation_ID rel = xlsxSheet_ID v)) as [E|E].
    + rewrite Hone in Hp by done. by apply list_elem_of_singleton in Hp.
    + rewrite bool_decide_eq_false_2 in Hp by done. destruct (strings_SplitN2 _ _) as [|? [|? [|? ?]]]; by apply elem_of_nil in Hp.
  - intros (v & Hv & ->). exists v. split; [|done]. destruct (wc_rel _ _ _ Hwb v Hv) as (rel & Hr & E & _).
    apply list_elem_of_bind. exists rel. split; [|done]. rewrite Hone by done. by apply list_elem_of_singleton.
Qed.

Lemma foldl_insert_lookup {K V} `{Countable K} (l : list (K * V)) (m : gmap K V) k v :
  (k, v) ∈ l -> (forall w, (k, w) ∈ l -> w = v) -> foldl (fun m p => <[p.1 := p.2]> m) m l !! k = Some v.
Proof.
  induction l as [|[k' v'] l IH] using rev_ind; [by intros ?%elem_of_nil|]. intros Hin Hall.
  rewrite foldl_app. cbn. destruct (decide (k' = k)) as [->|Hne].
  - rewrite lookup_insert_eq. f_equal. apply Hall. apply elem_of_app. right. by apply list_elem_of_singleton.
  - rewrite lookup_insert_ne by done. apply IH.
    + apply elem_of_app in Hin as [?|Hin%list_elem_of_singleton]; [done|]. congruence.
    + intros w Hw. apply Hall. apply elem_of_app. by left.
Qed.

Lemma sheet_map_of_consistent v : v ∈ sheets -> sheet_map_of sheets rels !! idx v = Some (xlsxSheet_Name v).
Proof using Hwb.
  intros Hv. apply foldl_insert_lookup.
  - apply sheet_map_entries_consistent. by exists v.
  - intros w (v' & Hv' & [= E ->])%sheet_map_entries_consistent. f_equal. by apply (wc_inj _ _ _ Hwb).
Qed.

End consistent.

Section workbook_properties.
Context `{GoEnv}.

(** The workbook and its relationships are in memory. *)
Definition wb_loaded (f : File) (content : xlsxWorkbook) (rels : xlsxWorkbookRels) : Prop :=
  File_WorkBook f = Some content /\ File_WorkBookRels f = Some rels.

Lemma workbookReader_loaded f content : File_WorkBook f = Some content -> workbookReader f = Ret (content, f).
Proof. intros E. unfold workbookReader, cached_reader, get, mbind, gom_bind. by rewrite E. Qed.

Lemma workbookRelsReader_loaded f rels : File_WorkBookRels f = Some rels -> workbookRelsReader f = Ret (rels, f).
Proof. intros E. unfold workbookRelsReader, cached_reader, get, mbind, gom_bind. by rewrite E. Qed.

Lemma sheets_and_rels_loaded f content rels :
  wb_loaded f content rels -> sheets_and_rels f = Ret ((wb_sheets content, xlsxWorkbookRels_Relationships rels), f).
Proof.
  intros [E1 E2]. unfold sheets_and_rels. rewrite (bind_Ret _ _ _ _ _ (workbookReader_loaded _ _ E1)).
  by rewrite (bind_Ret _ _ _ _ _ (workbookRelsReader_loaded _ _ E2)).
Qed.

Lemma GetSheetMap_loaded f content rels :
  wb_loaded f content rels -> GetSheetMap f = Ret (sheet_map_of (wb_sheets content) (xlsxWorkbookRels_Relationships rels), f).
Proof. intros Hl. unfold GetSheetMap. by rewrite (bind_Ret _ _ _ _ _ (sheets_and_rels_loaded _ _ _ Hl)). Qed.

(** Names and indices: on a consistent workbook [GetSheetIndex], [GetSheetName]
    and [GetSheetMap] agree. The name of a sheet leads to the index of its part,
    the index to the name, and the map has the pair. *)
Theorem GetSheetName_GetSheetIndex f content rels idx v :
  wb_loaded f content rels -> wb_consistent (wb_sheets content) (xlsxWorkbookRels_Relationships rels) idx ->
  v ∈ wb_sheets content ->
  GetSheetIndex (xlsxSheet_Name v) f = Ret (idx v, f) /\
  GetSheetName (idx v) f = Ret (xlsxSheet_Name v, f) /\
  exists m, GetSheetMap f = Ret (m, f) /\ m !! idx v = Some (xlsxSheet_Name v).
Proof.
  intros Hl Hwb Hv. pose proof (sheets_and_rels_loaded _ _ _ Hl) as E. split_and!.
  - unfold GetSheetIndex. rewrite (bind_Ret _ _ _ _ _ E). cbn [fst snd]. by rewrite (sheet_index_of_consistent _ _ idx).
  - unfold GetSheetName. rewrite (bind_Ret _ _ _ _ _ E). cbn [fst snd]. by rewrite (sheet_name_of_consistent _ _ idx).
  - eexists. split; [by apply GetSheetMap_loaded|]. by apply (sheet_map_of_consistent _ _ idx).
Qed.

(** *** [SetSheetName] *)

Lemma rename_loop_absent oldName newName l m :
  Forall (fun v => xlsxSheet_Name v <> oldName) l -> rename_loop oldName newName l m = (l, m).
Proof.
  induction 1 as [|v l Hv Hl IH]; [done|]. cbn. rewrite bool_decide_eq_false_2 by done. by rewrite IH.
Qed.

Lemma rename_loop_one oldName newName l1 v l2 m :
  Forall (fun v => xlsxSheet_Name v <> oldName) (l1 ++ l2) -> xlsxSheet_Name v = oldName ->
  rename_loop oldName newName (l1 ++ v :: l2) m =
    (l1 ++ (v <| xlsxSheet_Name := newName |>) :: l2, rename_in_map oldName newName m).
Proof.
  intros [H1 H2]%Forall_app Hv. induction H1 as [|w l1 Hw H1 IH].
  - cbn. rewrite bool_decide_eq_true_2 by done. by rewrite rename_loop_absent.
  - cbn [app rename_loop]. rewrite bool_decide_eq_false_2 by done. by rewrite IH.
Qed.

(** Renaming a sheet whose name occurs once: the sheet has the new (trimmed)
    name in the workbook, the sheet map leads from the new name to the same
    part and no longer knows the old one, and no other entry or part changes. *)
Theorem SetSheetName_correct f content oldName newName path l1 v l2 :
  File_WorkBook f = Some content -> wb_sheets content = l1 ++ v :: l2 ->
  xlsxSheet_Name v = trimSheetName oldName ->
  Forall (fun w => xlsxSheet_Name w <> trimSheetName oldName) (l1 ++ l2) ->
  trimSheetName newName <> trimSheetName oldName ->
  File_sheetMap f !! trimSheetName oldName = Some path ->
  exists f' content', SetSheetName oldName newName f = Ret (tt, f') /\
    File_WorkBook f' = Some content' /\
    wb_sheets content' = l1 ++ (v <| xlsxSheet_Name := trimSheetName newName |>) :: l2 /\
    File_sheetMap f' !! trimSheetName newName = Some path /\ File_sheetMap f' !! trimSheetName oldName = None /\
    (forall n, n <> trimSheetName oldName -> n <> trimSheetName newName -> File_sheetMap f' !! n = File_sheetMap f !! n) /\
    File_Sheet f' = File_Sheet f /\ File_XLSX f' = File_XLSX f.
Proof.
  intros Ew Es Ev Hother Hne Hm. unfold SetSheetName.
  rewrite (bind_Ret _ _ _ _ _ (workbookReader_loaded _ _ Ew)). unfold gets at 1, mbind at 1, gom_bind.
  rewrite Es, rename_loop_one by done.
  eexists _, _. split; [reflexivity|]. unfold rename_in_map. cbn. rewrite Hm. split_and!; try done.
  - rewrite lookup_delete_ne by done. apply lookup_insert_eq.
  - apply lookup_delete_eq.
  - intros n H1 H2. by rewrite lookup_delete_ne, lookup_insert_ne by done.
Qed.

(** Renaming a sheet to its own name (also when the names only become equal by
    trimming) deletes it from the sheet map: every later access to the sheet
    fails, although the workbook still lists it. *)
Theorem SetSheetName_same_name f content oldName newName l1 v l2 :
  File_WorkBook f = Some content -> wb_sheets content = l1 ++ v :: l2 ->
  xlsxSheet_Name v = trimSheetName oldName ->
  Forall (fun w => xlsxSheet_Name w <> trimSheetName oldName) (l1 ++ l2) ->
  trimSheetName newName = trimSheetName oldName ->
  exists f', SetSheetName oldName newName f = Ret (tt, f') /\
    workSheetReader oldName f' = Ret ((None, Some (sheet_not_exist oldName)), f') /\
    exists content', File_WorkBook f' = Some content' /\ v ∈ wb_sheets content'.
Proof.
  intros Ew Es Ev Hother Hne. unfold SetSheetName.
  rewrite (bind_Ret _ _ _ _ _ (workbookReader_loaded _ _ Ew)). unfold gets at 1, mbind at 1, gom_bind.
  rewrite Es, rename_loop_one by done.
  eexists. split; [reflexivity|]. split.
  - apply workSheetReader_missing. unfold rename_in_map. cbn. apply lookup_delete_eq.
  - eexists. split; [reflexivity|]. cbn. apply elem_of_app. right. rewrite Hne, <- Ev. destruct v. by left.
Qed.

(** *** [SetSheetVisible] *)

Lemma GetSheetVisible_loaded f content name :
  File_WorkBook f = Some content ->
  GetSheetVisible name f = Ret (existsb (sheet_visible (trimSheetName name)) (wb_sheets content), f).
Proof.
  intros Ew. unfold GetSheetVisible. rewrite (bind_Ret _ _ _ _ _ (workbookReader_loaded _ _ Ew)).
  unfold mret, gom_ret. do 2 f_equal.
  assert (forall b, foldl (fun visible v =>
          if bool_decide (xlsxSheet_Name v = trimSheetName name) then
            if bool_decide (xlsxSheet_State v = "") || bool_decide (xlsxSheet_State v = "visible") then true else visible
          else visible) b (wb_sheets content) = b || existsb (sheet_visible (trimSheetName name)) (wb_sheets content)) as E;
    [|by rewrite E].
  induction (wb_sheets content) as [|v l IH]; intros b; cbn; [by rewrite orb_false_r|].
  rewrite IH. unfold sheet_visible at 2. by destruct (bool_decide _), (bool_decide _), (bool_decide _), b.
Qed.

Lemma sheet_visible_shown other name v :
  sheet_visible other (if bool_decide (xlsxSheet_Name v = name) then v <| xlsxSheet_State := "" |> else v) =
    if bool_decide (other = name) then bool_decide (xlsxSheet_Name v = name) else sheet_visible other v.
Proof. unfold sheet_visible. repeat case_bool_decide; cbn; repeat case_bool_decide; subst; cbn in *; congruence. Qed.

(** Showing a sheet clears its state and nothing else; it is visible
    afterwards when there is one of that name, and the visibility of the others
    does not change. *)
Theorem SetSheetVisible_show f content name :
  File_WorkBook f = Some content ->
  exists f' content', SetSheetVisible name true f = Ret (None, f') /\
    f' = f <| File_WorkBook := Some content' |> /\
    length (wb_sheets content') = length (wb_sheets content) /\
    (forall k v, wb_sheets content !! k = Some v -> exists v', wb_sheets content' !! k = Some v' /\
      xlsxSheet_State v' = (if bool_decide (xlsxSheet_Name v = trimSheetName name) then "" else xlsxSheet_State v) /\
      v' <| xlsxSheet_State := "" |> = v <| xlsxSheet_State := "" |>) /\
    (forall other, returned (GetSheetVisible other f') =
      if bool_decide (trimSheetName other = trimSheetName name)
      then Some (bool_decide (trimSheetName name ∈ xlsxSheet_Name <$> wb_sheets content))
      else returned (GetSheetVisible other f)).
Proof.
  intros Ew. unfold SetSheetVisible. rewrite (bind_Ret _ _ _ _ _ (workbookReader_loaded _ _ Ew)).
  eexists _, _. split; [reflexivity|]. split; [reflexivity|]. cbn. split; [by rewrite length_fmap|]. split.
  - intros k v Hv. rewrite list_lookup_fmap, Hv. cbn. eexists. split; [done|]. by destruct (bool_decide _).
  - intros other. rewrite (GetSheetVisible_loaded f content) by done. erewrite GetSheetVisible_loaded by done. cbn.
    case_bool_decide as Ho; f_equal.
    + rewrite Ho. apply eq_bool_prop_intro. rewrite bool_decide_spec.
      induction (wb_sheets content) as [|v l IH]; cbn [existsb fmap list_fmap]; [by rewrite elem_of_nil|].
      rewrite orb_True, IH, elem_of_cons, sheet_visible_shown, (bool_decide_eq_true_2 (_ = _)) by done.
      rewrite bool_decide_spec. split; (intros [?|?]; [by left|by right]).
    + induction (wb_sheets content) as [|v l IH]; cbn [existsb fmap list_fmap]; [done|].
      by rewrite IH, sheet_visible_shown, (bool_decide_eq_false_2 (trimSheetName other = _)).
Qed.

(** Hiding never works: the loop looks the first sheet up under the index 0,
    which no sheet part has, and returns the error of the empty name before any
    state is set. *)
Theorem SetSheetVisible_hide_fails f content rels name :
  wb_loaded f content rels -> wb_sheets content <> [] ->
  sheet_map_of (wb_sheets content) (xlsxWorkbookRels_Relationships rels) !! 0 = None ->
  File_sheetMap f !! "" = None ->
  SetSheetVisible name false f = Ret (Some (sheet_not_exist ""), f).
Proof.
  intros Hl Hne H0 Hmap. unfold SetSheetVisible. rewrite (bind_Ret _ _ _ _ _ (workbookReader_loaded _ _ (proj1 Hl))).
  destruct (wb_sheets content) as [|v l] eqn:E; [done|]. cbn [imap hide_loop].
  rewrite (bind_Ret _ _ _ _ _ (GetSheetMap_loaded _ _ _ Hl)). rewrite E. change (Z.of_nat 0) with 0. rewrite H0.
  by rewrite (bind_Ret _ _ _ _ _ (workSheetReader_missing f "" Hmap)).
Qed.

End workbook_properties.

(** ** Witnesses *)

Definition example_workbook : xlsxWorkbook :=
  (gozero : xlsxWorkbook) <| xlsxWorkbook_Sheets := mk_xlsxSheets [mk_xlsxSheet "Sheet1" 1 "rId1" ""; mk_xlsxSheet "Data" 2 "rId4" "hidden"] |>.
Definition example_rels : xlsxWorkbookRels :=
  (gozero : xlsxWorkbookRels) <| xlsxWorkbookRels_Relationships :=
    [mk_xlsxWorkbookRelation "rId1" "worksheets/sheet1.xml" SourceRelationshipWorkSheet "";
     mk_xlsxWorkbookRelation "rId2" "styles.xml" "styles" "";
     mk_xlsxWorkbookRelation "rId4" "worksheets/sheet7.xml" SourceRelationshipWorkSheet ""] |>.
Definition example_workbook_file : File :=
  (example_file gozero) <| File_WorkBook := Some example_workbook |> <| File_WorkBookRels := Some example_rels |>.

Definition example_idx (v : xlsxSheet) : Z := if bool_decide (xlsxSheet_Name v = "Sheet1") then 1 else 7.

Lemma example_consistent : wb_consistent (wb_sheets example_workbook) (xlsxWorkbookRels_Relationships example_rels) example_idx.
Proof.
  assert (forall v, v ∈ wb_sheets example_workbook -> v = mk_xlsxSheet "Sheet1" 1 "rId1" "" \/ v = mk_xlsxSheet "Data" 2 "rId4" "hidden") as Hin.
  { intros v [->|[->|[]%elem_of_nil]%elem_of_cons]%elem_of_cons; auto. }
  split.
  - apply (bool_decide_unpack _). reflexivity.
  - apply (bool_decide_unpack _). reflexivity.
  - apply (bool_decide_unpack _). reflexivity.
  - intros v [-> | ->]%Hin.
    + exists (mk_xlsxWorkbookRelation "rId1" "worksheets/sheet1.xml" SourceRelationshipWorkSheet "").
      split; [by left|split; reflexivity].
    + exists (mk_xlsxWorkbookRelation "rId4" "worksheets/sheet7.xml" SourceRelationshipWorkSheet "").
      split; [by right; right; left|split; reflexivity].
  - intros v [-> | ->]%Hin; unfold maxInt; vm_compute; split; discriminate.
  - intros v w [-> | ->]%Hin [-> | ->]%Hin; cbn; intros E; by try discriminate E.
Qed.

Lemma GetSheetName_GetSheetIndex_witness :
  GetSheetIndex (H := example_env) "Data" example_workbook_file = Ret (7, example_workbook_file) /\
  GetSheetName (H := example_env) 7 example_workbook_file = Ret ("Data", example_workbook_file).
Proof.
  destruct (@GetSheetName_GetSheetIndex example_env example_workbook_file example_workbook example_rels example_idx
    (mk_xlsxSheet "Data" 2 "rId4" "hidden")) as (E1 & E2 & _); [split; reflexivity|exact example_consistent| |].
  - right. left.
  - split; [exact E1|exact E2].
Defined.

Lemma SetSheetName_correct_witness :
  exists f' content', SetSheetName (H := example_env) "Sheet1" "Q1: plan" example_workbook_file = Ret (tt, f') /\
    File_WorkBook f' = Some content' /\ File_sheetMap f' !! "Q1 plan" = Some "xl/worksheets/sheet1.xml".
Proof.
  destruct (@SetSheetName_correct example_env example_workbook_file example_workbook "Sheet1" "Q1: plan" "xl/worksheets/sheet1.xml"
    [] (mk_xlsxSheet "Sheet1" 1 "rId1" "") [mk_xlsxSheet "Data" 2 "rId4" "hidden"]) as (f' & c & E & Ew & _ & Em & _);
    [reflexivity..|constructor; [discriminate|constructor]|discriminate|reflexivity|].
  exists f', c. split; [exact E|]. split; [exact Ew|exact Em].
Defined.

Lemma SetSheetName_same_name_witness :
  exists f', SetSheetName (H := example_env) "Sheet1" "Sheet1?" example_workbook_file = Ret (tt, f') /\
    workSheetReader (H := example_env) "Sheet1" f' = Ret ((None, Some (sheet_not_exist "Sheet1")), f').
Proof.
  destruct (@SetSheetName_same_name example_env example_workbook_file example_workbook "Sheet1" "Sheet1?"
    [] (mk_xlsxSheet "Sheet1" 1 "rId1" "") [mk_xlsxSheet "Data" 2 "rId4" "hidden"]) as (f' & E & Er & _);
    [reflexivity..|constructor; [discriminate|constructor]|reflexivity|].
  exists f'. split; [exact E|exact Er].
Defined.

Lemma SetSheetVisible_show_witness :
  exists f' content', SetSheetVisible (H := example_env) "Data" true example_workbook_file = Ret (None, f') /\
    f' = example_workbook_file <| File_WorkBook := Some content' |>.
Proof.
  destruct (@SetSheetVisible_show example_env example_workbook_file example_workbook "Data" eq_refl) as (f' & c & E & Ef & _).
  exists f', c. split; [exact E|exact Ef].
Defined.

Lemma SetSheetVisible_hide_fails_witness :
  SetSheetVisible (H := example_env) "Sheet1" false example_workbook_file = Ret (Some (sheet_not_exist ""), example_workbook_file).
Proof.
  apply (@SetSheetVisible_hide_fails example_env example_workbook_file example_workbook example_rels "Sheet1");
    [split; reflexivity|discriminate|reflexivity|reflexivity].
Defined.
