(* ===== verification/Cell.v ===== *)
(** [cell.go] and [cellmerged.go]: reading and writing cells, formulas,
    hyperlinks and merged ranges. *)
From S2P Require Export NumFmt Workbook.

Definition STCellFormulaTypeShared : string := "shared".

(** ** Ranges *)

Definition checkCellInArea (cell area : string) : bool * option goerr :=
  match CellNameToCoordinates cell with
  | (_, Some err) => err_with false err
  | ((col, row), None) =>
      match strings_Split area ":" with
      | [first; last] =>
          let '(firstCol, firstRow) := (CellNameToCoordinates first).1 in
          let '(lastCol, lastRow) := (CellNameToCoordinates last).1 in
          ok ((firstCol <=? col) && (col <=? lastCol) && (firstRow <=? row) && (row <=? lastRow))
      | _ => ok false
      end
  end.

(** [strings.Split(ref, ":")[0]]; the split of any string has an element. *)
Definition ref_start (ref : string) : string := match strings_Split ref ":" with x :: _ => x | [] => "" end.

Section cell.
Context `{GoEnv}.

(** The loop of [mergeCellsParser]: an area moves the name to its first cell,
    and the next areas are compared with that. *)
Fixpoint merge_loop (areas : list xlsxMergeCell) (axis : string) : string * option goerr :=
  match areas with
  | [] => ok axis
  | area :: rest =>
      match checkCellInArea axis (xlsxMergeCell_Ref area) with
      | (_, Some err) => err_with axis err
      | (true, None) => merge_loop rest (ref_start (xlsxMergeCell_Ref area))
      | (false, None) => merge_loop rest axis
      end
  end.

Definition merge_areas (xlsx : xlsxWorksheet) : list xlsxMergeCell :=
  match xlsxWorksheet_MergeCells xlsx with Some m => xlsxMergeCells_Cells m | None => [] end.

Definition mergeCellsParser (xlsx : xlsxWorksheet) (axis : string) : string * option goerr :=
  merge_loop (merge_areas xlsx) (strings_ToUpper axis).

(** The last range of columns that contains the column gives the style. *)
Definition prepareCellStyle (xlsx : xlsxWorksheet) (col style : Z) : Z :=
  match xlsxWorksheet_Cols xlsx with
  | Some cols =>
      if style =? 0 then
        foldl (fun style c => if (xlsxCol_Min c <=? col) && (col <=? xlsxCol_Max c) then xlsxCol_Style c else style)
          style (xlsxCols_Col cols)
      else style
  | None => style
  end.

(** ** A pointer to a cell *)

Record cell_ptr := mk_cell_ptr { cell_sheet : sheet_ptr; cell_col : Z; cell_row : Z }.

Definition cell_get (xlsx : xlsxWorksheet) (col row : Z) : outcome xlsxC :=
  r ← list_get (sheet_rows xlsx) (row - 1); list_get (xlsxRow_C r) (col - 1).

Definition cell_set (col row : Z) (c : xlsxC) (xlsx : xlsxWorksheet) : outcome xlsxWorksheet :=
  r ← list_get (sheet_rows xlsx) (row - 1);
  C ← list_set (xlsxRow_C r) (col - 1) c;
  Row ← list_set (sheet_rows xlsx) (row - 1) (r <| xlsxRow_C := C |>);
  Ret (set_rows Row xlsx).

Definition load_cell (p : cell_ptr) : M xlsxC :=
  xlsx ← deref (cell_sheet p); lift (cell_get xlsx (cell_col p) (cell_row p)).

Definition store_cell (p : cell_ptr) (c : xlsxC) : M unit :=
  update_o (cell_sheet p) (cell_set (cell_col p) (cell_row p) c).

Definition nil_cell : cell_ptr := mk_cell_ptr None 0 0.

Definition prepareCell (p : sheet_ptr) (cell : string) : M ((cell_ptr * Z * Z) * option goerr) :=
  xlsx ← deref p;
  let! cell := mret (mergeCellsParser xlsx cell) orelse (nil_cell, 0, 0) in
  let! (col, row) := mret (CellNameToCoordinates cell) orelse (nil_cell, 0, 0) in
  update_o p (fun xlsx => prepareSheetXML xlsx col row);;
  (* the address of the cell: both indices are checked *)
  xlsx ← deref p; lift (cell_get xlsx col row);;
  mret (ok (mk_cell_ptr p col row, col, row)).

(** The common course of the setters: [f] computes the new cell, its style being
    prepared already. *)
Definition set_cell (sheet axis : string) (g : xlsxC -> xlsxC) : M (option goerr) :=
  let! p := workSheetReader sheet in
  let! (cellData, col, _) := prepareCell p axis in
  c ← load_cell cellData;
  xlsx ← deref p;
  store_cell cellData (g (c <| xlsxC_S := prepareCellStyle xlsx col (xlsxC_S c) |>));;
  mret None.

Definition SetCellInt (sheet axis : string) (value : Z) : M (option goerr) :=
  set_cell sheet axis (fun c => c <| xlsxC_T := "" |> <| xlsxC_V := strconv_Itoa value |>).

Definition SetCellBool (sheet axis : string) (value : bool) : M (option goerr) :=
  set_cell sheet axis (fun c => c <| xlsxC_T := "b" |> <| xlsxC_V := if value then "1" else "0" |>).

(** [FormatFloat] panics on a bit size other than 32 and 64, after the style
    and the type have been written. *)
Definition SetCellFloat (sheet axis : string) (value : float64) (prec bitSize : Z) : M (option goerr) :=
  match strconv_FormatFloat_f value prec bitSize with
  | Ret text => set_cell sheet axis (fun c => c <| xlsxC_T := "" |> <| xlsxC_V := text |>)
  | Panic =>
      let! p := workSheetReader sheet in
      let! _ := prepareCell p axis in
      panic
  end.

Definition NameSpaceXML_space : xml_Attr := mk_xml_Attr (mk_xml_Name NameSpaceXML "space") "preserve".

Definition starts_with_space (value : string) : bool :=
  match value with String c _ => byte_val c =? 32 | EmptyString => false end.

Definition SetCellStr (sheet axis value : string) : M (option goerr) :=
  let value := if 32767 <? len value then str_take (Z.to_nat 32767) value else value in
  set_cell sheet axis (fun c =>
    (if starts_with_space value then c <| xlsxC_XMLSpace := NameSpaceXML_space |> else c)
      <| xlsxC_T := "str" |> <| xlsxC_V := value |>).

Definition SetCellDefault (sheet axis value : string) : M (option goerr) :=
  set_cell sheet axis (fun c => c <| xlsxC_T := "" |> <| xlsxC_V := value |>).

(** ** Reading a cell *)

(** [getCellStringFunc]: the cells with the name in the rows with the number,
    until the function accepts one. *)
Fixpoint get_in_cells (axis : string) (C : list xlsxC) (fn : xlsxC -> M ((string * bool) * option goerr))
    : M (option (string * option goerr)) :=
  match C with
  | [] => mret None
  | colData :: rest =>
      if negb (bool_decide (axis = xlsxC_R colData)) then get_in_cells axis rest fn
      else
        r ← fn colData;
        match r with
        | (_, Some err) => mret (Some ("", Some err))
        | ((val, true), None) => mret (Some (val, None))
        | ((_, false), None) => get_in_cells axis rest fn
        end
  end.

Fixpoint get_in_rows (axis : string) (row : Z) (Row : list xlsxRow)
    (fn : xlsxC -> M ((string * bool) * option goerr)) : M (option (string * option goerr)) :=
  match Row with
  | [] => mret None
  | rowData :: rest =>
      if negb (xlsxRow_R rowData =? row) then get_in_rows axis row rest fn
      else
        r ← get_in_cells axis (xlsxRow_C rowData) fn;
        match r with Some res => mret (Some res) | None => get_in_rows axis row rest fn end
  end.

Definition getCellStringFunc (sheet axis : string)
    (fn : xlsxWorksheet -> xlsxC -> M ((string * bool) * option goerr)) : M (string * option goerr) :=
  let! p := workSheetReader sheet orelse "" in
  xlsx ← deref p;
  let! axis := mret (mergeCellsParser xlsx axis) orelse "" in
  let! (_, row) := mret (CellNameToCoordinates axis) orelse "" in
  let lastRowNum := match last (sheet_rows xlsx) with Some r => xlsxRow_R r | None => 0 end in
  if lastRowNum <? row then mret (ok "")
  else
    r ← get_in_rows axis row (sheet_rows xlsx) (fn xlsx);
    mret (match r with Some res => res | None => ok "" end).

Definition formattedValue (s : Z) (v : string) : M string :=
  if s =? 0 then mret v
  else
    styleSheet ← stylesReader;
    match xlsxStyleSheet_CellXfs styleSheet with
    | None => panic
    | Some xfs =>
        xf ← lift (list_get (xlsxCellXfs_Xf xfs) s);
        mret (match builtInNumFmtFunc (xlsxXf_NumFmtID xf) with
              | Some f => f (xlsxXf_NumFmtID xf) v
              | None => v
              end)
    end.

Definition getValueFrom (c : xlsxC) (d : xlsxSST) : M (string * option goerr) :=
  let t := xlsxC_T c in
  if bool_decide (t = "s") then
    si ← lift (list_get (xlsxSST_SI d) (atoi_ignore (xlsxC_V c)));
    match xlsxSI_R si with
    | [] => v ← formattedValue (xlsxC_S c) (xlsxSI_T si); mret (ok v)
    | rs => mret (ok (foldl (fun value r => value +:+ xlsxR_T r) "" rs))
    end
  else if bool_decide (t = "str") then v ← formattedValue (xlsxC_S c) (xlsxC_V c); mret (ok v)
  else if bool_decide (t = "inlineStr") then
    match xlsxC_IS c with
    | Some inline => v ← formattedValue (xlsxC_S c) (xlsxIS_T inline); mret (ok v)
    | None => panic
    end
  else v ← formattedValue (xlsxC_S c) (xlsxC_V c); mret (ok v).

Definition GetCellValue (sheet axis : string) : M (string * option goerr) :=
  getCellStringFunc sheet axis (fun _ c =>
    d ← sharedStringsReader;
    r ← getValueFrom c d;
    match r with
    | (val, Some err) => mret (err_with (val, false) err)
    | (val, None) => mret (ok (val, true))
    end).

(** ** Formulas *)

Definition is_shared_master (si : string) (c : xlsxC) : bool :=
  match xlsxC_F c with
  | Some f => negb (bool_decide (xlsxF_Ref f = "")) && bool_decide (xlsxF_T f = STCellFormulaTypeShared)
              && bool_decide (xlsxF_Si f = si)
  | None => false
  end.

Definition getSharedForumula (xlsx : xlsxWorksheet) (si : string) : string :=
  match list_find (fun c => is_shared_master si c = true) (r ← sheet_rows xlsx; xlsxRow_C r) with
  | Some (_, c) => match xlsxC_F c with Some f => xlsxF_Content f | None => "" end
  | None => ""
  end.

Definition cell_formula (x : xlsxWorksheet) (c : xlsxC) : (string * bool) * option goerr :=
  match xlsxC_F c with
  | None => ok ("", false)
  | Some f =>
      if bool_decide (xlsxF_T f = STCellFormulaTypeShared) then ok (getSharedForumula x (xlsxF_Si f), true)
      else ok (xlsxF_Content f, true)
  end.

Definition GetCellFormula (sheet axis : string) : M (string * option goerr) :=
  getCellStringFunc sheet axis (fun x c => mret (cell_formula x c)).

Definition SetCellFormula (sheet axis formula : string) : M (option goerr) :=
  let! p := workSheetReader sheet in
  let! (cellData, _, _) := prepareCell p axis in
  c ← load_cell cellData;
  if bool_decide (formula = "") then
    store_cell cellData (c <| xlsxC_F := None |>);;
    index ← GetSheetIndex sheet;
    deleteCalcChain index axis;;
    mret None
  else
    store_cell cellData (c <| xlsxC_F := Some
      (match xlsxC_F c with
       | Some f => f <| xlsxF_Content := formula |>
       | None => (gozero : xlsxF) <| xlsxF_Content := formula |>
       end) |>);;
    mret None.

(** ** Hyperlinks *)

Definition sheet_links (xlsx : xlsxWorksheet) : list xlsxHyperlink :=
  match xlsxWorksheet_Hyperlinks xlsx with Some h => xlsxHyperlinks_Hyperlink h | None => [] end.

Definition GetCellHyperLink (sheet axis : string) : M ((bool * string) * option goerr) :=
  let! _ := mret (SplitCellName axis) orelse (false, "") in
  let! p := workSheetReader sheet orelse (false, "") in
  xlsx ← deref p;
  let! axis := mret (mergeCellsParser xlsx axis) orelse (false, "") in
  match list_find (fun link => xlsxHyperlink_Ref link = axis) (sheet_links xlsx) with
  | Some (_, link) =>
      if bool_decide (xlsxHyperlink_RID link = "") then mret (ok (true, xlsxHyperlink_Location link))
      else target ← getSheetRelationshipsTargetByID sheet (xlsxHyperlink_RID link); mret (ok (true, target))
  | None => mret (ok (false, ""))
  end.

Definition add_link (link : xlsxHyperlink) (xlsx : xlsxWorksheet) : xlsxWorksheet :=
  xlsx <| xlsxWorksheet_Hyperlinks := Some (mk_xlsxHyperlinks (sheet_links xlsx ++ [link])) |>.

Definition SetCellHyperLink (sheet axis link linkType : string) : M (option goerr) :=
  let! _ := mret (SplitCellName axis) in
  let! p := workSheetReader sheet in
  xlsx ← deref p;
  let! axis := mret (mergeCellsParser xlsx axis) in
  assign p (xlsx <| xlsxWorksheet_Hyperlinks := Some (mk_xlsxHyperlinks (sheet_links xlsx)) |>);;
  if 65529 <? zlen (sheet_links xlsx) then
    mret (Some (ErrText "over maximum limit hyperlinks in a worksheet"))
  else if bool_decide (linkType = "External") then
    rID ← addSheetRelationships sheet SourceRelationshipHyperLink link linkType;
    update p (add_link ((gozero : xlsxHyperlink) <| xlsxHyperlink_Ref := axis |>
                          <| xlsxHyperlink_RID := "rId" +:+ strconv_Itoa rID |>));;
    mret None
  else if bool_decide (linkType = "Location") then
    update p (add_link ((gozero : xlsxHyperlink) <| xlsxHyperlink_Ref := axis |> <| xlsxHyperlink_Location := link |>));;
    mret None
  else mret (Some (ErrInvalidLinkType linkType)).

(** ** Merged cells *)

(** The loop of [MergeCell] over the existing areas: [Some r] is a return. *)
Fixpoint merge_overlap (hcell vcell ref : string) (areas : list xlsxMergeCell) : option (option goerr) :=
  match areas with
  | [] => None
  | cellData :: rest =>
      match strings_Split (xlsxMergeCell_Ref cellData) ":" with
      | [cc0; cc1] =>
          let c1 := (checkCellInArea hcell (xlsxMergeCell_Ref cellData)).1 in
          let c2 := (checkCellInArea vcell (xlsxMergeCell_Ref cellData)).1 in
          let c3 := (checkCellInArea cc0 ref).1 in
          let c4 := (checkCellInArea cc1 ref).1 in
          if negb (negb c1 && negb c2 && negb c3 && negb c4) then Some None
          else merge_overlap hcell vcell ref rest
      | _ => Some (Some (ErrInvalidArea (xlsxMergeCell_Ref cellData)))
      end
  end.

(** The corners of the range in order, as [MergeCell] names them. *)
Definition merge_ref (hcol hrow vcol vrow : Z) : string * string :=
  (cell_name (Z.min hcol vcol) (Z.min hrow vrow), cell_name (Z.max hcol vcol) (Z.max hrow vrow)).

Definition MergeCell (sheet hcell vcell : string) : M (option goerr) :=
  let! (hcol, hrow) := mret (CellNameToCoordinates hcell) in
  let! (vcol, vrow) := mret (CellNameToCoordinates vcell) in
  if (hcol =? vcol) && (hrow =? vrow) then mret None
  else
    let '(hcol, vcol) := if vcol <? hcol then (vcol, hcol) else (hcol, vcol) in
    let '(hrow, vrow) := if vrow <? hrow then (vrow, hrow) else (hrow, vrow) in
    let hcell := (CoordinatesToCellName hcol hrow).1 in
    let vcell := (CoordinatesToCellName vcol vrow).1 in
    let! p := workSheetReader sheet in
    xlsx ← deref p;
    let ref := hcell +:+ ":" +:+ vcell in
    match xlsxWorksheet_MergeCells xlsx with
    | Some mc =>
        match merge_overlap hcell vcell ref (xlsxMergeCells_Cells mc) with
        | Some r => mret r
        | None =>
            assign p (xlsx <| xlsxWorksheet_MergeCells :=
              Some (mc <| xlsxMergeCells_Cells ::= fun l => l ++ [mk_xlsxMergeCell ref] |>) |>);;
            mret None
        end
    | None =>
        assign p (xlsx <| xlsxWorksheet_MergeCells :=
          Some ((gozero : xlsxMergeCells) <| xlsxMergeCells_Cells := [mk_xlsxMergeCell ref] |>) |>);;
        mret None
    end.

(** [GetMergeCells]: the reference and the value of each area; the error of the
    value is ignored. *)
Fixpoint merge_values (sheet : string) (areas : list xlsxMergeCell) : M (list (string * string)) :=
  match areas with
  | [] => mret []
  | area :: rest =>
      val ← GetCellValue sheet (ref_start (xlsxMergeCell_Ref area));
      l ← merge_values sheet rest;
      mret ((xlsxMergeCell_Ref area, val.1) :: l)
  end.

Definition GetMergeCells (sheet : string) : M (list (string * string) * option goerr) :=
  let! p := workSheetReader sheet orelse [] in
  xlsx ← deref p;
  l ← merge_values sheet (merge_areas xlsx);
  mret (ok l).

(** The accessors of a [MergeCell] value; the end of a reference without a colon
    is out of range. *)
Definition MergeCell_GetCellValue (m : string * string) : string := m.2.
Definition MergeCell_GetStartAxis (m : string * string) : string := ref_start m.1.
Definition MergeCell_GetEndAxis (m : string * string) : outcome string := list_get (strings_Split m.1 ":") 1.

End cell.

(** ** Lemmas on names and areas *)

Definition name_char (c : ascii) : bool := is_upper c || is_digit c.

Lemma cell_name_chars col row :
  1 <= col -> 1 <= row -> str_forallb name_char (cell_name col row) = true.
Proof.
  intros Hc Hr. destruct (CoordinatesToCellName_spec col row Hc Hr) as (name & -> & _ & _ & Hup & _).
  cbn. rewrite str_forallb_app. apply andb_true_iff. split.
  - eapply str_forallb_impl; [|exact Hup]. intros c E. unfold name_char. by rewrite E.
  - eapply str_forallb_impl; [|apply Itoa_digits; lia]. intros c E. unfold name_char. rewrite E. by rewrite orb_true_r.
Qed.

Lemma name_char_ascii c : name_char c = true -> is_ascii_byte c = true.
Proof. unfold name_char, is_upper, is_digit, byte_in, is_ascii_byte. lia. Qed.

Lemma name_char_upper c : name_char c = true -> upper_byte c = c.
Proof. unfold name_char, upper_byte, is_upper, is_digit, is_lower, byte_in. case_match; [lia|done]. Qed.

Lemma ToUpper_cell_name `{UnicodeTables} col row :
  1 <= col -> 1 <= row -> strings_ToUpper (cell_name col row) = cell_name col row.
Proof.
  intros Hc Hr. pose proof (cell_name_chars col row Hc Hr) as Hn. unfold strings_ToUpper.
  replace (str_forallb is_ascii_byte (cell_name col row)) with true.
  - eapply str_map_forallb_id; [|exact Hn]. apply name_char_upper.
  - symmetry. eapply str_forallb_impl; [|exact Hn]. apply name_char_ascii.
Qed.

Lemma strings_Split_none s sep : str_forallb (fun c => negb (Ascii.eqb c sep)) s = true -> strings_Split s sep = [s].
Proof.
  induction s as [|c s IH]; cbn; [done|]. rewrite andb_true_iff. intros [Hc Hs].
  apply negb_true_iff in Hc. rewrite Hc, IH by done. done.
Qed.

Lemma strings_Split_pair a b sep :
  str_forallb (fun c => negb (Ascii.eqb c sep)) a = true ->
  str_forallb (fun c => negb (Ascii.eqb c sep)) b = true ->
  strings_Split (a +:+ String sep b) sep = [a; b].
Proof.
  intros Ha Hb. induction a as [|c a IH]; cbn.
  - rewrite Ascii.eqb_refl. by rewrite strings_Split_none.
  - revert Ha. cbn. rewrite andb_true_iff. intros [Hc Ha]. apply negb_true_iff in Hc.
    by rewrite Hc, IH.
Qed.

(** The reference of a rectangle. *)
Definition area_ref (c1 r1 c2 r2 : Z) : string := cell_name c1 r1 +:+ ":" +:+ cell_name c2 r2.

Lemma name_char_colon c : name_char c = true -> negb (Ascii.eqb c ":") = true.
Proof. intros E. apply negb_true_iff, Ascii.eqb_neq. by intros ->. Qed.

Lemma area_ref_split c1 r1 c2 r2 :
  1 <= c1 -> 1 <= r1 -> 1 <= c2 -> 1 <= r2 ->
  strings_Split (area_ref c1 r1 c2 r2) ":" = [cell_name c1 r1; cell_name c2 r2].
Proof.
  intros. apply strings_Split_pair; (eapply str_forallb_impl; [apply name_char_colon|by apply cell_name_chars]).
Qed.

Lemma ref_start_area c1 r1 c2 r2 :
  1 <= c1 -> 1 <= r1 -> 1 <= c2 -> 1 <= r2 -> ref_start (area_ref c1 r1 c2 r2) = cell_name c1 r1.
Proof. intros. unfold ref_start. by rewrite area_ref_split. Qed.

Abbreviation coord n := (1 <= n <= maxInt) (only parsing).

Lemma checkCellInArea_rect cell col row c1 r1 c2 r2 :
  CellNameToCoordinates cell = ok (col, row) ->
  coord c1 -> coord r1 -> coord c2 -> coord r2 ->
  checkCellInArea cell (area_ref c1 r1 c2 r2) =
    ok ((c1 <=? col) && (col <=? c2) && (r1 <=? row) && (row <=? r2)).
Proof.
  intros E ????. unfold checkCellInArea. rewrite E, area_ref_split by lia.
  by rewrite !cell_name_coordinates.
Qed.

(** ** Lemmas on the cell of a prepared sheet *)

Lemma list_get_Some {A} (l : list A) i x : list_get l i = Ret x -> 0 <= i /\ l !! Z.to_nat i = Some x.
Proof. unfold list_get. case_match; [|done]. case_match; [|done]. intros [= ->]. split; [lia|done]. Qed.

Lemma cell_get_sheet_cell xlsx col row c :
  1 <= col -> 1 <= row -> sheet_cell xlsx col row = Some c -> cell_get xlsx col row = Ret c.
Proof.
  intros Hc Hr. unfold sheet_cell, cell_get. intros (r & Er & Ec)%bind_Some.
  rewrite (list_get_in _ _ r) by (done || lia). cbn. by apply list_get_in; [lia|].
Qed.

Lemma cell_set_ok xlsx col row c0 c :
  1 <= col -> 1 <= row -> sheet_cell xlsx col row = Some c0 ->
  exists xlsx', cell_set col row c xlsx = Ret xlsx' /\
    (forall c' r', 1 <= c' -> 1 <= r' -> sheet_cell xlsx' c' r' =
       if decide (c' = col /\ r' = row) then Some c else sheet_cell xlsx c' r') /\
    (wf_sheet xlsx -> xlsxC_R c = xlsxC_R c0 -> wf_sheet xlsx') /\
    xlsx' = set_rows (sheet_rows xlsx') xlsx /\ zlen (sheet_rows xlsx') = zlen (sheet_rows xlsx).
Proof.
  intros Hc Hr. unfold sheet_cell, cell_set. intros (r & Er & Ec)%bind_Some.
  pose proof (lookup_lt_Some _ _ _ Er) as Hlr. pose proof (lookup_lt_Some _ _ _ Ec) as Hlc.
  rewrite (list_get_in _ _ r) by (done || lia). cbn [mbind outcome_bind].
  rewrite list_set_in by (unfold zlen; lia). cbn [mbind outcome_bind]. rewrite list_set_in by (unfold zlen; lia).
  eexists. split; [done|]. split; [|split; [|split; [done|apply zlen_insert]]].
  - intros c' r' Hc' Hr'. change (sheet_rows (set_rows ?R xlsx)) with R.
    destruct (decide (r' = row)) as [->|Hne].
    + rewrite list_lookup_insert_eq by done. rewrite Er. cbn.
      destruct (decide (c' = col)) as [->|Hne'].
      * rewrite decide_True by done. by apply list_lookup_insert_eq.
      * rewrite decide_False by tauto. apply list_lookup_insert_ne. lia.
    + rewrite decide_False by tauto. by rewrite list_lookup_insert_ne by lia.
  - intros [Hwf Hlen] HR. split; [|by cbn; rewrite zlen_insert].
    apply wf_rows_insert; [done|]. destruct (Hwf _ _ Er) as (H1 & H2 & H3). split_and!; [done| |by cbn; rewrite zlen_insert].
    intros j x Hj. cbn in Hj. apply list_lookup_insert_Some in Hj as [(<- & <- & _)|[_ Hj]]; [|by apply H2].
    rewrite HR. by apply H2.
Qed.

Section cell_lemmas.
Context `{GoEnv}.

(** A cell name that the merged areas of a sheet move to a position. *)
Definition resolves (xlsx : xlsxWorksheet) (axis : string) (col row : Z) : Prop :=
  coord col /\ coord row /\
  exists cell, mergeCellsParser xlsx axis = ok cell /\ CellNameToCoordinates cell = ok (col, row).

Lemma prepareCell_ok f sheet path xlsx axis col row :
  loaded f sheet path xlsx -> resolves xlsx axis col row ->
  exists xlsx', prepareSheetXML xlsx col row = Ret xlsx' /\
    (exists c, sheet_cell xlsx' col row = Some c) /\
    prepareCell (Some path) axis f =
      Ret (ok (mk_cell_ptr (Some path) col row, col, row), with_sheet f path xlsx').
Proof.
  intros [Hm Hs] (Hc & Hr & cell & E1 & E2).
  destruct (prepareSheetXML_ok xlsx col row) as (rowData & Hd & E); [lia|].
  set (xlsx' := set_rows _ _) in E. exists xlsx'. split; [done|].
  pose proof (prepareSheetXML_cells xlsx col row xlsx' col row ltac:(lia) ltac:(lia) ltac:(lia) E) as Hcell.
  assert (exists c, sheet_cell xlsx' col row = Some c) as [c Hc'].
  { rewrite Hcell. destruct (sheet_cell xlsx col row); [by eexists|]. rewrite decide_True by lia. by eexists. }
  split; [by eexists|]. unfold prepareCell.
  rewrite (bind_Ret _ _ _ _ _ (deref_loaded _ _ _ Hs)), E1.
  unfold mbind, gom_bind, mret, gom_ret. cbn [fst snd]. rewrite E2.
  unfold update_o, mbind, gom_bind. rewrite (deref_loaded _ _ _ Hs). unfold lift at 1. rewrite E.
  rewrite assign_sheet. rewrite (deref_loaded (with_sheet f path xlsx') path xlsx') by (cbn; apply lookup_insert_eq).
  unfold lift. rewrite (cell_get_sheet_cell _ _ _ c) by (done || lia). done.
Qed.

(** What a setter does on a loaded sheet: the sheet is extended to the position
    and the one cell replaced. *)
Lemma set_cell_ok f sheet path xlsx axis col row g :
  loaded f sheet path xlsx -> resolves xlsx axis col row ->
  exists xlsx1 c xlsx2,
    prepareSheetXML xlsx col row = Ret xlsx1 /\ sheet_cell xlsx1 col row = Some c /\
    set_cell sheet axis g f = Ret (None, with_sheet f path xlsx2) /\
    cell_set col row (g (c <| xlsxC_S := prepareCellStyle xlsx col (xlsxC_S c) |>)) xlsx1 = Ret xlsx2.
Proof.
  intros Hl Hres. pose proof Hl as [Hm Hs]. pose proof Hres as (Hc & Hr & _).
  destruct (prepareCell_ok _ _ _ _ _ _ _ Hl Hres) as (xlsx1 & E1 & (c & Ec) & E2).
  assert (prepareCellStyle xlsx1 col (xlsxC_S c) = prepareCellStyle xlsx col (xlsxC_S c)) as Hst.
  { destruct (prepareSheetXML_ok xlsx col row) as (rd & _ & E); [lia|]. rewrite E in E1.
    by injection E1 as <-. }
  destruct (cell_set_ok xlsx1 col row c (g (c <| xlsxC_S := prepareCellStyle xlsx col (xlsxC_S c) |>)))
    as (xlsx2 & E3 & _); [lia..|done|].
  exists xlsx1, c, xlsx2. split_and!; try done. unfold set_cell.
  rewrite (bind_Ret _ _ _ _ _ (workSheetReader_loaded _ _ _ _ Hl)). cbn [fst snd].
  rewrite (bind_Ret _ _ _ _ _ E2). cbn [fst snd].
  assert (File_Sheet (with_sheet f path xlsx1) !! path = Some xlsx1) as Hp by (cbn; apply lookup_insert_eq).
  unfold load_cell, store_cell, update_o, mbind, gom_bind. cbn [cell_sheet cell_col cell_row].
  rewrite !(deref_loaded _ _ _ Hp). unfold lift at 1. rewrite (cell_get_sheet_cell _ _ _ c) by (done || lia).
  rewrite !(deref_loaded _ _ _ Hp), Hst. unfold lift. rewrite E3, assign_sheet, with_sheet_twice. done.
Qed.

(** *** Reading *)

Lemma get_in_cells_skip axis C k fn f :
  Forall (fun c => xlsxC_R c <> axis) C -> get_in_cells axis (C ++ k) fn f = get_in_cells axis k fn f.
Proof.
  induction 1 as [|c C Hc HC IH]; [done|]. cbn. rewrite bool_decide_eq_false_2 by congruence. exact IH.
Qed.

Lemma get_in_rows_skip axis row Row k fn f :
  Forall (fun r => xlsxRow_R r <> row) Row -> get_in_rows axis row (Row ++ k) fn f = get_in_rows axis row k fn f.
Proof.
  induction 1 as [|r Row Hr HR IH]; [done|]. cbn. replace (xlsxRow_R r =? row) with false by lia. exact IH.
Qed.

(** What a reader of one cell contributes. *)
Definition read_result (r : (string * bool) * option goerr) : option (string * option goerr) :=
  match r with
  | (_, Some err) => Some ("", Some err)
  | ((val, true), None) => Some (val, None)
  | ((_, false), None) => None
  end.

Lemma split_at {A} (l : list A) i x :
  l !! i = Some x -> l = take i l ++ x :: drop (S i) l.
Proof. intros E. by rewrite take_drop_middle. Qed.

Lemma Forall_other {A} (l : list A) (P : A -> Prop) (i : nat) :
  (forall j y, l !! j = Some y -> j <> i -> P y) -> Forall P (take i l) /\ Forall P (drop (S i) l).
Proof.
  intros H0. split; apply Forall_lookup; intros j y.
  - intros [Hy Hj]%lookup_take_Some. eapply H0; [done|lia].
  - rewrite lookup_drop. intros Hj. eapply H0; [done|lia].
Qed.

(** In a dense sheet exactly one cell has the name of a position. *)
Lemma get_in_rows_dense xlsx col row fn f :
  wf_sheet xlsx -> coord col -> coord row ->
  get_in_rows (cell_name col row) row (sheet_rows xlsx) fn f =
    match sheet_cell xlsx col row with
    | Some c => (r ← fn c; mret (read_result r)) f
    | None => Ret (None, f)
    end.
Proof.
  intros [Hwf Hlen] Hc Hr. unfold sheet_cell.
  assert (forall j r, sheet_rows xlsx !! j = Some r -> j <> Z.to_nat (row - 1) -> xlsxRow_R r <> row) as Hother.
  { intros j r Hj Hne. destruct (Hwf _ _ Hj) as (-> & _). lia. }
  destruct (sheet_rows xlsx !! Z.to_nat (row - 1)) as [r|] eqn:Er; cbn [mbind option_bind].
  2:{ rewrite <- (app_nil_r (sheet_rows xlsx)), get_in_rows_skip; [done|].
      apply Forall_lookup. intros j r Hj. eapply Hother; [done|]. intros ->. congruence. }
  destruct (Forall_other _ _ _ Hother) as [Hbefore Hafter].
  rewrite (split_at _ _ _ Er), get_in_rows_skip by done. cbn [get_in_rows].
  destruct (Hwf _ _ Er) as (HR & HC & Hl). rewrite index_succ in HR, HC by lia.
  rewrite HR, Z.eqb_refl. cbn [negb].
  assert (forall j c, xlsxRow_C r !! j = Some c -> j <> Z.to_nat (col - 1) -> xlsxC_R c <> cell_name col row) as Hcother.
  { intros j c Hj Hne. rewrite (HC _ _ Hj). intros E. apply lookup_lt_Some in Hj as Hjl. unfold zlen in Hl.
    apply cell_name_inj in E; lia. }
  assert (forall f', get_in_rows (cell_name col row) row (drop (S (Z.to_nat (row - 1))) (sheet_rows xlsx)) fn f' = Ret (None, f')) as Hrest.
  { intros f'. rewrite <- (app_nil_r (drop _ _)), get_in_rows_skip by done. done. }
  destruct (xlsxRow_C r !! Z.to_nat (col - 1)) as [c|] eqn:Ec; cbn [mbind option_bind].
  2:{ assert (forall f', get_in_cells (cell_name col row) (xlsxRow_C r) fn f' = Ret (None, f')) as Hnone.
      { intros f'. rewrite <- (app_nil_r (xlsxRow_C r)), get_in_cells_skip; [done|].
        apply Forall_lookup. intros j c Hj. eapply Hcother; [done|]. intros ->. congruence. }
      rewrite (bind_Ret _ _ _ _ _ (Hnone f)). apply Hrest. }
  destruct (Forall_other _ _ _ Hcother) as [Hcb Hca].
  assert (forall f', get_in_cells (cell_name col row) (drop (S (Z.to_nat (col - 1))) (xlsxRow_C r)) fn f' = Ret (None, f')) as Hcrest.
  { intros f'. rewrite <- (app_nil_r (drop _ _)), get_in_cells_skip by done. done. }
  rewrite (split_at _ _ _ Ec). unfold mbind, gom_bind. rewrite get_in_cells_skip by done. cbn [get_in_cells].
  rewrite bool_decide_eq_true_2 by (rewrite (HC _ _ Ec), index_succ by lia; done). cbn [negb].
  unfold mbind, gom_bind. destruct (fn c f) as [[res f']|]; [|done].
  unfold mret, gom_ret. destruct res as [[v []] [e|]]; cbn; try done. by rewrite Hcrest, Hrest.
Qed.

(** The value of a loaded sheet at a canonical name. *)
Lemma getCellStringFunc_dense f sheet path xlsx axis col row fn :
  loaded f sheet path xlsx -> wf_sheet xlsx -> coord col -> coord row ->
  mergeCellsParser xlsx axis = ok (cell_name col row) ->
  getCellStringFunc sheet axis fn f =
    match sheet_cell xlsx col row with
    | Some c => (r ← fn xlsx c; mret (match read_result r with Some res => res | None => ok "" end)) f
    | None => Ret (ok "", f)
    end.
Proof.
  intros Hl Hwf Hc Hr Hm. pose proof Hl as [_ Hs]. unfold getCellStringFunc.
  rewrite (bind_Ret _ _ _ _ _ (workSheetReader_loaded _ _ _ _ Hl)). cbn [fst snd].
  rewrite (bind_Ret _ _ _ _ _ (deref_loaded _ _ _ Hs)), Hm.
  unfold mbind, gom_bind, mret, gom_ret. cbn [fst snd]. rewrite cell_name_coordinates by done.
  case_match eqn:Hlast.
  - assert (sheet_cell xlsx col row = None) as ->; [|done].
    unfold sheet_cell. rewrite lookup_ge_None_2; [done|].
    destruct (last (sheet_rows xlsx)) as [r|] eqn:El.
    + rewrite last_lookup in El. destruct (proj1 Hwf _ _ El) as (HR & _). apply lookup_lt_Some in El. lia.
    + apply last_None in El as ->. cbn. lia.
  - rewrite get_in_rows_dense by done. unfold mbind, gom_bind, mret, gom_ret.
    destruct (sheet_cell xlsx col row) as [c|]; [|done].
    by destruct (fn xlsx c f) as [[]|].
Qed.

(** *** The value of a cell does not depend on the grids *)

Definition frame (f f' : File) : Prop := exists sheets, f' = f <| File_Sheet := sheets |>.

Lemma frame_with_sheet f path xlsx : frame f (with_sheet f path xlsx).
Proof. by exists (<[path := xlsx]> (File_Sheet f)). Qed.

(** A computation that leaves the worksheets alone and does not look at them. *)
Definition sheet_free {A} (m : M A) : Prop :=
  forall f sheets, m (f <| File_Sheet := sheets |>) =
    match m f with Ret (a, f1) => Ret (a, f1 <| File_Sheet := sheets |>) | Panic => Panic end.

Lemma sheet_free_ret {A} (a : A) : sheet_free (mret a).
Proof. done. Qed.

Lemma sheet_free_bind {A B} (m : M A) (k : A -> M B) :
  sheet_free m -> (forall a, sheet_free (k a)) -> sheet_free (m ≫= k).
Proof.
  intros Hm Hk f sheets. unfold mbind, gom_bind. rewrite Hm. destruct (m f) as [[a f1]|]; [apply Hk|done].
Qed.

Lemma sheet_free_lift {A} (o : outcome A) : sheet_free (lift o).
Proof. intros f sheets. unfold lift. by destruct o. Qed.

Lemma sheet_free_cached {A} `{XmlCodec A} (g : File -> option A) set_ (path : M string) :
  (forall f sheets, g (f <| File_Sheet := sheets |>) = g f) ->
  (forall c f sheets, set_ c (f <| File_Sheet := sheets |>) = (set_ c f) <| File_Sheet := sheets |>) ->
  sheet_free path -> sheet_free (cached_reader g set_ path).
Proof.
  intros Hg Hset Hp f sheets. unfold cached_reader, mbind, gom_bind, get. cbn [fst snd]. rewrite Hg.
  destruct (g f) as [c|]; [done|]. rewrite Hp. destruct (path f) as [[content f1]|]; [|done].
  unfold modify, mret, gom_ret. by rewrite Hset.
Qed.

Lemma sheet_free_readXML name : sheet_free (readXML name).
Proof. intros f sheets. by destruct f. Qed.

Lemma sheet_free_sharedStringsReader : sheet_free sharedStringsReader.
Proof.
  apply sheet_free_cached; [by intros []..|]. apply sheet_free_bind; [apply sheet_free_readXML|].
  intros ss. case_match; [apply sheet_free_readXML|done].
Qed.

Lemma sheet_free_stylesReader : sheet_free stylesReader.
Proof. apply sheet_free_cached; [by intros []..|]. apply sheet_free_readXML. Qed.

Lemma sheet_free_formattedValue s v : sheet_free (formattedValue s v).
Proof.
  unfold formattedValue. case_match; [done|]. apply sheet_free_bind; [apply sheet_free_stylesReader|].
  intros st. case_match; [|done]. apply sheet_free_bind; [apply sheet_free_lift|]. done.
Qed.

Lemma sheet_free_getValueFrom c d : sheet_free (getValueFrom c d).
Proof.
  unfold getValueFrom. repeat case_match; try done;
    repeat (apply sheet_free_bind; intros; try apply sheet_free_lift; try apply sheet_free_formattedValue;
            repeat case_match); try done;
    apply sheet_free_bind; intros; (apply sheet_free_formattedValue || done).
Qed.

(** [GetCellValue] as a function of the cell. *)
Definition cell_value (c : xlsxC) : M (string * option goerr) :=
  d ← sharedStringsReader; r ← getValueFrom c d;
  mret (match r with (_, Some err) => err_with "" err | (v, None) => ok v end).

Lemma sheet_free_cell_value c : sheet_free (cell_value c).
Proof.
  apply sheet_free_bind; [apply sheet_free_sharedStringsReader|]. intros d.
  apply sheet_free_bind; [apply sheet_free_getValueFrom|]. done.
Qed.

Lemma GetCellValue_dense f sheet path xlsx axis col row :
  loaded f sheet path xlsx -> wf_sheet xlsx -> coord col -> coord row ->
  mergeCellsParser xlsx axis = ok (cell_name col row) ->
  GetCellValue sheet axis f =
    match sheet_cell xlsx col row with Some c => cell_value c f | None => Ret (ok "", f) end.
Proof.
  intros Hl Hwf Hc Hr Hm. unfold GetCellValue. rewrite (getCellStringFunc_dense _ _ _ _ _ _ _ _ Hl Hwf Hc Hr Hm).
  destruct (sheet_cell xlsx col row) as [c|]; [|done]. unfold cell_value, mbind, gom_bind, mret, gom_ret.
  destruct (sharedStringsReader f) as [[d f1]|]; [|done]. destruct (getValueFrom c d f1) as [[[v [e|]] f2]|]; done.
Qed.

End cell_lemmas.

(** ** Writing and reading back *)

Section cell_properties.
Context `{GoEnv}.

Lemma sharedStringsReader_total f : exists d f', sharedStringsReader f = Ret (d, f').
Proof.
  unfold sharedStringsReader, cached_reader, mbind, gom_bind, get. cbn [fst snd].
  destruct (File_SharedStrings f); [by eexists _, _|]. unfold readXML, gets, mret, gom_ret, modify.
  match goal with |- context [if ?b then _ else _] => destruct b end; eexists _, _; reflexivity.
Qed.

Lemma loaded_with_sheet f sheet path xlsx xlsx' : loaded f sheet path xlsx -> loaded (with_sheet f path xlsx') sheet path xlsx'.
Proof. apply with_sheet_loaded. Qed.

(** The areas of a sheet do not depend on its grid. *)
Lemma mergeCellsParser_set_rows Row xlsx axis : mergeCellsParser (set_rows Row xlsx) axis = mergeCellsParser xlsx axis.
Proof. done. Qed.

Lemma prepareSheetXML_set_rows xlsx col row xlsx' :
  1 <= row -> prepareSheetXML xlsx col row = Ret xlsx' -> xlsx' = set_rows (sheet_rows xlsx') xlsx.
Proof. intros Hr. destruct (prepareSheetXML_ok xlsx col row Hr) as (? & _ & ->). by intros [= <-]. Qed.

(** The sheet [y] is [x] with the cell of one position replaced by [h] of it: the
    sheet stays dense, and every other position keeps its cell or becomes
    blank. *)
Definition edited (x y : xlsxWorksheet) (col row : Z) (h : xlsxC -> xlsxC) : Prop :=
  wf_sheet y /\ (forall a, mergeCellsParser y a = mergeCellsParser x a) /\
  sheet_cell y col row = Some (h (default (freshCell (cell_name col row)) (sheet_cell x col row))) /\
  (forall c r, coord c -> coord r -> ~ (c = col /\ r = row) ->
     sheet_cell y c r = sheet_cell x c r \/
     sheet_cell x c r = None /\ sheet_cell y c r = Some (freshCell (cell_name c r)) /\ r = row /\ c <= col) /\
  y = set_rows (sheet_rows y) x /\ zlen (sheet_rows y) = Z.max (zlen (sheet_rows x)) row /\ same_props x y.

(** A cell is stored in a row that is there. *)
Lemma cell_set_props col row c x y : cell_set col row c x = Ret y -> same_props x y.
Proof.
  unfold cell_set. destruct (list_get (sheet_rows x) (row - 1)) as [r|] eqn:Er; cbn; [|done]. apply list_get_Some in Er as [Hr Er].
  destruct (list_set (xlsxRow_C r) (col - 1) c) as [C|]; cbn; [|done]. apply lookup_lt_Some in Er as Hlt.
  rewrite list_set_in by (unfold zlen; lia). intros [= <-].
  by apply (same_props_insert _ _ (Z.to_nat (row - 1)) r (r <| xlsxRow_C := C |>)).
Qed.

Lemma cell_set_edited xlsx xlsx1 c xlsx2 col row h :
  wf_sheet xlsx -> coord col -> coord row -> (forall c, xlsxC_R (h c) = xlsxC_R c) ->
  prepareSheetXML xlsx col row = Ret xlsx1 -> sheet_cell xlsx1 col row = Some c -> cell_set col row (h c) xlsx1 = Ret xlsx2 ->
  edited xlsx xlsx2 col row h.
Proof.
  intros Hwf Hc Hr Hh E1 Ec E3.
  destruct (cell_set_ok xlsx1 col row c (h c)) as (x & E4 & Hcells & Hwf2 & Hrows & Hlen2); [lia..|done|].
  rewrite E3 in E4. injection E4 as <-.
  pose proof (prepareSheetXML_wf _ _ _ _ Hwf Hr (proj2 Hc) E1) as Hwf1.
  pose proof (prepareSheetXML_set_rows _ _ _ _ (proj1 Hr) E1) as Hrows1.
  assert (forall c r, coord c -> coord r -> sheet_cell xlsx1 c r = match sheet_cell xlsx c r with
    | Some x => Some x | None => if decide (r = row /\ c <= col) then Some (freshCell (cell_name c r)) else None end) as H1.
  { intros c' r' Hc' Hr'. exact (prepareSheetXML_cells _ _ _ _ c' r' (proj1 Hr) (proj1 Hc') (proj1 Hr') E1). }
  split_and!; [apply Hwf2; [done|by rewrite Hh]|..].
  - intros a. rewrite Hrows, Hrows1. done.
  - rewrite Hcells, decide_True by (done || lia). f_equal. f_equal.
    specialize (H1 col row Hc Hr). rewrite Ec in H1. destruct (sheet_cell xlsx col row); cbn.
    + by injection H1 as ->.
    + rewrite decide_True in H1 by lia. by injection H1 as ->.
  - intros c' r' Hc' Hr' Hne. rewrite Hcells, decide_False by (done || lia). rewrite H1 by done.
    destruct (sheet_cell xlsx c' r'); [by left|]. case_decide; [right|left]; done.
  - by rewrite Hrows, Hrows1.
  - rewrite Hlen2. destruct (prepareSheetXML_ok xlsx col row (proj1 Hr)) as (rd & _ & E). rewrite E in E1.
    injection E1 as <-. change (sheet_rows (set_rows ?R xlsx)) with R. by rewrite zlen_insert, with_rows_len.
  - etrans; [by apply (prepareSheetXML_props _ col row); [apply Hr|]|by eapply cell_set_props].
Qed.

(** A setter that keeps the name of the cell. *)
Lemma set_cell_spec f sheet path xlsx axis col row g :
  loaded f sheet path xlsx -> wf_sheet xlsx -> resolves xlsx axis col row ->
  (forall c, xlsxC_R (g c) = xlsxC_R c) ->
  exists xlsx2, set_cell sheet axis g f = Ret (None, with_sheet f path xlsx2) /\
    edited xlsx xlsx2 col row (fun c => g (c <| xlsxC_S := prepareCellStyle xlsx col (xlsxC_S c) |>)).
Proof.
  intros Hl Hwf Hres Hg. pose proof Hres as (Hc & Hr & _).
  destruct (set_cell_ok _ _ _ _ _ _ _ g Hl Hres) as (xlsx1 & c & xlsx2 & E1 & Ec & E2 & E3).
  exists xlsx2. split; [done|]. apply (cell_set_edited xlsx xlsx1 c); try done. intros d. by rewrite Hg.
Qed.

(** A formula that is not empty, set on a cell. *)
Definition with_formula (formula : string) (c : xlsxC) : xlsxC :=
  c <| xlsxC_F := Some
    (match xlsxC_F c with
     | Some f => f <| xlsxF_Content := formula |>
     | None => (gozero : xlsxF) <| xlsxF_Content := formula |>
     end) |>.

Lemma SetCellFormula_spec f sheet path xlsx axis col row formula :
  loaded f sheet path xlsx -> wf_sheet xlsx -> resolves xlsx axis col row -> formula <> "" ->
  exists xlsx2, SetCellFormula sheet axis formula f = Ret (None, with_sheet f path xlsx2) /\
    edited xlsx xlsx2 col row (with_formula formula).
Proof.
  intros Hl Hwf Hres Hf. pose proof Hres as (Hc & Hr & _).
  destruct (prepareCell_ok _ _ _ _ _ _ _ Hl Hres) as (xlsx1 & E1 & (c & Ec) & E2).
  destruct (cell_set_ok xlsx1 col row c (with_formula formula c)) as (xlsx2 & E3 & _); [lia..|done|].
  exists xlsx2. split; [|by apply (cell_set_edited xlsx xlsx1 c)]. unfold SetCellFormula.
  rewrite (bind_Ret _ _ _ _ _ (workSheetReader_loaded _ _ _ _ Hl)). cbn [fst snd].
  rewrite (bind_Ret _ _ _ _ _ E2). cbn [fst snd]. rewrite bool_decide_eq_false_2 by done.
  assert (File_Sheet (with_sheet f path xlsx1) !! path = Some xlsx1) as Hp by (cbn; apply lookup_insert_eq).
  unfold load_cell, store_cell, update_o, mbind, gom_bind. cbn [cell_sheet cell_col cell_row].
  rewrite !(deref_loaded _ _ _ Hp). unfold lift at 1. rewrite (cell_get_sheet_cell _ _ _ c) by (done || lia).
  rewrite !(deref_loaded _ _ _ Hp). unfold lift. fold (with_formula formula c). rewrite E3, assign_sheet, with_sheet_twice. done.
Qed.

(** The five setters of plain values. *)
Inductive cell_write : Type :=
| WriteInt (value : Z)
| WriteBool (value : bool)
| WriteFloat (value : float64) (prec : Z)
| WriteStr (value : string)
| WriteDefault (value : string).

Definition write_op (w : cell_write) (sheet axis : string) : M (option goerr) :=
  match w with
  | WriteInt v => SetCellInt sheet axis v
  | WriteBool b => SetCellBool sheet axis b
  | WriteFloat v prec => SetCellFloat sheet axis v prec 64
  | WriteStr s => SetCellStr sheet axis s
  | WriteDefault s => SetCellDefault sheet axis s
  end.

(** The text each one stores. *)
Definition written_text (w : cell_write) : string :=
  match w with
  | WriteInt v => strconv_Itoa v
  | WriteBool b => if b then "1" else "0"
  | WriteFloat v prec => if prec <? 0 then format_shortest f64_prec f64_emax v else format_fixed v prec
  | WriteStr s => if 32767 <? len s then str_take (Z.to_nat 32767) s else s
  | WriteDefault s => s
  end.

(** What a setter makes of the content of a cell. *)
Definition write_content (w : cell_write) (c : xlsxC) : xlsxC :=
  match w with
  | WriteInt v => c <| xlsxC_T := "" |> <| xlsxC_V := strconv_Itoa v |>
  | WriteBool b => c <| xlsxC_T := "b" |> <| xlsxC_V := if b then "1" else "0" |>
  | WriteFloat _ _ | WriteDefault _ => c <| xlsxC_T := "" |> <| xlsxC_V := written_text w |>
  | WriteStr _ =>
      (if starts_with_space (written_text w) then c <| xlsxC_XMLSpace := NameSpaceXML_space |> else c)
        <| xlsxC_T := "str" |> <| xlsxC_V := written_text w |>
  end.

Lemma write_op_content w sheet axis : write_op w sheet axis = set_cell sheet axis (write_content w).
Proof. by destruct w. Qed.

Lemma write_op_set_cell w sheet axis :
  exists g t, write_op w sheet axis = set_cell sheet axis g /\ t ∈ [""; "b"; "str"] /\
    forall c, xlsxC_R (g c) = xlsxC_R c /\ xlsxC_T (g c) = t /\ xlsxC_V (g c) = written_text w /\
      xlsxC_S (g c) = xlsxC_S c.
Proof.
  destruct w as [v|b|v prec|s|s]; cbn [write_op written_text].
  - exists (fun c => c <| xlsxC_T := "" |> <| xlsxC_V := strconv_Itoa v |>), "". split_and!; [done|set_solver|done].
  - exists (fun c => c <| xlsxC_T := "b" |> <| xlsxC_V := if b then "1" else "0" |>), "b".
    split_and!; [done|set_solver|done].
  - eexists _, "". unfold SetCellFloat, strconv_FormatFloat_f. cbn [Z.eqb Pos.eqb].
    split_and!; [reflexivity|set_solver|done].
  - eexists _, "str". split_and!; [reflexivity|set_solver|]. intros c. cbn. by repeat case_match.
  - exists (fun c => c <| xlsxC_T := "" |> <| xlsxC_V := s |>), "". split_and!; [done|set_solver|done].
Qed.

Lemma getValueFrom_text c d t :
  t ∈ [""; "b"; "str"] -> xlsxC_T c = t ->
  getValueFrom c d = (v ← formattedValue (xlsxC_S c) (xlsxC_V c); mret (ok v)).
Proof.
  intros Ht E. unfold getValueFrom. rewrite E.
  repeat (apply elem_of_cons in Ht as [->|Ht]; [done|]). by apply elem_of_nil in Ht.
Qed.

(** A setter that stores a text with the type of a number, a boolean or a string. *)
Definition stores (g : xlsxC -> xlsxC) (text : string) : Prop :=
  exists t, t ∈ [""; "b"; "str"] /\
    forall c, xlsxC_R (g c) = xlsxC_R c /\ xlsxC_T (g c) = t /\ xlsxC_V (g c) = text /\ xlsxC_S (g c) = xlsxC_S c.

(** What is stored is read back. *)
Lemma set_cell_read f sheet path xlsx axis col row g text :
  loaded f sheet path xlsx -> wf_sheet xlsx -> coord col -> coord row ->
  mergeCellsParser xlsx axis = ok (cell_name col row) -> stores g text ->
  exists xlsx' c,
    set_cell sheet axis g f = Ret (None, with_sheet f path xlsx') /\ wf_sheet xlsx' /\
    sheet_cell xlsx' col row = Some c /\
    GetCellValue sheet axis (with_sheet f path xlsx') =
      (sharedStringsReader;; v ← formattedValue (xlsxC_S c) text; mret (ok v)) (with_sheet f path xlsx') /\
    (xlsxWorksheet_Cols xlsx = None -> from_option xlsxC_S 0 (sheet_cell xlsx col row) = 0 ->
       exists f', GetCellValue sheet axis (with_sheet f path xlsx') = Ret (ok text, f')).
Proof.
  intros Hl Hwf Hc Hr Hm (t & Ht & Hg). assert (resolves xlsx axis col row) as Hres.
  { split_and!; try lia. eexists. split; [exact Hm|by apply cell_name_coordinates]. }
  destruct (set_cell_spec f sheet path xlsx axis col row g Hl Hwf Hres ltac:(intros c; apply Hg))
    as (xlsx2 & E & Hwf2 & Hm2 & Hcell & _).
  cbn in Hcell. set (c0 := default _ _) in Hcell.
  set (c := g _) in Hcell. exists xlsx2, c. destruct (Hg (c0 <| xlsxC_S := prepareCellStyle xlsx col (xlsxC_S c0) |>)) as (_ & HT & HV & HS).
  fold c in HT, HV, HS.
  pose proof (GetCellValue_dense _ sheet path xlsx2 axis col row (loaded_with_sheet _ _ _ _ _ Hl) Hwf2 Hc Hr
    ltac:(by rewrite Hm2)) as Hget.
  rewrite Hcell in Hget.
  assert (cell_value c (with_sheet f path xlsx2) = (sharedStringsReader;; v ← formattedValue (xlsxC_S c) text; mret (ok v)) (with_sheet f path xlsx2)) as Hv.
  { unfold cell_value, mbind, gom_bind. destruct (sharedStringsReader _) as [[d f1]|]; [|done].
    rewrite (getValueFrom_text c d t Ht HT), HV. unfold mbind, gom_bind, mret, gom_ret.
    by destruct (formattedValue _ _ f1) as [[]|]. }
  split_and!; [done|done|done|by rewrite Hget|].
  intros Hcols H0. rewrite Hget, Hv.
  assert (xlsxC_S c = 0) as HS0.
  { rewrite HS. cbn. unfold prepareCellStyle. rewrite Hcols. subst c0. by destruct (sheet_cell xlsx col row). }
  destruct (sharedStringsReader_total (with_sheet f path xlsx2)) as (d & f1 & Es).
  exists f1. rewrite (bind_Ret _ _ _ _ _ Es), HS0. done.
Qed.

(** What another position shows does not change. *)
Lemma set_cell_other f sheet path xlsx axis col row g text axis' col' row' v f1 :
  loaded f sheet path xlsx -> wf_sheet xlsx -> resolves xlsx axis col row -> stores g text ->
  coord col' -> coord row' -> ~ (col' = col /\ row' = row) ->
  mergeCellsParser xlsx axis' = ok (cell_name col' row') ->
  GetCellValue sheet axis' f = Ret (v, f1) ->
  exists f' f2, set_cell sheet axis g f = Ret (None, f') /\ GetCellValue sheet axis' f' = Ret (v, f2).
Proof.
  intros Hl Hwf Hres (t & Ht & Hg) Hc Hr Hne Hm Hget.
  destruct (set_cell_spec f sheet path xlsx axis col row g Hl Hwf Hres ltac:(intros c; apply Hg))
    as (xlsx2 & E & Hwf2 & Hm2 & _ & Hother & _).
  exists (with_sheet f path xlsx2). rewrite (GetCellValue_dense _ _ _ _ _ _ _ Hl Hwf Hc Hr Hm) in Hget.
  pose proof (GetCellValue_dense _ sheet path xlsx2 axis' col' row' (loaded_with_sheet _ _ _ _ _ Hl) Hwf2 Hc Hr
    ltac:(by rewrite Hm2)) as Hget2.
  destruct (Hother col' row' Hc Hr Hne) as [Heq|(Hnone & Hfresh & _)].
  - rewrite Heq in Hget2. destruct (sheet_cell xlsx col' row') as [c|].
    + pose proof (sheet_free_cell_value c f (<[path := xlsx2]> (File_Sheet f))) as Hfree. rewrite Hget in Hfree.
      eexists. split; [done|]. rewrite Hget2. exact Hfree.
    + injection Hget as <- <-. eexists. split; [done|exact Hget2].
  - rewrite Hnone in Hget. injection Hget as <- <-. rewrite Hfresh in Hget2.
    destruct (sharedStringsReader_total (with_sheet f path xlsx2)) as (d & f2 & Es).
    exists f2. split; [done|]. rewrite Hget2. unfold cell_value. rewrite (bind_Ret _ _ _ _ _ Es). done.
Qed.

Lemma write_op_stores w sheet axis : exists g, write_op w sheet axis = set_cell sheet axis g /\ stores g (written_text w).
Proof. destruct (write_op_set_cell w sheet axis) as (g & t & E & Ht & Hg). exists g. split; [done|]. by exists t. Qed.

(** Writing a value and reading it back. On a sheet in memory, for every name
    that designates a position in canonical form, each setter succeeds and keeps
    the sheet dense, and [GetCellValue] then returns the stored text through the
    number format of the cell's style: the text itself for a cell without style
    in a sheet without column styles. *)
Theorem SetCell_GetCellValue f sheet path xlsx axis col row w :
  loaded f sheet path xlsx -> wf_sheet xlsx -> coord col -> coord row ->
  mergeCellsParser xlsx axis = ok (cell_name col row) ->
  exists xlsx' c,
    write_op w sheet axis f = Ret (None, with_sheet f path xlsx') /\ wf_sheet xlsx' /\
    sheet_cell xlsx' col row = Some c /\
    GetCellValue sheet axis (with_sheet f path xlsx') =
      (sharedStringsReader;; v ← formattedValue (xlsxC_S c) (written_text w); mret (ok v)) (with_sheet f path xlsx') /\
    (xlsxWorksheet_Cols xlsx = None -> from_option xlsxC_S 0 (sheet_cell xlsx col row) = 0 ->
       exists f', GetCellValue sheet axis (with_sheet f path xlsx') = Ret (ok (written_text w), f')).
Proof.
  intros. destruct (write_op_stores w sheet axis) as (g & -> & Hg). by apply set_cell_read.
Qed.

(** C5. A setter changes no other value: whatever [GetCellValue] returned for
    another position of the sheet, it returns afterwards. *)
Theorem SetCell_frame f sheet path xlsx axis col row w axis' col' row' v f1 :
  loaded f sheet path xlsx -> wf_sheet xlsx -> resolves xlsx axis col row ->
  coord col' -> coord row' -> ~ (col' = col /\ row' = row) ->
  mergeCellsParser xlsx axis' = ok (cell_name col' row') ->
  GetCellValue sheet axis' f = Ret (v, f1) ->
  exists f' f2, write_op w sheet axis f = Ret (None, f') /\ GetCellValue sheet axis' f' = Ret (v, f2).
Proof.
  intros Hl Hwf Hres Hc Hr Hne Hm Hget. destruct (write_op_stores w sheet axis) as (g & -> & Hg).
  exact (set_cell_other f sheet path xlsx axis col row g _ _ _ _ _ _ Hl Hwf Hres Hg Hc Hr Hne Hm Hget).
Qed.

(** A name that is accepted but is not the canonical one, such as [A01] or
    [B+7], is written to its position and reads back as the empty string: the
    reader compares names as text. *)
Theorem GetCellValue_noncanonical f sheet path xlsx axis cell col row w :
  loaded f sheet path xlsx -> wf_sheet xlsx -> coord col -> coord row ->
  mergeCellsParser xlsx axis = ok cell -> CellNameToCoordinates cell = ok (col, row) ->
  cell <> cell_name col row ->
  exists xlsx', write_op w sheet axis f = Ret (None, with_sheet f path xlsx') /\
    (exists c, sheet_cell xlsx' col row = Some c /\ xlsxC_V c = written_text w) /\
    GetCellValue sheet axis (with_sheet f path xlsx') = Ret (ok "", with_sheet f path xlsx').
Proof.
  intros Hl Hwf Hc Hr Hm Hcell Hne.
  assert (resolves xlsx axis col row) as Hres by (split_and!; try lia; by eexists).
  destruct (write_op_set_cell w sheet axis) as (g & t & -> & Ht & Hg).
  destruct (set_cell_spec f sheet path xlsx axis col row g Hl Hwf Hres ltac:(intros c; apply Hg))
    as (xlsx2 & E & Hwf2 & Hm2 & Hset & _).
  cbn in Hset. exists xlsx2. split_and!; [done|eexists; split; [exact Hset|apply Hg]|].
  unfold GetCellValue, getCellStringFunc.
  rewrite (bind_Ret _ _ _ _ _ (workSheetReader_loaded _ _ _ _ (loaded_with_sheet _ _ _ _ _ Hl))). cbn [fst snd].
  rewrite (bind_Ret _ _ _ _ _ (deref_loaded (with_sheet f path xlsx2) path xlsx2 ltac:(cbn; apply lookup_insert_eq))).
  rewrite Hm2, Hm. unfold mbind, gom_bind, mret, gom_ret. cbn [fst snd]. rewrite Hcell.
  case_match; [done|].
  assert (forall fn Row f', (forall i r, Row !! i = Some r -> exists n, wf_row n r /\ 1 <= n <= maxInt) ->
    get_in_rows cell row Row fn f' = Ret (None, f')) as Hnone.
  { clear -Hcell Hne Hc Hr. intros fn Row f'. induction Row as [|r Row IH]; [done|]. intros Hw. cbn [get_in_rows].
    assert (get_in_rows cell row Row fn f' = Ret (None, f')) as IH' by (apply IH; intros i x Hx; exact (Hw (S i) x Hx)).
    destruct (Hw 0%nat r eq_refl) as (n & (HR & HC & HCl) & Hn). rewrite HR.
    destruct (n =? row) eqn:En; cbn [negb]; [|done]. apply Z.eqb_eq in En as ->.
    assert (get_in_cells cell (xlsxRow_C r) fn f' = Ret (None, f')) as Hcells.
    { rewrite <- (app_nil_r (xlsxRow_C r)), get_in_cells_skip; [done|].
      apply Forall_lookup. intros j c Hj E. apply Hne. rewrite (HC _ _ Hj) in E. rewrite <- E.
      apply lookup_lt_Some in Hj. unfold zlen in HCl.
      pose proof (cell_name_coordinates (Z.of_nat j + 1) row ltac:(lia) Hr) as E2. rewrite E in E2.
      rewrite Hcell in E2. injection E2 as ->. by rewrite E. }
    rewrite (bind_Ret _ _ _ _ _ Hcells). exact IH'. }
  rewrite Hnone; [done|]. intros i r Hi. destruct Hwf2 as [Hw Hlen]. eexists. split; [by apply Hw|].
  apply lookup_lt_Some in Hi. unfold zlen in Hlen. lia.
Qed.

End cell_properties.

(** ** Merged ranges *)

(** A rectangle of cells, by its first and last column and row. *)
Record rect := mk_rect { rect_c1 : Z; rect_r1 : Z; rect_c2 : Z; rect_r2 : Z }.

Definition rect_ref (R : rect) : string := area_ref (rect_c1 R) (rect_r1 R) (rect_c2 R) (rect_r2 R).
Definition rect_wf (R : rect) : Prop :=
  1 <= rect_c1 R <= rect_c2 R /\ rect_c2 R <= maxInt /\ 1 <= rect_r1 R <= rect_r2 R /\ rect_r2 R <= maxInt.
Definition in_rect (R : rect) (col row : Z) : bool :=
  (rect_c1 R <=? col) && (col <=? rect_c2 R) && (rect_r1 R <=? row) && (row <=? rect_r2 R).
Definition rect_disjoint (R S : rect) : Prop :=
  rect_c2 R < rect_c1 S \/ rect_c2 S < rect_c1 R \/ rect_r2 R < rect_r1 S \/ rect_r2 S < rect_r1 R.

Definition rect_areas (Rs : list rect) : list xlsxMergeCell := (fun R => mk_xlsxMergeCell (rect_ref R)) <$> Rs.

(** The rectangle spanned by two corners. *)
Definition rect_of (c1 r1 c2 r2 : Z) : rect := mk_rect (Z.min c1 c2) (Z.min r1 r2) (Z.max c1 c2) (Z.max r1 r2).

Lemma checkCellInArea_in_rect cell col row R :
  CellNameToCoordinates cell = ok (col, row) -> rect_wf R ->
  checkCellInArea cell (rect_ref R) = ok (in_rect R col row).
Proof. intros E (H1 & H2 & H3 & H4). apply checkCellInArea_rect; [done|lia..]. Qed.

Section merge.
Context `{GoEnv}.

(** The position a cell name is moved to by pairwise disjoint areas: the corner
    of the area that contains it. *)
Fixpoint merged_position (Rs : list rect) (col row : Z) : Z * Z :=
  match Rs with
  | [] => (col, row)
  | R :: Rs' => if in_rect R col row then (rect_c1 R, rect_r1 R) else merged_position Rs' col row
  end.

Lemma merge_loop_outside Rs col row :
  coord col -> coord row -> Forall rect_wf Rs -> Forall (fun R => in_rect R col row = false) Rs ->
  merge_loop (rect_areas Rs) (cell_name col row) = ok (cell_name col row).
Proof.
  intros Hc Hr Hw Ho. induction Ho as [|R Rs HR Ho IH]; [done|]. apply Forall_cons in Hw as [HwR Hw].
  cbn. rewrite (checkCellInArea_in_rect _ col row) by (done || by apply cell_name_coordinates).
  rewrite HR. by apply IH.
Qed.

Lemma merge_loop_rects Rs col row :
  coord col -> coord row -> Forall rect_wf Rs -> ForallOrdPairs rect_disjoint Rs ->
  merge_loop (rect_areas Rs) (cell_name col row) =
    ok (cell_name (merged_position Rs col row).1 (merged_position Rs col row).2).
Proof.
  intros Hc Hr Hw Hd. induction Hd as [|R Rs HR Hd IH]; [done|]. apply Forall_cons in Hw as [HwR Hw].
  cbn [rect_areas fmap list_fmap merge_loop merged_position xlsxMergeCell_Ref]. fold (rect_areas Rs).
  rewrite (checkCellInArea_in_rect _ col row) by (done || by apply cell_name_coordinates).
  destruct (in_rect R col row) eqn:Hin; [|by apply IH].
  destruct HwR as (H1 & H2 & H3 & H4). cbn [xlsxMergeCell_Ref].
  unfold rect_ref. rewrite ref_start_area by lia. cbn [fst snd].
  apply merge_loop_outside; [lia..|done|]. apply Forall_forall. intros S HS.
  rewrite Forall_forall in HR, Hw. specialize (HR S HS). destruct (Hw S HS) as (S1 & S2 & S3 & S4).
  unfold rect_disjoint in HR. unfold in_rect. lia.
Qed.

Lemma merge_overlap_disjoint Rs R :
  Forall rect_wf Rs -> rect_wf R -> Forall (fun S => rect_disjoint S R) Rs ->
  merge_overlap (cell_name (rect_c1 R) (rect_r1 R)) (cell_name (rect_c2 R) (rect_r2 R)) (rect_ref R) (rect_areas Rs) = None.
Proof.
  intros Hw (R1 & R2 & R3 & R4) Hd. induction Hd as [|S Rs HS Hd IH]; [done|].
  apply Forall_cons in Hw as [(S1 & S2 & S3 & S4) Hw]. cbn [rect_areas fmap list_fmap merge_overlap xlsxMergeCell_Ref].
  unfold rect_ref at 1. rewrite area_ref_split by lia.
  rewrite (checkCellInArea_in_rect _ (rect_c1 R) (rect_r1 R) S), (checkCellInArea_in_rect _ (rect_c2 R) (rect_r2 R) S),
    (checkCellInArea_in_rect _ (rect_c1 S) (rect_r1 S) R), (checkCellInArea_in_rect _ (rect_c2 S) (rect_r2 S) R);
    try (apply cell_name_coordinates; lia); try (split_and!; lia).
  cbn [fst]. unfold rect_disjoint in HS. unfold in_rect.
  replace (negb _) with false by lia. by apply IH.
Qed.

(** Merging over disjoint areas appends the rectangle of the corners. *)
Lemma MergeCell_areas f sheet path xlsx hcell vcell c1 r1 c2 r2 Rs :
  loaded f sheet path xlsx ->
  CellNameToCoordinates hcell = ok (c1, r1) -> CellNameToCoordinates vcell = ok (c2, r2) ->
  coord c1 -> coord r1 -> coord c2 -> coord r2 -> ~ (c1 = c2 /\ r1 = r2) ->
  merge_areas xlsx = rect_areas Rs -> Forall rect_wf Rs ->
  Forall (fun S => rect_disjoint S (rect_of c1 r1 c2 r2)) Rs ->
  exists mc, MergeCell sheet hcell vcell f = Ret (None, with_sheet f path (xlsx <| xlsxWorksheet_MergeCells := Some mc |>)) /\
    xlsxMergeCells_Cells mc = rect_areas (Rs ++ [rect_of c1 r1 c2 r2]).
Proof.
  set (R := rect_of c1 r1 c2 r2). intros Hl Eh Ev Hc1 Hr1 Hc2 Hr2 Hne Hareas Hw HR. pose proof Hl as [_ Hs].
  assert (rect_wf R) as HwR by (unfold rect_wf, R, rect_of; cbn; lia).
  unfold MergeCell. rewrite Eh, Ev. unfold mbind at 1, gom_bind, mret, gom_ret. cbn [fst snd].
  unfold mbind at 1, gom_bind. replace ((c1 =? c2) && (r1 =? r2)) with false by lia.
  replace (if c2 <? c1 then (c2, c1) else (c1, c2)) with (Z.min c1 c2, Z.max c1 c2) by (case_match; f_equal; lia).
  replace (if r2 <? r1 then (r2, r1) else (r1, r2)) with (Z.min r1 r2, Z.max r1 r2) by (case_match; f_equal; lia).
  cbv beta iota zeta.
  change (cell_name (Z.min c1 c2) (Z.min r1 r2)) with (cell_name (rect_c1 R) (rect_r1 R)).
  change (cell_name (Z.max c1 c2) (Z.max r1 r2)) with (cell_name (rect_c2 R) (rect_r2 R)).
  change (cell_name (rect_c1 R) (rect_r1 R) +:+ ":" +:+ cell_name (rect_c2 R) (rect_r2 R)) with (rect_ref R).
  rewrite (bind_Ret _ _ _ _ _ (workSheetReader_loaded _ _ _ _ Hl)). cbn [fst snd].
  rewrite (bind_Ret _ _ _ _ _ (deref_loaded _ _ _ Hs)).
  unfold merge_areas in Hareas. destruct (xlsxWorksheet_MergeCells xlsx) as [mc|].
  - rewrite Hareas, merge_overlap_disjoint by done. eexists. split; [reflexivity|].
    unfold rect_areas. rewrite fmap_app. unfold rect_areas in Hareas. rewrite <- Hareas. done.
  - eexists. split; [reflexivity|]. by destruct Rs.
Qed.

Lemma areas_disjoint_snoc Rs R :
  ForallOrdPairs rect_disjoint Rs -> Forall (fun S => rect_disjoint S R) Rs -> ForallOrdPairs rect_disjoint (Rs ++ [R]).
Proof.
  intros Hd HR. induction Hd as [|S Rs HS Hd IH]; cbn.
  - constructor; constructor.
  - apply Forall_cons in HR as [HSR HR]. constructor; [|by apply IH]. apply Forall_app. split; [done|]. constructor; [done|constructor].
Qed.

Lemma merged_position_snoc Rs R col row :
  rect_wf R -> Forall rect_wf Rs -> Forall (fun S => rect_disjoint S R) Rs ->
  merged_position (Rs ++ [R]) col row = if in_rect R col row then (rect_c1 R, rect_r1 R) else merged_position Rs col row.
Proof.
  intros HwR Hw. induction 1 as [|S Rs HS Hd IH]; cbn; [done|]. apply Forall_cons in Hw as [HwS Hw].
  destruct (in_rect S col row) eqn:ES; [|by apply IH].
  assert (in_rect R col row = false) as ->; [|done].
  destruct HwS as (?&?&?&?). destruct HwR as (?&?&?&?). unfold rect_disjoint in HS. unfold in_rect in *. lia.
Qed.

(** C20. Merging two corners, given in any order and in any accepted spelling, over
    areas that are disjoint from the rectangle: one area is appended, its
    reference running from the top left to the bottom right corner; every
    position of the rectangle then resolves to its top left cell, and every
    other position resolves as before. *)
Theorem MergeCell_correct f sheet path xlsx hcell vcell c1 r1 c2 r2 Rs :
  let R := rect_of c1 r1 c2 r2 in
  loaded f sheet path xlsx ->
  CellNameToCoordinates hcell = ok (c1, r1) -> CellNameToCoordinates vcell = ok (c2, r2) ->
  coord c1 -> coord r1 -> coord c2 -> coord r2 -> ~ (c1 = c2 /\ r1 = r2) ->
  merge_areas xlsx = rect_areas Rs -> Forall rect_wf Rs -> ForallOrdPairs rect_disjoint Rs ->
  Forall (fun S => rect_disjoint S R) Rs ->
  exists xlsx', MergeCell sheet hcell vcell f = Ret (None, with_sheet f path xlsx') /\
    merge_areas xlsx' = rect_areas (Rs ++ [R]) /\ sheet_rows xlsx' = sheet_rows xlsx /\
    forall col row, coord col -> coord row ->
      mergeCellsParser xlsx' (cell_name col row) =
        if in_rect R col row then ok (cell_name (rect_c1 R) (rect_r1 R))
        else mergeCellsParser xlsx (cell_name col row).
Proof.
  intros R Hl Eh Ev Hc1 Hr1 Hc2 Hr2 Hne Hareas Hw Hd HR.
  assert (rect_wf R) as HwR by (unfold rect_wf, R, rect_of; cbn; lia).
  destruct (MergeCell_areas f sheet path xlsx hcell vcell c1 r1 c2 r2 Rs) as (mc & E & Ea); [done..|].
  eexists. split; [exact E|]. split; [exact Ea|]. split; [done|].
  intros col row Hc Hr. unfold mergeCellsParser at 1, merge_areas. cbn [xlsxWorksheet_MergeCells field_update].
  rewrite Ea. unfold mergeCellsParser. rewrite Hareas, ToUpper_cell_name by lia.
  assert (ForallOrdPairs rect_disjoint (Rs ++ [R])) as Hd' by by apply areas_disjoint_snoc.
  rewrite !merge_loop_rects; try done; [|apply Forall_app; split; [done|]; by apply Forall_singleton].
  rewrite merged_position_snoc by done. fold R. by destruct (in_rect R col row).
Qed.

(** A new range with a corner inside an existing area (or around a corner of
    it) is ignored: the call returns no error and changes nothing, although its
    documentation says that the existing areas are removed. *)
Theorem MergeCell_overlap_ignored f sheet path xlsx hcell vcell c1 r1 c2 r2 S Rs :
  let R := rect_of c1 r1 c2 r2 in
  loaded f sheet path xlsx ->
  CellNameToCoordinates hcell = ok (c1, r1) -> CellNameToCoordinates vcell = ok (c2, r2) ->
  coord c1 -> coord r1 -> coord c2 -> coord r2 -> ~ (c1 = c2 /\ r1 = r2) ->
  merge_areas xlsx = rect_areas (S :: Rs) -> rect_wf S ->
  in_rect S (rect_c1 R) (rect_r1 R) || in_rect S (rect_c2 R) (rect_r2 R)
    || in_rect R (rect_c1 S) (rect_r1 S) || in_rect R (rect_c2 S) (rect_r2 S) = true ->
  MergeCell sheet hcell vcell f = Ret (None, f).
Proof.
  intros R Hl Eh Ev Hc1 Hr1 Hc2 Hr2 Hne Hareas HwS Hin. pose proof Hl as [_ Hs].
  assert (rect_wf R) as HwR by (unfold rect_wf, R, rect_of; cbn; lia).
  pose proof HwS as (S1 & S2 & S3 & S4). pose proof HwR as (R1 & R2 & R3 & R4).
  unfold MergeCell. rewrite Eh, Ev. unfold mbind at 1, gom_bind, mret, gom_ret. cbn [fst snd].
  unfold mbind at 1, gom_bind. replace ((c1 =? c2) && (r1 =? r2)) with false by lia.
  replace (if c2 <? c1 then (c2, c1) else (c1, c2)) with (rect_c1 R, rect_c2 R) by (cbn; case_match; f_equal; lia).
  replace (if r2 <? r1 then (r2, r1) else (r1, r2)) with (rect_r1 R, rect_r2 R) by (cbn; case_match; f_equal; lia).
  cbv beta iota zeta.
  rewrite (bind_Ret _ _ _ _ _ (workSheetReader_loaded _ _ _ _ Hl)). cbn [fst snd].
  rewrite (bind_Ret _ _ _ _ _ (deref_loaded _ _ _ Hs)).
  unfold merge_areas in Hareas. destruct (xlsxWorksheet_MergeCells xlsx) as [mc|]; [|discriminate Hareas].
  rewrite Hareas. cbn [rect_areas fmap list_fmap merge_overlap xlsxMergeCell_Ref].
  unfold rect_ref at 1. rewrite area_ref_split by lia.
  change (cell_name (rect_c1 R) (rect_r1 R) +:+ ":" +:+ cell_name (rect_c2 R) (rect_r2 R)) with (rect_ref R).
  rewrite (checkCellInArea_in_rect _ (rect_c1 R) (rect_r1 R) S), (checkCellInArea_in_rect _ (rect_c2 R) (rect_r2 R) S),
    (checkCellInArea_in_rect _ (rect_c1 S) (rect_r1 S) R), (checkCellInArea_in_rect _ (rect_c2 S) (rect_r2 S) R);
    try (apply cell_name_coordinates; lia); try done.
  cbn [fst]. replace (negb _) with true; [done|].
  rewrite <- Hin. repeat (destruct (in_rect _ _ _)); done.
Qed.

End merge.

(** ** Hyperlinks *)

Section links.
Context `{GoEnv}.

Definition new_link (axis link : string) (rid : option Z) : xlsxHyperlink :=
  match rid with
  | Some rID => (gozero : xlsxHyperlink) <| xlsxHyperlink_Ref := axis |> <| xlsxHyperlink_RID := "rId" +:+ strconv_Itoa rID |>
  | None => (gozero : xlsxHyperlink) <| xlsxHyperlink_Ref := axis |> <| xlsxHyperlink_Location := link |>
  end.

Definition set_hyperlinks (links : list xlsxHyperlink) (xlsx : xlsxWorksheet) : xlsxWorksheet :=
  xlsx <| xlsxWorksheet_Hyperlinks := Some (mk_xlsxHyperlinks links) |>.

Lemma with_link xlsx : xlsx <| xlsxWorksheet_Hyperlinks := Some (mk_xlsxHyperlinks (sheet_links xlsx)) |> =
  set_hyperlinks (sheet_links xlsx) xlsx.
Proof. done. Qed.

Lemma find_new_link axis links link rid :
  Forall (fun l => xlsxHyperlink_Ref l <> axis) links ->
  list_find (fun l => xlsxHyperlink_Ref l = axis) (links ++ [new_link axis link rid]) = Some (length links, new_link axis link rid).
Proof.
  intros Hno. apply list_find_Some. split_and!.
  - by apply list_lookup_middle.
  - by destruct rid.
  - intros j y Hj Hlt. rewrite lookup_app_l in Hj by done. rewrite Forall_lookup in Hno. by eapply Hno.
Qed.

Lemma rId_nonempty n : "rId" +:+ strconv_Itoa n <> "".
Proof. done. Qed.

Lemma find_relationship_new rID l r :
  Forall (fun v => xlsxWorkbookRelation_ID v <> rID) l -> xlsxWorkbookRelation_ID r = rID ->
  find_relationship rID (l ++ [r]) = Some r.
Proof.
  intros Hno Hr. unfold find_relationship. rewrite (proj2 (list_find_Some _ _ (length l) r)); [done|].
  split_and!; [by apply list_lookup_middle|done|]. intros j y Hj Hlt. rewrite lookup_app_l in Hj by done.
  rewrite Forall_lookup in Hno. by eapply Hno.
Qed.

Lemma update_add_link f path x l :
  File_Sheet f !! path = Some x -> update (Some path) (add_link l) f = Ret (tt, with_sheet f path (add_link l x)).
Proof. intros E. unfold update. by rewrite (bind_Ret _ _ _ _ _ (deref_loaded _ _ _ E)). Qed.

(** What [SetCellHyperLink] does once its arguments are accepted. *)
Lemma SetCellHyperLink_accepted f sheet path xlsx axis cell v linkType link :
  loaded f sheet path xlsx -> SplitCellName axis = ok v -> mergeCellsParser xlsx axis = ok cell ->
  zlen (sheet_links xlsx) <= 65529 ->
  SetCellHyperLink sheet axis link linkType f =
    (if bool_decide (linkType = "External") then
      rID ← addSheetRelationships sheet SourceRelationshipHyperLink link linkType;
      update (Some path) (add_link (new_link cell link (Some rID)));; mret None
    else if bool_decide (linkType = "Location") then
      update (Some path) (add_link (new_link cell link None));; mret None
    else mret (Some (ErrInvalidLinkType linkType)))
    (with_sheet f path (set_hyperlinks (sheet_links xlsx) xlsx)).
Proof.
  intros Hl Hsplit Hm Hlen. unfold SetCellHyperLink. rewrite Hsplit.
  unfold mbind at 1, gom_bind, mret at 1, gom_ret. cbn [fst snd].
  rewrite (bind_Ret _ _ _ _ _ (workSheetReader_loaded _ _ _ _ Hl)). rewrite (bind_Ret _ _ _ _ _ (deref_loaded _ _ _ (proj2 Hl))).
  rewrite Hm. unfold mbind at 1, gom_bind, mret at 1, gom_ret. cbn [fst snd].
  rewrite with_link. rewrite (bind_Ret _ _ _ _ _ (assign_sheet _ _ _)).
  by replace (65529 <? zlen (sheet_links xlsx)) with false by lia.
Qed.

Lemma GetCellHyperLink_new f sheet path xlsx axis cell v link rid t :
  SplitCellName axis = ok v -> mergeCellsParser xlsx axis = ok cell ->
  Forall (fun l => xlsxHyperlink_Ref l <> cell) (sheet_links xlsx) ->
  loaded f sheet path (add_link (new_link cell link rid) (set_hyperlinks (sheet_links xlsx) xlsx)) ->
  match rid with
  | Some rID => getSheetRelationshipsTargetByID sheet ("rId" +:+ strconv_Itoa rID) f = Ret (t, f)
  | None => t = link
  end ->
  GetCellHyperLink sheet axis f = Ret (ok (true, t), f).
Proof.
  intros Hsplit Hm Hno Hl Ht. unfold GetCellHyperLink. rewrite Hsplit.
  unfold mbind at 1, gom_bind, mret at 1, gom_ret. cbn [fst snd].
  rewrite (bind_Ret _ _ _ _ _ (workSheetReader_loaded _ _ _ _ Hl)). rewrite (bind_Ret _ _ _ _ _ (deref_loaded _ _ _ (proj2 Hl))).
  set (x := add_link _ _). assert (mergeCellsParser x axis = ok cell) as -> by exact Hm.
  unfold mbind at 1, gom_bind, mret at 1, gom_ret. cbn [fst snd].
  change (sheet_links x) with (sheet_links xlsx ++ [new_link cell link rid]). rewrite find_new_link by done.
  destruct rid as [rID|].
  - rewrite bool_decide_eq_false_2 by apply rId_nonempty.
    change (xlsxHyperlink_RID _) with ("rId" +:+ strconv_Itoa rID). by rewrite (bind_Ret _ _ _ _ _ Ht).
  - rewrite bool_decide_eq_true_2 by done. by subst t.
Qed.

(** The reader of the worksheet relationships does not look at the sheets. *)
Lemma workSheetRelsReader_with_sheet f path x rp o :
  workSheetRelsReader rp f = Ret (o, f) -> workSheetRelsReader rp (with_sheet f path x) = Ret (o, with_sheet f path x).
Proof.
  unfold workSheetRelsReader, get, mbind, gom_bind, readXML, gets, modify, mret, gom_ret.
  change (File_WorkSheetRels (with_sheet f path x)) with (File_WorkSheetRels f).
  change (File_XLSX (with_sheet f path x)) with (File_XLSX f).
  destruct (File_WorkSheetRels f !! rp) as [c|] eqn:Ec; [by intros [= <-]|].
  destruct (File_XLSX f !! rp); [|by intros [= <-]]. intros [= _ Ef]. exfalso.
  pose proof (f_equal (fun g => File_WorkSheetRels g !! rp) Ef) as E2. cbv beta in E2. rewrite Ec in E2.
  cbn in E2. by rewrite lookup_insert_eq in E2.
Qed.

Definition new_relation (rID : Z) (link : string) : xlsxWorkbookRelation :=
  mk_xlsxWorkbookRelation ("rId" +:+ strconv_Itoa rID) link SourceRelationshipHyperLink "External".

Definition add_relation (r : xlsxWorkbookRelation) (rels : option xlsxWorkbookRels) : xlsxWorkbookRels :=
  (default gozero rels) <| xlsxWorkbookRels_Relationships ::= fun l => l ++ [r] |>.

Lemma addSheetRelationships_External f sheet link rels :
  workSheetRelsReader (sheet_rels_path f sheet) f = Ret (rels, f) ->
  let rID := zlen (xlsxWorkbookRels_Relationships (default gozero rels)) + 1 in
  addSheetRelationships sheet SourceRelationshipHyperLink link "External" f =
    Ret (rID, f <| File_WorkSheetRels ::= <[sheet_rels_path f sheet := add_relation (new_relation rID link) rels]> |>).
Proof.
  intros Hr. cbv zeta. unfold addSheetRelationships, gets, mbind, gom_bind. rewrite Hr. by destruct rels.
Qed.

Lemma getSheetRelationshipsTargetByID_new f sheet rID link rels :
  File_WorkSheetRels f !! sheet_rels_path f sheet = Some (add_relation (new_relation rID link) rels) ->
  Forall (fun r => xlsxWorkbookRelation_ID r <> "rId" +:+ strconv_Itoa rID) (xlsxWorkbookRels_Relationships (default gozero rels)) ->
  getSheetRelationshipsTargetByID sheet ("rId" +:+ strconv_Itoa rID) f = Ret (link, f).
Proof.
  intros E Hno. unfold getSheetRelationshipsTargetByID, gets, mbind, gom_bind, workSheetRelsReader, get, mret, gom_ret.
  unfold mbind, gom_bind. rewrite E.
  change (xlsxWorkbookRels_Relationships (add_relation ?r ?o)) with (xlsxWorkbookRels_Relationships (default gozero o) ++ [r]).
  by rewrite (find_relationship_new _ _ (new_relation rID link)).
Qed.

(** C33. A hyperlink set on a cell without one is read back: an external link through
    the relationship that is added for it, provided its ID, made of the number
    of relationships, is a new one; a location directly. The grid does not
    change. *)
Theorem SetCellHyperLink_Get f sheet path xlsx axis cell v linkType link rels :
  loaded f sheet path xlsx -> SplitCellName axis = ok v -> mergeCellsParser xlsx axis = ok cell ->
  Forall (fun l => xlsxHyperlink_Ref l <> cell) (sheet_links xlsx) -> zlen (sheet_links xlsx) <= 65529 ->
  linkType = "Location" \/
    linkType = "External" /\
    workSheetRelsReader (sheet_rels_path f sheet) f = Ret (rels, f) /\
    (let l := xlsxWorkbookRels_Relationships (default gozero rels) in
     Forall (fun r => xlsxWorkbookRelation_ID r <> "rId" +:+ strconv_Itoa (zlen l + 1)) l) ->
  exists f' xlsx', SetCellHyperLink sheet axis link linkType f = Ret (None, f') /\
    loaded f' sheet path xlsx' /\ sheet_rows xlsx' = sheet_rows xlsx /\
    GetCellHyperLink sheet axis f' = Ret (ok (true, link), f').
Proof.
  intros Hl Hsplit Hm Hno Hlen Htype. set (x0 := set_hyperlinks (sheet_links xlsx) xlsx).
  assert (forall g x, File_Sheet (with_sheet g path x) !! path = Some x) as Hws by (intros; apply lookup_insert_eq).
  pose proof (SetCellHyperLink_accepted f sheet path xlsx axis cell v linkType link Hl Hsplit Hm Hlen) as Hset. fold x0 in Hset.
  destruct Htype as [->|(-> & Hrels & Hnew)].
  - set (x1 := add_link (new_link cell link None) x0). exists (with_sheet f path x1), x1.
    assert (loaded (with_sheet f path x1) sheet path x1) as Hl1 by (by apply (with_sheet_loaded f sheet path xlsx)).
    split_and!; [|done|done|by apply (GetCellHyperLink_new _ _ _ _ _ _ _ _ None _ Hsplit Hm Hno Hl1)].
    rewrite Hset, bool_decide_eq_false_2, bool_decide_eq_true_2 by done.
    by rewrite (bind_Ret _ _ _ _ _ (update_add_link _ _ _ _ (Hws f x0))), with_sheet_twice.
  - cbv zeta in Hnew. set (rID := zlen _ + 1) in Hnew. set (rp := sheet_rels_path f sheet) in *.
    set (x1 := add_link (new_link cell link (Some rID)) x0).
    set (f0 := (with_sheet f path x0) <| File_WorkSheetRels ::= <[rp := add_relation (new_relation rID link) rels]> |>).
    assert (File_Sheet f0 !! path = Some x0) as H0 by apply lookup_insert_eq.
    assert (loaded (with_sheet f0 path x1) sheet path x1) as Hl1 by (split; [apply Hl|apply lookup_insert_eq]).
    exists (with_sheet f0 path x1), x1. split_and!; [|done|done|].
    + rewrite Hset, bool_decide_eq_true_2 by done.
      rewrite (bind_Ret _ _ _ _ _ (addSheetRelationships_External (with_sheet f path x0) sheet link rels
        (workSheetRelsReader_with_sheet _ _ _ _ _ Hrels))).
      by rewrite (bind_Ret _ _ _ _ _ (update_add_link f0 _ _ _ H0)).
    + apply (GetCellHyperLink_new _ _ _ _ _ _ _ link (Some rID) _ Hsplit Hm Hno Hl1).
      apply (getSheetRelationshipsTargetByID_new _ _ _ _ rels); [apply lookup_insert_eq|done].
Qed.

End links.

(** ** Witnesses *)

Abbreviation sheet1_path := "xl/worksheets/sheet1.xml" (only parsing).

Lemma SetCell_GetCellValue_witness :
  let f := example_file example_sheet in
  exists xlsx' f', write_op (H := example_env) (WriteStr "hello") "Sheet1" "b2" f = Ret (None, with_sheet f sheet1_path xlsx') /\
    GetCellValue (H := example_env) "Sheet1" "b2" (with_sheet f sheet1_path xlsx') = Ret (ok "hello", f').
Proof.
  intros f.
  destruct (@SetCell_GetCellValue example_env f "Sheet1" sheet1_path example_sheet "b2" 2 2 (WriteStr "hello")
    (example_loaded _) example_sheet_wf) as (x & c & E & _ & _ & _ & Hg); [unfold maxInt; lia..|reflexivity|].
  destruct (Hg eq_refl eq_refl) as (f' & E'). exists x, f'. split; [exact E|exact E'].
Defined.

Lemma SetCell_frame_witness :
  let f := example_file example_sheet in
  exists f' f2, write_op (H := example_env) (WriteInt 7) "Sheet1" "D9" f = Ret (None, f') /\
    GetCellValue (H := example_env) "Sheet1" "B2" f' = Ret (ok "x", f2).
Proof.
  intros f.
  destruct (@SetCell_frame example_env f "Sheet1" sheet1_path example_sheet "D9" 4 9 (WriteInt 7) "B2" 2 2 (ok "x")
    (f <| File_SharedStrings := Some gozero |>) (example_loaded _) example_sheet_wf) as (f' & f2 & E);
    [split_and!; [unfold maxInt; lia..|]; exists "D9"; split; reflexivity
    |unfold maxInt; lia|unfold maxInt; lia|intros []; discriminate|reflexivity|vm_compute; reflexivity|].
  exists f', f2. exact E.
Defined.

Lemma GetCellValue_noncanonical_witness :
  let f := example_file gozero in
  exists xlsx', write_op (H := example_env) (WriteBool true) "Sheet1" "A01" f = Ret (None, with_sheet f sheet1_path xlsx') /\
    (exists c, sheet_cell xlsx' 1 1 = Some c /\ xlsxC_V c = "1") /\
    GetCellValue (H := example_env) "Sheet1" "A01" (with_sheet f sheet1_path xlsx')
      = Ret (ok "", with_sheet f sheet1_path xlsx').
Proof.
  apply (@GetCellValue_noncanonical example_env (example_file gozero) "Sheet1" sheet1_path gozero "A01" "A01" 1 1 (WriteBool true));
    [apply example_loaded|split; [intros i r H; discriminate H|vm_compute; discriminate]
    |unfold maxInt; lia|unfold maxInt; lia|reflexivity|reflexivity|vm_compute; discriminate].
Defined.

Lemma MergeCell_correct_witness :
  let f := example_file example_sheet in
  exists xlsx', MergeCell (H := example_env) "Sheet1" "c5" "B3" f = Ret (None, with_sheet f sheet1_path xlsx') /\
    mergeCellsParser (H := example_env) xlsx' "B4" = ok "B3".
Proof.
  intros f.
  destruct (@MergeCell_correct example_env f "Sheet1" sheet1_path example_sheet "c5" "B3" 3 5 2 3 []
    (example_loaded _)) as (x & E & _ & _ & Hm);
    [reflexivity|reflexivity|unfold maxInt; lia..|lia|reflexivity|constructor|constructor|constructor|].
  exists x. split; [exact E|]. exact (Hm 2 4 ltac:(unfold maxInt; lia) ltac:(unfold maxInt; lia)).
Defined.

Lemma MergeCell_overlap_ignored_witness :
  let f := example_file (example_sheet <| xlsxWorksheet_MergeCells := Some (mk_xlsxMergeCells 1 [mk_xlsxMergeCell "A1:B2"]) |>) in
  MergeCell (H := example_env) "Sheet1" "B2" "C3" f = Ret (None, f).
Proof.
  intros f.
  apply (@MergeCell_overlap_ignored example_env f "Sheet1" sheet1_path
    (example_sheet <| xlsxWorksheet_MergeCells := Some (mk_xlsxMergeCells 1 [mk_xlsxMergeCell "A1:B2"]) |>)
    "B2" "C3" 2 2 3 3 (mk_rect 1 1 2 2) []); try reflexivity;
    [apply example_loaded|unfold maxInt; lia..|lia|unfold rect_wf, maxInt; cbn; lia].
Defined.

Lemma SetCellHyperLink_Get_witness :
  let f := example_file example_sheet in
  exists f', SetCellHyperLink (H := example_env) "Sheet1" "c3" "https://x.org" "External" f = Ret (None, f') /\
    GetCellHyperLink (H := example_env) "Sheet1" "c3" f' = Ret (ok (true, "https://x.org"), f').
Proof.
  intros f. destruct (@SetCellHyperLink_Get example_env f "Sheet1" sheet1_path example_sheet "c3" "C3" ("c", 3) "External" "https://x.org" None
    (example_loaded _)) as (f' & x & E & _ & _ & Hg); [reflexivity|reflexivity|constructor|vm_compute; discriminate| |].
  - right. split; [reflexivity|]. split; [reflexivity|]. constructor.
  - exists f'. split; [exact E|exact Hg].
Defined.

(** Saving leaves the trimmed grid in memory, and the cache returns it without
    completing it again: the next write to the row goes to the wrong cell. Here
    the row 2 has the value [x] in [B2] only; after a save a value written to
    [A2] replaces that of [B2], and [A2] reads as empty. *)
Theorem write_after_save_misplaced :
  let run := workSheetWriter (H := example_env);; SetCellStr (H := example_env) "Sheet1" "A2" "new" in
  let read axis := returned ((run;; GetCellValue (H := example_env) "Sheet1" axis) (example_file example_sheet)) in
  returned (run (example_file example_sheet)) = Some None /\ read "A2" = Some (ok "") /\ read "B2" = Some (ok "new").
Proof. vm_compute. split_and!; reflexivity. Qed.
