(* ===== verification/Adjust.v ===== *)
(** [adjust.go]: what inserting or removing a row or a column does to the cells,
    the hyperlinks, the merged areas and the auto filter of a sheet. *)
From S2P Require Export Cell.

(** [adjustDirection]. *)
Inductive adjustDirection : Type := columns | rows.

Definition is_rows (dir : adjustDirection) : bool := match dir with rows => true | columns => false end.

(** ** The grid *)

Definition ajust_cell_row (num : Z) (col : xlsxC) : xlsxC :=
  col <| xlsxC_R := (JoinCellName (SplitCellName (xlsxC_R col)).1.1 num).1 |>.

Definition ajustSingleRowDimensions (r : xlsxRow) (num : Z) : xlsxRow :=
  r <| xlsxRow_R := num |> <| xlsxRow_C ::= fmap (ajust_cell_row num) |>.

Definition adjust_row (row offset : Z) (r : xlsxRow) : xlsxRow :=
  let newRow := iadd (xlsxRow_R r) offset in
  if (row <=? xlsxRow_R r) && (0 <? newRow) then ajustSingleRowDimensions r newRow else r.

Definition adjustRowDimensions (xlsx : xlsxWorksheet) (row offset : Z) : xlsxWorksheet :=
  set_rows (adjust_row row offset <$> sheet_rows xlsx) xlsx.

Definition adjust_cell_col (col offset : Z) (v : xlsxC) : xlsxC :=
  let '(cellCol, cellRow) := (CellNameToCoordinates (xlsxC_R v)).1 in
  if col <=? cellCol then
    let newCol := iadd cellCol offset in
    if 0 <? newCol then v <| xlsxC_R := (CoordinatesToCellName newCol cellRow).1 |> else v
  else v.

Definition adjustColDimensions (xlsx : xlsxWorksheet) (col offset : Z) : xlsxWorksheet :=
  set_rows ((fun r => r <| xlsxRow_C ::= fmap (adjust_cell_col col offset) |>) <$> sheet_rows xlsx) xlsx.

(** ** The auto filter *)

Definition show_rows (firstRow lastRow : Z) (xlsx : xlsxWorksheet) : xlsxWorksheet :=
  set_rows ((fun rowData =>
    if (firstRow <? xlsxRow_R rowData) && (xlsxRow_R rowData <=? lastRow)
    then rowData <| xlsxRow_Hidden := false |> else rowData) <$> sheet_rows xlsx) xlsx.

Definition adjustAutoFilter (xlsx : xlsxWorksheet) (dir : adjustDirection) (num offset : Z)
    : outcome (xlsxWorksheet * option goerr) :=
  match xlsxWorksheet_AutoFilter xlsx with
  | None => Ret (ok xlsx)
  | Some af =>
      let rng := strings_Split (xlsxAutoFilter_Ref af) ":" in
      firstCell ← list_get rng 0;
      lastCell ← list_get rng 1;
      match CellNameToCoordinates firstCell with
      | (_, Some err) => Ret (err_with xlsx err)
      | ((firstCol, firstRow), None) =>
          match CellNameToCoordinates lastCell with
          | (_, Some err) => Ret (err_with xlsx err)
          | ((lastCol, lastRow), None) =>
              if (is_rows dir && (firstRow =? num) && (offset <? 0))
                 || (negb (is_rows dir) && (firstCol =? num) && (lastCol =? num))
              then Ret (ok (show_rows firstRow lastRow (xlsx <| xlsxWorksheet_AutoFilter := None |>)))
              else
                let '(firstCell, lastCell) :=
                  if is_rows dir then
                    (if num <=? firstRow then (CoordinatesToCellName firstCol (iadd firstRow offset)).1 else firstCell,
                     if num <=? lastRow then (CoordinatesToCellName lastCol (iadd lastRow offset)).1 else lastCell)
                  else
                    (firstCell,
                     if num <=? lastCol then (CoordinatesToCellName (iadd lastCol offset) lastRow).1 else lastCell) in
                Ret (ok (xlsx <| xlsxWorksheet_AutoFilter :=
                  Some (af <| xlsxAutoFilter_Ref := firstCell +:+ ":" +:+ lastCell |>) |>))
          end
      end
  end.

(** ** Merged areas

    The slice holds pointers: deleting an element while the loop runs moves the
    pointers down, and the stale one at the end designates an area that is
    still in the slice. The areas are a store, the slice one of indices. *)

Record merge_state := mk_merge_state {
  ms_ptrs : slice nat;
  ms_objs : list xlsxMergeCell;
  ms_count : Z;
  ms_nil : bool
}.
#[export] Instance eta_merge_state : Eta merge_state := fun r =>
  mk_merge_state (ms_ptrs r) (ms_objs r) (ms_count r) (ms_nil r).

Definition adjust_coord (num offset v : Z) : Z :=
  if num <=? v then let v := iadd v offset in if v <? 1 then 1 else v else v.

(** The removal of an area that has become a single cell. *)
Definition drop_area (i : nat) (st : merge_state) : outcome merge_state :=
  if ms_nil st then Panic
  else if (1 <? slen (ms_ptrs st))%nat then
    ptrs ← delete_at i (ms_ptrs st);
    Ret (st <| ms_ptrs := ptrs |> <| ms_count := Z.of_nat (slen ptrs) |>)
  else Ret (st <| ms_nil := true |>).

Definition adjust_area (dir : adjustDirection) (num offset : Z) (i : nat) (st : merge_state)
    : outcome (merge_state * option goerr) :=
  match backing (ms_ptrs st) !! i ≫= fun p => (ms_objs st !! p) ≫= fun area => Some (p, area) with
  | None => Panic
  | Some (p, areaData) =>
      let rng := strings_Split (xlsxMergeCell_Ref areaData) ":" in
      firstCell ← list_get rng 0;
      lastCell ← list_get rng 1;
      match CellNameToCoordinates firstCell with
      | (_, Some err) => Ret (err_with st err)
      | ((firstCol, firstRow), None) =>
          match CellNameToCoordinates lastCell with
          | (_, Some err) => Ret (err_with st err)
          | ((lastCol, lastRow), None) =>
              let adjust := adjust_coord num offset in
              let '(firstRow, lastRow, firstCol, lastCol) :=
                if is_rows dir then (adjust firstRow, adjust lastRow, firstCol, lastCol)
                else (firstRow, lastRow, adjust firstCol, adjust lastCol) in
              st ← (if (firstCol =? lastCol) && (firstRow =? lastRow) then drop_area i st else Ret st);
              match CoordinatesToCellName firstCol firstRow with
              | (_, Some err) => Ret (err_with st err)
              | (firstCell, None) =>
                  match CoordinatesToCellName lastCol lastRow with
                  | (_, Some err) => Ret (err_with st err)
                  | (lastCell, None) =>
                      Ret (ok (st <| ms_objs ::= <[p := mk_xlsxMergeCell (firstCell +:+ ":" +:+ lastCell)]> |>))
                  end
              end
          end
      end
  end.

Fixpoint adjust_areas (dir : adjustDirection) (num offset : Z) (ks : list nat) (st : merge_state)
    : outcome (merge_state * option goerr) :=
  match ks with
  | [] => Ret (ok st)
  | i :: rest =>
      r ← adjust_area dir num offset i st;
      match r with
      | (st, Some err) => Ret (err_with st err)
      | (st, None) => adjust_areas dir num offset rest st
      end
  end.

Definition merge_start (mc : xlsxMergeCells) : merge_state :=
  mk_merge_state (slice_of (seq 0 (length (xlsxMergeCells_Cells mc)))) (xlsxMergeCells_Cells mc)
    (xlsxMergeCells_Count mc) false.

(** The field [MergeCells] when the loop is over. *)
Definition merge_end (st : merge_state) : option xlsxMergeCells :=
  if ms_nil st then None
  else Some (mk_xlsxMergeCells (ms_count st) (omap (fun p => ms_objs st !! p) (elems (ms_ptrs st)))).

Definition adjustMergeCells (xlsx : xlsxWorksheet) (dir : adjustDirection) (num offset : Z)
    : outcome (xlsxWorksheet * option goerr) :=
  match xlsxWorksheet_MergeCells xlsx with
  | None => Ret (ok xlsx)
  | Some mc =>
      r ← adjust_areas dir num offset (seq 0 (length (xlsxMergeCells_Cells mc))) (merge_start mc);
      Ret (xlsx <| xlsxWorksheet_MergeCells := merge_end r.1 |>, r.2)
  end.

Section adjust.
Context `{GoEnv}.

(** ** Hyperlinks *)

Definition link_hit (dir : adjustDirection) (num : Z) (linkData : xlsxHyperlink) : bool :=
  let '(colNum, rowNum) := (CellNameToCoordinates (xlsxHyperlink_Ref linkData)).1 in
  if is_rows dir then num =? rowNum else num =? colNum.

(** The removal loop; the flag tells that [xlsx.Hyperlinks] has become nil. *)
Fixpoint remove_links (sheet : string) (hit : xlsxHyperlink -> bool) (ks : list nat)
    (s : slice xlsxHyperlink) (isnil : bool) : M (slice xlsxHyperlink * bool) :=
  match ks with
  | [] => mret (s, isnil)
  | k :: rest =>
      match backing s !! k with
      | None => panic
      | Some linkData =>
          if hit linkData then
            deleteSheetRelationships sheet (xlsxHyperlink_RID linkData);;
            if (isnil : bool) then panic
            else if (1 <? slen s)%nat then s' ← lift (delete_at k s); remove_links sheet hit rest s' false
            else remove_links sheet hit rest s true
          else remove_links sheet hit rest s isnil
      end
  end.

Definition shift_link (dir : adjustDirection) (num offset : Z) (link : xlsxHyperlink) : xlsxHyperlink :=
  let '(colNum, rowNum) := (CellNameToCoordinates (xlsxHyperlink_Ref link)).1 in
  if is_rows dir then
    if num <=? rowNum then link <| xlsxHyperlink_Ref := (CoordinatesToCellName colNum (iadd rowNum offset)).1 |> else link
  else
    if num <=? colNum then link <| xlsxHyperlink_Ref := (CoordinatesToCellName (iadd colNum offset) rowNum).1 |> else link.

Definition set_links (links : option (list xlsxHyperlink)) (xlsx : xlsxWorksheet) : xlsxWorksheet :=
  xlsx <| xlsxWorksheet_Hyperlinks := mk_xlsxHyperlinks <$> links |>.

Definition adjustHyperlinks (p : sheet_ptr) (sheet : string) (dir : adjustDirection) (num offset : Z) : M unit :=
  xlsx ← deref p;
  if zlen (sheet_links xlsx) =? 0 then mret tt
  else
    r ← (if offset <? 0
         then remove_links sheet (link_hit dir num) (seq 0 (length (sheet_links xlsx))) (slice_of (sheet_links xlsx)) false
         else mret (slice_of (sheet_links xlsx), false));
    update p (set_links (if (r.2 : bool) then None else Some (shift_link dir num offset <$> elems r.1))).

(** ** The whole adjustment *)

(** An adjustment of the sheet that may fail: the sheet is stored as it is then. *)
Definition apply_adjust (p : sheet_ptr) (g : xlsxWorksheet -> outcome (xlsxWorksheet * option goerr)) : M (option goerr) :=
  xlsx ← deref p; r ← lift (g xlsx); assign p r.1;; mret r.2.

Definition adjustHelper (sheet : string) (dir : adjustDirection) (num offset : Z) : M (option goerr) :=
  let! p := workSheetReader sheet in
  update p (fun xlsx => if is_rows dir then adjustRowDimensions xlsx num offset else adjustColDimensions xlsx num offset);;
  adjustHyperlinks p sheet dir num offset;;
  try! apply_adjust p (fun xlsx => adjustMergeCells xlsx dir num offset) in
  try! apply_adjust p (fun xlsx => adjustAutoFilter xlsx dir num offset) in
  update p checkSheet;;
  apply_adjust p checkRow;;
  mret None.

End adjust.

(** ** Lemmas: the grid *)

Lemma JoinCellName_column name row :
  name <> "" -> str_forallb is_upper name = true -> 1 <= row ->
  JoinCellName name row = ok (name +:+ strconv_Itoa row).
Proof.
  intros Hne Hup Hr. unfold JoinCellName. rewrite str_filter_all by auto with go_db.
  rewrite (str_map_forallb_id is_upper) by (try done; apply upper_byte_upper).
  rewrite Z.eqb_refl. replace (len name =? 0) with false by (destruct name; [done|reflexivity]).
  by replace (row <? 1) with false by lia.
Qed.

(** Renaming a cell keeps its column. *)
Lemma ajust_cell_row_name c col row num :
  xlsxC_R c = cell_name col row -> 1 <= col -> 1 <= row <= maxInt -> 1 <= num ->
  ajust_cell_row num c = c <| xlsxC_R := cell_name col num |>.
Proof.
  intros E Hc Hr Hn. unfold ajust_cell_row. rewrite E.
  destruct (CoordinatesToCellName_spec col row Hc ltac:(lia)) as (name & -> & En & Hne & Hup & _).
  destruct (CoordinatesToCellName_spec col num Hc Hn) as (name' & -> & En' & _).
  rewrite En in En'. injection En' as <-. cbn [fst].
  rewrite SplitCellName_join by auto with go_db. cbn [fst]. by rewrite JoinCellName_column.
Qed.

Lemma adjust_cell_col_name c col row num offset :
  xlsxC_R c = cell_name col row -> 1 <= col <= maxInt -> 1 <= row <= maxInt ->
  1 <= col + offset <= maxInt ->
  adjust_cell_col num offset c = if num <=? col then c <| xlsxC_R := cell_name (col + offset) row |> else c.
Proof.
  intros E Hc Hr Ho. unfold adjust_cell_col. rewrite E, cell_name_coordinates by done. cbn [fst].
  case_match; [|done]. int_lia. by replace (0 <? col + offset) with true by lia.
Qed.

(** A dense row under another number. *)
Definition named_cells (num : Z) (C : list xlsxC) : list xlsxC :=
  imap (fun j c => c <| xlsxC_R := cell_name (Z.of_nat j + 1) num |>) C.
#[global] Arguments named_cells : simpl never.
Definition renumbered (num : Z) (r : xlsxRow) : xlsxRow :=
  r <| xlsxRow_R := num |> <| xlsxRow_C ::= named_cells num |>.

Lemma named_cells_lookup num C (j : nat) :
  named_cells num C !! j = (fun c => c <| xlsxC_R := cell_name (Z.of_nat j + 1) num |>) <$> C !! j.
Proof. unfold named_cells. by rewrite list_lookup_imap. Qed.

Lemma named_cells_same num C : wf_cells num C -> named_cells num C = C.
Proof.
  intros HC. apply list_eq. intros j. rewrite named_cells_lookup. destruct (C !! j) as [c|] eqn:Ec; [|done]. cbn.
  rewrite <- (HC _ _ Ec). by destruct c.
Qed.

Lemma named_cells_twice a b C : named_cells a (named_cells b C) = named_cells a C.
Proof. apply list_eq. intros j. rewrite !named_cells_lookup. by destruct (C !! j). Qed.

Lemma ajustSingleRowDimensions_wf row num r :
  wf_row row r -> 1 <= row <= maxInt -> 1 <= num -> ajustSingleRowDimensions r num = renumbered num r.
Proof.
  intros (HR & HC & Hlen) Hr Hn. unfold ajustSingleRowDimensions, renumbered.
  assert (ajust_cell_row num <$> xlsxRow_C r = named_cells num (xlsxRow_C r)) as E.
  { apply list_eq. intros j. rewrite list_lookup_fmap, named_cells_lookup.
    destruct (xlsxRow_C r !! j) as [c|] eqn:Ec; [|done]. cbn. f_equal.
    apply (ajust_cell_row_name c _ row); [by apply HC|lia..]. }
  cbv beta delta [field_update]. cbn [xlsxRow_C]. by rewrite E.
Qed.

Lemma renumbered_wf row num r : wf_row row r -> wf_row num (renumbered num r).
Proof.
  intros (HR & HC & Hlen). split; [done|]. split.
  - intros j c. cbn. rewrite named_cells_lookup. intros (c' & Hc' & ->)%fmap_Some. done.
  - cbn. unfold zlen, named_cells in *. by rewrite length_imap.
Qed.

Lemma renumbered_cell num r (j : nat) :
  xlsxRow_C (renumbered num r) !! j =
    (fun c => c <| xlsxC_R := cell_name (Z.of_nat j + 1) num |>) <$> xlsxRow_C r !! j.
Proof. apply named_cells_lookup. Qed.

(** The rows of a dense sheet after a row was inserted before the row [num]. *)
Definition inserted_rows (num : Z) (Row : list xlsxRow) : list xlsxRow :=
  if zlen Row <? num then Row
  else take (Z.to_nat (num - 1)) Row ++ freshRow num ::
       imap (fun i r => renumbered (num + Z.of_nat i + 1) r) (drop (Z.to_nat (num - 1)) Row).

Lemma inserted_rows_lookup num Row (i : nat) :
  1 <= num ->
  inserted_rows num Row !! i =
    if decide (Z.of_nat i + 1 < num) then Row !! i
    else if decide (Z.of_nat i + 1 = num) then if zlen Row <? num then None else Some (freshRow num)
    else renumbered (Z.of_nat i + 1) <$> Row !! pred i.
Proof.
  intros Hn. unfold inserted_rows, zlen. destruct (Z.of_nat (length Row) <? num) eqn:Hl.
  { repeat case_decide; [done|..]; [apply lookup_ge_None_2; lia|].
    rewrite !lookup_ge_None_2 by lia. done. }
  assert (length (take (Z.to_nat (num - 1)) Row) = Z.to_nat (num - 1)) as Ht by (rewrite length_take; lia).
  repeat case_decide.
  - rewrite lookup_app_l by lia. apply lookup_take_lt. lia.
  - rewrite lookup_app_r by lia. rewrite Ht. by replace (i - _)%nat with 0%nat by lia.
  - rewrite lookup_app_r by lia. rewrite Ht, lookup_cons_ne_0 by lia. rewrite list_lookup_imap, lookup_drop.
    replace (Z.to_nat (num - 1) + pred (i - Z.to_nat (num - 1)))%nat with (pred i) by lia.
    destruct (Row !! pred i); [|done]. cbn. do 2 f_equal. lia.
Qed.

Lemma inserted_rows_len num Row :
  1 <= num -> zlen (inserted_rows num Row) = if zlen Row <? num then zlen Row else zlen Row + 1.
Proof.
  intros. unfold inserted_rows. destruct (zlen Row <? num) eqn:E; [done|].
  rewrite zlen_app, zlen_cons. unfold zlen in *. rewrite length_take, length_imap, length_drop. lia.
Qed.

Lemma inserted_rows_wf num Row :
  1 <= num -> wf_rows Row -> zlen Row < maxInt -> wf_rows (inserted_rows num Row).
Proof.
  intros Hn Hwf Hlen i r. rewrite inserted_rows_lookup by done. repeat case_decide.
  - apply Hwf.
  - case_match; [done|]. intros [= <-]. replace (Z.of_nat i + 1) with num by lia. apply freshRow_wf.
  - intros (r' & Hr' & ->)%fmap_Some. eapply renumbered_wf. by apply Hwf.
Qed.

(** The adjusted rows, before [checkSheet] fills the gap. *)
Lemma adjust_row_wf num offset i r :
  wf_row i r -> 1 <= i <= maxInt -> 1 <= i + offset <= maxInt ->
  adjust_row num offset r = if num <=? i then renumbered (i + offset) r else r.
Proof.
  intros Hwf Hi Ho. pose proof Hwf as (HR & _). unfold adjust_row. rewrite HR. int_lia.
  destruct (num <=? i); cbn [andb]; [|done]. replace (0 <? i + offset) with true by lia.
  apply (ajustSingleRowDimensions_wf i); [done|unfold maxInt; lia..].
Qed.

(** A slice with ascending numbers that all lie in a dense target, which is
    blank elsewhere, is rebuilt to that target. *)
Lemma checkSheet_target x Row :
  NoDup (xlsxRow_R <$> sheet_rows x) ->
  checkSheet_count (sheet_rows x) = zlen Row ->
  (forall i r, Row !! i = Some r ->
     r ∈ sheet_rows x /\ xlsxRow_R r = Z.of_nat i + 1 \/
     r = freshRow (Z.of_nat i + 1) /\ Forall (fun r => xlsxRow_R r <> Z.of_nat i + 1) (sheet_rows x)) ->
  sheet_rows (checkSheet x) = Row.
Proof.
  intros Hnd Hcount Hrow. rewrite checkSheet_dense, Hcount by done. apply list_eq. intros i.
  destruct (Row !! i) as [r|] eqn:Er.
  - rewrite dense_rows_lookup by (apply lookup_lt_Some in Er; unfold zlen; lia). f_equal.
    destruct (Hrow _ _ Er) as [[Hin HR]|[-> Hno]].
    + apply list_elem_of_lookup_1 in Hin as [k Hk]. rewrite <- HR. by erewrite find_row_lookup.
    + by rewrite (proj2 (find_row_None _ _)).
  - apply lookup_ge_None in Er. apply lookup_ge_None. unfold dense_rows. rewrite length_fmap, length_seqZ.
    unfold zlen. lia.
Qed.

Lemma checkRow_wf x :
  wf_rows (sheet_rows x) -> zlen (sheet_rows x) <= maxInt ->
  checkRow x = Ret (ok (set_rows (sheet_rows x) x)).
Proof.
  intros Hwf Hlen. rewrite checkRow_sparse by (try apply wf_rows_numbered; try apply wf_sheet_sparse_rows; done).
  do 2 f_equal. f_equal. rewrite <- (list_fmap_id (sheet_rows x)) at 2. apply Forall_fmap_ext_1, Forall_lookup.
  intros i r Hi. apply (wf_row_completed r (Z.of_nat i + 1)); [by apply Hwf|]. apply lookup_lt_Some in Hi.
  unfold zlen in Hlen. lia.
Qed.

Section grid.
Variables (num : Z) (Row : list xlsxRow).
Hypotheses (Hnum : 1 <= num <= maxInt) (Hwf : wf_rows Row) (Hlen : zlen Row < maxInt).

Lemma row_index_range i r : Row !! i = Some r -> 1 <= Z.of_nat i + 1 < maxInt.
Proof using Hlen. intros Hi%lookup_lt_Some. unfold zlen in Hlen. lia. Qed.

Lemma shifted_lookup i :
  (adjust_row num 1 <$> Row) !! i =
    (fun r => if num <=? Z.of_nat i + 1 then renumbered (Z.of_nat i + 2) r else r) <$> Row !! i.
Proof using Hnum Hwf Hlen.
  rewrite list_lookup_fmap. destruct (Row !! i) as [r|] eqn:Er; [|done]. cbn. f_equal.
  pose proof (row_index_range _ _ Er). rewrite (adjust_row_wf _ _ (Z.of_nat i + 1)); [|by apply Hwf|lia..].
  by replace (Z.of_nat i + 1 + 1) with (Z.of_nat i + 2) by lia.
Qed.

Lemma shifted_R i r :
  (adjust_row num 1 <$> Row) !! i = Some r ->
  xlsxRow_R r = if num <=? Z.of_nat i + 1 then Z.of_nat i + 2 else Z.of_nat i + 1.
Proof using Hnum Hwf Hlen.
  rewrite shifted_lookup. intros (r' & Hr' & ->)%fmap_Some. case_match; [done|]. by apply Hwf.
Qed.

Lemma shifted_count : checkSheet_count (adjust_row num 1 <$> Row) = zlen (inserted_rows num Row).
Proof using Hnum Hwf Hlen.
  rewrite inserted_rows_len by lia. unfold checkSheet_count. rewrite zlen_fmap.
  destruct (last (adjust_row num 1 <$> Row)) as [r|] eqn:El.
  - rewrite last_lookup, length_fmap in El. apply shifted_R in El as HR. rewrite HR.
    rewrite list_lookup_fmap in El. destruct (Row !! pred (length Row)) as [r'|] eqn:Er; [|done].
    apply lookup_lt_Some in Er. unfold zlen. repeat case_match; lia.
  - apply last_None, fmap_nil_inv in El as ->. change (zlen []) with 0. destruct (0 <? num) eqn:E; [done|lia].
Qed.

Lemma checkSheet_inserted x :
  sheet_rows x = adjust_row num 1 <$> Row -> sheet_rows (checkSheet x) = inserted_rows num Row.
Proof using Hnum Hwf Hlen.
  intros E. apply checkSheet_target; rewrite E.
  - apply NoDup_alt. intros i j n. rewrite !(list_lookup_fmap xlsxRow_R).
    intros (r & Hi & ->)%fmap_Some (r' & Hj & Hn)%fmap_Some.
    apply shifted_R in Hi, Hj. repeat case_match; lia.
  - apply shifted_count.
  - intros i r. rewrite inserted_rows_lookup by lia. repeat case_decide.
    + intros Hr. left. split; [|by apply Hwf]. apply list_elem_of_lookup. exists i.
      rewrite shifted_lookup, Hr. cbn. by replace (num <=? Z.of_nat i + 1) with false by lia.
    + case_match; [done|]. intros [= <-]. right. split; [by replace num with (Z.of_nat i + 1) by lia|].
      apply Forall_lookup. intros j r Hj%shifted_R. case_match; lia.
    + intros (r' & Hr' & ->)%fmap_Some. left. split; [|done]. apply list_elem_of_lookup. exists (pred i).
      rewrite shifted_lookup, Hr'. cbn. replace (num <=? _) with true by lia. do 2 f_equal. lia.
Qed.

Lemma insert_rows_checked x :
  sheet_rows x = adjust_row num 1 <$> Row ->
  exists x', checkRow (checkSheet x) = Ret (ok x') /\ sheet_rows x' = inserted_rows num Row /\
    x' <| xlsxWorksheet_SheetData := gozero |> = x <| xlsxWorksheet_SheetData := gozero |>.
Proof using Hnum Hwf Hlen.
  intros E. pose proof (checkSheet_inserted x E) as Ec. eexists. split.
  - apply checkRow_wf; rewrite Ec; [apply inserted_rows_wf; [lia|done..]|].
    rewrite inserted_rows_len by lia. case_match; lia.
  - split; [exact Ec|done].
Qed.

(** The rows after the row [num] was removed. *)
Definition removed_rows : list xlsxRow :=
  take (Z.to_nat (num - 1)) Row ++
  imap (fun i r => renumbered (num + Z.of_nat i) r) (drop (Z.to_nat num) Row).

Lemma removed_rows_lookup (i : nat) :
  num <= zlen Row ->
  removed_rows !! i =
    if decide (Z.of_nat i + 1 < num) then Row !! i else renumbered (Z.of_nat i + 1) <$> Row !! S i.
Proof using Hnum.
  intros Hle. unfold removed_rows, zlen in *.
  assert (length (take (Z.to_nat (num - 1)) Row) = Z.to_nat (num - 1)) as Ht by (rewrite length_take; lia).
  case_decide.
  - rewrite lookup_app_l by lia. apply lookup_take_lt. lia.
  - rewrite lookup_app_r by lia. rewrite Ht, list_lookup_imap, lookup_drop.
    replace (Z.to_nat num + (i - Z.to_nat (num - 1)))%nat with (S i) by lia.
    destruct (Row !! S i); [|done]. cbn. do 2 f_equal. lia.
Qed.

Lemma removed_rows_len : num <= zlen Row -> zlen removed_rows = zlen Row - 1.
Proof using Hnum. unfold removed_rows, zlen. rewrite length_app, length_take, length_imap, length_drop. lia. Qed.

Lemma removed_rows_wf : num <= zlen Row -> wf_rows removed_rows.
Proof using Hnum Hwf.
  intros Hle i r. rewrite removed_rows_lookup by done. case_decide; [apply Hwf|].
  intros (r' & Hr' & ->)%fmap_Some. eapply renumbered_wf. by apply Hwf.
Qed.

Lemma adjust_removed :
  num <= zlen Row ->
  adjust_row num (-1) <$> take (Z.to_nat (num - 1)) Row ++ drop (Z.to_nat num) Row = removed_rows.
Proof using Hnum Hwf Hlen.
  intros Hle. rewrite fmap_app. unfold removed_rows. f_equal.
  - rewrite <- (list_fmap_id (take _ _)) at 2. apply Forall_fmap_ext_1, Forall_lookup. intros i r [Hi Hlt]%lookup_take_Some.
    pose proof (Hwf _ _ Hi) as (HR & _). unfold adjust_row. rewrite HR. by replace (num <=? _) with false by lia.
  - apply list_eq. intros i. rewrite list_lookup_fmap, list_lookup_imap, lookup_drop.
    destruct (Row !! _) as [r|] eqn:Er; [|done]. cbn. f_equal. pose proof (row_index_range _ _ Er).
    rewrite (adjust_row_wf _ _ _ _ (Hwf _ _ Er)) by lia. replace (num <=? _) with true by lia. f_equal. lia.
Qed.

Lemma remove_rows_checked x :
  num <= zlen Row -> sheet_rows x = removed_rows ->
  exists x', checkRow (checkSheet x) = Ret (ok x') /\ sheet_rows x' = removed_rows /\
    x' <| xlsxWorksheet_SheetData := gozero |> = x <| xlsxWorksheet_SheetData := gozero |>.
Proof using Hnum Hwf Hlen.
  intros Hle E. pose proof (removed_rows_wf Hle) as Hw.
  assert (sheet_rows (checkSheet x) = removed_rows) as Ec.
  { rewrite checkSheet_numbered; [done|]. rewrite E. by apply wf_rows_numbered. }
  eexists. split.
  - apply checkRow_wf; rewrite Ec; [done|]. rewrite removed_rows_len by done. lia.
  - split; [exact Ec|done].
Qed.

End grid.

(** ** Lemmas: merged areas, hyperlinks and the auto filter *)

(** The position of a row or a column after the adjustment. *)
Definition shift (num offset v : Z) : Z := if num <=? v then Z.max 1 (v + offset) else v.

Definition shift_rect (dir : adjustDirection) (num offset : Z) (R : rect) : rect :=
  if is_rows dir
  then mk_rect (rect_c1 R) (shift num offset (rect_r1 R)) (rect_c2 R) (shift num offset (rect_r2 R))
  else mk_rect (shift num offset (rect_c1 R)) (rect_r1 R) (shift num offset (rect_c2 R)) (rect_r2 R).

Definition rect_single (R : rect) : bool := (rect_c1 R =? rect_c2 R) && (rect_r1 R =? rect_r2 R).

(** The last row or column of a rectangle can be moved. *)
Definition rect_fits (dir : adjustDirection) (offset : Z) (R : rect) : Prop :=
  (if is_rows dir then rect_r2 R else rect_c2 R) + offset <= maxInt.

Lemma adjust_coord_shift num offset v :
  -maxInt <= offset -> 1 <= v <= maxInt -> v + offset <= maxInt -> adjust_coord num offset v = shift num offset v.
Proof.
  intros Ho Hv Hm. unfold adjust_coord, shift. destruct (num <=? v); [|done]. cbv zeta. unfold iadd.
  rewrite wrap64_id by (unfold minInt, maxInt in *; lia). destruct (v + offset <? 1) eqn:E; lia.
Qed.

Lemma shift_rect_wf dir num offset R :
  -1 <= offset <= maxInt -> rect_wf R -> rect_fits dir offset R -> rect_wf (shift_rect dir num offset R).
Proof.
  unfold rect_wf, rect_fits, shift_rect, shift. intros Ho Hw Hf.
  destruct dir; cbn in *; unfold maxInt in *; repeat case_match; lia.
Qed.

Lemma rect_coordinates R :
  rect_wf R ->
  CellNameToCoordinates (cell_name (rect_c1 R) (rect_r1 R)) = ok (rect_c1 R, rect_r1 R) /\
  CellNameToCoordinates (cell_name (rect_c2 R) (rect_r2 R)) = ok (rect_c2 R, rect_r2 R).
Proof. unfold rect_wf. intros Hw. split; apply cell_name_coordinates; lia. Qed.

Lemma rect_ref_split R :
  rect_wf R -> strings_Split (rect_ref R) ":" = [cell_name (rect_c1 R) (rect_r1 R); cell_name (rect_c2 R) (rect_r2 R)].
Proof. unfold rect_wf. intros Hw. apply area_ref_split; lia. Qed.

(** One round on an area that does not become a single cell. *)
Lemma adjust_area_rect dir num offset i p st R :
  -1 <= offset <= maxInt -> rect_wf R -> rect_fits dir offset R ->
  rect_single (shift_rect dir num offset R) = false ->
  backing (ms_ptrs st) !! i = Some p -> ms_objs st !! p = Some (mk_xlsxMergeCell (rect_ref R)) ->
  adjust_area dir num offset i st =
    Ret (ok (st <| ms_objs ::= <[p := mk_xlsxMergeCell (rect_ref (shift_rect dir num offset R))]> |>)).
Proof.
  intros Ho Hw Hf Hs Hp Hobj. unfold adjust_area. rewrite Hp. cbn [mbind option_bind]. rewrite Hobj.
  cbn [mbind option_bind xlsxMergeCell_Ref]. rewrite rect_ref_split by done.
  change (list_get [?a; ?b] 0) with (Ret a). change (list_get [?a; ?b] 1) with (Ret b). cbn [mbind outcome_bind].
  destruct (rect_coordinates R Hw) as [-> ->].
  pose proof (shift_rect_wf dir num offset R ltac:(lia) Hw Hf) as (W1 & W2 & W3 & W4).
  assert (forall v, 1 <= v <= maxInt -> v + offset <= maxInt -> adjust_coord num offset v = shift num offset v) as Ha
    by (intros; apply adjust_coord_shift; unfold maxInt in *; lia).
  destruct Hw as (H1 & H2 & H3 & H4). unfold rect_fits in Hf. unfold rect_single in Hs.
  assert ((if is_rows dir then (adjust_coord num offset (rect_r1 R), adjust_coord num offset (rect_r2 R), rect_c1 R, rect_c2 R)
    else (rect_r1 R, rect_r2 R, adjust_coord num offset (rect_c1 R), adjust_coord num offset (rect_c2 R))) =
    let R' := shift_rect dir num offset R in (rect_r1 R', rect_r2 R', rect_c1 R', rect_c2 R')) as ->.
  { destruct dir; cbn in Hf |- *; rewrite !Ha by lia; done. }
  set (R' := shift_rect dir num offset R) in *. cbv beta iota zeta. rewrite Hs. cbn [mbind outcome_bind].
  pose proof (cell_name_ok (rect_c1 R') (rect_r1 R') ltac:(lia) ltac:(lia)) as E1.
  pose proof (cell_name_ok (rect_c2 R') (rect_r2 R') ltac:(lia) ltac:(lia)) as E2.
  unfold rect_ref, area_ref.
  destruct (CoordinatesToCellName (rect_c1 R') (rect_r1 R')) as [n1 o1].
  destruct (CoordinatesToCellName (rect_c2 R') (rect_r2 R')) as [n2 o2].
  injection E1 as ->. by injection E2 as ->.
Qed.

Lemma insert_rect_areas Rs1 R Rs2 R' :
  <[length Rs1 := mk_xlsxMergeCell (rect_ref R')]> (rect_areas (Rs1 ++ R :: Rs2)) = rect_areas (Rs1 ++ R' :: Rs2).
Proof.
  unfold rect_areas. rewrite !fmap_app, !fmap_cons.
  replace (length Rs1) with (length ((fun R => mk_xlsxMergeCell (rect_ref R)) <$> Rs1)) by apply length_fmap.
  set (k := length _). replace k with (k + 0)%nat by lia. subst k. by rewrite insert_app_r.
Qed.

Lemma adjust_areas_rects dir num offset n count Rs1 Rs2 :
  -1 <= offset <= maxInt ->
  Forall (fun R => rect_wf R /\ rect_fits dir offset R /\ rect_single (shift_rect dir num offset R) = false) Rs2 ->
  (length Rs1 + length Rs2 = n)%nat ->
  adjust_areas dir num offset (seq (length Rs1) (length Rs2))
      (mk_merge_state (slice_of (seq 0 n)) (rect_areas (Rs1 ++ Rs2)) count false) =
    Ret (ok (mk_merge_state (slice_of (seq 0 n)) (rect_areas (Rs1 ++ (shift_rect dir num offset <$> Rs2))) count false)).
Proof.
  intros Ho Hw. revert Rs1. induction Hw as [|R Rs2 (Hw & Hf & Hs) _ IH]; intros Rs1 Hn; [done|].
  cbn [length seq adjust_areas] in *.
  rewrite (adjust_area_rect dir num offset _ (length Rs1) _ R); [|lia|done..| |].
  - cbn [mbind outcome_bind]. specialize (IH (Rs1 ++ [shift_rect dir num offset R])).
    rewrite length_app, Nat.add_1_r in IH. rewrite <- !app_assoc in IH. cbn [app] in IH.
    cbn [fmap list_fmap]. rewrite <- IH by lia. unfold field_update. cbn [ms_objs ms_ptrs ms_count ms_nil].
    by rewrite insert_rect_areas.
  - cbn. rewrite lookup_seq. split; lia.
  - cbn. unfold rect_areas. rewrite fmap_app. apply list_lookup_middle. by rewrite length_fmap.
Qed.

Lemma omap_seq_lookup {A} (l : list A) : omap (fun p => l !! p) (seq 0 (length l)) = l.
Proof.
  induction l as [|x l IH] using rev_ind; [done|]. rewrite length_app, seq_app, omap_app. cbn [length Nat.add seq].
  f_equal.
  - rewrite <- IH at 2. apply list_omap_ext, Forall2_same_length_lookup_2; [done|].
    intros i y z Hy Hz. rewrite Hy in Hz. injection Hz as <-. apply lookup_seq in Hy as [-> Hi]. by apply lookup_app_l.
  - cbn. by rewrite list_lookup_middle.
Qed.

(** The areas of a sheet that all stay areas. *)
Definition rects_kept (dir : adjustDirection) (num offset : Z) (Rs : list rect) : Prop :=
  Forall (fun R => rect_wf R /\ rect_fits dir offset R /\ rect_single (shift_rect dir num offset R) = false) Rs.

Lemma adjustMergeCells_rects xlsx dir num offset Rs :
  -1 <= offset <= maxInt -> merge_areas xlsx = rect_areas Rs -> rects_kept dir num offset Rs ->
  exists mc, adjustMergeCells xlsx dir num offset = Ret (ok (xlsx <| xlsxWorksheet_MergeCells := mc |>)) /\
    match mc with Some m => xlsxMergeCells_Cells m | None => [] end = rect_areas (shift_rect dir num offset <$> Rs).
Proof.
  intros Ho Ha Hk. unfold adjustMergeCells. unfold merge_areas in Ha.
  destruct (xlsxWorksheet_MergeCells xlsx) as [mc|] eqn:Emc.
  - assert (length (xlsxMergeCells_Cells mc) = length Rs) as El by (rewrite Ha; apply length_fmap).
    unfold merge_start. rewrite El, Ha.
    rewrite (adjust_areas_rects dir num offset (length Rs) _ [] Rs) by done. eexists. split; [reflexivity|].
    cbn. unfold elems, slice_of. cbn [slen backing]. rewrite take_seq, length_seq, Nat.min_id.
    unfold rect_areas. rewrite <- (length_fmap (shift_rect dir num offset) Rs).
    rewrite <- (length_fmap (fun R => mk_xlsxMergeCell (rect_ref R))). apply omap_seq_lookup.
  - destruct Rs; [|done]. exists None. split; [|done]. cbn. rewrite <- Emc. by destruct xlsx.
Qed.

(** The auto filter of a sheet as a record with a rectangle. *)
Definition filter_of (o : option (xlsxAutoFilter * rect)) : option xlsxAutoFilter :=
  (fun p => p.1 <| xlsxAutoFilter_Ref := rect_ref p.2 |>) <$> o.

Definition filter_kept (num offset : Z) (o : option (xlsxAutoFilter * rect)) : Prop :=
  match o with
  | Some (_, R) => rect_wf R /\ rect_fits rows offset R /\ (offset < 0 -> rect_r1 R <> num)
  | None => True
  end.

Lemma adjustAutoFilter_rows xlsx num offset o :
  -1 <= offset <= maxInt -> 1 <= num -> xlsxWorksheet_AutoFilter xlsx = filter_of o -> filter_kept num offset o ->
  adjustAutoFilter xlsx rows num offset =
    Ret (ok (xlsx <| xlsxWorksheet_AutoFilter := filter_of (prod_map id (shift_rect rows num offset) <$> o) |>)).
Proof.
  intros Ho Hn E Hk. unfold adjustAutoFilter. rewrite E. destruct o as [[af R]|]; cbn [filter_of fmap option_fmap option_map fst snd].
  2:{ cbn in E. rewrite <- E. by destruct xlsx. }
  destruct Hk as (Hw & Hf & Hne). change (xlsxAutoFilter_Ref (af <| xlsxAutoFilter_Ref := rect_ref R |>)) with (rect_ref R).
  rewrite rect_ref_split by done.
  change (list_get [?a; ?b] 0) with (Ret a). change (list_get [?a; ?b] 1) with (Ret b). cbn [mbind outcome_bind].
  destruct (rect_coordinates R Hw) as [-> ->]. destruct Hw as (H1 & H2 & H3 & H4). unfold rect_fits in Hf. cbn in Hf.
  cbn [is_rows negb andb]. rewrite orb_false_r.
  replace ((rect_r1 R =? num) && (offset <? 0)) with false by lia.
  assert (forall v, 1 <= v <= rect_r2 R -> (offset < 0 -> v <> num \/ 2 <= v) -> forall c,
    (if num <=? v then cell_name c (iadd v offset) else cell_name c v) = cell_name c (shift num offset v)) as Hv.
  { intros v Hv Hv' c. unfold shift. destruct (num <=? v) eqn:En; [|done]. do 2 f_equal. int_lia. }
  rewrite !Hv by lia. done.
Qed.

Section adjust_lemmas.
Context `{GoEnv}.

Lemma remove_links_none sheet hit ks s isnil f :
  Forall (fun k => exists v, backing s !! k = Some v /\ hit v = false) ks ->
  remove_links sheet hit ks s isnil f = Ret ((s, isnil), f).
Proof. induction 1 as [|k ks (v & Hv & Hh) Hks IH]; [done|]. cbn. by rewrite Hv, Hh. Qed.

(** The hyperlinks of the sheet, moved. *)
Definition shift_links (dir : adjustDirection) (num offset : Z) (xlsx : xlsxWorksheet) : xlsxWorksheet :=
  xlsx <| xlsxWorksheet_Hyperlinks ::= fmap (fun h => h <| xlsxHyperlinks_Hyperlink ::= fmap (shift_link dir num offset) |>) |>.

Definition links_kept (dir : adjustDirection) (num offset : Z) (xlsx : xlsxWorksheet) : Prop :=
  offset < 0 -> Forall (fun l => link_hit dir num l = false) (sheet_links xlsx).

Lemma adjustHyperlinks_shift f path xlsx sheet dir num offset :
  File_Sheet f !! path = Some xlsx -> links_kept dir num offset xlsx ->
  adjustHyperlinks (Some path) sheet dir num offset f = Ret (tt, with_sheet f path (shift_links dir num offset xlsx)).
Proof.
  intros Hs Hk. unfold adjustHyperlinks. rewrite (bind_Ret _ _ _ _ _ (deref_loaded _ _ _ Hs)).
  unfold links_kept in Hk. unfold shift_links. unfold sheet_links in *.
  destruct (zlen _ =? 0) eqn:Ez.
  - rewrite with_sheet_same; [done|]. rewrite Hs. f_equal.
    destruct (xlsxWorksheet_Hyperlinks xlsx) as [[l]|] eqn:Eh; destruct xlsx; cbn in *; subst; [|done].
    by destruct l.
  - assert ((if offset <? 0
         then remove_links sheet (link_hit dir num) (seq 0 (length (sheet_links xlsx))) (slice_of (sheet_links xlsx)) false
         else mret (slice_of (sheet_links xlsx), false)) f = Ret ((slice_of (sheet_links xlsx), false), f)) as E.
    { destruct (offset <? 0) eqn:Eo; [|done]. apply remove_links_none, Forall_forall. intros k [_ Hl]%elem_of_seq. cbn.
      destruct (lookup_lt_is_Some_2 (sheet_links xlsx) k) as [v Hv]; [lia|]. exists v. split; [done|].
      specialize (Hk ltac:(lia)). rewrite Forall_lookup in Hk. by eapply Hk. }
    rewrite (bind_Ret _ _ _ _ _ E). cbn [fst snd]. unfold update. rewrite (bind_Ret _ _ _ _ _ (deref_loaded _ _ _ Hs)).
    rewrite assign_sheet. rewrite elems_slice_of. unfold set_links, sheet_links.
    destruct (xlsxWorksheet_Hyperlinks xlsx) as [[l]|] eqn:Eh; [|done]. do 3 f_equal. destruct xlsx; cbn in *. by subst.
Qed.

Definition adjust_grid (dir : adjustDirection) (num offset : Z) (xlsx : xlsxWorksheet) : xlsxWorksheet :=
  if is_rows dir then adjustRowDimensions xlsx num offset else adjustColDimensions xlsx num offset.

Lemma apply_adjust_ok f path xlsx g xlsx' e :
  File_Sheet f !! path = Some xlsx -> g xlsx = Ret (xlsx', e) ->
  apply_adjust (Some path) g f = Ret (e, with_sheet f path xlsx').
Proof.
  intros Hs E. unfold apply_adjust. rewrite (bind_Ret _ _ _ _ _ (deref_loaded _ _ _ Hs)).
  unfold lift, mbind, gom_bind. rewrite E. done.
Qed.

(** The whole adjustment on a sheet in memory whose areas and links all stay:
    it is composed of the adjustments of the parts, and only the grid is left
    to be computed. *)
Lemma adjustHelper_ok f sheet path xlsx dir num offset Rs filter' Row' :
  loaded f sheet path xlsx -> -1 <= offset <= maxInt ->
  merge_areas xlsx = rect_areas Rs -> rects_kept dir num offset Rs -> links_kept dir num offset xlsx ->
  (forall x, xlsxWorksheet_AutoFilter x = xlsxWorksheet_AutoFilter xlsx ->
     adjustAutoFilter x dir num offset = Ret (ok (x <| xlsxWorksheet_AutoFilter := filter' |>))) ->
  (forall x, sheet_rows x = sheet_rows (adjust_grid dir num offset xlsx) ->
     exists x', checkRow (checkSheet x) = Ret (ok x') /\ sheet_rows x' = Row' /\
       x' <| xlsxWorksheet_SheetData := gozero |> = x <| xlsxWorksheet_SheetData := gozero |>) ->
  exists xlsx', adjustHelper sheet dir num offset f = Ret (None, with_sheet f path xlsx') /\
    sheet_rows xlsx' = Row' /\ merge_areas xlsx' = rect_areas (shift_rect dir num offset <$> Rs) /\
    sheet_links xlsx' = shift_link dir num offset <$> sheet_links xlsx /\
    xlsxWorksheet_AutoFilter xlsx' = filter' /\
    xlsx' <| xlsxWorksheet_SheetData := gozero |> <| xlsxWorksheet_MergeCells := None |>
          <| xlsxWorksheet_Hyperlinks := None |> <| xlsxWorksheet_AutoFilter := None |> =
    xlsx <| xlsxWorksheet_SheetData := gozero |> <| xlsxWorksheet_MergeCells := None |>
          <| xlsxWorksheet_Hyperlinks := None |> <| xlsxWorksheet_AutoFilter := None |>.
Proof.
  intros Hl Ho Ha Hk Hlk Hf Hg. pose proof Hl as [_ Hs].
  set (x1 := adjust_grid dir num offset xlsx) in *. set (x2 := shift_links dir num offset x1).
  assert (merge_areas x2 = rect_areas Rs) as Ha2 by (subst x2 x1; unfold adjust_grid; by destruct dir).
  destruct (adjustMergeCells_rects x2 dir num offset Rs Ho Ha2 Hk) as (mc & Em & Emc).
  set (x3 := x2 <| xlsxWorksheet_MergeCells := mc |>) in *.
  assert (xlsxWorksheet_AutoFilter x3 = xlsxWorksheet_AutoFilter xlsx) as Hf3 by (subst x3 x2 x1; unfold adjust_grid; by destruct dir).
  specialize (Hf x3 Hf3). set (x4 := x3 <| xlsxWorksheet_AutoFilter := filter' |>) in *.
  assert (sheet_rows x4 = sheet_rows x1) as Hr4 by done.
  destruct (Hg x4 Hr4) as (x5 & E5 & Hr5 & Hrest).
  exists x5. split.
  - unfold adjustHelper. rewrite (bind_Ret _ _ _ _ _ (workSheetReader_loaded _ _ _ _ Hl)).
    assert (forall f' x, File_Sheet (with_sheet f' path x) !! path = Some x) as Hws by (intros; apply lookup_insert_eq).
    unfold update. rewrite bind_Ret with (a := tt) (s' := with_sheet f path x1).
    2:{ by rewrite (bind_Ret _ _ _ _ _ (deref_loaded _ _ _ Hs)). }
    rewrite (bind_Ret _ _ _ _ _ (adjustHyperlinks_shift _ _ x1 sheet dir num offset (Hws _ _) ltac:(
      unfold links_kept, x1, adjust_grid in *; by destruct dir))).
    fold x2. rewrite with_sheet_twice.
    rewrite (bind_Ret _ _ _ _ _ (apply_adjust_ok _ _ _ _ _ _ (Hws _ _) Em)), with_sheet_twice.
    rewrite (bind_Ret _ _ _ _ _ (apply_adjust_ok _ _ _ _ _ _ (Hws _ _) Hf)), with_sheet_twice.
    rewrite bind_Ret with (a := tt) (s' := with_sheet f path (checkSheet x4)).
    2:{ rewrite (bind_Ret _ _ _ _ _ (deref_loaded _ _ _ (Hws _ _))), assign_sheet, with_sheet_twice. done. }
    rewrite (bind_Ret _ _ _ _ _ (apply_adjust_ok _ _ _ _ _ _ (Hws _ _) E5)), with_sheet_twice. done.
  - split; [done|].
    assert (forall A (g : xlsxWorksheet -> A), (forall x, g (x <| xlsxWorksheet_SheetData := gozero |>) = g x) -> g x5 = g x4) as Hother.
    { intros A g Hg'. by rewrite <- Hg', Hrest, Hg'. }
    split_and!.
    + unfold merge_areas. by rewrite (Hother _ xlsxWorksheet_MergeCells) by done.
    + unfold sheet_links. rewrite (Hother _ xlsxWorksheet_Hyperlinks) by done.
      subst x4 x3 x2 x1. unfold adjust_grid. destruct dir; cbn; by destruct (xlsxWorksheet_Hyperlinks xlsx).
    + by rewrite (Hother _ xlsxWorksheet_AutoFilter).
    + rewrite Hrest. subst x4 x3 x2 x1. unfold adjust_grid. by destruct dir.
Qed.

End adjust_lemmas.
