(* ===== verification/Rows.v ===== *)
(** [rows.go]: row heights, visibility and outline levels, and inserting,
    removing and duplicating rows. *)
From S2P Require Export Adjust.

Definition defaultRowHeightPixels : float64 := f64_of_int 20.

Definition convertRowHeightToPixels (height : float64) : float64 :=
  if f64_eqb height f64_zero then f64_zero
  else math_Ceil (f64_mul (f64_const 4 3) height).

Section rows_ops.
Context `{GoEnv}.

(** A write to the row [row], which is created when it is missing. *)
Definition set_row (sheet : string) (row : Z) (g : xlsxRow -> xlsxRow) : M (option goerr) :=
  if row <? 1 then mret (Some (newInvalidRowNumberError row))
  else
    let! p := workSheetReader sheet in
    update_o p (fun xlsx => prepareSheetXML xlsx 0 row);;
    update_o p (fun xlsx =>
      r ← list_get (sheet_rows xlsx) (row - 1);
      Row ← list_set (sheet_rows xlsx) (row - 1) (g r);
      Ret (set_rows Row xlsx));;
    mret None.

Definition SetRowHeight (sheet : string) (row : Z) (height : float64) : M (option goerr) :=
  set_row sheet row (fun r => r <| xlsxRow_Ht := height |> <| xlsxRow_CustomHeight := true |>).

Definition SetRowVisible (sheet : string) (row : Z) (visible : bool) : M (option goerr) :=
  set_row sheet row (fun r => r <| xlsxRow_Hidden := negb visible |>).

Definition SetRowOutlineLevel (sheet : string) (row level : Z) : M (option goerr) :=
  set_row sheet row (fun r => r <| xlsxRow_OutlineLevel := level |>).

(** The first row with the number and a height other than zero. *)
Definition row_height (row : Z) (xlsx : xlsxWorksheet) : option float64 :=
  (fun p => xlsxRow_Ht p.2) <$>
    list_find (fun v => (xlsxRow_R v =? row) && negb (f64_eqb (xlsxRow_Ht v) f64_zero) = true) (sheet_rows xlsx).

(** The error of [workSheetReader] is ignored: a missing sheet panics. *)
Definition getRowHeight (sheet : string) (row : Z) : M Z :=
  p ← workSheetReader sheet;
  xlsx ← deref p.1;
  mret (match row_height (iadd row 1) xlsx with
        | Some ht => f64_to_int (convertRowHeightToPixels ht)
        | None => f64_to_int defaultRowHeightPixels
        end).

Definition GetRowHeight (sheet : string) (row : Z) : M (float64 * option goerr) :=
  if row <? 1 then mret (err_with defaultRowHeightPixels (newInvalidRowNumberError row))
  else
    let! p := workSheetReader sheet orelse defaultRowHeightPixels in
    xlsx ← deref p;
    if zlen (sheet_rows xlsx) <? row then mret (ok defaultRowHeightPixels)
    else mret (ok (match row_height row xlsx with Some ht => ht | None => defaultRowHeightPixels end)).

(** A field of the row at the index of a number, [d] beyond the last row. *)
Definition get_row {A} (sheet : string) (row : Z) (d : A) (g : xlsxRow -> A) : M (A * option goerr) :=
  if row <? 1 then mret (err_with d (newInvalidRowNumberError row))
  else
    let! p := workSheetReader sheet orelse d in
    xlsx ← deref p;
    if zlen (sheet_rows xlsx) <? row then mret (ok d)
    else r ← lift (list_get (sheet_rows xlsx) (row - 1)); mret (ok (g r)).

Definition GetRowVisible (sheet : string) (row : Z) : M (bool * option goerr) :=
  get_row sheet row false (fun r => negb (xlsxRow_Hidden r)).

Definition GetRowOutlineLevel (sheet : string) (row : Z) : M (Z * option goerr) :=
  get_row sheet row 0 xlsxRow_OutlineLevel.

(** ** Removing and inserting *)

(** The first row with the number is deleted from the slice. *)
Definition drop_row (row : Z) (xlsx : xlsxWorksheet) : option xlsxWorksheet :=
  match delete_first (fun r => xlsxRow_R r =? row) (sheet_rows xlsx) with
  | Some (_, Row) => Some (set_rows Row xlsx)
  | None => None
  end.

Definition RemoveRow (sheet : string) (row : Z) : M (option goerr) :=
  if row <? 1 then mret (Some (newInvalidRowNumberError row))
  else
    let! p := workSheetReader sheet in
    xlsx ← deref p;
    if zlen (sheet_rows xlsx) <? row then mret None
    else
      match drop_row row xlsx with
      | Some xlsx' => assign p xlsx';; adjustHelper sheet rows row (-1)
      | None => mret None
      end.

Definition InsertRow (sheet : string) (row : Z) : M (option goerr) :=
  if row <? 1 then mret (Some (newInvalidRowNumberError row)) else adjustHelper sheet rows row 1.

(** The copy of the row shares its cells with the sheet until they are copied,
    after the adjustment, which renames them in place when the row is moved. *)
Definition copied_row (rowCopy : xlsxRow) (row row2 : Z) : xlsxRow :=
  ajustSingleRowDimensions
    (if row2 <=? row then rowCopy <| xlsxRow_C ::= fmap (ajust_cell_row (iadd row 1)) |> else rowCopy) row2.

Definition place_copy (rowCopy : xlsxRow) (row2 : Z) (xlsx : xlsxWorksheet) : xlsxWorksheet :=
  match list_find (fun r => xlsxRow_R r = row2) (sheet_rows xlsx) with
  | Some (idx2, _) => set_rows (<[idx2 := rowCopy]> (sheet_rows xlsx)) xlsx
  | None => if row2 <=? zlen (sheet_rows xlsx) then xlsx
            else set_rows (sheet_rows xlsx ++ [rowCopy]) xlsx
  end.

Definition DuplicateRowTo (sheet : string) (row row2 : Z) : M (option goerr) :=
  if row <? 1 then mret (Some (newInvalidRowNumberError row))
  else
    let! p := workSheetReader sheet in
    xlsx ← deref p;
    if (zlen (sheet_rows xlsx) <? row) || (row2 <? 1) || (row =? row2) then mret None
    else
      match find_row row (sheet_rows xlsx) with
      | None => mret None
      | Some rowCopy =>
          try! adjustHelper sheet rows row2 1 in
          update p (place_copy (copied_row rowCopy row row2) row2);;
          mret None
      end.

Definition DuplicateRow (sheet : string) (row : Z) : M (option goerr) :=
  DuplicateRowTo sheet row (iadd row 1).

End rows_ops.

(** ** Lemmas *)

Lemma drop_row_wf x num Row :
  1 <= num -> wf_rows Row ->
  sheet_rows x = Row -> num <= zlen Row ->
  drop_row num x = Some (set_rows (take (Z.to_nat (num - 1)) Row ++ drop (Z.to_nat num) Row) x).
Proof.
  intros Hnum Hwf E Hle. unfold drop_row, delete_first. rewrite E.
  destruct (lookup_lt_is_Some_2 Row (Z.to_nat (num - 1))) as [r Hr]; [unfold zlen in Hle; lia|].
  assert (list_find (fun x => (xlsxRow_R x =? num) = true) Row = Some (Z.to_nat (num - 1), r)) as ->.
  { apply list_find_Some. split; [done|]. pose proof (wf_rows_numbered _ Hwf) as Hn. split.
    - rewrite (Hn _ _ Hr). lia.
    - intros j y Hj Hlt. rewrite (Hn _ _ Hj). lia. }
  by replace (S (Z.to_nat (num - 1))) with (Z.to_nat num) by lia.
Qed.

Lemma sheet_cell_rows xlsx Row col row :
  sheet_rows xlsx = Row -> sheet_cell xlsx col row = Row !! Z.to_nat (row - 1) ≫= fun r => xlsxRow_C r !! Z.to_nat (col - 1).
Proof. by intros <-. Qed.

(** A cell under the name of another position. *)
Definition moved_cell (col row : Z) (c : xlsxC) : xlsxC := c <| xlsxC_R := cell_name col row |>.

Lemma renumbered_cell_at num r col :
  1 <= col -> xlsxRow_C (renumbered num r) !! Z.to_nat (col - 1) = moved_cell col num <$> xlsxRow_C r !! Z.to_nat (col - 1).
Proof. intros Hc. rewrite renumbered_cell. by replace (Z.of_nat (Z.to_nat (col - 1)) + 1) with col by lia. Qed.

Lemma inserted_rows_at num Row row :
  1 <= num -> 1 <= row ->
  inserted_rows num Row !! Z.to_nat (row - 1) =
    if row <? num then Row !! Z.to_nat (row - 1)
    else if row =? num then if zlen Row <? num then None else Some (freshRow num)
    else renumbered row <$> Row !! Z.to_nat (row - 2).
Proof.
  intros Hn Hr. rewrite inserted_rows_lookup by done. rewrite index_succ by lia.
  replace (pred (Z.to_nat (row - 1))) with (Z.to_nat (row - 2)) by lia.
  repeat case_decide; [replace (row <? num) with true by lia|replace (row <? num) with false by lia|replace (row <? num) with false by lia].
  - done.
  - by replace (row =? num) with true by lia.
  - by replace (row =? num) with false by lia.
Qed.

Lemma removed_rows_at num Row row :
  1 <= num -> num <= zlen Row -> 1 <= row ->
  removed_rows num Row !! Z.to_nat (row - 1) =
    if row <? num then Row !! Z.to_nat (row - 1) else renumbered row <$> Row !! Z.to_nat row.
Proof.
  intros Hn Hle Hr. destruct (Z_le_gt_dec num maxInt) as [Hm|Hm].
  - rewrite removed_rows_lookup by (done || lia). rewrite index_succ by lia.
    replace (S (Z.to_nat (row - 1))) with (Z.to_nat row) by lia.
    case_decide; [by replace (row <? num) with true by lia|by replace (row <? num) with false by lia].
  - unfold removed_rows, zlen in *.
    assert (length (take (Z.to_nat (num - 1)) Row) = Z.to_nat (num - 1)) as Ht by (rewrite length_take; lia).
    destruct (row <? num) eqn:E.
    + rewrite lookup_app_l by lia. apply lookup_take_lt. lia.
    + rewrite lookup_app_r by lia. rewrite Ht, list_lookup_imap, lookup_drop.
      replace (Z.to_nat num + _)%nat with (Z.to_nat row) by lia. destruct (Row !! _); [|done]. cbn. do 2 f_equal. lia.
Qed.

(** The cells of the two grids. *)
Lemma inserted_sheet_cell xlsx x num col row :
  1 <= num -> 1 <= col -> 1 <= row -> sheet_rows x = inserted_rows num (sheet_rows xlsx) ->
  sheet_cell x col row =
    if row <? num then sheet_cell xlsx col row
    else if row =? num then None
    else moved_cell col row <$> sheet_cell xlsx col (row - 1).
Proof.
  intros Hn Hc Hrow Hr. rewrite (sheet_cell_rows _ _ _ _ Hr), inserted_rows_at by lia.
  repeat case_match; [done..|]. unfold sheet_cell. replace (row - 1 - 1) with (row - 2) by lia.
  destruct (sheet_rows xlsx !! Z.to_nat (row - 2)) as [r|]; [|done]. by apply renumbered_cell_at.
Qed.

Lemma removed_sheet_cell xlsx x num col row :
  1 <= num <= zlen (sheet_rows xlsx) -> 1 <= col -> 1 <= row ->
  sheet_rows x = removed_rows num (sheet_rows xlsx) ->
  sheet_cell x col row =
    if row <? num then sheet_cell xlsx col row else moved_cell col row <$> sheet_cell xlsx col (row + 1).
Proof.
  intros Hn Hc Hrow Hr. rewrite (sheet_cell_rows _ _ _ _ Hr), removed_rows_at by lia.
  case_match; [done|]. unfold sheet_cell. replace (row + 1 - 1) with row by lia.
  destruct (sheet_rows xlsx !! Z.to_nat row) as [r|]; [|done]. by apply renumbered_cell_at.
Qed.

(** The attributes of the rows. *)
Lemma inserted_props xlsx x num row :
  1 <= num -> 1 <= row -> sheet_rows x = inserted_rows num (sheet_rows xlsx) ->
  props_at x row = if row <? num then props_at xlsx row else if row =? num then gozero else props_at xlsx (row - 1).
Proof.
  intros Hn Hrow Hr. unfold props_at. rewrite Hr, inserted_rows_at by lia. replace (row - 1 - 1) with (row - 2) by lia.
  destruct (row <? num); [done|]. destruct (row =? num); [by case_match|]. by destruct (sheet_rows xlsx !! _).
Qed.

Lemma removed_props xlsx x num row :
  1 <= num <= zlen (sheet_rows xlsx) -> 1 <= row -> sheet_rows x = removed_rows num (sheet_rows xlsx) ->
  props_at x row = if row <? num then props_at xlsx row else props_at xlsx (row + 1).
Proof.
  intros Hn Hrow Hr. unfold props_at. rewrite Hr, removed_rows_at by lia. replace (row + 1 - 1) with row by lia.
  destruct (row <? num); [done|]. by destruct (sheet_rows xlsx !! _).
Qed.

Section rows_properties.
Context `{GoEnv}.

(** What is assumed of a sheet for the adjustment of its rows: it is dense, its
    areas are the rectangles [Rs], its auto filter [o], and the rows that are moved
    stay in the range of the integers. *)
Record row_adjustable (f : File) (sheet path : string) (xlsx : xlsxWorksheet) (num offset : Z)
    (Rs : list rect) (o : option (xlsxAutoFilter * rect)) : Prop := {
  ra_loaded : loaded f sheet path xlsx;
  ra_wf : wf_sheet xlsx;
  ra_len : zlen (sheet_rows xlsx) < maxInt;
  ra_num : 1 <= num <= maxInt;
  ra_areas : merge_areas xlsx = rect_areas Rs;
  ra_kept : rects_kept rows num offset Rs;
  ra_links : links_kept rows num offset xlsx;
  ra_filter : xlsxWorksheet_AutoFilter xlsx = filter_of o;
  ra_filter_kept : filter_kept num offset o
}.

(** The parts of the sheet other than the grid after the adjustment. *)
Definition row_adjusted (xlsx xlsx' : xlsxWorksheet) (num offset : Z) (Rs : list rect)
    (o : option (xlsxAutoFilter * rect)) : Prop :=
  merge_areas xlsx' = rect_areas (shift_rect rows num offset <$> Rs) /\
  sheet_links xlsx' = shift_link rows num offset <$> sheet_links xlsx /\
  xlsxWorksheet_AutoFilter xlsx' = filter_of (prod_map id (shift_rect rows num offset) <$> o) /\
  xlsx' <| xlsxWorksheet_SheetData := gozero |> <| xlsxWorksheet_MergeCells := None |>
        <| xlsxWorksheet_Hyperlinks := None |> <| xlsxWorksheet_AutoFilter := None |> =
  xlsx <| xlsxWorksheet_SheetData := gozero |> <| xlsxWorksheet_MergeCells := None |>
        <| xlsxWorksheet_Hyperlinks := None |> <| xlsxWorksheet_AutoFilter := None |>.

Lemma InsertRow_rows f sheet path xlsx num Rs o :
  row_adjustable f sheet path xlsx num 1 Rs o ->
  exists xlsx', InsertRow sheet num f = Ret (None, with_sheet f path xlsx') /\
    sheet_rows xlsx' = inserted_rows num (sheet_rows xlsx) /\ wf_sheet xlsx' /\
    row_adjusted xlsx xlsx' num 1 Rs o.
Proof.
  intros [Hl [Hwf Hle] Hlen Hn Ha Hk Hlk Hf Hfk]. unfold InsertRow. replace (num <? 1) with false by lia.
  destruct (adjustHelper_ok f sheet path xlsx rows num 1 Rs
    (filter_of (prod_map id (shift_rect rows num 1) <$> o)) (inserted_rows num (sheet_rows xlsx))) as (x & E & Hr & Hrest);
    [done|unfold maxInt; lia|done..| | |].
  - intros x Hx. apply adjustAutoFilter_rows; [unfold maxInt; lia|lia|by rewrite Hx|done].
  - intros x Hx. apply insert_rows_checked; [done..|]. by rewrite Hx.
  - exists x. split; [done|]. split; [done|]. split; [|done]. split.
    + rewrite Hr. apply inserted_rows_wf; [lia|done..].
    + rewrite Hr, inserted_rows_len by lia. case_match; lia.
Qed.

Lemma RemoveRow_rows f sheet path xlsx num Rs o :
  row_adjustable f sheet path xlsx num (-1) Rs o -> num <= zlen (sheet_rows xlsx) ->
  exists xlsx', RemoveRow sheet num f = Ret (None, with_sheet f path xlsx') /\
    sheet_rows xlsx' = removed_rows num (sheet_rows xlsx) /\ wf_sheet xlsx' /\
    row_adjusted xlsx xlsx' num (-1) Rs o.
Proof.
  intros [Hl [Hwf Hle] Hlen Hn Ha Hk Hlk Hf Hfk] Hin. unfold RemoveRow. replace (num <? 1) with false by lia.
  rewrite (bind_Ret _ _ _ _ _ (workSheetReader_loaded _ _ _ _ Hl)).
  rewrite (bind_Ret _ _ _ _ _ (deref_loaded _ _ _ (proj2 Hl))).
  replace (zlen (sheet_rows xlsx) <? num) with false by lia.
  rewrite (drop_row_wf xlsx num (sheet_rows xlsx)) by (done || lia).
  set (x0 := set_rows _ xlsx). rewrite (bind_Ret _ _ _ _ _ (assign_sheet _ _ _)).
  destruct (adjustHelper_ok (with_sheet f path x0) sheet path x0 rows num (-1) Rs
    (filter_of (prod_map id (shift_rect rows num (-1)) <$> o)) (removed_rows num (sheet_rows xlsx))) as (x & E & Hr & Hrest).
  - by apply (with_sheet_loaded f sheet path xlsx).
  - unfold maxInt; lia.
  - done.
  - done.
  - done.
  - intros x Hx. apply adjustAutoFilter_rows; [unfold maxInt; lia|lia|by rewrite Hx|done].
  - intros x Hx. apply remove_rows_checked; [done..|]. rewrite Hx. by apply adjust_removed.
  - exists x. split; [by rewrite E, with_sheet_twice|]. split; [done|]. split; [|exact Hrest]. split.
    + rewrite Hr. apply removed_rows_wf; [lia|done..].
    + rewrite Hr, removed_rows_len by (done || lia). lia.
Qed.

(** C11. [InsertRow] on a sheet in memory: the rows from the given one on move down
    by one, with their attributes and their cells, which are renamed; a blank row
    takes the free place, and the rows above are untouched. The merged areas,
    the hyperlinks and the auto filter move along, the sheet stays dense, and
    nothing else in it changes. Inserting below the last row changes nothing. *)
Theorem InsertRow_correct f sheet path xlsx num Rs o :
  row_adjustable f sheet path xlsx num 1 Rs o ->
  exists xlsx', InsertRow sheet num f = Ret (None, with_sheet f path xlsx') /\ wf_sheet xlsx' /\
    (forall row, 1 <= row -> sheet_rows xlsx' !! Z.to_nat (row - 1) =
       if row <? num then sheet_rows xlsx !! Z.to_nat (row - 1)
       else if row =? num then if zlen (sheet_rows xlsx) <? num then None else Some (freshRow num)
       else renumbered row <$> sheet_rows xlsx !! Z.to_nat (row - 2)) /\
    (forall col row, 1 <= col -> 1 <= row -> sheet_cell xlsx' col row =
       if row <? num then sheet_cell xlsx col row
       else if row =? num then None
       else moved_cell col row <$> sheet_cell xlsx col (row - 1)) /\
    row_adjusted xlsx xlsx' num 1 Rs o.
Proof.
  intros Hadj. destruct (InsertRow_rows _ _ _ _ _ _ _ Hadj) as (x & E & Hr & Hwf & Hrest).
  pose proof (ra_num _ _ _ _ _ _ _ _ Hadj) as Hn.
  exists x. split_and!; [done|done|..|done].
  - intros row Hrow. rewrite Hr. apply inserted_rows_at; lia.
  - intros col row Hc Hrow. apply inserted_sheet_cell; (done || lia).
Qed.

Lemma RemoveRow_beyond f sheet path xlsx num :
  loaded f sheet path xlsx -> 1 <= num /\ zlen (sheet_rows xlsx) < num -> RemoveRow sheet num f = Ret (None, f).
Proof.
  intros Hl Hn. unfold RemoveRow. replace (num <? 1) with false by lia.
  rewrite (bind_Ret _ _ _ _ _ (workSheetReader_loaded _ _ _ _ Hl)).
  rewrite (bind_Ret _ _ _ _ _ (deref_loaded _ _ _ (proj2 Hl))). by replace (_ <? num) with true by lia.
Qed.

(** C12. [RemoveRow]: the row disappears with its cells, the rows below move up by
    one and keep their attributes and cells, and the rest of the sheet follows
    as for an insertion. A row beyond the last one is removed by doing nothing. *)
Theorem RemoveRow_correct f sheet path xlsx num Rs o :
  row_adjustable f sheet path xlsx num (-1) Rs o ->
  (zlen (sheet_rows xlsx) < num -> RemoveRow sheet num f = Ret (None, f)) /\
  (num <= zlen (sheet_rows xlsx) ->
   exists xlsx', RemoveRow sheet num f = Ret (None, with_sheet f path xlsx') /\ wf_sheet xlsx' /\
    (forall row, 1 <= row -> sheet_rows xlsx' !! Z.to_nat (row - 1) =
       if row <? num then sheet_rows xlsx !! Z.to_nat (row - 1)
       else renumbered row <$> sheet_rows xlsx !! Z.to_nat row) /\
    (forall col row, 1 <= col -> 1 <= row -> sheet_cell xlsx' col row =
       if row <? num then sheet_cell xlsx col row
       else moved_cell col row <$> sheet_cell xlsx col (row + 1)) /\
    row_adjusted xlsx xlsx' num (-1) Rs o).
Proof.
  intros Hadj. pose proof (ra_num _ _ _ _ _ _ _ _ Hadj) as Hn. split.
  - intros Hlt. apply (RemoveRow_beyond f sheet path xlsx); [by eapply ra_loaded|lia].
  - intros Hle. destruct (RemoveRow_rows _ _ _ _ _ _ _ Hadj Hle) as (x & E & Hr & Hwf & Hrest).
    exists x. split_and!; [done|done|..|done].
    + intros row Hrow. rewrite Hr. apply removed_rows_at; lia.
    + intros col row Hc Hrow. apply removed_sheet_cell; (done || lia).
Qed.

(** *** Inserting and removing the same row *)

Lemma renumbered_wf_same n r : wf_row n r -> renumbered n r = r.
Proof.
  intros (HR & HC & _). unfold renumbered. cbv beta delta [field_update]. cbn [xlsxRow_C].
  rewrite named_cells_same, <- HR by done. by destruct r.
Qed.

Lemma renumbered_twice a b r : renumbered a (renumbered b r) = renumbered a r.
Proof. unfold renumbered. cbv beta delta [field_update]. cbn [xlsxRow_C]. by rewrite named_cells_twice. Qed.

Lemma removed_inserted_rows num Row :
  1 <= num <= maxInt -> wf_rows Row -> num <= zlen Row -> removed_rows num (inserted_rows num Row) = Row.
Proof.
  intros Hn Hwf Hle. apply list_eq. intros i.
  pose proof (inserted_rows_len num Row ltac:(lia)) as Hlen. replace (zlen Row <? num) with false in Hlen by lia.
  rewrite removed_rows_lookup by (done || lia). rewrite !inserted_rows_lookup by lia. cbn [pred].
  repeat case_decide; try lia; [done|].
  destruct (Row !! i) as [r|] eqn:Er; [|done]. cbn. rewrite renumbered_twice. f_equal. apply renumbered_wf_same. by apply Hwf.
Qed.

Lemma shift_back num v : 1 <= v -> shift num (-1) (shift num 1 v) = v.
Proof. unfold shift. intros. repeat case_match; lia. Qed.

Lemma shift_rect_back dir num R : rect_wf R -> shift_rect dir num (-1) (shift_rect dir num 1 R) = R.
Proof. intros (H1 & H2 & H3 & H4). destruct dir, R; cbn in *; rewrite !shift_back by lia; done. Qed.

(** A hyperlink on a cell in canonical form that can be moved down. *)
Definition link_at (l : xlsxHyperlink) : Prop :=
  exists col row, coord col /\ 1 <= row < maxInt /\ xlsxHyperlink_Ref l = cell_name col row.

Lemma shift_link_down l num :
  1 <= num -> link_at l ->
  shift_link rows num (-1) (shift_link rows num 1 l) = l /\ link_hit rows num (shift_link rows num 1 l) = false.
Proof.
  intros Hn (col & row & Hc & Hr & E). unfold shift_link at 2 3. rewrite E, cell_name_coordinates by lia. cbn [fst is_rows].
  destruct (num <=? row) eqn:Hle.
  - assert (iadd row 1 = row + 1) as -> by int_lia.
    unfold shift_link, link_hit. change (xlsxHyperlink_Ref (l <| xlsxHyperlink_Ref := ?x |>)) with x.
    rewrite cell_name_coordinates by lia. cbn [fst is_rows]. replace (num <=? row + 1) with true by lia. split; [|lia].
    assert (iadd (row + 1) (-1) = row) as -> by int_lia. rewrite <- E. by destruct l.
  - unfold shift_link, link_hit. rewrite E, cell_name_coordinates by lia. cbn [fst is_rows]. rewrite Hle. split; [done|lia].
Qed.

Lemma Forall_fmap_back {A B} (g : B -> A) (h : A -> B) (l : list A) :
  Forall (fun x => g (h x) = x) l -> g <$> (h <$> l) = l.
Proof. induction 1 as [|x l Hx Hl IH]; [done|]. cbn. by rewrite Hx, IH. Qed.

Lemma rects_kept_back num Rs :
  rects_kept rows num 1 Rs -> rects_kept rows num (-1) (shift_rect rows num 1 <$> Rs).
Proof.
  unfold rects_kept. rewrite Forall_fmap. intros Hk. eapply Forall_impl; [exact Hk|]. intros R (Hw & Hf & Hs).
  unfold compose. rewrite shift_rect_back by done. split_and!.
  - apply shift_rect_wf; [unfold maxInt; lia|done|done].
  - destruct Hw as (?&?&?&?). unfold rect_fits, shift_rect, shift in *. cbn [is_rows rect_r2] in *.
    destruct (num <=? rect_r2 R) eqn:En; lia.
  - unfold rect_single, shift_rect in *. cbn in *. destruct (rect_c1 R =? rect_c2 R) eqn:E; [|done]. cbn in *.
    apply Z.eqb_neq. intros E2. rewrite E2, Z.eqb_refl in Hs. done.
Qed.

Lemma filter_kept_back num o :
  filter_kept num 1 o -> filter_kept num (-1) (prod_map id (shift_rect rows num 1) <$> o).
Proof.
  destruct o as [[af R]|]; [|done]. intros (Hw & Hf & _). pose proof Hw as (H1 & H2 & H3 & H4).
  cbn [fmap option_fmap option_map prod_map id fst snd]. split; [|split].
  - apply shift_rect_wf; [unfold maxInt; lia|done|done].
  - unfold rect_fits, shift_rect, shift in *. cbn [is_rows rect_r2] in *. destruct (num <=? rect_r2 R) eqn:En; lia.
  - intros _. unfold shift_rect, shift. cbn [is_rows rect_r1]. destruct (num <=? rect_r1 R) eqn:En; lia.
Qed.

(** C19. Removing the row that was just inserted restores the rows, the areas, the
    hyperlinks and the auto filter. *)
Theorem InsertRow_RemoveRow f sheet path xlsx num Rs o :
  row_adjustable f sheet path xlsx num 1 Rs o -> zlen (sheet_rows xlsx) + 1 < maxInt ->
  Forall link_at (sheet_links xlsx) ->
  num <= zlen (sheet_rows xlsx) ->
  exists xlsx', (InsertRow sheet num;; RemoveRow sheet num) f = Ret (None, with_sheet f path xlsx') /\
    sheet_rows xlsx' = sheet_rows xlsx /\ merge_areas xlsx' = merge_areas xlsx /\
    sheet_links xlsx' = sheet_links xlsx /\ xlsxWorksheet_AutoFilter xlsx' = xlsxWorksheet_AutoFilter xlsx.
Proof.
  intros Hadj Hlen Hlinks Hle. destruct (InsertRow_rows _ _ _ _ _ _ _ Hadj) as (x1 & E1 & Hr1 & Hwf1 & Ha1 & Hl1 & Hf1 & _).
  destruct Hadj as [Hl [Hwf Hmax] _ Hn Ha Hk _ Hf Hfk].
  assert (zlen (sheet_rows x1) = zlen (sheet_rows xlsx) + 1) as Hlen1.
  { rewrite Hr1, inserted_rows_len by lia. by replace (_ <? num) with false by lia. }
  assert (Forall (fun l => shift_link rows num (-1) (shift_link rows num 1 l) = l /\
    link_hit rows num (shift_link rows num 1 l) = false) (sheet_links xlsx)) as Hback.
  { eapply Forall_impl; [exact Hlinks|]. intros l. apply shift_link_down. lia. }
  destruct (RemoveRow_rows (with_sheet f path x1) sheet path x1 num (shift_rect rows num 1 <$> Rs)
    (prod_map id (shift_rect rows num 1) <$> o)) as (x2 & E2 & Hr2 & _ & Ha2 & Hl2 & Hf2 & _).
  - split; [by eapply with_sheet_loaded|done|lia|done|exact Ha1|by apply rects_kept_back| |exact Hf1|by apply filter_kept_back].
    intros _. rewrite Hl1, Forall_fmap. eapply Forall_impl; [exact Hback|]. by intros l [_ ?].
  - lia.
  - exists x2. split; [|split_and!].
    + rewrite (bind_Ret _ _ _ _ _ E1), E2. by rewrite with_sheet_twice.
    + rewrite Hr2, Hr1. by apply removed_inserted_rows.
    + rewrite Ha2, Ha, Forall_fmap_back; [done|]. eapply Forall_impl; [exact Hk|]. intros R (Hw & _). by apply shift_rect_back.
    + rewrite Hl2, Hl1, Forall_fmap_back; [done|]. eapply Forall_impl; [exact Hback|]. by intros l [? _].
    + rewrite Hf2, Hf. destruct o as [[af R]|]; [|done]. destruct Hfk as (Hw & _).
      cbn [fmap option_fmap option_map prod_map id fst snd]. by rewrite shift_rect_back.
Qed.

(** *** Duplicating a row *)

Lemma copied_row_wf n row row2 r :
  wf_row n r -> coord n -> 1 <= row -> row < maxInt -> 1 <= row2 -> copied_row r row row2 = renumbered row2 r.
Proof.
  intros Hwf Hn Hr Hr' Hr2. unfold copied_row. destruct (row2 <=? row).
  - assert (iadd row 1 = row + 1) as -> by int_lia.
    assert ((r <| xlsxRow_C ::= fmap (ajust_cell_row (row + 1)) |>) <| xlsxRow_R := row + 1 |> = renumbered (row + 1) r) as E.
    { rewrite <- (ajustSingleRowDimensions_wf n) by (done || lia). done. }
    assert (forall r', ajustSingleRowDimensions r' row2 = ajustSingleRowDimensions (r' <| xlsxRow_R := row + 1 |>) row2) as -> by done.
    rewrite E, (ajustSingleRowDimensions_wf (row + 1)) by (try lia; by eapply renumbered_wf). apply renumbered_twice.
  - by apply (ajustSingleRowDimensions_wf n).
Qed.

Lemma place_copy_lookup r num xlsx Row (i : nat) :
  1 <= num -> wf_rows Row -> sheet_rows xlsx = inserted_rows num Row -> zlen Row + 1 < maxInt ->
  num <= zlen Row + 1 ->
  sheet_rows (place_copy r num xlsx) !! i =
    if decide (i = Z.to_nat (num - 1)) then Some r else inserted_rows num Row !! i.
Proof.
  intros Hn Hwf E Hlen Hle. unfold place_copy. rewrite E.
  assert (numbered (inserted_rows num Row)) as Hnum by (apply wf_rows_numbered, inserted_rows_wf; [done|done|lia]).
  pose proof (inserted_rows_len num Row Hn) as Hlen'. destruct (zlen Row <? num) eqn:Hlt.
  - assert (list_find (fun r => xlsxRow_R r = num) (inserted_rows num Row) = None) as ->.
    { apply list_find_None, Forall_lookup. intros j y Hj. rewrite (Hnum _ _ Hj). apply lookup_lt_Some in Hj.
      unfold zlen in *. lia. }
    rewrite Hlen'. replace (num <=? zlen Row) with false by lia. cbn. case_decide as Hi.
    + subst i. apply list_lookup_middle. unfold zlen in *. lia.
    + destruct (inserted_rows num Row !! i) as [y|] eqn:Ey; [by apply lookup_app_l_Some|].
      apply lookup_ge_None in Ey. apply lookup_ge_None. rewrite length_app. cbn. unfold zlen in *. lia.
  - destruct (lookup_lt_is_Some_2 (inserted_rows num Row) (Z.to_nat (num - 1))) as [y Hy]; [unfold zlen in *; lia|].
    assert (list_find (fun r => xlsxRow_R r = num) (inserted_rows num Row) = Some (Z.to_nat (num - 1), y)) as ->.
    { apply list_find_Some. split_and!; [done|rewrite (Hnum _ _ Hy); lia|].
      intros j z Hj Hlt'. rewrite (Hnum _ _ Hj). lia. }
    change (sheet_rows (set_rows ?R xlsx)) with R. case_decide as Hi.
    + subst i. apply list_lookup_insert_eq. by apply lookup_lt_Some in Hy.
    + by apply list_lookup_insert_ne.
Qed.

Lemma place_copy_len r num xlsx Row :
  1 <= num -> wf_rows Row -> sheet_rows xlsx = inserted_rows num Row -> zlen Row + 1 < maxInt ->
  num <= zlen Row + 1 -> zlen (sheet_rows (place_copy r num xlsx)) = zlen Row + 1.
Proof.
  intros Hn Hwf E Hlen Hle. pose proof (inserted_rows_len num Row Hn) as Hil.
  pose proof (fun i => place_copy_lookup r num xlsx Row i Hn Hwf E Hlen Hle) as Hlook.
  apply Z.le_antisymm.
  - destruct (sheet_rows (place_copy r num xlsx) !! Z.to_nat (zlen Row + 1)) as [y|] eqn:Ey.
    + rewrite Hlook in Ey. case_decide; [lia|]. apply lookup_lt_Some in Ey. unfold zlen in *. case_match; lia.
    + apply lookup_ge_None in Ey. unfold zlen in *. lia.
  - assert (is_Some (sheet_rows (place_copy r num xlsx) !! Z.to_nat (zlen Row))) as Hs%lookup_lt_is_Some_1; [|unfold zlen in *; lia].
    rewrite Hlook. case_decide; [done|]. apply lookup_lt_is_Some_2. unfold zlen in *. case_match; lia.
Qed.

Lemma DuplicateRowTo_rows f sheet path xlsx row num Rs o :
  row_adjustable f sheet path xlsx num 1 Rs o -> zlen (sheet_rows xlsx) + 1 < maxInt ->
  1 <= row <= zlen (sheet_rows xlsx) -> row <> num -> num <= zlen (sheet_rows xlsx) + 1 ->
  exists xlsx', DuplicateRowTo sheet row num f = Ret (None, with_sheet f path xlsx') /\ wf_sheet xlsx' /\
    zlen (sheet_rows xlsx') = zlen (sheet_rows xlsx) + 1 /\
    (forall n, 1 <= n -> sheet_rows xlsx' !! Z.to_nat (n - 1) =
       if n <? num then sheet_rows xlsx !! Z.to_nat (n - 1)
       else if n =? num then renumbered num <$> sheet_rows xlsx !! Z.to_nat (row - 1)
       else renumbered n <$> sheet_rows xlsx !! Z.to_nat (n - 2)) /\
    row_adjusted xlsx xlsx' num 1 Rs o.
Proof.
  intros Hadj Hlen Hrow Hne Hle. pose proof (ra_num _ _ _ _ _ _ _ _ Hadj) as Hn.
  pose proof (ra_loaded _ _ _ _ _ _ _ _ Hadj) as Hl. destruct (ra_wf _ _ _ _ _ _ _ _ Hadj) as [Hwf _].
  destruct (InsertRow_rows _ _ _ _ _ _ _ Hadj) as (x & E & Hr & [Hwfx _] & Hrest).
  unfold InsertRow in E. replace (num <? 1) with false in E by lia.
  destruct (lookup_lt_is_Some_2 (sheet_rows xlsx) (Z.to_nat (row - 1))) as [r Er]; [unfold zlen in *; lia|].
  assert (wf_row row r) as Hwr by (replace row with (Z.of_nat (Z.to_nat (row - 1)) + 1) by lia; by apply Hwf).
  set (x' := place_copy (renumbered num r) num x).
  assert (forall i : nat, sheet_rows x' !! i =
    if decide (i = Z.to_nat (num - 1)) then Some (renumbered num r) else inserted_rows num (sheet_rows xlsx) !! i) as Hlook
    by (intros i; apply place_copy_lookup; (done || lia)).
  assert (zlen (sheet_rows x') = zlen (sheet_rows xlsx) + 1) as Hzl by (apply place_copy_len; (done || lia)).
  exists x'. split_and!.
  - unfold DuplicateRowTo. replace (row <? 1) with false by lia.
    rewrite (bind_Ret _ _ _ _ _ (workSheetReader_loaded _ _ _ _ Hl)).
    rewrite (bind_Ret _ _ _ _ _ (deref_loaded _ _ _ (proj2 Hl))).
    replace ((_ || _) || _) with false by lia.
    assert (find_row row (sheet_rows xlsx) = Some r) as ->.
    { rewrite <- (index_succ row) by lia. apply numbered_find; [by apply wf_rows_numbered|done]. }
    rewrite (bind_Ret _ _ _ _ _ E). rewrite (copied_row_wf row) by (done || lia).
    unfold update. rewrite bind_Ret with (a := tt) (s' := with_sheet f path x'); [done|].
    rewrite (bind_Ret _ _ _ _ _ (deref_loaded (with_sheet f path x) path x (lookup_insert_eq _ _ _))), assign_sheet, with_sheet_twice. done.
  - split; [|lia]. intros i y. rewrite Hlook. case_decide as Hi.
    + intros [= <-]. subst i. rewrite index_succ by lia. by eapply renumbered_wf.
    + rewrite <- Hr. apply Hwfx.
  - done.
  - intros n Hn'. rewrite Hlook, inserted_rows_at by lia. case_decide as Hi.
    + replace (n <? num) with false by lia. replace (n =? num) with true by lia. by rewrite Er.
    + destruct (n <? num) eqn:E1; [done|]. by replace (n =? num) with false by lia.
  - subst x'. unfold place_copy. by repeat case_match.
Qed.

(** C18. [DuplicateRowTo] to a place at most one below the last row: the row takes
    the place under its new number, all its attributes and cells being copied;
    the rows from that place on move down by one, and the sheet stays dense. *)
Theorem DuplicateRowTo_correct f sheet path xlsx row num Rs o :
  row_adjustable f sheet path xlsx num 1 Rs o -> zlen (sheet_rows xlsx) + 1 < maxInt ->
  1 <= row <= zlen (sheet_rows xlsx) -> row <> num -> num <= zlen (sheet_rows xlsx) + 1 ->
  exists xlsx', DuplicateRowTo sheet row num f = Ret (None, with_sheet f path xlsx') /\ wf_sheet xlsx' /\
    zlen (sheet_rows xlsx') = zlen (sheet_rows xlsx) + 1 /\
    (forall n, 1 <= n -> sheet_rows xlsx' !! Z.to_nat (n - 1) =
       if n <? num then sheet_rows xlsx !! Z.to_nat (n - 1)
       else if n =? num then renumbered num <$> sheet_rows xlsx !! Z.to_nat (row - 1)
       else renumbered n <$> sheet_rows xlsx !! Z.to_nat (n - 2)) /\
    row_adjusted xlsx xlsx' num 1 Rs o.
Proof. apply DuplicateRowTo_rows. Qed.

(** *** Attributes of a row *)

Lemma fillColumns_0 r row : fillColumns r 0 row = r.
Proof.
  assert (seqZ (zlen (xlsxRow_C r)) (0 - zlen (xlsxRow_C r)) = []) as E.
  { unfold seqZ. by replace (Z.to_nat (0 - zlen (xlsxRow_C r))) with 0%nat by (unfold zlen; lia). }
  unfold fillColumns. cbv zeta. rewrite E. cbn [fmap list_fmap]. cbv beta delta [field_update].
  rewrite app_nil_r. by destruct r.
Qed.

(** A write to one row of a dense sheet: the sheet is extended with blank rows
    down to it, and only that row is rewritten. *)
Lemma set_row_ok f sheet path xlsx row g :
  loaded f sheet path xlsx -> wf_sheet xlsx -> coord row ->
  (forall r, xlsxRow_R (g r) = xlsxRow_R r /\ xlsxRow_C (g r) = xlsxRow_C r) ->
  exists xlsx', set_row sheet row g f = Ret (None, with_sheet f path xlsx') /\ wf_sheet xlsx' /\
    sheet_rows xlsx' = <[Z.to_nat (row - 1) := g (default (freshRow row) (sheet_rows xlsx !! Z.to_nat (row - 1)))]> (with_rows xlsx row) /\
    xlsx' = set_rows (sheet_rows xlsx') xlsx.
Proof.
  intros Hl [Hwf Hlen] Hr Hg. pose proof Hl as [_ Hs].
  destruct (prepareSheetXML_ok xlsx 0 row ltac:(lia)) as (r & Er & E). rewrite fillColumns_0, list_insert_id in E by done.
  set (x1 := set_rows (with_rows xlsx row) xlsx) in E.
  set (x2 := set_rows (<[Z.to_nat (row - 1) := g r]> (with_rows xlsx row)) x1).
  assert (default (freshRow row) (sheet_rows xlsx !! Z.to_nat (row - 1)) = r) as ->.
  { rewrite with_rows_lookup in Er. destruct (sheet_rows xlsx !! _); [by injection Er|].
    case_decide; [|done]. injection Er as <-. by rewrite index_succ by lia. }
  exists x2. split; [|split; [|split; [done|]]].
  - unfold set_row. replace (row <? 1) with false by lia.
    rewrite (bind_Ret _ _ _ _ _ (workSheetReader_loaded _ _ _ _ Hl)). unfold update_o.
    rewrite bind_Ret with (a := tt) (s' := with_sheet f path x1).
    2:{ rewrite (bind_Ret _ _ _ _ _ (deref_loaded _ _ _ Hs)). unfold lift, mbind, gom_bind. by rewrite E. }
    rewrite bind_Ret with (a := tt) (s' := with_sheet f path x2); [done|].
    rewrite (bind_Ret _ _ _ _ _ (deref_loaded (with_sheet f path x1) path x1 (lookup_insert_eq _ _ _))).
    change (sheet_rows x1) with (with_rows xlsx row). rewrite (list_get_in _ _ r) by (done || lia).
    cbn [mbind outcome_bind]. rewrite list_set_in by (rewrite with_rows_len; lia). unfold lift, mbind, gom_bind. cbn [outcome_bind].
    by rewrite assign_sheet, with_sheet_twice.
  - pose proof (with_rows_wf xlsx row Hwf) as Hw. split.
    + apply wf_rows_insert; [done|]. destruct (Hw _ _ Er) as (HR & HC & HL). destruct (Hg r) as [E1 E2].
      unfold wf_row. by rewrite E1, E2.
    + change (zlen (<[Z.to_nat (row - 1) := g r]> (with_rows xlsx row)) <= maxInt). rewrite zlen_insert, with_rows_len. lia.
  - done.
Qed.

Lemma get_row_dense {A} f sheet path xlsx row (d : A) g r :
  loaded f sheet path xlsx -> 1 <= row -> sheet_rows xlsx !! Z.to_nat (row - 1) = Some r ->
  get_row sheet row d g f = Ret (ok (g r), f).
Proof.
  intros Hl Hr Er. unfold get_row. replace (row <? 1) with false by lia.
  rewrite (bind_Ret _ _ _ _ _ (workSheetReader_loaded _ _ _ _ Hl)).
  rewrite (bind_Ret _ _ _ _ _ (deref_loaded _ _ _ (proj2 Hl))).
  apply lookup_lt_Some in Er as Hlt. replace (_ <? row) with false by (unfold zlen; lia).
  rewrite (list_get_in _ _ r) by (done || lia). done.
Qed.

Lemma row_height_dense xlsx row r :
  wf_rows (sheet_rows xlsx) -> 1 <= row -> sheet_rows xlsx !! Z.to_nat (row - 1) = Some r ->
  row_height row xlsx = if f64_eqb (xlsxRow_Ht r) f64_zero then None else Some (xlsxRow_Ht r).
Proof.
  intros Hwf Hr Er. unfold row_height. apply wf_rows_numbered in Hwf as Hn.
  pose proof (Hn _ _ Er) as HR. destruct (f64_eqb (xlsxRow_Ht r) f64_zero) eqn:Ez.
  - rewrite (proj2 (list_find_None _ _)); [done|]. apply Forall_lookup. intros j y Hj. rewrite (Hn _ _ Hj).
    destruct (decide (j = Z.to_nat (row - 1))) as [->|]; [|replace (_ =? row) with false by lia; done].
    rewrite Er in Hj. injection Hj as <-. rewrite Ez, andb_false_r. done.
  - rewrite (proj2 (list_find_Some _ _ (Z.to_nat (row - 1)) r)); [done|]. split; [done|]. split.
    + rewrite HR, Ez. replace (_ =? row) with true by lia. done.
    + intros j y Hj Hlt. rewrite (Hn _ _ Hj). replace (_ =? row) with false by lia. done.
Qed.

(** The three attributes of a row that have a setter. *)
Inductive row_attr : Type :=
| RowHeight (height : float64)
| RowVisible (visible : bool)
| RowOutlineLevel (level : Z).

Definition set_row_attr (a : row_attr) (sheet : string) (row : Z) : M (option goerr) :=
  match a with
  | RowHeight h => SetRowHeight sheet row h
  | RowVisible b => SetRowVisible sheet row b
  | RowOutlineLevel l => SetRowOutlineLevel sheet row l
  end.

(** What the getters return for a row with the attribute. *)
Definition row_attr_read (a : row_attr) (sheet : string) (row : Z) (f : File) : Prop :=
  match a with
  | RowHeight h => GetRowHeight sheet row f =
      Ret (ok (if f64_eqb h f64_zero then defaultRowHeightPixels else h), f)
  | RowVisible b => GetRowVisible sheet row f = Ret (ok b, f)
  | RowOutlineLevel l => GetRowOutlineLevel sheet row f = Ret (ok l, f)
  end.

Definition apply_row_attr (a : row_attr) (r : xlsxRow) : xlsxRow :=
  match a with
  | RowHeight h => r <| xlsxRow_Ht := h |> <| xlsxRow_CustomHeight := true |>
  | RowVisible b => r <| xlsxRow_Hidden := negb b |>
  | RowOutlineLevel l => r <| xlsxRow_OutlineLevel := l |>
  end.

(** The cells are as they were. *)
Lemma set_row_cells xlsx x row g :
  1 <= row -> (forall r, xlsxRow_C (g r) = xlsxRow_C r) ->
  sheet_rows x = <[Z.to_nat (row - 1) := g (default (freshRow row) (sheet_rows xlsx !! Z.to_nat (row - 1)))]> (with_rows xlsx row) ->
  forall c n, 1 <= n -> sheet_cell x c n = sheet_cell xlsx c n.
Proof.
  intros Hrow Hg Hrows c n Hn. unfold sheet_cell. rewrite Hrows. destruct (decide (n = row)) as [->|Hne].
  - rewrite list_lookup_insert_eq by (pose proof (with_rows_len xlsx row); unfold zlen in *; lia). cbn. rewrite Hg.
    by destruct (sheet_rows xlsx !! _).
  - rewrite list_lookup_insert_ne by lia. rewrite with_rows_lookup. destruct (sheet_rows xlsx !! Z.to_nat (n - 1)); [done|].
    by case_decide.
Qed.

(** The attributes are those of the row that is set, and as before otherwise. *)
Lemma set_row_props xlsx x row a :
  1 <= row ->
  sheet_rows x = <[Z.to_nat (row - 1) := apply_row_attr a (default (freshRow row) (sheet_rows xlsx !! Z.to_nat (row - 1)))]> (with_rows xlsx row) ->
  forall n, 1 <= n -> props_at x n = if n =? row then apply_row_attr a (props_at xlsx n) else props_at xlsx n.
Proof.
  intros Hrow Hrows n Hn. destruct (n =? row) eqn:E.
  - assert (n = row) as -> by lia. unfold props_at. rewrite Hrows, list_lookup_insert_eq
      by (pose proof (with_rows_len xlsx row); unfold zlen in *; lia).
    by destruct a, (sheet_rows xlsx !! _).
  - rewrite <- (with_rows_props xlsx row) by done. unfold props_at. by rewrite Hrows, list_lookup_insert_ne by lia.
Qed.

(** Setting the height, the visibility or the outline level of a row, existing
    or not: the getter then returns what was set (the default height for a
    height of zero), the sheet stays dense, all cells and every other existing
    row are unchanged, and the rows that had to be created are blank. *)
Theorem SetRow_GetRow f sheet path xlsx row a :
  loaded f sheet path xlsx -> wf_sheet xlsx -> coord row ->
  exists xlsx', set_row_attr a sheet row f = Ret (None, with_sheet f path xlsx') /\ wf_sheet xlsx' /\
    row_attr_read a sheet row (with_sheet f path xlsx') /\
    (forall c n, 1 <= c -> 1 <= n -> sheet_cell xlsx' c n = sheet_cell xlsx c n) /\
    (forall n, 1 <= n -> n <> row -> sheet_rows xlsx' !! Z.to_nat (n - 1) =
       match sheet_rows xlsx !! Z.to_nat (n - 1) with
       | Some r => Some r
       | None => if n <? row then Some (freshRow n) else None
       end).
Proof.
  intros Hl Hwf Hr.
  assert (set_row_attr a sheet row = set_row sheet row (apply_row_attr a)) as -> by by destruct a.
  destruct (set_row_ok f sheet path xlsx row (apply_row_attr a) Hl Hwf Hr ltac:(by destruct a)) as (x & E & Hwf' & Hrows & _).
  set (r0 := default _ _) in Hrows. assert (sheet_rows x !! Z.to_nat (row - 1) = Some (apply_row_attr a r0)) as Hx.
  { rewrite Hrows. apply list_lookup_insert_eq. pose proof (with_rows_len xlsx row). unfold zlen in *. lia. }
  assert (forall n, 1 <= n -> n <> row -> sheet_rows x !! Z.to_nat (n - 1) =
       match sheet_rows xlsx !! Z.to_nat (n - 1) with
       | Some r => Some r | None => if n <? row then Some (freshRow n) else None end) as Hother.
  { intros n Hn Hne. rewrite Hrows, list_lookup_insert_ne by lia. rewrite with_rows_lookup, index_succ by lia.
    destruct (sheet_rows xlsx !! Z.to_nat (n - 1)); [done|]. destruct (n <? row) eqn:En; case_decide; (done || lia). }
  exists x. split_and!; [done|done| |..|done].
  - pose proof (with_sheet_loaded f sheet path xlsx x Hl) as Hl'. destruct a; cbn [row_attr_read].
    + unfold GetRowHeight. replace (row <? 1) with false by lia.
      rewrite (bind_Ret _ _ _ _ _ (workSheetReader_loaded _ _ _ _ Hl')).
      rewrite (bind_Ret _ _ _ _ _ (deref_loaded _ _ _ (proj2 Hl'))).
      apply lookup_lt_Some in Hx as Hlt. replace (_ <? row) with false by (unfold zlen; lia).
      rewrite (row_height_dense _ _ _ (proj1 Hwf') (proj1 Hr) Hx). cbn [apply_row_attr].
      change (xlsxRow_Ht (r0 <| xlsxRow_Ht := height |> <| xlsxRow_CustomHeight := true |>)) with height.
      by destruct (f64_eqb height f64_zero).
    + unfold GetRowVisible. rewrite (get_row_dense _ _ _ _ _ _ _ _ Hl' (proj1 Hr) Hx). cbn. by rewrite negb_involutive.
    + unfold GetRowOutlineLevel. by rewrite (get_row_dense _ _ _ _ _ _ _ _ Hl' (proj1 Hr) Hx).
  - intros c n _ Hn. by apply (set_row_cells xlsx x row (apply_row_attr a)); [lia|destruct a| |].
Qed.

(** A row beyond the last one in memory has the default height and no outline level,
    but it counts as not visible, while [GetColVisible] takes a column that nothing
    is known of as visible. *)
Theorem GetRow_beyond f sheet path xlsx row :
  loaded f sheet path xlsx -> zlen (sheet_rows xlsx) < row ->
  GetRowVisible sheet row f = Ret (ok false, f) /\ GetRowOutlineLevel sheet row f = Ret (ok 0, f) /\
  GetRowHeight sheet row f = Ret (ok defaultRowHeightPixels, f).
Proof.
  intros Hl Hn. pose proof (zlen_nonneg (sheet_rows xlsx)). unfold GetRowVisible, GetRowOutlineLevel, GetRowHeight, get_row.
  replace (row <? 1) with false by lia.
  rewrite !(bind_Ret _ _ _ _ _ (workSheetReader_loaded _ _ _ _ Hl)), !(bind_Ret _ _ _ _ _ (deref_loaded _ _ _ (proj2 Hl))).
  by replace (_ <? row) with true by lia.
Qed.

(** *** Error paths *)

(** A row number below 1 is refused by every row operation before the sheet is
    looked up, and a sheet that does not exist is reported; in both cases the
    workbook does not change. *)
Theorem row_operations_errors f sheet row num a :
  (row < 1 ->
     set_row_attr a sheet row f = Ret (Some (ErrInvalidRowNumber row), f) /\
     InsertRow sheet row f = Ret (Some (ErrInvalidRowNumber row), f) /\
     RemoveRow sheet row f = Ret (Some (ErrInvalidRowNumber row), f) /\
     DuplicateRowTo sheet row num f = Ret (Some (ErrInvalidRowNumber row), f)) /\
  (1 <= row -> File_sheetMap f !! trimSheetName sheet = None ->
     set_row_attr a sheet row f = Ret (Some (sheet_not_exist sheet), f) /\
     InsertRow sheet row f = Ret (Some (sheet_not_exist sheet), f) /\
     RemoveRow sheet row f = Ret (Some (sheet_not_exist sheet), f) /\
     DuplicateRowTo sheet row num f = Ret (Some (sheet_not_exist sheet), f)).
Proof.
  split.
  - intros Hr. assert ((row <? 1) = true) as E by lia.
    destruct a; unfold set_row_attr, SetRowHeight, SetRowVisible, SetRowOutlineLevel, set_row, InsertRow, RemoveRow, DuplicateRowTo;
      by rewrite E.
  - intros Hr Hm. assert ((row <? 1) = false) as E by lia. pose proof (workSheetReader_missing _ _ Hm) as Er.
    destruct a; unfold set_row_attr, SetRowHeight, SetRowVisible, SetRowOutlineLevel, set_row, InsertRow, RemoveRow, DuplicateRowTo;
      rewrite E; unfold adjustHelper; rewrite !(bind_Ret _ _ _ _ _ Er); done.
Qed.

(** *** A merged area whose first row is removed *)

(** When the first row of an area of several rows is removed, the area moves up
    by a whole row: it then covers the row above, which was no part of it, and
    the cells of that row resolve to its top left corner. *)
Theorem RemoveRow_merge_grows_up f sheet path xlsx num R o col :
  row_adjustable f sheet path xlsx num (-1) [R] o -> num <= zlen (sheet_rows xlsx) ->
  rect_r1 R = num -> 1 < num -> rect_c1 R <= col <= rect_c2 R ->
  mergeCellsParser xlsx (cell_name col (num - 1)) = ok (cell_name col (num - 1)) /\
  exists xlsx', RemoveRow sheet num f = Ret (None, with_sheet f path xlsx') /\
    mergeCellsParser xlsx' (cell_name col (num - 1)) = ok (cell_name (rect_c1 R) (num - 1)).
Proof.
  intros Hadj Hle HR1 Hn Hc. destruct (RemoveRow_rows _ _ _ _ _ _ _ Hadj Hle) as (x & E & _ & _ & Ha & _).
  pose proof (ra_kept _ _ _ _ _ _ _ _ Hadj) as Hk. apply Forall_cons in Hk as [(Hw & Hf & Hs) _].
  pose proof (ra_areas _ _ _ _ _ _ _ _ Hadj) as Ha0. pose proof Hw as (W1 & W2 & W3 & W4).
  assert (coord col) as Hcol by lia. assert (coord (num - 1)) as Hrow by lia.
  assert (rect_wf (shift_rect rows num (-1) R)) as Hw' by (apply shift_rect_wf; [unfold maxInt; lia|done|done]).
  split; [|exists x; split; [done|]]; unfold mergeCellsParser; rewrite ToUpper_cell_name by lia.
  - rewrite Ha0, merge_loop_rects; [|done|done|by constructor|repeat constructor].
    cbn [merged_position]. unfold in_rect. by replace (_ && _) with false by lia.
  - rewrite Ha, merge_loop_rects; [|done|done|by constructor|repeat constructor].
    cbn [fmap list_fmap merged_position]. unfold in_rect, shift_rect, shift. cbn [is_rows rect_c1 rect_r1 rect_c2 rect_r2].
    replace (num <=? rect_r1 R) with true by lia. replace (num <=? rect_r2 R) with true by lia.
    match goal with |- context [if ?b then _ else _] => assert (b = true) as -> end.
    { rewrite !andb_true_iff, !Z.leb_le. lia. }
    cbn [fst snd]. do 3 f_equal. lia.
Qed.

End rows_properties.

(** ** Witnesses *)

(** The sheet of [example_sheet] with a merged area over the rows 2 and 3, an
    auto filter over the rows 1 and 2 and a hyperlink on [B2]. *)
Definition example_area : rect := mk_rect 1 2 2 3.
Definition example_filter : option (xlsxAutoFilter * rect) := Some (gozero, mk_rect 1 1 3 2).
Definition example_table : xlsxWorksheet :=
  example_sheet <| xlsxWorksheet_MergeCells := Some (mk_xlsxMergeCells 1 [mk_xlsxMergeCell "A2:B3"]) |>
    <| xlsxWorksheet_AutoFilter := filter_of example_filter |>
    <| xlsxWorksheet_Hyperlinks := Some (mk_xlsxHyperlinks [(gozero : xlsxHyperlink) <| xlsxHyperlink_Ref := "B2" |>]) |>.

Lemma example_table_insert :
  row_adjustable (example_file example_table) "Sheet1" sheet1_path example_table 2 1 [example_area] example_filter.
Proof.
  split.
  - apply example_loaded.
  - exact example_sheet_wf.
  - reflexivity.
  - unfold maxInt; lia.
  - reflexivity.
  - constructor; [|constructor]. split; [unfold rect_wf, maxInt; cbn; lia|]. split; [vm_compute; discriminate|reflexivity].
  - intros Hx. vm_compute in Hx. discriminate Hx.
  - reflexivity.
  - split; [unfold rect_wf, maxInt; cbn; lia|]. split; [vm_compute; discriminate|]. intros Hx. vm_compute in Hx. discriminate Hx.
Defined.

Lemma InsertRow_correct_witness :
  exists xlsx', InsertRow (H := example_env) "Sheet1" 2 (example_file example_table) =
      Ret (None, with_sheet (example_file example_table) sheet1_path xlsx') /\
    sheet_cell xlsx' 2 3 = Some (moved_cell 2 3 ((freshCell "B2") <| xlsxC_V := "x" |>)) /\
    merge_areas xlsx' = [mk_xlsxMergeCell "A3:B4"].
Proof.
  destruct (@InsertRow_correct example_env _ _ _ _ _ _ _ example_table_insert) as (x & E & _ & _ & Hc & Ha & _).
  exists x. split; [exact E|]. split.
  - rewrite Hc by lia. reflexivity.
  - rewrite Ha. reflexivity.
Defined.

Lemma InsertRow_RemoveRow_witness :
  exists xlsx', (InsertRow (H := example_env) "Sheet1" 2;; RemoveRow (H := example_env) "Sheet1" 2) (example_file example_table) =
      Ret (None, with_sheet (example_file example_table) sheet1_path xlsx') /\
    sheet_rows xlsx' = sheet_rows example_table.
Proof.
  destruct (@InsertRow_RemoveRow example_env _ _ _ _ _ _ _ example_table_insert) as (x & E & Hr & _);
    [reflexivity| |vm_compute; discriminate|exists x; split; [exact E|exact Hr]].
  constructor; [|constructor]. exists 2, 2. split; [unfold maxInt; lia|]. split; [unfold maxInt; lia|reflexivity].
Defined.

Lemma DuplicateRowTo_correct_witness :
  exists xlsx', DuplicateRowTo (H := example_env) "Sheet1" 1 2 (example_file example_table) =
      Ret (None, with_sheet (example_file example_table) sheet1_path xlsx') /\
    zlen (sheet_rows xlsx') = 3.
Proof.
  destruct (@DuplicateRowTo_correct example_env _ _ _ _ 1 _ _ _ example_table_insert) as (x & E & _ & Hl & _);
    [reflexivity|split; vm_compute; discriminate|discriminate|vm_compute; discriminate|].
  exists x. split; [exact E|]. rewrite Hl. reflexivity.
Defined.

Definition example_merged : xlsxWorksheet :=
  example_sheet <| xlsxWorksheet_MergeCells := Some (mk_xlsxMergeCells 1 [mk_xlsxMergeCell "A2:B3"]) |>.

Lemma example_merged_remove :
  row_adjustable (example_file example_merged) "Sheet1" sheet1_path example_merged 2 (-1) [example_area] None.
Proof.
  split.
  - apply example_loaded.
  - exact example_sheet_wf.
  - reflexivity.
  - unfold maxInt; lia.
  - reflexivity.
  - constructor; [|constructor]. split; [unfold rect_wf, maxInt; cbn; lia|]. split; [vm_compute; discriminate|reflexivity].
  - intros _. constructor.
  - reflexivity.
  - exact I.
Defined.

Lemma RemoveRow_correct_witness :
  exists xlsx', RemoveRow (H := example_env) "Sheet1" 2 (example_file example_merged) =
      Ret (None, with_sheet (example_file example_merged) sheet1_path xlsx') /\
    sheet_cell xlsx' 2 2 = None.
Proof.
  destruct (@RemoveRow_correct example_env _ _ _ _ _ _ _ example_merged_remove) as [_ Hrem].
  destruct Hrem as (x & E & _ & _ & Hc & _); [vm_compute; discriminate|].
  exists x. split; [exact E|]. rewrite Hc by lia. reflexivity.
Defined.

Lemma RemoveRow_merge_grows_up_witness :
  exists xlsx', RemoveRow (H := example_env) "Sheet1" 2 (example_file example_merged) =
      Ret (None, with_sheet (example_file example_merged) sheet1_path xlsx') /\
    mergeCellsParser (H := example_env) xlsx' "B1" = ok "A1".
Proof.
  destruct (@RemoveRow_merge_grows_up example_env _ _ _ _ _ _ _ 2 example_merged_remove) as (_ & x & E & Hm);
    [vm_compute; discriminate|reflexivity|lia|cbn; lia|].
  exists x. split; [exact E|exact Hm].
Defined.

Lemma SetRow_GetRow_witness :
  let f := example_file example_sheet in
  exists xlsx', set_row_attr (H := example_env) (RowOutlineLevel 3) "Sheet1" 9 f = Ret (None, with_sheet f sheet1_path xlsx') /\
    GetRowOutlineLevel (H := example_env) "Sheet1" 9 (with_sheet f sheet1_path xlsx') = Ret (ok 3, with_sheet f sheet1_path xlsx').
Proof.
  intros f.
  destruct (@SetRow_GetRow example_env f "Sheet1" sheet1_path example_sheet 9 (RowOutlineLevel 3) (example_loaded _)
    example_sheet_wf ltac:(unfold maxInt; lia)) as (x & E & _ & Hg & _).
  exists x. split; [exact E|exact Hg].
Defined.

Lemma row_operations_errors_witness :
  InsertRow (H := example_env) "Sheet1" 0 (example_file example_sheet) = Ret (Some (ErrInvalidRowNumber 0), example_file example_sheet) /\
  RemoveRow (H := example_env) "Sheet2" 1 (example_file example_sheet) =
    Ret (Some (sheet_not_exist "Sheet2"), example_file example_sheet).
Proof.
  split.
  - apply (@row_operations_errors example_env (example_file example_sheet) "Sheet1" 0 0 (RowVisible true)). lia.
  - apply (@row_operations_errors example_env (example_file example_sheet) "Sheet2" 1 0 (RowVisible true)); [lia|reflexivity].
Defined.

(** A row duplicated to a place further below leaves the sheet with a gap in its
    rows: the copy is the third row of the slice under the number 9, so writing
    the cell [B3] overwrites the value of [B9]. *)
Theorem DuplicateRowTo_gap_overwritten :
  let run := DuplicateRowTo (H := example_env) "Sheet1" 2 9;; SetCellStr (H := example_env) "Sheet1" "B3" "new" in
  let read axis := returned ((run;; GetCellValue (H := example_env) "Sheet1" axis) (example_file example_sheet)) in
  returned (run (example_file example_sheet)) = Some None /\ read "B9" = Some (ok "new") /\ read "B3" = Some (ok "").
Proof. vm_compute. split_and!; reflexivity. Qed.

(** The ID of a new hyperlink relationship is the number of relationships plus
    one. After a row with a link was removed, that ID is in use: the new link
    of [A3] gets [rId2], which finds the target of the link of [A2]. *)
Theorem hyperlink_ids_collide :
  let link := SetCellHyperLink (H := example_env) "Sheet1" in
  returned ((link "A1" "https://one" "External";; link "A2" "https://two" "External";;
             RemoveRow (H := example_env) "Sheet1" 1;; link "A3" "https://three" "External";;
             GetCellHyperLink (H := example_env) "Sheet1" "A3") (example_file example_sheet))
    = Some (ok (true, "https://two")).
Proof. vm_compute. reflexivity. Qed.
