(* ===== verification/Cols.v ===== *)
(** [col.go]: column visibility, outline levels and widths, inserting and
    removing columns. *)
From S2P Require Export Rows.

Definition defaultColWidthPixels : float64 := f64_of_int 64.

Definition convertColWidthToPixels (width : float64) : float64 :=
  if f64_eqb width f64_zero then f64_zero
  else if f64_ltb width (f64_of_int 1) then
    math_Ceil (f64_add (f64_mul width (f64_of_int 12)) (f64_scale 1 (-1)))
  else
    math_Ceil (f64_add (f64_add (f64_mul width (f64_of_int 7)) (f64_scale 1 (-1))) (f64_of_int 5)).

(** The column ranges of a sheet. *)
Definition sheet_cols (xlsx : xlsxWorksheet) : list xlsxCol :=
  match xlsxWorksheet_Cols xlsx with Some c => xlsxCols_Col c | None => [] end.

Definition col_covers (colNum : Z) (c : xlsxCol) : bool :=
  (xlsxCol_Min c <=? colNum) && (colNum <=? xlsxCol_Max c).

(** The last range that covers the column. *)
Definition last_col (colNum : Z) (cols : list xlsxCol) : option xlsxCol :=
  foldl (fun o c => if col_covers colNum c then Some c else o) None cols.

Definition add_col (c : xlsxCol) (xlsx : xlsxWorksheet) : xlsxWorksheet :=
  xlsx <| xlsxWorksheet_Cols := Some (mk_xlsxCols (sheet_cols xlsx ++ [c])) |>.

Section cols_ops.
Context `{GoEnv}.

(** A field of the last range that covers the column; [d1] with an error of the
    name, [d2] with one of the sheet. *)
Definition get_col {A} (sheet col : string) (d1 d2 : A) (g : xlsxCol -> A) : M (A * option goerr) :=
  let! colNum := mret (ColumnNameToNumber col) orelse d1 in
  let! p := workSheetReader sheet orelse d2 in
  xlsx ← deref p;
  mret (ok (match last_col colNum (sheet_cols xlsx) with Some c => g c | None => d1 end)).

Definition GetColVisible (sheet col : string) : M (bool * option goerr) :=
  get_col sheet col true false (fun c => negb (xlsxCol_Hidden c)).

Definition GetColOutlineLevel (sheet col : string) : M (Z * option goerr) :=
  get_col sheet col 0 0 xlsxCol_OutlineLevel.

(** A new range for the one column, with the fields of the last range that
    covers it. *)
Definition set_col (sheet col : string) (g : xlsxCol -> xlsxCol) : M (option goerr) :=
  let! colNum := mret (ColumnNameToNumber col) in
  let! p := workSheetReader sheet in
  update p (fun xlsx =>
    let colData := match last_col colNum (sheet_cols xlsx) with Some c => c | None => gozero end in
    add_col ((g (colData <| xlsxCol_Min := colNum |> <| xlsxCol_Max := colNum |>)) <| xlsxCol_CustomWidth := true |>) xlsx);;
  mret None.

Definition SetColVisible (sheet col : string) (visible : bool) : M (option goerr) :=
  set_col sheet col (fun c => c <| xlsxCol_Hidden := negb visible |>).

Definition SetColOutlineLevel (sheet col : string) (level : Z) : M (option goerr) :=
  set_col sheet col (fun c => c <| xlsxCol_OutlineLevel := level |>).

Definition SetColWidth (sheet startcol endcol : string) (width : float64) : M (option goerr) :=
  let! min := mret (ColumnNameToNumber startcol) in
  let! max := mret (ColumnNameToNumber endcol) in
  let '(min, max) := if max <? min then (max, min) else (min, max) in
  let! p := workSheetReader sheet in
  update p (add_col ((gozero : xlsxCol) <| xlsxCol_Min := min |> <| xlsxCol_Max := max |>
                       <| xlsxCol_Width := width |> <| xlsxCol_CustomWidth := true |>));;
  mret None.

(** The width of the last covering range, zero when there is none. *)
Definition col_width (colNum : Z) (xlsx : xlsxWorksheet) : float64 :=
  match last_col colNum (sheet_cols xlsx) with Some c => xlsxCol_Width c | None => f64_zero end.

Definition getColWidth (sheet : string) (col : Z) : M Z :=
  p ← workSheetReader sheet;
  xlsx ← deref p.1;
  mret (if f64_eqb (col_width col xlsx) f64_zero then f64_to_int defaultColWidthPixels
        else f64_to_int (convertColWidthToPixels (col_width col xlsx))).

Definition GetColWidth (sheet col : string) : M (float64 * option goerr) :=
  let! colNum := mret (ColumnNameToNumber col) orelse defaultColWidthPixels in
  let! p := workSheetReader sheet orelse defaultColWidthPixels in
  xlsx ← deref p;
  mret (ok (if f64_eqb (col_width colNum xlsx) f64_zero then defaultColWidthPixels else col_width colNum xlsx)).

(** ** Inserting and removing *)

Definition InsertCol (sheet col : string) : M (option goerr) :=
  let! num := mret (ColumnNameToNumber col) in
  adjustHelper sheet columns num 1.

(** The first cell of each row whose column part is the given text. *)
Definition drop_col_cell (col : string) (rowData : xlsxRow) : xlsxRow :=
  match delete_first (fun c => bool_decide ((SplitCellName (xlsxC_R c)).1.1 = col)) (xlsxRow_C rowData) with
  | Some (_, C) => rowData <| xlsxRow_C := C |>
  | None => rowData
  end.

Definition RemoveCol (sheet col : string) : M (option goerr) :=
  let! num := mret (ColumnNameToNumber col) in
  let! p := workSheetReader sheet in
  update p (fun xlsx => set_rows (drop_col_cell col <$> sheet_rows xlsx) xlsx);;
  adjustHelper sheet columns num (-1).

End cols_ops.

(** ** Lemmas: the cells of a row *)

Lemma SplitCellName_cell_name col row :
  1 <= col -> 1 <= row <= maxInt -> SplitCellName (cell_name col row) = ok ((ColumnNumberToName col).1, row).
Proof.
  intros Hc Hr. destruct (CoordinatesToCellName_spec col row Hc ltac:(lia)) as (name & -> & -> & Hne & Hup & _).
  apply SplitCellName_join; [done|auto with go_db|done].
Qed.

Lemma column_name_inj a b : 1 <= a -> 1 <= b -> (ColumnNumberToName a).1 = (ColumnNumberToName b).1 -> a = b.
Proof.
  intros Ha Hb. destruct (ColumnNumberToName_spec a Ha) as (n & -> & _ & _ & <-).
  destruct (ColumnNumberToName_spec b Hb) as (m & -> & _ & _ & <-). cbn. by intros ->.
Qed.

(** The columns of the cells of a row of [n] cells after an insertion. *)
Definition shifted_cols (num n : Z) : list Z := shift num 1 <$> seqZ 1 n.

Lemma StronglySorted_fmap {A B} (R : A -> A -> Prop) (S : B -> B -> Prop) (f : A -> B) l :
  (forall x y, R x y -> S (f x) (f y)) -> StronglySorted R l -> StronglySorted S (f <$> l).
Proof.
  intros Hf. induction 1 as [|x l Hl IH Hx]; cbn; constructor; [done|]. apply Forall_fmap.
  eapply Forall_impl; [exact Hx|]. intros y. apply Hf.
Qed.

Section row_cells.
Variables (num row : Z) (r : xlsxRow).
Hypotheses (Hnum : coord num) (Hrow : coord row) (Hwf : wf_row row r) (Hlen : zlen (xlsxRow_C r) < maxInt).

Definition pushed_row : xlsxRow := r <| xlsxRow_C ::= fmap (adjust_cell_col num 1) |>.

Lemma row_cell_range (j : nat) c : xlsxRow_C r !! j = Some c -> 1 <= Z.of_nat j + 1 < maxInt.
Proof using Hlen. intros Hj%lookup_lt_Some. unfold zlen in Hlen. lia. Qed.

Lemma pushed_lookup (j : nat) :
  xlsxRow_C pushed_row !! j = (fun c => c <| xlsxC_R := cell_name (shift num 1 (Z.of_nat j + 1)) row |>) <$> xlsxRow_C r !! j.
Proof using Hnum Hrow Hwf Hlen.
  change (xlsxRow_C pushed_row) with (adjust_cell_col num 1 <$> xlsxRow_C r). rewrite list_lookup_fmap.
  destruct (xlsxRow_C r !! j) as [c|] eqn:Ec; [|done]. cbn. f_equal. pose proof Hwf as (_ & HC & _).
  pose proof (row_cell_range _ _ Ec). rewrite (adjust_cell_col_name c _ row num 1 (HC _ _ Ec)) by lia.
  unfold shift. destruct (num <=? Z.of_nat j + 1) eqn:E.
  - by replace (Z.max 1 (Z.of_nat j + 1 + 1)) with (Z.of_nat j + 1 + 1) by lia.
  - rewrite <- (HC _ _ Ec). by destruct c.
Qed.

Lemma pushed_sparse : sparse_cells row (shifted_cols num (zlen (xlsxRow_C r))) (xlsxRow_C pushed_row).
Proof using Hnum Hrow Hwf Hlen.
  pose proof Hwf as (_ & HC & HL). destruct (wf_cells_sparse _ _ HC HL) as (Hs & Hr & _). split_and!.
  - unfold shifted_cols. eapply StronglySorted_fmap; [|exact Hs]. intros x y Hxy. unfold shift. repeat case_match; lia.
  - unfold shifted_cols. apply Forall_fmap, Forall_forall. intros n Hn%elem_of_seqZ. unfold compose, shift. case_match; lia.
  - apply Forall2_same_length_lookup_2.
    + unfold shifted_cols, pushed_row. cbn. rewrite !length_fmap, length_seqZ. unfold zlen. lia.
    + intros j n c Hn Hc. unfold shifted_cols in Hn. rewrite list_lookup_fmap in Hn.
      apply fmap_Some in Hn as (m & Hm & ->). apply lookup_seqZ in Hm as [-> _].
      rewrite pushed_lookup in Hc. apply fmap_Some in Hc as (c' & _ & ->). cbn. do 3 f_equal. lia.
Qed.

Lemma pushed_sparse_row : sparse_row pushed_row.
Proof using Hnum Hrow Hwf Hlen.
  pose proof Hwf as (HR & _). split; change (xlsxRow_R pushed_row) with (xlsxRow_R r); rewrite HR; [done|].
  eexists. apply pushed_sparse.
Qed.

Lemma pushed_last : last_column (xlsxRow_C pushed_row) = if num <=? zlen (xlsxRow_C r) then zlen (xlsxRow_C r) + 1 else zlen (xlsxRow_C r).
Proof using Hnum Hrow Hwf Hlen.
  rewrite (sparse_last_column _ _ _ Hrow pushed_sparse). unfold shifted_cols. rewrite fmap_last.
  destruct (last (seqZ 1 (zlen (xlsxRow_C r)))) as [n|] eqn:El; cbn.
  - rewrite last_lookup in El. apply lookup_seqZ in El as [-> Hl]. rewrite length_seqZ in *. unfold zlen in *. unfold shift.
    repeat case_match; lia.
  - apply last_None in El. apply (f_equal length) in El. rewrite length_seqZ in El. cbn in El.
    assert (zlen (xlsxRow_C r) = 0) as -> by (unfold zlen in *; lia). by replace (num <=? 0) with false by lia.
Qed.

(** The cells of the row when [checkRow] has filled the gap. *)
Lemma pushed_completed col :
  coord col -> xlsxRow_C (completed_row pushed_row) !! Z.to_nat (col - 1) =
    if col <? num then xlsxRow_C r !! Z.to_nat (col - 1)
    else if col =? num then if zlen (xlsxRow_C r) <? num then None else Some (freshCell (cell_name num row))
    else (fun c => c <| xlsxC_R := cell_name col row |>) <$> xlsxRow_C r !! Z.to_nat (col - 2).
Proof using Hnum Hrow Hwf Hlen.
  intros Hcol. rewrite completed_row_cell by (done || apply pushed_sparse_row). rewrite pushed_last.
  assert (xlsxRow_R pushed_row = row) as -> by apply Hwf.
  assert (forall j c, xlsxRow_C r !! j = Some c -> find_cell (cell_name (shift num 1 (Z.of_nat j + 1)) row) (xlsxRow_C pushed_row) =
    Some (c <| xlsxC_R := cell_name (shift num 1 (Z.of_nat j + 1)) row |>)) as Hfind.
  { intros j c Hj. apply (sparse_find_at _ _ _ j _ _ Hrow pushed_sparse).
    - unfold shifted_cols. rewrite list_lookup_fmap, seqZ_lookup_nat by (apply lookup_lt_Some in Hj; unfold zlen; lia).
      cbn. do 2 f_equal. lia.
    - by rewrite pushed_lookup, Hj. }
  assert (forall n, coord n -> n ∉ shifted_cols num (zlen (xlsxRow_C r)) -> find_cell (cell_name n row) (xlsxRow_C pushed_row) = None) as Hnone.
  { intros n Hn Hno. destruct (find_cell _ _) as [c|] eqn:E; [|done]. exfalso. apply Hno.
    by eapply sparse_find_elem; [exact Hrow|exact Hn|apply pushed_sparse|]. }
  assert (forall n, n ∈ shifted_cols num (zlen (xlsxRow_C r)) -> n <> num /\ (n < num -> n <= zlen (xlsxRow_C r)) /\ (num < n -> n <= zlen (xlsxRow_C r) + 1)) as Helem.
  { intros n. unfold shifted_cols. intros (m & -> & Hm%elem_of_seqZ)%list_elem_of_fmap. unfold shift. case_match; lia. }
  destruct (col <? num) eqn:E1; [|destruct (col =? num) eqn:E2].
  - destruct (xlsxRow_C r !! Z.to_nat (col - 1)) as [c|] eqn:Ec.
    + specialize (Hfind _ _ Ec). assert (shift num 1 (Z.of_nat (Z.to_nat (col - 1)) + 1) = col) as Hs by (unfold shift; case_match; lia).
      rewrite Hs in Hfind. rewrite Hfind. f_equal. pose proof Hwf as (_ & HC & _). pose proof (HC _ _ Ec) as Hn.
      rewrite index_succ in Hn by lia. rewrite <- Hn. by destruct c.
    + apply lookup_ge_None in Ec. rewrite Hnone by (done || intros ?%Helem; unfold zlen in *; lia).
      rewrite decide_False; [done|]. unfold zlen in *. case_match; lia.
  - assert (col = num) as -> by lia. rewrite Hnone by (done || intros ?%Helem; lia).
    destruct (zlen (xlsxRow_C r) <? num) eqn:E; [rewrite decide_False|rewrite decide_True]; try done; case_match; lia.
  - destruct (xlsxRow_C r !! Z.to_nat (col - 2)) as [c|] eqn:Ec.
    + specialize (Hfind _ _ Ec). assert (shift num 1 (Z.of_nat (Z.to_nat (col - 2)) + 1) = col) as Hs by (unfold shift; case_match; lia).
      rewrite Hs in Hfind. by rewrite Hfind.
    + apply lookup_ge_None in Ec. rewrite Hnone by (done || intros ?%Helem; unfold zlen in *; lia).
      rewrite decide_False; [done|]. unfold zlen in *. case_match; lia.
Qed.

End row_cells.

(** The cells of a row without the one of the removed column. *)
Section removed_cell.
Variables (num row : Z) (col : string) (r : xlsxRow).
Hypotheses (Hnum : coord num) (Hrow : coord row) (Hwf : wf_row row r) (Hlen : zlen (xlsxRow_C r) < maxInt)
  (Hcol : ColumnNumberToName num = ok col).

Definition popped_row : xlsxRow := (drop_col_cell col r) <| xlsxRow_C ::= fmap (adjust_cell_col num (-1)) |>.

Lemma drop_col_cell_cells :
  drop_col_cell col r = r <| xlsxRow_C := take (Z.to_nat (num - 1)) (xlsxRow_C r) ++ drop (Z.to_nat num) (xlsxRow_C r) |>.
Proof using Hnum Hrow Hwf Hlen Hcol.
  pose proof Hwf as (_ & HC & _). unfold drop_col_cell, delete_first.
  assert (forall j c, xlsxRow_C r !! j = Some c -> (SplitCellName (xlsxC_R c)).1.1 = col <-> Z.of_nat j + 1 = num) as Hcolj.
  { intros j c Hj. apply lookup_lt_Some in Hj as Hlt. rewrite (HC _ _ Hj), SplitCellName_cell_name by (unfold zlen in Hlen; lia).
    cbn. assert (col = (ColumnNumberToName num).1) as -> by by rewrite Hcol. split; [|by intros ->].
    apply column_name_inj; lia. }
  destruct (xlsxRow_C r !! Z.to_nat (num - 1)) as [c|] eqn:Ec.
  - rewrite (proj2 (list_find_Some _ _ (Z.to_nat (num - 1)) c)).
    + by replace (S (Z.to_nat (num - 1))) with (Z.to_nat num) by lia.
    + split; [done|]. split.
      * apply bool_decide_eq_true, (Hcolj _ _ Ec). lia.
      * intros j y Hj Hlt E%bool_decide_eq_true. apply (Hcolj _ _ Hj) in E. lia.
  - rewrite (proj2 (list_find_None _ _)).
    + apply lookup_ge_None in Ec. rewrite take_ge, drop_ge, app_nil_r by lia. by destruct r.
    + apply Forall_lookup. intros j y Hj E%bool_decide_eq_true. apply (Hcolj _ _ Hj) in E.
      apply lookup_lt_Some in Hj. apply lookup_ge_None in Ec. lia.
Qed.

Lemma popped_lookup (j : nat) :
  xlsxRow_C popped_row !! j =
    if decide (Z.of_nat j + 1 < num) then xlsxRow_C r !! j
    else (fun c => c <| xlsxC_R := cell_name (Z.of_nat j + 1) row |>) <$> xlsxRow_C r !! S j.
Proof using Hnum Hrow Hwf Hlen Hcol.
  pose proof Hwf as (_ & HC & _). unfold popped_row. rewrite drop_col_cell_cells.
  change (xlsxRow_C ((r <| xlsxRow_C := ?X |>) <| xlsxRow_C ::= ?g |>)) with (g X).
  rewrite list_lookup_fmap.
  assert (forall i c, xlsxRow_C r !! i = Some c -> Z.of_nat i + 1 < maxInt) as Hr
    by (intros i c Hi%lookup_lt_Some; unfold zlen in Hlen; lia).
  destruct (decide (Z.of_nat j + 1 < num)) as [Hj|Hj].
  - destruct (decide (j < length (xlsxRow_C r))%nat) as [Hl|Hl].
    + rewrite lookup_app_l by (rewrite length_take; lia). rewrite lookup_take_lt by lia.
      destruct (xlsxRow_C r !! j) as [c|] eqn:Ec; [|done]. cbn. unfold adjust_cell_col.
      rewrite (HC _ _ Ec), cell_name_coordinates by (specialize (Hr _ _ Ec); lia). cbn [fst].
      by replace (num <=? Z.of_nat j + 1) with false by lia.
    + rewrite !lookup_ge_None_2; [done|lia|]. rewrite length_app, length_take, length_drop. lia.
  - destruct (decide (Z.to_nat (num - 1) <= length (xlsxRow_C r))%nat) as [Hl|Hl].
    + rewrite lookup_app_r by (rewrite length_take; lia). rewrite length_take, lookup_drop.
      replace (Z.to_nat num + _)%nat with (S j) by lia.
      destruct (xlsxRow_C r !! S j) as [c|] eqn:Ec; [|done]. cbn. f_equal. pose proof (Hr _ _ Ec).
      rewrite (adjust_cell_col_name c _ row num (-1) (HC _ _ Ec)) by lia.
      replace (num <=? _) with true by lia. by replace (Z.of_nat (S j) + 1 + -1) with (Z.of_nat j + 1) by lia.
    + rewrite !lookup_ge_None_2; [done|lia|]. rewrite length_app, length_take, length_drop. lia.
Qed.

Lemma popped_wf : wf_row row popped_row.
Proof using Hnum Hrow Hwf Hlen Hcol.
  pose proof Hwf as (HR & HC & _). split; [|split].
  - unfold popped_row. by rewrite drop_col_cell_cells.
  - intros j c. rewrite popped_lookup. case_decide; [apply HC|]. by intros (c' & _ & ->)%fmap_Some.
  - unfold popped_row. rewrite drop_col_cell_cells. cbn. unfold zlen in *.
    rewrite length_fmap, length_app, length_take, length_drop. lia.
Qed.

End removed_cell.

(** ** Inserting and removing a column *)

(** What is assumed of a sheet for the adjustment of its columns. *)
Record col_adjustable (f : File) (sheet path : string) (xlsx : xlsxWorksheet) (num offset : Z)
    (Rs : list rect) (o : option (xlsxAutoFilter * rect)) : Prop := {
  ca_loaded : loaded f sheet path xlsx;
  ca_wf : wf_sheet xlsx;
  ca_len : Forall (fun r => zlen (xlsxRow_C r) < maxInt) (sheet_rows xlsx);
  ca_num : 1 <= num <= maxInt;
  ca_areas : merge_areas xlsx = rect_areas Rs;
  ca_kept : rects_kept columns num offset Rs;
  ca_links : links_kept columns num offset xlsx;
  ca_filter : xlsxWorksheet_AutoFilter xlsx = filter_of o;
  ca_filter_kept : from_option (fun p => rect_wf p.2 /\ rect_fits columns offset p.2 /\
                     ~ (rect_c1 p.2 = num /\ rect_c2 p.2 = num)) True o
}.

(** The auto filter after the adjustment of the columns: its first column stays
    where it is even when the column it filters is moved. *)
Definition widen_filter (num offset : Z) (R : rect) : rect :=
  mk_rect (rect_c1 R) (rect_r1 R) (shift num offset (rect_c2 R)) (rect_r2 R).

Definition col_adjusted (xlsx xlsx' : xlsxWorksheet) (num offset : Z) (Rs : list rect)
    (o : option (xlsxAutoFilter * rect)) : Prop :=
  merge_areas xlsx' = rect_areas (shift_rect columns num offset <$> Rs) /\
  sheet_links xlsx' = shift_link columns num offset <$> sheet_links xlsx /\
  xlsxWorksheet_AutoFilter xlsx' = filter_of (prod_map id (widen_filter num offset) <$> o) /\
  xlsx' <| xlsxWorksheet_SheetData := gozero |> <| xlsxWorksheet_MergeCells := None |>
        <| xlsxWorksheet_Hyperlinks := None |> <| xlsxWorksheet_AutoFilter := None |> =
  xlsx <| xlsxWorksheet_SheetData := gozero |> <| xlsxWorksheet_MergeCells := None |>
        <| xlsxWorksheet_Hyperlinks := None |> <| xlsxWorksheet_AutoFilter := None |>.

Lemma adjustAutoFilter_columns xlsx num offset o :
  -1 <= offset <= maxInt -> 1 <= num -> xlsxWorksheet_AutoFilter xlsx = filter_of o ->
  from_option (fun p => rect_wf p.2 /\ rect_fits columns offset p.2 /\ ~ (rect_c1 p.2 = num /\ rect_c2 p.2 = num)) True o ->
  adjustAutoFilter xlsx columns num offset =
    Ret (ok (xlsx <| xlsxWorksheet_AutoFilter := filter_of (prod_map id (widen_filter num offset) <$> o) |>)).
Proof.
  intros Ho Hn E Hk. unfold adjustAutoFilter. rewrite E. destruct o as [[af R]|]; cbn [filter_of fmap option_fmap option_map fst snd].
  2:{ cbn in E. rewrite <- E. by destruct xlsx. }
  destruct Hk as (Hw & Hf & Hne). change (xlsxAutoFilter_Ref (af <| xlsxAutoFilter_Ref := rect_ref R |>)) with (rect_ref R).
  rewrite rect_ref_split by done. cbn [snd] in *.
  change (list_get [?a; ?b] 0) with (Ret a). change (list_get [?a; ?b] 1) with (Ret b). cbn [mbind outcome_bind].
  destruct (rect_coordinates R Hw) as [-> ->]. destruct Hw as (H1 & H2 & H3 & H4). unfold rect_fits in Hf. cbn in Hf.
  cbn [is_rows negb andb orb].
  replace ((rect_c1 R =? num) && (rect_c2 R =? num)) with false by lia.
  assert ((if num <=? rect_c2 R then cell_name (iadd (rect_c2 R) offset) (rect_r2 R) else cell_name (rect_c2 R) (rect_r2 R))
    = cell_name (shift num offset (rect_c2 R)) (rect_r2 R)) as Hv.
  { unfold shift. destruct (num <=? rect_c2 R) eqn:En; [|done]. do 2 f_equal. int_lia. }
  rewrite Hv. done.
Qed.

Section cols_properties.
Context `{GoEnv}.

(** The cells after inserting a column. *)
Definition col_inserted (num : Z) (xlsx xlsx' : xlsxWorksheet) : Prop :=
  forall c row, coord c -> 1 <= row -> sheet_cell xlsx' c row =
    if c <? num then sheet_cell xlsx c row
    else if c =? num then (fun _ => freshCell (cell_name num row)) <$> sheet_cell xlsx num row
    else moved_cell c row <$> sheet_cell xlsx (c - 1) row.

Lemma InsertCol_grid f sheet path xlsx col num Rs o :
  col_adjustable f sheet path xlsx num 1 Rs o -> ColumnNameToNumber col = ok num ->
  exists xlsx', InsertCol sheet col f = Ret (None, with_sheet f path xlsx') /\ wf_sheet xlsx' /\
    zlen (sheet_rows xlsx') = zlen (sheet_rows xlsx) /\ same_props xlsx xlsx' /\ col_inserted num xlsx xlsx' /\
    col_adjusted xlsx xlsx' num 1 Rs o.
Proof.
  intros [Hl [Hwf Hmax] Hlen Hn Ha Hk Hlk Hf Hfk] Hcol.
  assert (forall i r, sheet_rows xlsx !! i = Some r ->
    coord (Z.of_nat i + 1) /\ wf_row (Z.of_nat i + 1) r /\ zlen (xlsxRow_C r) < maxInt) as Hrow.
  { intros i r Hi. split; [apply lookup_lt_Some in Hi; unfold zlen in *; lia|]. split; [by apply Hwf|].
    rewrite Forall_lookup in Hlen. by eapply Hlen. }
  set (Row1 := pushed_row num <$> sheet_rows xlsx).
  assert (numbered Row1) as Hnum1.
  { intros i r. unfold Row1. rewrite list_lookup_fmap. intros (r' & Hi & ->)%fmap_Some. exact (proj1 (Hwf _ _ Hi)). }
  assert (Forall sparse_row Row1) as Hsp1.
  { unfold Row1. apply Forall_fmap, Forall_lookup. intros i r Hi. destruct (Hrow _ _ Hi) as (Hr & Hw & HL).
    by eapply pushed_sparse_row. }
  destruct (adjustHelper_ok f sheet path xlsx columns num 1 Rs
    (filter_of (prod_map id (widen_filter num 1) <$> o)) (completed_row <$> Row1)) as (x & E & Hr & Hrest);
    [done|unfold maxInt; lia|done..| | |].
  - intros x Hx. apply adjustAutoFilter_columns; [unfold maxInt; lia|lia|by rewrite Hx|done].
  - intros x Hx. assert (sheet_rows (checkSheet x) = Row1) as Ec by (rewrite checkSheet_numbered; by rewrite Hx).
    eexists. rewrite checkRow_sparse by by rewrite Ec. rewrite Ec. done.
  - exists x. split; [|split; [|split; [|split; [|split; [|exact Hrest]]]]].
    + unfold InsertCol. rewrite Hcol. exact E.
    + split; [rewrite Hr; by apply completed_rows_wf|]. rewrite Hr. unfold Row1. by rewrite !zlen_fmap.
    + rewrite Hr. unfold Row1. by rewrite !zlen_fmap.
    + apply same_props_fmap. rewrite Hr. unfold Row1. rewrite <- !list_fmap_compose. by apply list_fmap_ext.
    + intros c row Hc Hrw. rewrite (sheet_cell_rows _ _ _ _ Hr). unfold Row1. rewrite !list_lookup_fmap.
      unfold sheet_cell. destruct (sheet_rows xlsx !! Z.to_nat (row - 1)) as [r|] eqn:Er;
        cbn [fmap option_fmap option_map mbind option_bind]; [|by destruct (c <? num), (c =? num)].
      destruct (Hrow _ _ Er) as (Hr1 & Hw & HL). rewrite index_succ in Hr1, Hw by lia.
      rewrite (pushed_completed num row) by done. replace (c - 1 - 1) with (c - 2) by lia.
      destruct (c <? num); [done|]. destruct (c =? num); [|done].
      destruct (xlsxRow_C r !! Z.to_nat (num - 1)) as [c0|] eqn:Ec; cbn.
      * apply lookup_lt_Some in Ec. by replace (_ <? num) with false by (unfold zlen; lia).
      * apply lookup_ge_None in Ec. by replace (_ <? num) with true by (unfold zlen; lia).
Qed.

(** C13. [InsertCol]: in every row the cells from the given column on move to the
    right by one and are renamed, a blank cell takes the free place where the
    row reached that far; the merged areas and the hyperlinks move along, the
    sheet stays dense, and nothing else in it changes. *)
Theorem InsertCol_correct f sheet path xlsx col num Rs o :
  col_adjustable f sheet path xlsx num 1 Rs o -> ColumnNameToNumber col = ok num ->
  exists xlsx', InsertCol sheet col f = Ret (None, with_sheet f path xlsx') /\ wf_sheet xlsx' /\
    (forall c row, coord c -> 1 <= row -> sheet_cell xlsx' c row =
       if c <? num then sheet_cell xlsx c row
       else if c =? num then (fun _ => freshCell (cell_name num row)) <$> sheet_cell xlsx num row
       else moved_cell c row <$> sheet_cell xlsx (c - 1) row) /\
    col_adjusted xlsx xlsx' num 1 Rs o.
Proof.
  intros Hadj Hcol. destruct (InsertCol_grid _ _ _ _ _ _ _ _ Hadj Hcol) as (x & E & Hwf & _ & _ & Hcells & Hrest). by exists x.
Qed.

(** The cells after removing a column. *)
Definition col_removed (num : Z) (xlsx xlsx' : xlsxWorksheet) : Prop :=
  forall c row, 1 <= c -> 1 <= row -> sheet_cell xlsx' c row =
    if c <? num then sheet_cell xlsx c row else moved_cell c row <$> sheet_cell xlsx (c + 1) row.

Lemma RemoveCol_grid f sheet path xlsx col num Rs o :
  col_adjustable f sheet path xlsx num (-1) Rs o -> ColumnNameToNumber col = ok num -> ColumnNumberToName num = ok col ->
  exists xlsx', RemoveCol sheet col f = Ret (None, with_sheet f path xlsx') /\ wf_sheet xlsx' /\
    zlen (sheet_rows xlsx') = zlen (sheet_rows xlsx) /\ same_props xlsx xlsx' /\ col_removed num xlsx xlsx' /\
    col_adjusted xlsx xlsx' num (-1) Rs o.
Proof.
  intros [Hl [Hwf Hmax] Hlen Hn Ha Hk Hlk Hf Hfk] Hcol Hname.
  assert (forall i r, sheet_rows xlsx !! i = Some r ->
    coord (Z.of_nat i + 1) /\ wf_row (Z.of_nat i + 1) r /\ zlen (xlsxRow_C r) < maxInt) as Hrow.
  { intros i r Hi. split; [apply lookup_lt_Some in Hi; unfold zlen in *; lia|]. split; [by apply Hwf|].
    rewrite Forall_lookup in Hlen. by eapply Hlen. }
  set (x0 := set_rows (drop_col_cell col <$> sheet_rows xlsx) xlsx).
  set (Row1 := popped_row num col <$> sheet_rows xlsx).
  assert (sheet_rows (adjust_grid columns num (-1) x0) = Row1) as EG.
  { unfold adjust_grid, adjustColDimensions, x0, Row1. cbn. by rewrite <- list_fmap_compose. }
  assert (wf_rows Row1) as Hwf1.
  { intros i r. unfold Row1. rewrite list_lookup_fmap. intros (r' & Hi & ->)%fmap_Some.
    destruct (Hrow _ _ Hi) as (Hr & Hw & HL). by apply popped_wf. }
  destruct (adjustHelper_ok (with_sheet f path x0) sheet path x0 columns num (-1) Rs
    (filter_of (prod_map id (widen_filter num (-1)) <$> o)) Row1) as (x & E & Hr & Hrest).
  - by apply (with_sheet_loaded f sheet path xlsx).
  - unfold maxInt; lia.
  - done.
  - done.
  - done.
  - intros x Hx. apply adjustAutoFilter_columns; [unfold maxInt; lia|lia|by rewrite Hx|done].
  - intros x Hx. rewrite EG in Hx.
    assert (sheet_rows (checkSheet x) = Row1) as Ec by (rewrite checkSheet_numbered; rewrite Hx; [done|by apply wf_rows_numbered]).
    eexists. rewrite checkRow_wf by (rewrite Ec; first [done|unfold Row1; by rewrite zlen_fmap]). by rewrite Ec.
  - exists x. split; [|split; [|split; [|split; [|split; [|exact Hrest]]]]].
    + unfold RemoveCol. rewrite Hcol. unfold mbind at 1, gom_bind, mret, gom_ret. cbn [fst snd].
      rewrite (bind_Ret _ _ _ _ _ (workSheetReader_loaded _ _ _ _ Hl)). unfold update.
      rewrite bind_Ret with (a := tt) (s' := with_sheet f path x0).
      2:{ by rewrite (bind_Ret _ _ _ _ _ (deref_loaded _ _ _ (proj2 Hl))). }
      by rewrite E, with_sheet_twice.
    + split; [by rewrite Hr|]. rewrite Hr. unfold Row1. by rewrite zlen_fmap.
    + rewrite Hr. unfold Row1. by rewrite zlen_fmap.
    + apply same_props_fmap. rewrite Hr. unfold Row1. rewrite <- list_fmap_compose. apply list_fmap_ext. intros _ r _.
      unfold compose, popped_row, drop_col_cell. by destruct (delete_first _ _) as [[]|].
    + intros c row Hc Hrw. rewrite (sheet_cell_rows _ _ _ _ Hr). unfold Row1. rewrite list_lookup_fmap.
      unfold sheet_cell. destruct (sheet_rows xlsx !! Z.to_nat (row - 1)) as [r|] eqn:Er;
        cbn [fmap option_fmap option_map mbind option_bind]; [|by destruct (c <? num), (c =? num)].
      destruct (Hrow _ _ Er) as (Hr1 & Hw & HL). rewrite index_succ in Hr1, Hw by lia.
      rewrite (popped_lookup num row) by done. rewrite index_succ by lia.
      replace (S (Z.to_nat (c - 1))) with (Z.to_nat (c + 1 - 1)) by lia.
      case_decide; [by replace (c <? num) with true by lia|by replace (c <? num) with false by lia].
Qed.

(** C14. [RemoveCol] with the column given in upper case: in every row its cell
    disappears and the cells to its right move to the left by one. *)
Theorem RemoveCol_correct f sheet path xlsx col num Rs o :
  col_adjustable f sheet path xlsx num (-1) Rs o -> ColumnNameToNumber col = ok num -> ColumnNumberToName num = ok col ->
  exists xlsx', RemoveCol sheet col f = Ret (None, with_sheet f path xlsx') /\ wf_sheet xlsx' /\
    (forall c row, 1 <= c -> 1 <= row -> sheet_cell xlsx' c row =
       if c <? num then sheet_cell xlsx c row else moved_cell c row <$> sheet_cell xlsx (c + 1) row) /\
    col_adjusted xlsx xlsx' num (-1) Rs o.
Proof.
  intros Hadj Hcol Hname. destruct (RemoveCol_grid _ _ _ _ _ _ _ _ Hadj Hcol Hname) as (x & E & Hwf & _ & _ & Hcells & Hrest). by exists x.
Qed.

(** *** Attributes of a column *)

Lemma last_col_snoc n l c : last_col n (l ++ [c]) = if col_covers n c then Some c else last_col n l.
Proof. unfold last_col. by rewrite foldl_app. Qed.

Lemma sheet_cols_add c xlsx : sheet_cols (add_col c xlsx) = sheet_cols xlsx ++ [c].
Proof. done. Qed.

Lemma get_col_loaded {A} f sheet path xlsx col num (d1 d2 : A) g :
  loaded f sheet path xlsx -> ColumnNameToNumber col = ok num ->
  get_col sheet col d1 d2 g f =
    Ret (ok (match last_col num (sheet_cols xlsx) with Some c => g c | None => d1 end), f).
Proof.
  intros Hl Hc. unfold get_col. rewrite Hc. unfold mbind at 1, gom_bind, mret, gom_ret. cbn [fst snd].
  rewrite (bind_Ret _ _ _ _ _ (workSheetReader_loaded _ _ _ _ Hl)).
  by rewrite (bind_Ret _ _ _ _ _ (deref_loaded _ _ _ (proj2 Hl))).
Qed.

Lemma GetColWidth_loaded f sheet path xlsx col num :
  loaded f sheet path xlsx -> ColumnNameToNumber col = ok num ->
  GetColWidth sheet col f =
    Ret (ok (if f64_eqb (col_width num xlsx) f64_zero then defaultColWidthPixels else col_width num xlsx), f).
Proof.
  intros Hl Hc. unfold GetColWidth. rewrite Hc. unfold mbind at 1, gom_bind, mret, gom_ret. cbn [fst snd].
  rewrite (bind_Ret _ _ _ _ _ (workSheetReader_loaded _ _ _ _ Hl)).
  by rewrite (bind_Ret _ _ _ _ _ (deref_loaded _ _ _ (proj2 Hl))).
Qed.

(** The two attributes of a single column. *)
Inductive col_attr : Type :=
| ColVisible (visible : bool)
| ColOutlineLevel (level : Z).

Definition set_col_attr (a : col_attr) (sheet col : string) : M (option goerr) :=
  match a with
  | ColVisible b => SetColVisible sheet col b
  | ColOutlineLevel l => SetColOutlineLevel sheet col l
  end.

Definition col_attr_read (a : col_attr) (sheet col : string) (f : File) : Prop :=
  match a with
  | ColVisible b => GetColVisible sheet col f = Ret (ok b, f)
  | ColOutlineLevel l => GetColOutlineLevel sheet col f = Ret (ok l, f)
  end.

(** The range that they append. *)
Definition attr_col (a : col_attr) (num : Z) (cols : list xlsxCol) : xlsxCol :=
  let old := match last_col num cols with Some c => c | None => gozero end in
  let c := old <| xlsxCol_Min := num |> <| xlsxCol_Max := num |> in
  match a with
  | ColVisible b => c <| xlsxCol_Hidden := negb b |>
  | ColOutlineLevel l => c <| xlsxCol_OutlineLevel := l |>
  end <| xlsxCol_CustomWidth := true |>.

Lemma attr_col_Min a num cols : xlsxCol_Min (attr_col a num cols) = num.
Proof. by destruct a. Qed.
Lemma attr_col_Max a num cols : xlsxCol_Max (attr_col a num cols) = num.
Proof. by destruct a. Qed.

Lemma set_col_attr_loaded f sheet path xlsx col num a :
  loaded f sheet path xlsx -> ColumnNameToNumber col = ok num ->
  set_col_attr a sheet col f = Ret (None, with_sheet f path (add_col (attr_col a num (sheet_cols xlsx)) xlsx)).
Proof.
  intros Hl Hc. set (g := fun c => match a with ColVisible b => c <| xlsxCol_Hidden := negb b |> | ColOutlineLevel l => c <| xlsxCol_OutlineLevel := l |> end).
  assert (set_col_attr a sheet col = set_col sheet col g) as -> by by destruct a.
  unfold set_col. rewrite Hc. unfold mbind at 1, gom_bind, mret, gom_ret. cbn [fst snd].
  rewrite (bind_Ret _ _ _ _ _ (workSheetReader_loaded _ _ _ _ Hl)). unfold update.
  rewrite bind_Ret with (a := tt) (s' := with_sheet f path (add_col (attr_col a num (sheet_cols xlsx)) xlsx)); [done|].
  by rewrite (bind_Ret _ _ _ _ _ (deref_loaded _ _ _ (proj2 Hl))).
Qed.

(** The visibility and the outline level of one column: the getter returns what
    was set, for every spelling of the column's name; the other attribute and
    the width of the column keep their values, every other column is unchanged,
    and so is the rest of the sheet. *)
Theorem SetCol_GetCol f sheet path xlsx col col' num a :
  loaded f sheet path xlsx -> ColumnNameToNumber col = ok num -> ColumnNameToNumber col' = ok num ->
  exists xlsx', set_col_attr a sheet col f = Ret (None, with_sheet f path xlsx') /\
    col_attr_read a sheet col' (with_sheet f path xlsx') /\
    col_width num xlsx' = col_width num xlsx /\
    (forall m, m <> num -> last_col m (sheet_cols xlsx') = last_col m (sheet_cols xlsx)) /\
    (forall c old, last_col num (sheet_cols xlsx) = Some old -> last_col num (sheet_cols xlsx') = Some c ->
       match a with ColVisible _ => xlsxCol_OutlineLevel c = xlsxCol_OutlineLevel old
                  | ColOutlineLevel _ => xlsxCol_Hidden c = xlsxCol_Hidden old end /\ xlsxCol_Style c = xlsxCol_Style old) /\
    xlsx' <| xlsxWorksheet_Cols := None |> = xlsx <| xlsxWorksheet_Cols := None |>.
Proof.
  intros Hl Hc Hc'.
  set (old := match last_col num (sheet_cols xlsx) with Some c => c | None => gozero end).
  set (c := attr_col a num (sheet_cols xlsx)). pose proof (set_col_attr_loaded f sheet path xlsx col num a Hl Hc) as E. fold c in E.
  assert (forall m, col_covers m c = (m =? num)) as Hcov.
  { intros m. unfold col_covers. unfold c. rewrite attr_col_Min, attr_col_Max. lia. }
  assert (last_col num (sheet_cols (add_col c xlsx)) = Some c) as Hlast.
  { rewrite sheet_cols_add, last_col_snoc, Hcov. by rewrite Z.eqb_refl. }
  exists (add_col c xlsx). split; [exact E|]. split; [|split; [|split; [|split; [|done]]]].
  - pose proof (with_sheet_loaded f sheet path xlsx (add_col c xlsx) Hl) as Hl'.
    destruct a; cbn [col_attr_read]; unfold GetColVisible, GetColOutlineLevel;
      rewrite (get_col_loaded _ _ _ _ _ _ _ _ _ Hl' Hc'), Hlast; [|done]. cbn. by rewrite negb_involutive.
  - unfold col_width. rewrite Hlast. assert (xlsxCol_Width c = xlsxCol_Width old) as -> by by destruct a.
    subst old. by destruct (last_col num (sheet_cols xlsx)).
  - intros m Hm. rewrite sheet_cols_add, last_col_snoc, Hcov. by replace (m =? num) with false by lia.
  - intros c1 c2 E2 E1. rewrite Hlast in E1. injection E1 as <-. assert (old = c2) as <- by (subst old; by rewrite E2). by destruct a.
Qed.

(** The range that [SetColWidth] appends. *)
Definition width_col (a b : Z) (width : float64) : xlsxCol :=
  (gozero : xlsxCol) <| xlsxCol_Min := Z.min a b |> <| xlsxCol_Max := Z.max a b |>
    <| xlsxCol_Width := width |> <| xlsxCol_CustomWidth := true |>.

Lemma SetColWidth_loaded f sheet path xlsx startcol endcol a b width :
  loaded f sheet path xlsx -> ColumnNameToNumber startcol = ok a -> ColumnNameToNumber endcol = ok b ->
  SetColWidth sheet startcol endcol width f = Ret (None, with_sheet f path (add_col (width_col a b width) xlsx)).
Proof.
  intros Hl Ha Hb. unfold SetColWidth. rewrite Ha, Hb. unfold mbind at 1, gom_bind, mret, gom_ret. cbn [fst snd].
  unfold mbind at 1, gom_bind. replace (if b <? a then (b, a) else (a, b)) with (Z.min a b, Z.max a b) by (case_match; f_equal; lia).
  cbv beta iota. rewrite (bind_Ret _ _ _ _ _ (workSheetReader_loaded _ _ _ _ Hl)). unfold update.
  rewrite bind_Ret with (a := tt) (s' := with_sheet f path (add_col (width_col a b width) xlsx)); [done|].
  by rewrite (bind_Ret _ _ _ _ _ (deref_loaded _ _ _ (proj2 Hl))).
Qed.

(** The width of a range of columns, given by its end columns in any order:
    every column of the range then has it (the default for a width of zero) and
    no other column changes. *)
Theorem SetColWidth_GetColWidth f sheet path xlsx startcol endcol a b width col num :
  loaded f sheet path xlsx -> ColumnNameToNumber startcol = ok a -> ColumnNameToNumber endcol = ok b ->
  ColumnNameToNumber col = ok num ->
  exists xlsx', SetColWidth sheet startcol endcol width f = Ret (None, with_sheet f path xlsx') /\
    GetColWidth sheet col (with_sheet f path xlsx') =
      (if (Z.min a b <=? num) && (num <=? Z.max a b)
       then Ret (ok (if f64_eqb width f64_zero then defaultColWidthPixels else width), with_sheet f path xlsx')
       else match GetColWidth sheet col f with Ret (r, _) => Ret (r, with_sheet f path xlsx') | Panic => Panic end) /\
    xlsx' <| xlsxWorksheet_Cols := None |> = xlsx <| xlsxWorksheet_Cols := None |>.
Proof.
  intros Hl Ha Hb Hc.
  set (c := width_col a b width).
  exists (add_col c xlsx). split; [|split; [|done]].
  - by apply SetColWidth_loaded.
  - rewrite (GetColWidth_loaded _ _ _ _ _ _ Hl Hc).
    rewrite (GetColWidth_loaded _ _ _ _ _ _ (with_sheet_loaded f sheet path xlsx (add_col c xlsx) Hl) Hc).
    unfold col_width. rewrite sheet_cols_add, last_col_snoc.
    assert (col_covers num c = (Z.min a b <=? num) && (num <=? Z.max a b)) as -> by done. by destruct ((Z.min a b <=? num) && (num <=? Z.max a b)).
Qed.

(** Setting a width makes a hidden column of the range visible again and drops
    its outline level: the new range, the last one that covers the column, has
    the width only. *)
Theorem SetColWidth_unhides f sheet path xlsx startcol endcol a b width col num :
  loaded f sheet path xlsx -> ColumnNameToNumber startcol = ok a -> ColumnNameToNumber endcol = ok b ->
  ColumnNameToNumber col = ok num -> Z.min a b <= num <= Z.max a b ->
  exists f', SetColWidth sheet startcol endcol width f = Ret (None, f') /\
    GetColVisible sheet col f' = Ret (ok true, f') /\ GetColOutlineLevel sheet col f' = Ret (ok 0, f').
Proof.
  intros Hl Ha Hb Hc Hin.
  set (c := width_col a b width).
  exists (with_sheet f path (add_col c xlsx)). split.
  - by apply SetColWidth_loaded.
  - pose proof (with_sheet_loaded f sheet path xlsx (add_col c xlsx) Hl) as Hl'.
    assert (last_col num (sheet_cols (add_col c xlsx)) = Some c) as Hlast.
    { rewrite sheet_cols_add, last_col_snoc. unfold col_covers. cbn.
      by replace ((Z.min a b <=? num) && (num <=? Z.max a b)) with true by lia. }
    unfold GetColVisible, GetColOutlineLevel. split; by rewrite (get_col_loaded _ _ _ _ _ _ _ _ _ Hl' Hc), Hlast.
Qed.

End cols_properties.

(** ** Witnesses *)

Lemma example_columns offset :
  offset = 1 \/ offset = -1 ->
  col_adjustable (example_file example_table) "Sheet1" sheet1_path example_table 3 offset [example_area] example_filter.
Proof.
  intros Ho. split.
  - apply example_loaded.
  - exact example_sheet_wf.
  - repeat constructor.
  - unfold maxInt; lia.
  - reflexivity.
  - constructor; [|constructor]. split; [unfold rect_wf, maxInt; cbn; lia|].
    destruct Ho as [-> | ->]; (split; [vm_compute; discriminate|reflexivity]).
  - intros _. constructor; [reflexivity|constructor].
  - reflexivity.
  - split; [unfold rect_wf, maxInt; cbn; lia|]. split; [unfold rect_fits, maxInt; cbn; lia|].
    cbn. intros [E _]. discriminate E.
Defined.

Lemma InsertCol_correct_witness :
  exists xlsx', InsertCol (H := example_env) "Sheet1" "c" (example_file example_table) =
      Ret (None, with_sheet (example_file example_table) sheet1_path xlsx') /\
    sheet_cell xlsx' 3 2 = Some (freshCell "C2") /\ sheet_cell xlsx' 4 2 = Some (freshCell "D2").
Proof.
  destruct (@InsertCol_correct example_env _ _ _ _ "c" _ _ _ (example_columns 1 (or_introl eq_refl)) eq_refl) as (x & E & _ & Hc & _).
  exists x. split; [exact E|]. split; (rewrite Hc by (unfold maxInt; lia)); reflexivity.
Defined.

Lemma RemoveCol_correct_witness :
  exists xlsx', RemoveCol (H := example_env) "Sheet1" "C" (example_file example_table) =
      Ret (None, with_sheet (example_file example_table) sheet1_path xlsx') /\
    sheet_cell xlsx' 3 2 = None.
Proof.
  destruct (@RemoveCol_correct example_env _ _ _ _ "C" _ _ _ (example_columns (-1) (or_intror eq_refl)) eq_refl eq_refl) as (x & E & _ & Hc & _).
  exists x. split; [exact E|]. rewrite Hc by lia. reflexivity.
Defined.

Lemma SetCol_GetCol_witness :
  let f := example_file example_sheet in
  exists xlsx', set_col_attr (H := example_env) (ColVisible false) "Sheet1" "D" f = Ret (None, with_sheet f sheet1_path xlsx') /\
    GetColVisible (H := example_env) "Sheet1" "d" (with_sheet f sheet1_path xlsx') = Ret (ok false, with_sheet f sheet1_path xlsx').
Proof.
  intros f. destruct (@SetCol_GetCol example_env f "Sheet1" sheet1_path example_sheet "D" "d" 4 (ColVisible false)
    (example_loaded _) eq_refl eq_refl) as (x & E & Hg & _).
  exists x. split; [exact E|exact Hg].
Defined.

Lemma SetColWidth_GetColWidth_witness :
  let f := example_file example_sheet in
  exists xlsx', SetColWidth (H := example_env) "Sheet1" "F" "B" (f64_of_int 20) f = Ret (None, with_sheet f sheet1_path xlsx') /\
    GetColWidth (H := example_env) "Sheet1" "C" (with_sheet f sheet1_path xlsx') = Ret (ok (f64_of_int 20), with_sheet f sheet1_path xlsx').
Proof.
  intros f. destruct (@SetColWidth_GetColWidth example_env f "Sheet1" sheet1_path example_sheet "F" "B" 6 2 (f64_of_int 20) "C" 3
    (example_loaded _) eq_refl eq_refl eq_refl) as (x & E & Hg & _).
  exists x. split; [exact E|exact Hg].
Defined.

Lemma SetColWidth_unhides_witness :
  let f := example_file (add_col ((gozero : xlsxCol) <| xlsxCol_Min := 1 |> <| xlsxCol_Max := 1 |> <| xlsxCol_Hidden := true |>) example_sheet) in
  GetColVisible (H := example_env) "Sheet1" "A" f = Ret (ok false, f) /\
  exists f', SetColWidth (H := example_env) "Sheet1" "A" "C" (f64_of_int 20) f = Ret (None, f') /\
    GetColVisible (H := example_env) "Sheet1" "A" f' = Ret (ok true, f').
Proof.
  intros f. split; [reflexivity|].
  destruct (@SetColWidth_unhides example_env f "Sheet1" sheet1_path _ "A" "C" 1 3 (f64_of_int 20) "A" 1
    (example_loaded _) eq_refl eq_refl eq_refl ltac:(lia)) as (f' & E & Hv & _).
  exists f'. split; [exact E|exact Hv].
Defined.

(** The same column in lower case: the number is the same, but the text of the
    cells' columns is not, so no cell is removed; the cells to the right are
    renamed all the same, and two cells of the row have the name [B2]. *)
Theorem RemoveCol_lower_case :
  let f := example_file example_sheet in
  exists f' xlsx', RemoveCol (H := example_env) "Sheet1" "c" f = Ret (None, f') /\
    File_Sheet f' !! sheet1_path = Some xlsx' /\
    (xlsxC_R <$> (sheet_rows xlsx' ≫= xlsxRow_C)) = ["A2"; "B2"; "B2"].
Proof. intros f. eexists _, _. split; [vm_compute; reflexivity|]. split; [vm_compute; reflexivity|]. vm_compute. reflexivity. Qed.

(** Inserting a column at the one column of an auto filter deletes the filter,
    as removing it does: the guard of the two cases lacks the sign of the
    offset that the one for rows has. *)
Theorem InsertCol_drops_filter :
  let f := example_file (example_sheet <| xlsxWorksheet_AutoFilter := Some ((gozero : xlsxAutoFilter) <| xlsxAutoFilter_Ref := "B1:B2" |>) |>) in
  exists f' xlsx', InsertCol (H := example_env) "Sheet1" "B" f = Ret (None, f') /\
    File_Sheet f' !! sheet1_path = Some xlsx' /\ xlsxWorksheet_AutoFilter xlsx' = None.
Proof. intros f. eexists _, _. split; [vm_compute; reflexivity|]. split; [vm_compute; reflexivity|]. reflexivity. Qed.
