(* ===== verification/SheetOpts.v ===== *)
(** The settings of a worksheet: the options of its views ([sheetview.go]), of
    its properties ([sheetpr.go]) and of its page layout ([sheet.go]), which
    share one interface of setters and getters, and its panes, header, footer
    and protection ([sheet.go]). *)
From S2P Require Export Workbook.

(** ** The option interfaces

    An option of the source is a named type with a method that writes it into a
    structure and a method that reads it back into the option; the value of a
    Go interface is a constructor for the type, with the value. *)
Class SheetOption (O S : Type) := {
  opt_set : O -> S -> S;
  opt_get : O -> S -> O;
  (** Options of one type have one kind. *)
  opt_kind : O -> nat;
  (** What is read after the option was written over a structure from which the
      second argument was read: the option itself, unless it is refused or
      stands for a default. *)
  opt_read : O -> O -> O
}.

(** What a component with options promises: a getter reads what the last setter
    of its kind wrote, and the setters of the other kinds do not disturb it. *)
Class SheetOptionLaws (O S : Type) `{SheetOption O S} : Prop := {
  opt_get_same p q s : opt_kind p = opt_kind q -> opt_get p s = opt_get q s;
  opt_get_set p o s :
    opt_get p (opt_set o s) = if (opt_kind p =? opt_kind o)%nat then opt_read o (opt_get p s) else opt_get p s
}.

(** [for _, opt := range opts { opt.set(s) }]. *)
Definition set_options {O S} `{SheetOption O S} (opts : list O) (s : S) : S :=
  foldl (fun s opt => opt_set opt s) s opts.

(** The value of the kind of [p] after the options: each one of this kind in
    turn replaces what was read before. *)
Definition read_options {O S} `{SheetOption O S} (opts : list O) (p v : O) : O :=
  foldl (fun v opt => if (opt_kind p =? opt_kind opt)%nat then opt_read opt v else v) v opts.

Section options.
Context {O S : Type} `{SheetOptionLaws O S}.

Lemma opt_get_set_options opts p s :
  opt_get p (set_options opts s) = read_options opts p (opt_get p s).
Proof.
  unfold set_options, read_options. revert s. induction opts as [|o opts IH]; intros s; [done|].
  cbn. by rewrite IH, opt_get_set.
Qed.

Lemma read_options_app opts1 opts2 p v :
  read_options (opts1 ++ opts2) p v = read_options opts2 p (read_options opts1 p v).
Proof. apply foldl_app. Qed.

Lemma read_options_other opts p v :
  Forall (fun o => opt_kind p <> opt_kind o) opts -> read_options opts p v = v.
Proof.
  unfold read_options. induction 1 as [|o opts Ho Hl IH]; [done|]. cbn.
  by rewrite (proj2 (Nat.eqb_neq _ _) Ho).
Qed.

(** The last option of a kind decides. *)
Lemma read_options_last opts1 o opts2 p v :
  opt_kind p = opt_kind o -> Forall (fun o' => opt_kind o <> opt_kind o') opts2 ->
  exists v', read_options (opts1 ++ o :: opts2) p v = opt_read o v'.
Proof.
  intros Hk Ho. exists (read_options opts1 p v). rewrite read_options_app.
  unfold read_options at 1. cbn [foldl]. rewrite Hk, Nat.eqb_refl. by apply (read_options_other opts2 o).
Qed.
End options.

(** *** [sheetview.go] *)

Inductive SheetViewOption :=
| DefaultGridColor (o : bool)
| RightToLeft (o : bool)
| ShowFormulas (o : bool)
| ShowGridLines (o : bool)
| ShowRowColHeaders (o : bool)
| ZoomScale (o : float64)
| TopLeftCell (o : string).

Definition zoom_ok (o : float64) : bool :=
  f64_leb (f64_of_int 10) o && f64_leb o (f64_of_int 400).

Definition setSheetViewOption (opt : SheetViewOption) (view : xlsxSheetView) : xlsxSheetView :=
  match opt with
  | TopLeftCell o => view <| xlsxSheetView_TopLeftCell := o |>
  | DefaultGridColor o => view <| xlsxSheetView_DefaultGridColor := boolPtr o |>
  | RightToLeft o => view <| xlsxSheetView_RightToLeft := o |>
  | ShowFormulas o => view <| xlsxSheetView_ShowFormulas := o |>
  | ShowGridLines o => view <| xlsxSheetView_ShowGridLines := boolPtr o |>
  | ShowRowColHeaders o => view <| xlsxSheetView_ShowRowColHeaders := boolPtr o |>
  | ZoomScale o => if zoom_ok o then view <| xlsxSheetView_ZoomScale := o |> else view
  end.

Definition getSheetViewOption (opt : SheetViewOption) (view : xlsxSheetView) : SheetViewOption :=
  match opt with
  | TopLeftCell _ => TopLeftCell (xlsxSheetView_TopLeftCell view)
  | DefaultGridColor _ => DefaultGridColor (defaultTrue (xlsxSheetView_DefaultGridColor view))
  | RightToLeft _ => RightToLeft (xlsxSheetView_RightToLeft view)
  | ShowFormulas _ => ShowFormulas (xlsxSheetView_ShowFormulas view)
  | ShowGridLines _ => ShowGridLines (defaultTrue (xlsxSheetView_ShowGridLines view))
  | ShowRowColHeaders _ => ShowRowColHeaders (defaultTrue (xlsxSheetView_ShowRowColHeaders view))
  | ZoomScale _ => ZoomScale (xlsxSheetView_ZoomScale view)
  end.

#[export] Instance sheet_view_option : SheetOption SheetViewOption xlsxSheetView := {
  opt_set := setSheetViewOption;
  opt_get := getSheetViewOption;
  opt_kind o := match o with
    | DefaultGridColor _ => 0 | RightToLeft _ => 1 | ShowFormulas _ => 2 | ShowGridLines _ => 3
    | ShowRowColHeaders _ => 4 | ZoomScale _ => 5 | TopLeftCell _ => 6 end%nat;
  opt_read o v := match o with ZoomScale z => if zoom_ok z then o else v | _ => o end
}.

(** *** [sheetpr.go] *)

Inductive SheetPrOption :=
| CodeName (o : string)
| EnableFormatConditionsCalculation (o : bool)
| Published (o : bool)
| FitToPage (o : bool)
| AutoPageBreaks (o : bool)
| OutlineSummaryBelow (o : bool).

(** [FitToPage] and [AutoPageBreaks] create the structure they write into only
    for [true]. *)
Definition set_pageSetUpPr (o : bool) (g : xlsxPageSetUpPr -> xlsxPageSetUpPr) (pr : xlsxSheetPr) : xlsxSheetPr :=
  match xlsxSheetPr_PageSetUpPr pr with
  | None => if negb o then pr else pr <| xlsxSheetPr_PageSetUpPr := Some (g gozero) |>
  | Some p => pr <| xlsxSheetPr_PageSetUpPr := Some (g p) |>
  end.

Definition setSheetPrOption (opt : SheetPrOption) (pr : xlsxSheetPr) : xlsxSheetPr :=
  match opt with
  | OutlineSummaryBelow o =>
      let outline : xlsxOutlinePr := match xlsxSheetPr_OutlinePr pr with Some p => p | None => gozero end in
      pr <| xlsxSheetPr_OutlinePr := Some (outline <| xlsxOutlinePr_SummaryBelow := o |>) |>
  | CodeName o => pr <| xlsxSheetPr_CodeName := o |>
  | EnableFormatConditionsCalculation o =>
      pr <| xlsxSheetPr_EnableFormatConditionsCalculation := boolPtr o |>
  | Published o => pr <| xlsxSheetPr_Published := boolPtr o |>
  | FitToPage o => set_pageSetUpPr o (fun p => p <| xlsxPageSetUpPr_FitToPage := o |>) pr
  | AutoPageBreaks o => set_pageSetUpPr o (fun p => p <| xlsxPageSetUpPr_AutoPageBreaks := o |>) pr
  end.

(** The getters also read a nil pointer. *)
Definition getSheetPrOption (opt : SheetPrOption) (pr : option xlsxSheetPr) : SheetPrOption :=
  match opt with
  | OutlineSummaryBelow _ =>
      OutlineSummaryBelow (match pr ≫= xlsxSheetPr_OutlinePr with
                           | None => true
                           | Some p => defaultTrue (Some (xlsxOutlinePr_SummaryBelow p))
                           end)
  | CodeName _ => CodeName (match pr with None => "" | Some pr => xlsxSheetPr_CodeName pr end)
  | EnableFormatConditionsCalculation _ =>
      EnableFormatConditionsCalculation
        (match pr with None => true | Some pr => defaultTrue (xlsxSheetPr_EnableFormatConditionsCalculation pr) end)
  | Published _ =>
      Published (match pr with None => true | Some pr => defaultTrue (xlsxSheetPr_Published pr) end)
  | FitToPage _ =>
      FitToPage (match pr ≫= xlsxSheetPr_PageSetUpPr with None => false | Some p => xlsxPageSetUpPr_FitToPage p end)
  | AutoPageBreaks _ =>
      AutoPageBreaks (match pr ≫= xlsxSheetPr_PageSetUpPr with None => false | Some p => xlsxPageSetUpPr_AutoPageBreaks p end)
  end.

#[export] Instance sheet_pr_option : SheetOption SheetPrOption xlsxSheetPr := {
  opt_set := setSheetPrOption;
  opt_get o pr := getSheetPrOption o (Some pr);
  opt_kind o := match o with
    | CodeName _ => 0 | EnableFormatConditionsCalculation _ => 1 | Published _ => 2 | FitToPage _ => 3
    | AutoPageBreaks _ => 4 | OutlineSummaryBelow _ => 5 end%nat;
  opt_read o _ := o
}.

(** *** Page layout *)

Inductive PageLayoutOption :=
| PageLayoutOrientation (o : string)
| PageLayoutPaperSize (p : Z).

Definition OrientationPortrait : string := "portrait".
Definition OrientationLandscape : string := "landscape".

Definition setPageLayout (opt : PageLayoutOption) (ps : xlsxPageSetUp) : xlsxPageSetUp :=
  match opt with
  | PageLayoutOrientation o => ps <| xlsxPageSetUp_Orientation := o |>
  | PageLayoutPaperSize p => ps <| xlsxPageSetUp_PaperSize := p |>
  end.

Definition getPageLayout (opt : PageLayoutOption) (ps : option xlsxPageSetUp) : PageLayoutOption :=
  match opt with
  | PageLayoutOrientation _ =>
      PageLayoutOrientation (match ps with
        | None => OrientationPortrait
        | Some ps => if bool_decide (xlsxPageSetUp_Orientation ps = "") then OrientationPortrait
                     else xlsxPageSetUp_Orientation ps
        end)
  | PageLayoutPaperSize _ =>
      PageLayoutPaperSize (match ps with
        | None => 1
        | Some ps => if xlsxPageSetUp_PaperSize ps =? 0 then 1 else xlsxPageSetUp_PaperSize ps
        end)
  end.

#[export] Instance page_layout_option : SheetOption PageLayoutOption xlsxPageSetUp := {
  opt_set := setPageLayout;
  opt_get o ps := getPageLayout o (Some ps);
  opt_kind o := match o with PageLayoutOrientation _ => 0 | PageLayoutPaperSize _ => 1 end%nat;
  opt_read o _ := match o with
    | PageLayoutOrientation s => if bool_decide (s = "") then PageLayoutOrientation OrientationPortrait else o
    | PageLayoutPaperSize n => if n =? 0 then PageLayoutPaperSize 1 else o
    end
}.

(** The laws of the three kinds of options. *)

#[export] Instance sheet_view_laws : SheetOptionLaws SheetViewOption xlsxSheetView.
Proof.
  split.
  - intros p q s. destruct p, q; done.
  - intros p o s. destruct p, o; cbn; try done; by destruct (zoom_ok _).
Qed.

#[export] Instance sheet_pr_laws : SheetOptionLaws SheetPrOption xlsxSheetPr.
Proof.
  split.
  - intros p q s. destruct p, q; done.
  - intros p o s. destruct p, o; cbn; try done; unfold set_pageSetUpPr;
      destruct (xlsxSheetPr_PageSetUpPr s) as [q|] eqn:E; cbn; rewrite ?E; try done;
      match goal with |- context [negb ?b] => by destruct b; cbn; rewrite ?E end.
Qed.

#[export] Instance page_layout_laws : SheetOptionLaws PageLayoutOption xlsxPageSetUp.
Proof.
  split.
  - intros p q s. destruct p, q; done.
  - intros p o s. destruct p, o; cbn; by repeat case_match.
Qed.

(** A nil structure reads as a new one. *)
Lemma getSheetPrOption_nil opt : getSheetPrOption opt None = getSheetPrOption opt (Some gozero).
Proof. by destruct opt. Qed.

Lemma getPageLayout_nil opt : getPageLayout opt None = getPageLayout opt (Some gozero).
Proof. by destruct opt. Qed.

(** ** Panes, header and footer, protection: the structures written *)

Definition pane_of (fs : formatPanes) : xlsxPane :=
  mk_xlsxPane (formatPanes_ActivePane fs) (if formatPanes_Freeze fs then "frozen" else "")
    (formatPanes_TopLeftCell fs) (f64_of_int (formatPanes_XSplit fs)) (f64_of_int (formatPanes_YSplit fs)).

Definition selections_of (fs : formatPanes) : list xlsxSelection :=
  (fun p => (gozero : xlsxSelection) <| xlsxSelection_ActiveCell := formatPanes_Panes_T_ActiveCell p |>
              <| xlsxSelection_Pane := formatPanes_Panes_T_Pane p |>
              <| xlsxSelection_SQRef := formatPanes_Panes_T_SQRef p |>) <$> formatPanes_Panes fs.

(** The fields 4 to [NumField() - 2] of the settings by reflection, with their
    names; the field 9, [FirstHeader], is the last one. *)
Definition checked_fields (settings : FormatHeaderFooter) : list (string * string) :=
  [("OddHeader", FormatHeaderFooter_OddHeader settings);
   ("OddFooter", FormatHeaderFooter_OddFooter settings);
   ("EvenHeader", FormatHeaderFooter_EvenHeader settings);
   ("EvenFooter", FormatHeaderFooter_EvenFooter settings);
   ("FirstFooter", FormatHeaderFooter_FirstFooter settings)].

Definition header_footer_of (settings : FormatHeaderFooter) : xlsxHeaderFooter :=
  (gozero : xlsxHeaderFooter)
    <| xlsxHeaderFooter_AlignWithMargins := FormatHeaderFooter_AlignWithMargins settings |>
    <| xlsxHeaderFooter_DifferentFirst := FormatHeaderFooter_DifferentFirst settings |>
    <| xlsxHeaderFooter_DifferentOddEven := FormatHeaderFooter_DifferentOddEven settings |>
    <| xlsxHeaderFooter_ScaleWithDoc := FormatHeaderFooter_ScaleWithDoc settings |>
    <| xlsxHeaderFooter_OddHeader := FormatHeaderFooter_OddHeader settings |>
    <| xlsxHeaderFooter_OddFooter := FormatHeaderFooter_OddFooter settings |>
    <| xlsxHeaderFooter_EvenHeader := FormatHeaderFooter_EvenHeader settings |>
    <| xlsxHeaderFooter_EvenFooter := FormatHeaderFooter_EvenFooter settings |>
    <| xlsxHeaderFooter_FirstFooter := FormatHeaderFooter_FirstFooter settings |>
    <| xlsxHeaderFooter_FirstHeader := FormatHeaderFooter_FirstHeader settings |>.

Definition default_protection : FormatSheetProtection :=
  (gozero : FormatSheetProtection)
    <| FormatSheetProtection_EditObjects := true |>
    <| FormatSheetProtection_EditScenarios := true |>
    <| FormatSheetProtection_SelectLockedCells := true |>.

Definition protection_of (settings : FormatSheetProtection) : xlsxSheetProtection :=
  let p := (gozero : xlsxSheetProtection)
    <| xlsxSheetProtection_AutoFilter := FormatSheetProtection_AutoFilter settings |>
    <| xlsxSheetProtection_DeleteColumns := FormatSheetProtection_DeleteColumns settings |>
    <| xlsxSheetProtection_DeleteRows := FormatSheetProtection_DeleteRows settings |>
    <| xlsxSheetProtection_FormatCells := FormatSheetProtection_FormatCells settings |>
    <| xlsxSheetProtection_FormatColumns := FormatSheetProtection_FormatColumns settings |>
    <| xlsxSheetProtection_FormatRows := FormatSheetProtection_FormatRows settings |>
    <| xlsxSheetProtection_InsertColumns := FormatSheetProtection_InsertColumns settings |>
    <| xlsxSheetProtection_InsertHyperlinks := FormatSheetProtection_InsertHyperlinks settings |>
    <| xlsxSheetProtection_InsertRows := FormatSheetProtection_InsertRows settings |>
    <| xlsxSheetProtection_Objects := FormatSheetProtection_EditObjects settings |>
    <| xlsxSheetProtection_PivotTables := FormatSheetProtection_PivotTables settings |>
    <| xlsxSheetProtection_Scenarios := FormatSheetProtection_EditScenarios settings |>
    <| xlsxSheetProtection_SelectLockedCells := FormatSheetProtection_SelectLockedCells settings |>
    <| xlsxSheetProtection_SelectUnlockedCells := FormatSheetProtection_SelectUnlockedCells settings |>
    <| xlsxSheetProtection_Sheet := true |>
    <| xlsxSheetProtection_Sort := FormatSheetProtection_Sort settings |> in
  if bool_decide (FormatSheetProtection_Password settings = "") then p
  else p <| xlsxSheetProtection_Password := genSheetPasswd (FormatSheetProtection_Password settings) |>.

Section sheet_opts.
Context `{GoEnv}.

(** ** Views *)

(** The pointer to a view is the sheet's with the position of the view. *)
Definition getSheetView (sheetName : string) (viewIndex : Z) : M (sheet_ptr * nat * option goerr) :=
  let nil : sheet_ptr * nat := (None, 0%nat) in
  let! p := workSheetReader sheetName orelse nil in
  xlsx ← deref p;
  let n := zlen (sheet_views xlsx) in
  if viewIndex <? 0 then
    if viewIndex <? - n then mret (err_with nil (ErrViewIndexOutOfRange viewIndex))
    else mret (ok (p, Z.to_nat (n + viewIndex)))
  else if n <=? viewIndex then mret (err_with nil (ErrViewIndexOutOfRange viewIndex))
  else mret (ok (p, Z.to_nat viewIndex)).

Definition SetSheetViewOptions (name : string) (viewIndex : Z) (opts : list SheetViewOption) : M (option goerr) :=
  let! view := getSheetView name viewIndex in
  update view.1 (fun xlsx => set_views (alter (set_options opts) view.2 (sheet_views xlsx)) xlsx);;
  mret None.

(** The options returned are the values the pointers hold afterwards. *)
Definition GetSheetViewOptions (name : string) (viewIndex : Z) (opts : list SheetViewOption)
    : M (list SheetViewOption * option goerr) :=
  let! view := getSheetView name viewIndex orelse opts in
  xlsx ← deref view.1;
  v ← lift (list_get (sheet_views xlsx) (Z.of_nat view.2));
  mret (ok ((fun opt => getSheetViewOption opt v) <$> opts)).

(** ** Properties and page layout *)

Definition SetSheetPrOptions (name : string) (opts : list SheetPrOption) : M (option goerr) :=
  let! p := workSheetReader name in
  update p (fun sheet =>
    let pr : xlsxSheetPr := match xlsxWorksheet_SheetPr sheet with None => gozero | Some pr => pr end in
    sheet <| xlsxWorksheet_SheetPr := Some (set_options opts pr) |>);;
  mret None.

Definition GetSheetPrOptions (name : string) (opts : list SheetPrOption) : M (list SheetPrOption * option goerr) :=
  let! p := workSheetReader name orelse opts in
  sheet ← deref p;
  mret (ok ((fun opt => getSheetPrOption opt (xlsxWorksheet_SheetPr sheet)) <$> opts)).

Definition SetPageLayout (sheet : string) (opts : list PageLayoutOption) : M (option goerr) :=
  let! p := workSheetReader sheet in
  update p (fun s =>
    let ps : xlsxPageSetUp := match xlsxWorksheet_PageSetUp s with None => gozero | Some ps => ps end in
    s <| xlsxWorksheet_PageSetUp := Some (set_options opts ps) |>);;
  mret None.

Definition GetPageLayout (sheet : string) (opts : list PageLayoutOption) : M (list PageLayoutOption * option goerr) :=
  let! p := workSheetReader sheet orelse opts in
  s ← deref p;
  mret (ok ((fun opt => getPageLayout opt (xlsxWorksheet_PageSetUp s)) <$> opts)).

(** ** Panes *)

Definition parseFormatPanesSet (formatSet : string) : formatPanes * option goerr :=
  json_Unmarshal formatSet gozero.

(** The last view gets the pane, which is taken away again when it neither
    freezes nor splits, and the selections. *)
Definition set_panes (fs : formatPanes) (xlsx : xlsxWorksheet) : outcome xlsxWorksheet :=
  let last := zlen (sheet_views xlsx) - 1 in
  v ← list_get (sheet_views xlsx) last;
  l ← list_set (sheet_views xlsx) last (v <| xlsxSheetView_Pane := Some (pane_of fs) |>);
  let l := if negb (formatPanes_Freeze fs) && negb (formatPanes_Split fs) && (0 <? zlen l)
           then alter (fun v => v <| xlsxSheetView_Pane := None |>) (Z.to_nat last) l else l in
  v ← list_get l last;
  l ← list_set l last (v <| xlsxSheetView_Selection := selections_of fs |>);
  Ret (set_views l xlsx).

Definition SetPanes (sheet panes : string) : M (option goerr) :=
  let '(fs, _) := parseFormatPanesSet panes in
  let! p := workSheetReader sheet in
  update_o p (set_panes fs);;
  mret None.

(** ** Header and footer, protection *)

Definition too_long_field (settings : FormatHeaderFooter) : option string :=
  match list_find (fun p => 255 <= len p.2) (checked_fields settings) with
  | Some (_, (name, _)) => Some name
  | None => None
  end.

Definition SetHeaderFooter (sheet : string) (settings : option FormatHeaderFooter) : M (option goerr) :=
  let! p := workSheetReader sheet in
  match settings with
  | None => update p (fun xlsx => xlsx <| xlsxWorksheet_HeaderFooter := None |>);; mret None
  | Some settings =>
      match too_long_field settings with
      | Some name => mret (Some (ErrTextArg "field %s must be less than 255 characters" name))
      | None =>
          update p (fun xlsx => xlsx <| xlsxWorksheet_HeaderFooter := Some (header_footer_of settings) |>);;
          mret None
      end
  end.

Definition ProtectSheet (sheet : string) (settings : option FormatSheetProtection) : M (option goerr) :=
  let! p := workSheetReader sheet in
  let settings := match settings with None => default_protection | Some s => s end in
  update p (fun xlsx => xlsx <| xlsxWorksheet_SheetProtection := Some (protection_of settings) |>);;
  mret None.

Definition UnprotectSheet (sheet : string) : M (option goerr) :=
  let! p := workSheetReader sheet in
  update p (fun xlsx => xlsx <| xlsxWorksheet_SheetProtection := None |>);;
  mret None.

End sheet_opts.

(** ** Properties *)

Section sheet_opts_properties.
Context `{GoEnv}.

(** The position a view index denotes: indices below zero count from the end. *)
Definition view_position (viewIndex : Z) (xlsx : xlsxWorksheet) : option nat :=
  let n := zlen (sheet_views xlsx) in
  if (- n <=? viewIndex) && (viewIndex <? n) then Some (Z.to_nat (viewIndex `mod` n)) else None.

Lemma getSheetView_loaded f sheet path xlsx viewIndex :
  loaded f sheet path xlsx ->
  getSheetView sheet viewIndex f =
    Ret (match view_position viewIndex xlsx with
         | Some k => ok (Some path, k)
         | None => err_with (None, 0%nat) (ErrViewIndexOutOfRange viewIndex)
         end, f).
Proof.
  intros Hl. unfold getSheetView, view_position.
  rewrite (bind_Ret _ _ _ _ _ (workSheetReader_loaded _ _ _ _ Hl)), (bind_Ret _ _ _ _ _ (deref_loaded _ _ _ (proj2 Hl))).
  set (n := zlen (sheet_views xlsx)). assert (0 <= n) by (unfold n, zlen; lia).
  destruct (viewIndex <? 0) eqn:E0; [destruct (viewIndex <? - n) eqn:E1|destruct (n <=? viewIndex) eqn:E1].
  - by replace ((- n <=? viewIndex) && _) with false by lia.
  - replace ((- n <=? viewIndex) && _) with true by lia.
    replace (viewIndex `mod` n) with (n + viewIndex); [done|].
    apply Z.mod_unique with (-1); lia.
  - by replace ((- n <=? viewIndex) && _) with false by lia.
  - replace ((- n <=? viewIndex) && _) with true by lia. by rewrite Z.mod_small by lia.
Qed.

Lemma view_position_lookup viewIndex xlsx k :
  view_position viewIndex xlsx = Some k -> is_Some (sheet_views xlsx !! k).
Proof.
  unfold view_position. case_match; [|done]. intros [= <-]. apply lookup_lt_is_Some_2.
  pose proof (Z.mod_pos_bound viewIndex (zlen (sheet_views xlsx)) ltac:(lia)). unfold zlen in *. lia.
Qed.

(** A worksheet with nothing in the views. *)
Definition no_views (xlsx : xlsxWorksheet) : xlsxWorksheet := set_views [] xlsx.

(** C36. The options of a view are read back: each pointer gets what the last
    effective option of its kind wrote, and what it would have got before where
    there is none; the other views and the rest of the sheet stay. An index
    beyond the views in either direction is an error that changes nothing. *)
Theorem SetSheetViewOptions_Get f sheet path xlsx viewIndex opts :
  loaded f sheet path xlsx ->
  match view_position viewIndex xlsx with
  | None =>
      SetSheetViewOptions sheet viewIndex opts f = Ret (Some (ErrViewIndexOutOfRange viewIndex), f) /\
      GetSheetViewOptions sheet viewIndex opts f = Ret (err_with opts (ErrViewIndexOutOfRange viewIndex), f)
  | Some k => exists xlsx' view,
      SetSheetViewOptions sheet viewIndex opts f = Ret (None, with_sheet f path xlsx') /\
      sheet_views xlsx !! k = Some view /\
      (forall ptrs, GetSheetViewOptions sheet viewIndex ptrs (with_sheet f path xlsx') =
         Ret (ok ((fun p => read_options opts p (getSheetViewOption p view)) <$> ptrs), with_sheet f path xlsx')) /\
      (forall j, j <> k -> sheet_views xlsx' !! j = sheet_views xlsx !! j) /\
      no_views xlsx' = no_views xlsx
  end.
Proof.
  intros Hl. pose proof (getSheetView_loaded f sheet path xlsx viewIndex Hl) as Hv.
  destruct (view_position viewIndex xlsx) as [k|] eqn:Ek.
  2:{ unfold SetSheetViewOptions, GetSheetViewOptions. by rewrite !(bind_Ret _ _ _ _ _ Hv). }
  destruct (view_position_lookup _ _ _ Ek) as [view Hview].
  set (l' := alter (set_options opts) k (sheet_views xlsx)).
  exists (set_views l' xlsx), view. split_and!.
  - unfold SetSheetViewOptions. rewrite (bind_Ret _ _ _ _ _ Hv). cbn [fst snd].
    by rewrite (bind_Ret _ _ _ _ _ (update_loaded _ _ _ _ (proj2 Hl))).
  - done.
  - intros ptrs. pose proof (with_sheet_loaded f sheet path xlsx (set_views l' xlsx) Hl) as Hl'.
    assert (view_position viewIndex (set_views l' xlsx) = Some k) as Ek'.
    { unfold view_position in *. change (sheet_views (set_views l' xlsx)) with l'. unfold l', zlen.
      rewrite length_alter. exact Ek. }
    unfold GetSheetViewOptions. rewrite (bind_Ret _ _ _ _ _ (getSheetView_loaded _ _ _ _ _ Hl')), Ek'. cbn [fst snd].
    rewrite (bind_Ret _ _ _ _ _ (deref_loaded _ _ _ (proj2 Hl'))).
    change (sheet_views (set_views l' xlsx)) with l'.
    rewrite (list_get_in l' _ (set_options opts view)).
    2:{ lia. }
    2:{ rewrite Nat2Z.id. unfold l'. by rewrite list_lookup_alter_eq, Hview. }
    unfold lift, mbind, gom_bind, mret, gom_ret. do 3 f_equal. apply list_fmap_ext. intros _ p _.
    exact (opt_get_set_options opts p view).
  - intros j Hj. by apply list_lookup_alter_ne.
  - done.
Qed.

(** The options of the sheet's properties are read back, a structure that was
    missing being created; nothing else of the sheet changes. *)
Theorem SetSheetPrOptions_Get f sheet path xlsx opts :
  loaded f sheet path xlsx ->
  exists xlsx', SetSheetPrOptions sheet opts f = Ret (None, with_sheet f path xlsx') /\
    (forall ptrs, GetSheetPrOptions sheet ptrs (with_sheet f path xlsx') =
       Ret (ok ((fun p => read_options opts p (getSheetPrOption p (xlsxWorksheet_SheetPr xlsx))) <$> ptrs),
            with_sheet f path xlsx')) /\
    xlsx' <| xlsxWorksheet_SheetPr := None |> = xlsx <| xlsxWorksheet_SheetPr := None |>.
Proof.
  intros Hl. eexists. split; [|split].
  - unfold SetSheetPrOptions. rewrite (bind_Ret _ _ _ _ _ (workSheetReader_loaded _ _ _ _ Hl)).
    by rewrite (bind_Ret _ _ _ _ _ (update_loaded _ _ _ _ (proj2 Hl))).
  - intros ptrs. pose proof (fun x => with_sheet_loaded f sheet path xlsx x Hl) as Hl'.
    unfold GetSheetPrOptions. rewrite (bind_Ret _ _ _ _ _ (workSheetReader_loaded _ _ _ _ (Hl' _))).
    rewrite (bind_Ret _ _ _ _ _ (deref_loaded _ _ _ (proj2 (Hl' _)))). unfold mret, gom_ret. do 3 f_equal.
    apply list_fmap_ext. intros _ p _. cbn [xlsxWorksheet_SheetPr field_update].
    etransitivity; [exact (opt_get_set_options opts p _)|]. f_equal.
    destruct (xlsxWorksheet_SheetPr xlsx); [done|]. symmetry. apply getSheetPrOption_nil.
  - done.
Qed.

(** The page layout is read back in the same way; an empty orientation and the
    paper size 0 read as the defaults. *)
Theorem SetPageLayout_Get f sheet path xlsx opts :
  loaded f sheet path xlsx ->
  exists xlsx', SetPageLayout sheet opts f = Ret (None, with_sheet f path xlsx') /\
    (forall ptrs, GetPageLayout sheet ptrs (with_sheet f path xlsx') =
       Ret (ok ((fun p => read_options opts p (getPageLayout p (xlsxWorksheet_PageSetUp xlsx))) <$> ptrs),
            with_sheet f path xlsx')) /\
    xlsx' <| xlsxWorksheet_PageSetUp := None |> = xlsx <| xlsxWorksheet_PageSetUp := None |>.
Proof.
  intros Hl. eexists. split; [|split].
  - unfold SetPageLayout. rewrite (bind_Ret _ _ _ _ _ (workSheetReader_loaded _ _ _ _ Hl)).
    by rewrite (bind_Ret _ _ _ _ _ (update_loaded _ _ _ _ (proj2 Hl))).
  - intros ptrs. pose proof (fun x => with_sheet_loaded f sheet path xlsx x Hl) as Hl'.
    unfold GetPageLayout. rewrite (bind_Ret _ _ _ _ _ (workSheetReader_loaded _ _ _ _ (Hl' _))).
    rewrite (bind_Ret _ _ _ _ _ (deref_loaded _ _ _ (proj2 (Hl' _)))). unfold mret, gom_ret. do 3 f_equal.
    apply list_fmap_ext. intros _ p _. cbn [xlsxWorksheet_PageSetUp field_update].
    etransitivity; [exact (opt_get_set_options opts p _)|]. f_equal.
    destruct (xlsxWorksheet_PageSetUp xlsx); [done|]. symmetry. apply getPageLayout_nil.
  - done.
Qed.

Lemma SetPanes_loaded f sheet path xlsx panes :
  loaded f sheet path xlsx ->
  SetPanes sheet panes f =
    match set_panes (parseFormatPanesSet panes).1 xlsx with
    | Ret xlsx' => Ret (None, with_sheet f path xlsx')
    | Panic => Panic
    end.
Proof.
  intros Hl. unfold SetPanes. destruct (parseFormatPanesSet panes) as [fs e]. cbn [fst].
  rewrite (bind_Ret _ _ _ _ _ (workSheetReader_loaded _ _ _ _ Hl)).
  unfold mbind at 1, gom_bind. rewrite (update_o_loaded _ _ _ _ (proj2 Hl)). by destruct (set_panes fs xlsx).
Qed.

(** [SetPanes] writes the last view: a pane that freezes or splits is stored and
    one that does neither takes the pane of the view away; the selections are
    replaced in any case. A sheet without views makes it panic. *)
Theorem SetPanes_correct f sheet path xlsx panes :
  loaded f sheet path xlsx ->
  let fs := (parseFormatPanesSet panes).1 in
  match last (sheet_views xlsx) with
  | None => SetPanes sheet panes f = Panic
  | Some view => exists l, sheet_views xlsx = l ++ [view] /\
      SetPanes sheet panes f = Ret (None, with_sheet f path (set_views (l ++
        [view <| xlsxSheetView_Pane := if formatPanes_Freeze fs || formatPanes_Split fs then Some (pane_of fs) else None |>
              <| xlsxSheetView_Selection := selections_of fs |>]) xlsx))
  end.
Proof.
  intros Hl. cbv zeta. rewrite (SetPanes_loaded _ _ _ _ _ Hl).
  set (fs := (parseFormatPanesSet panes).1).
  destruct (last (sheet_views xlsx)) as [view|] eqn:El.
  - apply last_Some in El as [l El]. exists l. split; [done|]. unfold set_panes. rewrite El.
    replace (zlen (l ++ [view]) - 1) with (zlen l) by (autorewrite with zlen; lia).
    rewrite list_get_last. cbn [mbind outcome_bind]. rewrite list_set_last. cbn [mbind outcome_bind].
    replace (0 <? _) with true by (autorewrite with zlen; pose proof (zlen_nonneg l); lia).
    assert (forall v g, alter g (Z.to_nat (zlen l)) (l ++ [v]) = l ++ [g v]) as Ea.
    { intros v g. unfold zlen. by rewrite Nat2Z.id, <- (Nat.add_0_r (length l)), alter_app_r. }
    rewrite Ea, andb_true_r. rewrite <- negb_orb.
    destruct (formatPanes_Freeze fs || formatPanes_Split fs); cbn [negb];
      rewrite list_get_last; cbn [mbind outcome_bind]; by rewrite list_set_last.
  - apply last_None in El. unfold set_panes. by rewrite El.
Qed.

(** [SetHeaderFooter] checks five of the six texts, in bytes, before it writes:
    the error names one that is too long and leaves the sheet as it is. *)
Theorem SetHeaderFooter_correct f sheet path xlsx settings :
  loaded f sheet path xlsx ->
  (Forall (fun p => len p.2 < 255) (checked_fields settings) ->
     SetHeaderFooter sheet (Some settings) f =
       Ret (None, with_sheet f path (xlsx <| xlsxWorksheet_HeaderFooter := Some (header_footer_of settings) |>))) /\
  (~ Forall (fun p => len p.2 < 255) (checked_fields settings) ->
     exists name text, (name, text) ∈ checked_fields settings /\ 255 <= len text /\
       SetHeaderFooter sheet (Some settings) f =
         Ret (Some (ErrTextArg "field %s must be less than 255 characters" name), f)) /\
  SetHeaderFooter sheet None f = Ret (None, with_sheet f path (xlsx <| xlsxWorksheet_HeaderFooter := None |>)).
Proof.
  intros Hl. unfold SetHeaderFooter. rewrite !(bind_Ret _ _ _ _ _ (workSheetReader_loaded _ _ _ _ Hl)).
  rewrite (bind_Ret _ _ _ _ _ (update_loaded _ _ _ _ (proj2 Hl))).
  unfold too_long_field. destruct (list_find _ (checked_fields settings)) as [[i [name text]]|] eqn:E.
  - apply list_find_Some in E as (Hi & Ht & _). apply list_elem_of_lookup_2 in Hi. cbn in Ht. split_and!; [|by exists name, text|done].
    intros Hall. rewrite Forall_forall in Hall. specialize (Hall _ Hi). cbn in Hall. lia.
  - apply list_find_None in E. rewrite (bind_Ret _ _ _ _ _ (update_loaded _ _ _ _ (proj2 Hl))).
    split_and!; [done| |done]. intros []. eapply Forall_impl; [exact E|]. cbn. lia.
Qed.

(** The header of the first page is the text that is never checked. *)
Theorem SetHeaderFooter_first_header_unchecked f sheet path xlsx settings text :
  loaded f sheet path xlsx -> Forall (fun p => len p.2 < 255) (checked_fields settings) ->
  exists xlsx' hf, SetHeaderFooter sheet (Some (settings <| FormatHeaderFooter_FirstHeader := text |>)) f =
      Ret (None, with_sheet f path xlsx') /\
    xlsxWorksheet_HeaderFooter xlsx' = Some hf /\ xlsxHeaderFooter_FirstHeader hf = text.
Proof.
  intros Hl Hall. destruct (SetHeaderFooter_correct f sheet path xlsx (settings <| FormatHeaderFooter_FirstHeader := text |>) Hl)
    as (Hok & _). specialize (Hok Hall). eexists _, _. split_and!; [exact Hok|done|done].
Qed.

(** Protecting a sheet and taking the protection away gives the sheet without
    protection; while it is protected the password, when there is one, is kept
    as its hash only. *)
Theorem ProtectSheet_UnprotectSheet f sheet path xlsx settings :
  loaded f sheet path xlsx ->
  exists xlsx' p, ProtectSheet sheet settings f = Ret (None, with_sheet f path xlsx') /\
    xlsxWorksheet_SheetProtection xlsx' = Some p /\ xlsxSheetProtection_Sheet p = true /\
    xlsxSheetProtection_Password p =
      (let password := from_option FormatSheetProtection_Password "" settings in
       if bool_decide (password = "") then "" else genSheetPasswd password) /\
    UnprotectSheet sheet (with_sheet f path xlsx') =
      Ret (None, with_sheet f path (xlsx <| xlsxWorksheet_SheetProtection := None |>)).
Proof.
  intros Hl. eexists _, _. split; [|split; [|split; [|split]]].
  - unfold ProtectSheet. rewrite (bind_Ret _ _ _ _ _ (workSheetReader_loaded _ _ _ _ Hl)).
    by rewrite (bind_Ret _ _ _ _ _ (update_loaded _ _ _ _ (proj2 Hl))).
  - done.
  - unfold protection_of. by destruct (bool_decide _).
  - unfold protection_of. destruct settings as [s|]; cbn [from_option]; cbv zeta; [|done]. by destruct (bool_decide _).
  - pose proof (fun x => with_sheet_loaded f sheet path xlsx x Hl) as Hl'. unfold UnprotectSheet.
    rewrite (bind_Ret _ _ _ _ _ (workSheetReader_loaded _ _ _ _ (Hl' _))).
    rewrite (bind_Ret _ _ _ _ _ (update_loaded _ _ _ _ (proj2 (Hl' _)))). by rewrite with_sheet_twice.
Qed.

End sheet_opts_properties.

(** ** Witnesses *)

Definition example_views : xlsxWorksheet :=
  set_views [gozero : xlsxSheetView; (gozero : xlsxSheetView) <| xlsxSheetView_ZoomScale := f64_of_int 80 |>] gozero.

(** The last effective zoom of three is read back from the last view. *)
Lemma SetSheetViewOptions_Get_witness :
  exists xlsx', SetSheetViewOptions (H := example_env) "Sheet1" (-1)
      [ZoomScale (f64_of_int 120); ShowGridLines false; ZoomScale (f64_of_int 500)] (example_file example_views) =
      Ret (None, with_sheet (example_file example_views) "xl/worksheets/sheet1.xml" xlsx') /\
    GetSheetViewOptions (H := example_env) "Sheet1" (-1) [ZoomScale f64_zero; ShowGridLines true; DefaultGridColor false]
      (with_sheet (example_file example_views) "xl/worksheets/sheet1.xml" xlsx') =
      Ret (ok [ZoomScale (f64_of_int 120); ShowGridLines false; DefaultGridColor true],
           with_sheet (example_file example_views) "xl/worksheets/sheet1.xml" xlsx').
Proof.
  destruct (@SetSheetViewOptions_Get example_env _ "Sheet1" _ _ (-1)
    [ZoomScale (f64_of_int 120); ShowGridLines false; ZoomScale (f64_of_int 500)] (example_loaded example_views))
    as (xlsx' & view & E & [= <-] & Hget & _).
  exists xlsx'. split; [exact E|]. exact (Hget [ZoomScale f64_zero; ShowGridLines true; DefaultGridColor false]).
Defined.

Lemma SetSheetPrOptions_Get_witness :
  exists xlsx', SetSheetPrOptions (H := example_env) "Sheet1" [CodeName "A"; FitToPage true; CodeName "B"] (example_file gozero) =
      Ret (None, with_sheet (example_file gozero) "xl/worksheets/sheet1.xml" xlsx').
Proof.
  destruct (@SetSheetPrOptions_Get example_env _ "Sheet1" _ _ [CodeName "A"; FitToPage true; CodeName "B"] (example_loaded gozero))
    as (xlsx' & E & _). exists xlsx'. exact E.
Defined.

Lemma SetPageLayout_Get_witness :
  exists xlsx', SetPageLayout (H := example_env) "Sheet1" [PageLayoutOrientation OrientationLandscape] (example_file gozero) =
      Ret (None, with_sheet (example_file gozero) "xl/worksheets/sheet1.xml" xlsx').
Proof.
  destruct (@SetPageLayout_Get example_env _ "Sheet1" _ _ [PageLayoutOrientation OrientationLandscape] (example_loaded gozero))
    as (xlsx' & E & _). exists xlsx'. exact E.
Defined.

Lemma SetPanes_correct_witness :
  SetPanes (H := example_env) "Sheet1" "" (example_file gozero) = Panic.
Proof. exact (@SetPanes_correct example_env _ "Sheet1" _ _ "" (example_loaded gozero)). Defined.

Lemma SetHeaderFooter_first_header_unchecked_witness :
  exists xlsx' hf, SetHeaderFooter (H := example_env) "Sheet1"
      (Some ((gozero : FormatHeaderFooter) <| FormatHeaderFooter_FirstHeader := String.concat "" (replicate 300 "x") |>)) (example_file gozero) =
      Ret (None, with_sheet (example_file gozero) "xl/worksheets/sheet1.xml" xlsx') /\
    xlsxWorksheet_HeaderFooter xlsx' = Some hf /\ len (xlsxHeaderFooter_FirstHeader hf) = 300.
Proof.
  destruct (@SetHeaderFooter_first_header_unchecked example_env _ "Sheet1" _ _ gozero (String.concat "" (replicate 300 "x"))
    (example_loaded gozero)) as (xlsx' & hf & E & Eh & Et).
  { repeat constructor. }
  exists xlsx', hf. split; [exact E|]. split; [exact Eh|]. rewrite Et. reflexivity.
Defined.

Lemma ProtectSheet_UnprotectSheet_witness :
  exists xlsx', ProtectSheet (H := example_env) "Sheet1" None (example_file gozero) =
      Ret (None, with_sheet (example_file gozero) "xl/worksheets/sheet1.xml" xlsx') /\
    UnprotectSheet (H := example_env) "Sheet1" (with_sheet (example_file gozero) "xl/worksheets/sheet1.xml" xlsx') =
      Ret (None, example_file gozero).
Proof.
  destruct (@ProtectSheet_UnprotectSheet example_env _ "Sheet1" _ _ None (example_loaded gozero))
    as (xlsx' & p & E & _ & _ & _ & Eu).
  exists xlsx'. split; [exact E|exact Eu].
Defined.
