(* ===== verification/DataValidation.v ===== *)
(** [datavalidation.go]: the builders of a validation rule and the rules of a
    worksheet. A builder changes the rule it is called on and is a function from
    rules to rules; [AddDataValidation] stores the pointer, so what is said of
    the sheet is said of the rule as it is when it is added. *)
From S2P Require Export SheetOpts.

(** ** Constants *)

Definition typeNone : Z := 1.
Definition DataValidationTypeCustom : Z := 2.
Definition DataValidationTypeDate : Z := 3.
Definition DataValidationTypeDecimal : Z := 4.
Definition typeList : Z := 5.
Definition DataValidationTypeTextLeng : Z := 6.
Definition DataValidationTypeTime : Z := 7.
Definition DataValidationTypeWhole : Z := 8.

Definition dataValidationFormulaStrLen : Z := 257.
Definition dataValidationFormulaStrLenErr : string := "data validation must be 0-255 characters".

Definition styleStop : string := "stop".
Definition styleWarning : string := "warning".
Definition styleInformation : string := "information".

(** ** The builders *)

Definition NewDataValidation (allowBlank : bool) : DataValidation :=
  (gozero : DataValidation) <| DataValidation_AllowBlank := allowBlank |>
    <| DataValidation_ShowErrorMessage := false |> <| DataValidation_ShowInputMessage := false |>.

Definition SetError (style : Z) (title msg : string) (dd : DataValidation) : DataValidation :=
  let strStyle := if style =? 1 then styleStop else if style =? 2 then styleWarning
                  else if style =? 3 then styleInformation else styleStop in
  dd <| DataValidation_Error := Some msg |> <| DataValidation_ErrorTitle := Some title |>
     <| DataValidation_ShowErrorMessage := true |> <| DataValidation_ErrorStyle := Some strStyle |>.

Definition SetInput (title msg : string) (dd : DataValidation) : DataValidation :=
  dd <| DataValidation_ShowInputMessage := true |> <| DataValidation_PromptTitle := Some title |>
     <| DataValidation_Prompt := Some msg |>.

Definition convDataValidationType (t : Z) : string :=
  if t =? 1 then "none" else if t =? 2 then "custom" else if t =? 3 then "date"
  else if t =? 4 then "decimal" else if t =? 5 then "list" else if t =? 6 then "textLength"
  else if t =? 7 then "time" else if t =? 8 then "whole" else "".

Definition convDataValidationOperatior (o : Z) : string :=
  if o =? 1 then "between" else if o =? 2 then "equal" else if o =? 3 then "greaterThan"
  else if o =? 4 then "greaterThanOrEqual" else if o =? 5 then "lessThan"
  else if o =? 6 then "lessThanOrEqual" else if o =? 7 then "notBetween"
  else if o =? 8 then "notEqual" else "".

(** The texts of the formula elements. *)
Definition formula1_xml (formula : string) : string := "<formula1>" +:+ formula +:+ "</formula1>".
Definition formula2_xml (formula : string) : string := "<formula2>" +:+ formula +:+ "</formula2>".

Definition SetDropList (keys : list string) (dd : DataValidation) : DataValidation * option goerr :=
  let formula := dq +:+ strings_Join keys "," +:+ dq in
  if dataValidationFormulaStrLen <? len formula then (dd, Some (ErrText dataValidationFormulaStrLenErr))
  else ok (dd <| DataValidation_Formula1 := formula1_xml formula |>
              <| DataValidation_Type := convDataValidationType typeList |>).

Definition SetRange (f1 f2 t o : Z) (dd : DataValidation) : DataValidation * option goerr :=
  let formula1 := strconv_Itoa f1 in
  let formula2 := strconv_Itoa f2 in
  if (dataValidationFormulaStrLen + 21 <? len (DataValidation_Formula1 dd))
     || (dataValidationFormulaStrLen + 21 <? len (DataValidation_Formula2 dd))
  then (dd, Some (ErrText dataValidationFormulaStrLenErr))
  else ok (dd <| DataValidation_Formula1 := formula1_xml formula1 |>
              <| DataValidation_Formula2 := formula2_xml formula2 |>
              <| DataValidation_Type := convDataValidationType t |>
              <| DataValidation_Operator := convDataValidationOperatior o |>).

Definition SetSqrefDropList (sqref : string) (isCurrentSheet : bool) (dd : DataValidation)
    : DataValidation * option goerr :=
  if isCurrentSheet then
    ok (dd <| DataValidation_Formula1 := sqref |> <| DataValidation_Type := convDataValidationType typeList |>)
  else (dd, Some (ErrText "cross-sheet sqref cell are not supported")).

Definition SetSqref (sqref : string) (dd : DataValidation) : DataValidation :=
  if bool_decide (DataValidation_Sqref dd = "") then dd <| DataValidation_Sqref := sqref |>
  else dd <| DataValidation_Sqref := DataValidation_Sqref dd +:+ " " +:+ sqref |>.

Section data_validation.
Context `{GoEnv}.

Definition add_validation (dv : DataValidation) (xlsx : xlsxWorksheet) : xlsxWorksheet :=
  let dvs : xlsxDataValidations := match xlsxWorksheet_DataValidations xlsx with None => gozero | Some dvs => dvs end in
  let l := xlsxDataValidations_DataValidation dvs ++ [dv] in
  xlsx <| xlsxWorksheet_DataValidations :=
    Some (dvs <| xlsxDataValidations_DataValidation := l |> <| xlsxDataValidations_Count := zlen l |>) |>.

Definition AddDataValidation (sheet : string) (dv : DataValidation) : M (option goerr) :=
  let! p := workSheetReader sheet in
  update p (add_validation dv);;
  mret None.

End data_validation.

(** ** Properties *)

(** A drop list is accepted exactly when its keys with the commas between them
    have at most 255 bytes; the quoted list becomes the formula, and a refused
    one leaves the rule as it is. *)
Theorem SetDropList_correct keys dd :
  SetDropList keys dd =
    if len (strings_Join keys ",") <=? 255
    then ok (dd <| DataValidation_Formula1 := formula1_xml (dq +:+ strings_Join keys "," +:+ dq) |>
                <| DataValidation_Type := "list" |>)
    else (dd, Some (ErrText dataValidationFormulaStrLenErr)).
Proof.
  unfold SetDropList, dataValidationFormulaStrLen. cbv zeta. rewrite !len_app. change (len dq) with 1.
  by destruct (257 <? _) eqn:E1, (_ <=? 255) eqn:E2; try lia.
Qed.

(** The bound of [SetRange] is on the formulas the rule had before, and a drop
    list never exceeds it: a range is always accepted after a list. The new
    formulas are never checked, being numbers. *)
Theorem SetDropList_SetRange keys dd dd' f1 f2 t o :
  len (DataValidation_Formula2 dd) <= 278 -> SetDropList keys dd = (dd', None) ->
  SetRange f1 f2 t o dd' =
    ok (dd <| DataValidation_Formula1 := formula1_xml (strconv_Itoa f1) |>
           <| DataValidation_Formula2 := formula2_xml (strconv_Itoa f2) |>
           <| DataValidation_Type := convDataValidationType t |>
           <| DataValidation_Operator := convDataValidationOperatior o |>).
Proof.
  intros H2. rewrite SetDropList_correct. destruct (_ <=? 255) eqn:E; [|done].
  assert (len (formula1_xml (dq +:+ strings_Join keys "," +:+ dq)) <= 278) as H1.
  { unfold formula1_xml. rewrite !len_app. change (len dq) with 1. change (len "<formula1>") with 10.
    change (len "</formula1>") with 11. lia. }
  revert H1. generalize (formula1_xml (dq +:+ strings_Join keys "," +:+ dq)) as formula. intros formula H1 [= <-].
  unfold SetRange, dataValidationFormulaStrLen. cbv zeta.
  change (DataValidation_Formula1 (_ <| DataValidation_Formula1 := ?x |> <| DataValidation_Type := _ |>)) with x.
  change (DataValidation_Formula2 (_ <| DataValidation_Formula1 := _ |> <| DataValidation_Type := _ |>))
    with (DataValidation_Formula2 dd).
  by replace (_ || _) with false by lia.
Qed.

(** A list by reference leaves a text that is not a formula element, and one of
    more than 278 bytes makes a following [SetRange] fail for its sake. *)
Theorem SetSqrefDropList_SetRange_fails sqref dd f1 f2 t o :
  278 < len sqref ->
  exists dd', SetSqrefDropList sqref true dd = ok dd' /\ DataValidation_Formula1 dd' = sqref /\
    SetRange f1 f2 t o dd' = (dd', Some (ErrText dataValidationFormulaStrLenErr)).
Proof.
  intros Hl. eexists. split; [done|]. split; [done|]. unfold SetRange, dataValidationFormulaStrLen. cbv zeta.
  change (DataValidation_Formula1 (_ <| DataValidation_Formula1 := ?x |> <| DataValidation_Type := _ |>)) with x.
  by replace (_ || _) with true by lia.
Qed.

Lemma Join_cons_cons a b l sep : strings_Join (a :: b :: l) sep = a +:+ sep +:+ strings_Join (b :: l) sep.
Proof. done. Qed.

Lemma SetSqref_foldl refs s dd :
  s <> "" -> Forall (fun s => s <> "") refs ->
  foldl (fun dd s => SetSqref s dd) (dd <| DataValidation_Sqref := s |>) refs =
    dd <| DataValidation_Sqref := strings_Join (s :: refs) " " |>.
Proof.
  intros Hs Hr. revert s Hs. induction Hr as [|b refs Hb Hr IH]; intros s Hs; [done|].
  cbn [foldl]. unfold SetSqref at 2.
  change (DataValidation_Sqref (dd <| DataValidation_Sqref := ?x |>)) with x. rewrite bool_decide_eq_false_2 by done.
  change ((dd <| DataValidation_Sqref := ?x |>) <| DataValidation_Sqref := ?y |>) with (dd <| DataValidation_Sqref := y |>).
  rewrite IH by (by destruct s). f_equal. destruct refs as [|c refs]; rewrite !Join_cons_cons; [done|].
  rewrite !str_app_assoc. done.
Qed.

(** The ranges given to [SetSqref] one after the other are joined by blanks. *)
Theorem SetSqref_Join refs dd :
  DataValidation_Sqref dd = "" -> Forall (fun s => s <> "") refs ->
  foldl (fun dd s => SetSqref s dd) dd refs = dd <| DataValidation_Sqref := strings_Join refs " " |>.
Proof.
  intros Hd Hr. destruct Hr as [|s refs Hs Hr]; [destruct dd; cbn in *; by subst|].
  cbn [foldl]. unfold SetSqref at 2. rewrite Hd. by apply SetSqref_foldl.
Qed.

(** The rules of a sheet are counted: [Count] is their number. *)
Definition validations_counted (xlsx : xlsxWorksheet) : Prop :=
  from_option (fun d => xlsxDataValidations_Count d = zlen (xlsxDataValidations_DataValidation d)) True
    (xlsxWorksheet_DataValidations xlsx).

Definition sheet_validations (xlsx : xlsxWorksheet) : list DataValidation :=
  match xlsxWorksheet_DataValidations xlsx with Some d => xlsxDataValidations_DataValidation d | None => [] end.

(** [AddDataValidation] appends the rule, makes the count right whatever it was,
    and changes nothing else of the sheet. *)
Theorem AddDataValidation_correct `{GoEnv} f sheet path xlsx dv :
  loaded f sheet path xlsx ->
  exists xlsx', AddDataValidation sheet dv f = Ret (None, with_sheet f path xlsx') /\
    sheet_validations xlsx' = sheet_validations xlsx ++ [dv] /\ validations_counted xlsx' /\
    xlsx' <| xlsxWorksheet_DataValidations := None |> = xlsx <| xlsxWorksheet_DataValidations := None |>.
Proof.
  intros Hl. eexists. split; [|split; [|split]].
  - unfold AddDataValidation. rewrite (bind_Ret _ _ _ _ _ (workSheetReader_loaded _ _ _ _ Hl)).
    by rewrite (bind_Ret _ _ _ _ _ (update_loaded _ _ _ _ (proj2 Hl))).
  - unfold sheet_validations, add_validation. by destruct (xlsxWorksheet_DataValidations xlsx).
  - done.
  - done.
Qed.

(** ** Witnesses *)

Lemma SetDropList_SetRange_witness :
  exists dd', SetDropList ["1"; "2"; "3"] (NewDataValidation true) = (dd', None) /\
    (SetRange 10 20 DataValidationTypeWhole 1 dd').2 = None.
Proof.
  eexists. split; [reflexivity|].
  rewrite (SetDropList_SetRange ["1"; "2"; "3"] (NewDataValidation true) _ 10 20 DataValidationTypeWhole 1);
    [reflexivity|discriminate|reflexivity].
Defined.

Lemma SetSqrefDropList_SetRange_fails_witness :
  exists dd', SetSqrefDropList (String.concat "," (replicate 100 "E1")) true (NewDataValidation true) = ok dd' /\
    SetRange 1 2 1 1 dd' = (dd', Some (ErrText dataValidationFormulaStrLenErr)).
Proof.
  destruct (SetSqrefDropList_SetRange_fails (String.concat "," (replicate 100 "E1")) (NewDataValidation true) 1 2 1 1)
    as (dd' & E1 & _ & E2); [reflexivity|].
  exists dd'. split; [exact E1|exact E2].
Defined.

Lemma SetSqref_Join_witness :
  foldl (fun dd s => SetSqref s dd) (NewDataValidation true) ["A1:B2"; "C3"] =
    (NewDataValidation true) <| DataValidation_Sqref := "A1:B2 C3" |>.
Proof. apply (SetSqref_Join ["A1:B2"; "C3"] (NewDataValidation true)); [reflexivity|]. repeat constructor; discriminate. Defined.

Lemma AddDataValidation_correct_witness :
  exists xlsx', AddDataValidation (H := example_env) "Sheet1" (NewDataValidation true) (example_file gozero) =
      Ret (None, with_sheet (example_file gozero) "xl/worksheets/sheet1.xml" xlsx') /\
    sheet_validations xlsx' = [NewDataValidation true].
Proof.
  destruct (@AddDataValidation_correct example_env _ "Sheet1" _ _ (NewDataValidation true) (example_loaded gozero))
    as (xlsx' & E & Es & _).
  exists xlsx'. split; [exact E|exact Es].
Defined.
