(* ===== verification/Parts.v ===== *)
(** The parts that belong to sheets and drawings ([picture.go], [comment.go],
    [chart.go]): their caches, their numbers, their relationships and their
    content types. *)
From S2P Require Export Workbook Cell.

(** ** Caches of parts

    Relationships, comments and VML drawings are decoded on the first use and
    kept in a map by the path of their part. The four readers differ in the map
    only. *)
Record part_cache (A : Type) := mk_part_cache {
  pc_map : File -> gmap string A;
  pc_store : string -> A -> File -> File
}.
Arguments mk_part_cache {A}.
Arguments pc_map {A}.
Arguments pc_store {A}.

(** The laws of a cache: it keeps what is stored and leaves the parts alone. *)
Class PartCache {A} (c : part_cache A) := {
  pc_map_store path a f : pc_map c (pc_store c path a f) = <[path := a]> (pc_map c f);
  pc_parts_store path a f : File_XLSX (pc_store c path a f) = File_XLSX f
}.

Definition sheet_rels_cache : part_cache xlsxWorkbookRels :=
  mk_part_cache File_WorkSheetRels (fun p a f => f <| File_WorkSheetRels ::= <[p := a]> |>).
Definition drawing_rels_cache : part_cache xlsxWorkbookRels :=
  mk_part_cache File_DrawingRels (fun p a f => f <| File_DrawingRels ::= <[p := a]> |>).
Definition comments_cache : part_cache xlsxComments :=
  mk_part_cache File_Comments (fun p a f => f <| File_Comments ::= <[p := a]> |>).
Definition vml_cache : part_cache decodeVmlDrawing :=
  mk_part_cache File_DecodeVMLDrawing (fun p a f => f <| File_DecodeVMLDrawing ::= <[p := a]> |>).

#[export] Instance sheet_rels_laws : PartCache sheet_rels_cache.
Proof. by split. Qed.
#[export] Instance drawing_rels_laws : PartCache drawing_rels_cache.
Proof. by split. Qed.
#[export] Instance comments_laws : PartCache comments_cache.
Proof. by split. Qed.
#[export] Instance vml_laws : PartCache vml_cache.
Proof. by split. Qed.

Section parts.
Context `{GoEnv}.

Definition part_reader {A} `{XmlCodec A} (c : part_cache A) (path : string) : M (option A) :=
  f ← get;
  match pc_map c f !! path with
  | Some d => mret (Some d)
  | None =>
      match File_XLSX f !! path with
      | Some content =>
          let d := xml_Unmarshal (namespaceStrictToTransitional content) in
          modify (pc_store c path d);; mret (Some d)
      | None => mret None
      end
  end.

Definition drawingRelsReader (rel : string) : M (option xlsxWorkbookRels) := part_reader drawing_rels_cache rel.
Definition commentsReader (path : string) : M (option xlsxComments) := part_reader comments_cache path.
Definition decodeVMLDrawingReader (path : string) : M (option decodeVmlDrawing) := part_reader vml_cache path.

(** [range] over a cache: every structure is written to its part. *)
Definition drawingRelsWriter : M unit :=
  f ← get; forM (range_map (File_DrawingRels f)) (fun e => saveFileList e.1 (xml_Marshal e.2)).
Definition drawingsWriter : M unit :=
  f ← get; forM (range_map (File_Drawings f)) (fun e => saveFileList e.1 (xml_Marshal e.2)).
Definition commentsWriter : M unit :=
  f ← get; forM (range_map (File_Comments f)) (fun e => saveFileList e.1 (xml_Marshal e.2)).

(** The VML parts have no header. *)
Definition vmlDrawingWriter : M unit :=
  f ← get; forM (range_map (File_VMLDrawing f)) (fun e =>
    modify (fun f => f <| File_XLSX ::= <[e.1 := xml_Marshal e.2]> |>)).

(** ** Numbers of parts

    The entries of a map whose path contains a text; where parts are cached too,
    the larger number of the two. *)
Definition count_names {V} (sub : string) (m : gmap string V) : Z :=
  zlen (List.filter (fun e => strings_Contains e.1 sub) (range_map m)).
Definition larger (c1 c2 : Z) : Z := if c1 <? c2 then c2 else c1.

Definition countTables : M Z := gets (fun f => count_names "xl/tables/table" (File_XLSX f)).
Definition countCharts : M Z := gets (fun f => count_names "xl/charts/chart" (File_XLSX f)).
Definition countMedia : M Z := gets (fun f => count_names "xl/media/image" (File_XLSX f)).
Definition countDrawings : M Z :=
  gets (fun f => larger (count_names "xl/drawings/drawing" (File_XLSX f)) (count_names "xl/drawings/drawing" (File_Drawings f))).
Definition countComments : M Z :=
  gets (fun f => larger (count_names "xl/comments" (File_XLSX f)) (count_names "xl/comments" (File_Comments f))).

(** ** References of a sheet to its parts

    The error of [workSheetReader] is ignored: a missing sheet is a nil
    dereference. *)
Definition addSheetLegacyDrawing (sheet : string) (rID : Z) : M unit :=
  p ← workSheetReader sheet;
  update p.1 (fun xlsx => xlsx <| xlsxWorksheet_LegacyDrawing := Some (mk_xlsxLegacyDrawing ("rId" +:+ strconv_Itoa rID)) |>).
Definition addSheetDrawing (sheet : string) (rID : Z) : M unit :=
  p ← workSheetReader sheet;
  update p.1 (fun xlsx => xlsx <| xlsxWorksheet_Drawing := Some (mk_xlsxDrawing ("rId" +:+ strconv_Itoa rID)) |>).
Definition addSheetPicture (sheet : string) (rID : Z) : M unit :=
  p ← workSheetReader sheet;
  update p.1 (fun xlsx => xlsx <| xlsxWorksheet_Picture := Some (mk_xlsxPicture ("rId" +:+ strconv_Itoa rID)) |>).

(** ** Relationships of a drawing *)

Definition drawing_rels_file (index : Z) : string := "xl/drawings/_rels/drawing" +:+ strconv_Itoa index +:+ ".xml.rels".

Definition addDrawingRelationships (index : Z) (relType target targetMode : string) : M Z :=
  let rels := drawing_rels_file index in
  o ← drawingRelsReader rels;
  let drawingRels : xlsxWorkbookRels := match o with Some c => c | None => gozero end in
  let rID := zlen (xlsxWorkbookRels_Relationships drawingRels) + 1 in
  let rel := mk_xlsxWorkbookRelation ("rId" +:+ strconv_Itoa rID) target relType targetMode in
  let drawingRels := drawingRels <| xlsxWorkbookRels_Relationships ::= fun l => l ++ [rel] |> in
  modify (fun f => f <| File_DrawingRels ::= <[rels := drawingRels]> |>);;
  mret rID.

Definition getDrawingRelationships (rels rID : string) : M (option xlsxWorkbookRelation) :=
  o ← drawingRelsReader rels;
  mret (match o with
        | Some drawingRels => find_relationship rID (xlsxWorkbookRels_Relationships drawingRels)
        | None => None
        end).

(** ** Content types of parts *)

Definition add_default (extension contentType : string) (content : xlsxTypes) : xlsxTypes :=
  content <| xlsxTypes_Defaults ::= fun l => l ++ [mk_xlsxDefault extension contentType] |>.

Definition has_default (extension : string) (content : xlsxTypes) : bool :=
  existsb (fun v => bool_decide (xlsxDefault_Extension v = extension)) (xlsxTypes_Defaults content).

Definition setContentTypePartImageExtensions : M unit :=
  content ← contentTypesReader;
  let imageTypes : gmap string bool :=
    list_to_map ((fun k => (k, has_default k content)) <$> ["jpeg"; "png"; "gif"]) in
  set_contentTypes (foldl (fun content kv =>
    if kv.2 : bool then content else add_default kv.1 ("image/" +:+ kv.1) content) content (range_map imageTypes)).

Definition setContentTypePartVMLExtensions : M unit :=
  content ← contentTypesReader;
  if has_default "vml" content then mret tt
  else set_contentTypes (add_default "vml" "application/vnd.openxmlformats-officedocument.vmlDrawing" content).

Definition part_name (index : Z) (contentType : string) : string :=
  if bool_decide (contentType = "chart") then "/xl/charts/chart" +:+ strconv_Itoa index +:+ ".xml"
  else if bool_decide (contentType = "comments") then "/xl/comments" +:+ strconv_Itoa index +:+ ".xml"
  else if bool_decide (contentType = "drawings") then "/xl/drawings/drawing" +:+ strconv_Itoa index +:+ ".xml"
  else if bool_decide (contentType = "table") then "/xl/tables/table" +:+ strconv_Itoa index +:+ ".xml"
  else "".

Definition part_content_type (contentType : string) : string :=
  if bool_decide (contentType = "chart") then "application/vnd.openxmlformats-officedocument.drawingml.chart+xml"
  else if bool_decide (contentType = "comments") then "application/vnd.openxmlformats-officedocument.spreadsheetml.comments+xml"
  else if bool_decide (contentType = "drawings") then "application/vnd.openxmlformats-officedocument.drawing+xml"
  else if bool_decide (contentType = "table") then "application/vnd.openxmlformats-officedocument.spreadsheetml.table+xml"
  else "".

Definition addContentTypePart (index : Z) (contentType : string) : M unit :=
  (if bool_decide (contentType = "comments") then setContentTypePartVMLExtensions
   else if bool_decide (contentType = "drawings") then setContentTypePartImageExtensions
   else mret tt);;
  content ← contentTypesReader;
  if existsb (fun v => bool_decide (xlsxOverride_PartName v = part_name index contentType)) (xlsxTypes_Overrides content)
  then mret tt
  else set_contentTypes (content <| xlsxTypes_Overrides ::= fun l => l ++
         [mk_xlsxOverride (part_name index contentType) (part_content_type contentType)] |>).

End parts.

(** ** What the caches show

    The structure that a reader returns for a path; two states are equivalent
    when they differ only in what is already cached. *)

Section part_lemmas.
Context `{GoEnv}.

Definition part_at {A} `{XmlCodec A} (c : part_cache A) (path : string) (f : File) : option A :=
  match pc_map c f !! path with
  | Some d => Some d
  | None => (fun content => xml_Unmarshal (namespaceStrictToTransitional content)) <$> File_XLSX f !! path
  end.

Definition cached {A} `{XmlCodec A} (c : part_cache A) (path : string) (f : File) : File :=
  match part_at c path f with Some d => pc_store c path d f | None => f end.

Lemma part_reader_at {A} `{XmlCodec A} (c : part_cache A) path f :
  exists f', part_reader c path f = Ret (part_at c path f, f') /\ (f' = f \/ f' = cached c path f).
Proof.
  unfold part_reader, cached, part_at, mbind, gom_bind, get.
  destruct (pc_map c f !! path); [exists f; split; [done|by left]|].
  destruct (File_XLSX f !! path); cbn; [|exists f; split; [done|by left]].
  eexists. split; [done|by right].
Qed.

(** The four caches forgotten. *)
Definition uncached (f : File) : File :=
  f <| File_WorkSheetRels := ∅ |> <| File_DrawingRels := ∅ |> <| File_Comments := ∅ |> <| File_DecodeVMLDrawing := ∅ |>.

Record same_view (f g : File) : Prop := mk_same_view {
  sv_rest : uncached f = uncached g;
  sv_sheet_rels path : part_at sheet_rels_cache path f = part_at sheet_rels_cache path g;
  sv_drawing_rels path : part_at drawing_rels_cache path f = part_at drawing_rels_cache path g;
  sv_comments path : part_at comments_cache path f = part_at comments_cache path g;
  sv_vml path : part_at vml_cache path f = part_at vml_cache path g
}.

#[export] Instance file_equiv : Equiv File := same_view.
#[export] Instance same_view_equivalence : Equivalence (≡@{File}).
Proof.
  split.
  - by intros f.
  - intros f g []. by split.
  - intros f g h [] []. split; intros; etrans; eauto.
Qed.

(** A cached structure shows what was shown before. *)
Lemma part_at_store {A} `{XmlCodec A} (c : part_cache A) `{!PartCache c} path path' d f :
  part_at c path f = Some d -> part_at c path' (pc_store c path d f) = part_at c path' f.
Proof.
  intros E. unfold part_at in *. rewrite pc_map_store, pc_parts_store.
  destruct (decide (path = path')) as [<-|Hne]; [|by rewrite lookup_insert_ne].
  rewrite lookup_insert_eq. by rewrite E.
Qed.

Ltac solve_cached :=
  intros; unfold cached; destruct (part_at _ _ _) eqn:?; [|done];
  split; [done|..]; intros; first [by apply part_at_store | done].

Lemma cached_sheet_rels path f : cached sheet_rels_cache path f ≡ f.
Proof. solve_cached. Qed.
Lemma cached_drawing_rels path f : cached drawing_rels_cache path f ≡ f.
Proof. solve_cached. Qed.
Lemma cached_comments path f : cached comments_cache path f ≡ f.
Proof. solve_cached. Qed.
Lemma cached_vml path f : cached vml_cache path f ≡ f.
Proof. solve_cached. Qed.

Lemma part_reader_view {A} `{XmlCodec A} (c : part_cache A) path f :
  cached c path f ≡ f -> exists f', part_reader c path f = Ret (part_at c path f, f') /\ f' ≡ f.
Proof. intros Hc. destruct (part_reader_at c path f) as (f' & E & [->| ->]); by eexists. Qed.

Lemma workSheetRelsReader_part path f : workSheetRelsReader path f = part_reader sheet_rels_cache path f.
Proof.
  unfold workSheetRelsReader, part_reader, mbind, gom_bind, get, readXML, gets. cbn.
  destruct (File_WorkSheetRels f !! path); [done|]. destruct (File_XLSX f !! path) eqn:E; [|done]. by rewrite E.
Qed.

Lemma workSheetRelsReader_view path f :
  exists f', workSheetRelsReader path f = Ret (part_at sheet_rels_cache path f, f') /\ f' ≡ f.
Proof. rewrite workSheetRelsReader_part. apply (part_reader_view sheet_rels_cache), cached_sheet_rels. Qed.
Lemma commentsReader_view path f :
  exists f', commentsReader path f = Ret (part_at comments_cache path f, f') /\ f' ≡ f.
Proof. apply part_reader_view, cached_comments. Qed.

(** What the other fields are in equivalent states. *)
Lemma view_rest {A} (proj : File -> A) f g : (forall h, proj (uncached h) = proj h) -> f ≡ g -> proj f = proj g.
Proof. intros Hp [Hr _ _ _ _]. by rewrite <- Hp, Hr, Hp. Qed.

#[export] Instance sheet_map_proper : Proper ((≡) ==> (=)) File_sheetMap.
Proof. intros f g Hfg. by eapply view_rest. Qed.
#[export] Instance workbook_proper : Proper ((≡) ==> (=)) File_WorkBook.
Proof. intros f g Hfg. by eapply view_rest. Qed.
#[export] Instance workbook_rels_proper : Proper ((≡) ==> (=)) File_WorkBookRels.
Proof. intros f g Hfg. by eapply view_rest. Qed.
#[export] Instance sheet_rels_at_proper path : Proper ((≡) ==> (=)) (part_at sheet_rels_cache path).
Proof. intros f g Hfg. apply Hfg. Qed.
#[export] Instance comments_at_proper path : Proper ((≡) ==> (=)) (part_at comments_cache path).
Proof. intros f g Hfg. apply Hfg. Qed.
#[export] Instance wb_loaded_proper : Proper ((≡) ==> (=) ==> (=) ==> iff) wb_loaded.
Proof. intros f g Hfg ? ? -> ? ? ->. unfold wb_loaded. by rewrite Hfg. Qed.

(** *** New relationships *)

Definition with_relation (r : xlsxWorkbookRelation) (o : option xlsxWorkbookRels) : xlsxWorkbookRels :=
  (default gozero o) <| xlsxWorkbookRels_Relationships ::= fun l => l ++ [r] |>.

Definition relations_of (o : option xlsxWorkbookRels) : list xlsxWorkbookRelation :=
  xlsxWorkbookRels_Relationships (default gozero o).

(** The relationship with the next number. *)
Definition next_relation (relType target targetMode : string) (o : option xlsxWorkbookRels) : xlsxWorkbookRelation :=
  mk_xlsxWorkbookRelation ("rId" +:+ strconv_Itoa (zlen (relations_of o) + 1)) target relType targetMode.

(** A structure that is stored replaces what reading it cached. *)
Lemma store_after_reading {A B} `{XmlCodec A} (c : part_cache A) path d (k : B) f f' :
  (forall a b g, pc_store c path a (pc_store c path b g) = pc_store c path a g) ->
  f' = f \/ f' = cached c path f -> Ret (k, pc_store c path d f') = Ret (k, pc_store c path d f).
Proof. intros Hs [->| ->]; [done|]. unfold cached. destruct (part_at c path f); [by rewrite Hs|done]. Qed.

Lemma store_sheet_rels_twice path a b f :
  pc_store sheet_rels_cache path a (pc_store sheet_rels_cache path b f) = pc_store sheet_rels_cache path a f.
Proof. destruct f. cbn. unfold field_update. cbn. by rewrite insert_insert_eq. Qed.
Lemma store_drawing_rels_twice path a b f :
  pc_store drawing_rels_cache path a (pc_store drawing_rels_cache path b f) = pc_store drawing_rels_cache path a f.
Proof. destruct f. cbn. unfold field_update. cbn. by rewrite insert_insert_eq. Qed.
Lemma store_comments_twice path a b f :
  pc_store comments_cache path a (pc_store comments_cache path b f) = pc_store comments_cache path a f.
Proof. destruct f. cbn. unfold field_update. cbn. by rewrite insert_insert_eq. Qed.

Lemma addSheetRelationships_ok f sheet relType target targetMode :
  let rp := sheet_rels_path f sheet in
  let o := part_at sheet_rels_cache rp f in
  addSheetRelationships sheet relType target targetMode f =
    Ret (zlen (relations_of o) + 1,
         pc_store sheet_rels_cache rp (with_relation (next_relation relType target targetMode o) o) f).
Proof.
  intros rp o. unfold addSheetRelationships. rewrite (bind_Ret _ _ f rp f) by done.
  destruct (part_reader_at sheet_rels_cache rp f) as (f' & E & Hf'). rewrite <- workSheetRelsReader_part in E.
  rewrite (bind_Ret _ _ _ _ _ E). fold o.
  etrans; [|apply (store_after_reading sheet_rels_cache rp _ _ f f' (store_sheet_rels_twice rp) Hf')].
  by destruct o.
Qed.

Lemma addDrawingRelationships_ok f index relType target targetMode :
  let o := part_at drawing_rels_cache (drawing_rels_file index) f in
  addDrawingRelationships index relType target targetMode f =
    Ret (zlen (relations_of o) + 1,
         pc_store drawing_rels_cache (drawing_rels_file index) (with_relation (next_relation relType target targetMode o) o) f).
Proof.
  intros o. unfold addDrawingRelationships, drawingRelsReader.
  destruct (part_reader_at drawing_rels_cache (drawing_rels_file index) f) as (f' & E & Hf').
  rewrite (bind_Ret _ _ _ _ _ E). fold o.
  etrans; [|apply (store_after_reading drawing_rels_cache _ _ _ f f' (store_drawing_rels_twice _) Hf')].
  by destruct o.
Qed.

Lemma getSheetRelationshipsTargetByID_at f sheet rID :
  exists f', getSheetRelationshipsTargetByID sheet rID f =
      Ret (from_option xlsxWorkbookRelation_Target ""
             (find_relationship rID (relations_of (part_at sheet_rels_cache (sheet_rels_path f sheet) f))), f') /\
    (f' = f \/ f' = cached sheet_rels_cache (sheet_rels_path f sheet) f).
Proof.
  unfold getSheetRelationshipsTargetByID. rewrite (bind_Ret _ _ f (sheet_rels_path f sheet) f) by done.
  destruct (part_reader_at sheet_rels_cache (sheet_rels_path f sheet) f) as (f' & E & Hf'). rewrite <- workSheetRelsReader_part in E.
  rewrite (bind_Ret _ _ _ _ _ E). exists f'. split; [|done].
  destruct (part_at _ _ _) as [c|]; [|done]. cbn. by destruct (find_relationship _ _).
Qed.

Lemma getSheetRelationshipsTargetByID_view f sheet rID :
  exists f', getSheetRelationshipsTargetByID sheet rID f =
      Ret (from_option xlsxWorkbookRelation_Target ""
             (find_relationship rID (relations_of (part_at sheet_rels_cache (sheet_rels_path f sheet) f))), f') /\ f' ≡ f.
Proof.
  destruct (getSheetRelationshipsTargetByID_at f sheet rID) as (f' & E & Hf'). exists f'. split; [done|].
  destruct Hf' as [->| ->]; [done|apply cached_sheet_rels].
Qed.

(** What is stored is shown, and the other structures of the cache are not
    concerned. *)
Lemma part_at_stored {A} `{XmlCodec A} (c : part_cache A) `{!PartCache c} path d f :
  part_at c path (pc_store c path d f) = Some d.
Proof. unfold part_at. by rewrite pc_map_store, lookup_insert_eq. Qed.

Lemma part_at_stored_ne {A} `{XmlCodec A} (c : part_cache A) `{!PartCache c} path path' d f :
  path <> path' -> part_at c path' (pc_store c path d f) = part_at c path' f.
Proof. intros Hne. unfold part_at. by rewrite pc_map_store, lookup_insert_ne, pc_parts_store. Qed.

Lemma find_relationship_app rID l k :
  find_relationship rID (l ++ k) =
    match find_relationship rID l with Some v => Some v | None => find_relationship rID k end.
Proof.
  unfold find_relationship. induction l as [|x l IH]; cbn; [done|]. case_decide; [done|].
  revert IH. destruct (list_find _ (l ++ k)) as [[]|], (list_find _ l) as [[]|]; cbn; congruence || (intros E; by rewrite E).
Qed.

(** A change of a sheet through its pointer. *)
Lemma update_sheet_loaded f sheet path xlsx g :
  loaded f sheet path xlsx ->
  (p ← workSheetReader sheet; update p.1 g) f = Ret (tt, with_sheet f path (g xlsx)).
Proof.
  intros Hl. rewrite (bind_Ret _ _ _ _ _ (workSheetReader_loaded _ _ _ _ Hl)). by apply update_loaded, Hl.
Qed.

(** *** Content types *)

(** The content types, as they are or as they are read. *)
Definition shown_types (f : File) : xlsxTypes :=
  match File_ContentTypes f with
  | Some c => c
  | None => xml_Unmarshal (namespaceStrictToTransitional (default "" (File_XLSX f !! "[Content_Types].xml")))
  end.

Lemma shown_types_part f k v : k <> "[Content_Types].xml" -> shown_types (f <| File_XLSX ::= <[k := v]> |>) = shown_types f.
Proof. intros Hk. unfold shown_types. cbn. by rewrite lookup_insert_ne. Qed.

Lemma contentTypesReader_shown f :
  contentTypesReader f = Ret (shown_types f, f <| File_ContentTypes := Some (shown_types f) |>).
Proof.
  unfold contentTypesReader, cached_reader, shown_types, mbind, gom_bind, get, gets, readXML, modify.
  destruct (File_ContentTypes f) eqn:E; [|done]. unfold mret, gom_ret. do 2 f_equal. destruct f; cbn in *; by subst.
Qed.

Lemma gom_bind_assoc {A B C} (c : M A) (d : M B) (k : B -> M C) f :
  (c;; y ← d; k y) f = (y ← (c;; d); k y) f.
Proof. unfold mbind, gom_bind. by destruct (c f) as [[]|]. Qed.

(** An override for a part, unless the part has one, and the defaults that come
    with it. *)
Definition with_override (name ty : string) (l : list xlsxOverride) : list xlsxOverride :=
  if existsb (fun v => bool_decide (xlsxOverride_PartName v = name)) l then l else l ++ [mk_xlsxOverride name ty].

Definition default_for (contentType : string) (d : xlsxDefault) : Prop :=
  contentType = "drawings" /\ xlsxDefault_ContentType d = "image/" +:+ xlsxDefault_Extension d \/
  contentType = "comments" /\ xlsxDefault_Extension d = "vml".

Lemma no_chart_default k : Forall (default_for "chart") k -> k = [].
Proof. destruct k as [|d k]; [done|]. by intros [[[]|[]] _]%Forall_cons_1. Qed.

Definition registered (index : Z) (contentType : string) (k : list xlsxDefault) (c : xlsxTypes) : xlsxTypes :=
  c <| xlsxTypes_Defaults ::= fun l => l ++ k |>
    <| xlsxTypes_Overrides ::= with_override (part_name index contentType) (part_content_type contentType) |>.

Lemma image_defaults l : forall c : xlsxTypes, exists k,
  foldl (fun content kv => if kv.2 : bool then content else add_default kv.1 ("image/" +:+ kv.1) content) c l =
    c <| xlsxTypes_Defaults ::= fun l => l ++ k |> /\ Forall (default_for "drawings") k.
Proof.
  induction l as [|[e b] l IH]; intros c; cbn [foldl fst snd].
  - exists []. split; [|done]. destruct c. cbn. unfold field_update. cbn. by rewrite app_nil_r.
  - destruct b; [apply IH|]. destruct (IH (add_default e ("image/" +:+ e) c)) as (k & -> & Hk).
    exists (mk_xlsxDefault e ("image/" +:+ e) :: k). split; [|constructor; [by left|done]].
    destruct c. cbn. unfold field_update. cbn. by rewrite <- app_assoc.
Qed.

Lemma type_defaults contentType f : exists k c,
  c = (shown_types f) <| xlsxTypes_Defaults ::= fun l => l ++ k |> /\ Forall (default_for contentType) k /\
  ((if bool_decide (contentType = "comments") then setContentTypePartVMLExtensions
    else if bool_decide (contentType = "drawings") then setContentTypePartImageExtensions else mret tt);;
   contentTypesReader) f = Ret (c, f <| File_ContentTypes := Some c |>).
Proof.
  assert (forall c : xlsxTypes, c = c <| xlsxTypes_Defaults ::= fun l => l ++ [] |>) as Hnil.
  { intros []. cbn. unfold field_update. cbn. by rewrite app_nil_r. }
  case_bool_decide as H1; [|case_bool_decide as H2].
  - unfold setContentTypePartVMLExtensions. subst. destruct (has_default "vml" (shown_types f)) eqn:Ed.
    + exists [], (shown_types f). split; [apply Hnil|]. split; [done|].
      rewrite (bind_Ret _ _ f tt (f <| File_ContentTypes := Some (shown_types f) |>)), contentTypesReader_shown; [done|].
      rewrite (bind_Ret _ _ _ _ _ (contentTypesReader_shown f)). by rewrite Ed.
    + exists [mk_xlsxDefault "vml" "application/vnd.openxmlformats-officedocument.vmlDrawing"]. eexists. split; [reflexivity|].
      split; [constructor; [by right|done]|].
      set (c := _ <| xlsxTypes_Defaults ::= _ |>). rewrite (bind_Ret _ _ f tt (f <| File_ContentTypes := Some c |>)); [done|].
      rewrite (bind_Ret _ _ _ _ _ (contentTypesReader_shown f)). by rewrite Ed.
  - subst. assert (exists l, setContentTypePartImageExtensions f = set_contentTypes (foldl (fun content kv =>
      if kv.2 : bool then content else add_default kv.1 ("image/" +:+ kv.1) content) (shown_types f) l)
      (f <| File_ContentTypes := Some (shown_types f) |>)) as [l El].
    { unfold setContentTypePartImageExtensions. rewrite (bind_Ret _ _ _ _ _ (contentTypesReader_shown f)). by eexists. }
    destruct (image_defaults l (shown_types f)) as (k & Ek & Hk). exists k. eexists. split; [reflexivity|].
    split; [done|]. rewrite Ek in El. by rewrite (bind_Ret _ _ _ _ _ El).
  - exists [], (shown_types f). split; [apply Hnil|]. split; [done|].
    rewrite (bind_Ret _ _ f tt f) by done. apply contentTypesReader_shown.
Qed.

Lemma addContentTypePart_shown index contentType f : exists k, Forall (default_for contentType) k /\
  addContentTypePart index contentType f = Ret (tt, f <| File_ContentTypes := Some (registered index contentType k (shown_types f)) |>).
Proof.
  destruct (type_defaults contentType f) as (k & c & Ec & Hk & E). exists k. split; [done|]. unfold addContentTypePart.
  rewrite gom_bind_assoc, (bind_Ret _ _ _ _ _ E).
  assert (registered index contentType k (shown_types f) = c <| xlsxTypes_Overrides ::=
    with_override (part_name index contentType) (part_content_type contentType) |>) as -> by (subst c; done).
  destruct (existsb _ _) eqn:Ex.
  - assert (c <| xlsxTypes_Overrides ::= with_override (part_name index contentType) (part_content_type contentType) |> = c) as ->; [|done].
    destruct c. cbn in *. unfold field_update, with_override. cbn. by rewrite Ex.
  - unfold set_contentTypes, modify. do 2 f_equal. clear - Ex. destruct c, f. cbn in *. unfold field_update, with_override. cbn. by rewrite Ex.
Qed.

(** Registering a part touches the content types only. *)
Definition only_content_types (f f' : File) : Prop :=
  exists c, f' = f <| File_ContentTypes := Some c |>.

Lemma addContentTypePart_only index contentType f :
  exists f', addContentTypePart index contentType f = Ret (tt, f') /\ only_content_types f f'.
Proof. destruct (addContentTypePart_shown index contentType f) as (k & _ & E). eexists. split; [exact E|]. by eexists. Qed.

End part_lemmas.
