(* ===== verification/Sheets.v ===== *)
(** The list of sheets ([sheet.go]): adding, deleting, renaming, copying and
    activating sheets and dropping the values of formulas refine operations on a
    list of names with their contents, in any order of the calls. *)
From S2P Require Export Parts Cell.

(** ** The abstract list

    The contents of the sheets are of any type: worksheets here, and grids where the
    operations on cells are added. [sl_bound] bounds the numbers that sheets and
    relationships have been given. *)

(** What the operations on sheets need of a content: that of a new sheet, that of a
    copy, and what is left when the values of formulas are dropped. *)
Class SheetContent (A : Type) := {
  fresh_content : A;
  copied_content : A -> A;
  refreshed_content : A -> A
}.

Record sheet_list (A : Type) := mk_sheet_list { sl_sheets : list (string * A); sl_bound : Z }.
Arguments mk_sheet_list {A} _ _.
Arguments sl_sheets {A} _.
Arguments sl_bound {A} _.

Inductive sheet_op :=
| NewOp (name : string)
| DeleteOp (name : string)
| RenameOp (oldName newName : string)
| ActivateOp (index : Z)
| CopyOp (from to : string)
| RefreshOp.

(** A name that Excel accepts is kept as it is. *)
Definition valid_name (name : string) : Prop := trimSheetName name = name.

Definition refreshed_entry `{SheetContent A} (e : string * A) : string * A := (e.1, refreshed_content e.2).

Inductive sheet_step `{SheetContent A} : sheet_list A -> sheet_op -> sheet_list A -> Prop :=
| step_new l b name :
    valid_name name -> name ∉ l.*1 -> b < maxInt ->
    sheet_step (mk_sheet_list l b) (NewOp name) (mk_sheet_list (l ++ [(name, fresh_content)]) (b + 1))
| step_new_existing s name :
    name ∈ (sl_sheets s).*1 -> sheet_step s (NewOp name) s
| step_delete l1 name x l2 b :
    l1 ++ l2 <> [] ->
    sheet_step (mk_sheet_list (l1 ++ (name, x) :: l2) b) (DeleteOp name) (mk_sheet_list (l1 ++ l2) b)
| step_delete_only name x b :
    sheet_step (mk_sheet_list [(name, x)] b) (DeleteOp name) (mk_sheet_list [(name, x)] b)
| step_delete_absent s name :
    valid_name name -> name ∉ (sl_sheets s).*1 -> sheet_step s (DeleteOp name) s
| step_rename l1 oldName x l2 newName b :
    valid_name newName -> newName ∉ (l1 ++ (oldName, x) :: l2).*1 ->
    sheet_step (mk_sheet_list (l1 ++ (oldName, x) :: l2) b) (RenameOp oldName newName)
      (mk_sheet_list (l1 ++ (newName, x) :: l2) b)
| step_activate s index : sheet_step s (ActivateOp index) s
| step_copy l1 to y l2 b from x :
    (from, x) ∈ l1 ++ l2 -> from <> "" -> to <> "" ->
    sheet_step (mk_sheet_list (l1 ++ (to, y) :: l2) b) (CopyOp from to) (mk_sheet_list (l1 ++ (to, copied_content x) :: l2) b)
| step_refresh l b : sheet_step (mk_sheet_list l b) RefreshOp (mk_sheet_list (refreshed_entry <$> l) b).

Inductive sheet_steps `{SheetContent A} : sheet_list A -> list sheet_op -> sheet_list A -> Prop :=
| sheet_steps_nil s : sheet_steps s [] s
| sheet_steps_cons s op s' ops s'' :
    sheet_step s op s' -> sheet_steps s' ops s'' -> sheet_steps s (op :: ops) s''.

(** Lists with the same names and related contents take the same steps. *)
Definition same_entry {A B} (R : A -> B -> Prop) (e : string * A) (e' : string * B) : Prop := e.1 = e'.1 /\ R e.2 e'.2.

Record related_lists {A B} (R : A -> B -> Prop) (s : sheet_list A) (t : sheet_list B) : Prop := mk_related_lists {
  rl_entries : Forall2 (same_entry R) (sl_sheets s) (sl_sheets t);
  rl_bound : sl_bound s = sl_bound t
}.

Lemma same_entry_names {A B} (R : A -> B -> Prop) l k : Forall2 (same_entry R) l k -> l.*1 = k.*1.
Proof. induction 1 as [|e e' l k [E _] _ IH]; [done|]. rewrite !fmap_cons. congruence. Qed.

Lemma related_split {A B} (R : A -> B -> Prop) (s : sheet_list A) k1 name y k2 b :
  related_lists R s (mk_sheet_list (k1 ++ (name, y) :: k2) b) ->
  exists l1 x l2, s = mk_sheet_list (l1 ++ (name, x) :: l2) b /\ Forall2 (same_entry R) l1 k1 /\ R x y /\ Forall2 (same_entry R) l2 k2.
Proof.
  intros [Hs Hb]. destruct s as [l b']. cbn in *. subst b'. apply Forall2_app_inv_r in Hs as (l1 & l2' & H1 & H2 & ->).
  apply Forall2_cons_inv_r in H2 as ([n x] & l2 & [En Hx] & H2 & ->). cbn in *. subst n. by exists l1, x, l2.
Qed.

(** A relation that the operations on contents keep. *)
Class RelatedContent `{SheetContent A, SheetContent B} (R : A -> B -> Prop) : Prop := {
  rc_fresh : R fresh_content fresh_content;
  rc_copied x y : R x y -> R (copied_content x) (copied_content y);
  rc_refreshed x y : R x y -> R (refreshed_content x) (refreshed_content y)
}.

Lemma same_entry_in {A B} (R : A -> B -> Prop) l k name y :
  Forall2 (same_entry R) l k -> (name, y) ∈ k -> exists x, (name, x) ∈ l /\ R x y.
Proof.
  intros Hl [i Hi]%list_elem_of_lookup. destruct (Forall2_lookup_r _ _ _ _ _ Hl Hi) as ([n x] & Hx & En & Hxy).
  cbn in *. subst n. exists x. split; [by eapply list_elem_of_lookup_2|done].
Qed.

Lemma sheet_step_related `{RelatedContent A B R} s t op t' :
  related_lists R s t -> sheet_step t op t' -> exists s', sheet_step s op s' /\ related_lists R s' t'.
Proof.
  intros Hst Hstep.
  destruct Hstep as [k b name Hv Hn Hb|t name Hn|k1 name y k2 b Hne|name y b|t name Hv Hn|k1 old y k2 new b Hv Hn|t i|k1 to y k2 b from z Hin Hfrom Hto|k b].
  - destruct s as [l b'], Hst as [Hl Eb]. cbn in *. subst b'. eexists. split.
    + constructor; [done| |done]. by rewrite (same_entry_names R l k).
    + split; [|done]. apply Forall2_app; [done|]. constructor; [|constructor]. split; [done|apply rc_fresh].
  - exists s. split; [|done]. constructor. by rewrite (same_entry_names R _ _ (rl_entries _ _ _ Hst)).
  - apply related_split in Hst as (l1 & x & l2 & -> & Hl1 & Hx & Hl2). eexists. split.
    + constructor. intros [-> ->]%app_eq_nil. apply Hne. by apply Forall2_nil_inv_l in Hl1, Hl2; subst.
    + split; [|done]. by apply Forall2_app.
  - apply (related_split R s []) in Hst as (l1 & x & l2 & -> & Hl1 & Hx & Hl2).
    apply Forall2_nil_inv_r in Hl1, Hl2. subst. eexists. split; [apply (step_delete_only name x b)|].
    split; [|done]. constructor; [by split|constructor].
  - exists s. split; [|done]. constructor; [done|]. by rewrite (same_entry_names R _ _ (rl_entries _ _ _ Hst)).
  - pose proof (same_entry_names R _ _ (rl_entries _ _ _ Hst)) as En. apply related_split in Hst as (l1 & x & l2 & -> & Hl1 & Hx & Hl2).
    eexists. split; [constructor; [done|]|].
    + cbn in En. by rewrite En.
    + split; [|done]. apply Forall2_app; [done|]. by constructor.
  - exists s. split; [constructor|done].
  - apply related_split in Hst as (l1 & x & l2 & -> & Hl1 & Hx & Hl2).
    destruct (same_entry_in R (l1 ++ l2) (k1 ++ k2) from z) as (u & Hu & Huz); [by apply Forall2_app|done|].
    eexists. split; [by apply (step_copy _ _ _ _ _ from u)|]. split; [|done]. apply Forall2_app; [done|].
    constructor; [|done]. split; [done|by apply rc_copied].
  - destruct s as [l b'], Hst as [Hl Eb]. cbn in *. subst b'. eexists. split; [apply step_refresh|]. split; [|done].
    apply Forall2_fmap. eapply Forall2_impl; [exact Hl|]. intros e e' [En He]. split; [done|by apply rc_refreshed].
Qed.

Section sheets.
Context `{GoEnv}.

#[export] Instance worksheet_content : SheetContent xlsxWorksheet :=
  {| fresh_content := new_worksheet; copied_content := copied_sheet; refreshed_content := unlink_sheet |}.

Definition run_sheet_op (op : sheet_op) : M (option goerr) :=
  match op with
  | NewOp name => NewSheet name;; mret None
  | DeleteOp name => DeleteSheet name;; mret None
  | RenameOp oldName newName => SetSheetName oldName newName;; mret None
  | ActivateOp index => SetActiveSheet index;; mret None
  | CopyOp from to => i ← GetSheetIndex from; j ← GetSheetIndex to; CopySheet i j
  | RefreshOp => UpdateLinkedValue
  end.

(** ** The relation between a file and a list *)

(** Two worksheets that differ in their views only. *)
Definition same_but_views (x y : xlsxWorksheet) : Prop :=
  x <| xlsxWorksheet_SheetViews := gozero |> = y <| xlsxWorksheet_SheetViews := gozero |>.

#[export] Instance same_but_views_equivalence : Equivalence same_but_views.
Proof. split; [by intros x|by intros x y E|by intros x y z E1 E2; etrans]. Qed.

(** A sheet of the workbook holds an entry of the list. *)
Definition holds (f : File) (v : xlsxSheet) (e : string * xlsxWorksheet) : Prop :=
  xlsxSheet_Name v = e.1 /\ valid_name e.1 /\ File_sheetMap f !! e.1 = Some (sheet_path (xlsxSheet_SheetID v)) /\
  exists y, File_Sheet f !! sheet_path (xlsxSheet_SheetID v) = Some y /\ same_but_views e.2 y.

Definition part_names (c : xlsxTypes) : list string := xlsxOverride_PartName <$> xlsxTypes_Overrides c.

Definition sheet_override (n : Z) : string := "/xl/worksheets/sheet" +:+ strconv_Itoa n +:+ ".xml".

(** The overrides of worksheets are those of the sheets, each part having one. *)
Definition types_ok (c : xlsxTypes) (sheets : list xlsxSheet) : Prop :=
  NoDup (part_names c) /\ forall n, 1 <= n <= maxInt -> sheet_override n ∈ part_names c -> n ∈ xlsxSheet_SheetID <$> sheets.

Record sheets_shown (f : File) (content : xlsxWorkbook) (rels : xlsxWorkbookRels) (s : sheet_list xlsxWorksheet) : Prop := mk_sheets_shown {
  ss_loaded : wb_loaded f content rels;
  ss_holds : Forall2 (holds f) (wb_sheets content) (sl_sheets s);
  ss_consistent : wb_consistent (wb_sheets content) (xlsxWorkbookRels_Relationships rels) xlsxSheet_SheetID;
  ss_types : types_ok (shown_types f) (wb_sheets content);
  ss_id_bound : max_sheetID (wb_sheets content) <= sl_bound s;
  ss_rid_bound : max_rID (xlsxWorkbookRels_Relationships rels) <= sl_bound s <= maxInt
}.

Definition lists_sheets (f : File) (s : sheet_list xlsxWorksheet) : Prop := exists content rels, sheets_shown f content rels s.

(** ** Lemmas *)

(** The greatest number, over the values of a list. *)
Lemma foldl_greatest {A} (g : A -> Z) l : forall b,
  b <= foldl (fun b v => if b <? g v then g v else b) b l /\
  (forall v, v ∈ l -> g v <= foldl (fun b v => if b <? g v then g v else b) b l).
Proof.
  induction l as [|x l IH]; intros b; cbn [foldl]; [split; [lia|by intros v ?%elem_of_nil]|].
  destruct (IH (if b <? g x then g x else b)) as [H1 H2]. split; [destruct (b <? g x) eqn:E; lia|].
  intros v [->|Hv]%elem_of_cons; [|by apply H2]. destruct (b <? g x) eqn:E; lia.
Qed.

Lemma max_sheetID_le sheets v : v ∈ sheets -> xlsxSheet_SheetID v <= max_sheetID sheets.
Proof. intros Hv. by apply (foldl_greatest xlsxSheet_SheetID). Qed.

Lemma max_sheetID_pos sheets : 0 <= max_sheetID sheets.
Proof. apply (foldl_greatest xlsxSheet_SheetID). Qed.

(** The number after the prefix of an identifier. *)
Definition rel_number (v : xlsxWorkbookRelation) : Z := atoi_ignore (strings_TrimPrefix (xlsxWorkbookRelation_ID v) "rId").

Lemma max_rID_le rels v : v ∈ rels -> rel_number v <= max_rID rels.
Proof. intros Hv. by apply (foldl_greatest rel_number). Qed.

Lemma max_rID_pos rels : 0 <= max_rID rels.
Proof. apply (foldl_greatest rel_number). Qed.

Lemma foldl_greatest_sub {A} (g : A -> Z) l k b c :
  (forall v, v ∈ k -> v ∈ l) -> b <= c -> c <= foldl (fun b v => if b <? g v then g v else b) c l ->
  foldl (fun b v => if b <? g v then g v else b) b k <= foldl (fun b v => if b <? g v then g v else b) c l.
Proof.
  intros Hsub. set (m := foldl _ c l). intros Hb Hc.
  assert (forall v, v ∈ k -> g v <= m) as Hk by (intros v Hv; apply (foldl_greatest g l c), Hsub, Hv).
  clearbody m. assert (b <= m) as Hbm by lia. clear Hb Hsub Hc. revert b Hbm. induction k as [|x k IH]; intros b Hb; [done|].
  cbn [foldl]. apply IH; [by intros v Hv; apply Hk; right|]. specialize (Hk x ltac:(by left)). destruct (b <? g x); lia.
Qed.

(** The next identifier is a new one. *)
Lemma next_rID_fresh rels :
  max_rID rels < maxInt -> Forall (fun v => xlsxWorkbookRelation_ID v <> "rId" +:+ strconv_Itoa (max_rID rels + 1)) rels.
Proof.
  intros Hmax. apply Forall_forall. intros v Hv E. pose proof (max_rID_le rels v Hv) as Hle. pose proof (max_rID_pos rels).
  unfold rel_number in Hle. rewrite E, strings_TrimPrefix_app in Hle. unfold atoi_ignore in Hle. rewrite Atoi_Itoa in Hle; [cbn in Hle; lia|].
  unfold minInt. lia.
Qed.

(** *** Activating a sheet *)

Definition views_changed (f g : File) : Prop :=
  g = f <| File_Sheet := File_Sheet g |> /\
  forall p x, File_Sheet f !! p = Some x -> exists y, File_Sheet g !! p = Some y /\ same_but_views x y.

Lemma views_changed_refl f : views_changed f f.
Proof. split; [by destruct f|]. intros p x E. by exists x. Qed.

Lemma views_changed_trans f g h : views_changed f g -> views_changed g h -> views_changed f h.
Proof.
  intros [E1 H1] [E2 H2]. split; [rewrite E2, E1; by destruct f|]. intros p x E.
  destruct (H1 p x E) as (y & Ey & Hy). destruct (H2 p y Ey) as (z & Ez & Hz). exists z. split; [done|by etrans].
Qed.

Lemma view_select sheet f path x b :
  loaded f sheet path x ->
  exists g, (p ← workSheetReader sheet; update p.1 (select_sheet b)) f = Ret (tt, g) /\ views_changed f g.
Proof.
  intros Hl. eexists. split; [by apply (update_sheet_loaded f sheet path x)|]. split; [by destruct f|].
  intros p y E. destruct (decide (path = p)) as [<-|Hne].
  - exists (select_sheet b x). split; [apply lookup_insert_eq|]. destruct Hl as [_ Hx]. rewrite E in Hx. by injection Hx as ->.
  - exists y. split; [|done]. cbn. by rewrite lookup_insert_ne.
Qed.

Lemma views_changed_loaded f g sheet path x : views_changed f g -> loaded f sheet path x -> exists y, loaded g sheet path y.
Proof.
  intros [Eg Hg] [Hm Hx]. destruct (Hg path x Hx) as (y & Hy & _). exists y. split; [by rewrite Eg|done].
Qed.

Lemma forM_select index (l : list (Z * string)) f :
  (forall e, e ∈ l -> exists path x, loaded f e.2 path x) ->
  exists g, forM l (fun e => p ← workSheetReader e.2; update p.1 (select_sheet (index =? e.1))) f = Ret (tt, g) /\
    views_changed f g.
Proof.
  revert f. induction l as [|e l IH]; intros f Hl; [exists f; split; [done|apply views_changed_refl]|]. cbn [forM].
  destruct (Hl e ltac:(by left)) as (path & x & Hx).
  destruct (view_select e.2 f path x (index =? e.1) Hx) as (g & E & Hg). rewrite (bind_Ret _ _ _ _ _ E).
  destruct (IH g) as (h & E' & Hh); [|exists h; split; [done|by eapply views_changed_trans]].
  intros e' He'. destruct (Hl e' ltac:(by right)) as (path' & x' & Hx'). exists path'. by eapply views_changed_loaded.
Qed.

Lemma activate_tab_sheets index wb : wb_sheets (activate_tab index wb) = wb_sheets wb.
Proof.
  unfold activate_tab. generalize (imap pair (wb_sheets wb)). intros l. revert wb. induction l as [|p l IH]; intros wb; [done|].
  cbn [foldl]. rewrite IH. by destruct (_ =? _).
Qed.

(** What is listed does not depend on the views. *)
Lemma holds_views f g v e : views_changed f g -> holds f v e -> holds g v e.
Proof.
  intros [Eg Hg] (Hn & Hv & Hm & y & Hy & Hs). split; [done|]. split; [done|]. split; [by rewrite Eg|].
  destruct (Hg _ _ Hy) as (z & Hz & Hyz). exists z. split; [done|by etrans].
Qed.

(** The names of the sheet map are those of the list. *)
Lemma sheet_map_names f content rels s n name :
  range_map_ok -> sheets_shown f content rels s ->
  (n, name) ∈ range_map (sheet_map_of (wb_sheets content) (xlsxWorkbookRels_Relationships rels)) ->
  exists path x, loaded f name path x.
Proof.
  intros Hr [_ Hh Hc _ _ _] Hin. rewrite (Hr _ _ _ _ (sheet_map_of _ _)) in Hin. apply elem_of_map_to_list in Hin.
  apply sheet_map_of_entries, (sheet_map_entries_consistent _ _ _ Hc) in Hin as (v & Hv & [= -> ->]).
  apply list_elem_of_lookup in Hv as [k Hk]. destruct (Forall2_lookup_l _ _ _ _ _ Hh Hk) as ([m x] & _ & Hn & Hvalid & Hm & y & Hy & _).
  cbn in *. exists (sheet_path (xlsxSheet_SheetID v)), y. split; [|done]. by rewrite Hn, Hvalid.
Qed.

Lemma SetActiveSheet_ok f content rels s index :
  range_map_ok -> sheets_shown f content rels s ->
  exists f' content', SetActiveSheet index f = Ret (tt, f') /\ sheets_shown f' content' rels s /\
    wb_sheets content' = wb_sheets content /\ views_changed (f <| File_WorkBook := Some content' |>) f'.
Proof.
  intros Hr Hs. pose proof Hs as [[Hwb Hrels] Hh Hc Ht Hid Hrid]. unfold SetActiveSheet.
  set (i := if index <? 1 then 1 else index). rewrite (bind_Ret _ _ _ _ _ (workbookReader_loaded _ _ Hwb)).
  set (content' := activate_tab i content). set (f1 := f <| File_WorkBook := Some content' |>).
  rewrite (bind_Ret (set_workbook content') _ f tt f1) by done.
  assert (wb_sheets content' = wb_sheets content) as Esh by apply activate_tab_sheets.
  assert (wb_loaded f1 content' rels) as Hl1 by done.
  rewrite (bind_Ret _ _ _ _ _ (GetSheetMap_loaded _ _ _ Hl1)), Esh.
  destruct (forM_select i (range_map (sheet_map_of (wb_sheets content) (xlsxWorkbookRels_Relationships rels))) f1)
    as (f2 & E2 & Hv2).
  { intros [n name] He. apply (sheet_map_names f content rels s n name Hr Hs He). }
  exists f2, content'. split; [done|]. split; [|done]. destruct Hv2 as [Ef2 Hv2].
  split; rewrite ?Esh; [by rewrite Ef2| |done| |done|done].
  - eapply Forall2_impl; [exact Hh|]. intros v e He. by apply (holds_views f1 f2).
  - assert (shown_types f2 = shown_types f) as -> by by rewrite Ef2. done.
Qed.

(** *** Adding a sheet *)

Lemma delete_sheet_loop_skip name ks ks' s f :
  Forall (fun k => exists v, backing s !! k = Some v /\ (xlsxSheet_Name v <> trimSheetName name \/ (slen s <= 1)%nat)) ks ->
  delete_sheet_loop name (ks ++ ks') s f = delete_sheet_loop name ks' s f.
Proof.
  induction 1 as [|k ks (v & Hv & Hn) Hks IH]; [done|]. cbn [app delete_sheet_loop]. rewrite Hv.
  assert (bool_decide (xlsxSheet_Name v = trimSheetName name) && (1 <? slen s)%nat = false) as ->; [|done].
  destruct Hn as [Hn|Hn]; [by rewrite bool_decide_eq_false_2|]. apply andb_false_intro2, Nat.ltb_ge, Hn.
Qed.

Lemma delete_sheet_loop_none name ks s f :
  Forall (fun k => exists v, backing s !! k = Some v /\ (xlsxSheet_Name v <> trimSheetName name \/ (slen s <= 1)%nat)) ks ->
  delete_sheet_loop name ks s f = Ret (tt, f).
Proof. intros Hks. by rewrite <- (app_nil_r ks), delete_sheet_loop_skip. Qed.

(** No sheet is deleted when there is none of the name or only one at all. *)
Lemma DeleteSheet_none f content rels s name :
  range_map_ok -> sheets_shown f content rels s ->
  (trimSheetName name ∉ (sl_sheets s).*1 \/ (length (sl_sheets s) <= 1)%nat) ->
  exists f' content', DeleteSheet name f = Ret (tt, f') /\ sheets_shown f' content' rels s /\
    wb_sheets content' = wb_sheets content.
Proof.
  intros Hr Hs Hno. pose proof Hs as [[Hwb Hrels] Hh _ _ _ _]. unfold DeleteSheet.
  rewrite (bind_Ret _ _ _ _ _ (workbookReader_loaded _ _ Hwb)). cbv zeta.
  rewrite (bind_Ret _ _ f tt f).
  2:{ apply delete_sheet_loop_none, Forall_forall. intros k [_ Hk]%elem_of_seq. cbn.
      destruct (lookup_lt_is_Some_2 (wb_sheets content) k) as [v Hv]; [lia|]. exists v. split; [done|].
      destruct (Forall2_lookup_l _ _ _ _ _ Hh Hv) as (e & He & Hn & _).
      destruct Hno as [Hno|Hno]; [left|right; by rewrite (Forall2_length _ _ _ Hh)].
      intros E. apply Hno, list_elem_of_fmap. exists e. split; [congruence|by eapply list_elem_of_lookup_2]. }
  rewrite (bind_Ret _ _ _ _ _ (GetSheetMap_loaded _ _ _ (conj Hwb Hrels))).
  destruct (SetActiveSheet_ok f content rels s (Z.of_nat (size (sheet_map_of (wb_sheets content) (xlsxWorkbookRels_Relationships rels)))) Hr Hs)
    as (f' & content' & E & Hs' & Esh & _). by exists f', content'.
Qed.

Lemma sheet_index_absent name sheets rels : Forall (fun v => xlsxSheet_Name v <> name) sheets -> sheet_index_of name sheets rels = 0.
Proof.
  intros Hn. unfold sheet_index_of. assert (List.filter (fun v => bool_decide (xlsxSheet_Name v = name)) sheets = []) as ->; [|done].
  induction Hn as [|v l Hv _ IH]; [done|]. cbn. by rewrite bool_decide_eq_false_2.
Qed.

(** The names of the sheets are those of the list. *)
Lemma held_names f sheets l : Forall2 (holds f) sheets l -> xlsxSheet_Name <$> sheets = l.*1.
Proof. induction 1 as [|v e sheets l (Hn & _) _ IH]; [done|]. rewrite !fmap_cons. congruence. Qed.

Lemma absent_names f sheets l name : Forall2 (holds f) sheets l -> name ∉ l.*1 -> Forall (fun v => xlsxSheet_Name v <> name) sheets.
Proof.
  intros Hh Hn. rewrite <- (held_names _ _ _ Hh) in Hn. apply Forall_forall. intros v Hv E. apply Hn, list_elem_of_fmap. by exists v.
Qed.

(** The state after the parts of a new sheet were made. *)
Definition with_new_sheet (f : File) (content : xlsxWorkbook) (rels : xlsxWorkbookRels) (name : string) : File :=
  let n := max_sheetID (wb_sheets content) + 1 in
  let r := max_rID (xlsxWorkbookRels_Relationships rels) + 1 in
  f <| File_SheetCount := iadd (File_SheetCount f) 1 |>
    <| File_XLSX ::= <["docProps/app.xml" := XMLHeader +:+ templateDocpropsApp]> |>
    <| File_ContentTypes := Some ((shown_types f) <| xlsxTypes_Overrides ::= fun l => l ++
         [mk_xlsxOverride (sheet_override n) "application/vnd.openxmlformats-officedocument.spreadsheetml.worksheet+xml"] |>) |>
    <| File_sheetMap ::= <[name := sheet_path n]> |>
    <| File_Sheet ::= <[sheet_path n := new_worksheet]> |>
    <| File_WorkBookRels := Some (rels <| xlsxWorkbookRels_Relationships ::= fun l => l ++
         [mk_xlsxWorkbookRelation ("rId" +:+ strconv_Itoa r) ("worksheets/sheet" +:+ strconv_Itoa n +:+ ".xml")
            SourceRelationshipWorkSheet ""] |>) |>
    <| File_WorkBook := Some (set_wb_sheets (wb_sheets content ++ [mk_xlsxSheet name n ("rId" +:+ strconv_Itoa r) ""]) content) |>.

Lemma GetSheetIndex_absent f content rels s name :
  sheets_shown f content rels s -> name ∉ (sl_sheets s).*1 -> GetSheetIndex name f = Ret (0, f).
Proof.
  intros [Hl Hh _ _ _ _] Hn. unfold GetSheetIndex. rewrite (bind_Ret _ _ _ _ _ (sheets_and_rels_loaded _ _ _ Hl)).
  cbn [fst snd]. by rewrite (sheet_index_absent _ _ _ (absent_names _ _ _ _ Hh Hn)).
Qed.

Lemma NewSheet_absent f content rels s name :
  range_map_ok -> sheets_shown f content rels s -> valid_name name -> name ∉ (sl_sheets s).*1 -> sl_bound s < maxInt ->
  exists f1 content1, sheets_shown f1 content1 rels s /\ wb_sheets content1 = wb_sheets content /\
    NewSheet name f = Ret (max_sheetID (wb_sheets content) + 1, with_new_sheet f1 content1 rels name).
Proof.
  intros Hr Hs Hvalid Hn Hb. pose proof Hs as [_ _ _ _ Hid [Hrid _]].
  destruct (DeleteSheet_none f content rels s name Hr Hs) as (f1 & content1 & E1 & Hs1 & Esh); [left; by rewrite Hvalid|].
  exists f1, content1. split; [done|]. split; [done|]. pose proof Hs1 as [[Hwb1 Hrels1] _ _ _ _ _].
  pose proof (max_sheetID_pos (wb_sheets content)). pose proof (max_rID_pos (xlsxWorkbookRels_Relationships rels)).
  unfold NewSheet. rewrite (bind_Ret _ _ _ _ _ (GetSheetIndex_absent _ _ _ _ _ Hs Hn)). cbn [negb Z.eqb].
  rewrite (bind_Ret _ _ _ _ _ E1).
  unfold with_new_sheet. rewrite Esh.
  set (f2 := f1 <| File_SheetCount := _ |>). rewrite (bind_Ret (modify _) _ f1 tt f2) by done.
  rewrite (bind_Ret _ _ _ _ _ (workbookReader_loaded f2 content1 Hwb1)). cbv zeta. rewrite Esh.
  assert (iadd (max_sheetID (wb_sheets content)) 1 = max_sheetID (wb_sheets content) + 1) as -> by int_lia.
  set (n := max_sheetID _ + 1). set (f3 := f2 <| File_XLSX ::= _ |>).
  rewrite (bind_Ret setAppXML _ f2 tt f3) by done. unfold setContentTypes.
  assert (shown_types f3 = shown_types f1) as Et.
  { unfold shown_types. subst f3 f2. cbn. destruct (File_ContentTypes f1); [done|]. by rewrite lookup_insert_ne. }
  set (f4 := f3 <| File_ContentTypes := _ |>).
  rewrite (bind_Ret _ _ f3 tt f4) by (by rewrite (bind_Ret _ _ _ _ _ (contentTypesReader_shown f3)), Et).
  unfold setSheet. rewrite Hvalid.
  set (f5 := f4 <| File_sheetMap ::= _ |> <| File_Sheet ::= _ |>). rewrite (bind_Ret _ _ f4 tt f5) by done.
  unfold addXlsxWorkbookRels. set (f6 := f5 <| File_WorkBookRels := _ |>).
  assert (iadd (max_rID (xlsxWorkbookRels_Relationships rels)) 1 = max_rID (xlsxWorkbookRels_Relationships rels) + 1) as Er by int_lia.
  rewrite (bind_Ret _ _ f5 (max_rID (xlsxWorkbookRels_Relationships rels) + 1) f6).
  2:{ rewrite (bind_Ret _ _ _ _ _ (workbookRelsReader_loaded f5 rels Hrels1)). cbv zeta. by rewrite Er. }
  unfold setWorkbook. rewrite Hvalid. rewrite (bind_Ret _ _ _ _ _ (bind_Ret _ _ _ _ _ (workbookReader_loaded f6 content1 Hwb1))).
  by rewrite Esh.
Qed.

Lemma numbered_inj pre n m :
  0 <= n <= maxInt -> 0 <= m <= maxInt -> pre +:+ strconv_Itoa n +:+ ".xml" = pre +:+ strconv_Itoa m +:+ ".xml" -> n = m.
Proof.
  intros Hn Hm E. apply (f_equal (fun p => atoi_ignore (strings_TrimSuffix (strings_TrimPrefix p pre) ".xml"))) in E.
  rewrite !strings_TrimPrefix_app, !strings_TrimSuffix_app in E. unfold atoi_ignore in E.
  rewrite !Atoi_Itoa in E by (unfold minInt, maxInt in *; lia). done.
Qed.

Lemma sheet_path_inj n m : 0 <= n <= maxInt -> 0 <= m <= maxInt -> sheet_path n = sheet_path m -> n = m.
Proof. apply (numbered_inj "xl/worksheets/sheet"). Qed.

Lemma sheet_override_inj n m : 0 <= n <= maxInt -> 0 <= m <= maxInt -> sheet_override n = sheet_override m -> n = m.
Proof. apply (numbered_inj "/xl/worksheets/sheet"). Qed.

Lemma max_sheetID_app sheets v : max_sheetID (sheets ++ [v]) = Z.max (max_sheetID sheets) (xlsxSheet_SheetID v).
Proof. unfold max_sheetID. rewrite foldl_app. cbn [foldl]. destruct (_ <? _) eqn:E; lia. Qed.

Lemma max_rID_app rels v : max_rID (rels ++ [v]) = Z.max (max_rID rels) (rel_number v).
Proof. unfold max_rID, rel_number. rewrite foldl_app. cbn [foldl]. destruct (_ <? _) eqn:E; lia. Qed.

Lemma rel_number_new r target type mode :
  0 <= r <= maxInt -> rel_number (mk_xlsxWorkbookRelation ("rId" +:+ strconv_Itoa r) target type mode) = r.
Proof.
  intros Hr. unfold rel_number. cbn [xlsxWorkbookRelation_ID]. rewrite strings_TrimPrefix_app. unfold atoi_ignore.
  rewrite Atoi_Itoa by (unfold minInt, maxInt in *; lia). done.
Qed.

Lemma NoDup_snoc {A} (l : list A) x : NoDup l -> x ∉ l -> NoDup (l ++ [x]).
Proof. intros Hl Hx. apply NoDup_app. split; [done|]. split; [|apply NoDup_singleton]. by intros y Hy ->%list_elem_of_singleton. Qed.

Lemma held_id f content rels s v :
  sheets_shown f content rels s -> v ∈ wb_sheets content -> 1 <= xlsxSheet_SheetID v <= max_sheetID (wb_sheets content).
Proof. intros Hs Hv. split; [apply (wc_idx _ _ _ (ss_consistent _ _ _ _ Hs) v Hv)|by apply max_sheetID_le]. Qed.

(** A sheet and its relationship with new numbers. *)
Lemma wb_consistent_snoc sheets rels name :
  wb_consistent sheets rels xlsxSheet_SheetID ->
  Forall (fun v => xlsxSheet_Name v <> name) sheets -> max_sheetID sheets < maxInt -> max_rID rels < maxInt ->
  let n := max_sheetID sheets + 1 in
  let r := "rId" +:+ strconv_Itoa (max_rID rels + 1) in
  wb_consistent (sheets ++ [mk_xlsxSheet name n r ""])
    (rels ++ [mk_xlsxWorkbookRelation r ("worksheets/sheet" +:+ strconv_Itoa n +:+ ".xml") SourceRelationshipWorkSheet ""])
    xlsxSheet_SheetID.
Proof.
  intros Hc Hn Hs Hr n r. pose proof (next_rID_fresh rels Hr) as Hfresh. rewrite Forall_forall in Hn. rewrite Forall_forall in Hfresh.
  pose proof (max_sheetID_pos sheets). pose proof Hc as [Hnames Hids Hrids Hrel Hidx Hinj].
  split; rewrite ?fmap_app.
  - apply NoDup_snoc; [done|]. intros (v & E & Hv)%list_elem_of_fmap. by apply (Hn v Hv).
  - apply NoDup_snoc; [done|]. intros (v & E & Hv)%list_elem_of_fmap. destruct (Hrel v Hv) as (rel & Hin & E' & _).
    apply (Hfresh rel Hin). by rewrite E', <- E.
  - apply NoDup_snoc; [done|]. intros (rel & E & Hin)%list_elem_of_fmap. by apply (Hfresh rel Hin).
  - intros v [Hv| ->%list_elem_of_singleton]%elem_of_app.
    + destruct (Hrel v Hv) as (rel & Hin & E). exists rel. split; [by apply elem_of_app; left|done].
    + eexists. split; [by apply elem_of_app; right; left|done].
  - intros v [Hv| ->%list_elem_of_singleton]%elem_of_app; [by apply Hidx|]. cbn. lia.
  - intros v w [Hv| ->%list_elem_of_singleton]%elem_of_app [Hw| ->%list_elem_of_singleton]%elem_of_app E; cbn in E; [by apply Hinj| | |done].
    + pose proof (max_sheetID_le sheets v Hv). lia.
    + pose proof (max_sheetID_le sheets w Hw). lia.
Qed.

Lemma with_new_sheet_shown f content rels l b name :
  sheets_shown f content rels (mk_sheet_list l b) -> valid_name name -> name ∉ l.*1 -> b < maxInt ->
  lists_sheets (with_new_sheet f content rels name) (mk_sheet_list (l ++ [(name, new_worksheet)]) (b + 1)).
Proof.
  intros Hs Hvalid Hn Hb. pose proof Hs as [Hl Hh Hc [Hnd Ht] Hid [Hrid _]]. cbn in Hh, Hid, Hrid, Hb. unfold with_new_sheet.
  set (n := max_sheetID (wb_sheets content) + 1). set (r := max_rID (xlsxWorkbookRels_Relationships rels) + 1).
  pose proof (max_sheetID_pos (wb_sheets content)). pose proof (max_rID_pos (xlsxWorkbookRels_Relationships rels)).
  assert (forall v, v ∈ wb_sheets content -> 1 <= xlsxSheet_SheetID v < n) as Hlt.
  { intros v Hv. pose proof (held_id _ _ _ _ _ Hs Hv). lia. }
  eexists _, _. split; cbn [wb_sheets set_wb_sheets sl_sheets sl_bound]; [done|..].
  - apply Forall2_app; [|constructor; [|done]].
    + apply Forall2_same_length_lookup in Hh as [Hlen Hh]. apply Forall2_same_length_lookup. split; [done|]. intros k v e Hv He.
      pose proof (list_elem_of_lookup_2 _ _ _ Hv) as Hin. apply list_elem_of_lookup_2 in He as Hin'.
      destruct (Hh k v e Hv He) as (Hname & Hve & Hm & y & Hy & Hxy). split; [done|]. split; [done|].
      split; [|exists y; split; [|done]]; cbn; rewrite lookup_insert_ne; [done| |done|].
      * intros ->. by apply Hn, list_elem_of_fmap_2.
      * pose proof (Hlt v Hin). intros E. apply sheet_path_inj in E; lia.
    + split; [done|]. split; [done|]. cbn. split; [apply lookup_insert_eq|]. exists new_worksheet. by rewrite lookup_insert_eq.
  - apply (wb_consistent_snoc (wb_sheets content)); [done|by apply (absent_names _ _ _ _ Hh)|lia..].
  - unfold types_ok, part_names, shown_types in *. cbn. rewrite !fmap_app. cbn. split.
    + apply NoDup_snoc; [done|]. intros Hin. apply Ht in Hin as (v & E & Hv)%list_elem_of_fmap; [|lia]. pose proof (Hlt v Hv). lia.
    + intros m Hm [Hin|E%list_elem_of_singleton]%elem_of_app; apply elem_of_app; [left; by apply Ht|right].
      apply sheet_override_inj in E as ->; [|lia..]. by left.
  - pose proof (max_sheetID_app (wb_sheets content)) as E. unfold wb_sheets in *. cbn. rewrite E. cbn. lia.
  - change (xlsxWorkbookRels_Relationships _) with (xlsxWorkbookRels_Relationships rels ++
      [mk_xlsxWorkbookRelation ("rId" +:+ strconv_Itoa r) ("worksheets/sheet" +:+ strconv_Itoa n +:+ ".xml") SourceRelationshipWorkSheet ""]).
    rewrite max_rID_app, rel_number_new; lia.
Qed.

(** *** Deleting a sheet *)

(** Nothing but content types, the calculation chain and raw parts is changed, and
    no content type is added. *)
Record types_trimmed (f g : File) : Prop := mk_types_trimmed {
  tt_WorkBook : File_WorkBook g = File_WorkBook f;
  tt_WorkBookRels : File_WorkBookRels g = File_WorkBookRels f;
  tt_sheetMap : File_sheetMap g = File_sheetMap f;
  tt_Sheet : File_Sheet g = File_Sheet f;
  tt_NoDup : NoDup (part_names (shown_types g));
  tt_sub b : b ∈ part_names (shown_types g) -> b ∈ part_names (shown_types f)
}.

Lemma delete_override k f :
  NoDup (part_names (shown_types f)) ->
  exists g, (content ← contentTypesReader;
             l ← lift (range_delete (fun v => bool_decide (xlsxOverride_PartName v = k)) (xlsxTypes_Overrides content));
             set_contentTypes (content <| xlsxTypes_Overrides := l |>)) f = Ret (tt, g) /\
    types_trimmed f g /\ k ∉ part_names (shown_types g).
Proof.
  intros Hnd. rewrite (bind_Ret _ _ _ _ _ (contentTypesReader_shown f)).
  destruct (range_delete_key xlsxOverride_PartName k _ Hnd) as (l & E & Hl & Hin).
  rewrite (bind_Ret (lift _) _ _ l (f <| File_ContentTypes := Some (shown_types f) |>)) by (unfold lift; by rewrite E).
  eexists. split; [done|]. unfold part_names in *. split; [split; try done|].
  - intros b Hb. by apply Hin in Hb as [? _].
  - intros Hk. by apply Hin in Hk as [_ ?].
Qed.

Lemma types_trimmed_trans f g h : types_trimmed f g -> types_trimmed g h -> types_trimmed f h.
Proof. intros [] []. split; try congruence. auto. Qed.

Lemma deleteCalcChain_trims index axis f :
  NoDup (part_names (shown_types f)) ->
  exists g, deleteCalcChain index axis f = Ret (tt, g) /\ types_trimmed f g.
Proof.
  intros Hnd. unfold deleteCalcChain.
  assert (exists c f1, calcChainReader f = Ret (c, f1) /\ types_trimmed f f1) as (c & f1 & E1 & H1).
  { unfold calcChainReader, cached_reader, mbind, gom_bind, get, gets, readXML, modify.
    destruct (File_CalcChain f) as [c|]; eexists _, _; (split; [done|]); by split. }
  rewrite (bind_Ret _ _ _ _ _ E1). cbv zeta. set (calc := c <| xlsxCalcChain_C ::= _ |>).
  set (f2 := f1 <| File_CalcChain := Some calc |>). rewrite (bind_Ret (modify _) _ f1 tt f2) by done.
  assert (types_trimmed f f2) as H2 by (destruct H1; split; done).
  destruct (zlen _ =? 0); [|by exists f2].
  set (f3 := f2 <| File_CalcChain := None |> <| File_XLSX ::= delete "xl/calcChain.xml" |>).
  rewrite (bind_Ret (modify _) _ f2 tt (f2 <| File_CalcChain := None |>)) by done.
  rewrite (bind_Ret (modify _) _ _ tt f3) by done.
  assert (types_trimmed f f3) as H3.
  { assert (shown_types f3 = shown_types f2) as E.
    { unfold shown_types. subst f3. cbn. destruct (File_ContentTypes f1); [done|]. by rewrite lookup_delete_ne. }
    destruct H2. split; rewrite ?E; done. }
  destruct (delete_override "/xl/calcChain.xml" f3 (tt_NoDup _ _ H3)) as (g & E & Hg & _).
  exists g. split; [done|by eapply types_trimmed_trans].
Qed.

(** The parts of a sheet [v] are gone: its relationship, its content type, its
    entry of the sheet map and its worksheet. *)
Record parts_deleted (f g : File) (rels : xlsxWorkbookRels) (l : list xlsxWorkbookRelation) (name : string) (v : xlsxSheet) : Prop :=
  mk_parts_deleted {
  pd_WorkBook : File_WorkBook g = File_WorkBook f;
  pd_WorkBookRels : File_WorkBookRels g = Some (rels <| xlsxWorkbookRels_Relationships := l |>);
  pd_sheetMap : File_sheetMap g = delete name (File_sheetMap f);
  pd_Sheet : File_Sheet g = delete (sheet_path (xlsxSheet_SheetID v)) (File_Sheet f);
  pd_NoDup : NoDup (part_names (shown_types g));
  pd_sub b : b ∈ part_names (shown_types g) ->
    b ∈ part_names (shown_types f) /\ b <> sheet_override (xlsxSheet_SheetID v)
}.

Lemma delete_first_split {A} (p : A -> bool) l1 x l2 :
  Forall (fun y => p y = false) l1 -> p x = true -> delete_first p (l1 ++ x :: l2) = Some (x, l1 ++ l2).
Proof.
  intros Hl1 Hx. unfold delete_first.
  assert (list_find (fun y => p y = true) (l1 ++ x :: l2) = Some (length l1, x)) as ->.
  { apply list_find_Some. split; [by rewrite list_lookup_middle|]. split; [done|]. intros j y Hj Hlt.
    rewrite lookup_app_l in Hj by done. rewrite Forall_lookup in Hl1. by rewrite (Hl1 _ _ Hj). }
  by rewrite take_app_length, drop_S_app.
Qed.

Lemma delete_sheet_parts_ok f rels r1 rel r2 name v :
  File_WorkBookRels f = Some rels -> xlsxWorkbookRels_Relationships rels = r1 ++ rel :: r2 ->
  Forall (fun w => xlsxWorkbookRelation_ID w <> xlsxSheet_ID v) r1 -> xlsxWorkbookRelation_ID rel = xlsxSheet_ID v ->
  xlsxWorkbookRelation_Target rel = "worksheets/sheet" +:+ strconv_Itoa (xlsxSheet_SheetID v) +:+ ".xml" ->
  NoDup (part_names (shown_types f)) ->
  exists g, delete_sheet_parts name v f = Ret (tt, g) /\ parts_deleted f g rels (r1 ++ r2) name v.
Proof.
  intros Hrels Er Hr1 Erel Etarget Hnd. unfold delete_sheet_parts. cbv zeta.
  set (f1 := f <| File_WorkBookRels := Some (rels <| xlsxWorkbookRels_Relationships := r1 ++ r2 |>) |>).
  rewrite (bind_Ret (deleteSheetFromWorkbookRels _) _ f (xlsxWorkbookRelation_Target rel) f1).
  2:{ unfold deleteSheetFromWorkbookRels. rewrite (bind_Ret _ _ _ _ _ (workbookRelsReader_loaded f rels Hrels)).
      rewrite Er, delete_first_split; [done| |by apply bool_decide_eq_true_2].
      eapply Forall_impl; [exact Hr1|]. intros w Hw. by apply bool_decide_eq_false_2. }
  destruct (delete_override ("/xl/" +:+ xlsxWorkbookRelation_Target rel) f1 Hnd) as (f2 & E2 & H2 & Hgone).
  unfold deleteSheetFromContentTypes. rewrite (bind_Ret _ _ _ _ _ E2).
  destruct (deleteCalcChain_trims (xlsxSheet_SheetID v) "" f2 (tt_NoDup _ _ H2)) as (f3 & E3 & H3).
  rewrite (bind_Ret _ _ _ _ _ E3). rewrite Etarget in Hgone.
  eexists. split; [done|]. set (g := _ <| File_SheetCount ::= _ |>).
  assert (shown_types g = shown_types f3) as Eg.
  { unfold shown_types. subst g. cbn. destruct (File_ContentTypes f3); [done|]. by rewrite !lookup_delete_ne. }
  split; rewrite ?Eg.
  - by etrans; [apply H3|apply H2].
  - by etrans; [apply H3|etrans; [apply H2|]].
  - cbn. by rewrite (tt_sheetMap _ _ H3), (tt_sheetMap _ _ H2).
  - cbn. by rewrite (tt_Sheet _ _ H3), (tt_Sheet _ _ H2).
  - apply H3.
  - intros b Hb. apply H3 in Hb. split; [by apply H2 in Hb|]. intros ->. by apply Hgone.
Qed.

Lemma delete_sheet_loop_one name s1 v s2 f g :
  Forall (fun w => xlsxSheet_Name w <> trimSheetName name) (s1 ++ s2) -> xlsxSheet_Name v = trimSheetName name -> s1 ++ s2 <> [] ->
  (content ← workbookReader; set_workbook (set_wb_sheets (s1 ++ s2) content);; delete_sheet_parts name v) f = Ret (tt, g) ->
  delete_sheet_loop name (seq 0 (length (s1 ++ v :: s2))) (slice_of (s1 ++ v :: s2)) f = Ret (tt, g).
Proof.
  intros [H1 H2]%Forall_app Hv Hne E. rewrite length_app, seq_app, delete_sheet_loop_skip.
  2:{ apply Forall_forall. intros k [_ Hk]%elem_of_seq. destruct (lookup_lt_is_Some_2 s1 k) as [w Hw]; [lia|]. exists w. cbn.
      rewrite lookup_app_l by lia. rewrite Forall_lookup in H1. eauto. }
  cbn [length seq Nat.add delete_sheet_loop]. cbn [backing slice_of]. rewrite list_lookup_middle by done.
  rewrite bool_decide_eq_true_2 by done. cbn [slen slice_of].
  assert ((1 <? length (s1 ++ v :: s2))%nat = true) as ->.
  { apply Nat.ltb_lt. rewrite length_app. cbn. destruct s1, s2; cbn; (done || lia). }
  cbn [andb]. rewrite delete_at_middle. unfold lift, mbind at 1, gom_bind at 1. rewrite elems_deleted.
  set (rest := delete_sheet_loop _ _ _).
  assert (rest g = Ret (tt, g)) as Hrest.
  { apply delete_sheet_loop_none.
    pose proof (range_delete_rest (fun w => bool_decide (xlsxSheet_Name w = trimSheetName name)) s1 v s2) as Hk.
    eapply Forall_impl; [apply Hk|]; [by eapply Forall_impl; [done|]; intros w Hw; apply bool_decide_eq_false_2..|].
    cbn. intros k (w & Hw & Hb%bool_decide_eq_false). eauto. }
  revert E. unfold mbind, gom_bind. destruct (workbookReader f) as [[content f1]|]; [|done]. cbn.
  destruct (delete_sheet_parts name v _) as [[[] g']|]; [|done]. intros [= ->]. done.
Qed.

Lemma NoDup_middle {A} (l1 : list A) x l2 : NoDup (l1 ++ x :: l2) <-> (x ∉ (l1 ++ l2)) /\ NoDup (l1 ++ l2).
Proof. by rewrite <- Permutation_middle, NoDup_cons. Qed.

Lemma fmap_middle_ne {A B} (g : A -> B) l1 x l2 y : NoDup (g <$> (l1 ++ x :: l2)) -> y ∈ l1 ++ l2 -> g y <> g x.
Proof.
  rewrite fmap_app, fmap_cons. intros [Hx _]%NoDup_middle Hy E. apply Hx. rewrite <- E, <- fmap_app. by apply list_elem_of_fmap_2.
Qed.

Lemma elem_of_middle {A} (l1 : list A) x l2 y : y ∈ l1 ++ l2 -> y ∈ l1 ++ x :: l2.
Proof. rewrite !elem_of_app, elem_of_cons. tauto. Qed.

(** Without one of the sheets and its relationship. *)
Lemma wb_consistent_delete s1 v s2 r1 rel r2 idx :
  wb_consistent (s1 ++ v :: s2) (r1 ++ rel :: r2) idx -> xlsxWorkbookRelation_ID rel = xlsxSheet_ID v ->
  wb_consistent (s1 ++ s2) (r1 ++ r2) idx.
Proof.
  intros [Hnames Hids Hrids Hrel Hidx Hinj] E.
  assert (forall w, w ∈ s1 ++ s2 -> xlsxSheet_ID w <> xlsxSheet_ID v) as Hne by (intros w; by apply fmap_middle_ne).
  rewrite fmap_app, fmap_cons in Hnames. rewrite fmap_app, fmap_cons in Hids. rewrite fmap_app, fmap_cons in Hrids.
  apply NoDup_middle in Hnames as [_ Hnames], Hids as [_ Hids], Hrids as [_ Hrids].
  split; rewrite ?fmap_app; try done.
  - intros w Hw. destruct (Hrel w (elem_of_middle _ _ _ _ Hw)) as (rel' & Hin & E' & Ht). exists rel'. split; [|done].
    revert Hin. rewrite !elem_of_app, elem_of_cons. intros [?|[->|?]]; [by left| |by right].
    destruct (Hne w Hw). congruence.
  - intros w Hw. apply Hidx. by apply elem_of_middle.
  - intros w w' Hw Hw'. apply Hinj; by apply elem_of_middle.
Qed.

Lemma max_sheetID_middle s1 v s2 : max_sheetID (s1 ++ s2) <= max_sheetID (s1 ++ v :: s2).
Proof. apply (foldl_greatest_sub xlsxSheet_SheetID); [intros w; apply elem_of_middle|done|apply max_sheetID_pos]. Qed.

Lemma max_rID_middle r1 rel r2 : max_rID (r1 ++ r2) <= max_rID (r1 ++ rel :: r2).
Proof. apply (foldl_greatest_sub rel_number); [intros w; apply elem_of_middle|done|apply max_rID_pos]. Qed.

(** The names of the list are distinct. *)
Lemma listed_NoDup f content rels s : sheets_shown f content rels s -> NoDup ((sl_sheets s).*1).
Proof. intros [_ Hh Hc _ _ _]. rewrite <- (held_names _ _ _ Hh). by apply (wc_names _ _ _ Hc). Qed.

(** What the list is when the parts of one sheet are gone. *)
Lemma deleted_shown f g content rels l1 name x l2 b s1 v s2 r1 rel r2 :
  sheets_shown f content rels (mk_sheet_list (l1 ++ (name, x) :: l2) b) ->
  wb_sheets content = s1 ++ v :: s2 -> Forall2 (holds f) s1 l1 -> Forall2 (holds f) s2 l2 -> xlsxSheet_Name v = name ->
  xlsxWorkbookRels_Relationships rels = r1 ++ rel :: r2 -> xlsxWorkbookRelation_ID rel = xlsxSheet_ID v ->
  (forall w, w ∈ s1 ++ s2 -> xlsxSheet_Name w <> name) ->
  parts_deleted (f <| File_WorkBook := Some (set_wb_sheets (s1 ++ s2) content) |>) g rels (r1 ++ r2) name v ->
  sheets_shown g (set_wb_sheets (s1 ++ s2) content) (rels <| xlsxWorkbookRels_Relationships := r1 ++ r2 |>)
    (mk_sheet_list (l1 ++ l2) b).
Proof.
  intros [_ _ Hc [_ Ht] Hid Hrid] Es Hh1 Hh2 Hname Er Erel Hother [Hg1 Hg2 Hg3 Hg4 Hg5 Hg6]. cbn in Hid, Hrid. rewrite Es, Er in *.
  assert (v ∈ s1 ++ v :: s2) as Hv by (apply elem_of_app; right; by left).
  split; [done| |by apply (wb_consistent_delete s1 v s2 r1 rel r2)| | |].
  - cbn. assert (Forall2 (holds f) (s1 ++ s2) (l1 ++ l2)) as Hh by by apply Forall2_app.
    apply Forall2_same_length_lookup in Hh as [Hlen Hh]. apply Forall2_same_length_lookup. split; [done|]. intros k w e Hw He.
    apply list_elem_of_lookup_2 in Hw as Hin. destruct (Hh k w e Hw He) as (Hname' & Hv' & Hm & y & Hy & Hxy).
    split; [done|]. split; [done|]. rewrite Hg3, Hg4. split; [|exists y; split; [|done]]; cbn; rewrite lookup_delete_ne; [done| |done|].
    + rewrite <- Hname'. by apply not_eq_sym, Hother.
    + intros E. apply sheet_path_inj in E.
      * apply (Hother w Hin). rewrite <- Hname. f_equal. apply (wc_inj _ _ _ Hc); [by apply elem_of_middle|done|done].
      * pose proof (wc_idx _ _ _ Hc v Hv). lia.
      * pose proof (wc_idx _ _ _ Hc w (elem_of_middle _ _ _ _ Hin)). lia.
  - split; [done|]. intros n Hn [Hin Hneq]%Hg6. apply Ht in Hin; [|done].
    change (n ∈ xlsxSheet_SheetID <$> s1 ++ s2). revert Hin. rewrite !fmap_app, fmap_cons, !elem_of_app, elem_of_cons.
    intros [?|[->|?]]; [by left|done|by right].
  - pose proof (max_sheetID_middle s1 v s2). change (max_sheetID (s1 ++ s2) <= b). lia.
  - pose proof (max_rID_middle r1 rel r2). change (max_rID (r1 ++ r2) <= b <= maxInt). lia.
Qed.

Lemma DeleteSheet_present f content rels l1 name x l2 b :
  range_map_ok -> sheets_shown f content rels (mk_sheet_list (l1 ++ (name, x) :: l2) b) -> l1 ++ l2 <> [] ->
  exists f', DeleteSheet name f = Ret (tt, f') /\ lists_sheets f' (mk_sheet_list (l1 ++ l2) b).
Proof.
  intros Hr Hs Hne. pose proof Hs as [[Hwb Hrels] Hh Hc [Hnd Ht] Hid Hrid]. cbn in Hh, Hid, Hrid.
  apply Forall2_app_inv_r in Hh as (s1 & s2' & Hh1 & Hh2 & Es).
  apply Forall2_cons_inv_r in Hh2 as (v & s2 & (Hname & Hvalid & _) & Hh2 & ->). cbn in Hname, Hvalid.
  rewrite Es in *. assert (v ∈ s1 ++ v :: s2) as Hv by (apply elem_of_app; right; by left).
  destruct (wc_rel _ _ _ Hc v Hv) as (rel & (r1 & r2 & Er)%list_elem_of_split & Erel & Etarget). rewrite Er in *.
  assert (forall w, w ∈ s1 ++ s2 -> xlsxSheet_Name w <> name) as Hother.
  { intros w Hw. rewrite <- Hname. apply (fmap_middle_ne _ s1 v s2); [|done]. by apply (wc_names _ _ _ Hc). }
  set (content1 := set_wb_sheets (s1 ++ s2) content). set (f1 := f <| File_WorkBook := Some content1 |>).
  destruct (delete_sheet_parts_ok f1 rels r1 rel r2 name v) as (g & Eg & Hg); [done..| |done|done|done|].
  { apply Forall_forall. intros w Hw. rewrite <- Erel. apply (fmap_middle_ne _ r1 rel r2); [by apply (wc_rel_ids _ _ _ Hc)|].
    apply elem_of_app. by left. }
  assert (DeleteSheet name f = (m ← GetSheetMap; SetActiveSheet (Z.of_nat (size m))) g) as ->.
  { unfold DeleteSheet. rewrite (bind_Ret _ _ _ _ _ (workbookReader_loaded _ _ Hwb)). cbv zeta. rewrite Es.
    rewrite (bind_Ret _ _ f tt g); [done|]. apply delete_sheet_loop_one; rewrite ?Hvalid; [by apply Forall_forall|done| |].
    - intros [-> ->]%app_eq_nil. apply Hne. by apply Forall2_nil_inv_l in Hh1, Hh2; subst.
    - by rewrite (bind_Ret _ _ _ _ _ (workbookReader_loaded _ _ Hwb)). }
  apply (deleted_shown f g content rels l1 name x l2 b s1 v s2 r1 rel r2) in Hg as Hs1; [|by rewrite ?Es, ?Er..].
  rewrite (bind_Ret _ _ _ _ _ (GetSheetMap_loaded _ _ _ (ss_loaded _ _ _ _ Hs1))).
  edestruct (SetActiveSheet_ok g) as (f' & content' & E & Hs' & _); [done|done|]. exists f'. split; [done|by eexists _, _].
Qed.

(** *** Renaming a sheet *)

Lemma wb_consistent_rename s1 v s2 rels name :
  wb_consistent (s1 ++ v :: s2) rels xlsxSheet_SheetID -> Forall (fun w => xlsxSheet_Name w <> name) (s1 ++ s2) ->
  wb_consistent (s1 ++ (v <| xlsxSheet_Name := name |>) :: s2) rels xlsxSheet_SheetID.
Proof.
  intros [Hnames Hids Hrids Hrel Hidx Hinj] Hother.
  assert (forall w, w ∈ s1 ++ (v <| xlsxSheet_Name := name |>) :: s2 -> exists w', w' ∈ s1 ++ v :: s2 /\
    xlsxSheet_ID w = xlsxSheet_ID w' /\ xlsxSheet_SheetID w = xlsxSheet_SheetID w') as Hw.
  { intros w. rewrite elem_of_app, elem_of_cons. intros [?|[->|?]];
      [exists w|exists v|exists w]; rewrite elem_of_app, elem_of_cons; tauto. }
  assert (NoDup (xlsxSheet_SheetID <$> (s1 ++ v :: s2))) as Hnd.
  { apply (NoDup_fmap_2_strong xlsxSheet_SheetID); [exact Hinj|]. by apply NoDup_fmap_1 in Hnames. }
  split; rewrite ?fmap_app, ?fmap_cons.
  - apply NoDup_middle. rewrite fmap_app, fmap_cons in Hnames. apply NoDup_middle in Hnames as [_ Hnames]. split; [|done].
    rewrite <- fmap_app. intros (w & E & Hw')%list_elem_of_fmap. rewrite Forall_forall in Hother. by apply (Hother w Hw').
  - by rewrite fmap_app, fmap_cons in Hids.
  - done.
  - intros w (w' & Hw' & -> & ->)%Hw. by apply Hrel.
  - intros w (w' & Hw' & _ & ->)%Hw. by apply Hidx.
  - intros w u Hw' Hu' E. apply (NoDup_fmap_inj xlsxSheet_SheetID (s1 ++ (v <| xlsxSheet_Name := name |>) :: s2)); [|done..].
    rewrite fmap_app, fmap_cons in Hnd |- *. done.
Qed.

Lemma max_sheetID_rename s1 v s2 name :
  max_sheetID (s1 ++ (v <| xlsxSheet_Name := name |>) :: s2) = max_sheetID (s1 ++ v :: s2).
Proof. unfold max_sheetID. by rewrite !foldl_app. Qed.

Lemma SetSheetName_listed f content rels l1 oldName x l2 newName b :
  sheets_shown f content rels (mk_sheet_list (l1 ++ (oldName, x) :: l2) b) -> valid_name newName ->
  newName ∉ (l1 ++ (oldName, x) :: l2).*1 ->
  exists f', SetSheetName oldName newName f = Ret (tt, f') /\ lists_sheets f' (mk_sheet_list (l1 ++ (newName, x) :: l2) b).
Proof.
  intros Hs Hnew Hn. pose proof Hs as [[Hwb Hrels] Hh Hc [Hnd Ht] Hid Hrid]. cbn in Hh, Hid, Hrid.
  pose proof (absent_names _ _ _ _ Hh Hn) as Hfresh.
  apply Forall2_app_inv_r in Hh as (s1 & s2' & Hh1 & Hh2 & Es).
  apply Forall2_cons_inv_r in Hh2 as (v & s2 & (Hname & Hold & Hm & Hy) & Hh2 & ->). cbn in Hname, Hold, Hm, Hy.
  rewrite Es in *.
  assert (Forall (fun w => xlsxSheet_Name w <> oldName) (s1 ++ s2)) as Hother.
  { apply Forall_forall. intros w Hw. rewrite <- Hname. apply (fmap_middle_ne _ s1 v s2); [|done]. by apply (wc_names _ _ _ Hc). }
  unfold SetSheetName. rewrite Hold, Hnew. rewrite (bind_Ret _ _ _ _ _ (workbookReader_loaded _ _ Hwb)).
  rewrite (bind_Ret (gets File_sheetMap) _ f (File_sheetMap f) f) by done. rewrite Es, rename_loop_one by done.
  eexists. split; [done|]. exists (set_wb_sheets (s1 ++ (v <| xlsxSheet_Name := newName |>) :: s2) content), rels.
  assert (Forall (fun w => xlsxSheet_Name w <> newName) (s1 ++ s2)) as Hfresh'.
  { apply Forall_forall. intros w Hw. rewrite Forall_forall in Hfresh. apply Hfresh. by apply elem_of_middle. }
  assert (newName <> oldName) as Hne by (intros ->; apply Hn, list_elem_of_fmap; exists (oldName, x); split; [done|apply elem_of_app; right; by left]).
  unfold rename_in_map. rewrite Hm. split; [done| |by apply wb_consistent_rename| | |done].
  - cbn. assert (forall s l, Forall2 (holds f) s l -> Forall (fun w => xlsxSheet_Name w <> oldName) s ->
      Forall (fun w => xlsxSheet_Name w <> newName) s ->
      Forall2 (holds (f <| File_WorkBook := Some (set_wb_sheets (s1 ++ (v <| xlsxSheet_Name := newName |>) :: s2) content) |>
        <| File_sheetMap := delete oldName (<[newName:=sheet_path (xlsxSheet_SheetID v)]> (File_sheetMap f)) |>)) s l) as Hkeep.
    { induction 1 as [|w e s l (Hw & He & Hwm & Hwy) _ IH]; [done|]. intros [H1 H1']%Forall_cons [H2 H2']%Forall_cons.
      constructor; [|by apply IH]. split; [done|]. split; [done|]. split; [|done]. cbn.
      by rewrite lookup_delete_ne, lookup_insert_ne by congruence. }
    apply Forall_app in Hother as [Ho1 Ho2], Hfresh' as [Hf1 Hf2].
    apply Forall2_app; [by apply Hkeep|]. constructor; [|by apply Hkeep].
    split; [done|]. split; [done|]. split; [|done]. cbn. by rewrite lookup_delete_ne, lookup_insert_eq.
  - split; [done|]. intros n Hn1 Hin. apply Ht in Hin; [|done]. cbn. rewrite fmap_app, fmap_cons in Hin |- *. done.
  - change (max_sheetID (s1 ++ (v <| xlsxSheet_Name := newName |>) :: s2) <= b). by rewrite max_sheetID_rename.
Qed.

(** *** Changing the contents of sheets *)

Lemma listed_update f content rels l1 name x l2 b :
  sheets_shown f content rels (mk_sheet_list (l1 ++ (name, x) :: l2) b) ->
  exists v y, v ∈ wb_sheets content /\ xlsxSheet_Name v = name /\
    loaded f name (sheet_path (xlsxSheet_SheetID v)) y /\ same_but_views x y /\
    forall z y', same_but_views z y' ->
      sheets_shown (with_sheet f (sheet_path (xlsxSheet_SheetID v)) y') content rels (mk_sheet_list (l1 ++ (name, z) :: l2) b).
Proof.
  intros [Hl Hh Hc Ht Hid Hrid]. cbn in Hh. apply Forall2_app_inv_r in Hh as (s1 & s2' & Hh1 & Hh2 & Es).
  apply Forall2_cons_inv_r in Hh2 as (v & s2 & (Hname & Hvalid & Hm & y & Hy & Hxy) & Hh2 & ->). cbn in Hname, Hvalid, Hm, Hxy.
  exists v, y. split; [rewrite Es; apply elem_of_app; right; by left|]. split; [done|].
  split; [split; [by rewrite Hvalid|done]|]. split; [done|]. intros x' y' Hxy'.
  assert (forall w, w ∈ s1 ++ s2 -> sheet_path (xlsxSheet_SheetID w) <> sheet_path (xlsxSheet_SheetID v)) as Hne.
  { rewrite Es in Hc. assert (v ∈ s1 ++ v :: s2) as Hv by (apply elem_of_app; right; by left).
    intros w Hw E. pose proof (elem_of_middle s1 v s2 w Hw) as Hw'.
    apply sheet_path_inj in E; [|pose proof (wc_idx _ _ _ Hc w Hw'); lia|pose proof (wc_idx _ _ _ Hc v Hv); lia].
    apply (fmap_middle_ne xlsxSheet_Name s1 v s2 w); [apply (wc_names _ _ _ Hc)|done|]. f_equal. by apply (wc_inj _ _ _ Hc). }
  assert (forall s l, Forall2 (holds f) s l -> (forall w, w ∈ s -> w ∈ s1 ++ s2) ->
    Forall2 (holds (with_sheet f (sheet_path (xlsxSheet_SheetID v)) y')) s l) as Hkeep.
  { induction 1 as [|w e s l (Hw & He & Hwm & z & Hz & Hez) _ IH]; intros Hin; [done|].
    constructor; [|apply IH; intros u Hu; apply Hin; by right]. split; [done|]. split; [done|]. split; [done|]. exists z. split; [|done].
    cbn. rewrite lookup_insert_ne; [done|]. apply not_eq_sym, Hne, Hin. by left. }
  split; try done. cbn. rewrite Es. apply Forall2_app; [apply Hkeep; [done|]; intros w Hw; apply elem_of_app; by left|].
  constructor; [|apply Hkeep; [done|]; intros w Hw; apply elem_of_app; by right].
  split; [done|]. split; [done|]. split; [done|]. exists y'. split; [apply lookup_insert_eq|done].
Qed.

Lemma Forall2_impl_in {A B} (P Q : A -> B -> Prop) l k :
  Forall2 P l k -> (forall x y, x ∈ l -> P x y -> Q x y) -> Forall2 Q l k.
Proof.
  induction 1 as [|x y l k Hxy _ IH]; intros Hpq; [done|]. constructor; [apply Hpq; [by left|done]|].
  apply IH. intros u w Hu. apply Hpq. by right.
Qed.

(** A part other than the content types does not matter. *)
Lemma shown_with_part f content rels s k v :
  sheets_shown f content rels s -> k <> "[Content_Types].xml" -> sheets_shown (f <| File_XLSX ::= <[k := v]> |>) content rels s.
Proof.
  intros [Hl Hh Hc Ht Hid Hrid] Hk. split; try done.
  by rewrite shown_types_part.
Qed.

Lemma copied_sheet_views x y : deepcopy_ok -> same_but_views x y -> same_but_views (copied_sheet x) (copied_sheet y).
Proof.
  intros Hd E. unfold same_but_views, copied_sheet in *. rewrite !Hd.
  transitivity ((x <| xlsxWorksheet_SheetViews := gozero |>)
    <| xlsxWorksheet_Drawing := None |> <| xlsxWorksheet_TableParts := None |> <| xlsxWorksheet_PageSetUp := None |>); [done|].
  by rewrite E.
Qed.

Lemma unlink_sheet_views x y : same_but_views x y -> same_but_views (unlink_sheet x) (unlink_sheet y).
Proof.
  intros E. unfold same_but_views in *. transitivity (unlink_sheet (x <| xlsxWorksheet_SheetViews := gozero |>)); [done|].
  by rewrite E.
Qed.

(** A loop over sheets in memory that changes each on its own. *)
Lemma sheets_loop {R} (run : list (Z * string) -> M R) (r : R) (g : Z * string -> xlsxWorksheet -> xlsxWorksheet) :
  (forall f, run [] f = Ret (r, f)) ->
  (forall e l f x, loaded f e.2 (sheet_path e.1) x -> run (e :: l) f = run l (with_sheet f (sheet_path e.1) (g e x))) ->
  forall l f, NoDup l.*1 -> (forall e, e ∈ l -> 1 <= e.1 <= maxInt /\ exists x, loaded f e.2 (sheet_path e.1) x) ->
  exists f', run l f = Ret (r, f') /\ f' = f <| File_Sheet := File_Sheet f' |> /\
    (forall e x, e ∈ l -> loaded f e.2 (sheet_path e.1) x -> loaded f' e.2 (sheet_path e.1) (g e x)) /\
    (forall p, (forall e, e ∈ l -> p <> sheet_path e.1) -> File_Sheet f' !! p = File_Sheet f !! p).
Proof.
  intros Hnil Hcons l. induction l as [|e l IH]; intros f Hnd Hl.
  { exists f. split; [done|]. split; [by destruct f|]. split; [by intros e x ?%elem_of_nil|done]. }
  rewrite fmap_cons in Hnd. apply NoDup_cons in Hnd as [He Hnd].
  destruct (Hl e ltac:(by left)) as (Hpos & x & Hx). rewrite (Hcons e l f x Hx).
  set (f1 := with_sheet f (sheet_path e.1) (g e x)).
  assert (forall e', e' ∈ l -> sheet_path e'.1 <> sheet_path e.1) as Hne.
  { intros e' He' Ep. apply sheet_path_inj in Ep; [|destruct (Hl e' ltac:(by right)); lia|lia].
    apply He. rewrite <- Ep. by apply list_elem_of_fmap_2. }
  assert (forall e' y, e' ∈ l -> loaded f e'.2 (sheet_path e'.1) y -> loaded f1 e'.2 (sheet_path e'.1) y) as Hkeep.
  { intros e' y He' [Hm Hy]. split; [done|]. cbn. rewrite lookup_insert_ne; [done|]. by apply not_eq_sym, Hne. }
  destruct (IH f1 Hnd) as (f2 & E2 & Hf2 & Hin & Hout).
  { intros e' He'. destruct (Hl e' ltac:(by right)) as (Hp & y & Hy). split; [done|]. exists y. by apply Hkeep. }
  exists f2. split; [exact E2|]. split; [rewrite Hf2; by destruct f|]. split.
  - intros e' y [->|He']%elem_of_cons Hy; [|by apply Hin, Hkeep].
    destruct Hy as [Hm Hy], Hx as [_ Hx]. rewrite Hy in Hx. injection Hx as ->. split; [by rewrite Hf2|].
    rewrite Hout by (intros e' He'; by apply not_eq_sym, Hne). apply lookup_insert_eq.
  - intros p Hp. rewrite Hout by (intros e' He'; apply Hp; by right). cbn. rewrite lookup_insert_ne; [done|].
    apply not_eq_sym, Hp. by left.
Qed.

(** The entries that [range] visits are the sheets with their numbers. *)
Lemma range_sheet_map f content rels s e :
  range_map_ok -> sheets_shown f content rels s ->
  e ∈ range_map (sheet_map_of (wb_sheets content) (xlsxWorkbookRels_Relationships rels)) <->
  exists v, v ∈ wb_sheets content /\ e = (xlsxSheet_SheetID v, xlsxSheet_Name v).
Proof.
  intros Hr [_ _ Hc _ _ _]. rewrite (Hr _ _ _ _ (sheet_map_of _ _)). destruct e as [n name]. rewrite elem_of_map_to_list. split.
  - intros Hn. by apply sheet_map_of_entries, (sheet_map_entries_consistent _ _ _ Hc) in Hn.
  - intros (v & Hv & [= -> ->]). by apply (sheet_map_of_consistent _ _ _ Hc).
Qed.

Lemma range_sheet_map_NoDup content rels :
  range_map_ok -> NoDup (range_map (sheet_map_of (wb_sheets content) (xlsxWorkbookRels_Relationships rels))).*1.
Proof. intros Hr. rewrite (Hr _ _ _ _ (sheet_map_of _ _)). apply NoDup_fst_map_to_list. Qed.

Lemma range_sheet_map_loaded f content rels s e :
  range_map_ok -> sheets_shown f content rels s ->
  e ∈ range_map (sheet_map_of (wb_sheets content) (xlsxWorkbookRels_Relationships rels)) ->
  1 <= e.1 <= maxInt /\ exists x, loaded f e.2 (sheet_path e.1) x.
Proof.
  intros Hr Hs (w & Hw & ->)%(range_sheet_map f content rels s _ Hr Hs). pose proof Hs as [_ Hh Hc _ _ _].
  split; [by apply (wc_idx _ _ _ Hc)|]. apply list_elem_of_lookup in Hw as [j Hj].
  destruct (Forall2_lookup_l _ _ _ _ _ Hh Hj) as ([m y'] & _ & Hn & Hvalid & Hm & y & Hy & _).
  cbn in *. exists y. split; [by rewrite Hn, Hvalid|done].
Qed.

(** Dropping the values of the formulas of every sheet. *)
Lemma UpdateLinkedValue_listed f content rels l b :
  range_map_ok -> sheets_shown f content rels (mk_sheet_list l b) ->
  exists f', UpdateLinkedValue f = Ret (None, f') /\
    sheets_shown f' content rels (mk_sheet_list (refreshed_entry <$> l) b).
Proof.
  intros Hr Hs. pose proof Hs as [Hl Hh Hc Ht Hid Hrid]. unfold UpdateLinkedValue.
  rewrite (bind_Ret _ _ _ _ _ (GetSheetMap_loaded _ _ _ Hl)).
  destruct (sheets_loop (fun l => forRet l (fun e => p ← workSheetReader e.2;
      match p with
      | (_, Some err) => mret (Some (Some err))
      | (p, None) => update p unlink_sheet;; mret None
      end)) None (fun _ => unlink_sheet) (fun _ => eq_refl)) with
    (l := range_map (sheet_map_of (wb_sheets content) (xlsxWorkbookRels_Relationships rels))) (f := f)
    as (f' & E & Hf' & Hin & _).
  - intros e k g x Hx. cbn [forRet]. pose proof (update_sheet_loaded g e.2 _ x unlink_sheet Hx) as Eu.
    rewrite (bind_Ret _ _ g None (with_sheet g (sheet_path e.1) (unlink_sheet x))); [done|].
    rewrite (bind_Ret _ _ _ _ _ (workSheetReader_loaded _ _ _ _ Hx)) in Eu. cbn [fst] in Eu.
    rewrite (bind_Ret _ _ _ _ _ (workSheetReader_loaded _ _ _ _ Hx)). cbn. by rewrite (bind_Ret _ _ _ _ _ Eu).
  - by apply range_sheet_map_NoDup.
  - intros e. by apply (range_sheet_map_loaded f content rels (mk_sheet_list l b)).
  - exists f'. rewrite (bind_Ret _ _ _ _ _ E). split; [done|]. split; [by rewrite Hf'| |done|by rewrite Hf'|done|done].
    cbn in Hh |- *. apply Forall2_fmap_r. eapply Forall2_impl_in; [exact Hh|].
    intros v e Hin' (Hn & Hv & Hm & y & Hy & Hxy). split; [done|]. split; [done|]. split; [by rewrite Hf'|].
    exists (unlink_sheet y). split; [|by apply unlink_sheet_views].
    apply (Hin (xlsxSheet_SheetID v, xlsxSheet_Name v)).
    + apply (range_sheet_map f content rels (mk_sheet_list l b) _ Hr Hs). by exists v.
    + split; [|done]. cbn. by rewrite Hn, Hv.
Qed.

(** ** The refinement *)

Lemma listed_index f content rels s k name x :
  sheets_shown f content rels s -> sl_sheets s !! k = Some (name, x) ->
  exists v, wb_sheets content !! k = Some v /\ xlsxSheet_Name v = name /\
    GetSheetIndex name f = Ret (xlsxSheet_SheetID v, f) /\ GetSheetName (xlsxSheet_SheetID v) f = Ret (name, f) /\
    1 <= xlsxSheet_SheetID v.
Proof.
  intros [Hl Hh Hc _ _ _] Hk. destruct (Forall2_lookup_r _ _ _ _ _ Hh Hk) as (v & Hv & Hname & _). cbn in Hname.
  exists v. split; [done|]. split; [done|]. apply list_elem_of_lookup_2 in Hv as Hin.
  unfold GetSheetIndex, GetSheetName. rewrite !(bind_Ret _ _ _ _ _ (sheets_and_rels_loaded _ _ _ Hl)). cbn [fst snd].
  rewrite <- Hname, (sheet_index_of_consistent _ _ _ Hc), (sheet_name_of_consistent _ _ _ Hc) by done.
  split; [done|]. split; [done|]. by apply (wc_idx _ _ _ Hc).
Qed.

Lemma NewSheet_listed f content rels s name :
  sheets_shown f content rels s -> name ∈ (sl_sheets s).*1 -> NewSheet name f = Ret (File_SheetCount f, f).
Proof.
  intros Hs ([n x] & -> & [k Hk]%list_elem_of_lookup)%list_elem_of_fmap. destruct (listed_index _ _ _ _ _ _ _ Hs Hk) as (v & _ & _ & E & _ & Hpos).
  cbn [fst]. unfold NewSheet. rewrite (bind_Ret _ _ _ _ _ E). by destruct (xlsxSheet_SheetID v =? 0) eqn:E0; [lia|].
Qed.

Lemma listed_index_of f content rels s name x :
  sheets_shown f content rels s -> (name, x) ∈ sl_sheets s ->
  exists v, v ∈ wb_sheets content /\ xlsxSheet_Name v = name /\
    GetSheetIndex name f = Ret (xlsxSheet_SheetID v, f) /\ GetSheetName (xlsxSheet_SheetID v) f = Ret (name, f) /\
    1 <= xlsxSheet_SheetID v.
Proof.
  intros Hs [k Hk]%list_elem_of_lookup. destruct (listed_index _ _ _ _ _ _ _ Hs Hk) as (v & Hv & ?).
  exists v. split; [by eapply list_elem_of_lookup_2|done].
Qed.

(** A valid name is not empty, and neither is a listed one. *)
Lemma listed_nonempty f content rels s name x :
  sheets_shown f content rels s -> (name, x) ∈ sl_sheets s -> exists path y, loaded f name path y /\ same_but_views x y.
Proof.
  destruct s as [l b]. cbn [sl_sheets]. intros Hs (l1 & l2 & ->)%list_elem_of_split.
  destruct (listed_update _ _ _ _ _ _ _ _ Hs) as (v & y & _ & _ & Hl & Hxy & _). by exists (sheet_path (xlsxSheet_SheetID v)), y.
Qed.

(** Copying the sheet of one name over that of another. *)
Lemma CopySheet_listed f content rels l1 to y l2 b from x :
  deepcopy_ok -> sheets_shown f content rels (mk_sheet_list (l1 ++ (to, y) :: l2) b) -> (from, x) ∈ l1 ++ l2 ->
  from <> "" -> to <> "" ->
  exists f', run_sheet_op (CopyOp from to) f = Ret (None, f') /\
    sheets_shown f' content rels (mk_sheet_list (l1 ++ (to, copied_sheet x) :: l2) b).
Proof.
  intros Hd Hs Hin Hfrom Hto. pose proof (listed_NoDup _ _ _ _ Hs) as Hnd. cbn in Hnd.
  assert (from <> to) as Hne by by apply (fmap_middle_ne fst l1 (to, y) l2 (from, x)).
  assert ((from, x) ∈ l1 ++ (to, y) :: l2) as Hin' by by apply elem_of_middle.
  destruct (listed_index_of _ _ _ _ _ _ Hs Hin') as (v & Hv & Hvn & Ev & En & Hpos).
  destruct (listed_nonempty _ _ _ _ _ _ Hs Hin') as (path & x0 & Hx0 & Hxx).
  destruct (listed_index_of _ _ _ _ to y Hs) as (w & Hw & Hwn & Ew & Em & Hpos'); [apply elem_of_app; right; by left|].
  destruct (listed_update _ _ _ _ _ _ _ _ Hs) as (w' & y0 & Hw' & Hwn' & Hy0 & _ & Hnext).
  assert (w' = w) as ->.
  { apply (NoDup_fmap_inj xlsxSheet_Name (wb_sheets content)); [apply (wc_names _ _ _ (ss_consistent _ _ _ _ Hs))|done..|congruence]. }
  specialize (Hnext (copied_sheet x) (copied_sheet x0) (copied_sheet_views _ _ Hd Hxx)).
  set (f1 := with_sheet f (sheet_path (xlsxSheet_SheetID w)) (copied_sheet x0)) in *.
  cbn [run_sheet_op]. rewrite (bind_Ret _ _ _ _ _ Ev), (bind_Ret _ _ _ _ _ Ew). unfold CopySheet.
  assert (xlsxSheet_SheetID v <> xlsxSheet_SheetID w) as Hij by (intros E; rewrite E in En; congruence).
  replace ((xlsxSheet_SheetID v <? 1) || (xlsxSheet_SheetID w <? 1) || (xlsxSheet_SheetID v =? xlsxSheet_SheetID w)) with false by lia.
  rewrite (bind_Ret _ _ _ _ _ En), bool_decide_eq_false_2 by done.
  rewrite (bind_Ret _ _ _ _ _ Em), bool_decide_eq_false_2 by done.
  unfold copySheet. rewrite (bind_Ret _ _ _ _ _ En), (bind_Ret _ _ _ _ _ (workSheetReader_loaded _ _ _ _ Hx0)). cbn [fst snd].
  rewrite (bind_Ret _ _ _ _ _ (deref_loaded _ _ _ (proj2 Hx0))), (bind_Ret (modify _) _ f tt f1) by done.
  rewrite (bind_Ret get _ f1 f1 f1) by done. destruct (File_XLSX f1 !! _) as [c|]; [|by exists f1].
  eexists. split; [done|]. by apply shown_with_part.
Qed.

Lemma sheet_step_simulated f s op s' :
  range_map_ok -> deepcopy_ok -> lists_sheets f s -> sheet_step s op s' ->
  exists f', run_sheet_op op f = Ret (None, f') /\ lists_sheets f' s'.
Proof.
  intros Hr Hd (content & rels & Hs) Hstep. destruct Hstep; cbn [run_sheet_op].
  - destruct (NewSheet_absent f content rels _ name Hr Hs) as (f1 & content1 & Hs1 & _ & E); [done..|].
    rewrite (bind_Ret _ _ _ _ _ E). eexists. split; [done|]. by apply with_new_sheet_shown.
  - rewrite (bind_Ret _ _ _ _ _ (NewSheet_listed _ _ _ _ _ Hs ltac:(done))). exists f. split; [done|by eexists _, _].
  - destruct (DeleteSheet_present f content rels l1 name x l2 b Hr Hs) as (f' & E & Hs'); [done|].
    rewrite (bind_Ret _ _ _ _ _ E). by exists f'.
  - destruct (DeleteSheet_none f content rels _ name Hr Hs) as (f' & content' & E & Hs' & _); [by right; cbn; lia|].
    rewrite (bind_Ret _ _ _ _ _ E). exists f'. split; [done|by eexists _, _].
  - destruct (DeleteSheet_none f content rels _ name Hr Hs) as (f' & content' & E & Hs' & _); [left; congruence|].
    rewrite (bind_Ret _ _ _ _ _ E). exists f'. split; [done|by eexists _, _].
  - destruct (SetSheetName_listed f content rels l1 oldName x l2 newName b Hs) as (f' & E & Hs'); [done..|].
    rewrite (bind_Ret _ _ _ _ _ E). by exists f'.
  - destruct (SetActiveSheet_ok f content rels _ index Hr Hs) as (f' & content' & E & Hs' & _).
    rewrite (bind_Ret _ _ _ _ _ E). exists f'. split; [done|by eexists _, _].
  - destruct (CopySheet_listed f content rels l1 to y l2 b from x Hd Hs) as (f' & E & Hs'); [done..|].
    exists f'. split; [done|by eexists _, _].
  - destruct (UpdateLinkedValue_listed f content rels l b Hr Hs) as (f' & E & Hs'). exists f'. split; [done|by eexists _, _].
Qed.

(** The calls one after the other, until one returns an error. *)
Fixpoint run_sheet_ops (ops : list sheet_op) : M (option goerr) :=
  match ops with
  | [] => mret None
  | op :: ops' => try! run_sheet_op op in run_sheet_ops ops'
  end.

Lemma sheet_steps_simulated f s ops s' :
  range_map_ok -> deepcopy_ok -> lists_sheets f s -> sheet_steps s ops s' ->
  exists f', run_sheet_ops ops f = Ret (None, f') /\ lists_sheets f' s'.
Proof.
  intros Hr Hd Hs Hsteps. revert f Hs. induction Hsteps as [s|s op s1 ops s2 Hstep _ IH]; intros f Hs; [by exists f|].
  destruct (sheet_step_simulated f s op s1 Hr Hd Hs Hstep) as (f1 & E1 & Hs1). destruct (IH f1 Hs1) as (f2 & E2 & Hs2).
  exists f2. split; [|done]. cbn [run_sheet_ops]. by rewrite (bind_Ret _ _ _ _ _ E1).
Qed.

(** C4. Any sequence of additions, deletions, renamings, activations and copies of
    sheets, and of drops of the values of formulas, that the
    abstract list allows succeeds, and the workbook then has exactly the sheets
    of the resulting list, in its order: the index of a name leads back to the
    name, its worksheet is in memory and has the content of the entry except for
    the views, and any other name has the index 0, which means that there is no
    such sheet. *)
Theorem sheets_refinement f s ops s' :
  range_map_ok -> deepcopy_ok -> lists_sheets f s -> sheet_steps s ops s' ->
  exists f', run_sheet_ops ops f = Ret (None, f') /\ lists_sheets f' s' /\
    (exists content, File_WorkBook f' = Some content /\ xlsxSheet_Name <$> wb_sheets content = (sl_sheets s').*1) /\
    (forall name x, (name, x) ∈ sl_sheets s' ->
      exists i path y, GetSheetIndex name f' = Ret (i, f') /\ 1 <= i /\ GetSheetName i f' = Ret (name, f') /\
        workSheetReader name f' = Ret (ok (Some path), f') /\ File_Sheet f' !! path = Some y /\ same_but_views x y) /\
    (forall name, name ∉ (sl_sheets s').*1 -> GetSheetIndex name f' = Ret (0, f')).
Proof.
  intros Hr Hd Hs Hsteps. destruct (sheet_steps_simulated f s ops s' Hr Hd Hs Hsteps) as (f' & E & Hs').
  exists f'. split; [done|]. split; [done|]. destruct Hs' as (content & rels & Hs'). pose proof Hs' as [[Hwb _] Hh _ _ _ _].
  split; [exists content; split; [done|by apply (held_names f')]|]. split.
  - intros name x [k Hk]%list_elem_of_lookup. destruct (listed_index _ _ _ _ _ _ _ Hs' Hk) as (v & Hv & Hname & E1 & E2 & Hpos).
    destruct (Forall2_lookup_lr _ _ _ _ _ _ Hh Hv Hk) as (_ & Hvalid & Hm & y & Hy & Hxy). cbn in Hvalid, Hm.
    exists (xlsxSheet_SheetID v), (sheet_path (xlsxSheet_SheetID v)), y. split_and!; try done.
    apply (workSheetReader_loaded _ _ _ y). by split; [rewrite Hvalid|].
  - intros name Hn. by apply (GetSheetIndex_absent f' content rels s').
Qed.

(** ** The active sheet *)

Lemma forM_select_each index (l : list (Z * string)) f :
  NoDup l.*1 -> (forall e, e ∈ l -> 1 <= e.1 <= maxInt /\ exists x, loaded f e.2 (sheet_path e.1) x) ->
  exists g, forM l (fun e => p ← workSheetReader e.2; update p.1 (select_sheet (index =? e.1))) f = Ret (tt, g) /\
    g = f <| File_Sheet := File_Sheet g |> /\
    (forall e x, e ∈ l -> loaded f e.2 (sheet_path e.1) x -> loaded g e.2 (sheet_path e.1) (select_sheet (index =? e.1) x)) /\
    (forall p, (forall e, e ∈ l -> p <> sheet_path e.1) -> File_Sheet g !! p = File_Sheet f !! p).
Proof.
  apply (sheets_loop (fun l => forM l _) tt (fun e => select_sheet (index =? e.1)) (fun _ => eq_refl)).
  intros e k g x Hx. cbn [forM]. by rewrite (bind_Ret _ _ _ _ _ (update_sheet_loaded g e.2 _ x _ Hx)).
Qed.

(** The tab that is shown. *)
Definition active_tab (wb : xlsxWorkbook) : option Z :=
  xlsxWorkBookView_ActiveTab <$> head (xlsxBookViews_WorkBookView (xlsxWorkbook_BookViews wb)).

Lemma activate_tab_position index k v wb :
  wb_sheets wb !! k = Some v -> (forall j w, wb_sheets wb !! j = Some w -> xlsxSheet_SheetID w = index <-> j = k) ->
  active_tab (activate_tab index wb) = Some (Z.of_nat k).
Proof.
  intros Hk Hone. unfold activate_tab.
  assert (forall (l : list (nat * xlsxSheet)) w, (forall p, p ∈ l -> xlsxSheet_SheetID p.2 = index <-> p.1 = k) ->
    active_tab w = Some (Z.of_nat k) \/ (exists p, p ∈ l /\ p.1 = k) ->
    active_tab (foldl (fun wb p =>
      if xlsxSheet_SheetID p.2 =? index then
        wb <| xlsxWorkbook_BookViews ::= fun bv => bv <| xlsxBookViews_WorkBookView ::= fun l =>
          match l with
          | w :: l' => (w <| xlsxWorkBookView_ActiveTab := Z.of_nat p.1 |>) :: l'
          | [] => [(gozero : xlsxWorkBookView) <| xlsxWorkBookView_ActiveTab := Z.of_nat p.1 |>]
          end |> |>
      else wb) w l) = Some (Z.of_nat k)) as Hfold.
  { induction l as [|[j w0] l IH]; intros w Hl Hor; [by destruct Hor as [?|(p & []%elem_of_nil & _)]|].
    cbn [foldl fst snd]. apply IH; [intros p Hp; apply Hl; by right|]. specialize (Hl (j, w0) ltac:(by left)). cbn in Hl.
    destruct (xlsxSheet_SheetID w0 =? index) eqn:E.
    - left. assert (j = k) as -> by (apply Hl; lia). unfold active_tab. cbn. by destruct (xlsxBookViews_WorkBookView _).
    - destruct Hor as [?|(p & [->|Hp]%elem_of_cons & Ep)]; [by left| |right; by exists p]. cbn in Ep. apply Hl in Ep. lia. }
  apply Hfold.
  - intros [j w] Hp. apply elem_of_lookup_imap in Hp as (j' & w' & [= -> ->] & Hw). by apply Hone.
  - right. exists (k, v). split; [|done]. apply elem_of_lookup_imap. by exists k, v.
Qed.

Lemma selected_view b x : (length (sheet_views x) <= 1)%nat -> existsb xlsxSheetView_TabSelected (sheet_views (select_sheet b x)) = b.
Proof.
  unfold select_sheet, set_views, sheet_views. cbn. destruct (xlsxSheetViews_SheetView _) as [|v [|w l]]; cbn; [by destruct b|by rewrite orb_false_r|lia].
Qed.

Lemma forRet_selected index n (l : list (Z * string)) g :
  (forall e, e ∈ l -> exists x, loaded g e.2 (sheet_path e.1) x /\ existsb xlsxSheetView_TabSelected (sheet_views x) = (index =? e.1)) ->
  (exists e, e ∈ l /\ e.1 = index) -> n = index ->
  forRet l (fun e => p ← workSheetReader e.2; xlsx ← deref p.1;
    mret (if existsb xlsxSheetView_TabSelected (sheet_views xlsx) then Some e.1 else None)) g = Ret (Some n, g).
Proof.
  intros Hl Hex ->. induction l as [|e l IH]; [by destruct Hex as (e & []%elem_of_nil & _)|]. cbn [forRet].
  destruct (Hl e ltac:(by left)) as (x & Hx & Hb).
  rewrite (bind_Ret _ _ g (if index =? e.1 then Some e.1 else None) g).
  2:{ rewrite (bind_Ret _ _ _ _ _ (workSheetReader_loaded _ _ _ _ Hx)). cbn [fst].
      rewrite (bind_Ret _ _ _ _ _ (deref_loaded _ _ _ (proj2 Hx))). by rewrite Hb. }
  destruct (index =? e.1) eqn:E; [by apply Z.eqb_eq in E as ->|]. apply IH; [intros e' He'; apply Hl; by right|].
  destruct Hex as (e' & [->|He']%elem_of_cons & Ee); [lia|by exists e'].
Qed.

(** C38. Activating a sheet by its index: it is the one that [GetActiveSheetIndex]
    finds afterwards, and its tab is the one that is shown, when no worksheet has
    more than one view. The index is that of [GetSheetMap], which [GetSheetIndex]
    looks the name up in, and every sheet of the list can be activated, the last
    one too; the comment of the code has another index, less than the number of
    sheets. *)
Theorem SetActiveSheet_active f content rels s k name x :
  range_map_ok -> sheets_shown f content rels s -> sl_sheets s !! k = Some (name, x) ->
  (forall path y, File_Sheet f !! path = Some y -> (length (sheet_views y) <= 1)%nat) ->
  exists index f' content', GetSheetIndex name f = Ret (index, f) /\ SetActiveSheet index f = Ret (tt, f') /\
    GetActiveSheetIndex f' = Ret (index, f') /\ File_WorkBook f' = Some content' /\ active_tab content' = Some (Z.of_nat k).
Proof.
  intros Hr Hs Hk Hviews. destruct (listed_index _ _ _ _ _ _ _ Hs Hk) as (v & Hv & Hname & Ei & _ & Hpos).
  exists (xlsxSheet_SheetID v). set (index := xlsxSheet_SheetID v) in *. pose proof Hs as [[Hwb Hrels] Hh Hc _ _ _].
  set (l := range_map (sheet_map_of (wb_sheets content) (xlsxWorkbookRels_Relationships rels))).
  set (content' := activate_tab index content). set (f1 := f <| File_WorkBook := Some content' |>).
  assert (wb_loaded f1 content' rels) as Hl1 by done.
  assert (wb_sheets content' = wb_sheets content) as Esh by apply activate_tab_sheets.
  assert (forall e, e ∈ l -> 1 <= e.1 <= maxInt /\ exists x, loaded f1 e.2 (sheet_path e.1) x /\ (length (sheet_views x) <= 1)%nat) as Hl.
  { intros e (w & Hw & ->)%(range_sheet_map f content rels s _ Hr Hs). split; [by apply (wc_idx _ _ _ Hc)|].
    apply list_elem_of_lookup in Hw as [j Hj]. destruct (Forall2_lookup_l _ _ _ _ _ Hh Hj) as ([m y'] & _ & Hn & Hvalid & Hm & y & Hy & _).
    cbn in *. exists y. split; [|by eapply Hviews]. split; [by rewrite Hn, Hvalid|done]. }
  assert (NoDup l.*1) as Hnd by by apply range_sheet_map_NoDup.
  destruct (forM_select_each index l f1 Hnd) as (g & Eg & Hg & Hin & _).
  { intros e He. destruct (Hl e He) as (Hp & y & Hy & _). eauto. }
  assert (SetActiveSheet index f = Ret (tt, g)) as E.
  { unfold SetActiveSheet. assert ((if index <? 1 then 1 else index) = index) as -> by (destruct (index <? 1) eqn:?; lia).
    rewrite (bind_Ret _ _ _ _ _ (workbookReader_loaded _ _ Hwb)), (bind_Ret (set_workbook content') _ f tt f1) by done.
    rewrite (bind_Ret _ _ _ _ _ (GetSheetMap_loaded _ _ _ Hl1)), Esh. exact Eg. }
  exists g, content'. split; [exact Ei|]. split; [exact E|]. assert (wb_loaded g content' rels) as Hlg by (rewrite Hg; done). split; [|split].
  - unfold GetActiveSheetIndex. rewrite (bind_Ret _ _ _ _ _ (GetSheetMap_loaded _ _ _ Hlg)), Esh. fold l.
    rewrite (bind_Ret _ _ g (Some index) g); [done|]. apply (forRet_selected index); [|exists (index, xlsxSheet_Name v); split; [|done]|done].
    + intros e He. destruct (Hl e He) as (_ & y & Hy & Hlen). exists (select_sheet (index =? e.1) y).
      split; [by apply Hin|by apply selected_view].
    + apply (range_sheet_map f content rels s _ Hr Hs). exists v. split; [by eapply list_elem_of_lookup_2|done].
  - apply Hlg.
  - apply (activate_tab_position index k v); [done|]. intros j w Hw. split; [|intros ->; rewrite Hv in Hw; by injection Hw as ->].
    intros Ew. assert (w = v) as -> by (apply (wc_inj _ _ _ Hc); [by eapply list_elem_of_lookup_2..|done]).
    pose proof (wc_names _ _ _ Hc) as Hnd'. rewrite NoDup_alt in Hnd'. apply (Hnd' j k (xlsxSheet_Name v)); by rewrite list_lookup_fmap, ?Hw, ?Hv.
Qed.

End sheets.

(** ** Witness *)

Definition example_sheet_list : sheet_list xlsxWorksheet := mk_sheet_list [("Sheet1", gozero)] 1.

Lemma example_lists x : lists_sheets (H := example_env) (example_file x) (mk_sheet_list [("Sheet1", x)] 1).
Proof.
  eexists _, _. split; [by split| | | |by vm_compute|by vm_compute].
  - constructor; [|constructor]. split; [done|]. split; [done|]. split; [done|]. by exists x.
  - split; try by apply (bool_decide_unpack _).
    + intros v ->%list_elem_of_singleton. eexists. split; [by left|done].
    + intros v ->%list_elem_of_singleton. cbn. unfold maxInt. lia.
    + by intros v w ->%list_elem_of_singleton ->%list_elem_of_singleton.
  - split; [constructor|]. intros n _ Hin. vm_compute in Hin. by apply elem_of_nil in Hin.
Defined.

Lemma example_lists_sheets : lists_sheets (H := example_env) (example_file gozero) example_sheet_list.
Proof. apply (example_lists gozero). Defined.

Lemma SetActiveSheet_active_witness :
  exists f', SetActiveSheet (H := example_env) 1 (example_file gozero) = Ret (tt, f') /\
    GetActiveSheetIndex (H := example_env) f' = Ret (1, f').
Proof.
  destruct example_lists_sheets as (content & rels & Hs).
  destruct (@SetActiveSheet_active example_env _ _ _ _ 0%nat "Sheet1" gozero example_env_range Hs eq_refl)
    as (index & f' & _ & Ei & E & E' & _).
  - intros path y Hy. cbn in Hy. rewrite lookup_insert_Some in Hy. destruct Hy as [[_ <-]|[_ Hy]]; [cbn; lia|].
    by rewrite lookup_empty in Hy.
  - assert (index = 1) as ->; [|exists f'; split; [exact E|exact E']].
    vm_compute in Ei. congruence.
Defined.

(** A sheet with a formula, its value and a name of its own. *)
Definition formula_sheet : xlsxWorksheet :=
  set_rows [(gozero : xlsxRow) <| xlsxRow_R := 1 |> <| xlsxRow_C := [(gozero : xlsxC) <| xlsxC_R := "A1" |> <| xlsxC_V := "7" |>
    <| xlsxC_F := Some ((gozero : xlsxF) <| xlsxF_Content := "3+4" |>) |>] |>] gozero.

Definition formula_sheet_list : sheet_list xlsxWorksheet := mk_sheet_list [("Sheet1", formula_sheet)] 1.

Lemma formula_lists_sheets : lists_sheets (H := example_env) (example_file formula_sheet) formula_sheet_list.
Proof. apply (example_lists formula_sheet). Defined.

Definition example_ops : list sheet_op :=
  [NewOp "Data"; RenameOp "Sheet1" "Main"; NewOp "Tmp"; CopyOp "Main" "Tmp"; DeleteOp "Data"; NewOp "Tmp"; RefreshOp; ActivateOp 3].

(** Both sheets have the formula and no value at the end. *)
Definition example_ops_result : sheet_list xlsxWorksheet :=
  mk_sheet_list [("Main", unlink_sheet formula_sheet); ("Tmp", unlink_sheet (copied_sheet (H := example_env) formula_sheet))] 3.

Lemma example_ops_steps :
  sheet_steps (H := worksheet_content (H := example_env)) formula_sheet_list example_ops example_ops_result.
Proof.
  econstructor; [apply step_new; [done|by apply (bool_decide_unpack _)|done]|].
  econstructor; [apply (step_rename []); [done|by apply (bool_decide_unpack _)]|].
  econstructor; [apply step_new; [done|by apply (bool_decide_unpack _)|done]|].
  econstructor; [apply (step_copy [_; _] _ _ []); [by left|done|done]|].
  econstructor; [by apply (step_delete [_])|].
  econstructor; [apply step_new_existing; by right; left|].
  econstructor; [apply step_refresh|]. econstructor; [apply step_activate|]. constructor.
Defined.

(** What a call returns after a run. *)
Definition after {A B} (o : outcome (A * File)) (m : M B) : option B :=
  match o with Ret (_, f) => returned (m f) | Panic => None end.

Lemma sheets_refinement_witness :
  exists f', run_sheet_ops (H := example_env) example_ops (example_file formula_sheet) = Ret (None, f') /\
    lists_sheets (H := example_env) f' example_ops_result /\
    returned (GetCellValue (H := example_env) "Tmp" "A1" f') = Some (ok "") /\
    returned (GetCellFormula (H := example_env) "Tmp" "A1" f') = Some (ok "3+4").
Proof.
  destruct (@sheets_refinement example_env _ _ _ _ example_env_range (fun _ => eq_refl) formula_lists_sheets example_ops_steps)
    as (f' & E & Hs & _).
  exists f'. split; [exact E|]. split; [exact Hs|]. split.
  - change (returned (GetCellValue (H := example_env) "Tmp" "A1" f')) with
      (after (Ret (None : option goerr, f')) (GetCellValue (H := example_env) "Tmp" "A1")).
    rewrite <- E. vm_compute. reflexivity.
  - change (returned (GetCellFormula (H := example_env) "Tmp" "A1" f')) with
      (after (Ret (None : option goerr, f')) (GetCellFormula (H := example_env) "Tmp" "A1")).
    rewrite <- E. vm_compute. reflexivity.
Defined.

(** ** Where the numbers disagree

    The relation asks that a sheet's number is the number of its part. A file that
    another program wrote need not be like that, and the operations take the
    number of the sheet for the one of the part. *)

(** A worksheet to recognise. *)
Definition marked : xlsxWorksheet := (gozero : xlsxWorksheet) <| xlsxWorksheet_Dimension := mk_xlsxDimension "A1:B2" |>.

(** A file with these sheets: their name, number, part and worksheet. *)
Definition numbered_file (l : list (string * Z * Z * xlsxWorksheet)) : File :=
  (example_file gozero)
    <| File_sheetMap := list_to_map ((fun '(name, _, part, _) => (name, sheet_path part)) <$> l) |>
    <| File_Sheet := list_to_map ((fun '(_, _, part, x) => (sheet_path part, x)) <$> l) |>
    <| File_WorkBook := Some (set_wb_sheets
         ((fun '(name, n, part, _) => mk_xlsxSheet name n ("rId" +:+ strconv_Itoa part) "") <$> l) gozero) |>
    <| File_WorkBookRels := Some (gozero <| xlsxWorkbookRels_Relationships :=
         (fun '(_, _, part, _) => mk_xlsxWorkbookRelation ("rId" +:+ strconv_Itoa part)
            ("worksheets/sheet" +:+ strconv_Itoa part +:+ ".xml") SourceRelationshipWorkSheet "") <$> l |>) |>.

(** The sheets that the workbook lists after a run, each with the dimension of the
    worksheet that its name leads to. *)
Definition listed_after {A} (m : M A) (f : File) : option (list (string * option string)) :=
  match m f with
  | Ret (_, f') => Some ((fun v => (xlsxSheet_Name v,
      (fun x => xlsxDimension_Ref (xlsxWorksheet_Dimension x)) <$>
        (File_sheetMap f' !! xlsxSheet_Name v ≫= fun p => File_Sheet f' !! p))) <$>
      match File_WorkBook f' with Some content => wb_sheets content | None => [] end)
  | Panic => None
  end.

(** Deleting the sheet [A], with the number 2 and the part 1, takes the content of
    [B], with the number 1 and the part 2; and a new sheet takes the part 2 of the
    sheet [A] whose number is 1. Both names lead to an empty worksheet then. *)
Theorem DeleteSheet_NewSheet_wrong_part :
  listed_after (DeleteSheet (H := example_env) "A") (numbered_file [("A", 2, 1, gozero); ("B", 1, 2, marked)]) =
    Some [("B", Some "")] /\
  listed_after (DeleteSheet (H := example_env) "A") (numbered_file [("A", 1, 1, gozero); ("B", 2, 2, marked)]) =
    Some [("B", Some "A1:B2")] /\
  listed_after (NewSheet (H := example_env) "B") (numbered_file [("A", 1, 2, marked)]) = Some [("A", Some "A1"); ("B", Some "A1")] /\
  listed_after (NewSheet (H := example_env) "B") (numbered_file [("A", 2, 2, marked)]) = Some [("A", Some "A1:B2"); ("B", Some "A1")].
Proof. vm_compute. repeat split. Qed.

(** The name is looked up as it is given and stored shortened, so that a sheet with
    a name of more than 31 characters is not found: the second call deletes the
    sheet of the first, with its content. *)
Theorem NewSheet_twice_long_name :
  let name := "A name of a sheet with too many characters" in
  listed_after (NewSheet (H := example_env) name;; p ← workSheetReader (H := example_env) name; update p.1 (fun _ => marked))
    (example_file gozero) = Some [("Sheet1", Some ""); ("A name of a sheet with too many", Some "A1:B2")] /\
  listed_after (NewSheet (H := example_env) name;; (p ← workSheetReader (H := example_env) name; update p.1 (fun _ => marked));;
    NewSheet (H := example_env) name)
    (example_file gozero) = Some [("Sheet1", Some ""); ("A name of a sheet with too many", Some "A1")].
Proof. vm_compute. repeat split. Qed.

(** [CopySheet] copies the part with the relationships of the sheet, but not the
    relationships in memory, where a link to an address is until the file is
    saved: the copy refers to a relationship that it does not have. *)
Theorem CopySheet_loses_links :
  let link name := after ((SetCellHyperLink (H := example_env) "Sheet1" "A1" "https://x.org" "External";;
    NewSheet (H := example_env) "Copy";; CopySheet (H := example_env) 1 2) (example_file gozero)) (GetCellHyperLink (H := example_env) name "A1") in
  link "Sheet1" = Some (ok (true, "https://x.org")) /\ link "Copy" = Some (ok (true, "")).
Proof. vm_compute. split; reflexivity. Qed.
