(* ===== verification/Table.v ===== *)
(** [table.go]: tables and the auto filter of a worksheet, with the parser of
    filter expressions. *)
From S2P Require Export SheetOpts Cell Parts.

(** ** Tokens of a filter expression

    [FindAllString] of a regular expression with two alternatives: a text in
    double quotes, in which two double quotes may stand for one, or else a run of
    bytes that are not white space. The first alternative is greedy and gives
    back a pair of quotes when it does not find the end. *)

Definition is_re_space (c : ascii) : bool :=
  let v := byte_val c in (v =? 9) || (v =? 10) || (v =? 12) || (v =? 13) || (v =? 32).

Definition quote_char : ascii := ascii_of_N 34.

(** The length of the match after the opening quote, with the closing one. *)
Fixpoint match_quoted (s : string) : option nat :=
  match s with
  | EmptyString => None
  | String c r =>
      if Ascii.eqb c quote_char then
        match r with
        | String c' r' =>
            if Ascii.eqb c' quote_char then
              match match_quoted r' with Some n => Some (2 + n)%nat | None => Some 1%nat end
            else Some 1%nat
        | EmptyString => Some 1%nat
        end
      else S <$> match_quoted r
  end.

Fixpoint nonspace_run (s : string) : nat :=
  match s with
  | EmptyString => 0
  | String c r => if is_re_space c then 0 else S (nonspace_run r)
  end.

Definition match_token (s : string) : option nat :=
  match s with
  | EmptyString => None
  | String c r =>
      if is_re_space c then None
      else if Ascii.eqb c quote_char then
        match match_quoted r with Some n => Some (S n) | None => Some (nonspace_run s) end
      else Some (nonspace_run s)
  end.

(** The matches from left to right; [skip] bytes belong to the last one. *)
Fixpoint tokens_go (s : string) (skip : nat) : list string :=
  match s with
  | EmptyString => []
  | String _ r =>
      match skip with
      | S k => tokens_go r k
      | O => match match_token s with
             | Some n => str_take n s :: tokens_go r (n - 1)
             | None => tokens_go r 0
             end
      end
  end.

Definition filter_tokens (s : string) : list string := tokens_go s 0.

(** The three expressions that [regexp.Match] is called with have no other
    operator than the choice. *)
Definition match_or (s : string) : bool := strings_Contains s "or" || strings_Contains s "||".
Definition match_blanks (s : string) : bool := strings_Contains s "blanks" || strings_Contains s "nonblanks".
Definition match_wildcard (s : string) : bool := strings_Contains s "*" || strings_Contains s "?".

Definition filter_operators (s : string) : option Z :=
  if bool_decide (s ∈ ["=="; "="; "=~"; "eq"]) then Some 2
  else if bool_decide (s ∈ ["!="; "!~"; "ne"; "<>"]) then Some 5
  else if bool_decide (s = "<") then Some 1
  else if bool_decide (s = "<=") then Some 3
  else if bool_decide (s = ">") then Some 4
  else if bool_decide (s = ">=") then Some 6
  else None.

Section filter_expressions.
Context `{UnicodeTables}.

(** Blanks and non-blanks: the operator and the token they become. *)
Definition blanks_token (operator : Z) (token : string) : Z * string :=
  if bool_decide (token = "blanks") then (operator, if operator =? 5 then " " else token)
  else if operator =? 5 then (2, "blanks") else (5, " ").

Definition parseFilterTokens (expression : string) (tokens : list string)
    : outcome ((list Z * string) * option goerr) :=
  t1 ← list_get tokens 1;
  match filter_operators (strings_ToLower t1) with
  | None => Ret (err_with ([], "") (ErrTextArg "unknown operator: %s" t1))
  | Some operator =>
      token ← list_get tokens 2;
      if match_blanks (strings_ToLower token) && negb (operator =? 2) && negb (operator =? 5) then
        Ret (err_with ([operator], token)
          (ErrTextArgs "the operator '%s' in expression '%s' is not valid in relation to Blanks/NonBlanks'" t1 expression))
      else
        let '(operator, token) :=
          if match_blanks (strings_ToLower token) then blanks_token operator (strings_ToLower token)
          else (operator, token) in
        let operator := if (operator =? 2) && match_wildcard token then 22 else operator in
        Ret (ok ([operator], token))
  end.

Definition parseFilterExpression (expression : string) (tokens : list string)
    : outcome ((list Z * list string) * option goerr) :=
  if zlen tokens =? 7 then
    c ← list_get tokens 3;
    let conditional := if match_or c then 1 else 0 in
    r1 ← parseFilterTokens expression (take 3 tokens);
    match r1 with
    | (_, Some err) => Ret (err_with ([], []) err)
    | ((expression1, token1), None) =>
        r2 ← parseFilterTokens expression (take 3 (drop 4 tokens));
        match r2 with
        | (_, Some err) => Ret (err_with ([], []) err)
        | ((expression2, token2), None) =>
            e1 ← list_get expression1 0;
            e2 ← list_get expression2 0;
            Ret (ok ([e1; conditional; e2], [token1; token2]))
        end
    end
  else
    r ← parseFilterTokens expression tokens;
    match r with
    | (_, Some err) => Ret (err_with ([], []) err)
    | ((exp, token), None) => Ret (ok (exp, [token]))
    end.
End filter_expressions.

(** ** The criteria of a filter column *)

Definition custom_operator (operator : Z) : string :=
  if operator =? 1 then "lessThan" else if operator =? 2 then "equal" else if operator =? 3 then "lessThanOrEqual"
  else if operator =? 4 then "greaterThan" else if operator =? 5 then "notEqual"
  else if operator =? 6 then "greaterThanOrEqual" else if operator =? 22 then "equal" else "".

Definition writeCustomFilter (col : xlsxFilterColumn) (operator : Z) (val : string) : xlsxFilterColumn :=
  let customFilter := mk_xlsxCustomFilter (custom_operator operator) val in
  col <| xlsxFilterColumn_CustomFilters :=
    Some (match xlsxFilterColumn_CustomFilters col with
          | Some fs => fs <| xlsxCustomFilters_CustomFilter ::= fun l => l ++ [customFilter] |>
          | None => (gozero : xlsxCustomFilters) <| xlsxCustomFilters_CustomFilter := [customFilter] |>
          end) |>.

(** [expRel] and [andRel], maps that yield the zero value for other keys. *)
Definition expRel (k : Z) : Z := if k =? 1 then 2 else 0.
Definition andRel (k : Z) : bool := k =? 0.

Definition write_custom (exp : list Z) (kv : nat * string) (col : xlsxFilterColumn) : outcome xlsxFilterColumn :=
  let '(k, v) := kv in
  operator ← list_get exp (expRel (Z.of_nat k));
  let col := writeCustomFilter col operator v in
  if Z.of_nat k =? 1 then
    e ← list_get exp (Z.of_nat k);
    Ret (col <| xlsxFilterColumn_CustomFilters ::= fmap (fun fs => fs <| xlsxCustomFilters_And := andRel e |>) |>)
  else Ret col.

Fixpoint write_customs (exp : list Z) (kvs : list (nat * string)) (col : xlsxFilterColumn) : outcome xlsxFilterColumn :=
  match kvs with
  | [] => Ret col
  | kv :: rest => col ← write_custom exp kv col; write_customs exp rest col
  end.

Definition filters_of (vals : list string) : xlsxFilters :=
  (gozero : xlsxFilters) <| xlsxFilters_Filter := mk_xlsxFilter <$> vals |>.

Definition writeAutoFilter (col : xlsxFilterColumn) (exp : list Z) (tokens : list string) : outcome xlsxFilterColumn :=
  if bool_decide (exp = [2]) then
    t ← list_get tokens 0;
    Ret (col <| xlsxFilterColumn_Filters := Some (filters_of [t]) |>)
  else if bool_decide (exp = [2; 1; 2]) then
    Ret (col <| xlsxFilterColumn_Filters := Some (filters_of tokens) |>)
  else write_customs exp (imap pair tokens) col.

Section tables.
Context `{GoEnv}.

(** ** The auto filter *)

Definition parseAutoFilterSet (formatSet : string) : formatAutoFilter * option goerr :=
  json_Unmarshal formatSet gozero.

(** The filter is in the sheet before its criteria are parsed: an error leaves
    it there without them. *)
Definition autoFilter (sheet ref : string) (refRange col : Z) (formatSet : formatAutoFilter) : M (option goerr) :=
  let! p := workSheetReader sheet in
  update p (fun xlsx => xlsx <| xlsxWorksheet_SheetPr ::= fmap (fun pr => pr <| xlsxSheetPr_FilterMode := true |>) |>);;
  update p (fun xlsx => xlsx <| xlsxWorksheet_SheetPr := Some ((gozero : xlsxSheetPr) <| xlsxSheetPr_FilterMode := true |>) |>);;
  let filter := (gozero : xlsxAutoFilter) <| xlsxAutoFilter_Ref := ref |> in
  update p (fun xlsx => xlsx <| xlsxWorksheet_AutoFilter := Some filter |>);;
  if bool_decide (formatAutoFilter_Column formatSet = "") || bool_decide (formatAutoFilter_Expression formatSet = "")
  then mret None
  else
    let! fsCol := mret (ColumnNameToNumber (formatAutoFilter_Column formatSet)) in
    let offset := isub fsCol col in
    if (offset <? 0) || (refRange <? offset) then
      mret (Some (ErrTextArg "incorrect index of column '%s'" (formatAutoFilter_Column formatSet)))
    else
      let column := (gozero : xlsxFilterColumn) <| xlsxFilterColumn_ColID := offset |> in
      let filter := filter <| xlsxAutoFilter_FilterColumn := Some column |> in
      update p (fun xlsx => xlsx <| xlsxWorksheet_AutoFilter := Some filter |>);;
      let token := filter_tokens (formatAutoFilter_Expression formatSet) in
      if negb (zlen token =? 3) && negb (zlen token =? 7) then
        mret (Some (ErrTextArg "incorrect number of tokens in criteria '%s'" (formatAutoFilter_Expression formatSet)))
      else
        let! (expressions, tokens) := lift (parseFilterExpression (formatAutoFilter_Expression formatSet) token) in
        column ← lift (writeAutoFilter column expressions tokens);
        let filter := filter <| xlsxAutoFilter_FilterColumn := Some column |> in
        update p (fun xlsx => xlsx <| xlsxWorksheet_AutoFilter := Some filter |>);;
        mret None.

(** The corners in order. *)
Definition ordered (a b : Z) : Z * Z := if b <? a then (b, a) else (a, b).

Definition AutoFilter (sheet hcell vcell format : string) : M (option goerr) :=
  let! (hcol, hrow) := mret (CellNameToCoordinates hcell) in
  let! (vcol, vrow) := mret (CellNameToCoordinates vcell) in
  let '(hcol, vcol) := ordered hcol vcol in
  let '(hrow, vrow) := ordered hrow vrow in
  let '(formatSet, _) := parseAutoFilterSet format in
  let! cellStart := mret (CoordinatesToCellName hcol hrow) in
  let! cellEnd := mret (CoordinatesToCellName vcol vrow) in
  let ref := cellStart +:+ ":" +:+ cellEnd in
  let refRange := isub vcol hcol in
  autoFilter sheet ref refRange hcol formatSet.

(** ** Tables *)

Definition parseFormatTableSet (formatSet : string) : formatTable * option goerr :=
  json_Unmarshal (parseFormatSet formatSet) ((gozero : formatTable) <| formatTable_ShowRowStripes := true |>).

(** The reader's error is ignored: a missing sheet is a nil dereference. *)
Definition addSheetTable (sheet : string) (rID : Z) : M unit :=
  p ← workSheetReader sheet;
  update p.1 (fun xlsx =>
    let parts : xlsxTableParts := match xlsxWorksheet_TableParts xlsx with None => gozero | Some t => t end in
    xlsx <| xlsxWorksheet_TableParts := Some (parts
      <| xlsxTableParts_Count ::= fun n => iadd n 1 |>
      <| xlsxTableParts_TableParts ::= fun l => l ++ [mk_xlsxTablePart ("rId" +:+ strconv_Itoa rID)] |>) |>).

(** The columns of the header row: a numeric title is stored as text and an
    empty one is replaced. *)
Fixpoint table_columns (sheet : string) (hrow idx : Z) (cols : list Z) : M (list xlsxTableColumn * option goerr) :=
  match cols with
  | [] => mret (ok [])
  | i :: rest =>
      let idx := idx + 1 in
      let! cell := mret (CoordinatesToCellName i hrow) orelse [] in
      r ← GetCellValue sheet cell;
      let name := r.1 in
      (match (strconv_Atoi name).2 with None => SetCellStr sheet cell name;; mret tt | Some _ => mret tt end);;
      name ← (if bool_decide (name = "")
              then let name := "Column" +:+ strconv_Itoa idx in SetCellStr sheet cell name;; mret name
              else mret name);
      let! columns := table_columns sheet hrow idx rest orelse [] in
      mret (ok ((gozero : xlsxTableColumn) <| xlsxTableColumn_ID := idx |> <| xlsxTableColumn_Name := name |> :: columns))
  end.

Definition table_of (i : Z) (ref : string) (columns : list xlsxTableColumn) (formatSet : formatTable) : xlsxTable :=
  let name := if bool_decide (formatTable_TableName formatSet = "") then "Table" +:+ strconv_Itoa i
              else formatTable_TableName formatSet in
  (gozero : xlsxTable)
    <| xlsxTable_XMLNS := NameSpaceSpreadSheet |> <| xlsxTable_ID := i |> <| xlsxTable_Name := name |>
    <| xlsxTable_DisplayName := name |> <| xlsxTable_Ref := ref |>
    <| xlsxTable_AutoFilter := Some ((gozero : xlsxAutoFilter) <| xlsxAutoFilter_Ref := ref |>) |>
    <| xlsxTable_TableColumns := Some (mk_xlsxTableColumns (zlen columns) columns) |>
    <| xlsxTable_TableStyleInfo := Some (mk_xlsxTableStyleInfo (formatTable_TableStyle formatSet)
         (formatTable_ShowFirstColumn formatSet) (formatTable_ShowLastColumn formatSet)
         (formatTable_ShowRowStripes formatSet) (formatTable_ShowColumnStripes formatSet)) |>.

Definition addTable (sheet tableXML : string) (hcol hrow vcol vrow i : Z) (formatSet : formatTable) : M (option goerr) :=
  let vrow := if hrow =? vrow then iadd vrow 1 else vrow in
  let! hcell := mret (CoordinatesToCellName hcol hrow) in
  let! vcell := mret (CoordinatesToCellName vcol vrow) in
  let ref := hcell +:+ ":" +:+ vcell in
  let! tableColumn := table_columns sheet hrow 0 (seqZ hcol (vcol - hcol + 1)) in
  saveFileList tableXML (xml_Marshal (table_of i ref tableColumn formatSet));;
  mret None.

Definition AddTable (sheet hcell vcell format : string) : M (option goerr) :=
  let! formatSet := mret (parseFormatTableSet format) in
  let! (hcol, hrow) := mret (CellNameToCoordinates hcell) in
  let! (vcol, vrow) := mret (CellNameToCoordinates vcell) in
  let '(hcol, vcol) := ordered hcol vcol in
  let '(hrow, vrow) := ordered hrow vrow in
  n ← countTables;
  let tableID := n + 1 in
  let sheetRelationshipsTableXML := "../tables/table" +:+ strconv_Itoa tableID +:+ ".xml" in
  let tableXML := strings_Replace sheetRelationshipsTableXML ".." "xl" in
  rID ← addSheetRelationships sheet SourceRelationshipTable sheetRelationshipsTableXML "";
  addSheetTable sheet rID;;
  try! addTable sheet tableXML hcol hrow vcol vrow tableID formatSet in
  addContentTypePart tableID "table";;
  mret None.

End tables.

(** ** Properties: tokens *)

(** A word has no white space and does not begin with a quote. *)
Definition word_byte (c : ascii) : bool := negb (is_re_space c).
Definition plain_word (s : string) : bool :=
  match s with EmptyString => false | String c _ => negb (Ascii.eqb c quote_char) && str_forallb word_byte s end.

(** What follows a word: the end of the text or white space. *)
Definition word_end (s : string) : Prop :=
  match s with EmptyString => True | String c _ => is_re_space c = true end.

Lemma nonspace_run_word w s : str_forallb word_byte w = true -> word_end s -> nonspace_run (w +:+ s) = String.length w.
Proof.
  intros Hw Hs. induction w as [|c w IH]; cbn in *.
  - destruct s as [|c s]; [done|]. cbn in Hs. cbn. by rewrite Hs.
  - apply andb_true_iff in Hw as [Hc Hw]. unfold word_byte in Hc. apply negb_true_iff in Hc. rewrite Hc. by rewrite IH.
Qed.

Lemma tokens_go_skip w s : tokens_go (w +:+ s) (String.length w) = tokens_go s 0.
Proof. induction w as [|c w IH]; [done|]. exact IH. Qed.

Lemma match_token_word w s : plain_word w = true -> word_end s -> match_token (w +:+ s) = Some (String.length w).
Proof.
  intros Hw Hs. destruct w as [|c w]; [done|]. cbn [plain_word] in Hw. apply andb_true_iff in Hw as [Hq Hw].
  pose proof (nonspace_run_word _ _ Hw Hs) as Hn. cbn [str_forallb] in Hw. apply andb_true_iff in Hw as [Hc _].
  unfold match_token. change (String c w +:+ s) with (String c (w +:+ s)) in *. cbv iota beta.
  apply negb_true_iff in Hc, Hq. by rewrite Hc, Hq, Hn.
Qed.

Lemma tokens_go_match w s : w <> "" -> match_token (w +:+ s) = Some (String.length w) ->
  tokens_go (w +:+ s) 0 = w :: tokens_go s 0.
Proof.
  intros Hne Hm. destruct w as [|c w]; [done|]. change (String c w +:+ s) with (String c (w +:+ s)) in *.
  cbn [tokens_go]. rewrite Hm. f_equal; [exact (str_take_app (String c w) s)|].
  change (String.length (String c w) - 1)%nat with (String.length w - 0)%nat. rewrite Nat.sub_0_r. apply tokens_go_skip.
Qed.

Lemma tokens_go_word w s : plain_word w = true -> word_end s -> tokens_go (w +:+ s) 0 = w :: tokens_go s 0.
Proof. intros Hw Hs. apply tokens_go_match; [by destruct w|by apply match_token_word]. Qed.

(** An expression of words with single blanks between them has these words as
    its tokens. *)
Lemma filter_tokens_words toks : Forall (fun w => plain_word w = true) toks -> filter_tokens (strings_Join toks " ") = toks.
Proof.
  intros H. unfold filter_tokens. induction H as [|w toks Hw H IH]; [done|].
  destruct toks as [|w' toks].
  - cbn [strings_Join]. rewrite <- (str_app_nil_r w) at 1. by rewrite tokens_go_word.
  - change (strings_Join (w :: w' :: toks) " ") with (w +:+ " " +:+ strings_Join (w' :: toks) " ").
    rewrite tokens_go_word by done. f_equal. exact IH.
Qed.

Lemma match_quoted_end w s :
  str_forallb (fun c => negb (Ascii.eqb c quote_char)) w = true -> word_end s ->
  match_quoted (w +:+ String quote_char s) = Some (S (String.length w)).
Proof.
  intros Hw Hs. induction w as [|c w IH].
  - change (EmptyString +:+ String quote_char s) with (String quote_char s). cbn [match_quoted String.length].
    rewrite Ascii.eqb_refl. destruct s as [|c s]; [done|]. cbn [word_end] in Hs.
    by destruct (Ascii.eqb_spec c quote_char) as [->|].
  - cbn [str_forallb] in Hw. apply andb_true_iff in Hw as [Hc Hw]. apply negb_true_iff in Hc.
    change (String c w +:+ String quote_char s) with (String c (w +:+ String quote_char s)). cbn [match_quoted].
    by rewrite Hc, IH.
Qed.

(** A quoted text is one token, of which the quotes are a part. *)
Lemma tokens_go_quoted w s :
  str_forallb (fun c => negb (Ascii.eqb c quote_char)) w = true -> word_end s ->
  tokens_go ((dq +:+ w +:+ dq) +:+ s) 0 = (dq +:+ w +:+ dq) :: tokens_go s 0.
Proof.
  intros Hw Hs. apply tokens_go_match; [done|].
  change ((dq +:+ w +:+ dq) +:+ s) with (String quote_char ((w +:+ dq) +:+ s)). rewrite str_app_assoc.
  unfold match_token. cbv iota beta. change (is_re_space quote_char) with false. cbv iota.
  change (Ascii.eqb quote_char quote_char) with true. cbv iota. change (dq +:+ s) with (String quote_char s).
  rewrite match_quoted_end by done. f_equal.
  change (String.length (dq +:+ w +:+ dq)) with (S (String.length (w +:+ dq))). rewrite str_length_app. cbn. lia.
Qed.

(** ** Properties: the meaning of a filter

    A relation [holds] between the names of the comparisons and the values they
    compare with stands for a cell; the filter of a column then is a condition
    on it. The values of a list of filters are texts that the cell shows, [listed],
    where those of a custom filter may be patterns. *)

Definition column_meaning (listed : string -> bool) (holds : string -> string -> bool) (col : xlsxFilterColumn) : bool :=
  match xlsxFilterColumn_Filters col with
  | Some fs => existsb (fun v => listed (xlsxFilter_Val v)) (xlsxFilters_Filter fs)
  | None =>
      match xlsxFilterColumn_CustomFilters col with
      | Some fs =>
          let accepts c := holds (xlsxCustomFilter_Operator c) (xlsxCustomFilter_Val c) in
          if xlsxCustomFilters_And fs then forallb accepts (xlsxCustomFilters_CustomFilter fs)
          else existsb accepts (xlsxCustomFilters_CustomFilter fs)
      | None => true
      end
  end.

(** A value without the two wildcards is compared as a text: a cell shows it when it
    is equal to it, and nothing is known of the other values. *)
Definition plain_value (v : string) : bool :=
  str_forallb (fun c => negb (Ascii.eqb c "*"%char || Ascii.eqb c "?"%char)) v.

Definition lists_plain (listed : string -> bool) (holds : string -> string -> bool) : Prop :=
  forall v, plain_value v = true -> listed v = holds "equal" v.

Lemma contains_char c0 s : strings_Contains s (String c0 "") = false -> str_forallb (fun c => negb (Ascii.eqb c c0)) s = true.
Proof.
  induction s as [|c s IH]; [done|]. cbn [strings_Contains str_forallb String.prefix]. intros [Hp Hs]%orb_false_iff.
  rewrite IH by done. rewrite andb_true_r. apply negb_true_iff, Ascii.eqb_neq. intros ->.
  destruct (ascii_dec c0 c0); [|done]. by destruct s.
Qed.

Lemma match_wildcard_plain v : match_wildcard v = false -> plain_value v = true.
Proof.
  unfold match_wildcard, plain_value. intros [Ha%contains_char Hb%contains_char]%orb_false_iff.
  induction v as [|c v IH]; [done|]. cbn [str_forallb] in *. apply andb_true_iff in Ha as [Ha Ha'], Hb as [Hb Hb'].
  rewrite negb_orb, Ha, Hb. by apply IH.
Qed.

(** A column without criteria. *)
Definition no_criteria (col : xlsxFilterColumn) : Prop :=
  xlsxFilterColumn_Filters col = None /\ xlsxFilterColumn_CustomFilters col = None.

Lemma writeAutoFilter_single col o t :
  no_criteria col -> (o = 2 -> plain_value t = true) ->
  exists col', writeAutoFilter col [o] [t] = Ret col' /\ xlsxFilterColumn_ColID col' = xlsxFilterColumn_ColID col /\
    forall listed holds, lists_plain listed holds -> column_meaning listed holds col' = holds (custom_operator o) t.
Proof.
  intros [Hf Hc] Hp. unfold writeAutoFilter. case_bool_decide as E.
  - injection E as ->. eexists. split; [reflexivity|]. split; [done|]. intros listed holds Hlp.
    unfold column_meaning. cbn. rewrite (Hlp _ (Hp eq_refl)). apply orb_false_r.
  - rewrite bool_decide_eq_false_2 by done. eexists. split; [reflexivity|]. split; [done|]. intros listed holds _.
    unfold column_meaning, writeCustomFilter. cbn. rewrite Hf, Hc. cbn. apply orb_false_r.
Qed.

Lemma writeAutoFilter_pair col o1 c o2 t1 t2 :
  no_criteria col -> c = 0 \/ c = 1 -> (o1 = 2 -> plain_value t1 = true) -> (o2 = 2 -> plain_value t2 = true) ->
  exists col', writeAutoFilter col [o1; c; o2] [t1; t2] = Ret col' /\
    xlsxFilterColumn_ColID col' = xlsxFilterColumn_ColID col /\
    forall listed holds, lists_plain listed holds -> column_meaning listed holds col' =
      (if c =? 1 then orb else andb) (holds (custom_operator o1) t1) (holds (custom_operator o2) t2).
Proof.
  intros [Hf Hc] Hcond Hp1 Hp2. unfold writeAutoFilter. rewrite bool_decide_eq_false_2 by done. case_bool_decide as E.
  - injection E as -> -> ->. eexists. split; [reflexivity|]. split; [done|]. intros listed holds Hlp.
    unfold column_meaning. cbn. by rewrite orb_false_r, !Hlp by auto.
  - eexists. split; [reflexivity|]. split; [done|]. intros listed holds _.
    unfold column_meaning, writeCustomFilter. cbn. rewrite Hf, Hc. cbn.
    destruct Hcond as [-> | ->]; cbn; [by rewrite andb_true_r|by rewrite orb_false_r].
Qed.

(** The documented operators with the names of their comparisons. *)
Definition documented_operators : list (string * string) :=
  [("==", "equal"); ("!=", "notEqual"); (">", "greaterThan"); ("<", "lessThan");
   (">=", "greaterThanOrEqual"); ("<=", "lessThanOrEqual")].

Definition operator_name (op : string) : string :=
  match list_find (fun p => p.1 = op) documented_operators with Some (_, p) => p.2 | None => "" end.

Section meaning.
Context `{UnicodeTables}.

(** What the documentation says of one statement: [Blanks] and [NonBlanks] test
    for blank cells, other values are compared with. *)
Definition statement_meaning (holds : string -> string -> bool) (op v : string) : bool :=
  let l := strings_ToLower v in
  if bool_decide (l = "blanks") then (if bool_decide (op = "==") then holds "equal" "blanks" else holds "notEqual" " ")
  else if bool_decide (l = "nonblanks") then (if bool_decide (op = "==") then holds "notEqual" " " else holds "equal" "blanks")
  else holds (operator_name op) v.

Definition documented_statement (op v : string) : Prop :=
  op ∈ documented_operators.*1 /\
  (match_blanks (strings_ToLower v) = true ->
     strings_ToLower v ∈ ["blanks"; "nonblanks"] /\ op ∈ ["=="; "!="]).

Lemma custom_operator_22 (o : Z) v :
  custom_operator (if (o =? 2) && match_wildcard v then 22 else o) = custom_operator o.
Proof. destruct (o =? 2) eqn:E; cbn; [|done]. replace o with 2 by lia. by destruct (match_wildcard v). Qed.

(** The operator for simple equality is kept for values without wildcards only. *)
Lemma operator_2_plain (o : Z) v : (if (o =? 2) && match_wildcard v then 22 else o) = 2 -> plain_value v = true.
Proof.
  intros E. apply match_wildcard_plain. destruct (o =? 2) eqn:Eo; cbn in E; [|lia]. by destruct (match_wildcard v).
Qed.

(** A documented statement parses to an operator and a value of its meaning. *)
Lemma parseFilterTokens_documented expression x op v :
  documented_statement op v ->
  exists o t, parseFilterTokens expression [x; op; v] = Ret (ok ([o], t)) /\ (o = 2 -> plain_value t = true) /\
    forall holds, holds (custom_operator o) t = statement_meaning holds op v.
Proof.
  intros [Hop Hb]. unfold parseFilterTokens.
  change (list_get [x; op; v] 1) with (Ret op). change (list_get [x; op; v] 2) with (Ret v). cbn [mbind outcome_bind].
  assert (exists o, filter_operators (strings_ToLower op) = Some o /\ custom_operator o = operator_name op /\
    (o =? 2) = bool_decide (op = "==") /\ (o =? 5) = bool_decide (op = "!=")) as (o & -> & En & E2 & E5).
  { repeat (apply elem_of_cons in Hop as [-> | Hop]; [eexists; split; [reflexivity|by split_and!]|]). by apply elem_of_nil in Hop. }
  destruct (match_blanks (strings_ToLower v)) eqn:Em.
  - destruct (Hb eq_refl) as [Hv Ho].
    assert (op = "==" \/ op = "!=") as Hop'.
    { apply elem_of_cons in Ho as [?|Ho]; [by left|]. apply elem_of_cons in Ho as [?|[]%elem_of_nil]. by right. }
    assert (strings_ToLower v = "blanks" \/ strings_ToLower v = "nonblanks") as Hv'.
    { apply elem_of_cons in Hv as [?|Hv]; [by left|]. apply elem_of_cons in Hv as [?|[]%elem_of_nil]. by right. }
    unfold statement_meaning, blanks_token.
    assert (o = if bool_decide (op = "==") then 2 else 5) as ->.
    { destruct Hop' as [-> | ->]; [change (bool_decide ("==" = "==")) with true in *|change (bool_decide ("!=" = "!=")) with true in *];
        [apply Z.eqb_eq in E2|apply Z.eqb_eq in E5]; done. }
    destruct Hop' as [-> | ->], Hv' as [-> | ->]; eexists _, _; (split; [reflexivity|]); (split; [done|done]).
  - cbn [andb]. eexists _, _. split; [reflexivity|]. split; [apply operator_2_plain|]. intros holds. rewrite custom_operator_22, En. unfold statement_meaning.
    cbv zeta. rewrite !bool_decide_eq_false_2; [done| |]; intros E; rewrite E in Em; discriminate Em.
Qed.

(** The tokens of one or two documented statements and their meaning. *)
Inductive documented_criteria : list string -> ((string -> string -> bool) -> bool) -> Prop :=
| one_statement x op v :
    documented_statement op v -> documented_criteria [x; op; v] (fun holds => statement_meaning holds op v)
| both_statements x op1 v1 y op2 v2 :
    documented_statement op1 v1 -> documented_statement op2 v2 ->
    documented_criteria [x; op1; v1; "and"; y; op2; v2]
      (fun holds => statement_meaning holds op1 v1 && statement_meaning holds op2 v2)
| either_statement x op1 v1 y op2 v2 :
    documented_statement op1 v1 -> documented_statement op2 v2 ->
    documented_criteria [x; op1; v1; "or"; y; op2; v2]
      (fun holds => statement_meaning holds op1 v1 || statement_meaning holds op2 v2).

Lemma documented_length toks m : documented_criteria toks m -> zlen toks = 3 \/ zlen toks = 7.
Proof. destruct 1; auto. Qed.

Lemma parseFilterExpression_pair expression x op1 v1 c y op2 v2 :
  documented_statement op1 v1 -> documented_statement op2 v2 ->
  exists o1 t1 o2 t2,
    parseFilterExpression expression [x; op1; v1; c; y; op2; v2] =
      Ret (ok ([o1; if match_or c then 1 else 0; o2], [t1; t2])) /\
    (o1 = 2 -> plain_value t1 = true) /\ (o2 = 2 -> plain_value t2 = true) /\
    (forall holds, holds (custom_operator o1) t1 = statement_meaning holds op1 v1) /\
    (forall holds, holds (custom_operator o2) t2 = statement_meaning holds op2 v2).
Proof.
  intros H1 H2. destruct (parseFilterTokens_documented expression x op1 v1 H1) as (o1 & t1 & E1 & Hp1 & Hm1).
  destruct (parseFilterTokens_documented expression y op2 v2 H2) as (o2 & t2 & E2 & Hp2 & Hm2).
  exists o1, t1, o2, t2. split; [|by split_and!]. unfold parseFilterExpression.
  change (zlen [x; op1; v1; c; y; op2; v2] =? 7) with true. cbv iota.
  change (list_get [x; op1; v1; c; y; op2; v2] 3) with (Ret c). cbn [mbind outcome_bind].
  change (take 3 [x; op1; v1; c; y; op2; v2]) with [x; op1; v1].
  change (take 3 (drop 4 [x; op1; v1; c; y; op2; v2])) with [y; op2; v2].
  rewrite E1. cbn [mbind outcome_bind]. by rewrite E2.
Qed.

(** Parsing and writing a documented expression keeps its meaning. *)
Lemma criteria_written col expression toks m :
  no_criteria col -> documented_criteria toks m ->
  exists exps vals col', parseFilterExpression expression toks = Ret (ok (exps, vals)) /\
    writeAutoFilter col exps vals = Ret col' /\ xlsxFilterColumn_ColID col' = xlsxFilterColumn_ColID col /\
    forall listed holds, lists_plain listed holds -> column_meaning listed holds col' = m holds.
Proof.
  intros Hcol. destruct 1 as [x op v Hs|x op1 v1 y op2 v2 H1 H2|x op1 v1 y op2 v2 H1 H2].
  - destruct (parseFilterTokens_documented expression x op v Hs) as (o & t & E & Hp & Hm).
    destruct (writeAutoFilter_single col o t Hcol Hp) as (col' & Ew & Hid & Hw).
    exists [o], [t], col'. unfold parseFilterExpression. change (zlen [x; op; v] =? 7) with false. cbv iota.
    rewrite E. split_and!; [done..|]. intros listed holds Hlp. by rewrite Hw.
  - destruct (parseFilterExpression_pair expression x op1 v1 "and" y op2 v2 H1 H2) as (o1 & t1 & o2 & t2 & E & Hp1 & Hp2 & Hm1 & Hm2).
    destruct (writeAutoFilter_pair col o1 0 o2 t1 t2 Hcol (or_introl eq_refl) Hp1 Hp2) as (col' & Ew & Hid & Hw).
    exists [o1; 0; o2], [t1; t2], col'. split_and!; [done..|]. intros listed holds Hlp. by rewrite Hw, Hm1, Hm2.
  - destruct (parseFilterExpression_pair expression x op1 v1 "or" y op2 v2 H1 H2) as (o1 & t1 & o2 & t2 & E & Hp1 & Hp2 & Hm1 & Hm2).
    destruct (writeAutoFilter_pair col o1 1 o2 t1 t2 Hcol (or_intror eq_refl) Hp1 Hp2) as (col' & Ew & Hid & Hw).
    exists [o1; 1; o2], [t1; t2], col'. split_and!; [done..|]. intros listed holds Hlp. by rewrite Hw, Hm1, Hm2.
Qed.
End meaning.

(** ** Properties: the auto filter *)

Section auto_filter.
Context `{GoEnv}.

Lemma ordered_min_max a b : ordered a b = (Z.min a b, Z.max a b).
Proof. unfold ordered. case_match; f_equal; lia. Qed.

(** The call up to the criteria. *)
Lemma AutoFilter_corners f sheet hcell vcell c1 r1 c2 r2 format :
  CellNameToCoordinates hcell = ok (c1, r1) -> CellNameToCoordinates vcell = ok (c2, r2) ->
  coord c1 -> coord r1 -> coord c2 -> coord r2 ->
  AutoFilter sheet hcell vcell format f =
    autoFilter sheet (rect_ref (rect_of c1 r1 c2 r2)) (Z.max c1 c2 - Z.min c1 c2) (Z.min c1 c2)
      (parseAutoFilterSet format).1 f.
Proof.
  intros Eh Ev ????. unfold AutoFilter. rewrite Eh, Ev. unfold mbind at 1, gom_bind, mret, gom_ret. cbn [fst snd].
  unfold mbind at 1, gom_bind. rewrite !ordered_min_max. destruct (parseAutoFilterSet format) as [fs e].
  rewrite (cell_name_ok (Z.min c1 c2)), (cell_name_ok (Z.max c1 c2)) by lia. unfold mbind, gom_bind. cbn [fst].
  unfold isub. rewrite wrap64_id by (unfold minInt, maxInt in *; lia). done.
Qed.

(** What the sheet has in common whatever the criteria are: the properties are
    new ones, with the filter mode only. *)
Definition filtered (xlsx : xlsxWorksheet) (filter : xlsxAutoFilter) : xlsxWorksheet :=
  xlsx <| xlsxWorksheet_SheetPr := Some ((gozero : xlsxSheetPr) <| xlsxSheetPr_FilterMode := true |>) |>
       <| xlsxWorksheet_AutoFilter := Some filter |>.

Lemma autoFilter_documented f sheet path xlsx ref refRange col fs num toks m :
  loaded f sheet path xlsx -> int64_range (num - col) ->
  ColumnNameToNumber (formatAutoFilter_Column fs) = ok num -> col <= num <= col + refRange ->
  formatAutoFilter_Column fs <> "" -> filter_tokens (formatAutoFilter_Expression fs) = toks ->
  documented_criteria toks m ->
  exists fc, autoFilter sheet ref refRange col fs f =
      Ret (None, with_sheet f path (filtered xlsx (mk_xlsxAutoFilter ref (Some fc)))) /\
    xlsxFilterColumn_ColID fc = num - col /\
    forall listed holds, lists_plain listed holds -> column_meaning listed holds fc = m holds.
Proof.
  intros Hl Hr En Hnum Hne Et Hm.
  destruct (criteria_written ((gozero : xlsxFilterColumn) <| xlsxFilterColumn_ColID := num - col |>)
    (formatAutoFilter_Expression fs) toks m) as (exps & vals & fc & Ep & Ew & Hid & Hmean); [done|done|].
  exists fc. split; [|done]. unfold autoFilter.
  rewrite (bind_Ret _ _ _ _ _ (workSheetReader_loaded _ _ _ _ Hl)).
  rewrite (bind_Ret _ _ _ _ _ (update_loaded _ _ _ _ (proj2 Hl))).
  do 2 rewrite (bind_Ret _ _ _ _ _ (update_with_sheet _ _ _ _)).
  rewrite (bool_decide_eq_false_2 _ Hne), bool_decide_eq_false_2; cbn [orb].
  2:{ intros Ee. rewrite Ee in Et. cbn in Et. subst toks. inversion Hm. }
  rewrite En. unfold mbind at 1, gom_bind, mret at 1, gom_ret. unfold isub. rewrite wrap64_id by done.
  replace ((num - col <? 0) || (refRange <? num - col)) with false by lia.
  rewrite (bind_Ret _ _ _ _ _ (update_with_sheet _ _ _ _)), Et.
  pose proof (documented_length _ _ Hm). replace (negb (zlen toks =? 3) && negb (zlen toks =? 7)) with false by lia.
  rewrite Ep, bind_lift, Ew, bind_lift.
  rewrite (bind_Ret _ _ _ _ _ (update_with_sheet _ _ _ _)). done.
Qed.

(** C35. An auto filter over the rectangle of two corners, given in any order, with a
    documented expression on a column of the rectangle: the filter of the sheet
    has the rectangle as its range and one column with a condition that means
    what the expression says, for every reading of the comparisons. A value with a
    wildcard is compared as a pattern: it is in no list of texts, which are read
    as equalities only when they are without wildcards. The sheet's properties are replaced, and nothing
    else is changed. *)
Theorem AutoFilter_meaning f sheet path xlsx hcell vcell c1 r1 c2 r2 format num m :
  loaded f sheet path xlsx ->
  CellNameToCoordinates hcell = ok (c1, r1) -> CellNameToCoordinates vcell = ok (c2, r2) ->
  coord c1 -> coord r1 -> coord c2 -> coord r2 ->
  formatAutoFilter_Column (parseAutoFilterSet format).1 <> "" ->
  ColumnNameToNumber (formatAutoFilter_Column (parseAutoFilterSet format).1) = ok num ->
  Z.min c1 c2 <= num <= Z.max c1 c2 ->
  documented_criteria (filter_tokens (formatAutoFilter_Expression (parseAutoFilterSet format).1)) m ->
  exists xlsx' fc, AutoFilter sheet hcell vcell format f = Ret (None, with_sheet f path xlsx') /\
    xlsxWorksheet_AutoFilter xlsx' = Some (mk_xlsxAutoFilter (rect_ref (rect_of c1 r1 c2 r2)) (Some fc)) /\
    xlsxFilterColumn_ColID fc = num - Z.min c1 c2 /\
    (forall listed holds, lists_plain listed holds -> column_meaning listed holds fc = m holds) /\
    xlsx' <| xlsxWorksheet_AutoFilter := None |> <| xlsxWorksheet_SheetPr := None |> =
      xlsx <| xlsxWorksheet_AutoFilter := None |> <| xlsxWorksheet_SheetPr := None |>.
Proof.
  intros Hl Eh Ev ???? Hne En Hnum Hm.
  destruct (autoFilter_documented f sheet path xlsx (rect_ref (rect_of c1 r1 c2 r2)) (Z.max c1 c2 - Z.min c1 c2) (Z.min c1 c2)
    (parseAutoFilterSet format).1 num (filter_tokens (formatAutoFilter_Expression (parseAutoFilterSet format).1)) m) as (fc & E & Hid & Hmean); try done; [unfold minInt, maxInt in *; lia|lia|].
  eexists _, fc. split; [by erewrite AutoFilter_corners|]. by split_and!.
Qed.

(** The properties of a sheet do not survive an auto filter, the code name, the
    tab colour and the page set-up among them. *)
Theorem AutoFilter_resets_properties f sheet path xlsx hcell vcell c1 r1 c2 r2 format :
  loaded f sheet path xlsx ->
  CellNameToCoordinates hcell = ok (c1, r1) -> CellNameToCoordinates vcell = ok (c2, r2) ->
  coord c1 -> coord r1 -> coord c2 -> coord r2 ->
  formatAutoFilter_Expression (parseAutoFilterSet format).1 = "" ->
  exists xlsx', AutoFilter sheet hcell vcell format f = Ret (None, with_sheet f path xlsx') /\
    xlsxWorksheet_SheetPr xlsx' = Some ((gozero : xlsxSheetPr) <| xlsxSheetPr_FilterMode := true |>) /\
    GetSheetPrOptions sheet [CodeName ""] (with_sheet f path xlsx') = Ret (ok [CodeName ""], with_sheet f path xlsx').
Proof.
  intros Hl Eh Ev ???? Ee. eexists. split; [|split].
  - erewrite AutoFilter_corners by done. unfold autoFilter.
    rewrite (bind_Ret _ _ _ _ _ (workSheetReader_loaded _ _ _ _ Hl)).
    rewrite (bind_Ret _ _ _ _ _ (update_loaded _ _ _ _ (proj2 Hl))).
    do 2 rewrite (bind_Ret _ _ _ _ _ (update_with_sheet _ _ _ _)). rewrite Ee, orb_true_r. done.
  - done.
  - pose proof (fun x => with_sheet_loaded f sheet path xlsx x Hl) as Hl'. unfold GetSheetPrOptions.
    rewrite (bind_Ret _ _ _ _ _ (workSheetReader_loaded _ _ _ _ (Hl' _))).
    by rewrite (bind_Ret _ _ _ _ _ (deref_loaded _ _ _ (proj2 (Hl' _)))).
Qed.

(** An expression with another number of tokens than three and seven is an
    error, and the sheet has lost its filter for one that hides nothing. *)
Theorem AutoFilter_error_replaces_filter f sheet path xlsx hcell vcell c1 r1 c2 r2 format num :
  loaded f sheet path xlsx ->
  CellNameToCoordinates hcell = ok (c1, r1) -> CellNameToCoordinates vcell = ok (c2, r2) ->
  coord c1 -> coord r1 -> coord c2 -> coord r2 ->
  formatAutoFilter_Column (parseAutoFilterSet format).1 <> "" ->
  ColumnNameToNumber (formatAutoFilter_Column (parseAutoFilterSet format).1) = ok num ->
  Z.min c1 c2 <= num <= Z.max c1 c2 ->
  formatAutoFilter_Expression (parseAutoFilterSet format).1 <> "" ->
  zlen (filter_tokens (formatAutoFilter_Expression (parseAutoFilterSet format).1)) ∉ [3; 7] ->
  exists xlsx' fc, AutoFilter sheet hcell vcell format f =
      Ret (Some (ErrTextArg "incorrect number of tokens in criteria '%s'"
                   (formatAutoFilter_Expression (parseAutoFilterSet format).1)), with_sheet f path xlsx') /\
    xlsxWorksheet_AutoFilter xlsx' = Some (mk_xlsxAutoFilter (rect_ref (rect_of c1 r1 c2 r2)) (Some fc)) /\
    forall listed holds, column_meaning listed holds fc = true.
Proof.
  intros Hl Eh Ev ???? Hne En Hnum Hee Hlen. eexists _, _. split; [|split].
  - erewrite AutoFilter_corners by done. unfold autoFilter.
    rewrite (bind_Ret _ _ _ _ _ (workSheetReader_loaded _ _ _ _ Hl)).
    rewrite (bind_Ret _ _ _ _ _ (update_loaded _ _ _ _ (proj2 Hl))).
    do 2 rewrite (bind_Ret _ _ _ _ _ (update_with_sheet _ _ _ _)).
    rewrite (bool_decide_eq_false_2 _ Hne), (bool_decide_eq_false_2 _ Hee). cbn [orb].
    rewrite En. unfold mbind at 1, gom_bind, mret at 1, gom_ret.
    unfold isub. rewrite wrap64_id by (unfold minInt, maxInt in *; lia).
    replace ((num - Z.min c1 c2 <? 0) || (_ <? num - Z.min c1 c2)) with false by lia.
    rewrite (bind_Ret _ _ _ _ _ (update_with_sheet _ _ _ _)).
    replace (negb (_ =? 3) && negb (_ =? 7)) with true; [reflexivity|].
    symmetry. apply andb_true_iff. split; apply negb_true_iff, Z.eqb_neq; intros E; apply Hlen; rewrite E; [by left|by right; left].
  - done.
  - done.
Qed.
End auto_filter.

(** ** Properties: tables *)

Section table_properties.
Context `{GoEnv}.

(** A relationship of a sheet can always be added: a sheet that is not in the
    workbook gets a path of its own. *)
Lemma addSheetRelationships_total f sheet relType target mode :
  exists rID f', addSheetRelationships sheet relType target mode f = Ret (rID, f') /\ File_sheetMap f' = File_sheetMap f.
Proof.
  unfold addSheetRelationships, workSheetRelsReader, readXML, gets, mbind, gom_bind, get, modify, mret, gom_ret.
  repeat case_match; simplify_eq; eexists _, _; by split.
Qed.

(** A table on a sheet that does not exist makes [AddTable] panic, after it has
    added a relationship: the error of the sheet is ignored. *)
Theorem AddTable_missing_sheet_panics f sheet hcell vcell c1 r1 c2 r2 format :
  File_sheetMap f !! trimSheetName sheet = None -> (parseFormatTableSet format).2 = None ->
  CellNameToCoordinates hcell = ok (c1, r1) -> CellNameToCoordinates vcell = ok (c2, r2) ->
  AddTable sheet hcell vcell format f = Panic.
Proof.
  intros Hs Hf Eh Ev. unfold AddTable. destruct (parseFormatTableSet format) as [fs e]. cbn in Hf. subst e.
  rewrite Eh, Ev. unfold mbind at 1, gom_bind, mret at 1, gom_ret. unfold mbind at 1, gom_bind, mret at 1, gom_ret.
  unfold mbind at 1, gom_bind, mret at 1, gom_ret.
  rewrite !ordered_min_max. unfold countTables, gets at 1. unfold mbind at 1, gom_bind.
  cbv zeta. match goal with |- context [addSheetRelationships ?a ?b ?c ?d] =>
    destruct (addSheetRelationships_total f a b c d) as (rID & f' & E & Em) end.
  rewrite (bind_Ret _ _ _ _ _ E). unfold addSheetTable.
  unfold mbind at 1, gom_bind. unfold mbind at 1, gom_bind.
  by rewrite workSheetReader_missing by by rewrite Em.
Qed.
End table_properties.

(** ** Witnesses *)

(** The concrete environment with a filter for every text. *)
Definition filter_env (column expression : string) : GoEnv :=
  example_env <| (@env_json_autoFilter) := fun _ _ => (mk_formatAutoFilter column expression [], None) |>.

Lemma AutoFilter_meaning_witness :
  exists xlsx' fc, AutoFilter (H := filter_env "B" "x >= 10 and x != NonBlanks") "Sheet1" "D9" "A1" "" (example_file gozero) =
      Ret (None, with_sheet (example_file gozero) "xl/worksheets/sheet1.xml" xlsx') /\
    xlsxWorksheet_AutoFilter xlsx' = Some (mk_xlsxAutoFilter "A1:D9" (Some fc)) /\
    forall listed holds, lists_plain listed holds -> column_meaning listed holds fc = holds "greaterThanOrEqual" "10" && holds "equal" "blanks".
Proof.
  destruct (@AutoFilter_meaning (filter_env "B" "x >= 10 and x != NonBlanks") (example_file gozero) "Sheet1" _ _ "D9" "A1" 4 9 1 1 "" 2
    (fun holds => holds "greaterThanOrEqual" "10" && holds "equal" "blanks") (example_loaded gozero))
    as (xlsx' & fc & E & Ef & _ & Hm & _); try (unfold maxInt; lia); try reflexivity; [discriminate| |].
  - apply (@both_statements (@env_unicode example_env) "x" ">=" "10" "x" "!=" "NonBlanks"); split;
      apply (bool_decide_unpack _); reflexivity.
  - exists xlsx', fc. split; [exact E|]. split; [exact Ef|exact Hm].
Defined.

Lemma AutoFilter_resets_properties_witness :
  exists xlsx', AutoFilter (H := example_env) "Sheet1" "A1" "D9" "" (example_file (gozero <| xlsxWorksheet_SheetPr :=
      Some ((gozero : xlsxSheetPr) <| xlsxSheetPr_CodeName := "Module1" |>) |>)) =
      Ret (None, with_sheet (example_file gozero) "xl/worksheets/sheet1.xml" xlsx') /\
    GetSheetPrOptions (H := example_env) "Sheet1" [CodeName ""] (with_sheet (example_file gozero) "xl/worksheets/sheet1.xml" xlsx') =
      Ret (ok [CodeName ""], with_sheet (example_file gozero) "xl/worksheets/sheet1.xml" xlsx').
Proof.
  destruct (@AutoFilter_resets_properties example_env _ "Sheet1" _ _ "A1" "D9" 1 1 4 9 ""
    (example_loaded (gozero <| xlsxWorksheet_SheetPr := Some ((gozero : xlsxSheetPr) <| xlsxSheetPr_CodeName := "Module1" |>) |>)))
    as (xlsx' & E & _ & Eg); try (unfold maxInt; lia); try reflexivity.
  exists xlsx'. split; [exact E|exact Eg].
Defined.

Lemma AutoFilter_error_replaces_filter_witness :
  exists xlsx' fc, AutoFilter (H := filter_env "B" "x >=") "Sheet1" "A1" "D9" "" (example_file gozero) =
      Ret (Some (ErrTextArg "incorrect number of tokens in criteria '%s'" "x >="),
           with_sheet (example_file gozero) "xl/worksheets/sheet1.xml" xlsx') /\
    xlsxWorksheet_AutoFilter xlsx' = Some (mk_xlsxAutoFilter "A1:D9" (Some fc)) /\
    forall listed holds, column_meaning listed holds fc = true.
Proof.
  destruct (@AutoFilter_error_replaces_filter (filter_env "B" "x >=") (example_file gozero) "Sheet1" _ _ "A1" "D9" 1 1 4 9 "" 2
    (example_loaded gozero)) as (xlsx' & fc & E & Ef & Hm); try (unfold maxInt; lia); try reflexivity; try discriminate;
    [apply (bool_decide_unpack _); reflexivity|].
  exists xlsx', fc. split; [exact E|]. split; [exact Ef|exact Hm].
Defined.

Lemma AddTable_missing_sheet_panics_witness :
  AddTable (H := example_env) "Nowhere" "A1" "B3" "" (example_file gozero) = Panic.
Proof.
  apply (@AddTable_missing_sheet_panics example_env (example_file gozero) "Nowhere" "A1" "B3" 1 1 2 3 ""); reflexivity.
Defined.
