(* ===== verification/Comment.v ===== *)
(** Comments ([comment.go]): adding a comment to a cell, with the comments part,
    the VML drawing that shows it and the relationships of the sheet, and reading
    the comments of all sheets. *)
From S2P Require Export Parts.

Definition newline : ascii := ascii_of_N 10.

Section comments.
Context `{GoEnv}.

Definition parseFormatCommentsSet (formatSet : string) : formatComment * option goerr :=
  json_Unmarshal formatSet (mk_formatComment "Author:" " ").

(** ** Reading *)

Definition getSheetComments (sheetID : Z) : M string :=
  o ← workSheetRelsReader (sheet_rels_file sheetID);
  mret (match o with
        | Some sheetRels =>
            match List.find (fun v => bool_decide (xlsxWorkbookRelation_Type v = SourceRelationshipComments))
                    (xlsxWorkbookRels_Relationships sheetRels) with
            | Some v => xlsxWorkbookRelation_Target v
            | None => ""
            end
        | None => ""
        end).

(** A comment as it is returned: the texts of its runs are joined. *)
Definition sheet_comment (authors : list xlsxAuthor) (comment : xlsxComment) : outcome Comment :=
  author ← (if xlsxComment_AuthorID comment <? zlen authors
            then a ← list_get authors (xlsxComment_AuthorID comment); Ret (xlsxAuthor_Author a)
            else Ret "");
  Ret (mk_Comment author (xlsxComment_AuthorID comment) (xlsxComment_Ref comment)
         (foldl (fun text r => text +:+ xlsxR_T r) "" (xlsxText_R (xlsxComment_Text comment)))).

Definition comment_list (d : xlsxComments) : list xlsxComment := xlsxCommentList_Comment (xlsxComments_CommentList d).

Definition sheet_comments (d : xlsxComments) : outcome (list Comment) :=
  mapM (sheet_comment (xlsxComments_Authors d)) (comment_list d).

Fixpoint get_comments (l : list (string * string)) (comments : gmap string (list Comment))
    : M (gmap string (list Comment)) :=
  match l with
  | [] => mret comments
  | (n, _) :: rest =>
      index ← GetSheetIndex n;
      target ← getSheetComments index;
      o ← commentsReader ("xl" +:+ strings_TrimPrefix target "..");
      match o with
      | Some d => c ← lift (sheet_comments d); get_comments rest (<[n := c]> comments)
      | None => get_comments rest comments
      end
  end.

Definition GetComments : M (gmap string (list Comment)) :=
  f ← get; get_comments (range_map (File_sheetMap f)) ∅.

(** ** Adding *)

Definition comment_run (bold text : string) : xlsxR :=
  mk_xlsxR (Some ((gozero : xlsxRPr)
    <| xlsxRPr_B := bold |>
    <| xlsxRPr_Sz := Some (mk_attrValFloat (f64_of_int 9)) |>
    <| xlsxRPr_Color := Some ((gozero : xlsxColor) <| xlsxColor_Indexed := 81 |>) |>
    <| xlsxRPr_RFont := Some (mk_attrValString "Calibri") |>
    <| xlsxRPr_Family := Some (mk_attrValInt 2) |>)) text.

(** A text cut at a number of bytes. *)
Definition cut (n : Z) (s : string) : string := if n <? len s then str_take (Z.to_nat n) s else s.

Definition new_comment (cell : string) (formatSet : formatComment) : xlsxComment :=
  mk_xlsxComment cell 0
    (mk_xlsxText [comment_run " " (cut 255 (formatComment_Author formatSet));
                  comment_run "" (cut 32512 (formatComment_Text formatSet))]).

Definition addComment (commentsXML cell : string) (formatSet : formatComment) : M unit :=
  o ← commentsReader commentsXML;
  let comments := match o with
                  | Some c => c
                  | None => (gozero : xlsxComments)
                      <| xlsxComments_Authors := [mk_xlsxAuthor (formatComment_Author formatSet)] |>
                  end in
  let comments := comments <| xlsxComments_CommentList ::= fun l =>
    l <| xlsxCommentList_Comment ::= fun c => c ++ [new_comment cell formatSet] |> |> in
  modify (fun f => f <| File_Comments ::= <[commentsXML := comments]> |>).

Definition new_vml (commentID : Z) : vmlDrawing :=
  (gozero : vmlDrawing)
    <| vmlDrawing_XMLNSv := "urn:schemas-microsoft-com:vml" |>
    <| vmlDrawing_XMLNSo := "urn:schemas-microsoft-com:office:office" |>
    <| vmlDrawing_XMLNSx := "urn:schemas-microsoft-com:office:excel" |>
    <| vmlDrawing_XMLNSmv := "http://macVmlSchemaUri" |>
    <| vmlDrawing_Shapelayout := Some (mk_xlsxShapelayout "edit" (Some (mk_xlsxIDmap "edit" commentID))) |>
    <| vmlDrawing_Shapetype := Some ((gozero : xlsxShapetype)
         <| xlsxShapetype_ID := "_x0000_t202" |>
         <| xlsxShapetype_Coordsize := "21600,21600" |>
         <| xlsxShapetype_Spt := 202 |>
         <| xlsxShapetype_Path := "m0,0l0,21600,21600,21600,21600,0xe" |>
         <| xlsxShapetype_Stroke := Some (mk_xlsxStroke "miter") |>
         <| xlsxShapetype_VPath := Some (mk_vPath "t" "miter") |>) |>.

(** The note's box: where it is and to which cell it belongs, from zero. *)
Definition note_data (xAxis yAxis lineCount colCount : Z) : xClientData :=
  (gozero : xClientData)
    <| xClientData_ObjectType := "Note" |>
    <| xClientData_Anchor :=
         strconv_Itoa (iadd 1 yAxis) +:+ ", 23, " +:+ strconv_Itoa (iadd 1 xAxis) +:+ ", 0, " +:+
         strconv_Itoa (iadd (iadd 2 yAxis) lineCount) +:+ ", " +:+ strconv_Itoa (iadd colCount yAxis) +:+ ", " +:+
         strconv_Itoa (iadd (iadd 2 xAxis) lineCount) +:+ ", 5" |>
    <| xClientData_AutoFill := "True" |>
    <| xClientData_Row := xAxis |>
    <| xClientData_Column := yAxis |>.

Definition note_shape (xAxis yAxis lineCount colCount : Z) : encodeShape :=
  (gozero : encodeShape)
    <| encodeShape_Fill := Some (mk_vFill (-180) "#fbfe82" "gradient" (Some (mk_oFill "view" "gradientUnscaled"))) |>
    <| encodeShape_Shadow := Some (mk_vShadow "t" "black" "t") |>
    <| encodeShape_Path := Some ((gozero : vPath) <| vPath_Connecttype := "none" |>) |>
    <| encodeShape_Textbox := Some (mk_vTextbox "mso-direction-alt:auto" (Some (mk_xlsxDiv "text-align:left"))) |>
    <| encodeShape_ClientData := Some (note_data xAxis yAxis lineCount colCount) |>.

Definition vml_shape (val : string) : xlsxShape :=
  (gozero : xlsxShape)
    <| xlsxShape_ID := "_x0000_s1025" |>
    <| xlsxShape_Type := "#_x0000_t202" |>
    <| xlsxShape_Style := "position:absolute;73.5pt;width:108pt;height:59.25pt;z-index:1;visibility:hidden" |>
    <| xlsxShape_Fillcolor := "#fbf6d6" |>
    <| xlsxShape_Strokecolor := "#edeaa1" |>
    <| xlsxShape_Val := val |>.

(** The content of an encoded shape, without its element. *)
Definition shape_text (sp : encodeShape) : outcome string :=
  let s := xml_Marshal sp in str_slice s 13 (len s - 14).

Definition addDrawingVML (commentID : Z) (drawingVML cell : string) (lineCount colCount : Z) : M (option goerr) :=
  let! (col, row) := mret (CellNameToCoordinates cell) in
  let yAxis := isub col 1 in
  let xAxis := isub row 1 in
  f ← get;
  let vml := match File_VMLDrawing f !! drawingVML with Some vml => vml | None => new_vml commentID end in
  val ← lift (shape_text (note_shape xAxis yAxis lineCount colCount));
  d ← decodeVMLDrawingReader drawingVML;
  let old := match d with Some d => (fun v => vml_shape (decodeShape_Val v)) <$> decodeVmlDrawing_Shape d | None => [] end in
  let vml := vml <| vmlDrawing_Shape ::= fun l => (l ++ old) ++ [vml_shape val] |> in
  modify (fun f => f <| File_VMLDrawing ::= <[drawingVML := vml]> |>);;
  mret None.

(** The longest line; the author counts for the first one, if it is longer than
    none. *)
Definition comment_columns (formatSet : formatComment) : Z :=
  foldl (fun colCount p =>
    let ll := len p.2 in
    if colCount <? ll
    then if Nat.eqb p.1 0 then iadd ll (len (formatComment_Author formatSet)) else ll
    else colCount) 0 (imap pair (strings_Split (formatComment_Text formatSet) newline)).

Definition vml_target (commentID : Z) : string := "../drawings/vmlDrawing" +:+ strconv_Itoa commentID +:+ ".vml".
Definition comments_target (commentID : Z) : string := "../comments" +:+ strconv_Itoa commentID +:+ ".xml".
Definition comments_part (commentID : Z) : string := "xl/comments" +:+ strconv_Itoa commentID +:+ ".xml".

(** The number and the VML part of the comments of a sheet: those of its legacy
    drawing, or new ones with new relationships. *)
Definition prepare_comments (sheet : string) (legacy : option xlsxLegacyDrawing) (commentID : Z) : M (Z * string) :=
  match legacy with
  | Some d =>
      target ← getSheetRelationshipsTargetByID sheet (xlsxLegacyDrawing_RID d);
      mret (atoi_ignore (strings_TrimSuffix (strings_TrimPrefix target "../drawings/vmlDrawing") ".vml"),
            strings_Replace target ".." "xl")
  | None =>
      rID ← addSheetRelationships sheet SourceRelationshipDrawingVML (vml_target commentID) "";
      addSheetRelationships sheet SourceRelationshipComments (comments_target commentID) "";;
      addSheetLegacyDrawing sheet rID;;
      mret (commentID, "xl/drawings/vmlDrawing" +:+ strconv_Itoa commentID +:+ ".vml")
  end.

Definition AddComment (sheet cell format : string) : M (option goerr) :=
  let! formatSet := mret (parseFormatCommentsSet format) in
  let! p := workSheetReader sheet in
  count ← countComments;
  xlsx ← deref p;
  '(commentID, drawingVML) ← prepare_comments sheet (xlsxWorksheet_LegacyDrawing xlsx) (count + 1);
  addComment (comments_part commentID) cell formatSet;;
  try! addDrawingVML commentID drawingVML cell (strings_Count (formatComment_Text formatSet) newline + 1)
         (comment_columns formatSet) in
  addContentTypePart commentID "comments";;
  mret None.

End comments.

(** ** What is shown

    The comments of a sheet as a function of the parts that the caches show. *)

Section comment_lemmas.
Context `{GoEnv}.

Definition is_comments (v : xlsxWorkbookRelation) : bool :=
  bool_decide (xlsxWorkbookRelation_Type v = SourceRelationshipComments).

(** The part with the comments of the sheet with an index. *)
Definition comments_path (f : File) (index : Z) : string :=
  "xl" +:+ strings_TrimPrefix
    (from_option xlsxWorkbookRelation_Target ""
       (List.find is_comments (relations_of (part_at sheet_rels_cache (sheet_rels_file index) f)))) "..".

Definition shown_comments (o : option xlsxComments) : outcome (option (list Comment)) :=
  match o with Some d => c ← sheet_comments d; Ret (Some c) | None => Ret None end.

Definition comments_of (f : File) (index : Z) : outcome (option (list Comment)) :=
  shown_comments (part_at comments_cache (comments_path f index) f).

#[export] Instance comments_of_proper : Proper ((≡) ==> (=) ==> (=)) comments_of.
Proof. intros f g Hfg i ? <-. unfold comments_of, comments_path. by rewrite (sheet_rels_at_proper _ _ _ Hfg), (comments_at_proper _ _ _ Hfg). Qed.

Lemma getSheetComments_view f index :
  exists f', getSheetComments index f =
      Ret (from_option xlsxWorkbookRelation_Target ""
             (List.find is_comments (relations_of (part_at sheet_rels_cache (sheet_rels_file index) f))), f') /\ f' ≡ f.
Proof.
  unfold getSheetComments. destruct (workSheetRelsReader_view (sheet_rels_file index) f) as (f' & E & Hv).
  rewrite (bind_Ret _ _ _ _ _ E). exists f'. split; [|done]. destruct (part_at _ _ f) as [c|]; [|done]. cbn.
  by fold is_comments; destruct (List.find _ _).
Qed.

(** The loop of [GetComments] without the state. *)
Definition collect (shown : string -> outcome (option (list Comment))) (l : list (string * string))
    (m : gmap string (list Comment)) : outcome (gmap string (list Comment)) :=
  foldM (fun m p => o ← shown p.1; Ret (match o with Some c => <[p.1 := c]> m | None => m end)) m l.

(** The index that the workbook gives to a name. *)
Definition index_in (content : xlsxWorkbook) (rels : xlsxWorkbookRels) (n : string) : Z :=
  sheet_index_of n (wb_sheets content) (xlsxWorkbookRels_Relationships rels).

Lemma get_comments_collect f0 content rels l :
  wb_loaded f0 content rels -> forall m f, f ≡ f0 ->
  match collect (fun n => comments_of f0 (index_in content rels n)) l m with
  | Ret m' => exists f', get_comments l m f = Ret (m', f') /\ f' ≡ f0
  | Panic => get_comments l m f = Panic
  end.
Proof.
  intros Hwb. set (index := index_in content rels).
  induction l as [|[n p] l IH]; intros m f Hf; [by exists f|].
  unfold collect. cbn [foldM fst]. fold (collect (fun n => comments_of f0 (index n))). cbn [get_comments].
  assert (GetSheetIndex n f = Ret (index n, f)) as E0.
  { unfold GetSheetIndex. rewrite <- Hf in Hwb. by rewrite (bind_Ret _ _ _ _ _ (sheets_and_rels_loaded _ _ _ Hwb)). }
  rewrite (bind_Ret _ _ _ _ _ E0).
  destruct (getSheetComments_view f (index n)) as (f1 & E1 & Hv1). rewrite (bind_Ret _ _ _ _ _ E1).
  fold (comments_path f (index n)).
  destruct (commentsReader_view (comments_path f (index n)) f1) as (f2 & E2 & Hv2).
  rewrite (bind_Ret _ _ _ _ _ E2), (comments_at_proper _ _ _ Hv1).
  assert (f2 ≡ f0) as Hv by (by rewrite Hv2, Hv1).
  rewrite <- (comments_of_proper _ _ Hf _ _ eq_refl). unfold comments_of, shown_comments.
  destruct (part_at comments_cache _ f) as [d|]; [|apply (IH m f2 Hv)].
  destruct (sheet_comments d) as [c|]; [|done]. apply (IH _ f2 Hv).
Qed.

Lemma collect_lookup shown l : forall m m',
  collect shown l m = Ret m' ->
  (forall n, n ∈ l.*1 -> exists o, shown n = Ret o /\ m' !! n = match o with Some c => Some c | None => m !! n end) /\
  (forall n, n ∉ l.*1 -> m' !! n = m !! n).
Proof.
  induction l as [|[n p] l IH]; intros m m' E.
  { injection E as <-. split; [|done]. by intros n ?%not_elem_of_nil. }
  unfold collect in E. cbn [foldM fst] in E. destruct (shown n) as [o|] eqn:En; [|done]. cbn in E.
  destruct (IH _ _ E) as [H1 H2]. split.
  - intros n' Hn'. destruct (decide (n' ∈ l.*1)) as [Hin|Hout].
    + destruct (H1 n' Hin) as (o' & Eo & Em). exists o'. split; [done|]. rewrite Em. destruct o' as [c'|]; [done|].
      destruct o as [c|]; [|done]. apply lookup_insert_ne. congruence.
    + apply elem_of_cons in Hn' as [->|?]; [|done]. exists o. split; [done|]. rewrite H2 by done.
      destruct o; [apply lookup_insert_eq|done].
  - intros n' Hn'. apply not_elem_of_cons in Hn' as [Hne Hout]. cbn in Hne. rewrite H2 by done.
    destruct o; [by apply lookup_insert_ne|done].
Qed.

Lemma collect_total shown l : forall m,
  (forall n, n ∈ l.*1 -> exists o, shown n = Ret o) -> exists m', collect shown l m = Ret m'.
Proof.
  induction l as [|[n p] l IH]; intros m Hs; [by eexists|]. unfold collect. cbn [foldM fst].
  destruct (Hs n ltac:(left)) as [o ->]. cbn. apply IH. intros n' Hn'. apply Hs. by right.
Qed.

(** [GetComments] returns a map exactly when it has the comments of every sheet. *)
Record shows (f : File) (content : xlsxWorkbook) (rels : xlsxWorkbookRels) (m : gmap string (list Comment)) : Prop := {
  shows_sheet n : is_Some (File_sheetMap f !! n) -> comments_of f (index_in content rels n) = Ret (m !! n);
  shows_none n : File_sheetMap f !! n = None -> m !! n = None
}.

Lemma range_keys f n : range_map_ok -> n ∈ (range_map (File_sheetMap f)).*1 <-> is_Some (File_sheetMap f !! n).
Proof.
  intros Hr. rewrite (Hr _ _ _ _ (File_sheetMap f)), list_elem_of_fmap. split.
  - intros ([k p] & -> & Hin%elem_of_map_to_list). by eexists.
  - intros [p Hp]. exists (n, p). split; [done|by apply elem_of_map_to_list].
Qed.

Lemma GetComments_shows f content rels m :
  range_map_ok -> wb_loaded f content rels ->
  (exists f', GetComments f = Ret (m, f')) <-> shows f content rels m.
Proof.
  intros Hr Hwb.
  pose proof (get_comments_collect f content rels (range_map (File_sheetMap f)) Hwb ∅ f (reflexivity f)) as Hc.
  set (shown := fun n => comments_of f (index_in content rels n)) in Hc.
  assert (GetComments f = get_comments (range_map (File_sheetMap f)) ∅ f) as -> by done.
  assert (forall m', collect shown (range_map (File_sheetMap f)) ∅ = Ret m' -> shows f content rels m') as Hm.
  { intros m' E. destruct (collect_lookup _ _ _ _ E) as [H1 H2]. split; intros n Hn.
    - destruct (H1 n) as (o & Eo & Em); [by apply range_keys|]. unfold shown in Eo. by rewrite Eo, Em; destruct o.
    - rewrite H2; [done|]. rewrite range_keys, Hn by done. by intros [? ?]. }
  split.
  - intros [f' E]. destruct (collect _ _ _) as [m'|]; [|congruence]. destruct Hc as (f2 & E2 & _).
    assert (m' = m) as <- by congruence. by apply Hm.
  - intros [Hs Hn]. destruct (collect_total shown (range_map (File_sheetMap f)) ∅) as [m' E].
    { intros n Hin. exists (m !! n). apply Hs. by apply range_keys. }
    rewrite E in Hc. destruct Hc as (f' & E' & _). exists f'. rewrite E'. do 2 f_equal.
    destruct (Hm m' E) as [Hs' Hn']. apply map_eq. intros n. destruct (File_sheetMap f !! n) as [p|] eqn:Ep.
    + assert (Ret (m' !! n) = Ret (m !! n)) as [= ->] by (rewrite <- Hs', <- Hs by (rewrite Ep; by eexists); done). done.
    + by rewrite Hn', Hn.
Qed.

(** ** Adding *)

(** What reading the comments depends on. *)
Record same_comments (f g : File) : Prop := mk_same_comments {
  sc_sheetMap : File_sheetMap f = File_sheetMap g;
  sc_sheet : File_Sheet f = File_Sheet g;
  sc_workbook : File_WorkBook f = File_WorkBook g;
  sc_workbook_rels : File_WorkBookRels f = File_WorkBookRels g;
  sc_rels path : part_at sheet_rels_cache path f = part_at sheet_rels_cache path g;
  sc_comments path : part_at comments_cache path f = part_at comments_cache path g
}.

#[export] Instance same_comments_preorder : PreOrder same_comments.
Proof. split; [by intros f; split|]. intros f g h [] []. split; intros; etrans; eauto. Qed.

#[export] Instance view_same_comments : subrelation (≡@{File}) same_comments.
Proof. intros f g Hfg. split; [by eapply view_rest..|apply Hfg|apply Hfg]. Qed.

Lemma comments_of_same f g index : same_comments f g -> comments_of f index = comments_of g index.
Proof. intros [_ _ _ _ Hr Hc]. unfold comments_of, comments_path. by rewrite Hr, Hc. Qed.

Definition with_comment (cell : string) (fs : formatComment) (o : option xlsxComments) : xlsxComments :=
  (default ((gozero : xlsxComments) <| xlsxComments_Authors := [mk_xlsxAuthor (formatComment_Author fs)] |>) o)
    <| xlsxComments_CommentList ::= fun l => l <| xlsxCommentList_Comment ::= fun c => c ++ [new_comment cell fs] |> |>.

Lemma addComment_ok f part cell fs :
  addComment part cell fs f =
    Ret (tt, pc_store comments_cache part (with_comment cell fs (part_at comments_cache part f)) f).
Proof.
  unfold addComment, commentsReader. destruct (part_reader_at comments_cache part f) as (f' & E & Hf').
  rewrite (bind_Ret _ _ _ _ _ E).
  etrans; [|apply (store_after_reading comments_cache part _ _ f f' (store_comments_twice part) Hf')].
  by destruct (part_at comments_cache part f).
Qed.

Lemma shape_text_total sp : marshals_as encodeShape "encodeShape" -> exists body, shape_text sp = Ret body.
Proof.
  intros Hm. destruct (Hm sp) as [body E]. exists body. unfold shape_text. rewrite E.
  apply (str_slice_inner "<encodeShape>" body "</encodeShape>").
Qed.

(** The shapes of a VML part: those it had, those that are decoded from the
    part, and the new one. *)
Definition decoded_shapes (part : string) (f : File) : list xlsxShape :=
  match part_at vml_cache part f with
  | Some d => (fun v => vml_shape (decodeShape_Val v)) <$> decodeVmlDrawing_Shape d
  | None => []
  end.

Lemma addDrawingVML_ok f id part cell lineCount colCount col row :
  CellNameToCoordinates cell = ok (col, row) -> marshals_as encodeShape "encodeShape" ->
  exists val f1, shape_text (note_shape (isub row 1) (isub col 1) lineCount colCount) = Ret val /\ f1 ≡ f /\
    addDrawingVML id part cell lineCount colCount f =
      Ret (None, f1 <| File_VMLDrawing := <[part := (default (new_vml id) (File_VMLDrawing f !! part))
        <| vmlDrawing_Shape ::= fun l => (l ++ decoded_shapes part f) ++ [vml_shape val] |>]> (File_VMLDrawing f) |>).
Proof.
  intros Hc Hm. destruct (shape_text_total (note_shape (isub row 1) (isub col 1) lineCount colCount) Hm) as [val Ev].
  destruct (part_reader_view vml_cache part f (cached_vml part f)) as (f1 & E1 & Hv).
  exists val, f1. split; [done|]. split; [done|]. unfold addDrawingVML. rewrite Hc.
  rewrite (bind_Ret _ _ f (ok (col, row)) f) by done. cbn [fst snd]. rewrite (bind_Ret get _ f f f) by done.
  rewrite Ev, bind_lift. rewrite (bind_Ret _ _ _ _ _ E1). unfold decoded_shapes.
  assert (File_VMLDrawing f1 = File_VMLDrawing f) as <- by (by eapply view_rest).
  by destruct (part_at vml_cache part f).
Qed.

(** The number of the comments of a sheet: a sheet with a legacy drawing has
    relationships to the VML part and to the comments with the number, any other
    gets the number after those in use. *)
Definition comments_numbered (f : File) (sheet : string) (xlsx : xlsxWorksheet) (id : Z) : Prop :=
  let rels := relations_of (part_at sheet_rels_cache (sheet_rels_path f sheet) f) in
  match xlsxWorksheet_LegacyDrawing xlsx with
  | Some d =>
      int64_range id /\
      from_option xlsxWorkbookRelation_Target "" (find_relationship (xlsxLegacyDrawing_RID d) rels) = vml_target id /\
      from_option xlsxWorkbookRelation_Target "" (List.find is_comments rels) = comments_target id
  | None =>
      id = larger (count_names "xl/comments" (File_XLSX f)) (count_names "xl/comments" (File_Comments f)) + 1 /\
      int64_range id /\ List.find is_comments rels = None /\
      Forall (fun r => xlsxWorkbookRelation_ID r <> "rId" +:+ strconv_Itoa (zlen rels + 1)) rels
  end.

Lemma vml_target_number id :
  int64_range id -> atoi_ignore (strings_TrimSuffix (strings_TrimPrefix (vml_target id) "../drawings/vmlDrawing") ".vml") = id.
Proof. intros Hid. unfold vml_target, atoi_ignore. by rewrite strings_TrimPrefix_app, strings_TrimSuffix_app, Atoi_Itoa. Qed.

Lemma comments_target_part id : "xl" +:+ strings_TrimPrefix (comments_target id) ".." = comments_part id.
Proof.
  change (comments_target id) with (".." +:+ ("/comments" +:+ strconv_Itoa id +:+ ".xml")). by rewrite strings_TrimPrefix_app.
Qed.

Lemma find_app {A} (p : A -> bool) l k : List.find p l = None -> List.find p (l ++ k) = List.find p k.
Proof. induction l as [|x l IH]; [done|]. cbn. destruct (p x); [done|apply IH]. Qed.

Lemma comments_numbered_same f g sheet xlsx id :
  xlsxWorksheet_LegacyDrawing xlsx <> None -> File_sheetMap g = File_sheetMap f ->
  (forall p, part_at sheet_rels_cache p g = part_at sheet_rels_cache p f) ->
  comments_numbered f sheet xlsx id -> comments_numbered g sheet xlsx id.
Proof.
  intros Hl Hm Hr. unfold comments_numbered, sheet_rels_path. rewrite Hm, Hr.
  by destruct (xlsxWorksheet_LegacyDrawing xlsx).
Qed.

(** After the preparation the relationships of the sheet lead to the part with
    the number, those of other sheets and all comments are what they were. *)
Lemma prepare_comments_ok f sheet path xlsx id n :
  loaded f sheet path xlsx -> comments_numbered f sheet xlsx id ->
  (xlsxWorksheet_LegacyDrawing xlsx = None -> n = id) ->
  exists vml f1 xlsx1 d, prepare_comments sheet (xlsxWorksheet_LegacyDrawing xlsx) n f = Ret ((id, vml), f1) /\
    loaded f1 sheet path xlsx1 /\ xlsx1 = xlsx <| xlsxWorksheet_LegacyDrawing := Some d |> /\
    comments_numbered f1 sheet xlsx1 id /\
    File_sheetMap f1 = File_sheetMap f /\ File_WorkBook f1 = File_WorkBook f /\ File_WorkBookRels f1 = File_WorkBookRels f /\
    (forall p, p <> path -> File_Sheet f1 !! p = File_Sheet f !! p) /\
    (forall p, p <> sheet_rels_path f sheet -> part_at sheet_rels_cache p f1 = part_at sheet_rels_cache p f) /\
    (forall p, part_at comments_cache p f1 = part_at comments_cache p f).
Proof.
  intros Hl Hid Hn. pose proof Hid as Hid'. unfold comments_numbered in Hid. cbv zeta in Hid.
  destruct (xlsxWorksheet_LegacyDrawing xlsx) as [d|] eqn:El.
  - destruct Hid as (Hrange & Hvml & Hcom). unfold prepare_comments.
    destruct (getSheetRelationshipsTargetByID_view f sheet (xlsxLegacyDrawing_RID d)) as (f1 & E1 & Hv).
    rewrite (bind_Ret _ _ _ _ _ E1), Hvml, vml_target_number by done.
    destruct (view_same_comments f1 f Hv) as [H1 H2 H3 H4 H5 H6].
    exists (strings_Replace (vml_target id) ".." "xl"), f1, xlsx, d. split; [done|].
    split; [unfold loaded; by rewrite H1, H2|]. split; [by destruct xlsx; cbn in *; subst|].
    split.
    { unfold comments_numbered. rewrite El. unfold sheet_rels_path in *. by rewrite H1, H5. }
    split_and!; [done..|intros p _; by rewrite H2|intros; apply H5|apply H6].
  - destruct Hid as (_ & Hrange & Hcom & Hnew). specialize (Hn eq_refl) as ->. unfold prepare_comments.
    rewrite (bind_Ret _ _ _ _ _ (addSheetRelationships_ok f sheet _ _ _)).
    set (rp := sheet_rels_path f sheet). set (o := part_at sheet_rels_cache rp f) in *.
    set (r1 := next_relation _ _ _ o). set (f1 := pc_store sheet_rels_cache rp _ f).
    rewrite (bind_Ret _ _ _ _ _ (addSheetRelationships_ok f1 sheet _ _ _)).
    assert (sheet_rels_path f1 sheet = rp) as -> by done.
    assert (part_at sheet_rels_cache rp f1 = Some (with_relation r1 o)) as -> by apply (part_at_stored sheet_rels_cache).
    set (r2 := next_relation _ _ _ _). set (f2 := pc_store sheet_rels_cache rp _ f1).
    assert (loaded f2 sheet path xlsx) as Hl2 by done.
    unfold addSheetLegacyDrawing. rewrite (bind_Ret _ _ _ _ _ (update_sheet_loaded f2 sheet path xlsx _ Hl2)).
    eexists _, _, _, _. split; [done|]. split; [by apply (with_sheet_loaded _ _ _ xlsx)|]. split; [done|].
    assert (forall p x, part_at sheet_rels_cache p (with_sheet f2 path x) = part_at sheet_rels_cache p f2) as Hw by done.
    split.
    { unfold comments_numbered.
      assert (forall d, xlsxWorksheet_LegacyDrawing (xlsx <| xlsxWorksheet_LegacyDrawing := d |>) = d) as -> by done.
      cbn [xlsxLegacyDrawing_RID].
      change (sheet_rels_path (with_sheet f2 path _) sheet) with rp.
      rewrite Hw. unfold f2. rewrite (part_at_stored sheet_rels_cache).
      change (relations_of (Some (with_relation r2 (Some (with_relation r1 o))))) with ((relations_of o ++ [r1]) ++ [r2]).
      split; [done|]. split.
      - rewrite find_relationship_app. change ("rId" +:+ strconv_Itoa (zlen (relations_of o) + 1)) with (xlsxWorkbookRelation_ID r1).
        by rewrite (find_relationship_new _ _ r1).
      - by rewrite <- app_assoc, find_app. }
    split_and!; [done..| | |done].
    + intros p Hp. cbn. by rewrite lookup_insert_ne.
    + intros p Hp. rewrite Hw. unfold f2, f1. by rewrite !part_at_stored_ne by done.
Qed.

Lemma mapM_snoc {A B} (g : A -> outcome B) l x :
  mapM g (l ++ [x]) = c ← mapM g l; y ← g x; Ret (c ++ [y]).
Proof.
  induction l as [|z l IH]; cbn.
  - by destruct (g x).
  - destruct (g z) as [y|]; [|done]. cbn in *. rewrite IH. destruct (mapM g l); [|done]. cbn. by destruct (g x).
Qed.

(** The comment that is added to a part: its author is the first of the part. *)
Definition added_comment (o : option xlsxComments) (cell : string) (fs : formatComment) : Comment :=
  mk_Comment
    (match o with
     | Some d => from_option xlsxAuthor_Author "" (head (xlsxComments_Authors d))
     | None => formatComment_Author fs
     end) 0 cell (cut 255 (formatComment_Author fs) +:+ cut 32512 (formatComment_Text fs)).

Lemma with_comment_shown o cell fs old :
  shown_comments o = Ret old ->
  shown_comments (Some (with_comment cell fs o)) = Ret (Some (default [] old ++ [added_comment o cell fs])).
Proof.
  intros Ho. set (au := xlsxComments_Authors (with_comment cell fs o)).
  assert (sheet_comment au (new_comment cell fs) = Ret (added_comment o cell fs)) as En.
  { unfold sheet_comment, added_comment, au. destruct o as [d|]; cbn; [|done].
    destruct (xlsxComments_Authors d) as [|a l]; [done|]. rewrite zlen_cons.
    pose proof (zlen_nonneg l). replace (0 <? 1 + zlen l) with true by lia. done. }
  unfold shown_comments, sheet_comments. fold au.
  assert (comment_list (with_comment cell fs o) =
    from_option comment_list [] o ++ [new_comment cell fs]) as -> by by destruct o.
  rewrite mapM_snoc, En. destruct o as [d|].
  - change au with (xlsxComments_Authors d). unfold shown_comments, sheet_comments in Ho. cbn [from_option].
    destruct (mapM _ _); [|done]. injection Ho as <-. done.
  - injection Ho as <-. done.
Qed.

(** A sheet to which comments can be added, with the number of its comments part
    and the comments of all sheets: the sheet is in memory, the relationships of
    other sheets lead to other parts, and all comments can be read. *)
Record commentable (f : File) (sheet path : string) (xlsx : xlsxWorksheet) (content : xlsxWorkbook) (rels : xlsxWorkbookRels)
    (id : Z) (m : gmap string (list Comment)) : Prop := mk_commentable {
  cm_loaded : loaded f sheet path xlsx;
  cm_sheet : trimSheetName sheet = sheet;
  cm_workbook : wb_loaded f content rels;
  cm_rels : sheet_rels_path f sheet = sheet_rels_file (index_in content rels sheet);
  cm_others n : is_Some (File_sheetMap f !! n) -> n <> sheet ->
    sheet_rels_file (index_in content rels n) <> sheet_rels_path f sheet /\
    comments_path f (index_in content rels n) <> comments_part id;
  cm_number : comments_numbered f sheet xlsx id;
  cm_shows : exists f0, GetComments f = Ret (m, f0);
  cm_part : exists old, shown_comments (part_at comments_cache (comments_part id) f) = Ret old
}.

(** The part of the sheet, when it has one already, holds its comments. *)
Lemma commentable_part f sheet path xlsx content rels id m :
  range_map_ok -> commentable f sheet path xlsx content rels id m -> xlsxWorksheet_LegacyDrawing xlsx <> None ->
  shown_comments (part_at comments_cache (comments_part id) f) = Ret (m !! sheet).
Proof.
  intros Hr [Hl Ht Hwb Hrels _ Hid Hs _] Hleg. apply GetComments_shows with (content := content) (rels := rels) in Hs; [|done..].
  rewrite <- (shows_sheet _ _ _ _ Hs); [|by rewrite <- Ht, (proj1 Hl); eexists].
  unfold comments_of, comments_path. rewrite <- Hrels. unfold comments_numbered in Hid.
  destruct (xlsxWorksheet_LegacyDrawing xlsx) as [d|]; [|done]. destruct Hid as (_ & _ & ->). by rewrite comments_target_part.
Qed.

(** Storing the comments of a sheet whose relationships lead to the part. *)
Lemma commentable_stored f f1 f2 sheet path xlsx xlsx1 content rels id m d c :
  let part := comments_part id in
  range_map_ok -> wb_loaded f content rels -> loaded f sheet path xlsx -> trimSheetName sheet = sheet ->
  (exists f0, GetComments f = Ret (m, f0)) ->
  sheet_rels_path f sheet = sheet_rels_file (index_in content rels sheet) ->
  (forall n, is_Some (File_sheetMap f !! n) -> n <> sheet ->
     sheet_rels_file (index_in content rels n) <> sheet_rels_path f sheet /\
     comments_path f (index_in content rels n) <> part) ->
  File_sheetMap f1 = File_sheetMap f -> File_WorkBook f1 = File_WorkBook f -> File_WorkBookRels f1 = File_WorkBookRels f ->
  (forall p, p <> sheet_rels_path f sheet -> part_at sheet_rels_cache p f1 = part_at sheet_rels_cache p f) ->
  (forall p, part_at comments_cache p f1 = part_at comments_cache p f) ->
  loaded f1 sheet path xlsx1 -> is_Some (xlsxWorksheet_LegacyDrawing xlsx1) -> comments_numbered f1 sheet xlsx1 id ->
  f2 = pc_store comments_cache part d f1 -> shown_comments (Some d) = Ret (Some c) ->
  commentable f2 sheet path xlsx1 content rels id (<[sheet := c]> m).
Proof.
  intros part Hr Hwb Hl Ht [f0 Hs] Hrels Hothers Hmap Hw Hwr Hr1 Hc1 Hl1 [ld Hleg] Hid1 -> Hshow.
  set (f2 := pc_store comments_cache part d f1).
  assert (wb_loaded f2 content rels) as Hwb2 by (destruct Hwb as [W1 W2]; split; [by rewrite <- W1|by rewrite <- W2]).
  assert (sheet_rels_path f2 sheet = sheet_rels_path f sheet) as Hrp by (unfold sheet_rels_path; by rewrite <- Hmap).
  assert (forall p, part_at sheet_rels_cache p f2 = part_at sheet_rels_cache p f1) as Hr2 by done.
  assert (forall p, part_at comments_cache p f2 = if decide (p = part) then Some d else part_at comments_cache p f) as Hc2.
  { intros p. unfold f2. case_decide as Hp; [subst p; apply (part_at_stored comments_cache)|].
    by rewrite (part_at_stored_ne comments_cache), Hc1 by done. }
  assert (comments_path f2 (index_in content rels sheet) = part) as Hpath.
  { unfold comments_path. rewrite <- Hrels, Hr2. unfold comments_numbered in Hid1. rewrite Hleg in Hid1.
    assert (sheet_rels_path f1 sheet = sheet_rels_path f sheet) as E by exact Hrp. rewrite E in Hid1.
    destruct Hid1 as (_ & _ & ->). apply comments_target_part. }
  assert (forall n, is_Some (File_sheetMap f !! n) -> n <> sheet ->
    comments_path f2 (index_in content rels n) = comments_path f (index_in content rels n)) as Hpaths.
  { intros n Hn Hne. destruct (Hothers n Hn Hne) as [Hrn _]. unfold comments_path. by rewrite Hr2, Hr1. }
  pose proof (proj1 (GetComments_shows f content rels m Hr Hwb) (ex_intro _ _ Hs)) as [Hs1 Hs2].
  assert (File_sheetMap f2 = File_sheetMap f) as Hmap2 by exact Hmap.
  split; [done|done|done|by rewrite Hrp| |by apply (comments_numbered_same f1); [rewrite Hleg|..]| |].
  - intros n. rewrite Hmap2, Hrp. intros Hn Hne. rewrite Hpaths by done. by apply Hothers.
  - apply (GetComments_shows f2 content rels); [done..|]. split; intros n; rewrite Hmap2; intros Hn;
      (destruct (decide (n = sheet)) as [->|Hne]; [|rewrite lookup_insert_ne by done]).
    + unfold comments_of. by rewrite Hpath, Hc2, decide_True, lookup_insert_eq.
    + rewrite <- (Hs1 n Hn). unfold comments_of. rewrite Hpaths, Hc2, decide_False by (done || by apply Hothers). done.
    + destruct Hl as [Hl _]. rewrite Ht in Hl. congruence.
    + by apply Hs2.
  - exists (Some c). by rewrite Hc2, decide_True.
Qed.

End comment_lemmas.

(** ** Properties *)

Section comment_properties.
Context `{GoEnv}.

Lemma commentable_same f g sheet path xlsx content rels id m :
  range_map_ok -> same_comments g f -> xlsxWorksheet_LegacyDrawing xlsx <> None ->
  commentable f sheet path xlsx content rels id m -> commentable g sheet path xlsx content rels id m.
Proof.
  intros Hr [S1 S2 S3 S4 S5 S6] Hleg [Hl Ht Hwb Hrels Hothers Hid [f0 Hs] Hold].
  assert (wb_loaded g content rels) as Hwb' by (unfold wb_loaded; by rewrite S3, S4).
  assert (sheet_rels_path g sheet = sheet_rels_path f sheet) as Hrp by (unfold sheet_rels_path; by rewrite S1).
  assert (forall i, comments_path g i = comments_path f i) as Hp by (intros i; unfold comments_path; by rewrite S5).
  pose proof (proj1 (GetComments_shows f content rels m Hr Hwb) (ex_intro _ _ Hs)) as [H1 H2].
  split; [unfold loaded; by rewrite S1, S2|done|done|by rewrite Hrp| | | |by rewrite S6].
  - intros n. rewrite S1, Hrp, Hp. apply Hothers.
  - by apply (comments_numbered_same f).
  - apply (GetComments_shows g content rels); [done..|]. split; intros n; rewrite S1; [|apply H2].
    unfold comments_of. rewrite Hp, S6. apply H1.
Qed.

(** The comment is stored before the name of the cell is looked at. *)
Lemma AddComment_stored f sheet path xlsx content rels id m cell format fs :
  range_map_ok -> commentable f sheet path xlsx content rels id m -> parseFormatCommentsSet format = ok fs ->
  let o := part_at comments_cache (comments_part id) f in
  exists old vml f2 xlsx1 d,
    AddComment sheet cell format f =
      (try! addDrawingVML id vml cell (strings_Count (formatComment_Text fs) newline + 1) (comment_columns fs) in
       addContentTypePart id "comments";; mret None) f2 /\
    shown_comments o = Ret old /\ (xlsxWorksheet_LegacyDrawing xlsx <> None -> m !! sheet = old) /\
    xlsx1 = xlsx <| xlsxWorksheet_LegacyDrawing := Some d |> /\
    commentable f2 sheet path xlsx1 content rels id (<[sheet := default [] old ++ [added_comment o cell fs]]> m).
Proof.
  intros Hr Hcm Hfs o. pose proof (commentable_part _ _ _ _ _ _ _ _ Hr Hcm) as Hleg.
  destruct Hcm as [Hl Ht Hwb Hrels Hothers Hid [f0 Hs] [old Hold]]. fold o in Hold, Hleg.
  destruct (prepare_comments_ok f sheet path xlsx id
    (larger (count_names "xl/comments" (File_XLSX f)) (count_names "xl/comments" (File_Comments f)) + 1) Hl Hid)
    as (vml & f1 & xlsx1 & d & E1 & Hl1 & Ex1 & Hid1 & Hmap & Hw & Hwr & _ & Hr1 & Hc1).
  { intros Hnone. unfold comments_numbered in Hid. rewrite Hnone in Hid. lia. }
  set (part := comments_part id) in *. set (f2 := pc_store comments_cache part (with_comment cell fs o) f1).
  exists old, vml, f2, xlsx1, d. split; [|split; [done|split; [intros Hn; specialize (Hleg Hn); congruence|split; [done|]]]].
  - unfold AddComment. rewrite Hfs. rewrite (bind_Ret _ _ f (ok fs) f) by done. cbn [fst snd].
    rewrite (bind_Ret _ _ _ _ _ (workSheetReader_loaded _ _ _ _ Hl)). cbn [fst snd].
    rewrite (bind_Ret countComments _ f (larger (count_names "xl/comments" (File_XLSX f)) (count_names "xl/comments" (File_Comments f))) f) by done.
    rewrite (bind_Ret _ _ _ _ _ (deref_loaded _ _ _ (proj2 Hl))). rewrite (bind_Ret _ _ _ _ _ E1).
    by rewrite (bind_Ret _ _ _ _ _ (addComment_ok f1 part cell fs)), Hc1.
  - apply (commentable_stored f f1 f2 sheet path xlsx xlsx1 content rels id m (with_comment cell fs o)); try done.
    + by exists f0.
    + rewrite Ex1. by eexists.
    + by apply with_comment_shown.
Qed.

(** C31. A comment is added. When the sheet has comments, or none of them and no
    relationship that would be mistaken for the new ones, the call succeeds, and
    [GetComments] then returns the same comments for all sheets with the new one
    at the end of its sheet's: the cell, the author and the text as they were
    given, cut at their limits, after the author of the part's first comment. The
    cells are untouched, and more comments can be added. *)
Theorem AddComment_GetComments f sheet path xlsx content rels id m cell col row format fs :
  range_map_ok -> marshals_as encodeShape "encodeShape" ->
  commentable f sheet path xlsx content rels id m ->
  parseFormatCommentsSet format = ok fs -> CellNameToCoordinates cell = ok (col, row) ->
  let o := part_at comments_cache (comments_part id) f in
  exists old f1 f2 xlsx1 d, AddComment sheet cell format f = Ret (None, f1) /\
    GetComments f1 = Ret (<[sheet := default [] old ++ [added_comment o cell fs]]> m, f2) /\
    shown_comments o = Ret old /\ (xlsxWorksheet_LegacyDrawing xlsx <> None -> m !! sheet = old) /\
    xlsx1 = xlsx <| xlsxWorksheet_LegacyDrawing := Some d |> /\
    commentable f1 sheet path xlsx1 content rels id (<[sheet := default [] old ++ [added_comment o cell fs]]> m).
Proof.
  intros Hr Hm Hcm Hfs Hcell o.
  destruct (AddComment_stored f sheet path xlsx content rels id m cell format fs Hr Hcm Hfs)
    as (old & vml & f2 & xlsx1 & d & E & Hold & Hleg & Ex1 & Hcm2).
  destruct (addDrawingVML_ok f2 id vml cell (strings_Count (formatComment_Text fs) newline + 1) (comment_columns fs) col row Hcell Hm)
    as (val & f3 & _ & Hv3 & E3).
  set (f4 := f3 <| File_VMLDrawing := _ |>) in E3.
  destruct (addContentTypePart_only id "comments" f4) as (f5 & E5 & (ct & Ef5)).
  assert (commentable f5 sheet path xlsx1 content rels id (<[sheet := default [] old ++ [added_comment o cell fs]]> m)) as Hcm5.
  { apply (commentable_same f2); [done| |by rewrite Ex1|done].
    transitivity f3; [rewrite Ef5; by split|exact (view_same_comments _ _ Hv3)]. }
  destruct (cm_shows _ _ _ _ _ _ _ _ Hcm5) as [f6 E6].
  exists old, f5, f6, xlsx1, d. split_and!; try done.
  rewrite E, (bind_Ret _ _ _ _ _ E3). by rewrite (bind_Ret _ _ _ _ _ E5).
Qed.

(** A comment for a text that is no cell name: the call returns the error of the
    name, but the comment stays and is returned by [GetComments] with this
    name. *)
Theorem AddComment_bad_cell f sheet path xlsx content rels id m cell p e format fs :
  range_map_ok -> commentable f sheet path xlsx content rels id m ->
  parseFormatCommentsSet format = ok fs -> CellNameToCoordinates cell = err_with p e ->
  exists old f1 f2, AddComment sheet cell format f = Ret (Some e, f1) /\
    GetComments f1 = Ret (<[sheet := old ++ [added_comment (part_at comments_cache (comments_part id) f) cell fs]]> m, f2).
Proof.
  intros Hr Hcm Hfs Hcell.
  destruct (AddComment_stored f sheet path xlsx content rels id m cell format fs Hr Hcm Hfs)
    as (old & vml & f2 & xlsx1 & d & E & _ & _ & _ & Hcm2).
  destruct (cm_shows _ _ _ _ _ _ _ _ Hcm2) as [f3 E3]. exists (default [] old), f2, f3. split; [|done].
  rewrite E. unfold addDrawingVML. destruct p. by rewrite Hcell.
Qed.

(** The notes of the VML part. A call adds, after the shapes that are in memory,
    the shapes decoded from the part and the new one: two calls on a part that
    has notes already give each of these a second shape. *)
Theorem addDrawingVML_twice f id part cell1 cell2 col1 row1 col2 row2 lines1 lines2 cols1 cols2 :
  marshals_as encodeShape "encodeShape" ->
  CellNameToCoordinates cell1 = ok (col1, row1) -> CellNameToCoordinates cell2 = ok (col2, row2) ->
  let shapes f := from_option vmlDrawing_Shape [] (File_VMLDrawing f !! part) in
  let shape col row lines cols := text ← shape_text (note_shape (isub row 1) (isub col 1) lines cols); Ret (vml_shape text) in
  exists f1 f2 s1 s2,
    addDrawingVML id part cell1 lines1 cols1 f = Ret (None, f1) /\ addDrawingVML id part cell2 lines2 cols2 f1 = Ret (None, f2) /\
    shape col1 row1 lines1 cols1 = Ret s1 /\ shape col2 row2 lines2 cols2 = Ret s2 /\
    shapes f1 = shapes f ++ decoded_shapes part f ++ [s1] /\
    shapes f2 = shapes f ++ decoded_shapes part f ++ [s1] ++ decoded_shapes part f ++ [s2].
Proof.
  intros Hm H1 H2 shapes shape.
  destruct (addDrawingVML_ok f id part cell1 lines1 cols1 col1 row1 H1 Hm) as (v1 & g1 & Ev1 & Hg1 & E1).
  set (f1 := g1 <| File_VMLDrawing := _ |>) in E1.
  destruct (addDrawingVML_ok f1 id part cell2 lines2 cols2 col2 row2 H2 Hm) as (v2 & g2 & Ev2 & Hg2 & E2).
  set (f2 := g2 <| File_VMLDrawing := _ |>) in E2.
  assert (decoded_shapes part f1 = decoded_shapes part f) as Hd.
  { unfold decoded_shapes. assert (part_at vml_cache part f1 = part_at vml_cache part g1) as -> by done. by rewrite (sv_vml _ _ Hg1). }
  assert (shapes f1 = shapes f ++ decoded_shapes part f ++ [vml_shape v1]) as Hs1.
  { unfold shapes, f1. cbn. rewrite lookup_insert_eq. cbn. rewrite app_assoc. by destruct (File_VMLDrawing f !! part). }
  exists f1, f2, (vml_shape v1), (vml_shape v2). split_and!; [done|done| | |done|].
  - unfold shape. by rewrite Ev1.
  - unfold shape. by rewrite Ev2.
  - unfold shapes at 1, f2. cbn. rewrite lookup_insert_eq. cbn. rewrite Hd, lookup_insert_eq. cbn.
    change (from_option vmlDrawing_Shape [] (File_VMLDrawing f1 !! part)) with (shapes f1) in *.
    unfold shapes, f1 in Hs1. cbn in Hs1. rewrite lookup_insert_eq in Hs1. cbn in Hs1. by rewrite Hs1, <- !app_assoc.
Qed.

End comment_properties.

(** ** Concrete instances *)

(** A workbook with three sheets in memory, whose first one has comments in the
    part [xl/comments1.xml]. *)
Definition three_sheets : xlsxWorkbook :=
  (gozero : xlsxWorkbook) <| xlsxWorkbook_Sheets := mk_xlsxSheets
    [mk_xlsxSheet "Sheet1" 1 "rId1" ""; mk_xlsxSheet "Sheet2" 2 "rId2" ""; mk_xlsxSheet "Sheet3" 3 "rId3" ""] |>.
Definition three_rels : xlsxWorkbookRels :=
  (gozero : xlsxWorkbookRels) <| xlsxWorkbookRels_Relationships :=
    [mk_xlsxWorkbookRelation "rId1" "worksheets/sheet1.xml" SourceRelationshipWorkSheet "";
     mk_xlsxWorkbookRelation "rId2" "worksheets/sheet2.xml" SourceRelationshipWorkSheet "";
     mk_xlsxWorkbookRelation "rId3" "worksheets/sheet3.xml" SourceRelationshipWorkSheet ""] |>.
Definition comments_file : File :=
  (example_file gozero)
    <| File_sheetMap := <["Sheet1" := "xl/worksheets/sheet1.xml"]> (<["Sheet2" := "xl/worksheets/sheet2.xml"]>
         (<["Sheet3" := "xl/worksheets/sheet3.xml"]> ∅)) |>
    <| File_Sheet := <["xl/worksheets/sheet1.xml" := gozero]> (<["xl/worksheets/sheet2.xml" := gozero]>
         (<["xl/worksheets/sheet3.xml" := gozero]> ∅)) |>
    <| File_WorkBook := Some three_sheets |> <| File_WorkBookRels := Some three_rels |>
    <| File_WorkSheetRels := <["xl/worksheets/_rels/sheet1.xml.rels" :=
         (gozero : xlsxWorkbookRels) <| xlsxWorkbookRels_Relationships :=
           [mk_xlsxWorkbookRelation "rId1" "../comments1.xml" SourceRelationshipComments ""] |>]> ∅ |>
    <| File_XLSX := <["xl/comments1.xml" := ""]> ∅ |>.

Definition default_comment (cell : string) : Comment := mk_Comment "Author:" 0 cell "Author: ".

(** The number for a new comments part is one more than the larger number of
    parts and of parts in memory. In a workbook whose comments part has not been
    read yet, the first comments of two other sheets get the same number: each of
    the two sheets then shows the comments of both. *)
Theorem AddComment_parts_collide :
  returned ((r1 ← AddComment (H := example_env) "Sheet2" "A1" "";
             r2 ← AddComment (H := example_env) "Sheet3" "B2" "";
             m ← GetComments (H := example_env); mret (r1, r2, m !! "Sheet2", m !! "Sheet3")) comments_file) =
    Some (None, None, Some [default_comment "A1"; default_comment "B2"], Some [default_comment "A1"; default_comment "B2"]).
Proof. vm_compute. reflexivity. Qed.

Lemma comments_file_commentable :
  commentable (H := example_env) comments_file "Sheet2" "xl/worksheets/sheet2.xml" gozero three_sheets three_rels 2
    {["Sheet1" := []]}.
Proof.
  split; try reflexivity.
  - split; reflexivity.
  - split; reflexivity.
  - intros n [p Hn] Hne. cbn in Hn.
    destruct (decide (n = "Sheet1")) as [->|H1]; [split; vm_compute; discriminate|].
    destruct (decide (n = "Sheet3")) as [->|H3]; [split; vm_compute; discriminate|].
    rewrite !lookup_insert_ne in Hn by done. done.
  - split_and!; try reflexivity; [vm_compute; discriminate..|constructor].
  - eexists. vm_compute. reflexivity.
  - by exists None.
Qed.

Lemma example_env_shapes : @marshals_as encodeShape (@env_encodeShape example_env) "encodeShape".
Proof. intros a. by exists "". Qed.

Lemma AddComment_GetComments_witness :
  exists f1 f2, AddComment (H := example_env) "Sheet2" "A1" "" comments_file = Ret (None, f1) /\
    GetComments (H := example_env) f1 = Ret (<["Sheet2" := [default_comment "A1"]]> {["Sheet1" := []]}, f2).
Proof.
  destruct (@AddComment_GetComments example_env comments_file "Sheet2" _ _ _ _ 2 _ "A1" 1 1 "" (mk_formatComment "Author:" " ")
    example_env_range example_env_shapes comments_file_commentable) as (old & f1 & f2 & x & d & E & G & Ho & _); [reflexivity..|].
  exists f1, f2. split; [exact E|]. injection Ho as <-. exact G.
Defined.

Lemma AddComment_bad_cell_witness :
  exists f1 f2 m, AddComment (H := example_env) "Sheet2" "11" "" comments_file =
      Ret (Some (ErrCannotConvertCell "11" (ErrInvalidCellName "11")), f1) /\
    GetComments (H := example_env) f1 = Ret (m, f2) /\ is_Some (m !! "Sheet2").
Proof.
  destruct (@AddComment_bad_cell example_env comments_file "Sheet2" _ _ _ _ 2 _ "11" (-1, -1)
    (ErrCannotConvertCell "11" (ErrInvalidCellName "11")) "" (mk_formatComment "Author:" " ")
    example_env_range comments_file_commentable) as (old & f1 & f2 & E & G); [reflexivity..|].
  exists f1, f2. eexists. split; [exact E|]. split; [exact G|]. rewrite lookup_insert_eq. by eexists.
Defined.

Lemma addDrawingVML_twice_witness :
  exists f1 f2, addDrawingVML (H := example_env) 1 "xl/drawings/vmlDrawing1.vml" "A1" 1 8 comments_file = Ret (None, f1) /\
    addDrawingVML (H := example_env) 1 "xl/drawings/vmlDrawing1.vml" "B2" 1 8 f1 = Ret (None, f2).
Proof.
  destruct (@addDrawingVML_twice example_env comments_file 1 "xl/drawings/vmlDrawing1.vml" "A1" "B2" 1 1 2 2 1 1 8 8)
    as (f1 & f2 & s1 & s2 & E1 & E2 & _); [exact example_env_shapes|reflexivity..|]. by exists f1, f2.
Defined.
