(* ===== verification/Drawing.v ===== *)
(** Drawings: where an object of a given size lies on the grid ([col.go]), the
    drawing part of a sheet with its relationships ([chart.go]) and the anchors of
    pictures and charts. *)
From S2P Require Export Parts Rows Cols.

(** ** Positions

    The loops over the cells that an object covers visit one column or row after
    the other, as long as its size does not fit. The fuel is bounded by the last
    column or row with a size of its own and by the length that is left; a run
    out of fuel is a panic, which [positionObjectPixels_correct] excludes. *)

Definition EMU : Z := 9525.

Section drawing.
Context `{GoEnv}.

(** [for v >= size(i) { v -= size(i); i++ }] *)
Fixpoint skip_cells (fuel : nat) (size : Z -> M Z) (v i : Z) : M (Z * Z) :=
  match fuel with
  | O => panic
  | S n =>
      w ← size i;
      if w <=? v then w ← size i; skip_cells n size (isub v w) (iadd i 1) else mret (v, i)
  end.

(** [for v >= size(i + 1) { i++; v -= size(i) }] *)
Fixpoint span_cells (fuel : nat) (size : Z -> M Z) (v i : Z) : M (Z * Z) :=
  match fuel with
  | O => panic
  | S n =>
      w ← size (iadd i 1);
      if w <=? v then let i := iadd i 1 in w ← size i; span_cells n size (isub v w) i else mret (v, i)
  end.

(** The sizes of a list of columns or rows added up. *)
Fixpoint total_size (size : Z -> M Z) (ids : list Z) (total : Z) : M Z :=
  match ids with
  | [] => mret total
  | i :: ids' => w ← size i; total_size size ids' (iadd total w)
  end.

Definition last_sized_col (xlsx : xlsxWorksheet) : Z := foldr Z.max 0 (xlsxCol_Max <$> sheet_cols xlsx).
Definition last_sized_row (xlsx : xlsxWorksheet) : Z := foldr Z.max 0 (xlsxRow_R <$> sheet_rows xlsx).

Definition cells_fuel (last v : Z) : nat := Z.to_nat last + Z.to_nat v + 2.

Definition fuel_for (last : xlsxWorksheet -> Z) (sheet : string) (v : Z) : M nat :=
  p ← workSheetReader sheet; xlsx ← deref p.1; mret (cells_fuel (last xlsx) v).

Definition positionObjectPixels (sheet : string) (col row x1 y1 width height : Z)
    : M (Z * Z * Z * Z * Z * Z * Z * Z) :=
  xAbs ← total_size (getColWidth sheet) (seqZ 1 col) 0;
  let xAbs := iadd xAbs x1 in
  yAbs ← total_size (getRowHeight sheet) (seqZ 1 row) 0;
  let yAbs := iadd yAbs y1 in
  n ← fuel_for last_sized_col sheet x1;
  '(x1, col) ← skip_cells n (getColWidth sheet) x1 col;
  n ← fuel_for last_sized_row sheet y1;
  '(y1, row) ← skip_cells n (getRowHeight sheet) y1 row;
  let width := iadd width x1 in
  let height := iadd height y1 in
  n ← fuel_for last_sized_col sheet width;
  '(width, colEnd) ← span_cells n (getColWidth sheet) width col;
  n ← fuel_for last_sized_row sheet height;
  '(height, rowEnd) ← skip_cells n (getRowHeight sheet) height row;
  mret (col, row, xAbs, yAbs, colEnd, rowEnd, width, height).

(** ** The drawing of a sheet *)

Definition drawing_target (drawingID : Z) : string := "../drawings/drawing" +:+ strconv_Itoa drawingID +:+ ".xml".

Definition prepareDrawing (drawing : option xlsxDrawing) (drawingID : Z) (sheet drawingXML : string) : M (Z * string) :=
  match drawing with
  | Some d =>
      target ← getSheetRelationshipsTargetByID sheet (xlsxDrawing_RID d);
      mret (atoi_ignore (strings_TrimSuffix (strings_TrimPrefix target "../drawings/drawing") ".xml"),
            strings_Replace target ".." "xl")
  | None =>
      rID ← addSheetRelationships sheet SourceRelationshipDrawingML (drawing_target drawingID) "";
      addSheetDrawing sheet rID;;
      mret (drawingID, drawingXML)
  end.

(** An anchor as it stands in the part: its content is kept as text. *)
Definition raw_anchor (v : decodeCellAnchor) : xdrCellAnchor :=
  (gozero : xdrCellAnchor) <| xdrCellAnchor_EditAs := decodeCellAnchor_EditAs v |>
    <| xdrCellAnchor_GraphicFrame := decodeCellAnchor_Content v |>.

Definition empty_drawing : xlsxWsDr :=
  (gozero : xlsxWsDr) <| xlsxWsDr_A := NameSpaceDrawingML |> <| xlsxWsDr_Xdr := NameSpaceDrawingMLSpreadSheet |>.

Definition parsed_drawing (d : decodeWsDr) : xlsxWsDr :=
  empty_drawing <| xlsxWsDr_R := decodeWsDr_R d |>
    <| xlsxWsDr_OneCellAnchor := raw_anchor <$> decodeWsDr_OneCellAnchor d |>
    <| xlsxWsDr_TwoCellAnchor := raw_anchor <$> decodeWsDr_TwoCellAnchor d |>.

Definition drawingParser (path : string) : M (xlsxWsDr * Z) :=
  f ← get;
  match File_Drawings f !! path with
  | Some d => mret (d, 1)
  | None =>
      match File_XLSX f !! path with
      | Some _ =>
          text ← readXML path;
          let d : decodeWsDr := xml_Unmarshal (namespaceStrictToTransitional text) in
          modify (fun f => f <| File_Drawings ::= <[path := parsed_drawing d]> |>);;
          mret (parsed_drawing d, zlen (decodeWsDr_OneCellAnchor d) + zlen (decodeWsDr_TwoCellAnchor d) + 1)
      | None =>
          modify (fun f => f <| File_Drawings ::= <[path := empty_drawing]> |>);;
          mret (empty_drawing, 1)
      end
  end.

(** The frame of an object that starts in the cell of a position. The offset is
    the one that was given, also when the object starts in a later cell. *)
Definition object_anchor (formatSet : formatPicture) (colStart rowStart colEnd rowEnd x2 y2 : Z) : xdrCellAnchor :=
  (gozero : xdrCellAnchor)
    <| xdrCellAnchor_EditAs := formatPicture_Positioning formatSet |>
    <| xdrCellAnchor_From := Some (mk_xlsxFrom colStart (imul (formatPicture_OffsetX formatSet) EMU)
         rowStart (imul (formatPicture_OffsetY formatSet) EMU)) |>
    <| xdrCellAnchor_To := Some (mk_xlsxTo colEnd (imul x2 EMU) rowEnd (imul y2 EMU)) |>
    <| xdrCellAnchor_ClientData := Some (mk_xdrClientData (formatPicture_FLocksWithSheet formatSet)
         (formatPicture_FPrintsWithSheet formatSet)) |>.

(** [int(float64(n) * scale)] *)
Definition scaled (n : Z) (scale : float64) : Z := f64_to_int (f64_mul (f64_of_int n) scale).

(** The anchor of an object of the given size at a cell, the drawing it is
    appended to and the number for its name. *)
Definition place_object (sheet drawingXML cell : string) (width height : Z) (formatSet : formatPicture)
    : M ((xdrCellAnchor * xlsxWsDr * Z) * option goerr) :=
  let! (col, row) := mret (CellNameToCoordinates cell) orelse (gozero, gozero, 0) in
  let width := scaled width (formatPicture_XScale formatSet) in
  let height := scaled height (formatPicture_YScale formatSet) in
  '(colStart, rowStart, _, _, colEnd, rowEnd, x2, y2) ←
    positionObjectPixels sheet (isub col 1) (isub row 1) (formatPicture_OffsetX formatSet) (formatPicture_OffsetY formatSet)
      width height;
  '(content, cNvPrID) ← drawingParser drawingXML;
  mret (ok (object_anchor formatSet colStart rowStart colEnd rowEnd x2 y2, content, cNvPrID)).

Definition append_anchor (anchor : xdrCellAnchor) (content : xlsxWsDr) : xlsxWsDr :=
  content <| xlsxWsDr_TwoCellAnchor ::= fun l => l ++ [anchor] |>.

Definition set_drawing (drawingXML : string) (content : xlsxWsDr) : M unit :=
  modify (fun f => f <| File_Drawings ::= <[drawingXML := content]> |>).

End drawing.

(** ** Lemmas on positions *)

Section position_lemmas.
Context `{GoEnv}.

(** The sizes in pixels. *)
Definition col_pixels (xlsx : xlsxWorksheet) (i : Z) : Z :=
  if f64_eqb (col_width i xlsx) f64_zero then f64_to_int defaultColWidthPixels
  else f64_to_int (convertColWidthToPixels (col_width i xlsx)).
Definition row_pixels (xlsx : xlsxWorksheet) (i : Z) : Z :=
  match row_height (iadd i 1) xlsx with
  | Some ht => f64_to_int (convertRowHeightToPixels ht)
  | None => f64_to_int defaultRowHeightPixels
  end.

Lemma getColWidth_loaded f sheet path xlsx i :
  loaded f sheet path xlsx -> getColWidth sheet i f = Ret (col_pixels xlsx i, f).
Proof.
  intros Hl. unfold getColWidth. rewrite (bind_Ret _ _ _ _ _ (workSheetReader_loaded _ _ _ _ Hl)).
  by rewrite (bind_Ret _ _ _ _ _ (deref_loaded _ _ _ (proj2 Hl))).
Qed.

Lemma getRowHeight_loaded f sheet path xlsx i :
  loaded f sheet path xlsx -> getRowHeight sheet i f = Ret (row_pixels xlsx i, f).
Proof.
  intros Hl. unfold getRowHeight. rewrite (bind_Ret _ _ _ _ _ (workSheetReader_loaded _ _ _ _ Hl)).
  by rewrite (bind_Ret _ _ _ _ _ (deref_loaded _ _ _ (proj2 Hl))).
Qed.

Lemma fuel_for_loaded f sheet path xlsx last v :
  loaded f sheet path xlsx -> fuel_for last sheet v f = Ret (cells_fuel (last xlsx) v, f).
Proof.
  intros Hl. unfold fuel_for. rewrite (bind_Ret _ _ _ _ _ (workSheetReader_loaded _ _ _ _ Hl)).
  by rewrite (bind_Ret _ _ _ _ _ (deref_loaded _ _ _ (proj2 Hl))).
Qed.

Lemma foldr_max_ge l x : x ∈ l -> x <= foldr Z.max 0 l.
Proof. induction 1; cbn; lia. Qed.
Lemma foldr_max_nonneg l : 0 <= foldr Z.max 0 l.
Proof. induction l; cbn; lia. Qed.

(** Beyond the last column or row with a size of its own the size is the default. *)
Lemma col_pixels_default xlsx i : last_sized_col xlsx < i -> col_pixels xlsx i = 64.
Proof.
  intros Hi. unfold col_pixels, col_width.
  assert (forall l, (forall c, c ∈ l -> col_covers i c = false) -> last_col i l = None) as Hnone.
  { intros l. induction l as [|c l IH] using rev_ind; [done|]. intros Hl. rewrite last_col_snoc.
    rewrite (Hl c) by (apply elem_of_app; right; left). apply IH. intros c' Hc'. apply Hl, elem_of_app. by left. }
  rewrite Hnone; [done|]. intros c Hin.
  assert (xlsxCol_Max c <= last_sized_col xlsx) by (apply foldr_max_ge, list_elem_of_fmap; by exists c).
  unfold col_covers. lia.
Qed.

Lemma row_pixels_default xlsx i : last_sized_row xlsx < i -> i < maxInt -> row_pixels xlsx i = 20.
Proof.
  intros Hi Hmax. unfold row_pixels, row_height.
  pose proof (foldr_max_nonneg (xlsxRow_R <$> sheet_rows xlsx)). fold (last_sized_row xlsx) in *.
  assert (iadd i 1 = i + 1) as -> by int_lia.
  destruct (list_find _ _) as [[k r]|] eqn:E; [|done]. exfalso.
  apply list_find_Some in E as (Hk & Hr & _).
  assert (xlsxRow_R r <= last_sized_row xlsx).
  { apply foldr_max_ge, list_elem_of_fmap. exists r. split; [done|by eapply list_elem_of_lookup_2]. }
  apply andb_true_iff in Hr as [Hr _]. lia.
Qed.

(** The sizes of [n] cells from a position on. *)
Definition sum_sizes (sz : Z -> Z) (i n : Z) : Z := foldr Z.add 0 (sz <$> seqZ i n).

Lemma sum_sizes_0 sz i : sum_sizes sz i 0 = 0.
Proof. done. Qed.

Lemma sum_sizes_cons sz i n : 0 < n -> sum_sizes sz i n = sz i + sum_sizes sz (i + 1) (n - 1).
Proof. intros Hn. unfold sum_sizes. rewrite (seqZ_cons i n) by done. cbn.
  by replace (Z.succ i) with (i + 1) by lia; replace (Z.pred n) with (n - 1) by lia. Qed.

(** The loop ends in the cell in which the length that is left fits. *)
Lemma skip_cells_ok (size : Z -> M Z) (sz : Z -> Z) f last :
  (forall j, size j f = Ret (sz j, f)) -> (forall j, 0 <= sz j) -> (forall j, last < j < maxInt -> 1 <= sz j) ->
  forall fuel v i, 0 <= v -> 0 <= i -> Z.max i (last + 1) + v < maxInt ->
  Z.max 0 (last + 1 - i) + v < Z.of_nat fuel ->
  exists v' i', skip_cells fuel size v i f = Ret ((v', i'), f) /\ i <= i' <= Z.max i (last + 1) + v /\
    0 <= v' < sz i' /\ v' <= v /\ v = sum_sizes sz i (i' - i) + v'.
Proof.
  intros Hsize Hpos Hlast. induction fuel as [|fuel IH]; intros v i Hv Hi Hmax Hfuel; [lia|].
  cbn [skip_cells]. rewrite (bind_Ret _ _ _ _ _ (Hsize i)). destruct (sz i <=? v) eqn:E.
  - rewrite (bind_Ret _ _ _ _ _ (Hsize i)). pose proof (Hpos i).
    assert (last < i -> 1 <= sz i) as Hl by (intros; apply Hlast; lia).
    assert (isub v (sz i) = v - sz i) as -> by int_lia. assert (iadd i 1 = i + 1) as -> by int_lia.
    destruct (IH (v - sz i) (i + 1)) as (v' & i' & E' & Hi' & Hv' & Hle & Hsum); [lia..|].
    exists v', i'. split; [done|]. split; [lia|]. split; [done|]. split; [lia|].
    rewrite sum_sizes_cons by lia. replace (i' - i - 1) with (i' - (i + 1)) by lia. lia.
  - exists v, i. split; [done|]. split; [lia|]. split; [lia|]. split; [done|]. by rewrite Z.sub_diag.
Qed.

(** The other loop is the same one cell further. *)
Lemma span_skip size f fuel : forall v i, int64_range i ->
  span_cells fuel size v i f =
    match skip_cells fuel size v (iadd i 1) f with Ret ((v', i'), f') => Ret ((v', isub i' 1), f') | Panic => Panic end.
Proof.
  assert (forall v i g, int64_range i ->
    span_cells fuel size v i g =
      match skip_cells fuel size v (iadd i 1) g with Ret ((v', i'), f') => Ret ((v', isub i' 1), f') | Panic => Panic end) as Hg.
  { induction fuel as [|fuel IH]; intros v i g Hi; [done|]. cbn [span_cells skip_cells].
    unfold mbind, gom_bind. destruct (size (iadd i 1) g) as [[w g1]|]; [|done].
    destruct (w <=? v).
    - destruct (size (iadd i 1) g1) as [[w2 g2]|]; [|done]. apply IH, wrap64_range.
    - assert (isub (iadd i 1) 1 = i) as Ei; [|cbn; by rewrite Ei].
      unfold isub, iadd. rewrite <- Z.add_opp_r, wrap64_add_l. replace (i + 1 + - (1)) with i by lia. by apply wrap64_id. }
  intros v i Hi. by apply Hg.
Qed.

Lemma span_cells_ok (size : Z -> M Z) (sz : Z -> Z) f last fuel v i :
  (forall j, size j f = Ret (sz j, f)) -> (forall j, 0 <= sz j) -> (forall j, last < j < maxInt -> 1 <= sz j) ->
  0 <= v -> 0 <= i -> Z.max (i + 1) (last + 1) + v < maxInt ->
  Z.max 0 (last - i) + v < Z.of_nat fuel ->
  exists v' i', span_cells fuel size v i f = Ret ((v', i'), f) /\ i <= i' <= Z.max i last + v /\
    0 <= v' < sz (i' + 1) /\ v' <= v /\ v = sum_sizes sz (i + 1) (i' - i) + v'.
Proof.
  intros Hs Hpos Hlast Hv Hi Hmax Hfuel.
  destruct (skip_cells_ok size sz f last Hs Hpos Hlast fuel v (i + 1)) as (v' & i' & E & Hi' & Hv' & Hle & Hsum); [lia..|].
  exists v', (i' - 1). rewrite span_skip by (unfold minInt; lia).
  assert (iadd i 1 = i + 1) as -> by int_lia. rewrite E.
  assert (isub i' 1 = i' - 1) as -> by int_lia. replace (i' - 1 + 1) with i' by lia.
  replace (i' - 1 - i) with (i' - (i + 1)) by lia. split_and!; done || lia.
Qed.

Lemma total_size_ok (size : Z -> M Z) (sz : Z -> Z) f ids :
  (forall j, size j f = Ret (sz j, f)) -> forall total, exists t, total_size size ids total f = Ret (t, f).
Proof.
  intros Hs. induction ids as [|i ids IH]; intros total; [by eexists|]. cbn [total_size].
  rewrite (bind_Ret _ _ _ _ _ (Hs i)). apply IH.
Qed.

End position_lemmas.

(** ** The drawing of a sheet *)

Section drawing_lemmas.
Context `{GoEnv}.

Definition drawing_part (drawingID : Z) : string := "xl/drawings/drawing" +:+ strconv_Itoa drawingID +:+ ".xml".

(** The number of the drawing of a sheet: a sheet with a drawing has a
    relationship to the part with the number, any other gets the number after
    those in use. *)
Definition drawing_numbered (f : File) (sheet : string) (xlsx : xlsxWorksheet) (id : Z) : Prop :=
  let rels := relations_of (part_at sheet_rels_cache (sheet_rels_path f sheet) f) in
  int64_range id /\
  match xlsxWorksheet_Drawing xlsx with
  | Some d => from_option xlsxWorkbookRelation_Target "" (find_relationship (xlsxDrawing_RID d) rels) = drawing_target id
  | None =>
      id = larger (count_names "xl/drawings/drawing" (File_XLSX f)) (count_names "xl/drawings/drawing" (File_Drawings f)) + 1 /\
      Forall (fun r => xlsxWorkbookRelation_ID r <> "rId" +:+ strconv_Itoa (zlen rels + 1)) rels
  end.

Lemma strings_Replace_skip a b o new c0 :
  str_forallb (fun c => negb (Ascii.eqb c c0)) a = true ->
  strings_Replace (a +:+ b) (String c0 o) new = a +:+ strings_Replace b (String c0 o) new.
Proof.
  unfold strings_Replace. induction a as [|c a IH]; [done|]. cbn [str_forallb]. rewrite andb_true_iff, negb_true_iff.
  intros [Hc Ha]. cbn [String.append replace_go]. cbn [String.prefix].
  destruct (ascii_dec c0 c) as [->|]; [by rewrite Ascii.eqb_refl in Hc|]. by rewrite IH.
Qed.

Lemma strings_Replace_head c0 o s new :
  strings_Replace (String c0 o +:+ s) (String c0 o) new = new +:+ strings_Replace s (String c0 o) new.
Proof.
  unfold strings_Replace. cbn [String.append replace_go].
  assert (String.prefix (String c0 o) (String c0 (o +:+ s)) = true) as -> by exact (prefix_app (String c0 o) s).
  f_equal. cbn [String.length]. replace (S (String.length o) - 1)%nat with (String.length o) by lia.
  generalize (String c0 o) as old. intros old. induction o as [|c o IH]; [done|]. cbn. apply IH.
Qed.

Lemma digits_no_dot s : str_forallb is_digit s = true -> str_forallb (fun c => negb (Ascii.eqb c "."%char)) s = true.
Proof.
  apply str_forallb_impl. intros c Hc. apply negb_true_iff, Ascii.eqb_neq. intros ->. done.
Qed.

(** A path of the form [../a/b<id>.xml] seen from the root of the archive. *)
Lemma drawing_target_part id : 0 <= id -> strings_Replace (drawing_target id) ".." "xl" = drawing_part id.
Proof.
  intros Hid. unfold drawing_target, drawing_part.
  change "../drawings/drawing" with (".." +:+ "/drawings/drawing"). rewrite str_app_assoc, strings_Replace_head.
  rewrite (strings_Replace_skip "/drawings/drawing") by done.
  rewrite (strings_Replace_skip (strconv_Itoa id)) by by apply digits_no_dot, Itoa_digits.
  reflexivity.
Qed.

Lemma drawing_target_rels id :
  0 <= id ->
  strings_Replace (strings_Replace (drawing_target id) "../drawings" "xl/drawings/_rels") ".xml" ".xml.rels" = drawing_rels_file id.
Proof.
  intros Hid. unfold drawing_target, drawing_rels_file.
  change "../drawings/drawing" with ("../drawings" +:+ "/drawing"). rewrite str_app_assoc, strings_Replace_head.
  assert (str_forallb (fun c => negb (Ascii.eqb c "."%char)) (strconv_Itoa id) = true) as Hd by by apply digits_no_dot, Itoa_digits.
  rewrite (strings_Replace_skip "/drawing"), (strings_Replace_skip (strconv_Itoa id)) by done.
  rewrite (strings_Replace_skip "xl/drawings/_rels"), (strings_Replace_skip "/drawing"), (strings_Replace_skip (strconv_Itoa id)) by done.
  reflexivity.
Qed.

Lemma drawing_target_number id :
  int64_range id -> atoi_ignore (strings_TrimSuffix (strings_TrimPrefix (drawing_target id) "../drawings/drawing") ".xml") = id.
Proof. intros Hid. unfold drawing_target, atoi_ignore. by rewrite strings_TrimPrefix_app, strings_TrimSuffix_app, Atoi_Itoa. Qed.

(** What adding an object to the drawing of a sheet leaves as it is: every field of
    the file but the caches for sheets, drawings and their relationships, the
    parts and the content types; in these caches every other sheet, drawing and
    relationships. A sheet that has a drawing is not changed, any other gets a
    reference to the drawing and the relationship for it. *)
Definition without_drawing (f : File) : File :=
  f <| File_Sheet := ∅ |> <| File_Drawings := ∅ |> <| File_DrawingRels := ∅ |> <| File_WorkSheetRels := ∅ |>
    <| File_XLSX := ∅ |> <| File_ContentTypes := None |>.

Record only_drawing (f f1 : File) (sheet path : string) (xlsx : xlsxWorksheet) (id : Z) : Prop := mk_only_drawing {
  od_rest : without_drawing f1 = without_drawing f;
  od_sheets p : p <> path -> File_Sheet f1 !! p = File_Sheet f !! p;
  od_drawings p : p <> drawing_part id -> File_Drawings f1 !! p = File_Drawings f !! p;
  od_drawing_rels p : p <> drawing_rels_file id -> File_DrawingRels f1 !! p = File_DrawingRels f !! p;
  od_sheet_rels p : p <> sheet_rels_path f sheet -> File_WorkSheetRels f1 !! p = File_WorkSheetRels f !! p;
  od_own :
    let shown g := part_at sheet_rels_cache (sheet_rels_path f sheet) g in
    match xlsxWorksheet_Drawing xlsx with
    | Some _ => File_Sheet f1 = File_Sheet f /\ shown f1 = shown f
    | None =>
        let rID := "rId" +:+ strconv_Itoa (zlen (relations_of (shown f)) + 1) in
        File_Sheet f1 !! path = Some (xlsx <| xlsxWorksheet_Drawing := Some (mk_xlsxDrawing rID) |>) /\
        relations_of (shown f1) =
          relations_of (shown f) ++ [mk_xlsxWorkbookRelation rID (drawing_target id) SourceRelationshipDrawingML ""]
    end
}.

Lemma only_drawing_cached f path :
  without_drawing (cached sheet_rels_cache path f) = without_drawing f /\
  File_Sheet (cached sheet_rels_cache path f) = File_Sheet f /\ File_Drawings (cached sheet_rels_cache path f) = File_Drawings f /\
  File_DrawingRels (cached sheet_rels_cache path f) = File_DrawingRels f /\
  forall p, p <> path -> File_WorkSheetRels (cached sheet_rels_cache path f) !! p = File_WorkSheetRels f !! p.
Proof.
  unfold cached. destruct (part_at _ _ _); [|done]. do 4 (split; [done|]). intros p Hp. cbn. by rewrite lookup_insert_ne.
Qed.

(** The object itself, and parts that are not those relationships. *)
Lemma only_drawing_object f f1 sheet path xlsx id d r :
  only_drawing f f1 sheet path xlsx id ->
  only_drawing f (f1 <| File_DrawingRels ::= <[drawing_rels_file id := r]> |> <| File_Drawings ::= <[drawing_part id := d]> |>) sheet path xlsx id.
Proof. intros []. split; try done; intros p Hp; cbn; rewrite lookup_insert_ne; auto. Qed.

Lemma only_drawing_anchor f f1 sheet path xlsx id d :
  only_drawing f f1 sheet path xlsx id -> only_drawing f (f1 <| File_Drawings ::= <[drawing_part id := d]> |>) sheet path xlsx id.
Proof. intros []. split; try done; intros p Hp; cbn; rewrite lookup_insert_ne; auto. Qed.

Lemma only_drawing_parts f f1 sheet path xlsx id m c :
  only_drawing f f1 sheet path xlsx id -> m !! sheet_rels_path f sheet = File_XLSX f1 !! sheet_rels_path f sheet ->
  only_drawing f (f1 <| File_XLSX := m |> <| File_ContentTypes := c |>) sheet path xlsx id.
Proof.
  intros [Hr Hs Hd Hdr Hsr Ho] Hm. split; try done.
  assert (part_at sheet_rels_cache (sheet_rels_path f sheet) (f1 <| File_XLSX := m |> <| File_ContentTypes := c |>) =
    part_at sheet_rels_cache (sheet_rels_path f sheet) f1) as E.
  { unfold part_at. change (File_XLSX (f1 <| File_XLSX := m |> <| File_ContentTypes := c |>)) with m. by rewrite Hm. }
  cbv beta zeta in *. by rewrite E.
Qed.

(** The preparation changes the drawing reference of the sheet and the
    relationships of the sheet only. *)
Lemma prepareDrawing_ok f sheet path xlsx id n :
  loaded f sheet path xlsx -> drawing_numbered f sheet xlsx id -> 0 <= id ->
  (xlsxWorksheet_Drawing xlsx = None -> n = id) ->
  exists f1 d, prepareDrawing (xlsxWorksheet_Drawing xlsx) n sheet (drawing_part n) f = Ret ((id, drawing_part id), f1) /\
    loaded f1 sheet path (xlsx <| xlsxWorksheet_Drawing := Some d |>) /\
    drawing_numbered f1 sheet (xlsx <| xlsxWorksheet_Drawing := Some d |>) id /\
    File_sheetMap f1 = File_sheetMap f /\ File_Drawings f1 = File_Drawings f /\ File_XLSX f1 = File_XLSX f /\
    (forall p, part_at drawing_rels_cache p f1 = part_at drawing_rels_cache p f) /\
    File_ContentTypes f1 = File_ContentTypes f /\ only_drawing f f1 sheet path xlsx id.
Proof.
  intros Hl [Hrange Hid] Hpos Hn. destruct (xlsxWorksheet_Drawing xlsx) as [d|] eqn:El.
  - unfold prepareDrawing.
    destruct (getSheetRelationshipsTargetByID_at f sheet (xlsxDrawing_RID d)) as (f1 & E1 & Hf1).
    assert (f1 ≡ f) as Hv by (destruct Hf1 as [->| ->]; [done|apply cached_sheet_rels]).
    assert (only_drawing f f1 sheet path xlsx id) as Ho.
    { destruct (only_drawing_cached f (sheet_rels_path f sheet)) as (H1 & H2 & H3 & H4 & H5).
      destruct Hf1 as [->| ->]; split; try (intros; congruence); try done; cbv zeta; rewrite El;
        (split; [done|]); [done|]. apply sheet_rels_at_proper, Hv. }
    rewrite (bind_Ret _ _ _ _ _ E1), Hid, drawing_target_number, drawing_target_part by done.
    assert (xlsx <| xlsxWorksheet_Drawing := Some d |> = xlsx) as Ex by (destruct xlsx; cbn in *; by subst).
    assert (File_sheetMap f1 = File_sheetMap f) as Hm by by eapply view_rest.
    exists f1, d. rewrite Ex. split; [done|]. split; [|split; [|split; [done|split; [by eapply view_rest|split; [by eapply view_rest|split; [apply Hv|split; [by eapply view_rest|done]]]]]]].
    + unfold loaded. rewrite Hm. assert (File_Sheet f1 = File_Sheet f) as -> by by eapply view_rest. done.
    + split; [done|]. rewrite El. unfold sheet_rels_path in *. by rewrite Hm, (sheet_rels_at_proper _ _ _ Hv).
  - destruct Hid as [_ Hnew]. specialize (Hn eq_refl) as ->. unfold prepareDrawing.
    rewrite (bind_Ret _ _ _ _ _ (addSheetRelationships_ok f sheet _ _ _)).
    set (rp := sheet_rels_path f sheet) in *. set (o := part_at sheet_rels_cache rp f) in *.
    set (r1 := next_relation _ _ _ o). set (f1 := pc_store sheet_rels_cache rp _ f).
    assert (loaded f1 sheet path xlsx) as Hl1 by done.
    unfold addSheetDrawing. rewrite (bind_Ret _ _ _ _ _ (update_sheet_loaded f1 sheet path xlsx _ Hl1)).
    eexists _, _. split; [done|]. split; [by apply (with_sheet_loaded _ _ _ xlsx)|]. split; [|do 5 (split; [done|])].
    2:{ split; try done; [intros p Hp; cbn; by rewrite lookup_insert_ne..|]. cbv zeta. rewrite El.
        split; [apply lookup_insert_eq|]. fold rp o.
        change (part_at sheet_rels_cache rp (with_sheet f1 path _)) with (part_at sheet_rels_cache rp f1).
        unfold f1. by rewrite (part_at_stored sheet_rels_cache). }
    split; [done|]. assert (forall d, xlsxWorksheet_Drawing (xlsx <| xlsxWorksheet_Drawing := d |>) = d) as -> by done.
    change (sheet_rels_path (with_sheet f1 path _) sheet) with rp.
    change (part_at sheet_rels_cache rp (with_sheet f1 path _)) with (part_at sheet_rels_cache rp f1).
    unfold f1. rewrite (part_at_stored sheet_rels_cache).
    change (relations_of (Some (with_relation r1 o))) with (relations_of o ++ [r1]).
    by rewrite (find_relationship_new _ _ r1).
Qed.

(** The drawing that a path shows. *)
Definition drawing_at (path : string) (f : File) : xlsxWsDr :=
  match File_Drawings f !! path with
  | Some d => d
  | None => match File_XLSX f !! path with
            | Some text => parsed_drawing (xml_Unmarshal (namespaceStrictToTransitional text))
            | None => empty_drawing
            end
  end.

Lemma drawingParser_ok path f :
  exists n, drawingParser path f = Ret ((drawing_at path f, n), f <| File_Drawings ::= <[path := drawing_at path f]> |>).
Proof.
  unfold drawingParser, drawing_at, mbind, gom_bind, get.
  destruct (File_Drawings f !! path) eqn:E.
  - exists 1. cbn. do 2 f_equal. destruct f; cbn in *. unfold field_update. cbn. by rewrite insert_id.
  - destruct (File_XLSX f !! path) eqn:E2; [|by exists 1]. eexists. unfold readXML, gets. cbn. by rewrite E2.
Qed.

End drawing_lemmas.

(** ** Properties *)

Section drawing_properties.
Context `{GoEnv}.

(** The sizes of a sheet that the loops rely on: none is negative, and the
    numbers of columns and rows leave room for the object. *)
Definition sizes_ok (xlsx : xlsxWorksheet) (v : Z) : Prop :=
  (forall j, 0 <= col_pixels xlsx j) /\ (forall j, 0 <= row_pixels xlsx j) /\
  last_sized_col xlsx + v < maxInt /\ last_sized_row xlsx + v < maxInt.

Lemma positionObjectPixels_ok f sheet path xlsx col row x1 y1 width height :
  loaded f sheet path xlsx -> 0 <= col -> 0 <= row -> 0 <= x1 -> 0 <= y1 -> 0 <= width -> 0 <= height ->
  sizes_ok xlsx (2 * (col + row + x1 + y1 + width + height) + 10) ->
  let W := col_pixels xlsx in let H := row_pixels xlsx in
  exists col' row' xAbs yAbs colEnd rowEnd x2 y2 dx dy,
    positionObjectPixels sheet col row x1 y1 width height f = Ret ((col', row', xAbs, yAbs, colEnd, rowEnd, x2, y2), f) /\
    (col <= col' /\ x1 = sum_sizes W col (col' - col) + dx /\ 0 <= dx < W col') /\
    (row <= row' /\ y1 = sum_sizes H row (row' - row) + dy /\ 0 <= dy < H row') /\
    (col' <= colEnd /\ width + dx = sum_sizes W (col' + 1) (colEnd - col') + x2 /\ 0 <= x2 < W (colEnd + 1)) /\
    (row' <= rowEnd /\ height + dy = sum_sizes H row' (rowEnd - row') + y2 /\ 0 <= y2 < H rowEnd).
Proof.
  intros Hl Hcol Hrow Hx Hy Hw Hh (HW & HH & Hlc & Hlr) W H'.
  pose proof (fun i => getColWidth_loaded f sheet path xlsx i Hl) as Ecol.
  pose proof (fun i => getRowHeight_loaded f sheet path xlsx i Hl) as Erow.
  assert (0 <= last_sized_col xlsx) as Hc0 by apply foldr_max_nonneg.
  assert (0 <= last_sized_row xlsx) as Hr0 by apply foldr_max_nonneg.
  assert (forall j, last_sized_col xlsx < j < maxInt -> 1 <= col_pixels xlsx j) as HW1 by (intros; rewrite col_pixels_default; lia).
  assert (forall j, last_sized_row xlsx < j < maxInt -> 1 <= row_pixels xlsx j) as HH1 by (intros; rewrite row_pixels_default; lia).
  assert (forall last v, cells_fuel last v = (Z.to_nat last + Z.to_nat v + 2)%nat) as Hfuel by done.
  destruct (total_size_ok (getColWidth sheet) _ f (seqZ 1 col) Ecol 0) as [ta Eta].
  destruct (total_size_ok (getRowHeight sheet) _ f (seqZ 1 row) Erow 0) as [tb Etb].
  destruct (skip_cells_ok (getColWidth sheet) _ f _ Ecol HW HW1 (cells_fuel (last_sized_col xlsx) x1) x1 col)
    as (dx & col' & E1 & Hc' & Hdx & Hdx' & Sx); [rewrite ?Hfuel; lia..|].
  destruct (skip_cells_ok (getRowHeight sheet) _ f _ Erow HH HH1 (cells_fuel (last_sized_row xlsx) y1) y1 row)
    as (dy & row' & E2 & Hr' & Hdy & Hdy' & Sy); [rewrite ?Hfuel; lia..|].
  assert (iadd width dx = width + dx) as Ew by int_lia. assert (iadd height dy = height + dy) as Eh by int_lia.
  destruct (span_cells_ok (getColWidth sheet) _ f _ (cells_fuel (last_sized_col xlsx) (width + dx)) (width + dx) col' Ecol HW HW1)
    as (x2 & colEnd & E3 & Hce & Hx2 & _ & Sw); [rewrite ?Hfuel; lia..|].
  destruct (skip_cells_ok (getRowHeight sheet) _ f _ Erow HH HH1 (cells_fuel (last_sized_row xlsx) (height + dy)) (height + dy) row')
    as (y2 & rowEnd & E4 & Hre & Hy2 & _ & Sh); [rewrite ?Hfuel; lia..|].
  exists col', row', (iadd ta x1), (iadd tb y1), colEnd, rowEnd, x2, y2, dx, dy.
  subst W H'. split; [|split_and!; done || lia].
  unfold positionObjectPixels. rewrite (bind_Ret _ _ _ _ _ Eta), (bind_Ret _ _ _ _ _ Etb).
  rewrite (bind_Ret _ _ _ _ _ (fuel_for_loaded f sheet path xlsx last_sized_col x1 Hl)), (bind_Ret _ _ _ _ _ E1).
  rewrite (bind_Ret _ _ _ _ _ (fuel_for_loaded f sheet path xlsx last_sized_row y1 Hl)), (bind_Ret _ _ _ _ _ E2).
  rewrite Ew, Eh.
  rewrite (bind_Ret _ _ _ _ _ (fuel_for_loaded f sheet path xlsx last_sized_col (width + dx) Hl)), (bind_Ret _ _ _ _ _ E3).
  by rewrite (bind_Ret _ _ _ _ _ (fuel_for_loaded f sheet path xlsx last_sized_row (height + dy) Hl)), (bind_Ret _ _ _ _ _ E4).
Qed.

(** C39. The position of an object. The four loops end, whatever columns and rows
    have a size of their own, as long as no size is negative. [W n] is the width of
    the n-th column counted from one and [H n] the height of the n-th row counted
    from zero, while [col], [row] and the results count from zero. The start row
    is moved down by whole rows until the rest of the offset fits in it. The start
    column is moved right in the same way, but with the widths of the columns one
    to the left: the step over column [n] takes [W n] off the offset, which is the
    width of column [n - 1], and the rest is less than [W col'], the width of the
    column before the one that is returned, in which it need not fit. The end
    column and row are those in which what is left of the size, counted from the
    start of the start cell, fits, with the widths and heights of their own. The
    absolute distances, which no caller uses, are not described. *)
Theorem positionObjectPixels_correct f sheet path xlsx col row x1 y1 width height :
  loaded f sheet path xlsx -> 0 <= col -> 0 <= row -> 0 <= x1 -> 0 <= y1 -> 0 <= width -> 0 <= height ->
  sizes_ok xlsx (2 * (col + row + x1 + y1 + width + height) + 10) ->
  let W := col_pixels xlsx in let H := row_pixels xlsx in
  exists col' row' xAbs yAbs colEnd rowEnd x2 y2 dx dy,
    positionObjectPixels sheet col row x1 y1 width height f = Ret ((col', row', xAbs, yAbs, colEnd, rowEnd, x2, y2), f) /\
    (col <= col' /\ x1 = sum_sizes W col (col' - col) + dx /\ 0 <= dx < W col') /\
    (row <= row' /\ y1 = sum_sizes H row (row' - row) + dy /\ 0 <= dy < H row') /\
    (col' <= colEnd /\ width + dx = sum_sizes W (col' + 1) (colEnd - col') + x2 /\ 0 <= x2 < W (colEnd + 1)) /\
    (row' <= rowEnd /\ height + dy = sum_sizes H row' (rowEnd - row') + y2 /\ 0 <= y2 < H rowEnd).
Proof. apply positionObjectPixels_ok. Qed.

End drawing_properties.

(** ** Placing an object *)

Section placing.
Context `{GoEnv}.

Lemma sum_sizes_nonneg sz i n : (forall j, 0 <= sz j) -> 0 <= sum_sizes sz i n.
Proof. intros Hs. unfold sum_sizes. induction (seqZ i n) as [|j l IH]; cbn; [done|]. specialize (Hs j). lia. Qed.

(** An offset that fits in the cell leaves the start where it is. *)
Lemma start_fits sz i i' v d :
  (forall j, 0 <= sz j) -> i <= i' -> v = sum_sizes sz i (i' - i) + d -> 0 <= d -> v < sz i -> i' = i.
Proof.
  intros Hs Hle Hv Hd Hlt. destruct (decide (i = i')) as [|Hne]; [done|].
  rewrite sum_sizes_cons in Hv by lia. pose proof (sum_sizes_nonneg sz (i + 1) (i' - i - 1) Hs). lia.
Qed.

(** The settings and the size of an object that starts in its cell. *)
Record fits (xlsx : xlsxWorksheet) (col row : Z) (fs : formatPicture) (width height : Z) : Prop := mk_fits {
  fit_x : 0 <= formatPicture_OffsetX fs < col_pixels xlsx (col - 1);
  fit_y : 0 <= formatPicture_OffsetY fs < row_pixels xlsx (row - 1);
  fit_width : 0 <= scaled width (formatPicture_XScale fs);
  fit_height : 0 <= scaled height (formatPicture_YScale fs);
  fit_sizes : sizes_ok xlsx (2 * (col - 1 + (row - 1) + formatPicture_OffsetX fs + formatPicture_OffsetY fs
    + scaled width (formatPicture_XScale fs) + scaled height (formatPicture_YScale fs)) + 10)
}.

Lemma place_object_ok f sheet path xlsx part cell width height fs col row :
  loaded f sheet path xlsx -> CellNameToCoordinates cell = ok (col, row) -> coord col -> coord row ->
  fits xlsx col row fs width height ->
  exists colEnd rowEnd x2 y2 n, place_object sheet part cell width height fs f =
    Ret (ok (object_anchor fs (col - 1) (row - 1) colEnd rowEnd x2 y2, drawing_at part f, n),
         f <| File_Drawings ::= <[part := drawing_at part f]> |>).
Proof.
  intros Hl Hcell Hcol Hrow [Hx Hy Hw Hh Hs].
  destruct (positionObjectPixels_ok f sheet path xlsx (col - 1) (row - 1) (formatPicture_OffsetX fs) (formatPicture_OffsetY fs)
    (scaled width (formatPicture_XScale fs)) (scaled height (formatPicture_YScale fs)) Hl)
    as (c & r & xa & ya & ce & re & x2 & y2 & dx & dy & E & (Hc & Sx & Hdx) & (Hr & Sy & Hdy) & _); [lia..|done|].
  destruct Hs as (HW & HH & _). apply start_fits in Sx as ->; [|done|done|lia|lia]. apply start_fits in Sy as ->; [|done|done|lia|lia].
  destruct (drawingParser_ok part f) as [n En]. exists ce, re, x2, y2, n.
  unfold place_object. rewrite Hcell. rewrite (bind_Ret _ _ f (ok (col, row)) f) by done. cbn [fst snd].
  assert (isub col 1 = col - 1) as -> by int_lia. assert (isub row 1 = row - 1) as -> by int_lia.
  rewrite (bind_Ret _ _ _ _ _ E). by rewrite (bind_Ret _ _ _ _ _ En).
Qed.

Lemma fits_drawing xlsx d col row fs width height :
  fits xlsx col row fs width height -> fits (xlsx <| xlsxWorksheet_Drawing := d |>) col row fs width height.
Proof. by intros []. Qed.

Lemma drawings_twice (f : File) part a b :
  f <| File_Drawings ::= <[part := a]> |> <| File_Drawings ::= <[part := b]> |> = f <| File_Drawings ::= <[part := b]> |>.
Proof. destruct f. cbn. unfold field_update. cbn. by rewrite insert_insert_eq. Qed.

Lemma drawing_at_eq f g path :
  File_Drawings f = File_Drawings g -> File_XLSX f = File_XLSX g -> drawing_at path f = drawing_at path g.
Proof. unfold drawing_at. by intros -> ->. Qed.

(** The number of drawings, and the preparation with the next number. *)
Definition count_drawings (f : File) : Z :=
  larger (count_names "xl/drawings/drawing" (File_XLSX f)) (count_names "xl/drawings/drawing" (File_Drawings f)).

Lemma prepareDrawing_counted f sheet path xlsx id :
  loaded f sheet path xlsx -> drawing_numbered f sheet xlsx id -> 0 <= id ->
  exists f1 d,
    prepareDrawing (xlsxWorksheet_Drawing xlsx) (count_drawings f + 1) sheet (drawing_part (count_drawings f + 1)) f =
      Ret ((id, drawing_part id), f1) /\
    loaded f1 sheet path (xlsx <| xlsxWorksheet_Drawing := Some d |>) /\
    drawing_numbered f1 sheet (xlsx <| xlsxWorksheet_Drawing := Some d |>) id /\
    File_Drawings f1 = File_Drawings f /\ File_XLSX f1 = File_XLSX f /\
    (forall p, part_at drawing_rels_cache p f1 = part_at drawing_rels_cache p f) /\
    File_ContentTypes f1 = File_ContentTypes f /\ only_drawing f f1 sheet path xlsx id.
Proof.
  intros Hl Hid Hpos. destruct (prepareDrawing_ok f sheet path xlsx id (count_drawings f + 1) Hl Hid Hpos)
    as (f1 & d & E1 & Hl1 & Hid1 & _ & Hd1 & Hx1 & Hr1 & Ho); [|by exists f1, d].
  intros Hnone. destruct Hid as [_ Hid]. rewrite Hnone in Hid. by destruct Hid as [-> _].
Qed.

End placing.

(** A start column of its own width is not looked at: the loop for the start asks
    for the width of the column before, so that an object that lies inside a wide
    first column is moved to the second one. *)
Theorem positionObjectPixels_previous_column :
  let wide := (gozero : xlsxCol) <| xlsxCol_Min := 1 |> <| xlsxCol_Max := 1 |> <| xlsxCol_Width := f64_of_int 30 |> in
  let xlsx := (gozero : xlsxWorksheet) <| xlsxWorksheet_Cols := Some (mk_xlsxCols [wide]) |> in
  col_pixels xlsx 1 = 216 /\
  returned (positionObjectPixels (H := example_env) "Sheet1" 0 0 100 0 10 10 (example_file xlsx)) =
    Some (1, 0, 100, 0, 1, 0, 46, 10).
Proof. vm_compute. split; reflexivity. Qed.

Lemma sizes_ok_zero v : 0 <= v < 1000000 -> sizes_ok gozero v.
Proof. intros Hv. split; [done|]. split; [done|]. unfold maxInt. cbn. lia. Qed.

Lemma positionObjectPixels_correct_witness :
  exists r, positionObjectPixels (H := example_env) "Sheet1" 2 3 70 5 100 50 (example_file gozero) = Ret (r, example_file gozero).
Proof.
  destruct (@positionObjectPixels_correct example_env (example_file gozero) "Sheet1" _ gozero 2 3 70 5 100 50 (example_loaded gozero))
    as (c & r & xa & ya & ce & re & x2 & y2 & dx & dy & E & _); [lia..|apply sizes_ok_zero; lia|].
  eexists. exact E.
Defined.
