(* ===== verification/Picture.v ===== *)
(** Pictures ([picture.go], [sheet.go]): adding an image to a sheet, with its
    media part, its relationship and its anchor in the drawing, reading it back,
    and the background picture of a sheet. *)
From S2P Require Export Drawing StyleTables.

(** ** Paths ([path], [path/filepath]) *)

Definition slash : ascii := ascii_of_N 47.
Definition is_slash (c : ascii) : bool := Ascii.eqb c slash.
Definition is_dot (c : ascii) : bool := Ascii.eqb c "."%char.

(** The suffix from the last dot of the last element. *)
Definition path_Ext (s : string) : string :=
  let i := strings_LastIndexFunc (fun c => is_dot c || is_slash c) s in
  if i <? 0 then "" else let t := str_drop (Z.to_nat i) s in if strings_HasPrefix t "." then t else "".

Definition last_element (s : string) : string := str_drop (Z.to_nat (strings_LastIndexFunc is_slash s + 1)) s.

Fixpoint trim_left (p : ascii -> bool) (s : string) : string :=
  match s with String c s' => if p c then trim_left p s' else s | EmptyString => EmptyString end.

Definition filepath_Base (s : string) : string :=
  if bool_decide (s = "") then "."
  else
    let b := last_element (str_rev (trim_left is_slash (str_rev s))) in
    if bool_decide (b = "") then "/" else b.

Definition supportImageTypes : list (string * string) :=
  [(".gif", ".gif"); (".jpg", ".jpeg"); (".jpeg", ".jpeg"); (".png", ".png")].

Section pictures.
Context `{GoEnv}.

Definition parseFormatPictureSet (formatSet : string) : formatPicture * option goerr :=
  json_Unmarshal (parseFormatSet formatSet)
    (mk_formatPicture true false false 0 0 (f64_of_int 1) (f64_of_int 1) "" "" "").

(** ** The media part *)

Definition is_media (name : string) : bool := strings_HasPrefix name "xl/media/image".

(** An image that is there already is not stored again. *)
Definition addMedia (file ext : string) : M string :=
  count ← countMedia;
  f ← get;
  match List.find (fun e => is_media e.1 && bool_decide (file = e.2)) (range_map (File_XLSX f)) with
  | Some (name, _) => mret name
  | None =>
      let media := "xl/media/image" +:+ strconv_Itoa (count + 1) +:+ ext in
      modify (fun f => f <| File_XLSX ::= <[media := file]> |>);;
      mret media
  end.

(** ** Adding a picture *)

Definition picture (formatSet : formatPicture) (id : Z) (file name : string) (rID hyperlinkRID : Z) : xlsxPic :=
  (gozero : xlsxPic)
    <| xlsxPic_NvPicPr ::= fun p => p
         <| xlsxNvPicPr_CNvPicPr ::= fun c => c <| xlsxCNvPicPr_PicLocks ::= fun l => l
              <| xlsxPicLocks_NoChangeAspect := formatPicture_NoChangeAspect formatSet |> |> |>
         <| xlsxNvPicPr_CNvPr ::= fun c => c <| xlsxCNvPr_ID := id |> <| xlsxCNvPr_Descr := file |> <| xlsxCNvPr_Name := name |>
              <| xlsxCNvPr_HlinkClick :=
                   if hyperlinkRID =? 0 then None
                   else Some ((gozero : xlsxHlinkClick) <| xlsxHlinkClick_R := SourceRelationship |>
                                <| xlsxHlinkClick_RID := "rId" +:+ strconv_Itoa hyperlinkRID |>) |> |> |>
    <| xlsxPic_BlipFill ::= fun b => b <| xlsxBlipFill_Blip ::= fun b => b <| xlsxBlip_R := SourceRelationship |>
         <| xlsxBlip_Embed := "rId" +:+ strconv_Itoa rID |> |> |>
    <| xlsxPic_SpPr ::= fun s => s <| xlsxSpPr_PrstGeom ::= fun g => g <| xlsxPrstGeom_Prst := "rect" |> |> |>.

Definition addDrawingPicture (sheet drawingXML cell file : string) (width height rID hyperlinkRID : Z)
    (formatSet : formatPicture) : M (option goerr) :=
  let! (anchor, content, cNvPrID) := place_object sheet drawingXML cell width height formatSet in
  charts ← countCharts;
  media ← countMedia;
  let pic := picture formatSet (charts + media + 1) file ("Picture " +:+ strconv_Itoa cNvPrID) rID hyperlinkRID in
  set_drawing drawingXML (append_anchor (anchor <| xdrCellAnchor_Pic := Some pic |>) content);;
  mret None.

Definition AddPictureFromBytes (sheet cell format name extension file : string) : M (option goerr) :=
  match table_get extension supportImageTypes with
  | None => mret (Some (ErrText "unsupported image extension"))
  | Some ext =>
      let! formatSet := mret (parseFormatPictureSet format) in
      let! (width, height) := mret (image_DecodeConfig file) in
      let! p := workSheetReader sheet in
      count ← countDrawings;
      let drawingID := count + 1 in
      xlsx ← deref p;
      '(drawingID, drawingXML) ← prepareDrawing (xlsxWorksheet_Drawing xlsx) drawingID sheet
        ("xl/drawings/drawing" +:+ strconv_Itoa drawingID +:+ ".xml");
      media ← addMedia file ext;
      let mediaStr := ".." +:+ strings_TrimPrefix media "xl" in
      drawingRID ← addDrawingRelationships drawingID SourceRelationshipImage mediaStr "";
      let link := formatPicture_Hyperlink formatSet in
      let linkType := formatPicture_HyperlinkType formatSet in
      drawingHyperlinkRID ←
        (if negb (bool_decide (link = "")) && negb (bool_decide (linkType = ""))
         then addDrawingRelationships drawingID SourceRelationshipHyperLink link
                (if bool_decide (linkType = "External") then linkType else "")
         else mret 0);
      try! addDrawingPicture sheet drawingXML cell name width height drawingRID drawingHyperlinkRID formatSet in
      addContentTypePart drawingID "drawings";;
      mret None
  end.

(** The file system: the error of [os.Stat], with the result of [os.IsNotExist]
    for it, and the content of a file. *)
Variable os_Stat : string -> option (goerr * bool).
Variable ioutil_ReadFile : string -> string.

Definition AddPicture (sheet cell picture format : string) : M (option goerr) :=
  match os_Stat picture with
  | Some (err, true) => mret (Some err)
  | _ =>
      match table_get (path_Ext picture) supportImageTypes with
      | None => mret (Some (ErrText "unsupported image extension"))
      | Some ext => AddPictureFromBytes sheet cell format (last_element picture) ext (ioutil_ReadFile picture)
      end
  end.

Definition SetSheetBackground (sheet picture : string) : M (option goerr) :=
  match os_Stat picture with
  | Some (err, true) => mret (Some err)
  | stat =>
      match table_get (path_Ext picture) supportImageTypes with
      | None => mret (Some (ErrText "unsupported image extension"))
      | Some ext =>
          name ← addMedia (ioutil_ReadFile picture) ext;
          rID ← addSheetRelationships sheet SourceRelationshipImage (strings_Replace1 name "xl" "..") "";
          addSheetPicture sheet rID;;
          setContentTypePartImageExtensions;;
          mret (fst <$> stat)
      end
  end.

(** ** Reading a picture *)

(** The cell an anchor starts at and the relationship of its picture. *)
Definition anchor_picture (anchor : xdrCellAnchor) : option (Z * Z * string) :=
  match xdrCellAnchor_From anchor, xdrCellAnchor_Pic anchor with
  | Some from, Some pic => Some (xlsxFrom_Col from, xlsxFrom_Row from, xlsxBlip_Embed (xlsxBlipFill_Blip (xlsxPic_BlipFill pic)))
  | _, _ => None
  end.

Definition decoded_picture (anchor : decodeCellAnchor) : option (Z * Z * string) :=
  let d : decodeTwoCellAnchor :=
    xml_Unmarshal ("<decodeTwoCellAnchor>" +:+ decodeCellAnchor_Content anchor +:+ "</decodeTwoCellAnchor>") in
  match decodeTwoCellAnchor_From d, decodeTwoCellAnchor_Pic d with
  | Some from, Some pic =>
      Some (decodeFrom_Col from, decodeFrom_Row from, decodeBlip_Embed (decodeBlipFill_Blip (decodePic_BlipFill pic)))
  | _, _ => None
  end.

(** The picture of the first anchor at the cell whose target is an image; a
    relationship that does not exist is a nil dereference. *)
Fixpoint find_picture (rels : string) (col row : Z) (anchors : list (option (Z * Z * string)))
    : M (option (string * string)) :=
  match anchors with
  | [] => mret None
  | Some (c, r, embed) :: rest =>
      if (c =? col) && (r =? row) then
        o ← getDrawingRelationships rels embed;
        match o with
        | None => panic
        | Some relation =>
            let target := xlsxWorkbookRelation_Target relation in
            match table_get (path_Ext target) supportImageTypes with
            | Some _ =>
                f ← get;
                mret (Some (filepath_Base target, default "" (File_XLSX f !! strings_Replace target ".." "xl")))
            | None => find_picture rels col row rest
            end
        end
      else find_picture rels col row rest
  | None :: rest => find_picture rels col row rest
  end.

Definition GetPicture (sheet cell : string) : M ((string * string) * option goerr) :=
  let! (col, row) := mret (CellNameToCoordinates cell) orelse ("", "") in
  let col := isub col 1 in
  let row := isub row 1 in
  let! p := workSheetReader sheet orelse ("", "") in
  xlsx ← deref p;
  match xlsxWorksheet_Drawing xlsx with
  | None => mret (ok ("", ""))
  | Some d =>
      target ← getSheetRelationshipsTargetByID sheet (xlsxDrawing_RID d);
      let drawingXML := strings_Replace target ".." "xl" in
      let drawingRelationships :=
        strings_Replace (strings_Replace target "../drawings" "xl/drawings/_rels") ".xml" ".xml.rels" in
      '(wsDr, _) ← drawingParser drawingXML;
      o ← find_picture drawingRelationships col row (anchor_picture <$> xlsxWsDr_TwoCellAnchor wsDr);
      match o with
      | Some r => mret (ok r)
      | None =>
          f ← get;
          match File_XLSX f !! drawingXML with
          | None => mret (ok ("", ""))
          | Some _ =>
              text ← readXML drawingXML;
              let decoded : decodeWsDr := xml_Unmarshal (namespaceStrictToTransitional text) in
              o ← find_picture drawingRelationships col row (decoded_picture <$> decodeWsDr_TwoCellAnchor decoded);
              mret (ok (default ("", "") o))
          end
      end
  end.

End pictures.

(** ** Names of images *)

Lemma str_rev_involutive s : str_rev (str_rev s) = s.
Proof.
  induction s as [|c s IH]; [done|]. change (String c s) with (String c EmptyString +:+ s).
  by rewrite !str_rev_app, IH.
Qed.

(** The name of a media part: a number and the extension of an image. *)
Definition image_name (k : Z) (e : string) : string := "image" +:+ strconv_Itoa k +:+ e.
Definition media_path (k : Z) (e : string) : string := "xl/media/" +:+ image_name k e.
Definition media_target (k : Z) (e : string) : string := "../media/" +:+ image_name k e.

Lemma image_extension e : is_Some (table_get e supportImageTypes) ->
  exists b, e = String "."%char b /\ str_forallb (fun c => negb (is_dot c || is_slash c)) b = true /\
    exists b' c, b = b' +:+ String c EmptyString.
Proof.
  intros [v E]. cbn in E. repeat (case_decide; [subst e|]); [..|done].
  - exists "gif". by split; [|split; [|exists "gi", "f"%char]].
  - exists "jpg". by split; [|split; [|exists "jp", "g"%char]].
  - exists "jpeg". by split; [|split; [|exists "jpe", "g"%char]].
  - exists "png". by split; [|split; [|exists "pn", "g"%char]].
Qed.

Lemma digits_plain s : str_forallb is_digit s = true -> str_forallb (fun c => negb (is_slash c)) s = true.
Proof. apply str_forallb_impl. intros c Hc. apply negb_true_iff, Ascii.eqb_neq. intros ->. done. Qed.

Lemma path_Ext_image a k e : 0 <= k -> is_Some (table_get e supportImageTypes) -> path_Ext (a +:+ image_name k e) = e.
Proof.
  intros Hk He. destruct (image_extension e He) as (b & -> & Hb & _). unfold path_Ext, image_name, strings_LastIndexFunc.
  cbv zeta. rewrite <- !str_app_assoc. rewrite last_index_from_app by done.
  set (p := (a +:+ "image") +:+ strconv_Itoa k). pose proof (len_nonneg p). replace (0 + len p <? 0) with false by lia.
  replace (Z.to_nat (0 + len p)) with (String.length p) by (unfold len; lia). rewrite str_drop_app.
  unfold strings_HasPrefix. change (String "."%char b) with ("." +:+ b). by rewrite prefix_app.
Qed.

Lemma filepath_Base_image a k e :
  0 <= k -> is_Some (table_get e supportImageTypes) -> filepath_Base (a +:+ String slash (image_name k e)) = image_name k e.
Proof.
  intros Hk He. destruct (image_extension e He) as (b & -> & Hb & b' & c & ->). unfold filepath_Base.
  set (n := image_name k _). rewrite bool_decide_eq_false_2 by by destruct a.
  assert (exists t, a +:+ String slash n = t +:+ String c EmptyString) as [t Et].
  { exists (a +:+ String slash ("image" +:+ strconv_Itoa k +:+ String "."%char b')). unfold n, image_name.
    rewrite !str_app_assoc. cbn. by rewrite !str_app_assoc. }
  assert (is_slash c = false) as Hc.
  { rewrite str_forallb_app in Hb. apply andb_true_iff in Hb as [_ Hb]. cbn in Hb. by destruct (is_dot c), (is_slash c). }
  assert (trim_left is_slash (str_rev (a +:+ String slash n)) = str_rev (a +:+ String slash n)) as ->.
  { rewrite Et, str_rev_app. change (str_rev (String c EmptyString)) with (String c EmptyString).
    cbn [String.append trim_left]. by rewrite Hc. }
  rewrite str_rev_involutive.
  assert (last_element (a +:+ String slash n) = n) as ->; [|by rewrite bool_decide_eq_false_2].
  unfold last_element, strings_LastIndexFunc. rewrite last_index_from_app; [|done|].
  - change (a +:+ String slash n) with (a +:+ (String slash EmptyString +:+ n)). rewrite <- str_app_assoc.
    replace (Z.to_nat (0 + len a + 1)) with (String.length (a +:+ String slash EmptyString)); [apply str_drop_app|].
    rewrite str_length_app. unfold len. cbn. lia.
  - unfold n, image_name. rewrite !str_forallb_app, (digits_plain (strconv_Itoa k)) by by apply Itoa_digits.
    cbn. eapply str_forallb_impl; [|exact Hb]. intros x. cbv beta. by destruct (is_dot x), (is_slash x).
Qed.

Lemma media_target_path k e :
  0 <= k -> is_Some (table_get e supportImageTypes) -> strings_Replace (media_target k e) ".." "xl" = media_path k e.
Proof.
  intros Hk He. unfold media_target, media_path, image_name.
  change "../media/" with (".." +:+ "/media/"). rewrite str_app_assoc, strings_Replace_head.
  rewrite (strings_Replace_skip "/media/"), (strings_Replace_skip "image") by done.
  rewrite (strings_Replace_skip (strconv_Itoa k)) by by apply digits_no_dot, Itoa_digits.
  assert (strings_Replace e ".." "xl" = e) as ->; [|done].
  destruct He as [v E]. cbn in E. repeat (case_decide; [by subst e|]). done.
Qed.

Section picture_lemmas.
Context `{GoEnv}.

(** The media parts have names of images. *)
Definition media_named (f : File) : Prop :=
  forall n, is_Some (File_XLSX f !! n) -> is_media n = true ->
    exists k e, 0 <= k /\ n = media_path k e /\ is_Some (table_get e supportImageTypes).

Lemma addMedia_ok f file ext :
  range_map_ok -> media_named f -> is_Some (table_get ext supportImageTypes) ->
  exists k e f', addMedia file ext f = Ret (media_path k e, f') /\ 0 <= k /\ is_Some (table_get e supportImageTypes) /\
    File_XLSX f' !! media_path k e = Some file /\
    (f' = f \/ f' = f <| File_XLSX ::= <[media_path k e := file]> |>).
Proof.
  intros Hr Hm Hext. unfold addMedia.
  rewrite (bind_Ret countMedia _ f (count_names "xl/media/image" (File_XLSX f)) f), (bind_Ret get _ f f f) by done.
  destruct (List.find _ _) as [[n c]|] eqn:E.
  - apply find_some in E as [Hin E]. apply andb_true_iff in E as [Hn Hc]. cbn in Hn, Hc. apply bool_decide_eq_true in Hc as <-.
    apply list_elem_of_In in Hin. rewrite (Hr _ _ _ _ (File_XLSX f)) in Hin. apply elem_of_map_to_list in Hin.
    destruct (Hm n ltac:(by eexists) Hn) as (k & e & Hk & -> & He). exists k, e, f. split_and!; [done..|by left].
  - set (k := count_names _ _ + 1). assert (0 <= k) as Hk.
    { unfold k, count_names. pose proof (zlen_nonneg (List.filter (fun e => strings_Contains e.1 "xl/media/image") (range_map (File_XLSX f)))). lia. }
    exists k, ext. eexists. split; [done|]. split_and!; [done|done|apply lookup_insert_eq|by right].
Qed.

(** The picture that is added is found behind anchors of other cells. *)
Lemma find_picture_app rels col row l k f :
  Forall (fun o => forall e, o <> Some (col, row, e)) l -> find_picture rels col row (l ++ k) f = find_picture rels col row k f.
Proof.
  induction 1 as [|o l Ho _ IH]; [done|]. cbn [app find_picture]. destruct o as [[[c r] e]|]; [|done].
  destruct ((c =? col) && (r =? row)) eqn:E; [|done]. exfalso. apply (Ho e). f_equal. f_equal. f_equal; lia.
Qed.

Lemma getDrawingRelationships_view f rels rID :
  exists f', getDrawingRelationships rels rID f =
    Ret (find_relationship rID (relations_of (part_at drawing_rels_cache rels f)), f') /\ f' ≡ f.
Proof.
  unfold getDrawingRelationships, drawingRelsReader.
  destruct (part_reader_view drawing_rels_cache rels f (cached_drawing_rels rels f)) as (f' & E & Hv).
  rewrite (bind_Ret _ _ _ _ _ E). exists f'. split; [|done]. by destruct (part_at _ _ f).
Qed.

Lemma find_picture_image f rels col row rID k e rest :
  0 <= k -> is_Some (table_get e supportImageTypes) ->
  from_option xlsxWorkbookRelation_Target "" (find_relationship rID (relations_of (part_at drawing_rels_cache rels f))) =
    media_target k e ->
  exists f', find_picture rels col row (Some (col, row, rID) :: rest) f =
    Ret (Some (image_name k e, default "" (File_XLSX f !! media_path k e)), f').
Proof.
  intros Hk He Ht. cbn [find_picture]. rewrite !Z.eqb_refl. cbn [andb].
  destruct (getDrawingRelationships_view f rels rID) as (f' & E & Hv). rewrite (bind_Ret _ _ _ _ _ E).
  destruct (find_relationship _ _) as [r|]; [|done]. cbn [from_option] in Ht. rewrite Ht.
  unfold media_target at 1. rewrite path_Ext_image by done. destruct He as [v Ev] eqn:Ee. rewrite Ev.
  rewrite (bind_Ret get _ f' f' f') by done. exists f'. rewrite media_target_path by done.
  assert (File_XLSX f' = File_XLSX f) as -> by by eapply view_rest.
  change (media_target k e) with ("../media" +:+ String slash (image_name k e)). by rewrite filepath_Base_image.
Qed.

(** *** The relationships of the drawing *)

(** What the relationship of the hyperlink adds. *)
Lemma hyperlink_relation f id (b : bool) link mode :
  exists hl f' extra, (if b then addDrawingRelationships id SourceRelationshipHyperLink link mode else mret 0) f = Ret (hl, f') /\
    relations_of (part_at drawing_rels_cache (drawing_rels_file id) f') =
      relations_of (part_at drawing_rels_cache (drawing_rels_file id) f) ++ extra /\
    (f' = f \/ exists d, f' = pc_store drawing_rels_cache (drawing_rels_file id) d f).
Proof.
  destruct b; [|exists 0, f, []; rewrite app_nil_r; split_and!; [done..|by left]].
  rewrite addDrawingRelationships_ok. eexists _, _, [_]. split; [done|]. split; [|right; by eexists].
  by rewrite (part_at_stored drawing_rels_cache).
Qed.

Lemma image_extension_table ext ext' :
  table_get ext supportImageTypes = Some ext' -> is_Some (table_get ext' supportImageTypes).
Proof. intros E. cbn in E. repeat (case_decide; [injection E as <-; by eexists|]). done. Qed.

Lemma media_path_target k e : ".." +:+ strings_TrimPrefix (media_path k e) "xl" = media_target k e.
Proof. unfold media_path. change "xl/media/" with ("xl" +:+ "/media/"). by rewrite str_app_assoc, strings_TrimPrefix_app. Qed.

(** *** The steps *)

(** What a file shows after a picture was added. *)
Record picture_added (f f1 : File) (sheet path : string) (xlsx : xlsxWorksheet) (id col row : Z) (file : string)
    (d : xlsxDrawing) (k : Z) (e : string) : Prop := mk_picture_added {
  pa_loaded : loaded f1 sheet path (xlsx <| xlsxWorksheet_Drawing := Some d |>);
  pa_numbered : drawing_numbered f1 sheet (xlsx <| xlsxWorksheet_Drawing := Some d |>) id;
  pa_number : 0 <= k;
  pa_extension : is_Some (table_get e supportImageTypes);
  pa_media : File_XLSX f1 !! media_path k e = Some file;
  pa_relation :
    let rels := relations_of (part_at drawing_rels_cache (drawing_rels_file id) f) in
    exists extra r, relations_of (part_at drawing_rels_cache (drawing_rels_file id) f1) = (rels ++ [r]) ++ extra /\
      xlsxWorkbookRelation_ID r = "rId" +:+ strconv_Itoa (zlen rels + 1) /\ xlsxWorkbookRelation_Target r = media_target k e;
  pa_anchor :
    exists a, File_Drawings f1 !! drawing_part id = Some (append_anchor a (drawing_at (drawing_part id) f)) /\
      anchor_picture a = Some (col - 1, row - 1,
        "rId" +:+ strconv_Itoa (zlen (relations_of (part_at drawing_rels_cache (drawing_rels_file id) f)) + 1))
}.

Lemma addDrawingPicture_ok f sheet path xlsx part cell name width height rID link fs col row :
  loaded f sheet path xlsx -> CellNameToCoordinates cell = ok (col, row) -> coord col -> coord row ->
  fits xlsx col row fs width height ->
  exists a, addDrawingPicture sheet part cell name width height rID link fs f =
      Ret (None, f <| File_Drawings ::= <[part := append_anchor a (drawing_at part f)]> |>) /\
    anchor_picture a = Some (col - 1, row - 1, "rId" +:+ strconv_Itoa rID).
Proof.
  intros Hl Hcell Hcol Hrow Hfit.
  destruct (place_object_ok f sheet path xlsx part cell width height fs col row Hl Hcell Hcol Hrow Hfit)
    as (ce & re & x2 & y2 & n & E).
  unfold addDrawingPicture. rewrite (bind_Ret _ _ _ _ _ E). cbn [fst snd].
  set (f1 := f <| File_Drawings ::= _ |>).
  rewrite (bind_Ret countCharts _ f1 (count_names "xl/charts/chart" (File_XLSX f1)) f1) by done.
  rewrite (bind_Ret countMedia _ f1 (count_names "xl/media/image" (File_XLSX f1)) f1) by done.
  eexists. split; [|shelve]. unfold set_drawing. rewrite (bind_Ret (modify _) _ f1 tt _ eq_refl).
  unfold f1. rewrite drawings_twice. reflexivity.
  Unshelve. reflexivity.
Qed.

Lemma addMedia_keeps f sheet path xlsx id k e file f' :
  loaded f sheet path xlsx -> drawing_numbered f sheet xlsx id -> is_Some (xlsxWorksheet_Drawing xlsx) ->
  f' = f \/ f' = f <| File_XLSX ::= <[media_path k e := file]> |> ->
  loaded f' sheet path xlsx /\ drawing_numbered f' sheet xlsx id /\
  drawing_at (drawing_part id) f' = drawing_at (drawing_part id) f /\
  part_at drawing_rels_cache (drawing_rels_file id) f' = part_at drawing_rels_cache (drawing_rels_file id) f.
Proof.
  intros Hl Hid [d Hd] [->| ->]; [done|]. split; [done|]. split; [|split].
  - unfold drawing_numbered in *. rewrite Hd in *. destruct Hid as [Hr Hid]. split; [done|]. rewrite <- Hid.
    do 3 f_equal. unfold part_at. cbn. by rewrite lookup_insert_ne.
  - unfold drawing_at. cbn. by rewrite lookup_insert_ne.
  - unfold part_at. cbn. by rewrite lookup_insert_ne.
Qed.

Lemma AddPictureFromBytes_ok f sheet path xlsx id cell col row format fs name ext ext' file width height :
  range_map_ok -> media_named f -> loaded f sheet path xlsx -> drawing_numbered f sheet xlsx id -> 0 <= id ->
  table_get ext supportImageTypes = Some ext' -> parseFormatPictureSet format = ok fs -> image_DecodeConfig file = ok (width, height) ->
  CellNameToCoordinates cell = ok (col, row) -> coord col -> coord row -> fits xlsx col row fs width height ->
  exists f1 d k e, AddPictureFromBytes sheet cell format name ext file f = Ret (None, f1) /\
    picture_added f f1 sheet path xlsx id col row file d k e.
Proof.
  intros Hr Hmedia Hl Hid Hpos Hext Hfs Himg Hcell Hcol Hrow Hfit.
  set (n := count_drawings f).
  destruct (prepareDrawing_counted f sheet path xlsx id Hl Hid Hpos) as (f1 & d & E1 & Hl1 & Hid1 & Hd1 & Hx1 & Hr1 & Ht1 & Ho1).
  destruct (addMedia_ok f1 file ext' Hr) as (k & e & f2 & E2 & Hk & He & Hm2 & Hf2).
  { intros m Hm. apply Hmedia. by rewrite <- Hx1. }
  { by apply (image_extension_table ext). }
  destruct (addMedia_keeps f1 sheet path _ id k e file f2 Hl1 Hid1 ltac:(by eexists) Hf2) as (Hl2 & Hid2 & Ha2 & Hr2).
  set (o := part_at drawing_rels_cache (drawing_rels_file id) f).
  assert (part_at drawing_rels_cache (drawing_rels_file id) f2 = o) as Ho by by rewrite Hr2, Hr1.
  pose proof (addDrawingRelationships_ok f2 id SourceRelationshipImage (media_target k e) "") as E3. cbv zeta in E3. rewrite Ho in E3.
  set (r := next_relation _ _ _ o) in E3. set (f3 := pc_store drawing_rels_cache _ _ f2) in E3.
  destruct (hyperlink_relation f3 id
    (negb (bool_decide (formatPicture_Hyperlink fs = "")) && negb (bool_decide (formatPicture_HyperlinkType fs = "")))
    (formatPicture_Hyperlink fs)
    (if bool_decide (formatPicture_HyperlinkType fs = "External") then formatPicture_HyperlinkType fs else ""))
    as (hl & f4 & extra & E4 & Hr4 & Hf4).
  assert (relations_of (part_at drawing_rels_cache (drawing_rels_file id) f4) = (relations_of o ++ [r]) ++ extra) as Hr4'.
  { rewrite Hr4. unfold f3. by rewrite (part_at_stored drawing_rels_cache). }
  assert (loaded f4 sheet path (xlsx <| xlsxWorksheet_Drawing := Some d |>) /\ drawing_numbered f4 sheet (xlsx <| xlsxWorksheet_Drawing := Some d |>) id
    /\ drawing_at (drawing_part id) f4 = drawing_at (drawing_part id) f /\ File_XLSX f4 !! media_path k e = Some file) as (Hl4 & Hid4 & Ha4 & Hm4).
  { rewrite <- (drawing_at_eq f1 f) by done. rewrite <- Ha2. destruct Hf4 as [->|[? ->]]; split_and!; done. }
  destruct (addDrawingPicture_ok f4 sheet path _ (drawing_part id) cell name width height (zlen (relations_of o) + 1) hl fs col row
    Hl4 Hcell Hcol Hrow (fits_drawing _ _ _ _ _ _ _ Hfit)) as (a & E5 & Ha).
  set (f5 := f4 <| File_Drawings ::= _ |>) in E5.
  destruct (addContentTypePart_only id "drawings" f5) as (f6 & E6 & [ct Hf6]).
  exists f6, d, k, e. split.
  - unfold AddPictureFromBytes. rewrite Hext, Hfs, (bind_Ret _ _ f (ok fs) f) by done. cbn [fst snd].
    rewrite Himg, (bind_Ret _ _ f (ok (width, height)) f) by done. cbn [fst snd].
    rewrite (bind_Ret _ _ _ _ _ (workSheetReader_loaded _ _ _ _ Hl)). cbn [fst snd].
    rewrite (bind_Ret countDrawings _ f n f) by done. cbv zeta.
    rewrite (bind_Ret _ _ _ _ _ (deref_loaded _ _ _ (proj2 Hl))).
    fold (drawing_part (n + 1)). rewrite (bind_Ret _ _ _ _ _ E1), (bind_Ret _ _ _ _ _ E2).
    rewrite media_path_target, (bind_Ret _ _ _ _ _ E3), (bind_Ret _ _ _ _ _ E4), (bind_Ret _ _ _ _ _ E5).
    by rewrite (bind_Ret _ _ _ _ _ E6).
  - subst f6. split; try done.
    + exists extra, r. split; [exact Hr4'|done].
    + exists a. split; [|done]. rewrite <- Ha4. apply lookup_insert_eq.
Qed.

Lemma GetPicture_added f f1 sheet path xlsx id cell col row file d k e :
  picture_added f f1 sheet path xlsx id col row file d k e -> 0 <= id ->
  CellNameToCoordinates cell = ok (col, row) -> coord col -> coord row ->
  Forall (fun a => forall e, anchor_picture a <> Some (col - 1, row - 1, e)) (xlsxWsDr_TwoCellAnchor (drawing_at (drawing_part id) f)) ->
  (let rels := relations_of (part_at drawing_rels_cache (drawing_rels_file id) f) in
   Forall (fun r => xlsxWorkbookRelation_ID r <> "rId" +:+ strconv_Itoa (zlen rels + 1)) rels) ->
  exists f2, GetPicture sheet cell f1 = Ret (ok (image_name k e, file), f2).
Proof.
  intros [Hl [_ Hid] Hk He Hm (extra & r & Hrels & Hrid & Htarget) (a & Ha & Hpic)] Hpos Hcell Hcol Hrow Hfree Hnew.
  set (rels := relations_of (part_at _ _ f)) in *. cbv zeta in Hnew.
  unfold GetPicture. rewrite Hcell, (bind_Ret _ _ f1 (ok (col, row)) f1) by done. cbn [fst snd].
  assert (isub col 1 = col - 1) as -> by int_lia. assert (isub row 1 = row - 1) as -> by int_lia.
  rewrite (bind_Ret _ _ _ _ _ (workSheetReader_loaded _ _ _ _ Hl)). cbn [fst snd].
  rewrite (bind_Ret _ _ _ _ _ (deref_loaded _ _ _ (proj2 Hl))).
  replace (xlsxWorksheet_Drawing (xlsx <| xlsxWorksheet_Drawing := Some d |>)) with (Some d) in * by done.
  destruct (getSheetRelationshipsTargetByID_view f1 sheet (xlsxDrawing_RID d)) as (f2 & E2 & Hv).
  rewrite (bind_Ret _ _ _ _ _ E2). rewrite Hid, drawing_target_part, drawing_target_rels by done.
  assert (File_Drawings f2 = File_Drawings f1) as Hd2 by by eapply view_rest.
  assert (File_XLSX f2 = File_XLSX f1) as Hx2 by by eapply view_rest.
  assert (drawingParser (drawing_part id) f2 = Ret ((append_anchor a (drawing_at (drawing_part id) f), 1), f2)) as E3.
  { unfold drawingParser, mbind, gom_bind, get. by rewrite Hd2, Ha. }
  rewrite (bind_Ret _ _ _ _ _ E3). set (old := drawing_at _ f) in *.
  change (xlsxWsDr_TwoCellAnchor (append_anchor a old)) with (xlsxWsDr_TwoCellAnchor old ++ [a]).
  rewrite fmap_app. change (anchor_picture <$> [a]) with [anchor_picture a]. rewrite Hpic.
  destruct (find_picture_image f2 (drawing_rels_file id) (col - 1) (row - 1) ("rId" +:+ strconv_Itoa (zlen rels + 1)) k e [] Hk He) as [f3 E].
  { rewrite (sv_drawing_rels _ _ Hv), Hrels, find_relationship_app, (find_relationship_new _ _ r) by done. done. }
  rewrite Hx2, Hm in E. exists f3.
  rewrite <- (find_picture_app _ _ _ (anchor_picture <$> xlsxWsDr_TwoCellAnchor old)) in E;
    [|by rewrite Forall_fmap].
  cbn. by rewrite (bind_Ret _ _ _ _ _ E).
Qed.

End picture_lemmas.

Section picture_properties.
Context `{GoEnv}.

(** C34. A picture that was added is read back. For a sheet in memory whose drawing
    has a number, an image that can be decoded and starts in its cell, and a
    cell without a picture, the call succeeds, and [GetPicture] for any name of
    the cell returns the bytes of the image with the name of its media part. *)
Theorem AddPicture_GetPicture f sheet path xlsx id cell cell' col row format fs name ext ext' file width height :
  range_map_ok -> media_named f -> loaded f sheet path xlsx -> drawing_numbered f sheet xlsx id -> 0 <= id ->
  table_get ext supportImageTypes = Some ext' -> parseFormatPictureSet format = ok fs -> image_DecodeConfig file = ok (width, height) ->
  CellNameToCoordinates cell = ok (col, row) -> CellNameToCoordinates cell' = ok (col, row) -> coord col -> coord row ->
  fits xlsx col row fs width height ->
  Forall (fun a => forall e, anchor_picture a <> Some (col - 1, row - 1, e)) (xlsxWsDr_TwoCellAnchor (drawing_at (drawing_part id) f)) ->
  (let rels := relations_of (part_at drawing_rels_cache (drawing_rels_file id) f) in
   Forall (fun r => xlsxWorkbookRelation_ID r <> "rId" +:+ strconv_Itoa (zlen rels + 1)) rels) ->
  exists f1 f2 k e, AddPictureFromBytes sheet cell format name ext file f = Ret (None, f1) /\
    GetPicture sheet cell' f1 = Ret (ok (image_name k e, file), f2) /\ 0 <= k /\ is_Some (table_get e supportImageTypes).
Proof.
  intros Hr Hmedia Hl Hid Hpos Hext Hfs Himg Hcell Hcell' Hcol Hrow Hfit Hfree Hnew.
  destruct (AddPictureFromBytes_ok f sheet path xlsx id cell col row format fs name ext ext' file width height)
    as (f1 & d & k & e & E1 & Hpa); [done..|].
  destruct (GetPicture_added _ _ _ _ _ _ cell' _ _ _ _ _ _ Hpa) as [f2 E2]; [done..|].
  exists f1, f2, k, e. by destruct Hpa.
Qed.

End picture_properties.

(** ** Concrete instances *)

(** A picture as large as its image, moved by an offset. *)
Definition moved_picture (x : Z) : formatPicture :=
  mk_formatPicture true false false x 0 (f64_of_int 1) (f64_of_int 1) "" "" "".
Definition moved_env (x : Z) : GoEnv := example_env <| (@env_json_picture) := (fun _ _ => ok (moved_picture x)) |>.

Lemma AddPicture_GetPicture_witness :
  exists f1 f2 k e, AddPictureFromBytes (H := example_env) "Sheet1" "B2" "" "logo" ".png" "bytes" (example_file gozero) = Ret (None, f1) /\
    GetPicture (H := example_env) "Sheet1" "b2" f1 = Ret (ok (image_name k e, "bytes"), f2).
Proof.
  destruct (@AddPicture_GetPicture example_env (example_file gozero) "Sheet1" "xl/worksheets/sheet1.xml" gozero 1 "B2" "b2" 2 2 "" (moved_picture 0)
    "logo" ".png" ".png" "bytes" 1 1 example_env_range) as (f1 & f2 & k & e & E1 & E2 & _);
    [|apply example_loaded|..|exists f1, f2, k, e; exact (conj E1 E2)].
  - intros n [v Hn]. discriminate Hn.
  - split; [by split|]. split; [vm_compute; reflexivity|constructor].
  - done.
  - reflexivity.
  - reflexivity.
  - reflexivity.
  - reflexivity.
  - reflexivity.
  - by split.
  - by split.
  - split; [by split..|done|done|]. apply sizes_ok_zero. vm_compute. by split.
  - constructor.
  - constructor.
Defined.

(** A picture that is moved out of its cell by an offset: the anchor starts in
    the cell it lies in, with the whole offset once more, and [GetPicture] finds
    it in neither the cell it was added to nor at the distance it was given. *)
Theorem AddPicture_moved :
  returned ((r ← AddPictureFromBytes (H := moved_env 100) "Sheet1" "A1" "" "logo" ".png" "bytes";
             a ← GetPicture (H := moved_env 100) "Sheet1" "A1"; b ← GetPicture (H := moved_env 100) "Sheet1" "B1";
             f ← get;
             mret (r, a, b, (fun w => xdrCellAnchor_From <$> xlsxWsDr_TwoCellAnchor w) <$> File_Drawings f !! "xl/drawings/drawing1.xml"))
            (example_file gozero)) =
    Some (None, ok ("", ""), ok ("image1.png", "bytes"), Some [Some (mk_xlsxFrom 1 (100 * EMU) 0 0)]).
Proof. vm_compute. reflexivity. Qed.

(** The number of an image is one more than the number of images: it can be the
    number of an image that is there, whose content is then replaced. *)
Theorem addMedia_replaces :
  returned ((m ← addMedia (H := example_env) "new" ".png"; f ← get; mret (m, File_XLSX f !! "xl/media/image2.png"))
            ((example_file gozero) <| File_XLSX := {["xl/media/image2.png" := "old"]} |>)) =
    Some ("xl/media/image2.png", Some "new").
Proof. vm_compute. reflexivity. Qed.
