(* ===== verification/Chart.v ===== *)
(** Charts ([chart.go]): the plot area of each type of chart, the chart part that
    the options of a chart describe, and adding a chart to a sheet. *)
From S2P Require Export Drawing StyleTables XmlChart.

(** ** Tables *)

Definition Area : string := "area".
Definition AreaStacked : string := "areaStacked".
Definition AreaPercentStacked : string := "areaPercentStacked".
Definition Area3D : string := "area3D".
Definition Area3DStacked : string := "area3DStacked".
Definition Area3DPercentStacked : string := "area3DPercentStacked".
Definition Bar : string := "bar".
Definition BarStacked : string := "barStacked".
Definition BarPercentStacked : string := "barPercentStacked".
Definition Bar3DClustered : string := "bar3DClustered".
Definition Bar3DStacked : string := "bar3DStacked".
Definition Bar3DPercentStacked : string := "bar3DPercentStacked".
Definition Col : string := "col".
Definition ColStacked : string := "colStacked".
Definition ColPercentStacked : string := "colPercentStacked".
Definition Col3DClustered : string := "col3DClustered".
Definition Col3D : string := "col3D".
Definition Col3DStacked : string := "col3DStacked".
Definition Col3DPercentStacked : string := "col3DPercentStacked".
Definition Doughnut : string := "doughnut".
Definition Line : string := "line".
Definition Pie : string := "pie".
Definition Pie3D : string := "pie3D".
Definition Radar : string := "radar".
Definition Scatter : string := "scatter".

(** The value of an absent key is the zero value. *)
Definition zero_get {A} `{GoZero A} (k : string) (t : list (string * A)) : A := default gozero (table_get k t).

Definition chartView3DRotX : list (string * Z) :=
  [(Area, 0); (AreaStacked, 0); (AreaPercentStacked, 0); (Area3D, 15); (Area3DStacked, 15);
   (Area3DPercentStacked, 15); (Bar, 0); (BarStacked, 0); (BarPercentStacked, 0); (Bar3DClustered, 15);
   (Bar3DStacked, 15); (Bar3DPercentStacked, 15); (Col, 0); (ColStacked, 0); (ColPercentStacked, 0);
   (Col3DClustered, 15); (Col3D, 15); (Col3DStacked, 15); (Col3DPercentStacked, 15); (Doughnut, 0);
   (Line, 0); (Pie, 0); (Pie3D, 30); (Radar, 0); (Scatter, 0)].

Definition chartView3DRotY : list (string * Z) :=
  [(Area, 0); (AreaStacked, 0); (AreaPercentStacked, 0); (Area3D, 20); (Area3DStacked, 20);
   (Area3DPercentStacked, 20); (Bar, 0); (BarStacked, 0); (BarPercentStacked, 0); (Bar3DClustered, 20);
   (Bar3DStacked, 20); (Bar3DPercentStacked, 20); (Col, 0); (ColStacked, 0); (ColPercentStacked, 0);
   (Col3DClustered, 20); (Col3D, 20); (Col3DStacked, 20); (Col3DPercentStacked, 20); (Doughnut, 0);
   (Line, 0); (Pie, 0); (Pie3D, 0); (Radar, 0); (Scatter, 0)].

Definition chartView3DDepthPercent : list (string * Z) :=
  [(Area, 100); (AreaStacked, 100); (AreaPercentStacked, 100); (Area3D, 100); (Area3DStacked, 100);
   (Area3DPercentStacked, 100); (Bar, 100); (BarStacked, 100); (BarPercentStacked, 100);
   (Bar3DClustered, 100); (Bar3DStacked, 100); (Bar3DPercentStacked, 100); (Col, 100); (ColStacked, 100);
   (ColPercentStacked, 100); (Col3DClustered, 100); (Col3D, 100); (Col3DStacked, 100);
   (Col3DPercentStacked, 100); (Doughnut, 100); (Line, 100); (Pie, 100); (Pie3D, 100); (Radar, 100);
   (Scatter, 100)].

Definition chartView3DRAngAx : list (string * Z) :=
  [(Area, 0); (AreaStacked, 0); (AreaPercentStacked, 0); (Area3D, 1); (Area3DStacked, 1);
   (Area3DPercentStacked, 1); (Bar, 0); (BarStacked, 0); (BarPercentStacked, 0); (Bar3DClustered, 1);
   (Bar3DStacked, 1); (Bar3DPercentStacked, 1); (Col, 0); (ColStacked, 0); (ColPercentStacked, 0);
   (Col3DClustered, 1); (Col3D, 1); (Col3DStacked, 1); (Col3DPercentStacked, 1); (Doughnut, 0); (Line, 0);
   (Pie, 0); (Pie3D, 0); (Radar, 0); (Scatter, 0)].

Definition chartLegendPosition : list (string * string) :=
  [("bottom", "b"); ("left", "l"); ("right", "r"); ("top", "t"); ("top_right", "tr")].

Definition chartValAxNumFmtFormatCode : list (string * string) :=
  [(Area, "General"); (AreaStacked, "General"); (AreaPercentStacked, "0%"); (Area3D, "General");
   (Area3DStacked, "General"); (Area3DPercentStacked, "0%"); (Bar, "General"); (BarStacked, "General");
   (BarPercentStacked, "0%"); (Bar3DClustered, "General"); (Bar3DStacked, "General");
   (Bar3DPercentStacked, "0%"); (Col, "General"); (ColStacked, "General"); (ColPercentStacked, "0%");
   (Col3DClustered, "General"); (Col3D, "General"); (Col3DStacked, "General"); (Col3DPercentStacked, "0%");
   (Doughnut, "General"); (Line, "General"); (Pie, "General"); (Pie3D, "General"); (Radar, "General");
   (Scatter, "General")].

Definition chartValAxCrossBetween : list (string * string) :=
  [(Area, "midCat"); (AreaStacked, "midCat"); (AreaPercentStacked, "midCat"); (Area3D, "midCat");
   (Area3DStacked, "midCat"); (Area3DPercentStacked, "midCat"); (Bar, "between"); (BarStacked, "between");
   (BarPercentStacked, "between"); (Bar3DClustered, "between"); (Bar3DStacked, "between");
   (Bar3DPercentStacked, "between"); (Col, "between"); (ColStacked, "between");
   (ColPercentStacked, "between"); (Col3DClustered, "between"); (Col3D, "between");
   (Col3DStacked, "between"); (Col3DPercentStacked, "between"); (Doughnut, "between"); (Line, "between");
   (Pie, "between"); (Pie3D, "between"); (Radar, "between"); (Scatter, "between")].

Definition plotAreaChartGrouping : list (string * string) :=
  [(Area, "standard"); (AreaStacked, "stacked"); (AreaPercentStacked, "percentStacked");
   (Area3D, "standard"); (Area3DStacked, "stacked"); (Area3DPercentStacked, "percentStacked");
   (Bar, "clustered"); (BarStacked, "stacked"); (BarPercentStacked, "percentStacked");
   (Bar3DClustered, "clustered"); (Bar3DStacked, "stacked"); (Bar3DPercentStacked, "percentStacked");
   (Col, "clustered"); (ColStacked, "stacked"); (ColPercentStacked, "percentStacked");
   (Col3DClustered, "clustered"); (Col3D, "standard"); (Col3DStacked, "stacked");
   (Col3DPercentStacked, "percentStacked"); (Line, "standard")].

Definition plotAreaChartBarDir : list (string * string) :=
  [(Bar, "bar"); (BarStacked, "bar"); (BarPercentStacked, "bar"); (Bar3DClustered, "bar");
   (Bar3DStacked, "bar"); (Bar3DPercentStacked, "bar"); (Col, "col"); (ColStacked, "col");
   (ColPercentStacked, "col"); (Col3DClustered, "col"); (Col3D, "col"); (Col3DStacked, "col");
   (Col3DPercentStacked, "col"); (Line, "standard")].

Definition orientation (b : bool) : string := if b then "maxMin" else "minMax".
Definition catAxPos (b : bool) : string := if b then "t" else "b".
Definition valAxPos (b : bool) : string := if b then "r" else "l".
(** ** The elements of a chart *)

Definition drawPlotAreaSpPr : option cSpPr :=
  Some ((gozero : cSpPr)
      <| cSpPr_Ln := Some ((gozero : aLn)
          <| aLn_W := 9525 |>
          <| aLn_Cap := "flat" |>
          <| aLn_Cmpd := "sng" |>
          <| aLn_Algn := "ctr" |>
          <| aLn_SolidFill := Some ((gozero : aSolidFill)
              <| aSolidFill_SchemeClr := Some ((gozero : aSchemeClr)
                  <| aSchemeClr_Val := "tx1" |>
                  <| aSchemeClr_LumMod := Some (mk_attrValInt 15000) |>
                  <| aSchemeClr_LumOff := Some (mk_attrValInt 85000) |>) |>) |>) |>).

Definition drawPlotAreaTxPr : option cTxPr :=
  Some ((gozero : cTxPr)
      <| cTxPr_BodyPr := (gozero : aBodyPr)
        <| aBodyPr_Rot := -60000000 |>
        <| aBodyPr_SpcFirstLastPara := true |>
        <| aBodyPr_VertOverflow := "ellipsis" |>
        <| aBodyPr_Vert := "horz" |>
        <| aBodyPr_Wrap := "square" |>
        <| aBodyPr_Anchor := "ctr" |>
        <| aBodyPr_AnchorCtr := true |> |>
      <| cTxPr_P := (gozero : aP)
        <| aP_PPr := Some (mk_aPPr ((gozero : aRPr)
            <| aRPr_Sz := 900 |>
            <| aRPr_B := false |>
            <| aRPr_I := false |>
            <| aRPr_U := "none" |>
            <| aRPr_Strike := "noStrike" |>
            <| aRPr_Kern := 1200 |>
            <| aRPr_Baseline := 0 |>
            <| aRPr_SolidFill := Some ((gozero : aSolidFill)
                <| aSolidFill_SchemeClr := Some ((gozero : aSchemeClr)
                    <| aSchemeClr_Val := "tx1" |>
                    <| aSchemeClr_LumMod := Some (mk_attrValInt 15000) |>
                    <| aSchemeClr_LumOff := Some (mk_attrValInt 85000) |>) |>) |>
            <| aRPr_Latin := Some (mk_aLatin "+mn-lt") |>
            <| aRPr_Ea := Some (mk_aEa "+mn-ea") |>
            <| aRPr_Cs := Some (mk_aCs "+mn-cs") |>)) |>
        <| aP_EndParaRPr := Some ((gozero : aEndParaRPr) <| aEndParaRPr_Lang := "en-US" |>) |> |>).

Definition drawPlotAreaCatAx (formatSet : formatChart) : list cAxs :=
  let axis := formatChart_XAxis formatSet in
  let min := if f64_eqb (formatChartAxis_Minimum axis) f64_zero then None else Some (mk_attrValFloat (formatChartAxis_Minimum axis)) in
  let max := if f64_eqb (formatChartAxis_Maximum axis) f64_zero then None else Some (mk_attrValFloat (formatChartAxis_Maximum axis)) in
  [(gozero : cAxs)
    <| cAxs_AxID := Some (mk_attrValInt 754001152) |>
    <| cAxs_Scaling := Some ((gozero : cScaling)
        <| cScaling_Orientation := Some (mk_attrValString (orientation (formatChartAxis_ReverseOrder (formatChart_XAxis formatSet)))) |>
        <| cScaling_Max := max |>
        <| cScaling_Min := min |>) |>
    <| cAxs_Delete := Some (mk_attrValBool false) |>
    <| cAxs_AxPos := Some (mk_attrValString (catAxPos (formatChartAxis_ReverseOrder (formatChart_XAxis formatSet)))) |>
    <| cAxs_NumFmt := Some ((gozero : cNumFmt)
        <| cNumFmt_FormatCode := "General" |>
        <| cNumFmt_SourceLinked := true |>) |>
    <| cAxs_MajorTickMark := Some (mk_attrValString "none") |>
    <| cAxs_MinorTickMark := Some (mk_attrValString "none") |>
    <| cAxs_TickLblPos := Some (mk_attrValString "nextTo") |>
    <| cAxs_SpPr := drawPlotAreaSpPr |>
    <| cAxs_TxPr := drawPlotAreaTxPr |>
    <| cAxs_CrossAx := Some (mk_attrValInt 753999904) |>
    <| cAxs_Crosses := Some (mk_attrValString "autoZero") |>
    <| cAxs_Auto := Some (mk_attrValBool true) |>
    <| cAxs_LblAlgn := Some (mk_attrValString "ctr") |>
    <| cAxs_LblOffset := Some (mk_attrValInt 100) |>
    <| cAxs_NoMultiLvlLbl := Some (mk_attrValBool false) |>].

Definition drawPlotAreaValAx (formatSet : formatChart) : list cAxs :=
  let axis := formatChart_YAxis formatSet in
  let min := if f64_eqb (formatChartAxis_Minimum axis) f64_zero then None else Some (mk_attrValFloat (formatChartAxis_Minimum axis)) in
  let max := if f64_eqb (formatChartAxis_Maximum axis) f64_zero then None else Some (mk_attrValFloat (formatChartAxis_Maximum axis)) in
  [(gozero : cAxs)
    <| cAxs_AxID := Some (mk_attrValInt 753999904) |>
    <| cAxs_Scaling := Some ((gozero : cScaling)
        <| cScaling_Orientation := Some (mk_attrValString (orientation (formatChartAxis_ReverseOrder (formatChart_YAxis formatSet)))) |>
        <| cScaling_Max := max |>
        <| cScaling_Min := min |>) |>
    <| cAxs_Delete := Some (mk_attrValBool false) |>
    <| cAxs_AxPos := Some (mk_attrValString (valAxPos (formatChartAxis_ReverseOrder (formatChart_YAxis formatSet)))) |>
    <| cAxs_NumFmt := Some ((gozero : cNumFmt)
        <| cNumFmt_FormatCode := zero_get (formatChart_Type formatSet) chartValAxNumFmtFormatCode |>
        <| cNumFmt_SourceLinked := true |>) |>
    <| cAxs_MajorTickMark := Some (mk_attrValString "none") |>
    <| cAxs_MinorTickMark := Some (mk_attrValString "none") |>
    <| cAxs_TickLblPos := Some (mk_attrValString "nextTo") |>
    <| cAxs_SpPr := drawPlotAreaSpPr |>
    <| cAxs_TxPr := drawPlotAreaTxPr |>
    <| cAxs_CrossAx := Some (mk_attrValInt 754001152) |>
    <| cAxs_Crosses := Some (mk_attrValString "autoZero") |>
    <| cAxs_CrossBetween := Some (mk_attrValString (zero_get (formatChart_Type formatSet) chartValAxCrossBetween)) |>].

Definition drawChartDLbls (formatSet : formatChart) : option cDLbls :=
  Some ((gozero : cDLbls)
      <| cDLbls_ShowLegendKey := Some (mk_attrValBool (formatChartLegend_ShowLegendKey (formatChart_Legend formatSet))) |>
      <| cDLbls_ShowVal := Some (mk_attrValBool (formatChart_Plotarea_T_ShowVal (formatChart_Plotarea formatSet))) |>
      <| cDLbls_ShowCatName := Some (mk_attrValBool (formatChart_Plotarea_T_ShowCatName (formatChart_Plotarea formatSet))) |>
      <| cDLbls_ShowSerName := Some (mk_attrValBool (formatChart_Plotarea_T_ShowSerName (formatChart_Plotarea formatSet))) |>
      <| cDLbls_ShowBubbleSize := Some (mk_attrValBool (formatChart_Plotarea_T_ShowBubbleSize (formatChart_Plotarea formatSet))) |>
      <| cDLbls_ShowPercent := Some (mk_attrValBool (formatChart_Plotarea_T_ShowPercent (formatChart_Plotarea formatSet))) |>
      <| cDLbls_ShowLeaderLines := Some (mk_attrValBool (formatChart_Plotarea_T_ShowLeaderLines (formatChart_Plotarea formatSet))) |>).

Definition drawChartSeriesDLbls (formatSet : formatChart) : option cDLbls :=
  let dLbls := drawChartDLbls formatSet in
  zero_get (formatChart_Type formatSet)
    [(Area, dLbls); (AreaStacked, dLbls); (AreaPercentStacked, dLbls); (Area3D, dLbls);
     (Area3DStacked, dLbls); (Area3DPercentStacked, dLbls); (Bar, dLbls); (BarStacked, dLbls);
     (BarPercentStacked, dLbls); (Bar3DClustered, dLbls); (Bar3DStacked, dLbls);
     (Bar3DPercentStacked, dLbls); (Col, dLbls); (ColStacked, dLbls); (ColPercentStacked, dLbls);
     (Col3DClustered, dLbls); (Col3D, dLbls); (Col3DStacked, dLbls); (Col3DPercentStacked, dLbls);
     (Doughnut, dLbls); (Line, dLbls); (Pie, dLbls); (Pie3D, dLbls); (Radar, dLbls); (Scatter, None)].

Definition drawChartSeriesSpPr (i : Z) (formatSet : formatChart) : option cSpPr :=
  let spPrScatter :=
    Some ((gozero : cSpPr)
      <| cSpPr_Ln := Some ((gozero : aLn) <| aLn_W := 25400 |> <| aLn_NoFill := " " |>) |>) in
  let spPrLine :=
    Some ((gozero : cSpPr)
      <| cSpPr_Ln := Some ((gozero : aLn)
          <| aLn_W := 25400 |>
          <| aLn_Cap := "rnd" |>
          <| aLn_SolidFill := Some ((gozero : aSolidFill)
              <| aSolidFill_SchemeClr := Some ((gozero : aSchemeClr)
                  <| aSchemeClr_Val := "accent" +:+ strconv_Itoa (iadd i 1) |>) |>) |>) |>) in
  zero_get (formatChart_Type formatSet)
    [(Area, None); (AreaStacked, None); (AreaPercentStacked, None); (Area3D, None); (Area3DStacked, None);
     (Area3DPercentStacked, None); (Bar, None); (BarStacked, None); (BarPercentStacked, None);
     (Bar3DClustered, None); (Bar3DStacked, None); (Bar3DPercentStacked, None); (Col, None);
     (ColStacked, None); (ColPercentStacked, None); (Col3DClustered, None); (Col3D, None);
     (Col3DStacked, None); (Col3DPercentStacked, None); (Doughnut, None); (Line, spPrLine); (Pie, None);
     (Pie3D, None); (Radar, None); (Scatter, spPrScatter)].

Definition drawChartSeriesDPt (i : Z) (formatSet : formatChart) : list cDPt :=
  let dpt :=
    [(gozero : cDPt)
    <| cDPt_IDx := Some (mk_attrValInt i) |>
    <| cDPt_Bubble3D := Some (mk_attrValBool false) |>
    <| cDPt_SpPr := Some ((gozero : cSpPr)
        <| cSpPr_SolidFill := Some ((gozero : aSolidFill)
            <| aSolidFill_SchemeClr := Some ((gozero : aSchemeClr)
                <| aSchemeClr_Val := "accent" +:+ strconv_Itoa (iadd i 1) |>) |>) |>
        <| cSpPr_Ln := Some ((gozero : aLn)
            <| aLn_W := 25400 |>
            <| aLn_Cap := "rnd" |>
            <| aLn_SolidFill := Some ((gozero : aSolidFill)
                <| aSolidFill_SchemeClr := Some ((gozero : aSchemeClr)
                    <| aSchemeClr_Val := "lt" +:+ strconv_Itoa (iadd i 1) |>) |>) |>) |>
        <| cSpPr_Sp3D := Some ((gozero : aSp3D)
            <| aSp3D_ContourW := 25400 |>
            <| aSp3D_ContourClr := Some (mk_aContourClr (Some ((gozero : aSchemeClr)
                  <| aSchemeClr_Val := "lt" +:+ strconv_Itoa (iadd i 1) |>))) |>) |>) |>] in
  zero_get (formatChart_Type formatSet)
    [(Area, []); (AreaStacked, []); (AreaPercentStacked, []); (Area3D, []); (Area3DStacked, []);
     (Area3DPercentStacked, []); (Bar, []); (BarStacked, []); (BarPercentStacked, []);
     (Bar3DClustered, []); (Bar3DStacked, []); (Bar3DPercentStacked, []); (Col, []); (ColStacked, []);
     (ColPercentStacked, []); (Col3DClustered, []); (Col3D, []); (Col3DStacked, []);
     (Col3DPercentStacked, []); (Doughnut, []); (Line, []); (Pie, dpt); (Pie3D, dpt); (Radar, []);
     (Scatter, [])].

Definition drawChartSeriesMarker (i : Z) (formatSet : formatChart) : option cMarker :=
  let marker :=
    Some ((gozero : cMarker)
      <| cMarker_Symbol := Some (mk_attrValString "circle") |>
      <| cMarker_Size := Some (mk_attrValInt 5) |>
      <| cMarker_SpPr := Some ((gozero : cSpPr)
          <| cSpPr_SolidFill := Some ((gozero : aSolidFill)
              <| aSolidFill_SchemeClr := Some ((gozero : aSchemeClr)
                  <| aSchemeClr_Val := "accent" +:+ strconv_Itoa (iadd i 1) |>) |>) |>
          <| cSpPr_Ln := Some ((gozero : aLn)
              <| aLn_W := 9252 |>
              <| aLn_SolidFill := Some ((gozero : aSolidFill)
                  <| aSolidFill_SchemeClr := Some ((gozero : aSchemeClr)
                      <| aSchemeClr_Val := "accent" +:+ strconv_Itoa (iadd i 1) |>) |>) |>) |>) |>) in
  zero_get (formatChart_Type formatSet)
    [(Area, None); (AreaStacked, None); (AreaPercentStacked, None); (Area3D, None); (Area3DStacked, None);
     (Area3DPercentStacked, None); (Bar, None); (BarStacked, None); (BarPercentStacked, None);
     (Bar3DClustered, None); (Bar3DStacked, None); (Bar3DPercentStacked, None); (Col, None);
     (ColStacked, None); (ColPercentStacked, None); (Col3DClustered, None); (Col3D, None);
     (Col3DStacked, None); (Col3DPercentStacked, None); (Doughnut, None); (Line, None); (Pie, None);
     (Pie3D, None); (Radar, None); (Scatter, marker)].

Definition drawChartSeriesCat (v : formatChartSeries) (formatSet : formatChart) : option cCat :=
  let cat := Some (mk_cCat (Some ((gozero : cStrRef) <| cStrRef_F := formatChartSeries_Categories v |>))) in
  zero_get (formatChart_Type formatSet)
    [(Area, cat); (AreaStacked, cat); (AreaPercentStacked, cat); (Area3D, cat); (Area3DStacked, cat);
     (Area3DPercentStacked, cat); (Bar, cat); (BarStacked, cat); (BarPercentStacked, cat);
     (Bar3DClustered, cat); (Bar3DStacked, cat); (Bar3DPercentStacked, cat); (Col, cat);
     (ColStacked, cat); (ColPercentStacked, cat); (Col3DClustered, cat); (Col3D, cat);
     (Col3DStacked, cat); (Col3DPercentStacked, cat); (Doughnut, cat); (Line, cat); (Pie, cat);
     (Pie3D, cat); (Radar, cat); (Scatter, None)].

Definition drawChartSeriesVal (v : formatChartSeries) (formatSet : formatChart) : option cVal :=
  let val := Some (mk_cVal (Some ((gozero : cNumRef) <| cNumRef_F := formatChartSeries_Values v |>))) in
  zero_get (formatChart_Type formatSet)
    [(Area, val); (AreaStacked, val); (AreaPercentStacked, val); (Area3D, val); (Area3DStacked, val);
     (Area3DPercentStacked, val); (Bar, val); (BarStacked, val); (BarPercentStacked, val);
     (Bar3DClustered, val); (Bar3DStacked, val); (Bar3DPercentStacked, val); (Col, val);
     (ColStacked, val); (ColPercentStacked, val); (Col3DClustered, val); (Col3D, val);
     (Col3DStacked, val); (Col3DPercentStacked, val); (Doughnut, val); (Line, val); (Pie, val);
     (Pie3D, val); (Radar, val); (Scatter, None)].

Definition drawChartSeriesXVal (v : formatChartSeries) (formatSet : formatChart) : option cCat :=
  let cat := Some (mk_cCat (Some ((gozero : cStrRef) <| cStrRef_F := formatChartSeries_Categories v |>))) in
  zero_get (formatChart_Type formatSet)
    [(Area, None); (AreaStacked, None); (AreaPercentStacked, None); (Area3D, None); (Area3DStacked, None);
     (Area3DPercentStacked, None); (Bar, None); (BarStacked, None); (BarPercentStacked, None);
     (Bar3DClustered, None); (Bar3DStacked, None); (Bar3DPercentStacked, None); (Col, None);
     (ColStacked, None); (ColPercentStacked, None); (Col3DClustered, None); (Col3D, None);
     (Col3DStacked, None); (Col3DPercentStacked, None); (Doughnut, None); (Line, None); (Pie, None);
     (Pie3D, None); (Radar, None); (Scatter, cat)].

Definition drawChartSeriesYVal (v : formatChartSeries) (formatSet : formatChart) : option cVal :=
  let val := Some (mk_cVal (Some ((gozero : cNumRef) <| cNumRef_F := formatChartSeries_Values v |>))) in
  zero_get (formatChart_Type formatSet)
    [(Area, None); (AreaStacked, None); (AreaPercentStacked, None); (Area3D, None); (Area3DStacked, None);
     (Area3DPercentStacked, None); (Bar, None); (BarStacked, None); (BarPercentStacked, None);
     (Bar3DClustered, None); (Bar3DStacked, None); (Bar3DPercentStacked, None); (Col, None);
     (ColStacked, None); (ColPercentStacked, None); (Col3DClustered, None); (Col3D, None);
     (Col3DStacked, None); (Col3DPercentStacked, None); (Doughnut, None); (Line, None); (Pie, None);
     (Pie3D, None); (Radar, None); (Scatter, val)].

(** One series of the chart. *)
Definition chart_series (formatSet : formatChart) (k : Z) (v : formatChartSeries) : cSer :=
  (gozero : cSer)
    <| cSer_IDx := Some (mk_attrValInt k) |>
    <| cSer_Order := Some (mk_attrValInt k) |>
    <| cSer_Tx := Some ((gozero : cTx)
        <| cTx_StrRef := Some ((gozero : cStrRef) <| cStrRef_F := formatChartSeries_Name v |>) |>) |>
    <| cSer_SpPr := drawChartSeriesSpPr k formatSet |>
    <| cSer_Marker := drawChartSeriesMarker k formatSet |>
    <| cSer_DPt := drawChartSeriesDPt k formatSet |>
    <| cSer_DLbls := drawChartSeriesDLbls formatSet |>
    <| cSer_Cat := drawChartSeriesCat v formatSet |>
    <| cSer_Val := drawChartSeriesVal v formatSet |>
    <| cSer_XVal := drawChartSeriesXVal v formatSet |>
    <| cSer_YVal := drawChartSeriesYVal v formatSet |>.

Definition drawChartSeries (formatSet : formatChart) : option (list cSer) :=
  Some (imap (fun k v => chart_series formatSet (Z.of_nat k) v) (formatChart_Series formatSet)).

(** ** The plot area *)

Definition base_charts (formatSet : formatChart) : cCharts :=
  let c := (gozero : cCharts)
    <| cCharts_BarDir := Some (mk_attrValString "col") |>
    <| cCharts_Grouping := Some (mk_attrValString "clustered") |>
    <| cCharts_VaryColors := Some (mk_attrValBool true) |>
    <| cCharts_Ser := drawChartSeries formatSet |>
    <| cCharts_DLbls := drawChartDLbls formatSet |>
    <| cCharts_AxID := [mk_attrValInt 754001152; mk_attrValInt 753999904] |> in
  let c := c <| cCharts_BarDir := mk_attrValString <$> table_get (formatChart_Type formatSet) plotAreaChartBarDir |> in
  let c := c <| cCharts_Grouping := Some (mk_attrValString (zero_get (formatChart_Type formatSet) plotAreaChartGrouping)) |> in
  if bool_decide (formatChart_Type formatSet ∈ ["colStacked"; "barStacked"; "barPercentStacked"; "colPercentStacked"; "areaPercentStacked"])
  then c <| cCharts_Overlap := Some (mk_attrValInt 100) |> else c.

Definition drawBaseChart (formatSet : formatChart) : option cPlotArea :=
  let c := base_charts formatSet in
  let axes := (gozero : cPlotArea) <| cPlotArea_CatAx := drawPlotAreaCatAx formatSet |>
                <| cPlotArea_ValAx := drawPlotAreaValAx formatSet |> in
  let areaChart := Some (axes <| cPlotArea_AreaChart := Some c |>) in
  let area3DChart := Some (axes <| cPlotArea_Area3DChart := Some c |>) in
  let barChart := Some (axes <| cPlotArea_BarChart := Some c |>) in
  let bar3DChart := Some (axes <| cPlotArea_Bar3DChart := Some c |>) in
  zero_get (formatChart_Type formatSet)
    [("area", areaChart); ("areaStacked", areaChart); ("areaPercentStacked", areaChart);
     ("area3D", area3DChart); ("area3DStacked", area3DChart); ("area3DPercentStacked", area3DChart);
     ("bar", barChart); ("barStacked", barChart); ("barPercentStacked", barChart);
     ("bar3DClustered", bar3DChart); ("bar3DStacked", bar3DChart); ("bar3DPercentStacked", bar3DChart);
     ("col", barChart); ("colStacked", barChart); ("colPercentStacked", barChart);
     ("col3DClustered", bar3DChart); ("col3D", bar3DChart); ("col3DStacked", bar3DChart);
     ("col3DPercentStacked", bar3DChart)].

Definition drawDoughnutChart (formatSet : formatChart) : option cPlotArea :=
  Some ((gozero : cPlotArea)
      <| cPlotArea_DoughnutChart := Some ((gozero : cCharts)
          <| cCharts_VaryColors := Some (mk_attrValBool true) |>
          <| cCharts_Ser := drawChartSeries formatSet |>
          <| cCharts_HoleSize := Some (mk_attrValInt 75) |>) |>).

Definition drawLineChart (formatSet : formatChart) : option cPlotArea :=
  Some ((gozero : cPlotArea)
      <| cPlotArea_LineChart := Some ((gozero : cCharts)
          <| cCharts_Grouping := Some (mk_attrValString (zero_get (formatChart_Type formatSet) plotAreaChartGrouping)) |>
          <| cCharts_VaryColors := Some (mk_attrValBool false) |>
          <| cCharts_Ser := drawChartSeries formatSet |>
          <| cCharts_DLbls := drawChartDLbls formatSet |>
          <| cCharts_Smooth := Some (mk_attrValBool false) |>
          <| cCharts_AxID := [mk_attrValInt 754001152; mk_attrValInt 753999904] |>) |>
      <| cPlotArea_CatAx := drawPlotAreaCatAx formatSet |>
      <| cPlotArea_ValAx := drawPlotAreaValAx formatSet |>).

Definition drawPieChart (formatSet : formatChart) : option cPlotArea :=
  Some ((gozero : cPlotArea)
      <| cPlotArea_PieChart := Some ((gozero : cCharts)
          <| cCharts_VaryColors := Some (mk_attrValBool true) |>
          <| cCharts_Ser := drawChartSeries formatSet |>) |>).

Definition drawPie3DChart (formatSet : formatChart) : option cPlotArea :=
  Some ((gozero : cPlotArea)
      <| cPlotArea_Pie3DChart := Some ((gozero : cCharts)
          <| cCharts_VaryColors := Some (mk_attrValBool true) |>
          <| cCharts_Ser := drawChartSeries formatSet |>) |>).

Definition drawRadarChart (formatSet : formatChart) : option cPlotArea :=
  Some ((gozero : cPlotArea)
      <| cPlotArea_RadarChart := Some ((gozero : cCharts)
          <| cCharts_RadarStyle := Some (mk_attrValString "marker") |>
          <| cCharts_VaryColors := Some (mk_attrValBool false) |>
          <| cCharts_Ser := drawChartSeries formatSet |>
          <| cCharts_DLbls := drawChartDLbls formatSet |>
          <| cCharts_AxID := [mk_attrValInt 754001152; mk_attrValInt 753999904] |>) |>
      <| cPlotArea_CatAx := drawPlotAreaCatAx formatSet |>
      <| cPlotArea_ValAx := drawPlotAreaValAx formatSet |>).

Definition drawScatterChart (formatSet : formatChart) : option cPlotArea :=
  Some ((gozero : cPlotArea)
      <| cPlotArea_ScatterChart := Some ((gozero : cCharts)
          <| cCharts_ScatterStyle := Some (mk_attrValString "smoothMarker") |>
          <| cCharts_VaryColors := Some (mk_attrValBool false) |>
          <| cCharts_Ser := drawChartSeries formatSet |>
          <| cCharts_DLbls := drawChartDLbls formatSet |>
          <| cCharts_AxID := [mk_attrValInt 754001152; mk_attrValInt 753999904] |>) |>
      <| cPlotArea_CatAx := drawPlotAreaCatAx formatSet |>
      <| cPlotArea_ValAx := drawPlotAreaValAx formatSet |>).

Definition plotAreaFunc : list (string * (formatChart -> option cPlotArea)) :=
  [(Area, drawBaseChart); (AreaStacked, drawBaseChart); (AreaPercentStacked, drawBaseChart);
     (Area3D, drawBaseChart); (Area3DStacked, drawBaseChart); (Area3DPercentStacked, drawBaseChart);
     (Bar, drawBaseChart); (BarStacked, drawBaseChart); (BarPercentStacked, drawBaseChart);
     (Bar3DClustered, drawBaseChart); (Bar3DStacked, drawBaseChart); (Bar3DPercentStacked, drawBaseChart);
     (Col, drawBaseChart); (ColStacked, drawBaseChart); (ColPercentStacked, drawBaseChart);
     (Col3DClustered, drawBaseChart); (Col3D, drawBaseChart); (Col3DStacked, drawBaseChart);
     (Col3DPercentStacked, drawBaseChart); (Doughnut, drawDoughnutChart); (Line, drawLineChart);
     (Pie3D, drawPie3DChart); (Pie, drawPieChart); (Radar, drawRadarChart); (Scatter, drawScatterChart)].

(** ** The chart part *)

Definition chart_space (formatSet : formatChart) (plotArea : option cPlotArea) : xlsxChartSpace :=
  (gozero : xlsxChartSpace)
    <| xlsxChartSpace_XMLNSc := NameSpaceDrawingMLChart |>
    <| xlsxChartSpace_XMLNSa := NameSpaceDrawingML |>
    <| xlsxChartSpace_XMLNSr := SourceRelationship |>
    <| xlsxChartSpace_XMLNSc16r2 := SourceRelationshipChart201506 |>
    <| xlsxChartSpace_Date1904 := Some (mk_attrValBool false) |>
    <| xlsxChartSpace_Lang := Some (mk_attrValString "en-US") |>
    <| xlsxChartSpace_RoundedCorners := Some (mk_attrValBool false) |>
    <| xlsxChartSpace_Chart := (gozero : cChart)
      <| cChart_Title := Some ((gozero : cTitle)
          <| cTitle_Tx := (gozero : cTx)
            <| cTx_Rich := Some ((gozero : cRich)
                <| cRich_P := (gozero : aP)
                  <| aP_PPr := Some (mk_aPPr ((gozero : aRPr)
                      <| aRPr_Kern := 1200 |>
                      <| aRPr_Strike := "noStrike" |>
                      <| aRPr_U := "none" |>
                      <| aRPr_Sz := 1400 |>
                      <| aRPr_SolidFill := Some ((gozero : aSolidFill)
                          <| aSolidFill_SchemeClr := Some ((gozero : aSchemeClr)
                              <| aSchemeClr_Val := "tx1" |>
                              <| aSchemeClr_LumMod := Some (mk_attrValInt 65000) |>
                              <| aSchemeClr_LumOff := Some (mk_attrValInt 35000) |>) |>) |>
                      <| aRPr_Ea := Some (mk_aEa "+mn-ea") |>
                      <| aRPr_Cs := Some (mk_aCs "+mn-cs") |>
                      <| aRPr_Latin := Some (mk_aLatin "+mn-lt") |>)) |>
                  <| aP_R := Some ((gozero : aR)
                      <| aR_RPr := (gozero : aRPr)
                        <| aRPr_Lang := "en-US" |>
                        <| aRPr_AltLang := "en-US" |> |>
                      <| aR_T := formatChartTitle_Name (formatChart_Title formatSet) |>) |> |>) |> |>
          <| cTitle_TxPr := (gozero : cTxPr)
            <| cTxPr_P := (gozero : aP)
              <| aP_PPr := Some (mk_aPPr ((gozero : aRPr)
                  <| aRPr_Kern := 1200 |>
                  <| aRPr_U := "none" |>
                  <| aRPr_Sz := 14000 |>
                  <| aRPr_Strike := "noStrike" |>)) |>
              <| aP_EndParaRPr := Some ((gozero : aEndParaRPr) <| aEndParaRPr_Lang := "en-US" |>) |> |> |>) |>
      <| cChart_View3D := Some ((gozero : cView3D)
          <| cView3D_RotX := Some (mk_attrValInt (zero_get (formatChart_Type formatSet) chartView3DRotX)) |>
          <| cView3D_RotY := Some (mk_attrValInt (zero_get (formatChart_Type formatSet) chartView3DRotY)) |>
          <| cView3D_DepthPercent := Some (mk_attrValInt (zero_get (formatChart_Type formatSet) chartView3DDepthPercent)) |>
          <| cView3D_RAngAx := Some (mk_attrValInt (zero_get (formatChart_Type formatSet) chartView3DRAngAx)) |>) |>
      <| cChart_Floor := Some ((gozero : cThicknessSpPr)
          <| cThicknessSpPr_Thickness := Some (mk_attrValInt 0) |>) |>
      <| cChart_SideWall := Some ((gozero : cThicknessSpPr)
          <| cThicknessSpPr_Thickness := Some (mk_attrValInt 0) |>) |>
      <| cChart_BackWall := Some ((gozero : cThicknessSpPr)
          <| cThicknessSpPr_Thickness := Some (mk_attrValInt 0) |>) |>
      <| cChart_PlotArea := plotArea |>
      <| cChart_Legend := Some ((gozero : cLegend)
          <| cLegend_LegendPos := Some (mk_attrValString (zero_get (formatChartLegend_Position (formatChart_Legend formatSet)) chartLegendPosition)) |>
          <| cLegend_Overlay := Some (mk_attrValBool false) |>) |>
      <| cChart_PlotVisOnly := Some (mk_attrValBool false) |>
      <| cChart_DispBlanksAs := Some (mk_attrValString (formatChart_ShowBlanksAs formatSet)) |>
      <| cChart_ShowDLblsOverMax := Some (mk_attrValBool false) |> |>
    <| xlsxChartSpace_SpPr := Some ((gozero : cSpPr)
        <| cSpPr_SolidFill := Some ((gozero : aSolidFill)
            <| aSolidFill_SchemeClr := Some ((gozero : aSchemeClr) <| aSchemeClr_Val := "bg1" |>) |>) |>
        <| cSpPr_Ln := Some ((gozero : aLn)
            <| aLn_W := 9525 |>
            <| aLn_Cap := "flat" |>
            <| aLn_Cmpd := "sng" |>
            <| aLn_Algn := "ctr" |>
            <| aLn_SolidFill := Some ((gozero : aSolidFill)
                <| aSolidFill_SchemeClr := Some ((gozero : aSchemeClr)
                    <| aSchemeClr_Val := "tx1" |>
                    <| aSchemeClr_LumMod := Some (mk_attrValInt 15000) |>
                    <| aSchemeClr_LumOff := Some (mk_attrValInt 85000) |>) |>) |>) |>) |>
    <| xlsxChartSpace_PrintSettings := Some ((gozero : cPrintSettings)
        <| cPrintSettings_PageMargins := Some ((gozero : cPageMargins)
            <| cPageMargins_B := f64_const 3 4 |>
            <| cPageMargins_L := f64_const 7 10 |>
            <| cPageMargins_R := f64_const 7 10 |>
            <| cPageMargins_T := f64_const 7 10 |>
            <| cPageMargins_Header := f64_const 3 10 |>
            <| cPageMargins_Footer := f64_const 3 10 |>) |>) |>.

Definition default_chart : formatChart :=
  (gozero : formatChart)
    <| formatChart_Dimension := (gozero : formatChartDimension)
      <| formatChartDimension_Width := 480 |>
      <| formatChartDimension_Height := 290 |> |>
    <| formatChart_Format := (gozero : formatPicture)
      <| formatPicture_FPrintsWithSheet := true |>
      <| formatPicture_FLocksWithSheet := false |>
      <| formatPicture_NoChangeAspect := false |>
      <| formatPicture_OffsetX := 0 |>
      <| formatPicture_OffsetY := 0 |>
      <| formatPicture_XScale := f64_const 1 1 |>
      <| formatPicture_YScale := f64_const 1 1 |> |>
    <| formatChart_Legend := (gozero : formatChartLegend)
      <| formatChartLegend_Position := "bottom" |>
      <| formatChartLegend_ShowLegendKey := false |> |>
    <| formatChart_Title := (gozero : formatChartTitle) <| formatChartTitle_Name := " " |> |>
    <| formatChart_ShowBlanksAs := "gap" |>.

(** ** Adding a chart *)

Section chart.
Context `{GoEnv}.

Definition parseFormatChartSet (formatSet : string) : formatChart * option goerr := json_Unmarshal formatSet default_chart.

Definition chart_part (chartID : Z) : string := "xl/charts/chart" +:+ strconv_Itoa chartID +:+ ".xml".

(** A type without a function is a call of nil. *)
Definition addChart (formatSet : formatChart) : M unit :=
  count ← countCharts;
  match table_get (formatChart_Type formatSet) plotAreaFunc with
  | None => panic
  | Some draw => saveFileList (chart_part (count + 1)) (xml_Marshal (chart_space formatSet (draw formatSet)))
  end.

Definition chart_frame (id : Z) (name : string) (rID : Z) : xlsxGraphicFrame :=
  (gozero : xlsxGraphicFrame)
    <| xlsxGraphicFrame_NvGraphicFramePr := (gozero : xlsxNvGraphicFramePr)
      <| xlsxNvGraphicFramePr_CNvPr := Some ((gozero : xlsxCNvPr)
          <| xlsxCNvPr_ID := id |>
          <| xlsxCNvPr_Name := name |>) |> |>
    <| xlsxGraphicFrame_Graphic := Some (mk_xlsxGraphic (Some ((gozero : xlsxGraphicData)
          <| xlsxGraphicData_URI := NameSpaceDrawingMLChart |>
          <| xlsxGraphicData_Chart := Some ((gozero : xlsxChart)
              <| xlsxChart_C := NameSpaceDrawingMLChart |>
              <| xlsxChart_R := SourceRelationship |>
              <| xlsxChart_RID := "rId" +:+ strconv_Itoa rID |>) |>))) |>.

Definition addDrawingChart (sheet drawingXML cell : string) (width height rID : Z) (formatSet : formatPicture)
    : M (option goerr) :=
  let! (anchor, content, cNvPrID) := place_object sheet drawingXML cell width height formatSet in
  charts ← countCharts;
  media ← countMedia;
  let graphicFrame := chart_frame (charts + media + 1) ("Chart " +:+ strconv_Itoa cNvPrID) rID in
  set_drawing drawingXML (append_anchor (anchor <| xdrCellAnchor_GraphicFrame := xml_Marshal graphicFrame |>) content);;
  mret None.

Definition AddChart (sheet cell format : string) : M (option goerr) :=
  let! formatSet := mret (parseFormatChartSet format) in
  let! p := workSheetReader sheet in
  drawings ← countDrawings;
  charts ← countCharts;
  let drawingID := drawings + 1 in
  let chartID := charts + 1 in
  xlsx ← deref p;
  '(drawingID, drawingXML) ← prepareDrawing (xlsxWorksheet_Drawing xlsx) drawingID sheet
    ("xl/drawings/drawing" +:+ strconv_Itoa drawingID +:+ ".xml");
  drawingRID ← addDrawingRelationships drawingID SourceRelationshipChart ("../charts/chart" +:+ strconv_Itoa chartID +:+ ".xml") "";
  try! addDrawingChart sheet drawingXML cell (formatChartDimension_Width (formatChart_Dimension formatSet))
         (formatChartDimension_Height (formatChart_Dimension formatSet)) drawingRID (formatChart_Format formatSet) in
  addChart formatSet;;
  addContentTypePart chartID "chart";;
  addContentTypePart drawingID "drawings";;
  mret None.

End chart.

(** ** The plot area of a type *)

(** The elements of a plot area that hold a chart. *)
Inductive chart_element :=
| area_chart | area_3d_chart | bar_chart | bar_3d_chart | doughnut_chart | line_chart | pie_chart | pie_3d_chart
| radar_chart | scatter_chart.

Definition charts_in (p : cPlotArea) : list (chart_element * cCharts) :=
  omap (fun e => pair e.1 <$> e.2)
    [(area_chart, cPlotArea_AreaChart p); (area_3d_chart, cPlotArea_Area3DChart p); (bar_chart, cPlotArea_BarChart p);
     (bar_3d_chart, cPlotArea_Bar3DChart p); (doughnut_chart, cPlotArea_DoughnutChart p);
     (line_chart, cPlotArea_LineChart p); (pie_chart, cPlotArea_PieChart p); (pie_3d_chart, cPlotArea_Pie3DChart p);
     (radar_chart, cPlotArea_RadarChart p); (scatter_chart, cPlotArea_ScatterChart p)].

(** The documented types with what they are: the element, the direction of bars
    and the grouping of the series. *)
Record chart_kind := mk_chart_kind { kind_element : chart_element; kind_direction : string; kind_grouping : string }.

Definition documented_charts : list (string * chart_kind) :=
  [("area", mk_chart_kind area_chart "" "standard"); ("areaStacked", mk_chart_kind area_chart "" "stacked");
   ("areaPercentStacked", mk_chart_kind area_chart "" "percentStacked");
   ("area3D", mk_chart_kind area_3d_chart "" "standard"); ("area3DStacked", mk_chart_kind area_3d_chart "" "stacked");
   ("area3DPercentStacked", mk_chart_kind area_3d_chart "" "percentStacked");
   ("bar", mk_chart_kind bar_chart "bar" "clustered"); ("barStacked", mk_chart_kind bar_chart "bar" "stacked");
   ("barPercentStacked", mk_chart_kind bar_chart "bar" "percentStacked");
   ("bar3DClustered", mk_chart_kind bar_3d_chart "bar" "clustered");
   ("bar3DStacked", mk_chart_kind bar_3d_chart "bar" "stacked");
   ("bar3DPercentStacked", mk_chart_kind bar_3d_chart "bar" "percentStacked");
   ("col", mk_chart_kind bar_chart "col" "clustered"); ("colStacked", mk_chart_kind bar_chart "col" "stacked");
   ("colPercentStacked", mk_chart_kind bar_chart "col" "percentStacked");
   ("col3DClustered", mk_chart_kind bar_3d_chart "col" "clustered");
   ("col3D", mk_chart_kind bar_3d_chart "col" "standard"); ("col3DStacked", mk_chart_kind bar_3d_chart "col" "stacked");
   ("col3DPercentStacked", mk_chart_kind bar_3d_chart "col" "percentStacked");
   ("doughnut", mk_chart_kind doughnut_chart "" ""); ("line", mk_chart_kind line_chart "" "standard");
   ("pie", mk_chart_kind pie_chart "" ""); ("pie3D", mk_chart_kind pie_3d_chart "" "");
   ("radar", mk_chart_kind radar_chart "" ""); ("scatter", mk_chart_kind scatter_chart "" "")].

(** What a series refers to: its name, its categories and its values, wherever
    the type of the chart has them. *)
Definition series_name (s : cSer) : option string := t ← cSer_Tx s; cStrRef_F <$> cTx_StrRef t.
Definition first_some {A} (o p : option A) : option A := match o with Some _ => o | None => p end.
Definition series_categories (s : cSer) : option string :=
  c ← first_some (cSer_Cat s) (cSer_XVal s); cStrRef_F <$> cCat_StrRef c.
Definition series_values (s : cSer) : option string :=
  v ← first_some (cSer_Val s) (cSer_YVal s); cNumRef_F <$> cVal_NumRef v.

Definition attr_text (o : option attrValString) : string := from_option attrValString_Val "" o.

(** The series of a chart: one for each, with the references that the type has. *)
Definition series_drawn (formatSet : formatChart) (ser : list cSer) : Prop :=
  length ser = length (formatChart_Series formatSet) /\
  forall k v, formatChart_Series formatSet !! k = Some v -> exists s, ser !! k = Some s /\
    cSer_IDx s = Some (mk_attrValInt (Z.of_nat k)) /\ cSer_Order s = Some (mk_attrValInt (Z.of_nat k)) /\
    series_name s = Some (formatChartSeries_Name v) /\ series_categories s = Some (formatChartSeries_Categories v) /\
    series_values s = Some (formatChartSeries_Values v).

Lemma drawChartSeries_drawn formatSet :
  (forall k v, let s := chart_series formatSet k v in
    series_categories s = Some (formatChartSeries_Categories v) /\ series_values s = Some (formatChartSeries_Values v)) ->
  series_drawn formatSet (default [] (drawChartSeries formatSet)).
Proof.
  intros Hs. split; [apply length_imap|]. intros k v Hk. eexists. split; [cbn; by rewrite list_lookup_imap, Hk|].
  destruct (Hs (Z.of_nat k) v). by split_and!.
Qed.

(** C24. Each documented type of chart is drawn: the plot area holds one chart, of the
    documented kind, with a series for each series of the options, in their
    order and numbered from zero, with its name, categories and values; charts
    with axes have the two axes that the chart refers to. *)
Theorem plot_area_correct formatSet kind :
  table_get (formatChart_Type formatSet) documented_charts = Some kind ->
  exists draw area c ser, table_get (formatChart_Type formatSet) plotAreaFunc = Some draw /\ draw formatSet = Some area /\
    charts_in area = [(kind_element kind, c)] /\
    attr_text (cCharts_BarDir c) = kind_direction kind /\ attr_text (cCharts_Grouping c) = kind_grouping kind /\
    cCharts_Ser c = Some ser /\ series_drawn formatSet ser /\
    cCharts_AxID c = omap cAxs_AxID (cPlotArea_CatAx area ++ cPlotArea_ValAx area).
Proof.
  destruct formatSet as [ty series fmt dim leg tit xa ya ca pa sb sh sr shs]. cbn [formatChart_Type].
  intros E%table_get_elem. unfold documented_charts in E.
  repeat (apply elem_of_cons in E as [[= -> ->]|E];
    [eexists _, _, _, _; do 6 (split; [reflexivity|]); split; [by apply drawChartSeries_drawn|reflexivity]|]).
  by apply elem_of_nil in E.
Qed.

Section chart_properties.
Context `{GoEnv}.

(** What a file shows after the frame of a chart was added to a drawing. *)
Record chart_framed (f f1 : File) (sheet path : string) (xlsx : xlsxWorksheet) (id col row n : Z) : Prop := mk_chart_framed {
  cf_sheet : exists d, loaded f1 sheet path (xlsx <| xlsxWorksheet_Drawing := Some d |>) /\
    drawing_numbered f1 sheet (xlsx <| xlsxWorksheet_Drawing := Some d |>) id;
  cf_relation :
    let rels := relations_of (part_at drawing_rels_cache (drawing_rels_file id) f) in
    relations_of (part_at drawing_rels_cache (drawing_rels_file id) f1) =
      rels ++ [mk_xlsxWorkbookRelation ("rId" +:+ strconv_Itoa (zlen rels + 1)) ("../charts/chart" +:+ strconv_Itoa n +:+ ".xml")
                 SourceRelationshipChart ""];
  cf_anchor :
    let rels := relations_of (part_at drawing_rels_cache (drawing_rels_file id) f) in
    exists a frameID name, File_Drawings f1 !! drawing_part id = Some (append_anchor a (drawing_at (drawing_part id) f)) /\
      (xlsxFrom_Col <$> xdrCellAnchor_From a) = Some (col - 1) /\ (xlsxFrom_Row <$> xdrCellAnchor_From a) = Some (row - 1) /\
      xdrCellAnchor_GraphicFrame a = xml_Marshal (chart_frame frameID name (zlen rels + 1))
}.

(** New parts of charts and new content types do not concern it. *)
Lemma chart_framed_after f f1 f2 sheet path xlsx id col row n k content ct :
  chart_framed f f1 sheet path xlsx id col row n ->
  f2 = f1 <| File_XLSX ::= <[chart_part k := content]> |> <| File_ContentTypes := Some ct |> ->
  chart_framed f f2 sheet path xlsx id col row n.
Proof.
  intros [(d & Hl & Hid) Hr Ha] ->. split; [exists d; split; [done|]| |done].
  - destruct Hid as [Hrange Hid]. split; [done|]. rewrite <- Hid. do 3 f_equal. unfold part_at. cbn. by rewrite lookup_insert_ne.
  - cbv zeta in *. rewrite <- Hr. f_equal. unfold part_at. cbn. by rewrite lookup_insert_ne.
Qed.

Lemma AddChart_frame f sheet path xlsx id cell col row format fs :
  loaded f sheet path xlsx -> drawing_numbered f sheet xlsx id -> 0 <= id ->
  parseFormatChartSet format = ok fs -> CellNameToCoordinates cell = ok (col, row) -> coord col -> coord row ->
  fits xlsx col row (formatChart_Format fs) (formatChartDimension_Width (formatChart_Dimension fs))
    (formatChartDimension_Height (formatChart_Dimension fs)) ->
  let n := count_names "xl/charts/chart" (File_XLSX f) + 1 in
  exists f3, AddChart sheet cell format f =
      (addChart fs;; addContentTypePart n "chart";; addContentTypePart id "drawings";; mret None) f3 /\
    File_XLSX f3 = File_XLSX f /\ chart_framed f f3 sheet path xlsx id col row n /\
    shown_types f3 = shown_types f /\ only_drawing f f3 sheet path xlsx id.
Proof.
  intros Hl Hid Hpos Hfs Hcell Hcol Hrow Hfit n.
  destruct (prepareDrawing_counted f sheet path xlsx id Hl Hid Hpos) as (f1 & d & E1 & Hl1 & Hid1 & Hd1 & Hx1 & Hr1 & Ht1 & Ho1).
  set (o := part_at drawing_rels_cache (drawing_rels_file id) f).
  set (rID := zlen (relations_of o) + 1).
  pose proof (addDrawingRelationships_ok f1 id SourceRelationshipChart ("../charts/chart" +:+ strconv_Itoa n +:+ ".xml") "") as E2.
  cbv zeta in E2. rewrite Hr1 in E2. fold o in E2. set (f2 := pc_store _ _ _ _) in E2.
  destruct (place_object_ok f2 sheet path _ (drawing_part id) cell (formatChartDimension_Width (formatChart_Dimension fs))
    (formatChartDimension_Height (formatChart_Dimension fs)) (formatChart_Format fs) col row Hl1 Hcell Hcol Hrow (fits_drawing _ _ _ _ _ _ _ Hfit))
    as (ce & re & x2 & y2 & k & E3).
  set (c0 := count_names "xl/media/image" (File_XLSX f2)).
  set (frameID := count_names "xl/charts/chart" (File_XLSX f2) + c0 + 1).
  set (a := object_anchor _ _ _ _ _ _ _) in E3.
  set (a' := a <| xdrCellAnchor_GraphicFrame := xml_Marshal (chart_frame frameID ("Chart " +:+ strconv_Itoa k) rID) |>).
  set (f3 := f2 <| File_Drawings ::= <[drawing_part id := append_anchor a' (drawing_at (drawing_part id) f2)]> |>).
  assert (addDrawingChart sheet (drawing_part id) cell (formatChartDimension_Width (formatChart_Dimension fs))
    (formatChartDimension_Height (formatChart_Dimension fs)) rID (formatChart_Format fs) f2 = Ret (None, f3)) as E4.
  { unfold addDrawingChart. rewrite (bind_Ret _ _ _ _ _ E3). cbn [fst snd]. set (g := f2 <| File_Drawings ::= _ |>).
    rewrite (bind_Ret countCharts _ g (count_names "xl/charts/chart" (File_XLSX f2)) g) by done.
    rewrite (bind_Ret countMedia _ g c0 g) by done.
    unfold set_drawing. rewrite (bind_Ret (modify _) _ g tt _ eq_refl). unfold g. by rewrite drawings_twice. }
  exists f3. split; [|split; [done|split; [split; [by exists d|..]|split; [unfold shown_types; cbn; by rewrite Ht1, Hx1|by apply only_drawing_object]]]].
  - unfold AddChart. rewrite Hfs, (bind_Ret _ _ f (ok fs) f) by done. cbn [fst snd].
    rewrite (bind_Ret _ _ _ _ _ (workSheetReader_loaded _ _ _ _ Hl)). cbn [fst snd].
    rewrite (bind_Ret countDrawings _ f (count_drawings f) f) by done.
    rewrite (bind_Ret countCharts _ f (count_names "xl/charts/chart" (File_XLSX f)) f) by done. cbv zeta.
    rewrite (bind_Ret _ _ _ _ _ (deref_loaded _ _ _ (proj2 Hl))). fold (drawing_part (count_drawings f + 1)).
    rewrite (bind_Ret _ _ _ _ _ E1). fold n. by rewrite (bind_Ret _ _ _ _ _ E2), (bind_Ret _ _ _ _ _ E4).
  - intros rels. unfold part_at. cbn. by rewrite lookup_insert_eq.
  - exists a', frameID, ("Chart " +:+ strconv_Itoa k). split; [|done]. cbn. rewrite lookup_insert_eq.
    do 2 f_equal. by apply drawing_at_eq.
Qed.

(** The content types with the chart and the drawing, and more image formats. *)
Definition chart_types (n id : Z) (k : list xlsxDefault) (c : xlsxTypes) : xlsxTypes :=
  registered id "drawings" k (registered n "chart" [] c).

(** C25. Adding a chart. For a sheet in memory whose drawing has a number, a chart of a
    type that can be drawn and that starts in its cell: the call succeeds and
    stores the chart under the next number, all other parts being as they were;
    the drawing gets a relationship to it and, behind the anchors it had, an
    anchor at the cell whose frame names this relationship. The content types get
    an entry for the chart, one for the drawing unless they have it, and defaults
    for image formats. Everything else stays: the other sheets, drawings and
    relationships, and every other field of the file; the sheet too when it has a
    drawing, while any other sheet gets the reference to its new drawing. *)
Theorem AddChart_correct f sheet path xlsx id cell col row format fs draw :
  loaded f sheet path xlsx -> drawing_numbered f sheet xlsx id -> 0 <= id ->
  parseFormatChartSet format = ok fs -> table_get (formatChart_Type fs) plotAreaFunc = Some draw ->
  CellNameToCoordinates cell = ok (col, row) -> coord col -> coord row ->
  fits xlsx col row (formatChart_Format fs) (formatChartDimension_Width (formatChart_Dimension fs))
    (formatChartDimension_Height (formatChart_Dimension fs)) ->
  let n := count_names "xl/charts/chart" (File_XLSX f) + 1 in
  exists f1, AddChart sheet cell format f = Ret (None, f1) /\
    File_XLSX f1 = <[chart_part n := XMLHeader +:+ xml_Marshal (chart_space fs (draw fs))]> (File_XLSX f) /\
    chart_framed f f1 sheet path xlsx id col row n /\
    only_drawing f f1 sheet path xlsx id /\
    (exists k, Forall (default_for "drawings") k /\ File_ContentTypes f1 = Some (chart_types n id k (shown_types f))).
Proof.
  intros Hl Hid Hpos Hfs Hdraw Hcell Hcol Hrow Hfit n.
  destruct (AddChart_frame f sheet path xlsx id cell col row format fs) as (f3 & E & Hx & Hf & Ht & Ho); [done..|]. fold n in E, Hf.
  set (text := XMLHeader +:+ xml_Marshal (chart_space fs (draw fs))). set (f4 := f3 <| File_XLSX ::= <[chart_part n := text]> |>).
  assert (addChart fs f3 = Ret (tt, f4)) as E5.
  { unfold addChart. rewrite (bind_Ret countCharts _ f3 (count_names "xl/charts/chart" (File_XLSX f3)) f3), Hdraw by done.
    by rewrite Hx. }
  destruct (addContentTypePart_shown n "chart" f4) as (k & Hk & E6). apply no_chart_default in Hk as ->.
  destruct (addContentTypePart_shown id "drawings" (f4 <| File_ContentTypes := Some (registered n "chart" [] (shown_types f4)) |>))
    as (k & Hk & E7).
  assert (shown_types f4 = shown_types f) as Et by (rewrite <- Ht; by apply shown_types_part).
  eexists. split; [by rewrite E, (bind_Ret _ _ _ _ _ E5), (bind_Ret _ _ _ _ _ E6), (bind_Ret _ _ _ _ _ E7)|].
  split; [cbn; by rewrite Hx|]. split; [|split].
  - by eapply (chart_framed_after f f3 _ _ _ _ _ _ _ _ n text); [exact Hf|].
  - apply (only_drawing_parts f f3 sheet path xlsx id (<[chart_part n := text]> (File_XLSX f3))); [done|]. by rewrite lookup_insert_ne.
  - exists k. split; [done|]. change (shown_types (f4 <| File_ContentTypes := Some ?c |>)) with c. by rewrite <- Et.
Qed.

(** The types that can be drawn are the documented ones. *)
Lemma undocumented_chart ty : table_get ty documented_charts = None -> table_get ty plotAreaFunc = None.
Proof. cbn [table_get documented_charts plotAreaFunc]. by repeat (case_decide; [done|]). Qed.

(** A type that is not documented, such as a misspelt one, makes the call panic:
    the drawing functions are looked up in a map and called without a test. *)
Theorem AddChart_unknown_type f sheet path xlsx id cell col row format fs :
  loaded f sheet path xlsx -> drawing_numbered f sheet xlsx id -> 0 <= id ->
  parseFormatChartSet format = ok fs -> table_get (formatChart_Type fs) documented_charts = None ->
  CellNameToCoordinates cell = ok (col, row) -> coord col -> coord row ->
  fits xlsx col row (formatChart_Format fs) (formatChartDimension_Width (formatChart_Dimension fs))
    (formatChartDimension_Height (formatChart_Dimension fs)) ->
  AddChart sheet cell format f = Panic.
Proof.
  intros Hl Hid Hpos Hfs Hty Hcell Hcol Hrow Hfit.
  destruct (AddChart_frame f sheet path xlsx id cell col row format fs) as (f3 & E & _); [done..|].
  rewrite E. unfold addChart. by rewrite (undocumented_chart _ Hty).
Qed.

End chart_properties.

(** ** Concrete instances *)

Definition column_chart (ty : string) : formatChart :=
  default_chart <| formatChart_Type := ty |>
    <| formatChart_Series := [mk_formatChartSeries "Sheet1!$A$2" "Sheet1!$B$1:$D$1" "Sheet1!$B$2:$D$2" gozero gozero] |>.
Definition chart_env (ty : string) : GoEnv := example_env <| (@env_json_chart) := fun _ _ => ok (column_chart ty) |>.

Lemma column_chart_fits ty :
  fits gozero 5 1 (formatChart_Format (column_chart ty)) (formatChartDimension_Width (formatChart_Dimension (column_chart ty)))
    (formatChartDimension_Height (formatChart_Dimension (column_chart ty))).
Proof. split; [by split..|vm_compute; discriminate|vm_compute; discriminate|]. apply sizes_ok_zero. vm_compute. by split. Qed.

Lemma chart_drawing_numbered ty : drawing_numbered (H := chart_env ty) (example_file gozero) "Sheet1" gozero 1.
Proof. split; [by split|]. split; [vm_compute; reflexivity|constructor]. Qed.

Lemma plot_area_correct_witness :
  exists draw area c ser, table_get "col3DClustered" plotAreaFunc = Some draw /\ draw (column_chart "col3DClustered") = Some area /\
    charts_in area = [(bar_3d_chart, c)] /\ cCharts_Ser c = Some ser /\ length ser = 1%nat.
Proof.
  destruct (plot_area_correct (column_chart "col3DClustered") (mk_chart_kind bar_3d_chart "col" "clustered") eq_refl)
    as (draw & area & c & ser & E1 & E2 & E3 & _ & _ & E4 & [Hlen _] & _).
  exists draw, area, c, ser. split; [exact E1|]. split; [exact E2|]. split; [exact E3|]. split; [exact E4|exact Hlen].
Defined.

Lemma AddChart_correct_witness :
  exists f1, AddChart (H := chart_env "line") "Sheet1" "E1" "" (example_file gozero) = Ret (None, f1) /\
    is_Some (File_XLSX f1 !! "xl/charts/chart1.xml").
Proof.
  destruct (@AddChart_correct (chart_env "line") (example_file gozero) "Sheet1" "xl/worksheets/sheet1.xml" gozero 1 "E1" 5 1 ""
    (column_chart "line") drawLineChart (example_loaded gozero) (chart_drawing_numbered _)) as (f1 & E & Hx & _);
    [done|reflexivity|reflexivity|reflexivity|by split|by split|apply column_chart_fits|].
  exists f1. split; [exact E|]. rewrite Hx. eexists. apply lookup_insert_eq.
Defined.

Lemma AddChart_unknown_type_witness :
  AddChart (H := chart_env "column") "Sheet1" "E1" "" (example_file gozero) = Panic.
Proof.
  apply (@AddChart_unknown_type (chart_env "column") (example_file gozero) "Sheet1" "xl/worksheets/sheet1.xml" gozero 1 "E1" 5 1 ""
    (column_chart "column") (example_loaded gozero) (chart_drawing_numbered _));
    [done|reflexivity|reflexivity|reflexivity|by split|by split|apply column_chart_fits].
Defined.
