(* ===== verification/Shape.v ===== *)
(** Shapes ([shape.go]): the preset geometries with their text that are added to the
    drawing of a sheet. *)
From S2P Require Export Drawing.

Definition default_shape : formatShape :=
  (gozero : formatShape)
    <| formatShape_Width := 160 |>
    <| formatShape_Height := 160 |>
    <| formatShape_Format := (gozero : formatPicture)
      <| formatPicture_FPrintsWithSheet := true |>
      <| formatPicture_FLocksWithSheet := false |>
      <| formatPicture_NoChangeAspect := false |>
      <| formatPicture_OffsetX := 0 |>
      <| formatPicture_OffsetY := 0 |>
      <| formatPicture_XScale := f64_const 1 1 |>
      <| formatPicture_YScale := f64_const 1 1 |> |>.

Definition textUnderlineType : list string :=
  ["none"; "words"; "sng"; "dbl"; "heavy"; "dotted"; "dottedHeavy"; "dash"; "dashHeavy"; "dashLong";
   "dashLongHeavy"; "dotDash"; "dotDashHeavy"; "dotDotDash"; "dotDotDashHeavy"; "wavy"; "wavyHeavy";
   "wavyDbl"].

Section shape.
Context `{GoEnv}.

Definition parseFormatShapeSet (formatSet : string) : formatShape * option goerr := json_Unmarshal formatSet default_shape.

(** [strings.Replace(strings.ToUpper(color), "#", "", -1)] *)
Definition hex_color (color : string) : string := strings_Replace (strings_ToUpper color) "#" "".

Definition setShapeRef (color : string) (i : Z) : option aRef :=
  let hex := hex_color color in
  if bool_decide (color = "") then
    Some ((gozero : aRef)
      <| aRef_Idx := 0 |>
      <| aRef_ScrgbClr := Some ((gozero : aScrgbClr)
          <| aScrgbClr_R := f64_of_int 0 |>
          <| aScrgbClr_G := f64_of_int 0 |>
          <| aScrgbClr_B := f64_of_int 0 |>) |>)
  else
    Some ((gozero : aRef)
      <| aRef_Idx := i |>
      <| aRef_SrgbClr := Some (mk_attrValString hex) |>).

Definition default_paragraphs : list formatShapeParagraph :=
  [(gozero : formatShapeParagraph)
    <| formatShapeParagraph_Font := (gozero : formatFont)
      <| formatFont_Bold := false |>
      <| formatFont_Italic := false |>
      <| formatFont_Underline := "none" |>
      <| formatFont_Family := "Calibri" |>
      <| formatFont_Size := 11 |>
      <| formatFont_Color := "#000000" |> |>
    <| formatShapeParagraph_Text := " " |>].

Definition shape_paragraph (p : formatShapeParagraph) : aP :=
  let u := formatFont_Underline (formatShapeParagraph_Font p) in
  let u := if bool_decide (u ∈ textUnderlineType) then u else "none" in
  let text := if bool_decide (formatShapeParagraph_Text p = "") then " " else formatShapeParagraph_Text p in
  let hex := hex_color (formatFont_Color (formatShapeParagraph_Font p)) in
  let size := imul (formatFont_Size (formatShapeParagraph_Font p)) 100 in
  (gozero : aP)
      <| aP_R := Some ((gozero : aR)
          <| aR_RPr := (gozero : aRPr)
            <| aRPr_I := formatFont_Italic (formatShapeParagraph_Font p) |>
            <| aRPr_B := formatFont_Bold (formatShapeParagraph_Font p) |>
            <| aRPr_Lang := "en-US" |>
            <| aRPr_AltLang := "en-US" |>
            <| aRPr_U := u |>
            <| aRPr_Sz := size |>
            <| aRPr_Latin := Some (mk_aLatin (formatFont_Family (formatShapeParagraph_Font p))) |>
            <| aRPr_SolidFill := Some ((gozero : aSolidFill)
                <| aSolidFill_SrgbClr := Some (mk_attrValString hex) |>) |> |>
          <| aR_T := text |>) |>
      <| aP_EndParaRPr := Some ((gozero : aEndParaRPr) <| aEndParaRPr_Lang := "en-US" |>) |>.

Definition shape_paragraphs (formatSet : formatShape) : list aP :=
  shape_paragraph <$> match formatShape_Paragraph formatSet with [] => default_paragraphs | l => l end.

(** The shape before its paragraphs. *)
Definition shape_frame (formatSet : formatShape) (cNvPrID : Z) : xdrSp :=
  (gozero : xdrSp)
    <| xdrSp_NvSpPr := Some ((gozero : xdrNvSpPr)
        <| xdrNvSpPr_CNvPr := Some ((gozero : xlsxCNvPr)
            <| xlsxCNvPr_ID := cNvPrID |>
            <| xlsxCNvPr_Name := "Shape " +:+ strconv_Itoa cNvPrID |>) |>
        <| xdrNvSpPr_CNvSpPr := Some (mk_xdrCNvSpPr true) |>) |>
    <| xdrSp_SpPr := Some ((gozero : xlsxSpPr)
        <| xlsxSpPr_PrstGeom := mk_xlsxPrstGeom (formatShape_Type formatSet) |>) |>
    <| xdrSp_Style := Some ((gozero : xdrStyle)
        <| xdrStyle_LnRef := setShapeRef (formatShapeColor_Line (formatShape_Color formatSet)) 2 |>
        <| xdrStyle_FillRef := setShapeRef (formatShapeColor_Fill (formatShape_Color formatSet)) 1 |>
        <| xdrStyle_EffectRef := setShapeRef (formatShapeColor_Effect (formatShape_Color formatSet)) 0 |>
        <| xdrStyle_FontRef := Some ((gozero : aFontRef)
            <| aFontRef_Idx := "minor" |>
            <| aFontRef_SchemeClr := Some (mk_attrValString "tx1") |>) |>) |>
    <| xdrSp_TxBody := Some ((gozero : xdrTxBody)
        <| xdrTxBody_BodyPr := Some ((gozero : aBodyPr)
            <| aBodyPr_VertOverflow := "clip" |>
            <| aBodyPr_HorzOverflow := "clip" |>
            <| aBodyPr_Wrap := "none" |>
            <| aBodyPr_RtlCol := false |>
            <| aBodyPr_Anchor := "t" |>) |>) |>.

Definition shape_of (formatSet : formatShape) (cNvPrID : Z) : xdrSp :=
  (shape_frame formatSet cNvPrID)
    <| xdrSp_TxBody ::= fmap (fun b => b <| xdrTxBody_P ::= fun l => l ++ shape_paragraphs formatSet |>) |>.

Definition addDrawingShape (sheet drawingXML cell : string) (formatSet : formatShape) : M (option goerr) :=
  let! (anchor, content, cNvPrID) :=
    place_object sheet drawingXML cell (formatShape_Width formatSet) (formatShape_Height formatSet) (formatShape_Format formatSet) in
  set_drawing drawingXML (append_anchor (anchor <| xdrCellAnchor_Sp := Some (shape_of formatSet cNvPrID) |>) content);;
  mret None.

(** The drawing of the sheet is found or made as [prepareDrawing] does. *)
Definition AddShape (sheet cell format : string) : M (option goerr) :=
  let! formatSet := mret (parseFormatShapeSet format) in
  let! p := workSheetReader sheet in
  drawings ← countDrawings;
  let drawingID := drawings + 1 in
  xlsx ← deref p;
  '(drawingID, drawingXML) ← prepareDrawing (xlsxWorksheet_Drawing xlsx) drawingID sheet
    ("xl/drawings/drawing" +:+ strconv_Itoa drawingID +:+ ".xml");
  try! addDrawingShape sheet drawingXML cell formatSet in
  addContentTypePart drawingID "drawings";;
  mret None.

End shape.

(** ** Properties *)

Section shape_properties.
Context `{GoEnv}.

(** The paragraph of a shape shows the text, a space for none, with an underline
    that is allowed. *)
Definition shows_paragraph (p : formatShapeParagraph) (q : aP) : Prop :=
  exists r, aP_R q = Some r /\ aR_T r <> "" /\
    (formatShapeParagraph_Text p <> "" -> aR_T r = formatShapeParagraph_Text p) /\
    aRPr_U (aR_RPr r) ∈ textUnderlineType /\
    (formatFont_Underline (formatShapeParagraph_Font p) ∈ textUnderlineType ->
     aRPr_U (aR_RPr r) = formatFont_Underline (formatShapeParagraph_Font p)) /\
    aRPr_B (aR_RPr r) = formatFont_Bold (formatShapeParagraph_Font p) /\
    aRPr_I (aR_RPr r) = formatFont_Italic (formatShapeParagraph_Font p).

Lemma shape_paragraph_shows p : shows_paragraph p (shape_paragraph p).
Proof.
  eexists. split; [reflexivity|]. cbn. split_and!; try done.
  - by case_bool_decide.
  - intros Ht. by rewrite bool_decide_eq_false_2.
  - case_bool_decide; [done|]. by left.
  - intros Hu. by rewrite bool_decide_eq_true_2.
Qed.

(** C26. Adding a shape. For a sheet in memory whose drawing has a number, a shape that
    starts in its cell: the call succeeds and stores no part; the drawing, which is
    made in memory when the sheet had none, has, behind the anchors it had, an
    anchor at the cell with the geometry that was asked for and the paragraphs in
    their order, at least one. The content types get an entry for the drawing
    unless they have it, and defaults for image formats; the other sheets,
    drawings and relationships and every other field of the file stay. *)
Theorem AddShape_correct f sheet path xlsx id cell col row format fs :
  loaded f sheet path xlsx -> drawing_numbered f sheet xlsx id -> 0 <= id ->
  parseFormatShapeSet format = ok fs -> CellNameToCoordinates cell = ok (col, row) -> coord col -> coord row ->
  fits xlsx col row (formatShape_Format fs) (formatShape_Width fs) (formatShape_Height fs) ->
  exists f1 a sp body, AddShape sheet cell format f = Ret (None, f1) /\ File_XLSX f1 = File_XLSX f /\
    (exists d, loaded f1 sheet path (xlsx <| xlsxWorksheet_Drawing := Some d |>) /\
      drawing_numbered f1 sheet (xlsx <| xlsxWorksheet_Drawing := Some d |>) id) /\
    File_Drawings f1 !! drawing_part id = Some (append_anchor a (drawing_at (drawing_part id) f)) /\
    (xlsxFrom_Col <$> xdrCellAnchor_From a) = Some (col - 1) /\ (xlsxFrom_Row <$> xdrCellAnchor_From a) = Some (row - 1) /\
    xdrCellAnchor_Sp a = Some sp /\ xdrSp_TxBody sp = Some body /\
    (xlsxPrstGeom_Prst ∘ xlsxSpPr_PrstGeom <$> xdrSp_SpPr sp) = Some (formatShape_Type fs) /\
    xdrTxBody_P body <> [] /\
    (formatShape_Paragraph fs <> [] -> Forall2 shows_paragraph (formatShape_Paragraph fs) (xdrTxBody_P body)) /\
    only_drawing f f1 sheet path xlsx id /\
    (exists k, Forall (default_for "drawings") k /\ File_ContentTypes f1 = Some (registered id "drawings" k (shown_types f))).
Proof.
  intros Hl Hid Hpos Hfs Hcell Hcol Hrow Hfit.
  destruct (prepareDrawing_counted f sheet path xlsx id Hl Hid Hpos) as (f1 & d & E1 & Hl1 & Hid1 & Hd1 & Hx1 & Hr1 & Ht1 & Ho1).
  destruct (place_object_ok f1 sheet path _ (drawing_part id) cell (formatShape_Width fs) (formatShape_Height fs)
    (formatShape_Format fs) col row Hl1 Hcell Hcol Hrow (fits_drawing _ _ _ _ _ _ _ Hfit)) as (ce & re & x2 & y2 & k & E2).
  set (a := object_anchor _ _ _ _ _ _ _) in E2. set (a' := a <| xdrCellAnchor_Sp := Some (shape_of fs k) |>).
  set (f2 := f1 <| File_Drawings ::= <[drawing_part id := append_anchor a' (drawing_at (drawing_part id) f1)]> |>).
  assert (addDrawingShape sheet (drawing_part id) cell fs f1 = Ret (None, f2)) as E3.
  { unfold addDrawingShape. rewrite (bind_Ret _ _ _ _ _ E2). cbn [fst snd]. set (g := f1 <| File_Drawings ::= _ |>).
    unfold set_drawing. rewrite (bind_Ret (modify _) _ g tt _ eq_refl). unfold g. by rewrite drawings_twice. }
  destruct (addContentTypePart_shown id "drawings" f2) as (ks & Hks & E4).
  set (f3 := _ <| File_ContentTypes := _ |>) in E4. exists f3, a', (shape_of fs k). eexists. split; [|split_and!; [done|by exists d|..]].
  - unfold AddShape. rewrite Hfs, (bind_Ret _ _ f (ok fs) f) by done. cbn [fst snd].
    rewrite (bind_Ret _ _ _ _ _ (workSheetReader_loaded _ _ _ _ Hl)). cbn [fst snd].
    rewrite (bind_Ret countDrawings _ f (count_drawings f) f) by done. cbv zeta.
    rewrite (bind_Ret _ _ _ _ _ (deref_loaded _ _ _ (proj2 Hl))). fold (drawing_part (count_drawings f + 1)).
    by rewrite (bind_Ret _ _ _ _ _ E1), (bind_Ret _ _ _ _ _ E3), (bind_Ret _ _ _ _ _ E4).
  - cbn. rewrite lookup_insert_eq. do 2 f_equal. by apply drawing_at_eq.
  - reflexivity.
  - reflexivity.
  - reflexivity.
  - reflexivity.
  - reflexivity.
  - cbn. unfold shape_paragraphs. by destruct (formatShape_Paragraph fs).
  - cbn. intros Hne. unfold shape_paragraphs. destruct (formatShape_Paragraph fs) as [|p l]; [done|].
    apply Forall2_fmap_r, Forall2_same_length_lookup_2; [done|]. intros i x y Hx Hy. rewrite Hx in Hy. injection Hy as <-.
    apply shape_paragraph_shows.
  - eapply (only_drawing_parts f f2 sheet path xlsx id (File_XLSX f2)); [|done]. by apply only_drawing_anchor.
  - exists ks. split; [done|]. cbn. unfold shown_types. cbn. by rewrite Ht1, Hx1.
Qed.

End shape_properties.

(** ** A concrete instance *)

Definition text_box : formatShape :=
  default_shape <| formatShape_Type := "rect" |>
    <| formatShape_Paragraph := [mk_formatShapeParagraph (mk_formatFont true false "sng" "Berlin Sans FB Demi" 36 "#777777") "Rectangle Shape"] |>.
Definition shape_env : GoEnv := example_env <| (@env_json_shape) := fun _ _ => ok text_box |>.

Lemma AddShape_correct_witness :
  exists f1 a sp body, AddShape (H := shape_env) "Sheet1" "G6" "" (example_file gozero) = Ret (None, f1) /\
    File_Drawings f1 !! "xl/drawings/drawing1.xml" = Some (append_anchor a empty_drawing) /\
    xdrCellAnchor_Sp a = Some sp /\ xdrSp_TxBody sp = Some body /\ Forall2 shows_paragraph (formatShape_Paragraph text_box) (xdrTxBody_P body).
Proof.
  destruct (@AddShape_correct shape_env (example_file gozero) "Sheet1" "xl/worksheets/sheet1.xml" gozero 1 "G6" 7 6 "" text_box
    (example_loaded gozero)) as (f1 & a & sp & body & E & _ & _ & Ed & _ & _ & Es & Eb & _ & _ & Hp & _);
    [..|exists f1, a, sp, body; split; [exact E|split; [exact Ed|split; [exact Es|split; [exact Eb|apply Hp; discriminate]]]]].
  - split; [by split|]. split; [vm_compute; reflexivity|constructor].
  - done.
  - reflexivity.
  - reflexivity.
  - by split.
  - by split.
  - split; [by split..|vm_compute; discriminate|vm_compute; discriminate|]. apply sizes_ok_zero. vm_compute. by split.
Defined.
