(* ===== verification/Archive.v ===== *)
(** The archive ([file.go], [excelize.go], [lib.go]): saving the parts of a
    workbook in a zip file and opening one. The zip format is the parameter
    [zip_NewReader]/[zip_Writer]; files and readers of the operating system are
    arguments. *)
From S2P Require Export Parts Cell.

(** ** Opening *)

(** [len(v.Name) > 18 && v.Name[0:19] == "xl/worksheets/sheet"] *)
Definition is_sheet_part (name : string) : outcome bool :=
  if 18 <? len name then s ← str_slice name 0 19; Ret (bool_decide (s = "xl/worksheets/sheet")) else Ret false.

(** The entries are the names with the contents that [readFile] gives. *)
Definition read_entry (acc : gmap string string * Z) (v : string * string) : outcome (gmap string string * Z) :=
  b ← is_sheet_part v.1;
  Ret (<[v.1 := v.2]> acc.1, if b : bool then iadd acc.2 1 else acc.2).

Fixpoint read_entries (acc : gmap string string * Z) (l : list (string * string)) : outcome (gmap string string * Z) :=
  match l with [] => Ret acc | v :: l' => acc ← read_entry acc v; read_entries acc l' end.

Definition ReadZipReader (r : list (string * string)) : outcome ((gmap string string * Z) * option goerr) :=
  acc ← read_entries (∅, 0) r; Ret (ok acc).

Section archive.
Context `{GoEnv}.

(** A reader is its content and the error of [ioutil.ReadAll]. *)
Definition OpenReader (r : string * option goerr) : outcome (option File * option goerr) :=
  match r with
  | (_, Some err) => Ret (None, Some err)
  | (b, None) =>
      match zip_NewReader b with
      | (_, Some err) => Ret (None, Some err)
      | (zr, None) =>
          z ← ReadZipReader zr;
          match z with
          | (_, Some err) => Ret (None, Some err)
          | ((file, sheetCount), None) => f ← open_parts file sheetCount; Ret (ok (Some f))
          end
      end
  end.

(** The file system: what [os.Open] gives to read and what [os.OpenFile] gives to
    write to. Writing returns the number of bytes and an error. *)
Definition writer : Type := string -> Z * option goerr.
Variable os_Open : string -> (string * option goerr) * option goerr.
Variable os_OpenFile : string -> writer * option goerr.

Definition OpenFile (filename : string) : outcome (option File * option goerr) :=
  match os_Open filename with
  | (_, Some err) => Ret (None, Some err)
  | (file, None) =>
      r ← OpenReader file;
      match r with
      | (Some f, None) => Ret (ok (Some (f <| File_Path := filename |>)))
      | (_, err) => Ret (None, err)
      end
  end.

(** ** Saving *)

Definition write_parts : M unit :=
  calcChainWriter;; commentsWriter;; contentTypesWriter;; drawingRelsWriter;; drawingsWriter;; vmlDrawingWriter;;
  workBookWriter;; workBookRelsWriter;; workSheetWriter;; workSheetRelsWriter;; styleSheetWriter.

(** The loop that writes the parts, [calls] being what the writer was called with
    before, and the closing of the writer. The buffer is returned as it is when a
    call fails. *)
Fixpoint write_entries (calls : list zip_call) (l : list (string * string)) : string * option goerr :=
  match l with
  | [] => zip_Writer (calls ++ [ZipClose])
  | (path, content) :: l =>
      let created := calls ++ [ZipCreate path] in
      match zip_Writer created with
      | (buf, Some err) => err_with buf err
      | (_, None) =>
          let written := created ++ [ZipWrite content] in
          match zip_Writer written with
          | (buf, Some err) => err_with buf err
          | (_, None) => write_entries written l
          end
      end
  end.

Definition WriteToBuffer : M (string * option goerr) :=
  write_parts;; f ← get; mret (write_entries [] (range_map (File_XLSX f))).

Definition WriteTo (w : writer) : M (Z * option goerr) :=
  let! buf := WriteToBuffer orelse 0 in
  mret (w buf).

Definition Write (w : writer) : M (option goerr) := r ← WriteTo w; mret r.2.

Definition SaveAs (name : string) : M (option goerr) :=
  match os_OpenFile name with
  | (_, Some err) => mret (Some err)
  | (file, None) => Write file
  end.

Definition Save : M (option goerr) :=
  f ← get;
  if bool_decide (File_Path f = "")
  then mret (Some (ErrText "no path defined for file, consider File.WriteTo or File.Write"))
  else SaveAs (File_Path f).

End archive.

(** ** Lemmas *)

Lemma prefix_take p s : String.prefix p s = true <-> str_take (String.length p) s = p.
Proof.
  revert s. induction p as [|c p IH]; intros s; [by destruct s|]. destruct s as [|d s]; [done|]. cbn.
  destruct (ascii_dec c d) as [->|Hne]; [rewrite IH; split; [by intros ->|by intros [= ->]]|].
  split; [done|intros [= ->]; done].
Qed.

Lemma prefix_length p s : String.prefix p s = true -> (String.length p <= String.length s)%nat.
Proof.
  revert s. induction p as [|c p IH]; intros [|d s]; cbn; [lia..|done|]. destruct (ascii_dec c d); [|done].
  intros Hp%IH. lia.
Qed.

Lemma is_sheet_part_ok name : is_sheet_part name = Ret (strings_HasPrefix name "xl/worksheets/sheet").
Proof.
  unfold is_sheet_part, strings_HasPrefix. destruct (18 <? len name) eqn:E.
  - unfold str_slice. replace (_ && _ && _) with true by (unfold len in *; lia).
    change (Ret (bool_decide (str_take 19 name = "xl/worksheets/sheet")) = Ret (String.prefix "xl/worksheets/sheet" name)).
    f_equal. apply eq_bool_prop_intro. rewrite bool_decide_spec, <- (prefix_take "xl/worksheets/sheet" name).
    by destruct (String.prefix _ _).
  - f_equal. symmetry. destruct (String.prefix _ name) eqn:Ep; [|done].
    apply prefix_length in Ep. unfold len in E. cbn [String.length] in Ep. lia.
Qed.

(** The entries that are sheets. *)
Definition sheet_entries (l : list (string * string)) : Z :=
  zlen (List.filter (fun v => strings_HasPrefix v.1 "xl/worksheets/sheet") l).

Lemma sheet_entries_perm l k : l ≡ₚ k -> sheet_entries l = sheet_entries k.
Proof.
  unfold sheet_entries, zlen. intros Hl. f_equal. induction Hl as [|v l k Hl IH|v w l|]; cbn; [done|..|congruence].
  - destruct (strings_HasPrefix _ _); cbn; congruence.
  - by destruct (strings_HasPrefix v.1 _), (strings_HasPrefix w.1 _).
Qed.

Lemma read_entries_ok l : forall m n,
  n + zlen l <= maxInt -> 0 <= n ->
  read_entries (m, n) l = Ret (foldl (fun m p => <[p.1 := p.2]> m) m l, n + sheet_entries l).
Proof.
  unfold sheet_entries. induction l as [|v l IH]; intros m n Hn Hpos; cbn [read_entries foldl List.filter].
  { by rewrite Z.add_0_r. }
  rewrite zlen_cons in Hn. pose proof (zlen_nonneg l). unfold read_entry. rewrite is_sheet_part_ok.
  unfold mbind, outcome_bind. cbn [fst snd]. destruct (strings_HasPrefix _ _).
  - assert (iadd n 1 = n + 1) as -> by int_lia. rewrite IH by lia. rewrite zlen_cons. do 2 f_equal. lia.
  - rewrite IH by lia. done.
Qed.

Section archive_lemmas.
Context `{GoEnv}.

(** Only the contents of the given parts differ. *)
Definition stored (P : string -> Prop) (f f' : File) : Prop :=
  exists parts, f' = f <| File_XLSX := parts |> /\ forall p, ~ P p -> parts !! p = File_XLSX f !! p.

Lemma stored_refl P f : stored P f f.
Proof. exists (File_XLSX f). by destruct f. Qed.

Lemma stored_trans P f g h : stored P f g -> stored P g h -> stored P f h.
Proof.
  intros (a & -> & Ha) (b & -> & Hb). exists b. split; [done|]. intros p Hp. rewrite Hb by done. by apply Ha.
Qed.

Lemma stored_impl (P Q : string -> Prop) f g : (forall p, P p -> Q p) -> stored P f g -> stored Q f g.
Proof. intros HPQ (a & -> & Ha). exists a. split; [done|]. intros p Hp. apply Ha. auto. Qed.

Lemma stored_part P f g p : stored P f g -> ~ P p -> File_XLSX g !! p = File_XLSX f !! p.
Proof. intros (a & -> & Ha) Hp. by apply Ha. Qed.

Lemma stored_rest {A} (proj : File -> A) P f g :
  (forall h parts, proj (h <| File_XLSX := parts |>) = proj h) -> stored P f g -> proj g = proj f.
Proof. by intros Hp (a & -> & _). Qed.

(** What a writer does: it returns and stores its parts. *)
Definition writes (P : string -> Prop) (c : M unit) (f : File) : Prop :=
  exists f', c f = Ret (tt, f') /\ stored P f f'.

Lemma writes_none P f : writes P (mret tt) f.
Proof. exists f. split; [done|apply stored_refl]. Qed.

Lemma writes_file name content f : writes (eq name) (saveFileList name content) f.
Proof. eexists. split; [done|]. eexists. split; [done|]. intros p Hp. by rewrite lookup_insert_ne. Qed.

Lemma writes_raw {A} (m : gmap string A) (g : A -> string) l f :
  (forall e, e ∈ l -> is_Some (m !! e.1)) ->
  writes (fun p => is_Some (m !! p)) (forM l (fun e => modify (fun f => f <| File_XLSX ::= <[e.1 := g e.2]> |>))) f.
Proof.
  revert f. induction l as [|e l IH]; intros f Hl; [apply writes_none|]. cbn [forM].
  set (f1 := f <| File_XLSX ::= <[e.1 := g e.2]> |>).
  destruct (IH f1) as (f2 & E & Hs); [intros x Hx; apply Hl; by right|].
  exists f2. split; [exact E|]. eapply stored_trans; [|exact Hs]. eexists. split; [done|].
  intros p Hp. apply lookup_insert_ne. intros <-. apply Hp, Hl. by left.
Qed.

Lemma range_entries {A} (m : gmap string A) e : range_map_ok -> e ∈ range_map m -> is_Some (m !! e.1).
Proof.
  intros Hr Hin. rewrite (Hr _ _ _ _ m) in Hin. destruct e as [k v]. apply elem_of_map_to_list in Hin. by exists v.
Qed.

(** *** The parts of the workbook *)

Inductive written_part (f : File) (p : string) : Prop :=
| wp_fixed : p ∈ ["xl/calcChain.xml"; "[Content_Types].xml"; "xl/workbook.xml"; "xl/_rels/workbook.xml.rels"; "xl/styles.xml"] ->
    written_part f p
| wp_comments : is_Some (File_Comments f !! p) -> written_part f p
| wp_drawing_rels : is_Some (File_DrawingRels f !! p) -> written_part f p
| wp_drawings : is_Some (File_Drawings f !! p) -> written_part f p
| wp_vml : is_Some (File_VMLDrawing f !! p) -> written_part f p
| wp_sheets : is_Some (File_Sheet f !! p) -> written_part f p
| wp_sheet_rels : is_Some (File_WorkSheetRels f !! p) -> written_part f p.

#[export] Instance written_part_dec f p : Decision (written_part f p).
Proof.
  refine (if decide (p ∈ ["xl/calcChain.xml"; "[Content_Types].xml"; "xl/workbook.xml"; "xl/_rels/workbook.xml.rels"; "xl/styles.xml"]
    \/ is_Some (File_Comments f !! p) \/ is_Some (File_DrawingRels f !! p) \/ is_Some (File_Drawings f !! p)
    \/ is_Some (File_VMLDrawing f !! p) \/ is_Some (File_Sheet f !! p) \/ is_Some (File_WorkSheetRels f !! p)) then left _ else right _).
  - by destruct_or!; [apply wp_fixed|apply wp_comments|apply wp_drawing_rels|apply wp_drawings|apply wp_vml|apply wp_sheets|apply wp_sheet_rels].
  - intros []; tauto.
Defined.

(** The writers before that of the workbook. *)
Definition write_first_parts : M unit :=
  calcChainWriter;; commentsWriter;; contentTypesWriter;; drawingRelsWriter;; drawingsWriter;; vmlDrawingWriter.

Lemma writes_bind P (c d : M unit) f :
  writes P c f -> (forall f', stored P f f' -> writes P d f') -> writes P (c;; d) f.
Proof.
  intros (f1 & E1 & H1) Hd. destruct (Hd f1 H1) as (f2 & E2 & H2). exists f2. split; [|by eapply stored_trans].
  by rewrite (bind_Ret _ _ _ _ _ E1).
Qed.

Lemma writes_weaken (P Q : string -> Prop) c f : (forall p, P p -> Q p) -> writes P c f -> writes Q c f.
Proof. intros HPQ (f' & E & Hs). exists f'. split; [done|by eapply stored_impl]. Qed.

Lemma write_first_parts_ok f : range_map_ok -> writes (written_part f) write_first_parts f.
Proof.
  intros Hr. unfold write_first_parts.
  assert (forall (A : Type) (m : gmap string A) (proj : File -> gmap string A) (g : A -> string) f',
    (forall p, is_Some (m !! p) -> written_part f p) -> stored (written_part f) f f' -> proj f = m ->
    (forall h parts, proj (h <| File_XLSX := parts |>) = proj h) ->
    writes (written_part f) (f ← get; forM (range_map (proj f)) (fun e => modify (fun f => f <| File_XLSX ::= <[e.1 := g e.2]> |>))) f')
    as Hcache.
  { intros A m proj g f' Hm Hs Hp Hx. eapply writes_weaken; [exact Hm|]. unfold writes, mbind, gom_bind, get.
    rewrite (stored_rest proj _ _ _ Hx Hs), Hp. apply writes_raw. intros e. by apply range_entries. }
  apply writes_bind; [|intros f1 H1; apply writes_bind; [|intros f2 H2; apply writes_bind; [|intros f3 H3; apply writes_bind;
    [|intros f4 H4; apply writes_bind; [|intros f5 H5]]]]].
  - unfold writes, calcChainWriter, mbind, gom_bind, get. destruct (File_CalcChain f) as [c|]; [|apply writes_none].
    destruct (xlsxCalcChain_C c); [apply writes_none|].
    eapply writes_weaken; [|apply writes_file]. intros p <-. apply wp_fixed. by left.
  - apply (Hcache _ (File_Comments f) File_Comments (fun a => XMLHeader +:+ xml_Marshal a)); [apply wp_comments|done..].
  - unfold writes, contentTypesWriter, mbind, gom_bind, get. destruct (File_ContentTypes f2) as [c|]; [|apply writes_none].
    eapply writes_weaken; [|apply writes_file]. intros p <-. apply wp_fixed. right. by left.
  - apply (Hcache _ (File_DrawingRels f) File_DrawingRels (fun a => XMLHeader +:+ xml_Marshal a)); [apply wp_drawing_rels| |done..].
    eauto 6 using stored_trans.
  - apply (Hcache _ (File_Drawings f) File_Drawings (fun a => XMLHeader +:+ xml_Marshal a)); [apply wp_drawings| |done..].
    eauto 6 using stored_trans.
  - apply (Hcache _ (File_VMLDrawing f) File_VMLDrawing xml_Marshal); [apply wp_vml| |done..].
    eauto 6 using stored_trans.
Qed.

(** The worksheets and the writers after them. *)
Lemma saved_keep {A} (proj : File -> A) l f :
  (forall h e, proj (saved_one h e) = proj h) -> proj (foldl saved_one f l) = proj f.
Proof. intros Hp. revert f. induction l as [|e l IH]; intros f; [done|]. cbn [foldl]. by rewrite IH, Hp. Qed.

Lemma saved_keys l f p : (forall e, e ∈ l -> is_Some (File_Sheet f !! e.1)) ->
  is_Some (File_Sheet (foldl saved_one f l) !! p) <-> is_Some (File_Sheet f !! p).
Proof.
  revert f. induction l as [|e l IH]; intros f Hl; [done|]. cbn [foldl].
  assert (forall q, is_Some (File_Sheet (saved_one f e) !! q) <-> is_Some (File_Sheet f !! q)) as He.
  { intros q. unfold saved_one. cbn. destruct (decide (e.1 = q)) as [<-|Hne]; [|by rewrite lookup_insert_ne].
    rewrite lookup_insert_eq. split; [|by eexists]. intros _. apply Hl. by left. }
  rewrite IH, He; [done|]. intros x Hx. apply He, Hl. by right.
Qed.

(** The contents of the parts of the workbook. *)
Definition saved_workbook (content : xlsxWorkbook) : string :=
  XMLHeader +:+ replaceRelationshipsBytes (replaceRelationshipsNameSpaceBytes (xml_Marshal content)).
Definition saved_rels (rels : xlsxWorkbookRels) : string := XMLHeader +:+ xml_Marshal rels.
Definition saved_styles (styles : xlsxStyleSheet) : string :=
  XMLHeader +:+ replaceWorkSheetsRelationshipsNameSpaceBytes (xml_Marshal styles).

(** Where the worksheets and their relationships are stored. *)
Definition parts_apart (f : File) : Prop :=
  (forall p, is_Some (File_Sheet f !! p) -> strings_HasPrefix p "xl/worksheets/sheet" = true) /\
  (forall p, is_Some (File_WorkSheetRels f !! p) -> strings_HasPrefix p "xl/worksheets/_rels/" = true).

Lemma bind_assoc {A} (c d : M unit) (k : M A) f : ((c;; d);; k) f = (c;; d;; k) f.
Proof. unfold mbind, gom_bind. by destruct (c f) as [[]|]. Qed.

Lemma bind_next {A B} (c : M A) (k k' : A -> M B) f : (forall a g, k a g = k' a g) -> (c ≫= k) f = (c ≫= k') f.
Proof. intros Hk. unfold mbind, gom_bind. destruct (c f) as [[]|]; [apply Hk|done]. Qed.

Lemma prefix_common p q s :
  String.prefix p s = true -> String.prefix q s = true -> String.prefix p q = true \/ String.prefix q p = true.
Proof.
  revert q s. induction p as [|c p IH]; intros q s; [by left; destruct q|].
  destruct q as [|d q]; [by right|]. destruct s as [|e s]; [done|]. cbn.
  destruct (ascii_dec c e) as [->|], (ascii_dec d e) as [->|]; [|done..].
  intros Hp Hq. destruct (ascii_dec e e); [|done]. by eapply IH.
Qed.

(** The parts of the saved file. *)
Record file_saved (f f1 : File) (content : xlsxWorkbook) (rels : xlsxWorkbookRels) : Prop := mk_file_saved {
  fs_workbook : File_XLSX f1 !! "xl/workbook.xml" = Some (saved_workbook content);
  fs_rels : File_XLSX f1 !! "xl/_rels/workbook.xml.rels" = Some (saved_rels rels);
  fs_styles styles : File_Styles f = Some styles -> File_XLSX f1 !! "xl/styles.xml" = Some (saved_styles styles);
  fs_sheets p xlsx : File_Sheet f !! p = Some xlsx -> File_XLSX f1 !! p = Some (saved_content (trimmed_sheet xlsx));
  fs_others p : ~ written_part f p -> File_XLSX f1 !! p = File_XLSX f !! p
}.

Lemma write_parts_ok f content rels :
  range_map_ok -> wb_loaded f content rels -> parts_apart f ->
  exists f1, write_parts f = Ret (tt, f1) /\ file_saved f f1 content rels.
Proof.
  intros Hr [Hwb Hrels] [Hsheets Hsrels].
  destruct (write_first_parts_ok f Hr) as (g & Eg & Hg).
  set (g1 := g <| File_XLSX ::= <["xl/workbook.xml" := saved_workbook content]> |>).
  set (g2 := g1 <| File_XLSX ::= <["xl/_rels/workbook.xml.rels" := saved_rels rels]> |>).
  set (l := range_map (File_Sheet g2)). set (g3 := foldl saved_one g2 l).
  assert (File_Sheet g2 = File_Sheet f) as Hs2 by exact (stored_rest File_Sheet _ _ _ (fun _ _ => eq_refl) Hg).
  assert (File_WorkSheetRels g3 = File_WorkSheetRels f) as Hr3.
  { unfold g3. rewrite saved_keep by done. exact (stored_rest File_WorkSheetRels _ _ _ (fun _ _ => eq_refl) Hg). }
  destruct (writes_raw (File_WorkSheetRels g3) (fun a => XMLHeader +:+ xml_Marshal a) (range_map (File_WorkSheetRels g3)) g3)
    as (g4 & E4 & H4); [intros e; by apply range_entries|].
  assert (writes (eq "xl/styles.xml") styleSheetWriter g4) as (g5 & E5 & H5).
  { unfold writes, styleSheetWriter, mbind, gom_bind, get. destruct (File_Styles g4) as [c|]; [|apply writes_none]. apply writes_file. }
  assert (forall p, ~ is_Some (File_WorkSheetRels f !! p) -> p <> "xl/styles.xml" -> File_XLSX g5 !! p = File_XLSX g3 !! p) as Hlast.
  { intros p H1 H2. rewrite (stored_part _ _ _ _ H5), (stored_part _ _ _ _ H4); [done| |by intros <-]. by rewrite Hr3. }
  assert (forall p, ~ is_Some (File_Sheet f !! p) -> File_XLSX g3 !! p = File_XLSX g2 !! p) as Hmiddle.
  { intros p Hp. apply saved_other. intros ([q x] & -> & Hin)%list_elem_of_fmap. apply Hp. rewrite <- Hs2.
    exact (range_entries _ _ Hr Hin). }
  assert (forall styles, File_Styles f = Some styles -> File_XLSX g5 !! "xl/styles.xml" = Some (saved_styles styles)) as Hstyles.
  { intros styles Est. assert (File_Styles g4 = Some styles) as E4s.
    { rewrite (stored_rest File_Styles _ _ _ (fun _ _ => eq_refl) H4). unfold g3. rewrite saved_keep by done.
      rewrite <- Est. exact (stored_rest File_Styles _ _ _ (fun _ _ => eq_refl) Hg). }
    revert E5. unfold styleSheetWriter, mbind, gom_bind, get. rewrite E4s. intros [= <-]. apply lookup_insert_eq. }
  exists g5. split.
  - assert (write_parts f = (write_first_parts;; workBookWriter;; workBookRelsWriter;; workSheetWriter;; workSheetRelsWriter;; styleSheetWriter) f) as ->.
    { unfold write_parts, write_first_parts. by repeat (rewrite bind_assoc; apply bind_next; intros [] ?). }
    rewrite (bind_Ret _ _ _ _ _ Eg).
    assert (workBookWriter g = Ret (tt, g1)) as E1.
    { unfold workBookWriter, mbind, gom_bind, get. by rewrite (stored_rest File_WorkBook _ _ _ (fun _ _ => eq_refl) Hg), Hwb. }
    assert (workBookRelsWriter g1 = Ret (tt, g2)) as E2.
    { unfold workBookRelsWriter, mbind, gom_bind, get.
      change (File_WorkBookRels g1) with (File_WorkBookRels g). by rewrite (stored_rest File_WorkBookRels _ _ _ (fun _ _ => eq_refl) Hg), Hrels. }
    assert (workSheetWriter g2 = Ret (tt, g3)) as E3 by exact (forM_saved l g2).
    assert (workSheetRelsWriter g3 = Ret (tt, g4)) as E4' by exact E4.
    by rewrite (bind_Ret _ _ _ _ _ E1), (bind_Ret _ _ _ _ _ E2), (bind_Ret _ _ _ _ _ E3), (bind_Ret _ _ _ _ _ E4').
  - assert (forall p, is_Some (File_WorkSheetRels f !! p) -> is_Some (File_Sheet f !! p) -> False) as Hdisj.
    { intros p H1%Hsrels H2%Hsheets. by destruct (prefix_common _ _ _ H1 H2). }
    split.
    + rewrite Hlast, Hmiddle; [| |by intros Hp%Hsrels|discriminate]; [|by intros Hp%Hsheets].
      cbn. rewrite lookup_insert_ne by done. apply lookup_insert_eq.
    + rewrite Hlast, Hmiddle; [| |by intros Hp%Hsrels|discriminate]; [|by intros Hp%Hsheets]. apply lookup_insert_eq.
    + exact Hstyles.
    + intros p xlsx Hp. rewrite Hlast; [|intros Hx; apply (Hdisj p); [done|by eexists]|intros ->; by pose proof (Hsheets _ (mk_is_Some _ _ Hp))].
      apply saved_entry; unfold l; rewrite (Hr _ _ _ _ (File_Sheet g2)); [apply NoDup_fst_map_to_list|].
      apply elem_of_map_to_list. by rewrite Hs2.
    + intros p Hp. rewrite Hlast, Hmiddle.
      * cbn. rewrite !lookup_insert_ne; [by apply (stored_part _ _ _ _ Hg)|intros <-; apply Hp, wp_fixed..];
          [do 2 right; by left|do 3 right; by left].
      * intros Hx. by apply Hp, wp_sheets.
      * intros Hx. by apply Hp, wp_sheet_rels.
      * intros ->. apply Hp, wp_fixed. do 4 right. by left.
Qed.

(** *** Opening *)

(** What a part decodes to. *)
Definition decoded_part {A} `{XmlCodec A} (parts : gmap string string) (path : string) : A :=
  xml_Unmarshal (namespaceStrictToTransitional (default "" (parts !! path))).

Definition map_of_names (m : gmap Z string) : gmap string string :=
  foldl (fun maps p => <[p.2 := sheet_path p.1]> maps) ∅ (range_map m).

Record file_opened (f : File) (parts : gmap string string) (content : xlsxWorkbook) (rels : xlsxWorkbookRels) : Prop :=
  mk_file_opened {
    fo_parts : File_XLSX f = parts;
    fo_sheets : File_Sheet f = ∅;
    fo_checked : File_checked f = ∅;
    fo_workbook : wb_loaded f content rels;
    fo_styles : File_Styles f = Some (decoded_part parts "xl/styles.xml");
    fo_strings : File_SharedStrings f = None;
    fo_names : File_sheetMap f = map_of_names (sheet_map_of (wb_sheets content) (xlsxWorkbookRels_Relationships rels))
  }.

Lemma open_parts_ok parts n :
  exists f, open_parts parts n = Ret f /\ File_SheetCount f = n /\
    file_opened f parts (decoded_part parts "xl/workbook.xml") (decoded_part parts "xl/_rels/workbook.xml.rels").
Proof.
  eexists. split; [reflexivity|]. split; [done|]. split; done.
Qed.

(** The sheets of a consistent workbook are found by their names. *)
Lemma map_of_names_consistent sheets rels idx v :
  range_map_ok -> wb_consistent sheets rels idx -> v ∈ sheets ->
  map_of_names (sheet_map_of sheets rels) !! xlsxSheet_Name v = Some (sheet_path (idx v)).
Proof.
  intros Hr Hwb Hv. unfold map_of_names.
  set (l := (fun p : Z * string => (p.2, sheet_path p.1)) <$> range_map (sheet_map_of sheets rels)).
  assert (forall m, foldl (fun maps (p : Z * string) => <[p.2 := sheet_path p.1]> maps) m (range_map (sheet_map_of sheets rels)) =
    foldl (fun m p => <[p.1 := p.2]> m) m l) as ->.
  { unfold l. induction (range_map _) as [|p k IH]; intros m; [done|]. apply IH. }
  assert (forall n name, (n, name) ∈ range_map (sheet_map_of sheets rels) <-> sheet_map_of sheets rels !! n = Some name) as Hrange.
  { intros n name. rewrite (Hr _ _ _ _ (sheet_map_of sheets rels)). apply elem_of_map_to_list. }
  apply foldl_insert_lookup; unfold l.
  - apply list_elem_of_fmap. exists (idx v, xlsxSheet_Name v). split; [done|]. apply Hrange.
    by apply (sheet_map_of_consistent _ _ _ Hwb).
  - intros w ([n name] & [= Ename ->] & Hn%Hrange)%list_elem_of_fmap. cbn [fst].
    apply foldl_insert_from in Hn as [Hn|Hn]; [done|].
    apply (sheet_map_entries_consistent _ _ _ Hwb) in Hn as (v' & Hv' & [= -> ->]).
    assert (v' = v) as ->; [|done]. by apply (NoDup_fmap_inj xlsxSheet_Name sheets); [apply (wc_names _ _ _ Hwb)|..].
Qed.

(** Names of files in an archive: relative paths with slashes between their
    elements, none of which is empty or leads elsewhere, not too long for the
    format. *)
Definition entry_name (name : string) : bool :=
  (len name <=? 65535) && str_forallb (fun c => negb (Ascii.eqb c "\") && negb (Ascii.eqb c ":")) name &&
  forallb (fun element => negb (bool_decide (element ∈ [""; "."; ".."]))) (strings_Split name "/").

Definition total_bytes (l : list (string * string)) : Z := foldr (fun e n => len e.1 + len e.2 + n) 0 l.

(** Entries of an archive whose size is far below what a buffer can hold. *)
Definition entries_fit (l : list (string * string)) : Prop :=
  Forall (fun e => entry_name e.1 = true) l /\ total_bytes l <= 2 ^ 48.

(** The calls that write them. *)
Definition zip_calls (l : list (string * string)) : list zip_call :=
  concat ((fun e => [ZipCreate e.1; ZipWrite e.2]) <$> l).

(** The documented behaviour of the zip format for files: a writer over a buffer
    accepts them, and the archive that is closed is read back when the names
    differ. *)
Record zip_ok : Prop := mk_zip_ok {
  zip_accepts l calls : entries_fit l -> calls `prefix_of` zip_calls l ++ [ZipClose] -> (zip_Writer calls).2 = None;
  zip_reads l : entries_fit l -> NoDup l.*1 -> zip_NewReader (zip_Writer (zip_calls l ++ [ZipClose])).1 = ok l
}.

Lemma zip_calls_app l k : zip_calls (l ++ k) = zip_calls l ++ zip_calls k.
Proof. unfold zip_calls. by rewrite fmap_app, concat_app. Qed.

Lemma write_entries_from l k :
  (forall calls, calls `prefix_of` zip_calls (k ++ l) ++ [ZipClose] -> (zip_Writer calls).2 = None) ->
  write_entries (zip_calls k) l = ok (zip_Writer (zip_calls (k ++ l) ++ [ZipClose])).1.
Proof.
  revert k. induction l as [|[n c] l IH]; intros k Hok.
  - rewrite app_nil_r in *. cbn [write_entries]. specialize (Hok _ (reflexivity _)). by destruct (zip_Writer _) as [b o]; cbn in *; subst.
  - cbn [write_entries]. pose proof (zip_calls_app k ((n, c) :: l)) as Ek.
    change (zip_calls ((n, c) :: l)) with ([ZipCreate n] ++ [ZipWrite c] ++ zip_calls l) in Ek.
    pose proof (Hok (zip_calls k ++ [ZipCreate n])) as H1. pose proof (Hok ((zip_calls k ++ [ZipCreate n]) ++ [ZipWrite c])) as H2.
    rewrite Ek in H1, H2. rewrite <- !app_assoc in H1, H2.
    specialize (H1 ltac:(by eexists; rewrite <- !app_assoc)). specialize (H2 ltac:(by eexists; rewrite <- !app_assoc)).
    rewrite <- app_assoc. cbn [app] in *.
    destruct (zip_Writer (zip_calls k ++ [ZipCreate n])) as [b1 o1], (zip_Writer (zip_calls k ++ [ZipCreate n; ZipWrite c])) as [b2 o2].
    cbn in H1, H2. subst o1 o2. specialize (IH (k ++ [(n, c)])).
    rewrite <- app_assoc in IH. pose proof (zip_calls_app k [(n, c)] : _ = zip_calls k ++ [ZipCreate n; ZipWrite c]) as Es.
    rewrite <- Es. by apply IH.
Qed.

Lemma write_entries_ok l :
  zip_ok -> entries_fit l -> write_entries [] l = ok (zip_Writer (zip_calls l ++ [ZipClose])).1.
Proof. intros Hzip Hl. apply (write_entries_from l []). intros calls. by apply (zip_accepts Hzip). Qed.

(** The first call that fails ends the writing with its error. *)
Lemma write_entries_fails l calls buf err :
  write_entries calls l = (buf, Some err) ->
  exists k, k `prefix_of` zip_calls l ++ [ZipClose] /\ zip_Writer (calls ++ k) = (buf, Some err).
Proof.
  revert calls. induction l as [|[n c] l IH]; intros calls; cbn [write_entries].
  - intros E. by exists [ZipClose].
  - change (zip_calls ((n, c) :: l) ++ [ZipClose]) with ([ZipCreate n; ZipWrite c] ++ (zip_calls l ++ [ZipClose])).
    destruct (zip_Writer (calls ++ [ZipCreate n])) as [b1 [e1|]] eqn:E1.
    { intros [= <- <-]. exists [ZipCreate n]. split; [by eexists (ZipWrite c :: _)|done]. }
    destruct (zip_Writer ((calls ++ [ZipCreate n]) ++ [ZipWrite c])) as [b2 [e2|]] eqn:E2.
    { intros [= <- <-]. exists [ZipCreate n; ZipWrite c]. rewrite <- app_assoc in E2. split; [by eexists|done]. }
    intros (k & [k' Hk] & E)%IH. exists ([ZipCreate n; ZipWrite c] ++ k). rewrite Hk. split; [by exists k'; rewrite app_assoc|].
    rewrite <- E. f_equal. by rewrite <- !app_assoc.
Qed.

Lemma total_bytes_perm l k : l ≡ₚ k -> total_bytes l = total_bytes k.
Proof. unfold total_bytes. induction 1; cbn in *; lia. Qed.

Lemma entries_fit_perm l k : l ≡ₚ k -> entries_fit l -> entries_fit k.
Proof. intros Hl [H1 H2]. split; [by rewrite <- Hl|by rewrite <- (total_bytes_perm _ _ Hl)]. Qed.

Lemma entries_fit_length l : entries_fit l -> zlen l <= maxInt.
Proof.
  intros [Hl Hb]. assert (zlen l <= total_bytes l); [|unfold maxInt; lia]. clear Hb. unfold zlen, total_bytes.
  induction Hl as [|[n c] l Hn Hl IH]; [done|]. cbn in *. assert (1 <= len n); [|unfold len in *; lia].
  destruct n; [done|]. unfold len. cbn. lia.
Qed.

Lemma foldl_entries (m : gmap string string) l : l ≡ₚ map_to_list m -> foldl (fun m p => <[p.1 := p.2]> m) ∅ l = m.
Proof.
  intros Hl. apply map_eq. intros k. destruct (foldl _ ∅ l !! k) as [v|] eqn:E.
  - apply foldl_insert_from in E as [E|E]; [done|]. symmetry. apply elem_of_map_to_list. by rewrite <- Hl.
  - destruct (m !! k) as [v|] eqn:Em; [|done]. exfalso.
    apply elem_of_map_to_list in Em. rewrite <- Hl in Em.
    rewrite (foldl_insert_lookup l ∅ k v) in E; [done|done|]. intros w Hw. rewrite Hl in Em, Hw.
    apply elem_of_map_to_list in Em, Hw. congruence.
Qed.

(** The parts of a file with the number of its sheets. *)
Lemma ReadZipReader_ok (m : gmap string string) l :
  l ≡ₚ map_to_list m -> zlen l <= maxInt -> ReadZipReader l = Ret (ok (m, sheet_entries l)).
Proof.
  intros Hl Hlen. unfold ReadZipReader. rewrite read_entries_ok by lia. by rewrite (foldl_entries m).
Qed.

Lemma OpenReader_saved (m : gmap string string) :
  range_map_ok -> zip_ok -> entries_fit (map_to_list m) ->
  exists buf f, write_entries [] (range_map m) = ok buf /\ OpenReader (buf, None) = Ret (ok (Some f)) /\
    File_SheetCount f = sheet_entries (map_to_list m) /\
    file_opened f m (decoded_part m "xl/workbook.xml") (decoded_part m "xl/_rels/workbook.xml.rels").
Proof.
  intros Hr Hzip Hfit. pose proof (Hr _ _ _ _ m) as Hl. pose proof (entries_fit_perm _ _ (symmetry Hl) Hfit) as Hfit'.
  destruct (open_parts_ok m (sheet_entries (map_to_list m))) as (f & E & Hn & Hf). eexists _, f. split; [by apply write_entries_ok|]. split; [|done].
  unfold OpenReader. rewrite (zip_reads Hzip) by (done || (rewrite Hl; apply NoDup_fst_map_to_list)).
  rewrite (ReadZipReader_ok m) by (done || by apply entries_fit_length).
  rewrite (sheet_entries_perm _ _ Hl).
  unfold mbind, outcome_bind. by rewrite E.
Qed.

(** *** The texts of cells *)

(** What the XML codec has to return for the workbook to be the same. *)
Record codec_keeps (content : xlsxWorkbook) (rels : xlsxWorkbookRels) (styles : xlsxStyleSheet) (xlsx : xlsxWorksheet) : Prop :=
  mk_codec_keeps {
    ck_workbook : xml_Unmarshal (namespaceStrictToTransitional (saved_workbook content)) = content;
    ck_rels : xml_Unmarshal (namespaceStrictToTransitional (saved_rels rels)) = rels;
    ck_styles : xml_Unmarshal (namespaceStrictToTransitional (saved_styles styles)) = styles;
    ck_sheet : xml_Unmarshal (namespaceStrictToTransitional (saved_content (trimmed_sheet xlsx))) = trimmed_sheet xlsx
  }.

Lemma decoded_part_at {A} `{XmlCodec A} parts path content (a : A) :
  parts !! path = Some content -> xml_Unmarshal (namespaceStrictToTransitional content) = a -> decoded_part parts path = a.
Proof. unfold decoded_part. by intros -> <-. Qed.

(** The shared strings of an archive; they are read and never written. *)
Definition strings_of (parts : gmap string string) : xlsxSST :=
  let ss := default "" (parts !! "xl/sharedStrings.xml") in
  let ss := if len ss =? 0 then default "" (parts !! "xl/SharedStrings.xml") else ss in
  xml_Unmarshal (namespaceStrictToTransitional ss).

Definition strings_read (f : File) : Prop :=
  ~ written_part f "xl/sharedStrings.xml" /\ ~ written_part f "xl/SharedStrings.xml" /\
  (File_SharedStrings f = None \/ File_SharedStrings f = Some (strings_of (File_XLSX f))).

(** The shared strings and the styles that the text of a cell depends on. *)
Definition reads (f : File) (d : xlsxSST) (styles : xlsxStyleSheet) : Prop :=
  exists f', sharedStringsReader f = Ret (d, f') /\ File_Styles f' = Some styles.

Lemma reads_ok f parts styles :
  File_Styles f = Some styles ->
  File_SharedStrings f = Some (strings_of parts) \/ (File_SharedStrings f = None /\ strings_of (File_XLSX f) = strings_of parts) ->
  reads f (strings_of parts) styles.
Proof.
  intros Hst Hss. unfold reads, sharedStringsReader, cached_reader, mbind, gom_bind, get.
  destruct Hss as [Hss|[Hss <-]]; rewrite Hss; [by exists f|].
  unfold readXML, gets, strings_of. cbv zeta.
  change (match File_XLSX f !! "xl/sharedStrings.xml" with Some content => content | None => "" end)
    with (default "" (File_XLSX f !! "xl/sharedStrings.xml")).
  destruct (len _ =? 0); cbn; eexists; split; [reflexivity|done|reflexivity|done].
Qed.

Lemma formattedValue_same f g styles s v :
  File_Styles f = Some styles -> File_Styles g = Some styles -> returned (formattedValue s v f) = returned (formattedValue s v g).
Proof.
  intros Hf Hg. unfold formattedValue. destruct (s =? 0); [done|].
  unfold stylesReader, cached_reader, mbind, gom_bind, get. rewrite Hf, Hg. cbn.
  destruct (xlsxStyleSheet_CellXfs styles); [|done]. unfold lift. by destruct (list_get _ s).
Qed.

Lemma getValueFrom_same f g styles c d :
  File_Styles f = Some styles -> File_Styles g = Some styles -> returned (getValueFrom c d f) = returned (getValueFrom c d g).
Proof.
  intros Hf Hg.
  assert (forall s v, returned ((t ← formattedValue s v; mret (ok t)) f) = returned ((t ← formattedValue s v; mret (ok t)) g)) as Ht.
  { intros s v. pose proof (formattedValue_same f g styles s v Hf Hg) as E. unfold mbind, gom_bind.
    destruct (formattedValue s v f) as [[]|], (formattedValue s v g) as [[]|]; try done. by injection E as ->. }
  unfold getValueFrom. repeat case_bool_decide; [|done| |done].
  - unfold mbind at 1 3, gom_bind at 1 3, lift. destruct (list_get _ _) as [si|]; [|done]. by destruct (xlsxSI_R si).
  - by destruct (xlsxC_IS c).
Qed.

Lemma cell_value_same f g d styles c : reads f d styles -> reads g d styles -> returned (cell_value c f) = returned (cell_value c g).
Proof.
  intros (f' & Ef & Hf) (g' & Eg & Hg). unfold cell_value. rewrite (bind_Ret _ _ _ _ _ Ef), (bind_Ret _ _ _ _ _ Eg).
  pose proof (getValueFrom_same f' g' styles c d Hf Hg) as E. unfold mbind, gom_bind.
  destruct (getValueFrom c d f') as [[]|], (getValueFrom c d g') as [[]|]; try done. by injection E as ->.
Qed.

(** A cell without content has no text. *)
Lemma cell_value_empty f c d styles :
  reads f d styles -> xlsxC_T c = "" -> xlsxC_S c = 0 -> xlsxC_V c = "" -> returned (cell_value c f) = Some (ok "").
Proof.
  intros (f' & Ef & Hf) Ht Hs Hv. unfold cell_value. rewrite (bind_Ret _ _ _ _ _ Ef). unfold getValueFrom, formattedValue.
  by rewrite Ht, Hs, Hv.
Qed.

(** The same grid up to blank cells. *)
Definition same_grid (xlsx xlsx' : xlsxWorksheet) : Prop :=
  length (sheet_rows xlsx') = length (sheet_rows xlsx) /\
  forall col row, coord col -> coord row ->
    match sheet_cell xlsx col row with
    | Some c => if cell_used c then sheet_cell xlsx' col row = Some c else cell_blank xlsx' col row
    | None => cell_blank xlsx' col row
    end.

Lemma same_grid_text f g d styles xlsx xlsx' col row :
  same_grid xlsx xlsx' -> coord col -> coord row -> reads f d styles -> reads g d styles ->
  returned (match sheet_cell xlsx' col row with Some c => cell_value c g | None => Ret (ok "", g) end) =
  returned (match sheet_cell xlsx col row with Some c => cell_value c f | None => Ret (ok "", f) end).
Proof.
  intros [_ Hg] Hcol Hrow Hf Hr. specialize (Hg col row Hcol Hrow).
  assert (cell_blank xlsx' col row ->
    returned (match sheet_cell xlsx' col row with Some c => cell_value c g | None => Ret (ok "", g) end) = Some (ok "")) as Hblank.
  { intros Hb. destruct (sheet_cell xlsx' col row) as [c|] eqn:E; [|done]. rewrite (Hb c E). by eapply cell_value_empty. }
  destruct (sheet_cell xlsx col row) as [c|]; [|by apply Hblank].
  destruct (cell_used c) eqn:Eu; [rewrite Hg; by eapply cell_value_same|].
  rewrite Hblank by done. symmetry. unfold cell_used in Eu.
  apply orb_false_iff in Eu as [Eu Et%bool_decide_eq_false]. apply orb_false_iff in Eu as [Eu _].
  apply orb_false_iff in Eu as [Es%negb_false_iff Ev%bool_decide_eq_false]. apply Z.eqb_eq in Es. apply dec_stable in Et, Ev.
  by eapply cell_value_empty.
Qed.

(** The worksheets differ in their rows only. *)
Definition same_but_data (xlsx xlsx' : xlsxWorksheet) : Prop :=
  xlsx' <| xlsxWorksheet_SheetData := gozero |> = xlsx <| xlsxWorksheet_SheetData := gozero |>.

Lemma same_but_data_parser xlsx xlsx' axis :
  same_but_data xlsx xlsx' -> mergeCellsParser xlsx' axis = mergeCellsParser xlsx axis.
Proof. intros E. unfold mergeCellsParser. by rewrite (f_equal merge_areas E : merge_areas xlsx' = merge_areas xlsx). Qed.

Lemma checkRow_rest xlsx Row xlsx' :
  checkRow (checkSheet (set_rows Row xlsx)) = Ret (ok xlsx') ->
  same_but_data xlsx xlsx'.
Proof. unfold checkRow. destruct (checkRow_loop 0 _) as [[Row' o]|]; cbn; [|done]. by intros [= <- _]. Qed.

(** Saving and opening, for the whole file. *)
Lemma saved_reopened f content rels styles :
  range_map_ok -> zip_ok -> wb_loaded f content rels -> File_Styles f = Some styles -> parts_apart f ->
  xml_Unmarshal (namespaceStrictToTransitional (saved_workbook content)) = content ->
  xml_Unmarshal (namespaceStrictToTransitional (saved_rels rels)) = rels ->
  xml_Unmarshal (namespaceStrictToTransitional (saved_styles styles)) = styles ->
  exists r f1, WriteToBuffer f = Ret (r, f1) /\ r = write_entries [] (range_map (File_XLSX f1)) /\ file_saved f f1 content rels /\
    (entries_fit (map_to_list (File_XLSX f1)) ->
     exists b f2, r = ok b /\ OpenReader (b, None) = Ret (ok (Some f2)) /\ file_opened f2 (File_XLSX f1) content rels /\
       File_Styles f2 = Some styles).
Proof.
  intros Hr Hzip Hwb Hst Happart Cwb Crels Cst.
  destruct (write_parts_ok f content rels Hr Hwb Happart) as (f1 & E1 & Hsaved). pose proof Hsaved as [Swb Srels Sstyles _ _].
  exists (write_entries [] (range_map (File_XLSX f1))), f1. split; [unfold WriteToBuffer; by rewrite (bind_Ret _ _ _ _ _ E1)|].
  split; [done|]. split; [done|]. intros Hfit. destruct (OpenReader_saved (File_XLSX f1) Hr Hzip Hfit) as (b & f2 & Eb & E2 & _ & Hf2).
  rewrite (decoded_part_at _ _ _ content Swb Cwb), (decoded_part_at _ _ _ rels Srels Crels) in Hf2.
  exists b, f2. split; [done|]. split; [done|]. split; [done|]. rewrite (fo_styles _ _ _ _ Hf2).
  by rewrite (decoded_part_at _ _ _ styles (Sstyles _ Hst) Cst).
Qed.

(** Reading one sheet of the opened file. *)
Record sheet_reopened (f : File) (styles : xlsxStyleSheet) (f3 : File) (name path : string) (xlsx xlsx' : xlsxWorksheet) : Prop :=
  mk_sheet_reopened {
    so_loaded : loaded f3 name path xlsx';
    so_wf : wf_sheet xlsx';
    so_grid : same_grid xlsx xlsx';
    so_rest : same_but_data xlsx xlsx';
    so_height : zlen (sheet_rows xlsx') = zlen (sheet_rows xlsx);
    so_props : same_props xlsx xlsx';
    so_before : reads f (strings_of (File_XLSX f)) styles;
    so_after : reads f3 (strings_of (File_XLSX f)) styles
  }.

Lemma reopened_sheet f f1 f2 content rels styles idx v xlsx :
  range_map_ok -> file_saved f f1 content rels -> file_opened f2 (File_XLSX f1) content rels ->
  File_Styles f = Some styles -> File_Styles f2 = Some styles -> strings_read f ->
  wb_consistent (wb_sheets content) (xlsxWorkbookRels_Relationships rels) idx -> v ∈ wb_sheets content ->
  trimSheetName (xlsxSheet_Name v) = xlsxSheet_Name v -> File_Sheet f !! sheet_path (idx v) = Some xlsx -> wf_sheet xlsx ->
  xml_Unmarshal (namespaceStrictToTransitional (saved_content (trimmed_sheet xlsx))) = trimmed_sheet xlsx ->
  exists f3 xlsx', workSheetReader (xlsxSheet_Name v) f2 = Ret (ok (Some (sheet_path (idx v))), f3) /\
    sheet_reopened f styles f3 (xlsxSheet_Name v) (sheet_path (idx v)) xlsx xlsx'.
Proof.
  intros Hr [_ _ _ Ssheets Sothers] [Fparts Fsheets Fchecked _ _ Fstrings Fnames] Hst Fstyles (Hs1 & Hs2 & Hss) Hcons Hv Htrim Hs Hwf Csheet.
  destruct (trim_reload xlsx Hwf) as (xlsx' & Er & Hwf' & Hlen & Hcells).
  set (f3 := with_sheet (f2 <| File_checked ::= <[sheet_path (idx v) := true]> |>) (sheet_path (idx v)) xlsx').
  assert (File_sheetMap f2 !! xlsxSheet_Name v = Some (sheet_path (idx v))) as Hm.
  { rewrite Fnames. by apply map_of_names_consistent. }
  pose proof (checkRow_rest _ _ _ Er) as Ha. exists f3, xlsx'. split.
  - unfold workSheetReader, mbind, gom_bind, get, readXML, gets. rewrite Htrim, Hm, Fsheets, lookup_empty, Fparts.
    rewrite (Ssheets _ _ Hs), Csheet, Fchecked, lookup_empty. unfold lift, trimmed_sheet. by rewrite Er.
  - split; [split; [by rewrite Htrim|apply lookup_insert_eq]|done|by split|done|by unfold zlen; rewrite Hlen|by apply trim_reload_props| |].
    + apply reads_ok; [done|]. destruct Hss as [Hss|Hss]; [by right|by left].
    + apply reads_ok; [done|]. right. split; [done|]. change (File_XLSX f3) with (File_XLSX f2). unfold strings_of.
      by rewrite Fparts, !Sothers.
Qed.

(** The value of a cell is read as before. *)
Lemma reopened_value f styles f3 name path xlsx xlsx' axis col row :
  loaded f name path xlsx -> wf_sheet xlsx -> sheet_reopened f styles f3 name path xlsx xlsx' ->
  coord col -> coord row -> mergeCellsParser xlsx axis = ok (cell_name col row) ->
  returned (GetCellValue name axis f3) = returned (GetCellValue name axis f).
Proof.
  intros Hl Hwf [Hl3 Hwf' Hgrid Hrest _ _ Hb Haf] Hcol Hrow Haxis.
  assert (mergeCellsParser xlsx' axis = ok (cell_name col row)) as Haxis' by by rewrite (same_but_data_parser xlsx).
  rewrite (GetCellValue_dense f3 _ _ xlsx' axis col row Hl3 Hwf' Hcol Hrow Haxis').
  rewrite (GetCellValue_dense f _ _ xlsx axis col row Hl Hwf Hcol Hrow Haxis).
  by apply (same_grid_text f f3 (strings_of (File_XLSX f)) styles).
Qed.

End archive_lemmas.

(** ** Properties *)

Section archive_properties.
Context `{GoEnv}.

(** Saving and opening one sheet. A workbook in memory, with a sheet in memory for an entry
    of its consistent list, is written to a buffer and, when its parts fit in an
    archive, without an error and opened again. When the XML codec returns the workbook, its relationships, the styles and the trimmed
    sheet that it was given, the file that is opened has the same workbook; the
    sheet is found by its name at the same part, it has the same grid, and
    [GetCellValue] shows the same text for every cell. Parts that no structure in
    memory belongs to are carried over byte by byte. *)
Theorem WriteToBuffer_OpenReader f content rels styles idx v xlsx :
  range_map_ok -> zip_ok -> wb_loaded f content rels -> File_Styles f = Some styles -> parts_apart f -> strings_read f ->
  wb_consistent (wb_sheets content) (xlsxWorkbookRels_Relationships rels) idx -> v ∈ wb_sheets content ->
  trimSheetName (xlsxSheet_Name v) = xlsxSheet_Name v ->
  File_sheetMap f !! xlsxSheet_Name v = Some (sheet_path (idx v)) -> File_Sheet f !! sheet_path (idx v) = Some xlsx ->
  wf_sheet xlsx -> codec_keeps content rels styles xlsx ->
  exists r f1, WriteToBuffer f = Ret (r, f1) /\
    (entries_fit (map_to_list (File_XLSX f1)) ->
     exists b f2 f3 xlsx', r = ok b /\ OpenReader (b, None) = Ret (ok (Some f2)) /\ wb_loaded f2 content rels /\
      workSheetReader (xlsxSheet_Name v) f2 = Ret (ok (Some (sheet_path (idx v))), f3) /\
      loaded f3 (xlsxSheet_Name v) (sheet_path (idx v)) xlsx' /\ wf_sheet xlsx' /\ same_grid xlsx xlsx' /\
      (forall axis col row, coord col -> coord row -> mergeCellsParser xlsx axis = ok (cell_name col row) ->
        returned (GetCellValue (xlsxSheet_Name v) axis f3) = returned (GetCellValue (xlsxSheet_Name v) axis f)) /\
      (forall p, ~ written_part f p -> File_XLSX f2 !! p = File_XLSX f !! p)).
Proof.
  intros Hr Hzip Hwb Hst Happart Hss Hcons Hv Htrim Hmap Hs Hwf [Cwb Crels Cst Csheet].
  destruct (saved_reopened f content rels styles) as (r & f1 & E1 & _ & Hsaved & Hopen); [done..|].
  exists r, f1. split; [done|]. intros Hfit. destruct (Hopen Hfit) as (b & f2 & Eb & E2 & Hf2 & Est2).
  destruct (reopened_sheet f f1 f2 content rels styles idx v xlsx) as (f3 & xlsx' & E3 & Hre); [done..|].
  exists b, f2, f3, xlsx'. split; [done|]. split; [done|]. split; [apply (fo_workbook _ _ _ _ Hf2)|]. split; [done|]. split; [apply Hre|].
  split; [apply Hre|]. split; [apply Hre|]. split.
  - intros axis col row. eapply reopened_value; [|done|exact Hre]. split; [by rewrite Htrim|done].
  - intros p Hp. rewrite (fo_parts _ _ _ _ Hf2). by apply (fs_others _ _ _ _ Hsaved).
Qed.

(** Saving without a path is an error and changes nothing: not even the parts
    are written. *)
Theorem Save_without_path os f :
  File_Path f = "" -> Save os f = Ret (Some (ErrText "no path defined for file, consider File.WriteTo or File.Write"), f).
Proof. intros E. unfold Save, mbind, gom_bind, get. by rewrite E. Qed.

End archive_properties.

(** ** A concrete archive

    A format that is read back: the bits of an encoding of the entries. *)
Fixpoint bits (p : positive) : string :=
  match p with
  | xH => EmptyString
  | xO q => String "0"%char (bits q)
  | xI q => String "1"%char (bits q)
  end.
Fixpoint unbits (s : string) : positive :=
  match s with
  | EmptyString => xH
  | String c s' => if Ascii.eqb c "0"%char then xO (unbits s') else xI (unbits s')
  end.

Lemma unbits_bits p : unbits (bits p) = p.
Proof. induction p as [p IH|p IH|]; cbn; [by rewrite IH..|done]. Qed.

Fixpoint written_entries (calls : list zip_call) : list (string * string) :=
  match calls with
  | ZipCreate n :: ZipWrite c :: calls => (n, c) :: written_entries calls
  | _ => []
  end.

Lemma written_zip_calls l : written_entries (zip_calls l ++ [ZipClose]) = l.
Proof. induction l as [|[n c] l IH]; [done|]. change (zip_calls ((n, c) :: l)) with ([ZipCreate n; ZipWrite c] ++ zip_calls l). cbn. by rewrite IH. Qed.

Definition archive_env : GoEnv :=
  example_env <| (@env_workbook) := {| xml_Unmarshal _ := example_workbook; xml_Marshal _ := "" |} |>
    <| (@env_rels) := {| xml_Unmarshal _ := example_rels; xml_Marshal _ := "" |} |>
    <| (@env_worksheet) := {| xml_Unmarshal _ := trimmed_sheet example_sheet; xml_Marshal _ := "" |} |>
    <| (@zip_Writer) := fun calls => (bits (encode (written_entries calls)),
         match last calls with
         | Some (ZipCreate n) => if entry_name n then None else Some (ErrText "zip: bad file name")
         | _ => None
         end) |>
    <| (@zip_NewReader) := fun s =>
         match decode (unbits s) with Some l => ok l | None => ([], Some (ErrText "zip: not a valid zip file")) end |>.

Lemma archive_zip_ok : zip_ok (H := archive_env).
Proof.
  split.
  - intros l calls [Hl _] [k Hk]. cbn. destruct (last calls) as [[n| |]|] eqn:E; [|done..]. apply last_Some in E as [calls' ->].
    assert (ZipCreate n ∈ zip_calls l ++ [ZipClose]) as Hin by (rewrite Hk; set_solver).
    apply elem_of_app in Hin as [Hin|[=]%list_elem_of_singleton]. unfold zip_calls in Hin.
    apply list_elem_of_In, in_concat in Hin as (cs & Hcs & Hin). apply list_elem_of_In, list_elem_of_fmap in Hcs as ([n' c] & -> & He).
    apply list_elem_of_In in Hin. rewrite Forall_forall in Hl. specialize (Hl _ He). cbn in Hl.
    apply elem_of_cons in Hin as [[= ->]|[=]%list_elem_of_singleton]. by rewrite Hl.
  - intros l _ _. cbn. by rewrite written_zip_calls, unbits_bits, decode_encode.
Qed.

Lemma archive_env_range : range_map_ok (H := archive_env).
Proof. intros K V D C m. done. Qed.

Definition archive_file : File :=
  example_workbook_file <| File_Sheet := {["xl/worksheets/sheet1.xml" := example_sheet]} |> <| File_Styles := Some gozero |>.

Lemma archive_apart : parts_apart archive_file.
Proof.
  split; intros p [x Hp]; [|discriminate Hp]. cbn in Hp. apply lookup_singleton_Some in Hp as [<- _]. reflexivity.
Qed.

Lemma archive_strings : strings_read (H := archive_env) archive_file.
Proof.
  assert (forall p, written_part archive_file p ->
    p ∈ ["xl/calcChain.xml"; "[Content_Types].xml"; "xl/workbook.xml"; "xl/_rels/workbook.xml.rels"; "xl/styles.xml";
         "xl/worksheets/sheet1.xml"]) as Hw.
  { intros p [Hp|[x Hx]|[x Hx]|[x Hx]|[x Hx]|[x Hx]|[x Hx]]; [|discriminate Hx..| |discriminate Hx].
    - repeat (apply elem_of_cons in Hp as [->|Hp]; [repeat ((by left) || right)|]). by apply elem_of_nil in Hp.
    - cbn in Hx. apply lookup_singleton_Some in Hx as [<- _]. do 5 right. by left. }
  split_and!; [intros Hp%Hw..|by left]; by repeat (apply elem_of_cons in Hp as [Hp|Hp]; [discriminate Hp|]); apply elem_of_nil in Hp.
Qed.

Lemma WriteToBuffer_OpenReader_witness :
  exists r f1, WriteToBuffer (H := archive_env) archive_file = Ret (r, f1) /\
    (entries_fit (map_to_list (File_XLSX f1)) ->
     exists b f2 f3 xlsx', r = ok b /\ OpenReader (H := archive_env) (b, None) = Ret (ok (Some f2)) /\
       workSheetReader (H := archive_env) "Sheet1" f2 = Ret (ok (Some "xl/worksheets/sheet1.xml"), f3) /\
       loaded f3 "Sheet1" "xl/worksheets/sheet1.xml" xlsx' /\
       returned (GetCellValue (H := archive_env) "Sheet1" "b2" f3) =
         returned (GetCellValue (H := archive_env) "Sheet1" "b2" archive_file)).
Proof.
  destruct (@WriteToBuffer_OpenReader archive_env archive_file example_workbook example_rels gozero example_idx
    (mk_xlsxSheet "Sheet1" 1 "rId1" "") example_sheet archive_env_range archive_zip_ok (conj eq_refl eq_refl) eq_refl
    archive_apart archive_strings example_consistent (list_elem_of_here _ _) eq_refl eq_refl eq_refl example_sheet_wf)
    as (r & f1 & E1 & Ho); [split; reflexivity|].
  exists r, f1. split; [exact E1|]. intros Hfit.
  destruct (Ho Hfit) as (b & f2 & f3 & x & Eb & E2 & _ & E3 & Hl & _ & _ & Hc & _).
  exists b, f2, f3, x. split; [exact Eb|]. split; [exact E2|]. split; [exact E3|]. split; [exact Hl|].
  apply (Hc "b2" 2 2); [unfold maxInt; lia..|reflexivity].
Defined.

Lemma Save_without_path_witness :
  Save (H := example_env) (fun _ => (fun _ => (0, None), None)) (example_file gozero) =
    Ret (Some (ErrText "no path defined for file, consider File.WriteTo or File.Write"), example_file gozero).
Proof. apply (@Save_without_path example_env). reflexivity. Defined.
