(* ===== verification/Styles.v ===== *)
(** Styles ([styles.go]): the cell formats of the style sheet and the style of a
    cell and of an area. *)
From stdpp Require Import sorting.
From S2P Require Export Cell.

(** ** Settings *)

Section styles.
Context `{GoEnv}.

Definition parseFormatStyleSet (style : string) : formatStyle * option goerr :=
  json_Unmarshal style (gozero <| formatStyle_DecimalPlaces := 2 |>).

Definition getPaletteColor (color : string) : string := "FF" +:+ strings_Replace (strings_ToUpper color) "#" "".

Definition paletteColor (color : string) : xlsxColor := gozero <| xlsxColor_RGB := getPaletteColor color |>.

Definition fontUnderlineType : list (string * string) := [("single", "single"); ("double", "double")].

(** The settings are given through a pointer: the defaults the function fills in
    are written to them. *)
Definition setFont (fs : formatStyle) : outcome (font * formatStyle) :=
  match formatStyle_Font fs with
  | None => Panic
  | Some ft =>
      let ft := if formatFont_Size ft <? 1 then ft <| formatFont_Size := 11 |> else ft in
      let ft := if bool_decide (formatFont_Color ft = "") then ft <| formatFont_Color := "#000000" |> else ft in
      let fs := fs <| formatStyle_Font := Some ft |> in
      let f := (gozero : font) <| font_B := formatFont_Bold ft |> <| font_I := formatFont_Italic ft |>
        <| font_Sz := Some (mk_attrValInt (formatFont_Size ft)) |>
        <| font_Color := Some (paletteColor (formatFont_Color ft)) |>
        <| font_Name := Some (mk_attrValString (formatFont_Family ft)) |>
        <| font_Family := Some (mk_attrValInt 2) |> in
      let f := if bool_decide (formatFont_Family ft = "")
               then f <| font_Name := Some (mk_attrValString "Calibri") |>
                      <| font_Scheme := Some (mk_attrValString "minor") |>
               else f in
      let f := match table_get (formatFont_Underline ft) fontUnderlineType with
               | Some val => f <| font_U := Some (mk_attrValString val) |>
               | None => f
               end in
      Ret (f, fs)
  end.

(** ** Number formats *)

(** A format code is appended under the identifier after the one of the last
    entry, or starts the table under [first]. *)
Definition append_numFmt (style : xlsxStyleSheet) (fc : string) (first : Z) : outcome (Z * xlsxStyleSheet) :=
  match xlsxStyleSheet_NumFmts style with
  | Some nfs =>
      nf ← list_get (xlsxNumFmts_NumFmt nfs) (zlen (xlsxNumFmts_NumFmt nfs) - 1);
      let numFmtID := iadd (xlsxNumFmt_NumFmtID nf) 1 in
      Ret (numFmtID, style <| xlsxStyleSheet_NumFmts := Some (mk_xlsxNumFmts (iadd (xlsxNumFmts_Count nfs) 1)
        (xlsxNumFmts_NumFmt nfs ++ [mk_xlsxNumFmt numFmtID fc])) |>)
  | None => Ret (first, style <| xlsxStyleSheet_NumFmts := Some (mk_xlsxNumFmts 1 [mk_xlsxNumFmt first fc]) |>)
  end.

Definition setCustomNumFmt (style : xlsxStyleSheet) (code : string) : outcome (Z * xlsxStyleSheet) :=
  append_numFmt style code 164.

Definition setLangNumFmt (style : xlsxStyleSheet) (fs : formatStyle) : outcome (Z * xlsxStyleSheet) :=
  match table_get (formatStyle_Lang fs) langNumFmt with
  | None => Ret (0, style)
  | Some numFmts =>
      match table_get (formatStyle_NumFmt fs) numFmts with
      | None => Ret (0, style)
      | Some fc => append_numFmt style fc (formatStyle_NumFmt fs)
      end
  end.

Definition decimal_places (fs : formatStyle) : Z :=
  if (formatStyle_DecimalPlaces fs <? 0) || (30 <? formatStyle_DecimalPlaces fs) then 2 else formatStyle_DecimalPlaces fs.

(** The code of a currency format with the decimal places and the red negative
    section. *)
Definition currency_code (fs : formatStyle) (fc : string) : string :=
  let dp := "0." +:+ zeros (Z.to_nat (decimal_places fs)) in
  let fc := strings_Replace fc "0.00" dp in
  if formatStyle_NegRed fs then fc +:+ ";[Red]" +:+ fc else fc.

(** The decimal places are corrected in the settings too. *)
Definition setNumFmt (style : xlsxStyleSheet) (fs : formatStyle) : outcome (Z * xlsxStyleSheet * formatStyle) :=
  let fs := fs <| formatStyle_DecimalPlaces := decimal_places fs |> in
  p ← match formatStyle_CustomNumFmt fs with
      | Some code => setCustomNumFmt style code
      | None =>
          match table_get (formatStyle_NumFmt fs) builtInNumFmt with
          | Some _ => Ret (formatStyle_NumFmt fs, style)
          | None =>
              match table_get (formatStyle_NumFmt fs) currencyNumFmt with
              | None => setLangNumFmt style fs
              | Some fc => append_numFmt style (currency_code fs fc) 164
              end
          end
      end;
  Ret (p, fs).

(** ** Fills, borders, alignment and protection *)

Definition patterns : list string :=
  ["none"; "solid"; "mediumGray"; "darkGray"; "lightGray"; "darkHorizontal"; "darkVertical"; "darkDown"; "darkUp";
   "darkGrid"; "darkTrellis"; "lightHorizontal"; "lightVertical"; "lightDown"; "lightUp"; "lightGrid";
   "lightTrellis"; "gray125"; "gray0625"].

Definition variants : list float64 := [f64_of_int 90; f64_of_int 0; f64_of_int 45; f64_of_int 135].

Definition half : float64 := f64_const 1 2.

Definition gradient_shading (shading : Z) : outcome xlsxGradientFill :=
  let gradient : xlsxGradientFill := gozero in
  if (0 <=? shading) && (shading <=? 3) then
    degree ← list_get variants shading; Ret (gradient <| xlsxGradientFill_Degree := degree |>)
  else if shading =? 4 then Ret (gradient <| xlsxGradientFill_Type := "path" |>)
  else if shading =? 5 then
    Ret (gradient <| xlsxGradientFill_Type := "path" |> <| xlsxGradientFill_Bottom := half |>
           <| xlsxGradientFill_Left := half |> <| xlsxGradientFill_Right := half |> <| xlsxGradientFill_Top := half |>)
  else Ret gradient.

Definition gradient_stop (index : nat) (color : string) : xlsxGradientFillStop :=
  mk_xlsxGradientFillStop (f64_of_int (Z.of_nat index)) (paletteColor color).

(** A fill of another type is nil; a gradient without two colours and a pattern
    out of range or without colour give the empty fill. *)
Definition setFills (fs : formatStyle) (fg : bool) : outcome (option xlsxFill) :=
  let fill := formatStyle_Fill fs in
  let Color := formatStyle_Fill_T_Color fill in
  if bool_decide (formatStyle_Fill_T_Type fill = "gradient") then
    if negb (zlen Color =? 2) then Ret (Some gozero)
    else
      gradient ← gradient_shading (formatStyle_Fill_T_Shading fill);
      Ret (Some (gozero <| xlsxFill_GradientFill :=
        Some (gradient <| xlsxGradientFill_Stop := imap gradient_stop Color |>) |>))
  else if bool_decide (formatStyle_Fill_T_Type fill = "pattern") then
    if (18 <? formatStyle_Fill_T_Pattern fill) || (formatStyle_Fill_T_Pattern fill <? 0) then Ret (Some gozero)
    else if zlen Color <? 1 then Ret (Some gozero)
    else
      patternType ← list_get patterns (formatStyle_Fill_T_Pattern fill);
      color ← list_get Color 0;
      let pattern := (gozero : xlsxPatternFill) <| xlsxPatternFill_PatternType := patternType |> in
      let pattern := if fg then pattern <| xlsxPatternFill_FgColor := paletteColor color |>
                     else pattern <| xlsxPatternFill_BgColor := paletteColor color |> in
      Ret (Some (gozero <| xlsxFill_PatternFill := Some pattern |>))
  else Ret None.

Definition setAlignment (fs : formatStyle) : xlsxAlignment :=
  match formatStyle_Alignment fs with
  | Some a =>
      mk_xlsxAlignment (formatStyle_Alignment_T_Horizontal a) (formatStyle_Alignment_T_Indent a)
        (formatStyle_Alignment_T_JustifyLastLine a) (formatStyle_Alignment_T_ReadingOrder a)
        (formatStyle_Alignment_T_RelativeIndent a) (formatStyle_Alignment_T_ShrinkToFit a)
        (formatStyle_Alignment_T_TextRotation a) (formatStyle_Alignment_T_Vertical a)
        (formatStyle_Alignment_T_WrapText a)
  | None => gozero
  end.

Definition setProtection (fs : formatStyle) : xlsxProtection :=
  match formatStyle_Protection fs with
  | Some p => mk_xlsxProtection (formatStyle_Protection_T_Hidden p) (formatStyle_Protection_T_Locked p)
  | None => gozero
  end.

Definition border_styles : list string :=
  ["none"; "thin"; "medium"; "dashed"; "dotted"; "thick"; "double"; "hair"; "mediumDashed"; "dashDot";
   "mediumDashDot"; "dashDotDot"; "mediumDashDotDot"; "slantDashDot"].

(** One entry of the border settings; its style is in range when it is used. *)
Definition add_border (border : xlsxBorder) (v : formatStyle_Border_T) : outcome xlsxBorder :=
  if (0 <=? formatStyle_Border_T_Style v) && (formatStyle_Border_T_Style v <? 14) then
    style ← list_get border_styles (formatStyle_Border_T_Style v);
    let t := formatStyle_Border_T_Type v in
    let line := mk_xlsxLine style (Some (paletteColor (formatStyle_Border_T_Color v))) in
    Ret (if bool_decide (t = "left") then border <| xlsxBorder_Left := line |>
         else if bool_decide (t = "right") then border <| xlsxBorder_Right := line |>
         else if bool_decide (t = "top") then border <| xlsxBorder_Top := line |>
         else if bool_decide (t = "bottom") then border <| xlsxBorder_Bottom := line |>
         else if bool_decide (t = "diagonalUp")
         then border <| xlsxBorder_Diagonal := line |> <| xlsxBorder_DiagonalUp := true |>
         else if bool_decide (t = "diagonalDown")
         then border <| xlsxBorder_Diagonal := line |> <| xlsxBorder_DiagonalDown := true |>
         else border)
  else Ret border.

Definition setBorders (fs : formatStyle) : outcome xlsxBorder := foldM add_border gozero (formatStyle_Border fs).

(** ** Cell formats *)

(** An entry is appended to one of the tables of the style sheet, which panics
    when the table is missing; the index is what the counter says. *)
Definition add_font (s : xlsxStyleSheet) (text : string) : outcome (Z * xlsxStyleSheet) :=
  match xlsxStyleSheet_Fonts s with
  | None => Panic
  | Some t =>
      let t := t <| xlsxFonts_Count ::= fun n => iadd n 1 |> <| xlsxFonts_Font ::= fun l => l ++ [mk_xlsxFont text] |> in
      Ret (isub (xlsxFonts_Count t) 1, s <| xlsxStyleSheet_Fonts := Some t |>)
  end.

Definition add_border_entry (s : xlsxStyleSheet) (border : xlsxBorder) : outcome (Z * xlsxStyleSheet) :=
  match xlsxStyleSheet_Borders s with
  | None => Panic
  | Some t =>
      let t := t <| xlsxBorders_Count ::= fun n => iadd n 1 |> <| xlsxBorders_Border ::= fun l => l ++ [border] |> in
      Ret (isub (xlsxBorders_Count t) 1, s <| xlsxStyleSheet_Borders := Some t |>)
  end.

Definition add_fill (s : xlsxStyleSheet) (fill : xlsxFill) : outcome (Z * xlsxStyleSheet) :=
  match xlsxStyleSheet_Fills s with
  | None => Panic
  | Some t =>
      let t := t <| xlsxFills_Count ::= fun n => iadd n 1 |> <| xlsxFills_Fill ::= fun l => l ++ [fill] |> in
      Ret (isub (xlsxFills_Count t) 1, s <| xlsxStyleSheet_Fills := Some t |>)
  end.

Definition setCellXfs (style : xlsxStyleSheet) (fontID numFmtID fillID borderID : Z)
    (applyAlignment applyProtection : bool) (alignment : xlsxAlignment) (protection : xlsxProtection)
    : outcome (Z * xlsxStyleSheet) :=
  let xf := (gozero : xlsxXf) <| xlsxXf_FontID := fontID |> <| xlsxXf_ApplyFont := negb (fontID =? 0) |>
    <| xlsxXf_NumFmtID := numFmtID |> <| xlsxXf_ApplyNumberFormat := negb (numFmtID =? 0) |>
    <| xlsxXf_FillID := fillID |> <| xlsxXf_BorderID := borderID |>
    <| xlsxXf_Alignment := Some alignment |> <| xlsxXf_ApplyAlignment := applyAlignment |> in
  let xf := if applyProtection
            then xf <| xlsxXf_ApplyProtection := applyProtection |> <| xlsxXf_Protection := Some protection |>
            else xf in
  let xf := xf <| xlsxXf_XfID := Some 0 |> in
  match xlsxStyleSheet_CellXfs style with
  | None => Panic
  | Some t =>
      let t := t <| xlsxCellXfs_Count ::= fun n => iadd n 1 |> <| xlsxCellXfs_Xf ::= fun l => l ++ [xf] |> in
      Ret (isub (xlsxCellXfs_Count t) 1, style <| xlsxStyleSheet_CellXfs := Some t |>)
  end.

(** The font as it is stored: the content of its element. *)
Definition font_text (f : font) : outcome string :=
  let text := xml_Marshal f in str_slice text 6 (len text - 7).

Definition new_style_font (s : xlsxStyleSheet) (fs : formatStyle) : outcome (Z * xlsxStyleSheet * formatStyle) :=
  match formatStyle_Font fs with
  | None => Ret (0, s, fs)
  | Some _ => '(f, fs) ← setFont fs; text ← font_text f; p ← add_font s text; Ret (p, fs)
  end.

(** The part of [NewStyle] that changes the style sheet. *)
Definition new_style (s : xlsxStyleSheet) (fs : formatStyle) : outcome (Z * xlsxStyleSheet) :=
  '(numFmtID, s, fs) ← setNumFmt s fs;
  '(fontID, s, fs) ← new_style_font s fs;
  border ← setBorders fs;
  '(borderID, s) ← add_border_entry s border;
  fill ← setFills fs true;
  '(fillID, s) ← match fill with Some fill => add_fill s fill | None => Ret (0, s) end;
  setCellXfs s fontID numFmtID fillID borderID (bool_decide (is_Some (formatStyle_Alignment fs)))
    (bool_decide (is_Some (formatStyle_Protection fs))) (setAlignment fs) (setProtection fs).

Definition NewStyle (style : string) : M (Z * option goerr) :=
  s ← stylesReader;
  let! fs := mret (parseFormatStyleSet style) orelse 0 in
  p ← lift (new_style s fs);
  set_styles p.2;; mret (ok p.1).

Definition dxf_of (fs : formatStyle) : outcome dxf :=
  fill ← setFills fs false;
  border ← setBorders fs;
  let d := (gozero : dxf) <| dxf_Fill := fill |> <| dxf_Alignment := Some (setAlignment fs) |>
             <| dxf_Border := Some border |> in
  match formatStyle_Font fs with
  | Some _ => p ← setFont fs; Ret (d <| dxf_Font := Some p.1 |>)
  | None => Ret d
  end.

Definition dxf_text (d : dxf) : outcome string := let text := xml_Marshal d in str_slice text 5 (len text - 6).

Definition new_conditional_style (s : xlsxStyleSheet) (fs : formatStyle) : outcome (Z * xlsxStyleSheet) :=
  d ← dxf_of fs;
  text ← dxf_text d;
  let t := default gozero (xlsxStyleSheet_Dxfs s) in
  let t := t <| xlsxDxfs_Count ::= fun n => iadd n 1 |> <| xlsxDxfs_Dxfs ::= fun l => l ++ [mk_xlsxDxf text] |> in
  Ret (isub (xlsxDxfs_Count t) 1, s <| xlsxStyleSheet_Dxfs := Some t |>).

Definition NewConditionalStyle (style : string) : M (Z * option goerr) :=
  s ← stylesReader;
  let! fs := mret (parseFormatStyleSet style) orelse 0 in
  p ← lift (new_conditional_style s fs);
  set_styles p.2;; mret (ok p.1).

(** ** The style of a cell *)

Definition GetCellStyle (sheet axis : string) : M (Z * option goerr) :=
  let! p := workSheetReader sheet orelse 0 in
  let! (cellData, col, _) := prepareCell p axis orelse 0 in
  c ← load_cell cellData;
  xlsx ← deref p;
  mret (ok (prepareCellStyle xlsx col (xlsxC_S c))).

Definition set_style (styleID row : Z) (xlsx : xlsxWorksheet) (col : Z) : outcome xlsxWorksheet :=
  c ← cell_get xlsx col row; cell_set col row (c <| xlsxC_S := styleID |>) xlsx.

Definition set_style_row (styleID hcol vcol : Z) (xlsx : xlsxWorksheet) (row : Z) : outcome xlsxWorksheet :=
  foldM (set_style styleID row) xlsx (seqZ hcol (vcol - hcol + 1)).

Definition set_style_area (styleID hcol hrow vcol vrow : Z) (xlsx : xlsxWorksheet) : outcome xlsxWorksheet :=
  xlsx ← prepareSheetXML xlsx vcol vrow;
  xlsx ← makeContiguousColumns xlsx hrow vrow vcol;
  foldM (set_style_row styleID hcol vcol) xlsx (seqZ hrow (vrow - hrow + 1)).

Definition SetCellStyle (sheet hcell vcell : string) (styleID : Z) : M (option goerr) :=
  let! (hcol, hrow) := mret (CellNameToCoordinates hcell) in
  let! (vcol, vrow) := mret (CellNameToCoordinates vcell) in
  let '(vcol, hcol) := if vcol <? hcol then (hcol, vcol) else (vcol, hcol) in
  let '(vrow, hrow) := if vrow <? hrow then (hrow, vrow) else (vrow, hrow) in
  let! p := workSheetReader sheet in
  update_o p (set_style_area styleID hcol hrow vcol vrow);;
  mret None.

End styles.

(** ** Lemmas on loops over the grid *)

Lemma foldM_app {A B} (g : B -> A -> outcome B) b l k : foldM g b (l ++ k) = (b' ← foldM g b l; foldM g b' k).
Proof. revert b. induction l as [|x l IH]; intros b; [done|]. cbn. destruct (g b x); [apply IH|done]. Qed.

(** The rest of a worksheet: everything but the grid. *)
Definition same_rest (xlsx xlsx' : xlsxWorksheet) : Prop := xlsx' = set_rows (sheet_rows xlsx') xlsx.

Lemma same_rest_refl xlsx : same_rest xlsx xlsx.
Proof. unfold same_rest, set_rows, sheet_rows, field_update. by destruct xlsx as [?????? []]. Qed.

Lemma same_rest_trans x y z : same_rest x y -> same_rest y z -> same_rest x z.
Proof. unfold same_rest. intros -> ->. done. Qed.

Lemma same_rest_parser `{GoEnv} x y axis : same_rest x y -> mergeCellsParser y axis = mergeCellsParser x axis.
Proof. intros ->. done. Qed.

Lemma same_rest_style x y col st : same_rest x y -> prepareCellStyle y col st = prepareCellStyle x col st.
Proof. intros ->. done. Qed.

(** Filling several rows up to a column. *)
Lemma prepare_rows (rows : list Z) col xlsx :
  wf_sheet xlsx -> Forall (fun r => coord r) rows -> col <= maxInt ->
  exists xlsx', foldM (fun x r => prepareSheetXML x col r) xlsx rows = Ret xlsx' /\ wf_sheet xlsx' /\
    same_rest xlsx xlsx' /\ zlen (sheet_rows xlsx) <= zlen (sheet_rows xlsx') /\
    (forall b, zlen (sheet_rows xlsx) <= b -> Forall (fun r => r <= b) rows -> zlen (sheet_rows xlsx') <= b) /\
    (forall r, r ∈ rows -> r <= zlen (sheet_rows xlsx')) /\
    (forall c r, coord c -> coord r -> sheet_cell xlsx' c r =
       match sheet_cell xlsx c r with
       | Some x => Some x
       | None => if decide (r ∈ rows /\ c <= col) then Some (freshCell (cell_name c r)) else None
       end).
Proof.
  intros Hwf Hrows Hcol. revert xlsx Hwf. induction Hrows as [|r0 rows Hr0 _ IH]; intros xlsx Hwf.
  - exists xlsx. split_and!; try done; [apply same_rest_refl|by intros ? ?%elem_of_nil|].
    intros c r _ _. destruct (sheet_cell xlsx c r); [done|]. case_decide as E; [|done].
    by destruct E as [?%elem_of_nil _].
  - destruct (prepareSheetXML_ok xlsx col r0 (proj1 Hr0)) as (rd & _ & E).
    pose proof (prepareSheetXML_wf _ _ _ _ Hwf Hr0 Hcol E) as Hwf1.
    pose proof (prepareSheetXML_set_rows _ _ _ _ (proj1 Hr0) E) as Hsr.
    set (x1 := set_rows _ xlsx) in *.
    assert (zlen (sheet_rows x1) = Z.max (zlen (sheet_rows xlsx)) r0) as Hlen.
    { subst x1. change (sheet_rows (set_rows ?R xlsx)) with R. by rewrite zlen_insert, with_rows_len. }
    destruct (IH x1 Hwf1) as (x' & E' & Hwf' & Hrest & Hle & Hmax & Hin & Hcells). exists x'. cbn [foldM]. rewrite E.
    split_and!; [done|done|exact (same_rest_trans _ _ _ Hsr Hrest)|lia|..].
    + intros b Hb [Hrb Hrows']%Forall_cons. apply Hmax; [lia|done].
    + intros r [->|Hr]%elem_of_cons; [lia|by apply Hin].
    + intros c r Hc Hr. rewrite Hcells by done.
      rewrite (prepareSheetXML_cells _ _ _ _ c r (proj1 Hr0) (proj1 Hc) (proj1 Hr) E).
      destruct (sheet_cell xlsx c r); [done|].
      destruct (decide (r = r0 /\ c <= col)) as [[-> Hle']|Hn].
      * rewrite decide_True by (split; [by apply list_elem_of_here|done]). done.
      * apply decide_ext. rewrite elem_of_cons. tauto.
Qed.

(** [makeContiguousColumns] fills rows that exist already. *)
Lemma makeContiguous_prepare (rows : list Z) col xlsx :
  Forall (fun r => 1 <= r <= zlen (sheet_rows xlsx)) rows ->
  (Row ← makeContiguous_loop rows col (sheet_rows xlsx); Ret (set_rows Row xlsx)) =
  foldM (fun x r => prepareSheetXML x col r) xlsx rows.
Proof.
  intros Hrows. revert xlsx Hrows. induction rows as [|r rows IH]; intros xlsx Hrows.
  - cbn. f_equal. symmetry. apply same_rest_refl.
  - apply Forall_cons_1 in Hrows as [Hr Hrows]. cbn [makeContiguous_loop foldM].
    assert (prepareSheetXML xlsx col r = (rowData ← list_get (sheet_rows xlsx) (r - 1);
      Row' ← list_set (sheet_rows xlsx) (r - 1) (fillColumns rowData col r); Ret (set_rows Row' xlsx))) as ->.
    { unfold prepareSheetXML. rewrite (seqZ_nil _ (r - _)) by lia. cbn. by rewrite app_nil_r. }
    destruct (lookup_lt_is_Some_2 (sheet_rows xlsx) (Z.to_nat (r - 1))) as [rd Hrd]; [unfold zlen in *; lia|].
    rewrite (list_get_in _ _ rd) by (done || lia). cbn [mbind outcome_bind].
    rewrite list_set_in by lia. cbn [mbind outcome_bind].
    rewrite <- IH; [done|]. eapply Forall_impl; [exact Hrows|]. cbn. intros x Hx. by rewrite zlen_insert.
Qed.

(** Two grids that differ in the styles of some positions. *)
Definition styled (styleID : Z) (P : Z -> Z -> bool) (x y : xlsxWorksheet) : Prop :=
  same_rest x y /\ (wf_sheet x -> wf_sheet y) /\ zlen (sheet_rows y) = zlen (sheet_rows x) /\
  forall c r, 1 <= c -> 1 <= r -> sheet_cell y c r =
    (fun d : xlsxC => if P c r then d <| xlsxC_S := styleID |> else d) <$> sheet_cell x c r.

Lemma styled_ext styleID P Q x y : (forall c r, P c r = Q c r) -> styled styleID P x y -> styled styleID Q x y.
Proof. intros E (H1 & H2 & Hz & H3). split_and!; [done..|]. intros c r Hc Hr. rewrite H3, E by done. done. Qed.

Lemma styled_refl styleID x : styled styleID (fun _ _ => false) x x.
Proof. split_and!; [apply same_rest_refl|done|done|]. intros c r _ _. by destruct (sheet_cell x c r). Qed.

Lemma styled_trans styleID P Q x y z :
  styled styleID P x y -> styled styleID Q y z -> styled styleID (fun c r => P c r || Q c r) x z.
Proof.
  intros (H1 & H2 & Hz & H3) (G1 & G2 & Gz & G3). split_and!; [by eapply same_rest_trans|tauto|congruence|].
  intros c r Hc Hr. rewrite G3, H3 by done. destruct (sheet_cell x c r); [|done]. cbn.
  by destruct (P c r), (Q c r).
Qed.

Lemma styled_present styleID P x y c r :
  1 <= c -> 1 <= r -> styled styleID P x y -> is_Some (sheet_cell x c r) -> is_Some (sheet_cell y c r).
Proof. intros Hc Hr (_ & _ & _ & H3) Hx. rewrite H3 by done. by apply fmap_is_Some. Qed.

Lemma set_style_styled styleID row xlsx col :
  1 <= col -> 1 <= row -> is_Some (sheet_cell xlsx col row) ->
  exists y, set_style styleID row xlsx col = Ret y /\ styled styleID (fun c r => (c =? col) && (r =? row)) xlsx y.
Proof.
  intros Hc Hr [c0 E]. unfold set_style. rewrite (cell_get_sheet_cell _ _ _ c0) by done. cbn [mbind outcome_bind].
  destruct (cell_set_ok xlsx col row c0 (c0 <| xlsxC_S := styleID |>) Hc Hr E) as (y & Ey & Hcells & Hwf & Hrest & Hlen).
  exists y. split; [done|]. split_and!; [done|by intros; apply Hwf|done|].
  intros c r Hc' Hr'. rewrite Hcells by done.
  destruct (decide (c = col /\ r = row)) as [[-> ->]|Hne]; [by rewrite E, !Z.eqb_refl|].
  assert ((c =? col) && (r =? row) = false) as -> by lia. by destruct (sheet_cell xlsx c r).
Qed.

(** A loop each of whose turns styles some positions. *)
Lemma styled_loop styleID (g : xlsxWorksheet -> Z -> outcome xlsxWorksheet) (P : Z -> Z -> Z -> bool)
    (present : Z -> xlsxWorksheet -> Prop) (l : list Z) x :
  (forall i x, i ∈ l -> present i x -> exists y, g x i = Ret y /\ styled styleID (P i) x y) ->
  (forall i j x y, i ∈ l -> present i x -> styled styleID (P j) x y -> present i y) ->
  (forall i, i ∈ l -> present i x) ->
  exists y, foldM g x l = Ret y /\ styled styleID (fun c r => existsb (fun i => P i c r) l) x y.
Proof.
  revert x. induction l as [|i l IH]; intros x Hg Hp Hx.
  - exists x. split; [done|]. apply styled_refl.
  - destruct (Hg i x) as (y & E & Hy); [by apply list_elem_of_here|apply Hx, list_elem_of_here|].
    destruct (IH y) as (z & Ez & Hz).
    + intros j x' Hj. apply Hg. by apply list_elem_of_further.
    + intros j k x' y' Hj. apply Hp. by apply list_elem_of_further.
    + intros j Hj. eapply Hp; [by apply list_elem_of_further|apply Hx; by apply list_elem_of_further|exact Hy].
    + exists z. cbn [foldM]. rewrite E. split; [done|]. exact (styled_trans _ _ _ _ _ _ Hy Hz).
Qed.

Lemma existsb_seqZ (p : Z -> bool) (a n : Z) (v : Z) :
  (forall i, p i = (v =? i)) -> existsb p (seqZ a n) = (a <=? v) && (v <? a + n).
Proof.
  intros E. apply eq_iff_eq_true. rewrite existsb_exists, andb_true_iff, Z.leb_le, Z.ltb_lt. setoid_rewrite E.
  split.
  - intros (i & Hi & Hv). apply list_elem_of_In, elem_of_seqZ in Hi. lia.
  - intros Hv. exists v. split; [|lia]. apply list_elem_of_In, elem_of_seqZ. lia.
Qed.

Lemma set_style_row_styled styleID hcol vcol xlsx row :
  1 <= hcol -> 1 <= row -> (forall c, hcol <= c <= vcol -> is_Some (sheet_cell xlsx c row)) ->
  exists y, set_style_row styleID hcol vcol xlsx row = Ret y /\
    styled styleID (fun c r => (r =? row) && ((hcol <=? c) && (c <=? vcol))) xlsx y.
Proof.
  intros Hc Hr Hp. unfold set_style_row.
  destruct (styled_loop styleID (set_style styleID row) (fun i c r => (c =? i) && (r =? row))
    (fun i x => is_Some (sheet_cell x i row)) (seqZ hcol (vcol - hcol + 1)) xlsx) as (y & E & Hy).
  - intros i x Hi%elem_of_seqZ Hx. apply set_style_styled; [lia..|done].
  - intros i j x y Hi%elem_of_seqZ Hx Hy. eapply styled_present; [| |exact Hy|done]; lia.
  - intros i Hi%elem_of_seqZ. apply Hp. lia.
  - exists y. split; [done|]. eapply styled_ext; [|exact Hy]. intros c r. cbn beta.
    destruct (r =? row) eqn:Er.
    + rewrite (existsb_seqZ _ _ _ c) by (intros; by rewrite andb_true_r). cbn. lia.
    + apply not_true_is_false. rewrite existsb_exists. intros (i & _ & Hi). lia.
Qed.

(** The whole area. *)
Lemma set_style_area_ok styleID hcol hrow vcol vrow xlsx :
  wf_sheet xlsx -> 1 <= hcol <= vcol -> 1 <= hrow <= vrow -> coord vcol -> coord vrow ->
  exists y, set_style_area styleID hcol hrow vcol vrow xlsx = Ret y /\ wf_sheet y /\ same_rest xlsx y /\
    zlen (sheet_rows y) = Z.max (zlen (sheet_rows xlsx)) vrow /\
    forall c r, coord c -> coord r -> sheet_cell y c r =
      (let o := match sheet_cell xlsx c r with
                | Some x => Some x
                | None => if decide (hrow <= r <= vrow /\ c <= vcol) then Some (freshCell (cell_name c r)) else None
                end in
       if in_rect (mk_rect hcol hrow vcol vrow) c r then (fun d : xlsxC => d <| xlsxC_S := styleID |>) <$> o else o).
Proof.
  intros Hwf Hh Hr Hvc Hvr. unfold set_style_area.
  destruct (prepare_rows (vrow :: seqZ hrow (vrow - hrow)) vcol xlsx Hwf) as (x1 & E1 & Hwf1 & Hrest1 & Hle1 & Hmax1 & Hin & Hcells1).
  { apply Forall_forall. intros r [->|Hi%elem_of_seqZ]%elem_of_cons; lia. }
  { lia. }
  cbn [foldM] in E1. destruct (prepareSheetXML xlsx vcol vrow) as [x0|] eqn:E0; [|done]. cbn [mbind outcome_bind] in *.
  assert (makeContiguousColumns x0 hrow vrow vcol = Ret x1) as ->.
  { unfold makeContiguousColumns. rewrite makeContiguous_prepare; [done|].
    destruct (prepareSheetXML_ok xlsx vcol vrow (proj1 Hvr)) as (rd & _ & E). rewrite E in E0. injection E0 as <-.
    apply Forall_forall. intros r Hi%elem_of_seqZ. change (sheet_rows (set_rows ?R xlsx)) with R.
    rewrite zlen_insert, with_rows_len. lia. }
  cbn [mbind outcome_bind].
  assert (forall r, r ∈ vrow :: seqZ hrow (vrow - hrow) <-> hrow <= r <= vrow) as Hmem.
  { intros r. rewrite elem_of_cons, elem_of_seqZ. lia. }
  assert (forall c r, hcol <= c <= vcol -> hrow <= r <= vrow -> is_Some (sheet_cell x1 c r)) as Hpres.
  { intros c r Hc' Hr'. rewrite Hcells1 by lia. destruct (sheet_cell xlsx c r); [done|].
    rewrite decide_True by (rewrite Hmem; lia). done. }
  destruct (styled_loop styleID (set_style_row styleID hcol vcol) (fun i c r => (r =? i) && ((hcol <=? c) && (c <=? vcol)))
    (fun i x => forall c, hcol <= c <= vcol -> is_Some (sheet_cell x c i)) (seqZ hrow (vrow - hrow + 1)) x1)
    as (y & Ey & Hrest & Hwfy & Hlen & Hcells).
  - intros i x Hi%elem_of_seqZ Hx. apply set_style_row_styled; [lia..|done].
  - intros i j x y Hi%elem_of_seqZ Hx Hy c Hc'. eapply styled_present; [| |exact Hy|by apply Hx]; lia.
  - intros i Hi%elem_of_seqZ c Hc'. apply Hpres; lia.
  - exists y. split_and!; [done|by apply Hwfy|by eapply same_rest_trans| |].
    { pose proof (Hin vrow ltac:(by left)). pose proof (Hmax1 (Z.max (zlen (sheet_rows xlsx)) vrow)) as Hb. rewrite Hlen.
      assert (zlen (sheet_rows x1) <= Z.max (zlen (sheet_rows xlsx)) vrow); [|lia].
      apply Hb; [lia|]. apply Forall_forall. intros r Hr'%Hmem. lia. }
    intros c r Hc' Hr'. rewrite Hcells, Hcells1 by lia. cbn zeta.
    rewrite (decide_ext _ (hrow <= r <= vrow /\ c <= vcol)) by (by rewrite Hmem).
    assert (existsb (fun i => (r =? i) && ((hcol <=? c) && (c <=? vcol))) (seqZ hrow (vrow - hrow + 1)) =
      in_rect (mk_rect hcol hrow vcol vrow) c r) as ->.
    { unfold in_rect. cbn [rect_c1 rect_c2 rect_r1 rect_r2]. destruct ((hcol <=? c) && (c <=? vcol)) eqn:Ec.
      - rewrite (existsb_seqZ _ _ _ r) by (intros; by rewrite andb_true_r). lia.
      - apply not_true_is_false. rewrite existsb_exists. intros (i & _ & Hi). lia. }
    destruct (in_rect _ c r); [done|]. by destruct (match _ with Some _ => _ | None => _ end).
Qed.

(** The rows keep their attributes. *)
Lemma foldM_props {A} (g : xlsxWorksheet -> A -> outcome xlsxWorksheet) l x y :
  (forall i x y, i ∈ l -> g x i = Ret y -> same_props x y) -> foldM g x l = Ret y -> same_props x y.
Proof.
  revert x. induction l as [|i l IH]; intros x Hg; cbn [foldM]; [by intros [= <-]|].
  destruct (g x i) as [z|] eqn:Ez; cbn; [|done]. intros E.
  etrans; [by eapply Hg; [left|]|]. apply IH; [|done]. intros j x' y' Hj. apply Hg. by right.
Qed.

Lemma set_style_area_props styleID hcol hrow vcol vrow xlsx y :
  1 <= hrow <= vrow -> set_style_area styleID hcol hrow vcol vrow xlsx = Ret y -> same_props xlsx y.
Proof.
  intros Hr. unfold set_style_area. destruct (prepareSheetXML xlsx vcol vrow) as [x1|] eqn:E1; cbn; [|done].
  destruct (makeContiguousColumns x1 hrow vrow vcol) as [x2|] eqn:E2; cbn; [|done]. intros E3.
  assert (same_props xlsx x1) as H1 by (apply (prepareSheetXML_props _ vcol vrow); [lia|done]).
  assert (same_props x2 y) as H3.
  { eapply foldM_props, E3. intros row x x' _. unfold set_style_row. apply foldM_props. intros col z z' _. unfold set_style.
    destruct (cell_get z col row); cbn; [|done]. apply cell_set_props. }
  etrans; [exact H1|]. etrans; [|exact H3]. unfold makeContiguousColumns in E2. rewrite makeContiguous_prepare in E2.
  - eapply foldM_props, E2. intros row x x' Hrow%elem_of_seqZ. apply prepareSheetXML_props. lia.
  - destruct (prepareSheetXML_ok xlsx vcol vrow) as (rd & _ & E); [lia|]. rewrite E in E1. injection E1 as <-.
    apply Forall_forall. intros r Hi%elem_of_seqZ. change (sheet_rows (set_rows ?R xlsx)) with R.
    rewrite zlen_insert, with_rows_len. lia.
Qed.

(** ** Properties of the style of a cell *)

Section cell_style.
Context `{GoEnv}.

Lemma GetCellStyle_ok f sheet path xlsx axis col row :
  loaded f sheet path xlsx -> resolves xlsx axis col row ->
  exists xlsx', prepareSheetXML xlsx col row = Ret xlsx' /\ GetCellStyle sheet axis f =
    Ret (ok (prepareCellStyle xlsx col (from_option xlsxC_S 0 (sheet_cell xlsx col row))), with_sheet f path xlsx').
Proof.
  intros Hl Hres. pose proof Hres as (Hc & Hr & _).
  destruct (prepareCell_ok _ _ _ _ _ _ _ Hl Hres) as (xlsx1 & E1 & (c & Ec) & E2).
  exists xlsx1. split; [done|]. unfold GetCellStyle.
  rewrite (bind_Ret _ _ _ _ _ (workSheetReader_loaded _ _ _ _ Hl)). cbn [fst snd].
  rewrite (bind_Ret _ _ _ _ _ E2). cbn [fst snd].
  assert (File_Sheet (with_sheet f path xlsx1) !! path = Some xlsx1) as Hp by (cbn; apply lookup_insert_eq).
  unfold load_cell, mbind, gom_bind. cbn [cell_sheet cell_col cell_row].
  rewrite !(deref_loaded _ _ _ Hp). unfold lift. rewrite (cell_get_sheet_cell _ _ _ c) by (done || lia).
  rewrite !(deref_loaded _ _ _ Hp).
  rewrite (same_rest_style xlsx xlsx1) by exact (prepareSheetXML_set_rows _ _ _ _ (proj1 Hr) E1).
  pose proof (prepareSheetXML_cells _ _ _ _ col row (proj1 Hr) (proj1 Hc) (proj1 Hr) E1) as Hcell.
  rewrite Ec in Hcell. destruct (sheet_cell xlsx col row) as [d|]; [by injection Hcell as ->|].
  case_decide; [by injection Hcell as ->|done].
Qed.

(** The style a cell shows: its own, or that of its column. *)
Definition shown_style (xlsx : xlsxWorksheet) (col row : Z) : Z :=
  prepareCellStyle xlsx col (from_option xlsxC_S 0 (sheet_cell xlsx col row)).

Lemma SetCellStyle_area f sheet path xlsx hcell vcell c1 r1 c2 r2 styleID y :
  loaded f sheet path xlsx -> CellNameToCoordinates hcell = ok (c1, r1) -> CellNameToCoordinates vcell = ok (c2, r2) ->
  set_style_area styleID (Z.min c1 c2) (Z.min r1 r2) (Z.max c1 c2) (Z.max r1 r2) xlsx = Ret y ->
  SetCellStyle sheet hcell vcell styleID f = Ret (None, with_sheet f path y).
Proof.
  intros Hl E1 E2 Ey. unfold SetCellStyle. rewrite E1, E2. unfold mret, gom_ret, mbind at 1 2, gom_bind at 1 2. cbn [fst snd].
  assert ((if c2 <? c1 then (c1, c2) else (c2, c1)) = (Z.max c1 c2, Z.min c1 c2)) as -> by (destruct (Z.ltb_spec c2 c1); f_equal; lia).
  assert ((if r2 <? r1 then (r1, r2) else (r2, r1)) = (Z.max r1 r2, Z.min r1 r2)) as -> by (destruct (Z.ltb_spec r2 r1); f_equal; lia).
  rewrite (bind_Ret _ _ _ _ _ (workSheetReader_loaded _ _ _ _ Hl)). cbn [fst snd].
  assert (update_o (Some path) (set_style_area styleID (Z.min c1 c2) (Z.min r1 r2) (Z.max c1 c2) (Z.max r1 r2)) f =
    Ret (tt, with_sheet f path y)) as Eu by (rewrite (update_o_loaded _ _ _ _ (proj2 Hl)), Ey; done).
  by rewrite (bind_Ret _ _ _ _ _ Eu).
Qed.

Lemma SetCellStyle_ok f sheet path xlsx hcell vcell c1 r1 c2 r2 styleID :
  loaded f sheet path xlsx -> wf_sheet xlsx ->
  CellNameToCoordinates hcell = ok (c1, r1) -> CellNameToCoordinates vcell = ok (c2, r2) ->
  coord c1 -> coord r1 -> coord c2 -> coord r2 ->
  exists xlsx', SetCellStyle sheet hcell vcell styleID f = Ret (None, with_sheet f path xlsx') /\
    wf_sheet xlsx' /\ same_rest xlsx xlsx' /\
    (forall c r, coord c -> coord r ->
       if in_rect (rect_of c1 r1 c2 r2) c r
       then sheet_cell xlsx' c r = Some ((default (freshCell (cell_name c r)) (sheet_cell xlsx c r)) <| xlsxC_S := styleID |>)
       else sheet_cell xlsx' c r = sheet_cell xlsx c r \/
            sheet_cell xlsx c r = None /\ sheet_cell xlsx' c r = Some (freshCell (cell_name c r))) /\
    (forall axis col row, resolves xlsx axis col row -> exists f1 f2 st,
       GetCellStyle sheet axis f = Ret (ok st, f1) /\
       GetCellStyle sheet axis (with_sheet f path xlsx') =
         Ret (ok (if in_rect (rect_of c1 r1 c2 r2) col row then prepareCellStyle xlsx col styleID else st), f2)).
Proof.
  intros Hl Hwf E1 E2 Hc1 Hr1 Hc2 Hr2.
  destruct (set_style_area_ok styleID (Z.min c1 c2) (Z.min r1 r2) (Z.max c1 c2) (Z.max r1 r2) xlsx Hwf)
    as (y & Ey & Hwfy & Hrest & _ & Hcells); [lia..|].
  fold (rect_of c1 r1 c2 r2) in Hcells.
  assert (forall c r, coord c -> coord r ->
    if in_rect (rect_of c1 r1 c2 r2) c r
    then sheet_cell y c r = Some ((default (freshCell (cell_name c r)) (sheet_cell xlsx c r)) <| xlsxC_S := styleID |>)
    else sheet_cell y c r = sheet_cell xlsx c r \/
         sheet_cell xlsx c r = None /\ sheet_cell y c r = Some (freshCell (cell_name c r))) as Hshape.
  { intros c r Hc Hr. rewrite Hcells by done. cbn zeta. destruct (in_rect _ c r) eqn:Ein.
    - unfold in_rect, rect_of in Ein. cbn in Ein. destruct (sheet_cell xlsx c r); [done|].
      by rewrite decide_True by lia.
    - destruct (sheet_cell xlsx c r); [by left|]. case_decide; [by right|by left]. }
  exists y. split_and!; [|done..|].
  - by eapply SetCellStyle_area.
  - intros axis col row Hres. pose proof Hres as (Hc & Hr & Hcell).
    destruct (GetCellStyle_ok f sheet path xlsx axis col row Hl Hres) as (xa & _ & Ea).
    assert (resolves y axis col row) as Hres'.
    { split_and!; try lia. setoid_rewrite (same_rest_parser xlsx y); done. }
    destruct (GetCellStyle_ok _ sheet path y axis col row (loaded_with_sheet _ _ _ _ y Hl) Hres') as (xb & _ & Eb).
    eexists _, _, _. split; [exact Ea|]. rewrite Eb. do 3 f_equal.
    rewrite (same_rest_style xlsx y) by done. specialize (Hshape col row Hc Hr).
    destruct (in_rect _ col row); [by rewrite Hshape|].
    destruct Hshape as [->|[-> ->]]; done.
Qed.

(** Styling an area. For any two corners, in any order, the sheet stays dense,
    every cell of the rectangle has the style and is otherwise what it was, and
    no other cell changes: positions outside it keep their cell, or become blank
    beside the area. [GetCellStyle] then returns the style for every name that
    designates a position of the rectangle (for the style 0 that of the column)
    and what it returned before for every other name. *)
Theorem SetCellStyle_GetCellStyle f sheet path xlsx hcell vcell c1 r1 c2 r2 styleID :
  loaded f sheet path xlsx -> wf_sheet xlsx ->
  CellNameToCoordinates hcell = ok (c1, r1) -> CellNameToCoordinates vcell = ok (c2, r2) ->
  coord c1 -> coord r1 -> coord c2 -> coord r2 ->
  exists xlsx', SetCellStyle sheet hcell vcell styleID f = Ret (None, with_sheet f path xlsx') /\
    wf_sheet xlsx' /\ same_rest xlsx xlsx' /\
    (forall c r, coord c -> coord r ->
       if in_rect (rect_of c1 r1 c2 r2) c r
       then sheet_cell xlsx' c r = Some ((default (freshCell (cell_name c r)) (sheet_cell xlsx c r)) <| xlsxC_S := styleID |>)
       else sheet_cell xlsx' c r = sheet_cell xlsx c r \/
            sheet_cell xlsx c r = None /\ sheet_cell xlsx' c r = Some (freshCell (cell_name c r))) /\
    (forall axis col row, resolves xlsx axis col row -> exists f1 f2 st,
       GetCellStyle sheet axis f = Ret (ok st, f1) /\
       GetCellStyle sheet axis (with_sheet f path xlsx') =
         Ret (ok (if in_rect (rect_of c1 r1 c2 r2) col row then prepareCellStyle xlsx col styleID else st), f2)).
Proof. apply SetCellStyle_ok. Qed.

End cell_style.

(** ** The tables of the style sheet *)

Definition style_numFmts (s : xlsxStyleSheet) : list xlsxNumFmt := from_option xlsxNumFmts_NumFmt [] (xlsxStyleSheet_NumFmts s).
Definition style_fonts (s : xlsxStyleSheet) : list xlsxFont := from_option xlsxFonts_Font [] (xlsxStyleSheet_Fonts s).
Definition style_fills (s : xlsxStyleSheet) : list xlsxFill := from_option xlsxFills_Fill [] (xlsxStyleSheet_Fills s).
Definition style_borders (s : xlsxStyleSheet) : list xlsxBorder := from_option xlsxBorders_Border [] (xlsxStyleSheet_Borders s).
Definition style_xfs (s : xlsxStyleSheet) : list xlsxXf := from_option xlsxCellXfs_Xf [] (xlsxStyleSheet_CellXfs s).

(** Identifiers of number formats: ascending, and above those of the built-in
    formats. *)
Definition numFmts_ok (l : list xlsxNumFmt) : Prop :=
  StronglySorted Z.lt (xlsxNumFmt_NumFmtID <$> l) /\ Forall (fun nf => 50 <= xlsxNumFmt_NumFmtID nf) l.

Definition numFmts_wf (s : xlsxStyleSheet) : Prop :=
  match xlsxStyleSheet_NumFmts s with
  | Some t => xlsxNumFmts_Count t = zlen (style_numFmts s) /\ style_numFmts s <> []
  | None => True
  end /\ numFmts_ok (style_numFmts s).

(** A style sheet whose tables are present, with the counters of their lengths,
    and hold the default font and fill. *)
Definition wf_styles (s : xlsxStyleSheet) : Prop :=
  numFmts_wf s /\
  xlsxStyleSheet_Fonts s = Some (mk_xlsxFonts (zlen (style_fonts s)) (style_fonts s)) /\ style_fonts s <> [] /\
  xlsxStyleSheet_Fills s = Some (mk_xlsxFills (zlen (style_fills s)) (style_fills s)) /\ style_fills s <> [] /\
  xlsxStyleSheet_Borders s = Some (mk_xlsxBorders (zlen (style_borders s)) (style_borders s)) /\
  xlsxStyleSheet_CellXfs s = Some (mk_xlsxCellXfs (zlen (style_xfs s)) (style_xfs s)).

(** Room for one more entry in every table. *)
Definition styles_room (s : xlsxStyleSheet) : Prop :=
  Forall (fun nf => xlsxNumFmt_NumFmtID nf < maxInt) (style_numFmts s) /\ zlen (style_numFmts s) < maxInt /\
  zlen (style_fonts s) < maxInt /\ zlen (style_fills s) < maxInt /\ zlen (style_borders s) < maxInt /\
  zlen (style_xfs s) < maxInt.

(** The code a number format identifier stands for. *)
Definition format_code (s : xlsxStyleSheet) (id : Z) : option string :=
  match list_find (fun nf => xlsxNumFmt_NumFmtID nf = id) (style_numFmts s) with
  | Some (_, nf) => Some (xlsxNumFmt_FormatCode nf)
  | None => table_get id builtInNumFmt
  end.

(** What a style of the sheet stands for. *)
Record cell_format := mk_cell_format {
  cf_font : xlsxFont;
  cf_fill : xlsxFill;
  cf_border : xlsxBorder;
  cf_code : string;
  cf_alignment : option xlsxAlignment;
  cf_protection : option xlsxProtection
}.

Definition cell_format_of (s : xlsxStyleSheet) (id : Z) : option cell_format :=
  xf ← style_xfs s !! Z.to_nat id;
  ft ← style_fonts s !! Z.to_nat (xlsxXf_FontID xf);
  fill ← style_fills s !! Z.to_nat (xlsxXf_FillID xf);
  border ← style_borders s !! Z.to_nat (xlsxXf_BorderID xf);
  code ← format_code s (xlsxXf_NumFmtID xf);
  Some (mk_cell_format ft fill border code
    (if xlsxXf_ApplyAlignment xf then xlsxXf_Alignment xf else None)
    (if xlsxXf_ApplyProtection xf then xlsxXf_Protection xf else None)).

(** The number format that the settings ask for: a code of their own, a built-in
    format, a currency, a format of a language, or the general format. *)
Definition requested_code (fs : formatStyle) : string :=
  match formatStyle_CustomNumFmt fs with
  | Some code => code
  | None =>
      match table_get (formatStyle_NumFmt fs) builtInNumFmt with
      | Some code => code
      | None =>
          match table_get (formatStyle_NumFmt fs) currencyNumFmt with
          | Some fc => currency_code fs fc
          | None =>
              default "general" (table_get (formatStyle_Lang fs) langNumFmt ≫= table_get (formatStyle_NumFmt fs))
          end
      end
  end.

(** ** Lemmas on the number formats *)

Lemma table_get_forallb {K V} `{EqDecision K} (p : K * V -> bool) (k : K) (m : list (K * V)) v :
  forallb p m = true -> table_get k m = Some v -> p (k, v) = true.
Proof. intros Hp Hv%table_get_elem. rewrite forallb_forall in Hp. by apply Hp, list_elem_of_In. Qed.

#[local] Arguments table_get : simpl never.

Lemma builtIn_range id code : table_get id builtInNumFmt = Some code -> 0 <= id < 50.
Proof.
  assert (forallb (fun p => (0 <=? p.1) && (p.1 <? 50)) builtInNumFmt = true) as Hall by reflexivity.
  intros E. apply (table_get_forallb _ _ _ _ Hall) in E. cbn in E. lia.
Qed.

(** The identifiers of the formats of the languages. *)
Definition lang_id (p : Z * string) : bool :=
  ((27 <=? p.1) && (p.1 <=? 36) || (50 <=? p.1) && (p.1 <? 100)) && negb (bool_decide (is_Some (table_get p.1 builtInNumFmt))).

Lemma lang_range lang id code :
  table_get lang langNumFmt ≫= table_get id = Some code ->
  (27 <= id <= 36 \/ 50 <= id < maxInt) /\ table_get id builtInNumFmt = None.
Proof.
  assert (forallb (fun l => forallb lang_id l.2) langNumFmt = true) as Hall by (vm_compute; reflexivity).
  intros (t & Et & E)%bind_Some.
  apply (table_get_forallb _ _ _ _ Hall) in Et. apply (table_get_forallb _ _ _ _ Et) in E.
  unfold lang_id in E. cbn [fst snd] in E.
  apply andb_true_iff in E as [E1 E2]. apply negb_true_iff, bool_decide_eq_false in E2.
  split; [unfold maxInt; lia|]. by apply eq_None_not_Some.
Qed.

Lemma decimal_places_idem fs : decimal_places (fs <| formatStyle_DecimalPlaces := decimal_places fs |>) = decimal_places fs.
Proof.
  unfold decimal_places. cbn. destruct ((formatStyle_DecimalPlaces fs <? 0) || (30 <? formatStyle_DecimalPlaces fs)) eqn:E; [done|].
  by rewrite E.
Qed.

Lemma numFmts_snoc l id fc :
  numFmts_ok l -> Forall (fun nf => xlsxNumFmt_NumFmtID nf < id) l -> 50 <= id ->
  numFmts_ok (l ++ [mk_xlsxNumFmt id fc]).
Proof.
  intros [Hs Hf] Hlt Hid. split; [|by apply Forall_app; split; [|repeat constructor]].
  rewrite fmap_app. apply StronglySorted_app_2; [|done|repeat constructor].
  intros x y (nf & -> & Hx)%list_elem_of_fmap Hy. apply list_elem_of_singleton in Hy as ->.
  rewrite Forall_forall in Hlt. by apply Hlt.
Qed.

Lemma numFmts_last l nf :
  numFmts_ok (l ++ [nf]) -> Forall (fun x => xlsxNumFmt_NumFmtID x < xlsxNumFmt_NumFmtID nf + 1) (l ++ [nf]).
Proof.
  intros [Hs _]. rewrite fmap_app in Hs. apply StronglySorted_app in Hs as (Hs & _ & _).
  apply Forall_app. split; [|repeat constructor; lia]. apply Forall_forall. intros x Hx.
  assert (xlsxNumFmt_NumFmtID x < xlsxNumFmt_NumFmtID nf); [|lia].
  apply Hs; [by apply list_elem_of_fmap_2|apply list_elem_of_here].
Qed.

(** The counter of a table that gets one more entry, and the index it gives. *)
Lemma count_snoc {A} (l : list A) x : zlen l < maxInt -> iadd (zlen l) 1 = zlen (l ++ [x]).
Proof. intros Hl. rewrite zlen_app, zlen_cons, zlen_nil. pose proof (zlen_nonneg l). int_lia. Qed.

Lemma index_snoc {A} (l : list A) x : zlen l < maxInt -> isub (zlen (l ++ [x])) 1 = zlen l.
Proof. intros Hl. rewrite zlen_app, zlen_cons, zlen_nil. pose proof (zlen_nonneg l). int_lia. Qed.

(** Appending a code: it is found under the new identifier, and every identifier
    keeps its code. *)
Lemma append_numFmt_ok s fc first :
  wf_styles s -> styles_room s -> table_get first builtInNumFmt = None -> first < maxInt ->
  exists id s', append_numFmt s fc first = Ret (id, s') /\
    s' = s <| xlsxStyleSheet_NumFmts := Some (mk_xlsxNumFmts (zlen (style_numFmts s')) (style_numFmts s')) |> /\
    style_numFmts s' = style_numFmts s ++ [mk_xlsxNumFmt id fc] /\
    Forall (fun nf => xlsxNumFmt_NumFmtID nf < id) (style_numFmts s) /\
    (xlsxStyleSheet_NumFmts s = None /\ id = first \/ xlsxStyleSheet_NumFmts s <> None /\ 50 < id <= maxInt).
Proof.
  intros [(Ht & Hok) _] (Hids & Hlen & _) Hfirst Hfm. unfold append_numFmt.
  destruct (xlsxStyleSheet_NumFmts s) as [t|] eqn:Es.
  - destruct Ht as [Hcount Hne]. assert (xlsxNumFmts_NumFmt t = style_numFmts s) as El by (unfold style_numFmts; by rewrite Es).
    rewrite El. destruct (style_numFmts s) as [|nf l _] eqn:Enf using rev_ind; [done|].
    rewrite zlen_app. replace (zlen l + zlen [nf] - 1) with (zlen l) by (rewrite zlen_cons, zlen_nil; lia).
    rewrite list_get_last. cbn [mbind outcome_bind].
    pose proof (numFmts_last _ _ Hok) as Hlast. destruct Hok as [_ Hge].
    apply Forall_app in Hge as [_ Hge]. apply Forall_app in Hids as [_ Hids].
    apply Forall_cons_1 in Hge as [Hge _]. apply Forall_cons_1 in Hids as [Hids _].
    assert (iadd (xlsxNumFmt_NumFmtID nf) 1 = xlsxNumFmt_NumFmtID nf + 1) as -> by int_lia.
    eexists _, _. split; [done|]. split.
    { unfold style_numFmts at 1 2. cbn. by rewrite Hcount, (count_snoc _ (mk_xlsxNumFmt (xlsxNumFmt_NumFmtID nf + 1) fc)). }
    split; [done|]. split; [done|]. right. split; [done|]. lia.
  - assert (style_numFmts s = []) as -> by (unfold style_numFmts; by rewrite Es).
    eexists _, _. split; [done|]. split; [done|]. split; [done|]. split; [constructor|]. by left.
Qed.

(** The part of the style sheet that holds the number formats, and codes. *)
Definition keeps_codes (s s' : xlsxStyleSheet) : Prop :=
  forall id code, format_code s id = Some code -> format_code s' id = Some code.

Lemma format_code_new s s' id fc :
  style_numFmts s' = style_numFmts s ++ [mk_xlsxNumFmt id fc] ->
  Forall (fun nf => xlsxNumFmt_NumFmtID nf < id) (style_numFmts s) -> format_code s' id = Some fc.
Proof.
  intros E Hlt. unfold format_code. rewrite E, list_find_app_r.
  - cbn. by rewrite decide_True.
  - apply list_find_None. eapply Forall_impl; [exact Hlt|]. cbn. lia.
Qed.

Lemma keeps_codes_snoc s s' id fc :
  style_numFmts s' = style_numFmts s ++ [mk_xlsxNumFmt id fc] -> table_get id builtInNumFmt = None -> keeps_codes s s'.
Proof.
  intros E Hid i code. unfold format_code. rewrite E.
  destruct (list_find _ (style_numFmts s)) as [[k nf]|] eqn:Ef.
  - by rewrite (list_find_app_l _ _ _ _ _ Ef).
  - rewrite (list_find_app_r _ _ _ Ef). cbn. case_decide as Hi; [|done].
    cbn in Hi. subst i. by rewrite Hid.
Qed.

Lemma format_code_builtIn s id : numFmts_wf s -> id < 50 -> format_code s id = table_get id builtInNumFmt.
Proof.
  intros [_ [_ Hge]] Hid. unfold format_code.
  assert (list_find (fun nf => xlsxNumFmt_NumFmtID nf = id) (style_numFmts s) = None) as ->; [|done].
  apply list_find_None. eapply Forall_impl; [exact Hge|]. cbn. lia.
Qed.

Lemma append_numFmt_code s fc first :
  wf_styles s -> styles_room s -> table_get first builtInNumFmt = None -> first < maxInt ->
  exists id s', append_numFmt s fc first = Ret (id, s') /\
    s' = s <| xlsxStyleSheet_NumFmts := xlsxStyleSheet_NumFmts s' |> /\
    format_code s' id = Some fc /\ keeps_codes s s' /\
    (xlsxStyleSheet_NumFmts s <> None \/ 50 <= first -> numFmts_wf s').
Proof.
  intros Hwf Hroom Hfirst Hfm.
  destruct (append_numFmt_ok s fc first Hwf Hroom Hfirst Hfm) as (id & s' & E & Es & El & Hlt & Hid).
  assert (xlsxStyleSheet_NumFmts s' = Some (mk_xlsxNumFmts (zlen (style_numFmts s')) (style_numFmts s'))) as Et
    by (rewrite Es at 1; done).
  exists id, s'. split; [done|]. split; [by rewrite Et|]. split; [by eapply format_code_new|]. split.
  - eapply keeps_codes_snoc; [done|]. destruct Hid as [[_ ->]|[_ Hid]]; [done|].
    destruct (table_get id builtInNumFmt) eqn:Eb; [|done]. apply builtIn_range in Eb. lia.
  - intros Hf. split; [rewrite Et; split; [done|]; rewrite El; by destruct (style_numFmts s)|].
    rewrite El. apply numFmts_snoc; [apply Hwf|done|]. destruct Hid as [[Hn ->]|[_ Hid]]; [|lia].
    destruct Hf; [done|lia].
Qed.

(** [setNumFmt] finds or adds the code that the settings ask for. *)
Lemma setNumFmt_ok s fs :
  wf_styles s -> styles_room s ->
  exists id s', setNumFmt s fs = Ret (id, s', fs <| formatStyle_DecimalPlaces := decimal_places fs |>) /\
    s' = s <| xlsxStyleSheet_NumFmts := xlsxStyleSheet_NumFmts s' |> /\
    format_code s' id = Some (requested_code fs) /\ keeps_codes s s' /\
    (xlsxStyleSheet_NumFmts s <> None \/ ~ 27 <= formatStyle_NumFmt fs <= 36 -> numFmts_wf s') /\
    (formatStyle_CustomNumFmt fs = None -> is_Some (table_get (formatStyle_NumFmt fs) builtInNumFmt) -> id = formatStyle_NumFmt fs).
Proof.
  intros Hwf Hroom. unfold setNumFmt. set (fs' := fs <| formatStyle_DecimalPlaces := _ |>).
  assert (forall id code, format_code s id = Some code ->
    (formatStyle_CustomNumFmt fs = None -> is_Some (table_get (formatStyle_NumFmt fs) builtInNumFmt) -> id = formatStyle_NumFmt fs) ->
    exists id0 s', Ret (id, s, fs') = Ret (id0, s', fs') /\
    s' = s <| xlsxStyleSheet_NumFmts := xlsxStyleSheet_NumFmts s' |> /\ format_code s' id0 = Some code /\ keeps_codes s s' /\
    (xlsxStyleSheet_NumFmts s <> None \/ ~ 27 <= formatStyle_NumFmt fs <= 36 -> numFmts_wf s') /\
    (formatStyle_CustomNumFmt fs = None -> is_Some (table_get (formatStyle_NumFmt fs) builtInNumFmt) -> id0 = formatStyle_NumFmt fs)) as Hsame.
  { intros id code E Hb. exists id, s. split_and!; [done|by destruct s|done|by intros ? ?| |done]. intros _. apply Hwf. }
  assert (forall fc first, table_get first builtInNumFmt = None -> first < maxInt ->
    (~ 27 <= formatStyle_NumFmt fs <= 36 -> 50 <= first) ->
    (formatStyle_CustomNumFmt fs = None -> table_get (formatStyle_NumFmt fs) builtInNumFmt = None) ->
    exists id s', (p ← append_numFmt s fc first; Ret (p, fs')) = Ret (id, s', fs') /\
    s' = s <| xlsxStyleSheet_NumFmts := xlsxStyleSheet_NumFmts s' |> /\ format_code s' id = Some fc /\ keeps_codes s s' /\
    (xlsxStyleSheet_NumFmts s <> None \/ ~ 27 <= formatStyle_NumFmt fs <= 36 -> numFmts_wf s') /\
    (formatStyle_CustomNumFmt fs = None -> is_Some (table_get (formatStyle_NumFmt fs) builtInNumFmt) -> id = formatStyle_NumFmt fs)) as Happ.
  { intros fc first Hb Hm Hf Hn. destruct (append_numFmt_code s fc first Hwf Hroom Hb Hm) as (id & s' & -> & H1 & H2 & H3 & H4).
    exists id, s'. split_and!; try done; [tauto|]. intros Hc [code Hcode]. by rewrite Hn in Hcode. }
  unfold requested_code. change (formatStyle_CustomNumFmt fs') with (formatStyle_CustomNumFmt fs).
  change (formatStyle_NumFmt fs') with (formatStyle_NumFmt fs).
  pose proof (builtIn_range (formatStyle_NumFmt fs)) as Hrange. revert Hsame Happ Hrange.
  destruct (formatStyle_CustomNumFmt fs) as [code|]; [intros _ Happ _; apply Happ; [done|done|lia|done]|].
  destruct (table_get (formatStyle_NumFmt fs) builtInNumFmt) as [code|] eqn:Eb; intros Hsame Happ Hrange.
  { apply Hsame; [|done]. rewrite format_code_builtIn; [done|apply Hwf|]. specialize (Hrange _ eq_refl). lia. }
  destruct (table_get (formatStyle_NumFmt fs) currencyNumFmt) as [fc|].
  { assert (currency_code fs' fc = currency_code fs fc) as ->; [|apply Happ; [done|done|lia|done]].
    unfold currency_code, fs'. by rewrite decimal_places_idem. }
  assert (format_code s 0 = Some "general") as Hgeneral by (rewrite format_code_builtIn; [done|apply Hwf|lia]).
  specialize (Hsame 0 "general" Hgeneral ltac:(by intros _ [? ?])).
  unfold setLangNumFmt. change (formatStyle_Lang fs') with (formatStyle_Lang fs).
  change (formatStyle_NumFmt fs') with (formatStyle_NumFmt fs).
  pose proof (lang_range (formatStyle_Lang fs) (formatStyle_NumFmt fs)) as Hlang.
  destruct (table_get (formatStyle_Lang fs) langNumFmt) as [t|]; [|exact Hsame].
  cbn [mbind option_bind] in *. destruct (table_get (formatStyle_NumFmt fs) t) as [fc|]; [|exact Hsame].
  destruct (Hlang fc eq_refl) as [Hr _]. apply Happ; [done|unfold maxInt in *; lia|lia|done].
Qed.

(** ** Lemmas on [NewStyle] *)

Section new_style.
Context `{GoEnv}.

Lemma setFills_total fs fg : exists o, setFills fs fg = Ret o.
Proof.
  unfold setFills. case_bool_decide.
  - destruct (negb _); [by eexists|]. unfold gradient_shading.
    set (n := formatStyle_Fill_T_Shading _).
    destruct ((0 <=? n) && (n <=? 3)) eqn:E; [|repeat case_match; by eexists].
    destruct (list_get variants n) as [d|] eqn:Ed; [by eexists|].
    assert (n = 0 \/ n = 1 \/ n = 2 \/ n = 3) as [Hn|[Hn|[Hn|Hn]]] by lia; by rewrite Hn in Ed.
  - case_bool_decide; [|by eexists]. set (n := formatStyle_Fill_T_Pattern _).
    destruct ((18 <? n) || (n <? 0)) eqn:E; [by eexists|].
    destruct (formatStyle_Fill_T_Color _) as [|color l]; [by eexists|].
    assert ((zlen (color :: l) <? 1) = false) as -> by (rewrite zlen_cons; pose proof (zlen_nonneg l); lia).
    destruct (lookup_lt_is_Some_2 patterns (Z.to_nat n)) as [t Ht]; [change (length patterns) with 19%nat; lia|].
    rewrite (list_get_in patterns _ t); [|lia|exact Ht]. by eexists.
Qed.

Lemma add_border_total b v : exists b', add_border b v = Ret b'.
Proof.
  unfold add_border. destruct (_ && _) eqn:E; [|by eexists].
  destruct (lookup_lt_is_Some_2 border_styles (Z.to_nat (formatStyle_Border_T_Style v))) as [t Ht].
  { change (length border_styles) with 14%nat. lia. }
  rewrite (list_get_in _ _ t); [|lia|exact Ht]. by eexists.
Qed.

Lemma foldM_total {A B} (g : B -> A -> outcome B) b l : (forall b x, exists b', g b x = Ret b') -> exists b', foldM g b l = Ret b'.
Proof.
  intros Hg. revert b. induction l as [|x l IH]; intros b; [by eexists|]. cbn.
  destruct (Hg b x) as [b' ->]. apply IH.
Qed.

Lemma setBorders_total fs : exists b, setBorders fs = Ret b.
Proof. apply foldM_total, add_border_total. Qed.

Lemma font_text_total ft : marshals_as font "font" -> exists body, font_text ft = Ret body.
Proof.
  intros Hm. destruct (Hm ft) as [body E]. exists body. unfold font_text. rewrite E.
  apply (str_slice_inner "<font>" body "</font>").
Qed.

(** An entry appended to a table whose counter is its length. *)
Ltac solve_add x :=
  intros E Hroom; match goal with s : xlsxStyleSheet |- _ => destruct s end; cbn in *; subst; unfold field_update; cbn;
  by rewrite (count_snoc _ x), index_snoc.

Lemma add_font_ok s l text :
  xlsxStyleSheet_Fonts s = Some (mk_xlsxFonts (zlen l) l) -> zlen l < maxInt ->
  add_font s text = Ret (zlen l, s <| xlsxStyleSheet_Fonts :=
    Some (mk_xlsxFonts (zlen (l ++ [mk_xlsxFont text])) (l ++ [mk_xlsxFont text])) |>).
Proof. unfold add_font. solve_add (mk_xlsxFont text). Qed.

Lemma add_border_entry_ok s l border :
  xlsxStyleSheet_Borders s = Some (mk_xlsxBorders (zlen l) l) -> zlen l < maxInt ->
  add_border_entry s border = Ret (zlen l, s <| xlsxStyleSheet_Borders :=
    Some (mk_xlsxBorders (zlen (l ++ [border])) (l ++ [border])) |>).
Proof. unfold add_border_entry. solve_add border. Qed.

Lemma add_fill_ok s l fill :
  xlsxStyleSheet_Fills s = Some (mk_xlsxFills (zlen l) l) -> zlen l < maxInt ->
  add_fill s fill = Ret (zlen l, s <| xlsxStyleSheet_Fills := Some (mk_xlsxFills (zlen (l ++ [fill])) (l ++ [fill])) |>).
Proof. unfold add_fill. solve_add fill. Qed.

(** The cell format that the settings ask for: the default font and fill of the
    style sheet where the settings have none. *)
Definition requested_font (s : xlsxStyleSheet) (fs : formatStyle) : option xlsxFont :=
  match setFont fs with
  | Ret (f, _) => match font_text f with Ret text => Some (mk_xlsxFont text) | Panic => None end
  | Panic => head (style_fonts s)
  end.

Definition requested_fill (s : xlsxStyleSheet) (fs : formatStyle) : option xlsxFill :=
  match setFills fs true with
  | Ret (Some fill) => Some fill
  | Ret None => head (style_fills s)
  | Panic => None
  end.

Definition requested_format (s : xlsxStyleSheet) (fs : formatStyle) : option cell_format :=
  ft ← requested_font s fs;
  fill ← requested_fill s fs;
  border ← (match setBorders fs with Ret border => Some border | Panic => None end);
  Some (mk_cell_format ft fill border (requested_code fs)
    (match formatStyle_Alignment fs with Some _ => Some (setAlignment fs) | None => None end)
    (match formatStyle_Protection fs with Some _ => Some (setProtection fs) | None => None end)).

Lemma setFont_cases fs :
  match formatStyle_Font fs with
  | None => setFont fs = Panic
  | Some _ => exists f ft, setFont fs = Ret (f, fs <| formatStyle_Font := Some ft |>)
  end.
Proof. unfold setFont. destruct (formatStyle_Font fs); [by eexists _, _|done]. Qed.

Lemma new_style_font_ok s fs l :
  marshals_as font "font" -> xlsxStyleSheet_Fonts s = Some (mk_xlsxFonts (zlen l) l) -> l <> [] -> zlen l < maxInt ->
  exists fontID fonts ft,
    new_style_font s fs = Ret (fontID, s <| xlsxStyleSheet_Fonts := Some (mk_xlsxFonts (zlen fonts) fonts) |>,
                               fs <| formatStyle_Font := ft |>) /\
    l `prefix_of` fonts /\ fonts <> [] /\ 0 <= fontID /\ fonts !! Z.to_nat fontID = requested_font s fs /\ is_Some (requested_font s fs).
Proof.
  intros Hm Hf Hne Hroom. unfold new_style_font, requested_font. pose proof (setFont_cases fs) as Hfont.
  assert (style_fonts s = l) as Hl by (unfold style_fonts; by rewrite Hf).
  destruct (formatStyle_Font fs) as [ft0|] eqn:Eft.
  - destruct Hfont as (f & ft & ->). cbn [mbind outcome_bind].
    destruct (font_text_total f Hm) as [text ->]. cbn [mbind outcome_bind].
    rewrite (add_font_ok s l text Hf Hroom). cbn [mbind outcome_bind].
    exists (zlen l), (l ++ [mk_xlsxFont text]), (Some ft).
    split_and!; [done|by apply prefix_app_r|by destruct l|apply zlen_nonneg| |done].
    unfold zlen. rewrite Nat2Z.id. by apply list_lookup_middle.
  - rewrite Hfont, Hl. exists 0, l, None. destruct l as [|x l]; [done|].
    split_and!; try done. rewrite <- Hf, <- Eft. by destruct s, fs.
Qed.

(** The fill of the new style. *)
Lemma new_style_fill_ok s fs l :
  xlsxStyleSheet_Fills s = Some (mk_xlsxFills (zlen l) l) -> l <> [] -> zlen l < maxInt ->
  exists fill fillID fills, setFills fs true = Ret fill /\
    (match fill with Some fill => add_fill s fill | None => Ret (0, s) end) =
      Ret (fillID, s <| xlsxStyleSheet_Fills := Some (mk_xlsxFills (zlen fills) fills) |>) /\
    l `prefix_of` fills /\ fills <> [] /\ 0 <= fillID /\ fills !! Z.to_nat fillID = requested_fill s fs /\ is_Some (requested_fill s fs).
Proof.
  intros Hf Hne Hroom. destruct (setFills_total fs true) as [fill E]. exists fill. unfold requested_fill. rewrite E.
  assert (style_fills s = l) as Hl by (unfold style_fills; by rewrite Hf).
  destruct fill as [fill|].
  - rewrite (add_fill_ok s l fill Hf Hroom). exists (zlen l), (l ++ [fill]).
    split_and!; [done|done|by apply prefix_app_r|by destruct l|apply zlen_nonneg| |done].
    unfold zlen. rewrite Nat2Z.id. by apply list_lookup_middle.
  - rewrite Hl. exists 0, l. destruct l as [|x l]; [done|].
    split_and!; try done. rewrite <- Hf. by destruct s.
Qed.

(** The record that [setCellXfs] appends. *)
Definition new_xf (fontID numFmtID fillID borderID : Z) (fs : formatStyle) : xlsxXf :=
  mk_xlsxXf (bool_decide (is_Some (formatStyle_Alignment fs))) false false (negb (fontID =? 0)) (negb (numFmtID =? 0))
    (bool_decide (is_Some (formatStyle_Protection fs))) borderID fillID fontID numFmtID false false (Some 0)
    (Some (setAlignment fs)) (if bool_decide (is_Some (formatStyle_Protection fs)) then Some (setProtection fs) else None).

Lemma setCellXfs_ok s l fontID numFmtID fillID borderID fs :
  xlsxStyleSheet_CellXfs s = Some (mk_xlsxCellXfs (zlen l) l) -> zlen l < maxInt ->
  setCellXfs s fontID numFmtID fillID borderID (bool_decide (is_Some (formatStyle_Alignment fs)))
    (bool_decide (is_Some (formatStyle_Protection fs))) (setAlignment fs) (setProtection fs) =
  Ret (zlen l, s <| xlsxStyleSheet_CellXfs :=
    Some (mk_xlsxCellXfs (zlen (l ++ [new_xf fontID numFmtID fillID borderID fs]))
                         (l ++ [new_xf fontID numFmtID fillID borderID fs])) |>).
Proof.
  unfold setCellXfs. set (xf := new_xf fontID numFmtID fillID borderID fs).
  assert (forall o, (let x := (gozero : xlsxXf) <| xlsxXf_FontID := fontID |> <| xlsxXf_ApplyFont := negb (fontID =? 0) |>
    <| xlsxXf_NumFmtID := numFmtID |> <| xlsxXf_ApplyNumberFormat := negb (numFmtID =? 0) |>
    <| xlsxXf_FillID := fillID |> <| xlsxXf_BorderID := borderID |>
    <| xlsxXf_Alignment := Some (setAlignment fs) |> <| xlsxXf_ApplyAlignment := bool_decide (is_Some (formatStyle_Alignment fs)) |> in
    o = (if bool_decide (is_Some (formatStyle_Protection fs))
         then x <| xlsxXf_ApplyProtection := bool_decide (is_Some (formatStyle_Protection fs)) |>
                <| xlsxXf_Protection := Some (setProtection fs) |> else x) <| xlsxXf_XfID := Some 0 |>) -> o = xf) as Hxf.
  { intros o ->. subst xf. unfold new_xf. by destruct (bool_decide (is_Some (formatStyle_Protection fs))). }
  rewrite (Hxf _ eq_refl). solve_add xf.
Qed.

(** The style sheet after [NewStyle]: every table is extended at its end. *)
Definition extended (s : xlsxStyleSheet) (nf : option xlsxNumFmts) (fonts : list xlsxFont) (fills : list xlsxFill)
    (borders : list xlsxBorder) (xfs : list xlsxXf) : xlsxStyleSheet :=
  s <| xlsxStyleSheet_NumFmts := nf |> <| xlsxStyleSheet_Fonts := Some (mk_xlsxFonts (zlen fonts) fonts) |>
    <| xlsxStyleSheet_Borders := Some (mk_xlsxBorders (zlen borders) borders) |>
    <| xlsxStyleSheet_Fills := Some (mk_xlsxFills (zlen fills) fills) |>
    <| xlsxStyleSheet_CellXfs := Some (mk_xlsxCellXfs (zlen xfs) xfs) |>.

(** What [new_style] does to a well-formed style sheet. *)
Lemma new_style_ok s fs :
  wf_styles s -> styles_room s -> marshals_as font "font" ->
  exists nf fonts fills borders xf,
    let s' := extended s nf fonts fills borders (style_xfs s ++ [xf]) in
    new_style s fs = Ret (zlen (style_xfs s), s') /\
    style_fonts s `prefix_of` fonts /\ fonts <> [] /\ style_fills s `prefix_of` fills /\ fills <> [] /\
    style_borders s `prefix_of` borders /\ keeps_codes s s' /\
    (xlsxStyleSheet_NumFmts s <> None \/ ~ 27 <= formatStyle_NumFmt fs <= 36 -> numFmts_wf s') /\
    fonts !! Z.to_nat (xlsxXf_FontID xf) = requested_font s fs /\ is_Some (requested_font s fs) /\
    fills !! Z.to_nat (xlsxXf_FillID xf) = requested_fill s fs /\ is_Some (requested_fill s fs) /\
    (exists border, setBorders fs = Ret border /\ borders !! Z.to_nat (xlsxXf_BorderID xf) = Some border) /\
    format_code s' (xlsxXf_NumFmtID xf) = Some (requested_code fs) /\
    (formatStyle_CustomNumFmt fs = None -> is_Some (table_get (formatStyle_NumFmt fs) builtInNumFmt) -> xlsxXf_NumFmtID xf = formatStyle_NumFmt fs) /\
    exists fontID numFmtID fillID borderID, xf = new_xf fontID numFmtID fillID borderID fs.
Proof.
  intros Hwf Hroom Hm. destruct (setNumFmt_ok s fs Hwf Hroom) as (numFmtID & s1 & E1 & Es1 & Hcode & Hkeep & Hnf & Hid).
  destruct Hwf as (_ & Hfonts & Hfne & Hfills & Hlne & Hborders & Hxfs). destruct Hroom as (_ & _ & R1 & R2 & R3 & R4).
  set (nf := xlsxStyleSheet_NumFmts s1) in Es1. set (fs1 := fs <| formatStyle_DecimalPlaces := _ |>) in E1.
  destruct (new_style_font_ok s1 fs1 (style_fonts s)) as (fontID & fonts & ft & E2 & Hp2 & Hn2 & _ & Hl2 & Hi2);
    [done|by rewrite Es1|done|done|].
  set (s2 := s1 <| xlsxStyleSheet_Fonts := _ |>) in E2. set (fs2 := fs1 <| formatStyle_Font := ft |>) in E2.
  destruct (setBorders_total fs) as [border Eb].
  assert (add_border_entry s2 border = Ret (zlen (style_borders s), s2 <| xlsxStyleSheet_Borders :=
    Some (mk_xlsxBorders (zlen (style_borders s ++ [border])) (style_borders s ++ [border])) |>)) as E3.
  { apply add_border_entry_ok; [|done]. subst s2. by rewrite Es1. }
  set (s3 := s2 <| xlsxStyleSheet_Borders := _ |>) in E3.
  destruct (new_style_fill_ok s3 fs (style_fills s)) as (fill & fillID & fills & Ef & E4 & Hp4 & Hn4 & _ & Hl4 & Hi4);
    [subst s3 s2; by rewrite Es1|done|done|].
  set (s4 := s3 <| xlsxStyleSheet_Fills := _ |>) in E4.
  set (xf := new_xf fontID numFmtID fillID (zlen (style_borders s)) fs).
  exists nf, fonts, fills, (style_borders s ++ [border]), xf. cbn zeta.
  assert (s4 <| xlsxStyleSheet_CellXfs := Some (mk_xlsxCellXfs (zlen (style_xfs s ++ [xf])) (style_xfs s ++ [xf])) |> =
    extended s nf fonts fills (style_borders s ++ [border]) (style_xfs s ++ [xf])) as E5.
  { subst s4 s3 s2. by rewrite Es1. }
  set (s' := extended _ _ _ _ _ _) in *. split.
  { unfold new_style. rewrite E1. cbn [mbind outcome_bind]. rewrite E2. cbn [mbind outcome_bind].
    change (setBorders fs2) with (setBorders fs). rewrite Eb. cbn [mbind outcome_bind]. rewrite E3. cbn [mbind outcome_bind].
    change (setFills fs2 true) with (setFills fs true). rewrite Ef. cbn [mbind outcome_bind]. rewrite E4. cbn [mbind outcome_bind].
    rewrite <- E5. apply (setCellXfs_ok s4 (style_xfs s) fontID numFmtID fillID (zlen (style_borders s)) fs); [|done].
    subst s4 s3 s2. by rewrite Es1. }
  assert (requested_font s1 fs1 = requested_font s fs) as Hrf.
  { unfold requested_font. assert (style_fonts s1 = style_fonts s) as -> by (by rewrite Es1).
    pose proof (setFont_cases fs) as H1. unfold setFont in *. change (formatStyle_Font fs1) with (formatStyle_Font fs).
    by destruct (formatStyle_Font fs). }
  assert (requested_fill s3 fs = requested_fill s fs) as Hrl.
  { unfold requested_fill. assert (style_fills s3 = style_fills s) as -> by (subst s3 s2; by rewrite Es1). done. }
  rewrite <- Hrf, <- Hrl. split_and!; try done.
  - by apply prefix_app_r.
  - exists border. split; [done|]. cbn. unfold zlen. rewrite Nat2Z.id. by apply list_lookup_middle.
  - by eexists _, _, _, _.
Qed.

Lemma extended_tables s nf fonts fills borders xfs :
  let s' := extended s nf fonts fills borders xfs in
  style_fonts s' = fonts /\ style_fills s' = fills /\ style_borders s' = borders /\ style_xfs s' = xfs /\
  xlsxStyleSheet_NumFmts s' = nf.
Proof. done. Qed.

Lemma NewStyle_ok f s style fs :
  File_Styles f = Some s -> wf_styles s -> styles_room s -> marshals_as font "font" ->
  parseFormatStyleSet style = ok fs ->
  exists s', NewStyle style f = Ret (ok (zlen (style_xfs s)), f <| File_Styles := Some s' |>) /\
    (exists xf, style_xfs s' = style_xfs s ++ [xf] /\
       (formatStyle_CustomNumFmt fs = None -> is_Some (table_get (formatStyle_NumFmt fs) builtInNumFmt) -> xlsxXf_NumFmtID xf = formatStyle_NumFmt fs)) /\
    cell_format_of s' (zlen (style_xfs s)) = requested_format s fs /\ is_Some (requested_format s fs) /\
    (forall id fmt, 0 <= id -> cell_format_of s id = Some fmt -> cell_format_of s' id = Some fmt) /\
    (xlsxStyleSheet_NumFmts s <> None \/ ~ 27 <= formatStyle_NumFmt fs <= 36 -> wf_styles s').
Proof.
  intros Hs Hwf Hroom Hm Hfs.
  destruct (new_style_ok s fs Hwf Hroom Hm) as (nf & fonts & fills & borders & xf & E & Pf & Nf & Pl & Nl & Pb & Hkeep & Hnf &
    Hft & [ft Eft] & Hfl & [fl Efl] & (border & Eb & Hb) & Hcode & Hbuilt & fontID & numFmtID & fillID & borderID & Hxf).
  cbn zeta in *. set (s' := extended _ _ _ _ _ _) in *. exists s'.
  assert (requested_format s fs = Some (mk_cell_format ft fl border (requested_code fs)
    (match formatStyle_Alignment fs with Some _ => Some (setAlignment fs) | None => None end)
    (match formatStyle_Protection fs with Some _ => Some (setProtection fs) | None => None end))) as Hreq.
  { unfold requested_format. by rewrite Eft, Efl, Eb. }
  split_and!.
  - unfold NewStyle, stylesReader, cached_reader. rewrite (bind_Ret _ _ f s f) by (unfold mbind, gom_bind, get; by rewrite Hs).
    rewrite Hfs, (bind_Ret _ _ f (ok fs) f) by done. by rewrite E.
  - by exists xf.
  - rewrite Hreq. unfold cell_format_of. change (style_xfs s') with (style_xfs s ++ [xf]).
    unfold zlen. rewrite Nat2Z.id, list_lookup_middle by done. cbn [mbind option_bind].
    change (style_fonts s') with fonts. rewrite Hft, Eft. cbn [mbind option_bind].
    change (style_fills s') with fills. rewrite Hfl, Efl. cbn [mbind option_bind].
    change (style_borders s') with borders. rewrite Hb. cbn [mbind option_bind]. rewrite Hcode. cbn [mbind option_bind].
    subst xf. cbn. by destruct (formatStyle_Alignment fs), (formatStyle_Protection fs).
  - by rewrite Hreq.
  - intros id fmt Hid. unfold cell_format_of. change (style_xfs s') with (style_xfs s ++ [xf]).
    intros (x & Ex & (a & Ea & (b & Ebb & (c & Ec & (d & Ed & Hfmt)%bind_Some)%bind_Some)%bind_Some)%bind_Some)%bind_Some.
    rewrite (lookup_app_l_Some _ _ _ _ Ex). cbn [mbind option_bind].
    change (style_fonts s') with fonts. rewrite (prefix_lookup_Some _ _ _ _ Ea Pf). cbn [mbind option_bind].
    change (style_fills s') with fills. rewrite (prefix_lookup_Some _ _ _ _ Ebb Pl). cbn [mbind option_bind].
    change (style_borders s') with borders. rewrite (prefix_lookup_Some _ _ _ _ Ec Pb). cbn [mbind option_bind].
    by rewrite (Hkeep _ _ Ed).
  - intros Hc. split_and!; [by apply Hnf|done..].
Qed.

(** C15. Creating a cell format. For a well-formed style sheet with room in its
    tables, accepted settings, and an encoder that writes a font as a [font]
    element, [NewStyle] returns the number of formats the sheet had, and under
    this index the sheet then holds what the settings ask for: font, fill,
    border, number format code, alignment and protection, the sheet's defaults
    standing for a font or fill that is not given; a built-in number format keeps
    its identifier. Every format that the sheet
    had keeps its index and its meaning. The sheet stays well-formed, unless the
    number format is one of a language below 37 and starts the table. *)
Theorem NewStyle_correct f s style fs :
  File_Styles f = Some s -> wf_styles s -> styles_room s -> marshals_as font "font" ->
  parseFormatStyleSet style = ok fs ->
  exists s', NewStyle style f = Ret (ok (zlen (style_xfs s)), f <| File_Styles := Some s' |>) /\
    (exists xf, style_xfs s' = style_xfs s ++ [xf] /\
       (formatStyle_CustomNumFmt fs = None -> is_Some (table_get (formatStyle_NumFmt fs) builtInNumFmt) -> xlsxXf_NumFmtID xf = formatStyle_NumFmt fs)) /\
    cell_format_of s' (zlen (style_xfs s)) = requested_format s fs /\ is_Some (requested_format s fs) /\
    (forall id fmt, 0 <= id -> cell_format_of s id = Some fmt -> cell_format_of s' id = Some fmt) /\
    (xlsxStyleSheet_NumFmts s <> None \/ ~ 27 <= formatStyle_NumFmt fs <= 36 -> wf_styles s').
Proof. apply NewStyle_ok. Qed.

End new_style.

(** *** Composition *)

Section apply_style.
Context `{GoEnv}.

(** C7. Creating a format and applying it. After [NewStyle] and [SetCellStyle] on an
    area of a sheet in memory, [GetCellStyle] returns the new index for every
    name that designates a position of the area, the style sheet holds under
    that index the format the settings asked for, and for every other name of
    the sheet it returns what it returned before. *)
Theorem NewStyle_SetCellStyle f s style fs sheet path xlsx hcell vcell c1 r1 c2 r2 :
  File_Styles f = Some s -> wf_styles s -> styles_room s -> marshals_as font "font" -> style_xfs s <> [] ->
  parseFormatStyleSet style = ok fs ->
  loaded f sheet path xlsx -> wf_sheet xlsx ->
  CellNameToCoordinates hcell = ok (c1, r1) -> CellNameToCoordinates vcell = ok (c2, r2) ->
  coord c1 -> coord r1 -> coord c2 -> coord r2 ->
  exists id f1 f2 s', NewStyle style f = Ret (ok id, f1) /\ SetCellStyle sheet hcell vcell id f1 = Ret (None, f2) /\
    File_Styles f2 = Some s' /\ cell_format_of s' id = requested_format s fs /\ is_Some (requested_format s fs) /\
    forall axis col row, resolves xlsx axis col row -> exists f3 f4 st,
      GetCellStyle sheet axis f = Ret (ok st, f3) /\
      GetCellStyle sheet axis f2 = Ret (ok (if in_rect (rect_of c1 r1 c2 r2) col row then id else st), f4).
Proof.
  intros Hs Hwf Hroom Hm Hne Hfs Hl Hws E1 E2 Hc1 Hr1 Hc2 Hr2.
  destruct (NewStyle_ok f s style fs Hs Hwf Hroom Hm Hfs) as (s' & E & _ & Hfmt & Hreq & _).
  set (id := zlen (style_xfs s)) in *. set (f1 := f <| File_Styles := Some s' |>) in E.
  destruct (SetCellStyle_ok f1 sheet path xlsx hcell vcell c1 r1 c2 r2 id) as (y & Ey & _ & _ & _ & Hget); try done.
  exists id, f1, (with_sheet f1 path y), s'. split_and!; try done.
  intros axis col row Hres. destruct (Hget axis col row Hres) as (g1 & g2 & st & G1 & G2).
  destruct (GetCellStyle_ok f sheet path xlsx axis col row Hl Hres) as (x3 & _ & G3).
  destruct (GetCellStyle_ok f1 sheet path xlsx axis col row Hl Hres) as (x4 & _ & G4).
  rewrite G4 in G1. injection G1 as <- <-. eexists _, _, _. split; [exact G3|]. rewrite G2. do 3 f_equal.
  destruct (in_rect _ col row); [|done].
  unfold prepareCellStyle. destruct (xlsxWorksheet_Cols xlsx); [|done].
  assert ((id =? 0) = false) as ->; [|done]. subst id. unfold zlen. destruct (style_xfs s); [done|]. cbn. lia.
Qed.

End apply_style.

(** *** Borders, languages and built-in formats *)

Section style_details.
Context `{GoEnv}.

(** The lines of a border: [border_line] is the last entry of the settings for a
    side whose style is a known one. *)
Definition border_entry_ok (t : string) (v : formatStyle_Border_T) : bool :=
  bool_decide (formatStyle_Border_T_Type v = t) && ((0 <=? formatStyle_Border_T_Style v) && (formatStyle_Border_T_Style v <? 14)).

Definition entry_line (v : formatStyle_Border_T) : xlsxLine :=
  mk_xlsxLine (default "" (border_styles !! Z.to_nat (formatStyle_Border_T_Style v)))
    (Some (paletteColor (formatStyle_Border_T_Color v))).

Definition border_line (ts : list string) (l : list formatStyle_Border_T) : xlsxLine :=
  match last (List.filter (fun v => existsb (fun t => border_entry_ok t v) ts) l) with
  | Some v => entry_line v
  | None => gozero
  end.

Lemma border_line_snoc ts l v :
  border_line ts (l ++ [v]) = if existsb (fun t => border_entry_ok t v) ts then entry_line v else border_line ts l.
Proof.
  unfold border_line. rewrite List.filter_app. cbn. destruct (existsb _ ts); [by rewrite last_snoc|by rewrite app_nil_r].
Qed.

(** The border that a list of settings stands for. *)
Definition border_of (l : list formatStyle_Border_T) : xlsxBorder :=
  mk_xlsxBorder (existsb (border_entry_ok "diagonalDown") l) (existsb (border_entry_ok "diagonalUp") l) false
    (border_line ["left"] l) (border_line ["right"] l) (border_line ["top"] l) (border_line ["bottom"] l)
    (border_line ["diagonalUp"; "diagonalDown"] l).

Lemma add_border_of l v : add_border (border_of l) v = Ret (border_of (l ++ [v])).
Proof.
  unfold add_border, border_of. rewrite !border_line_snoc, !existsb_app. cbn [existsb]. rewrite !orb_false_r.
  unfold border_entry_ok, entry_line.
  destruct ((0 <=? formatStyle_Border_T_Style v) && (formatStyle_Border_T_Style v <? 14)) eqn:E.
  - destruct (lookup_lt_is_Some_2 border_styles (Z.to_nat (formatStyle_Border_T_Style v))) as [t Ht].
    { change (length border_styles) with 14%nat. lia. }
    rewrite (list_get_in border_styles _ t), Ht by (done || lia). cbn [mbind outcome_bind default from_option id].
    f_equal. rewrite !andb_true_r. generalize (formatStyle_Border_T_Type v). intros ty.
    repeat (case_bool_decide; [subst ty; cbn; by rewrite ?orb_false_r, ?orb_true_r|]).
    cbn. by rewrite !orb_false_r.
  - rewrite !andb_false_r. cbn. by rewrite !orb_false_r.
Qed.

(** The border made from the settings: each side, and the diagonal, has the
    line of the last entry for it whose style is between 0 and 13, the diagonal
    flags say which diagonals have such an entry, and other entries are
    ignored. *)
Theorem setBorders_correct fs : setBorders fs = Ret (border_of (formatStyle_Border fs)).
Proof.
  unfold setBorders. change (gozero : xlsxBorder) with (border_of []).
  enough (forall l k, foldM add_border (border_of k) l = Ret (border_of (k ++ l))) as Hl by apply (Hl _ []).
  induction l as [|v l IH]; intros k; [by rewrite app_nil_r|].
  cbn [foldM]. rewrite add_border_of. cbn [mbind outcome_bind]. rewrite IH. by rewrite <- app_assoc.
Qed.

(** A format of a language that starts the table of number formats takes its
    own number as identifier, and the next format the one after it, which for
    the number 36 is that of the built-in format 37: a format code of the
    caller's is then registered under an identifier that [GetCellValue] formats
    as the built-in one. *)
Theorem language_format_collides s fs1 fs2 lang fc code :
  xlsxStyleSheet_NumFmts s = None ->
  formatStyle_CustomNumFmt fs1 = None -> formatStyle_NumFmt fs1 = 36 -> formatStyle_Lang fs1 = lang ->
  table_get lang langNumFmt ≫= table_get 36 = Some fc -> formatStyle_CustomNumFmt fs2 = Some code ->
  exists s1 fs1' s2 fs2' builtIn, setNumFmt s fs1 = Ret (36, s1, fs1') /\ setNumFmt s1 fs2 = Ret (37, s2, fs2') /\
    format_code s2 37 = Some code /\ table_get 37 builtInNumFmt = Some builtIn /\ is_Some (builtInNumFmtFunc 37).
Proof.
  intros Hs Hc1 Hn Hlang Hfc Hc2. apply bind_Some in Hfc as (t & Et & Efc).
  unfold setNumFmt at 1. cbn -[table_get builtInNumFmt currencyNumFmt langNumFmt]. rewrite Hc1, Hn.
  change (table_get 36 builtInNumFmt) with (@None string).
  assert (table_get 36 currencyNumFmt = None) as -> by (vm_compute; reflexivity).
  unfold setLangNumFmt. cbn -[table_get langNumFmt]. rewrite Hlang, Hn, Et, Efc. unfold append_numFmt at 1. rewrite Hs.
  eexists _, _, _, _, _. split; [reflexivity|]. unfold setNumFmt, setCustomNumFmt.
  cbn -[table_get builtInNumFmt currencyNumFmt]. rewrite Hc2. split; [reflexivity|]. split; [done|]. split; [reflexivity|].
  by eexists.
Qed.

(** The documentation of [NewStyle] lists the formats 5 to 8; the table of the
    code does not have them, and without a language they give the identifier 0,
    the general format. *)
Theorem documented_formats_general s fs :
  5 <= formatStyle_NumFmt fs <= 8 -> formatStyle_CustomNumFmt fs = None -> formatStyle_Lang fs = "" ->
  exists fs', setNumFmt s fs = Ret (0, s, fs').
Proof.
  intros Hn Hc Hl. unfold setNumFmt. cbn -[table_get builtInNumFmt currencyNumFmt langNumFmt]. rewrite Hc.
  assert (table_get (formatStyle_NumFmt fs) builtInNumFmt = None /\ table_get (formatStyle_NumFmt fs) currencyNumFmt = None) as [-> ->].
  { assert (formatStyle_NumFmt fs = 5 \/ formatStyle_NumFmt fs = 6 \/ formatStyle_NumFmt fs = 7 \/ formatStyle_NumFmt fs = 8)
      as [->|[->|[->| ->]]] by lia; split; vm_compute; reflexivity. }
  unfold setLangNumFmt. cbn -[table_get langNumFmt]. rewrite Hl. by eexists.
Qed.

End style_details.

(** ** Witnesses *)

(** An environment whose decoder returns the given settings. *)
Definition style_env (fs : formatStyle) : GoEnv :=
  example_env <| (@env_json_style) := fun _ _ => (fs, None) |>.

(** Red left borders, a solid fill, a bold font and the number format 9. *)
Definition example_settings : formatStyle :=
  (gozero : formatStyle) <| formatStyle_Border := [mk_formatStyle_Border_T "left" "#FF0000" 1] |>
    <| formatStyle_Fill := mk_formatStyle_Fill_T "pattern" 1 ["#E0EBF5"] 0 |>
    <| formatStyle_Font := Some ((gozero : formatFont) <| formatFont_Bold := true |>) |>
    <| formatStyle_NumFmt := 9 |>.

(** The tables of a new workbook. *)
Definition example_styles : xlsxStyleSheet :=
  (gozero : xlsxStyleSheet) <| xlsxStyleSheet_Fonts := Some (mk_xlsxFonts 1 [gozero]) |>
    <| xlsxStyleSheet_Fills := Some (mk_xlsxFills 2 [gozero; gozero]) |>
    <| xlsxStyleSheet_Borders := Some (mk_xlsxBorders 1 [gozero]) |>
    <| xlsxStyleSheet_CellXfs := Some (mk_xlsxCellXfs 1 [gozero]) |>.

Lemma example_styles_wf : wf_styles example_styles /\ styles_room example_styles.
Proof.
  split.
  - split; [split; [done|split; constructor]|]. split_and!; done.
  - split; [constructor|]. split_and!; vm_compute; reflexivity.
Qed.

Lemma style_env_marshals fs : @marshals_as font (@env_font (style_env fs)) "font".
Proof. intros a. exists "". reflexivity. Qed.

Definition styled_file : File := (example_file gozero) <| File_Styles := Some example_styles |>.

Lemma gozero_sheet_wf : wf_sheet gozero.
Proof. split; [by intros i r|vm_compute; discriminate]. Qed.

Lemma SetCellStyle_GetCellStyle_witness :
  exists xlsx', SetCellStyle (H := example_env) "Sheet1" "C3" "B2" 4 (example_file gozero) =
      Ret (None, with_sheet (example_file gozero) "xl/worksheets/sheet1.xml" xlsx') /\
    exists f2, GetCellStyle (H := example_env) "Sheet1" "B3" (with_sheet (example_file gozero) "xl/worksheets/sheet1.xml" xlsx') =
      Ret (ok 4, f2).
Proof.
  destruct (@SetCellStyle_GetCellStyle example_env (example_file gozero) "Sheet1" _ gozero "C3" "B2" 3 3 2 2 4
    (example_loaded gozero) gozero_sheet_wf) as (x & E & _ & _ & _ & Hget); try reflexivity; try (unfold maxInt; lia).
  exists x. split; [exact E|].
  destruct (Hget "B3" 2 3) as (f1 & f2 & st & _ & G).
  - split; [unfold maxInt; lia|]. split; [unfold maxInt; lia|]. exists "B3". split; reflexivity.
  - exists f2. exact G.
Defined.

Lemma NewStyle_correct_witness :
  exists s' fmt, NewStyle (H := style_env example_settings) "" styled_file =
      Ret (ok 1, styled_file <| File_Styles := Some s' |>) /\
    cell_format_of s' 1 = Some fmt /\ cf_code fmt = "0%" /\ xlsxLine_Style (xlsxBorder_Left (cf_border fmt)) = "thin" /\
    wf_styles s'.
Proof.
  destruct (@NewStyle_correct (style_env example_settings) styled_file example_styles "" example_settings eq_refl
    (proj1 example_styles_wf) (proj2 example_styles_wf) (style_env_marshals _) eq_refl) as (s' & E & _ & Hf & _ & _ & Hwf).
  exists s'. eexists. split; [exact E|]. split; [exact Hf|]. split; [reflexivity|]. split; [reflexivity|].
  apply Hwf. right. vm_compute. intros [H1 _]. by apply H1.
Defined.

Lemma NewStyle_SetCellStyle_witness :
  exists id f1 f2 f4, NewStyle (H := style_env example_settings) "" styled_file = Ret (ok id, f1) /\
    SetCellStyle (H := style_env example_settings) "Sheet1" "A1" "B2" id f1 = Ret (None, f2) /\
    GetCellStyle (H := style_env example_settings) "Sheet1" "B1" f2 = Ret (ok id, f4).
Proof.
  destruct (@NewStyle_SetCellStyle (style_env example_settings) styled_file example_styles "" example_settings
    "Sheet1" "xl/worksheets/sheet1.xml" gozero "A1" "B2" 1 1 2 2 eq_refl
    (proj1 example_styles_wf) (proj2 example_styles_wf) (style_env_marshals _)) as (id & f1 & f2 & s' & E1 & E2 & _ & _ & _ & Hg);
    try reflexivity; try discriminate; try (unfold maxInt; lia); try (apply gozero_sheet_wf); [split; reflexivity|].
  destruct (Hg "B1" 2 1) as (f3 & f4 & st & _ & G).
  - split; [unfold maxInt; lia|]. split; [unfold maxInt; lia|]. exists "B1". split; reflexivity.
  - exists id, f1, f2, f4. split; [exact E1|]. split; [exact E2|exact G].
Defined.

Lemma language_format_collides_witness :
  exists s1 fs1' s2 fs2', setNumFmt example_styles ((gozero : formatStyle) <| formatStyle_NumFmt := 36 |> <| formatStyle_Lang := "ko-kr" |>) =
      Ret (36, s1, fs1') /\
    setNumFmt s1 ((gozero : formatStyle) <| formatStyle_CustomNumFmt := Some "0.000" |>) = Ret (37, s2, fs2').
Proof.
  destruct (language_format_collides example_styles
    ((gozero : formatStyle) <| formatStyle_NumFmt := 36 |> <| formatStyle_Lang := "ko-kr" |>)
    ((gozero : formatStyle) <| formatStyle_CustomNumFmt := Some "0.000" |>) "ko-kr"
    (default "" (table_get "ko-kr" langNumFmt ≫= table_get 36)) "0.000") as (s1 & f1 & s2 & f2 & b & E1 & E2 & _); try reflexivity.
  exists s1, f1, s2, f2. split; [exact E1|exact E2].
Defined.

Lemma documented_formats_general_witness :
  exists fs', setNumFmt gozero ((gozero : formatStyle) <| formatStyle_NumFmt := 5 |>) = Ret (0, gozero, fs').
Proof. apply documented_formats_general; [cbn; lia|reflexivity..]. Defined.
