(* ===== verification/CondFormat.v ===== *)
(** Conditional formats ([styles.go]): the rules made from the settings. *)
From S2P Require Export Styles.

Section cond_format.
Context `{GoEnv}.

(** What every rule has: its priority, its type and the format to apply. *)
Definition cond_rule (p : Z) (format : formatConditional) : xlsxCfRule :=
  (gozero : xlsxCfRule) <| xlsxCfRule_Priority := p + 1 |>
    <| xlsxCfRule_Type := table_str (formatConditional_Type format) validType |>
    <| xlsxCfRule_DxfID := Some (formatConditional_Format format) |>.

Definition one_value (ct : string) : bool := bool_decide (ct ∈ ["equal"; "notEqual"; "greaterThan"; "lessThan"]).
Definition two_values (ct : string) : bool := bool_decide (ct ∈ ["between"; "notBetween"]).

Definition drawCondFmtCellIs (p : Z) (ct : string) (format : formatConditional) : xlsxCfRule :=
  let c := (cond_rule p format) <| xlsxCfRule_Operator := ct |> in
  let c := if two_values ct
           then c <| xlsxCfRule_Formula ::= fun l => l ++ [formatConditional_Minimum format; formatConditional_Maximum format] |>
           else c in
  if one_value ct then c <| xlsxCfRule_Formula ::= fun l => l ++ [formatConditional_Value format] |> else c.

Definition drawCondFmtTop10 (p : Z) (ct : string) (format : formatConditional) : xlsxCfRule :=
  let c := (cond_rule p format) <| xlsxCfRule_Rank := 10 |>
             <| xlsxCfRule_Percent := formatConditional_Percent format |> in
  match strconv_Atoi (formatConditional_Value format) with
  | (rank, None) => c <| xlsxCfRule_Rank := rank |>
  | (_, Some _) => c
  end.

Definition drawCondFmtAboveAverage (p : Z) (ct : string) (format : formatConditional) : xlsxCfRule :=
  (cond_rule p format) <| xlsxCfRule_AboveAverage := Some (formatConditional_AboveAverage format) |>.

Definition drawCondFmtDuplicateUniqueValues (p : Z) (ct : string) (format : formatConditional) : xlsxCfRule :=
  cond_rule p format.

Definition or_default (d value : string) : string := if bool_decide (value = "") then d else value.

Definition mk_cfvo (type value : string) : xlsxCfvo :=
  (gozero : xlsxCfvo) <| xlsxCfvo_Type := type |> <| xlsxCfvo_Val := value |>.

Definition drawCondFmtColorScale (p : Z) (ct : string) (format : formatConditional) : xlsxCfRule :=
  let minValue := or_default "0" (formatConditional_MinValue format) in
  let maxValue := or_default "0" (formatConditional_MaxValue format) in
  let midValue := or_default "50" (formatConditional_MidValue format) in
  let scale := mk_xlsxColorScale [mk_cfvo (formatConditional_MinType format) minValue]
                 [paletteColor (formatConditional_MinColor format)] in
  let scale := if bool_decide (table_str (formatConditional_Type format) validType = "3_color_scale")
               then mk_xlsxColorScale (xlsxColorScale_Cfvo scale ++ [mk_cfvo (formatConditional_MidType format) midValue])
                      (xlsxColorScale_Color scale ++ [paletteColor (formatConditional_MidColor format)])
               else scale in
  let scale := mk_xlsxColorScale (xlsxColorScale_Cfvo scale ++ [mk_cfvo (formatConditional_MaxType format) maxValue])
                 (xlsxColorScale_Color scale ++ [paletteColor (formatConditional_MaxColor format)]) in
  (gozero : xlsxCfRule) <| xlsxCfRule_Priority := p + 1 |> <| xlsxCfRule_Type := "colorScale" |>
    <| xlsxCfRule_ColorScale := Some scale |>.

Definition drawCondFmtDataBar (p : Z) (ct : string) (format : formatConditional) : xlsxCfRule :=
  (gozero : xlsxCfRule) <| xlsxCfRule_Priority := p + 1 |>
    <| xlsxCfRule_Type := table_str (formatConditional_Type format) validType |>
    <| xlsxCfRule_DataBar := Some ((gozero : xlsxDataBar)
         <| xlsxDataBar_Cfvo := [mk_cfvo (formatConditional_MinType format) ""; mk_cfvo (formatConditional_MaxType format) ""] |>
         <| xlsxDataBar_Color := [paletteColor (formatConditional_BarColor format)] |>) |>.

Definition drawConfFmtExp (p : Z) (ct : string) (format : formatConditional) : xlsxCfRule :=
  (cond_rule p format) <| xlsxCfRule_Formula := [formatConditional_Criteria format] |>.

Definition drawContFmtFunc : list (string * (Z -> string -> formatConditional -> xlsxCfRule)) := [
  ("cellIs", drawCondFmtCellIs);
  ("top10", drawCondFmtTop10);
  ("aboveAverage", drawCondFmtAboveAverage);
  ("duplicateValues", drawCondFmtDuplicateUniqueValues);
  ("uniqueValues", drawCondFmtDuplicateUniqueValues);
  ("2_color_scale", drawCondFmtColorScale);
  ("3_color_scale", drawCondFmtColorScale);
  ("dataBar", drawCondFmtDataBar);
  ("expression", drawConfFmtExp)].

(** The rule of one format, if its type and criteria are known. The criteria of
    an expression are the formula and need not be known. *)
Definition cond_format_rule (p : Z) (v : formatConditional) : list xlsxCfRule :=
  match table_get (formatConditional_Type v) validType with
  | None => []
  | Some vt =>
      let o := table_get (formatConditional_Criteria v) criteriaType in
      let ct := table_str (formatConditional_Criteria v) criteriaType in
      if bool_decide (is_Some o) || bool_decide (vt = "expression") then
        match table_get vt drawContFmtFunc with Some drawfunc => [drawfunc p ct v] | None => [] end
      else []
  end.

(** The formats are visited in order; a null one panics. *)
Fixpoint cond_format_rules (p : Z) (format : list (option formatConditional)) : outcome (list xlsxCfRule) :=
  match format with
  | [] => Ret []
  | None :: _ => Panic
  | Some v :: rest => rules ← cond_format_rules (p + 1) rest; Ret (cond_format_rule p v ++ rules)
  end.

Definition SetConditionalFormat (sheet area formatSet : string) : M (option goerr) :=
  let! format := mret (json_Unmarshal formatSet []) in
  let! p := workSheetReader sheet in
  cfRule ← lift (cond_format_rules 0 format);
  update p (fun xlsx => xlsx <| xlsxWorksheet_ConditionalFormatting ::=
    fun l => l ++ [mk_xlsxConditionalFormatting area cfRule] |>);;
  mret None.

End cond_format.

(** ** What a rule for cell values means

    [eval] gives the value of a formula and [v] is the value of the cell. A rule
    whose operator lacks its formulas has no meaning. *)
Definition rule_matches (eval : string -> Z) (v : Z) (rule : xlsxCfRule) : option bool :=
  let op := xlsxCfRule_Operator rule in
  match xlsxCfRule_Formula rule with
  | [a] =>
      let a := eval a in
      if bool_decide (op = "equal") then Some (v =? a)
      else if bool_decide (op = "notEqual") then Some (negb (v =? a))
      else if bool_decide (op = "greaterThan") then Some (a <? v)
      else if bool_decide (op = "lessThan") then Some (v <? a)
      else if bool_decide (op = "greaterThanOrEqual") then Some (a <=? v)
      else if bool_decide (op = "lessThanOrEqual") then Some (v <=? a)
      else None
  | [a; b] =>
      let inside := (eval a <=? v) && (v <=? eval b) in
      if bool_decide (op = "between") then Some inside
      else if bool_decide (op = "notBetween") then Some (negb inside)
      else None
  | _ => None
  end.

(** The criteria that the documentation of [SetConditionalFormat] lists for cell
    values, with what they say. *)
Definition documented_criteria : list (string * ((string -> Z) -> Z -> formatConditional -> bool)) :=
  let value (test : Z -> Z -> bool) eval v format := test v (eval (formatConditional_Value format)) in
  let inside eval v format :=
    (eval (formatConditional_Minimum format) <=? v) && (v <=? eval (formatConditional_Maximum format)) in
  [("between", inside); ("not between", fun eval v format => negb (inside eval v format));
   ("equal to", value Z.eqb); ("==", value Z.eqb);
   ("not equal to", value (fun a b => negb (a =? b))); ("!=", value (fun a b => negb (a =? b)));
   ("greater than", value Z.gtb); (">", value Z.gtb); ("less than", value Z.ltb); ("<", value Z.ltb);
   ("greater than or equal to", value Z.geb); (">=", value Z.geb);
   ("less than or equal to", value Z.leb); ("<=", value Z.leb)].

Definition or_equal : list string := ["greater than or equal to"; ">="; "less than or equal to"; "<="].

(** ** Properties *)

Section cond_format_properties.
Context `{GoEnv}.

Lemma cond_format_rules_ok p l :
  cond_format_rules p (Some <$> l) = Ret (concat (imap (fun k v => cond_format_rule (p + Z.of_nat k) v) l)).
Proof.
  revert p. induction l as [|v l IH]; intros p; [done|]. cbn [fmap list_fmap cond_format_rules]. rewrite IH. cbn [mbind outcome_bind].
  rewrite imap_cons. cbn [concat]. rewrite Z.add_0_r. do 3 f_equal. apply imap_ext. intros k x _. cbn. f_equal. lia.
Qed.

(** The types that make a rule when the criteria are known, and the one that
    always does. *)
Definition drawn_types : list string :=
  ["cell"; "average"; "duplicate"; "unique"; "top"; "bottom"; "2_color_scale"; "3_color_scale"; "data_bar"].

Definition makes_rule (v : formatConditional) : bool :=
  existsb (String.eqb (formatConditional_Type v)) drawn_types
    && bool_decide (is_Some (table_get (formatConditional_Criteria v) criteriaType))
  || String.eqb (formatConditional_Type v) "formula".

Lemma drawn_priority p ct v vt draw :
  table_get vt drawContFmtFunc = Some draw -> xlsxCfRule_Priority (draw p ct v) = p + 1.
Proof.
  intros Hd%table_get_elem. unfold drawContFmtFunc in Hd.
  repeat (apply elem_of_cons in Hd as [[= _ ->]|Hd]); [..|by apply elem_of_nil in Hd]; try done.
  - unfold drawCondFmtCellIs. by destruct (two_values ct), (one_value ct).
  - unfold drawCondFmtTop10. by destruct (strconv_Atoi _) as [? []].
Qed.

Lemma cond_format_rule_makes p v :
  if makes_rule v then exists r, cond_format_rule p v = [r] /\ xlsxCfRule_Priority r = p + 1 else cond_format_rule p v = [].
Proof.
  unfold cond_format_rule, makes_rule.
  assert (forall ct vt, is_Some (table_get vt drawContFmtFunc) ->
    exists r, match table_get vt drawContFmtFunc with Some draw => [draw p ct v] | None => [] end = [r] /\ xlsxCfRule_Priority r = p + 1) as Hdraw.
  { intros ct vt [draw Hd]. rewrite Hd. eexists. split; [done|by eapply drawn_priority]. }
  set (t := formatConditional_Type v). set (o := bool_decide (is_Some _)). set (ct := table_str _ _).
  destruct (table_get t validType) as [vt|] eqn:Ev.
  - pose proof (table_get_elem _ _ _ Ev) as Hin. unfold validType in Hin.
    repeat (apply elem_of_cons in Hin as [[= -> ->]|Hin]); [..|by apply elem_of_nil in Hin];
      cbn -[drawContFmtFunc table_get]; destruct o; cbn -[drawContFmtFunc table_get];
      first [reflexivity | apply Hdraw; by eexists | rewrite bool_decide_true by done; apply Hdraw; by eexists].
  - assert (existsb (String.eqb t) drawn_types = false) as ->.
    { apply not_true_is_false. rewrite existsb_exists. intros (x & Hx & E%String.eqb_eq). rewrite E in Ev.
      repeat (destruct Hx as [<-|Hx]; [by vm_compute in Ev|]). done. }
    destruct (String.eqb_spec t "formula") as [E|]; [|done]. rewrite E in Ev. by vm_compute in Ev.
Qed.

(** The rules, by their priorities: the one of the format at index [k] has the
    priority [k + 1]. *)
Lemma rules_lookup (l : list formatConditional) (r : xlsxCfRule) :
  r ∈ concat (imap (fun k v => cond_format_rule (Z.of_nat k) v) l) <->
  exists k v, l !! k = Some v /\ cond_format_rule (Z.of_nat k) v = [r].
Proof.
  split.
  - intros (ls & Hls & Hr)%list_elem_of_In%in_concat. apply list_elem_of_In, list_elem_of_lookup in Hls as [k Hk].
    rewrite list_lookup_imap in Hk. apply fmap_Some in Hk as (v & Hv & ->).
    exists k, v. split; [done|]. pose proof (cond_format_rule_makes (Z.of_nat k) v) as Hm.
    destruct (makes_rule v); [destruct Hm as (r' & E & _)|]; rewrite ?E, ?Hm in Hr |- *; [|done].
    destruct Hr as [->|[]]. done.
  - intros (k & v & Hv & E). apply list_elem_of_In, in_concat. exists [r]. split; [|by left].
    apply list_elem_of_In, list_elem_of_lookup. exists k. rewrite list_lookup_imap, Hv. cbn. by rewrite E.
Qed.

Lemma SetConditionalFormat_ok f sheet path xlsx area formatSet l :
  loaded f sheet path xlsx -> json_Unmarshal formatSet [] = ok (Some <$> l) ->
  exists rules, SetConditionalFormat sheet area formatSet f =
      Ret (None, with_sheet f path (xlsx <| xlsxWorksheet_ConditionalFormatting ::=
        fun c => c ++ [mk_xlsxConditionalFormatting area rules] |>)) /\
    (forall k v, l !! k = Some v -> makes_rule v = true ->
       exists r, r ∈ rules /\ cond_format_rule (Z.of_nat k) v = [r] /\ xlsxCfRule_Priority r = Z.of_nat k + 1) /\
    (forall r, r ∈ rules -> exists k v, l !! k = Some v /\ makes_rule v = true /\ cond_format_rule (Z.of_nat k) v = [r]).
Proof.
  intros Hl Hj. exists (concat (imap (fun k v => cond_format_rule (Z.of_nat k) v) l)). split; [|split].
  - unfold SetConditionalFormat. rewrite Hj, (bind_Ret _ _ f (ok (Some <$> l)) f) by done.
    rewrite (bind_Ret _ _ _ _ _ (workSheetReader_loaded _ _ _ _ Hl)). cbn [fst snd].
    rewrite cond_format_rules_ok, bind_lift.
    rewrite (bind_Ret _ _ _ _ _ (update_loaded f path xlsx _ (proj2 Hl))). done.
  - intros k v Hv Hm. pose proof (cond_format_rule_makes (Z.of_nat k) v) as H1. rewrite Hm in H1.
    destruct H1 as (r & E & Hp). exists r. split; [|done]. apply rules_lookup. by exists k, v.
  - intros r (k & v & Hv & E)%rules_lookup. exists k, v. split; [done|]. split; [|done].
    pose proof (cond_format_rule_makes (Z.of_nat k) v) as H1. destruct (makes_rule v); [done|]. by rewrite H1 in E.
Qed.

(** C16. The rules for a text that decodes to a list of formats: the sheet gets one
    more conditional formatting, on the given area, and nothing else changes. Its
    rules are one for each format whose type and criteria the code draws, with
    the position of the format in the list as priority, and no others. *)
Theorem SetConditionalFormat_correct f sheet path xlsx area formatSet l :
  loaded f sheet path xlsx -> json_Unmarshal formatSet [] = ok (Some <$> l) ->
  exists rules, SetConditionalFormat sheet area formatSet f =
      Ret (None, with_sheet f path (xlsx <| xlsxWorksheet_ConditionalFormatting ::=
        fun c => c ++ [mk_xlsxConditionalFormatting area rules] |>)) /\
    (forall k v, l !! k = Some v -> makes_rule v = true ->
       exists r, r ∈ rules /\ cond_format_rule (Z.of_nat k) v = [r] /\ xlsxCfRule_Priority r = Z.of_nat k + 1) /\
    (forall r, r ∈ rules -> exists k v, l !! k = Some v /\ makes_rule v = true /\ cond_format_rule (Z.of_nat k) v = [r]).
Proof. apply SetConditionalFormat_ok. Qed.

Lemma cellIs_fields p ct format :
  let rule := drawCondFmtCellIs p ct format in
  xlsxCfRule_Type rule = table_str (formatConditional_Type format) validType /\
  xlsxCfRule_DxfID rule = Some (formatConditional_Format format) /\ xlsxCfRule_Operator rule = ct /\
  xlsxCfRule_Formula rule =
    (if two_values ct then [formatConditional_Minimum format; formatConditional_Maximum format] else [])
    ++ (if one_value ct then [formatConditional_Value format] else []).
Proof. unfold drawCondFmtCellIs. by destruct (two_values ct), (one_value ct). Qed.

(** C28. What the rule for cell values means: for every criterion that the
    documentation lists, other than those with "or equal", the rule holds for a
    value exactly when the criterion does. For the criteria with "or equal" the
    rule has the operator but not its formula, so that it has no meaning. *)
Theorem cellIs_meaning p format criteria meaning :
  formatConditional_Type format = "cell" -> formatConditional_Criteria format = criteria ->
  (criteria, meaning) ∈ documented_criteria ->
  exists rule, cond_format_rule p format = [rule] /\ xlsxCfRule_Type rule = "cellIs" /\
    xlsxCfRule_DxfID rule = Some (formatConditional_Format format) /\
    forall eval v, rule_matches eval v rule =
      if bool_decide (criteria ∈ or_equal) then None else Some (meaning eval v format).
Proof.
  intros Ht Hc Hm. unfold documented_criteria in Hm.
  assert (forall ct, table_get criteria criteriaType = Some ct -> cond_format_rule p format = [drawCondFmtCellIs p ct format]) as Hrule.
  { intros ct E. unfold cond_format_rule, table_str. by rewrite Ht, Hc, E. }
  repeat (apply elem_of_cons in Hm as [[= -> ->]|Hm]); [..|by apply elem_of_nil in Hm];
    (eexists; split; [apply Hrule; reflexivity|];
     match goal with |- context [drawCondFmtCellIs p ?ct format] =>
       destruct (cellIs_fields p ct format) as (E1 & E2 & E3 & E4) end;
     split; [by rewrite E1, Ht|]; split; [done|]; intros eval v; unfold rule_matches; rewrite E3, E4;
     cbn; rewrite ?Z.gtb_ltb; done).
Qed.

(** A format of type "bottom" makes the rule of a format of type "top": nothing
    in it says that the lowest values are meant. *)
Theorem bottom_is_top p format :
  formatConditional_Type format = "bottom" ->
  cond_format_rule p format = cond_format_rule p (format <| formatConditional_Type := "top" |>).
Proof.
  intros Ht. unfold cond_format_rule. cbn -[validType criteriaType drawContFmtFunc table_get]. rewrite Ht.
  assert (table_get "bottom" validType = Some "top10" /\ table_get "top" validType = Some "top10") as [-> ->] by done.
  change (table_get "top10" drawContFmtFunc) with (Some drawCondFmtTop10).
  destruct (_ || _); [|done]. unfold drawCondFmtTop10, cond_rule. cbn -[table_str strconv_Atoi]. rewrite Ht.
  by destruct (strconv_Atoi _) as [? []].
Qed.

(** The types for dates, periods, texts, blanks and errors, which the
    documentation lists and the table of types accepts, make no rule: the call
    succeeds and the sheet gets a conditional formatting without rules. *)
Theorem undrawn_types f sheet path xlsx area formatSet l :
  loaded f sheet path xlsx -> json_Unmarshal formatSet [] = ok (Some <$> l) ->
  Forall (fun v => formatConditional_Type v ∈ ["date"; "time_period"; "text"; "blanks"; "no_blanks"; "errors"; "no_errors"]) l ->
  SetConditionalFormat sheet area formatSet f =
    Ret (None, with_sheet f path (xlsx <| xlsxWorksheet_ConditionalFormatting ::=
      fun c => c ++ [mk_xlsxConditionalFormatting area []] |>)).
Proof.
  intros Hl Hj Hall. destruct (SetConditionalFormat_ok f sheet path xlsx area formatSet l Hl Hj) as (rules & E & _ & Hr).
  destruct rules as [|r rules]; [done|]. exfalso. destruct (Hr r) as (k & v & Hv & Hm & _); [by apply list_elem_of_here|].
  rewrite Forall_lookup in Hall. specialize (Hall _ _ Hv). unfold makes_rule in Hm.
  repeat (apply elem_of_cons in Hall as [Ht|Hall]; [rewrite Ht in Hm; by vm_compute in Hm|]). by apply elem_of_nil in Hall.
Qed.

End cond_format_properties.

(** ** Witnesses *)

Definition cond_env (l : list formatConditional) : GoEnv :=
  example_env <| (@env_json_conditional) := fun _ _ => (Some <$> l, None) |>.

Definition example_format (t criteria : string) : formatConditional :=
  (gozero : formatConditional) <| formatConditional_Type := t |> <| formatConditional_Criteria := criteria |>
    <| formatConditional_Value := "6" |> <| formatConditional_Format := 2 |>.

Lemma SetConditionalFormat_correct_witness :
  exists rules, SetConditionalFormat (H := cond_env [example_format "text" ">"; example_format "cell" ">"]) "Sheet1" "A1:A9" ""
      (example_file gozero) =
      Ret (None, with_sheet (example_file gozero) "xl/worksheets/sheet1.xml"
        ((gozero : xlsxWorksheet) <| xlsxWorksheet_ConditionalFormatting := [mk_xlsxConditionalFormatting "A1:A9" rules] |>)) /\
    exists r, r ∈ rules /\ xlsxCfRule_Priority r = 2.
Proof.
  destruct (@SetConditionalFormat_correct (cond_env [example_format "text" ">"; example_format "cell" ">"]) (example_file gozero)
    "Sheet1" _ gozero "A1:A9" "" [example_format "text" ">"; example_format "cell" ">"] (example_loaded gozero) eq_refl)
    as (rules & E & H1 & _).
  exists rules. split; [exact E|]. destruct (H1 1%nat (example_format "cell" ">") eq_refl eq_refl) as (r & Hr & _ & Hp).
  exists r. split; [exact Hr|exact Hp].
Defined.

Lemma cellIs_meaning_witness :
  exists rule, cond_format_rule (H := example_env) 0 (example_format "cell" ">") = [rule] /\
    rule_matches (fun _ => 6) 7 rule = Some true /\
    exists rule', cond_format_rule (H := example_env) 0 (example_format "cell" ">=") = [rule'] /\ rule_matches (fun _ => 6) 7 rule' = None.
Proof.
  destruct (@cellIs_meaning example_env 0 (example_format "cell" ">") ">" _ eq_refl eq_refl
    (list_elem_of_lookup_2 documented_criteria 7 _ eq_refl)) as (r & E & _ & _ & Hm).
  exists r. split; [exact E|]. split; [rewrite Hm; reflexivity|].
  destruct (@cellIs_meaning example_env 0 (example_format "cell" ">=") ">=" _ eq_refl eq_refl
    (list_elem_of_lookup_2 documented_criteria 11 _ eq_refl)) as (r' & E' & _ & _ & Hm').
  exists r'. split; [exact E'|]. rewrite Hm'. reflexivity.
Defined.

Lemma bottom_is_top_witness :
  cond_format_rule (H := example_env) 0 (example_format "bottom" "=") = cond_format_rule (H := example_env) 0 (example_format "top" "=").
Proof. exact (@bottom_is_top example_env 0 (example_format "bottom" "=") eq_refl). Defined.

Lemma undrawn_types_witness :
  SetConditionalFormat (H := cond_env [example_format "errors" ""]) "Sheet1" "A1" "" (example_file gozero) =
    Ret (None, with_sheet (example_file gozero) "xl/worksheets/sheet1.xml"
      ((gozero : xlsxWorksheet) <| xlsxWorksheet_ConditionalFormatting := [mk_xlsxConditionalFormatting "A1" []] |>)).
Proof.
  refine (@undrawn_types (cond_env [example_format "errors" ""]) (example_file gozero) "Sheet1" _ gozero "A1" ""
    [example_format "errors" ""] (example_loaded gozero) eq_refl _).
  constructor; [|constructor]. apply (bool_decide_unpack _). reflexivity.
Defined.
