(* ===== verification/CellValue.v ===== *)
(** Values of any type ([cell.go], [excelize.go]): [SetCellValue], its integer and
    time cases, the default style of times, and whole rows of values. *)
From S2P Require Export Styles.

(** ** Dynamic values

    The types that the code's type switch tells apart. An integer comes with its
    type; a [float32] is held as the [float64] it converts to, a slice of bytes as
    the string it converts to, and a value of another type as its text under the
    verb [%v]. *)
Inductive int_kind : Type :=
| K_int | K_int8 | K_int16 | K_int32 | K_int64 | K_uint | K_uint8 | K_uint16 | K_uint32 | K_uint64.

Definition kind_min (k : int_kind) : Z :=
  match k with
  | K_int | K_int64 => minInt
  | K_int8 => -128 | K_int16 => -32768 | K_int32 => -2147483648
  | _ => 0
  end.

Definition kind_max (k : int_kind) : Z :=
  match k with
  | K_int | K_int64 => maxInt
  | K_int8 => 127 | K_int16 => 32767 | K_int32 => 2147483647
  | K_uint8 => 255 | K_uint16 => 65535 | K_uint32 => 4294967295
  | K_uint | K_uint64 => maxUint64
  end.

Inductive value : Type :=
| V_int (k : int_kind) (v : Z)
| V_float32 (v : float64)
| V_float64 (v : float64)
| V_string (v : string)
| V_bytes (v : string)
| V_Duration (v : Z)
| V_Time (v : go_time)
| V_bool (v : bool)
| V_nil
| V_other (text : string).

(** [d.Seconds()]: the quotient and the remainder are truncated towards zero. *)
Definition duration_Seconds (d : Z) : float64 :=
  f64_add (f64_of_int (Z.quot d nanos_per_sec)) (f64_div (f64_of_int (Z.rem d nanos_per_sec)) (f64_of_int nanos_per_sec)).

Definition RFC3339Nano : string := "2006-01-02T15:04:05.999999999Z07:00".

Section cell_value.
Context `{GoEnv}.

(** ** [excelize.go], [cell.go] *)

(** The errors of [NewStyle] and [SetCellStyle] are ignored. *)
Definition default_style_text (format : Z) : string :=
  "{" +:+ dq +:+ "number_format" +:+ dq +:+ ": " +:+ strconv_Itoa format +:+ "}".

Definition setDefaultTimeStyle (sheet axis : string) (format : Z) : M (option goerr) :=
  let! s := GetCellStyle sheet axis in
  (if s =? 0
   then style ← NewStyle (default_style_text format); SetCellStyle sheet axis axis style.1;; mret tt
   else mret tt);;
  mret None.

(** [int(v)] of an integer of any kind. *)
Definition setCellIntFunc (sheet axis : string) (k : int_kind) (v : Z) : M (option goerr) :=
  SetCellInt sheet axis (wrap64 v).

Definition setCellTimeFunc (sheet axis : string) (t : go_time) : M (option goerr) :=
  let! excelTime := mret (timeToExcelTime t) in
  if f64_ltb f64_zero excelTime then
    text ← lift (strconv_FormatFloat_f excelTime (-1) 64);
    try! SetCellDefault sheet axis text in
    try! setDefaultTimeStyle sheet axis 22 in
    mret None
  else
    try! SetCellStr sheet axis (time_Format t RFC3339Nano) in
    mret None.

Definition SetCellValue (sheet axis : string) (v : value) : M (option goerr) :=
  match v with
  | V_int k v => setCellIntFunc sheet axis k v
  | V_float32 v => SetCellFloat sheet axis v (-1) 32
  | V_float64 v => SetCellFloat sheet axis v (-1) 64
  | V_string v => SetCellStr sheet axis v
  | V_bytes v => SetCellStr sheet axis v
  | V_Duration v =>
      text ← lift (strconv_FormatFloat_f (f64_div (duration_Seconds v) (f64_of_int 86400)) (-1) 32);
      try! SetCellDefault sheet axis text in
      setDefaultTimeStyle sheet axis 21
  | V_Time v => setCellTimeFunc sheet axis v
  | V_bool v => SetCellBool sheet axis v
  | V_nil => SetCellStr sheet axis ""
  | V_other text => SetCellStr sheet axis text
  end.

(** The argument of [SetSheetRow]: a pointer to a slice, or anything else. *)
Inductive row_argument : Type :=
| SlicePtr (l : list value)
| NotSlicePtr.

(** The error of [SetCellValue] is ignored, that of the cell name is not. *)
Fixpoint set_row_values (sheet : string) (col row : Z) (l : list value) : M (option goerr) :=
  match l with
  | [] => mret None
  | v :: rest =>
      let! cell := mret (CoordinatesToCellName col row) in
      SetCellValue sheet cell v;;
      set_row_values sheet (iadd col 1) row rest
  end.

Definition SetSheetRow (sheet axis : string) (slice : row_argument) : M (option goerr) :=
  let! (col, row) := mret (CellNameToCoordinates axis) in
  match slice with
  | NotSlicePtr => mret (Some (ErrText "pointer to slice expected"))
  | SlicePtr l => set_row_values sheet col row l
  end.

End cell_value.

(** ** Plain values *)

(** The text that a value other than a time or a duration is stored as. *)
Definition plain_text (v : value) : option string :=
  match v with
  | V_int k v => Some (strconv_Itoa (wrap64 v))
  | V_float32 v => Some (format_shortest f32_prec f32_emax (f32_round v))
  | V_float64 v => Some (format_shortest f64_prec f64_emax v)
  | V_string s | V_bytes s | V_other s => Some (if 32767 <? len s then str_take (Z.to_nat 32767) s else s)
  | V_bool b => Some (if b then "1" else "0")
  | V_nil => Some ""
  | V_Duration _ | V_Time _ => None
  end.

(** What it stores, as one of the plain setters would. *)
Definition plain_write (v : value) : option cell_write :=
  match v with
  | V_int _ v => Some (WriteInt (wrap64 v))
  | V_float32 v => Some (WriteDefault (format_shortest f32_prec f32_emax (f32_round v)))
  | V_float64 v => Some (WriteFloat v (-1))
  | V_string s | V_bytes s | V_other s => Some (WriteStr s)
  | V_bool b => Some (WriteBool b)
  | V_nil => Some (WriteStr "")
  | V_Duration _ | V_Time _ => None
  end.

Section plain_values.
Context `{GoEnv}.

Lemma SetCellValue_write v w sheet axis :
  plain_write v = Some w -> SetCellValue sheet axis v = set_cell sheet axis (write_content w).
Proof. destruct v; intros [= <-]; reflexivity. Qed.

Lemma SetCellValue_stores v text :
  plain_text v = Some text ->
  exists g, stores g text /\ forall sheet axis, SetCellValue sheet axis v = set_cell sheet axis g.
Proof.
  assert (forall w, exists g, stores g (written_text w) /\
    forall sheet axis, write_op w sheet axis = set_cell sheet axis g) as Hw.
  { intros [v'|b|v' prec|s|s].
    - eexists. split; [|reflexivity]. exists "". split; [by left|done].
    - eexists. split; [|reflexivity]. exists "b". split; [by right; left|done].
    - unfold write_op, SetCellFloat, strconv_FormatFloat_f. cbn [Z.eqb Pos.eqb].
      eexists. split; [|reflexivity]. exists "". split; [by left|done].
    - eexists. split; [|reflexivity]. exists "str". split; [by right; right; left|]. intros c. cbn. by repeat case_match.
    - eexists. split; [|reflexivity]. exists "". split; [by left|done]. }
  intros E. destruct v as [k v|v|v|s|s|v|v|b| |s]; unfold plain_text in E; try discriminate E; apply (inj Some) in E; subst text.
  - exact (Hw (WriteInt (wrap64 v))).
  - unfold SetCellValue, SetCellFloat, strconv_FormatFloat_f. cbn [Z.eqb Pos.eqb].
    eexists. split; [|reflexivity]. exists "". split; [by left|done].
  - exact (Hw (WriteFloat v (-1))).
  - exact (Hw (WriteStr s)).
  - exact (Hw (WriteStr s)).
  - exact (Hw (WriteBool b)).
  - destruct (Hw (WriteStr "")) as (g & Hg & E). exists g. split; [exact Hg|exact E].
  - exact (Hw (WriteStr s)).
Qed.

(** *** Errors

    A call for one cell is refused when the sheet is missing, or when the name, in
    upper case, is no cell name. *)
Inductive cell_call : Type :=
| CallSetValue (v : value) | CallSetFormula (formula : string) | CallGetValue | CallGetFormula | CallGetStyle.

Definition call_error (c : cell_call) (sheet axis : string) : M (option goerr) :=
  match c with
  | CallSetValue v => SetCellValue sheet axis v
  | CallSetFormula formula => SetCellFormula sheet axis formula
  | CallGetValue => r ← GetCellValue sheet axis; mret r.2
  | CallGetFormula => r ← GetCellFormula sheet axis; mret r.2
  | CallGetStyle => r ← GetCellStyle sheet axis; mret r.2
  end.

Inductive refused (f : File) (sheet axis : string) : goerr -> Prop :=
| refused_sheet : File_sheetMap f !! trimSheetName sheet = None -> refused f sheet axis (sheet_not_exist sheet)
| refused_name path xlsx v e : loaded f sheet path xlsx -> CellNameToCoordinates (strings_ToUpper axis) = (v, Some e) ->
    refused f sheet axis e.

(** A name of a cell whose coordinates are in range. *)
Definition names_cell (s : string) : Prop := exists col row, CellNameToCoordinates s = ok (col, row) /\ coord col /\ coord row.

Lemma merge_loop_bad areas axis v e :
  CellNameToCoordinates axis = (v, Some e) -> merge_loop areas axis = ok axis \/ merge_loop areas axis = (axis, Some e).
Proof.
  intros E. destruct areas as [|area rest]; [by left|right]. cbn [merge_loop]. unfold checkCellInArea. rewrite E. by destruct v.
Qed.

Lemma merge_loop_names areas : forall axis,
  Forall (fun a => names_cell (ref_start (xlsxMergeCell_Ref a))) areas -> names_cell axis ->
  exists cell, merge_loop areas axis = ok cell /\ names_cell cell.
Proof.
  induction areas as [|a areas IH]; intros axis Ha Hn; [by exists axis|]. apply Forall_cons_1 in Ha as [Ha Hrest].
  cbn [merge_loop]. destruct (checkCellInArea axis (xlsxMergeCell_Ref a)) as [b o] eqn:E.
  assert (o = None) as ->.
  { destruct Hn as (c & r & Ec & _). unfold checkCellInArea in E. rewrite Ec in E. cbn [fst snd] in E.
    destruct (strings_Split _ _) as [|x [|y [|z l]]]; try by injection E.
    destruct (CellNameToCoordinates x).1, (CellNameToCoordinates y).1. by injection E. }
  destruct b; apply IH; done.
Qed.

Lemma prepareCell_refused f path xlsx axis v e :
  File_Sheet f !! path = Some xlsx -> CellNameToCoordinates (strings_ToUpper axis) = (v, Some e) ->
  prepareCell (Some path) axis f = Ret ((nil_cell, 0, 0, Some e), f).
Proof.
  intros Hs E. unfold prepareCell. rewrite (bind_Ret _ _ _ _ _ (deref_loaded _ _ _ Hs)). unfold mergeCellsParser.
  destruct (merge_loop_bad (merge_areas xlsx) _ v e E) as [-> | ->]; [|done].
  rewrite (bind_Ret _ _ f (ok (strings_ToUpper axis)) f) by done. cbn [fst snd]. rewrite E. by destruct v.
Qed.

Lemma set_cell_refused f sheet axis e g : refused f sheet axis e -> set_cell sheet axis g f = Ret (Some e, f).
Proof.
  intros [Hm|path xlsx v e' Hl E]; unfold set_cell; [by rewrite (bind_Ret _ _ _ _ _ (workSheetReader_missing _ _ Hm))|].
  rewrite (bind_Ret _ _ _ _ _ (workSheetReader_loaded _ _ _ _ Hl)). cbn [fst snd].
  by rewrite (bind_Ret _ _ _ _ _ (prepareCell_refused _ _ _ _ _ _ (proj2 Hl) E)).
Qed.

Lemma getCellStringFunc_refused f sheet axis e fn :
  refused f sheet axis e -> getCellStringFunc sheet axis fn f = Ret (("", Some e), f).
Proof.
  intros [Hm|path xlsx v e' Hl E]; unfold getCellStringFunc; [by rewrite (bind_Ret _ _ _ _ _ (workSheetReader_missing _ _ Hm))|].
  rewrite (bind_Ret _ _ _ _ _ (workSheetReader_loaded _ _ _ _ Hl)). cbn [fst snd].
  rewrite (bind_Ret _ _ _ _ _ (deref_loaded _ _ _ (proj2 Hl))). unfold mergeCellsParser.
  destruct (merge_loop_bad (merge_areas xlsx) _ v e' E) as [-> | ->]; [|done].
  rewrite (bind_Ret _ _ f (ok (strings_ToUpper axis)) f) by done. cbn [fst snd]. rewrite E. by destruct v.
Qed.

Lemma GetCellFormula_total f sheet path xlsx axis col row :
  loaded f sheet path xlsx -> resolves xlsx axis col row -> exists t, GetCellFormula sheet axis f = Ret (ok t, f).
Proof.
  intros Hl (_ & _ & cell & Em & Ec). unfold GetCellFormula, getCellStringFunc.
  rewrite (bind_Ret _ _ _ _ _ (workSheetReader_loaded _ _ _ _ Hl)). cbn [fst snd].
  rewrite (bind_Ret _ _ _ _ _ (deref_loaded _ _ _ (proj2 Hl))), Em. rewrite (bind_Ret _ _ f (ok cell) f) by done. cbn [fst snd].
  rewrite Ec. rewrite (bind_Ret _ _ f (ok (col, row)) f) by done. cbn [fst snd]. case_match; [by eexists|].
  assert (forall C, exists o, get_in_cells cell C (fun c => mret (cell_formula xlsx c)) f = Ret (o, f) /\
    forall r, o = Some r -> r.2 = None) as HC.
  { induction C as [|c C [o IH]]; [by exists None|]. cbn [get_in_cells]. destruct (negb _); [by exists o|].
    rewrite (bind_Ret _ _ f (cell_formula xlsx c) f) by done. unfold cell_formula.
    destruct (xlsxC_F c); [|by exists o]. case_bool_decide; eexists; (split; [reflexivity|]); by intros r [= <-]. }
  assert (exists o, get_in_rows cell row (sheet_rows xlsx) (fun c => mret (cell_formula xlsx c)) f = Ret (o, f) /\
    forall r, o = Some r -> r.2 = None) as (o & E & Ho).
  { generalize (sheet_rows xlsx) as Row. induction Row as [|x Row [o IH]]; [by exists None|]. cbn [get_in_rows]. destruct (negb _); [by exists o|].
    destruct (HC (xlsxRow_C x)) as (o' & E' & Ho'). rewrite (bind_Ret _ _ _ _ _ E'). destruct o' as [r|]; [|by exists o].
    exists (Some r). split; [done|exact Ho']. }
  rewrite (bind_Ret _ _ _ _ _ E). destruct o as [[t e]|]; [|by exists ""]. exists t. specialize (Ho _ eq_refl). cbn in Ho. by subst.
Qed.

(** Calls that set a value or a formula or that read no number format. *)
Definition plain_call (c : cell_call) : Prop :=
  match c with
  | CallSetValue v => is_Some (plain_text v)
  | CallSetFormula formula => formula <> ""
  | CallGetValue => False
  | _ => True
  end.

Definition utc_call (c : cell_call) : Prop :=
  match c with CallSetValue (V_Time t) => (timeToExcelTime t).2 = None | _ => True end.

Lemma call_refused c f sheet axis e : utc_call c -> refused f sheet axis e -> call_error c sheet axis f = Ret (Some e, f).
Proof.
  intros Hu He. pose proof (fun g => set_cell_refused f sheet axis e g He) as Hset.
  assert (forall text, SetCellDefault sheet axis text f = Ret (Some e, f)) as Hd by (intros; apply Hset).
  assert (forall text, SetCellStr sheet axis text f = Ret (Some e, f)) as Hs by (intros; apply Hset).
  destruct c as [v|formula| | |]; cbn [call_error].
  - destruct v as [k v|v|v|s|s|d|t|b| |s]; cbn [SetCellValue]; try by apply Hset.
    + unfold strconv_FormatFloat_f. cbn [Z.eqb Pos.eqb]. rewrite bind_lift. by rewrite (bind_Ret _ _ _ _ _ (Hd _)).
    + cbn in Hu. unfold setCellTimeFunc. destruct (timeToExcelTime t) as [x o]. cbn in Hu. subst o.
      rewrite (bind_Ret _ _ f (ok x) f) by done. cbn [fst snd]. destruct (f64_ltb f64_zero x).
      * unfold strconv_FormatFloat_f. cbn [Z.eqb Pos.eqb]. rewrite bind_lift. by rewrite (bind_Ret _ _ _ _ _ (Hd _)).
      * by rewrite (bind_Ret _ _ _ _ _ (Hs _)).
  - destruct He as [Hm|path xlsx v e' Hl E]; unfold SetCellFormula; [by rewrite (bind_Ret _ _ _ _ _ (workSheetReader_missing _ _ Hm))|].
    rewrite (bind_Ret _ _ _ _ _ (workSheetReader_loaded _ _ _ _ Hl)). cbn [fst snd].
    by rewrite (bind_Ret _ _ _ _ _ (prepareCell_refused _ _ _ _ _ _ (proj2 Hl) E)).
  - unfold GetCellValue. by rewrite (bind_Ret _ _ _ _ _ (getCellStringFunc_refused _ _ _ _ _ He)).
  - unfold GetCellFormula. by rewrite (bind_Ret _ _ _ _ _ (getCellStringFunc_refused _ _ _ _ _ He)).
  - rewrite (bind_Ret _ _ f (0, Some e) f); [done|].
    destruct He as [Hm|path xlsx v e' Hl E]; unfold GetCellStyle; [by rewrite (bind_Ret _ _ _ _ _ (workSheetReader_missing _ _ Hm))|].
    rewrite (bind_Ret _ _ _ _ _ (workSheetReader_loaded _ _ _ _ Hl)). cbn [fst snd].
    by rewrite (bind_Ret _ _ _ _ _ (prepareCell_refused _ _ _ _ _ _ (proj2 Hl) E)).
Qed.

(** C40. The errors of the calls for one cell. A call to set a value or a formula, or to
    read the value, the formula or the style, returns an error when the sheet is
    missing or the name, in upper case, is no cell name, whatever merged areas the
    sheet has: the error is that of the sheet or of the conversion of the name,
    and the file is not changed. These are all the errors: on a sheet in memory
    whose merged areas, which may overlap, begin with names of cells, a call with
    a name of a cell returns none. (Times that are not in UTC are refused first.
    The second part is for values other than times and durations, formulas that
    are not empty, and the readers of formulas and styles.) *)
Theorem cell_call_errors c sheet axis f :
  utc_call c ->
  (forall e, refused f sheet axis e -> call_error c sheet axis f = Ret (Some e, f)) /\
  (forall path xlsx, loaded f sheet path xlsx -> wf_sheet xlsx ->
     Forall (fun a => names_cell (ref_start (xlsxMergeCell_Ref a))) (merge_areas xlsx) ->
     names_cell (strings_ToUpper axis) -> plain_call c ->
     exists f', call_error c sheet axis f = Ret (None, f')).
Proof.
  intros Hu. split; [intros e; by apply call_refused|]. intros path xlsx Hl Hwf Hareas Hname Hplain.
  destruct (merge_loop_names (merge_areas xlsx) _ Hareas Hname) as (cell & Em & col & row & Ec & Hcol & Hrow).
  assert (resolves xlsx axis col row) as Hres by (split_and!; try lia; by exists cell).
  destruct c as [v|formula| | |]; cbn [call_error]; cbn in Hplain.
  - destruct Hplain as [text Hv]. destruct (SetCellValue_stores v text Hv) as (g & Hg & ->).
    destruct (set_cell_spec f sheet path xlsx axis col row g Hl Hwf Hres) as (x & E & _); [destruct Hg as (t & _ & Hg); intros c; apply Hg|by eexists].
  - destruct (SetCellFormula_spec f sheet path xlsx axis col row formula Hl Hwf Hres Hplain) as (x & E & _). by eexists.
  - done.
  - destruct (GetCellFormula_total f sheet path xlsx axis col row Hl Hres) as (t & E). rewrite (bind_Ret _ _ _ _ _ E). by eexists.
  - destruct (GetCellStyle_ok f sheet path xlsx axis col row Hl Hres) as (x & _ & E). rewrite (bind_Ret _ _ _ _ _ E). by eexists.
Qed.

(** C9. [SetCellValue] with a value that is no time: on a sheet in memory, for every
    name that designates a position in canonical form, the call succeeds and
    [GetCellValue] returns the text of the value through the number format of
    the cell. An integer of any type is stored as its decimal text when it fits
    in an [int]; an unsigned one above that range is stored as the negative
    number with the same bits. *)
Theorem SetCellValue_GetCellValue f sheet path xlsx axis col row v text :
  loaded f sheet path xlsx -> wf_sheet xlsx -> coord col -> coord row ->
  mergeCellsParser xlsx axis = ok (cell_name col row) -> plain_text v = Some text ->
  (exists xlsx' c,
    SetCellValue sheet axis v f = Ret (None, with_sheet f path xlsx') /\ wf_sheet xlsx' /\
    sheet_cell xlsx' col row = Some c /\
    GetCellValue sheet axis (with_sheet f path xlsx') =
      (sharedStringsReader;; v ← formattedValue (xlsxC_S c) text; mret (ok v)) (with_sheet f path xlsx') /\
    (xlsxWorksheet_Cols xlsx = None -> from_option xlsxC_S 0 (sheet_cell xlsx col row) = 0 ->
       exists f', GetCellValue sheet axis (with_sheet f path xlsx') = Ret (ok text, f'))) /\
  (forall k n, v = V_int k n -> kind_min k <= n <= kind_max k ->
     text = strconv_Itoa (if n <=? maxInt then n else n - two64)).
Proof.
  intros Hl Hwf Hc Hr Hm Hv. split.
  - destruct (SetCellValue_stores v text Hv) as (g & Hg & E). rewrite E. by apply set_cell_read.
  - intros k n -> Hn. cbn in Hv. injection Hv as <-. f_equal.
    assert (minInt <= n < two64) as Hrange by (destruct k; cbn in Hn; unfold minInt, maxInt, maxUint64, two64 in *; lia).
    destruct (Z.leb_spec n maxInt); [apply wrap64_id; lia|].
    transitivity (wrap64 (n - two64)); [|apply wrap64_id; unfold minInt, maxInt, two64 in *; lia].
    apply wrap64_mod. unfold two64. replace n with (n - 18446744073709551616 + 1 * 18446744073709551616) at 1 by lia.
    by rewrite Z.mod_add.
Qed.

End plain_values.

(** ** Times *)

Lemma prepareSheetXML_present xlsx col row :
  1 <= col -> 1 <= row -> is_Some (sheet_cell xlsx col row) -> prepareSheetXML xlsx col row = Ret xlsx.
Proof.
  intros Hc Hr [c E]. unfold sheet_cell in E. apply bind_Some in E as (r & Er & Ec).
  pose proof (lookup_lt_Some _ _ _ Er) as Hlr. pose proof (lookup_lt_Some _ _ _ Ec) as Hlc.
  unfold prepareSheetXML. rewrite (seqZ_nil _ (row - _)) by (unfold zlen; lia). cbn [fmap list_fmap]. rewrite app_nil_r.
  rewrite (list_get_in (sheet_rows xlsx) _ r) by (done || lia). cbn [mbind outcome_bind].
  assert (fillColumns r col row = r) as ->.
  { unfold fillColumns. rewrite (seqZ_nil _ (col - _)) by (unfold zlen; lia).
    destruct r. unfold field_update. cbn. by rewrite app_nil_r. }
  rewrite list_set_in by (unfold zlen; lia). cbn [mbind outcome_bind]. rewrite list_insert_id by done.
  f_equal. symmetry. apply same_rest_refl.
Qed.

Lemma prepareCellStyle_idem xlsx col st : prepareCellStyle xlsx col (prepareCellStyle xlsx col st) = prepareCellStyle xlsx col st.
Proof.
  destruct (Z.eqb_spec (prepareCellStyle xlsx col st) 0) as [E|E].
  - destruct (Z.eqb_spec st 0) as [->|Hst]; [by rewrite E at 1|].
    unfold prepareCellStyle in E |- *. destruct (xlsxWorksheet_Cols xlsx); [|done].
    destruct (Z.eqb_spec st 0); [done|]. by rewrite E in Hst.
  - set (st' := prepareCellStyle xlsx col st) in *. unfold prepareCellStyle.
    destruct (xlsxWorksheet_Cols xlsx); [|done]. by destruct (Z.eqb_spec st' 0).
Qed.

Section times.
Context `{GoEnv}.

(** The decoder reads the text that [setDefaultTimeStyle] writes. *)
Definition decodes_default_style (format : Z) : Prop :=
  parseFormatStyleSet (default_style_text format) =
    ok ((gozero : formatStyle) <| formatStyle_DecimalPlaces := 2 |> <| formatStyle_NumFmt := format |>).

(** What the default style of a time does to a sheet whose cell exists: nothing
    when the cell shows a style, and otherwise a new format, with the built-in
    number format, is made and given to the cell that the name itself denotes. *)
Lemma setDefaultTimeStyle_ok f s sheet path xlsx axis col row c2 r2 format :
  loaded f sheet path xlsx -> wf_sheet xlsx -> resolves xlsx axis col row -> is_Some (sheet_cell xlsx col row) ->
  CellNameToCoordinates axis = ok (c2, r2) -> coord c2 -> coord r2 ->
  File_Styles f = Some s -> wf_styles s -> styles_room s -> marshals_as font "font" ->
  decodes_default_style format -> is_Some (table_get format builtInNumFmt) ->
  if shown_style xlsx col row =? 0
  then exists s' xf y, setDefaultTimeStyle sheet axis format f = Ret (None, with_sheet (f <| File_Styles := Some s' |>) path y) /\
    style_xfs s' = style_xfs s ++ [xf] /\ xlsxXf_NumFmtID xf = format /\
    wf_sheet y /\ same_rest xlsx y /\
    (forall c r, coord c -> coord r -> sheet_cell y c r =
       if decide (c = c2 /\ r = r2)
       then Some ((default (freshCell (cell_name c r)) (sheet_cell xlsx c r)) <| xlsxC_S := zlen (style_xfs s) |>)
       else match sheet_cell xlsx c r with
            | Some d => Some d
            | None => if decide (r = r2 /\ c <= c2) then Some (freshCell (cell_name c r)) else None
            end)
  else setDefaultTimeStyle sheet axis format f = Ret (None, f).
Proof.
  intros Hl Hwf Hres Hcell Ha Hc2 Hr2 Hs Hws Hroom Hm Hdec Hb. pose proof Hres as (Hc & Hr & _).
  destruct (GetCellStyle_ok f sheet path xlsx axis col row Hl Hres) as (x1 & Ex & Eg).
  rewrite prepareSheetXML_present in Ex by (done || lia). injection Ex as <-.
  rewrite (with_sheet_same _ _ _ (proj2 Hl)) in Eg. fold (shown_style xlsx col row) in Eg.
  unfold setDefaultTimeStyle. rewrite (bind_Ret _ _ _ _ _ Eg). cbn [fst snd].
  destruct (shown_style xlsx col row =? 0); [|done].
  destruct (NewStyle_ok f s _ _ Hs Hws Hroom Hm Hdec) as (s' & En & (xf & Exf & Hid) & _).
  specialize (Hid eq_refl Hb). set (f1 := f <| File_Styles := Some s' |>) in En.
  destruct (set_style_area_ok (zlen (style_xfs s)) c2 r2 c2 r2 xlsx Hwf) as (y & Ey & Hwfy & Hrest & _ & Hcells); [lia..|].
  exists s', xf, y. split_and!; [|done..|].
  - rewrite (bind_Ret _ _ f tt (with_sheet f1 path y)); [done|]. rewrite (bind_Ret _ _ _ _ _ En). cbn [fst].
    assert (SetCellStyle sheet axis axis (zlen (style_xfs s)) f1 = Ret (None, with_sheet f1 path y)) as Es.
    { unfold SetCellStyle. rewrite Ha, !(bind_Ret (mret (ok (c2, r2))) _ f1 (ok (c2, r2)) f1) by done.
      rewrite !Z.ltb_irrefl.
      rewrite (bind_Ret _ _ _ _ _ (workSheetReader_loaded f1 sheet path xlsx Hl)). cbn [fst snd].
      assert (update_o (Some path) (set_style_area (zlen (style_xfs s)) c2 r2 c2 r2) f1 = Ret (tt, with_sheet f1 path y)) as Eu
        by (rewrite (update_o_loaded _ _ _ _ (proj2 Hl : File_Sheet f1 !! path = Some xlsx)), Ey; done).
      by rewrite (bind_Ret _ _ _ _ _ Eu). }
    by rewrite (bind_Ret _ _ _ _ _ Es).
  - intros c r Hc' Hr'. rewrite Hcells by done. cbn zeta.
    assert (in_rect (mk_rect c2 r2 c2 r2) c r = bool_decide (c = c2 /\ r = r2)) as ->.
    { unfold in_rect. cbn. apply eq_iff_eq_true. rewrite bool_decide_eq_true. lia. }
    destruct (decide (c = c2 /\ r = r2)) as [[-> ->]|Hne].
    + rewrite bool_decide_true by done. destruct (sheet_cell xlsx c2 r2); [done|]. by rewrite decide_True by lia.
    + rewrite bool_decide_false by done. destruct (sheet_cell xlsx c r); [done|]. repeat case_decide; try done; lia.
Qed.

Lemma sharedStringsReader_styles f d f' : sharedStringsReader f = Ret (d, f') -> File_Styles f' = File_Styles f.
Proof.
  unfold sharedStringsReader, cached_reader, mbind, gom_bind, get. cbn [fst snd].
  destruct (File_SharedStrings f); [by intros [= _ <-]|]. unfold readXML, gets, mret, gom_ret, modify.
  match goal with |- context [if ?b then _ else _] => destruct b end; by intros [= _ <-].
Qed.

(** A text stored as a number and then given the default style of times. *)
Definition set_default_and_style (sheet axis text : string) (format : Z) : M (option goerr) :=
  try! SetCellDefault sheet axis text in setDefaultTimeStyle sheet axis format.

Lemma set_default_and_style_ok f s sheet path xlsx axis col row c2 r2 text format h :
  loaded f sheet path xlsx -> wf_sheet xlsx -> coord col -> coord row ->
  mergeCellsParser xlsx axis = ok (cell_name col row) -> CellNameToCoordinates axis = ok (c2, r2) -> coord c2 -> coord r2 ->
  File_Styles f = Some s -> wf_styles s -> styles_room s -> style_xfs s <> [] -> marshals_as font "font" ->
  decodes_default_style format -> is_Some (table_get format builtInNumFmt) -> builtInNumFmtFunc format = Some h ->
  exists f' xlsx' s' c, set_default_and_style sheet axis text format f = Ret (None, f') /\
    loaded f' sheet path xlsx' /\ wf_sheet xlsx' /\ same_rest xlsx xlsx' /\ File_Styles f' = Some s' /\
    sheet_cell xlsx' col row = Some c /\ xlsxC_V c = text /\
    (if shown_style xlsx col row =? 0
     then xlsxC_S c = (if decide (col = c2 /\ row = r2) then zlen (style_xfs s) else 0) /\
          exists f2, GetCellValue sheet axis f' = Ret (ok (if decide (col = c2 /\ row = r2) then h format text else text), f2)
     else s' = s /\ xlsxC_S c = shown_style xlsx col row).
Proof.
  intros Hl Hwf Hc Hr Hm Ha Hc2 Hr2 Hs Hws Hroom Hne Hfont Hdec Hb Hh.
  assert (resolves xlsx axis col row) as Hres.
  { split_and!; try lia. eexists. split; [exact Hm|by apply cell_name_coordinates]. }
  destruct (set_cell_spec f sheet path xlsx axis col row (fun c => c <| xlsxC_T := "" |> <| xlsxC_V := text |>) Hl Hwf Hres ltac:(done))
    as (x1 & E1 & Hwf1 & Hm1 & Hcell & _ & Hrest1 & _).
  cbn in Hcell. set (c0 := default _ _) in Hcell.
  match type of Hcell with _ = Some ?d => set (c1' := d) in Hcell end.
  set (f1 := with_sheet f path x1) in E1.
  assert (xlsxC_V c1' = text /\ xlsxC_T c1' = "" /\ xlsxC_S c1' = shown_style xlsx col row) as (HV & HT & HS).
  { split_and!; [done..|]. subst c1'. cbn. unfold shown_style. subst c0. by destruct (sheet_cell xlsx col row). }
  assert (shown_style x1 col row = shown_style xlsx col row) as Hshown.
  { unfold shown_style at 1. rewrite Hcell. cbn [from_option]. rewrite HS, (same_rest_style xlsx x1) by done. apply prepareCellStyle_idem. }
  assert (resolves x1 axis col row) as Hres1.
  { split_and!; try lia. eexists. rewrite Hm1. split; [exact Hm|by apply cell_name_coordinates]. }
  pose proof (loaded_with_sheet f sheet path xlsx x1 Hl) as Hl1.
  pose proof (setDefaultTimeStyle_ok f1 s sheet path x1 axis col row c2 r2 format Hl1 Hwf1 Hres1
    ltac:(by rewrite Hcell) Ha Hc2 Hr2 Hs Hws Hroom Hfont Hdec Hb) as Hstyle.
  rewrite Hshown in Hstyle. unfold set_default_and_style, SetCellDefault. rewrite (bind_Ret _ _ _ _ _ E1).
  destruct (shown_style xlsx col row =? 0) eqn:E0; [|exists f1, x1, s, c1'; by split_and!].
  apply Z.eqb_eq in E0. destruct Hstyle as (s' & xf & y & Ed & Exf & Hid & Hwfy & Hrest & Hcells).
  set (f2 := f1 <| File_Styles := Some s' |>) in *.
  set (c := if decide (col = c2 /\ row = r2) then c1' <| xlsxC_S := zlen (style_xfs s) |> else c1').
  assert (sheet_cell y col row = Some c) as Hy.
  { rewrite Hcells, Hcell by done. subst c. by case_decide. }
  exists (with_sheet f2 path y), y, s', c.
  split_and!; [done|by apply (loaded_with_sheet f2 sheet path x1)|done|by eapply same_rest_trans|done|done|by subst c; case_decide| |].
  { subst c. case_decide; [done|]. by rewrite HS. }
  destruct (sharedStringsReader_total (with_sheet f2 path y)) as (d & f3 & Ess). exists f3.
  assert (mergeCellsParser y axis = ok (cell_name col row)) as Hmy by (by rewrite (same_rest_parser x1 y axis Hrest), Hm1).
  rewrite (GetCellValue_dense _ sheet path y axis col row (loaded_with_sheet f2 sheet path x1 y Hl1) Hwfy Hc Hr Hmy).
  rewrite Hy. unfold cell_value. rewrite (bind_Ret _ _ _ _ _ Ess).
  rewrite (getValueFrom_text c d "") by (by left || by subst c; case_decide).
  assert (xlsxC_V c = text /\ xlsxC_S c = if decide (col = c2 /\ row = r2) then zlen (style_xfs s) else 0) as [-> ->].
  { subst c. case_decide; [done|]. by rewrite HV, HS. }
  destruct (decide (col = c2 /\ row = r2)) as [Heq|Hneq]; [|done].
  assert (File_Styles f3 = Some s') as Hs3.
  { rewrite (sharedStringsReader_styles _ _ _ Ess). done. }
  unfold formattedValue. assert ((zlen (style_xfs s) =? 0) = false) as ->.
  { destruct (style_xfs s); [done|]. rewrite zlen_cons. pose proof (zlen_nonneg l). lia. }
  unfold stylesReader, cached_reader, mbind, gom_bind, get. rewrite Hs3. cbn [mret gom_ret].
  unfold style_xfs in Exf at 1. destruct (xlsxStyleSheet_CellXfs s') as [xfs|] eqn:Ex; [|by destruct (style_xfs s)].
  cbn [from_option] in Exf. rewrite Exf. unfold lift. rewrite list_get_last. unfold mret, gom_ret. by rewrite Hid, Hh.
Qed.

(** The number and the number format of a time or of a duration. *)
Definition time_text (v : value) : option (string * Z) :=
  match v with
  | V_Duration d =>
      Some (format_shortest f32_prec f32_emax (f32_round (f64_div (duration_Seconds d) (f64_of_int 86400))), 21)
  | V_Time t =>
      match timeToExcelTime t with
      | (serial, None) => if f64_ltb f64_zero serial then Some (format_shortest f64_prec f64_emax serial, 22) else None
      | (_, Some _) => None
      end
  | _ => None
  end.

Lemma SetCellValue_time_steps sheet axis v text format f :
  time_text v = Some (text, format) -> SetCellValue sheet axis v f = set_default_and_style sheet axis text format f.
Proof.
  destruct v as [| | | | |d|t| | |]; try done; unfold time_text.
  - intros E. injection E as <- <-. done.
  - destruct (timeToExcelTime t) as [serial [e|]] eqn:Et; [done|]. destruct (f64_ltb f64_zero serial) eqn:Es; [|done].
    intros E. injection E as <- <-. unfold SetCellValue, setCellTimeFunc, set_default_and_style.
    rewrite Et, (bind_Ret (mret (ok serial)) _ f (ok serial) f) by done. rewrite Es.
    unfold strconv_FormatFloat_f. cbn [Z.eqb Pos.eqb Z.ltb Z.compare]. rewrite bind_lift.
    unfold mbind, gom_bind, mret, gom_ret. destruct (SetCellDefault _ _ _ f) as [[[e|] f1]|]; [done| |done].
    by destruct (setDefaultTimeStyle _ _ _ f1) as [[[e|] f2]|].
Qed.

Lemma time_text_format v text format :
  time_text v = Some (text, format) -> is_Some (table_get format builtInNumFmt) /\ builtInNumFmtFunc format = Some parseTime.
Proof.
  destruct v as [| | | | |d|t| | |]; try done; unfold time_text.
  - intros E. injection E as <- <-. split; [by eexists|done].
  - destruct (timeToExcelTime t) as [serial [e|]]; [done|]. destruct (f64_ltb f64_zero serial); [|done].
    intros E. injection E as <- <-. split; [by eexists|done].
Qed.

(** C17. [SetCellValue] with a time or a duration, for a cell name that no area moves:
    the cell holds the serial number as text; when the cell and its column had no
    style, the cell gets a new format with the built-in date or time format and
    [GetCellValue] shows the number through it; a cell with a style keeps it and
    no format is made. *)
Theorem SetCellValue_time f s sheet path xlsx col row v text format :
  loaded f sheet path xlsx -> wf_sheet xlsx -> coord col -> coord row ->
  mergeCellsParser xlsx (cell_name col row) = ok (cell_name col row) ->
  File_Styles f = Some s -> wf_styles s -> styles_room s -> style_xfs s <> [] -> marshals_as font "font" ->
  time_text v = Some (text, format) -> decodes_default_style format ->
  exists f' xlsx' s' c, SetCellValue sheet (cell_name col row) v f = Ret (None, f') /\
    loaded f' sheet path xlsx' /\ wf_sheet xlsx' /\ File_Styles f' = Some s' /\
    sheet_cell xlsx' col row = Some c /\ xlsxC_V c = text /\
    (if shown_style xlsx col row =? 0
     then xlsxC_S c = zlen (style_xfs s) /\
          exists f2, GetCellValue sheet (cell_name col row) f' = Ret (ok (parseTime format text), f2)
     else s' = s /\ xlsxC_S c = shown_style xlsx col row).
Proof.
  intros Hl Hwf Hc Hr Hm Hs Hws Hroom Hne Hfont Ht Hdec.
  destruct (time_text_format v text format Ht) as [Hb Hh].
  destruct (set_default_and_style_ok f s sheet path xlsx (cell_name col row) col row col row text format parseTime
    Hl Hwf Hc Hr Hm (cell_name_coordinates col row Hc Hr) Hc Hr Hs Hws Hroom Hne Hfont Hdec Hb Hh)
    as (f' & x & s' & c & E & H1 & H2 & _ & H3 & H4 & H5 & H6).
  exists f', x, s', c. rewrite (SetCellValue_time_steps _ _ _ _ _ _ Ht). split_and!; [done..|].
  rewrite !decide_True in H6 by done. exact H6.
Qed.

(** The same call under the name of a covered cell of a merged area: the number
    is stored in the corner of the area, but the date format is given to the
    covered cell, so that [GetCellValue] shows the bare serial number. *)
Theorem SetCellValue_time_merged f s sheet path xlsx axis col row c2 r2 v text format :
  loaded f sheet path xlsx -> wf_sheet xlsx -> coord col -> coord row ->
  mergeCellsParser xlsx axis = ok (cell_name col row) -> CellNameToCoordinates axis = ok (c2, r2) ->
  coord c2 -> coord r2 -> ~ (col = c2 /\ row = r2) ->
  File_Styles f = Some s -> wf_styles s -> styles_room s -> style_xfs s <> [] -> marshals_as font "font" ->
  time_text v = Some (text, format) -> decodes_default_style format -> shown_style xlsx col row = 0 ->
  exists f' f2, SetCellValue sheet axis v f = Ret (None, f') /\ GetCellValue sheet axis f' = Ret (ok text, f2).
Proof.
  intros Hl Hwf Hc Hr Hm Ha Hc2 Hr2 Hne Hs Hws Hroom Hxf Hfont Ht Hdec H0.
  destruct (time_text_format v text format Ht) as [Hb Hh].
  destruct (set_default_and_style_ok f s sheet path xlsx axis col row c2 r2 text format parseTime
    Hl Hwf Hc Hr Hm Ha Hc2 Hr2 Hs Hws Hroom Hxf Hfont Hdec Hb Hh) as (f' & x & s' & c & E & _ & _ & _ & _ & _ & _ & H6).
  rewrite H0 in H6. destruct H6 as (_ & f2 & G). rewrite decide_False in G by done.
  exists f', f2. split; [by rewrite (SetCellValue_time_steps _ _ _ _ _ _ Ht)|exact G].
Qed.

(** A time in another location than UTC is refused before anything is done. *)
Theorem SetCellValue_time_zone f sheet axis t :
  time_utc t = false -> SetCellValue sheet axis (V_Time t) f = Ret (Some (ErrText "only UTC time expected"), f).
Proof. intros Ht. unfold SetCellValue, setCellTimeFunc, timeToExcelTime. by rewrite Ht. Qed.

End times.

(** ** Rows of values *)

Section sheet_row.
Context `{GoEnv}.

(** The texts of a list are in consecutive cells of a row, in the styles these
    cells showed, and no other cell has changed. *)
Definition row_written (x y : xlsxWorksheet) (col row : Z) (texts : list string) : Prop :=
  same_rest x y /\ wf_sheet y /\
  (forall (i : nat) t, texts !! i = Some t -> exists c, sheet_cell y (col + Z.of_nat i) row = Some c /\
     xlsxC_V c = t /\ xlsxC_T c ∈ [""; "b"; "str"] /\ xlsxC_S c = shown_style x (col + Z.of_nat i) row) /\
  (forall c r, coord c -> coord r -> ~ (col <= c < col + zlen texts /\ r = row) ->
     sheet_cell y c r = sheet_cell x c r \/ sheet_cell x c r = None /\ sheet_cell y c r = Some (freshCell (cell_name c r))).

Lemma row_written_nil x col row : wf_sheet x -> row_written x x col row [].
Proof. intros Hwf. split_and!; [apply same_rest_refl|done|by intros i t|by left]. Qed.

Lemma row_written_shown x y col row texts c r :
  row_written x y col row texts -> coord c -> coord r -> ~ (col <= c < col + zlen texts /\ r = row) ->
  shown_style y c r = shown_style x c r.
Proof.
  intros (Hrest & _ & _ & Hother) Hc Hr Hne. unfold shown_style. rewrite (same_rest_style x y) by done.
  destruct (Hother c r Hc Hr Hne) as [->|[-> ->]]; done.
Qed.

Lemma row_written_cons x y z col row t texts :
  coord col -> coord row -> col + zlen texts <= maxInt ->
  row_written x y col row [t] -> row_written y z (col + 1) row texts -> row_written x z col row (t :: texts).
Proof.
  intros Hcol Hrow Hmax Hxy Hyz. pose proof Hxy as (H1 & _ & H3 & H4). pose proof Hyz as (G1 & G2 & G3 & G4).
  pose proof (zlen_nonneg texts) as Hn. change (zlen [t]) with 1 in H4.
  split_and!; [by eapply same_rest_trans|done|..].
  - intros [|i] t' Ht.
    + destruct (H3 0%nat t' Ht) as (c & E & Hc). exists c. split; [|exact Hc]. cbn [Z.of_nat] in *. rewrite Z.add_0_r in *.
      destruct (G4 col row Hcol Hrow) as [->|[E' _]]; [lia|done|]. by rewrite E in E'.
    + destruct (G3 i t' Ht) as (c & E & E2 & E3 & E4). apply lookup_lt_Some in Ht as Hi. cbn in Hi. unfold zlen in Hmax.
      replace (col + Z.of_nat (S i)) with (col + 1 + Z.of_nat i) by lia. exists c. split_and!; [done..|].
      rewrite E4. apply (row_written_shown x y col row [t]); [done|lia|done|]. change (zlen [t]) with 1. lia.
  - intros c r Hc Hr Hne. rewrite zlen_cons in Hne.
    destruct (G4 c r Hc Hr) as [->|[Hnone ->]]; [lia| |].
    + apply H4; [done|done|lia].
    + right. split; [|done]. destruct (H4 c r Hc Hr) as [<-|(-> & _)]; [lia|exact Hnone|done].
Qed.

(** One value. *)
Lemma SetCellValue_written f sheet path xlsx col row v t :
  loaded f sheet path xlsx -> wf_sheet xlsx -> coord col -> coord row ->
  mergeCellsParser xlsx (cell_name col row) = ok (cell_name col row) -> plain_text v = Some t ->
  exists y, SetCellValue sheet (cell_name col row) v f = Ret (None, with_sheet f path y) /\ row_written xlsx y col row [t].
Proof.
  intros Hl Hwf Hc Hr Hm Hv. assert (resolves xlsx (cell_name col row) col row) as Hres.
  { split_and!; try lia. eexists. split; [exact Hm|by apply cell_name_coordinates]. }
  destruct (SetCellValue_stores v t Hv) as (g & (ty & Hty & Hfields) & Eg).
  destruct (set_cell_spec f sheet path xlsx (cell_name col row) col row g Hl Hwf Hres ltac:(intros c; apply Hfields))
    as (y & E & Hwf1 & _ & Hcell & Hother & Hrest & _).
  exists y. split; [by rewrite Eg|]. cbn in Hcell. set (c0 := default _ _) in Hcell. split_and!; [done|done|..].
  - intros [|i] t'; [|done]. intros [= <-]. rewrite Z.add_0_r. eexists. split; [exact Hcell|].
    destruct (Hfields (c0 <| xlsxC_S := prepareCellStyle xlsx col (xlsxC_S c0) |>)) as (_ & -> & -> & ->).
    split_and!; [done|done|]. cbn. unfold shown_style. subst c0. by destruct (sheet_cell xlsx col row).
  - intros c r Hc' Hr' Hnot. change (zlen [t]) with 1 in Hnot.
    destruct (Hother c r Hc' Hr') as [->|(-> & -> & _)]; [lia|by left|by right].
Qed.

Lemma set_row_values_ok (l : list value) texts : Forall2 (fun v t => plain_text v = Some t) l texts ->
  forall f sheet path xlsx col row,
  loaded f sheet path xlsx -> wf_sheet xlsx -> 1 <= col -> col + zlen l <= maxInt + 1 -> coord row ->
  (forall c, col <= c < col + zlen l -> mergeCellsParser xlsx (cell_name c row) = ok (cell_name c row)) ->
  exists y, set_row_values sheet col row l f = Ret (None, with_sheet f path y) /\ row_written xlsx y col row texts.
Proof.
  induction 1 as [|v t l texts Hv Hl' IH]; intros f sheet path xlsx col row Hl Hwf Hc Hmax Hr Hm.
  - exists xlsx. cbn. rewrite (with_sheet_same _ _ _ (proj2 Hl)). split; [done|by apply row_written_nil].
  - rewrite zlen_cons in *. pose proof (zlen_nonneg l) as Hn. assert (coord col) as Hcol by lia.
    destruct (SetCellValue_written f sheet path xlsx col row v t Hl Hwf Hcol Hr ltac:(apply Hm; lia) Hv) as (x1 & E1 & H1).
    pose proof H1 as (Hrest1 & Hwf1 & _).
    destruct (IH (with_sheet f path x1) sheet path x1 (col + 1) row) as (y & Ey & Hy);
      [by eapply loaded_with_sheet|done|lia|lia|done| |].
    { intros c Hc'. rewrite (same_rest_parser xlsx x1) by done. apply Hm. lia. }
    rewrite with_sheet_twice in Ey. exists y. split.
    + cbn [set_row_values]. rewrite (cell_name_ok col row) by lia. rewrite (bind_Ret _ _ f _ f) by done. cbn [fst snd].
      rewrite (bind_Ret _ _ _ _ _ E1). rewrite <- Ey. destruct l as [|v' l]; [done|].
      rewrite zlen_cons in Hmax. pose proof (zlen_nonneg l). by replace (iadd col 1) with (col + 1) by int_lia.
    + apply (row_written_cons xlsx x1 y); [done|done| |done|done].
      apply Forall2_length in Hl'. unfold zlen in *. lia.
Qed.

(** What a written cell without style shows. *)
Lemma GetCellValue_text f sheet path xlsx axis col row c :
  loaded f sheet path xlsx -> wf_sheet xlsx -> coord col -> coord row ->
  mergeCellsParser xlsx axis = ok (cell_name col row) -> sheet_cell xlsx col row = Some c ->
  xlsxC_T c ∈ [""; "b"; "str"] -> xlsxC_S c = 0 -> exists f', GetCellValue sheet axis f = Ret (ok (xlsxC_V c), f').
Proof.
  intros Hl Hwf Hc Hr Hm E Ht HS. rewrite (GetCellValue_dense f sheet path xlsx axis col row Hl Hwf Hc Hr Hm), E.
  destruct (sharedStringsReader_total f) as (d & f1 & Es). exists f1. unfold cell_value.
  rewrite (bind_Ret _ _ _ _ _ Es), (getValueFrom_text c d _ Ht eq_refl), HS. done.
Qed.

(** C22. Writing a row of values that are no times, from a position whose row is not
    merged there: the call succeeds and the sheet stays dense; the texts of the
    values are in the cells from the position on, in the styles these cells
    showed before, and every other cell of the sheet keeps its content; without
    styles, [GetCellValue] returns the texts. *)
Theorem SetSheetRow_correct f sheet path xlsx axis col row l texts :
  loaded f sheet path xlsx -> wf_sheet xlsx -> CellNameToCoordinates axis = ok (col, row) -> coord col -> coord row ->
  col + zlen l <= maxInt + 1 -> Forall2 (fun v t => plain_text v = Some t) l texts ->
  (forall c, col <= c < col + zlen l -> mergeCellsParser xlsx (cell_name c row) = ok (cell_name c row)) ->
  exists xlsx', SetSheetRow sheet axis (SlicePtr l) f = Ret (None, with_sheet f path xlsx') /\
    row_written xlsx xlsx' col row texts /\
    forall (i : nat) t, texts !! i = Some t -> shown_style xlsx (col + Z.of_nat i) row = 0 ->
      exists f', GetCellValue sheet (cell_name (col + Z.of_nat i) row) (with_sheet f path xlsx') = Ret (ok t, f').
Proof.
  intros Hl Hwf Ha Hc Hr Hmax Hl' Hm.
  destruct (set_row_values_ok l texts Hl' f sheet path xlsx col row Hl Hwf (proj1 Hc) Hmax Hr Hm) as (y & E & Hw).
  exists y. split; [by unfold SetSheetRow; rewrite Ha, (bind_Ret _ _ f (ok (col, row)) f) by done|]. split; [done|].
  intros i t Ht H0. pose proof Hw as (Hrest & Hwfy & Hcells & _). destruct (Hcells i t Ht) as (c & Ec & <- & HT & HS).
  apply lookup_lt_Some in Ht. apply Forall2_length in Hl'. unfold zlen in *.
  apply (GetCellValue_text _ sheet path y _ (col + Z.of_nat i) row c);
    [by eapply loaded_with_sheet|done|lia|done| |exact Ec|done|by rewrite HS].
  rewrite (same_rest_parser xlsx y) by done. apply Hm. lia.
Qed.

End sheet_row.

(** ** Witnesses *)

(** An environment whose decoder knows the default style of times. *)
Definition time_env (format : Z) : GoEnv :=
  style_env ((gozero : formatStyle) <| formatStyle_DecimalPlaces := 2 |> <| formatStyle_NumFmt := format |>).

Lemma SetCellValue_GetCellValue_witness :
  exists xlsx', SetCellValue (H := example_env) "Sheet1" "B2" (V_int K_uint64 18446744073709551615) (example_file gozero) =
      Ret (None, with_sheet (example_file gozero) "xl/worksheets/sheet1.xml" xlsx') /\
    exists f', GetCellValue (H := example_env) "Sheet1" "B2" (with_sheet (example_file gozero) "xl/worksheets/sheet1.xml" xlsx') =
      Ret (ok "-1", f').
Proof.
  destruct (@SetCellValue_GetCellValue example_env (example_file gozero) "Sheet1" _ gozero "B2" 2 2
    (V_int K_uint64 18446744073709551615) "-1" (example_loaded gozero) gozero_sheet_wf)
    as [(x & c & E & _ & _ & _ & G) _]; try reflexivity; try (unfold maxInt; lia).
  exists x. split; [exact E|]. exact (G eq_refl eq_refl).
Defined.

(** 2019-03-18 14:40 *)
Definition example_time : value := V_Time (time_Date 2019 3 18 14 40 0 0).

Lemma SetCellValue_time_witness :
  exists f' f2, SetCellValue (H := time_env 22) "Sheet1" "A1" example_time styled_file = Ret (None, f') /\
    GetCellValue (H := time_env 22) "Sheet1" "A1" f' = Ret (ok "3/18/19 14:39", f2).
Proof.
  destruct (@SetCellValue_time (time_env 22) styled_file example_styles "Sheet1" "xl/worksheets/sheet1.xml" gozero 1 1
    example_time "43542.61111111111" 22) as (f' & x & s' & c & E & _ & _ & _ & _ & _ & H6);
    [split; reflexivity|apply gozero_sheet_wf|unfold maxInt; lia..|reflexivity|reflexivity|apply example_styles_wf|
     apply example_styles_wf|discriminate|apply style_env_marshals|vm_compute; reflexivity|reflexivity|].
  destruct H6 as (_ & f2 & G). exists f', f2. split; [exact E|].
  exact G.
Defined.

Lemma SetCellValue_time_merged_witness :
  exists f' f2, SetCellValue (H := time_env 22) "Sheet1" "B2" example_time
      ((example_file ((gozero : xlsxWorksheet) <| xlsxWorksheet_MergeCells := Some (mk_xlsxMergeCells 1 [mk_xlsxMergeCell "A1:C3"]) |>))
         <| File_Styles := Some example_styles |>) = Ret (None, f') /\
    GetCellValue (H := time_env 22) "Sheet1" "B2" f' = Ret (ok "43542.61111111111", f2).
Proof.
  refine (@SetCellValue_time_merged (time_env 22) _ example_styles "Sheet1" "xl/worksheets/sheet1.xml" _ "B2" 1 1 2 2
    example_time _ 22 _ _ _ _ _ _ _ _ _ _ _ _ _ _ _ _ _);
    [split; reflexivity|split; [by intros i r|vm_compute; discriminate]|unfold maxInt; lia..|reflexivity|reflexivity|
     unfold maxInt; lia|unfold maxInt; lia|intros [? _]; discriminate|reflexivity|apply example_styles_wf|
     apply example_styles_wf|discriminate|apply style_env_marshals|vm_compute; reflexivity|reflexivity|reflexivity].
Defined.

Lemma SetCellValue_time_zone_witness :
  SetCellValue (H := example_env) "Sheet1" "A1" (V_Time (mk_time 0 false)) (example_file gozero) =
    Ret (Some (ErrText "only UTC time expected"), example_file gozero).
Proof. apply SetCellValue_time_zone. reflexivity. Defined.

Lemma SetSheetRow_correct_witness :
  exists xlsx', SetSheetRow (H := example_env) "Sheet1" "B2" (SlicePtr [V_int K_int 7; V_nil; V_bool true; V_string "x"]) (example_file gozero) =
      Ret (None, with_sheet (example_file gozero) "xl/worksheets/sheet1.xml" xlsx') /\
    exists f', GetCellValue (H := example_env) "Sheet1" "E2" (with_sheet (example_file gozero) "xl/worksheets/sheet1.xml" xlsx') =
      Ret (ok "x", f').
Proof.
  destruct (@SetSheetRow_correct example_env (example_file gozero) "Sheet1" _ gozero "B2" 2 2
    [V_int K_int 7; V_nil; V_bool true; V_string "x"] ["7"; ""; "1"; "x"] (example_loaded gozero) gozero_sheet_wf)
    as (x & E & _ & G); try reflexivity; try (unfold maxInt; lia).
  - unfold zlen, maxInt. cbn. lia.
  - repeat constructor.
  - intros c Hc. unfold mergeCellsParser. rewrite ToUpper_cell_name by lia. reflexivity.
  - exists x. split; [exact E|]. exact (G 3%nat "x" eq_refl eq_refl).
Defined.

(** The sheet with A1:B2 merged: a missing sheet, a name without letters and a time
    under a name without digits are refused, and the covered cell can be written. *)
Lemma cell_call_errors_witness :
  let x := example_sheet <| xlsxWorksheet_MergeCells := Some (mk_xlsxMergeCells 1 [mk_xlsxMergeCell "A1:B2"]) |> in
  let f := example_file x in
  let call_error := call_error (H := example_env) in
  call_error (CallSetValue (V_bool true)) "Sheet2" "A1" f = Ret (Some (sheet_not_exist "Sheet2"), f) /\
  call_error CallGetStyle "Sheet1" "11" f = Ret (Some (ErrCannotConvertCell "11" (ErrInvalidCellName "11")), f) /\
  call_error (CallSetValue (V_Time excelMinTime1900)) "Sheet1" "a" f = Ret (Some (ErrCannotConvertCell "A" (ErrInvalidCellName "A")), f) /\
  exists f', call_error (CallSetValue (V_string "x")) "Sheet1" "b2" f = Ret (None, f').
Proof.
  intros x f ce. assert (loaded f "Sheet1" sheet1_path x) as Hl by exact (example_loaded x).
  split; [|split; [|split]].
  - apply (@cell_call_errors example_env (CallSetValue (V_bool true)) "Sheet2" "A1" f I). constructor. reflexivity.
  - apply (@cell_call_errors example_env CallGetStyle "Sheet1" "11" f I). by eapply refused_name.
  - apply (@cell_call_errors example_env (CallSetValue (V_Time excelMinTime1900)) "Sheet1" "a" f eq_refl). by eapply refused_name.
  - apply (proj2 (@cell_call_errors example_env (CallSetValue (V_string "x")) "Sheet1" "b2" f I) sheet1_path x Hl).
    + exact example_sheet_wf.
    + constructor; [|constructor]. exists 1, 1. split; [reflexivity|]. unfold maxInt. lia.
    + exists 2, 2. split; [reflexivity|]. unfold maxInt. lia.
    + by eexists.
Defined.
