(* ===== verification/CellTypes.v ===== *)
(** The types of cells ([cell.go]): what [SetCellValue] stores for a value agrees
    with the type attribute it gives the cell, and the cells of a sheet stay
    typed. *)
From S2P Require Export CellValue.

(** ** Numerals *)

Definition digits (s : string) : Prop := s <> "" /\ str_forallb is_digit s = true.

(** An optional sign, digits, and a fraction that may be missing. *)
Definition numeral (s : string) : Prop :=
  exists neg a b, s = sign_text neg +:+ a +:+ b /\ digits a /\ (b = "" \/ exists d, b = "." +:+ d /\ digits d).

Lemma format_uint_digits n : digits (format_uint 10 n).
Proof. split; [apply format_uint_nonempty|by apply format_go_digits]. Qed.

Lemma digits_split i s :
  str_forallb is_digit s = true -> 1 <= i < len s -> digits (str_take (Z.to_nat i) s) /\ digits (str_drop (Z.to_nat i) s).
Proof.
  intros Hs Hi. pose proof (str_take_drop (Z.to_nat i) s) as Es. assert (len (str_take (Z.to_nat i) s) = i) as Ht.
  { unfold len in *. rewrite str_length_take by lia. lia. }
  pose proof (len_app (str_take (Z.to_nat i) s) (str_drop (Z.to_nat i) s)) as Hd. rewrite Es, Ht in Hd.
  rewrite <- Es, str_forallb_app in Hs. apply andb_true_iff in Hs as [H1 H2].
  split; (split; [|done]); intros E.
  - rewrite E in Ht. change (0 = i) in Ht. lia.
  - rewrite E in Hd. change (len s = i + 0) in Hd. lia.
Qed.

Lemma zeros_digits n : str_forallb is_digit (zeros n) = true /\ len (zeros n) = Z.of_nat n.
Proof. induction n as [|n [IH1 IH2]]; [done|]. cbn [zeros str_forallb]. unfold len in *. cbn [String.length]. split; [done|lia]. Qed.

Lemma pad_left_digits width s :
  str_forallb is_digit s = true -> str_forallb is_digit (pad_left width s) = true /\ width <= len (pad_left width s).
Proof.
  intros Hs. unfold pad_left. destruct (zeros_digits (Z.to_nat (width - len s))) as [H1 H2].
  rewrite str_forallb_app, H1, Hs, len_app, H2. split; [done|]. pose proof (len_nonneg s). lia.
Qed.

(** Positional notation is a numeral. *)
Lemma fixed_text_numeral neg n places : numeral (sign_text neg +:+ fixed_text n places).
Proof.
  unfold fixed_text. destruct (places <=? 0) eqn:Hp.
  - exists neg, (format_uint 10 (n * 10 ^ (- places))), "". split; [by rewrite str_app_nil_r|]. split; [apply format_uint_digits|by left].
  - destruct (pad_left_digits (places + 1) (format_uint 10 n)) as [Hd Hlen]; [by apply format_go_digits|].
    set (s := pad_left (places + 1) (format_uint 10 n)) in *.
    destruct (digits_split (len s - places) s Hd) as [H1 H2]; [lia|].
    exists neg, (str_take (Z.to_nat (len s - places)) s), ("." +:+ str_drop (Z.to_nat (len s - places)) s).
    split; [done|]. split; [done|]. right. by eexists.
Qed.

Lemma Itoa_numeral n : numeral (strconv_Itoa n).
Proof.
  unfold strconv_Itoa, strconv_FormatInt. destruct (n <? 0).
  - exists true, (format_uint 10 (- n)), "". rewrite str_app_nil_r. split; [done|]. split; [apply format_uint_digits|by left].
  - exists false, (format_uint 10 n), "". rewrite str_app_nil_r. split; [done|]. split; [apply format_uint_digits|by left].
Qed.

Definition finite (f : spec_float) : Prop :=
  match f with S754_zero _ | S754_finite _ _ _ => True | _ => False end.

Lemma format_shortest_numeral prec emax f : finite f -> numeral (format_shortest prec emax f).
Proof.
  destruct f as [neg| | |neg m e]; cbn [finite]; try done; intros _; unfold format_shortest, special_text.
  - exists neg, "0", "". split; [done|]. split; [done|by left].
  - destruct (f_ratio m e) as [num den]. destruct (shortest_go _ _ _ _ _ _ _ _) as [n e10]. apply fixed_text_numeral.
Qed.

(** ** Typed cells *)

(** The value of a cell agrees with its type attribute; the types that the setters
    do not write are left open. *)
Definition cell_typed (c : xlsxC) : Prop :=
  let T := xlsxC_T c in
  let V := xlsxC_V c in
  if bool_decide (T = "") || bool_decide (T = "n") then V = "" \/ numeral V
  else if bool_decide (T = "b") then V = "0" \/ V = "1"
  else if bool_decide (T = "str") then len V <= 32767
  else True.

Definition typed_sheet (xlsx : xlsxWorksheet) : Prop :=
  forall col row c, coord col -> coord row -> sheet_cell xlsx col row = Some c -> cell_typed c.

(** The type attribute of a value; times and durations are stored as numbers by
    other ways. *)
Definition type_of (v : value) : option string :=
  match v with
  | V_int _ _ | V_float32 _ | V_float64 _ => Some ""
  | V_string _ | V_bytes _ | V_other _ | V_nil => Some "str"
  | V_bool _ => Some "b"
  | V_Duration _ | V_Time _ => None
  end.

Definition storable (v : value) : Prop :=
  match v with
  | V_float32 v => finite (f32_round v)
  | V_float64 v => finite v
  | _ => True
  end.

(** A setter of values of the type. *)
Definition typed_setter (t : string) (g : xlsxC -> xlsxC) : Prop :=
  forall c, xlsxC_R (g c) = xlsxC_R c /\ xlsxC_T (g c) = t /\ cell_typed (g c).

Section cell_types.
Context `{GoEnv}.

Lemma cut_value s : len (if 32767 <? len s then str_take (Z.to_nat 32767) s else s) <= 32767.
Proof.
  destruct (32767 <? len s) eqn:E; [|lia]. unfold len in *. rewrite str_length_take; lia.
Qed.

Lemma SetCellStr_typed s :
  exists g, typed_setter "str" g /\ forall sheet axis, SetCellStr sheet axis s = set_cell sheet axis g.
Proof.
  eexists. split; [|reflexivity]. intros c. pose proof (cut_value s) as Hcut.
  set (V := if 32767 <? len s then _ else s) in *. destruct (starts_with_space V); (split; [done|]; split; [done|exact Hcut]).
Qed.

Lemma number_typed text : numeral text -> typed_setter "" (fun c => c <| xlsxC_T := "" |> <| xlsxC_V := text |>).
Proof. intros Ht c. split; [done|]. split; [done|by right]. Qed.

Lemma SetCellValue_typed_setter v t :
  type_of v = Some t -> storable v ->
  exists g, typed_setter t g /\ forall sheet axis, SetCellValue sheet axis v = set_cell sheet axis g.
Proof.
  intros Ht Hv. destruct v as [k n|x|x|s|s|d|d|b| |s]; cbn in Ht; try discriminate Ht; apply (inj Some) in Ht as <-;
    try apply SetCellStr_typed.
  - eexists. split; [apply number_typed, (Itoa_numeral (wrap64 n))|done].
  - eexists. split; [apply number_typed, (format_shortest_numeral f32_prec f32_emax _ Hv)|].
    intros. unfold SetCellValue, SetCellFloat, strconv_FormatFloat_f. by cbn [Z.eqb Pos.eqb].
  - eexists. split; [apply number_typed, (format_shortest_numeral f64_prec f64_emax _ Hv)|].
    intros. unfold SetCellValue, SetCellFloat, strconv_FormatFloat_f. by cbn [Z.eqb Pos.eqb].
  - eexists. split; [|reflexivity]. intros c. split; [done|]. split; [done|]. destruct b; [by right|by left].
Qed.

(** C23. Setting a cell to a value that is no time: the cell has the type attribute of
    the value's type, its value is of that type (a numeral, [0] or [1], a text of
    at most 32767 bytes), and when all cells of the sheet were typed they still
    are. *)
Theorem SetCellValue_typed f sheet path xlsx axis col row v t :
  loaded f sheet path xlsx -> wf_sheet xlsx -> resolves xlsx axis col row -> type_of v = Some t -> storable v -> typed_sheet xlsx ->
  exists xlsx', SetCellValue sheet axis v f = Ret (None, with_sheet f path xlsx') /\
    (exists c, sheet_cell xlsx' col row = Some c /\ xlsxC_T c = t /\ cell_typed c) /\ typed_sheet xlsx' /\ wf_sheet xlsx'.
Proof.
  intros Hl Hwf Hres Ht Hv Htyped. destruct (SetCellValue_typed_setter v t Ht Hv) as (g & Hg & E).
  destruct (set_cell_spec f sheet path xlsx axis col row g Hl Hwf Hres ltac:(intros c; apply Hg))
    as (xlsx' & E' & Hwf' & _ & Hcell & Hother & _).
  exists xlsx'. rewrite E. split; [done|]. cbv zeta in Hcell. split; [|split; [|done]].
  - eexists. split; [exact Hcell|]. apply Hg.
  - intros c r cell Hc Hr Hin. destruct (decide (c = col /\ r = row)) as [[-> ->]|Hne].
    + rewrite Hcell in Hin. injection Hin as <-. apply Hg.
    + destruct (Hother c r Hc Hr Hne) as [Eq|(_ & Hfresh & _)].
      * rewrite Eq in Hin. by apply (Htyped c r).
      * rewrite Hfresh in Hin. injection Hin as <-. by left.
Qed.

End cell_types.

(** A float that is not finite is stored as the text [NaN], [+Inf] or [-Inf] in a
    cell whose type says that it is a number. *)
Theorem SetCellValue_not_a_number :
  exists f' xlsx' c, SetCellValue (H := example_env) "Sheet1" "A1" (V_float64 S754_nan) (example_file gozero) = Ret (None, f') /\
    File_Sheet f' !! "xl/worksheets/sheet1.xml" = Some xlsx' /\ sheet_cell xlsx' 1 1 = Some c /\
    xlsxC_T c = "" /\ xlsxC_V c = "NaN" /\ ~ cell_typed c.
Proof.
  eexists _, _, _. split; [reflexivity|]. split; [reflexivity|]. split; [reflexivity|]. split; [reflexivity|]. split; [reflexivity|].
  intros [E|(neg & a & b & E & [Ha Hd] & _)]; [discriminate E|]. cbn in E.
  destruct neg; [discriminate E|]. destruct a as [|c a]; [done|]. injection E as <- _. cbn in Hd. discriminate Hd.
Qed.

Definition typed_example : xlsxWorksheet :=
  set_rows [(freshRow 1) <| xlsxRow_C := [(freshCell "A1") <| xlsxC_T := "str" |> <| xlsxC_V := "x" |>; (freshCell "B1") <| xlsxC_V := "7" |>] |>] gozero.

Lemma typed_example_cells : typed_sheet typed_example.
Proof.
  intros col row c Hc Hr Hin. unfold sheet_cell in Hin. apply bind_Some in Hin as (r & Hrow & Hcell).
  apply list_elem_of_lookup_2, list_elem_of_singleton in Hrow as ->. apply list_elem_of_lookup_2 in Hcell. cbn in Hcell.
  apply elem_of_cons in Hcell as [->|Hcell]; [vm_compute; discriminate|]. apply list_elem_of_singleton in Hcell as ->.
  right. exists false, "7", "". split; [done|]. split; [by split|by left].
Defined.

Lemma typed_example_wf : wf_sheet typed_example.
Proof.
  split; [|vm_compute; discriminate]. intros [|i] r [= <-]. split; [reflexivity|]. split; [|vm_compute; discriminate].
  intros [|[|j]] c [= <-]; reflexivity.
Defined.

Lemma SetCellValue_typed_witness :
  exists xlsx', SetCellValue (H := example_env) "Sheet1" "B1" (V_bool true) (example_file typed_example) =
      Ret (None, with_sheet (example_file typed_example) "xl/worksheets/sheet1.xml" xlsx') /\ typed_sheet xlsx'.
Proof.
  destruct (@SetCellValue_typed example_env (example_file typed_example) "Sheet1" "xl/worksheets/sheet1.xml" typed_example "B1" 2 1 (V_bool true) "b")
    as (xlsx' & E & _ & Ht' & _).
  - apply example_loaded.
  - exact typed_example_wf.
  - split; [vm_compute; split; discriminate|]. split; [vm_compute; split; discriminate|]. exists "B1". split; reflexivity.
  - reflexivity.
  - exact I.
  - exact typed_example_cells.
  - exists xlsx'. split; [exact E|exact Ht'].
Defined.
