(* ===== verification/ReadRows.v ===== *)
(** Reading whole sheets ([rows.go], [sheet.go]): [GetRows], the iterator over rows
    and the search for a value. The three of them encode the sheet that is in
    memory and decode the [row] elements of the text again. *)
From S2P Require Export Cell.

Section read_rows.
Context `{GoEnv}.

(** The sheet in memory is written to its part, without being trimmed. *)
Definition save_sheet (name : string) : M unit :=
  f ← get;
  saveFileList name (replaceWorkSheetsRelationshipsNameSpaceBytes
    (xml_Marshal (default gozero (File_Sheet f !! name)))).

(** ** [GetRows] *)

Fixpoint total_cols (tc : Z) (C : list xlsxC) : Z * option goerr :=
  match C with
  | [] => (tc, None)
  | colCell :: rest =>
      match CellNameToCoordinates (xlsxC_R colCell) with
      | (_, Some e) => (tc, Some e)
      | ((col, _), None) => total_cols (if tc <? col then col else tc) rest
      end
  end.

Fixpoint total_rows_cols (tr tc : Z) (Row : list xlsxRow) : (Z * Z) * option goerr :=
  match Row with
  | [] => ok (tr, tc)
  | r :: rest =>
      match total_cols tc (xlsxRow_C r) with
      | (tc, Some e) => ((xlsxRow_R r, tc), Some e)
      | (tc, None) => total_rows_cols (xlsxRow_R r) tc rest
      end
  end.

Definition getTotalRowsCols (name : string) : M ((Z * Z) * option goerr) :=
  text ← readXML name; mret (total_rows_cols 0 0 (xml_rows text).1).

(** [make([]string, n)] panics for a negative length. *)
Definition make_rows (rowCount colCount : Z) : outcome (list (list string)) :=
  if rowCount <? 0 then Panic
  else if (0 <? rowCount) && (colCount <? 0) then Panic
  else Ret (replicate (Z.to_nat rowCount) (replicate (Z.to_nat colCount) "")).

Definition set_entry (rows : list (list string)) (r c : Z) (val : string) : outcome (list (list string)) :=
  row ← list_get rows r; row' ← list_set row c val; list_set rows r row'.

Fixpoint get_row_cells (d : xlsxSST) (R : Z) (C : list xlsxC) (rows : list (list string)) (row : Z)
    : M ((list (list string) * Z) * option goerr) :=
  match C with
  | [] => mret (ok (rows, row))
  | colCell :: rest =>
      let! (col, _) := mret (CellNameToCoordinates (xlsxC_R colCell)) orelse ([], 0) in
      v ← getValueFrom colCell d;
      rows ← lift (set_entry rows (isub R 1) (isub col 1) v.1);
      get_row_cells d R rest rows (if bool_decide (v.1 <> "") then R else row)
  end.

Fixpoint get_rows_loop (d : xlsxSST) (Row : list xlsxRow) (rows : list (list string)) (row : Z)
    : M ((list (list string) * Z) * option goerr) :=
  match Row with
  | [] => mret (ok (rows, row))
  | r :: rest =>
      let! (rows, row) := get_row_cells d (xlsxRow_R r) (xlsxRow_C r) rows row orelse ([], 0) in
      get_rows_loop d rest rows row
  end.

(** [rows[:row]] *)
Definition slice_to (rows : list (list string)) (row : Z) : outcome (list (list string)) :=
  if (0 <=? row) && (row <=? zlen rows) then Ret (take (Z.to_nat row) rows) else Panic.

Definition GetRows (sheet : string) : M (list (list string) * option goerr) :=
  f ← get;
  match File_sheetMap f !! trimSheetName sheet with
  | None => mret (ok [])
  | Some name =>
      let! _ := workSheetReader sheet orelse [] in
      save_sheet name;;
      d ← sharedStringsReader;
      r ← getTotalRowsCols name;
      match r with
      | (_, Some _) => mret (ok [])
      | ((rowCount, colCount), None) =>
          rows ← lift (make_rows rowCount colCount);
          text ← readXML name;
          let! (rows, row) := get_rows_loop d (xml_rows text).1 rows 0 orelse [] in
          rows ← lift (slice_to rows row);
          mret (ok rows)
      end
  end.

(** ** The iterator

    The token that the iterator stands at: none, the start of a row, or a row that
    has been decoded already. Decoding it a second time reads the rest of the
    stream as the content of the element, in which no cell is found. *)
Inductive row_token : Type :=
| TokenNil
| TokenRow (r : xlsxRow)
| TokenRead.

Record Rows := mk_Rows { Rows_token : row_token; Rows_rest : list xlsxRow; Rows_end : option goerr; Rows_err : option goerr }.

(** The text of the error of a sheet that the map does not have. *)
Definition ErrSheetNotExist_Error (SheetName : string) : string := "Sheet " +:+ SheetName +:+ " is not exist".

Definition open_Rows (sheet : string) : M (option Rows * option goerr) :=
  let! _ := workSheetReader sheet orelse None in
  f ← get;
  match File_sheetMap f !! trimSheetName sheet with
  | None => mret (None, Some (ErrSheetNotExist sheet))
  | Some name =>
      save_sheet name;;
      text ← readXML name;
      mret (ok (Some (mk_Rows TokenNil (xml_rows text).1 (xml_rows text).2 None)))
  end.

Definition Next (rows : Rows) : bool * Rows :=
  match Rows_rest rows with
  | r :: rest => (true, mk_Rows (TokenRow r) rest (Rows_end rows) None)
  | [] => (false, mk_Rows TokenNil [] (Rows_end rows) (Rows_end rows))
  end.

Definition Rows_Error (rows : Rows) : option goerr := Rows_err rows.

Fixpoint column_values (d : xlsxSST) (C : list xlsxC) (columns : list string) : M (list string * option goerr) :=
  match C with
  | [] => mret (ok columns)
  | colCell :: rest =>
      let! (col, _) := mret (CellNameToCoordinates (xlsxC_R colCell)) orelse columns in
      v ← getValueFrom colCell d;
      columns ← lift (list_set columns (isub col 1) v.1);
      column_values d rest columns
  end.

Definition Columns (rows : Rows) : M ((list string * option goerr) * Rows) :=
  match Rows_token rows with
  | TokenNil => mret (ok [], rows)
  | TokenRow r =>
      d ← sharedStringsReader;
      res ← column_values d (xlsxRow_C r) (replicate (length (xlsxRow_C r)) "");
      mret (res, mk_Rows TokenRead (Rows_rest rows) (Rows_end rows) (Rows_err rows))
  | TokenRead =>
      sharedStringsReader;;
      mret (ok [], mk_Rows TokenRead [] (Rows_end rows) (Rows_err rows))
  end.

(** ** [SearchSheet] *)

Definition search_match (regSearch : bool) (value val : string) : outcome bool :=
  if regSearch then regexp_MatchString value val else Ret (bool_decide (val = value)).

Fixpoint search_cells (d : xlsxSST) (regSearch : bool) (value : string) (R : Z) (C : list xlsxC) (result : list string)
    : M (list string * option goerr) :=
  match C with
  | [] => mret (ok result)
  | colCell :: rest =>
      v ← getValueFrom colCell d;
      b ← lift (search_match regSearch value v.1);
      if (b : bool) then
        let! (cellCol, _) := mret (CellNameToCoordinates (xlsxC_R colCell)) orelse result in
        let! cellName := mret (CoordinatesToCellName cellCol R) orelse result in
        search_cells d regSearch value R rest (result ++ [cellName])
      else search_cells d regSearch value R rest result
  end.

Fixpoint search_rows (d : xlsxSST) (regSearch : bool) (value : string) (Row : list xlsxRow) (result : list string)
    : M (list string * option goerr) :=
  match Row with
  | [] => mret (ok result)
  | r :: rest =>
      p ← search_cells d regSearch value (xlsxRow_R r) (xlsxRow_C r) result;
      match p with
      | (result, Some e) => mret (result, Some e)
      | (result, None) => search_rows d regSearch value rest result
      end
  end.

(** The last of the optional arguments counts. *)
Definition SearchSheet (sheet value : string) (reg : list bool) : M (list string * option goerr) :=
  let regSearch := default false (last reg) in
  let! _ := workSheetReader sheet orelse [] in
  f ← get;
  match File_sheetMap f !! trimSheetName sheet with
  | None => mret (ok [])
  | Some name =>
      save_sheet name;;
      d ← sharedStringsReader;
      text ← readXML name;
      search_rows d regSearch value (xml_rows text).1 []
  end.

End read_rows.

(** ** The text of a cell

    With the style sheet and the shared strings in memory the text is a function
    of the cell. *)
Definition formatted_with (s : xlsxStyleSheet) (st : Z) (v : string) : outcome string :=
  if st =? 0 then Ret v
  else
    match xlsxStyleSheet_CellXfs s with
    | None => Panic
    | Some xfs =>
        xf ← list_get (xlsxCellXfs_Xf xfs) st;
        Ret (match builtInNumFmtFunc (xlsxXf_NumFmtID xf) with Some h => h (xlsxXf_NumFmtID xf) v | None => v end)
    end.

Definition value_of (s : xlsxStyleSheet) (d : xlsxSST) (c : xlsxC) : outcome string :=
  let t := xlsxC_T c in
  if bool_decide (t = "s") then
    si ← list_get (xlsxSST_SI d) (atoi_ignore (xlsxC_V c));
    match xlsxSI_R si with
    | [] => formatted_with s (xlsxC_S c) (xlsxSI_T si)
    | rs => Ret (foldl (fun value r => value +:+ xlsxR_T r) "" rs)
    end
  else if bool_decide (t = "inlineStr") then
    match xlsxC_IS c with Some inline => formatted_with s (xlsxC_S c) (xlsxIS_T inline) | None => Panic end
  else formatted_with s (xlsxC_S c) (xlsxC_V c).

Section read_lemmas.
Context `{GoEnv}.

Lemma formattedValue_with f s st v :
  File_Styles f = Some s ->
  formattedValue st v f = match formatted_with s st v with Ret t => Ret (t, f) | Panic => Panic end.
Proof.
  intros Hs. unfold formattedValue, formatted_with. destruct (st =? 0); [done|].
  unfold stylesReader, cached_reader, mbind, gom_bind, get. rewrite Hs. cbn [mret gom_ret].
  destruct (xlsxStyleSheet_CellXfs s) as [xfs|]; [|done]. unfold lift. by destruct (list_get _ st).
Qed.

Lemma getValueFrom_of f s d c :
  File_Styles f = Some s ->
  getValueFrom c d f = match value_of s d c with Ret t => Ret (ok t, f) | Panic => Panic end.
Proof.
  intros Hs. unfold getValueFrom, value_of.
  assert (forall v, (v ← formattedValue (xlsxC_S c) v; mret (ok v)) f =
    match formatted_with s (xlsxC_S c) v with Ret t => Ret (ok t, f) | Panic => Panic end) as Hv.
  { intros v. unfold mbind, gom_bind. rewrite (formattedValue_with f s) by done. by destruct (formatted_with _ _ v). }
  case_bool_decide as H1.
  - unfold lift, mbind at 1, gom_bind at 1. destruct (list_get _ _) as [si|]; [|done]. cbn [mbind outcome_bind].
    destruct (xlsxSI_R si); [apply Hv|done].
  - case_bool_decide as H2; [|case_bool_decide; [destruct (xlsxC_IS c); [apply Hv|done]|apply Hv]].
    case_bool_decide as H3; [congruence|]. apply Hv.
Qed.

(** The text that is shown, and what it is at a position of a sheet. *)
Definition text_of (s : xlsxStyleSheet) (d : xlsxSST) (c : xlsxC) : string :=
  match value_of s d c with Ret t => t | Panic => "" end.
Definition text_at (s : xlsxStyleSheet) (d : xlsxSST) (xlsx : xlsxWorksheet) (col row : Z) : string :=
  from_option (text_of s d) "" (sheet_cell xlsx col row).

(** Every cell of a list has a value. *)
Definition readable (s : xlsxStyleSheet) (d : xlsxSST) (C : list xlsxC) : Prop :=
  Forall (fun c => value_of s d c <> Panic) C.

Lemma getValueFrom_text_of f s d c :
  File_Styles f = Some s -> value_of s d c <> Panic -> getValueFrom c d f = Ret (ok (text_of s d c), f).
Proof. intros Hs Hv. rewrite (getValueFrom_of f s) by done. unfold text_of. by destruct (value_of s d c). Qed.

(** [GetCellValue] returns the text at the position. *)
Lemma GetCellValue_text_at f s d sheet path xlsx axis col row :
  loaded f sheet path xlsx -> wf_sheet xlsx -> File_Styles f = Some s -> File_SharedStrings f = Some d ->
  Forall (fun r => readable s d (xlsxRow_C r)) (sheet_rows xlsx) -> coord col -> coord row ->
  mergeCellsParser xlsx axis = ok (cell_name col row) ->
  GetCellValue sheet axis f = Ret (ok (text_at s d xlsx col row), f).
Proof.
  intros Hl Hwf Hs Hd Hread Hc Hr Hm. rewrite (GetCellValue_dense f sheet path xlsx axis col row Hl Hwf Hc Hr Hm).
  unfold text_at, sheet_cell. destruct (sheet_rows xlsx !! _) as [r|] eqn:Er; [|done]. cbn [mbind option_bind].
  destruct (xlsxRow_C r !! _) as [c|] eqn:Ec; [|done]. cbn [from_option].
  rewrite Forall_lookup in Hread. specialize (Hread _ _ Er). unfold readable in Hread. rewrite Forall_lookup in Hread.
  unfold cell_value, sharedStringsReader, cached_reader, mbind, gom_bind, get. rewrite Hd. cbn [mret gom_ret].
  rewrite (getValueFrom_text_of f s d c Hs) by (by eapply Hread). done.
Qed.

(** *** Dense rows *)

Lemma wf_cells_coordinates R C j c :
  wf_cells R C -> coord R -> zlen C <= maxInt -> C !! j = Some c -> CellNameToCoordinates (xlsxC_R c) = ok (Z.of_nat j + 1, R).
Proof.
  intros HC HR Hlen Hj. rewrite (HC _ _ Hj). apply cell_name_coordinates; [|done].
  apply lookup_lt_Some in Hj. unfold zlen in Hlen. lia.
Qed.

(** The number of columns: the length of the longest row. *)
Definition max_cols (m : Z) (Row : list xlsxRow) : Z := foldl (fun m r => Z.max m (zlen (xlsxRow_C r))) m Row.

Lemma max_cols_cons m r Row : max_cols m (r :: Row) = max_cols (Z.max m (zlen (xlsxRow_C r))) Row.
Proof. done. Qed.

Lemma max_cols_ge Row m : m <= max_cols m Row.
Proof. revert m. induction Row as [|r Row IH]; intros m; [done|]. rewrite max_cols_cons. specialize (IH (m `max` zlen (xlsxRow_C r))). lia. Qed.

Lemma max_cols_row Row m r : r ∈ Row -> zlen (xlsxRow_C r) <= max_cols m Row.
Proof.
  revert m. induction Row as [|r' Row IH]; intros m; [by intros ?%elem_of_nil|].
  rewrite max_cols_cons. intros [->|Hr]%elem_of_cons; [|by apply IH]. pose proof (max_cols_ge Row (m `max` zlen (xlsxRow_C r'))). lia.
Qed.

(** The tail of a dense row: its cells are named from a column on. *)
Definition cells_from (k : nat) (R : Z) (C : list xlsxC) : Prop :=
  forall j c, C !! j = Some c -> CellNameToCoordinates (xlsxC_R c) = ok (Z.of_nat (k + j) + 1, R).

Lemma cells_from_cons k R c C : cells_from k R (c :: C) -> CellNameToCoordinates (xlsxC_R c) = ok (Z.of_nat k + 1, R) /\ cells_from (S k) R C.
Proof.
  intros HC. split; [rewrite <- (Nat.add_0_r k); by apply (HC 0%nat)|].
  intros j c' Hj. replace (S k + j)%nat with (k + S j)%nat by lia. by apply (HC (S j)).
Qed.

Lemma wf_row_cells_from R r : wf_row R r -> coord R -> cells_from 0 R (xlsxRow_C r).
Proof. intros (_ & HC & Hlen) HR j c Hj. by eapply wf_cells_coordinates. Qed.

Lemma total_cols_dense R k C tc :
  cells_from k R C -> total_cols tc C = (if (length C =? 0)%nat then tc else Z.max tc (Z.of_nat k + zlen C), None).
Proof.
  revert k tc. induction C as [|c C IH]; intros k tc HC; [done|].
  apply cells_from_cons in HC as [Hc HC]. cbn [total_cols]. rewrite Hc, (IH (S k)) by done. rewrite zlen_cons.
  assert ((if tc <? Z.of_nat k + 1 then Z.of_nat k + 1 else tc) = Z.max tc (Z.of_nat k + 1)) as ->
    by (destruct (Z.ltb_spec tc (Z.of_nat k + 1)); lia).
  f_equal. cbn [length Nat.eqb]. destruct C as [|c' C]; cbn [length Nat.eqb]; rewrite ?zlen_cons, ?zlen_nil; [lia|].
  pose proof (zlen_nonneg C). lia.
Qed.

(** Rows numbered from [k + 1] on, in dense form. *)
Definition rows_from (k : nat) (Row : list xlsxRow) : Prop :=
  forall i r, Row !! i = Some r -> wf_row (Z.of_nat (k + i) + 1) r /\ coord (Z.of_nat (k + i) + 1).

Lemma rows_from_cons k r Row :
  rows_from k (r :: Row) -> wf_row (Z.of_nat k + 1) r /\ coord (Z.of_nat k + 1) /\ rows_from (S k) Row.
Proof.
  intros HR. pose proof (HR 0%nat r eq_refl) as [H1 H2]. rewrite Nat.add_0_r in *. split_and!; [done|lia|lia|].
  intros i r' Hi. replace (S k + i)%nat with (k + S i)%nat by lia. by apply (HR (S i)).
Qed.

Lemma wf_sheet_rows_from xlsx : wf_sheet xlsx -> rows_from 0 (sheet_rows xlsx).
Proof.
  intros [Hwf Hlen] i r Hi. split; [by apply Hwf|]. apply lookup_lt_Some in Hi. unfold zlen in Hlen. lia.
Qed.

Lemma total_rows_cols_dense k Row tr tc :
  rows_from k Row -> 0 <= tc ->
  total_rows_cols tr tc Row = ok (if (length Row =? 0)%nat then tr else Z.of_nat k + zlen Row, max_cols tc Row).
Proof.
  revert k tr tc. induction Row as [|r Row IH]; intros k tr tc HR Htc; [done|].
  apply rows_from_cons in HR as (Hr & Hk & HR). cbn [total_rows_cols].
  rewrite (total_cols_dense (Z.of_nat k + 1) 0) by by apply wf_row_cells_from.
  assert ((if (length (xlsxRow_C r) =? 0)%nat then tc else Z.max tc (Z.of_nat 0 + zlen (xlsxRow_C r))) = Z.max tc (zlen (xlsxRow_C r))) as ->.
  { destruct (xlsxRow_C r); cbn [length Nat.eqb]; [rewrite zlen_nil; lia|lia]. }
  rewrite (IH (S k)) by (done || lia). destruct Hr as (-> & _). rewrite zlen_cons.
  rewrite max_cols_cons. cbn [length Nat.eqb]. destruct Row; cbn [length Nat.eqb]; rewrite ?zlen_nil, ?zlen_cons; do 2 f_equal; lia.
Qed.

(** *** The matrix *)

Definition used (s : xlsxStyleSheet) (d : xlsxSST) (C : list xlsxC) : bool :=
  existsb (fun c => bool_decide (text_of s d c <> "")) C.

Lemma insert_middle {A} (l1 : list A) x y l2 n : n = length l1 -> <[n := x]> (l1 ++ y :: l2) = l1 ++ x :: l2.
Proof. intros ->. induction l1 as [|z l1 IH]; [done|]. cbn [app length]. exact (f_equal (cons z) IH). Qed.

Lemma set_entry_ok rows r c val pre x post :
  rows !! r = Some (pre ++ x :: post) -> c = length pre ->
  set_entry rows (Z.of_nat r) (Z.of_nat c) val = Ret (<[r := pre ++ val :: post]> rows).
Proof.
  intros Hr ->. unfold set_entry. rewrite (list_get_in rows _ (pre ++ x :: post)) by (lia || by rewrite Nat2Z.id).
  cbn [mbind outcome_bind]. rewrite list_set_nat by (rewrite length_app; cbn; lia). cbn [mbind outcome_bind].
  rewrite list_set_nat by (by eapply lookup_lt_Some). f_equal. f_equal. by rewrite insert_middle.
Qed.

Lemma get_row_cells_dense f s d R C : forall rows row pre n,
  File_Styles f = Some s -> readable s d C -> cells_from (length pre) R C -> coord R ->
  Z.of_nat (length pre) + zlen C <= maxInt ->
  rows !! Z.to_nat (R - 1) = Some (pre ++ replicate n "") -> (length C <= n)%nat ->
  get_row_cells d R C rows row f =
    Ret (ok (<[Z.to_nat (R - 1) := pre ++ (text_of s d <$> C) ++ replicate (n - length C) ""]> rows,
             if used s d C then R else row), f).
Proof.
  induction C as [|c C IH]; intros rows row pre n Hs Hread HC HR Hmax Hrow Hn.
  - cbn. rewrite Nat.sub_0_r, list_insert_id by done. done.
  - apply Forall_cons_1 in Hread as [Hc Hread]. apply cells_from_cons in HC as [Ec HC].
    rewrite zlen_cons in Hmax. pose proof (zlen_nonneg C) as Hnn. cbn [length] in Hn.
    destruct n as [|n]; [lia|]. cbn [replicate] in Hrow. cbn [get_row_cells]. rewrite Ec.
    rewrite (bind_Ret _ _ f (ok (Z.of_nat (length pre) + 1, R)) f) by done. cbn [fst snd].
    rewrite (bind_Ret _ _ _ _ _ (getValueFrom_text_of f s d c Hs Hc)). cbn [fst].
    assert (isub R 1 = Z.of_nat (Z.to_nat (R - 1))) as -> by int_lia.
    assert (isub (Z.of_nat (length pre) + 1) 1 = Z.of_nat (length pre)) as -> by int_lia.
    rewrite (set_entry_ok rows _ _ _ pre "" (replicate n "")) by done. rewrite bind_lift.
    pose proof (lookup_lt_Some _ _ _ Hrow) as Hlt.
    rewrite (IH _ _ (pre ++ [text_of s d c]) n); [|done|done| |done| | |lia].
    + rewrite list_insert_insert_eq. rewrite <- app_assoc. cbn [app]. do 4 f_equal. cbn [used existsb].
      fold (used s d C). case_bool_decide; [by destruct (used s d C)|done].
    + rewrite length_app. cbn [length]. by rewrite Nat.add_1_r.
    + rewrite length_app. cbn [length]. lia.
    + rewrite list_lookup_insert_eq by done. by rewrite <- app_assoc.
Qed.

(** The texts of a row, up to a width, and the last row that is not blank. *)
Definition row_texts (s : xlsxStyleSheet) (d : xlsxSST) (m : nat) (r : xlsxRow) : list string :=
  (text_of s d <$> xlsxRow_C r) ++ replicate (m - length (xlsxRow_C r)) "".

Fixpoint last_used (s : xlsxStyleSheet) (d : xlsxSST) (k : nat) (Row : list xlsxRow) (row : Z) : Z :=
  match Row with
  | [] => row
  | r :: rest => last_used s d (S k) rest (if used s d (xlsxRow_C r) then Z.of_nat k + 1 else row)
  end.

Lemma get_rows_loop_dense f s d m Row : forall pre row,
  File_Styles f = Some s -> Forall (fun r => readable s d (xlsxRow_C r)) Row -> rows_from (length pre) Row ->
  Forall (fun r => (length (xlsxRow_C r) <= m)%nat) Row ->
  get_rows_loop d Row (pre ++ replicate (length Row) (replicate m "")) row f =
    Ret (ok (pre ++ (row_texts s d m <$> Row), last_used s d (length pre) Row row), f).
Proof.
  induction Row as [|r Row IH]; intros pre row Hs Hread HR Hm; [done|].
  apply Forall_cons_1 in Hread as [Hc Hread]. apply Forall_cons_1 in Hm as [Hrm Hm].
  apply rows_from_cons in HR as (Hr & Hk & HR). cbn [get_rows_loop length replicate].
  pose proof Hr as (ER & _ & Hlen). rewrite ER.
  rewrite (bind_Ret _ _ _ _ _ (get_row_cells_dense f s d (Z.of_nat (length pre) + 1) (xlsxRow_C r) _ row [] m Hs Hc
    (wf_row_cells_from _ _ Hr Hk) Hk ltac:(cbn; lia)
    ltac:(replace (Z.to_nat (Z.of_nat (length pre) + 1 - 1)) with (length pre) by lia; by apply list_lookup_middle) Hrm)).
  cbn [fst snd]. replace (Z.to_nat (Z.of_nat (length pre) + 1 - 1)) with (length pre) by lia.
  rewrite insert_middle by done. cbn [app]. fold (row_texts s d m r).
  replace (pre ++ row_texts s d m r :: replicate (length Row) (replicate m ""))
    with ((pre ++ [row_texts s d m r]) ++ replicate (length Row) (replicate m "")) by by rewrite <- app_assoc.
  rewrite IH; [|done|done|by rewrite length_app, Nat.add_1_r|done].
  rewrite <- app_assoc, length_app, Nat.add_1_r. done.
Qed.

Lemma last_used_range s d k Row row : 0 <= row <= Z.of_nat k -> 0 <= last_used s d k Row row <= Z.of_nat k + zlen Row.
Proof.
  revert k row. induction Row as [|r Row IH]; intros k row Hr; cbn [last_used]; [change (zlen (@nil xlsxRow)) with 0; lia|].
  rewrite zlen_cons. specialize (IH (S k) (if used s d (xlsxRow_C r) then Z.of_nat k + 1 else row)).
  destruct (used _ _ _); lia.
Qed.

(** Beyond the last used row all rows are blank, and it is not blank itself. *)
Lemma last_used_spec s d k Row row :
  row <= Z.of_nat k ->
  (last_used s d k Row row = row \/
   exists i r, last_used s d k Row row = Z.of_nat (k + i) + 1 /\ Row !! i = Some r /\ used s d (xlsxRow_C r) = true) /\
  (forall i r, Row !! i = Some r -> last_used s d k Row row <= Z.of_nat (k + i) -> used s d (xlsxRow_C r) = false).
Proof.
  revert k row. induction Row as [|r Row IH]; intros k row Hrow; cbn [last_used]; [split; [by left|by intros i r]|].
  destruct (IH (S k) (if used s d (xlsxRow_C r) then Z.of_nat k + 1 else row)) as [H1 H2]; [destruct (used _ _ _); lia|].
  split.
  - destruct H1 as [->|(i & r' & -> & E & Hu)].
    + destruct (used s d (xlsxRow_C r)) eqn:Hu; [|by left]. right. exists 0%nat, r. split_and!; [f_equal; lia|done|done].
    + right. exists (S i), r'. split_and!; [f_equal; lia|done|done].
  - intros [|i] r' Hi Hle.
    + injection Hi as <-. destruct (used s d (xlsxRow_C r)) eqn:Hu; [|done]. exfalso.
      assert (forall k row Row, row <= last_used s d k Row row \/ Z.of_nat k < row) as Hge.
      { clear. intros k row Row. revert k row. induction Row as [|r Row IH]; intros k row; cbn [last_used]; [left; lia|].
        destruct (IH (S k) (if used s d (xlsxRow_C r) then Z.of_nat k + 1 else row)); destruct (used _ _ _); lia. }
      destruct (Hge (S k) (Z.of_nat k + 1) Row); lia.
    + apply (H2 i r' Hi). replace (S k + i)%nat with (k + S i)%nat by lia. exact Hle.
Qed.

End read_lemmas.

(** ** Properties *)

Section read_properties.
Context `{GoEnv}.

(** The text a sheet is written as, and the state in which it is. *)
Definition saved_text (xlsx : xlsxWorksheet) : string :=
  XMLHeader +:+ replaceWorkSheetsRelationshipsNameSpaceBytes (xml_Marshal xlsx).
Definition with_saved (f : File) (path : string) (xlsx : xlsxWorksheet) : File :=
  f <| File_XLSX ::= <[path := saved_text xlsx]> |>.

(** The decoder yields the rows of the sheet that was encoded. *)
Definition rows_read_back (xlsx : xlsxWorksheet) : Prop := xml_rows (saved_text xlsx) = (sheet_rows xlsx, None).

(** A sheet in memory beside the tables that its values need. *)
Record readable_sheet (f : File) (sheet path : string) (xlsx : xlsxWorksheet) (s : xlsxStyleSheet) (d : xlsxSST) : Prop :=
  mk_readable {
    rs_loaded : loaded f sheet path xlsx;
    rs_wf : wf_sheet xlsx;
    rs_styles : File_Styles f = Some s;
    rs_strings : File_SharedStrings f = Some d;
    rs_readable : Forall (fun r => readable s d (xlsxRow_C r)) (sheet_rows xlsx);
    rs_back : rows_read_back xlsx
  }.

Lemma save_sheet_loaded f path xlsx : File_Sheet f !! path = Some xlsx -> save_sheet path f = Ret (tt, with_saved f path xlsx).
Proof. intros E. unfold save_sheet, mbind, gom_bind, get. by rewrite E. Qed.

Lemma readXML_saved f path xlsx : readXML path (with_saved f path xlsx) = Ret (saved_text xlsx, with_saved f path xlsx).
Proof. unfold readXML, gets, with_saved. cbn. by rewrite lookup_insert_eq. Qed.

Lemma sharedStringsReader_cached f d : File_SharedStrings f = Some d -> sharedStringsReader f = Ret (d, f).
Proof. intros E. unfold sharedStringsReader, cached_reader, mbind, gom_bind, get. by rewrite E. Qed.

Lemma row_texts_lookup s d m r j :
  (length (xlsxRow_C r) <= m)%nat ->
  row_texts s d m r !! j = if decide (j < m)%nat then Some (from_option (text_of s d) "" (xlsxRow_C r !! j)) else None.
Proof.
  intros Hm. unfold row_texts. rewrite lookup_app, list_lookup_fmap.
  destruct (xlsxRow_C r !! j) as [c|] eqn:E; cbn [fmap option_fmap option_map].
  - apply lookup_lt_Some in E. by rewrite decide_True by lia.
  - apply lookup_ge_None in E. rewrite length_fmap. case_decide.
    + by rewrite lookup_replicate_2 by lia.
    + apply lookup_replicate_None. lia.
Qed.

Lemma used_texts s d C : used s d C = false -> forall j, from_option (text_of s d) "" (C !! j) = "".
Proof.
  intros Hu j. destruct (C !! j) as [c|] eqn:E; [|done]. cbn. apply not_true_iff_false in Hu.
  destruct (decide (text_of s d c = "")) as [|Hne]; [done|]. exfalso. apply Hu, existsb_exists.
  exists c. split; [apply list_elem_of_In; by eapply list_elem_of_lookup_2|]. by rewrite bool_decide_true.
Qed.

(** The rows that [GetRows] returns. *)
Definition all_texts (s : xlsxStyleSheet) (d : xlsxSST) (xlsx : xlsxWorksheet) : list (list string) :=
  row_texts s d (Z.to_nat (max_cols 0 (sheet_rows xlsx))) <$> sheet_rows xlsx.
Definition last_row (s : xlsxStyleSheet) (d : xlsxSST) (xlsx : xlsxWorksheet) : Z := last_used s d 0 (sheet_rows xlsx) 0.

Lemma rows_within xlsx :
  Forall (fun r => (length (xlsxRow_C r) <= Z.to_nat (max_cols 0 (sheet_rows xlsx)))%nat) (sheet_rows xlsx).
Proof.
  pose proof (max_cols_ge (sheet_rows xlsx) 0). apply Forall_forall. intros r Hr.
  pose proof (max_cols_row (sheet_rows xlsx) 0 r Hr). unfold zlen in *. lia.
Qed.

Lemma last_row_range s d xlsx : 0 <= last_row s d xlsx <= zlen (sheet_rows xlsx).
Proof. pose proof (last_used_range s d 0 (sheet_rows xlsx) 0 ltac:(lia)). unfold last_row. lia. Qed.

Lemma zlen_all_texts s d xlsx : zlen (all_texts s d xlsx) = zlen (sheet_rows xlsx).
Proof. apply zlen_fmap. Qed.

Lemma GetRows_eval f sheet path xlsx s d :
  readable_sheet f sheet path xlsx s d ->
  GetRows sheet f = Ret (ok (take (Z.to_nat (last_row s d xlsx)) (all_texts s d xlsx)), with_saved f path xlsx).
Proof.
  intros [Hl Hwf Hs Hd Hread Hback]. pose proof (wf_sheet_rows_from xlsx Hwf) as Hfrom.
  pose proof (max_cols_ge (sheet_rows xlsx) 0) as Hm0. pose proof (last_row_range s d xlsx) as Hrow.
  unfold GetRows. rewrite (bind_Ret get _ f f f), (proj1 Hl) by done.
  rewrite (bind_Ret _ _ _ _ _ (workSheetReader_loaded _ _ _ _ Hl)). cbn [fst snd].
  rewrite (bind_Ret _ _ _ _ _ (save_sheet_loaded f path xlsx (proj2 Hl))). set (f1 := with_saved f path xlsx).
  rewrite (bind_Ret _ _ _ _ _ (sharedStringsReader_cached f1 d Hd)).
  unfold getTotalRowsCols. unfold rows_read_back in Hback.
  rewrite (bind_Ret _ _ f1 (ok (zlen (sheet_rows xlsx), max_cols 0 (sheet_rows xlsx))) f1).
  2:{ rewrite (bind_Ret _ _ _ _ _ (readXML_saved f path xlsx)). rewrite Hback. cbn [fst].
      rewrite (total_rows_cols_dense 0) by (done || lia). by destruct (sheet_rows xlsx). }
  cbn [fst snd]. unfold make_rows.
  assert ((zlen (sheet_rows xlsx) <? 0) = false) as -> by lia.
  assert ((max_cols 0 (sheet_rows xlsx) <? 0) = false) as -> by lia. rewrite andb_false_r, bind_lift.
  rewrite (bind_Ret _ _ _ _ _ (readXML_saved f path xlsx)), Hback. cbn [fst].
  replace (Z.to_nat (zlen (sheet_rows xlsx))) with (length (sheet_rows xlsx)) by (unfold zlen; lia).
  rewrite (bind_Ret _ _ _ _ _ (get_rows_loop_dense f1 s d _ (sheet_rows xlsx) [] 0 Hs Hread Hfrom (rows_within xlsx))).
  cbn [fst snd app length]. fold (all_texts s d xlsx) (last_row s d xlsx). unfold slice_to. rewrite zlen_all_texts.
  assert ((0 <=? last_row s d xlsx) && (last_row s d xlsx <=? zlen (sheet_rows xlsx)) = true) as -> by lia.
  by rewrite bind_lift.
Qed.

(** An entry of the matrix. *)
Lemma all_texts_at s d xlsx col row :
  1 <= col -> 1 <= row ->
  all_texts s d xlsx !! Z.to_nat (row - 1) ≫= (fun l => l !! Z.to_nat (col - 1)) =
    if decide (row <= zlen (sheet_rows xlsx) /\ col <= max_cols 0 (sheet_rows xlsx)) then Some (text_at s d xlsx col row) else None.
Proof.
  intros Hc Hr. unfold all_texts, text_at, sheet_cell. rewrite list_lookup_fmap.
  pose proof (rows_within xlsx) as Hm. rewrite Forall_lookup in Hm. pose proof (max_cols_ge (sheet_rows xlsx) 0) as Hm0.
  destruct (sheet_rows xlsx !! Z.to_nat (row - 1)) as [x|] eqn:Ex; cbn [fmap option_fmap option_map mbind option_bind].
  - rewrite row_texts_lookup by by eapply Hm. apply lookup_lt_Some in Ex. unfold zlen. repeat case_decide; try done; lia.
  - apply lookup_ge_None in Ex. rewrite decide_False by (unfold zlen; lia). done.
Qed.

(** C8. Reading a sheet with [GetRows]: when the sheet is in memory with the style
    sheet and the shared strings, every cell has a value, and the decoder yields
    the rows that were encoded, the call returns one list per row of the sheet up
    to the last row that is not blank, all as wide as the longest row. The entry
    for a position is the text of the cell that is stored there, which is what
    [GetCellValue] returns for its name once the merged areas of the sheet are
    removed; the positions that are left out have no text. With the merged areas
    a name that [GetCellValue] leads to a position shows the entry of that
    position: a covered cell shows that of the corner of its area, while the entry
    of the covered position is the text that is stored below. *)
Theorem GetRows_correct f sheet path xlsx s d :
  readable_sheet f sheet path xlsx s d ->
  exists rows, GetRows sheet f = Ret (ok rows, with_saved f path xlsx) /\
    zlen rows <= zlen (sheet_rows xlsx) /\
    (forall col row, 1 <= col -> 1 <= row ->
       rows !! Z.to_nat (row - 1) ≫= (fun l => l !! Z.to_nat (col - 1)) =
         if decide (row <= zlen rows /\ col <= max_cols 0 (sheet_rows xlsx)) then Some (text_at s d xlsx col row) else None) /\
    (forall col row, 1 <= col -> zlen rows < row -> text_at s d xlsx col row = "") /\
    (0 < zlen rows -> exists col, 1 <= col /\ text_at s d xlsx col (zlen rows) <> "") /\
    (forall axis col row, coord col -> coord row -> mergeCellsParser xlsx axis = ok (cell_name col row) ->
       GetCellValue sheet axis f = Ret (ok (text_at s d xlsx col row), f)) /\
    (forall col row, coord col -> coord row ->
       let f' := with_sheet f path (xlsx <| xlsxWorksheet_MergeCells := None |>) in
       GetCellValue sheet (cell_name col row) f' = Ret (ok (text_at s d xlsx col row), f')).
Proof.
  intros Hsheet. pose proof (last_row_range s d xlsx) as Hrow. set (row := last_row s d xlsx) in *.
  exists (take (Z.to_nat row) (all_texts s d xlsx)).
  assert (zlen (take (Z.to_nat row) (all_texts s d xlsx)) = row) as ->.
  { pose proof (zlen_all_texts s d xlsx). unfold zlen in *. rewrite length_take. lia. }
  destruct (last_used_spec s d 0 (sheet_rows xlsx) 0 ltac:(lia)) as [Hlast Hblank]. fold (last_row s d xlsx) row in Hlast, Hblank.
  split; [by apply GetRows_eval|]. split; [lia|]. split; [|split; [|split; [|split]]].
  - intros col r Hc Hr. destruct (decide (r <= row)) as [Hle|Hgt].
    + rewrite lookup_take_lt, all_texts_at by lia. repeat case_decide; try done; lia.
    + rewrite lookup_take_ge, decide_False by lia. done.
  - intros col r Hc Hr. unfold text_at, sheet_cell.
    destruct (sheet_rows xlsx !! Z.to_nat (r - 1)) as [x|] eqn:Ex; [|done]. cbn [mbind option_bind].
    apply used_texts. apply (Hblank _ _ Ex). lia.
  - intros Hpos. destruct Hlast as [E|(i & x & E & Ex & Hu)]; [lia|].
    apply existsb_exists in Hu as (c & Hin & Hc). apply list_elem_of_In, list_elem_of_lookup in Hin as [j Hj].
    exists (Z.of_nat j + 1). split; [lia|]. unfold text_at, sheet_cell.
    replace (Z.to_nat (row - 1)) with i by lia. rewrite Ex. cbn [mbind option_bind].
    replace (Z.to_nat (Z.of_nat j + 1 - 1)) with j by lia. rewrite Hj. by apply bool_decide_eq_true in Hc.
  - intros axis col r Hc Hr Hm'. destruct Hsheet as [Hl Hwf Hs Hd Hread _]. by eapply GetCellValue_text_at.
  - intros col r Hc Hr. cbn zeta. destruct Hsheet as [[Hm Hl] Hwf Hs Hd Hread _].
    set (x := xlsx <| xlsxWorksheet_MergeCells := None |>). change (text_at s d xlsx col r) with (text_at s d x col r).
    apply (GetCellValue_text_at (with_sheet f path x) s d sheet path x); try done.
    + split; [done|apply lookup_insert_eq].
    + unfold mergeCellsParser. cbn. by rewrite ToUpper_cell_name by lia.
Qed.

(** *** Searching *)

(** The names of the cells whose text passes a test. *)
Definition found_cells (s : xlsxStyleSheet) (d : xlsxSST) (p : string -> bool) (C : list xlsxC) : list string :=
  xlsxC_R <$> List.filter (fun c => p (text_of s d c)) C.
Definition found_rows (s : xlsxStyleSheet) (d : xlsxSST) (p : string -> bool) (Row : list xlsxRow) : list string :=
  concat ((fun r => found_cells s d p (xlsxRow_C r)) <$> Row).

Lemma search_cells_dense f s d regSearch value p R C : forall k result,
  File_Styles f = Some s -> readable s d C -> wf_cells R (take k C ++ drop k C) -> coord R -> zlen C <= maxInt ->
  (forall v, search_match regSearch value v = Ret (p v)) ->
  search_cells d regSearch value R (drop k C) result f = Ret (ok (result ++ found_cells s d p (drop k C)), f).
Proof.
  intros k result Hs Hread HC HR Hlen Hp. rewrite take_drop in HC.
  remember (drop k C) as C' eqn:E. revert k result E. induction C' as [|c C' IH]; intros k result E; [by rewrite app_nil_r|].
  assert (C !! k = Some c) as Hk by (rewrite <- (Nat.add_0_r k), <- lookup_drop, <- E; done).
  assert (C' = drop (S k) C) as E' by (rewrite (drop_S C c k) in E by done; by injection E).
  assert (value_of s d c <> Panic) as Hc by (unfold readable in Hread; rewrite Forall_lookup in Hread; by eapply Hread).
  cbn [search_cells]. rewrite (bind_Ret _ _ _ _ _ (getValueFrom_text_of f s d c Hs Hc)). cbn [fst].
  rewrite Hp, bind_lift. unfold found_cells. cbn [List.filter]. destruct (p (text_of s d c)); [|by apply (IH (S k))].
  pose proof (wf_cells_coordinates R C k c HC HR Hlen Hk) as Ec. rewrite Ec.
  rewrite (bind_Ret _ _ f (ok (Z.of_nat k + 1, R)) f) by done. cbn [fst snd].
  apply lookup_lt_Some in Hk as Hlt. unfold zlen in Hlen. rewrite cell_name_ok by lia.
  rewrite (bind_Ret _ _ f (ok (cell_name (Z.of_nat k + 1) R)) f) by done. cbn [fst snd].
  rewrite (IH (S k)) by done. cbn [fmap list_fmap]. rewrite (HC _ _ Hk), <- app_assoc. done.
Qed.

Lemma search_rows_dense f s d regSearch value p Row : forall k result,
  File_Styles f = Some s -> Forall (fun r => readable s d (xlsxRow_C r)) Row -> rows_from k Row ->
  (forall v, search_match regSearch value v = Ret (p v)) ->
  search_rows d regSearch value Row result f = Ret (ok (result ++ found_rows s d p Row), f).
Proof.
  induction Row as [|r Row IH]; intros k result Hs Hread HR Hp; [by rewrite app_nil_r|].
  apply Forall_cons_1 in Hread as [Hc Hread]. apply rows_from_cons in HR as (Hr & Hk & HR).
  cbn [search_rows]. destruct Hr as (ER & HC & Hlen). rewrite ER.
  rewrite (bind_Ret _ _ _ _ _ (search_cells_dense f s d regSearch value p _ (xlsxRow_C r) 0 result Hs Hc HC Hk Hlen Hp)).
  rewrite (IH (S k)) by done. cbn [drop]. rewrite <- app_assoc. done.
Qed.

(** C21. Searching a sheet in memory for a text, or for the matches of a regular
    expression that compiles: the call returns the names of exactly the cells
    whose text passes the test, row by row from left to right. The text is the one
    that [GetCellValue] shows for a cell, with its number format, and a cell of a
    merged area is found by the text that is stored in it and returned under its
    own name: the comment of the code, which announces the corner of the area and
    no search of formatted numbers, says otherwise. *)
Theorem SearchSheet_correct f sheet path xlsx s d value reg p :
  readable_sheet f sheet path xlsx s d ->
  (forall v, search_match (default false (last reg)) value v = Ret (p v)) ->
  exists result, SearchSheet sheet value reg f = Ret (ok result, with_saved f path xlsx) /\
    result = found_rows s d p (sheet_rows xlsx) /\
    forall name, name ∈ result <->
      exists col row c, coord col /\ coord row /\ sheet_cell xlsx col row = Some c /\ p (text_of s d c) = true /\ name = cell_name col row.
Proof.
  intros [Hl Hwf Hs Hd Hread Hback] Hp. pose proof (wf_sheet_rows_from xlsx Hwf) as Hfrom.
  eexists. split; [|split; [reflexivity|]].
  - unfold SearchSheet. rewrite (bind_Ret _ _ _ _ _ (workSheetReader_loaded _ _ _ _ Hl)). cbn [fst snd].
    rewrite (bind_Ret get _ f f f), (proj1 Hl) by done.
    rewrite (bind_Ret _ _ _ _ _ (save_sheet_loaded f path xlsx (proj2 Hl))).
    rewrite (bind_Ret _ _ _ _ _ (sharedStringsReader_cached (with_saved f path xlsx) d Hd)).
    rewrite (bind_Ret _ _ _ _ _ (readXML_saved f path xlsx)). unfold rows_read_back in Hback. rewrite Hback. cbn [fst].
    apply (search_rows_dense _ s d _ value p _ 0 []); done.
  - intros name. unfold found_rows. rewrite list_elem_of_In, in_concat. split.
    + intros (l & Hin & Hname). apply list_elem_of_In, list_elem_of_fmap in Hin as (r & -> & Hr).
      apply list_elem_of_In, list_elem_of_fmap in Hname as (c & -> & Hc). apply list_elem_of_In, filter_In in Hc as [Hc Ht].
      apply list_elem_of_In, list_elem_of_lookup in Hc as [j Hj]. apply list_elem_of_lookup in Hr as [i Hi].
      destruct (Hfrom i r Hi) as [(_ & HC & Hlen) Hrow]. cbn in HC, Hrow. apply lookup_lt_Some in Hj as Hlt. unfold zlen in Hlen.
      exists (Z.of_nat j + 1), (Z.of_nat i + 1), c. split_and!; [lia..| |done|by apply HC].
      unfold sheet_cell. replace (Z.to_nat (Z.of_nat i + 1 - 1)) with i by lia. rewrite Hi. cbn [mbind option_bind].
      by replace (Z.to_nat (Z.of_nat j + 1 - 1)) with j by lia.
    + intros (col & row & c & Hcol & Hrow & Hcell & Ht & ->). unfold sheet_cell in Hcell.
      apply bind_Some in Hcell as (r & Hr & Hc). exists (found_cells s d p (xlsxRow_C r)). split.
      * apply list_elem_of_In, list_elem_of_fmap. exists r. split; [done|by eapply list_elem_of_lookup_2].
      * apply list_elem_of_In, list_elem_of_fmap. exists c.
        destruct (Hfrom _ _ Hr) as [(_ & HC & _) _]. rewrite (HC _ _ Hc). split; [f_equal; f_equal; lia|].
        apply list_elem_of_In, filter_In. split; [|done]. apply list_elem_of_In. by eapply list_elem_of_lookup_2.
Qed.

(** *** The iterator *)

(** The loop of the documentation: the columns of each row until there is no next
    row; [fuel] bounds the calls of [Next]. *)
Fixpoint collect (fuel : nat) (rows : Rows) : M (list (list string) * option goerr) :=
  match fuel with
  | O => mret (ok [])
  | S n =>
      match Next rows with
      | (false, rows) => mret ([], Rows_Error rows)
      | (true, rows) =>
          p ← Columns rows;
          match p with
          | ((_, Some e), _) => mret ([], Some e)
          | ((columns, None), rows) =>
              q ← collect n rows;
              mret (columns :: q.1, q.2)
          end
      end
  end.

Lemma column_values_dense f s d R C : forall k pre,
  File_Styles f = Some s -> readable s d C -> cells_from k R C -> length pre = k -> Z.of_nat k + zlen C <= maxInt ->
  column_values d C (pre ++ replicate (length C) "") f = Ret (ok (pre ++ (text_of s d <$> C)), f).
Proof.
  induction C as [|c C IH]; intros k pre Hs Hread HC Hpre Hmax; [done|].
  apply Forall_cons_1 in Hread as [Hc Hread]. apply cells_from_cons in HC as [Ec HC].
  rewrite zlen_cons in Hmax. pose proof (zlen_nonneg C) as Hnn.
  cbn [column_values length replicate]. rewrite Ec.
  rewrite (bind_Ret _ _ f (ok (Z.of_nat k + 1, R)) f) by done. cbn [fst snd].
  rewrite (bind_Ret _ _ _ _ _ (getValueFrom_text_of f s d c Hs Hc)). cbn [fst].
  assert (isub (Z.of_nat k + 1) 1 = Z.of_nat k) as -> by int_lia.
  rewrite list_set_nat by (rewrite length_app; cbn; lia). rewrite bind_lift, insert_middle by done.
  replace (pre ++ text_of s d c :: replicate (length C) "") with ((pre ++ [text_of s d c]) ++ replicate (length C) "")
    by by rewrite <- app_assoc.
  rewrite (IH (S k)) by (done || (rewrite length_app; cbn; lia) || lia). by rewrite <- app_assoc.
Qed.

(** C27. The iterator over a sheet in memory: opened on it, the loop that calls
    [Next] and [Columns] meets every row once, in order, with the texts of its
    cells, and ends without an error after as many rounds as the sheet has rows,
    whatever larger bound it is given. *)
Theorem Rows_terminates f sheet path xlsx s d fuel :
  readable_sheet f sheet path xlsx s d -> (length (sheet_rows xlsx) < fuel)%nat ->
  exists rows f1, open_Rows sheet f = Ret (ok (Some rows), f1) /\
    collect fuel rows f1 = Ret (ok ((fun r => text_of s d <$> xlsxRow_C r) <$> sheet_rows xlsx), f1).
Proof.
  intros [Hl Hwf Hs Hd Hread Hback] Hfuel. pose proof (wf_sheet_rows_from xlsx Hwf) as Hfrom.
  exists (mk_Rows TokenNil (sheet_rows xlsx) None None), (with_saved f path xlsx). split.
  - unfold open_Rows. rewrite (bind_Ret _ _ _ _ _ (workSheetReader_loaded _ _ _ _ Hl)). cbn [fst snd].
    rewrite (bind_Ret get _ f f f), (proj1 Hl) by done.
    rewrite (bind_Ret _ _ _ _ _ (save_sheet_loaded f path xlsx (proj2 Hl))).
    rewrite (bind_Ret _ _ _ _ _ (readXML_saved f path xlsx)). unfold rows_read_back in Hback. by rewrite Hback.
  - assert (File_Styles (with_saved f path xlsx) = Some s /\ File_SharedStrings (with_saved f path xlsx) = Some d) as [Hs1 Hd1] by done.
    generalize (with_saved f path xlsx) Hs1 Hd1. clear - Hread Hfrom Hfuel. intros f Hs Hd.
    generalize TokenNil as tok, (@None goerr) at 2 as e. revert Hread Hfrom Hfuel. generalize 0%nat as k.
    generalize (sheet_rows xlsx) as Row. revert fuel. induction fuel as [|fuel IH]; intros Row k Hread Hfrom Hfuel tok e; [lia|].
    cbn [collect]. destruct Row as [|r Row]; [done|]. cbn [Next Rows_rest Rows_end].
    apply Forall_cons_1 in Hread as [Hc Hread]. apply rows_from_cons in Hfrom as (Hr & Hk & HR). cbn [length] in Hfuel.
    pose proof Hr as (_ & _ & Hlen).
    unfold Columns at 1. cbn [Rows_token]. 
    rewrite (bind_Ret _ _ f ((ok (text_of s d <$> xlsxRow_C r)), mk_Rows TokenRead Row None None) f).
    2:{ rewrite (bind_Ret _ _ _ _ _ (sharedStringsReader_cached f d Hd)).
        rewrite (bind_Ret _ _ _ _ _ (column_values_dense f s d _ (xlsxRow_C r) 0 [] Hs Hc (wf_row_cells_from _ _ Hr Hk) eq_refl ltac:(lia))).
        done. }
    rewrite (bind_Ret _ _ _ _ _ (IH Row (S k) Hread HR ltac:(lia) TokenRead None)). done.
Qed.

End read_properties.

(** ** Concrete instances *)

Definition rows_env (xlsx : xlsxWorksheet) : GoEnv :=
  example_env <| (@xml_rows) := fun _ => (sheet_rows xlsx, None) |>.
Definition rows_file : File :=
  (example_file example_sheet) <| File_Styles := Some gozero |> <| File_SharedStrings := Some gozero |>.

Lemma rows_file_readable :
  readable_sheet (H := rows_env example_sheet) rows_file "Sheet1" "xl/worksheets/sheet1.xml" example_sheet gozero gozero.
Proof.
  split; try reflexivity.
  - exact (example_loaded example_sheet).
  - apply example_sheet_wf.
  - repeat constructor; vm_compute; discriminate.
Qed.

Lemma GetRows_correct_witness :
  exists rows, GetRows (H := rows_env example_sheet) "Sheet1" rows_file =
      Ret (ok rows, with_saved (H := rows_env example_sheet) rows_file "xl/worksheets/sheet1.xml" example_sheet) /\
    rows = [["";"";""]; [""; "x"; ""]].
Proof.
  destruct (@GetRows_correct (rows_env example_sheet) rows_file "Sheet1" _ example_sheet gozero gozero rows_file_readable)
    as (rows & E & _).
  exists rows. split; [exact E|].
  assert (GetRows (H := rows_env example_sheet) "Sheet1" rows_file =
    Ret (ok [["";"";""]; [""; "x"; ""]],
      with_saved (H := rows_env example_sheet) rows_file "xl/worksheets/sheet1.xml" example_sheet)) as E2 by reflexivity.
  congruence.
Defined.

Lemma SearchSheet_correct_witness :
  SearchSheet (H := rows_env example_sheet) "Sheet1" "x" [] rows_file =
    Ret (ok ["B2"], with_saved (H := rows_env example_sheet) rows_file "xl/worksheets/sheet1.xml" example_sheet).
Proof.
  destruct (@SearchSheet_correct (rows_env example_sheet) rows_file "Sheet1" _ example_sheet gozero gozero "x" []
    (fun v => bool_decide (v = "x")) rows_file_readable) as (result & E & R & _).
  - reflexivity.
  - rewrite E, R. reflexivity.
Defined.

Lemma Rows_terminates_witness :
  exists rows f1, open_Rows (H := rows_env example_sheet) "Sheet1" rows_file = Ret (ok (Some rows), f1) /\
    collect (H := rows_env example_sheet) 3 rows f1 = Ret (ok [[]; [""; "x"; ""]], f1).
Proof.
  apply (@Rows_terminates (rows_env example_sheet) rows_file "Sheet1" _ example_sheet gozero gozero 3 rows_file_readable).
  cbn. lia.
Defined.

(** The stored text of B2 in the merged area A1:B2 is found under the name B2. *)
Example SearchSheet_covered :
  let x := example_sheet <| xlsxWorksheet_MergeCells := Some (mk_xlsxMergeCells 1 [mk_xlsxMergeCell "A1:B2"]) |> in
  returned (SearchSheet (H := rows_env x) "Sheet1" "x" [] (with_sheet rows_file "xl/worksheets/sheet1.xml" x)) = Some (ok ["B2"]) /\
  mergeCellsParser (H := rows_env x) x "B2" = ok "A1".
Proof. split; vm_compute; reflexivity. Qed.

(** The number 0.5 with the format 0% is found as the text that is shown, not as the
    text that is stored. *)
Example SearchSheet_formatted :
  let x := set_rows [(freshRow 1) <| xlsxRow_C := [(freshCell "A1") <| xlsxC_S := 1 |> <| xlsxC_V := "0.5" |>]|>] gozero in
  let st := (gozero : xlsxStyleSheet) <| xlsxStyleSheet_CellXfs := Some (mk_xlsxCellXfs 2 [gozero; (gozero : xlsxXf) <| xlsxXf_NumFmtID := 9 |>]) |> in
  let f := (with_sheet rows_file "xl/worksheets/sheet1.xml" x) <| File_Styles := Some st |> in
  returned (SearchSheet (H := rows_env x) "Sheet1" "50%" [] f) = Some (ok ["A1"]) /\
  returned (SearchSheet (H := rows_env x) "Sheet1" "0.5" [] f) = Some (ok []).
Proof. split; vm_compute; reflexivity. Qed.
