(* ===== verification/GridSpec.v ===== *)
(** An abstract spreadsheet: a grid of cell contents over all positions, with merged
    areas, rows, columns and links to locations, and a step relation that says what each
    operation on a worksheet means. The dense slices, the names of the cells, the
    ranges of columns, the passes over the sheet and the state of [File] do not
    occur in it. *)
From S2P Require Export Cols CellValue.

(** ** The abstract machine *)

(** What a column has of its own. *)
Record column := mk_column { co_hidden : bool; co_level : Z; co_width : float64; co_style : Z }.
#[export] Instance eta_column : Eta column := fun c => mk_column (co_hidden c) (co_level c) (co_width c) (co_style c).

Definition plain_column : column := mk_column false 0 f64_zero 0.

(** What a row has of its own. *)
Record row_state := mk_row_state { ro_hidden : bool; ro_level : Z; ro_height : float64 }.
#[export] Instance eta_row_state : Eta row_state := fun r => mk_row_state (ro_hidden r) (ro_level r) (ro_height r).

Definition plain_row : row_state := mk_row_state false 0 f64_zero.

(** A link to a location, with the position of its cell. *)
Abbreviation location_link := (Z * Z * string)%type.

(** [ss_height] is the number of rows the sheet has in memory and [ss_width] a
    bound of their lengths; beyond them all cells are blank and all rows plain. *)
Record spreadsheet := mk_spreadsheet {
  ss_cell : Z -> Z -> xlsxC;
  ss_areas : list rect;
  ss_height : Z;
  ss_width : Z;
  ss_row : Z -> row_state;
  ss_col : Z -> column;
  ss_links : list location_link
}.
#[export] Instance eta_spreadsheet : Eta spreadsheet := fun r =>
  mk_spreadsheet (ss_cell r) (ss_areas r) (ss_height r) (ss_width r) (ss_row r) (ss_col r) (ss_links r).

(** The operations of a trace. *)
Inductive operation :=
| SetOp (col row : Z) (w : cell_write)
| ValueOp (col row : Z) (v : value)
| RowOp (col row : Z) (l : list value)
| FormulaOp (col row : Z) (formula : string)
| StyleOp (c1 r1 c2 r2 : Z) (styleID : Z)
| LinkOp (col row : Z) (location : string)
| ColAttrOp (col : Z) (a : col_attr)
| ColWidthOp (c1 c2 : Z) (width : float64)
| MergeOp (c1 r1 c2 r2 : Z)
| InsertRowOp (num : Z)
| RemoveRowOp (num : Z)
| DuplicateRowOp (row num : Z)
| RowAttrOp (row : Z) (a : row_attr)
| InsertColOp (num : Z)
| RemoveColOp (num : Z).

(** A cell without its name. *)
Definition content (o : option xlsxC) : xlsxC := match o with Some c => c <| xlsxC_R := "" |> | None => gozero end.

(** A cell without a style takes that of its column. *)
Definition column_style (cols : Z -> column) (col style : Z) : Z := if style =? 0 then co_style (cols col) else style.

Definition areas_ok (Rs : list rect) : Prop := Forall rect_wf Rs /\ ForallOrdPairs rect_disjoint Rs.

(** The cell of a position replaced; the sheet then reaches this far. *)
Definition edited_at (s : spreadsheet) (col row : Z) (h : xlsxC -> xlsxC) : spreadsheet :=
  s <| ss_cell := fun c r => if (c =? col) && (r =? row) then h (ss_cell s col row) else ss_cell s c r |>
    <| ss_height := Z.max (ss_height s) row |> <| ss_width := Z.max (ss_width s) col |>.

Definition written (s : spreadsheet) (col row : Z) (w : cell_write) : spreadsheet :=
  edited_at s col row (fun old => write_content w (old <| xlsxC_S := column_style (ss_col s) col (xlsxC_S old) |>)).

(** Values in the cells of a row, from a column on. A covered cell stands for the
    top left one of its area. *)
Fixpoint values_written (s : spreadsheet) (col row : Z) (ws : list cell_write) : spreadsheet :=
  match ws with
  | [] => s
  | w :: ws =>
      let p := merged_position (ss_areas s) col row in
      values_written (written s p.1 p.2 w) (col + 1) row ws
  end.

(** A style for the cells of an area, covered or not. *)
Definition area_styled (s : spreadsheet) (R : rect) (styleID : Z) : spreadsheet :=
  s <| ss_cell := fun c r => if in_rect R c r then (ss_cell s c r) <| xlsxC_S := styleID |> else ss_cell s c r |>
    <| ss_height := Z.max (ss_height s) (rect_r2 R) |> <| ss_width := Z.max (ss_width s) (rect_c2 R) |>.

(** One attribute of a row. *)
Definition apply_row_state (a : row_attr) (r : row_state) : row_state :=
  match a with
  | RowHeight h => r <| ro_height := h |>
  | RowVisible b => r <| ro_hidden := negb b |>
  | RowOutlineLevel l => r <| ro_level := l |>
  end.

Definition row_attr_set (s : spreadsheet) (row : Z) (a : row_attr) : spreadsheet :=
  s <| ss_row := fun n => if n =? row then apply_row_state a (ss_row s n) else ss_row s n |>
    <| ss_height := Z.max (ss_height s) row |>.

(** One attribute of a column; a width for a range of columns, which drops what they
    had. *)
Definition apply_col_attr (a : col_attr) (c : column) : column :=
  match a with ColVisible b => c <| co_hidden := negb b |> | ColOutlineLevel l => c <| co_level := l |> end.

Definition col_attr_set (s : spreadsheet) (col : Z) (a : col_attr) : spreadsheet :=
  s <| ss_col := fun n => if n =? col then apply_col_attr a (ss_col s n) else ss_col s n |>.

Definition col_width_set (s : spreadsheet) (c1 c2 : Z) (width : float64) : spreadsheet :=
  s <| ss_col := fun n => if (Z.min c1 c2 <=? n) && (n <=? Z.max c1 c2) then plain_column <| co_width := width |> else ss_col s n |>.

(** Links move with the rows and columns; those of columns stay where they are. *)
Definition shifted_link (dir : adjustDirection) (num offset : Z) (l : location_link) : location_link :=
  let '(c, r, t) := l in
  if is_rows dir then (c, if num <=? r then r + offset else r, t) else (if num <=? c then c + offset else c, r, t).

(** The link can be moved, and it is not removed with its row or column. *)
Definition link_fits (dir : adjustDirection) (num offset : Z) (l : location_link) : Prop :=
  let v := if is_rows dir then l.1.2 else l.1.1 in v + offset <= maxInt /\ (offset < 0 -> v <> num).

Definition row_inserted (s : spreadsheet) (num : Z) : spreadsheet :=
  s <| ss_cell := fun c r => if r <? num then ss_cell s c r else if r =? num then gozero else ss_cell s c (r - 1) |>
    <| ss_row := fun r => if r <? num then ss_row s r else if r =? num then plain_row else ss_row s (r - 1) |>
    <| ss_areas ::= fmap (shift_rect rows num 1) |> <| ss_links ::= fmap (shifted_link rows num 1) |>
    <| ss_height := if num <=? ss_height s then ss_height s + 1 else ss_height s |>.

Definition row_removed (s : spreadsheet) (num : Z) : spreadsheet :=
  s <| ss_cell := fun c r => if r <? num then ss_cell s c r else ss_cell s c (r + 1) |>
    <| ss_row := fun r => if r <? num then ss_row s r else ss_row s (r + 1) |>
    <| ss_areas ::= fmap (shift_rect rows num (-1)) |> <| ss_links ::= fmap (shifted_link rows num (-1)) |>
    <| ss_height := ss_height s - 1 |>.

(** A copy of the row [row] takes the place [num]. *)
Definition row_duplicated (s : spreadsheet) (row num : Z) : spreadsheet :=
  s <| ss_cell := fun c r => if r <? num then ss_cell s c r else if r =? num then ss_cell s c row else ss_cell s c (r - 1) |>
    <| ss_row := fun r => if r <? num then ss_row s r else if r =? num then ss_row s row else ss_row s (r - 1) |>
    <| ss_areas ::= fmap (shift_rect rows num 1) |> <| ss_links ::= fmap (shifted_link rows num 1) |>
    <| ss_height := ss_height s + 1 |>.

Definition column_inserted (s : spreadsheet) (num : Z) : spreadsheet :=
  s <| ss_cell := fun c r => if c <? num then ss_cell s c r else if c =? num then gozero else ss_cell s (c - 1) r |>
    <| ss_areas ::= fmap (shift_rect columns num 1) |> <| ss_links ::= fmap (shifted_link columns num 1) |>
    <| ss_width := ss_width s + 1 |>.

Definition column_removed (s : spreadsheet) (num : Z) : spreadsheet :=
  s <| ss_cell := fun c r => if c <? num then ss_cell s c r else ss_cell s (c + 1) r |>
    <| ss_areas ::= fmap (shift_rect columns num (-1)) |> <| ss_links ::= fmap (shifted_link columns num (-1)) |>.

(** One step. A formula is set on a cell that has none: the record of a formula is
    shared by a duplicated row and its original, so that a second formula would
    change both. The premises of the insertions and removals are the bounds of the
    integers, that no link is removed and that no area shrinks to one cell; a
    removal must leave the areas disjoint, since an area whose first row is removed
    moves up, and a row beyond the last one is removed without moving the areas. *)
Inductive step : spreadsheet -> operation -> spreadsheet -> Prop :=
| step_set s col row w c r :
    coord col -> coord row -> merged_position (ss_areas s) col row = (c, r) ->
    step s (SetOp col row w) (written s c r w)
| step_value s col row v w c r :
    coord col -> coord row -> plain_write v = Some w -> merged_position (ss_areas s) col row = (c, r) ->
    step s (ValueOp col row v) (written s c r w)
| step_row_values s col row l ws :
    coord col -> coord row -> col + zlen l - 1 <= maxInt -> Forall2 (fun v w => plain_write v = Some w) l ws ->
    step s (RowOp col row l) (values_written s col row ws)
| step_formula s col row formula c r :
    coord col -> coord row -> merged_position (ss_areas s) col row = (c, r) ->
    formula <> "" -> xlsxC_F (ss_cell s c r) = None ->
    step s (FormulaOp col row formula) (edited_at s c r (with_formula formula))
| step_style s c1 r1 c2 r2 styleID :
    coord c1 -> coord r1 -> coord c2 -> coord r2 ->
    step s (StyleOp c1 r1 c2 r2 styleID) (area_styled s (rect_of c1 r1 c2 r2) styleID)
| step_link s col row location c r :
    coord col -> coord row -> merged_position (ss_areas s) col row = (c, r) -> zlen (ss_links s) <= 65529 ->
    step s (LinkOp col row location) (s <| ss_links ::= fun l => l ++ [(c, r, location)] |>)
| step_col_attr s col a : coord col -> step s (ColAttrOp col a) (col_attr_set s col a)
| step_col_width s c1 c2 width : coord c1 -> coord c2 -> step s (ColWidthOp c1 c2 width) (col_width_set s c1 c2 width)
| step_merge s c1 r1 c2 r2 :
    coord c1 -> coord r1 -> coord c2 -> coord r2 -> ~ (c1 = c2 /\ r1 = r2) ->
    Forall (fun S => rect_disjoint S (rect_of c1 r1 c2 r2)) (ss_areas s) ->
    step s (MergeOp c1 r1 c2 r2) (s <| ss_areas := ss_areas s ++ [rect_of c1 r1 c2 r2] |>)
| step_insert_row s num :
    coord num -> ss_height s < maxInt -> rects_kept rows num 1 (ss_areas s) ->
    Forall (link_fits rows num 1) (ss_links s) -> step s (InsertRowOp num) (row_inserted s num)
| step_remove_row s num :
    coord num -> num <= ss_height s < maxInt -> rects_kept rows num (-1) (ss_areas s) ->
    areas_ok (shift_rect rows num (-1) <$> ss_areas s) -> Forall (link_fits rows num (-1)) (ss_links s) ->
    step s (RemoveRowOp num) (row_removed s num)
| step_remove_beyond s num :
    coord num -> ss_height s < num -> step s (RemoveRowOp num) s
| step_duplicate_row s row num :
    coord num -> ss_height s + 1 < maxInt -> 1 <= row <= ss_height s -> row <> num -> num <= ss_height s + 1 ->
    rects_kept rows num 1 (ss_areas s) -> Forall (link_fits rows num 1) (ss_links s) ->
    step s (DuplicateRowOp row num) (row_duplicated s row num)
| step_row_attr s row a :
    coord row -> step s (RowAttrOp row a) (row_attr_set s row a)
| step_insert_column s num :
    coord num -> ss_width s < maxInt -> rects_kept columns num 1 (ss_areas s) ->
    Forall (link_fits columns num 1) (ss_links s) -> step s (InsertColOp num) (column_inserted s num)
| step_remove_column s num :
    coord num -> ss_width s < maxInt -> rects_kept columns num (-1) (ss_areas s) ->
    areas_ok (shift_rect columns num (-1) <$> ss_areas s) -> Forall (link_fits columns num (-1)) (ss_links s) ->
    step s (RemoveColOp num) (column_removed s num).

(** ** What a name shows

    A covered name stands for the top left position of its area. *)

Definition cell_seen (s : spreadsheet) (col row : Z) : xlsxC :=
  let p := merged_position (ss_areas s) col row in ss_cell s p.1 p.2.

Definition style_seen (s : spreadsheet) (col row : Z) : Z :=
  column_style (ss_col s) (merged_position (ss_areas s) col row).1 (xlsxC_S (cell_seen s col row)).

(** The text of a formula of the cell's own; a shared one has its text in another
    cell. *)
Definition own_formula (c : xlsxC) : option string :=
  match xlsxC_F c with
  | None => Some ""
  | Some f => if bool_decide (xlsxF_T f = STCellFormulaTypeShared) then None else Some (xlsxF_Content f)
  end.

(** The first link of the position, if there is one. *)
Definition link_seen (s : spreadsheet) (col row : Z) : bool * string :=
  match list_find (fun l => l.1 = merged_position (ss_areas s) col row) (ss_links s) with
  | Some (_, l) => (true, l.2)
  | None => (false, "")
  end.

(** A row beyond the last one is not visible; a height of zero stands for the
    default. *)
Definition visible_seen (s : spreadsheet) (row : Z) : bool := (row <=? ss_height s) && negb (ro_hidden (ss_row s row)).
Definition height_seen (r : row_state) : float64 := if f64_eqb (ro_height r) f64_zero then defaultRowHeightPixels else ro_height r.

(** A width of zero stands for the default. *)
Definition width_seen (c : column) : float64 := if f64_eqb (co_width c) f64_zero then defaultColWidthPixels else co_width c.

(** A trace of steps. *)
Inductive steps : spreadsheet -> list operation -> spreadsheet -> Prop :=
| steps_nil s : steps s [] s
| steps_cons s op s' ops s'' : step s op s' -> steps s' ops s'' -> steps s (op :: ops) s''.
