(* ===== verification/Spreadsheet.v ===== *)
(** The refinement of the abstract spreadsheet of GridSpec by the operations on a
    worksheet: each call simulates its step, and what the getters return is what
    the spreadsheet says. *)
From S2P Require Export GridSpec.

(** ** The implementation *)

Section refinement.
Context `{GoEnv}.

Definition run_operation (sheet : string) (op : operation) : M (option goerr) :=
  match op with
  | SetOp col row w => write_op w sheet (cell_name col row)
  | ValueOp col row v => SetCellValue sheet (cell_name col row) v
  | RowOp col row l => SetSheetRow sheet (cell_name col row) (SlicePtr l)
  | FormulaOp col row formula => SetCellFormula sheet (cell_name col row) formula
  | StyleOp c1 r1 c2 r2 styleID => SetCellStyle sheet (cell_name c1 r1) (cell_name c2 r2) styleID
  | LinkOp col row location => SetCellHyperLink sheet (cell_name col row) location "Location"
  | ColAttrOp col a => set_col_attr a sheet (ColumnNumberToName col).1
  | ColWidthOp c1 c2 width => SetColWidth sheet (ColumnNumberToName c1).1 (ColumnNumberToName c2).1 width
  | MergeOp c1 r1 c2 r2 => MergeCell sheet (cell_name c1 r1) (cell_name c2 r2)
  | InsertRowOp num => InsertRow sheet num
  | RemoveRowOp num => RemoveRow sheet num
  | DuplicateRowOp row num => DuplicateRowTo sheet row num
  | RowAttrOp row a => set_row_attr a sheet row
  | InsertColOp num => InsertCol sheet (ColumnNumberToName num).1
  | RemoveColOp num => RemoveCol sheet (ColumnNumberToName num).1
  end.

(** The calls one after the other, until one returns an error. *)
Fixpoint run_operations (sheet : string) (ops : list operation) : M (option goerr) :=
  match ops with
  | [] => mret None
  | op :: rest => try! run_operation sheet op in run_operations sheet rest
  end.

Definition row_state_of (r : xlsxRow) : row_state := mk_row_state (xlsxRow_Hidden r) (xlsxRow_OutlineLevel r) (xlsxRow_Ht r).

(** A range of columns as the columns see it; the last range that covers a column
    counts. *)
Definition column_of (o : option xlsxCol) : column :=
  match o with
  | Some c => mk_column (xlsxCol_Hidden c) (xlsxCol_OutlineLevel c) (xlsxCol_Width c) (xlsxCol_Style c)
  | None => plain_column
  end.

Definition link_of (l : location_link) : xlsxHyperlink := new_link (cell_name l.1.1 l.1.2) l.2 None.

(** The parts of the worksheet beside the grid. It has no auto filter and no links
    but those to locations. *)
Record sheet_rest (xlsx : xlsxWorksheet) (s : spreadsheet) : Prop := {
  sr_areas : merge_areas xlsx = rect_areas (ss_areas s);
  sr_areas_ok : areas_ok (ss_areas s);
  sr_links : sheet_links xlsx = link_of <$> ss_links s;
  sr_links_ok : Forall (fun l => coord l.1.1 /\ coord l.1.2) (ss_links s);
  sr_filter : xlsxWorksheet_AutoFilter xlsx = None;
  sr_col n : column_of (last_col n (sheet_cols xlsx)) = ss_col s n
}.

(** The worksheet represents the spreadsheet. *)
Record sheet_represents (xlsx : xlsxWorksheet) (s : spreadsheet) : Prop := {
  sr_wf : wf_sheet xlsx;
  sr_cell c r : 1 <= c -> 1 <= r -> content (sheet_cell xlsx c r) = ss_cell s c r;
  sr_height : zlen (sheet_rows xlsx) = ss_height s;
  sr_width c r : 1 <= c -> 1 <= r -> is_Some (sheet_cell xlsx c r) -> c <= ss_width s;
  sr_row r : 1 <= r -> row_state_of (props_at xlsx r) = ss_row s r;
  sr_rest :> sheet_rest xlsx s
}.

(** The sheet of a name represents the spreadsheet. *)
Definition represents (f : File) (sheet path : string) (s : spreadsheet) : Prop :=
  exists xlsx, loaded f sheet path xlsx /\ sheet_represents xlsx s.

(** *** Contents *)

Lemma content_moved col row o : content (moved_cell col row <$> o) = content o.
Proof. by destruct o. Qed.

Lemma content_written w (c : xlsxC) (st : Z) :
  (write_content w (c <| xlsxC_S := st |>)) <| xlsxC_R := "" |> = write_content w (c <| xlsxC_R := "" |> <| xlsxC_S := st |>).
Proof. destruct w; cbn; try done. by destruct (starts_with_space _). Qed.

Lemma wf_sheet_cell_range xlsx c r : wf_sheet xlsx -> 1 <= c -> 1 <= r -> is_Some (sheet_cell xlsx c r) -> coord c /\ coord r.
Proof.
  intros [Hwf Hmax] Hc Hr [x Hx]. unfold sheet_cell in Hx. apply bind_Some in Hx as (row & Hrow & Hcell).
  destruct (Hwf _ _ Hrow) as (_ & _ & HL). apply lookup_lt_Some in Hrow, Hcell. unfold zlen in *. lia.
Qed.

(** An operation on the grid leaves the rest alone. *)
Lemma sheet_rest_data xlsx x s s' :
  sheet_rest xlsx s -> x <| xlsxWorksheet_SheetData := gozero |> = xlsx <| xlsxWorksheet_SheetData := gozero |> ->
  ss_areas s' = ss_areas s -> ss_links s' = ss_links s -> ss_col s' = ss_col s -> sheet_rest x s'.
Proof.
  intros [] E Ea El Ec.
  pose proof (f_equal merge_areas E : merge_areas x = merge_areas xlsx) as E1.
  pose proof (f_equal sheet_links E : sheet_links x = sheet_links xlsx) as E2.
  pose proof (f_equal xlsxWorksheet_AutoFilter E : xlsxWorksheet_AutoFilter x = xlsxWorksheet_AutoFilter xlsx) as E3.
  pose proof (f_equal sheet_cols E : sheet_cols x = sheet_cols xlsx) as E4. clear E.
  by split; rewrite ?E1, ?E2, ?E3, ?E4, ?Ea, ?El, ?Ec.
Qed.

Lemma sheet_rest_rows xlsx x s s' :
  sheet_rest xlsx s -> x = set_rows (sheet_rows x) xlsx ->
  ss_areas s' = ss_areas s -> ss_links s' = ss_links s -> ss_col s' = ss_col s -> sheet_rest x s'.
Proof. intros Hs Hx. apply (sheet_rest_data xlsx); [done|]. by rewrite Hx. Qed.

Lemma last_col_style col st l o :
  foldl (fun st c => if (xlsxCol_Min c <=? col) && (col <=? xlsxCol_Max c) then xlsxCol_Style c else st) (from_option xlsxCol_Style st o) l =
  from_option xlsxCol_Style st (foldl (fun o c => if col_covers col c then Some c else o) o l).
Proof.
  revert o. induction l as [|c l IH]; intros o; [done|]. cbn [foldl]. rewrite <- IH. unfold col_covers. by destruct (_ && _).
Qed.

Lemma column_style_sheet xlsx s col st :
  sheet_rest xlsx s -> prepareCellStyle xlsx col st = column_style (ss_col s) col st.
Proof.
  intros Hr. unfold column_style, prepareCellStyle. rewrite <- (sr_col _ _ Hr). unfold sheet_cols.
  destruct (xlsxWorksheet_Cols xlsx) as [[l]|]; destruct (st =? 0) eqn:E; try done; [|by apply Z.eqb_eq in E].
  apply Z.eqb_eq in E as ->. etrans; [apply (last_col_style col 0 l None)|]. cbn [sheet_cols from_option xlsxCols_Col]. fold (last_col col l). by destruct (last_col col l).
Qed.

Lemma merged_position_coord Rs col row c r :
  Forall rect_wf Rs -> coord col -> coord row -> merged_position Rs col row = (c, r) -> coord c /\ coord r.
Proof.
  intros Hw Hc Hr. induction Hw as [|R Rs (H1 & H2 & H3 & H4) Hw IH]; cbn; [by intros [= <- <-]|].
  destruct (in_rect R col row); [intros [= <- <-]; lia|exact IH].
Qed.

Lemma rest_parser xlsx s col row :
  sheet_rest xlsx s -> coord col -> coord row ->
  mergeCellsParser xlsx (cell_name col row) =
    ok (cell_name (merged_position (ss_areas s) col row).1 (merged_position (ss_areas s) col row).2).
Proof.
  intros Hr Hc Hrow. destruct (sr_areas_ok _ _ Hr) as [Hw Hd]. unfold mergeCellsParser.
  rewrite (sr_areas _ _ Hr), ToUpper_cell_name by lia. by apply merge_loop_rects.
Qed.

Lemma represents_parser xlsx s col row :
  sheet_represents xlsx s -> coord col -> coord row ->
  mergeCellsParser xlsx (cell_name col row) =
    ok (cell_name (merged_position (ss_areas s) col row).1 (merged_position (ss_areas s) col row).2).
Proof. intros Hs. apply rest_parser, Hs. Qed.

Lemma resolves_merged xlsx s col row c r :
  sheet_represents xlsx s -> coord col -> coord row -> merged_position (ss_areas s) col row = (c, r) ->
  resolves xlsx (cell_name col row) c r.
Proof.
  intros Hs Hc Hr E. destruct (merged_position_coord _ _ _ _ _ (proj1 (sr_areas_ok _ _ Hs)) Hc Hr E) as [Hc' Hr'].
  split; [done|]. split; [done|]. exists (cell_name c r). rewrite (represents_parser _ s) by done. rewrite E.
  split; [done|]. by apply cell_name_coordinates.
Qed.

Lemma column_name num :
  1 <= num -> num <= maxInt ->
  ColumnNameToNumber (ColumnNumberToName num).1 = ok num /\ ColumnNumberToName num = ok (ColumnNumberToName num).1.
Proof.
  intros H1 H2. destruct (ColumnNumberToName_spec num H1) as (name & -> & Hne & Hup & Hval). cbn. split; [|done].
  rewrite ColumnNameToNumber_alpha by auto with go_db. rewrite Hval, wrap64_id; [done|]. unfold minInt. lia.
Qed.

(** *** Each operation simulates its step *)

(** Replacing a cell by [h] of it, when [h] does not look at the name. *)
Lemma edited_represents xlsx x s c r h h' :
  sheet_represents xlsx s -> coord c -> coord r -> edited xlsx x c r h ->
  (forall d, (h d) <| xlsxC_R := "" |> = h' (d <| xlsxC_R := "" |>)) -> sheet_represents x (edited_at s c r h').
Proof.
  intros Hs Hc Hr (Hwf & _ & Hcell & Hother & Hx & Hlen & Hprops) Hh.
  assert (forall c' r', 1 <= c' -> 1 <= r' -> ~ (c' = c /\ r' = r) -> sheet_cell x c' r' = sheet_cell xlsx c' r' \/
    sheet_cell xlsx c' r' = None /\ sheet_cell x c' r' = Some (freshCell (cell_name c' r')) /\ c' <= c) as Hrest.
  { intros c' r' Hc' Hr' Hne. destruct (sheet_cell x c' r') as [y|] eqn:Ey.
    - destruct (wf_sheet_cell_range x c' r' Hwf Hc' Hr') as [Hcc Hrr]; [by eexists|]. rewrite <- Ey.
      destruct (Hother c' r' Hcc Hrr Hne) as [?|(? & ? & _ & ?)]; [by left|by right].
    - destruct (sheet_cell xlsx c' r') as [y|] eqn:Ey'; [|by left].
      destruct (wf_sheet_cell_range xlsx c' r' (sr_wf _ _ Hs) Hc' Hr') as [Hcc Hrr]; [by eexists|].
      destruct (Hother c' r' Hcc Hrr Hne) as [He|(He & _)]; congruence. }
  split; [done|..|by eapply sheet_rest_rows; [apply Hs|..]].
  - intros c' r' Hc' Hr'. change (ss_cell (edited_at s c r h') c' r') with
      (if (c' =? c) && (r' =? r) then h' (ss_cell s c r) else ss_cell s c' r').
    destruct ((c' =? c) && (r' =? r)) eqn:Eq.
    + assert (c' = c /\ r' = r) as [-> ->] by lia. rewrite Hcell, <- (sr_cell _ _ Hs) by done. cbn [content]. rewrite Hh.
      by destruct (sheet_cell xlsx c r).
    + rewrite <- (sr_cell _ _ Hs) by done. by destruct (Hrest c' r' Hc' Hr') as [->|(-> & -> & _)]; [lia|..].
  - rewrite Hlen, (sr_height _ _ Hs). done.
  - intros c' r' Hc' Hr' Hsome. change (ss_width (edited_at s c r h')) with (Z.max (ss_width s) c).
    destruct (decide (c' = c /\ r' = r)) as [[-> ->]|Hne]; [lia|].
    destruct (Hrest c' r' Hc' Hr' Hne) as [Heq|(_ & _ & ?)]; [|lia].
    rewrite Heq in Hsome. pose proof (sr_width _ _ Hs c' r' Hc' Hr' Hsome). lia.
  - intros n Hn. rewrite Hprops by done. by apply (sr_row _ _ Hs).
Qed.

Lemma write_simulates f sheet path s col row w c r :
  represents f sheet path s -> coord col -> coord row -> merged_position (ss_areas s) col row = (c, r) ->
  exists xlsx', set_cell sheet (cell_name col row) (write_content w) f = Ret (None, with_sheet f path xlsx') /\
    sheet_represents xlsx' (written s c r w).
Proof.
  intros (xlsx & Hl & Hs) Hcol Hrow E. pose proof (resolves_merged _ _ _ _ _ _ Hs Hcol Hrow E) as Hres.
  pose proof Hres as (Hc & Hr & _).
  destruct (set_cell_spec f sheet path xlsx (cell_name col row) c r (write_content w) Hl (sr_wf _ _ Hs) Hres) as (x & Ex & Hx).
  { intros y. destruct w; try done. cbn. by destruct (starts_with_space _). }
  exists x. split; [done|]. eapply edited_represents; [done..|]. intros d. cbv beta. rewrite content_written.
  by rewrite (column_style_sheet _ s) by apply Hs.
Qed.

Lemma value_simulates f sheet path s col row v w c r :
  represents f sheet path s -> coord col -> coord row -> plain_write v = Some w -> merged_position (ss_areas s) col row = (c, r) ->
  exists xlsx', SetCellValue sheet (cell_name col row) v f = Ret (None, with_sheet f path xlsx') /\
    sheet_represents xlsx' (written s c r w).
Proof. intros Hr Hc Hrow Hw E. rewrite (SetCellValue_write _ _ _ _ Hw). by apply write_simulates. Qed.

(** The loop over the values of a row. *)
Lemma row_values_simulates l ws : Forall2 (fun v w => plain_write v = Some w) l ws ->
  forall f sheet path s col row, represents f sheet path s -> coord col -> coord row -> col + zlen l - 1 <= maxInt ->
  exists xlsx', set_row_values sheet col row l f = Ret (None, with_sheet f path xlsx') /\
    sheet_represents xlsx' (values_written s col row ws).
Proof.
  induction 1 as [|v w l ws Hw Hl IH]; intros f sheet path s col row Hr Hc Hrow Hmax.
  { destruct Hr as (xlsx & Hx & Hs). exists xlsx. split; [|done]. by rewrite with_sheet_same by apply Hx. }
  cbn [set_row_values values_written]. destruct (merged_position (ss_areas s) col row) as [c r] eqn:E. cbn [fst snd].
  rewrite (cell_name_ok col row) by lia.
  destruct (value_simulates f sheet path s col row v w c r) as (x & E1 & Hx); [done..|].
  unfold mret, gom_ret, mbind at 1, gom_bind at 1. cbn [fst snd]. rewrite (bind_Ret _ _ _ _ _ E1).
  destruct l as [|v' l].
  - apply Forall2_nil_inv_l in Hl as ->. by exists x.
  - rewrite zlen_cons in Hmax. assert (0 <= zlen l) by apply zlen_nonneg. rewrite zlen_cons in Hmax.
    assert (iadd col 1 = col + 1) as -> by int_lia.
    destruct (IH (with_sheet f path x) sheet path (written s c r w) (col + 1) row) as (y & E2 & Hy); [|lia|lia|rewrite zlen_cons; lia|].
    + destruct Hr as (xlsx & Hl' & _). exists x. split; [by eapply with_sheet_loaded|done].
    + exists y. by rewrite E2, with_sheet_twice.
Qed.

Lemma formula_simulates f sheet path s col row formula c r :
  represents f sheet path s -> coord col -> coord row -> merged_position (ss_areas s) col row = (c, r) -> formula <> "" ->
  exists xlsx', run_operation sheet (FormulaOp col row formula) f = Ret (None, with_sheet f path xlsx') /\
    sheet_represents xlsx' (edited_at s c r (with_formula formula)).
Proof.
  intros (xlsx & Hl & Hs) Hcol Hrow E Hf. pose proof (resolves_merged _ _ _ _ _ _ Hs Hcol Hrow E) as Hres.
  pose proof Hres as (Hc & Hr & _).
  destruct (SetCellFormula_spec f sheet path xlsx (cell_name col row) c r formula Hl (sr_wf _ _ Hs) Hres Hf) as (x & Ex & Hx).
  exists x. split; [done|]. by eapply edited_represents.
Qed.

Lemma style_simulates f sheet path s c1 r1 c2 r2 styleID :
  represents f sheet path s -> coord c1 -> coord r1 -> coord c2 -> coord r2 ->
  exists xlsx', run_operation sheet (StyleOp c1 r1 c2 r2 styleID) f = Ret (None, with_sheet f path xlsx') /\
    sheet_represents xlsx' (area_styled s (rect_of c1 r1 c2 r2) styleID).
Proof.
  intros (xlsx & Hl & Hs) Hc1 Hr1 Hc2 Hr2.
  destruct (set_style_area_ok styleID (Z.min c1 c2) (Z.min r1 r2) (Z.max c1 c2) (Z.max r1 r2) xlsx (sr_wf _ _ Hs))
    as (y & Ey & Hwf & Hx & Hlen & Hcells); [lia..|]. fold (rect_of c1 r1 c2 r2) in Hcells. cbn zeta in Hcells.
  exists y. split; [apply (SetCellStyle_area f sheet path xlsx _ _ c1 r1 c2 r2); [done|by apply cell_name_coordinates..|done]|].
  assert (forall c r, 1 <= c -> 1 <= r -> ~ (coord c /\ coord r) ->
    sheet_cell y c r = None /\ sheet_cell xlsx c r = None /\ in_rect (rect_of c1 r1 c2 r2) c r = false) as Hout.
  { intros c r Hc Hr Hn. split_and!.
    - destruct (sheet_cell y c r) eqn:E; [|done]. destruct Hn. apply (wf_sheet_cell_range y); [done..|by eexists].
    - destruct (sheet_cell xlsx c r) eqn:E; [|done]. destruct Hn. apply (wf_sheet_cell_range xlsx); [apply Hs|done..|by eexists].
    - unfold in_rect, rect_of. cbn. lia. }
  split; [done|..|by eapply sheet_rest_rows; [apply Hs|..]].
  - intros c r Hc Hr. change (ss_cell (area_styled s (rect_of c1 r1 c2 r2) styleID) c r) with
      (if in_rect (rect_of c1 r1 c2 r2) c r then (ss_cell s c r) <| xlsxC_S := styleID |> else ss_cell s c r).
    rewrite <- (sr_cell _ _ Hs) by done. destruct (decide (coord c /\ coord r)) as [[Hcc Hrr]|Hn].
    + rewrite Hcells by done. destruct (in_rect _ c r) eqn:Ein.
      * unfold in_rect, rect_of in Ein. cbn in Ein. destruct (sheet_cell xlsx c r); [done|]. by rewrite decide_True by lia.
      * destruct (sheet_cell xlsx c r); [done|]. by case_decide.
    + by destruct (Hout c r Hc Hr Hn) as (-> & -> & ->).
  - rewrite Hlen, (sr_height _ _ Hs). done.
  - intros c r Hc Hr Hsome. change (c <= Z.max (ss_width s) (Z.max c1 c2)).
    destruct (wf_sheet_cell_range y c r Hwf Hc Hr Hsome) as [Hcc Hrr]. rewrite Hcells in Hsome by done.
    assert (is_Some (sheet_cell xlsx c r) -> c <= ss_width s) as Hw by by apply (sr_width _ _ Hs).
    destruct (sheet_cell xlsx c r) as [d|]; [pose proof (Hw ltac:(by eexists)); lia|].
    destruct (in_rect _ c r); case_decide; [lia| |lia|]; by destruct Hsome.
  - intros n Hn. apply set_style_area_props in Ey as Hprops; [|lia]. rewrite Hprops by done. by apply (sr_row _ _ Hs).
Qed.

Lemma merge_simulates f sheet path s c1 r1 c2 r2 :
  represents f sheet path s -> coord c1 -> coord r1 -> coord c2 -> coord r2 -> ~ (c1 = c2 /\ r1 = r2) ->
  Forall (fun S => rect_disjoint S (rect_of c1 r1 c2 r2)) (ss_areas s) ->
  exists xlsx', run_operation sheet (MergeOp c1 r1 c2 r2) f = Ret (None, with_sheet f path xlsx') /\
    sheet_represents xlsx' (s <| ss_areas := ss_areas s ++ [rect_of c1 r1 c2 r2] |>).
Proof.
  intros (xlsx & Hl & Hs) Hc1 Hr1 Hc2 Hr2 Hne Hd. destruct (sr_areas_ok _ _ Hs) as [Hw Hdis].
  destruct (MergeCell_areas f sheet path xlsx (cell_name c1 r1) (cell_name c2 r2) c1 r1 c2 r2 (ss_areas s))
    as (mc & E & Ea); try done; [by apply cell_name_coordinates|by apply cell_name_coordinates|apply (sr_areas _ _ Hs)|].
  eexists. split; [exact E|]. split; try apply Hs. split; try apply Hs; [exact Ea|].
  split; [|by apply areas_disjoint_snoc]. apply Forall_app. split; [done|]. apply Forall_singleton.
  unfold rect_wf, rect_of. cbn. lia.
Qed.

(** A link to a location is set. *)
Lemma link_simulates f sheet path s col row location c r :
  represents f sheet path s -> coord col -> coord row -> merged_position (ss_areas s) col row = (c, r) ->
  zlen (ss_links s) <= 65529 ->
  exists xlsx', run_operation sheet (LinkOp col row location) f = Ret (None, with_sheet f path xlsx') /\
    sheet_represents xlsx' (s <| ss_links ::= fun l => l ++ [(c, r, location)] |>).
Proof.
  intros (xlsx & Hl & Hs) Hcol Hrow E Hlen. pose proof (represents_parser _ _ _ _ Hs Hcol Hrow) as Hm. rewrite E in Hm. cbn [fst snd] in Hm.
  destruct (merged_position_coord _ _ _ _ _ (proj1 (sr_areas_ok _ _ Hs)) Hcol Hrow E) as [Hc Hr]. cbn [run_operation].
  rewrite (SetCellHyperLink_accepted f sheet path xlsx _ (cell_name c r) ((ColumnNumberToName col).1, row)); [|done| |done|].
  - rewrite bool_decide_eq_false_2, bool_decide_eq_true_2 by done.
    set (x := set_hyperlinks (sheet_links xlsx) xlsx). assert (File_Sheet (with_sheet f path x) !! path = Some x) as Hws by apply lookup_insert_eq.
    rewrite (bind_Ret _ _ _ _ _ (update_add_link _ _ _ _ Hws)), with_sheet_twice. eexists. split; [done|].
    split; try apply Hs. split; try apply Hs.
    + change (sheet_links xlsx ++ [link_of (c, r, location)] = link_of <$> (ss_links s ++ [(c, r, location)])).
      by rewrite (sr_links _ _ Hs), fmap_app.
    + apply Forall_app. split; [apply Hs|]. by apply Forall_singleton.
  - apply SplitCellName_cell_name; lia.
  - rewrite (sr_links _ _ Hs). by rewrite zlen_fmap.
Qed.

(** The columns. *)
Lemma sheet_rest_cols xlsx x s s' :
  sheet_rest xlsx s -> x <| xlsxWorksheet_Cols := None |> = xlsx <| xlsxWorksheet_Cols := None |> ->
  ss_areas s' = ss_areas s -> ss_links s' = ss_links s ->
  (forall n, column_of (last_col n (sheet_cols x)) = ss_col s' n) -> sheet_rest x s'.
Proof.
  intros Hs E Ea El Hc.
  pose proof (f_equal merge_areas E : merge_areas x = merge_areas xlsx) as E1.
  pose proof (f_equal sheet_links E : sheet_links x = sheet_links xlsx) as E2.
  pose proof (f_equal xlsxWorksheet_AutoFilter E : xlsxWorksheet_AutoFilter x = xlsxWorksheet_AutoFilter xlsx) as E3.
  clear E. destruct Hs. by split; rewrite ?E1, ?E2, ?E3, ?Ea, ?El.
Qed.

Lemma cols_represent xlsx c s s' :
  sheet_represents xlsx s -> ss_areas s' = ss_areas s -> ss_links s' = ss_links s -> ss_cell s' = ss_cell s ->
  ss_height s' = ss_height s -> ss_width s' = ss_width s -> ss_row s' = ss_row s ->
  (forall n, (if col_covers n c then column_of (Some c) else ss_col s n) = ss_col s' n) -> sheet_represents (add_col c xlsx) s'.
Proof.
  intros Hs Ea El Ec Eh Ew Er Hcol. split; rewrite ?Ec, ?Eh, ?Ew, ?Er; try apply Hs.
  apply (sheet_rest_cols xlsx _ s); [apply Hs|done..|]. intros n. rewrite sheet_cols_add, last_col_snoc, <- Hcol.
  destruct (col_covers n c); [done|apply (sr_col _ _ Hs)].
Qed.

Lemma col_attr_simulates f sheet path s col a :
  represents f sheet path s -> coord col ->
  exists xlsx', run_operation sheet (ColAttrOp col a) f = Ret (None, with_sheet f path xlsx') /\
    sheet_represents xlsx' (col_attr_set s col a).
Proof.
  intros (xlsx & Hl & Hs) Hc. destruct (column_name col (proj1 Hc) (proj2 Hc)) as [Hname _].
  eexists. split; [by apply (set_col_attr_loaded f sheet path xlsx _ col)|]. apply (cols_represent xlsx _ s); try done.
  intros n. cbn [ss_col col_attr_set]. unfold col_covers. change (ss_col (col_attr_set s col a) n) with
    (if n =? col then apply_col_attr a (ss_col s n) else ss_col s n).
  rewrite attr_col_Min, attr_col_Max. destruct (n =? col) eqn:E.
  - assert (n = col) as -> by lia. replace ((col <=? col) && (col <=? col)) with true by lia.
    rewrite <- (sr_col _ _ Hs). unfold attr_col. by destruct a, (last_col col (sheet_cols xlsx)).
  - by replace ((col <=? n) && (n <=? col)) with false by lia.
Qed.

Lemma col_width_simulates f sheet path s c1 c2 width :
  represents f sheet path s -> coord c1 -> coord c2 ->
  exists xlsx', run_operation sheet (ColWidthOp c1 c2 width) f = Ret (None, with_sheet f path xlsx') /\
    sheet_represents xlsx' (col_width_set s c1 c2 width).
Proof.
  intros (xlsx & Hl & Hs) Hc1 Hc2. destruct (column_name c1 (proj1 Hc1) (proj2 Hc1)) as [Hn1 _].
  destruct (column_name c2 (proj1 Hc2) (proj2 Hc2)) as [Hn2 _].
  eexists. split; [by apply (SetColWidth_loaded f sheet path xlsx _ _ c1 c2)|]. by apply (cols_represent xlsx _ s).
Qed.

(** Inserting and removing moves the areas and the links and leaves the columns. *)
Lemma shift_link_of dir num offset l :
  offset = 1 \/ offset = -1 -> 1 <= num -> coord l.1.1 /\ coord l.1.2 -> link_fits dir num offset l ->
  shift_link dir num offset (link_of l) = link_of (shifted_link dir num offset l) /\
  coord (shifted_link dir num offset l).1.1 /\ coord (shifted_link dir num offset l).1.2.
Proof.
  destruct l as [[c r] t]. cbn [fst snd]. intros Ho Hn [Hc Hr] [Hf Hk]. unfold link_fits in *. cbn [fst snd] in Hf, Hk.
  unfold shift_link, link_of, shifted_link. cbn [fst snd]. change (xlsxHyperlink_Ref (new_link ?a t None)) with a.
  rewrite cell_name_coordinates by done. cbn [fst snd].
  destruct (is_rows dir); destruct (num <=? _) eqn:E; cbn [fst snd]; try done.
  - assert (iadd r offset = r + offset) as -> by (unfold minInt, maxInt in *; int_lia).
    rewrite (cell_name_ok c (r + offset)) by lia. split; [done|]. lia.
  - assert (iadd c offset = c + offset) as -> by (unfold minInt, maxInt in *; int_lia).
    rewrite (cell_name_ok (c + offset) r) by lia. split; [done|]. lia.
Qed.

Lemma shifted_links_ok dir num offset xlsx s :
  sheet_rest xlsx s -> offset = 1 \/ offset = -1 -> 1 <= num -> Forall (link_fits dir num offset) (ss_links s) ->
  shift_link dir num offset <$> sheet_links xlsx = link_of <$> (shifted_link dir num offset <$> ss_links s) /\
  Forall (fun l => coord l.1.1 /\ coord l.1.2) (shifted_link dir num offset <$> ss_links s).
Proof.
  intros Hs Ho Hn Hf. pose proof (sr_links_ok _ _ Hs) as Hok. rewrite (sr_links _ _ Hs). clear Hs.
  induction Hf as [|l L Hl _ IH]; [done|]. apply Forall_cons in Hok as [Hlk Hok]. destruct (IH Hok) as [E1 E2].
  destruct (shift_link_of dir num offset l Ho Hn Hlk Hl) as [E3 E4]. rewrite !fmap_cons, E1, E3. split; [done|]. by constructor.
Qed.

Lemma links_fit_kept dir num offset xlsx s :
  sheet_rest xlsx s -> Forall (link_fits dir num offset) (ss_links s) -> links_kept dir num offset xlsx.
Proof.
  intros Hs Hf Hneg. pose proof (sr_links_ok _ _ Hs) as Hok. rewrite (sr_links _ _ Hs). clear Hs. apply Forall_fmap.
  induction Hf as [|[[c r] t] L [_ Hl] _ IH]; [done|]. apply Forall_cons in Hok as [[Hc Hr] Hok]. constructor; [|by apply IH].
  specialize (Hl Hneg). cbn in Hl, Hc, Hr. unfold compose, link_hit, link_of. cbn [fst snd].
  change (xlsxHyperlink_Ref (new_link ?a t None)) with a. rewrite cell_name_coordinates by done. cbn [fst snd].
  destruct (is_rows dir); lia.
Qed.

Lemma adjusted_rest dir xlsx x s s' num offset :
  sheet_rest xlsx s -> offset = 1 \/ offset = -1 -> 1 <= num -> Forall (link_fits dir num offset) (ss_links s) ->
  merge_areas x = rect_areas (shift_rect dir num offset <$> ss_areas s) ->
  sheet_links x = shift_link dir num offset <$> sheet_links xlsx -> xlsxWorksheet_AutoFilter x = None ->
  xlsxWorksheet_Cols x = xlsxWorksheet_Cols xlsx ->
  ss_areas s' = shift_rect dir num offset <$> ss_areas s -> areas_ok (ss_areas s') ->
  ss_links s' = shifted_link dir num offset <$> ss_links s -> ss_col s' = ss_col s -> sheet_rest x s'.
Proof.
  intros Hs Ho Hn Hf Ha Hl Hfil Hc Ea Hok El Ec. destruct (shifted_links_ok dir num offset xlsx s Hs Ho Hn Hf) as [E1 E2].
  split; rewrite ?Ea, ?El, ?Ec; try done.
  - by rewrite <- Ea.
  - by rewrite Hl.
  - intros n. unfold sheet_cols. rewrite Hc. apply (sr_col _ _ Hs).
Qed.

Lemma row_adjusted_rest xlsx x s s' num offset :
  sheet_rest xlsx s -> row_adjusted xlsx x num offset (ss_areas s) None ->
  offset = 1 \/ offset = -1 -> 1 <= num -> Forall (link_fits rows num offset) (ss_links s) ->
  ss_areas s' = shift_rect rows num offset <$> ss_areas s -> areas_ok (ss_areas s') ->
  ss_links s' = shifted_link rows num offset <$> ss_links s -> ss_col s' = ss_col s -> sheet_rest x s'.
Proof.
  intros Hs (Ha & Hl & Hf & Hrest) Ho Hn Hfit. apply (adjusted_rest rows xlsx x s); try done.
  by apply (f_equal xlsxWorksheet_Cols) in Hrest.
Qed.

Lemma col_adjusted_rest xlsx x s s' num offset :
  sheet_rest xlsx s -> col_adjusted xlsx x num offset (ss_areas s) None ->
  offset = 1 \/ offset = -1 -> 1 <= num -> Forall (link_fits columns num offset) (ss_links s) ->
  ss_areas s' = shift_rect columns num offset <$> ss_areas s -> areas_ok (ss_areas s') ->
  ss_links s' = shifted_link columns num offset <$> ss_links s -> ss_col s' = ss_col s -> sheet_rest x s'.
Proof.
  intros Hs (Ha & Hl & Hf & Hrest) Ho Hn Hfit. apply (adjusted_rest columns xlsx x s); try done.
  by apply (f_equal xlsxWorksheet_Cols) in Hrest.
Qed.

Lemma represents_row_adjustable f sheet path xlsx s num offset :
  loaded f sheet path xlsx -> sheet_represents xlsx s -> coord num -> ss_height s < maxInt ->
  rects_kept rows num offset (ss_areas s) -> Forall (link_fits rows num offset) (ss_links s) ->
  row_adjustable f sheet path xlsx num offset (ss_areas s) None.
Proof.
  intros Hl Hs Hn Hh Hk Hf. split; try done; try apply Hs; [by rewrite (sr_height _ _ Hs)|].
  by apply (links_fit_kept _ _ _ _ s); [apply Hs|].
Qed.

Lemma represents_row_lengths xlsx s :
  sheet_represents xlsx s -> ss_width s < maxInt -> Forall (fun r => zlen (xlsxRow_C r) < maxInt) (sheet_rows xlsx).
Proof.
  intros Hs Hw. apply Forall_lookup. intros i r Hi. destruct (sr_wf _ _ Hs) as [Hwf Hmax].
  destruct (Hwf _ _ Hi) as (_ & _ & HL). apply lookup_lt_Some in Hi as Hlt.
  destruct (decide (zlen (xlsxRow_C r) = 0)) as [->|Hne]; [done|]. pose proof (zlen_nonneg (xlsxRow_C r)).
  pose proof (sr_width _ _ Hs (zlen (xlsxRow_C r)) (Z.of_nat i + 1)) as Hb.
  assert (zlen (xlsxRow_C r) <= ss_width s); [|lia]. apply Hb; [lia|unfold zlen in *; lia|].
  unfold sheet_cell. replace (Z.to_nat (Z.of_nat i + 1 - 1)) with i by lia. rewrite Hi. cbn.
  apply lookup_lt_is_Some_2. unfold zlen in *. lia.
Qed.

Lemma represents_col_adjustable f sheet path xlsx s num offset :
  loaded f sheet path xlsx -> sheet_represents xlsx s -> coord num -> ss_width s < maxInt ->
  rects_kept columns num offset (ss_areas s) -> Forall (link_fits columns num offset) (ss_links s) ->
  col_adjustable f sheet path xlsx num offset (ss_areas s) None.
Proof.
  intros Hl Hs Hn Hh Hk Hf. split; try done; try apply Hs; [by eapply represents_row_lengths|].
  by apply (links_fit_kept _ _ _ _ s); [apply Hs|].
Qed.

Lemma shift_areas_ok dir num Rs :
  areas_ok Rs -> rects_kept dir num 1 Rs -> areas_ok (shift_rect dir num 1 <$> Rs).
Proof.
  intros [Hw Hd] Hk. split.
  - apply Forall_fmap. eapply Forall_impl; [exact Hk|]. intros R (HR & Hf & _).
    apply shift_rect_wf; [unfold maxInt; lia|done|done].
  - clear Hk. revert Hw. induction Hd as [|R Rs HR Hd IH]; intros Hw; cbn; [constructor|].
    apply Forall_cons in Hw as [(R1 & R2 & R3 & R4) Hw]. constructor; [|by apply IH].
    apply Forall_fmap, Forall_forall. intros T HT. rewrite Forall_forall in HR, Hw.
    destruct (Hw T HT) as (T1 & T2 & T3 & T4). specialize (HR T HT).
    unfold compose, rect_disjoint, shift_rect, Adjust.shift in *. destruct dir; cbn; repeat case_match; lia.
Qed.

Lemma insert_row_simulates f sheet path s num :
  represents f sheet path s -> coord num -> ss_height s < maxInt -> rects_kept rows num 1 (ss_areas s) ->
  Forall (link_fits rows num 1) (ss_links s) ->
  exists xlsx', run_operation sheet (InsertRowOp num) f = Ret (None, with_sheet f path xlsx') /\
    sheet_represents xlsx' (row_inserted s num).
Proof.
  intros (xlsx & Hl & Hs) Hn Hh Hk Hlf.
  destruct (InsertRow_rows f sheet path xlsx num (ss_areas s) None) as (x & E & Hr & Hwf & Hadj);
    [by apply represents_row_adjustable|].
  assert (forall c r, 1 <= c -> 1 <= r -> sheet_cell x c r = _) as Hcell
    by (intros c r Hc' Hr'; apply (inserted_sheet_cell xlsx x num c r); (done || lia)).
  exists x. split; [exact E|].
  split; [done|..|apply (row_adjusted_rest xlsx x s _ num 1); try done; [apply Hs|by left|lia|apply shift_areas_ok; [apply (sr_areas_ok _ _ Hs)|done]]].
  - intros c r Hcc Hrr. rewrite Hcell by done. cbn. destruct (r <? num) eqn:E1; [by apply (sr_cell _ _ Hs)|].
    destruct (r =? num) eqn:E2; [done|]. rewrite content_moved. apply (sr_cell _ _ Hs); lia.
  - rewrite Hr, inserted_rows_len, (sr_height _ _ Hs) by lia. cbn.
    destruct (ss_height s <? num) eqn:E1, (num <=? ss_height s) eqn:E2; lia.
  - intros c r Hcc Hrr. rewrite Hcell by done. change (ss_width (row_inserted s num)) with (ss_width s).
    destruct (r <? num) eqn:E1; [by apply (sr_width _ _ Hs)|]. destruct (r =? num) eqn:E2; [by intros []|].
    rewrite fmap_is_Some. apply (sr_width _ _ Hs); lia.
  - intros n Hn'. rewrite (inserted_props xlsx x num n) by (done || lia). cbn. destruct (n <? num) eqn:E1; [by apply (sr_row _ _ Hs)|].
    destruct (n =? num) eqn:E2; [done|]. apply (sr_row _ _ Hs). lia.
Qed.

Lemma remove_row_simulates f sheet path s num :
  represents f sheet path s -> coord num -> num <= ss_height s < maxInt -> rects_kept rows num (-1) (ss_areas s) ->
  areas_ok (shift_rect rows num (-1) <$> ss_areas s) -> Forall (link_fits rows num (-1)) (ss_links s) ->
  exists xlsx', run_operation sheet (RemoveRowOp num) f = Ret (None, with_sheet f path xlsx') /\
    sheet_represents xlsx' (row_removed s num).
Proof.
  intros (xlsx & Hl & Hs) Hn Hh Hk Hok Hlf. pose proof (sr_height _ _ Hs) as Hlen.
  destruct (RemoveRow_rows f sheet path xlsx num (ss_areas s) None) as (x & E & Hr & Hwf & Hadj);
    [apply represents_row_adjustable; (done || lia)|lia|].
  assert (forall c r, 1 <= c -> 1 <= r -> sheet_cell x c r = _) as Hcell
    by (intros c r Hc' Hr'; apply (removed_sheet_cell xlsx x num c r); (done || lia)).
  exists x. split; [exact E|].
  split; [done|..|apply (row_adjusted_rest xlsx x s _ num (-1)); try done; [apply Hs|by right|lia]].
  - intros c r Hcc Hrr. rewrite Hcell by done. cbn. destruct (r <? num) eqn:E1; [by apply (sr_cell _ _ Hs)|].
    rewrite content_moved. apply (sr_cell _ _ Hs); lia.
  - rewrite Hr, removed_rows_len, Hlen by lia. done.
  - intros c r Hcc Hrr. rewrite Hcell by done. change (ss_width (row_removed s num)) with (ss_width s).
    destruct (r <? num) eqn:E1; [by apply (sr_width _ _ Hs)|].
    rewrite fmap_is_Some. apply (sr_width _ _ Hs); lia.
  - intros n Hn'. rewrite (removed_props xlsx x num n) by (done || lia). cbn.
    destruct (n <? num) eqn:E1; apply (sr_row _ _ Hs); lia.
Qed.

Lemma duplicated_cell xlsx x row num c r :
  (forall n, 1 <= n -> sheet_rows x !! Z.to_nat (n - 1) =
     if n <? num then sheet_rows xlsx !! Z.to_nat (n - 1)
     else if n =? num then renumbered num <$> sheet_rows xlsx !! Z.to_nat (row - 1)
     else renumbered n <$> sheet_rows xlsx !! Z.to_nat (n - 2)) ->
  1 <= c -> 1 <= r ->
  sheet_cell x c r =
    if r <? num then sheet_cell xlsx c r
    else if r =? num then moved_cell c num <$> sheet_cell xlsx c row
    else moved_cell c r <$> sheet_cell xlsx c (r - 1).
Proof.
  intros Hrows Hc Hr. unfold sheet_cell at 1. rewrite Hrows by done. destruct (r <? num) eqn:E1; [done|]. destruct (r =? num) eqn:E2.
  - unfold sheet_cell. destruct (sheet_rows xlsx !! Z.to_nat (row - 1)) as [y|]; [|done]. by apply renumbered_cell_at.
  - unfold sheet_cell. replace (r - 1 - 1) with (r - 2) by lia.
    destruct (sheet_rows xlsx !! Z.to_nat (r - 2)) as [y|]; [|done]. by apply renumbered_cell_at.
Qed.

Lemma duplicated_props xlsx x row num n :
  (forall n, 1 <= n -> sheet_rows x !! Z.to_nat (n - 1) =
     if n <? num then sheet_rows xlsx !! Z.to_nat (n - 1)
     else if n =? num then renumbered num <$> sheet_rows xlsx !! Z.to_nat (row - 1)
     else renumbered n <$> sheet_rows xlsx !! Z.to_nat (n - 2)) ->
  1 <= n ->
  props_at x n = if n <? num then props_at xlsx n else if n =? num then props_at xlsx row else props_at xlsx (n - 1).
Proof.
  intros Hrows Hn. unfold props_at. rewrite Hrows by done. replace (n - 1 - 1) with (n - 2) by lia.
  clear Hrows. destruct (n <? num); [done|]. by destruct (n =? num), (sheet_rows xlsx !! Z.to_nat (n - 2)), (sheet_rows xlsx !! Z.to_nat (row - 1)).
Qed.

Lemma duplicate_row_simulates f sheet path s row num :
  represents f sheet path s -> coord num -> ss_height s + 1 < maxInt -> 1 <= row <= ss_height s -> row <> num ->
  num <= ss_height s + 1 -> rects_kept rows num 1 (ss_areas s) ->
  Forall (link_fits rows num 1) (ss_links s) ->
  exists xlsx', run_operation sheet (DuplicateRowOp row num) f = Ret (None, with_sheet f path xlsx') /\
    sheet_represents xlsx' (row_duplicated s row num).
Proof.
  intros (xlsx & Hl & Hs) Hn Hh Hrow Hne Hle Hk Hlf. pose proof (sr_height _ _ Hs) as Hlen.
  destruct (DuplicateRowTo_rows f sheet path xlsx row num (ss_areas s) None) as (x & E & Hwf & Hlen' & Hrows & Hadj);
    [apply represents_row_adjustable; (done || lia)|lia..|].
  pose proof (fun c r => duplicated_cell xlsx x row num c r Hrows) as Hcell.
  exists x. split; [exact E|].
  split; [done|..|apply (row_adjusted_rest xlsx x s _ num 1); try done; [apply Hs|by left|lia|apply shift_areas_ok; [apply (sr_areas_ok _ _ Hs)|done]]].
  - intros c r Hcc Hrr. rewrite Hcell by done. cbn. destruct (r <? num) eqn:E1; [by apply (sr_cell _ _ Hs)|].
    destruct (r =? num) eqn:E2; rewrite content_moved; apply (sr_cell _ _ Hs); lia.
  - rewrite Hlen', Hlen. done.
  - intros c r Hcc Hrr. rewrite Hcell by done. change (ss_width (row_duplicated s row num)) with (ss_width s).
    destruct (r <? num) eqn:E1; [by apply (sr_width _ _ Hs)|].
    destruct (r =? num) eqn:E2; rewrite fmap_is_Some; apply (sr_width _ _ Hs); lia.
  - intros n Hn'. rewrite (duplicated_props xlsx x row num n Hrows Hn'). cbn.
    destruct (n <? num) eqn:E1; [by apply (sr_row _ _ Hs)|]. destruct (n =? num) eqn:E2; apply (sr_row _ _ Hs); lia.
Qed.

Lemma row_attr_simulates f sheet path s row a :
  represents f sheet path s -> coord row ->
  exists xlsx', run_operation sheet (RowAttrOp row a) f = Ret (None, with_sheet f path xlsx') /\
    sheet_represents xlsx' (row_attr_set s row a).
Proof.
  intros (xlsx & Hl & Hs) Hrow. cbn [run_operation].
  assert (set_row_attr a sheet row = set_row sheet row (apply_row_attr a)) as -> by by destruct a.
  destruct (set_row_ok f sheet path xlsx row (apply_row_attr a) Hl (sr_wf _ _ Hs) Hrow ltac:(by destruct a)) as (x & E & Hwf & Hrows & Hx).
  pose proof (set_row_cells xlsx x row (apply_row_attr a) (proj1 Hrow) ltac:(by destruct a) Hrows) as Hcell.
  exists x. split; [done|]. split; [done|..|by eapply sheet_rest_rows; [apply Hs|..]].
  - intros c r Hc Hr. rewrite Hcell by done. by apply (sr_cell _ _ Hs).
  - rewrite Hrows, zlen_insert, with_rows_len, (sr_height _ _ Hs). done.
  - intros c r Hc Hr. rewrite Hcell by done. by apply (sr_width _ _ Hs).
  - intros n Hn. rewrite (set_row_props xlsx x row a (proj1 Hrow) Hrows n Hn).
    change (ss_row (row_attr_set s row a) n) with (if n =? row then apply_row_state a (ss_row s n) else ss_row s n).
    rewrite <- (sr_row _ _ Hs n Hn). destruct (n =? row); [by destruct a|done].
Qed.

Lemma insert_column_simulates f sheet path s num :
  represents f sheet path s -> coord num -> ss_width s < maxInt -> rects_kept columns num 1 (ss_areas s) ->
  Forall (link_fits columns num 1) (ss_links s) ->
  exists xlsx', run_operation sheet (InsertColOp num) f = Ret (None, with_sheet f path xlsx') /\
    sheet_represents xlsx' (column_inserted s num).
Proof.
  intros (xlsx & Hl & Hs) Hn Hw Hk Hlf. destruct (column_name num (proj1 Hn) (proj2 Hn)) as [Hname _].
  destruct (InsertCol_grid f sheet path xlsx (ColumnNumberToName num).1 num (ss_areas s) None) as (x & E & Hwf & Hlen & Hprops & Hcell & Hadj);
    [by apply represents_col_adjustable|done|].
  exists x. split; [exact E|].
  split; [done|..|apply (col_adjusted_rest xlsx x s _ num 1); try done; [apply Hs|by left|lia|apply shift_areas_ok; [apply (sr_areas_ok _ _ Hs)|done]]].
  - intros c r Hcc Hrr. change (ss_cell (column_inserted s num) c r) with
      (if c <? num then ss_cell s c r else if c =? num then gozero else ss_cell s (c - 1) r).
    destruct (decide (c <= maxInt)) as [Hm|Hm].
    + rewrite Hcell by lia. destruct (c <? num) eqn:E1; [by apply (sr_cell _ _ Hs)|].
      destruct (c =? num) eqn:E2; [by destruct (sheet_cell xlsx num r)|]. rewrite content_moved. apply (sr_cell _ _ Hs); lia.
    + replace (c <? num) with false by lia. replace (c =? num) with false by lia. rewrite <- (sr_cell _ _ Hs) by lia.
      destruct (sheet_cell x c r) as [y|] eqn:Ey.
      { destruct (wf_sheet_cell_range x c r Hwf); [lia..|by eexists|lia]. }
      destruct (sheet_cell xlsx (c - 1) r) as [y|] eqn:Ey'; [|done].
      assert (c - 1 <= ss_width s); [|lia]. apply (sr_width _ _ Hs _ r); [lia..|by eexists].
  - rewrite Hlen. apply (sr_height _ _ Hs).
  - intros c r Hcc Hrr Hsome. change (ss_width (column_inserted s num)) with (ss_width s + 1).
    destruct (wf_sheet_cell_range x c r Hwf Hcc Hrr Hsome) as [Hm _]. rewrite Hcell in Hsome by lia.
    destruct (c <? num) eqn:E1; [pose proof (sr_width _ _ Hs c r Hcc Hrr Hsome); lia|].
    destruct (c =? num) eqn:E2; apply fmap_is_Some in Hsome.
    + pose proof (sr_width _ _ Hs num r (proj1 Hn) Hrr Hsome). lia.
    + pose proof (sr_width _ _ Hs (c - 1) r ltac:(lia) Hrr Hsome). lia.
  - intros n Hn'. rewrite Hprops by done. by apply (sr_row _ _ Hs).
Qed.

Lemma remove_column_simulates f sheet path s num :
  represents f sheet path s -> coord num -> ss_width s < maxInt -> rects_kept columns num (-1) (ss_areas s) ->
  areas_ok (shift_rect columns num (-1) <$> ss_areas s) -> Forall (link_fits columns num (-1)) (ss_links s) ->
  exists xlsx', run_operation sheet (RemoveColOp num) f = Ret (None, with_sheet f path xlsx') /\
    sheet_represents xlsx' (column_removed s num).
Proof.
  intros (xlsx & Hl & Hs) Hn Hw Hk Hok Hlf. destruct (column_name num (proj1 Hn) (proj2 Hn)) as [Hname Hnum].
  destruct (RemoveCol_grid f sheet path xlsx (ColumnNumberToName num).1 num (ss_areas s) None) as (x & E & Hwf & Hlen & Hprops & Hcell & Hadj);
    [by apply represents_col_adjustable|done|done|].
  exists x. split; [exact E|].
  split; [done|..|apply (col_adjusted_rest xlsx x s _ num (-1)); try done; [apply Hs|by right|lia]].
  - intros c r Hcc Hrr. rewrite Hcell by done. cbn. destruct (c <? num) eqn:E1; [by apply (sr_cell _ _ Hs)|].
    rewrite content_moved. apply (sr_cell _ _ Hs); lia.
  - rewrite Hlen. apply (sr_height _ _ Hs).
  - intros c r Hcc Hrr. rewrite Hcell by done. change (ss_width (column_removed s num)) with (ss_width s).
    destruct (c <? num) eqn:E1; [by apply (sr_width _ _ Hs)|].
    rewrite fmap_is_Some. intros Hsome. pose proof (sr_width _ _ Hs (c + 1) r ltac:(lia) Hrr Hsome). lia.
  - intros n Hn'. rewrite Hprops by done. by apply (sr_row _ _ Hs).
Qed.

(** Each step of the abstract machine is simulated by the call, which changes
    nothing but the worksheet. *)
Lemma step_simulated f sheet path s op s' :
  represents f sheet path s -> step s op s' ->
  exists xlsx', run_operation sheet op f = Ret (None, with_sheet f path xlsx') /\ sheet_represents xlsx' s'.
Proof.
  intros Hr Hst. pose proof Hr as (xlsx & Hl & Hs).
  destruct Hst as [s col row w c r Hc Hrw E|s col row v w c r ????|s col row l ws ????|s col row fm c r ?????|s c1 r1 c2 r2 st ????|s col row loc c r ????|s col a ?|s c1 c2 wd ??|s c1 r1 c2 r2 ?????|s num ????|s num ?????|s num Hn Hlt|s row num ???????|s row a ?|s num ????|s num ?????].
  - cbn [run_operation]. rewrite write_op_content. by apply write_simulates.
  - by eapply value_simulates.
  - destruct (row_values_simulates l ws ltac:(done) f sheet path s col row) as (x & E & Hx); [done..|].
    exists x. split; [|done]. cbn [run_operation]. unfold SetSheetRow. rewrite cell_name_coordinates by done. exact E.
  - by apply formula_simulates.
  - by apply style_simulates.
  - by apply link_simulates.
  - by apply col_attr_simulates.
  - by apply col_width_simulates.
  - by apply merge_simulates.
  - by apply insert_row_simulates.
  - by apply remove_row_simulates.
  - exists xlsx. split; [|done]. rewrite with_sheet_same by apply Hl.
    apply (RemoveRow_beyond f sheet path xlsx); [done|]. rewrite (sr_height _ _ Hs). lia.
  - by apply duplicate_row_simulates.
  - by apply row_attr_simulates.
  - by apply insert_column_simulates.
  - by apply remove_column_simulates.
Qed.

Lemma frame_trans f1 f2 f3 : frame f1 f2 -> frame f2 f3 -> frame f1 f3.
Proof. intros [a ->] [b ->]. exists b. by destruct f1. Qed.

Lemma frame_refl f : frame f f.
Proof. exists (File_Sheet f). by destruct f. Qed.

Lemma steps_simulated f sheet path s ops s' :
  represents f sheet path s -> steps s ops s' ->
  exists f', run_operations sheet ops f = Ret (None, f') /\ frame f f' /\ represents f' sheet path s'.
Proof.
  intros Hr Hst. revert f Hr. induction Hst as [s|s op s1 ops s2 Hop Hst IH]; intros f Hr.
  - exists f. split; [done|]. split; [apply frame_refl|done].
  - destruct (step_simulated _ _ _ _ _ _ Hr Hop) as (x & E1 & Hx). destruct Hr as (xlsx & Hl & _).
    destruct (IH (with_sheet f path x)) as (f2 & E2 & Hf2 & Hr2); [exists x; split; [by eapply with_sheet_loaded|done]|].
    exists f2. cbn [run_operations]. rewrite (bind_Ret _ _ _ _ _ E1). split; [done|].
    split; [by eapply frame_trans; [apply frame_with_sheet|]|done].
Qed.

(** *** Reading *)

(** The text and the error a cell of this content is read as. *)
Definition shown (f : File) (c : xlsxC) : option (string * option goerr) := returned (cell_value c f).

Lemma shown_frame f f' c : frame f f' -> shown f' c = shown f c.
Proof.
  intros [sheets ->]. unfold shown. rewrite sheet_free_cell_value. by destruct (cell_value c f) as [[]|].
Qed.

Lemma read_shown f sheet path s col row :
  represents f sheet path s -> coord col -> coord row ->
  returned (GetCellValue sheet (cell_name col row) f) = shown f (cell_seen s col row).
Proof.
  intros (xlsx & Hl & Hs) Hc Hr. pose proof (represents_parser _ _ _ _ Hs Hc Hr) as Hm. unfold cell_seen.
  destruct (merged_position (ss_areas s) col row) as [c r] eqn:E. cbn [fst snd] in *.
  destruct (merged_position_coord _ _ _ _ _ (proj1 (sr_areas_ok _ _ Hs)) Hc Hr E) as [Hc' Hr'].
  rewrite (GetCellValue_dense f sheet path xlsx _ c r Hl (sr_wf _ _ Hs) Hc' Hr' Hm).
  rewrite <- (sr_cell _ _ Hs) by lia. unfold shown. destruct (sheet_cell xlsx c r) as [y|]; [by destruct y|].
  cbn [content]. unfold cell_value. destruct (sharedStringsReader_total f) as (d & f' & Ed).
  by rewrite (bind_Ret _ _ _ _ _ Ed).
Qed.

Lemma read_formula f sheet path s col row t :
  represents f sheet path s -> coord col -> coord row -> own_formula (cell_seen s col row) = Some t ->
  returned (GetCellFormula sheet (cell_name col row) f) = Some (ok t).
Proof.
  intros (xlsx & Hl & Hs) Hc Hr. pose proof (represents_parser _ _ _ _ Hs Hc Hr) as Hm. unfold cell_seen.
  destruct (merged_position (ss_areas s) col row) as [c r] eqn:E. cbn [fst snd] in *.
  destruct (merged_position_coord _ _ _ _ _ (proj1 (sr_areas_ok _ _ Hs)) Hc Hr E) as [Hc' Hr'].
  unfold GetCellFormula. rewrite (getCellStringFunc_dense f sheet path xlsx _ c r _ Hl (sr_wf _ _ Hs) Hc' Hr' Hm).
  rewrite <- (sr_cell _ _ Hs) by lia. destruct (sheet_cell xlsx c r) as [y|]; [|by intros [= <-]].
  cbn [content]. unfold own_formula, cell_formula. cbn [xlsxC_F]. destruct (xlsxC_F y) as [g|] eqn:Eg; cbn; rewrite Eg; [|by intros [= <-]].
  by case_bool_decide; [|intros [= <-]].
Qed.

Lemma read_style f sheet path s col row :
  represents f sheet path s -> coord col -> coord row ->
  returned (GetCellStyle sheet (cell_name col row) f) = Some (ok (style_seen s col row)).
Proof.
  intros (xlsx & Hl & Hs) Hc Hr. unfold style_seen, cell_seen.
  destruct (merged_position (ss_areas s) col row) as [c r] eqn:E. cbn [fst snd].
  pose proof (resolves_merged _ _ _ _ _ _ Hs Hc Hr E) as Hres. pose proof Hres as (Hc' & Hr' & _).
  destruct (GetCellStyle_ok f sheet path xlsx _ c r Hl Hres) as (x & _ & ->). cbn. do 2 f_equal.
  rewrite (column_style_sheet _ s) by apply Hs. rewrite <- (sr_cell _ _ Hs) by lia. by destruct (sheet_cell xlsx c r).
Qed.

Lemma cell_name_position c r c' r' : coord c /\ coord r -> coord c' /\ coord r' -> cell_name c r = cell_name c' r' -> (c, r) = (c', r').
Proof.
  intros [Hc Hr] [Hc' Hr'] E. pose proof (cell_name_coordinates c r Hc Hr) as H1.
  rewrite E, cell_name_coordinates in H1 by done. congruence.
Qed.

Lemma find_link (L : list location_link) c r :
  Forall (fun l => coord l.1.1 /\ coord l.1.2) L -> coord c -> coord r ->
  list_find (fun l => xlsxHyperlink_Ref l = cell_name c r) (link_of <$> L) = prod_map id link_of <$> list_find (fun l => l.1 = (c, r)) L.
Proof.
  intros HL Hc Hr. induction HL as [|[p t] L Hl _ IH]; [done|]. rewrite fmap_cons. cbn [list_find].
  assert (xlsxHyperlink_Ref (link_of (p, t)) = cell_name c r <-> p = (c, r)) as E.
  { change (cell_name p.1 p.2 = cell_name c r <-> p = (c, r)). split; [|by intros ->]. destruct p. by apply cell_name_position. }
  cbn [fst] in *. case_decide; case_decide; [done|tauto..|]. rewrite IH. by destruct (list_find _ L) as [[]|].
Qed.

(** The name of a cell with the links of the sheet and its areas leads to the
    link that the spreadsheet has. *)
Lemma read_link_of f sheet path xlsx s col row :
  loaded f sheet path xlsx -> sheet_rest xlsx s -> coord col -> coord row ->
  GetCellHyperLink sheet (cell_name col row) f = Ret (ok (link_seen s col row), f).
Proof.
  intros Hl Hs Hc Hr. unfold GetCellHyperLink. rewrite SplitCellName_cell_name by lia.
  unfold mbind at 1, gom_bind, mret at 1, gom_ret. cbn [fst snd].
  rewrite (bind_Ret _ _ _ _ _ (workSheetReader_loaded _ _ _ _ Hl)). rewrite (bind_Ret _ _ _ _ _ (deref_loaded _ _ _ (proj2 Hl))).
  rewrite (rest_parser _ s) by done. unfold mbind at 1, gom_bind, mret at 1, gom_ret. cbn [fst snd].
  destruct (merged_position (ss_areas s) col row) as [c r] eqn:E. cbn [fst snd].
  destruct (merged_position_coord _ _ _ _ _ (proj1 (sr_areas_ok _ _ Hs)) Hc Hr E) as [Hc' Hr'].
  unfold link_seen. rewrite (sr_links _ _ Hs), (find_link _ _ _ (sr_links_ok _ _ Hs) Hc' Hr'), E.
  by destruct (list_find _ (ss_links s)) as [[i [p t]]|].
Qed.

Lemma read_rows_of f sheet path xlsx s n :
  loaded f sheet path xlsx -> wf_sheet xlsx -> zlen (sheet_rows xlsx) = ss_height s ->
  row_state_of (props_at xlsx n) = ss_row s n -> coord n ->
  GetRowVisible sheet n f = Ret (ok (visible_seen s n), f) /\
  GetRowOutlineLevel sheet n f = Ret (ok (ro_level (ss_row s n)), f) /\
  GetRowHeight sheet n f = Ret (ok (height_seen (ss_row s n)), f).
Proof.
  intros Hl Hwf Hh Hrow [Hn _]. unfold visible_seen. rewrite <- Hrow, <- Hh. unfold props_at.
  destruct (sheet_rows xlsx !! Z.to_nat (n - 1)) as [r|] eqn:Er; cbn [from_option].
  - unfold GetRowVisible, GetRowOutlineLevel. rewrite !(get_row_dense _ _ _ _ _ _ _ _ Hl Hn Er).
    apply lookup_lt_Some in Er as Hlt. replace (n <=? _) with true by (unfold zlen; lia). split_and!; [done..|].
    unfold GetRowHeight. replace (n <? 1) with false by lia.
    rewrite (bind_Ret _ _ _ _ _ (workSheetReader_loaded _ _ _ _ Hl)), (bind_Ret _ _ _ _ _ (deref_loaded _ _ _ (proj2 Hl))).
    replace (_ <? n) with false by (unfold zlen; lia). rewrite (row_height_dense _ _ _ (proj1 Hwf) Hn Er). unfold height_seen. cbn.
    by destruct (f64_eqb (xlsxRow_Ht r) f64_zero).
  - apply lookup_ge_None in Er. replace (n <=? _) with false by (unfold zlen; lia).
    apply (GetRow_beyond f sheet path xlsx n Hl). unfold zlen. lia.
Qed.

Lemma read_columns_of f sheet path xlsx s n :
  loaded f sheet path xlsx -> sheet_rest xlsx s -> coord n ->
  GetColVisible sheet (ColumnNumberToName n).1 f = Ret (ok (negb (co_hidden (ss_col s n))), f) /\
  GetColOutlineLevel sheet (ColumnNumberToName n).1 f = Ret (ok (co_level (ss_col s n)), f) /\
  GetColWidth sheet (ColumnNumberToName n).1 f = Ret (ok (width_seen (ss_col s n)), f).
Proof.
  intros Hl Hs Hn. destruct (column_name n (proj1 Hn) (proj2 Hn)) as [Hname _]. unfold GetColVisible, GetColOutlineLevel.
  rewrite !(get_col_loaded _ _ _ _ _ _ _ _ _ Hl Hname), (GetColWidth_loaded _ _ _ _ _ _ Hl Hname).
  unfold width_seen, col_width. rewrite <- (sr_col _ _ Hs). by destruct (last_col n (sheet_cols xlsx)).
Qed.

(** Every name of the sheet reads as the spreadsheet says: the value of its cell as
    the file [f0] shows the content, its style, its formula and its link, and what
    its row and its column have. *)
Record reads_as (f0 f : File) (sheet : string) (s : spreadsheet) : Prop := mk_reads_as {
  rd_value col row : coord col -> coord row ->
    returned (GetCellValue sheet (cell_name col row) f) = shown f0 (cell_seen s col row);
  rd_style col row : coord col -> coord row ->
    returned (GetCellStyle sheet (cell_name col row) f) = Some (ok (style_seen s col row));
  rd_formula col row t : coord col -> coord row -> own_formula (cell_seen s col row) = Some t ->
    returned (GetCellFormula sheet (cell_name col row) f) = Some (ok t);
  rd_link col row : coord col -> coord row ->
    GetCellHyperLink sheet (cell_name col row) f = Ret (ok (link_seen s col row), f);
  rd_row n : coord n ->
    GetRowVisible sheet n f = Ret (ok (visible_seen s n), f) /\
    GetRowOutlineLevel sheet n f = Ret (ok (ro_level (ss_row s n)), f) /\
    GetRowHeight sheet n f = Ret (ok (height_seen (ss_row s n)), f);
  rd_col n : coord n ->
    GetColVisible sheet (ColumnNumberToName n).1 f = Ret (ok (negb (co_hidden (ss_col s n))), f) /\
    GetColOutlineLevel sheet (ColumnNumberToName n).1 f = Ret (ok (co_level (ss_col s n)), f) /\
    GetColWidth sheet (ColumnNumberToName n).1 f = Ret (ok (width_seen (ss_col s n)), f)
}.

Lemma represents_reads f0 f sheet path s :
  represents f sheet path s -> (forall c, shown f c = shown f0 c) -> reads_as f0 f sheet s.
Proof.
  intros Hr Hsh. pose proof Hr as (xlsx & Hl & Hs). split.
  - intros col row Hc Hrow. by rewrite (read_shown _ _ _ _ _ _ Hr Hc Hrow).
  - intros col row. by apply (read_style _ _ path).
  - intros col row t. by apply (read_formula _ _ path).
  - intros col row. by apply (read_link_of f sheet path xlsx), Hs.
  - intros n Hn. apply (read_rows_of f sheet path xlsx); try done; apply Hs. lia.
  - intros n. by apply (read_columns_of f sheet path xlsx), Hs.
Qed.

(** C3. A trace of setters of values, rows of values, formulas, styles and links, of
    merges, of attributes of rows and columns, and of insertions, duplications and
    removals of rows and columns on a sheet that represents a spreadsheet: every
    call returns without an error and without a panic, nothing but the worksheets
    of the file changes, the sheet represents the spreadsheet that the steps of
    the abstract machine lead to, and every name then reads as the spreadsheet
    says: the value of a cell as the original file shows the content that the
    spreadsheet has at its position, or at the top left one of its area, its
    style, its formula and its link, and what the rows and the columns have. *)
Theorem spreadsheet_refinement f sheet path s ops s' :
  represents f sheet path s -> steps s ops s' ->
  exists f', run_operations sheet ops f = Ret (None, f') /\ frame f f' /\ represents f' sheet path s' /\ reads_as f f' sheet s'.
Proof.
  intros Hr Hst. destruct (steps_simulated _ _ _ _ _ _ Hr Hst) as (f' & E & Hf & Hr').
  exists f'. split_and!; [done..|]. apply (represents_reads _ _ _ path); [done|]. intros c. by apply shown_frame.
Qed.

End refinement.

(** ** Witnesses *)

Definition empty_spreadsheet : spreadsheet := mk_spreadsheet (fun _ _ => gozero) [] 0 0 (fun _ => plain_row) (fun _ => plain_column) [].

Lemma represents_empty : @represents (example_file gozero) "Sheet1" "xl/worksheets/sheet1.xml" empty_spreadsheet.
Proof.
  exists gozero. split; [apply example_loaded|]. split; try done.
  2:{ split; try done. split; constructor. }
  intros c r _ _ [x Hx]. unfold sheet_cell in Hx. change (sheet_rows gozero) with (@nil xlsxRow) in Hx. by rewrite lookup_nil in Hx.
Qed.

(** A text in B2, a row above it, an area from B3 to C4, a number written to its
    last cell, the first column removed, the row copied to the top, and a row
    hidden: the number is in A1 and in A4. Then a row of values from D1 on, a
    formula in D2, a style for D1 to E2, a link in A5, which is covered, a row
    inserted above all but the first, column C hidden, and a width for D and E. *)
Definition example_trace : list operation :=
  [SetOp 2 2 (WriteStr "x"); InsertRowOp 2; MergeOp 3 4 2 3; SetOp 3 4 (WriteInt 7); RemoveColOp 1; DuplicateRowOp 3 1;
   RowAttrOp 9 (RowVisible false); RowOp 4 1 [V_bool true; V_nil; V_string "z"]; FormulaOp 4 2 "A1+A4"; StyleOp 5 2 4 1 3;
   ValueOp 4 2 (V_int K_int8 (-5)); LinkOp 1 5 "Data!A1"; InsertRowOp 2; ColAttrOp 3 (ColVisible false);
   ColWidthOp 4 5 (S754_finite false 5 2)].

Definition example_result : spreadsheet :=
  let s := row_inserted (written empty_spreadsheet 2 2 (WriteStr "x")) 2 in
  let s := s <| ss_areas := ss_areas s ++ [rect_of 3 4 2 3] |> in
  let s := row_duplicated (column_removed (written s 2 3 (WriteInt 7)) 1) 3 1 in
  let s := row_attr_set s 9 (RowVisible false) in
  let s := values_written s 4 1 [WriteBool true; WriteStr ""; WriteStr "z"] in
  let s := written (area_styled (edited_at s 4 2 (with_formula "A1+A4")) (rect_of 5 2 4 1) 3) 4 2 (WriteInt (-5)) in
  let s := s <| ss_links ::= fun l => l ++ [(1, 4, "Data!A1")] |> in
  col_width_set (col_attr_set (row_inserted s 2) 3 (ColVisible false)) 4 5 (S754_finite false 5 2).

Ltac in_range := unfold maxInt; lia.

Lemma example_steps : steps empty_spreadsheet example_trace example_result.
Proof.
  unfold example_trace.
  eapply steps_cons; [eapply step_set; [in_range|in_range|reflexivity]|].
  eapply steps_cons; [eapply step_insert_row; [in_range|reflexivity|constructor|constructor]|].
  eapply steps_cons; [eapply step_merge; [in_range..|lia|constructor]|].
  eapply steps_cons; [eapply step_set; [in_range|in_range|reflexivity]|].
  eapply steps_cons; [eapply step_remove_column; [in_range|reflexivity| | |constructor]|].
  - apply Forall_singleton. unfold rect_wf, rect_fits, maxInt. cbn. split_and!; (done || lia).
  - split; [|constructor; constructor]. apply Forall_singleton. unfold rect_wf. apply (bool_decide_unpack _). reflexivity.
  - eapply steps_cons; [eapply step_duplicate_row; [in_range|reflexivity|vm_compute; split; discriminate|lia|vm_compute; discriminate| |constructor]|].
    { apply Forall_singleton. unfold rect_wf, rect_fits, maxInt. cbn. split_and!; (done || lia). }
    eapply steps_cons; [apply step_row_attr; in_range|].
    eapply steps_cons; [eapply step_row_values; [in_range|in_range|vm_compute; discriminate|]|].
    { repeat (constructor; [reflexivity|]). constructor. }
    eapply steps_cons; [eapply step_formula; [in_range|in_range|reflexivity|done|reflexivity]|].
    eapply steps_cons; [eapply step_style; in_range|].
    eapply steps_cons; [eapply step_value; [in_range|in_range|reflexivity|reflexivity]|].
    eapply steps_cons; [eapply step_link; [in_range|in_range|reflexivity|vm_compute; discriminate]|].
    eapply steps_cons; [eapply step_insert_row; [in_range|reflexivity| |]|].
    { apply Forall_singleton. unfold rect_wf, rect_fits, maxInt. cbn. split_and!; (done || lia). }
    { change (Forall (link_fits rows 2 1) [(1, 4, "Data!A1")]). apply Forall_singleton. unfold link_fits, maxInt. cbn. lia. }
    eapply steps_cons; [apply step_col_attr; in_range|].
    eapply steps_cons; [apply step_col_width; in_range|]. apply steps_nil.
Defined.

Lemma spreadsheet_refinement_witness :
  exists f', run_operations (H := example_env) "Sheet1" example_trace (example_file gozero) = Ret (None, f') /\
    returned (GetCellValue (H := example_env) "Sheet1" "A1" f') = Some (ok "7") /\
    returned (GetCellValue (H := example_env) "Sheet1" "B6" f') = Some (ok "7") /\
    returned (GetCellValue (H := example_env) "Sheet1" "F1" f') = Some (ok "z") /\
    returned (GetCellFormula (H := example_env) "Sheet1" "D3" f') = Some (ok "A1+A4") /\
    returned (GetCellStyle (H := example_env) "Sheet1" "E1" f') = Some (ok 3) /\
    GetCellHyperLink (H := example_env) "Sheet1" "B6" f' = Ret (ok (true, "Data!A1"), f') /\
    GetRowVisible (H := example_env) "Sheet1" 10 f' = Ret (ok false, f') /\
    GetColVisible (H := example_env) "Sheet1" "C" f' = Ret (ok false, f').
Proof.
  destruct (@spreadsheet_refinement example_env (example_file gozero) "Sheet1" "xl/worksheets/sheet1.xml" empty_spreadsheet
    example_trace example_result represents_empty example_steps) as (f' & E & _ & _ & Hread).
  exists f'. split; [exact E|]. split; [|split; [|split; [|split; [|split; [|split; [|split]]]]]].
  - etransitivity; [exact (rd_value _ _ _ _ Hread 1 1 ltac:(in_range) ltac:(in_range))|]. vm_compute. reflexivity.
  - etransitivity; [exact (rd_value _ _ _ _ Hread 2 6 ltac:(in_range) ltac:(in_range))|]. vm_compute. reflexivity.
  - etransitivity; [exact (rd_value _ _ _ _ Hread 6 1 ltac:(in_range) ltac:(in_range))|]. vm_compute. reflexivity.
  - exact (rd_formula _ _ _ _ Hread 4 3 "A1+A4" ltac:(in_range) ltac:(in_range) ltac:(vm_compute; reflexivity)).
  - etransitivity; [exact (rd_style _ _ _ _ Hread 5 1 ltac:(in_range) ltac:(in_range))|]. vm_compute. reflexivity.
  - exact (rd_link _ _ _ _ Hread 2 6 ltac:(in_range) ltac:(in_range)).
  - exact (proj1 (rd_row _ _ _ _ Hread 10 ltac:(in_range))).
  - exact (proj1 (rd_col _ _ _ _ Hread 3 ltac:(in_range))).
Defined.
