(* ===== verification/WorkbookSpec.v ===== *)
(** An abstract workbook and its refinement: a list of names with the grids of
    Spreadsheet, on which the operations on sheets (Sheets) and on the cells, rows
    and columns of a sheet (Spreadsheet) are called in any order. *)
From S2P Require Export Sheets Archive Spreadsheet.

(** ** The abstract machine *)

Abbreviation workbook := (sheet_list spreadsheet).

(** The value that is kept with a formula is dropped, and its type with it; a copy of
    a grid is the grid. *)
Definition value_dropped (c : xlsxC) : xlsxC :=
  if bool_decide (is_Some (xlsxC_F c) /\ xlsxC_V c <> "") then c <| xlsxC_V := "" |> <| xlsxC_T := "" |> else c.

Definition refreshed (s : spreadsheet) : spreadsheet := s <| ss_cell := fun c r => value_dropped (ss_cell s c r) |>.

#[export] Instance spreadsheet_content : SheetContent spreadsheet :=
  {| fresh_content := empty_spreadsheet; copied_content := fun s => s; refreshed_content := refreshed |}.

Inductive workbook_op :=
| SheetOp (op : sheet_op)
| GridOp (name : string) (op : operation).

(** An operation on the grid of a sheet leaves the other sheets as they are. *)
Inductive workbook_step : workbook -> workbook_op -> workbook -> Prop :=
| step_sheet w op w' : sheet_step w op w' -> workbook_step w (SheetOp op) w'
| step_grid l1 name s l2 b op s' :
    step s op s' ->
    workbook_step (mk_sheet_list (l1 ++ (name, s) :: l2) b) (GridOp name op) (mk_sheet_list (l1 ++ (name, s') :: l2) b).

Inductive workbook_steps : workbook -> list workbook_op -> workbook -> Prop :=
| workbook_steps_nil w : workbook_steps w [] w
| workbook_steps_cons w op w' ops w'' :
    workbook_step w op w' -> workbook_steps w' ops w'' -> workbook_steps w (op :: ops) w''.

(** ** What an operation keeps

    The text of a cell depends on the shared strings and the styles, as they are in
    memory or as they will be read. No operation here changes them. *)

Section sources.
Context `{GoEnv}.

Definition strings_now (f : File) : xlsxSST :=
  match File_SharedStrings f with Some d => d | None => strings_of (File_XLSX f) end.
Definition styles_now (f : File) : xlsxStyleSheet :=
  match File_Styles f with Some s => s | None => decoded_part (File_XLSX f) "xl/styles.xml" end.
Definition text_sources (f : File) : xlsxSST * xlsxStyleSheet := (strings_now f, styles_now f).

Definition keeps {A} (m : M A) : Prop := forall f a f', m f = Ret (a, f') -> text_sources f' = text_sources f.

(** The parts that they are read from. *)
Definition source_part (p : string) : bool :=
  bool_decide (p ∈ ["xl/sharedStrings.xml"; "xl/SharedStrings.xml"; "xl/styles.xml"]).

Lemma text_sources_other f (parts : gmap string string) :
  (forall p, source_part p = true -> parts !! p = File_XLSX f !! p) -> text_sources (f <| File_XLSX := parts |>) = text_sources f.
Proof.
  intros Hp. unfold text_sources, strings_now, styles_now, strings_of, decoded_part. cbn. by rewrite !Hp.
Qed.

Lemma text_sources_insert f k v : source_part k = false -> text_sources (f <| File_XLSX ::= <[k := v]> |>) = text_sources f.
Proof. intros Hk. apply (text_sources_other f (<[k := v]> (File_XLSX f))). intros p Hp. apply lookup_insert_ne. congruence. Qed.

Lemma text_sources_delete f k : source_part k = false -> text_sources (f <| File_XLSX ::= delete k |>) = text_sources f.
Proof. intros Hk. apply (text_sources_other f (delete k (File_XLSX f))). intros p Hp. apply lookup_delete_ne. congruence. Qed.

Lemma keeps_mret {A} (a : A) : keeps (mret a).
Proof. by intros f b f' [= <- <-]. Qed.

Lemma keeps_bind {A B} (m : M A) (k : A -> M B) : keeps m -> (forall a, keeps (k a)) -> keeps (m ≫= k).
Proof.
  intros Hm Hk f b f'. unfold mbind, gom_bind. destruct (m f) as [[a f1]|] eqn:E; [|done]. intros E'.
  etrans; [by eapply Hk|by eapply Hm].
Qed.

Lemma keeps_gets {A} (g : File -> A) : keeps (gets g).
Proof. by intros f b f' [= <- <-]. Qed.

Lemma keeps_get : keeps get.
Proof. by intros f b f' [= <- <-]. Qed.

Lemma keeps_modify g : (forall f, text_sources (g f) = text_sources f) -> keeps (modify g).
Proof. intros Hg f b f' [= <- <-]. apply Hg. Qed.

Lemma keeps_lift {A} (o : outcome A) : keeps (lift o).
Proof. intros f b f'. unfold lift. destruct o; [|done]. by intros [= <- <-]. Qed.

Lemma keeps_panic {A} : keeps (@panic File A).
Proof. by intros f b f'. Qed.

Lemma keeps_forM {A} (l : list A) body : (forall x, keeps (body x)) -> keeps (forM l body).
Proof. intros Hb. induction l as [|x l IH]; [apply keeps_mret|]. cbn [forM]. by apply keeps_bind. Qed.

End sources.

Create HintDb keeps_db discriminated.
#[export] Hint Resolve keeps_mret keeps_bind keeps_gets keeps_get keeps_lift keeps_panic keeps_forM : keeps_db.
#[export] Hint Extern 2 (keeps (modify _)) =>
  apply keeps_modify; intros;
  first [reflexivity | apply text_sources_insert; reflexivity | apply text_sources_delete; reflexivity] : keeps_db.

(** The structure of a computation is followed; the tests in it are decided both
    ways. *)
Ltac solve_keeps :=
  repeat (cbv zeta; first [progress auto with keeps_db nocore | apply keeps_bind; [|intros ?] | progress intros | case_match]).

Section workbook_keeps.
Context `{GoEnv}.

Lemma keeps_cached {A} `{XmlCodec A} (g : File -> option A) set_ (path : M string) :
  (forall c f, text_sources (set_ c f) = text_sources f) -> keeps path -> keeps (cached_reader g set_ path).
Proof. intros Hset Hp. unfold cached_reader. solve_keeps. by apply keeps_modify. Qed.

Lemma keeps_deref p : keeps (deref p).
Proof. intros f x f'. unfold deref. case_match; [|done]. by intros [= <- <-]. Qed.

Lemma keeps_assign p x : keeps (assign p x).
Proof. unfold assign. solve_keeps. Qed.

Lemma keeps_workbookReader : keeps workbookReader.
Proof. apply keeps_cached; [done|apply keeps_gets]. Qed.
Lemma keeps_workbookRelsReader : keeps workbookRelsReader.
Proof. apply keeps_cached; [done|apply keeps_gets]. Qed.
Lemma keeps_contentTypesReader : keeps contentTypesReader.
Proof. apply keeps_cached; [done|apply keeps_gets]. Qed.
Lemma keeps_calcChainReader : keeps calcChainReader.
Proof. apply keeps_cached; [done|apply keeps_gets]. Qed.

#[local] Hint Resolve keeps_deref keeps_assign keeps_workbookReader keeps_workbookRelsReader keeps_contentTypesReader
  keeps_calcChainReader : keeps_db.

Lemma keeps_workSheetReader sheet : keeps (workSheetReader sheet).
Proof. unfold workSheetReader, readXML. solve_keeps. Qed.

Lemma keeps_update p g : keeps (update p g).
Proof. unfold update. solve_keeps. Qed.

Lemma keeps_GetSheetMap : keeps GetSheetMap.
Proof. unfold GetSheetMap, sheets_and_rels. solve_keeps. Qed.

#[local] Hint Resolve keeps_workSheetReader keeps_update keeps_GetSheetMap : keeps_db.

Lemma keeps_SetActiveSheet index : keeps (SetActiveSheet index).
Proof. unfold SetActiveSheet, set_workbook. solve_keeps. Qed.

Lemma keeps_deleteCalcChain index axis : keeps (deleteCalcChain index axis).
Proof. unfold deleteCalcChain, set_contentTypes. solve_keeps. Qed.

#[local] Hint Resolve keeps_SetActiveSheet keeps_deleteCalcChain : keeps_db.

Lemma keeps_delete_sheet_parts name v : keeps (delete_sheet_parts name v).
Proof.
  unfold delete_sheet_parts, deleteSheetFromWorkbookRels, deleteSheetFromContentTypes, set_workbookRels, set_contentTypes.
  solve_keeps.
Qed.

#[local] Hint Resolve keeps_delete_sheet_parts : keeps_db.

Lemma keeps_delete_sheet_loop name ks s : keeps (delete_sheet_loop name ks s).
Proof. revert s. induction ks as [|k ks IH]; intros s; cbn [delete_sheet_loop]; unfold set_workbook; solve_keeps; apply IH. Qed.

#[local] Hint Resolve keeps_delete_sheet_loop : keeps_db.

Lemma keeps_DeleteSheet name : keeps (DeleteSheet name).
Proof. unfold DeleteSheet. solve_keeps. Qed.

#[local] Hint Resolve keeps_DeleteSheet : keeps_db.

Lemma keeps_NewSheet name : keeps (NewSheet name).
Proof.
  unfold NewSheet, GetSheetIndex, sheets_and_rels, setAppXML, saveFileList, setContentTypes, set_contentTypes, setSheet,
    addXlsxWorkbookRels, set_workbookRels, setWorkbook, set_workbook.
  solve_keeps.
Qed.

Lemma keeps_SetSheetName oldName newName : keeps (SetSheetName oldName newName).
Proof. unfold SetSheetName, set_workbook. solve_keeps. Qed.

#[local] Hint Resolve keeps_NewSheet keeps_SetSheetName : keeps_db.

Lemma keeps_CopySheet from to : keeps (CopySheet from to).
Proof. unfold CopySheet, copySheet, GetSheetName, sheets_and_rels. solve_keeps. Qed.

Lemma keeps_forRet {A R} (l : list A) (body : A -> M (option R)) : (forall x, keeps (body x)) -> keeps (forRet l body).
Proof. intros Hb. induction l as [|x l IH]; [apply keeps_mret|]. cbn [forRet]. apply keeps_bind; [done|]. intros [r|]; [apply keeps_mret|done]. Qed.

Lemma keeps_UpdateLinkedValue : keeps UpdateLinkedValue.
Proof.
  unfold UpdateLinkedValue. apply keeps_bind; [apply keeps_GetSheetMap|]. intros m. apply keeps_bind; [|intros; solve_keeps].
  apply keeps_forRet. intros e. solve_keeps.
Qed.

Lemma keeps_GetSheetIndex name : keeps (GetSheetIndex name).
Proof. unfold GetSheetIndex, sheets_and_rels. solve_keeps. Qed.

#[local] Hint Resolve keeps_CopySheet keeps_UpdateLinkedValue keeps_GetSheetIndex : keeps_db.

Lemma keeps_run_sheet_op op : keeps (run_sheet_op op).
Proof. destruct op; cbn [run_sheet_op]; solve_keeps. Qed.

End workbook_keeps.

(** ** Texts

    The text of a cell is determined by the shared strings and the styles. *)

Section determined.
Context `{GoEnv}.
Variables (d : xlsxSST) (st : xlsxStyleSheet).

Definition determined {A} (m : M A) : Prop :=
  exists o : outcome A, forall f, text_sources f = (d, st) ->
    match o with
    | Ret a => exists f', m f = Ret (a, f') /\ text_sources f' = (d, st)
    | Panic => m f = Panic
    end.

Lemma determined_mret {A} (a : A) : determined (mret a).
Proof. exists (Ret a). intros f Hf. by exists f. Qed.

Lemma determined_panic {A} : determined (@panic File A).
Proof. by exists Panic. Qed.

Lemma determined_lift {A} (o : outcome A) : determined (lift o).
Proof. exists o. intros f Hf. unfold lift. destruct o; [by exists f|done]. Qed.

Lemma determined_bind {A B} (m : M A) (k : A -> M B) : determined m -> (forall a, determined (k a)) -> determined (m ≫= k).
Proof.
  intros [[a|] Hm] Hk.
  - destruct (Hk a) as [o Ho]. exists o. intros f Hf. destruct (Hm f Hf) as (f1 & E & Hf1). rewrite (bind_Ret _ _ _ _ _ E). by apply Ho.
  - exists Panic. intros f Hf. unfold mbind, gom_bind. by rewrite (Hm f Hf).
Qed.

Lemma determined_sharedStringsReader : determined sharedStringsReader.
Proof.
  exists (Ret d). intros f [= Ed Es]. unfold strings_now in Ed. unfold sharedStringsReader, cached_reader, mbind, gom_bind, get.
  destruct (File_SharedStrings f) as [d'|] eqn:E.
  - subst d'. exists f. split; [done|]. unfold text_sources, strings_now. by rewrite E, Es.
  - unfold readXML, gets. revert Ed. unfold strings_of. cbv zeta.
    change (match File_XLSX f !! "xl/sharedStrings.xml" with Some content => content | None => "" end)
      with (default "" (File_XLSX f !! "xl/sharedStrings.xml")).
    intros Ed. destruct (len (default "" (File_XLSX f !! "xl/sharedStrings.xml")) =? 0); cbn; (eexists; split; [by rewrite <- Ed|]);
      unfold text_sources; f_equal; [done|exact Es|done|exact Es].
Qed.

Lemma determined_stylesReader : determined stylesReader.
Proof.
  exists (Ret st). intros f [= Ed Es]. unfold styles_now in Es. unfold stylesReader, cached_reader, mbind, gom_bind, get.
  destruct (File_Styles f) as [s'|] eqn:E.
  - subst s'. exists f. split; [done|]. unfold text_sources, styles_now. by rewrite E, Ed.
  - unfold readXML, gets. cbn. eexists. split; [by rewrite <- Es|]. unfold text_sources. f_equal; [exact Ed|exact Es].
Qed.

Create HintDb determined_db discriminated.
#[local] Hint Resolve determined_mret determined_panic determined_lift determined_bind determined_sharedStringsReader
  determined_stylesReader : determined_db.

Ltac solve_determined :=
  repeat (cbv zeta; first [progress auto with determined_db nocore | apply determined_bind; [|intros ?] | progress intros | case_match]).

Lemma determined_formattedValue s v : determined (formattedValue s v).
Proof. unfold formattedValue. solve_determined. Qed.

#[local] Hint Resolve determined_formattedValue : determined_db.

Lemma determined_getValueFrom c d' : determined (getValueFrom c d').
Proof. unfold getValueFrom. solve_determined. Qed.

#[local] Hint Resolve determined_getValueFrom : determined_db.

Lemma determined_cell_value c : determined (cell_value c).
Proof. unfold cell_value. solve_determined. Qed.

Lemma shown_determined f f' c : text_sources f = (d, st) -> text_sources f' = (d, st) -> shown f' c = shown f c.
Proof.
  intros Hf Hf'. destruct (determined_cell_value c) as [[a|] Ho]; unfold shown.
  - destruct (Ho f Hf) as (g & -> & _), (Ho f' Hf') as (g' & -> & _). done.
  - by rewrite (Ho f Hf), (Ho f' Hf').
Qed.

End determined.

(** ** The refinement *)

Section workbook_refinement.
Context `{GoEnv}.

Definition run_workbook_op (op : workbook_op) : M (option goerr) :=
  match op with
  | SheetOp op => run_sheet_op op
  | GridOp name op => run_operation name op
  end.

(** The calls one after the other, until one returns an error. *)
Fixpoint run_workbook_ops (ops : list workbook_op) : M (option goerr) :=
  match ops with
  | [] => mret None
  | op :: rest => try! run_workbook_op op in run_workbook_ops rest
  end.

(** The file has the sheets of the workbook, and their worksheets represent its
    grids. *)
Definition represents_workbook (f : File) (w : workbook) : Prop :=
  exists s, lists_sheets f s /\ related_lists sheet_represents s w.

(** The grid does not depend on the views. *)
Lemma sheet_represents_views x y s : same_but_views x y -> sheet_represents x s -> sheet_represents y s.
Proof.
  intros E Hs. unfold same_but_views in E.
  pose proof (eq_sym (f_equal sheet_rows E) : sheet_rows y = sheet_rows x) as E1.
  pose proof (eq_sym (f_equal merge_areas E) : merge_areas y = merge_areas x) as E2.
  pose proof (eq_sym (f_equal sheet_links E) : sheet_links y = sheet_links x) as E3.
  pose proof (eq_sym (f_equal xlsxWorksheet_AutoFilter E) : xlsxWorksheet_AutoFilter y = xlsxWorksheet_AutoFilter x) as E4.
  pose proof (eq_sym (f_equal sheet_cols E) : sheet_cols y = sheet_cols x) as E5. clear E.
  assert (forall c r, sheet_cell y c r = sheet_cell x c r) as E6 by (intros; unfold sheet_cell; by rewrite E1).
  split; [|intros c r; rewrite E6; by apply Hs|rewrite E1; apply Hs|intros c r; rewrite E6; by apply Hs| |].
  - unfold wf_sheet. rewrite E1. apply Hs.
  - intros r. unfold props_at. rewrite E1. apply (sr_row _ _ Hs).
  - destruct (sr_rest _ _ Hs). by split; rewrite ?E2, ?E3, ?E4, ?E5.
Qed.

(** A worksheet without rows, areas, links and columns. *)
Lemma bare_sheet_represents x :
  sheet_rows x = [] -> merge_areas x = [] -> sheet_links x = [] -> xlsxWorksheet_AutoFilter x = None -> sheet_cols x = [] ->
  sheet_represents x empty_spreadsheet.
Proof.
  intros E1 E2 E3 E4 E5. assert (forall c r, sheet_cell x c r = None) as Hcell.
  { intros c r. unfold sheet_cell. by rewrite E1, lookup_nil. }
  split.
  - unfold wf_sheet. rewrite E1. by split.
  - intros c r _ _. by rewrite Hcell.
  - by rewrite E1.
  - intros c r _ _. rewrite Hcell. by intros [].
  - intros r _. unfold props_at. by rewrite E1, lookup_nil.
  - split; rewrite ?E2, ?E3, ?E5; try done. split; constructor.
Qed.

Lemma new_worksheet_represents : sheet_represents new_worksheet empty_spreadsheet.
Proof. by apply bare_sheet_represents. Qed.

Lemma copied_represents x s : deepcopy_ok -> sheet_represents x s -> sheet_represents (copied_sheet x) s.
Proof. intros Hd Hs. unfold copied_sheet. rewrite Hd. destruct Hs as [? ? ? ? ? []]. by split. Qed.

Lemma unlinked_cell x c r : sheet_cell (unlink_sheet x) c r = unlink_cell <$> sheet_cell x c r.
Proof.
  unfold sheet_cell. change (sheet_rows (unlink_sheet x)) with ((fun r => r <| xlsxRow_C ::= fmap unlink_cell |>) <$> sheet_rows x).
  rewrite list_lookup_fmap. destruct (sheet_rows x !! _) as [row|]; [|done]. cbn. by rewrite list_lookup_fmap.
Qed.

Lemma unlinked_props x : same_props x (unlink_sheet x).
Proof.
  apply same_props_fmap. change (sheet_rows (unlink_sheet x)) with ((fun r => r <| xlsxRow_C ::= fmap unlink_cell |>) <$> sheet_rows x).
  rewrite <- list_fmap_compose. by apply list_fmap_ext.
Qed.

Lemma unlink_cell_name c : xlsxC_R (unlink_cell c) = xlsxC_R c.
Proof. unfold unlink_cell. destruct (xlsxC_F c); [|done]. by case_bool_decide. Qed.

Lemma unlinked_wf x : wf_sheet x -> wf_sheet (unlink_sheet x).
Proof.
  intros [Hwf Hmax]. unfold wf_sheet. change (sheet_rows (unlink_sheet x)) with ((fun r => r <| xlsxRow_C ::= fmap unlink_cell |>) <$> sheet_rows x).
  split; [|by rewrite zlen_fmap]. intros i row Hi. rewrite list_lookup_fmap in Hi.
  destruct (sheet_rows x !! i) as [r0|] eqn:E; [|done]. injection Hi as <-. destruct (Hwf i r0 E) as (H1 & H2 & H3).
  split; [done|]. split; [|by cbn; rewrite zlen_fmap]. intros j c Hj. cbn in Hj. rewrite list_lookup_fmap in Hj.
  destruct (xlsxRow_C r0 !! j) as [c0|] eqn:Ej; [|done]. injection Hj as <-. rewrite unlink_cell_name. by apply H2.
Qed.

Lemma unlink_cell_dropped c : unlink_cell c = value_dropped c.
Proof.
  unfold unlink_cell, value_dropped. destruct (xlsxC_F c) as [g|].
  - case_bool_decide as E1; case_bool_decide as E2; [by destruct E2|done|done|by destruct E2].
  - rewrite bool_decide_eq_false_2; [done|]. by intros [[? [=]] _].
Qed.

Lemma unlink_content o : content (unlink_cell <$> o) = value_dropped (content o).
Proof.
  rewrite <- unlink_cell_dropped. destruct o as [c|]; [|done]. cbn. unfold unlink_cell. cbn. destruct (xlsxC_F c); [|done].
  by case_bool_decide.
Qed.

Lemma unlinked_represents x s : sheet_represents x s -> sheet_represents (unlink_sheet x) (refreshed s).
Proof.
  intros Hs. split; try apply Hs.
  - apply unlinked_wf, Hs.
  - intros c r Hc Hr. rewrite unlinked_cell, unlink_content, (sr_cell _ _ Hs) by done. done.
  - change (sheet_rows (unlink_sheet x)) with ((fun r => r <| xlsxRow_C ::= fmap unlink_cell |>) <$> sheet_rows x).
    rewrite zlen_fmap. apply (sr_height _ _ Hs).
  - intros c r Hc Hr. rewrite unlinked_cell, fmap_is_Some. by apply (sr_width _ _ Hs).
  - intros n Hn. rewrite unlinked_props by done. by apply (sr_row _ _ Hs).
  - eapply sheet_rest_rows; [apply Hs|by destruct x|done..].
Qed.

Lemma represents_related : deepcopy_ok -> RelatedContent sheet_represents.
Proof.
  intros Hd. split; [apply new_worksheet_represents|intros x y; by apply copied_represents|apply unlinked_represents].
Qed.

Lemma workbook_step_simulated f w op w' :
  range_map_ok -> deepcopy_ok -> represents_workbook f w -> workbook_step w op w' ->
  exists f', run_workbook_op op f = Ret (None, f') /\ represents_workbook f' w' /\ text_sources f' = text_sources f.
Proof.
  intros Hr Hd (s & Hs & Hw) Hstep. pose proof (represents_related Hd) as Hrel.
  destruct Hstep as [w op w' Hstep|l1 name t l2 b op t' Hstep]; cbn [run_workbook_op].
  - destruct (sheet_step_related _ _ _ _ Hw Hstep) as (s' & Hstep' & Hw').
    destruct (sheet_step_simulated f s op s' Hr Hd Hs Hstep') as (f' & E & Hs').
    exists f'. split; [done|]. split; [by exists s'|]. by apply (keeps_run_sheet_op op f None f').
  - apply related_split in Hw as (k1 & x & k2 & -> & H1 & Hx & H2). destruct Hs as (content & rels & Hs).
    destruct (listed_update _ _ _ _ _ _ _ _ Hs) as (v & y & _ & _ & Hl & Hxy & Hnext).
    destruct (step_simulated f name (sheet_path (xlsxSheet_SheetID v)) t op t') as (y' & E & Hy'); [exists y; split; [done|by eapply sheet_represents_views]|done|].
    eexists. split; [done|]. split; [|done]. exists (mk_sheet_list (k1 ++ (name, y') :: k2) b).
    split; [exists content, rels; by apply Hnext|]. split; [|done]. apply Forall2_app; [done|]. by constructor.
Qed.

Lemma workbook_steps_simulated f w ops w' :
  range_map_ok -> deepcopy_ok -> represents_workbook f w -> workbook_steps w ops w' ->
  exists f', run_workbook_ops ops f = Ret (None, f') /\ represents_workbook f' w' /\ text_sources f' = text_sources f.
Proof.
  intros Hr Hd Hw Hsteps. revert f Hw. induction Hsteps as [w|w op w1 ops w2 Hstep _ IH]; intros f Hw; [by exists f|].
  destruct (workbook_step_simulated f w op w1 Hr Hd Hw Hstep) as (f1 & E1 & Hw1 & Hc1).
  destruct (IH f1 Hw1) as (f2 & E2 & Hw2 & Hc2). exists f2. cbn [run_workbook_ops]. rewrite (bind_Ret _ _ _ _ _ E1).
  split; [done|]. split; [done|congruence].
Qed.

(** Reading the cells of a sheet. *)
Lemma workbook_reads f0 f w name t :
  represents_workbook f w -> text_sources f = text_sources f0 -> (name, t) ∈ sl_sheets w -> reads_as f0 f name t.
Proof.
  intros (s & (content & rels & Hs) & Hw) Hf Hin. destruct w as [l b]. cbn in Hin. apply list_elem_of_split in Hin as (l1 & l2 & ->).
  apply related_split in Hw as (k1 & x & k2 & -> & _ & Hx & _).
  destruct (listed_update _ _ _ _ _ _ _ _ Hs) as (v & y & _ & _ & Hl & Hxy & _).
  apply (represents_reads f0 f name (sheet_path (xlsxSheet_SheetID v))); [exists y; split; [done|by eapply sheet_represents_views]|].
  intros c. by apply (shown_determined (strings_now f0) (styles_now f0)).
Qed.

(** What the workbook lists. *)
Lemma workbook_lists f w :
  represents_workbook f w ->
  (exists content, File_WorkBook f = Some content /\ xlsxSheet_Name <$> wb_sheets content = (sl_sheets w).*1) /\
  (forall name, name ∈ (sl_sheets w).*1 ->
    exists i, 1 <= i /\ GetSheetIndex name f = Ret (i, f) /\ GetSheetName i f = Ret (name, f)).
Proof.
  intros (s & (content & rels & Hs) & Hrel). pose proof (same_entry_names _ _ _ (rl_entries _ _ _ Hrel)) as Enames. split.
  - exists content. split; [apply Hs|]. rewrite <- Enames. by apply (held_names f), Hs.
  - intros name Hname. rewrite <- Enames in Hname. apply list_elem_of_fmap in Hname as ([n x] & -> & Hin).
    destruct (listed_index_of _ _ _ _ _ _ Hs Hin) as (v & _ & _ & Ei & En & Hpos). by exists (xlsxSheet_SheetID v).
Qed.

(** C1. A workbook under any sequence of operations: additions, deletions, renamings,
    activations and copies of sheets and the update of linked values; and on any of
    its sheets the setters of values, rows of values, formulas, styles, links and
    attributes of rows and columns, merges, and insertions, duplications and
    removals of rows and columns, as far as the abstract machine allows them.
    Every call succeeds; the workbook then lists the sheets of the resulting
    state, in its order; every name leads to its index and back; and every sheet
    reads as its grid says: the value of a cell as the original file shows the
    content of its position, or of the top left one of its area, its style, its
    formula and its link, and what the rows and the columns have. *)
Theorem workbook_refinement f w ops w' :
  range_map_ok -> deepcopy_ok -> represents_workbook f w -> workbook_steps w ops w' ->
  exists f', run_workbook_ops ops f = Ret (None, f') /\ represents_workbook f' w' /\
    (exists content, File_WorkBook f' = Some content /\ xlsxSheet_Name <$> wb_sheets content = (sl_sheets w').*1) /\
    (forall name, name ∈ (sl_sheets w').*1 ->
      exists i, 1 <= i /\ GetSheetIndex name f' = Ret (i, f') /\ GetSheetName i f' = Ret (name, f')) /\
    (forall name t, (name, t) ∈ sl_sheets w' -> reads_as f f' name t).
Proof.
  intros Hr Hd Hw Hsteps. destruct (workbook_steps_simulated f w ops w' Hr Hd Hw Hsteps) as (f' & E & Hw' & Hsources).
  destruct (workbook_lists f' w' Hw') as [Hlist Hindex]. exists f'. split_and!; [done..|].
  intros name t. by apply (workbook_reads f f' w').
Qed.

End workbook_refinement.

(** ** A new workbook *)

Section new_file.
Context `{GoEnv}.

(** What the XML decoder has to read in the templates, as far as the operations
    here look at it. *)
Record decodes_templates : Prop := mk_decodes_templates {
  dt_workbook : wb_sheets (decoded_part new_parts "xl/workbook.xml") = [mk_xlsxSheet "Sheet1" 1 "rId1" ""];
  dt_rels : xlsxWorkbookRels_Relationships (decoded_part new_parts "xl/_rels/workbook.xml.rels") =
    [mk_xlsxWorkbookRelation "rId1" "worksheets/sheet1.xml" SourceRelationshipWorkSheet "";
     mk_xlsxWorkbookRelation "rId2" "styles.xml" (SourceRelationship +:+ "/styles") "";
     mk_xlsxWorkbookRelation "rId3" "theme/theme1.xml" (SourceRelationship +:+ "/theme") ""];
  dt_types : part_names (decoded_part new_parts "[Content_Types].xml") =
    ["/xl/theme/theme1.xml"; "/xl/styles.xml"; "/xl/workbook.xml"; "/docProps/app.xml"; "/xl/worksheets/sheet1.xml";
     "/docProps/core.xml"];
  dt_sheet : let xlsx : xlsxWorksheet := decoded_part new_parts "xl/worksheets/sheet1.xml" in
    sheet_rows xlsx = [] /\ xlsxWorksheet_MergeCells xlsx = None /\ xlsxWorksheet_Hyperlinks xlsx = None /\
    xlsxWorksheet_AutoFilter xlsx = None /\ xlsxWorksheet_Cols xlsx = None
}.

Lemma checkRow_empty xlsx :
  sheet_rows xlsx = [] -> checkRow (checkSheet xlsx) = Ret (ok (xlsx <| xlsxWorksheet_SheetData := gozero |>)).
Proof. intros E. unfold checkSheet. rewrite E. by destruct xlsx. Qed.

(** The state that [NewFile] makes, and the state in which the worksheet is in memory. *)
Definition file_of_parts (parts : gmap string string) : File :=
  (empty_file parts 1)
    <| File_CalcChain := Some (decoded_part parts "xl/calcChain.xml") |>
    <| File_ContentTypes := Some (decoded_part parts "[Content_Types].xml") |>
    <| File_Styles := Some (decoded_part parts "xl/styles.xml") |>
    <| File_WorkBook := Some (decoded_part parts "xl/workbook.xml") |>
    <| File_WorkBookRels := Some (decoded_part parts "xl/_rels/workbook.xml.rels") |>
    <| File_Sheet ::= delete "xl/worksheets/sheet1.xml" |>
    <| File_sheetMap ::= <["Sheet1" := "xl/worksheets/sheet1.xml"]> |>
    <| File_Theme := Some (decoded_part parts "xl/theme/theme1.xml") |>.

Definition new_file : File := file_of_parts new_parts.

Definition read_sheet (parts : gmap string string) : xlsxWorksheet :=
  (decoded_part parts "xl/worksheets/sheet1.xml" : xlsxWorksheet) <| xlsxWorksheet_SheetData := gozero |>.

Definition with_read_sheet (parts : gmap string string) : File :=
  (file_of_parts parts) <| File_checked ::= <["xl/worksheets/sheet1.xml" := true]> |>
    <| File_Sheet ::= <["xl/worksheets/sheet1.xml" := read_sheet parts]> |>.

Definition new_sheet : xlsxWorksheet := read_sheet new_parts.
Definition new_file_read : File := with_read_sheet new_parts.

Lemma cached_reader_none {A} `{XmlCodec A} (g : File -> option A) set_ path parts f :
  g f = None -> File_XLSX f = parts ->
  cached_reader g set_ (readXML path) f = Ret (decoded_part parts path, set_ (decoded_part parts path) f).
Proof. intros E <-. unfold cached_reader, mbind, gom_bind, get. by rewrite E. Qed.

Lemma NewFile_new_file : NewFile = Ret new_file.
Proof.
  unfold NewFile, new_file, file_of_parts. generalize new_parts. intros parts. unfold mbind at 1, outcome_bind.
  set (f0 := empty_file parts 1).
  unfold calcChainReader. rewrite (bind_Ret _ _ _ _ _ (cached_reader_none File_CalcChain _ _ parts f0 eq_refl eq_refl)).
  set (f1 := f0 <| File_CalcChain := _ |>).
  unfold contentTypesReader. rewrite (bind_Ret _ _ _ _ _ (cached_reader_none File_ContentTypes _ _ parts f1 eq_refl eq_refl)).
  set (f2 := f1 <| File_ContentTypes := _ |>).
  unfold stylesReader. rewrite (bind_Ret _ _ _ _ _ (cached_reader_none File_Styles _ _ parts f2 eq_refl eq_refl)).
  set (f3 := f2 <| File_Styles := _ |>).
  unfold workbookReader. rewrite (bind_Ret _ _ _ _ _ (cached_reader_none File_WorkBook _ _ parts f3 eq_refl eq_refl)).
  set (f4 := f3 <| File_WorkBook := _ |>).
  unfold workbookRelsReader. rewrite (bind_Ret _ _ _ _ _ (cached_reader_none File_WorkBookRels _ _ parts f4 eq_refl eq_refl)).
  set (f5 := f4 <| File_WorkBookRels := _ |>).
  rewrite (bind_Ret _ _ _ _ _ (workSheetReader_missing f5 "Sheet1" eq_refl)). cbn [fst].
  set (f6 := f5 <| File_Sheet ::= _ |>). rewrite (bind_Ret (modify _) _ f5 tt f6 eq_refl).
  set (f7 := f6 <| File_sheetMap ::= _ |>). rewrite (bind_Ret (modify _) _ f6 tt f7 eq_refl).
  assert (themeReader f7 = Ret (decoded_part parts "xl/theme/theme1.xml", f7)) as E by reflexivity.
  by rewrite (bind_Ret _ _ _ _ _ E).
Qed.

Lemma workSheetReader_of_parts parts :
  sheet_rows (decoded_part parts "xl/worksheets/sheet1.xml") = [] ->
  workSheetReader "Sheet1" (file_of_parts parts) = Ret (ok (Some "xl/worksheets/sheet1.xml"), with_read_sheet parts).
Proof.
  intros Hrows. unfold workSheetReader. set (f := file_of_parts parts).
  rewrite (bind_Ret get _ f f f) by done.
  assert (File_sheetMap f !! trimSheetName "Sheet1" = Some "xl/worksheets/sheet1.xml") as -> by reflexivity.
  assert (File_Sheet f !! "xl/worksheets/sheet1.xml" = None) as -> by reflexivity.
  assert (File_checked f !! "xl/worksheets/sheet1.xml" = None) as -> by reflexivity.
  rewrite (bind_Ret (readXML _) _ f (default "" (parts !! "xl/worksheets/sheet1.xml")) f) by reflexivity.
  cbv zeta. fold (decoded_part parts "xl/worksheets/sheet1.xml" : xlsxWorksheet).
  rewrite (checkRow_empty _ Hrows), bind_lift. unfold read_sheet, with_read_sheet, modify, assign, mbind, gom_bind.
  reflexivity.
Qed.

Lemma workSheetReader_new_file :
  decodes_templates -> workSheetReader "Sheet1" new_file = Ret (ok (Some "xl/worksheets/sheet1.xml"), new_file_read).
Proof. intros [_ _ _ (Hrows & _)]. by apply workSheetReader_of_parts. Qed.

Lemma new_file_shown :
  decodes_templates -> lists_sheets new_file_read (mk_sheet_list [("Sheet1", new_sheet)] 3).
Proof.
  intros [Hwb Hrels Htypes Hsheet]. eexists _, _. split; [by split|..]; rewrite ?Hwb, ?Hrels.
  - constructor; [|constructor]. split; [done|]. split; [done|]. split; [done|]. by exists new_sheet.
  - split; try by apply (bool_decide_unpack _).
    + intros v ->%list_elem_of_singleton. eexists. split; [by left|done].
    + intros v ->%list_elem_of_singleton. cbn. unfold maxInt. lia.
    + by intros v w ->%list_elem_of_singleton ->%list_elem_of_singleton.
  - change (shown_types new_file_read) with (decoded_part new_parts "[Content_Types].xml" : xlsxTypes).
    split; rewrite Htypes; [by apply (bool_decide_unpack _)|]. intros n Hn Hin.
    assert (n = 1) as ->; [|by left]. apply sheet_override_inj; [lia|unfold maxInt; lia|].
    repeat (apply elem_of_cons in Hin as [E|Hin]; [first [exact E | by cbn in E]|]). by apply elem_of_nil in Hin.
  - by vm_compute.
  - by vm_compute.
Qed.

Lemma new_sheet_represents : decodes_templates -> sheet_represents new_sheet empty_spreadsheet.
Proof.
  intros [_ _ _ (_ & Hm & Hh & Hf & Hc)]. revert Hm Hh Hf Hc. unfold new_sheet, read_sheet.
  generalize (decoded_part new_parts "xl/worksheets/sheet1.xml" : xlsxWorksheet). intros x Hm Hh Hf Hc.
  apply bare_sheet_represents; [done|..|exact Hf|].
  - unfold merge_areas. cbn. by rewrite Hm.
  - unfold sheet_links. cbn. by rewrite Hh.
  - unfold sheet_cols. cbn. by rewrite Hc.
Qed.

(** C2. From a new workbook on: [NewFile] succeeds, and once its sheet has been read,
    any sequence of operations that the abstract machine allows on a workbook with
    one empty sheet succeeds and shows what the machine says. *)
Theorem NewFile_refinement ops w' :
  range_map_ok -> deepcopy_ok -> decodes_templates -> workbook_steps (mk_sheet_list [("Sheet1", empty_spreadsheet)] 3) ops w' ->
  exists f f1 f2, NewFile = Ret f /\ workSheetReader "Sheet1" f = Ret (ok (Some "xl/worksheets/sheet1.xml"), f1) /\
    run_workbook_ops ops f1 = Ret (None, f2) /\ represents_workbook f2 w' /\
    (exists content, File_WorkBook f2 = Some content /\ xlsxSheet_Name <$> wb_sheets content = (sl_sheets w').*1) /\
    (forall name t, (name, t) ∈ sl_sheets w' -> reads_as f f2 name t).
Proof.
  intros Hr Hd Ht Hsteps.
  assert (represents_workbook new_file_read (mk_sheet_list [("Sheet1", empty_spreadsheet)] 3)) as Hw.
  { exists (mk_sheet_list [("Sheet1", new_sheet)] 3). split; [by apply new_file_shown|]. split; [|done].
    constructor; [|constructor]. split; [done|]. by apply new_sheet_represents. }
  destruct (workbook_steps_simulated new_file_read _ ops w' Hr Hd Hw Hsteps) as (f2 & E & Hw2 & Hsources).
  exists new_file, new_file_read, f2. split; [apply NewFile_new_file|]. split; [by apply workSheetReader_new_file|].
  split; [exact E|]. split; [done|]. split; [by apply workbook_lists|]. intros name t. by apply (workbook_reads new_file f2 w').
Qed.

End new_file.

(** ** Witness *)

Lemma one_sheet_represents : represents_workbook (H := example_env) (example_file gozero) (mk_sheet_list [("Sheet1", empty_spreadsheet)] 1).
Proof.
  exists example_sheet_list. split.
  - destruct example_lists_sheets as (content & rels & [Hl Hh Hc Ht Hid Hrid]). exists content, rels. split; done.
  - split; [|done]. constructor; [|constructor]. split; [done|]. destruct represents_empty as (xlsx & [_ E] & Hs).
    cbn in E. by rewrite lookup_insert_eq in E; injection E as <-.
Defined.

(** A second sheet, a text and a formula on the first one and a number on the second,
    the first one renamed, a row inserted above the text, the sheet copied over the
    second, and the copy changed: the first one keeps its text. *)
Definition example_workbook_ops : list workbook_op :=
  [SheetOp (NewOp "Data"); GridOp "Sheet1" (SetOp 2 2 (WriteStr "x")); GridOp "Sheet1" (FormulaOp 1 2 "B2");
   GridOp "Data" (SetOp 1 1 (WriteInt 7)); SheetOp (RenameOp "Sheet1" "Main"); GridOp "Main" (InsertRowOp 1);
   SheetOp (CopyOp "Main" "Data"); GridOp "Data" (SetOp 2 3 (WriteInt 8)); SheetOp RefreshOp; SheetOp (ActivateOp 2)].

Definition example_main : spreadsheet :=
  row_inserted (edited_at (written empty_spreadsheet 2 2 (WriteStr "x")) 1 2 (with_formula "B2")) 1.

Definition example_workbook_result : workbook :=
  mk_sheet_list [("Main", refreshed example_main); ("Data", refreshed (written example_main 2 3 (WriteInt 8)))] 2.

Lemma example_workbook_steps :
  workbook_steps (mk_sheet_list [("Sheet1", empty_spreadsheet)] 1) example_workbook_ops example_workbook_result.
Proof.
  econstructor; [apply step_sheet, step_new; [done|by apply (bool_decide_unpack _)|done]|].
  econstructor; [apply (step_grid []), step_set; [in_range|in_range|reflexivity]|].
  econstructor; [apply (step_grid []); eapply step_formula; [in_range|in_range|reflexivity|done|reflexivity]|].
  econstructor; [apply (step_grid [_]), step_set; [in_range|in_range|reflexivity]|].
  econstructor; [apply step_sheet, (step_rename []); [done|by apply (bool_decide_unpack _)]|].
  econstructor; [apply (step_grid []), step_insert_row; [in_range|reflexivity|constructor|constructor]|].
  econstructor; [apply step_sheet, (step_copy [_] _ _ [] _ "Main"); [by left|done|done]|].
  econstructor; [apply (step_grid [_]), step_set; [in_range|in_range|reflexivity]|].
  econstructor; [apply step_sheet, step_refresh|].
  econstructor; [apply step_sheet, step_activate|]. constructor.
Defined.

Lemma workbook_refinement_witness :
  exists f', run_workbook_ops (H := example_env) example_workbook_ops (example_file gozero) = Ret (None, f') /\
    returned (GetCellValue (H := example_env) "Main" "B3" f') = Some (ok "x") /\
    returned (GetCellValue (H := example_env) "Data" "B3" f') = Some (ok "8") /\
    returned (GetCellFormula (H := example_env) "Data" "A3" f') = Some (ok "B2").
Proof.
  destruct (@workbook_refinement example_env (example_file gozero) _ _ _ example_env_range (fun _ => eq_refl) one_sheet_represents
    example_workbook_steps) as (f' & E & _ & _ & _ & Hread).
  exists f'. split; [exact E|]. split; [|split].
  - etransitivity; [exact (@rd_value _ _ _ _ _ (Hread "Main" _ ltac:(left)) 2 3 ltac:(in_range) ltac:(in_range))|]. vm_compute. reflexivity.
  - etransitivity; [exact (@rd_value _ _ _ _ _ (Hread "Data" _ ltac:(right; left)) 2 3 ltac:(in_range) ltac:(in_range))|]. vm_compute. reflexivity.
  - exact (@rd_formula _ _ _ _ _ (Hread "Data" _ ltac:(right; left)) 1 3 "B2" ltac:(in_range) ltac:(in_range) ltac:(vm_compute; reflexivity)).
Defined.

(** A decoder that reads the templates. *)
Definition template_env : GoEnv :=
  example_env
    <| (@env_workbook) := {| xml_Unmarshal _ := set_wb_sheets [mk_xlsxSheet "Sheet1" 1 "rId1" ""] gozero; xml_Marshal _ := "" |} |>
    <| (@env_rels) := {| xml_Unmarshal _ := (gozero : xlsxWorkbookRels) <| xlsxWorkbookRels_Relationships :=
         [mk_xlsxWorkbookRelation "rId1" "worksheets/sheet1.xml" SourceRelationshipWorkSheet "";
          mk_xlsxWorkbookRelation "rId2" "styles.xml" (SourceRelationship +:+ "/styles") "";
          mk_xlsxWorkbookRelation "rId3" "theme/theme1.xml" (SourceRelationship +:+ "/theme") ""] |>; xml_Marshal _ := "" |} |>
    <| (@env_types) := {| xml_Unmarshal _ := (gozero : xlsxTypes) <| xlsxTypes_Overrides :=
         (fun p => mk_xlsxOverride p "") <$> ["/xl/theme/theme1.xml"; "/xl/styles.xml"; "/xl/workbook.xml"; "/docProps/app.xml";
            "/xl/worksheets/sheet1.xml"; "/docProps/core.xml"] |>; xml_Marshal _ := "" |} |>.

Lemma template_env_decodes : decodes_templates (H := template_env).
Proof. split; [reflexivity|reflexivity|reflexivity|]. repeat split. Defined.

Lemma template_env_range : range_map_ok (H := template_env).
Proof. intros K V D C m. done. Qed.

Lemma new_workbook_steps :
  workbook_steps (mk_sheet_list [("Sheet1", empty_spreadsheet)] 3)
    [SheetOp (NewOp "Data"); GridOp "Data" (SetOp 1 1 (WriteInt 7))]
    (mk_sheet_list [("Sheet1", empty_spreadsheet); ("Data", written empty_spreadsheet 1 1 (WriteInt 7))] 4).
Proof.
  econstructor; [apply step_sheet, step_new; [done|by apply (bool_decide_unpack _)|done]|].
  econstructor; [apply (step_grid [_]), step_set; [in_range|in_range|reflexivity]|]. constructor.
Defined.

Lemma NewFile_refinement_witness :
  exists f f1 f2, NewFile (H := template_env) = Ret f /\
    workSheetReader (H := template_env) "Sheet1" f = Ret (ok (Some "xl/worksheets/sheet1.xml"), f1) /\
    run_workbook_ops (H := template_env) [SheetOp (NewOp "Data"); GridOp "Data" (SetOp 1 1 (WriteInt 7))] f1 = Ret (None, f2) /\
    returned (GetCellValue (H := template_env) "Data" "A1" f2) = Some (ok "7").
Proof.
  destruct (@NewFile_refinement template_env _ _ template_env_range (fun _ => eq_refl) template_env_decodes new_workbook_steps)
    as (f & f1 & f2 & E & E1 & E2 & _ & _ & Hread).
  exists f, f1, f2. split; [exact E|]. split; [exact E1|]. split; [exact E2|].
  assert (f = new_file (H := template_env)) as ->.
  { pose proof (NewFile_new_file (H := template_env)) as E'. congruence. }
  etransitivity; [exact (@rd_value _ _ _ _ _ (Hread "Data" _ ltac:(right; left)) 1 1 ltac:(in_range) ltac:(in_range))|].
  vm_compute. reflexivity.
Defined.
