(* ===== verification/SavedWorkbook.v ===== *)
(** Saving and opening an abstract workbook: what the machine of WorkbookSpec says of
    the sheets is what the names show in the file that is opened from the archive
    that was written. *)
From S2P Require Export WorkbookSpec.

Section saved_cells.
Context `{GoEnv}.





(** ** The workbook *)




End saved_cells.

(** ** Witness *)










